(* ===== verification/_CoqProject ===== *)
-Q . S2P
Prelude.v
Platform.v
Workspace.v
FreeList.v
WorkspaceTheorems.v
Requirement.v
Memory.v
FloatFacts.v
FloatOrder.v
FloatError.v
Samples.v
Ranges.v
AcceptPcm.v
Scheduler.v
SchedulerTheorems.v
SampleTheorems.v
Overview.v
OverviewTable.v
OverviewMeasure.v
Quantize.v
Bytes.v
Wovr.v
WovrSpec.v
Snapshot.v
SnapshotFill.v
Publish.v
PublishTheorems.v
Lifetime.v
Process.v
ProcessTheorems.v
Coverage.v
ProcessCall.v
ProcessRepeat.v
ProcessOrder.v
ProcessOrderTheorems.v
ProcessRetry.v
Session.v
OverviewTheorems.v
WovrReader.v
WovrWriterTheorems.v
WovrReaderTheorems.v
WovrParse.v
WovrRoundTrip.v
ResultAccessors.v
Seed.v
SeedQuantize.v
SeedColumns.v
WovrTheorems.v
SnapshotTheorems.v
SessionInvariant.v
SessionFinal.v
SessionSteps.v
SeedTheorems.v
SessionTheorems.v
SessionLimits.v
SeedLimits.v
