(* ===== verification/Prelude.v ===== *)
(** * libapta-audio in Rocq

    libapta-audio analyses audio incrementally: the host opens a session on a context,
    pushes PCM in any order, calls [apta_session_process] with a work budget, asks for
    regions it wants first, reads published results (waveform overview, tempo, beat
    grid) and stores them in a binary container.  This library models the C code of
    that core and proves what makes it correct.  File names below are relative to
    [src/] of the repository, definitions keep the names of the C functions, and a
    suffix [_base] marks the function a build-time [#define] renames because a second
    layer of the same name wraps it.

    ** Conventions

    C code that can return a status or leave an object is a computation in
    [outcome]: [Ret], [Err status], or [Ub] for an access outside an object or an
    undefined conversion; "never [Ub]" is therefore a theorem about the guards of the
    code.  Functions that report a status and leave a changed state behind return the
    pair.  Fixed-width arithmetic is [Z] with [u8], [u16], [u32], [u64] and [size_t]
    written where the code converts or can wrap.  The word size and the structure
    sizes are a [Platform]; [PlatformLaws] states what the C ABIs guarantee, and
    [LP64] is the x86-64 instance the concrete examples use.  [float] and [double] are
    IEEE 754 binary32 and binary64 as [SpecFloat] computes them, without contraction
    and excess precision.  Loops are structural, or carry a fuel argument with the
    theorem that the fuel is enough.

    ** Parts

    - [Prelude], [Platform], [FloatFacts], [FloatOrder], [FloatError]: outcomes, arrays, automation;
      the C types, status codes, feature masks and limits of
      [include/apta/apta_types.h], [apta_errors.h], [apta_version.h] and
      [src/core/apta_internal.h], the version checks of [src/core/apta_memory.c];
      magnitudes, the order and the relative error of floating-point numbers.
    - [Workspace], [FreeList], [WorkspaceTheorems], [Requirement]
      ([src/core/apta_session_workspace.c]): the static workspace is an intrusive block
      list in the caller's buffer.  [FreeList] gives the abstract list of blocks and
      the representation relation; the theorems are that allocation and release
      refine it, that any history keeps live payloads apart and ends in one free
      block, that total cost alone decides whether a history succeeds, and that the
      reported requirement is enough for what it charges and, up to the limits of
      [size_t], exactly that for a track of known length.
    - [Memory] ([src/core/apta_memory.c], [apta_context.c]): the context, its byte
      counter as an interleaved step relation over threads (the counter wraps like
      [size_t], loads may be stale, any thread may release any block), and one
      allocation with its header.
    - [Samples], [SampleTheorems], [Ranges], [AcceptPcm]
      ([src/waveform/apta_waveform_input.c]): conversion of PCM to [float], the table
      of accepted ranges, one push.
    - [Scheduler], [SchedulerTheorems] ([src/core/apta_session_scheduler.c],
      [apta_scheduler_policy.c], [apta_session_detail_contract.c],
      [src/waveform/apta_waveform_scheduler.c]): region requests, focus, aging and the
      PCM the host is asked for.
    - [Overview], [OverviewTable], [OverviewMeasure], [OverviewTheorems], [Process],
      [ProcessTheorems], [Coverage], [ProcessCall], [ProcessRepeat]
      ([src/waveform/apta_waveform_process.c]): the accumulator table with its parallel
      band sums, represented by one sorted list of columns; measuring samples, against
      a reference on functions from columns to columns; the work loop.  The law of
      [ProcessTheorems] is that for every column the samples counted and the frames
      queued for it add up to the same number; [Coverage] counts the frames of a column
      that a set of ranges covers; [ProcessRepeat] says what a chunk interrupted for lack
      of memory leaves and what its repetition counts.
    - [ProcessOrder], [ProcessOrderTheorems] ([src/waveform/apta_waveform_process_detail.c]):
      the layer above the work loop: the queue is sorted, columns are reserved in a
      static workspace, requests age.
    - [Quantize], [Snapshot], [SnapshotFill], [SnapshotTheorems]
      ([src/waveform/apta_waveform_snapshot.c]): a column in
      the stored integers, and the spans of complete columns that become a result.
      The theorem is that the result is one [WovrSpec] calls valid, so that it can be
      written and read back.
    - [Publish], [PublishTheorems], [Lifetime], [ProcessRetry]
      ([src/core/apta_result_lifetime.c],
      [apta_result_pool_publication.c]): building, installing and counting a
      result inside the call, unmarking the columns of one that could not be built, the
      retry; and the reference count of the current result as steps of interleaving
      threads.
    - [Session], [SessionInvariant], [SessionFinal], [SessionSteps], [SessionTheorems],
      [SessionLimits]
      ([src/core/apta_session_lifecycle.c], [apta_session_source.c]): a session created
      by a host, the state machine with its rollback, push, end of input, process, cancellation and destruction.  An
      operation of the host is a step; the invariant of [SessionInvariant] relates the
      ranges accepted, the queue, the columns and the current result, every step keeps
      it, and a draining session reaches completion, with one final span when every frame
      was accepted.  [SessionLimits] bounds the counters of every session a host can
      reach, and shows what frames at and beyond the last column do to a session.
    - [Bytes], [Wovr], [WovrSpec], [WovrReader], [WovrWriterTheorems],
      [WovrReaderTheorems], [WovrParse], [WovrRoundTrip], [WovrTheorems]
      ([src/serialization/apta_crc32c.c], [apta_wovr_writer.c], [apta_wovr_reader.c],
      [apta_wovr_reader_hardening.c]): the container of the overview.  [WovrSpec]
      states the encoding of a content and its validity; the writer produces exactly
      that encoding, the reader is safe on arbitrary bytes and accepts only valid
      contents, writing and parsing are inverse, and four corrupted bytes in a row are
      detected.

    - [ResultAccessors] ([src/core/apta_result_accessors.c], [apta_result_lifetime.c]):
      what a host asks of a result; the state of a range means which of its frames are
      in a span.
    - [Seed], [SeedQuantize], [SeedColumns], [SeedTheorems], [SeedLimits]
      ([apta_session_seed_from_result] of [src/waveform/apta_waveform_input.c]): a session
      that has not started takes over the columns of a stored result.  [SeedQuantize]
      shows that inverting the quantisation of a column and quantising it again gives the
      stored RMS exactly and the stored peaks up to one code, [SeedTheorems] what an
      untouched session holds after seeding from any strict result, also when memory ran
      out on the way, and that it keeps the invariant of [SessionInvariant] when the
      result shows whole columns counted from frame 0, so that seeding is then one of
      the calls of a history; [SeedLimits] evaluates two histories beyond that.

    The parts meet in [Session]: a push goes through [AcceptPcm] to the ranges and the
    queue, a call of [apta_session_process] through [ProcessOrder] and [Process] to the
    columns, and [Publish] takes the columns through [Snapshot] to the current result,
    which [Wovr] writes.

    ** Parameters

    What is not code of the library is an argument: the host's allocator (its answers
    to successive requests, and the address it returns in [Memory]), the host's clock,
    [expf], the sizes of the structures, and the contents of uninitialised memory.

    ** Fuel

    [grow_capacity] doubles at most 32 times; the halving loop of a push starts at
    4096 frames and has 13 rounds; [lower_bound] has one round per cell; the work loop
    consumes a frame per round, so the number of queued frames is enough
    ([process_call_contract] states that the call returns); the block loops of the
    workspace have one round per block.

    ** Not modelled

    The tempo and beat-grid estimators ([src/tempo], [src/beatgrid]), whose heuristics
    have no specification to refine; the detail layer ([apta_waveform_detail_*.c]), and its
    replay demand; results in slots of a static
    workspace ([src/core/apta_result_pool_*.c]); pull sources and the creation of a
    session inside a caller's buffer; metadata; the
    other container sections (WDTL, TEMP, META and the beat grid); configuration
    queries and initialisers; the getters of tiles, tempo, beat grid and diagnostics;
    the WAV decoder and the POSIX port; the tools,
    bindings, examples and tests.

    The histories of [SessionTheorems] are those of a session with the overview
    features on the heap.  They exclude four things the model shows to matter: an
    allocation failure in the middle of measuring a chunk, after which samples are
    counted twice ([out_of_memory_counts_twice]); frames beyond the last column that
    can be numbered, which block the session ([far_frame_blocks_session]), and frames in
    the last one, whose result cannot be written ([last_column_unwritable]); seeding a
    session that already has columns, or from a result that does not start at frame 0 in
    whole columns ([short_column_overstated], [reseeding_repeats_ranges]), or running out
    of memory while seeding; and a queue larger than memory can hold. *)

From stdpp Require Export prelude.
From Stdlib Require Export ZArith Lia ZifyBool.
From stdpp Require Export list.
From Stdlib Require Import Bool.

Declare Scope apta_scope.
Delimit Scope apta_scope with apta.
Open Scope Z_scope.

(** ** Outcomes of C code

    A C function of the library returns a value, reports an [apta_status_t],
    or performs an access outside the object it was handed, which C leaves
    undefined.  [Ub] is that last case: the definitions return it instead of
    making a value up, so that "never [Ub]" is a theorem about the guards of
    the code. *)
Inductive outcome (E A : Type) : Type :=
| Ret (a : A)
| Err (e : E)
| Ub.
Arguments Ret {E A} _.
Arguments Err {E A} _.
Arguments Ub {E A}.

Definition obind {E A B} (m : outcome E A) (k : A -> outcome E B) : outcome E B :=
  match m with
  | Ret a => k a
  | Err e => Err e
  | Ub => Ub
  end.

Notation "'let!' x ':=' m 'in' k" := (obind m (fun x => k))
  (at level 200, x binder, m at level 100, k at level 200, right associativity) : apta_scope.
Notation "'bail' e 'when' b 'in' k" := (if b then Err e else k)
  (at level 200, e at level 9, b at level 100, k at level 200) : apta_scope.
Open Scope apta_scope.

(** No access outside an object. *)
Definition defined {E A} (m : outcome E A) : Prop := m <> Ub.

(** The value satisfies [Q] when there is one; errors are allowed, [Ub] is not. *)
Definition wp {E A} (m : outcome E A) (Q : A -> Prop) : Prop :=
  match m with
  | Ret a => Q a
  | Err _ => True
  | Ub => False
  end.

Section Outcome.
Context {E : Type}.

Lemma obind_ret {A B} (a : A) (k : A -> outcome E B) : obind (Ret a) k = k a.
Proof. reflexivity. Qed.

Lemma obind_Ret_inv {A B} (m : outcome E A) (k : A -> outcome E B) b :
  obind m k = Ret b -> exists a, m = Ret a /\ k a = Ret b.
Proof. destruct m; simpl; intros H; try discriminate. eauto. Qed.

Lemma wp_bind {A B} (m : outcome E A) (k : A -> outcome E B) Q :
  wp m (fun a => wp (k a) Q) -> wp (obind m k) Q.
Proof. destruct m; simpl; auto. Qed.

Lemma wp_mono {A} (m : outcome E A) (Q R : A -> Prop) :
  wp m Q -> (forall a, Q a -> R a) -> wp m R.
Proof. destruct m; simpl; auto. Qed.

Lemma wp_bind_mono {A B} (m : outcome E A) (k : A -> outcome E B) Q R :
  wp m Q -> (forall a, Q a -> wp (k a) R) -> wp (obind m k) R.
Proof. destruct m; simpl; auto. Qed.

Lemma wp_bail {A} e (b : bool) (m : outcome E A) Q :
  (b = false -> wp m Q) -> wp (if b then Err e else m) Q.
Proof. destruct b; simpl; auto. Qed.

Lemma wp_ret {A} (a : A) (Q : A -> Prop) : Q a -> wp (E := E) (Ret a) Q.
Proof. exact id. Qed.

Lemma wp_defined {A} (m : outcome E A) Q : wp m Q -> defined m.
Proof. destruct m; unfold defined; simpl; congruence. Qed.

Lemma wp_Ret_inv {A} (m : outcome E A) Q a : wp m Q -> m = Ret a -> Q a.
Proof. intros H ->. exact H. Qed.

Lemma bail_Ret_inv {A} e (b : bool) (m : outcome E A) a :
  (if b then Err e else m) = Ret a -> b = false /\ m = Ret a.
Proof. destruct b; intros H; [discriminate | auto]. Qed.

End Outcome.

(** ** Arrays *)

Section Arrays.
Context {E T : Type}.
Implicit Types (a l : list T) (x z : T).

(** Accesses to an array of C, [Ub] outside it. *)
Definition arr_get (a : list T) (i : nat) : outcome E T :=
  match a !! i with Some x => Ret x | None => Ub end.

Definition arr_put (a : list T) (i : nat) (x : T) : outcome E (list T) :=
  if (i <? length a)%nat then Ret (<[i := x]> a) else Ub.

Lemma arr_get_middle l1 x l2 n : length l1 = n -> arr_get (l1 ++ x :: l2) n = Ret x.
Proof. intros <-. unfold arr_get. by rewrite list_lookup_middle. Qed.

Lemma arr_put_middle l1 z x l2 n :
  length l1 = n -> arr_put (l1 ++ z :: l2) n x = Ret (l1 ++ x :: l2).
Proof.
  intros <-. unfold arr_put. rewrite length_app. simpl.
  destruct (Nat.ltb_spec (length l1) (length l1 + S (length l2))); [|lia].
  by rewrite insert_app_r_alt, Nat.sub_diag by lia.
Qed.

Lemma arr_get_app l1 a i n : i = (length l1 + n)%nat -> arr_get (l1 ++ a) i = arr_get a n.
Proof. intros ->. unfold arr_get. by rewrite lookup_app_r, Nat.add_sub' by lia. Qed.

Lemma arr_put_app l1 a i n x : i = (length l1 + n)%nat ->
  arr_put (l1 ++ a) i x = let! a := arr_put a n x in Ret (l1 ++ a).
Proof.
  intros ->. unfold arr_put. rewrite length_app.
  destruct (Nat.ltb_spec n (length a)), (Nat.ltb_spec (length l1 + n) (length l1 + length a)); try lia; [|done].
  simpl. by rewrite insert_app_r.
Qed.

Lemma arr_get_defined a i : (i < length a)%nat -> exists x, a !! i = Some x /\ arr_get a i = Ret x.
Proof.
  intros Hi. unfold arr_get. destruct (lookup_lt_is_Some_2 a i Hi) as [x Hx].
  exists x. by rewrite Hx.
Qed.

End Arrays.

(** ** Sums over a list *)

Definition sum_of {T} (f : T -> Z) (l : list T) : Z := foldr (fun x acc => f x + acc) 0 l.

Lemma sum_of_app {T} (f : T -> Z) l k : sum_of f (l ++ k) = sum_of f l + sum_of f k.
Proof. induction l; simpl; lia. Qed.

Lemma sum_of_nonneg {T} (f : T -> Z) l : Forall (fun x => 0 <= f x) l -> 0 <= sum_of f l.
Proof. induction 1; simpl; lia. Qed.

Lemma sum_of_insert {T} (f : T -> Z) l i x y : l !! i = Some x ->
  sum_of f (<[i := y]> l) = sum_of f l - f x + f y.
Proof.
  intros Hi. rewrite (insert_take_drop _ _ _ (lookup_lt_Some _ _ _ Hi)).
  rewrite <- (take_drop_middle l i x Hi) at 3. rewrite !sum_of_app. simpl. lia.
Qed.

Lemma sum_of_delete {T} (f : T -> Z) l i x : l !! i = Some x -> sum_of f (delete i l) = sum_of f l - f x.
Proof.
  intros Hi. rewrite delete_take_drop. rewrite <- (take_drop_middle l i x Hi) at 3. rewrite !sum_of_app. simpl. lia.
Qed.

Lemma sum_of_zero {T} (f : T -> Z) l : Forall (fun x => f x = 0) l -> sum_of f l = 0.
Proof. induction 1; simpl; lia. Qed.

Lemma sum_of_ge {T} (f : T -> Z) l i x : Forall (fun x => 0 <= f x) l -> l !! i = Some x -> f x <= sum_of f l.
Proof.
  intros Hl Hi. pose proof (sum_of_delete f l i x Hi). pose proof (sum_of_nonneg f (delete i l) (Forall_delete _ _ _ Hl)). lia.
Qed.

(** ** Bits *)

(** Bytes glued together by shifting and or-ing are their sum. *)
Lemma lor_shiftl a c k : 0 <= k -> 0 <= a < 2 ^ k -> Z.lor a (Z.shiftl c k) = a + c * 2 ^ k.
Proof.
  intros Hk Ha. rewrite <- Z.shiftl_mul_pow2 by lia.
  rewrite Z.add_nocarry_lxor, <- Z.lxor_lor; [done| |];
    (apply Z.bits_inj'; intros i Hi; rewrite Z.land_spec, Z.bits_0, Z.shiftl_spec by lia;
     destruct (Z.ltb_spec i k);
     [rewrite (Z.testbit_neg_r c) by lia; apply andb_false_r|
      replace (Z.testbit a i) with false; [done|];
      symmetry; rewrite <- (Z.mod_small a (2 ^ k)) by lia; by apply Z.mod_pow2_bits_high]).
Qed.

(** ** Automation *)

(** Facts about booleans in the context become facts lia understands. *)
Ltac breflect_in H :=
  rewrite ?orb_false_iff, ?andb_true_iff, ?negb_true_iff, ?negb_false_iff,
    ?Z.eqb_eq, ?Z.eqb_neq, ?Z.ltb_lt, ?Z.ltb_ge, ?Z.leb_le, ?Z.leb_gt in H.

Ltac bool_facts :=
  repeat match goal with
  | H : (_ || _)%bool = false |- _ => apply orb_false_iff in H; destruct H
  | H : (_ && _)%bool = true |- _ => apply andb_true_iff in H; destruct H
  | H : negb _ = true |- _ => apply negb_true_iff in H
  | H : negb _ = false |- _ => apply negb_false_iff in H
  | H : (_ =? _)%Z = true |- _ => apply Z.eqb_eq in H
  | H : (_ =? _)%Z = false |- _ => apply Z.eqb_neq in H
  | H : (_ <? _)%Z = true |- _ => apply Z.ltb_lt in H
  | H : (_ <? _)%Z = false |- _ => apply Z.ltb_ge in H
  | H : (_ <=? _)%Z = true |- _ => apply Z.leb_le in H
  | H : (_ <=? _)%Z = false |- _ => apply Z.leb_gt in H
  end.

(** Peel the binds and the guards of a computation known to return a value. *)
Ltac inv_ret H :=
  lazymatch type of H with
  | obind _ _ = Ret _ =>
      let a := fresh "v" in let E := fresh "E" in
      apply obind_Ret_inv in H; destruct H as (a & E & H); inv_ret H
  | (if _ then Err _ else _) = Ret _ =>
      let E := fresh "G" in
      apply bail_Ret_inv in H; destruct H as (E & H); inv_ret H
  | _ => idtac
  end.

Create HintDb apta discriminated.
#[export] Hint Resolve wp_ret : apta.
