(* ===== verification/Platform.v ===== *)
(** * The C platform and the library's shared vocabulary

    Machine-width integers, status codes, feature masks and the capacity
    constants of [apta_types.h], [apta_errors.h] and [apta_internal.h], the
    sizes of the structures the code allocates (a [Platform]), and the small
    validation helpers of [apta_memory.c] that every entry point calls. *)

From S2P Require Export Prelude.
From Stdlib Require Import Znumtheory.

(** ** Fixed-width integers *)

Notation UINT8_MAX := 255 (only parsing).
Notation UINT16_MAX := 65535 (only parsing).
Notation UINT32_MAX := 4294967295 (only parsing).
Notation UINT64_MAX := 18446744073709551615 (only parsing).

(** Conversion to an unsigned type wraps. *)
Definition u8 (z : Z) : Z := z mod 256.
Definition u16 (z : Z) : Z := z mod 65536.
Definition u32 (z : Z) : Z := z mod 4294967296.
Definition u64 (z : Z) : Z := z mod 18446744073709551616.

(** Conversion of a [uint16_t] to [int16_t] (two's complement). *)
Definition i16 (z : Z) : Z := if u16 z <? 32768 then u16 z else u16 z - 65536.

Definition is_u8 (z : Z) : Prop := 0 <= z <= UINT8_MAX.
Definition is_u16 (z : Z) : Prop := 0 <= z <= UINT16_MAX.
Definition is_i16 (z : Z) : Prop := -32768 <= z <= 32767.
Definition is_u32 (z : Z) : Prop := 0 <= z <= UINT32_MAX.
Definition is_u64 (z : Z) : Prop := 0 <= z <= UINT64_MAX.

(** [~mask] at 32 and 64 bits, and the test [(mask & bits) != 0u]. *)
Definition not32 (z : Z) : Z := Z.lxor z UINT32_MAX.
Definition not64 (z : Z) : Z := Z.lxor z UINT64_MAX.
Definition any (mask bits : Z) : bool := negb (Z.land mask bits =? 0).

(** ** Status codes (apta_errors.h) *)

Inductive apta_status_t : Type :=
| APTA_STATUS_OK
| APTA_STATUS_MORE_WORK
| APTA_STATUS_WOULD_BLOCK
| APTA_STATUS_END_OF_INPUT
| APTA_STATUS_NOT_AVAILABLE
| APTA_ERROR_INVALID_ARGUMENT
| APTA_ERROR_OUT_OF_MEMORY
| APTA_ERROR_UNSUPPORTED
| APTA_ERROR_INCOMPATIBLE_VERSION
| APTA_ERROR_SOURCE
| APTA_ERROR_CORRUPT_DATA
| APTA_ERROR_CANCELLED
| APTA_ERROR_INTERNAL
| APTA_ERROR_BUSY
| APTA_ERROR_CONFLICT
| APTA_ERROR_LIMIT_EXCEEDED
| APTA_ERROR_INVALID_STATE
| APTA_ERROR_BUFFER_TOO_SMALL
| APTA_ERROR_RESULT_SLOTS_EXHAUSTED.

#[export] Instance apta_status_eq_dec : EqDecision apta_status_t.
Proof. solve_decision. Defined.

Definition status_code (s : apta_status_t) : Z :=
  match s with
  | APTA_STATUS_OK => 0
  | APTA_STATUS_MORE_WORK => 1
  | APTA_STATUS_WOULD_BLOCK => 2
  | APTA_STATUS_END_OF_INPUT => 3
  | APTA_STATUS_NOT_AVAILABLE => 4
  | APTA_ERROR_INVALID_ARGUMENT => -1
  | APTA_ERROR_OUT_OF_MEMORY => -2
  | APTA_ERROR_UNSUPPORTED => -3
  | APTA_ERROR_INCOMPATIBLE_VERSION => -4
  | APTA_ERROR_SOURCE => -5
  | APTA_ERROR_CORRUPT_DATA => -6
  | APTA_ERROR_CANCELLED => -7
  | APTA_ERROR_INTERNAL => -8
  | APTA_ERROR_BUSY => -9
  | APTA_ERROR_CONFLICT => -10
  | APTA_ERROR_LIMIT_EXCEEDED => -11
  | APTA_ERROR_INVALID_STATE => -12
  | APTA_ERROR_BUFFER_TOO_SMALL => -13
  | APTA_ERROR_RESULT_SLOTS_EXHAUSTED => -14
  end.

(** The test [status < 0]. *)
Definition is_error (s : apta_status_t) : bool := status_code s <? 0.

(** A function that hands back a value or a status. *)
Abbreviation result := (outcome apta_status_t).

(** ** Feature masks, states and formats (apta_types.h) *)

Definition APTA_TOTAL_FRAMES_UNKNOWN : Z := UINT64_MAX.
Definition APTA_CONFIDENCE_UNKNOWN : Z := 255.

Definition APTA_FEATURE_WAVEFORM_OVERVIEW : Z := Z.shiftl 1 0.
Definition APTA_FEATURE_WAVEFORM_DETAIL : Z := Z.shiftl 1 1.
Definition APTA_FEATURE_WAVEFORM_3BAND : Z := Z.shiftl 1 2.
Definition APTA_FEATURE_BPM : Z := Z.shiftl 1 3.
Definition APTA_FEATURE_LOCAL_BEATGRID : Z := Z.shiftl 1 4.
Definition APTA_FEATURE_GLOBAL_BEATGRID : Z := Z.shiftl 1 5.
Definition APTA_FEATURE_DYNAMIC_TEMPO : Z := Z.shiftl 1 6.
Definition APTA_FEATURE_CONFIDENCE : Z := Z.shiftl 1 7.
Definition APTA_FEATURE_GRID_LOCKING : Z := Z.shiftl 1 8.

Definition APTA_SAMPLE_S16_NATIVE_INTERLEAVED : Z := 1.
Definition APTA_SAMPLE_S24_3LE_INTERLEAVED : Z := 2.
Definition APTA_SAMPLE_S32_NATIVE_INTERLEAVED : Z := 3.
Definition APTA_SAMPLE_F32_NATIVE_INTERLEAVED : Z := 4.
Definition APTA_SAMPLE_F32_NATIVE_PLANAR : Z := 5.

Definition APTA_CHANNEL_LAYOUT_UNSPECIFIED : Z := 0.
Definition APTA_CHANNEL_LAYOUT_MONO : Z := 1.
Definition APTA_CHANNEL_LAYOUT_STEREO : Z := 2.

Definition APTA_INPUT_MODE_PUSH : Z := 1.
Definition APTA_INPUT_MODE_PULL : Z := 2.

Definition APTA_SOURCE_FINGERPRINT_NONE : Z := 0.
Definition APTA_SOURCE_FINGERPRINT_APPLICATION_OPAQUE_256 : Z := 1.
Definition APTA_SOURCE_FINGERPRINT_SHA256_SOURCE_OBJECT_BYTES : Z := 2.
Definition APTA_SOURCE_FINGERPRINT_SIZE : Z := 32.

(** The session states (0..5) and the feature states (0..5). *)
Inductive apta_session_state_t : Type :=
| APTA_SESSION_CREATED
| APTA_SESSION_ACTIVE
| APTA_SESSION_DRAINING
| APTA_SESSION_COMPLETED
| APTA_SESSION_CANCELLED
| APTA_SESSION_FAILED.

#[export] Instance apta_session_state_eq_dec : EqDecision apta_session_state_t.
Proof. solve_decision. Defined.

Definition APTA_FEATURE_ABSENT : Z := 0.
Definition APTA_FEATURE_PARTIAL : Z := 1.
Definition APTA_FEATURE_PROVISIONAL : Z := 2.
Definition APTA_FEATURE_STABLE : Z := 3.
Definition APTA_FEATURE_FINAL : Z := 4.

Definition APTA_SESSION_FLAG_BOUNDED_RESULT_SLOTS : Z := Z.shiftl 1 0.
Definition APTA_SESSION_FLAG_REQUIRE_SOURCE_IDENTITY_FOR_SEEDING : Z := Z.shiftl 1 1.
Definition APTA_MEMORY_REQUIREMENTS_INCLUDE_RESULT_POOL : Z := Z.shiftl 1 0.

(** ** Geometry and capacity constants (apta_internal.h), default build *)

Definition APTA_INTERNAL_MAX_REGION_REQUESTS : Z := 16.
Definition APTA_INTERNAL_OVERVIEW_FRAMES_PER_COLUMN : Z := 1024.
Definition APTA_INTERNAL_DETAIL_FRAMES_PER_COLUMN : Z := 256.
Definition APTA_INTERNAL_DETAIL_COLUMNS_PER_TILE : Z := 64.
Definition APTA_INTERNAL_DETAIL_TILE_FRAMES : Z :=
  APTA_INTERNAL_DETAIL_FRAMES_PER_COLUMN * APTA_INTERNAL_DETAIL_COLUMNS_PER_TILE.
Definition APTA_INTERNAL_MAX_DETAIL_TILES : Z := 4.
Definition APTA_INTERNAL_MAX_PUSH_FRAMES : Z := 4096.
Definition APTA_INTERNAL_SCHEDULER_AGE_STEP : Z := 8.
Definition APTA_INTERNAL_SCHEDULER_MAX_SKIPS : Z := 32.
Definition APTA_INTERNAL_ONSET_BIN_CAPACITY : Z := 4096.
Definition APTA_INTERNAL_MAX_TEMPO_CANDIDATES : Z := 3.
Definition APTA_INTERNAL_GLOBAL_BIN_CAPACITY : Z := 16384.
Definition APTA_INTERNAL_BAND_COUNT : Z := 3.
Definition APTA_INTERNAL_GLOBAL_MAX_SEGMENTS : Z := 8.
Definition APTA_INTERNAL_GLOBAL_MAX_BEATS : Z := 3072.
Definition APTA_METADATA_MAX_TOTAL_BYTES : Z := 8192.

Definition APTA_INTERNAL_S4_FEATURES : Z :=
  Z.lor APTA_FEATURE_BPM (Z.lor APTA_FEATURE_LOCAL_BEATGRID APTA_FEATURE_GRID_LOCKING).
Definition APTA_INTERNAL_S6_FEATURES : Z :=
  Z.lor APTA_FEATURE_GLOBAL_BEATGRID APTA_FEATURE_DYNAMIC_TEMPO.

(** ** The platform: word size, structure sizes and alignments

    [size_t] is 32 or 64 bits wide and the sizes of the structures are the C
    compiler's; the code uses them through [sizeof] and [alignof] only. *)
Inductive c_type : Type :=
| T_session
| T_result
| T_session_config
| T_memory_requirements
| T_serialize_options
| T_parse_options
| T_metadata_view
| T_workspace_block
| T_allocation_header
| T_range
| T_pcm_node
| T_waveform_accumulator
| T_onset_bin
| T_s6_session_state
| T_s6_result_state
| T_result_pool_control
| T_waveform_column
| T_waveform_span
| T_packed_interval
| T_waveform_tile_view
| T_tempo_candidate
| T_frame_range
| T_grid_segment
| T_beat
| T_region_request
| T_focus
| T_pcm_request
| T_request_progress
| T_pcm_block
| T_pcm_source
| T_work_budget
| T_progress
| T_float
| T_uint32
| T_uint8.

Class Platform : Type := {
  SIZE_MAX : Z;
  MAX_ALIGNMENT_LOG : Z;
  alignof_pointer_log : Z;
  sizeof : c_type -> Z;
  alignof_log : c_type -> Z
}.

Definition alignof `{Platform} (t : c_type) : Z := 2 ^ alignof_log t.
Definition APTA_INTERNAL_MAX_ALIGNMENT `{Platform} : Z := 2 ^ MAX_ALIGNMENT_LOG.
Definition alignof_pointer `{Platform} : Z := 2 ^ alignof_pointer_log.

(** What the C standard and the supported ABIs guarantee of them. *)
Class PlatformLaws `{Platform} : Prop := {
  size_max_cases : SIZE_MAX = UINT32_MAX \/ SIZE_MAX = UINT64_MAX;
  max_alignment_range : 2 <= MAX_ALIGNMENT_LOG <= 5;
  alignof_pointer_range : 2 <= alignof_pointer_log <= MAX_ALIGNMENT_LOG;
  alignof_range : forall t, 0 <= alignof_log t <= MAX_ALIGNMENT_LOG;
  sizeof_range : forall t, 1 <= sizeof t <= 16384;
  sizeof_aligned : forall t, (2 ^ alignof_log t | sizeof t);
  block_alignment : alignof_log T_workspace_block = MAX_ALIGNMENT_LOG;
  sizeof_uint32 : sizeof T_uint32 = 4;
  sizeof_float : sizeof T_float = 4;
  sizeof_uint8 : sizeof T_uint8 = 1;
  sizeof_accumulator : 28 <= sizeof T_waveform_accumulator
}.

(** Conversion to [size_t]. *)
Definition size_t `{Platform} (z : Z) : Z := z mod (SIZE_MAX + 1).
Definition is_size `{Platform} (z : Z) : Prop := 0 <= z <= SIZE_MAX.

(** The LP64 ABI (x86-64): the sizes of public structures are those of
    abi/public-layout-lp64.txt, the others what the compiler gives for
    [apta_internal.h]. *)
Definition lp64_sizeof (t : c_type) : Z :=
  match t with
  | T_session => 11032
  | T_result => 832
  | T_session_config => 128
  | T_memory_requirements => 48
  | T_serialize_options => 64
  | T_parse_options => 72
  | T_metadata_view => 152
  | T_workspace_block => 32
  | T_allocation_header => 24
  | T_range => 16
  | T_pcm_node => 24
  | T_waveform_accumulator => 32
  | T_onset_bin => 16
  | T_s6_session_state => 2072
  | T_s6_result_state => 272
  | T_result_pool_control => 264
  | T_waveform_column => 10
  | T_waveform_span => 40
  | T_packed_interval => 16
  | T_waveform_tile_view => 80
  | T_tempo_candidate => 16
  | T_frame_range => 24
  | T_grid_segment => 104
  | T_beat => 40
  | T_region_request => 64
  | T_focus => 56
  | T_pcm_request => 56
  | T_request_progress => 80
  | T_pcm_block => 112
  | T_pcm_source => 40
  | T_work_budget => 24
  | T_progress => 40
  | T_float | T_uint32 => 4
  | T_uint8 => 1
  end.

Definition lp64_alignof_log (t : c_type) : Z :=
  match t with
  | T_workspace_block => 4
  | T_waveform_column => 1
  | T_tempo_candidate | T_onset_bin | T_work_budget
  | T_float | T_uint32 => 2
  | T_uint8 => 0
  | _ => 3
  end.

Module LP64.
#[export] Instance platform : Platform := {
  SIZE_MAX := UINT64_MAX;
  MAX_ALIGNMENT_LOG := 4;
  alignof_pointer_log := 3;
  sizeof := lp64_sizeof;
  alignof_log := lp64_alignof_log
}.

#[export] Instance laws : PlatformLaws.
Proof.
  split; simpl; try lia; intros [];
    try (simpl; lia); apply Zmod_divide; vm_compute; congruence.
Qed.
End LP64.

(** ** Validation helpers (apta_memory.c) *)

(** The version macros of apta_version.h, and the values of this release. *)
Definition APTA_API_VERSION_ENCODE (major minor patch : Z) : Z :=
  Z.lor (Z.shiftl (Z.land major 1023) 22)
    (Z.lor (Z.shiftl (Z.land minor 1023) 12) (Z.land patch 4095)).
Definition APTA_API_VERSION_GET_MAJOR (version : Z) : Z := Z.land (Z.shiftr version 22) 1023.
Definition APTA_API_VERSION_GET_MINOR (version : Z) : Z := Z.land (Z.shiftr version 12) 1023.
Definition APTA_API_VERSION_MAJOR : Z := 1.
Definition APTA_API_VERSION_MINOR : Z := 0.
Definition APTA_API_VERSION_PATCH : Z := 0.
Definition APTA_SPEC_VERSION_MAJOR : Z := 1.
Definition APTA_SPEC_VERSION_MINOR : Z := 0.
Definition APTA_API_VERSION : Z :=
  APTA_API_VERSION_ENCODE APTA_API_VERSION_MAJOR APTA_API_VERSION_MINOR APTA_API_VERSION_PATCH.

Definition apta_internal_api_version_is_compatible (api_version : Z) : bool :=
  (APTA_API_VERSION_GET_MAJOR api_version =? APTA_API_VERSION_MAJOR) &&
  (APTA_API_VERSION_GET_MINOR api_version <=? APTA_API_VERSION_MINOR).

Definition apta_internal_validate_struct (structure_is_not_null : bool)
    (minimum_size structure_size api_version : Z) : bool :=
  structure_is_not_null && (minimum_size <=? structure_size) &&
  apta_internal_api_version_is_compatible api_version.

(** Bytes of the fingerprint, as integers. *)
Definition apta_internal_source_fingerprint_is_valid
    (kind : Z) (fingerprint : option (list Z)) : bool :=
  match fingerprint with
  | None => false
  | Some fingerprint =>
      if kind =? APTA_SOURCE_FINGERPRINT_NONE
      then forallb (fun b => b =? 0) fingerprint
      else (kind =? APTA_SOURCE_FINGERPRINT_APPLICATION_OPAQUE_256) ||
           (kind =? APTA_SOURCE_FINGERPRINT_SHA256_SOURCE_OBJECT_BYTES)
  end.

Definition apta_internal_is_power_of_two (value : Z) : bool :=
  negb (value =? 0) && (Z.land value (value - 1) =? 0).

(** [apta_internal_size_array_fits] of apta_internal.h. *)
Definition apta_internal_size_array_fits `{Platform}
    (base_size element_count element_size : Z) : bool :=
  (element_size =? 0) || (element_count <=? (SIZE_MAX - base_size) / element_size).

(** ** The session configuration (apta_config.h)

    Pointers are addresses, NULL is 0.  The reserved fields are not read by
    any function modelled here. *)
Record apta_session_config_t : Type := {
  cfg_struct_size : Z;
  cfg_api_version : Z;
  cfg_input_mode : Z;
  cfg_source_sample_rate : Z;
  cfg_channel_count : Z;
  cfg_sample_format : Z;
  cfg_channel_layout : Z;
  cfg_total_frames : Z;
  cfg_requested_features : Z;
  cfg_memory_budget_bytes : Z;
  cfg_static_workspace : Z;
  cfg_static_workspace_size : Z;
  cfg_flags : Z;
  cfg_overview_frames_per_column : Z;
  cfg_source_fingerprint_kind : Z;
  cfg_source_fingerprint : list Z
}.

(** The field widths of a configuration a C program can hold. *)
Record config_in_range `{Platform} (c : apta_session_config_t) : Prop := {
  cir_total_frames : is_u64 (cfg_total_frames c);
  cir_features : is_u64 (cfg_requested_features c);
  cir_budget : is_u64 (cfg_memory_budget_bytes c);
  cir_workspace : is_size (cfg_static_workspace c);
  cir_workspace_size : is_size (cfg_static_workspace_size c);
  cir_fpc : is_u32 (cfg_overview_frames_per_column c);
  cir_flags : is_u32 (cfg_flags c)
}.

Definition apta_internal_source_identity_is_valid (config : option apta_session_config_t) : bool :=
  match config with
  | None => false
  | Some c => apta_internal_source_fingerprint_is_valid
                (cfg_source_fingerprint_kind c) (Some (cfg_source_fingerprint c))
  end.

(** ** Lemmas *)

Ltac widths := unfold is_u8, is_u16, is_i16, is_u32, is_u64 in *.

Lemma u8_range z : is_u8 (u8 z).
Proof. unfold u8; widths. pose proof (Z.mod_pos_bound z 256). lia. Qed.
Lemma u16_range z : is_u16 (u16 z).
Proof. unfold u16; widths. pose proof (Z.mod_pos_bound z 65536). lia. Qed.
Lemma u32_range z : is_u32 (u32 z).
Proof. unfold u32; widths. pose proof (Z.mod_pos_bound z 4294967296). lia. Qed.
Lemma u64_range z : is_u64 (u64 z).
Proof. unfold u64; widths. pose proof (Z.mod_pos_bound z 18446744073709551616). lia. Qed.

Lemma u8_small z : is_u8 z -> u8 z = z.
Proof. widths; intros; apply Z.mod_small; lia. Qed.
Lemma u16_small z : is_u16 z -> u16 z = z.
Proof. widths; intros; apply Z.mod_small; lia. Qed.
Lemma u32_small z : is_u32 z -> u32 z = z.
Proof. widths; intros; apply Z.mod_small; lia. Qed.
Lemma u64_small z : is_u64 z -> u64 z = z.
Proof. widths; intros; apply Z.mod_small; lia. Qed.

Lemma i16_of_u16 z : is_i16 z -> i16 (u16 z) = z.
Proof.
  unfold i16; widths; intros Hz. rewrite (u16_small (u16 z)) by apply u16_range.
  unfold u16. destruct (Z.ltb_spec (z mod 65536) 32768) as [H|H].
  - destruct (Z_lt_dec z 0).
    + rewrite <- (Z.mod_add z 1 65536), Z.mod_small in H by lia. lia.
    + apply Z.mod_small; lia.
  - destruct (Z_lt_dec z 0).
    + rewrite <- (Z.mod_add z 1 65536), Z.mod_small by lia. lia.
    + rewrite Z.mod_small in H by lia. lia.
Qed.

Section PlatformFacts.
Context `{PlatformLaws}.

Lemma size_max_bounds : UINT32_MAX <= SIZE_MAX <= UINT64_MAX.
Proof. destruct size_max_cases as [-> | ->]; lia. Qed.

Lemma size_t_small z : is_size z -> size_t z = z.
Proof. unfold is_size, size_t; intros; apply Z.mod_small; lia. Qed.

Lemma max_alignment_bounds : 4 <= APTA_INTERNAL_MAX_ALIGNMENT <= 32.
Proof.
  unfold APTA_INTERNAL_MAX_ALIGNMENT. pose proof max_alignment_range. split.
  - change 4 with (2 ^ 2). apply Z.pow_le_mono_r; lia.
  - change 32 with (2 ^ 5). apply Z.pow_le_mono_r; lia.
Qed.

End PlatformFacts.

(** A power of two has one bit. *)
Lemma land_pow2_pred k : 0 <= k -> Z.land (2 ^ k) (2 ^ k - 1) = 0.
Proof.
  intros Hk. replace (2 ^ k - 1) with (Z.ones k) by (rewrite Z.ones_equiv; lia).
  rewrite Z.land_ones, Z.mod_same by (try apply Z.pow_nonzero; lia). reflexivity.
Qed.

Lemma is_power_of_two_pow k : 0 <= k -> apta_internal_is_power_of_two (2 ^ k) = true.
Proof.
  intros Hk. unfold apta_internal_is_power_of_two.
  pose proof (Z.pow_pos_nonneg 2 k ltac:(lia) Hk).
  rewrite land_pow2_pred by done.
  apply andb_true_iff; split; [apply negb_true_iff, Z.eqb_neq; lia | reflexivity].
Qed.

(** The bit test only accepts powers of two: the top bit of [v - 1] would
    otherwise survive in [v]. *)
Lemma is_power_of_two_inv v :
  0 <= v -> apta_internal_is_power_of_two v = true -> v = 2 ^ Z.log2 v.
Proof.
  unfold apta_internal_is_power_of_two. intros Hv Hp. bool_facts.
  assert (Hpos : 0 < v) by lia.
  destruct (Z.log2_spec v Hpos) as [Hlo Hhi].
  destruct (Z.eq_dec v (2 ^ Z.log2 v)) as [|Hne]; [assumption | exfalso].
  assert (Hb1 : Z.testbit v (Z.log2 v) = true) by (apply Z.bit_log2; lia).
  assert (Hl : Z.log2 (v - 1) = Z.log2 v).
  { apply Z.log2_unique; [apply Z.log2_nonneg | rewrite Z.pow_succ_r in Hhi |- * by apply Z.log2_nonneg; lia]. }
  assert (Hb2 : Z.testbit (v - 1) (Z.log2 v) = true).
  { rewrite <- Hl. apply Z.bit_log2.
    pose proof (Z.pow_pos_nonneg 2 (Z.log2 v) ltac:(lia) (Z.log2_nonneg v)). lia. }
  assert (Hb : Z.testbit (Z.land v (v - 1)) (Z.log2 v) = true)
    by (rewrite Z.land_spec, Hb1, Hb2; reflexivity).
  rewrite H0, Z.bits_0 in Hb. discriminate.
Qed.

Lemma any_false mask bits : any mask bits = false <-> Z.land mask bits = 0.
Proof. unfold any. rewrite negb_false_iff, Z.eqb_eq. reflexivity. Qed.

Lemma any_true mask bits : any mask bits = true <-> Z.land mask bits <> 0.
Proof. unfold any. rewrite negb_true_iff, Z.eqb_neq. reflexivity. Qed.

(** Testing a one-bit mask is reading that bit. *)
Lemma any_bit mask i : 0 <= i -> any mask (Z.shiftl 1 i) = Z.testbit mask i.
Proof.
  intros Hi. rewrite Z.shiftl_1_l. destruct (Z.testbit mask i) eqn:E.
  - apply any_true. intros H0. apply (f_equal (fun z => Z.testbit z i)) in H0.
    rewrite Z.land_spec, E, Z.pow2_bits_true, Z.bits_0 in H0 by lia. discriminate.
  - apply any_false, Z.bits_inj'. intros n Hn.
    rewrite Z.land_spec, Z.bits_0, Z.pow2_bits_eqb by lia.
    destruct (Z.eqb_spec i n) as [<-|]; [rewrite E | rewrite andb_false_r]; reflexivity.
Qed.

Lemma any_lor mask a b : any mask (Z.lor a b) = any mask a || any mask b.
Proof.
  apply eq_true_iff_eq. rewrite orb_true_iff, !any_true, Z.land_lor_distr_r, Z.lor_eq_0_iff.
  destruct (Z.eq_dec (Z.land mask a) 0); tauto.
Qed.

(** Masking with [~(2^k - 1)] at width [w] rounds down to a multiple of [2^k]. *)
Lemma land_align_mask x k w :
  0 <= k <= w -> 0 <= x < 2 ^ w ->
  Z.land x (Z.lxor (2 ^ k - 1) (2 ^ w - 1)) = x / 2 ^ k * 2 ^ k.
Proof.
  intros Hk Hx.
  rewrite <- Z.shiftr_div_pow2, <- Z.shiftl_mul_pow2 by lia.
  replace (2 ^ k - 1) with (Z.ones k) by (rewrite Z.ones_equiv; lia).
  replace (2 ^ w - 1) with (Z.ones w) by (rewrite Z.ones_equiv; lia).
  apply Z.bits_inj'. intros n Hn.
  rewrite Z.land_spec, Z.lxor_spec, Z.shiftl_spec, !Z.testbit_ones_nonneg by lia.
  destruct (Z.ltb_spec n k); destruct (Z.ltb_spec n w); try lia; simpl.
  - rewrite andb_false_r, Z.testbit_neg_r by lia. reflexivity.
  - rewrite Z.shiftr_spec, Z.sub_add, andb_true_r by lia. reflexivity.
  - rewrite Z.shiftr_spec, Z.sub_add, andb_false_r by lia.
    symmetry. destruct (Z.eq_dec x 0) as [->|]; [apply Z.bits_0|].
    apply Z.bits_above_log2; [lia|]. pose proof (Z.log2_lt_pow2 x w). lia.
Qed.

Lemma size_max_pow2 `{PlatformLaws} : exists w, 32 <= w <= 64 /\ SIZE_MAX = 2 ^ w - 1.
Proof. destruct size_max_cases as [-> | ->]; [exists 32 | exists 64]; split; lia || reflexivity. Qed.
