(* ===== verification/Workspace.v ===== *)
(** * The static workspace allocator (core/apta_session_workspace.c)

    A session created over a caller's buffer places [apta_session_t] at its
    start and serves every later allocation from the rest: an intrusive,
    address-ordered list of blocks, first fit, split on allocation, coalesced
    on release.  The headers live in the buffer; they are modelled as a store
    from addresses to headers that the code walks through its [next]
    pointers. *)

From stdpp Require Import gmap.
From S2P Require Import Prelude Platform.

Section Workspace.
Context `{Platform}.

(** ** The allocator's data *)

Record ws_block : Type := {
  blk_next : Z;
  blk_capacity : Z;
  blk_requested_size : Z;
  blk_free : Z
}.

Record allocation_header : Type := {
  hdr_raw_memory : Z;
  hdr_allocated_size : Z;
  hdr_requested_size : Z
}.

(** [ws_session] is the address of the session, which is the address of the
    buffer; [ws_size] is [config.static_workspace_size]. *)
Record workspace : Type := {
  ws_session : Z;
  ws_size : Z;
  ws_blocks : gmap Z ws_block;
  ws_headers : gmap Z allocation_header
}.

(** A loop over the block list that did not end. *)
Inductive loop_fault : Type := out_of_fuel.

(** ** Block geometry *)

Definition apta_workspace_align_up (value alignment : Z) : Z :=
  if SIZE_MAX - (alignment - 1) <? value then SIZE_MAX
  else Z.land (value + alignment - 1) (Z.lxor (alignment - 1) SIZE_MAX).

Definition apta_workspace_payload_prefix_size : Z :=
  let payload_offset :=
    apta_workspace_align_up (sizeof T_workspace_block + sizeof T_allocation_header)
      APTA_INTERNAL_MAX_ALIGNMENT in
  if payload_offset =? SIZE_MAX then SIZE_MAX
  else payload_offset - sizeof T_workspace_block.

Definition apta_workspace_block_payload (block : Z) : Z :=
  let prefix_size := apta_workspace_payload_prefix_size in
  if (block =? 0) || (prefix_size =? SIZE_MAX) then 0
  else block + sizeof T_workspace_block + prefix_size.

Definition apta_workspace_first_block (static_workspace : Z) : Z :=
  let offset := apta_workspace_align_up (sizeof T_session) APTA_INTERNAL_MAX_ALIGNMENT in
  if offset =? SIZE_MAX then 0 else static_workspace + offset.

Definition apta_internal_session_workspace_minimum_size : Z :=
  let offset := apta_workspace_align_up (sizeof T_session) APTA_INTERNAL_MAX_ALIGNMENT in
  let prefix_size := apta_workspace_payload_prefix_size in
  if (offset =? SIZE_MAX) || (prefix_size =? SIZE_MAX) ||
     (SIZE_MAX - sizeof T_workspace_block - prefix_size - APTA_INTERNAL_MAX_ALIGNMENT <? offset)
  then SIZE_MAX
  else offset + sizeof T_workspace_block + prefix_size + APTA_INTERNAL_MAX_ALIGNMENT.

(** ** The requirement a configuration places on the buffer *)

Definition apta_workspace_allocation_cost (size : Z) : Z :=
  let size := if size =? 0 then 1 else size in
  let padded := apta_workspace_align_up size APTA_INTERNAL_MAX_ALIGNMENT in
  let prefix := apta_workspace_payload_prefix_size in
  if (padded =? SIZE_MAX) || (prefix =? SIZE_MAX) then SIZE_MAX
  else size_t (sizeof T_workspace_block + prefix + padded).

Definition apta_workspace_add (total addend : Z) : Z :=
  if (total =? SIZE_MAX) || (addend =? SIZE_MAX) || (SIZE_MAX - addend <? total)
  then SIZE_MAX else total + addend.

(** The doubling loop of [apta_workspace_growable_cost]; every round doubles
    [capacity], which a 32-bit guard bounds, so 64 rounds are enough. *)
Fixpoint growable_loop (fuel : nat) (needed_entries entry_size capacity cost : Z) : option Z :=
  match fuel with
  | O => None
  | S fuel =>
      if SIZE_MAX / entry_size <? capacity then Some SIZE_MAX
      else
        let cost := apta_workspace_add cost
                      (apta_workspace_allocation_cost (size_t (capacity * entry_size))) in
        if (cost =? SIZE_MAX) || (needed_entries <=? capacity) then Some cost
        else if UINT32_MAX / 2 <? capacity then Some SIZE_MAX
        else growable_loop fuel needed_entries entry_size (u64 (capacity * 2)) cost
  end.

Definition apta_workspace_growable_cost (needed_entries entry_size initial_capacity : Z) : Z :=
  if needed_entries =? 0 then 0
  else default SIZE_MAX (growable_loop 64 needed_entries entry_size initial_capacity 0).

(** The overview columns the requirement charges, computed in [uint64_t]. *)
Definition requirement_overview_columns (config : apta_session_config_t) : Z :=
  let frames_per_column :=
    if negb (cfg_overview_frames_per_column config =? 0)
    then cfg_overview_frames_per_column config
    else APTA_INTERNAL_OVERVIEW_FRAMES_PER_COLUMN in
  if negb (cfg_total_frames config =? 0)
  then u64 (u64 (cfg_total_frames config + frames_per_column) - 1) / frames_per_column
  else 0.

Definition apta_internal_session_workspace_requirement (config : apta_session_config_t) : Z :=
  let features := cfg_requested_features config in
  let overview_columns := requirement_overview_columns config in
  let charge_if (c : bool) (cost total : Z) : Z :=
    if c then apta_workspace_add total cost else total in
  let total := apta_workspace_align_up (sizeof T_session) APTA_INTERNAL_MAX_ALIGNMENT in
  if total =? SIZE_MAX then SIZE_MAX
  else
    let total := apta_workspace_add total
      (apta_workspace_growable_cost overview_columns (sizeof T_waveform_accumulator) 16) in
    let total := charge_if (any features APTA_FEATURE_WAVEFORM_3BAND)
      (apta_workspace_growable_cost overview_columns
         (APTA_INTERNAL_BAND_COUNT * sizeof T_uint32) 16) total in
    let total := apta_workspace_add total
      (apta_workspace_growable_cost APTA_INTERNAL_MAX_REGION_REQUESTS (sizeof T_range) 8) in
    let total := apta_workspace_add total
      (apta_workspace_allocation_cost
         (sizeof T_pcm_node + APTA_INTERNAL_MAX_PUSH_FRAMES * sizeof T_float)) in
    let total := charge_if (any features APTA_FEATURE_WAVEFORM_DETAIL)
      (apta_workspace_allocation_cost
         (APTA_INTERNAL_MAX_DETAIL_TILES * APTA_INTERNAL_DETAIL_COLUMNS_PER_TILE *
          sizeof T_waveform_accumulator)) total in
    let s4 := any features APTA_INTERNAL_S4_FEATURES in
    let total := charge_if s4
      (apta_workspace_allocation_cost
         (APTA_INTERNAL_ONSET_BIN_CAPACITY * sizeof T_onset_bin)) total in
    let total := charge_if s4
      (apta_workspace_allocation_cost
         (APTA_INTERNAL_ONSET_BIN_CAPACITY * sizeof T_float)) total in
    let s6 := any features APTA_INTERNAL_S6_FEATURES in
    let total := charge_if s6
      (apta_workspace_allocation_cost (sizeof T_s6_session_state)) total in
    let total := charge_if s6
      (apta_workspace_allocation_cost
         (APTA_INTERNAL_GLOBAL_BIN_CAPACITY * sizeof T_onset_bin)) total in
    let total := charge_if s6
      (apta_workspace_allocation_cost
         (APTA_INTERNAL_GLOBAL_BIN_CAPACITY * sizeof T_float)) total in
    let total := charge_if s6
      (apta_workspace_allocation_cost
         (APTA_INTERNAL_GLOBAL_MAX_BEATS * sizeof T_beat)) total in
    let total := apta_workspace_add total
      (apta_workspace_allocation_cost APTA_METADATA_MAX_TOTAL_BYTES) in
    apta_workspace_add total (sizeof T_workspace_block + APTA_INTERNAL_MAX_ALIGNMENT).

(** ** Operations *)

Definition apta_internal_session_uses_workspace (session static_workspace : Z) : bool :=
  negb (session =? 0) && negb (static_workspace =? 0) && (static_workspace =? session).

(** [session] is the address of the session and [static_workspace],
    [static_workspace_size] the fields of its configuration. *)
Definition apta_internal_session_workspace_initialize
    (session static_workspace static_workspace_size : Z) : result workspace :=
  bail APTA_ERROR_INVALID_ARGUMENT when
    (session =? 0) ||
    negb (apta_internal_session_uses_workspace session static_workspace) in
  let minimum_size := apta_internal_session_workspace_minimum_size in
  bail APTA_ERROR_OUT_OF_MEMORY when
    (minimum_size =? SIZE_MAX) || (static_workspace_size <? minimum_size) in
  bail APTA_ERROR_INVALID_ARGUMENT when
    negb (Z.land static_workspace (APTA_INTERNAL_MAX_ALIGNMENT - 1) =? 0) in
  let offset := apta_workspace_align_up (sizeof T_session) APTA_INTERNAL_MAX_ALIGNMENT in
  let block := apta_workspace_first_block static_workspace in
  bail APTA_ERROR_LIMIT_EXCEEDED when (block =? 0) in
  Ret {| ws_session := session;
         ws_size := static_workspace_size;
         ws_blocks :=
           {[ block := {| blk_next := 0;
                          blk_capacity := static_workspace_size - offset -
                                          sizeof T_workspace_block;
                          blk_requested_size := 0;
                          blk_free := 1 |} ]};
         ws_headers := ∅ |}.

(** Carve [required] bytes out of the free block at [block] and hand it out. *)
Definition take_block (ws : workspace) (block : Z) (b : ws_block)
    (required prefix_size size : Z) : workspace * Z :=
  let remaining := blk_capacity b - required in
  let split := sizeof T_workspace_block + prefix_size + APTA_INTERNAL_MAX_ALIGNMENT <=? remaining in
  let next_address := block + sizeof T_workspace_block + required in
  let blocks :=
    if split
    then <[next_address := {| blk_next := blk_next b;
                              blk_capacity := remaining - sizeof T_workspace_block;
                              blk_requested_size := 0;
                              blk_free := 1 |}]> (ws_blocks ws)
    else ws_blocks ws in
  let taken (free requested_size : Z) :=
    {| blk_next := if split then next_address else blk_next b;
       blk_capacity := if split then required else blk_capacity b;
       blk_requested_size := requested_size;
       blk_free := free |} in
  let payload := apta_workspace_block_payload block in
  if payload =? 0
  then ({| ws_session := ws_session ws; ws_size := ws_size ws;
           ws_blocks := <[block := taken 1 0]> blocks;
           ws_headers := ws_headers ws |}, 0)
  else ({| ws_session := ws_session ws; ws_size := ws_size ws;
           ws_blocks := <[block := taken 0 size]> blocks;
           ws_headers :=
             <[payload - sizeof T_allocation_header :=
                 {| hdr_raw_memory := ws_session ws;
                    hdr_allocated_size := 0;
                    hdr_requested_size := size |}]> (ws_headers ws) |}, payload).

Fixpoint allocate_loop (fuel : nat) (ws : workspace) (required prefix_size size block : Z)
  : outcome loop_fault (workspace * Z) :=
  if block =? 0 then Ret (ws, 0)
  else match fuel with
  | O => Err out_of_fuel
  | S fuel =>
      match ws_blocks ws !! block with
      | None => Ub
      | Some b =>
          if (blk_free b =? 0) || (blk_capacity b <? required)
          then allocate_loop fuel ws required prefix_size size (blk_next b)
          else Ret (take_block ws block b required prefix_size size)
      end
  end.

(** The fuel of a walk: one step per header in the buffer. *)
Definition walk_fuel (ws : workspace) : nat := S (size (ws_blocks ws)).

(** The workspace branch of [apta_internal_session_allocate]; the result is
    the payload's address, 0 for NULL. *)
Definition apta_internal_session_allocate_workspace (ws : workspace) (size alignment : Z)
  : outcome loop_fault (workspace * Z) :=
  let size := if size =? 0 then 1 else size in
  let alignment := if alignment <? alignof_pointer then alignof_pointer else alignment in
  if negb (apta_internal_is_power_of_two alignment) ||
     (APTA_INTERNAL_MAX_ALIGNMENT <? alignment)
  then Ret (ws, 0)
  else
    let padded_size := apta_workspace_align_up size APTA_INTERNAL_MAX_ALIGNMENT in
    let prefix_size := apta_workspace_payload_prefix_size in
    if (padded_size =? SIZE_MAX) || (prefix_size =? SIZE_MAX) ||
       (SIZE_MAX - padded_size <? prefix_size)
    then Ret (ws, 0)
    else
      let required := prefix_size + padded_size in
      allocate_loop (walk_fuel ws) ws required prefix_size size
        (apta_workspace_first_block (ws_session ws)).

(** The walk of [apta_internal_session_deallocate]: the block whose payload is
    [memory] and the block before it (0 when there is none). *)
Fixpoint find_payload_loop (fuel : nat) (ws : workspace) (memory previous block : Z)
  : outcome loop_fault (Z * Z) :=
  if block =? 0 then Ret (0, previous)
  else match fuel with
  | O => Err out_of_fuel
  | S fuel =>
      match ws_blocks ws !! block with
      | None => Ub
      | Some b =>
          if apta_workspace_block_payload block =? memory then Ret (block, previous)
          else find_payload_loop fuel ws memory block (blk_next b)
      end
  end.

Definition set_blocks (ws : workspace) (m : gmap Z ws_block) : workspace :=
  {| ws_session := ws_session ws; ws_size := ws_size ws;
     ws_blocks := m; ws_headers := ws_headers ws |}.

Definition lookup_block {E} (m : gmap Z ws_block) (a : Z) : outcome E ws_block :=
  match m !! a with Some b => Ret b | None => Ub end.

(** The workspace branch of [apta_internal_session_deallocate]. *)
Definition apta_internal_session_deallocate_workspace (ws : workspace) (memory : Z)
  : outcome loop_fault workspace :=
  if memory =? 0 then Ret ws
  else
    let! found := find_payload_loop (walk_fuel ws) ws memory 0
                    (apta_workspace_first_block (ws_session ws)) in
    let '(block, previous) := found in
    if block =? 0 then Ret ws
    else
      let! b := lookup_block (ws_blocks ws) block in
      if negb (blk_free b =? 0) then Ret ws
      else
        let b := {| blk_next := blk_next b; blk_capacity := blk_capacity b;
                    blk_requested_size := 0; blk_free := 1 |} in
        let! b :=
          (if negb (blk_next b =? 0)
           then
             let! next := lookup_block (ws_blocks ws) (blk_next b) in
             Ret (if negb (blk_free next =? 0)
                  then {| blk_next := blk_next next;
                          blk_capacity := blk_capacity b +
                            (sizeof T_workspace_block + blk_capacity next);
                          blk_requested_size := 0; blk_free := 1 |}
                  else b)
           else Ret b) in
        let blocks := <[block := b]> (ws_blocks ws) in
        if negb (previous =? 0)
        then
          let! p := lookup_block blocks previous in
          Ret (set_blocks ws
            (if negb (blk_free p =? 0)
             then <[previous := {| blk_next := blk_next b;
                                   blk_capacity := blk_capacity p +
                                     (sizeof T_workspace_block + blk_capacity b);
                                   blk_requested_size := blk_requested_size p;
                                   blk_free := blk_free p |}]> blocks
             else blocks))
        else Ret (set_blocks ws blocks).

End Workspace.
