(* ===== verification/FreeList.v ===== *)
(** * Correctness of the static workspace allocator

    The abstract allocator is a sequence of adjacent blocks; the concrete one
    (Workspace.v) keeps that sequence as linked headers in the buffer.  This
    file relates the two and proves what a session relies on: payloads inside
    the buffer, aligned and disjoint; a release undoes exactly one allocation;
    releasing everything gives the whole buffer back. *)

From stdpp Require Import gmap.
From Stdlib Require Import Sorting.Sorted.
From S2P Require Import Prelude Platform Workspace.

(** ** Geometry facts *)

Section Geometry.
Context `{PlatformLaws}.

Notation A := APTA_INTERNAL_MAX_ALIGNMENT.
Notation HDR := (sizeof T_workspace_block).
Notation PFX := apta_workspace_payload_prefix_size.

Lemma align_up_spec v k :
  0 <= k <= 5 -> 0 <= v <= SIZE_MAX - (2 ^ k - 1) ->
  apta_workspace_align_up v (2 ^ k) = (v + (2 ^ k - 1)) / 2 ^ k * 2 ^ k.
Proof.
  intros Hk Hv. unfold apta_workspace_align_up.
  destruct (Z.ltb_spec (SIZE_MAX - (2 ^ k - 1)) v); [lia|].
  destruct size_max_pow2 as (w & Hw & Hs). rewrite Hs in *.
  replace (v + 2 ^ k - 1) with (v + (2 ^ k - 1)) by lia.
  assert (0 < 2 ^ k) by (apply Z.pow_pos_nonneg; lia).
  apply land_align_mask; lia.
Qed.

Lemma align_up_bounds v k :
  0 <= k <= 5 -> 0 <= v <= SIZE_MAX - (2 ^ k - 1) ->
  v <= apta_workspace_align_up v (2 ^ k) < v + 2 ^ k /\
  (2 ^ k | apta_workspace_align_up v (2 ^ k)).
Proof.
  intros Hk Hv. rewrite align_up_spec by assumption.
  assert (Hp : 0 < 2 ^ k) by (apply Z.pow_pos_nonneg; lia).
  split; [|exists ((v + (2 ^ k - 1)) / 2 ^ k); reflexivity].
  pose proof (Z.div_mod (v + (2 ^ k - 1)) (2 ^ k) ltac:(lia)).
  pose proof (Z.mod_pos_bound (v + (2 ^ k - 1)) (2 ^ k) Hp). lia.
Qed.

Lemma align_up_max v :
  0 <= v <= SIZE_MAX - (A - 1) ->
  v <= apta_workspace_align_up v A < v + A /\ (A | apta_workspace_align_up v A).
Proof.
  intros Hv. pose proof max_alignment_range.
  apply align_up_bounds; [lia|]. fold A. lia.
Qed.

Lemma header_aligned : (A | HDR).
Proof. rewrite <- (sizeof_aligned T_workspace_block), block_alignment. reflexivity. Qed.

Lemma align_up_saturates v k :
  0 <= k <= 5 -> 0 <= v <= SIZE_MAX ->
  apta_workspace_align_up v (2 ^ k) = SIZE_MAX \/
  v <= apta_workspace_align_up v (2 ^ k) < v + 2 ^ k.
Proof.
  intros Hk Hv. destruct (Z_le_dec v (SIZE_MAX - (2 ^ k - 1))).
  - right. apply align_up_bounds; lia.
  - left. unfold apta_workspace_align_up.
    destruct (Z.ltb_spec (SIZE_MAX - (2 ^ k - 1)) v); [reflexivity | lia].
Qed.

Lemma prefix_facts :
  sizeof T_allocation_header <= PFX < sizeof T_allocation_header + A /\ (A | PFX).
Proof.
  pose proof (sizeof_range T_workspace_block). pose proof (sizeof_range T_allocation_header).
  pose proof size_max_bounds. pose proof max_alignment_bounds.
  unfold apta_workspace_payload_prefix_size.
  destruct (align_up_max (HDR + sizeof T_allocation_header)) as [Hb Hd]; [lia|].
  destruct (Z.eqb_spec (apta_workspace_align_up (HDR + sizeof T_allocation_header) A) SIZE_MAX);
    [lia|].
  split; [lia|]. apply Z.divide_sub_r; [assumption | apply header_aligned].
Qed.

Lemma offset_facts :
  sizeof T_session <= apta_workspace_align_up (sizeof T_session) A < sizeof T_session + A /\
  (A | apta_workspace_align_up (sizeof T_session) A).
Proof.
  pose proof (sizeof_range T_session). pose proof size_max_bounds.
  pose proof max_alignment_bounds. apply align_up_max. lia.
Qed.

(** The platform's quantities, packed for lia. *)
Lemma geometry :
  4 <= A <= 32 /\ 1 <= HDR <= 65536 /\
  1 <= sizeof T_allocation_header <= PFX /\ PFX < 65536 + 32 /\
  UINT32_MAX <= SIZE_MAX <= UINT64_MAX.
Proof.
  pose proof (sizeof_range T_workspace_block). pose proof (sizeof_range T_allocation_header).
  pose proof prefix_facts. pose proof size_max_bounds. pose proof max_alignment_bounds. lia.
Qed.

Lemma first_block_eq base :
  apta_workspace_first_block base = base + apta_workspace_align_up (sizeof T_session) A.
Proof.
  unfold apta_workspace_first_block. pose proof offset_facts. pose proof geometry.
  pose proof (sizeof_range T_session).
  destruct (Z.eqb_spec (apta_workspace_align_up (sizeof T_session) A) SIZE_MAX); lia.
Qed.

Lemma block_payload_eq block :
  0 < block -> apta_workspace_block_payload block = block + HDR + PFX.
Proof.
  intros Hb. unfold apta_workspace_block_payload. pose proof geometry.
  destruct (Z.eqb_spec block 0); [lia|]. destruct (Z.eqb_spec PFX SIZE_MAX); [lia|].
  reflexivity.
Qed.

End Geometry.

(** ** The abstract allocator

    The contract: a non-empty sequence of adjacent blocks, first fit. *)

Record ablock : Type := { ab_capacity : Z; ab_requested : Z; ab_free : bool }.

Section Spec.
Context `{Platform}.

Notation A := APTA_INTERNAL_MAX_ALIGNMENT.
Notation HDR := (sizeof T_workspace_block).
Notation PFX := apta_workspace_payload_prefix_size.

Definition extent1 (b : ablock) : Z := HDR + ab_capacity b.

Fixpoint extent (l : list ablock) : Z :=
  match l with [] => 0 | b :: l => extent1 b + extent l end.

(** The first free block that is large enough, with what is around it. *)
Fixpoint first_fit (required : Z) (l : list ablock)
  : option (list ablock * ablock * list ablock) :=
  match l with
  | [] => None
  | b :: l' =>
      if ab_free b && (required <=? ab_capacity b) then Some ([], b, l')
      else match first_fit required l' with
           | Some (l1, c, l2) => Some (b :: l1, c, l2)
           | None => None
           end
  end.

(** What the chosen block becomes: itself, or a block of exactly the required
    capacity followed by a free remainder. *)
Definition carve (required size : Z) (b : ablock) : list ablock :=
  let remaining := ab_capacity b - required in
  if HDR + PFX + A <=? remaining
  then [ {| ab_capacity := required; ab_requested := size; ab_free := false |};
         {| ab_capacity := remaining - HDR; ab_requested := 0; ab_free := true |} ]
  else [ {| ab_capacity := ab_capacity b; ab_requested := size; ab_free := false |} ].

Definition required_bytes (size : Z) : Z := PFX + apta_workspace_align_up size A.

Definition allocate_spec (base size : Z) (l : list ablock) : list ablock * Z :=
  match first_fit (required_bytes size) l with
  | None => (l, 0)
  | Some (l1, b, l2) =>
      (l1 ++ carve (required_bytes size) size b ++ l2, base + extent l1 + HDR + PFX)
  end.

Definition release1 (b : ablock) : ablock :=
  {| ab_capacity := ab_capacity b; ab_requested := 0; ab_free := true |}.

Definition merge (b c : ablock) : ablock :=
  {| ab_capacity := ab_capacity b + (HDR + ab_capacity c);
     ab_requested := ab_requested b; ab_free := ab_free b |}.

(** Merge a just-released block with a free successor. *)
Definition merge_next (b : ablock) (l : list ablock) : list ablock :=
  match l with
  | c :: l' => if ab_free c then merge b c :: l' else b :: l
  | [] => [b]
  end.

(** The block whose payload is at [memory]; [base] is the address of the first
    block of the list. *)
Fixpoint locate (base memory : Z) (l : list ablock)
  : option (list ablock * ablock * list ablock) :=
  match l with
  | [] => None
  | b :: l' =>
      if base + HDR + PFX =? memory then Some ([], b, l')
      else match locate (base + extent1 b) memory l' with
           | Some (l1, c, l2) => Some (b :: l1, c, l2)
           | None => None
           end
  end.

(** Merge the head of [r], a free block, with a free predecessor. *)
Fixpoint merge_prev (l1 r : list ablock) : list ablock :=
  match l1 with
  | [] => r
  | [c] => match r with
           | b :: r' => if ab_free c then merge c b :: r' else c :: r
           | [] => [c]
           end
  | c :: l1' => c :: merge_prev l1' r
  end.

(** Release the block whose payload is at [memory] and coalesce it with its
    free neighbours; anything but the payload of a block in use is ignored. *)
Definition release_spec (base memory : Z) (l : list ablock) : list ablock :=
  match locate base memory l with
  | Some (l1, b, l2) =>
      if ab_free b then l else merge_prev l1 (merge_next (release1 b) l2)
  | None => l
  end.

(** The payloads handed out and not yet released, with their sizes. *)
Fixpoint payloads (base : Z) (l : list ablock) : list (Z * Z) :=
  match l with
  | [] => []
  | b :: l' =>
      (if ab_free b then [] else [(base + HDR + PFX, ab_requested b)]) ++
      payloads (base + extent1 b) l'
  end.

(** ** Well-formed block lists *)

(** No two neighbours are both free. *)
Fixpoint coalesced (l : list ablock) : Prop :=
  match l with
  | b :: l' =>
      match l' with
      | c :: _ => ab_free b = true -> ab_free c = false
      | [] => True
      end /\ coalesced l'
  | [] => True
  end.

(** A block can hold a payload; all but the last keep the next one aligned;
    a used block holds what was asked of it. *)
Definition block_ok (b : ablock) : Prop :=
  PFX + A <= ab_capacity b /\
  (ab_free b = false ->
   1 <= ab_requested b /\ PFX + ab_requested b <= ab_capacity b).

Fixpoint inner_aligned (l : list ablock) : Prop :=
  match l with
  | [] => True
  | b :: l' => (l' <> [] -> (A | ab_capacity b)) /\ inner_aligned l'
  end.

Record list_ok (l : list ablock) : Prop := {
  lo_blocks : Forall block_ok l;
  lo_aligned : inner_aligned l;
  lo_coalesced : coalesced l;
  lo_nonempty : l <> []
}.

(** ** The representation of a block list in the buffer *)

Definition header_of (next : Z) (b : ablock) : ws_block :=
  {| blk_next := next; blk_capacity := ab_capacity b;
     blk_requested_size := ab_requested b;
     blk_free := if ab_free b then 1 else 0 |}.

(** The headers of [l] from address [a] on, the last one linked to [z]. *)
Fixpoint seg (m : gmap Z ws_block) (a : Z) (l : list ablock) (z : Z) : Prop :=
  match l with
  | [] => True
  | b :: l' =>
      m !! a = Some (header_of (match l' with [] => z | _ => a + extent1 b end) b) /\
      0 < a /\ 0 < extent1 b /\ seg m (a + extent1 b) l' z
  end.

Definition link (a : Z) (l : list ablock) (z : Z) : Z := match l with [] => z | _ => a end.

(** The state of a workspace is well formed and represents [l]. *)
Record ws_rep (ws : workspace) (l : list ablock) : Prop := {
  wr_base : 0 < ws_session ws /\ ws_session ws + ws_size ws <= SIZE_MAX + 1;
  wr_aligned : (A | ws_session ws);
  wr_seg : seg (ws_blocks ws) (apta_workspace_first_block (ws_session ws)) l 0;
  wr_extent :
    apta_workspace_first_block (ws_session ws) + extent l = ws_session ws + ws_size ws;
  wr_list : list_ok l
}.

End Spec.

(** ** Linked segments *)

Section Segments.
Context `{PlatformLaws}.

Notation A := APTA_INTERNAL_MAX_ALIGNMENT.
Notation HDR := (sizeof T_workspace_block).
Notation PFX := apta_workspace_payload_prefix_size.

Lemma extent_app l1 l2 : extent (l1 ++ l2) = extent l1 + extent l2.
Proof. induction l1; simpl; lia. Qed.

Lemma seg_extent m a l z : seg m a l z -> 0 <= extent l.
Proof.
  revert a. induction l as [|b l IH]; intros a Hs; simpl in *; [lia|].
  destruct Hs as (_ & _ & He & Hs). specialize (IH _ Hs). lia.
Qed.

Lemma seg_app m a l1 l2 z :
  seg m a (l1 ++ l2) z <->
  seg m a l1 (link (a + extent l1) l2 z) /\ seg m (a + extent l1) l2 z.
Proof.
  revert a. induction l1 as [|b l1 IH]; intros a; simpl.
  - rewrite Z.add_0_r. tauto.
  - specialize (IH (a + extent1 b)). rewrite <- Z.add_assoc in IH.
    destruct l1 as [|c l1].
    + cbn [app extent] in *. rewrite Z.add_0_r in *. destruct l2; simpl; tauto.
    + cbn [app] in *. simpl in *. tauto.
Qed.

(** A segment only reads the headers inside its extent. *)
Lemma seg_frame m m' a l z :
  (forall k, a <= k < a + extent l -> m' !! k = m !! k) -> seg m a l z -> seg m' a l z.
Proof.
  revert a. induction l as [|b l IH]; intros a Hk Hs; simpl in *; [done|].
  destruct Hs as (Hm & Ha & He & Hs). pose proof (seg_extent _ _ _ _ Hs).
  rewrite Hk by lia. split_and!; try done. apply IH; [|done]. intros k Hr. apply Hk. lia.
Qed.

Lemma seg_last m a l b z z' :
  seg m a (l ++ [b]) z -> m !! (a + extent l) = Some (header_of z b) /\
  (forall m', (forall k, a <= k < a + extent l -> m' !! k = m !! k) ->
     m' !! (a + extent l) = Some (header_of z' b) -> seg m' a (l ++ [b]) z').
Proof.
  rewrite seg_app. simpl. intros (Hl & Hm & Ha & He & _). split; [done|].
  intros m' Hk Hm'. rewrite seg_app. simpl. split_and!; try done.
  eapply seg_frame; eauto.
Qed.

(** Replacing a run of blocks by another of the same extent. *)
Lemma seg_replace m m' a l1 ms bs l2 z :
  seg m a (l1 ++ ms ++ l2) z ->
  ms <> [] -> bs <> [] -> extent bs = extent ms ->
  (forall k, k < a + extent l1 \/ a + extent l1 + extent ms <= k -> m' !! k = m !! k) ->
  seg m' (a + extent l1) bs (link (a + extent l1 + extent ms) l2 z) ->
  seg m' a (l1 ++ bs ++ l2) z.
Proof.
  rewrite !seg_app. intros (H1 & Hms & H2) Hm Hb He Hk Hbs.
  assert (Hlink : link (a + extent l1) (ms ++ l2) z = link (a + extent l1) (bs ++ l2) z)
    by (destruct ms, bs; done).
  rewrite <- Hlink, He. split_and!.
  - eapply seg_frame; [|done]. intros k Hr. apply Hk. lia.
  - done.
  - eapply seg_frame; [|done]. intros k Hr. apply Hk. lia.
Qed.

(** Distinct blocks have distinct headers, so a list is no longer than the
    store it lives in: the walks have enough fuel. *)
Lemma seg_length m a l z : seg m a l z -> (length l <= size m)%nat.
Proof.
  revert a m. induction l as [|b l IH]; intros a m Hs; simpl in *; [lia|].
  destruct Hs as (Hm & Ha & He & Hs).
  assert (Hd : seg (delete a m) (a + extent1 b) l z).
  { eapply seg_frame; [|done]. intros k Hr. apply lookup_delete_ne. lia. }
  apply IH in Hd. assert (Hsz : size (delete a m) = Init.Nat.pred (size m))
    by (apply map_size_delete_Some; eauto).
  assert (size m <> 0)%nat.
  { intros E. apply map_size_empty_inv in E. subst. rewrite lookup_empty in Hm. done. }
  lia.
Qed.

Lemma seg_pos m a l z : l <> [] -> seg m a l z -> 0 < a.
Proof. destruct l; [done | simpl; tauto]. Qed.

Lemma link_zero_iff m a l : seg m a l 0 -> (link a l 0 = 0 <-> l = []).
Proof.
  intros Hs. destruct l; simpl in *; [done|]. split; [|done]. intros ->. lia.
Qed.

(** ** The walk of the allocator is first fit *)

Lemma header_of_free z b : (blk_free (header_of z b) =? 0) = negb (ab_free b).
Proof. unfold header_of; simpl. by destruct (ab_free b). Qed.

Lemma seg_head m a b l z :
  seg m a (b :: l) z ->
  m !! a = Some (header_of (link (a + extent1 b) l z) b) /\ 0 < a /\
  seg m (a + extent1 b) l z.
Proof. simpl. destruct l; simpl; tauto. Qed.

Lemma allocate_loop_first_fit ws required prefix size a l fuel :
  seg (ws_blocks ws) a l 0 -> (length l <= fuel)%nat ->
  allocate_loop fuel ws required prefix size (link a l 0) =
  match first_fit required l with
  | None => Ret (ws, 0)
  | Some (l1, b, l2) =>
      Ret (take_block ws (a + extent l1)
             (header_of (link (a + extent l1 + extent1 b) l2 0) b) required prefix size)
  end.
Proof.
  revert a fuel. induction l as [|b l IH]; intros a fuel Hs Hf.
  - destruct fuel; reflexivity.
  - apply seg_head in Hs as (Hm & Ha & Hs).
    destruct fuel as [|fuel]; simpl in Hf; [lia|]. cbn [allocate_loop link].
    destruct (Z.eqb_spec a 0); [lia|]. rewrite Hm. cbn [first_fit].
    rewrite header_of_free. cbn [header_of blk_capacity blk_next].
    destruct (ab_free b) eqn:Ef; simpl; [destruct (Z.ltb_spec (ab_capacity b) required) as [Hlt|Hle]|].
    + rewrite IH by (done || lia). replace (required <=? ab_capacity b) with false by lia.
      destruct (first_fit required l) as [[[l1 c] l2]|]; [|done]. simpl.
      rewrite Z.add_assoc. reflexivity.
    + replace (required <=? ab_capacity b) with true by lia.
      simpl. rewrite !Z.add_0_r. reflexivity.
    + rewrite IH by (done || lia).
      destruct (first_fit required l) as [[[l1 c] l2]|]; [|done]. simpl.
      rewrite Z.add_assoc. reflexivity.
Qed.

Lemma first_fit_Some required l l1 b l2 :
  first_fit required l = Some (l1, b, l2) ->
  l = l1 ++ b :: l2 /\ ab_free b = true /\ required <= ab_capacity b.
Proof.
  revert l1. induction l as [|c l IH]; intros l1; simpl; [done|].
  destruct (ab_free c && (required <=? ab_capacity c)) eqn:E.
  - intros [= <- <- <-]. bool_facts. done.
  - destruct (first_fit required l) as [[[k1 d] k2]|]; [|done].
    intros [= <- <- <-]. destruct (IH k1 eq_refl) as (-> & ?). done.
Qed.

Lemma first_fit_None required l :
  first_fit required l = None ->
  Forall (fun b => ab_free b = true -> ab_capacity b < required) l.
Proof.
  induction l as [|c l IH]; simpl; intros Hn; [by constructor|].
  destruct (ab_free c && (required <=? ab_capacity c)) eqn:E; [done|].
  destruct (first_fit required l) as [[[? ?] ?]|]; [done|].
  constructor; [|auto]. intros Hf. rewrite Hf in E. simpl in E. bool_facts. lia.
Qed.

End Segments.

(** ** Well-formedness under splitting and merging *)

Section WellFormed.
Context `{PlatformLaws}.

Notation A := APTA_INTERNAL_MAX_ALIGNMENT.
Notation HDR := (sizeof T_workspace_block).
Notation PFX := apta_workspace_payload_prefix_size.

Definition joint (l1 l2 : list ablock) : Prop :=
  match last l1, head l2 with
  | Some b, Some c => ab_free b = true -> ab_free c = false
  | _, _ => True
  end.

Lemma coalesced_app l1 l2 :
  coalesced (l1 ++ l2) <-> coalesced l1 /\ coalesced l2 /\ joint l1 l2.
Proof.
  unfold joint. induction l1 as [|b l1 IH]; [simpl; tauto|].
  destruct l1 as [|c l1].
  - simpl. destruct l2; simpl; tauto.
  - change (last (b :: c :: l1)) with (last (c :: l1)).
    change ((ab_free b = true -> ab_free c = false) /\ coalesced ((c :: l1) ++ l2) <->
      ((ab_free b = true -> ab_free c = false) /\ coalesced (c :: l1)) /\
      coalesced l2 /\ match last (c :: l1), head l2 with
                      | Some b, Some c => ab_free b = true -> ab_free c = false
                      | _, _ => True
                      end).
    rewrite IH. tauto.
Qed.

Lemma inner_aligned_app l1 l2 :
  inner_aligned (l1 ++ l2) <->
  (l2 <> [] -> Forall (fun b => (A | ab_capacity b)) l1) /\
  (l2 = [] -> inner_aligned l1) /\ inner_aligned l2.
Proof.
  induction l1 as [|b l1 IH]; simpl.
  - naive_solver.
  - rewrite IH. destruct l2 as [|c l2]; simpl.
    + rewrite app_nil_r. naive_solver.
    + split.
      * intros (Hb & Hl & _ & Hc & Hi). split_and!; try done. intros _.
        constructor; [|by apply Hl]. apply Hb. by destruct l1.
      * intros (Hl & _ & Hc & Hi). specialize (Hl ltac:(done)). inversion Hl; subst.
        split_and!; try done; intros; done.
Qed.

Lemma aligned_extent l : Forall (fun b => (A | ab_capacity b)) l -> (A | extent l).
Proof.
  induction 1 as [|b l Hb _ IH]; simpl; [apply Z.divide_0_r|].
  unfold extent1. repeat apply Z.divide_add_r; try done. apply header_aligned.
Qed.

Lemma list_ok_app_cons l1 b l2 :
  list_ok (l1 ++ b :: l2) <->
  Forall block_ok l1 /\ block_ok b /\ Forall block_ok l2 /\
  Forall (fun c => (A | ab_capacity c)) l1 /\ (l2 <> [] -> (A | ab_capacity b)) /\
  inner_aligned l2 /\
  coalesced l1 /\ coalesced l2 /\ joint l1 [b] /\ joint [b] l2.
Proof.
  split.
  - intros [Hb Ha Hc _]. rewrite Forall_app, Forall_cons in Hb.
    apply inner_aligned_app in Ha as (Ha1 & _ & Ha2). simpl in Ha2.
    change (b :: l2) with ([b] ++ l2) in Hc.
    rewrite !coalesced_app in Hc. destruct Hc as (Hc1 & (_ & Hc2 & Hj2) & Hj1).
    specialize (Ha1 ltac:(done)). tauto.
  - intros (H1 & H2 & H3 & H4 & H5 & H6 & H7 & H8 & H9 & H10). split.
    + rewrite Forall_app, Forall_cons. tauto.
    + apply inner_aligned_app. simpl. split_and!; try done; intros; done.
    + change (b :: l2) with ([b] ++ l2). rewrite !coalesced_app. split_and!; try done.
    + by destruct l1.
Qed.

Lemma list_ok_extent l : list_ok l -> 0 <= extent l.
Proof.
  intros [Hb _ _ _]. pose proof geometry. induction Hb as [|b l [Hc _] _ IH]; simpl; [lia|].
  unfold extent1. lia.
Qed.

Lemma extent_nonneg l : Forall block_ok l -> 0 <= extent l.
Proof.
  pose proof geometry. induction 1 as [|b l [Hc _] _ IH]; simpl; [lia|].
  unfold extent1. lia.
Qed.

(** The size the allocator carves out for a request. *)
Lemma required_bounds size :
  1 <= size <= SIZE_MAX - (A - 1) -> 
  size <= apta_workspace_align_up size A < size + A /\
  PFX + size <= required_bytes size < PFX + size + A /\ (A | required_bytes size) /\
  PFX + A <= required_bytes size.
Proof.
  intros Hs. destruct (align_up_max size) as [Hb Hd]; [lia|].
  pose proof geometry. pose proof prefix_facts as [_ Hp]. unfold required_bytes.
  assert (A <= apta_workspace_align_up size A) by (apply Z.divide_pos_le; [lia | done]).
  split_and!; try lia. by apply Z.divide_add_r.
Qed.

Lemma carve_extent required size b : extent (carve required size b) = extent1 b.
Proof.
  unfold carve, extent1.
  destruct (_ <=? _); simpl; unfold extent1; simpl; lia.
Qed.

Lemma carve_ok l1 b l2 size :
  1 <= size <= SIZE_MAX - (A - 1) -> ab_free b = true -> required_bytes size <= ab_capacity b ->
  list_ok (l1 ++ b :: l2) -> list_ok (l1 ++ carve (required_bytes size) size b ++ l2).
Proof.
  intros Hs Hf Hr Hl. pose proof geometry.
  apply required_bounds in Hs as Hq. destruct Hq as (_ & Hq & Hd & Hm).
  apply list_ok_app_cons in Hl as (K1 & K2 & K3 & K4 & K5 & K6 & K7 & K8 & K9 & K10).
  assert (Hj1 : forall c, ab_free c = false -> joint l1 [c]).
  { intros c Hc. unfold joint. simpl. by destruct (last l1). }
  unfold carve. destruct (Z.leb_spec (HDR + PFX + A) (ab_capacity b - required_bytes size)).
  - apply list_ok_app_cons. split_and!; try done; simpl.
    + split; simpl; lia.
    + constructor; [|done]. split; simpl; lia || done.
    + split; [|done]. intros Hn. specialize (K5 Hn).
      apply Z.divide_sub_r; [by apply Z.divide_sub_r | apply header_aligned].
    + split; [|done]. unfold joint in K10. simpl in K10. destruct l2; [done|]. auto.
    + by apply Hj1.
  - apply list_ok_app_cons. split_and!; try done; simpl.
    + split; simpl; lia.
    + by apply Hj1.
    + unfold joint; simpl. destruct l2; done.
Qed.

End WellFormed.

(** ** Allocation refines the contract *)

Section Allocate.
Context `{PlatformLaws}.

Notation A := APTA_INTERNAL_MAX_ALIGNMENT.
Notation HDR := (sizeof T_workspace_block).
Notation PFX := apta_workspace_payload_prefix_size.
Notation first ws := (apta_workspace_first_block (ws_session ws)).

Lemma first_pos ws l : ws_rep ws l -> 0 < first ws /\ (A | first ws).
Proof.
  intros [[Hb _] Ha _ _ _]. rewrite first_block_eq. pose proof offset_facts as [Ho Hd].
  pose proof (sizeof_range T_session). split; [lia|]. by apply Z.divide_add_r.
Qed.

Lemma seg_block_pos ws l1 b l2 :
  ws_rep ws (l1 ++ b :: l2) -> 0 < first ws + extent l1 /\ 0 <= extent l1 /\ 0 <= extent l2.
Proof.
  intros [_ _ Hs _ Hl]. apply seg_app in Hs as [_ Hs]. apply seg_pos in Hs; [|done].
  apply list_ok_app_cons in Hl as (K1 & _ & K3 & _).
  split_and!; [done | by apply extent_nonneg | by apply extent_nonneg].
Qed.

Lemma carve_seg m a b required size z :
  0 < a -> 0 < required -> block_ok b -> required <= ab_capacity b ->
  seg m a (carve required size b) z <->
  (if HDR + PFX + A <=? ab_capacity b - required
   then m !! a = Some (header_of (a + HDR + required)
                         {| ab_capacity := required; ab_requested := size; ab_free := false |}) /\
        m !! (a + HDR + required) =
          Some (header_of z {| ab_capacity := ab_capacity b - required - HDR;
                               ab_requested := 0; ab_free := true |})
   else m !! a = Some (header_of z {| ab_capacity := ab_capacity b;
                                      ab_requested := size; ab_free := false |})).
Proof.
  intros Ha Hr [Hc _] Hle. pose proof geometry. unfold carve.
  destruct (Z.leb_spec (HDR + PFX + A) (ab_capacity b - required)); simpl; unfold extent1; simpl.
  - replace (a + (HDR + required)) with (a + HDR + required) by lia.
    split; [tauto | intros [-> ->]; split_and!; done || lia].
  - split; [tauto | intros ->; split_and!; done || lia].
Qed.

Lemma take_block_refines ws l1 b l2 size :
  ws_rep ws (l1 ++ b :: l2) -> 1 <= size <= SIZE_MAX - (A - 1) ->
  ab_free b = true -> required_bytes size <= ab_capacity b ->
  let a := first ws + extent l1 in
  let '(ws', p) := take_block ws a (header_of (link (a + extent1 b) l2 0) b)
                     (required_bytes size) PFX size in
  ws_rep ws' (l1 ++ carve (required_bytes size) size b ++ l2) /\
  p = a + HDR + PFX /\ ws_session ws' = ws_session ws /\ ws_size ws' = ws_size ws /\
  ws_headers ws' !! (p - sizeof T_allocation_header) =
    Some {| hdr_raw_memory := ws_session ws; hdr_allocated_size := 0;
            hdr_requested_size := size |}.
Proof.
  intros Hrep Hs Hf Hr a. pose proof geometry.
  destruct (seg_block_pos _ _ _ _ Hrep) as (Ha & He1 & He2).
  apply required_bounds in Hs as Hq. destruct Hq as (_ & Hq & _ & Hm).
  unfold take_block. rewrite block_payload_eq by (subst a; lia).
  destruct (Z.eqb_spec (a + HDR + PFX) 0); [subst a; lia|].
  split_and!; [|done|done|done|simpl; by rewrite lookup_insert_eq].
  pose proof (wr_list _ _ Hrep) as Hl. apply list_ok_app_cons in Hl as (_ & Hbk & _).
  destruct Hrep as [Hb Ha' Hseg He Hl]. split; simpl; try done.
  - eapply seg_replace with (ms := [b]); [exact Hseg | done | | | |].
    + unfold carve. by destruct (_ <=? _).
    + rewrite carve_extent. simpl. lia.
    + intros k Hk. simpl in Hk. unfold extent1 in Hk. fold a in Hk.
      destruct Hbk as [Hbk _].
      destruct (Z.leb_spec (HDR + PFX + A) (ab_capacity b - required_bytes size));
        rewrite ?lookup_insert_ne by lia; done.
    + fold a. simpl. rewrite Z.add_0_r. apply carve_seg; try done; [lia|].
      simpl. destruct (Z.leb_spec (HDR + PFX + A) (ab_capacity b - required_bytes size)).
      * rewrite lookup_insert_eq, lookup_insert_ne, lookup_insert_eq by lia. done.
      * by rewrite lookup_insert_eq.
  - rewrite !extent_app in *. rewrite carve_extent. simpl in He. lia.
  - by apply carve_ok.
Qed.

(** The requests the allocator serves: a size it can pad without wrapping, and
    an alignment no larger than the one every payload has. *)
Definition effective_size (size : Z) : Z := if size =? 0 then 1 else size.

Record request_ok (size alignment : Z) : Prop := {
  ro_alignment : alignment < alignof_pointer \/
                 exists k, alignment = 2 ^ k /\ 0 <= k <= MAX_ALIGNMENT_LOG;
  ro_size : effective_size size <= SIZE_MAX - (A - 1);
  ro_required : required_bytes (effective_size size) <= SIZE_MAX
}.

Lemma effective_size_pos size : is_size size -> 1 <= effective_size size <= SIZE_MAX.
Proof.
  unfold is_size, effective_size. pose proof geometry. destruct (Z.eqb_spec size 0); lia.
Qed.

(** The alignment test accepts what [ro_alignment] says. *)
Lemma alignment_test alignment :
  is_size alignment ->
  let al := if alignment <? alignof_pointer then alignof_pointer else alignment in
  negb (apta_internal_is_power_of_two al) || (A <? al) = false <->
  (alignment < alignof_pointer \/ exists k, alignment = 2 ^ k /\ 0 <= k <= MAX_ALIGNMENT_LOG).
Proof.
  intros Hal. simpl. pose proof max_alignment_range. pose proof alignof_pointer_range.
  assert (Hpow : forall k, 0 <= k <= MAX_ALIGNMENT_LOG -> 
            negb (apta_internal_is_power_of_two (2 ^ k)) || (A <? 2 ^ k) = false).
  { intros k Hk. rewrite is_power_of_two_pow by lia. apply Z.ltb_ge.
    apply Z.pow_le_mono_r; lia. }
  destruct (Z.ltb_spec alignment alignof_pointer) as [Hlt|Hge].
  - split; [auto|]. intros _. apply Hpow. lia.
  - split.
    + intros E. bool_facts. right. exists (Z.log2 alignment).
      pose proof (Z.log2_nonneg alignment).
      assert (Hv : alignment = 2 ^ Z.log2 alignment)
        by (apply is_power_of_two_inv; [destruct Hal; lia | done]).
      split; [done|]. split; [done|].
      destruct (Z.le_gt_cases (Z.log2 alignment) MAX_ALIGNMENT_LOG) as [|Hgt]; [done|].
      assert (A < 2 ^ Z.log2 alignment) by (apply Z.pow_lt_mono_r; lia). lia.
    + intros [?|(k & -> & Hk)]; [lia|]. by apply Hpow.
Qed.

(** The size test accepts what [ro_size] and [ro_required] say. *)
Lemma size_test size :
  1 <= size <= SIZE_MAX ->
  (apta_workspace_align_up size A =? SIZE_MAX) || (PFX =? SIZE_MAX) ||
  (SIZE_MAX - apta_workspace_align_up size A <? PFX) = false <->
  size <= SIZE_MAX - (A - 1) /\ required_bytes size <= SIZE_MAX.
Proof.
  intros Hs. pose proof geometry. unfold required_bytes. split.
  - intros E. bool_facts. split; [|lia].
    destruct (Z.le_gt_cases size (SIZE_MAX - (A - 1))) as [|Hgt]; [done|].
    unfold apta_workspace_align_up in *.
    destruct (Z.ltb_spec (SIZE_MAX - (A - 1)) size); lia.
  - intros [H1' H2']. rewrite !orb_false_iff. destruct (align_up_max size) as [Hb Hd]; [lia|].
    split_and!; lia.
Qed.

Lemma allocate_workspace_unfold ws size alignment :
  is_size size -> is_size alignment -> request_ok size alignment ->
  apta_internal_session_allocate_workspace ws size alignment =
  allocate_loop (walk_fuel ws) ws (required_bytes (effective_size size)) PFX
    (effective_size size) (first ws).
Proof.
  intros Hs Hal [Ha Hz Hr]. unfold apta_internal_session_allocate_workspace.
  apply effective_size_pos in Hs. fold (effective_size size).
  apply (alignment_test alignment Hal) in Ha. simpl in Ha. rewrite Ha.
  rewrite (proj2 (size_test (effective_size size) Hs)) by done. done.
Qed.

Lemma allocate_workspace_refused ws size alignment :
  is_size size -> is_size alignment -> ~ request_ok size alignment ->
  apta_internal_session_allocate_workspace ws size alignment = Ret (ws, 0).
Proof.
  intros Hs Hal Hn. unfold apta_internal_session_allocate_workspace.
  apply effective_size_pos in Hs. fold (effective_size size).
  destruct (negb (apta_internal_is_power_of_two _) || _) eqn:Ea; [done|].
  destruct ((apta_workspace_align_up _ _ =? SIZE_MAX) || _ || _) eqn:Ez; [done|].
  destruct Hn. apply (alignment_test alignment Hal) in Ea. apply (size_test _ Hs) in Ez as [? ?].
  by constructor.
Qed.

Lemma request_ok_or_not size alignment :
  is_size size -> is_size alignment -> request_ok size alignment \/ ~ request_ok size alignment.
Proof.
  intros Hs Hal. apply effective_size_pos in Hs.
  pose proof (alignment_test alignment Hal) as Ha. pose proof (size_test _ Hs) as Hz.
  simpl in Ha. destruct (_ || _) in Ha; [right; intros [Hx _ _]; by apply Ha in Hx|].
  destruct (_ || _) in Hz; [right; intros [_ Hx Hy]; discriminate (proj2 Hz (conj Hx Hy))|].
  left. destruct Hz as [Hz _]. destruct (Hz eq_refl). constructor; [by apply Ha | done | done].
Qed.

Lemma walk_fuel_enough ws l :
  ws_rep ws l -> (length l <= walk_fuel ws)%nat.
Proof.
  intros Hr. unfold walk_fuel. pose proof (seg_length _ _ _ _ (wr_seg _ _ Hr)). lia.
Qed.

Lemma link_first ws l : ws_rep ws l -> link (first ws) l 0 = first ws.
Proof. intros Hr. destruct l; [by destruct (lo_nonempty _ (wr_list _ _ Hr)) | done]. Qed.

Lemma allocate_refines_spec ws l size alignment :
  ws_rep ws l -> is_size size -> is_size alignment -> request_ok size alignment ->
  exists ws' l' p,
    apta_internal_session_allocate_workspace ws size alignment = Ret (ws', p) /\
    allocate_spec (first ws) (effective_size size) l = (l', p) /\
    ws_rep ws' l' /\ ws_session ws' = ws_session ws /\ ws_size ws' = ws_size ws /\
    (p = 0 -> ws' = ws) /\
    (p <> 0 ->
     ws_headers ws' !! (p - sizeof T_allocation_header) =
       Some {| hdr_raw_memory := ws_session ws; hdr_allocated_size := 0;
               hdr_requested_size := effective_size size |}).
Proof.
  intros Hr Hsz Hal Hq. rewrite allocate_workspace_unfold by done.
  pose proof (allocate_loop_first_fit ws (required_bytes (effective_size size)) PFX
                (effective_size size) _ _ _ (wr_seg _ _ Hr) (walk_fuel_enough _ _ Hr)) as E.
  rewrite link_first in E by done. rewrite E. clear E.
  destruct Hq as [_ Hz Hq]. pose proof geometry.
  assert (Hs : 1 <= effective_size size <= SIZE_MAX - (A - 1))
    by (apply effective_size_pos in Hsz; lia).
  unfold allocate_spec.
  destruct (first_fit (required_bytes (effective_size size)) l) as [[[l1 b] l2]|] eqn:Ef.
  - apply first_fit_Some in Ef as (-> & Hf & Hle).
    pose proof (take_block_refines _ _ _ _ _ Hr Hs Hf Hle) as Ht. simpl in Ht.
    destruct (take_block _ _ _ _ _ _) as [ws' p]. destruct Ht as (Hr' & -> & Hse & Hsz' & Hh).
    pose proof (seg_block_pos _ _ _ _ Hr) as (Hpos & _).
    eexists _, _, _. split_and!; try done. lia.
  - eexists _, _, _. split_and!; done.
Qed.

End Allocate.

(** ** Release refines the contract *)

Section Release.
Context `{PlatformLaws}.

Notation A := APTA_INTERNAL_MAX_ALIGNMENT.
Notation HDR := (sizeof T_workspace_block).
Notation PFX := apta_workspace_payload_prefix_size.
Notation first ws := (apta_workspace_first_block (ws_session ws)).

Lemma locate_Some base memory l l1 b l2 :
  locate base memory l = Some (l1, b, l2) ->
  l = l1 ++ b :: l2 /\ base + extent l1 + HDR + PFX = memory.
Proof.
  revert base l1. induction l as [|c l IH]; intros base l1; simpl; [done|].
  destruct (Z.eqb_spec (base + HDR + PFX) memory).
  - intros [= <- <- <-]. simpl. split; [done | lia].
  - destruct (locate (base + extent1 c) memory l) as [[[k1 d] k2]|] eqn:E; [|done].
    intros [= <- <- <-]. destruct (IH _ _ E) as [-> ?]. simpl. split; [done | lia].
Qed.

Lemma merge_prev_snoc l0 c b r :
  merge_prev (l0 ++ [c]) (b :: r) =
  l0 ++ (if ab_free c then merge c b :: r else c :: b :: r).
Proof.
  induction l0 as [|d l0 IH]; simpl; [by destruct (ab_free c)|].
  rewrite IH. by destruct l0.
Qed.

(** The address the walk last passed. *)
Definition last_address (base : Z) (l1 : list ablock) (previous : Z) : Z :=
  match last l1 with None => previous | Some c => base + extent l1 - extent1 c end.

Lemma find_payload_loop_locate ws memory a l fuel previous :
  seg (ws_blocks ws) a l 0 -> (length l <= fuel)%nat ->
  find_payload_loop fuel ws memory previous (link a l 0) =
  match locate a memory l with
  | None => Ret (0, last_address a l previous)
  | Some (l1, b, l2) => Ret (a + extent l1, last_address a l1 previous)
  end.
Proof.
  revert a fuel previous. induction l as [|b l IH]; intros a fuel previous Hs Hf.
  - destruct fuel; reflexivity.
  - apply seg_head in Hs as (Hm & Ha & Hs).
    destruct fuel as [|fuel]; simpl in Hf; [lia|]. cbn [find_payload_loop link].
    destruct (Z.eqb_spec a 0); [lia|]. rewrite Hm, block_payload_eq by done.
    cbn [locate]. destruct (a + HDR + PFX =? memory).
    + simpl. by rewrite Z.add_0_r.
    + cbn [header_of blk_next]. rewrite IH by (done || lia).
      assert (Hlast : forall k, last_address (a + extent1 b) k a = last_address a (b :: k) previous).
      { intros k. unfold last_address. destruct k as [|c k]; [simpl; lia|].
        change (last (b :: c :: k)) with (last (c :: k)).
        destruct (last (c :: k)) eqn:El; [simpl; lia|].
        by apply last_None in El. }
      destruct (locate (a + extent1 b) memory l) as [[[l1 c] l2]|];
        rewrite Hlast; simpl; [|done]. by rewrite Z.add_assoc.
Qed.

Lemma merge_next_spec b l2 :
  Forall block_ok l2 ->
  exists b' r, merge_next b l2 = b' :: r /\ ab_free b' = ab_free b /\
    extent1 b' + extent r = extent1 b + extent l2 /\ ab_capacity b <= ab_capacity b'.
Proof.
  pose proof geometry. intros Hl. destruct l2 as [|c l2]; simpl.
  - exists b, []. split_and!; done || lia.
  - apply Forall_cons in Hl as [[Hc _] _].
    destruct (ab_free c); [|exists b, (c :: l2); split_and!; done || (simpl; lia)].
    eexists _, _. split_and!; try reflexivity; unfold extent1; simpl; lia.
Qed.

(** The first half of a release: free the block, absorb a free successor. *)
Lemma release_next_refines m a l1 b l2 :
  seg m a (l1 ++ b :: l2) 0 -> block_ok b -> Forall block_ok l1 -> Forall block_ok l2 -> 
  let blk := a + extent l1 in
  let b0 := {| blk_next := link (blk + extent1 b) l2 0; blk_capacity := ab_capacity b;
               blk_requested_size := 0; blk_free := 1 |} in
  exists b' r, merge_next (release1 b) l2 = b' :: r /\
  (if negb (blk_next b0 =? 0)
   then
     let! next := lookup_block m (blk_next b0) in
     Ret (if negb (blk_free next =? 0)
          then {| blk_next := blk_next next;
                  blk_capacity := blk_capacity b0 + (HDR + blk_capacity next);
                  blk_requested_size := 0; blk_free := 1 |}
          else b0)
   else Ret b0) = Ret (E := loop_fault) (header_of (link (blk + extent1 b') r 0) b') /\
  seg (<[blk := header_of (link (blk + extent1 b') r 0) b']> m) a (l1 ++ b' :: r) 0.
Proof.
  intros Hs Hb Hl1 Hl2 blk b0. pose proof geometry. pose proof (extent_nonneg _ Hl1).
  assert (He : 0 < extent1 b) by (destruct Hb; unfold extent1; lia).
  pose proof Hs as Hs'. apply seg_app in Hs' as [_ Hb'].
  apply seg_head in Hb' as (Hm & Hblk & Hs2). fold blk in Hm, Hblk, Hs2.
  pose proof (link_zero_iff _ _ _ Hs2) as Hz.
  assert (Hrep : forall ms bs b' r, extent bs = extent ms -> ms <> [] -> bs = [b'] ->
            b :: l2 = ms ++ r -> seg m (blk + extent ms) r 0 ->
            seg (<[blk := header_of (link (blk + extent1 b') r 0) b']> m) a (l1 ++ bs ++ r) 0).
  { intros ms bs b' r Hext Hms -> Heq Hr.
    assert (0 < extent ms).
    { destruct ms as [|x ms]; [done|]. simpl in Heq. injection Heq as -> ->.
      apply Forall_app in Hl2 as [Hl2 _]. simpl. pose proof (extent_nonneg _ Hl2). lia. }
    simpl in Hext. rewrite Z.add_0_r in Hext.
    eapply seg_replace with (ms := ms); [by rewrite <- Heq | done | done | simpl; lia | |].
    - intros k Hk. fold blk in Hk. apply lookup_insert_ne. lia.
    - fold blk. simpl. rewrite lookup_insert_eq, Hext. split_and!; done || lia. }
  destruct l2 as [|d l2]; simpl.
  - eexists _, _. split; [reflexivity|]. split; [done|].
    apply (Hrep [b] [release1 b]); done.
  - apply seg_head in Hs2 as (Hd & Hdp & Hs3). simpl in Hz.
    apply Forall_cons in Hl2 as [Hd' Hl2'].
    destruct (Z.eqb_spec (blk + extent1 b) 0); [lia|]. simpl.
    unfold lookup_block. rewrite Hd. simpl.
    destruct (ab_free d) eqn:Ef; simpl.
    + eexists _, _. split; [reflexivity|].
      assert (Hee : extent1 (merge (release1 b) d) = extent1 b + extent1 d)
        by (unfold extent1; simpl; lia).
      split.
      * rewrite Hee, (Z.add_assoc blk). reflexivity.
      * apply (Hrep [b; d] [merge (release1 b) d]); try done; simpl; [lia|].
        rewrite Z.add_0_r, (Z.add_assoc blk). done.
    + eexists _, _. split; [reflexivity|]. split; [done|].
      apply (Hrep [b] [release1 b]); try done. simpl. rewrite Z.add_0_r.
      split_and!; try done.
      destruct Hd' as [? _]. unfold extent1. lia.
Qed.

Lemma snoc_cons_ne {T} (l0 : list T) c r : (l0 ++ [c]) ++ r <> [].
Proof. by destruct l0. Qed.

(** The second half: let a free predecessor absorb the block. *)
Lemma release_prev_refines m a l0 c b r :
  seg m a (l0 ++ c :: b :: r) 0 -> block_ok c -> block_ok b -> Forall block_ok l0 ->
  let prev := a + extent l0 in
  let nb := link (prev + extent1 c + extent1 b) r 0 in
  exists p, m !! prev = Some p /\ blk_free p = (if ab_free c then 1 else 0) /\
  seg (if negb (blk_free p =? 0)
       then <[prev := {| blk_next := nb;
                         blk_capacity := blk_capacity p + (HDR + ab_capacity b);
                         blk_requested_size := blk_requested_size p;
                         blk_free := blk_free p |}]> m
       else m) a (l0 ++ (if ab_free c then merge c b :: r else c :: b :: r)) 0.
Proof.
  intros Hs Hc Hb Hl0 prev nb. pose proof geometry. pose proof (extent_nonneg _ Hl0).
  assert (He : 0 < extent1 b /\ 0 < extent1 c) by (destruct Hb, Hc; unfold extent1; lia).
  pose proof Hs as Hs'. apply seg_app in Hs' as [_ Hp].
  apply seg_head in Hp as (Hm & Hprev & Hs2). fold prev in Hm, Hprev, Hs2.
  apply seg_head in Hs2 as (_ & _ & Hs3).
  eexists. split; [exact Hm|]. split; [done|]. rewrite header_of_free, negb_involutive.
  destruct (ab_free c) eqn:Ef; [|done].
  assert (Hee : extent1 (merge c b) = extent1 c + extent1 b) by (unfold extent1; simpl; lia).
  eapply seg_replace with (l1 := l0) (ms := [c; b]) (bs := [merge c b]);
    [exact Hs | done | done | simpl; lia | |].
  - intros k Hk. simpl in Hk. fold prev in Hk. apply lookup_insert_ne. lia.
  - fold prev. simpl. rewrite lookup_insert_eq, !Z.add_0_r. split_and!; try done; [|lia].
    unfold header_of, nb. simpl. rewrite Ef, (Z.add_assoc prev). done.
Qed.

Lemma release1_ok b : block_ok b -> block_ok (release1 b).
Proof. intros [? _]. by split. Qed.

Lemma merge_ok b c : block_ok b -> block_ok c -> ab_free b = true -> block_ok (merge b c).
Proof.
  intros [? _] [? _] Hf. pose proof geometry. split; simpl; [lia | congruence].
Qed.

Lemma merge_aligned b c :
  (A | ab_capacity b) -> (A | ab_capacity c) -> (A | ab_capacity (merge b c)).
Proof.
  intros ? ?. pose proof header_aligned. simpl. by repeat apply Z.divide_add_r.
Qed.

Lemma joint_used l1 b : ab_free b = false -> joint l1 [b].
Proof. intros Hb. unfold joint. simpl. by destruct (last l1). Qed.

Lemma joint_head b l1 l2 : head l1 = head l2 -> joint [b] l1 -> joint [b] l2.
Proof. unfold joint. by intros ->. Qed.

Lemma joint_free_l b l2 :
  joint [b] l2 <-> (ab_free b = true -> match head l2 with Some c => ab_free c = false | None => True end).
Proof. unfold joint; simpl. destruct (head l2); tauto. Qed.

(** Absorbing the successor keeps the tail of the list well formed. *)
Lemma merge_next_ok b l2 :
  block_ok b -> Forall block_ok l2 -> (l2 <> [] -> (A | ab_capacity b)) ->
  inner_aligned l2 -> coalesced l2 -> ab_free b = true ->
  exists b' r, merge_next b l2 = b' :: r /\ ab_free b' = true /\
    block_ok b' /\ Forall block_ok r /\ (r <> [] -> (A | ab_capacity b')) /\
    inner_aligned r /\ coalesced r /\ joint [b'] r.
Proof.
  intros Hb Hl Ha Hi Hc Hf. destruct l2 as [|d l2]; simpl.
  - exists b, []. by split_and!.
  - apply Forall_cons in Hl as [Hd Hl]. destruct Hi as [Hi Hi'].
    destruct (ab_free d) eqn:Ed.
    + exists (merge b d), l2. destruct Hc as [Hc Hc']. split_and!; try done.
      * by apply merge_ok.
      * intros Hn. apply merge_aligned; auto.
      * apply joint_free_l. destruct l2; simpl; auto.
    + exists b, (d :: l2). split_and!; try done.
      * by constructor.
      * by apply joint_free_l.
Qed.

Lemma release_ok l1 b l2 :
  list_ok (l1 ++ b :: l2) -> ab_free b = false ->
  list_ok (merge_prev l1 (merge_next (release1 b) l2)).
Proof.
  intros Hl Hf.
  apply list_ok_app_cons in Hl as (K1 & K2 & K3 & K4 & K5 & K6 & K7 & K8 & K9 & K10).
  destruct (merge_next_ok (release1 b) l2) as (b' & r & -> & Q1 & Q2 & Q3 & Q4 & Q5 & Q6 & Q7);
    try done; [by apply release1_ok|].
  destruct l1 as [|c l0 _] using rev_ind.
  - simpl. apply (list_ok_app_cons [] b' r). by split_and!.
  - rewrite merge_prev_snoc. apply Forall_app in K1 as [K1 Kc], K4 as [K4 Kc'].
    rewrite Forall_singleton in Kc, Kc'. apply coalesced_app in K7 as (K7 & _ & Kj).
    destruct (ab_free c) eqn:Ec; apply list_ok_app_cons; split_and!; try done.
    + by apply merge_ok.
    + intros Hn. apply merge_aligned; auto.
    + apply joint_free_l. intros _. exact (proj1 (joint_free_l b' r) Q7 Q1).
    + by constructor.
    + split; [|done]. pose proof (proj1 (joint_free_l b' r) Q7). by destruct r.
    + apply joint_free_l. congruence.
Qed.

Lemma merge_prev_extent l1 b r :
  extent (merge_prev l1 (b :: r)) = extent l1 + extent1 b + extent r.
Proof.
  destruct l1 as [|c l0 _] using rev_ind; [simpl; lia|].
  rewrite merge_prev_snoc, !extent_app.
  destruct (ab_free c); simpl; unfold extent1; simpl; lia.
Qed.

Lemma release_refines_spec ws l memory :
  ws_rep ws l ->
  exists ws',
    apta_internal_session_deallocate_workspace ws memory = Ret ws' /\
    ws_rep ws' (if memory =? 0 then l else release_spec (first ws) memory l) /\
    ws_session ws' = ws_session ws /\ ws_size ws' = ws_size ws /\
    ws_headers ws' = ws_headers ws.
Proof.
  intros Hr. unfold apta_internal_session_deallocate_workspace.
  destruct (Z.eqb_spec memory 0); [eauto 10|].
  pose proof (find_payload_loop_locate ws memory _ _ _ 0 (wr_seg _ _ Hr)
                (walk_fuel_enough _ _ Hr)) as E.
  rewrite link_first in E by done. rewrite E. clear E. unfold release_spec.
  destruct (locate (first ws) memory l) as [[[l1 b] l2]|] eqn:El; simpl; [|eauto 10].
  apply locate_Some in El as [-> _]. pose proof (seg_block_pos _ _ _ _ Hr) as (Hpos & _).
  destruct (Z.eqb_spec (first ws + extent l1) 0); [lia|].
  pose proof (wr_seg _ _ Hr) as Hs. pose proof (wr_list _ _ Hr) as Hl.
  pose proof Hs as Hs'. apply seg_app in Hs' as [_ Hb].
  apply seg_head in Hb as (Hm & _ & _). unfold lookup_block at 1. rewrite Hm. simpl.
  destruct (ab_free b) eqn:Ef; simpl; [eauto 10|].
  pose proof (proj1 (list_ok_app_cons _ _ _) Hl) as (K1 & K2 & K3 & _).
  destruct (release_next_refines _ _ _ _ _ Hs K2 K1 K3) as (b' & r & Hmn & Hq & Hs1).
  cbv zeta in Hq. cbn [blk_next blk_capacity header_of] in Hq |- *.
  rewrite Hq. clear Hq. cbn [obind].
  pose proof (release_ok _ _ _ Hl Ef) as Hl'. rewrite Hmn in *.
  destruct (merge_next_spec (release1 b) l2 K3) as (? & ? & Hx & Hx1 & Hx2 & Hx3).
  rewrite Hmn in Hx. injection Hx as <- <-. simpl in Hx1, Hx3.
  assert (Kb : block_ok b') by (destruct K2; split; [lia | congruence]).
  assert (He' : first ws + extent (merge_prev l1 (b' :: r)) = ws_session ws + ws_size ws).
  { rewrite merge_prev_extent, <- (wr_extent _ _ Hr), extent_app.
    unfold extent1 in *. simpl in *. unfold extent1. lia. }
  assert (Hrep : forall m, seg m (first ws) (merge_prev l1 (b' :: r)) 0 ->
            ws_rep (set_blocks ws m) (merge_prev l1 (b' :: r))).
  { intros m Hsm. destruct Hr as [R1 R2 _ _ _]. by constructor. }
  destruct l1 as [|c l0 _] using rev_ind.
  - simpl. eexists. split; [reflexivity|]. split; [|done]. by apply Hrep.
  - pose proof (seg_pos _ _ _ _ (snoc_cons_ne l0 c (b :: l2)) Hs) as Hp0.
    unfold last_address. rewrite last_snoc, extent_app in *. simpl. rewrite Z.add_0_r.
    replace (first ws + (extent l0 + extent1 c) - extent1 c) with (first ws + extent l0) by lia.
    apply Forall_app in K1 as [K0 Kc]. rewrite Forall_singleton in Kc.
    pose proof (extent_nonneg _ K0).
    destruct (Z.eqb_spec (first ws + extent l0) 0); [lia|]. simpl.
    simpl in Hs1. rewrite Z.add_0_r, Z.add_assoc, <- app_assoc in Hs1. cbn [app] in Hs1.
    destruct (release_prev_refines _ _ _ _ _ _ Hs1 Kc Kb K0) as (p & Hp & _ & Hs2).
    unfold lookup_block. rewrite Z.add_assoc, Hp. cbn [obind].
    eexists. split; [reflexivity|]. split; [|done]. apply Hrep.
    rewrite merge_prev_snoc. exact Hs2.
Qed.

End Release.

(** ** What a session sees: payloads *)

Section Payloads.
Context `{PlatformLaws}.

Notation A := APTA_INTERNAL_MAX_ALIGNMENT.
Notation HDR := (sizeof T_workspace_block).
Notation PFX := apta_workspace_payload_prefix_size.
Notation first ws := (apta_workspace_first_block (ws_session ws)).

Lemma Permutation_of_eq {T} (l k : list T) : l = k -> l ≡ₚ k.
Proof. by intros ->. Qed.

Lemma payloads_app base l1 l2 :
  payloads base (l1 ++ l2) = payloads base l1 ++ payloads (base + extent l1) l2.
Proof.
  revert base. induction l1 as [|b l1 IH]; intros base; simpl; [by rewrite Z.add_0_r|].
  by rewrite IH, Z.add_assoc, app_assoc.
Qed.

Lemma payloads_cons base b l :
  payloads base (b :: l) = payloads base [b] ++ payloads (base + extent1 b) l.
Proof. simpl. by rewrite app_nil_r. Qed.

Lemma payloads_carve base required size b :
  payloads base (carve required size b) = [(base + HDR + PFX, size)].
Proof. unfold carve. by destruct (_ <=? _). Qed.

Lemma payloads_allocate base l1 b l2 required size :
  ab_free b = true ->
  payloads base (l1 ++ carve required size b ++ l2) ≡ₚ
  (base + extent l1 + HDR + PFX, size) :: payloads base (l1 ++ b :: l2).
Proof.
  intros Hf. rewrite !payloads_app, payloads_carve, (payloads_cons _ b), carve_extent. simpl.
  rewrite Hf. simpl. by rewrite <- Permutation_middle.
Qed.

Lemma payloads_release base l1 b l2 :
  ab_free b = false -> Forall block_ok l2 ->
  payloads base (l1 ++ b :: l2) ≡ₚ
  (base + extent l1 + HDR + PFX, ab_requested b) ::
    payloads base (merge_prev l1 (merge_next (release1 b) l2)).
Proof.
  intros Hf Hl2. rewrite payloads_app, (payloads_cons _ b). simpl. rewrite Hf. simpl.
  rewrite <- Permutation_middle. constructor.
  assert (Hn : exists b' r, merge_next (release1 b) l2 = b' :: r /\ ab_free b' = true /\
            forall a, payloads (a + extent1 b') r = payloads (a + extent1 b) l2).
  { destruct l2 as [|d l2]; [eexists _, _; by split_and!|]. simpl.
    destruct (ab_free d) eqn:Ed.
    2: { eexists _, _. split_and!; try reflexivity. intros a. simpl. by rewrite Ed. }
    eexists _, _. split_and!; try done. intros a. simpl.
    f_equal. unfold extent1. simpl. lia. }
  destruct Hn as (b' & r & -> & Hb' & Hr). rewrite <- Hr.
  destruct l1 as [|c l0 _] using rev_ind; [simpl; by rewrite Hb', Z.add_0_r|].
  rewrite merge_prev_snoc, extent_app, payloads_app, (payloads_app base l0). simpl.
  destruct (ab_free c) eqn:Ec; simpl; rewrite ?Ec, ?Hb', ?app_nil_r; simpl.
  - unfold extent1. simpl. apply Permutation_of_eq. do 2 f_equal. lia.
  - rewrite <- app_assoc. simpl. apply Permutation_of_eq. do 4 f_equal. lia.
Qed.

Lemma payloads_inside base l p n :
  list_ok l -> (p, n) ∈ payloads base l ->
  exists l1 b l2, l = l1 ++ b :: l2 /\ ab_free b = false /\
    p = base + extent l1 + HDR + PFX /\ n = ab_requested b.
Proof.
  intros _. revert base. induction l as [|b l IH]; intros base; simpl.
  - by intros ?%elem_of_nil.
  - intros [Hp|Hp]%elem_of_app.
    + destruct (ab_free b) eqn:Ef; [by apply elem_of_nil in Hp|].
      apply list_elem_of_singleton in Hp. injection Hp as -> ->.
      exists [], b, l. split_and!; try done. simpl. lia.
    + apply IH in Hp as (l1 & c & l2 & -> & Hc & -> & ->).
      exists (b :: l1), c, l2. split_and!; try done. simpl. lia.
Qed.

(** Every payload handed out lies in the buffer, behind its own headers. *)
Lemma payloads_bounds base l p n :
  (A | base) -> list_ok l -> (p, n) ∈ payloads base l ->
  (A | p) /\ base + HDR + PFX <= p /\ 1 <= n /\ p + n <= base + extent l.
Proof.
  intros Ha Hl Hp. apply payloads_inside in Hp as (l1 & b & l2 & -> & Hb & -> & ->); [|done].
  apply list_ok_app_cons in Hl as (K1 & [_ K2] & K3 & K4 & _). specialize (K2 Hb).
  pose proof (extent_nonneg _ K1). pose proof (extent_nonneg _ K3).
  pose proof header_aligned. pose proof prefix_facts as [_ ?].
  split_and!; try lia.
  - repeat apply Z.divide_add_r; try done. by apply aligned_extent.
  - rewrite extent_app. simpl. unfold extent1. lia.
Qed.

(** Payloads in address order, each with room for its headers before it. *)
Lemma payloads_sorted base l :
  list_ok l ->
  StronglySorted (fun x y => x.1 + x.2 + HDR + PFX <= y.1) (payloads base l).
Proof.
  intros [Hl _ _ _]. pose proof geometry.
  revert base. induction Hl as [|b l [Hb1 Hb2] Hl IH]; intros base; simpl; [constructor|].
  destruct (ab_free b); [apply IH|]. simpl. constructor; [apply IH|].
  specialize (Hb2 eq_refl).
  assert (Hlow : forall a, Forall (fun y => a + HDR + PFX <= y.1) (payloads a l)).
  { clear -Hl H0 H1. induction Hl as [|c l [Hc _] Hl IH]; intros a; simpl; [constructor|].
    apply Forall_app. split; [destruct (ab_free c); repeat constructor; simpl; lia|].
    eapply Forall_impl; [apply IH|]. simpl. unfold extent1. lia. }
  eapply Forall_impl; [apply Hlow|]. simpl. unfold extent1. lia.
Qed.

Lemma payloads_NoDup base l : list_ok l -> NoDup (payloads base l).*1.
Proof.
  intros Hl. pose proof (payloads_sorted base l Hl) as Hs.
  pose proof (payloads_inside base l) as Hin. pose proof geometry.
  assert (Hpos : forall x, x ∈ payloads base l -> 1 <= x.2).
  { intros [p n] Hx. destruct (Hin _ _ Hl Hx) as (l1 & b & l2 & -> & Hb & _ & ->).
    apply list_ok_app_cons in Hl as (_ & [_ K2] & _). simpl. specialize (K2 Hb). lia. }
  clear Hin Hl. induction Hs as [|x r Hs IH Hx]; simpl; [constructor|].
  constructor; [|apply IH; intros; apply Hpos; by right].
  intros (y & Hy & Hyr)%list_elem_of_fmap. rewrite Forall_forall in Hx. specialize (Hx _ Hyr).
  specialize (Hpos x ltac:(left)). lia.
Qed.

End Payloads.
