(* ===== verification/WorkspaceTheorems.v ===== *)
(** * What the static workspace promises a session

    The contract of [apta_internal_session_allocate] and
    [apta_internal_session_deallocate] over a caller's buffer: every payload
    is aligned, inside the buffer and disjoint from the live ones; a release
    gives back exactly that payload; a session that has released everything has
    the whole buffer again; and a buffer as large as
    [apta_internal_session_workspace_requirement] asks for never runs out under
    the allocations it was computed from. *)

From stdpp Require Import gmap.
From S2P Require Import Prelude Platform Workspace FreeList.

Section Theorems.
Context `{PlatformLaws}.

Notation A := APTA_INTERNAL_MAX_ALIGNMENT.
Notation HDR := (sizeof T_workspace_block).
Notation PFX := apta_workspace_payload_prefix_size.
Notation OFFSET := (apta_workspace_align_up (sizeof T_session) A).
Notation first ws := (apta_workspace_first_block (ws_session ws)).
Notation live ws l := (payloads (first ws) l).

(** Two byte ranges do not share a byte. *)
Definition disjoint_bytes (x y : Z * Z) : Prop := x.1 + x.2 <= y.1 \/ y.1 + y.2 <= x.1.

Definition inside_buffer (ws : workspace) (x : Z * Z) : Prop :=
  (A | x.1) /\ ws_session ws + sizeof T_session <= x.1 - sizeof T_allocation_header /\
  x.1 + x.2 <= ws_session ws + ws_size ws.

Lemma live_inside ws l x : ws_rep ws l -> x ∈ live ws l -> inside_buffer ws x /\ 1 <= x.2.
Proof.
  intros Hr Hx. destruct x as [p n]. destruct (first_pos _ _ Hr) as [Hp Ha].
  destruct (payloads_bounds _ _ _ _ Ha (wr_list _ _ Hr) Hx) as (B1 & B2 & B3 & B4).
  pose proof geometry. pose proof offset_facts. rewrite (wr_extent _ _ Hr) in B4.
  rewrite first_block_eq in B2. unfold inside_buffer. simpl. split_and!; try done; lia.
Qed.

(** Distinct live payloads are disjoint. *)
Lemma live_disjoint base l x y rest :
  list_ok l -> payloads base l ≡ₚ x :: rest -> y ∈ rest -> disjoint_bytes x y.
Proof.
  intros Hl Hp Hy. pose proof (payloads_sorted base l Hl) as Hs. pose proof geometry.
  pose proof (payloads_NoDup base l Hl) as Hnd.
  assert (Hx : x ∈ payloads base l) by (rewrite Hp; by left).
  assert (Hy' : y ∈ payloads base l) by (rewrite Hp; by right).
  assert (Hne : x <> y).
  { intros <-. rewrite Hp in Hnd. simpl in Hnd. apply NoDup_cons in Hnd as [Hnd _].
    by apply Hnd, list_elem_of_fmap_2. }
  clear Hp Hnd. unfold disjoint_bytes. induction Hs as [|z r Hs IH Hz]; [by apply elem_of_nil in Hx|].
  rewrite Forall_forall in Hz.
  apply elem_of_cons in Hx as [->|Hx]; apply elem_of_cons in Hy' as [->|Hy'].
  - done.
  - specialize (Hz _ Hy'). simpl in Hz. lia.
  - specialize (Hz _ Hx). simpl in Hz. lia.
  - by apply IH.
Qed.

Lemma allocate_spec_cases base size l l' p :
  allocate_spec base size l = (l', p) ->
  (p = 0 /\ l' = l /\ first_fit (required_bytes size) l = None) \/
  (exists l1 b l2, l = l1 ++ b :: l2 /\ ab_free b = true /\ required_bytes size <= ab_capacity b /\
     l' = l1 ++ carve (required_bytes size) size b ++ l2 /\ p = base + extent l1 + HDR + PFX).
Proof.
  unfold allocate_spec.
  destruct (first_fit (required_bytes size) l) as [[[l1 b] l2]|] eqn:E; intros [= <- <-].
  - right. apply first_fit_Some in E as (-> & ? & ?). eexists _, _, _. by split_and!.
  - left. done.
Qed.

(** C9. An allocation never reads outside the block list, always ends, and
    either changes nothing (NULL: the request is not servable, or no free block
    is large enough) or hands out a fresh payload: aligned for any type, inside
    the buffer behind its own headers, and sharing no byte with any payload that
    is still live. *)
Theorem workspace_allocate_contract ws l size alignment
    (Hrep : ws_rep ws l) (Hsize : is_size size) (Hal : is_size alignment) :
  exists ws' l' p,
    apta_internal_session_allocate_workspace ws size alignment = Ret (ws', p) /\
    ws_rep ws' l' /\ ws_session ws' = ws_session ws /\
    (p = 0 -> ws' = ws /\ l' = l /\
       (request_ok size alignment ->
        Forall (fun b => ab_free b = true ->
                         ab_capacity b < required_bytes (effective_size size)) l)) /\
    (p <> 0 ->
       live ws l' ≡ₚ (p, effective_size size) :: live ws l /\
       inside_buffer ws (p, effective_size size) /\
       Forall (disjoint_bytes (p, effective_size size)) (live ws l)).
Proof.
  destruct (request_ok_or_not size alignment Hsize Hal) as [Hq|Hq].
  2: { rewrite allocate_workspace_refused by done. eexists _, _, 0. by split_and!. }
  destruct (allocate_refines_spec _ _ _ _ Hrep Hsize Hal Hq)
    as (ws' & l' & p & E & Hspec & Hrep' & Hse & Hsz & Hsame & _).
  eexists _, _, _. split; [exact E|]. split; [exact Hrep'|]. split; [done|].
  pose proof (first_pos _ _ Hrep) as [Hfp _]. pose proof geometry.
  apply allocate_spec_cases in Hspec as [(-> & -> & Hn)|(l1 & b & l2 & -> & Hf & Hle & -> & ->)].
  - split; [|done]. intros _. split_and!; auto. intros _. by apply first_fit_None.
  - pose proof (seg_block_pos _ _ _ _ Hrep) as (Hp & _).
    split; [lia|]. intros _.
    pose proof (payloads_allocate (first ws) l1 b l2
                  (required_bytes (effective_size size)) (effective_size size) Hf) as Hperm.
    split; [exact Hperm|]. split.
    + destruct (live_inside _ _ (first ws + extent l1 + HDR + PFX, effective_size size) Hrep')
        as [Hin _]; [rewrite Hse, Hperm; by left|].
      unfold inside_buffer in *. by rewrite Hse, Hsz in Hin.
    + apply Forall_forall. intros y Hy. 
      eapply (live_disjoint (first ws)); [apply (wr_list _ _ Hrep') | exact Hperm | exact Hy].
Qed.

Lemma live_payload_located ws l p n :
  ws_rep ws l -> (p, n) ∈ live ws l ->
  exists l1 b l2, l = l1 ++ b :: l2 /\ ab_free b = false /\ n = ab_requested b /\
    p = first ws + extent l1 + HDR + PFX /\
    locate (first ws) p l = Some (l1, b, l2).
Proof.
  intros Hr Hp. apply payloads_inside in Hp as (l1 & b & l2 & -> & Hb & -> & ->);
    [|by apply Hr].
  exists l1, b, l2. split_and!; try done.
  pose proof (wr_list _ _ Hr) as Hl. apply list_ok_app_cons in Hl as (K1 & _).
  pose proof geometry. generalize (first ws). intros base. revert base.
  clear Hr Hb. induction K1 as [|c l1 [Hc _] K1 IH]; intros base; simpl.
  - destruct (Z.eqb_spec (base + HDR + PFX) (base + 0 + HDR + PFX)); [done | lia].
  - pose proof (extent_nonneg _ K1). unfold extent1 in *.
    destruct (Z.eqb_spec (base + HDR + PFX) (base + (HDR + ab_capacity c + extent l1) + HDR + PFX));
      [lia|].
    specialize (IH (base + (HDR + ab_capacity c))). rewrite <- !Z.add_assoc in *.
    rewrite !Z.add_assoc in *. by rewrite IH.
Qed.

Lemma release_not_live ws l memory :
  ws_rep ws l -> memory ∉ (live ws l).*1 ->
  apta_internal_session_deallocate_workspace ws memory = Ret ws.
Proof.
  intros Hr Hn. unfold apta_internal_session_deallocate_workspace.
  destruct (Z.eqb_spec memory 0); [done|].
  pose proof (find_payload_loop_locate ws memory _ _ _ 0 (wr_seg _ _ Hr)
                (walk_fuel_enough _ _ Hr)) as E.
  rewrite link_first in E by done. rewrite E. clear E.
  destruct (locate (first ws) memory l) as [[[l1 b] l2]|] eqn:El; simpl; [|done].
  apply locate_Some in El as [-> <-]. pose proof (seg_block_pos _ _ _ _ Hr) as (Hpos & _).
  destruct (Z.eqb_spec (first ws + extent l1) 0); [lia|].
  pose proof (wr_seg _ _ Hr) as Hb. apply seg_app in Hb as [_ Hb].
  apply seg_head in Hb as (Hm & _ & _). unfold lookup_block at 1. rewrite Hm. simpl.
  destruct (ab_free b) eqn:Ef; simpl; [done|]. destruct Hn.
  rewrite payloads_app, (payloads_cons _ b). simpl. rewrite Ef, fmap_app, fmap_app. simpl.
  apply elem_of_app. right. by left.
Qed.

(** C18. A release gives back exactly the payload it names, whatever its
    neighbours, and leaves every other live payload alone; a pointer that is not
    a live payload (never handed out, or already released) changes nothing. *)
Theorem workspace_release_contract ws l memory (Hrep : ws_rep ws l) :
  exists ws' l',
    apta_internal_session_deallocate_workspace ws memory = Ret ws' /\
    ws_rep ws' l' /\ ws_session ws' = ws_session ws /\
    (memory ∉ (live ws l).*1 -> ws' = ws) /\
    (forall n, (memory, n) ∈ live ws l -> live ws l ≡ₚ (memory, n) :: live ws l').
Proof.
  destruct (decide (memory ∈ (live ws l).*1)) as [Hin|Hn].
  - apply list_elem_of_fmap in Hin as ([p n] & -> & Hp). simpl.
    destruct (live_payload_located _ _ _ _ Hrep Hp) as (l1 & b & l2 & -> & Hb & Hn & Hpeq & Hloc).
    destruct (release_refines_spec ws _ p Hrep) as (ws' & E & Hrep' & Hse & _).
    pose proof (seg_block_pos _ _ _ _ Hrep) as (Hpos & _). pose proof geometry.
    destruct (Z.eqb_spec p 0); [lia|]. unfold release_spec in Hrep'. rewrite Hloc, Hb in Hrep'.
    exists ws', (merge_prev l1 (merge_next (release1 b) l2)). split_and!; try done.
    + intros Hx. destruct Hx. by apply (list_elem_of_fmap_2 fst _ (p, n)).
    + intros n' Hn'. 
      destruct (live_payload_located _ _ _ _ Hrep Hn') as (k1 & c & k2 & _ & _ & -> & _ & Hloc').
      rewrite Hloc in Hloc'. injection Hloc' as <- <- <-. rewrite Hpeq.
      apply payloads_release; [done|]. pose proof (wr_list _ _ Hrep) as Hl.
      by destruct (proj1 (list_ok_app_cons _ _ _) Hl) as (_ & _ & ? & _).
  - exists ws, l. split_and!; try done; [by eapply release_not_live|].
    intros n Hx. destruct Hn. by apply (list_elem_of_fmap_2 fst _ (memory, n)).
Qed.

Definition whole (capacity : Z) : ablock :=
  {| ab_capacity := capacity; ab_requested := 0; ab_free := true |}.

Lemma workspace_initialize_cases session static_workspace size :
  0 < static_workspace -> static_workspace + size <= SIZE_MAX + 1 ->
  match apta_internal_session_workspace_initialize session static_workspace size with
  | Ret ws =>
      session = static_workspace /\ ws_session ws = session /\ ws_size ws = size /\
      ws_rep ws [whole (size - OFFSET - HDR)]
  | Err APTA_ERROR_INVALID_ARGUMENT => session <> static_workspace \/ ~ (A | static_workspace)
  | Err APTA_ERROR_OUT_OF_MEMORY => size < OFFSET + HDR + PFX + A
  | _ => False
  end.
Proof.
  intros Hw Hend. unfold apta_internal_session_workspace_initialize, apta_internal_session_uses_workspace,
    apta_internal_session_workspace_minimum_size.
  pose proof geometry. pose proof offset_facts as [Ho Ha]. pose proof (sizeof_range T_session).
  destruct (Z.eqb_spec session 0); simpl; [lia|].
  destruct (Z.eqb_spec static_workspace 0); simpl; [lia|].
  destruct (Z.eqb_spec static_workspace session) as [<-|]; simpl; [|auto].
  destruct (Z.eqb_spec OFFSET SIZE_MAX); [lia|]. destruct (Z.eqb_spec PFX SIZE_MAX); [lia|]. simpl.
  destruct (Z.ltb_spec (SIZE_MAX - HDR - PFX - A) OFFSET); [lia|].
  destruct (Z.eqb_spec (OFFSET + HDR + PFX + A) SIZE_MAX); [lia|]. simpl.
  destruct (Z.ltb_spec size (OFFSET + HDR + PFX + A)); simpl; [lia|].
  assert (Hal : Z.land static_workspace (A - 1) = static_workspace mod A).
  { unfold APTA_INTERNAL_MAX_ALIGNMENT. rewrite <- Z.land_ones by (pose proof max_alignment_range; lia).
    by rewrite Z.ones_equiv, <- Z.sub_1_r. }
  rewrite Hal. destruct (Z.eqb_spec (static_workspace mod A) 0) as [Hz|Hz]; simpl.
  2: { right. intros Hd. apply Hz. apply Z.mod_divide; [lia | done]. }
  apply Z.mod_divide in Hz; [|lia]. rewrite first_block_eq.
  destruct (Z.eqb_spec (static_workspace + OFFSET) 0); [lia|].
  split_and!; try done. constructor; simpl; try done.
  - rewrite first_block_eq. unfold extent1. simpl. rewrite lookup_singleton_eq.
    split_and!; try done; lia.
  - rewrite first_block_eq. unfold extent1. simpl. lia.
  - constructor; try done. repeat constructor; simpl; done || lia.
Qed.

Lemma workspace_initialize_rep session static_workspace size :
  0 < static_workspace -> static_workspace + size <= SIZE_MAX + 1 -> forall ws,
  apta_internal_session_workspace_initialize session static_workspace size = Ret ws ->
  session = static_workspace /\ ws_session ws = session /\ ws_size ws = size /\
  ws_rep ws [whole (size - OFFSET - HDR)].
Proof.
  intros Hw Hend ws E. pose proof (workspace_initialize_cases session _ _ Hw Hend) as Hc.
  by rewrite E in Hc.
Qed.

(** ** Histories of allocations and releases *)

Inductive ws_op : Type :=
| op_allocate (size alignment : Z)
| op_release (memory : Z).

Definition ws_step (ws : workspace) (op : ws_op) : outcome loop_fault (workspace * Z) :=
  match op with
  | op_allocate size alignment => apta_internal_session_allocate_workspace ws size alignment
  | op_release memory =>
      let! ws := apta_internal_session_deallocate_workspace ws memory in Ret (ws, 0)
  end.

(** The final state and what each operation returned. *)
Fixpoint ws_run (ws : workspace) (ops : list ws_op)
  : outcome loop_fault (workspace * list Z) :=
  match ops with
  | [] => Ret (ws, [])
  | op :: ops =>
      let! r := ws_step ws op in
      let! rs := ws_run r.1 ops in
      Ret (rs.1, r.2 :: rs.2)
  end.

Definition op_ok (op : ws_op) : Prop :=
  match op with
  | op_allocate size alignment => is_size size /\ is_size alignment
  | op_release _ => True
  end.

Lemma ws_step_rep ws l op :
  ws_rep ws l -> op_ok op ->
  exists ws' l' p, ws_step ws op = Ret (ws', p) /\ ws_rep ws' l' /\
    ws_session ws' = ws_session ws /\ ws_size ws' = ws_size ws.
Proof.
  intros Hr Hop. destruct op as [size alignment|memory]; simpl in *.
  - destruct Hop as [Hs Ha].
    destruct (request_ok_or_not size alignment Hs Ha) as [Hq|Hq].
    + destruct (allocate_refines_spec _ _ _ _ Hr Hs Ha Hq)
        as (ws' & l' & p & E & _ & Hr' & Hse & Hsz & _). by exists ws', l', p.
    + exists ws, l, 0. by rewrite allocate_workspace_refused.
  - destruct (release_refines_spec ws l memory Hr) as (ws' & E & Hr' & Hse & Hsz & _).
    eexists ws', _, 0. rewrite E. by split_and!.
Qed.

Lemma ws_run_rep ws l ops :
  ws_rep ws l -> Forall op_ok ops ->
  exists ws' l' rs, ws_run ws ops = Ret (ws', rs) /\ ws_rep ws' l' /\
    ws_session ws' = ws_session ws /\ ws_size ws' = ws_size ws.
Proof.
  intros Hr Hops. revert ws l Hr. induction Hops as [|op ops Hop Hops IH]; intros ws l Hr; simpl.
  - by exists ws, l, [].
  - destruct (ws_step_rep _ _ _ Hr Hop) as (ws1 & l1 & p & -> & Hr1 & Hse1 & Hsz1). simpl.
    destruct (IH _ _ Hr1) as (ws2 & l2 & rs & -> & Hr2 & Hse2 & Hsz2). simpl.
    exists ws2, l2, (p :: rs). split_and!; try done; congruence.
Qed.

(** With nothing in use, coalescing leaves a single block. *)
Lemma all_released base l : list_ok l -> payloads base l = [] -> exists b, l = [b] /\ ab_free b = true.
Proof.
  intros [_ _ Hc Hn] Hp. destruct l as [|b l]; [done|]. simpl in Hp.
  destruct (ab_free b) eqn:Ef; [|done]. exists b. split; [|done]. f_equal.
  destruct l as [|c l]; [done|]. destruct Hc as [Hc _]. specialize (Hc Ef).
  simpl in Hp. by rewrite Hc in Hp.
Qed.

(** C19. Any history of allocations and releases, in any order and with any
    arguments, runs to its end; the live payloads stay inside the buffer and
    pairwise disjoint; and when everything has been released coalescing has
    restored one free block of the original capacity. *)
Theorem workspace_history_safe ws l ops
    (Hrep : ws_rep ws l) (Hops : Forall op_ok ops) :
  exists ws' l' rs,
    ws_run ws ops = Ret (ws', rs) /\ ws_rep ws' l' /\
    Forall (fun x => inside_buffer ws x) (live ws l') /\
    (forall x y rest, live ws l' ≡ₚ x :: y :: rest -> disjoint_bytes x y) /\
    (live ws l' = [] ->
     exists requested,
       l' = [ {| ab_capacity := ws_size ws - OFFSET - HDR; ab_requested := requested;
                 ab_free := true |} ]).
Proof.
  destruct (ws_run_rep _ _ _ Hrep Hops) as (ws' & l' & rs & E & Hr' & Hse & Hsz).
  exists ws', l', rs. split; [done|]. split; [done|]. split_and!.
  - apply Forall_forall. intros x Hx. rewrite <- Hse in Hx.
    destruct (live_inside _ _ _ Hr' Hx) as [Hi _]. unfold inside_buffer in *.
    by rewrite Hse, Hsz in Hi.
  - intros x y rest Hp. eapply live_disjoint; [apply (wr_list _ _ Hr') | exact Hp | by left].
  - intros Hn. destruct (all_released _ _ (wr_list _ _ Hr') Hn) as (b & -> & Hb).
    pose proof (wr_extent _ _ Hr') as He. rewrite first_block_eq, Hse, Hsz in He.
    simpl in He. unfold extent1 in He. exists (ab_requested b).
    destruct b as [c r f]. simpl in *. subst f. do 2 f_equal. lia.
Qed.

(** ** A buffer that is large enough never runs out *)

(** The bytes of the buffer an allocation uses up, headers and padding included. *)
Definition op_cost (op : ws_op) : Z :=
  match op with
  | op_allocate size _ => HDR + required_bytes (effective_size size)
  | op_release _ => 0
  end.

Definition total_cost (ops : list ws_op) : Z := foldr (fun op n => op_cost op + n) 0 ops.

Definition tail_at_least (k : Z) (l : list ablock) : Prop :=
  exists l0 b, l = l0 ++ [b] /\ ab_free b = true /\ k <= ab_capacity b.

(** The block at the end of the buffer still has what the budget promises, or
    the budget is too small for any further allocation. *)
Definition budget_ok (budget : Z) (l : list ablock) : Prop :=
  tail_at_least (budget + A) l \/ budget < HDR + PFX + A.

Lemma tail_cons k b l :
  tail_at_least k (b :: l) <->
  (l = [] /\ ab_free b = true /\ k <= ab_capacity b) \/ tail_at_least k l.
Proof.
  unfold tail_at_least. split.
  - intros (l0 & c & Hl & Hc & Hk). destruct l0 as [|d l0]; simpl in Hl; injection Hl as -> ->.
    + by left.
    + right. by exists l0, c.
  - intros [(-> & ? & ?)|(l0 & c & -> & ? & ?)]; [by exists [], b | by exists (b :: l0), c].
Qed.

Lemma tail_app k l1 l2 : tail_at_least k l2 -> tail_at_least k (l1 ++ l2).
Proof.
  intros (l0 & b & -> & ? & ?). exists (l1 ++ l0), b. by rewrite <- app_assoc.
Qed.

Lemma tail_mono k k' l : k' <= k -> tail_at_least k l -> tail_at_least k' l.
Proof. intros Hk (l0 & b & -> & ? & ?). exists l0, b. split_and!; done || lia. Qed.

Lemma tail_app_inv k l1 b l2 :
  tail_at_least k (l1 ++ b :: l2) ->
  (l2 = [] /\ ab_free b = true /\ k <= ab_capacity b) \/ tail_at_least k l2.
Proof.
  induction l1 as [|c l1 IH]; simpl; rewrite tail_cons; [done|].
  intros [(Hl & _)|Ht]; [by destruct l1 | by apply IH].
Qed.

Lemma budget_allocate budget l1 b l2 size :
  1 <= size <= SIZE_MAX - (A - 1) -> required_bytes size <= ab_capacity b ->
  HDR + required_bytes size <= budget -> budget_ok budget (l1 ++ b :: l2) ->
  budget_ok (budget - (HDR + required_bytes size))
    (l1 ++ carve (required_bytes size) size b ++ l2).
Proof.
  intros Hs Hle Hc Hb. pose proof geometry. destruct (required_bounds size Hs) as (_ & Hq & _ & Hm).
  destruct Hb as [Ht|]; [|lia]. apply tail_app_inv in Ht as [(-> & Hf & Hk)|Ht].
  - rewrite app_nil_r. unfold carve.
    destruct (Z.leb_spec (HDR + PFX + A) (ab_capacity b - required_bytes size)); [|right; lia].
    left. apply tail_app, tail_cons. right. apply tail_cons. left. simpl. split_and!; done || lia.
  - left. do 2 apply tail_app. eapply tail_mono; [|exact Ht]. lia.
Qed.

Lemma tail_merge_prev k l1 x r :
  Forall block_ok l1 -> tail_at_least k (x :: r) -> tail_at_least k (merge_prev l1 (x :: r)).
Proof.
  intros Hl Ht. pose proof geometry.
  destruct l1 as [|c l0 _] using rev_ind; [done|]. rewrite merge_prev_snoc.
  apply Forall_app in Hl as [_ Hc]. rewrite Forall_singleton in Hc. destruct Hc as [Hc _].
  apply tail_app. destruct (ab_free c) eqn:Ec; [|by apply tail_cons; right].
  apply tail_cons in Ht as [(-> & Hf & Hk)|Ht]; apply tail_cons; [left | by right].
  simpl. split_and!; done || lia.
Qed.

Lemma budget_release budget l1 b l2 :
  list_ok (l1 ++ b :: l2) -> ab_free b = false -> budget_ok budget (l1 ++ b :: l2) ->
  budget_ok budget (merge_prev l1 (merge_next (release1 b) l2)).
Proof.
  intros Hl Hf [Ht|]; [left | by right]. pose proof geometry.
  apply list_ok_app_cons in Hl as (K1 & [K2 _] & K3 & _).
  apply tail_app_inv in Ht as [(_ & Hx & _)|Ht]; [congruence|].
  destruct l2 as [|d l2]; [by destruct Ht as ([|] & ? & ? & _)|]. simpl.
  destruct (ab_free d) eqn:Ed; apply tail_merge_prev; try done.
  - apply tail_cons in Ht as [(-> & _ & Hk)|Ht]; apply tail_cons; [left | by right].
    simpl. split_and!; done || lia.
  - apply tail_cons. by right.
Qed.

Lemma budget_first_fit budget l size :
  1 <= size <= SIZE_MAX - (A - 1) -> HDR + required_bytes size <= budget ->
  budget_ok budget l -> first_fit (required_bytes size) l <> None.
Proof.
  intros Hs Hc [(l0 & b & -> & Hf & Hk)|Hb] Hn.
  - apply first_fit_None in Hn. apply Forall_app in Hn as [_ Hn].
    rewrite Forall_singleton in Hn. specialize (Hn Hf). pose proof geometry. lia.
  - pose proof geometry. destruct (required_bounds size Hs) as (_ & _ & _ & Hm). lia.
Qed.

Definition op_request_ok (op : ws_op) : Prop :=
  op_ok op /\ match op with op_allocate size al => request_ok size al | op_release _ => True end.

Definition op_served (op : ws_op) (p : Z) : Prop :=
  match op with op_allocate _ _ => p <> 0 | op_release _ => True end.

Lemma total_cost_nonneg ops : Forall op_request_ok ops -> 0 <= total_cost ops.
Proof.
  pose proof geometry.
  induction 1 as [|[size al|m] ops Hop _ IH]; simpl; [lia| |lia].
  destruct Hop as [[Hs _] [_ Hz _]]. apply effective_size_pos in Hs.
  destruct (required_bounds (effective_size size)) as (_ & ? & _); lia.
Qed.

Lemma budget_step budget ws l op :
  ws_rep ws l -> op_request_ok op -> op_cost op <= budget -> budget_ok budget l ->
  exists ws' l' p, ws_step ws op = Ret (ws', p) /\ ws_rep ws' l' /\ op_served op p /\
    budget_ok (budget - op_cost op) l'.
Proof.
  intros Hr [Hok Hq] Hc Hb. destruct op as [size al|memory]; simpl in *.
  - destruct Hok as [Hs Hal]. pose proof geometry.
    destruct (allocate_refines_spec _ _ _ _ Hr Hs Hal Hq) as (ws' & l' & p & E & Hsp & Hr' & _).
    assert (Hes : 1 <= effective_size size <= SIZE_MAX - (A - 1))
      by (apply effective_size_pos in Hs; destruct Hq; lia).
    exists ws', l', p. split; [done|]. split; [done|].
    apply allocate_spec_cases in Hsp as [(_ & _ & Hn)|(l1 & b & l2 & -> & Hf & Hle & -> & ->)].
    + by destruct (budget_first_fit _ _ _ Hes Hc Hb).
    + destruct (seg_block_pos _ _ _ _ Hr) as (Hp & _). split; [lia|].
      by apply budget_allocate.
  - destruct (release_refines_spec ws l memory Hr) as (ws' & E & Hr' & _).
    eexists ws', _, 0. rewrite E. split; [done|]. split; [exact Hr'|]. split; [done|].
    rewrite Z.sub_0_r. destruct (memory =? 0); [done|]. unfold release_spec.
    destruct (locate _ _ _) as [[[l1 b] l2]|] eqn:El; [|done].
    destruct (ab_free b) eqn:Ef; [done|]. apply locate_Some in El as [-> _].
    apply budget_release; [apply (wr_list _ _ Hr) | done | done].
Qed.

Lemma budget_run ops : forall budget ws l,
  ws_rep ws l -> Forall op_request_ok ops -> total_cost ops <= budget -> budget_ok budget l ->
  exists ws' rs, ws_run ws ops = Ret (ws', rs) /\ Forall2 op_served ops rs.
Proof.
  induction ops as [|op ops IH]; intros budget ws l Hr Hops Hc Hb; simpl in *.
  - exists ws, []. by split.
  - apply Forall_cons in Hops as [Hop Hops]. pose proof (total_cost_nonneg _ Hops).
    destruct (budget_step budget _ _ _ Hr Hop) as (ws1 & l1 & p & -> & Hr1 & Hp & Hb1);
      [lia | done |]. simpl.
    destruct (IH (budget - op_cost op) _ _ Hr1 Hops) as (ws2 & rs & -> & Hrs); [lia | done|].
    simpl. exists ws2, (p :: rs). split; [done | by constructor].
Qed.

(** C29. Fragmentation cannot make a session run out of memory: if the capacity
    covers the total cost of the requests in a history, headers and padding
    included, plus one alignment unit, every request is served, however releases
    are interleaved with them. *)
Theorem workspace_budget_suffices ws capacity ops
    (Hrep : ws_rep ws [whole capacity])
    (Hops : Forall op_request_ok ops)
    (Hbudget : total_cost ops + A <= capacity) :
  exists ws' rs, ws_run ws ops = Ret (ws', rs) /\ Forall2 op_served ops rs.
Proof.
  eapply (budget_run ops (total_cost ops)); [exact Hrep | done | done |].
  left. exists [], (whole capacity). split_and!; try done.
Qed.

End Theorems.

(** ** Concrete histories on LP64 *)

Import LP64.

(** A buffer of 20000 bytes at address 4096, just initialised. *)
Definition sample_workspace : workspace :=
  match apta_internal_session_workspace_initialize 4096 4096 20000 with
  | Ret ws => ws
  | _ => {| ws_session := 0; ws_size := 0; ws_blocks := ∅; ws_headers := ∅ |}
  end.

Lemma sample_rep : ws_rep sample_workspace [whole 8928].
Proof.
  assert (Hend : 4096 + 20000 <= SIZE_MAX + 1) by (vm_compute; congruence).
  destruct (workspace_initialize_rep 4096 4096 20000 ltac:(lia) Hend sample_workspace eq_refl)
    as (_ & _ & _ & Hr). exact Hr.
Qed.

Lemma workspace_allocate_contract_witness :
  ws_rep sample_workspace [whole 8928] /\ is_size 100 /\ is_size 8 /\
  exists ws' l' p,
    apta_internal_session_allocate_workspace sample_workspace 100 8 = Ret (ws', p) /\
    ws_rep ws' l' /\ p = 15200 /\ inside_buffer sample_workspace (p, 100).
Proof.
  split; [exact sample_rep|]. split; [split; vm_compute; congruence|].
  split; [split; vm_compute; congruence|].
  destruct (workspace_allocate_contract sample_workspace [whole 8928] 100 8 sample_rep)
    as (ws' & l' & p & E & Hr & _ & _ & Hp); [split; vm_compute; congruence ..|].
  exists ws', l', p. split; [exact E|]. split; [exact Hr|].
  assert (Ep : p = 15200) by (vm_compute in E; injection E as _ <-; reflexivity).
  split; [exact Ep|]. destruct Hp as (_ & Hi & _); [lia | exact Hi].
Defined.

Definition sample_used : workspace :=
  match apta_internal_session_allocate_workspace sample_workspace 100 8 with
  | Ret (ws, _) => ws
  | _ => sample_workspace
  end.

Definition used_blocks : list ablock := carve (required_bytes 100) 100 (whole 8928).

Lemma sample_used_rep : ws_rep sample_used used_blocks.
Proof.
  destruct (allocate_refines_spec sample_workspace [whole 8928] 100 8 sample_rep)
    as (ws' & l' & p & E & Hsp & Hr & _); [split; vm_compute; congruence .. | |].
  - constructor; [right; exists 3; split; [reflexivity | vm_compute; split; congruence]
                 | vm_compute; congruence | vm_compute; congruence].
  - unfold sample_used. rewrite E. vm_compute in Hsp. injection Hsp as <- <-. exact Hr.
Qed.

Lemma workspace_release_contract_witness :
  ws_rep sample_used used_blocks /\
  exists ws' l', apta_internal_session_deallocate_workspace sample_used 15200 = Ret ws' /\
    ws_rep ws' l' /\
    payloads 15136 used_blocks ≡ₚ (15200, 100) :: payloads 15136 l'.
Proof.
  split; [exact sample_used_rep|].
  destruct (workspace_release_contract sample_used used_blocks 15200 sample_used_rep)
    as (ws' & l' & E & Hr & _ & _ & Hp).
  exists ws', l'. split; [exact E|]. split; [exact Hr|]. apply Hp. vm_compute. by left.
Defined.

Definition sample_history : list ws_op :=
  [op_allocate 100 8; op_allocate 0 1; op_release 15200; op_release 15200; op_allocate 60 16].

Lemma workspace_history_safe_witness :
  ws_rep sample_workspace [whole 8928] /\ Forall op_ok sample_history /\
  exists ws' l' rs, ws_run sample_workspace sample_history = Ret (ws', rs) /\ ws_rep ws' l' /\
    rs = [15200; 15376; 0; 0; 15200].
Proof.
  assert (Hops : Forall op_ok sample_history)
    by (repeat constructor; vm_compute; congruence).
  split; [exact sample_rep|]. split; [exact Hops|].
  destruct (workspace_history_safe sample_workspace [whole 8928] sample_history sample_rep Hops)
    as (ws' & l' & rs & E & Hr & _).
  exists ws', l', rs. split; [exact E|]. split; [exact Hr|].
  vm_compute in E. injection E as _ <-. reflexivity.
Defined.

Definition small_history : list ws_op := [op_allocate 100 8; op_release 15200; op_allocate 4000 16].

Lemma sample_request_ok size k :
  0 <= size <= 4096 -> 0 <= k <= 4 -> op_request_ok (op_allocate size (2 ^ k)).
Proof.
  intros Hs Hk.
  assert (Hp : 1 <= 2 ^ k <= 2 ^ 4) by (split; [pose proof (Z.pow_pos_nonneg 2 k) | apply Z.pow_le_mono_r]; lia).
  change (2 ^ 4) with 16 in Hp.
  assert (He : 1 <= effective_size size <= 4096)
    by (unfold effective_size; destruct (Z.eqb_spec size 0); lia).
  assert (Hm : SIZE_MAX = UINT64_MAX /\ APTA_INTERNAL_MAX_ALIGNMENT = 16 /\
               apta_workspace_payload_prefix_size = 32) by (repeat split).
  destruct Hm as (Hm & Ha & Hpfx).
  split; [split; unfold is_size; lia|]. constructor.
  - right. exists k. split; [done | exact Hk].
  - lia.
  - destruct (required_bounds (effective_size size)) as (_ & Hr & _); lia.
Qed.

Lemma small_history_ok : Forall op_request_ok small_history.
Proof.
  apply Forall_cons. split; [apply (sample_request_ok 100 3); lia|].
  apply Forall_cons. split; [by split|].
  apply Forall_cons. split; [apply (sample_request_ok 4000 4); lia|]. by apply Forall_nil.
Qed.

Lemma workspace_budget_suffices_witness :
  ws_rep sample_workspace [whole 8928] /\ total_cost small_history + 16 <= 8928 /\
  exists ws' rs, ws_run sample_workspace small_history = Ret (ws', rs) /\
    Forall2 op_served small_history rs.
Proof.
  split; [exact sample_rep|]. split; [vm_compute; congruence|].
  apply (workspace_budget_suffices sample_workspace 8928 small_history sample_rep small_history_ok).
  vm_compute. congruence.
Defined.
