(* ===== verification/Requirement.v ===== *)
(** * The workspace a configuration asks for

    [apta_internal_session_workspace_requirement] adds up, saturating at
    [SIZE_MAX], the cost of every allocation a session of the configuration
    makes.  This file says which allocations those are, that the result is their cost
    when that fits in [size_t] and [SIZE_MAX] otherwise, and that a buffer of that size
    serves them all. *)

From stdpp Require Import gmap.
From S2P Require Import Prelude Platform Workspace FreeList WorkspaceTheorems.

Section Requirement.
Context `{PlatformLaws}.

Notation A := APTA_INTERNAL_MAX_ALIGNMENT.
Notation HDR := (sizeof T_workspace_block).
Notation PFX := apta_workspace_payload_prefix_size.
Notation OFFSET := (apta_workspace_align_up (sizeof T_session) A).

(** ** The charged allocations *)

(** The capacities a doubling array goes through before it holds [needed]. *)
Fixpoint doublings (fuel : nat) (needed capacity : Z) : list Z :=
  match fuel with
  | O => []
  | S fuel =>
      capacity :: if needed <=? capacity then [] else doublings fuel needed (capacity * 2)
  end.

Definition growable_charges (needed entry_size initial : Z) : list Z :=
  if needed =? 0 then []
  else map (fun c => c * entry_size) (doublings 64 needed initial).

Definition charged (c : bool) (l : list Z) : list Z := if c then l else [].

(** The sizes of the allocations charged for [features] and a number of columns. *)
Definition charges_for (features columns : Z) : list Z :=
  let s4 := any features APTA_INTERNAL_S4_FEATURES in
  let s6 := any features APTA_INTERNAL_S6_FEATURES in
  growable_charges columns (sizeof T_waveform_accumulator) 16 ++
  charged (any features APTA_FEATURE_WAVEFORM_3BAND)
    (growable_charges columns (APTA_INTERNAL_BAND_COUNT * sizeof T_uint32) 16) ++
  growable_charges APTA_INTERNAL_MAX_REGION_REQUESTS (sizeof T_range) 8 ++
  [sizeof T_pcm_node + APTA_INTERNAL_MAX_PUSH_FRAMES * sizeof T_float] ++
  charged (any features APTA_FEATURE_WAVEFORM_DETAIL)
    [APTA_INTERNAL_MAX_DETAIL_TILES * APTA_INTERNAL_DETAIL_COLUMNS_PER_TILE *
       sizeof T_waveform_accumulator] ++
  charged s4 [APTA_INTERNAL_ONSET_BIN_CAPACITY * sizeof T_onset_bin] ++
  charged s4 [APTA_INTERNAL_ONSET_BIN_CAPACITY * sizeof T_float] ++
  charged s6 [sizeof T_s6_session_state] ++
  charged s6 [APTA_INTERNAL_GLOBAL_BIN_CAPACITY * sizeof T_onset_bin] ++
  charged s6 [APTA_INTERNAL_GLOBAL_BIN_CAPACITY * sizeof T_float] ++
  charged s6 [APTA_INTERNAL_GLOBAL_MAX_BEATS * sizeof T_beat] ++
  [APTA_METADATA_MAX_TOTAL_BYTES].

(** Those the requirement charges for. *)
Definition requirement_charges (config : apta_session_config_t) : list Z :=
  charges_for (cfg_requested_features config) (requirement_overview_columns config).

(** The bytes of the buffer an allocation of [size] bytes uses up. *)
Definition cost (size : Z) : Z := HDR + required_bytes (effective_size size).

Definition costs (l : list Z) : Z := foldr (fun s n => cost s + n) 0 l.

(** ** Saturating sums *)

(** [t] is the sum [x], cut off at [SIZE_MAX]. *)
Definition sat (t x : Z) : Prop := t = Z.min SIZE_MAX x /\ 0 <= x.

Lemma sat_add t a x y :
  sat t x -> sat a y -> sat (apta_workspace_add t a) (x + y).
Proof.
  unfold sat, apta_workspace_add. intros [-> Hx] [-> Hy]. pose proof size_max_bounds. split; [|lia].
  destruct (Z.eqb_spec (Z.min SIZE_MAX x) SIZE_MAX); simpl; [lia|].
  destruct (Z.eqb_spec (Z.min SIZE_MAX y) SIZE_MAX); simpl; [lia|].
  destruct (Z.ltb_spec (SIZE_MAX - Z.min SIZE_MAX y) (Z.min SIZE_MAX x)); lia.
Qed.

Lemma sat_exact x : 0 <= x <= SIZE_MAX -> sat x x.
Proof. unfold sat. lia. Qed.

Lemma sat_full x : SIZE_MAX <= x -> sat SIZE_MAX x.
Proof. unfold sat. pose proof size_max_bounds. lia. Qed.

(** Sizes whose cost fits in a [size_t]. *)
Definition cost_fits (size : Z) : Prop := 0 <= size <= SIZE_MAX - 131071.

Lemma cost_bounds size :
  cost_fits size ->
  1 <= effective_size size /\ HDR + PFX + effective_size size <= cost size <= SIZE_MAX /\
  cost size < HDR + PFX + effective_size size + A.
Proof.
  unfold cost_fits, cost. intros Hs. pose proof geometry.
  pose proof (sizeof_range T_workspace_block). pose proof prefix_facts.
  pose proof (sizeof_range T_allocation_header).
  assert (He : 1 <= effective_size size <= SIZE_MAX - 131071)
    by (unfold effective_size; destruct (Z.eqb_spec size 0); lia).
  destruct (required_bounds (effective_size size)) as (_ & ? & _); lia.
Qed.

Lemma allocation_cost_exact size :
  cost_fits size -> apta_workspace_allocation_cost size = cost size.
Proof.
  intros Hs. destruct (cost_bounds size Hs) as (He & Hc & _). pose proof geometry.
  unfold apta_workspace_allocation_cost. fold (effective_size size). unfold cost in *.
  unfold required_bytes in *.
  destruct (Z.eqb_spec (apta_workspace_align_up (effective_size size) A) SIZE_MAX); [lia|].
  destruct (Z.eqb_spec PFX SIZE_MAX); [lia|]. simpl.
  rewrite size_t_small by (unfold is_size; lia). lia.
Qed.

Lemma sat_cost size : cost_fits size -> sat (apta_workspace_allocation_cost size) (cost size).
Proof.
  intros Hs. rewrite allocation_cost_exact by done. apply sat_exact.
  destruct (cost_bounds size Hs) as (? & ? & ?). pose proof geometry. lia.
Qed.

Lemma costs_nonneg l : Forall cost_fits l -> 0 <= costs l.
Proof.
  pose proof geometry. induction 1 as [|s l Hs _ IH]; simpl; [lia|].
  destruct (cost_bounds s Hs) as (? & ? & ?). lia.
Qed.

Lemma costs_app l k : costs (l ++ k) = costs l + costs k.
Proof. induction l; simpl; lia. Qed.

(** ** The doubling loop *)

(** The capacities are [8 * 2^j], so a product that fits in a [size_t] stays
    clear of its end by more than the headers need. *)
Lemma doubling_fits capacity entry j :
  capacity = 8 * 2 ^ j -> 0 <= j -> 1 <= entry <= 16384 ->
  capacity <= SIZE_MAX / entry -> cost_fits (capacity * entry).
Proof.
  intros -> Hj He Hc. unfold cost_fits.
  assert (Hle : 8 * 2 ^ j * entry <= SIZE_MAX).
  { pose proof (Z.mul_div_le SIZE_MAX entry ltac:(lia)). nia. }
  assert (Hp : 0 < 2 ^ j) by (apply Z.pow_pos_nonneg; lia).
  split; [nia|].
  destruct (Z_lt_dec j 14) as [Hs|Hs].
  - assert (2 ^ j <= 2 ^ 13) by (apply Z.pow_le_mono_r; lia).
    pose proof geometry. change (2 ^ 13) with 8192 in *.
    assert (8 * 2 ^ j * entry <= 65536 * 16384) by nia. lia.
  - destruct size_max_pow2 as (w & Hw & Hm). rewrite Hm in *.
    replace (8 * 2 ^ j) with (2 ^ 17 * 2 ^ (j - 14)) in *.
    2: { change 8 with (2 ^ 3). rewrite <- !Z.pow_add_r by lia. f_equal. lia. }
    replace (2 ^ w) with (2 ^ 17 * 2 ^ (w - 17)) in * by (rewrite <- Z.pow_add_r by lia; f_equal; lia).
    change (2 ^ 17) with 131072 in *. nia.
Qed.

Lemma cost_nonneg size : 0 <= cost size.
Proof.
  unfold cost, required_bytes, apta_workspace_align_up. pose proof geometry.
  destruct (_ <? _); [lia|].
  assert (0 <= Z.land (effective_size size + A - 1) (Z.lxor (A - 1) SIZE_MAX)); [|lia].
  apply Z.land_nonneg. right. apply Z.lxor_nonneg. lia.
Qed.

(** A size that does not fit costs all there is. *)
Lemma cost_huge size : SIZE_MAX < size -> SIZE_MAX <= cost size.
Proof.
  intros Hs. unfold cost, required_bytes, apta_workspace_align_up, effective_size. pose proof geometry.
  destruct (Z.eqb_spec size 0); [lia|]. destruct (Z.ltb_spec (SIZE_MAX - (A - 1)) size); lia.
Qed.

Lemma costs_pos l : 0 <= costs l.
Proof. induction l as [|s l IH]; simpl; [lia|]. pose proof (cost_nonneg s). lia. Qed.

(** [j] is the number of doublings done. *)
Lemma growable_loop_exact fuel needed entry j :
  1 <= entry <= 16384 -> 0 <= j <= 29 -> Z.of_nat fuel > 30 - j -> needed <= 2 ^ 31 ->
  forall acc x, sat acc x ->
  exists c, growable_loop fuel needed entry (8 * 2 ^ j) acc = Some c /\
    sat c (x + costs (map (fun c => c * entry) (doublings fuel needed (8 * 2 ^ j)))).
Proof.
  intros He. revert j. induction fuel as [|fuel IH]; intros j Hj Hf Hneed acc x Hx; [lia|].
  cbn [growable_loop doublings map].
  assert (Hp : 1 <= 2 ^ j <= 2 ^ 29) by (split; [pose proof (Z.pow_pos_nonneg 2 j) | apply Z.pow_le_mono_r]; lia).
  change (2 ^ 29) with 536870912 in Hp. change (2 ^ 31) with 2147483648 in Hneed.
  set (rest := map _ _). pose proof (costs_pos rest) as Hr.
  change (costs (8 * 2 ^ j * entry :: rest)) with (cost (8 * 2 ^ j * entry) + costs rest).
  destruct (Z.ltb_spec (SIZE_MAX / entry) (8 * 2 ^ j)) as [Hbig|Hc].
  { eexists. split; [reflexivity|]. apply sat_full. destruct Hx as [_ Hx].
    assert (Hh : SIZE_MAX < 8 * 2 ^ j * entry).
    { pose proof (Z.mod_pos_bound SIZE_MAX entry ltac:(lia)). pose proof (Z.div_mod SIZE_MAX entry ltac:(lia)). nia. }
    pose proof (cost_huge _ Hh). lia. }
  pose proof (doubling_fits _ entry j eq_refl (proj1 Hj) He Hc) as Hfit.
  assert (Hsz : size_t (8 * 2 ^ j * entry) = 8 * 2 ^ j * entry).
  { apply size_t_small. unfold cost_fits, is_size in *. lia. }
  rewrite Hsz. pose proof (sat_add _ _ _ _ Hx (sat_cost _ Hfit)) as Hacc.
  set (acc' := apta_workspace_add acc (apta_workspace_allocation_cost (8 * 2 ^ j * entry))) in *.
  destruct (Z.eqb_spec acc' SIZE_MAX) as [Hfull|Hne]; simpl.
  { eexists. split; [reflexivity|]. rewrite Hfull in *. apply sat_full. destruct Hacc as [Hmin _]. lia. }
  subst rest. destruct (Z.leb_spec needed (8 * 2 ^ j)).
  - eexists. split; [reflexivity|]. simpl. by rewrite Z.add_0_r.
  - destruct (Z.ltb_spec (UINT32_MAX / 2) (8 * 2 ^ j)) as [Hover|Hlt].
    { exfalso. change (UINT32_MAX / 2) with 2147483647 in Hover. lia. }
    assert (Hu : u64 (8 * 2 ^ j * 2) = 8 * 2 ^ (j + 1)).
    { rewrite u64_small by (unfold is_u64; lia). rewrite Z.pow_add_r by lia. lia. }
    rewrite Hu. assert (j <> 29) by (intros ->; vm_compute in Hlt; by apply Hlt).
    destruct (IH (j + 1) ltac:(lia) ltac:(lia) Hneed _ _ Hacc) as (c & Hcc & Hs).
    exists c. split; [done|]. rewrite Z.pow_add_r in Hs by lia.
    replace (8 * (2 ^ j * 2 ^ 1)) with (8 * 2 ^ j * 2) in Hs by lia.
    by rewrite Z.add_assoc.
Qed.

Lemma growable_cost_sat needed entry j :
  1 <= entry <= 16384 -> 0 <= j <= 1 -> needed <= 2 ^ 31 ->
  sat (apta_workspace_growable_cost needed entry (8 * 2 ^ j))
    (costs (growable_charges needed entry (8 * 2 ^ j))).
Proof.
  intros He Hj Hn. pose proof geometry.
  unfold apta_workspace_growable_cost, growable_charges.
  destruct (needed =? 0); [apply sat_exact; simpl; lia|].
  destruct (growable_loop_exact 64 needed entry j He) with (acc := 0) (x := 0)
    as (c & -> & Hc); [lia | lia | lia | apply sat_exact; lia |]. exact Hc.
Qed.

(** More than 2^31 entries are refused: the loop never ends with an array. *)
Lemma growable_loop_refused fuel needed entry j :
  1 <= entry <= 16384 -> 0 <= j <= 28 -> Z.of_nat fuel > 30 - j -> 2 ^ 31 < needed -> forall acc,
  growable_loop fuel needed entry (8 * 2 ^ j) acc = Some SIZE_MAX.
Proof.
  intros He. revert j. induction fuel as [|fuel IH]; intros j Hj Hf Hn acc; [lia|]. cbn [growable_loop].
  assert (Hp : 1 <= 2 ^ j <= 2 ^ 28) by (split; [pose proof (Z.pow_pos_nonneg 2 j) | apply Z.pow_le_mono_r]; lia).
  change (2 ^ 28) with 268435456 in Hp. change (2 ^ 31) with 2147483648 in Hn.
  destruct (_ <? _); [done|]. destruct (Z.eqb_spec (apta_workspace_add acc
    (apta_workspace_allocation_cost (size_t (8 * 2 ^ j * entry)))) SIZE_MAX) as [->|]; [done|]. cbn [orb].
  destruct (Z.leb_spec needed (8 * 2 ^ j)); [lia|].
  destruct (Z.ltb_spec (UINT32_MAX / 2) (8 * 2 ^ j)) as [|Hlt]; [done|].
  rewrite u64_small by (unfold is_u64; lia).
  replace (8 * 2 ^ j * 2) with (8 * 2 ^ (j + 1)) by (rewrite Z.pow_add_r by lia; lia).
  apply IH; try lia. assert (j <> 28) by (intros ->; vm_compute in Hlt; by apply Hlt). lia.
Qed.

(** The array the charges end with holds every entry. *)
Lemma doublings_cover fuel needed capacity :
  0 < capacity -> needed <= capacity * 2 ^ (Z.of_nat fuel - 1) -> (0 < fuel)%nat ->
  exists c, last (doublings fuel needed capacity) = Some c /\ needed <= c.
Proof.
  revert capacity. induction fuel as [|fuel IH]; intros capacity Hc Hn Hf; [lia|].
  cbn [doublings]. destruct (Z.leb_spec needed capacity); [by exists capacity|].
  destruct fuel as [|fuel]; [change (2 ^ (Z.of_nat 1 - 1)) with 1 in Hn; lia|].
  destruct (IH (capacity * 2)) as (c & Hl & Hcn); [lia | | lia |].
  - replace (Z.of_nat (S (S fuel)) - 1) with (Z.of_nat (S fuel) - 1 + 1) in Hn by lia.
    rewrite Z.pow_add_r in Hn by lia. lia.
  - exists c. split; [|done].
    change (last (capacity :: doublings (S fuel) needed (capacity * 2))) with
      (match doublings (S fuel) needed (capacity * 2) with
       | [] => Some capacity | l => last l end).
    destruct (doublings (S fuel) needed (capacity * 2)); [done|exact Hl].
Qed.

Lemma sat_charge_if (c : bool) t amount x l :
  sat t x -> sat amount (costs l) ->
  sat (if c then apta_workspace_add t amount else t) (x + costs (charged c l)).
Proof. destruct c; simpl; [apply sat_add|]. by rewrite Z.add_0_r. Qed.

Lemma sat_single size : cost_fits size -> sat (apta_workspace_allocation_cost size) (costs [size]).
Proof. simpl. rewrite Z.add_0_r. apply sat_cost. Qed.

Lemma fixed_fits k t : 0 <= k <= 16384 -> cost_fits (k * sizeof t).
Proof. intros Hk. pose proof (sizeof_range t). pose proof geometry. unfold cost_fits. nia. Qed.

(** A mapped range of multiples of a structure's size fits. *)
Ltac fits :=
  match goal with
  | |- cost_fits (?k * sizeof ?t) => apply fixed_fits; vm_compute; split; congruence
  end.

(** Up to 2^31 columns the requirement is the saturated sum. *)
Lemma requirement_sat config : requirement_overview_columns config <= 2 ^ 31 ->
  sat (apta_internal_session_workspace_requirement config)
    (OFFSET + costs (requirement_charges config) + (HDR + A)).
Proof.
  intros Hcols.
  pose proof geometry. pose proof offset_facts. pose proof (sizeof_range T_session).
  pose proof (sizeof_range T_waveform_accumulator) as Sa.
  pose proof (sizeof_range T_range) as Sr. pose proof (sizeof_range T_pcm_node).
  pose proof (sizeof_range T_float). pose proof (sizeof_range T_s6_session_state).
  assert (Hband : 1 <= APTA_INTERNAL_BAND_COUNT * sizeof T_uint32 <= 16384)
    by (unfold APTA_INTERNAL_BAND_COUNT; rewrite sizeof_uint32; lia).
  unfold apta_internal_session_workspace_requirement. cbv zeta.
  destruct (Z.eqb_spec OFFSET SIZE_MAX); [lia|].
  unfold requirement_charges, charges_for. rewrite !costs_app, !Z.add_assoc, <- (Z.add_assoc _ HDR A).
  apply sat_add; [|apply sat_exact; lia].
  apply sat_add; [|apply sat_single; unfold cost_fits, APTA_METADATA_MAX_TOTAL_BYTES; lia].
  do 3 (apply sat_charge_if; [|apply sat_single; fits]).
  apply sat_charge_if; [|apply sat_single; unfold cost_fits; lia].
  do 2 (apply sat_charge_if; [|apply sat_single; fits]).
  apply sat_charge_if; [|apply sat_single; fits].
  apply sat_add; [|apply sat_single; unfold cost_fits, APTA_INTERNAL_MAX_PUSH_FRAMES; lia].
  apply sat_add; [|apply (growable_cost_sat _ _ 0); unfold APTA_INTERNAL_MAX_REGION_REQUESTS; lia].
  apply sat_charge_if; [|apply (growable_cost_sat _ _ 1); lia].
  apply sat_add; [|apply (growable_cost_sat _ _ 1); lia].
  apply sat_exact; lia.
Qed.

(** With more columns it is [SIZE_MAX]. *)
Lemma requirement_refused config : 2 ^ 31 < requirement_overview_columns config ->
  apta_internal_session_workspace_requirement config = SIZE_MAX.
Proof.
  intros Hcols. unfold apta_internal_session_workspace_requirement. cbv zeta.
  destruct (OFFSET =? SIZE_MAX); [done|].
  assert (E : apta_workspace_growable_cost (requirement_overview_columns config) (sizeof T_waveform_accumulator) 16 = SIZE_MAX).
  { unfold apta_workspace_growable_cost. destruct (Z.eqb_spec (requirement_overview_columns config) 0); [lia|].
    pose proof (sizeof_range T_waveform_accumulator). change 16 with (8 * 2 ^ 1). rewrite growable_loop_refused by lia. done. }
  rewrite E. assert (Hr : forall a, apta_workspace_add a SIZE_MAX = SIZE_MAX).
  { intros a. unfold apta_workspace_add. rewrite Z.eqb_refl, orb_true_r. done. }
  assert (Hl : forall a, apta_workspace_add SIZE_MAX a = SIZE_MAX).
  { intros a. unfold apta_workspace_add. by rewrite Z.eqb_refl. }
  rewrite Hr. repeat (rewrite ?Hl; destruct (any _ _)); by rewrite ?Hl.
Qed.

(** ** A buffer of the required size *)

#[local] Instance costs_proper : Proper ((≡ₚ) ==> eq) costs.
Proof. induction 1; simpl; lia. Qed.

Lemma costs_submseteq l k : l ⊆+ k -> costs l <= costs k.
Proof.
  intros (r & ->)%submseteq_Permutation. rewrite costs_app.
  pose proof (costs_pos r). lia.
Qed.

Definition allocation_sizes (ops : list ws_op) : list Z :=
  ops ≫= fun op => match op with op_allocate size _ => [size] | op_release _ => [] end.

Lemma total_cost_sizes ops : total_cost ops = costs (allocation_sizes ops).
Proof.
  induction ops as [|[size al|m] ops IH]; simpl; [done| |done].
  change (total_cost ops) with (foldr (fun op n => op_cost op + n) 0 ops) in IH.
  unfold total_cost. rewrite IH. reflexivity.
Qed.

(** C28. A buffer of the size the requirement reports is enough: once it has been
    initialised, every history whose allocations are among those the
    requirement charges for is served to the end, whatever is released in
    between and in whatever order. *)
Theorem workspace_requirement_sufficient config session size ws ops
    (Hsession : 0 < session) (Hend : session + size <= SIZE_MAX + 1)
    (Hinit : apta_internal_session_workspace_initialize session session size = Ret ws)
    (Hreq : apta_internal_session_workspace_requirement config <> SIZE_MAX)
    (Hsize : apta_internal_session_workspace_requirement config <= size)
    (Hops : Forall op_request_ok ops)
    (Hsizes : allocation_sizes ops ⊆+ requirement_charges config) :
  exists ws' rs, ws_run ws ops = Ret (ws', rs) /\ Forall2 op_served ops rs.
Proof.
  destruct (workspace_initialize_rep session session size Hsession Hend ws Hinit) as (_ & _ & _ & Hr).
  destruct (Z_lt_le_dec (2 ^ 31) (requirement_overview_columns config)) as [Hc|Hc]; [by rewrite requirement_refused in Hreq|].
  destruct (requirement_sat config Hc) as [E _].
  apply (budget_run ops (total_cost ops) ws [whole (size - OFFSET - HDR)]); [done | done | lia |].
  left. exists [], (whole (size - OFFSET - HDR)). split_and!; try done. simpl.
  pose proof (costs_submseteq _ _ Hsizes). rewrite total_cost_sizes. lia.
Qed.

(** ** The columns of the overview *)

(** Away from the end of the 64-bit range, the columns cover the track and no
    column is idle. *)
Theorem requirement_columns_exact (config : apta_session_config_t) :
  let fpc := if cfg_overview_frames_per_column config =? 0
             then APTA_INTERNAL_OVERVIEW_FRAMES_PER_COLUMN
             else cfg_overview_frames_per_column config in
  is_u32 (cfg_overview_frames_per_column config) ->
  0 <= cfg_total_frames config -> cfg_total_frames config + fpc <= UINT64_MAX ->
  let columns := requirement_overview_columns config in
  cfg_total_frames config <= columns * fpc < cfg_total_frames config + fpc.
Proof.
  intros fpc Hf Ht Hle columns. subst columns fpc. unfold requirement_overview_columns.
  unfold is_u32 in Hf. rewrite !if_negb.
  set (fpc := if cfg_overview_frames_per_column config =? 0 then _ else _) in *.
  assert (Hp : 1 <= fpc <= UINT32_MAX).
  { subst fpc. unfold APTA_INTERNAL_OVERVIEW_FRAMES_PER_COLUMN.
    destruct (Z.eqb_spec (cfg_overview_frames_per_column config) 0); lia. }
  destruct (Z.eqb_spec (cfg_total_frames config) 0) as [->|]; [lia|].
  rewrite !u64_small by (rewrite ?u64_small; unfold is_u64; lia).
  pose proof (Z.div_mod (cfg_total_frames config + fpc - 1) fpc ltac:(lia)).
  pose proof (Z.mod_pos_bound (cfg_total_frames config + fpc - 1) fpc ltac:(lia)). lia.
Qed.

(** The columns of a track, in unbounded arithmetic. *)
Definition columns_of_track (config : apta_session_config_t) : Z :=
  let fpc := if cfg_overview_frames_per_column config =? 0
             then APTA_INTERNAL_OVERVIEW_FRAMES_PER_COLUMN
             else cfg_overview_frames_per_column config in
  (cfg_total_frames config + fpc - 1) / fpc.

Lemma columns_exact config : is_u32 (cfg_overview_frames_per_column config) ->
  0 <= cfg_total_frames config -> cfg_total_frames config + UINT32_MAX <= UINT64_MAX ->
  requirement_overview_columns config = columns_of_track config.
Proof.
  intros Hf Ht Hle. unfold requirement_overview_columns, columns_of_track. unfold is_u32 in Hf. rewrite !if_negb.
  set (fpc := if cfg_overview_frames_per_column config =? 0 then _ else _) in *.
  assert (Hp : 1 <= fpc <= UINT32_MAX).
  { subst fpc. unfold APTA_INTERNAL_OVERVIEW_FRAMES_PER_COLUMN.
    destruct (Z.eqb_spec (cfg_overview_frames_per_column config) 0); lia. }
  destruct (Z.eqb_spec (cfg_total_frames config) 0) as [->|].
  - rewrite Z.div_small by lia. done.
  - by rewrite !u64_small by (rewrite ?u64_small; unfold is_u64; lia).
Qed.

(** C30. For a track whose length is known, and at least 2^32 frames short of the end
    of the 64-bit range, the requirement is the session object, plus the cost of every
    allocation charged for the columns that cover the track -- in unbounded arithmetic
    --, plus one spare block header and alignment unit, when that sum fits in [size_t],
    and [SIZE_MAX] when it does not; only a track of more than 2^31 columns is refused
    although the sum may fit. *)
Theorem workspace_requirement_exact config
    (Hresolution : is_u32 (cfg_overview_frames_per_column config)) (Hlength : 0 <= cfg_total_frames config)
    (Hrange : cfg_total_frames config + UINT32_MAX <= UINT64_MAX) :
  let columns := columns_of_track config in
  apta_internal_session_workspace_requirement config =
    if 2 ^ 31 <? columns then SIZE_MAX
    else Z.min SIZE_MAX (OFFSET + costs (charges_for (cfg_requested_features config) columns) + HDR + A).
Proof.
  intros columns. pose proof (columns_exact config Hresolution Hlength Hrange) as E. fold columns in E.
  destruct (Z.ltb_spec (2 ^ 31) columns) as [Hc|Hc].
  - apply requirement_refused. by rewrite E.
  - destruct (requirement_sat config ltac:(by rewrite E)) as [-> _]. unfold requirement_charges. rewrite E. f_equal. lia.
Qed.

(** C31. A track whose length is not known yet, [APTA_TOTAL_FRAMES_UNKNOWN], wraps
    around: no column is charged for, whatever the resolution. *)
Theorem requirement_columns_unknown_length config :
  cfg_overview_frames_per_column config <> 1 ->
  0 <= cfg_overview_frames_per_column config <= UINT32_MAX ->
  cfg_total_frames config = APTA_TOTAL_FRAMES_UNKNOWN ->
  requirement_overview_columns config = 0.
Proof.
  intros H1 Hf Ht. unfold requirement_overview_columns. rewrite Ht, !if_negb.
  set (fpc := if cfg_overview_frames_per_column config =? 0
              then APTA_INTERNAL_OVERVIEW_FRAMES_PER_COLUMN
              else cfg_overview_frames_per_column config).
  assert (Hp : 2 <= fpc <= UINT32_MAX).
  { subst fpc. unfold APTA_INTERNAL_OVERVIEW_FRAMES_PER_COLUMN.
    destruct (Z.eqb_spec (cfg_overview_frames_per_column config) 0); lia. }
  change (APTA_TOTAL_FRAMES_UNKNOWN =? 0) with false. cbv iota. fold fpc.
  assert (Hw : u64 (APTA_TOTAL_FRAMES_UNKNOWN + fpc) = fpc - 1).
  { unfold u64, APTA_TOTAL_FRAMES_UNKNOWN. replace (UINT64_MAX + fpc) with (fpc - 1 + 1 * 18446744073709551616) by lia.
    rewrite Z.mod_add, Z.mod_small by lia. done. }
  rewrite Hw.
  rewrite u64_small by (unfold is_u64; lia). apply Z.div_small. lia.
Qed.

End Requirement.

(** ** A concrete configuration on LP64 *)

Import LP64.

(** Ten seconds of mono audio at 44.1 kHz, the overview only. *)
Definition sample_config : apta_session_config_t :=
  {| cfg_struct_size := 128; cfg_api_version := APTA_API_VERSION;
     cfg_input_mode := APTA_INPUT_MODE_PUSH; cfg_source_sample_rate := 44100;
     cfg_channel_count := 1; cfg_sample_format := APTA_SAMPLE_S16_NATIVE_INTERLEAVED;
     cfg_channel_layout := APTA_CHANNEL_LAYOUT_MONO; cfg_total_frames := 441000;
     cfg_requested_features := APTA_FEATURE_WAVEFORM_OVERVIEW;
     cfg_memory_budget_bytes := 0; cfg_static_workspace := 4096;
     cfg_static_workspace_size := 70000; cfg_flags := 0; cfg_overview_frames_per_column := 0;
     cfg_source_fingerprint_kind := 0; cfg_source_fingerprint := replicate 32 0 |}.

Definition sample_buffer : workspace :=
  match apta_internal_session_workspace_initialize 4096 4096 70000 with
  | Ret ws => ws
  | _ => sample_workspace
  end.

(** The range table and the first two overview arrays; the first is released
    once it has been copied. *)
Definition sample_session : list ws_op :=
  [op_allocate 128 8; op_allocate 512 8; op_allocate 1024 8; op_release 15392].

Lemma sample_session_ok : Forall op_request_ok sample_session.
Proof.
  repeat (apply Forall_cons; split; [first [by split | apply (sample_request_ok _ 3); lia]|]).
  by apply Forall_nil.
Qed.

Lemma sample_session_charged : allocation_sizes sample_session ⊆+ requirement_charges sample_config.
Proof.
  assert (E : requirement_charges sample_config =
              [512; 1024; 2048; 4096; 8192; 16384; 128; 256; 16408; 8192]) by (vm_compute; reflexivity).
  rewrite E. change (allocation_sizes sample_session) with [128; 512; 1024].
  apply (submseteq_cons_middle 128 [512; 1024] [512; 1024; 2048; 4096; 8192; 16384]
           [256; 16408; 8192]).
  apply (submseteq_inserts_r _ [512; 1024] [512; 1024]). reflexivity.
Qed.

Lemma workspace_requirement_sufficient_witness :
  apta_internal_session_workspace_requirement sample_config = 68976 /\
  exists ws' rs, ws_run sample_buffer sample_session = Ret (ws', rs) /\
    Forall2 op_served sample_session rs.
Proof.
  assert (Er : apta_internal_session_workspace_requirement sample_config = 68976)
    by (vm_compute; reflexivity).
  split; [exact Er|].
  apply (workspace_requirement_sufficient sample_config 4096 70000 sample_buffer sample_session).
  - lia.
  - vm_compute. congruence.
  - reflexivity.
  - rewrite Er. vm_compute. congruence.
  - rewrite Er. lia.
  - exact sample_session_ok.
  - exact sample_session_charged.
Defined.

Lemma requirement_columns_exact_witness :
  requirement_overview_columns sample_config = 431 /\ 441000 <= 431 * 1024 < 441000 + 1024.
Proof.
  split; [vm_compute; reflexivity|].
  apply (requirement_columns_exact sample_config); simpl; unfold is_u32; vm_compute;
    repeat split; congruence.
Defined.

(** The same configuration before the length is known. *)
Definition unknown_length_config : apta_session_config_t :=
  {| cfg_struct_size := 128; cfg_api_version := APTA_API_VERSION;
     cfg_input_mode := APTA_INPUT_MODE_PUSH; cfg_source_sample_rate := 44100;
     cfg_channel_count := 1; cfg_sample_format := APTA_SAMPLE_S16_NATIVE_INTERLEAVED;
     cfg_channel_layout := APTA_CHANNEL_LAYOUT_MONO;
     cfg_total_frames := APTA_TOTAL_FRAMES_UNKNOWN;
     cfg_requested_features := APTA_FEATURE_WAVEFORM_OVERVIEW;
     cfg_memory_budget_bytes := 0; cfg_static_workspace := 4096;
     cfg_static_workspace_size := 70000; cfg_flags := 0; cfg_overview_frames_per_column := 0;
     cfg_source_fingerprint_kind := 0; cfg_source_fingerprint := replicate 32 0 |}.

Lemma requirement_columns_unknown_length_witness :
  cfg_total_frames unknown_length_config = APTA_TOTAL_FRAMES_UNKNOWN /\
  requirement_overview_columns unknown_length_config = 0.
Proof.
  split; [reflexivity|].
  apply (requirement_columns_unknown_length unknown_length_config); simpl; lia || reflexivity.
Defined.

(** 431 columns: the arrays of 16 to 512 accumulators, and the rest. *)
Lemma workspace_requirement_exact_witness :
  apta_internal_session_workspace_requirement sample_config =
  11040 + costs [512; 1024; 2048; 4096; 8192; 16384; 128; 256; 16408; 8192] + 32 + 16.
Proof.
  pose proof (workspace_requirement_exact sample_config ltac:(unfold is_u32; simpl; lia) ltac:(simpl; lia) ltac:(simpl; lia)) as E.
  exact (eq_trans E ltac:(vm_compute; reflexivity)).
Defined.
