(* ===== verification/Memory.v ===== *)
(** * Context memory: accounting, alignment and dispatch
    (core/apta_memory.c, core/apta_context.c)

    A context charges every allocation of its sessions and results against
    [memory_limit_bytes].  The charge is taken by a compare-and-swap loop that
    several threads may run at once; the loop is modelled step by step, with
    the other threads' steps interleaved anywhere. *)

From stdpp Require Import gmap.
From S2P Require Import Prelude Platform Workspace FreeList WorkspaceTheorems.

(** ** The context object *)

(** A callback table: whether its functions are set, and its version fields. *)
Record callbacks : Type := {
  cb_struct_size : Z;
  cb_api_version : Z;
  cb_first : bool;
  cb_second : bool
}.

Record apta_context_config_t : Type := {
  cc_struct_size : Z;
  cc_api_version : Z;
  cc_allocator : callbacks;
  cc_logger : callbacks;
  cc_clock : callbacks;
  cc_requested_capabilities : Z;
  cc_memory_limit_bytes : Z;
  cc_flags : Z
}.

Record apta_context_t : Type := {
  ctx_capabilities : Z;
  ctx_memory_limit_bytes : Z;
  ctx_flags : Z;
  ctx_allocated_bytes : Z;
  ctx_session_count : Z;
  ctx_result_count : Z;
  ctx_lineage_counter : Z
}.

Definition set_allocated (c : apta_context_t) (v : Z) : apta_context_t :=
  {| ctx_capabilities := ctx_capabilities c;
     ctx_memory_limit_bytes := ctx_memory_limit_bytes c;
     ctx_flags := ctx_flags c;
     ctx_allocated_bytes := v;
     ctx_session_count := ctx_session_count c;
     ctx_result_count := ctx_result_count c;
     ctx_lineage_counter := ctx_lineage_counter c |}.

Section Context_object.
Context `{Platform}.
(** [sizeof] of the tables of callbacks and of the configuration. *)
Context (sizeof_allocator sizeof_logger sizeof_clock sizeof_context_config : Z).

Definition apta_internal_allocator_is_valid (a : callbacks) : bool :=
  if negb (cb_first a) && negb (cb_second a) then true
  else apta_internal_validate_struct true sizeof_allocator (cb_struct_size a) (cb_api_version a) &&
       cb_first a && cb_second a.

Definition apta_internal_logger_is_valid (l : callbacks) : bool :=
  negb (cb_first l) ||
  apta_internal_validate_struct true sizeof_logger (cb_struct_size l) (cb_api_version l).

Definition apta_internal_clock_is_valid (c : callbacks) : bool :=
  negb (cb_first c) ||
  apta_internal_validate_struct true sizeof_clock (cb_struct_size c) (cb_api_version c).

Definition available_capabilities : Z :=
  Z.lor APTA_FEATURE_WAVEFORM_OVERVIEW (Z.lor APTA_FEATURE_WAVEFORM_DETAIL
  (Z.lor APTA_FEATURE_WAVEFORM_3BAND (Z.lor APTA_FEATURE_BPM
  (Z.lor APTA_FEATURE_LOCAL_BEATGRID (Z.lor APTA_FEATURE_GLOBAL_BEATGRID
  (Z.lor APTA_FEATURE_DYNAMIC_TEMPO (Z.lor APTA_FEATURE_CONFIDENCE
   APTA_FEATURE_GRID_LOCKING))))))).

(** [object] is what the allocator returned for the context, 0 for NULL. *)
Definition apta_context_create (config : option apta_context_config_t) (object : Z)
  : result apta_context_t :=
  match config with
  | None => Err APTA_ERROR_INVALID_ARGUMENT
  | Some config =>
      bail APTA_ERROR_INCOMPATIBLE_VERSION when
        negb (apta_internal_validate_struct true sizeof_context_config
                (cc_struct_size config) (cc_api_version config)) in
      bail APTA_ERROR_INVALID_ARGUMENT when
        negb (apta_internal_allocator_is_valid (cc_allocator config)) ||
        negb (apta_internal_logger_is_valid (cc_logger config)) ||
        negb (apta_internal_clock_is_valid (cc_clock config)) in
      bail APTA_ERROR_UNSUPPORTED when
        any (cc_requested_capabilities config) (not64 available_capabilities) in
      bail APTA_ERROR_OUT_OF_MEMORY when (object =? 0) in
      Ret {| ctx_capabilities :=
               if negb (cc_requested_capabilities config =? 0)
               then cc_requested_capabilities config else available_capabilities;
             ctx_memory_limit_bytes := cc_memory_limit_bytes config;
             ctx_flags := cc_flags config;
             ctx_allocated_bytes := 0;
             ctx_session_count := 0;
             ctx_result_count := 0;
             ctx_lineage_counter := 0 |}
  end.

Definition apta_context_destroy (context : option apta_context_t) : apta_status_t :=
  match context with
  | None => APTA_STATUS_OK
  | Some c =>
      if negb (ctx_session_count c =? 0) || negb (ctx_result_count c =? 0) ||
         negb (ctx_allocated_bytes c =? 0)
      then APTA_ERROR_BUSY else APTA_STATUS_OK
  end.

Definition apta_context_get_capabilities (context : option apta_context_t) : Z :=
  match context with Some c => ctx_capabilities c | None => 0 end.

(** ** Allocation by one thread *)

(** [apta_internal_reserve_bytes] when no other thread interferes: the first
    compare-and-swap succeeds.  [None] is the result 0. *)
Definition apta_internal_reserve_bytes (context : apta_context_t) (requested_size : Z)
  : option apta_context_t :=
  let limit := ctx_memory_limit_bytes context in
  let current := ctx_allocated_bytes context in
  if limit =? 0 then Some (set_allocated context (size_t (current + requested_size)))
  else if limit <? requested_size then None
  else if limit - requested_size <? current then None
  else Some (set_allocated context (size_t (current + requested_size))).

(** [host] answers the request for [total_size] bytes with an address or 0; the
    result is the payload, 0 for NULL, and the header in front of it. *)
Definition apta_internal_context_allocate (host : Z -> Z) (context : apta_context_t)
    (size alignment : Z) : apta_context_t * (Z * option allocation_header) :=
  let size := if size =? 0 then 1 else size in
  let alignment := if alignment <? alignof_pointer then alignof_pointer else alignment in
  if negb (apta_internal_is_power_of_two alignment) then (context, (0, None))
  else if SIZE_MAX - sizeof T_allocation_header - (alignment - 1) <? size
  then (context, (0, None))
  else
    let total_size := size + sizeof T_allocation_header + alignment - 1 in
    match apta_internal_reserve_bytes context size with
    | None => (context, (0, None))
    | Some reserved =>
        let raw_memory := host total_size in
        if raw_memory =? 0
        then (set_allocated reserved (size_t (ctx_allocated_bytes reserved - size)), (0, None))
        else
          let start := raw_memory + sizeof T_allocation_header in
          let aligned := Z.land (size_t (start + alignment - 1))
                                (Z.lxor (alignment - 1) SIZE_MAX) in
          (reserved,
           (aligned,
            Some {| hdr_raw_memory := raw_memory;
                    hdr_allocated_size := total_size;
                    hdr_requested_size := size |}))
    end.

(** Where [apta_internal_context_deallocate] sends a block. *)
Inductive release_target : Type :=
| to_nobody
| to_workspace (owner : Z)
| to_host (raw_memory : Z).

(** A header whose block lies in the workspace of the session it names. *)
Definition in_workspace (h : allocation_header) : bool :=
  (hdr_allocated_size h =? 0) && negb (hdr_raw_memory h =? 0).

Definition refund (context : apta_context_t) (h : allocation_header) : apta_context_t :=
  set_allocated context (size_t (ctx_allocated_bytes context - hdr_requested_size h)).

(** [headers] is the memory in front of the payloads and [sessions] gives, by address,
    the context of a session and its [static_workspace]. *)
Definition apta_internal_context_deallocate (sessions : gmap Z (Z * Z)) (headers : gmap Z allocation_header)
    (context_address : Z) (context : apta_context_t) (memory : Z) : result (apta_context_t * release_target) :=
  if (context_address =? 0) || (memory =? 0) then Ret (context, to_nobody)
  else
    match headers !! (memory - sizeof T_allocation_header) with
    | None => Ub
    | Some h =>
        if in_workspace h
        then
          match sessions !! hdr_raw_memory h with
          | None => Ub
          | Some (owner_context, static_workspace) =>
              Ret (context, if (owner_context =? context_address) &&
                               apta_internal_session_uses_workspace (hdr_raw_memory h) static_workspace
                            then to_workspace (hdr_raw_memory h) else to_nobody)
          end
        else Ret (refund context h, to_host (hdr_raw_memory h))
    end.

End Context_object.

(** ** The compare-and-swap loop under interleaving *)

Module Reserve.

(** Where a thread is in [apta_internal_context_allocate] or
    [apta_internal_context_deallocate].  [at_check] and [at_compare] carry [current];
    [at_host] is between the charge and the answer of the host's allocator, [at_refund]
    before the subtraction. *)
Inductive pc : Type :=
| at_rest
| at_load (requested : Z)
| at_check (requested current : Z)
| at_compare (requested current : Z)
| at_host (requested : Z)
| at_refund (requested : Z).

(** The counter, the sizes of the blocks in the hands of the program, and the threads.
    A block belongs to no thread: any of them may release it. *)
Record state : Type := { allocated : Z; live : list Z; threads : list pc }.

Section Steps.
Context `{Platform}.
Context (limit : Z).

(** One step of a thread, with the counter and the live blocks before and after.  The
    counter is a [size_t]; [limit] and the comparisons are 64-bit.  The load is relaxed
    and the exchange may fail spuriously, so what they read is arbitrary; only a
    successful exchange has read the counter. *)
Inductive step1 : Z * list Z -> pc -> Z * list Z -> pc -> Prop :=
| call_unlimited n s live :
    1 <= n <= SIZE_MAX -> limit = 0 ->
    step1 (s, live) at_rest (size_t (s + n), live) (at_host n)
| call_too_large n s live :
    1 <= n <= SIZE_MAX -> limit <> 0 -> limit < n ->
    step1 (s, live) at_rest (s, live) at_rest
| call_limited n s live :
    1 <= n <= SIZE_MAX -> limit <> 0 -> n <= limit ->
    step1 (s, live) at_rest (s, live) (at_load n)
| load n current s live :
    is_size current ->
    step1 (s, live) (at_load n) (s, live) (at_check n current)
| check_refuse n current s live :
    limit - n < current ->
    step1 (s, live) (at_check n current) (s, live) at_rest
| check_pass n current s live :
    current <= limit - n ->
    step1 (s, live) (at_check n current) (s, live) (at_compare n current)
| exchange n s live :
    step1 (s, live) (at_compare n s) (size_t (s + n), live) (at_host n)
| exchange_fails n current current' s live :
    is_size current' ->
    step1 (s, live) (at_compare n current) (s, live) (at_check n current')
| host_allocates n s live :
    step1 (s, live) (at_host n) (s, n :: live) at_rest
| host_refuses n s live :
    step1 (s, live) (at_host n) (s, live) (at_refund n)
| release n s live1 live2 :
    step1 (s, live1 ++ n :: live2) at_rest (s, live1 ++ live2) (at_refund n)
| refund n s live :
    step1 (s, live) (at_refund n) (size_t (s - n), live) at_rest.

Inductive step : state -> state -> Prop :=
| step_thread a a' live live' t t' l1 l2 :
    step1 (a, live) t (a', live') t' ->
    step {| allocated := a; live := live; threads := l1 ++ t :: l2 |}
         {| allocated := a'; live := live'; threads := l1 ++ t' :: l2 |}.

(** Threads may be started at any time; a context starts with none. *)
Inductive reachable : state -> Prop :=
| reach_start : reachable {| allocated := 0; live := []; threads := [] |}
| reach_spawn s :
    reachable s ->
    reachable {| allocated := allocated s; live := live s; threads := at_rest :: threads s |}
| reach_step s s' : reachable s -> step s s' -> reachable s'.

End Steps.

Definition sum (l : list Z) : Z := foldr Z.add 0 l.

(** What a thread has been charged for and not given back. *)
Definition charged (t : pc) : Z := match t with at_host n | at_refund n => n | _ => 0 end.

(** What the blocks and the calls under way were charged. *)
Definition total (s : state) : Z := sum (live s) + sum (map charged (threads s)).

Lemma sum_app l k : sum (l ++ k) = sum l + sum k.
Proof. induction l; simpl; lia. Qed.

Lemma sum_nonneg l : Forall (Z.le 0) l -> 0 <= sum l.
Proof. induction 1; simpl; lia. Qed.

Lemma sum_zero l : Forall (Z.le 0) l -> sum l = 0 -> Forall (eq 0) l.
Proof.
  induction 1 as [|n l Hn Hl IH]; intros Hs; [by constructor|]. simpl in Hs.
  pose proof (sum_nonneg _ Hl). constructor; [lia|]. apply IH. lia.
Qed.

Section Invariant.
Context `{PlatformLaws}.
Context (limit : Z).

(** A request on its way is within the limit. *)
Definition pc_ok (t : pc) : Prop :=
  match t with
  | at_rest => True
  | at_load n | at_check n _ => 1 <= n <= limit
  | at_compare n c => 1 <= n <= limit /\ c <= limit - n
  | at_host n | at_refund n => 1 <= n
  end.

Record invariant (s : state) : Prop := {
  inv_live : Forall (Z.le 1) (live s);
  inv_threads : Forall pc_ok (threads s);
  inv_charged : allocated s = size_t (total s);
  inv_limit : limit <> 0 -> limit <= SIZE_MAX -> total s <= limit
}.

Lemma charged_nonneg l : Forall pc_ok l -> Forall (Z.le 0) (map charged l).
Proof. intros Hl. apply Forall_map. eapply Forall_impl; [exact Hl|]. intros [] Ht; simpl in *; lia. Qed.

Lemma total_nonneg s : invariant s -> 0 <= sum (live s) /\ 0 <= sum (map charged (threads s)).
Proof.
  intros [Il It _ _]. split; apply sum_nonneg; [|by apply charged_nonneg]. eapply Forall_impl; [exact Il|]. simpl. lia.
Qed.

(** A step moves the counter by what it charges, modulo the width of [size_t]; only a
    call that found room raises what is charged. *)
Lemma step1_charge a live t a' live' t' :
  step1 limit (a, live) t (a', live') t' -> pc_ok t -> Forall (Z.le 1) live ->
  pc_ok t' /\ Forall (Z.le 1) live' /\
  let delta := sum live' + charged t' - (sum live + charged t) in
  (a' = size_t (a + delta) \/ a' = a /\ delta = 0) /\
  (delta <= 0 \/ limit = 0 \/ a + delta <= limit).
Proof.
  intros Hs Ht Hl. inversion Hs; subst; simpl in *;
    try (split_and!; try done; try lia; try (right; split; [done|lia]); try (left; f_equal; lia); fail).
  - split_and!; [done|by constructor|right; split; [done|lia]|lia].
  - apply Forall_app in Hl as [H1 H2]. apply Forall_cons in H2 as [Hn H2]. rewrite !sum_app. simpl.
    split_and!; [done|by apply Forall_app|right; split; [done|lia]|lia].
Qed.

Lemma size_t_shift a d : size_t (size_t a + d) = size_t (a + d).
Proof. unfold size_t. by rewrite Zplus_mod_idemp_l. Qed.

Lemma reachable_invariant s : 0 <= limit -> reachable limit s -> invariant s.
Proof.
  intros Hlim. induction 1 as [|s _ [Il It Ic Im]|s s' _ Hi Hs].
  - split; simpl; [constructor|constructor| |unfold total; simpl; lia].
    unfold total. simpl. symmetry. apply size_t_small. pose proof size_max_bounds. unfold is_size. lia.
  - split; simpl; [done|by constructor|exact Ic|exact Im].
  - destruct Hs as [a a' live live' t t' l1 l2 Hs]. pose proof (total_nonneg _ Hi) as Hn. destruct Hi as [Il It Ic Im]. simpl in *.
    apply Forall_app in It as [It1 It2]. apply Forall_cons in It2 as [Ht It2].
    destruct (step1_charge _ _ _ _ _ _ Hs Ht Il) as (Ht' & Hl' & Hd & Hle). cbv zeta in *.
    unfold total in *. simpl in *. rewrite !map_app, !sum_app in *. simpl in *.
    set (delta := sum live' + charged t' - (sum live + charged t)) in *.
    split; simpl; [done|apply Forall_app; split; [done|by constructor]| |].
    + unfold total. simpl. rewrite map_app, sum_app. simpl. destruct Hd as [->|[-> Hd]].
      * rewrite Ic, size_t_shift. f_equal. lia.
      * rewrite Ic. f_equal. lia.
    + intros H1 H2. specialize (Im H1 H2). unfold total. simpl. rewrite map_app, sum_app. simpl.
      rewrite size_t_small in Ic by (unfold is_size; lia). lia.
Qed.

(** A thread that has been charged nothing. *)
Definition idle (t : pc) : Prop := match t with at_host _ | at_refund _ => False | _ => True end.

Lemma nothing_charged s : invariant s -> total s = 0 -> live s = [] /\ Forall idle (threads s).
Proof.
  intros Hi Hz. pose proof (total_nonneg _ Hi) as [N1 N2]. destruct Hi as [Il It _ _]. unfold total in Hz. split.
  - destruct (live s) as [|n l]; [done|]. apply Forall_cons in Il as [Hn Hl]. simpl in Hz, N1.
    pose proof (sum_nonneg l ltac:(eapply Forall_impl; [exact Hl|]; simpl; lia)). lia.
  - pose proof (sum_zero _ (charged_nonneg _ It) ltac:(lia)) as Hc. rewrite Forall_map in Hc.
    rewrite Forall_forall in *. intros x Hx. specialize (It x Hx). specialize (Hc x Hx). by destruct x; simpl in *; try lia.
Qed.

(** C32. However the threads of a program interleave their allocations and
    releases -- any thread may release any block, loads may be stale, exchanges may fail
    -- the counter equals, modulo the width of [size_t], what the live blocks and the
    calls under way were charged.  A context with a limit that fits in [size_t] never
    charges more than the limit, and its counter is then exact.  Destroying the context
    succeeds only when the charges are a multiple of 2^width; as long as they fit in
    [size_t], only when no block is live and no call is between its charge and its end. *)
Theorem memory_limit_respected (s : state) (context : apta_context_t)
    (Hlimit : 0 <= limit) (Hreach : reachable limit s)
    (Hctx : ctx_allocated_bytes context = allocated s) :
  allocated s = size_t (total s) /\
  (limit <> 0 -> limit <= SIZE_MAX -> allocated s = total s /\ total s <= limit) /\
  (apta_context_destroy (Some context) = APTA_STATUS_OK ->
   (SIZE_MAX + 1 | total s) /\ (total s <= SIZE_MAX -> live s = [] /\ Forall idle (threads s))).
Proof.
  pose proof (reachable_invariant s Hlimit Hreach) as Hi. pose proof (total_nonneg _ Hi) as Hn. pose proof size_max_bounds.
  assert (Ht : 0 <= total s) by (unfold total; lia).
  split; [apply Hi|]. split.
  - intros L1 L2. pose proof (inv_limit _ Hi L1 L2). split; [|done]. rewrite (inv_charged _ Hi).
    apply size_t_small. unfold is_size. lia.
  - unfold apta_context_destroy. rewrite Hctx. destruct (Z.eqb_spec (allocated s) 0) as [E|]; [|by rewrite orb_true_r].
    intros _. rewrite (inv_charged _ Hi) in E. split.
    + apply Z.mod_divide; [lia|]. exact E.
    + intros Hle. rewrite size_t_small in E by (unfold is_size; lia). by apply nothing_charged.
Qed.

End Invariant.

(** Two threads race for 60 of 100 bytes: one is served, the other has to retry; then a
    third releases the block of the first. *)
Import LP64.

Definition race : state :=
  {| allocated := 60; live := []; threads := [at_refund 60; at_rest; at_check 60 60] |}.

Lemma size_max_64 : SIZE_MAX = UINT64_MAX.
Proof. vm_compute. reflexivity. Qed.

Lemma race_reachable : reachable 100 race.
Proof.
  assert (R0 := reach_spawn 100 _ (reach_spawn 100 _ (reach_spawn 100 _ (reach_start 100)))). simpl in R0.
  assert (Hs : forall z, 0 <= z <= 100 -> is_size z) by (intros z Hz; unfold is_size; rewrite size_max_64; lia).
  assert (R1 := reach_step 100 _ _ R0 (step_thread 100 _ _ _ _ _ _ [_] _
                  (call_limited 100 60 0 [] ltac:(rewrite size_max_64; lia) ltac:(lia) ltac:(lia)))).
  assert (R2 := reach_step 100 _ _ R1 (step_thread 100 _ _ _ _ _ _ [_; _] []
                  (call_limited 100 60 0 [] ltac:(rewrite size_max_64; lia) ltac:(lia) ltac:(lia)))).
  assert (R3 := reach_step 100 _ _ R2 (step_thread 100 _ _ _ _ _ _ [_] _ (load 100 60 0 0 [] ltac:(apply Hs; lia)))).
  assert (R4 := reach_step 100 _ _ R3 (step_thread 100 _ _ _ _ _ _ [_; _] [] (load 100 60 0 0 [] ltac:(apply Hs; lia)))).
  assert (R5 := reach_step 100 _ _ R4 (step_thread 100 _ _ _ _ _ _ [_] _ (check_pass 100 60 0 0 [] ltac:(lia)))).
  assert (R6 := reach_step 100 _ _ R5 (step_thread 100 _ _ _ _ _ _ [_; _] [] (check_pass 100 60 0 0 [] ltac:(lia)))).
  assert (R7 := reach_step 100 _ _ R6 (step_thread 100 _ _ _ _ _ _ [_] _ (exchange 100 60 0 []))).
  assert (R8 := reach_step 100 _ _ R7 (step_thread 100 _ _ _ _ _ _ [_; _] [] (exchange_fails 100 60 0 60 60 [] ltac:(apply Hs; lia)))).
  assert (R9 := reach_step 100 _ _ R8 (step_thread 100 _ _ _ _ _ _ [_] _ (host_allocates 100 60 60 []))).
  exact (reach_step 100 _ _ R9 (step_thread 100 _ _ _ _ _ _ [] _ (release 100 60 60 [] []))).
Qed.

Lemma memory_limit_respected_witness : exists context,
  reachable 100 race /\ ctx_allocated_bytes context = allocated race /\
  (allocated race = total race /\ total race <= 100) /\
  (apta_context_destroy (Some context) = APTA_STATUS_OK -> total race <= SIZE_MAX -> live race = [] /\ Forall idle (threads race)).
Proof.
  exists {| ctx_capabilities := available_capabilities; ctx_memory_limit_bytes := 100;
            ctx_flags := 0; ctx_allocated_bytes := 60; ctx_session_count := 0;
            ctx_result_count := 0; ctx_lineage_counter := 0 |}.
  split; [exact race_reachable|]. split; [reflexivity|].
  destruct (memory_limit_respected 100 race
    {| ctx_capabilities := available_capabilities; ctx_memory_limit_bytes := 100;
            ctx_flags := 0; ctx_allocated_bytes := 60; ctx_session_count := 0;
            ctx_result_count := 0; ctx_lineage_counter := 0 |} ltac:(lia) race_reachable eq_refl) as (_ & H1 & H2).
  split.
  - apply H1; [lia|]. rewrite size_max_64. lia.
  - intros Hd. by apply H2.
Defined.

End Reserve.

(** ** One allocation, sequentially *)

Section Allocation.
Context `{PlatformLaws}.

(** What a host allocator promises: NULL, or an object inside the address
    space. *)
Definition host_ok (host : Z -> Z) : Prop :=
  forall n, 0 < n -> host n = 0 \/ (0 < host n /\ host n + n <= SIZE_MAX + 1).

Lemma reserve_cases context n c :
  apta_internal_reserve_bytes context n = Some c ->
  c = set_allocated context (size_t (ctx_allocated_bytes context + n)) /\
  (ctx_memory_limit_bytes context <> 0 ->
   ctx_allocated_bytes context + n <= ctx_memory_limit_bytes context).
Proof.
  unfold apta_internal_reserve_bytes.
  destruct (Z.eqb_spec (ctx_memory_limit_bytes context) 0); [intros [= <-]; tauto|].
  destruct (Z.ltb_spec (ctx_memory_limit_bytes context) n); [done|].
  destruct (Z.ltb_spec (ctx_memory_limit_bytes context - n) (ctx_allocated_bytes context));
    [done|]. intros [= <-]. split; [done | lia].
Qed.

Lemma size_t_cancel a n : is_size a -> size_t (size_t (a + n) - n) = a.
Proof.
  intros Ha. unfold size_t, is_size in *. pose proof size_max_bounds.
  rewrite Zminus_mod_idemp_l. replace (a + n - n) with a by lia. apply Z.mod_small. lia.
Qed.

Lemma set_allocated_same c : set_allocated c (ctx_allocated_bytes c) = c.
Proof. by destruct c. Qed.

Lemma charge_and_refund c n :
  is_size (ctx_allocated_bytes c) ->
  set_allocated (set_allocated c (size_t (ctx_allocated_bytes c + n)))
    (size_t (size_t (ctx_allocated_bytes c + n) - n)) = c.
Proof. intros Hc. rewrite size_t_cancel by done. by destruct c. Qed.

Lemma align_address start k :
  0 <= k <= 64 -> 0 <= start -> start + 2 ^ k - 1 <= SIZE_MAX ->
  let aligned := Z.land (size_t (start + 2 ^ k - 1)) (Z.lxor (2 ^ k - 1) SIZE_MAX) in
  start <= aligned < start + 2 ^ k /\ (2 ^ k | aligned).
Proof.
  intros Hk Hs Hle. simpl. pose proof (Z.pow_pos_nonneg 2 k ltac:(lia) ltac:(lia)).
  rewrite size_t_small by (unfold is_size; lia).
  destruct size_max_pow2 as (w & Hw & Hm).
  assert (Hkw : k <= w).
  { destruct (Z.le_gt_cases k w) as [|Hgt]; [done|].
    assert (2 ^ w < 2 ^ k) by (apply Z.pow_lt_mono_r; lia). lia. }
  rewrite Hm in *. rewrite land_align_mask by lia. 
  pose proof (Z.div_mod (start + 2 ^ k - 1) (2 ^ k) ltac:(lia)).
  pose proof (Z.mod_pos_bound (start + 2 ^ k - 1) (2 ^ k) ltac:(lia)).
  split; [lia|]. by exists ((start + 2 ^ k - 1) / 2 ^ k).
Qed.

Definition effective_alignment (alignment : Z) : Z := Z.max alignment alignof_pointer.

Lemma effective_alignment_eq alignment :
  (if alignment <? alignof_pointer then alignof_pointer else alignment) =
  effective_alignment alignment.
Proof. unfold effective_alignment. destruct (Z.ltb_spec alignment alignof_pointer); lia. Qed.

Lemma alignof_pointer_bounds : 4 <= alignof_pointer <= 32.
Proof.
  unfold alignof_pointer. pose proof alignof_pointer_range. pose proof max_alignment_range.
  change 4 with (2 ^ 2). change 32 with (2 ^ 5). split; apply Z.pow_le_mono_r; lia.
Qed.

(** What [apta_internal_context_allocate] returns, and why it refuses. *)
Lemma context_allocate_spec (host : Z -> Z) context size alignment :
  host_ok host -> is_size size -> is_size alignment ->
  is_size (ctx_allocated_bytes context) ->
  let n := if size =? 0 then 1 else size in
  let al := effective_alignment alignment in
  let total := n + sizeof T_allocation_header + al - 1 in
  let '(context', (p, h)) := apta_internal_context_allocate host context size alignment in
  match h with
  | None =>
      p = 0 /\ context' = context /\
      (apta_internal_is_power_of_two al = true -> total <= SIZE_MAX ->
       ctx_memory_limit_bytes context = 0 \/
       ctx_allocated_bytes context + n <= ctx_memory_limit_bytes context -> host total = 0)
  | Some h =>
      let raw := hdr_raw_memory h in
      0 < raw /\ raw + sizeof T_allocation_header <= p /\
      p + n <= raw + total <= SIZE_MAX + 1 /\ (al | p) /\
      hdr_requested_size h = n /\ hdr_allocated_size h = total /\
      context' = set_allocated context (size_t (ctx_allocated_bytes context + n)) /\
      (ctx_memory_limit_bytes context <> 0 ->
       ctx_allocated_bytes context + n <= ctx_memory_limit_bytes context)
  end.
Proof.
  intros Hhost Hsize Hal Hcount n al total. unfold apta_internal_context_allocate.
  rewrite effective_alignment_eq. fold n al.
  pose proof (sizeof_range T_allocation_header) as Hh. pose proof alignof_pointer_bounds as Hap.
  pose proof size_max_bounds as Hsm.
  assert (Hn : 1 <= n <= SIZE_MAX) by (subst n; unfold is_size in *; destruct (Z.eqb_spec size 0); lia).
  assert (Hal' : 4 <= al <= SIZE_MAX) by (subst al; unfold effective_alignment, is_size in *; lia).
  clearbody n al.
  destruct (apta_internal_is_power_of_two al) eqn:Ep; simpl; [|done].
  fold total. destruct (Z.ltb_spec (SIZE_MAX - sizeof T_allocation_header - (al - 1)) n);
    [split_and!; [done..|intros _ Hx; subst total; lia]|].
  destruct (apta_internal_reserve_bytes context n) as [c|] eqn:Er.
  2: { split_and!; [done..|]. intros _ _ Hl. exfalso. unfold apta_internal_reserve_bytes in Er.
       subst total. unfold is_size in Hcount. repeat case_match; bool_facts; try done; lia. }
  apply reserve_cases in Er as [-> Hlim]. simpl.
  destruct (Hhost total) as [->|[Hr1 Hr2]]; [lia | |].
  - split; [done|]. split; [by apply charge_and_refund | done].
  - destruct (Z.eqb_spec (host total) 0); [lia|]. simpl.
    apply is_power_of_two_inv in Ep; [|lia].
    pose proof (Z.log2_nonneg al). pose proof (Z.log2_le_mono al UINT64_MAX ltac:(lia)) as Hlog.
    change (Z.log2 UINT64_MAX) with 63 in Hlog.
    destruct (align_address (host total + sizeof T_allocation_header) (Z.log2 al))
      as [Hb Hd]; [lia | lia | lia |].
    rewrite <- Ep in Hb, Hd. split_and!; try done; lia.
Qed.

(** C33. A block of the context: the payload is aligned as asked (and at least
    for a pointer), it and the header in front of it lie inside the object the
    host returned, and the counter grew by its size; releasing it returns the
    counter to where it was and hands the host its own pointer.  When no block
    is returned the context is as it was. *)
Theorem context_allocate_block (host : Z -> Z) context size alignment
    (Hhost : host_ok host) (Hsize : is_size size) (Hal : is_size alignment)
    (Hcount : is_size (ctx_allocated_bytes context)) :
  let n := if size =? 0 then 1 else size in
  let al := effective_alignment alignment in
  let '(context', (p, h)) := apta_internal_context_allocate host context size alignment in
  match h with
  | None => p = 0 /\ context' = context
  | Some h =>
      let raw := hdr_raw_memory h in
      0 < raw /\ raw + sizeof T_allocation_header <= p /\
      p + n <= raw + hdr_allocated_size h <= SIZE_MAX + 1 /\ (al | p) /\
      hdr_requested_size h = n /\
      ctx_allocated_bytes context' = size_t (ctx_allocated_bytes context + n) /\
      (ctx_memory_limit_bytes context <> 0 ->
       ctx_allocated_bytes context + n <= ctx_memory_limit_bytes context) /\
      forall sessions headers address, address <> 0 ->
        apta_internal_context_deallocate sessions (<[p - sizeof T_allocation_header := h]> headers) address context' p =
          Ret (context, to_host raw)
  end.
Proof.
  intros n al. pose proof (context_allocate_spec host context size alignment Hhost Hsize Hal Hcount) as Ha.
  cbv zeta in Ha. fold n al in Ha.
  destruct (apta_internal_context_allocate host context size alignment) as [context' [p [h|]]];
    [|by destruct Ha as (? & ? & _)].
  destruct Ha as (H1 & H2 & H3 & H4 & H5 & H6 & -> & H8). cbv zeta. rewrite H6.
  split_and!; try done; try lia. intros sessions headers address Haddress. unfold apta_internal_context_deallocate.
  rewrite lookup_insert_eq. unfold in_workspace, refund. rewrite H6.
  pose proof (sizeof_range T_allocation_header). pose proof alignof_pointer_bounds.
  assert (1 <= n) by (subst n; unfold is_size in *; destruct (Z.eqb_spec size 0); lia).
  assert (4 <= al) by (subst al; unfold effective_alignment; lia).
  destruct (Z.eqb_spec address 0); [done|]. destruct (Z.eqb_spec p 0); [lia|].
  destruct (Z.eqb_spec (n + sizeof T_allocation_header + al - 1) 0); [lia|]. simpl. rewrite H5. do 2 f_equal.
  by apply charge_and_refund.
Qed.

(** A payload of a static workspace carries a header that sends its release
    back to the workspace it came from, and leaves the context's counter alone. *)
Theorem workspace_release_dispatch sessions address context ws l size alignment ws' p
    (Hrep : ws_rep ws l) (Hsize : is_size size) (Hal : is_size alignment)
    (Halloc : apta_internal_session_allocate_workspace ws size alignment = Ret (ws', p))
    (Hp : p <> 0) (Haddress : address <> 0) (Howner : sessions !! ws_session ws = Some (address, ws_session ws)) :
  apta_internal_context_deallocate sessions (ws_headers ws') address context p =
    Ret (context, to_workspace (ws_session ws)).
Proof.
  destruct (request_ok_or_not size alignment Hsize Hal) as [Hq|Hq].
  2: { rewrite allocate_workspace_refused in Halloc by done. by injection Halloc as _ <-. }
  destruct (allocate_refines_spec _ _ _ _ Hrep Hsize Hal Hq)
    as (ws1 & l1 & p1 & E & _ & _ & _ & _ & _ & Hh).
  rewrite E in Halloc. injection Halloc as -> ->.
  destruct (wr_base _ _ Hrep) as [Hb _].
  unfold apta_internal_context_deallocate, in_workspace, apta_internal_session_uses_workspace. rewrite Hh by done. simpl.
  destruct (Z.eqb_spec address 0); [done|]. destruct (Z.eqb_spec p 0); [done|].
  assert (ws_session ws =? 0 = false) as Hs by lia. rewrite Hs. cbn [negb andb orb]. by rewrite Howner, !Z.eqb_refl, Hs.
Qed.

End Allocation.

(** ** Concrete allocations on LP64 *)

Import LP64.

Definition sample_context : apta_context_t :=
  {| ctx_capabilities := available_capabilities; ctx_memory_limit_bytes := 1000;
     ctx_flags := 0; ctx_allocated_bytes := 200; ctx_session_count := 1;
     ctx_result_count := 0; ctx_lineage_counter := 0 |}.

(** A host that answers every request from address 10008 on. *)
Definition sample_host (n : Z) : Z := if n <? 100000 then 10008 else 0.

Lemma sample_host_ok : host_ok sample_host.
Proof.
  intros n Hn. unfold sample_host. destruct (Z.ltb_spec n 100000); [right | by left].
  change SIZE_MAX with UINT64_MAX. lia.
Qed.

Lemma context_allocate_block_witness :
  host_ok sample_host /\
  exists h, apta_internal_context_allocate sample_host sample_context 64 64 =
              (set_allocated sample_context 264, (10048, Some h)) /\
            (64 | 10048) /\ 10048 + 64 <= hdr_raw_memory h + hdr_allocated_size h /\
            apta_internal_context_deallocate ∅ {[10048 - sizeof T_allocation_header := h]} 512
              (set_allocated sample_context 264) 10048 = Ret (sample_context, to_host 10008).
Proof.
  split; [exact sample_host_ok|].
  pose proof (context_allocate_block sample_host sample_context 64 64 sample_host_ok
                ltac:(vm_compute; split; congruence) ltac:(vm_compute; split; congruence)
                ltac:(vm_compute; split; congruence)) as Hc.
  assert (E : apta_internal_context_allocate sample_host sample_context 64 64 =
              (set_allocated sample_context 264,
               (10048, Some {| hdr_raw_memory := 10008; hdr_allocated_size := 151;
                               hdr_requested_size := 64 |}))) by (vm_compute; reflexivity).
  rewrite E in Hc. cbv zeta in Hc. eexists. split; [exact E|].
  destruct Hc as (_ & _ & (Hb & _) & Hd & _ & _ & _ & Hr).
  split; [exact Hd|]. split; [exact Hb|]. apply (Hr ∅ ∅ 512). lia.
Defined.

Lemma workspace_release_dispatch_witness :
  exists ws', apta_internal_session_allocate_workspace sample_workspace 100 8 = Ret (ws', 15200) /\
    apta_internal_context_deallocate {[4096 := (512, 4096)]} (ws_headers ws') 512 sample_context 15200 =
      Ret (sample_context, to_workspace 4096).
Proof.
  destruct (apta_internal_session_allocate_workspace sample_workspace 100 8) as [[ws' p]| |] eqn:E;
    [|vm_compute in E; discriminate ..].
  assert (Ep : p = 15200) by (vm_compute in E; injection E as _ <-; reflexivity). subst p.
  exists ws'. split; [reflexivity|].
  exact (workspace_release_dispatch {[4096 := (512, 4096)]} 512 sample_context sample_workspace [whole 8928] 100 8 ws' 15200
           sample_rep ltac:(vm_compute; split; congruence) ltac:(vm_compute; split; congruence)
           E ltac:(lia) ltac:(lia) ltac:(reflexivity)).
Defined.
