(* ===== verification/FloatFacts.v ===== *)
(** * Magnitudes of binary floating-point numbers

    [SpecFloat] computes IEEE 754 arithmetic; what the development needs of it is
    that no operation rounds past a power of two.  [mag_le k x] says that [x] is
    finite and at most [2^k] in magnitude, whatever its representation. *)

From Stdlib Require Import Floats.SpecFloat.
From S2P Require Import Prelude.

Definition mag_le (k : Z) (x : spec_float) : Prop :=
  match x with
  | S754_zero _ => True
  | S754_finite _ m e => Zpos m <= 2 ^ (k - e)
  | _ => False
  end.

(** The mantissa fits [prec] bits, as in every datum of the format. *)
Definition wf_float (prec : Z) (x : spec_float) : Prop :=
  match x with
  | S754_finite _ m _ => Zpos m < 2 ^ prec
  | _ => True
  end.

(** ** Shifting right *)

Lemma digits2_bounds p : 2 ^ (Zpos (digits2_pos p) - 1) <= Zpos p < 2 ^ Zpos (digits2_pos p).
Proof.
  induction p as [p IH|p IH|]; cbn [digits2_pos]; [| |done];
    rewrite Pos2Z.inj_succ; unfold Z.succ; rewrite Z.add_simpl_r;
    rewrite Z.pow_add_r by lia; change (2 ^ 1) with 2;
    (assert (2 ^ Zpos (digits2_pos p) = 2 * 2 ^ (Zpos (digits2_pos p) - 1))
       by (rewrite <- Z.pow_succ_r by lia; f_equal; lia)); lia.
Qed.

Lemma Zdigits2_bounds m : 0 <= m -> m < 2 ^ Zdigits2 m /\ (0 < m -> 2 ^ (Zdigits2 m - 1) <= m) /\ 0 <= Zdigits2 m.
Proof.
  intros Hm. destruct m as [|p|p]; cbn [Zdigits2]; [|pose proof (digits2_bounds p); lia|lia].
  split; [done|]. split; lia.
Qed.

Lemma Zdigits2_le m k : 0 < m <= 2 ^ k -> 0 <= k -> Zdigits2 m <= k + 1.
Proof.
  intros [Hm Hk] Hk0. destruct (Zdigits2_bounds m) as (_ & H & _); [lia|]. specialize (H Hm).
  destruct (Z.leb_spec (Zdigits2 m) (k + 1)); [done|].
  assert (2 ^ (k + 1) <= 2 ^ (Zdigits2 m - 1)) by (apply Z.pow_le_mono_r; lia).
  rewrite Z.pow_add_r in * by lia. change (2 ^ 1) with 2 in *. pose proof (Z.pow_pos_nonneg 2 k). lia.
Qed.

Definition exact (r : shr_record) : bool := negb (shr_r r || shr_s r).

Lemma iter_pos_nat {A} (f : A -> A) n x : @SpecFloat.iter_pos A f n x = Nat.iter (Pos.to_nat n) f x.
Proof.
  revert x. induction n as [n IH|n IH|]; intros x; cbn [SpecFloat.iter_pos]; [| |done]; rewrite !IH.
  - rewrite Pos2Nat.inj_xI. replace (S (2 * Pos.to_nat n)) with (Pos.to_nat n + Pos.to_nat n + 1)%nat by lia.
    by rewrite !Nat.iter_add.
  - rewrite Pos2Nat.inj_xO. replace (2 * Pos.to_nat n)%nat with (Pos.to_nat n + Pos.to_nat n)%nat by lia.
    by rewrite Nat.iter_add.
Qed.

Lemma shr_1_spec r : 0 <= shr_m r ->
  shr_m (shr_1 r) = shr_m r / 2 /\ exact (shr_1 r) = exact r && Z.even (shr_m r).
Proof.
  destruct r as [m r s]. cbn [shr_m]. intros Hm. unfold exact.
  destruct m as [|[p|p|]|p]; [| | | |lia]; cbn [shr_1 shr_m shr_r shr_s Z.even];
    rewrite ?orb_false_r, ?orb_true_r, ?andb_true_r, ?andb_false_r; (split; [|by destruct r, s]);
    [done| | |done].
  - rewrite Pos2Z.inj_xI. replace (2 * Zpos p + 1) with (1 + Zpos p * 2) by lia.
    by rewrite Z.div_add by lia.
  - rewrite Pos2Z.inj_xO. by rewrite Z.mul_comm, Z.div_mul.
Qed.

Lemma shr_iter_spec n r : 0 <= shr_m r ->
  shr_m (Nat.iter n shr_1 r) = shr_m r / 2 ^ Z.of_nat n /\
  exact (Nat.iter n shr_1 r) = exact r && (shr_m r mod 2 ^ Z.of_nat n =? 0).
Proof.
  intros Hr. induction n as [|n [IH1 IH2]].
  - simpl. by rewrite Z.div_1_r, Z.mod_1_r, andb_true_r.
  - cbn [Nat.iter nat_rect]. change (nat_rect _ r (fun _ => shr_1) n) with (Nat.iter n shr_1 r).
    assert (H0 : 0 <= shr_m (Nat.iter n shr_1 r)) by (rewrite IH1; apply Z.div_pos; lia).
    destruct (shr_1_spec _ H0) as [-> ->]. rewrite IH1, IH2.
    replace (Z.of_nat (S n)) with (Z.of_nat n + 1) by lia. rewrite Z.pow_add_r by lia. change (2 ^ 1) with 2.
    rewrite Z.div_div by lia. split; [done|]. rewrite <- andb_assoc. f_equal.
    set (q := 2 ^ Z.of_nat n). assert (0 < q) by (unfold q; lia).
    rewrite (Z.rem_mul_r (shr_m r) q 2) by lia.
    pose proof (Z.mod_pos_bound (shr_m r) q). pose proof (Z.mod_pos_bound (shr_m r / q) 2).
    pose proof (Z.even_spec (shr_m r / q)) as Hev. rewrite (Zmod_even (shr_m r / q)) in *.
    destruct (Z.even (shr_m r / q)); rewrite ?andb_true_r, ?andb_false_r; [f_equal; lia|].
    symmetry. apply Z.eqb_neq. nia.
Qed.

(** ** Rounding *)

Lemma pow2_split a b : 0 <= a -> 0 <= b -> 2 ^ (a + b) = 2 ^ a * 2 ^ b.
Proof. intros. by rewrite Z.pow_add_r. Qed.

Lemma div_pow2_le m k n : 0 <= n -> 0 <= m <= 2 ^ k -> m / 2 ^ n <= 2 ^ (k - n).
Proof.
  intros Hn [Hm Hk]. destruct (Z.leb_spec 0 (k - n)).
  - replace k with (k - n + n) in Hk by lia. rewrite pow2_split in Hk by lia.
    apply (Z.div_le_mono _ _ (2 ^ n)) in Hk; [|lia]. by rewrite Z.div_mul in Hk by lia.
  - rewrite (Z.pow_neg_r 2 (k - n)) by lia. rewrite Z.div_small; [lia|]. split; [done|].
    apply (Z.le_lt_trans _ _ _ Hk). destruct (Z.leb_spec 0 k); [apply Z.pow_lt_mono_r; lia|].
    rewrite Z.pow_neg_r by lia. lia.
Qed.

Lemma round_bounds m r : m <= round_nearest_even m (loc_of_shr_record r) <= m + 1.
Proof. destruct r as [? [] []]; cbn; try destruct (Z.even m); lia. Qed.

Lemma round_exact m r : exact r = true -> round_nearest_even m (loc_of_shr_record r) = m.
Proof. by destruct r as [? [] []]. Qed.

Section Rounding.
Context (prec emax : Z) (Hprec : 1 < prec).

(** The shift [shr_fexp] makes. *)
Definition shift_of (m e : Z) : Z := Z.max 0 (fexp prec emax (Zdigits2 m + e) - e).

Lemma shr_fexp_spec m e l : 0 <= m ->
  let r := shr_fexp prec emax m e l in
  shr_m r.1 = m / 2 ^ shift_of m e /\ r.2 = e + shift_of m e /\
  exact r.1 = exact (shr_record_of_loc m l) && (m mod 2 ^ shift_of m e =? 0).
Proof.
  intros Hm. unfold shr_fexp, shift_of.
  assert (Em : shr_m (shr_record_of_loc m l) = m) by (destruct l as [|[]]; done).
  destruct (fexp prec emax (Zdigits2 m + e) - e) as [|p|p]; cbn [shr fst snd].
  - rewrite Em. simpl. rewrite Z.div_1_r, Z.mod_1_r, andb_true_r. split; [done|]; split; [lia|done].
  - rewrite iter_pos_nat. destruct (shr_iter_spec (Pos.to_nat p) (shr_record_of_loc m l)) as [-> ->];
      [by rewrite Em|]. rewrite Em. replace (Z.max 0 (Zpos p)) with (Z.of_nat (Pos.to_nat p)) by lia.
    split; [done|]; split; [lia|done].
  - rewrite Em. replace (Z.max 0 (Zneg p)) with 0 by lia. rewrite Z.div_1_r, Z.mod_1_r, andb_true_r.
    split; [done|]; split; [lia|done].
Qed.

Lemma shift_nonneg m e : 0 <= shift_of m e.
Proof. unfold shift_of. lia. Qed.

Lemma shift_digits m e : Zdigits2 m - shift_of m e <= prec.
Proof. unfold shift_of, fexp. lia. Qed.

Lemma shift_exponent m e k : 0 < m <= 2 ^ (k - e) -> emin prec emax <= k -> e + shift_of m e <= k.
Proof.
  intros Hm Hk. assert (0 <= k - e) by (destruct (Z.leb_spec 0 (k - e)); [done|rewrite Z.pow_neg_r in Hm; lia]).
  pose proof (Zdigits2_le m (k - e) Hm ltac:(lia)). unfold shift_of, fexp. lia.
Qed.

Lemma shifted_digits m e : 0 <= m -> m / 2 ^ shift_of m e < 2 ^ prec.
Proof.
  intros Hm. pose proof (shift_nonneg m e) as Hn. destruct (Zdigits2_bounds m Hm) as (Hd & _ & Hd0).
  pose proof (shift_digits m e) as Hp. apply Z.div_lt_upper_bound; [lia|].
  rewrite <- pow2_split by lia. apply (Z.lt_le_trans _ _ _ Hd). apply Z.pow_le_mono_r; lia.
Qed.

(** What [binary_round_aux] makes of a mantissa: a mantissa of the format, no larger
    than any power of two that bounds the number rounded. *)
Lemma binary_round_spec s m e l : 0 <= m ->
  exists m2 e2,
    binary_round_aux prec emax s m e l =
      match m2 with
      | Zpos p => if e2 <=? emax - prec then S754_finite s p e2 else S754_infinity s
      | _ => S754_zero s
      end /\
    0 <= m2 < 2 ^ prec /\
    (forall k, emin prec emax <= k -> m <= 2 ^ (k - e) ->
       (l <> loc_Exact -> m + 1 <= 2 ^ (k - e)) ->
       m2 <= 2 ^ (k - e2)).
Proof.
  intros Hm. unfold binary_round_aux. destruct (shr_fexp_spec m e l Hm) as (E1 & E2 & E3).
  destruct (shr_fexp prec emax m e l) as [r e1]. cbn [fst snd] in E1, E2, E3.
  pose proof (shift_nonneg m e) as Hn. set (n := shift_of m e) in *.
  assert (H1 : 0 <= shr_m r) by (rewrite E1; apply Z.div_pos; lia).
  set (m1 := round_nearest_even (shr_m r) (loc_of_shr_record r)).
  pose proof (round_bounds (shr_m r) r) as Hr. fold m1 in Hr.
  destruct (shr_fexp_spec m1 e1 loc_Exact ltac:(lia)) as (F1 & F2 & _).
  destruct (shr_fexp prec emax m1 e1 loc_Exact) as [r2 e2]. cbn [fst snd] in F1, F2.
  pose proof (shift_nonneg m1 e1) as Hn2.
  assert (H2 : 0 <= shr_m r2) by (rewrite F1; apply Z.div_pos; lia).
  exists (shr_m r2), e2. split; [destruct (shr_m r2); [done|done|lia]|].
  split; [split; [done|]; rewrite F1; apply shifted_digits; lia|].
  intros k Hk Hle Hinx. rewrite F1, F2. replace (k - (e1 + shift_of m1 e1)) with (k - e1 - shift_of m1 e1) by lia.
  apply div_pow2_le; [done|]. split; [lia|]. rewrite E2.
  assert (Hfl : shr_m r <= 2 ^ (k - (e + n))).
  { rewrite E1. replace (k - (e + n)) with (k - e - n) by lia. apply div_pow2_le; lia. }
  destruct (exact r) eqn:Ex; [unfold m1; by rewrite round_exact|].
  destruct (Z.eq_dec (shr_m r) (2 ^ (k - (e + n)))) as [He|He]; [|lia].
  exfalso. symmetry in E3. apply andb_false_iff in E3.
  assert (Hke : e + n <= k).
  { destruct (Z.eq_dec m 0) as [->|]; [|apply shift_exponent; [lia|done]].
    destruct E3 as [E3|E3]; [|by rewrite Zmod_0_l in E3].
    assert (l <> loc_Exact) as Hl by (intros ->; done). specialize (Hinx Hl).
    assert (0 <= k - e) by (destruct (Z.leb_spec 0 (k - e)); [done|rewrite Z.pow_neg_r in Hinx; lia]).
    unfold n, shift_of, fexp. simpl. lia. }
  assert (Hfull : m = 2 ^ (k - e)).
  { rewrite E1 in He. apply Z.le_antisymm; [done|]. replace (k - e) with (k - (e + n) + n) by lia.
    rewrite pow2_split, <- He by lia. pose proof (Z.mul_div_le m (2 ^ n)). lia. }
  destruct E3 as [E3|E3].
  - assert (l <> loc_Exact) as Hl by (intros ->; done). specialize (Hinx Hl). lia.
  - apply Z.eqb_neq in E3. apply E3. rewrite Hfull. replace (k - e) with (k - (e + n) + n) by lia.
    rewrite pow2_split by lia. apply Z.mod_mul. lia.
Qed.

Lemma round_wf s m e l : 0 <= m -> wf_float prec (binary_round_aux prec emax s m e l).
Proof.
  intros Hm. destruct (binary_round_spec s m e l Hm) as (m2 & e2 & -> & Hb & _).
  destruct m2; [done| |done]. destruct (e2 <=? _); simpl; [lia|done].
Qed.

Lemma round_mag s m e l k : 0 <= m -> emin prec emax <= k <= emax - prec -> m <= 2 ^ (k - e) ->
  (l <> loc_Exact -> m + 1 <= 2 ^ (k - e)) ->
  mag_le k (binary_round_aux prec emax s m e l) /\
  (binary_round_aux prec emax s m e l = S754_zero s \/
   exists p f, binary_round_aux prec emax s m e l = S754_finite s p f).
Proof.
  intros Hm Hk Hle Hinx. destruct (binary_round_spec s m e l Hm) as (m2 & e2 & -> & Hb & H).
  specialize (H k ltac:(lia) Hle Hinx). destruct m2 as [|p|p]; [by split; [|left]| |lia].
  assert (e2 <= k).
  { destruct (Z.leb_spec e2 k); [done|]. rewrite Z.pow_neg_r in H by lia. lia. }
  destruct (Z.leb_spec e2 (emax - prec)); [|lia]. split; [done|]. right. eauto.
Qed.

End Rounding.

(** ** The operations *)

Lemma shl_align_spec m e e' :
  Zpos (shl_align m e e').1 = Zpos m * 2 ^ (e - (shl_align m e e').2) /\
  (shl_align m e e').2 = Z.min e e'.
Proof.
  unfold shl_align. destruct (e' - e) as [|d|d] eqn:Ed; cbn [fst snd].
  - rewrite Z.sub_diag. lia.
  - rewrite Z.sub_diag. lia.
  - split; [|lia]. replace (e - e') with (Zpos d) by lia. clear. revert m.
    induction d using Pos.peano_ind; intros m; [simpl; lia|].
    rewrite Pos.iter_succ, Pos2Z.inj_xO, IHd, Pos2Z.inj_succ, Z.pow_succ_r by lia. lia.
Qed.

Section Operations.
Context (prec emax : Z) (Hprec : 1 < prec).

(** The exponents the bounds are stated for: powers of two of the format. *)
Definition in_range (k : Z) : Prop := emin prec emax <= k <= emax - prec.

Lemma binary_normalize_wf m e s : wf_float prec (binary_normalize prec emax m e s).
Proof.
  unfold binary_normalize, binary_round.
  destruct m as [|p|p]; [done| |]; destruct (shl_align _ _ _); by apply round_wf.
Qed.

Lemma binary_round_mag s p e k : in_range k -> Zpos p <= 2 ^ (k - e) ->
  mag_le k (binary_round prec emax s p e).
Proof.
  intros Hk Hp. unfold binary_round.
  destruct (shl_align_spec p e (fexp prec emax (Zpos (digits2_pos p) + e))) as [H1 H2].
  destruct (shl_align _ _ _) as [q f]. cbn [fst snd] in H1, H2.
  apply round_mag; try done. rewrite H1.
  assert (0 <= k - e) by (destruct (Z.leb_spec 0 (k - e)); [done|rewrite Z.pow_neg_r in Hp; lia]).
  replace (k - f) with (k - e + (e - f)) by lia. rewrite pow2_split by lia. nia.
Qed.

Lemma binary_normalize_mag m e s k : in_range k -> Z.abs m <= 2 ^ (k - e) ->
  mag_le k (binary_normalize prec emax m e s).
Proof. intros Hk Hm. destruct m as [|p|p]; [done| |]; by apply binary_round_mag. Qed.

Lemma SFmul_wf x y : wf_float prec (SFmul prec emax x y).
Proof. destruct x, y; try done. by apply round_wf. Qed.

Lemma SFmul_mag x y j k : in_range (j + k) -> mag_le j x -> mag_le k y ->
  mag_le (j + k) (SFmul prec emax x y).
Proof.
  intros Hjk Hx Hy. destruct x as [| | |s m e], y as [| | |t n f]; try done. cbn [SFmul mag_le] in *.
  apply round_mag; try done. rewrite Pos2Z.inj_mul.
  assert (0 <= j - e) by (destruct (Z.leb_spec 0 (j - e)); [done|rewrite Z.pow_neg_r in Hx; lia]).
  assert (0 <= k - f) by (destruct (Z.leb_spec 0 (k - f)); [done|rewrite Z.pow_neg_r in Hy; lia]).
  replace (j + k - (e + f)) with (j - e + (k - f)) by lia. rewrite pow2_split by lia. nia.
Qed.

Lemma SFadd_wf x y : wf_float prec x -> wf_float prec y -> wf_float prec (SFadd prec emax x y).
Proof.
  intros Hx Hy. destruct x as [[]|[]| |], y as [[]|[]| |]; try done; apply binary_normalize_wf.
Qed.

Lemma SFsub_wf x y : wf_float prec x -> wf_float prec y -> wf_float prec (SFsub prec emax x y).
Proof.
  intros Hx Hy. destruct x as [[]|[]| |], y as [[]|[]| |]; try done; apply binary_normalize_wf.
Qed.

Lemma mag_le_mono j k x : j <= k -> mag_le j x -> mag_le k x.
Proof.
  intros Hjk. destruct x; try done. simpl. intros Hm. apply (Z.le_trans _ _ _ Hm).
  apply Z.pow_le_mono_r; lia.
Qed.

Lemma SFadd_mag x y k : in_range (k + 1) -> mag_le k x -> mag_le k y ->
  mag_le (k + 1) (SFadd prec emax x y).
Proof.
  intros Hk Hx Hy. pose proof (mag_le_mono k (k + 1) x ltac:(lia) Hx) as Hx'.
  pose proof (mag_le_mono k (k + 1) y ltac:(lia) Hy) as Hy'.
  destruct x as [[]|[]| |s m e], y as [[]|[]| |t n f]; try done. cbn [SFadd mag_le] in *.
  destruct (shl_align_spec m e (Z.min e f)) as [H1 H2], (shl_align_spec n f (Z.min e f)) as [H3 H4].
  destruct (shl_align m e (Z.min e f)) as [m' e'], (shl_align n f (Z.min e f)) as [n' f'].
  cbn [fst snd] in *. apply binary_normalize_mag; [done|].
  assert (0 <= k - e) by (destruct (Z.leb_spec 0 (k - e)); [done|rewrite Z.pow_neg_r in Hx; lia]).
  assert (0 <= k - f) by (destruct (Z.leb_spec 0 (k - f)); [done|rewrite Z.pow_neg_r in Hy; lia]).
  assert (Zpos m' <= 2 ^ (k - Z.min e f)).
  { rewrite H1, H2. replace (k - Z.min e f) with (k - e + (e - Z.min e (Z.min e f))) by lia.
    rewrite pow2_split by lia. nia. }
  assert (Zpos n' <= 2 ^ (k - Z.min e f)).
  { rewrite H3, H4. replace (k - Z.min e f) with (k - f + (f - Z.min f (Z.min e f))) by lia.
    rewrite pow2_split by lia. nia. }
  replace (k + 1 - Z.min e f) with (1 + (k - Z.min e f)) by lia. rewrite pow2_split by lia.
  change (2 ^ 1) with 2. destruct s, t; cbn [cond_Zopp]; lia.
Qed.

(** [x <= y] for positive finite numbers, by value. *)
Definition value_le (m1 e1 m2 e2 : Z) : Prop :=
  m1 * 2 ^ (e1 - Z.min e1 e2) <= m2 * 2 ^ (e2 - Z.min e1 e2).

Lemma SFdiv_wf x y : wf_float prec (SFdiv prec emax x y).
Proof.
  destruct x as [s|s| |s m e], y as [t|t| |t n f]; try done. cbn [SFdiv]. unfold SFdiv_core_binary.
  set (e' := Z.min _ _). set (m' := match e - f - e' with Zpos _ => _ | _ => _ end).
  assert (0 <= m') by (unfold m'; destruct (e - f - e'); [lia|by apply Z.shiftl_nonneg|lia]).
  destruct (Z.div_eucl m' (Zpos n)) as [q r] eqn:E.
  assert (q = m' / Zpos n) as -> by (unfold Z.div; by rewrite E).
  apply round_wf; [done..|]. apply Z.div_pos; lia.
Qed.

Lemma new_location_exact n r : new_location n r <> loc_Exact -> r <> 0.
Proof. unfold new_location, new_location_even, new_location_odd. by intros H ->; destruct (Z.even n). Qed.

Lemma SFdiv_mag s m1 e1 t m2 e2 : in_range 0 -> value_le (Zpos m1) e1 (Zpos m2) e2 ->
  mag_le 0 (SFdiv prec emax (S754_finite s m1 e1) (S754_finite t m2 e2)).
Proof.
  intros Hk Hle. cbn [SFdiv]. unfold SFdiv_core_binary. set (d1 := Zdigits2 _). set (d2 := Zdigits2 _).
  set (e' := Z.min _ _).
  assert (He' : e' <= e1 - e2) by lia.
  assert (H0 : e' <= 0).
  { unfold value_le in Hle. destruct (Z.leb_spec e1 e2) as [|Hlt]; [lia|].
    rewrite Z.min_r, Z.sub_diag, Z.mul_1_r in Hle by lia.
    destruct (Zdigits2_bounds (Zpos m1)) as (_ & Hd1 & _); [lia|].
    destruct (Zdigits2_bounds (Zpos m2)) as (Hd2 & _ & Hd20); [lia|]. fold d1 in Hd1. fold d2 in Hd2, Hd20.
    specialize (Hd1 ltac:(lia)).
    assert (d1 + (e1 - e2) <= d2).
    { destruct (Z.leb_spec (d1 + (e1 - e2)) d2); [done|].
      assert (1 <= d1) by (unfold d1; simpl; lia).
      assert (2 ^ d2 <= 2 ^ (d1 - 1 + (e1 - e2))) by (apply Z.pow_le_mono_r; lia).
      rewrite pow2_split in * by lia. nia. }
    unfold e', fexp, in_range in *. lia. }
  assert (Hm' : match e1 - e2 - e' with Zpos _ => Z.shiftl (Zpos m1) (e1 - e2 - e') | Z0 => Zpos m1 | Zneg _ => 0 end
                = Zpos m1 * 2 ^ (e1 - e2 - e')).
  { destruct (e1 - e2 - e') eqn:E; [lia| |lia]. apply Z.shiftl_mul_pow2. lia. }
  rewrite Hm'. set (a := Zpos m1 * 2 ^ (e1 - e2 - e')).
  assert (Ha : a <= Zpos m2 * 2 ^ (0 - e')).
  { unfold value_le in Hle. set (g := Z.min e1 e2) in Hle.
    apply (Z.mul_le_mono_pos_r _ _ (2 ^ (e2 - g))); [apply Z.pow_pos_nonneg; lia|]. unfold a.
    rewrite <- !Z.mul_assoc, <- !pow2_split by lia.
    replace (e1 - e2 - e' + (e2 - g)) with (e1 - g + (0 - e')) by lia.
    replace (0 - e' + (e2 - g)) with (e2 - g + (0 - e')) by lia.
    rewrite !pow2_split, !Z.mul_assoc by lia. apply Z.mul_le_mono_nonneg_r; [lia|done]. }
  assert (Ha0 : 0 <= a) by (unfold a; lia). clearbody a. clear Hm'.
  destruct (Z.div_eucl a (Zpos m2)) as [q r] eqn:E.
  pose proof (Z_div_mod a (Zpos m2) ltac:(lia)) as Hqr. rewrite E in Hqr. destruct Hqr as [Hqr Hr].
  assert (0 <= q) by nia.
  apply round_mag; try done; [nia|]. intros Hl. apply new_location_exact in Hl. nia.
Qed.

(** A number bounded by 1 stays so when it is read into another format. *)
Lemma value_le_refl m1 m2 e : m1 <= m2 -> value_le m1 e m2 e.
Proof. unfold value_le. rewrite Z.min_id, Z.sub_diag. lia. Qed.

End Operations.
