(* ===== verification/FloatOrder.v ===== *)
(** * Valid floating-point numbers, their values and their order

    A datum of an IEEE 754 format is canonical: its exponent is the one its digits
    call for.  On such data the comparisons of [SpecFloat] compare values, an
    operation whose exact result is representable returns it, and every operation
    returns such data. *)

From Stdlib Require Import Floats.SpecFloat.
From S2P Require Import Prelude FloatFacts.

Section Values.
Context (prec emax : Z) (Hprec : 1 < prec) (Hemax : prec + 1 < emax).

Definition valid_float (x : spec_float) : Prop := valid_binary prec emax x = true.

Definition is_finite (x : spec_float) : bool :=
  match x with S754_zero _ | S754_finite _ _ _ => true | _ => false end.

(** The value of a finite number, in units of the least exponent of the format. *)
Definition fval (x : spec_float) : Z :=
  match x with
  | S754_finite s m e => cond_Zopp s (Zpos m * 2 ^ (e - emin prec emax))
  | _ => 0
  end.

(** The unit 1 in that scale. *)
Definition funit : Z := 2 ^ (- emin prec emax).

Lemma emin_neg : emin prec emax < 0.
Proof. unfold emin. lia. Qed.

Lemma funit_pos : 0 < funit.
Proof. unfold funit. pose proof emin_neg. apply Z.pow_pos_nonneg; lia. Qed.

Lemma fexp_mono a b : a <= b -> fexp prec emax a <= fexp prec emax b.
Proof. unfold fexp. lia. Qed.

Lemma valid_finite s m e : valid_float (S754_finite s m e) ->
  fexp prec emax (Zdigits2 (Zpos m) + e) = e /\ emin prec emax <= e <= emax - prec.
Proof.
  unfold valid_float, valid_binary, bounded, canonical_mantissa. rewrite andb_true_iff. intros [H1 H2].
  apply Z.eqb_eq in H1. apply Z.leb_le in H2. cbn [Zdigits2]. split; [done|]. unfold fexp in H1. lia.
Qed.

Lemma finite_valid s m e : fexp prec emax (Zdigits2 (Zpos m) + e) = e -> e <= emax - prec ->
  valid_float (S754_finite s m e).
Proof.
  intros H1 H2. unfold valid_float, valid_binary, bounded, canonical_mantissa. cbn [Zdigits2] in H1.
  rewrite H1, Z.eqb_refl. by apply Z.leb_le.
Qed.

Lemma valid_wf x : valid_float x -> wf_float prec x.
Proof.
  destruct x as [| | |s m e]; try done. intros Hv. destruct (valid_finite s m e Hv) as [H1 H2]. cbn [wf_float].
  destruct (Zdigits2_bounds (Zpos m)) as (Hd & _ & Hd0); [lia|]. apply (Z.lt_le_trans _ _ _ Hd).
  apply Z.pow_le_mono_r; [lia|]. unfold fexp in H1. lia.
Qed.

(** ** Digits *)

Lemma Zdigits2_unique m d : 1 <= d -> 2 ^ (d - 1) <= m < 2 ^ d -> Zdigits2 m = d.
Proof.
  intros Hd [H1 H2]. assert (0 < m) by (pose proof (Z.pow_pos_nonneg 2 (d - 1)); lia).
  destruct (Zdigits2_bounds m) as (B1 & B2 & B3); [lia|]. specialize (B2 ltac:(lia)).
  destruct (Z.lt_trichotomy (Zdigits2 m) d) as [Hl|[He|Hl]]; [|done|].
  - assert (2 ^ Zdigits2 m <= 2 ^ (d - 1)) by (apply Z.pow_le_mono_r; lia). lia.
  - assert (2 ^ d <= 2 ^ (Zdigits2 m - 1)) by (apply Z.pow_le_mono_r; lia). lia.
Qed.

Lemma Zdigits2_pos_ge m : 0 < m -> 1 <= Zdigits2 m.
Proof. destruct m; simpl; lia. Qed.

Lemma Zdigits2_mono m n : 0 <= m <= n -> Zdigits2 m <= Zdigits2 n.
Proof.
  intros [Hm Hn]. destruct (Z.eq_dec m 0) as [->|]; [simpl; destruct (Zdigits2_bounds n); lia|].
  destruct (Zdigits2_bounds m) as (_ & B2 & _); [lia|]. specialize (B2 ltac:(lia)).
  destruct (Zdigits2_bounds n) as (C1 & _ & C3); [lia|].
  destruct (Z.leb_spec (Zdigits2 m) (Zdigits2 n)); [done|].
  assert (2 ^ Zdigits2 n <= 2 ^ (Zdigits2 m - 1)) by (apply Z.pow_le_mono_r; lia). lia.
Qed.

Lemma Zdigits2_shift m n : 0 < m -> 0 <= n -> Zdigits2 (m * 2 ^ n) = Zdigits2 m + n.
Proof.
  intros Hm Hn. destruct (Zdigits2_bounds m) as (B1 & B2 & _); [lia|]. specialize (B2 Hm).
  pose proof (Zdigits2_pos_ge m Hm). apply Zdigits2_unique; [lia|].
  replace (Zdigits2 m + n - 1) with (Zdigits2 m - 1 + n) by lia. rewrite !pow2_split by lia.
  assert (0 < 2 ^ n) by (apply Z.pow_pos_nonneg; lia). nia.
Qed.

Lemma Zdigits2_div m n : 0 < m -> 0 <= n < Zdigits2 m -> Zdigits2 (m / 2 ^ n) = Zdigits2 m - n.
Proof.
  intros Hm Hn. destruct (Zdigits2_bounds m) as (B1 & B2 & _); [lia|]. specialize (B2 Hm).
  assert (0 < 2 ^ n) by (apply Z.pow_pos_nonneg; lia). apply Zdigits2_unique; [lia|]. split.
  - apply Z.div_le_lower_bound; [done|]. rewrite <- pow2_split by lia.
    replace (n + (Zdigits2 m - n - 1)) with (Zdigits2 m - 1) by lia. done.
  - apply Z.div_lt_upper_bound; [done|]. rewrite <- pow2_split by lia.
    replace (n + (Zdigits2 m - n)) with (Zdigits2 m) by lia. done.
Qed.

Lemma div_small_digits m n : 0 <= m -> Zdigits2 m <= n -> m / 2 ^ n = 0.
Proof.
  intros Hm Hn. apply Z.div_small. split; [done|]. destruct (Zdigits2_bounds m) as (B1 & _ & B3); [done|].
  apply (Z.lt_le_trans _ _ _ B1). apply Z.pow_le_mono_r; lia.
Qed.

Lemma Zdigits2_mul m n : 0 < m -> 0 < n -> Zdigits2 m + Zdigits2 n - 1 <= Zdigits2 (m * n).
Proof.
  intros Hm Hn. destruct (Zdigits2_bounds m) as (_ & B2 & _); [lia|]. specialize (B2 Hm).
  destruct (Zdigits2_bounds n) as (_ & C2 & _); [lia|]. specialize (C2 Hn).
  pose proof (Zdigits2_pos_ge m Hm). pose proof (Zdigits2_pos_ge n Hn).
  assert (2 ^ (Zdigits2 m - 1 + (Zdigits2 n - 1)) <= m * n).
  { rewrite pow2_split by lia. apply Z.mul_le_mono_nonneg; lia. }
  destruct (Zdigits2_bounds (m * n)) as (D1 & _ & D3); [nia|].
  destruct (Z.leb_spec (Zdigits2 m + Zdigits2 n - 1) (Zdigits2 (m * n))); [done|].
  assert (2 ^ Zdigits2 (m * n) <= 2 ^ (Zdigits2 m - 1 + (Zdigits2 n - 1))) by (apply Z.pow_le_mono_r; lia). lia.
Qed.

(** ** Rounding yields valid numbers *)

(** The mantissa has all the digits the format can hold at that exponent. *)
Definition aligned (m e : Z) : Prop := e <= fexp prec emax (Zdigits2 m + e).

Lemma aligned_shift m e : 0 <= m -> aligned m e ->
  let n := shift_of prec emax m e in
  e + n = fexp prec emax (Zdigits2 m + e) /\ aligned (m / 2 ^ n) (e + n) /\
  (0 < m / 2 ^ n -> fexp prec emax (Zdigits2 (m / 2 ^ n) + (e + n)) = e + n).
Proof.
  intros Hm Ha n. unfold aligned in Ha.
  assert (En : e + n = fexp prec emax (Zdigits2 m + e)) by (unfold n, shift_of; lia).
  assert (Hn : 0 <= n) by apply shift_nonneg. split; [done|].
  destruct (Z.eq_dec m 0) as [->|Hm0].
  - rewrite Zdiv_0_l. split; [|lia]. unfold aligned. cbn [Zdigits2] in *. rewrite En. unfold fexp in *. lia.
  - destruct (Z.ltb_spec n (Zdigits2 m)).
    + unfold aligned. rewrite Zdigits2_div by lia.
      replace (Zdigits2 m - n + (e + n)) with (Zdigits2 m + e) by lia. lia.
    + rewrite div_small_digits by lia. split; [|lia]. unfold aligned. cbn [Zdigits2]. unfold fexp in *. lia.
Qed.

Lemma aligned_succ m e : 0 <= m -> aligned m e -> aligned (m + 1) e.
Proof.
  intros Hm Ha. unfold aligned in *. apply (Z.le_trans _ _ _ Ha). apply fexp_mono.
  pose proof (Zdigits2_mono m (m + 1) ltac:(lia)). lia.
Qed.

Lemma round_valid s m e l : 0 <= m -> aligned m e -> valid_float (binary_round_aux prec emax s m e l).
Proof.
  intros Hm Ha. unfold binary_round_aux. destruct (shr_fexp_spec prec emax m e l Hm) as (E1 & E2 & _).
  destruct (shr_fexp prec emax m e l) as [r e1]. cbn [fst snd] in E1, E2.
  destruct (aligned_shift m e Hm Ha) as (_ & A2 & _). rewrite <- E1, <- E2 in A2.
  set (m1 := round_nearest_even (shr_m r) (loc_of_shr_record r)).
  assert (Hr0 : 0 <= shr_m r) by (rewrite E1; apply Z.div_pos; [done|apply Z.pow_pos_nonneg; [lia|apply shift_nonneg]]).
  assert (Hm1 : 0 <= m1 /\ aligned m1 e1).
  { pose proof (round_bounds (shr_m r) r) as Hb. fold m1 in Hb. split; [lia|].
    assert (m1 = shr_m r \/ m1 = shr_m r + 1) as [-> | ->] by lia; [done|by apply aligned_succ]. }
  destruct Hm1 as [Hm1 Ha1]. destruct (shr_fexp_spec prec emax m1 e1 loc_Exact Hm1) as (F1 & F2 & _).
  destruct (shr_fexp prec emax m1 e1 loc_Exact) as [r2 e2]. cbn [fst snd] in F1, F2.
  destruct (aligned_shift m1 e1 Hm1 Ha1) as (_ & _ & C3). rewrite <- F1, <- F2 in C3.
  destruct (shr_m r2) as [|p|p] eqn:Ep; [done| |done].
  destruct (Z.leb_spec e2 (emax - prec)); [|done]. apply finite_valid; [|done]. apply C3. lia.
Qed.

Lemma round_aligned p e :
  let q := shl_align p e (fexp prec emax (Zpos (digits2_pos p) + e)) in
  Zpos q.1 = Zpos p * 2 ^ (e - q.2) /\ q.2 <= e /\ aligned (Zpos q.1) q.2 /\
  (emin prec emax <= e -> emin prec emax <= q.2).
Proof.
  intros q. destruct (shl_align_spec p e (fexp prec emax (Zpos (digits2_pos p) + e))) as [H1 H2].
  fold q in H1, H2. split; [done|]. split; [lia|]. split.
  - unfold aligned. rewrite H1, Zdigits2_shift by lia. cbn [Zdigits2].
    replace (Zpos (digits2_pos p) + (e - q.2) + q.2) with (Zpos (digits2_pos p) + e) by lia. lia.
  - rewrite H2. unfold fexp. lia.
Qed.

Lemma binary_round_valid s p e : valid_float (binary_round prec emax s p e).
Proof.
  unfold binary_round. destruct (round_aligned p e) as (_ & _ & Ha & _). destruct (shl_align _ _ _) as [q f].
  by apply round_valid.
Qed.

Lemma binary_normalize_valid m e s : valid_float (binary_normalize prec emax m e s).
Proof. destruct m; [done|apply binary_round_valid..]. Qed.

(** ** Operations yield valid numbers *)

Lemma SFadd_valid x y : valid_float x -> valid_float y -> valid_float (SFadd prec emax x y).
Proof. intros Hx Hy. destruct x as [[]|[]| |], y as [[]|[]| |]; try done; apply binary_normalize_valid. Qed.

Lemma SFsub_valid x y : valid_float x -> valid_float y -> valid_float (SFsub prec emax x y).
Proof. intros Hx Hy. destruct x as [[]|[]| |], y as [[]|[]| |]; try done; apply binary_normalize_valid. Qed.

Lemma mul_aligned m e n f : fexp prec emax (Zdigits2 (Zpos m) + e) = e -> fexp prec emax (Zdigits2 (Zpos n) + f) = f ->
  aligned (Zpos (m * n)) (e + f).
Proof.
  intros H1 H2. unfold aligned. rewrite Pos2Z.inj_mul. pose proof (Zdigits2_mul (Zpos m) (Zpos n) ltac:(lia) ltac:(lia)).
  pose proof (Zdigits2_pos_ge (Zpos m) ltac:(lia)). pose proof (Zdigits2_pos_ge (Zpos n) ltac:(lia)).
  pose proof emin_neg. unfold fexp in *. lia.
Qed.

Lemma SFmul_valid x y : valid_float x -> valid_float y -> valid_float (SFmul prec emax x y).
Proof.
  intros Hx Hy. destruct x as [| | |s m e], y as [| | |t n f]; try done.
  destruct (valid_finite _ _ _ Hx) as [H1 _], (valid_finite _ _ _ Hy) as [H2 _].
  apply round_valid; [lia|]. by apply mul_aligned.
Qed.

(** The quotient a division rounds, with the remainder. *)
Lemma div_core s m e t n f :
  let d := Zdigits2 (Zpos m) + e - (Zdigits2 (Zpos n) + f) in
  exists q r e' l, SFdiv prec emax (S754_finite s m e) (S754_finite t n f) = binary_round_aux prec emax (xorb s t) q e' l /\
    e' = Z.min (fexp prec emax d) (e - f) /\
    Zpos m * 2 ^ (e - f - e') = Zpos n * q + r /\ 0 <= r < Zpos n /\ 0 <= q /\
    d - e' <= Zdigits2 q <= Z.max 0 (d - e' + 1) /\ aligned q e'.
Proof.
  cbv zeta. cbn [SFdiv]. unfold SFdiv_core_binary.
  set (d1 := Zdigits2 _). set (d2 := Zdigits2 _). set (e' := Z.min _ _). set (k := e - f - e').
  assert (Hm' : match k with Zpos _ => Z.shiftl (Zpos m) k | Z0 => Zpos m | Zneg _ => 0 end = Zpos m * 2 ^ k).
  { destruct k eqn:E; [lia| |unfold k, e' in E; lia]. apply Z.shiftl_mul_pow2. lia. }
  assert (Hk : 0 <= k) by (unfold k, e'; lia). rewrite Hm'.
  destruct (Z.div_eucl _ _) as [q r] eqn:E.
  pose proof (Z_div_mod (Zpos m * 2 ^ k) (Zpos n) ltac:(lia)) as Hqr. rewrite E in Hqr. destruct Hqr as [Hqr Hr].
  assert (Hp : 0 < 2 ^ k) by (apply Z.pow_pos_nonneg; lia).
  assert (Hq0 : 0 <= q) by nia.
  destruct (Zdigits2_bounds (Zpos n)) as (B1 & B2 & B3); [lia|]. specialize (B2 ltac:(lia)). fold d2 in B1, B2, B3.
  destruct (Zdigits2_bounds (Zpos m)) as (C1 & C2 & _); [lia|]. specialize (C2 ltac:(lia)). fold d1 in C1, C2.
  assert (Hd1 : 1 <= d1) by (apply (Zdigits2_pos_ge (Zpos m)); lia).
  assert (Hd2 : 1 <= d2) by (apply (Zdigits2_pos_ge (Zpos n)); lia).
  assert (Hd : d1 + k - d2 <= Zdigits2 q).
  { destruct (Z.leb_spec (d1 + k - d2) 0); [destruct (Zdigits2_bounds q) as (_ & _ & ?); lia|].
    assert (Hlow : 2 ^ (d1 + k - d2 - 1) <= q).
    { replace q with ((Zpos m * 2 ^ k) / Zpos n) by (unfold Z.div; by rewrite E). apply Z.div_le_lower_bound; [lia|].
      apply Z.le_trans with (2 ^ d2 * 2 ^ (d1 + k - d2 - 1)); [apply Z.mul_le_mono_nonneg_r; lia|].
      rewrite <- pow2_split by lia. replace (d2 + (d1 + k - d2 - 1)) with (d1 - 1 + k) by lia.
      rewrite pow2_split by lia. apply Z.mul_le_mono_nonneg_r; lia. }
    assert (E1 : Zdigits2 (2 ^ (d1 + k - d2 - 1)) = d1 + k - d2).
    { apply Zdigits2_unique; [lia|]. split; [lia|]. apply Z.pow_lt_mono_r; lia. }
    rewrite <- E1. apply Zdigits2_mono. lia. }
  assert (Hup : Zdigits2 q <= Z.max 0 (d1 + k - d2 + 1)).
  { set (g := Z.max 0 _). destruct (Z.leb_spec (Zdigits2 q) g) as [|Hgt]; [done|exfalso].
    destruct (Z.eq_dec q 0) as [->|]; [simpl in Hgt; lia|].
    destruct (Zdigits2_bounds q) as (_ & D2 & _); [done|]. specialize (D2 ltac:(lia)).
    assert (H1 : 2 ^ g <= q) by (apply Z.le_trans with (2 ^ (Zdigits2 q - 1)); [apply Z.pow_le_mono_r; lia|done]).
    assert (H2 : 2 ^ (d2 - 1) * 2 ^ g <= Zpos m * 2 ^ k) by (apply Z.le_trans with (Zpos n * q); [apply Z.mul_le_mono_nonneg; lia|lia]).
    rewrite <- pow2_split in H2 by lia. assert (2 ^ (d1 + k) <= 2 ^ (d2 - 1 + g)) by (apply Z.pow_le_mono_r; lia).
    rewrite (pow2_split d1) in * by lia. nia. }
  assert (Hke : d1 + e - (d2 + f) - e' = d1 + k - d2) by (unfold k; lia).
  eexists q, r, e', _. split; [reflexivity|]. split; [done|]. split; [exact Hqr|]. split; [lia|]. split; [done|].
  rewrite Hke. split; [done|]. unfold aligned.
  apply Z.le_trans with (fexp prec emax (d1 + e - (d2 + f))); [unfold e'; lia|]. apply fexp_mono. lia.
Qed.

Lemma SFdiv_valid x y : valid_float (SFdiv prec emax x y).
Proof.
  destruct x as [| | |s m e], y as [| | |t n f]; try done.
  destruct (div_core s m e t n f) as (q & r & e' & l & -> & _ & _ & _ & Hq & _ & Ha). by apply round_valid.
Qed.

(** The root a square root rounds. *)
Lemma sqrt_core m e :
  let d := Zdigits2 (Zpos m) in
  exists q e' l, SFsqrt prec emax (S754_finite false m e) = binary_round_aux prec emax false q e' l /\
    e' = Z.min (fexp prec emax (Z.div2 (d + e + 1))) (Z.div2 e) /\
    0 <= q /\ q * q <= Zpos m * 2 ^ (e - 2 * e') < (q + 1) * (q + 1) /\
    Z.div2 (d + e + 1) - e' <= Zdigits2 q <= Z.div2 (d + e + 1) - e' + 1 /\ aligned q e'.
Proof.
  cbv zeta. cbn [SFsqrt]. unfold SFsqrt_core_binary.
  set (d := Zdigits2 _). set (e' := Z.min _ _). set (k := e - 2 * e').
  assert (Hdiv2 : forall z, 2 * Z.div2 z <= z <= 2 * Z.div2 z + 1).
  { intros z. pose proof (Z.div2_odd z). destruct (Z.odd z); simpl in *; lia. }
  assert (Hk : 0 <= k) by (pose proof (Hdiv2 e); unfold k, e'; lia).
  assert (Hm' : match k with Zpos _ => Z.shiftl (Zpos m) k | Z0 => Zpos m | Zneg _ => 0 end = Zpos m * 2 ^ k).
  { destruct k eqn:E; [lia| |lia]. apply Z.shiftl_mul_pow2. lia. }
  rewrite Hm'. destruct (Z.sqrtrem _) as [q r] eqn:E.
  assert (Hq : q = Z.sqrt (Zpos m * 2 ^ k)) by (rewrite <- Z.sqrtrem_sqrt; by rewrite E).
  assert (Hp : 0 < 2 ^ k) by (apply Z.pow_pos_nonneg; lia).
  assert (Hq0 : 0 <= q) by (rewrite Hq; apply Z.sqrt_nonneg).
  pose proof (Z.sqrt_spec (Zpos m * 2 ^ k) ltac:(lia)) as Hs. rewrite <- Hq in Hs. cbv zeta in Hs.
  set (h := Z.div2 (d + e + 1) - e'). pose proof (Hdiv2 (d + e + 1)) as Hh.
  destruct (Zdigits2_bounds (Zpos m)) as (C1 & C2 & _); [lia|]. specialize (C2 ltac:(lia)). fold d in C1, C2.
  assert (Hd1 : 1 <= d) by (apply (Zdigits2_pos_ge (Zpos m)); lia).
  assert (Hh1 : 1 <= h) by (pose proof (Hdiv2 e); unfold h, e'; lia).
  assert (Hd : h <= Zdigits2 q).
  { assert (Hlow : 2 ^ (h - 1) <= q).
    { rewrite Hq. apply Z.sqrt_le_square; [lia|apply Z.pow_nonneg; lia|]. rewrite <- pow2_split by lia.
      apply Z.le_trans with (2 ^ (d - 1 + k)); [apply Z.pow_le_mono_r; unfold h, k; lia|].
      rewrite pow2_split by lia. apply Z.mul_le_mono_nonneg_r; lia. }
    assert (E1 : Zdigits2 (2 ^ (h - 1)) = h).
    { apply Zdigits2_unique; [lia|]. split; [lia|]. apply Z.pow_lt_mono_r; lia. }
    rewrite <- E1. apply Zdigits2_mono. pose proof (Z.pow_pos_nonneg 2 (h - 1)). lia. }
  assert (Hup : Zdigits2 q <= h + 1).
  { destruct (Z.leb_spec (Zdigits2 q) (h + 1)) as [|Hgt]; [done|exfalso].
    destruct (Z.eq_dec q 0) as [E0|]; [rewrite E0 in Hgt; simpl in Hgt; lia|].
    destruct (Zdigits2_bounds q) as (_ & D2 & _); [done|]. specialize (D2 ltac:(lia)).
    assert (H1 : 2 ^ (h + 1) <= q) by (apply Z.le_trans with (2 ^ (Zdigits2 q - 1)); [apply Z.pow_le_mono_r; lia|done]).
    assert (H2 : 2 ^ (h + 1) * 2 ^ (h + 1) <= q * q) by (apply Z.mul_le_mono_nonneg; try done; apply Z.pow_nonneg; lia).
    rewrite <- pow2_split in H2 by lia.
    assert (2 ^ (d + k) <= 2 ^ (h + 1 + (h + 1))) by (apply Z.pow_le_mono_r; unfold h, k; lia).
    rewrite (pow2_split d) in * by lia. nia. }
  eexists q, e', _. split; [reflexivity|]. split; [done|]. split; [done|]. split; [exact Hs|]. split; [done|].
  unfold aligned. apply Z.le_trans with (fexp prec emax (Z.div2 (d + e + 1))); [unfold e'; lia|]. apply fexp_mono. unfold h in Hd. lia.
Qed.

Lemma SFsqrt_valid x : valid_float x -> valid_float (SFsqrt prec emax x).
Proof.
  intros Hx. destruct x as [|[]| |[] m e]; try done.
  destruct (sqrt_core m e) as (q & e' & l & -> & _ & Hq & _ & _ & Ha). by apply round_valid.
Qed.

(** ** Comparisons compare values *)

Lemma fval_pos m e : emin prec emax <= e -> 0 < Zpos m * 2 ^ (e - emin prec emax).
Proof. intros. apply Z.mul_pos_pos; [lia|]. apply Z.pow_pos_nonneg; lia. Qed.

(** The larger exponent wins. *)
Lemma exponent_order s m e t n f : valid_float (S754_finite s m e) -> valid_float (S754_finite t n f) -> e < f ->
  Zpos m * 2 ^ (e - emin prec emax) < Zpos n * 2 ^ (f - emin prec emax).
Proof.
  intros Hx Hy Hef. pose proof (valid_wf _ Hx) as Hm. cbn [wf_float] in Hm.
  destruct (valid_finite _ _ _ Hx) as [_ He], (valid_finite _ _ _ Hy) as [H2 Hf].
  assert (Hd : Zdigits2 (Zpos n) = prec) by (unfold fexp in H2; lia).
  destruct (Zdigits2_bounds (Zpos n)) as (_ & Hn & _); [lia|]. specialize (Hn ltac:(lia)). rewrite Hd in Hn.
  set (k := e - emin prec emax). replace (f - emin prec emax) with (k + (f - e)) by (unfold k; lia).
  assert (0 <= k) by (unfold k; lia). rewrite pow2_split by lia.
  assert (2 <= 2 ^ (f - e)) by (change 2 with (2 ^ 1) at 1; apply Z.pow_le_mono_r; lia).
  assert (E : 2 ^ prec = 2 ^ (prec - 1) * 2) by (change 2 with (2 ^ 1) at 3; rewrite <- pow2_split by lia; f_equal; lia).
  assert (0 < 2 ^ k) by (apply Z.pow_pos_nonneg; lia).
  assert (Zpos m < Zpos n * 2 ^ (f - e)) by nia.
  replace (Zpos n * (2 ^ k * 2 ^ (f - e))) with (Zpos n * 2 ^ (f - e) * 2 ^ k) by lia.
  by apply Z.mul_lt_mono_pos_r.
Qed.

Lemma compare_magnitudes s m e t n f : valid_float (S754_finite s m e) -> valid_float (S754_finite t n f) ->
  match Z.compare e f with Lt => Lt | Gt => Gt | Eq => Pos.compare_cont Eq m n end =
  (Zpos m * 2 ^ (e - emin prec emax) ?= Zpos n * 2 ^ (f - emin prec emax)).
Proof.
  intros Hx Hy. destruct (valid_finite _ _ _ Hx) as [_ He]. destruct (Z.compare_spec e f) as [<-|Hef|Hef]; symmetry.
  - rewrite <- Zmult_compare_compat_r by (apply Z.lt_gt; apply Z.pow_pos_nonneg; lia). done.
  - apply Z.compare_lt_iff. by eapply exponent_order.
  - apply Z.compare_gt_iff. by eapply exponent_order.
Qed.

Lemma SFcompare_fval x y : valid_float x -> valid_float y -> is_finite x = true -> is_finite y = true ->
  SFcompare x y = Some (fval x ?= fval y).
Proof.
  intros Hx Hy Fx Fy. destruct x as [s|s| |s m e], y as [t|t| |t n f]; try done; cbn [SFcompare fval].
  - f_equal. destruct (valid_finite _ _ _ Hy) as [_ Hf]. pose proof (fval_pos n f ltac:(lia)).
    symmetry. destruct t; cbn [cond_Zopp]; [apply Z.compare_gt_iff|apply Z.compare_lt_iff]; lia.
  - f_equal. destruct (valid_finite _ _ _ Hx) as [_ He]. pose proof (fval_pos m e ltac:(lia)).
    symmetry. destruct s; cbn [cond_Zopp]; [apply Z.compare_lt_iff|apply Z.compare_gt_iff]; lia.
  - f_equal. destruct (valid_finite _ _ _ Hx) as [_ He], (valid_finite _ _ _ Hy) as [_ Hf].
    pose proof (fval_pos m e ltac:(lia)). pose proof (fval_pos n f ltac:(lia)).
    destruct s, t; cbn [cond_Zopp].
    + rewrite Z.compare_opp. set (a := _ * 2 ^ (e - _)). set (b := _ * 2 ^ (f - _)).
      rewrite (Z.compare_antisym a b). unfold a, b. rewrite <- (compare_magnitudes _ _ _ _ _ _ Hx Hy). by destruct (e ?= f).
    + symmetry. apply Z.compare_lt_iff. lia.
    + symmetry. apply Z.compare_gt_iff. lia.
    + by apply (compare_magnitudes _ _ _ _ _ _ Hx Hy).
Qed.

Lemma SFltb_fval x y : valid_float x -> valid_float y -> is_finite x = true -> is_finite y = true ->
  SFltb x y = (fval x <? fval y).
Proof. intros. unfold SFltb, Z.ltb. rewrite SFcompare_fval by done. by destruct (fval x ?= fval y). Qed.

Lemma SFleb_fval x y : valid_float x -> valid_float y -> is_finite x = true -> is_finite y = true ->
  SFleb x y = (fval x <=? fval y).
Proof. intros. unfold SFleb, Z.leb. rewrite SFcompare_fval by done. by destruct (fval x ?= fval y). Qed.

Lemma SFeqb_fval x y : valid_float x -> valid_float y -> is_finite x = true -> is_finite y = true ->
  SFeqb x y = (fval x =? fval y).
Proof.
  intros. unfold SFeqb. rewrite SFcompare_fval by done.
  destruct (Z.compare_spec (fval x) (fval y)); symmetry; by apply Z.eqb_eq || (apply Z.eqb_neq; lia).
Qed.

(** ** Representable results are returned *)

Definition representable (z : Z) : Prop :=
  exists q j, z = q * 2 ^ j /\ 0 <= j /\ Z.abs q < 2 ^ prec /\ Z.abs z < 2 ^ (emax - emin prec emax).

(** The result of an exact operation. *)
Definition yields (x : spec_float) (z : Z) : Prop := is_finite x = true /\ valid_float x /\ fval x = z.

Lemma Zdigits2_factor m q j : 0 < m -> m = q * 2 ^ j -> 0 <= j -> q < 2 ^ prec -> Zdigits2 m <= prec + j.
Proof.
  intros Hm -> Hj Hq. assert (0 < 2 ^ j) by (apply Z.pow_pos_nonneg; lia).
  rewrite Zdigits2_shift by nia. enough (Zdigits2 q <= prec) by lia.
  destruct (Zdigits2_bounds q) as (_ & B & _); [nia|]. specialize (B ltac:(nia)).
  destruct (Z.leb_spec (Zdigits2 q) prec); [done|].
  assert (2 ^ prec <= 2 ^ (Zdigits2 q - 1)) by (apply Z.pow_le_mono_r; lia). lia.
Qed.

Lemma round_exact_value s m e : 0 < m -> aligned m e -> emin prec emax <= e ->
  representable (m * 2 ^ (e - emin prec emax)) ->
  yields (binary_round_aux prec emax s m e loc_Exact) (cond_Zopp s (m * 2 ^ (e - emin prec emax))).
Proof.
  intros Hm Ha He (q & j & Hz & Hj & Hq & Hmax).
  pose proof (round_valid s m e loc_Exact ltac:(lia) Ha) as Hv. revert Hv. unfold binary_round_aux.
  set (k := e - emin prec emax) in *. assert (Hk : 0 <= k) by (unfold k; lia).
  assert (Hpk : 0 < 2 ^ k) by (apply Z.pow_pos_nonneg; lia).
  assert (Hmk : 0 < m * 2 ^ k) by (apply Z.mul_pos_pos; lia). rewrite Z.abs_eq in Hmax by lia.
  assert (Hpos : 0 < q) by (assert (0 < 2 ^ j) by (apply Z.pow_pos_nonneg; lia); nia).
  rewrite Z.abs_eq in Hq by lia.
  set (n := shift_of prec emax m e).
  assert (Hn : 0 <= n) by apply shift_nonneg.
  destruct (aligned_shift m e ltac:(lia) Ha) as (A1 & A2 & A3). fold n in A1, A2, A3.
  assert (Hdig : Zdigits2 m + k <= prec + j).
  { rewrite <- Zdigits2_shift by lia. apply (Zdigits2_factor _ q); done. }
  (* the shift loses nothing *)
  assert (Hmod : m mod 2 ^ n = 0 /\ n < Zdigits2 m).
  { pose proof (Zdigits2_pos_ge m Hm). destruct (Z.eq_dec n 0) as [->|Hn0]; [split; [apply Z.mod_1_r|lia]|].
    assert (En : n = Zdigits2 m - prec) by (unfold fexp in A1; lia). split; [|lia].
    assert (Hjk : n <= j - k) by lia.
    assert (Em : m = q * 2 ^ (j - k - n) * 2 ^ n).
    { apply (Z.mul_cancel_r _ _ (2 ^ k)); [lia|].
      rewrite Hz. replace j with (j - k - n + n + k) at 1 by lia. rewrite !pow2_split by lia. lia. }
    rewrite Em. apply Z.mod_mul. lia. }
  destruct Hmod as [Hmod Hnd].
  destruct (shr_fexp_spec prec emax m e loc_Exact ltac:(lia)) as (E1 & E2 & E3).
  destruct (shr_fexp prec emax m e loc_Exact) as [r e1]. cbn [fst snd] in *. fold n in E1, E2, E3.
  rewrite Hmod, Z.eqb_refl in E3. rewrite round_exact, E1, E2 by done.
  set (m1 := m / 2 ^ n) in *. assert (Hp : 0 < 2 ^ n) by (apply Z.pow_pos_nonneg; lia).
  assert (Hmm : m = m1 * 2 ^ n) by (unfold m1; pose proof (Z.div_mod m (2 ^ n)); lia).
  assert (Hm1 : 0 < m1) by nia. specialize (A3 Hm1).
  destruct (shr_fexp_spec prec emax m1 (e + n) loc_Exact ltac:(lia)) as (F1 & F2 & _).
  destruct (shr_fexp prec emax m1 (e + n) loc_Exact) as [r2 e2]. cbn [fst snd] in *.
  assert (Hs0 : shift_of prec emax m1 (e + n) = 0) by (unfold shift_of; rewrite A3; lia).
  rewrite Hs0, Z.div_1_r in F1. rewrite Hs0, Z.add_0_r in F2. rewrite F1, F2.
  assert (Hd1 : Zdigits2 m1 = Zdigits2 m - n) by (unfold m1; by apply Zdigits2_div).
  assert (Hemax' : e + n <= emax - prec).
  { assert (Hdm : Zdigits2 m + k <= emax - emin prec emax).
    { rewrite <- Zdigits2_shift by lia. destruct (Zdigits2_bounds (m * 2 ^ k)) as (_ & B & _); [lia|].
      specialize (B Hmk). destruct (Z.leb_spec (Zdigits2 (m * 2 ^ k)) (emax - emin prec emax)); [done|].
      assert (2 ^ (emax - emin prec emax) <= 2 ^ (Zdigits2 (m * 2 ^ k) - 1)); [|lia].
      apply Z.pow_le_mono_r; lia. }
    unfold k in Hdm. unfold fexp in A1. unfold emin in *. lia. }
  destruct m1 as [|p|p] eqn:Ep; [lia| |lia]. destruct (Z.leb_spec (e + n) (emax - prec)); [|lia].
  intros Hv. split; [done|]. split; [done|]. cbn [fval]. f_equal.
  replace (e + n - emin prec emax) with (n + k) by (unfold k; lia). rewrite pow2_split by lia. rewrite Hmm. lia.
Qed.

Lemma binary_round_exact s p e : emin prec emax <= e -> representable (Zpos p * 2 ^ (e - emin prec emax)) ->
  yields (binary_round prec emax s p e) (cond_Zopp s (Zpos p * 2 ^ (e - emin prec emax))).
Proof.
  intros He Hr. unfold binary_round. destruct (round_aligned p e) as (H1 & H2 & H3 & H4). specialize (H4 He).
  destruct (shl_align _ _ _) as [q f]. cbn [fst snd] in *.
  assert (E : Zpos p * 2 ^ (e - emin prec emax) = Zpos q * 2 ^ (f - emin prec emax)).
  { rewrite H1, <- Z.mul_assoc, <- pow2_split by lia. do 2 f_equal. lia. }
  rewrite E in *. by apply round_exact_value.
Qed.

Lemma representable_opp z : representable z -> representable (- z).
Proof. intros (q & j & -> & Hj & Hq & Hm). exists (- q), j. rewrite !Z.abs_opp. split; [lia|]. done. Qed.

Lemma binary_normalize_exact m e s : emin prec emax <= e -> representable (m * 2 ^ (e - emin prec emax)) ->
  yields (binary_normalize prec emax m e s) (m * 2 ^ (e - emin prec emax)).
Proof.
  intros He Hr. destruct m as [|p|p]; [done| |].
  - by apply (binary_round_exact false).
  - change (Zneg p) with (- Zpos p) in *. rewrite Z.mul_opp_l in *. apply (binary_round_exact true p e He).
    apply representable_opp in Hr. by rewrite Z.opp_involutive in Hr.
Qed.

Lemma representable_small q j : 0 <= j -> Z.abs q < 2 ^ prec -> j <= emax - prec - emin prec emax ->
  representable (q * 2 ^ j).
Proof.
  intros Hj Hq Hm. exists q, j. split; [done|]. split; [done|]. split; [done|].
  assert (0 < 2 ^ j) by (apply Z.pow_pos_nonneg; lia). rewrite Z.abs_mul, (Z.abs_eq (2 ^ j)) by lia.
  apply Z.lt_le_trans with (2 ^ prec * 2 ^ j); [nia|]. rewrite <- pow2_split by lia. apply Z.pow_le_mono_r; lia.
Qed.

(** The sum and the difference of two numbers. *)
Lemma align_value m e g : g <= e -> emin prec emax <= g ->
  Zpos (shl_align m e g).1 * 2 ^ (g - emin prec emax) = Zpos m * 2 ^ (e - emin prec emax).
Proof.
  intros Hg He. destruct (shl_align_spec m e g) as [-> H2]. rewrite Z.min_r in H2 by lia. rewrite H2.
  rewrite <- Z.mul_assoc, <- pow2_split by lia. do 2 f_equal. lia.
Qed.

Lemma cond_Zopp_mul s a b : cond_Zopp s (a * b) = cond_Zopp s a * b.
Proof. destruct s; simpl; lia. Qed.

Lemma SFsub_exact x y : valid_float x -> valid_float y -> is_finite x = true -> is_finite y = true ->
  representable (fval x - fval y) -> yields (SFsub prec emax x y) (fval x - fval y).
Proof.
  intros Hx Hy Fx Fy Hr.
  assert (Hv : valid_float (SFsub prec emax x y)) by (by apply SFsub_valid).
  destruct x as [s|s| |s m e], y as [t|t| |t n f]; try done.
  - by destruct s, t.
  - split; [done|]. split; [done|]. cbn [SFsub fval]. destruct t; cbn [cond_Zopp negb]; lia.
  - split; [done|]. split; [done|]. cbn [SFsub fval]. lia.
  - destruct (valid_finite _ _ _ Hx) as [_ He], (valid_finite _ _ _ Hy) as [_ Hf].
    cbn [SFsub]. set (g := Z.min e f). cbn [fval] in *.
    assert (E : (cond_Zopp s (Zpos (shl_align m e g).1) - cond_Zopp t (Zpos (shl_align n f g).1)) * 2 ^ (g - emin prec emax) =
      cond_Zopp s (Zpos m * 2 ^ (e - emin prec emax)) - cond_Zopp t (Zpos n * 2 ^ (f - emin prec emax))).
    { rewrite <- (align_value m e g), <- (align_value n f g) by lia. rewrite !cond_Zopp_mul. lia. }
    rewrite <- E in Hr |- *. apply binary_normalize_exact; [lia|done].
Qed.

Lemma SFadd_exact x y : valid_float x -> valid_float y -> is_finite x = true -> is_finite y = true ->
  representable (fval x + fval y) -> yields (SFadd prec emax x y) (fval x + fval y).
Proof.
  intros Hx Hy Fx Fy Hr.
  assert (Hv : valid_float (SFadd prec emax x y)) by (by apply SFadd_valid).
  destruct x as [s|s| |s m e], y as [t|t| |t n f]; try done.
  - by destruct s, t.
  - split; [done|]. split; [done|]. cbn [SFadd fval]. lia.
  - destruct (valid_finite _ _ _ Hx) as [_ He], (valid_finite _ _ _ Hy) as [_ Hf].
    cbn [SFadd]. set (g := Z.min e f). cbn [fval] in *.
    assert (E : (cond_Zopp s (Zpos (shl_align m e g).1) + cond_Zopp t (Zpos (shl_align n f g).1)) * 2 ^ (g - emin prec emax) =
      cond_Zopp s (Zpos m * 2 ^ (e - emin prec emax)) + cond_Zopp t (Zpos n * 2 ^ (f - emin prec emax))).
    { rewrite <- (align_value m e g), <- (align_value n f g) by lia. rewrite !cond_Zopp_mul. lia. }
    rewrite <- E in Hr |- *. apply binary_normalize_exact; [lia|done].
Qed.

(** The product of two numbers, when its exponent is in range. *)
Lemma SFmul_exact s m e t n f z :
  valid_float (S754_finite s m e) -> valid_float (S754_finite t n f) -> emin prec emax <= e + f ->
  fval (S754_finite s m e) * fval (S754_finite t n f) = z * funit -> representable z ->
  yields (SFmul prec emax (S754_finite s m e) (S754_finite t n f)) z.
Proof.
  intros Hx Hy Hef Hz Hr. destruct (valid_finite _ _ _ Hx) as [X1 X2], (valid_finite _ _ _ Hy) as [Y1 Y2].
  pose proof funit_pos as HU. set (a := Zpos (m * n) * 2 ^ (e + f - emin prec emax)).
  assert (E : cond_Zopp (xorb s t) a = z).
  { apply (Z.mul_cancel_r _ _ funit); [lia|]. rewrite <- Hz. cbn [fval].
    assert (Ea : a * funit = Zpos m * 2 ^ (e - emin prec emax) * (Zpos n * 2 ^ (f - emin prec emax))).
    { unfold a, funit. rewrite Pos2Z.inj_mul.
      replace (Zpos m * 2 ^ (e - emin prec emax) * (Zpos n * 2 ^ (f - emin prec emax)))
        with (Zpos m * Zpos n * (2 ^ (e - emin prec emax) * 2 ^ (f - emin prec emax))) by lia.
      pose proof emin_neg. rewrite <- Z.mul_assoc, <- !pow2_split by lia. do 2 f_equal. lia. }
    destruct s, t; cbn [cond_Zopp xorb]; lia. }
  assert (Hra : representable a) by (destruct (xorb s t); cbn [cond_Zopp] in E; subst z; [apply representable_opp in Hr; by rewrite Z.opp_involutive in Hr|done]).
  rewrite <- E. apply round_exact_value; [lia| |done|done]. by apply mul_aligned.
Qed.

(** An integer. *)
Lemma int_exact z s : Z.abs z < 2 ^ prec -> yields (binary_normalize prec emax z 0 s) (z * funit).
Proof.
  intros Hz. unfold funit. replace (- emin prec emax) with (0 - emin prec emax) by lia.
  pose proof emin_neg. apply binary_normalize_exact; [lia|].
  apply representable_small; [lia|done|unfold emin; lia].
Qed.

(** A number between two powers of two is not rounded below the lower one. *)
Lemma round_lower m e k : 0 < m -> aligned m e -> emin prec emax <= e -> emin prec emax <= k ->
  k + 2 <= emax -> Zdigits2 m + e = k + 1 ->
  exists m2 e2, binary_round_aux prec emax false m e loc_Exact = S754_finite false m2 e2 /\
    2 ^ (k - emin prec emax) <= fval (S754_finite false m2 e2).
Proof.
  intros Hm Ha He Hk Hmax Hd. unfold binary_round_aux.
  destruct (shr_fexp_spec prec emax m e loc_Exact ltac:(lia)) as (E1 & E2 & _).
  destruct (aligned_shift m e ltac:(lia) Ha) as (A1 & A2 & _).
  destruct (shr_fexp prec emax m e loc_Exact) as [r e1]. cbn [fst snd] in *.
  pose proof (shift_nonneg prec emax m e) as Hn. set (n := shift_of prec emax m e) in *.
  rewrite <- E1, <- E2 in A2. rewrite <- E2, Hd in A1.
  assert (He1 : e1 <= k) by (unfold fexp in A1; lia).
  destruct (Zdigits2_bounds m) as (B1 & B2 & _); [lia|]. specialize (B2 Hm).
  assert (Hlow : 2 ^ (k - e1) <= shr_m r).
  { rewrite E1. apply Z.div_le_lower_bound; [apply Z.pow_pos_nonneg; lia|]. rewrite <- pow2_split by lia.
    replace (n + (k - e1)) with (Zdigits2 m - 1) by lia. done. }
  assert (Hup : shr_m r < 2 ^ (k + 1 - e1)).
  { rewrite E1. apply Z.div_lt_upper_bound; [apply Z.pow_pos_nonneg; lia|]. rewrite <- pow2_split by lia.
    replace (n + (k + 1 - e1)) with (Zdigits2 m) by lia. done. }
  assert (0 < 2 ^ (k - e1)) by (apply Z.pow_pos_nonneg; lia).
  pose proof (round_bounds (shr_m r) r) as Hr. set (m1 := round_nearest_even _ _) in *.
  assert (Ha1 : aligned m1 e1).
  { assert (m1 = shr_m r \/ m1 = shr_m r + 1) as [-> | ->] by lia; [done|apply aligned_succ; [lia|done]]. }
  destruct (shr_fexp_spec prec emax m1 e1 loc_Exact ltac:(lia)) as (F1 & F2 & _).
  destruct (aligned_shift m1 e1 ltac:(lia) Ha1) as (C1 & _ & _).
  destruct (shr_fexp prec emax m1 e1 loc_Exact) as [r2 e2]. cbn [fst snd] in *.
  pose proof (shift_nonneg prec emax m1 e1) as Hn2. set (n2 := shift_of prec emax m1 e1) in *.
  assert (Hd1 : Zdigits2 m1 <= k + 1 - e1 + 1) by (apply Zdigits2_le; lia).
  assert (He2 : e2 <= k /\ emin prec emax <= e2).
  { rewrite <- F2 in C1. rewrite C1. split; [|unfold fexp; lia].
    apply Z.le_trans with (fexp prec emax (k + 2)); [apply fexp_mono; lia|]. unfold fexp. lia. }
  assert (Hm2 : 2 ^ (k - e2) <= shr_m r2).
  { rewrite F1. apply Z.div_le_lower_bound; [apply Z.pow_pos_nonneg; lia|]. rewrite <- pow2_split by lia.
    replace (n2 + (k - e2)) with (k - e1) by lia. lia. }
  assert (0 < 2 ^ (k - e2)) by (apply Z.pow_pos_nonneg; lia).
  destruct (shr_m r2) as [|p|p]; [lia| |lia]. destruct (Z.leb_spec e2 (emax - prec)).
  - exists p, e2. split; [done|]. cbn [fval cond_Zopp].
    replace (k - emin prec emax) with (k - e2 + (e2 - emin prec emax)) by lia. rewrite (pow2_split (k - e2)) by lia.
    apply Z.mul_le_mono_nonneg_r; [apply Z.pow_nonneg; lia|done].
  - exfalso. rewrite <- F2 in C1. assert (fexp prec emax (Zdigits2 m1 + e1) <= fexp prec emax (k + 2)) by (apply fexp_mono; lia).
    unfold fexp, emin in *. lia.
Qed.

Lemma binary_normalize_lower m e s k : 0 < m -> emin prec emax <= e -> emin prec emax <= k -> k + 2 <= emax ->
  2 ^ (k - emin prec emax) <= m * 2 ^ (e - emin prec emax) < 2 ^ (k + 1 - emin prec emax) ->
  let x := binary_normalize prec emax m e s in
  is_finite x = true /\ valid_float x /\ 2 ^ (k - emin prec emax) <= fval x.
Proof.
  intros Hm He Hk Hmax Hv. destruct m as [|p|p]; [done| |done]. cbn [binary_normalize].
  pose proof (binary_round_valid false p e) as Hval. cbv zeta.
  assert (Hd : Zdigits2 (Zpos p) + e = k + 1).
  { enough (Zdigits2 (Zpos p) + (e - emin prec emax) = k + 1 - emin prec emax) by lia.
    rewrite <- Zdigits2_shift by lia. apply Zdigits2_unique; [lia|].
    replace (k + 1 - emin prec emax - 1) with (k - emin prec emax) by lia. done. }
  revert Hval. unfold binary_round. destruct (round_aligned p e) as (H1 & H2 & H3 & H4). specialize (H4 He).
  destruct (shl_align _ _ _) as [q f]. cbn [fst snd] in *.
  destruct (round_lower (Zpos q) f k) as (m2 & e2 & -> & Hle); try done.
  rewrite H1, Zdigits2_shift by lia. lia.
Qed.

(** A magnitude, as a bound on the value. *)
Lemma mag_fval k x : valid_float x -> mag_le k x -> emin prec emax <= k ->
  Z.abs (fval x) <= 2 ^ (k - emin prec emax).
Proof.
  intros Hv Hm Hk. destruct x as [| | |s m e]; try done; cbn [fval mag_le] in *.
  - simpl. apply Z.pow_nonneg. lia.
  - destruct (valid_finite _ _ _ Hv) as [_ He].
    assert (0 <= k - e) by (destruct (Z.leb_spec 0 (k - e)); [done|rewrite Z.pow_neg_r in Hm; lia]).
    assert (0 < 2 ^ (e - emin prec emax)) by (apply Z.pow_pos_nonneg; lia).
    assert (Zpos m * 2 ^ (e - emin prec emax) <= 2 ^ (k - emin prec emax)).
    { replace (k - emin prec emax) with (k - e + (e - emin prec emax)) by lia. rewrite (pow2_split (k - e)) by lia.
      apply Z.mul_le_mono_nonneg_r; lia. }
    destruct s; simpl cond_Zopp; lia.
Qed.

Lemma mag_finite k x : mag_le k x -> is_finite x = true.
Proof. by destruct x. Qed.

End Values.
