(* ===== verification/FloatError.v ===== *)
(** * Rounding errors

    The relative error of an operation whose result is far from the ends of the range
    of the format: a few units in the last place.  [near h w x] says that [w] is [x] up
    to a factor [1 + 2^-h]; values are counted in the least unit of the format. *)

From Stdlib Require Import Floats.SpecFloat.
From S2P Require Import Prelude FloatFacts FloatOrder.

Definition near (h w x : Z) : Prop := Z.abs (w - x) * 2 ^ h <= x.

Lemma near_refl h x : 0 <= x -> near h x x.
Proof. unfold near. rewrite Z.sub_diag. simpl. lia. Qed.

Lemma near_bounds h w x : near h w x -> x * (2 ^ h - 1) <= w * 2 ^ h <= x * (2 ^ h + 1).
Proof. unfold near. intros H. destruct (Z.abs_spec (w - x)) as [[? E]|[? E]]; rewrite E in H; nia. Qed.

Lemma near_scale h w x k : 0 <= k -> near h w x -> near h (w * k) (x * k).
Proof.
  unfold near. intros Hk H. rewrite <- Z.mul_sub_distr_r, Z.abs_mul, (Z.abs_eq k) by done.
  replace (Z.abs (w - x) * k * 2 ^ h) with (Z.abs (w - x) * 2 ^ h * k) by lia. by apply Z.mul_le_mono_nonneg_r.
Qed.

Lemma near_unscale h w x k : 0 < k -> near h (w * k) (x * k) -> near h w x.
Proof.
  unfold near. intros Hk H. rewrite <- Z.mul_sub_distr_r, Z.abs_mul, (Z.abs_eq k) in H by lia.
  apply (Z.mul_le_mono_pos_r _ _ k); [done|]. lia.
Qed.

Lemma near_le h h' w x : 0 <= h' <= h -> near h w x -> near h' w x.
Proof.
  unfold near. intros Hh H. apply Z.le_trans with (Z.abs (w - x) * 2 ^ h); [|done].
  apply Z.mul_le_mono_nonneg_l; [lia|]. apply Z.pow_le_mono_r; lia.
Qed.

Lemma near_half h w x : 1 <= h -> near h w x -> x <= 2 * w <= 3 * x.
Proof. intros Hh H. apply (near_le _ 1) in H; [|lia]. unfold near in H. lia. Qed.

Lemma near_trans h a b c : 2 <= h -> near h a b -> near h b c -> near (h - 2) a c.
Proof.
  unfold near. intros Hh Hab Hbc. assert (Ep : 2 ^ h = 4 * 2 ^ (h - 2)) by (replace h with (2 + (h - 2)) at 1 by lia; by rewrite pow2_split by lia).
  rewrite Ep in *. set (p := 2 ^ (h - 2)) in *. assert (0 < p) by (apply Z.pow_pos_nonneg; lia).
  assert (b <= 2 * c) by (destruct (Z.abs_spec (b - c)) as [[? E]|[? E]]; rewrite E in Hbc; nia).
  assert (Hac : Z.abs (a - c) <= Z.abs (a - b) + Z.abs (b - c)) by lia.
  apply (Z.mul_le_mono_nonneg_r _ _ (4 * p)) in Hac; lia.
Qed.

Lemma near_sqrt h s k : 0 <= h -> 0 < s -> 0 < k -> near h (s * s) (k * k) -> near h s k.
Proof.
  unfold near. intros Hh Hs Hk H. replace (s * s - k * k) with ((s - k) * (s + k)) in H by lia.
  rewrite Z.abs_mul, (Z.abs_eq (s + k)) in H by lia. assert (0 < 2 ^ h) by (apply Z.pow_pos_nonneg; lia).
  set (d := Z.abs (s - k)) in *. assert (0 <= d) by (unfold d; lia).
  apply (Z.mul_le_mono_pos_r _ _ k); [done|]. apply Z.le_trans with (d * (s + k) * 2 ^ h); [|done].
  replace (d * 2 ^ h * k) with (d * 2 ^ h * k) by lia. nia.
Qed.

Section Errors.
Context (prec emax : Z) (Hprec : 3 < prec) (Hemax : prec + 1 < emax).

Local Notation emin := (emin prec emax).
Local Notation fval := (fval prec emax).
Local Notation funit := (funit prec emax).
Local Notation valid := (valid_float prec emax).

(** A result of that value up to the error. *)
Definition approximates (h : Z) (x : spec_float) (z : Z) : Prop :=
  is_finite x = true /\ valid x /\ near h (fval x) z.

(** The mantissa after rounding, when it has all its digits. *)
Lemma round_full m1 e1 : 2 ^ (prec - 1) <= m1 <= 2 ^ prec -> fexp prec emax (prec + e1) = e1 ->
  let r := shr_fexp prec emax m1 e1 loc_Exact in
  shr_m r.1 * 2 ^ (r.2 - e1) = m1 /\ 0 < shr_m r.1 /\ e1 <= r.2 <= e1 + 1.
Proof.
  intros Hm He. assert (0 < 2 ^ (prec - 1)) by (apply Z.pow_pos_nonneg; lia).
  destruct (shr_fexp_spec prec emax m1 e1 loc_Exact ltac:(lia)) as (E1 & E2 & _).
  destruct (shr_fexp prec emax m1 e1 loc_Exact) as [r e2]. cbn [fst snd] in *.
  assert (Ep : 2 ^ prec = 2 * 2 ^ (prec - 1)) by (rewrite <- Z.pow_succ_r by lia; f_equal; lia).
  destruct (Z.eq_dec m1 (2 ^ prec)) as [->|].
  - assert (Ed : Zdigits2 (2 ^ prec) = prec + 1).
    { apply Zdigits2_unique; [lia|]. replace (prec + 1 - 1) with prec by lia. split; [done|]. apply Z.pow_lt_mono_r; lia. }
    assert (Es : shift_of prec emax (2 ^ prec) e1 = 1) by (unfold shift_of; rewrite Ed; unfold fexp in *; lia).
    rewrite Es in *. change (2 ^ 1) with 2 in E1. rewrite Ep, Z.mul_comm, Z.div_mul in E1 by lia. rewrite E1, E2.
    replace (e1 + 1 - e1) with 1 by lia. change (2 ^ 1) with 2. lia.
  - assert (Ed : Zdigits2 m1 = prec) by (apply Zdigits2_unique; lia).
    assert (Es : shift_of prec emax m1 e1 = 0) by (unfold shift_of; rewrite Ed, He; lia).
    rewrite Es, Z.div_1_r in *. rewrite E1, E2. replace (e1 + 0 - e1) with 0 by lia. lia.
Qed.

Lemma round_near m e l : 0 < m -> aligned prec emax m e -> emin <= e ->
  emin + prec <= Zdigits2 m + e <= emax - 1 ->
  approximates (prec - 1) (binary_round_aux prec emax false m e l) (m * 2 ^ (e - emin)).
Proof.
  intros Hm Ha He Hd. pose proof (round_valid prec emax ltac:(lia) false m e l ltac:(lia) Ha) as Hv.
  revert Hv. unfold binary_round_aux.
  destruct (shr_fexp_spec prec emax m e l ltac:(lia)) as (E1 & E2 & _).
  destruct (aligned_shift prec emax ltac:(lia) m e ltac:(lia) Ha) as (A1 & _ & _).
  destruct (shr_fexp prec emax m e l) as [r e1]. cbn [fst snd] in *.
  set (n := shift_of prec emax m e) in *. assert (Hn : 0 <= n) by apply shift_nonneg.
  assert (En : n = Zdigits2 m - prec) by (unfold fexp in A1; lia).
  destruct (Zdigits2_bounds m) as (B1 & B2 & _); [lia|]. specialize (B2 Hm).
  assert (Hp : 0 < 2 ^ n) by (apply Z.pow_pos_nonneg; lia).
  assert (Hlow : 2 ^ (prec - 1) <= shr_m r).
  { rewrite E1. apply Z.div_le_lower_bound; [done|]. rewrite <- pow2_split by lia.
    by replace (n + (prec - 1)) with (Zdigits2 m - 1) by lia. }
  assert (Hup : shr_m r < 2 ^ prec).
  { rewrite E1. apply Z.div_lt_upper_bound; [done|]. rewrite <- pow2_split by lia. by replace (n + prec) with (Zdigits2 m) by lia. }
  pose proof (round_bounds (shr_m r) r) as Hr. set (m1 := round_nearest_even _ _) in *.
  assert (Hfe : fexp prec emax (prec + e1) = e1) by (unfold fexp in *; lia).
  destruct (round_full m1 e1 ltac:(lia) Hfe) as (R1 & R2 & R3).
  destruct (shr_fexp prec emax m1 e1 loc_Exact) as [r2 e2]. cbn [fst snd] in *.
  destruct (shr_m r2) as [|p|p]; [lia| |lia]. destruct (Z.leb_spec e2 (emax - prec)); [|lia].
  intros Hv. split; [done|]. split; [done|]. cbn [FloatOrder.fval cond_Zopp].
  replace (e2 - emin) with (e2 - e1 + (n + (e - emin))) by lia. rewrite !pow2_split, Z.mul_assoc, R1, Z.mul_assoc by lia.
  apply near_scale; [apply Z.pow_nonneg; lia|]. unfold near.
  assert (Hdiff : Z.abs (m1 * 2 ^ n - m) <= 2 ^ n).
  { pose proof (Z.div_mod m (2 ^ n) ltac:(lia)) as Hdm. pose proof (Z.mod_pos_bound m (2 ^ n) Hp). rewrite <- E1 in Hdm.
    assert (m1 = shr_m r \/ m1 = shr_m r + 1) as [-> | ->] by lia; nia. }
  apply Z.le_trans with (2 ^ n * 2 ^ (prec - 1)); [apply Z.mul_le_mono_nonneg_r; [apply Z.pow_nonneg; lia|done]|].
  rewrite <- pow2_split by lia. by replace (n + (prec - 1)) with (Zdigits2 m - 1) by lia.
Qed.

(** ** Operations *)

Lemma emin_eq : emin = 3 - emax - prec.
Proof. unfold SpecFloat.emin. lia. Qed.

Lemma int_near z : 0 < z < 2 ^ (emax - 2) -> approximates (prec - 1) (binary_normalize prec emax z 0 false) (z * funit).
Proof.
  intros [Hz Hb]. destruct z as [|p|p]; [lia| |lia]. cbn [binary_normalize]. unfold binary_round.
  destruct (round_aligned prec emax p 0) as (H1 & H2 & H3 & H4). pose proof emin_eq as Ee.
  specialize (H4 ltac:(lia)). destruct (shl_align _ _ _) as [q f]. cbn [fst snd] in *.
  assert (Ev : Zpos p * funit = Zpos q * 2 ^ (f - emin)).
  { unfold FloatOrder.funit. rewrite H1, <- Z.mul_assoc, <- pow2_split by lia. do 2 f_equal. lia. }
  rewrite Ev. apply round_near; try done. rewrite H1, Zdigits2_shift by lia.
  pose proof (Zdigits2_pos_ge (Zpos p) ltac:(lia)) as Hd1. destruct (Zdigits2_bounds (Zpos p)) as (_ & Hd2 & _); [lia|].
  specialize (Hd2 ltac:(lia)). split; [lia|].
  destruct (Z.leb_spec (Zdigits2 (Zpos p)) (emax - 2)); [lia|].
  assert (2 ^ (emax - 2) <= 2 ^ (Zdigits2 (Zpos p) - 1)) by (apply Z.pow_le_mono_r; lia). lia.
Qed.

Lemma mul_near m e n f : valid (S754_finite false m e) -> valid (S754_finite false n f) -> emin <= e + f ->
  emin + prec < Zdigits2 (Zpos m) + e + (Zdigits2 (Zpos n) + f) <= emax - 1 ->
  let x := SFmul prec emax (S754_finite false m e) (S754_finite false n f) in
  is_finite x = true /\ valid x /\
  near (prec - 1) (fval x * funit) (fval (S754_finite false m e) * fval (S754_finite false n f)).
Proof.
  intros Hx Hy Hef Hd. destruct (valid_finite _ _ _ _ _ Hx) as [X1 X2], (valid_finite _ _ _ _ _ Hy) as [Y1 Y2].
  cbv zeta. cbn [SFmul xorb]. pose proof emin_eq as Ee.
  pose proof (Zdigits2_mul prec emax ltac:(lia) ltac:(lia) (Zpos m) (Zpos n) ltac:(lia) ltac:(lia)) as Hlow.
  assert (Hup : Zdigits2 (Zpos (m * n)) <= Zdigits2 (Zpos m) + Zdigits2 (Zpos n)).
  { destruct (Zdigits2_bounds (Zpos m)) as (B1 & _ & B3); [lia|]. destruct (Zdigits2_bounds (Zpos n)) as (C1 & _ & C3); [lia|].
    destruct (Zdigits2_bounds (Zpos (m * n))) as (_ & D2 & _); [lia|]. specialize (D2 ltac:(lia)).
    assert (Zpos (m * n) < 2 ^ (Zdigits2 (Zpos m) + Zdigits2 (Zpos n))) by (rewrite pow2_split by lia; nia).
    destruct (Z.leb_spec (Zdigits2 (Zpos (m * n))) (Zdigits2 (Zpos m) + Zdigits2 (Zpos n))); [done|].
    assert (2 ^ (Zdigits2 (Zpos m) + Zdigits2 (Zpos n)) <= 2 ^ (Zdigits2 (Zpos (m * n)) - 1)) by (apply Z.pow_le_mono_r; lia). lia. }
  rewrite <- Pos2Z.inj_mul in Hlow.
  destruct (round_near (Zpos (m * n)) (e + f) loc_Exact ltac:(lia) (mul_aligned prec emax ltac:(lia) ltac:(lia) _ _ _ _ X1 Y1) Hef ltac:(lia))
    as (R1 & R2 & R3).
  split; [done|]. split; [done|]. apply (near_scale _ _ _ funit) in R3; [|pose proof (funit_pos prec emax ltac:(lia) ltac:(lia)); lia].
  cbn [FloatOrder.fval cond_Zopp] in *.
  replace (Zpos m * 2 ^ (e - emin) * (Zpos n * 2 ^ (f - emin))) with (Zpos (m * n) * 2 ^ (e + f - emin) * funit); [exact R3|].
  unfold FloatOrder.funit. rewrite Pos2Z.inj_mul.
  replace (Zpos m * 2 ^ (e - emin) * (Zpos n * 2 ^ (f - emin))) with (Zpos m * Zpos n * (2 ^ (e - emin) * 2 ^ (f - emin))) by lia.
  rewrite <- Z.mul_assoc, <- !pow2_split by lia. do 2 f_equal. lia.
Qed.

(** A number of positive value, between powers of two. *)
Lemma positive_parts x k h : is_finite x = true -> valid x -> 0 < fval x -> 2 ^ (k - emin) <= fval x < 2 ^ (h - emin) ->
  emin <= k -> exists m e, x = S754_finite false m e /\ k - prec < e < h.
Proof.
  intros Hf Hv Hp [H1 H2] Hk. destruct x as [s|s| |s m e]; try done.
  destruct (valid_finite _ _ _ _ _ Hv) as [_ He]. pose proof (fval_pos prec emax m e ltac:(lia)) as Hpos.
  destruct s; cbn [FloatOrder.fval cond_Zopp] in *; [lia|]. exists m, e. split; [done|].
  pose proof (valid_wf prec emax _ Hv) as Hm. cbn [wf_float] in Hm.
  assert (0 < 2 ^ (e - emin)) by (apply Z.pow_pos_nonneg; lia). split.
  - destruct (Z.ltb_spec (k - prec) e) as [|Hle]; [done|exfalso].
    assert (2 ^ prec * 2 ^ (e - emin) <= 2 ^ (k - emin)) by (rewrite <- pow2_split by lia; apply Z.pow_le_mono_r; lia). nia.
  - destruct (Z.ltb_spec e h) as [|Hle]; [done|exfalso].
    assert (2 ^ (h - emin) <= 2 ^ (e - emin)) by (apply Z.pow_le_mono_r; lia). nia.
Qed.

(** The quotient of two numbers within [2^h] of each other. *)
Lemma div_near m e n f h :
  let x := S754_finite false m e in let y := S754_finite false n f in
  valid x -> valid y -> emin <= e - f -> 0 <= h -> emin + prec + h <= 0 -> h + 2 < emax ->
  fval x <= fval y * 2 ^ h -> fval y <= fval x * 2 ^ h ->
  let q := SFdiv prec emax x y in
  is_finite q = true /\ valid q /\ near (prec - 2) (fval q * fval y) (fval x * funit).
Proof.
  cbv zeta. intros Hx Hy Hef Hh0 Hlow Hhigh H1 H2.
  destruct (valid_finite _ _ _ _ _ Hx) as [_ X2], (valid_finite _ _ _ _ _ Hy) as [_ Y2].
  destruct (div_core prec emax ltac:(lia) ltac:(lia) false m e false n f) as (q & r & e' & l & E & Ee' & Hqr & Hr & Hq & Hd & Ha).
  rewrite E. clear E. cbn [xorb FloatOrder.fval cond_Zopp] in *.
  set (a := Zpos m * 2 ^ (e - emin)) in *. set (b := Zpos n * 2 ^ (f - emin)) in *.
  set (d := Zdigits2 (Zpos m) + e - (Zdigits2 (Zpos n) + f)) in *.
  pose proof (Zdigits2_shift (Zpos m) (e - emin) ltac:(lia) ltac:(lia)) as Da.
  pose proof (Zdigits2_shift (Zpos n) (f - emin) ltac:(lia) ltac:(lia)) as Db. fold a in Da. fold b in Db.
  assert (Ha0 : 0 < a) by (apply fval_pos; lia). assert (Hb0 : 0 < b) by (apply fval_pos; lia).
  pose proof (Zdigits2_mono a (b * 2 ^ h) ltac:(lia)) as M1. pose proof (Zdigits2_mono b (a * 2 ^ h) ltac:(lia)) as M2.
  rewrite Zdigits2_shift in M1, M2 by lia.
  assert (Hdh : - h <= d <= h) by (unfold d; lia).
  assert (Hfe : fexp prec emax d = d - prec) by (unfold fexp; lia). rewrite Hfe in Ee'.
  pose proof emin_eq as Em.
  assert (Hq1 : prec <= Zdigits2 q) by lia.
  assert (Hqpos : 0 < q) by (destruct (Z.eq_dec q 0) as [->|]; [simpl in Hq1|]; lia).
  destruct (round_near q e' l Hqpos Ha ltac:(lia) ltac:(lia)) as (R1 & R2 & R3).
  split; [done|]. split; [done|].
  apply (near_scale _ _ _ b ltac:(lia)), near_bounds in R3. set (w := fval _) in *. clearbody w.
  set (P := 2 ^ (e' + f - emin - emin)).
  assert (HP : 0 < P) by (apply Z.pow_pos_nonneg; lia).
  assert (Eq : q * 2 ^ (e' - emin) * b = q * Zpos n * P).
  { unfold b, P. replace (e' + f - emin - emin) with (e' - emin + (f - emin)) by lia. rewrite pow2_split by lia. lia. }
  assert (Ex : a * funit = (Zpos n * q + r) * P).
  { rewrite <- Hqr. unfold a, P, FloatOrder.funit. rewrite <- !Z.mul_assoc, <- !pow2_split by lia. do 2 f_equal. lia. }
  destruct (Zdigits2_bounds q) as (_ & Q2 & _); [lia|]. specialize (Q2 Hqpos).
  assert (Hbig : 2 ^ (prec - 1) <= q) by (apply Z.le_trans with (2 ^ (Zdigits2 q - 1)); [apply Z.pow_le_mono_r; lia|done]).
  assert (Epow : 2 ^ (prec - 1) = 2 * 2 ^ (prec - 2)) by (rewrite <- Z.pow_succ_r by lia; f_equal; lia).
  set (H := 2 ^ (prec - 2)) in *. assert (HH : 0 < H) by (apply Z.pow_pos_nonneg; lia).
  rewrite Eq in R3. rewrite Ex. unfold near. rewrite Epow in *.
  set (T := q * Zpos n * P) in *. assert (Et : (Zpos n * q + r) * P = T + r * P) by (unfold T; lia). rewrite Et.
  assert (Hrn : 0 <= r * P * (2 * H) <= T).
  { split; [nia|]. unfold T. apply Z.le_trans with (Zpos n * P * q); [|lia].
    apply Z.mul_le_mono_nonneg; [nia|nia|lia|lia]. }
  clearbody T. assert (Z.abs (w * b - (T + r * P)) * (2 * H) <= 2 * T); [|lia].
  destruct (Z.abs_spec (w * b - (T + r * P))) as [[? ->]|[? ->]]; lia.
Qed.

(** The square root of a number of exponent within [2 h] of 0. *)
Lemma sqrt_near m e h :
  let x := S754_finite false m e in
  valid x -> 0 <= h -> emin + prec + h + 1 <= 0 -> h + 4 < emax ->
  funit <= fval x * 2 ^ h -> fval x <= funit * 2 ^ h ->
  let s := SFsqrt prec emax x in
  is_finite s = true /\ valid s /\ 0 < fval s /\ near (prec - 4) (fval s * fval s) (fval x * funit).
Proof.
  cbv zeta. intros Hx Hh0 Hlow Hhigh H1 H2. destruct (valid_finite _ _ _ _ _ Hx) as [X1 X2].
  destruct (sqrt_core prec emax ltac:(lia) ltac:(lia) m e) as (q & e' & l & E & Ee' & Hq & Hsq & Hd & Ha).
  rewrite E. clear E. cbn [FloatOrder.fval cond_Zopp] in *.
  assert (Hdiv2 : forall z, 2 * Z.div2 z <= z <= 2 * Z.div2 z + 1).
  { intros z. pose proof (Z.div2_odd z). destruct (Z.odd z); simpl in *; lia. }
  pose proof (Hdiv2 (Zdigits2 (Zpos m) + e + 1)) as Hh. pose proof (Hdiv2 e) as Hhe.
  set (g := Z.div2 (Zdigits2 (Zpos m) + e + 1)) in *. pose proof emin_eq as Em.
  set (a := Zpos m * 2 ^ (e - emin)) in *. assert (Ha0 : 0 < a) by (apply fval_pos; lia).
  pose proof (Zdigits2_shift (Zpos m) (e - emin) ltac:(lia) ltac:(lia)) as Da. fold a in Da.
  assert (Du : Zdigits2 funit = - emin + 1).
  { unfold FloatOrder.funit. apply Zdigits2_unique; [lia|]. split; [by replace (- emin + 1 - 1) with (- emin) by lia|].
    apply Z.pow_lt_mono_r; lia. }
  pose proof (funit_pos prec emax ltac:(lia) ltac:(lia)) as HU.
  pose proof (Zdigits2_mono funit (a * 2 ^ h) ltac:(lia)) as M1. pose proof (Zdigits2_mono a (funit * 2 ^ h) ltac:(lia)) as M2.
  rewrite Zdigits2_shift in M1, M2 by lia.
  assert (Hg : - h <= g <= h + 2) by lia.
  assert (Hfe : fexp prec emax g = g - prec) by (unfold fexp; lia). rewrite Hfe in Ee'.
  assert (Hq1 : prec <= Zdigits2 q) by lia.
  assert (Hqpos : 0 < q) by (destruct (Z.eq_dec q 0) as [->|]; [simpl in Hq1|]; lia).
  destruct (round_near q e' l Hqpos Ha ltac:(lia) ltac:(lia)) as (R1 & R2 & R3).
  split; [done|]. split; [done|]. set (w := fval _) in *. clearbody w.
  apply near_bounds in R3. set (K := 2 ^ (e' - emin)) in *. assert (HK : 0 < K) by (apply Z.pow_pos_nonneg; lia).
  assert (Ex : a * funit = Zpos m * 2 ^ (e - 2 * e') * (K * K)).
  { unfold a, K, FloatOrder.funit. rewrite <- !pow2_split, <- !Z.mul_assoc, <- !pow2_split by lia. do 2 f_equal. lia. }
  destruct (Zdigits2_bounds q) as (_ & Q2 & _); [lia|]. specialize (Q2 Hqpos).
  assert (Hbig : 2 ^ (prec - 1) <= q) by (apply Z.le_trans with (2 ^ (Zdigits2 q - 1)); [apply Z.pow_le_mono_r; lia|done]).
  assert (Epow : 2 ^ (prec - 1) = 8 * 2 ^ (prec - 4)) by (replace (prec - 1) with (3 + (prec - 4)) by lia; by rewrite pow2_split by lia).
  set (H := 2 ^ (prec - 4)) in *. assert (HH : 1 <= H) by (pose proof (Z.pow_pos_nonneg 2 (prec - 4)); lia).
  rewrite Epow in *. rewrite Ex. set (M := Zpos m * 2 ^ (e - 2 * e')) in *. clearbody M a.
  assert (Hw : 0 < w) by nia. split; [done|].
  set (Q := q * K) in *. assert (HQ : 0 < Q) by (unfold Q; nia).
  assert (HM : Q * Q <= M * (K * K) <= Q * Q + 2 * q * (K * K)) by (unfold Q; nia).
  assert (Hq2 : 2 * q * (K * K) * (8 * H) <= 2 * (Q * Q)).
  { unfold Q. replace (2 * q * (K * K) * (8 * H)) with (2 * (q * (K * K) * (8 * H))) by lia.
    replace (q * K * (q * K)) with (q * (K * K) * q) by lia. apply Z.mul_le_mono_nonneg_l; [lia|]. apply Z.mul_le_mono_nonneg_l; nia. }
  set (V := M * (K * K)) in *. set (D := 2 * q * (K * K)) in *. clearbody V D Q.
  assert (Hww : Z.abs (w * w - Q * Q) * (8 * H) <= 3 * (Q * Q)).
  { replace (w * w - Q * Q) with ((w - Q) * (w + Q)) by lia. rewrite Z.abs_mul, (Z.abs_eq (w + Q)) by lia.
    assert (Hd1 : Z.abs (w - Q) * (8 * H) <= Q) by (destruct (Z.abs_spec (w - Q)) as [[? ->]|[? ->]]; lia).
    assert (Hs : w + Q <= 3 * Q) by nia.
    replace (Z.abs (w - Q) * (w + Q) * (8 * H)) with (Z.abs (w - Q) * (8 * H) * (w + Q)) by lia.
    replace (3 * (Q * Q)) with (Q * (3 * Q)) by lia. apply Z.mul_le_mono_nonneg; first [apply Z.mul_nonneg_nonneg; lia | lia]. }
  unfold near. assert (Z.abs (w * w - V) * (8 * H) <= 8 * V); [|lia].
  assert (Z.abs (w * w - V) <= Z.abs (w * w - Q * Q) + D) as Hv by lia.
  apply (Z.mul_le_mono_nonneg_r _ _ (8 * H)) in Hv; lia.
Qed.

End Errors.
