(* ===== verification/Samples.v ===== *)
(** * Reading PCM samples (waveform/apta_waveform_input.c)

    The conversion of a caller's interleaved or planar PCM to normalised mono
    [float] samples.  [float] and [double] are the IEEE 754 formats binary32
    and binary64 with round-to-nearest-even, as Rocq's [SpecFloat] computes
    them.  Native sample formats are little-endian, as on every supported
    target. *)

From Stdlib Require Import Floats.SpecFloat.
From S2P Require Import Prelude Platform.

(** ** The two floating-point formats *)

Definition f32_of_Z (z : Z) : spec_float := binary_normalize 24 128 z 0 false.
Definition f32_div : spec_float -> spec_float -> spec_float := SFdiv 24 128.
Definition f32_add : spec_float -> spec_float -> spec_float := SFadd 24 128.
Definition f32_mul : spec_float -> spec_float -> spec_float := SFmul 24 128.
Definition f64_of_Z (z : Z) : spec_float := binary_normalize 53 1024 z 0 false.
Definition f64_div : spec_float -> spec_float -> spec_float := SFdiv 53 1024.

(** The conversion of a [double] to [float]. *)
Definition f32_of_f64 (x : spec_float) : spec_float :=
  match x with
  | S754_finite s m e => binary_normalize 24 128 (cond_Zopp s (Zpos m)) e s
  | _ => x
  end.

(** The value of a binary32 bit pattern. *)
Definition f32_of_bits (bits : Z) : spec_float :=
  let sign := Z.testbit bits 31 in
  let exponent := Z.land (Z.shiftr bits 23) 255 in
  let mantissa := Z.land bits 8388607 in
  if exponent =? 255
  then (if mantissa =? 0 then S754_infinity sign else S754_nan)
  else if exponent =? 0
  then (match mantissa with
        | Zpos m => S754_finite sign m (-149)
        | _ => S754_zero sign
        end)
  else match mantissa + 8388608 with
       | Zpos m => S754_finite sign m (exponent - 150)
       | _ => S754_zero sign
       end.

Definition f32_zero : spec_float := S754_zero false.
Definition f32_one : spec_float := f32_of_Z 1.
Definition f32_minus_one : spec_float := f32_of_Z (-1).
Definition f32_half : spec_float := f32_div f32_one (f32_of_Z 2).

(** ** Normalisation *)

Definition apta_normalize_s16 (value : Z) : spec_float :=
  if value <? 0 then f32_div (f32_of_Z value) (f32_of_Z 32768)
  else if value =? 0 then f32_zero else f32_div (f32_of_Z value) (f32_of_Z 32767).

(** The 24-bit value of three little-endian bytes, sign-extended to
    [int32_t]. *)
Definition s24_value (b0 b1 b2 : Z) : Z :=
  let value := Z.lor b0 (Z.lor (Z.shiftl b1 8) (Z.shiftl b2 16)) in
  if negb (Z.land value 8388608 =? 0) then value - 16777216 else value.

Definition apta_normalize_s24 (b0 b1 b2 : Z) : spec_float :=
  let value := s24_value b0 b1 b2 in
  if value <? 0 then f32_div (f32_of_Z value) (f32_of_Z 8388608)
  else if value =? 0 then f32_zero else f32_div (f32_of_Z value) (f32_of_Z 8388607).

Definition apta_normalize_s32 (value : Z) : spec_float :=
  if value <? 0 then f32_div (f32_of_Z value) (f32_of_Z 2147483648)
  else if value =? 0 then f32_zero
  else f32_of_f64 (f64_div (f64_of_Z value) (f64_of_Z 2147483647)).

Definition isfinite (x : spec_float) : bool :=
  match x with S754_zero _ | S754_finite _ _ _ => true | _ => false end.

Definition apta_clamp_f32 (value : spec_float) : spec_float :=
  if negb (isfinite value) then f32_zero
  else if SFltb value f32_minus_one then f32_minus_one
  else if SFltb f32_one value then f32_one
  else value.

(** ** Reading a block *)

(** [apta_pcm_block_t]: [blk_data] and [blk_planes] are the bytes the caller's
    pointers designate, [None] for NULL. *)
Record apta_pcm_block_t : Type := {
  pb_struct_size : Z;
  pb_api_version : Z;
  pb_first_frame : Z;
  pb_frame_count : Z;
  pb_data : option (list Z);
  pb_planes : list (option (list Z))
}.

(** [memcpy] of [n] bytes at [offset], little-endian. *)
Definition rd_le (bytes : list Z) (offset : Z) (n : nat) : result Z :=
  if (0 <=? offset) && (offset + Z.of_nat n <=? Z.of_nat (length bytes))
  then Ret (foldr (fun b acc => b + 256 * acc) 0 (take n (drop (Z.to_nat offset) bytes)))
  else Ub.

Definition rd_ptr (p : option (list Z)) : result (list Z) :=
  match p with Some bytes => Ret bytes | None => Ub end.

Definition i32 (z : Z) : Z := if u32 z <? 2147483648 then u32 z else u32 z - 4294967296.

Definition apta_read_channel_sample (channel_count sample_format : Z)
    (block : apta_pcm_block_t) (frame_index channel : Z) : result spec_float :=
  let sample_index := u32 (u32 (frame_index * channel_count) + channel) in
  if sample_format =? APTA_SAMPLE_S16_NATIVE_INTERLEAVED then
    let! bytes := rd_ptr (pb_data block) in
    let! value := rd_le bytes (sample_index * 2) 2 in
    Ret (apta_normalize_s16 (i16 value))
  else if sample_format =? APTA_SAMPLE_S24_3LE_INTERLEAVED then
    let! bytes := rd_ptr (pb_data block) in
    let! b0 := rd_le bytes (sample_index * 3) 1 in
    let! b1 := rd_le bytes (sample_index * 3 + 1) 1 in
    let! b2 := rd_le bytes (sample_index * 3 + 2) 1 in
    Ret (apta_normalize_s24 b0 b1 b2)
  else if sample_format =? APTA_SAMPLE_S32_NATIVE_INTERLEAVED then
    let! bytes := rd_ptr (pb_data block) in
    let! value := rd_le bytes (sample_index * 4) 4 in
    Ret (apta_normalize_s32 (i32 value))
  else if sample_format =? APTA_SAMPLE_F32_NATIVE_INTERLEAVED then
    let! bytes := rd_ptr (pb_data block) in
    let! value := rd_le bytes (sample_index * 4) 4 in
    Ret (apta_clamp_f32 (f32_of_bits value))
  else if sample_format =? APTA_SAMPLE_F32_NATIVE_PLANAR then
    let! bytes := rd_ptr (default None (pb_planes block !! Z.to_nat channel)) in
    let! value := rd_le bytes (frame_index * 4) 4 in
    Ret (apta_clamp_f32 (f32_of_bits value))
  else Ret f32_zero.

Definition apta_read_mono_sample (channel_count sample_format : Z)
    (block : apta_pcm_block_t) (frame_index : Z) : result spec_float :=
  let! left_sample := apta_read_channel_sample channel_count sample_format block frame_index 0 in
  if channel_count =? 1 then Ret left_sample
  else
    let! right_sample := apta_read_channel_sample channel_count sample_format block frame_index 1 in
    Ret (f32_mul (f32_add left_sample right_sample) f32_half).

(** The loop that fills a node with the first [count] samples of a block. *)
Fixpoint read_samples (channel_count sample_format : Z) (block : apta_pcm_block_t)
    (frame : Z) (count : nat) : result (list spec_float) :=
  match count with
  | O => Ret []
  | S count =>
      let! x := apta_read_mono_sample channel_count sample_format block frame in
      let! xs := read_samples channel_count sample_format block (frame + 1) count in
      Ret (x :: xs)
  end.
