(* ===== verification/Ranges.v ===== *)
(** * The accepted-range table (waveform/apta_waveform_input.c,
    waveform/apta_waveform_process.c)

    A session remembers which source frames it has accepted as an array of
    frame ranges, sorted, disjoint and never touching.  The table is kept by
    in-place shifting loops; they are modelled over an array whose accesses are
    checked, and related to the set of frames they stand for. *)

From S2P Require Import Prelude Platform.

(** ** The table *)

Record range : Type := { r_first : Z; r_end : Z }.

(** [cov_ranges] is the allocated array: its length is
    [accepted_range_capacity], of which the first [cov_count] are in use. *)
Record coverage : Type := {
  cov_ranges : list range;
  cov_count : nat;
  cov_greatest_accepted_end : Z;
  cov_maximum_accepted_end : Z
}.

Definition accepted_ranges (c : coverage) : list range := take (cov_count c) (cov_ranges c).

Section Array.
Context {T : Type}.

(** [for (index = position + n; index > position; --index)
       a[index] = a[index - 1];] *)
Fixpoint shift_up (a : list T) (position n : nat) : result (list T) :=
  match n with
  | O => Ret a
  | S n' =>
      let! x := arr_get a (position + n') in
      let! a := arr_put a (position + n) x in
      shift_up a position n'
  end.

(** [for (index = position; index + 1 < position + 1 + n; ++index)
       a[index] = a[index + 1];] *)
Fixpoint shift_down (a : list T) (position n : nat) : result (list T) :=
  match n with
  | O => Ret a
  | S n' =>
      let! x := arr_get a (S position) in
      let! a := arr_put a position x in
      shift_down a (S position) n'
  end.

End Array.

(** ** Capacity *)

(** The doubling of [apta_ensure_range_capacity]; 32 rounds are enough for a
    32-bit capacity. *)
Fixpoint grow_capacity (fuel : nat) (capacity needed : Z) : result Z :=
  if capacity <? needed
  then bail APTA_ERROR_LIMIT_EXCEEDED when (UINT32_MAX / 2 <? capacity) in
       match fuel with
       | O => Err APTA_ERROR_INTERNAL
       | S fuel => grow_capacity fuel (u32 (capacity * 2)) needed
       end
  else Ret capacity.

Section Operations.
Context `{Platform}.

(** [allocate] answers a request for that many bytes; a fresh array's contents
    are not initialised, [fresh] stands for them. *)
Definition apta_ensure_range_capacity (allocate : Z -> bool) (fresh : range)
    (c : coverage) (needed : Z) : result coverage :=
  let capacity := Z.of_nat (length (cov_ranges c)) in
  if needed <=? capacity then Ret c
  else
    let! capacity := grow_capacity 32 (if capacity =? 0 then 8 else capacity) needed in
    bail APTA_ERROR_LIMIT_EXCEEDED when
      negb (apta_internal_size_array_fits 0 capacity (sizeof T_range)) in
    bail APTA_ERROR_OUT_OF_MEMORY when negb (allocate (capacity * sizeof T_range)) in
    Ret {| cov_ranges := accepted_ranges c ++
             replicate (Z.to_nat capacity - length (accepted_ranges c)) fresh;
           cov_count := cov_count c;
           cov_greatest_accepted_end := cov_greatest_accepted_end c;
           cov_maximum_accepted_end := cov_maximum_accepted_end c |}.

(** ** Queries *)

Definition apta_min_u32 (left right : Z) : Z := if left <? right then left else right.
Definition apta_min_frame (left right : Z) : Z := if left <? right then left else right.

Fixpoint nonoverlapping_prefix_loop (l : list range) (first_frame requested_end requested_frames : Z)
  : Z * bool :=
  match l with
  | [] => (requested_frames, false)
  | r :: l =>
      if r_end r <=? first_frame
      then nonoverlapping_prefix_loop l first_frame requested_end requested_frames
      else if r_first r <=? first_frame then (0, true)
      else if r_first r <? requested_end then (u32 (r_first r - first_frame), false)
      else (requested_frames, false)
  end.

(** The frames that can be accepted from [first_frame] on, and whether the very
    first one is a conflict. *)
Definition apta_nonoverlapping_prefix (c : coverage) (first_frame requested_frames : Z)
  : Z * bool :=
  let requested_end := u64 (first_frame + requested_frames) in
  nonoverlapping_prefix_loop (accepted_ranges c) first_frame requested_end requested_frames.

Fixpoint contiguous_end_loop (l : list range) (contiguous_end : Z) : Z :=
  match l with
  | [] => contiguous_end
  | r :: l =>
      if contiguous_end <? r_first r then contiguous_end
      else contiguous_end_loop l
             (if contiguous_end <? r_end r then r_end r else contiguous_end)
  end.

Definition apta_refresh_accepted_ends (ranges : list range) (count : nat) : coverage :=
  {| cov_ranges := ranges;
     cov_count := count;
     cov_greatest_accepted_end := contiguous_end_loop (take count ranges) 0;
     cov_maximum_accepted_end :=
       match count with
       | O => 0
       | S n => match ranges !! n with Some r => r_end r | None => 0 end
       end |}.

Fixpoint find_missing_loop (l : list range) (cursor end_frame : Z) : option (Z * Z) :=
  match l with
  | [] => if cursor <? end_frame then Some (cursor, end_frame) else None
  | r :: l =>
      if r_end r <=? cursor then find_missing_loop l cursor end_frame
      else if cursor <? r_first r
      then let missing_end := apta_min_frame (r_first r) end_frame in
           if cursor <? missing_end then Some (cursor, missing_end) else None
      else if end_frame <=? r_end r then None
      else find_missing_loop l (r_end r) end_frame
  end.

Definition apta_find_missing_range (c : coverage) (first_frame end_frame : Z) : option (Z * Z) :=
  find_missing_loop (accepted_ranges c) first_frame end_frame.

(** ** Insertion *)

(** [while (position < count && ranges[position].first_frame < first_frame)] *)
Fixpoint insert_position (l : list range) (first_frame : Z) : nat :=
  match l with
  | [] => O
  | r :: l => if r_first r <? first_frame then S (insert_position l first_frame) else O
  end.

(** Merge the new range with the one on its left; the array, the count and the
    position of the merged range. *)
Definition merge_left (a : list range) (count position : nat) (first_frame end_frame : Z)
  : result (list range * nat * nat) :=
  match position with
  | O => Ret (a, count, position)
  | S prev =>
      let! l := arr_get a prev in
      if r_end l =? first_frame
      then
        let! a := arr_put a prev {| r_first := r_first l; r_end := end_frame |} in
        let! a := shift_down a position (count - 1 - position) in
        Ret (a, (count - 1)%nat, prev)
      else Ret (a, count, position)
  end.

(** Merge the range at [position] with the one on its right. *)
Definition merge_right (a : list range) (count position : nat) : result (list range * nat) :=
  if (S position <? count)%nat
  then
    let! x := arr_get a position in
    let! y := arr_get a (S position) in
    if r_end x =? r_first y
    then
      let! a := arr_put a position {| r_first := r_first x; r_end := r_end y |} in
      let! a := shift_down a (S position) (count - 1 - S position) in
      Ret (a, (count - 1)%nat)
    else Ret (a, count)
  else Ret (a, count).

Definition apta_insert_accepted_range (c : coverage) (first_frame end_frame : Z)
  : result coverage :=
  let position := insert_position (accepted_ranges c) first_frame in
  let! a := shift_up (cov_ranges c) position (cov_count c - position) in
  let! a := arr_put a position {| r_first := first_frame; r_end := end_frame |} in
  let! m := merge_left a (S (cov_count c)) position first_frame end_frame in
  let '(a, count, position) := m in
  let! m := merge_right a count position in
  let '(a, count) := m in
  Ret (apta_refresh_accepted_ends a count).

End Operations.

(** ** The set of frames a table stands for *)

Definition covered (l : list range) (f : Z) : Prop :=
  exists r, r ∈ l /\ r_first r <= f < r_end r.

(** Non-empty ranges in increasing order with a gap between neighbours; [lo] is
    where the first may start. *)
Fixpoint gaps (lo : Z) (l : list range) : Prop :=
  match l with
  | [] => True
  | r :: l => lo <= r_first r /\ r_first r < r_end r /\ gaps (r_end r + 1) l
  end.

(** A well-formed table. *)
Record table_ok (c : coverage) : Prop := {
  tk_gaps : gaps 0 (accepted_ranges c);
  tk_count : (cov_count c <= length (cov_ranges c))%nat;
  tk_greatest : cov_greatest_accepted_end c = contiguous_end_loop (accepted_ranges c) 0;
  tk_maximum : cov_maximum_accepted_end c =
                 match last (accepted_ranges c) with None => 0 | Some r => r_end r end
}.

(** What insertion computes, on lists. *)
Definition join_left (l1 : list range) (x : range) : list range * range :=
  match last l1 with
  | Some p =>
      if r_end p =? r_first x
      then (removelast l1, {| r_first := r_first p; r_end := r_end x |})
      else (l1, x)
  | None => (l1, x)
  end.

Definition join_right (x : range) (l2 : list range) : list range :=
  match l2 with
  | y :: l2' => if r_end x =? r_first y
                then {| r_first := r_first x; r_end := r_end y |} :: l2'
                else x :: l2
  | [] => [x]
  end.

Definition insert_spec (l : list range) (x : range) : list range :=
  let position := insert_position l (r_first x) in
  let '(l1, y) := join_left (take position l) x in
  l1 ++ join_right y (drop position l).

(** ** The loops on arrays *)

Section Array_lemmas.
Context {T : Type}.
Implicit Types (a l : list T) (x y z : T).

Lemma shift_up_middle l1 l2 z l3 :
  exists h, shift_up (l1 ++ l2 ++ z :: l3) (length l1) (length l2) =
            Ret (l1 ++ h :: l2 ++ l3).
Proof.
  revert z l3. induction l2 as [|y l2 IH] using rev_ind; intros z l3; simpl.
  - by exists z.
  - rewrite length_app. simpl. rewrite Nat.add_1_r. simpl.
    replace (l1 ++ (l2 ++ [y]) ++ z :: l3) with ((l1 ++ l2) ++ y :: z :: l3)
      by (by rewrite <- !app_assoc).
    rewrite arr_get_middle by (rewrite length_app; lia). simpl.
    replace ((l1 ++ l2) ++ y :: z :: l3) with ((l1 ++ l2 ++ [y]) ++ z :: l3)
      by (by rewrite <- !app_assoc).
    rewrite arr_put_middle by (rewrite !length_app; simpl; lia). simpl.
    rewrite <- !app_assoc. simpl. destruct (IH y (y :: l3)) as [h Hh].
    by exists h.
Qed.

(** Make room at [length l1] and store [x] there. *)
Lemma insert_array l1 l2 z l3 x :
  (let! a := shift_up (l1 ++ l2 ++ z :: l3) (length l1) (length l2) in
   arr_put a (length l1) x) = Ret (l1 ++ x :: l2 ++ l3).
Proof.
  destruct (shift_up_middle l1 l2 z l3) as [h ->]. simpl. by apply arr_put_middle.
Qed.

Lemma shift_down_middle l1 z l2 l3 :
  exists w, shift_down (l1 ++ z :: l2 ++ l3) (length l1) (length l2) =
            Ret (l1 ++ l2 ++ w :: l3).
Proof.
  revert l1 z. induction l2 as [|y l2 IH]; intros l1 z; simpl; [by exists z|].
  replace (l1 ++ z :: y :: l2 ++ l3) with ((l1 ++ [z]) ++ y :: l2 ++ l3)
    by (by rewrite <- app_assoc).
  rewrite arr_get_middle by (rewrite length_app; simpl; lia). simpl.
  rewrite <- app_assoc. simpl. rewrite arr_put_middle by done. simpl.
  destruct (IH (l1 ++ [y]) y) as [w Hw].
  rewrite length_app in Hw. simpl in Hw. rewrite Nat.add_1_r in Hw.
  rewrite <- !app_assoc in Hw. simpl in Hw. exists w. by rewrite Hw.
Qed.

End Array_lemmas.

(** ** Insertion, on arrays *)

Lemma insert_position_le l f : (insert_position l f <= length l)%nat.
Proof. induction l as [|r l IH]; simpl; [lia|]. destruct (_ <? _); simpl; lia. Qed.

Lemma accepted_refresh a count : accepted_ranges (apta_refresh_accepted_ends a count) = take count a.
Proof. reflexivity. Qed.

Ltac lengths := rewrite ?length_app; simpl; rewrite ?length_app; simpl; lia.

Lemma merge_left_spec l1 l2 rest f e :
  let x := {| r_first := f; r_end := e |} in
  exists a,
    merge_left (l1 ++ x :: l2 ++ rest) (S (length l1 + length l2)) (length l1) f e =
      Ret ((join_left l1 x).1 ++ (join_left l1 x).2 :: l2 ++ a,
           S (length (join_left l1 x).1 + length l2), length (join_left l1 x).1) /\
    length (l1 ++ x :: l2 ++ rest) =
      length ((join_left l1 x).1 ++ (join_left l1 x).2 :: l2 ++ a).
Proof.
  intros x. unfold join_left, merge_left. destruct l1 as [|p l0 _] using rev_ind.
  - exists rest. by split.
  - rewrite last_snoc, length_app. simpl. rewrite Nat.add_1_r.
    rewrite <- app_assoc. simpl. rewrite arr_get_middle by done. simpl.
    destruct (r_end p =? f).
    + rewrite arr_put_middle by done. simpl.
      destruct (shift_down_middle (l0 ++ [{| r_first := r_first p; r_end := e |}]) x l2 rest)
        as [w Hw].
      rewrite length_app in Hw. simpl in Hw. rewrite Nat.add_1_r, <- !app_assoc in Hw. simpl in Hw.
      match goal with |- context [shift_down _ _ ?n] => replace n with (length l2) by lia end.
      rewrite Hw. simpl. exists (w :: rest). rewrite removelast_last.
      split; [done|]. lengths.
    + exists rest. simpl. rewrite <- app_assoc, length_app. simpl.
      split; [repeat f_equal; lia|]. lengths.
Qed.

Lemma merge_right_spec m1 y l2 rest :
  exists a,
    merge_right (m1 ++ y :: l2 ++ rest) (S (length m1 + length l2)) (length m1) =
      Ret (m1 ++ join_right y l2 ++ a, (length m1 + length (join_right y l2))%nat) /\
    length (m1 ++ y :: l2 ++ rest) = length (m1 ++ join_right y l2 ++ a).
Proof.
  unfold merge_right. destruct l2 as [|z l2].
  - exists rest. simpl. destruct (Nat.ltb_spec (S (length m1)) (S (length m1 + 0))); [lia|].
    split; [repeat f_equal; lia | done].
  - simpl. destruct (Nat.ltb_spec (S (length m1)) (S (length m1 + S (length l2)))); [|lia].
    assert (Hz : arr_get (E := apta_status_t) (m1 ++ y :: z :: l2 ++ rest) (S (length m1)) = Ret z).
    { pose proof (arr_get_middle (E := apta_status_t) (m1 ++ [y]) z (l2 ++ rest) (S (length m1))) as Hz.
      rewrite <- app_assoc in Hz. apply Hz. lengths. }
    rewrite arr_get_middle by done. simpl. rewrite Hz. simpl.
    destruct (r_end y =? r_first z).
    + rewrite arr_put_middle by done. simpl.
      destruct (shift_down_middle (m1 ++ [{| r_first := r_first y; r_end := r_end z |}]) z l2 rest)
        as [w Hw].
      rewrite length_app in Hw. simpl in Hw. rewrite Nat.add_1_r, <- !app_assoc in Hw. simpl in Hw.
      match goal with |- context [shift_down _ _ ?n] => replace n with (length l2) by lia end.
      rewrite Hw. simpl. exists (w :: rest). simpl.
      split; [repeat f_equal; lia|]. lengths.
    + exists rest. simpl. split; [repeat f_equal; lia | done].
Qed.

Lemma insert_refines c f e :
  (S (cov_count c) <= length (cov_ranges c))%nat ->
  exists c', apta_insert_accepted_range c f e = Ret c' /\
    accepted_ranges c' = insert_spec (accepted_ranges c) {| r_first := f; r_end := e |} /\
    length (cov_ranges c') = length (cov_ranges c) /\
    cov_greatest_accepted_end c' = contiguous_end_loop (accepted_ranges c') 0 /\
    cov_maximum_accepted_end c' =
      match last (accepted_ranges c') with None => 0 | Some r => r_end r end /\
    (cov_count c' <= length (cov_ranges c'))%nat.
Proof.
  intros Hc. unfold apta_insert_accepted_range, insert_spec. simpl.
  set (l := accepted_ranges c). set (p := insert_position l f).
  assert (Hp : (p <= length l)%nat) by apply insert_position_le.
  assert (Hl : length l = cov_count c)
    by (unfold l, accepted_ranges; rewrite length_take; lia).
  destruct (drop (cov_count c) (cov_ranges c)) as [|z rest] eqn:Ed.
  { apply (f_equal length) in Ed. rewrite length_drop in Ed. simpl in Ed. lia. }
  assert (Ha : cov_ranges c = take p l ++ drop p l ++ z :: rest).
  { rewrite app_assoc, take_drop, <- Ed. symmetry. apply take_drop. }
  assert (Hl1 : length (take p l) = p) by (rewrite length_take; lia).
  assert (Hl2 : length (drop p l) = (cov_count c - p)%nat) by (rewrite length_drop; lia).
  pose proof (insert_array (take p l) (drop p l) z rest {| r_first := f; r_end := e |}) as Hi.
  rewrite <- Ha, Hl1, Hl2 in Hi.
  destruct (shift_up (cov_ranges c) p (cov_count c - p)) as [a1| |]; try done. simpl in Hi |- *.
  rewrite Hi. simpl.
  destruct (merge_left_spec (take p l) (drop p l) rest f e) as (a2 & Hm & Hlen).
  rewrite Hl1, Hl2 in Hm. replace (p + (cov_count c - p))%nat with (cov_count c) in Hm by lia.
  rewrite Hm. simpl. clear Hm. destruct (join_left _ _) as [m1 y]. simpl in *.
  destruct (merge_right_spec m1 y (drop p l) a2) as (a3 & Hm & Hlen').
  rewrite Hl2 in Hm. rewrite Hm. simpl. eexists. split; [reflexivity|].
  rewrite accepted_refresh. set (k := m1 ++ join_right y (drop p l)).
  assert (Hk : (length m1 + length (join_right y (drop p l)) = length k)%nat)
    by (unfold k; by rewrite length_app).
  assert (Hall : m1 ++ join_right y (drop p l) ++ a3 = k ++ a3) by (unfold k; by rewrite app_assoc).
  rewrite Hk, Hall, take_app_length. simpl. rewrite take_app_length.
  assert (Hsz : length (k ++ a3) = length (cov_ranges c)).
  { rewrite <- Hall, <- Hlen', <- Hlen, Ha, !length_app. simpl. rewrite !length_app. simpl. lia. }
  split_and!; try done; [|rewrite length_app; lia].
  destruct k as [|r k' _] using rev_ind; [done|].
  rewrite length_app, last_snoc. simpl. rewrite Nat.add_1_r, <- app_assoc. simpl.
  by rewrite list_lookup_middle.
Qed.

(** ** Insertion, on the set of frames *)

Lemma gaps_mono lo lo' l : lo' <= lo -> gaps lo l -> gaps lo' l.
Proof. destruct l; simpl; intuition lia. Qed.

Definition after (lo : Z) (l : list range) : Z :=
  match last l with None => lo | Some r => r_end r + 1 end.

Lemma after_cons lo r l : after lo (r :: l) = after (r_end r + 1) l.
Proof.
  unfold after. destruct l as [|s l]; [done|].
  change (last (r :: s :: l)) with (last (s :: l)).
  destruct (last (s :: l)) eqn:E; [done|]. by apply last_None in E.
Qed.

Lemma gaps_app lo l1 l2 : gaps lo (l1 ++ l2) <-> gaps lo l1 /\ gaps (after lo l1) l2.
Proof.
  revert lo. induction l1 as [|r l1 IH]; intros lo; [simpl; tauto|].
  rewrite after_cons. simpl. rewrite IH. tauto.
Qed.

Lemma covered_nil f : ~ covered [] f.
Proof. intros (r & Hr & _). by apply elem_of_nil in Hr. Qed.

Lemma covered_cons r l f : covered (r :: l) f <-> r_first r <= f < r_end r \/ covered l f.
Proof.
  split.
  - intros (s & [->|Hs]%elem_of_cons & Hf); [by left | right; by exists s].
  - intros [Hf|(s & Hs & Hf)]; [exists r | exists s]; split; try done; [left | by right].
Qed.

Lemma covered_app l1 l2 f : covered (l1 ++ l2) f <-> covered l1 f \/ covered l2 f.
Proof.
  unfold covered. setoid_rewrite elem_of_app. naive_solver.
Qed.

(** Nothing below the bound of a table is covered. *)
Lemma gaps_low lo l f : gaps lo l -> covered l f -> lo <= f.
Proof.
  revert lo. induction l as [|r l IH]; intros lo; [by intros _ ?%covered_nil|].
  simpl. intros (Hlo & Hne & Hg) [Hf|Hf]%covered_cons; [lia|]. specialize (IH _ Hg Hf). lia.
Qed.

Lemma insert_position_split lo l f :
  gaps lo l ->
  let p := insert_position l f in
  Forall (fun r => r_first r < f) (take p l) /\ Forall (fun r => f <= r_first r) (drop p l).
Proof.
  revert lo. induction l as [|r l IH]; intros lo; simpl; [by repeat constructor|].
  intros (Hlo & Hne & Hg). destruct (Z.ltb_spec (r_first r) f) as [Hlt|Hge]; simpl.
  - destruct (IH _ Hg) as [H1 H2]. by split; [constructor|].
  - split; [constructor|]. constructor; [done|]. clear IH.
    assert (Hb : f <= r_end r + 1) by lia. revert Hg Hb. generalize (r_end r + 1).
    induction l as [|s l IH]; intros k; simpl; [constructor|].
    intros (Hk & Hs & Hg) Hb. constructor; [lia|]. apply (IH _ Hg). lia.
Qed.

Lemma join_right_gaps lo y l2 :
  lo <= r_first y -> r_first y < r_end y -> gaps (r_first y) l2 ->
  Forall (fun r => r_end y <= r_first r) l2 ->
  gaps lo (join_right y l2).
Proof.
  intros Hlo Hne Hg Hall. destruct l2 as [|z l2]; simpl; [lia|].
  apply Forall_cons in Hall as [Hz Hall]. simpl in Hg. destruct Hg as (Hg1 & Hg2 & Hg3).
  destruct (Z.eqb_spec (r_end y) (r_first z)); simpl; split_and!; try done; lia.
Qed.

Lemma join_right_covered y l2 f :
  r_first y < r_end y -> Forall (fun r => r_first r < r_end r) l2 ->
  covered (join_right y l2) f <-> r_first y <= f < r_end y \/ covered l2 f.
Proof.
  intros Hne Hall. destruct l2 as [|z l2]; simpl; [by rewrite covered_cons|].
  apply Forall_cons in Hall as [Hz _].
  destruct (Z.eqb_spec (r_end y) (r_first z)); rewrite !covered_cons; simpl; [|done].
  intuition lia.
Qed.

Lemma gaps_nonempty lo l : gaps lo l -> Forall (fun r => r_first r < r_end r) l.
Proof. revert lo. induction l; simpl; intros lo; [constructor|]. intros (? & ? & ?). constructor; eauto. Qed.

Lemma gaps_elem_low lo l r : gaps lo l -> r ∈ l -> lo <= r_first r.
Proof.
  intros Hg Hr. apply (gaps_low lo l (r_first r) Hg). exists r. split; [done|].
  apply gaps_nonempty in Hg. rewrite Forall_forall in Hg. specialize (Hg r Hr). lia.
Qed.

(** Insertion keeps a table well formed and adds exactly the new frames. *)
Lemma insert_spec_ok l x lo :
  gaps lo l -> lo <= r_first x -> r_first x < r_end x ->
  (forall f, covered l f -> ~ (r_first x <= f < r_end x)) ->
  gaps lo (insert_spec l x) /\
  (forall f, covered (insert_spec l x) f <-> covered l f \/ r_first x <= f < r_end x).
Proof.
  intros Hg Hlo Hne Hdisj. unfold insert_spec.
  destruct (insert_position_split _ _ (r_first x) Hg) as [Hl Hr].
  set (p := insert_position l (r_first x)) in *.
  assert (Hcl : forall f, covered l f <-> covered (take p l ++ drop p l) f)
    by (intros f; by rewrite take_drop).
  assert (Hg' : gaps lo (take p l ++ drop p l)) by (by rewrite take_drop).
  setoid_rewrite Hcl. setoid_rewrite Hcl in Hdisj. clear Hcl Hg. rename Hg' into Hg.
  set (l1 := take p l) in *. set (l2 := drop p l) in *. clearbody l1 l2. clear p.
  apply gaps_app in Hg as [Hg1 Hg2].
  pose proof (gaps_nonempty _ _ Hg1) as Hne1. pose proof (gaps_nonempty _ _ Hg2) as Hne2.
  assert (Hx2 : Forall (fun r => r_end x <= r_first r) l2).
  { rewrite Forall_forall in *. intros r Hin. specialize (Hr _ Hin). specialize (Hne2 _ Hin).
    destruct (Z.le_gt_cases (r_end x) (r_first r)); [done|]. exfalso.
    apply (Hdisj (r_first r)); [|simpl in *; lia]. apply covered_app. right.
    exists r. split; [done | simpl in *; lia]. }
  assert (Hx1 : Forall (fun r => r_end r <= r_first x) l1).
  { rewrite Forall_forall in *. intros r Hin. specialize (Hl _ Hin).
    destruct (Z.le_gt_cases (r_end r) (r_first x)); [done|]. exfalso.
    apply (Hdisj (r_first x)); [|lia]. apply covered_app. left.
    exists r. split; [done | simpl in *; lia]. }
  assert (Hgx : gaps (r_first x) l2).
  { destruct l2 as [|z l2]; [done|]. simpl in Hg2 |- *. apply Forall_cons in Hr as [Hz _].
    intuition lia. }
  unfold join_left. destruct l1 as [|q l0 _] using rev_ind.
  - simpl. split; [by apply join_right_gaps|]. intros f.
    rewrite join_right_covered by done. tauto.
  - rewrite last_snoc. apply gaps_app in Hg1 as [Hg0 (Hq1 & Hq2 & _)].
    apply Forall_app in Hx1 as [_ Hq]. rewrite Forall_singleton in Hq.
    apply Forall_app in Hl as [_ Hql]. rewrite Forall_singleton in Hql.
    destruct (Z.eqb_spec (r_end q) (r_first x)) as [Heq|Hneq].
    + rewrite removelast_last. split.
      * apply gaps_app. split; [done|]. apply join_right_gaps; simpl; try done; [lia|].
        eapply gaps_mono; [|exact Hgx]. lia.
      * intros f. rewrite !covered_app, join_right_covered by (simpl; lia || done).
        rewrite covered_cons. simpl. pose proof (covered_nil f). intuition lia.
    + split.
      * apply gaps_app. split; [apply gaps_app; simpl; by split_and!|].
        unfold after. rewrite last_snoc. apply join_right_gaps; try done. lia.
      * intros f. rewrite !covered_app, join_right_covered by done. tauto.
Qed.

(** ** What the queries answer *)

Lemma contiguous_end_spec l :
  gaps 0 l -> let g := contiguous_end_loop l 0 in
  0 <= g /\ (forall f, 0 <= f < g -> covered l f) /\ ~ covered l g.
Proof.
  intros Hg. simpl. destruct l as [|r l]; simpl.
  - split_and!; [lia | intros; lia | apply covered_nil].
  - destruct Hg as (H1 & H2 & Hg).
    destruct (Z.ltb_spec 0 (r_first r)).
    + split_and!; [lia | intros; lia |]. intros [?|Hc]%covered_cons; [lia|].
      apply (gaps_low _ _ _ Hg) in Hc. lia.
    + destruct (Z.ltb_spec 0 (r_end r)); [|lia].
      assert (Hstop : contiguous_end_loop l (r_end r) = r_end r).
      { destruct l as [|s l]; [done|]. simpl. destruct Hg as (Hs & _).
        destruct (Z.ltb_spec (r_end r) (r_first s)); [done | lia]. }
      rewrite Hstop. split_and!; [lia | |].
      * intros f Hf. apply covered_cons. left. lia.
      * intros [?|Hc]%covered_cons; [lia|]. apply (gaps_low _ _ _ Hg) in Hc. lia.
Qed.

Lemma find_missing_spec l lo cursor e :
  gaps lo l ->
  match find_missing_loop l cursor e with
  | Some (a, b) =>
      cursor <= a /\ a < b <= e /\ (forall f, cursor <= f < a -> covered l f) /\
      (forall f, a <= f < b -> ~ covered l f) /\ (b < e -> covered l b)
  | None => forall f, cursor <= f < e -> covered l f
  end.
Proof.
  revert lo cursor. induction l as [|r l IH]; intros lo cursor Hg; simpl.
  - destruct (Z.ltb_spec cursor e); [|intros; lia].
    split_and!; try lia. intros. apply covered_nil.
  - destruct Hg as (H1 & H2 & Hg). destruct (Z.leb_spec (r_end r) cursor).
    + specialize (IH _ cursor Hg). destruct (find_missing_loop l cursor e) as [[a b]|].
      * destruct IH as (I1 & I2 & I3 & I4 & I5). split_and!; try lia; intros.
        -- apply covered_cons. right. auto.
        -- rewrite covered_cons. intros [|Hc]; [lia|]. by apply (I4 f).
        -- apply covered_cons. right. auto.
      * intros f Hf. apply covered_cons. right. auto.
    + assert (Htail : forall f, covered l f -> r_end r < f).
      { intros f Hc. apply (gaps_low _ _ _ Hg) in Hc. lia. }
      destruct (Z.ltb_spec cursor (r_first r)).
      * unfold apta_min_frame.
        assert (Hb : cursor <= cursor /\ cursor < (if r_first r <? e then r_first r else e) -> True) by done.
        destruct (Z.ltb_spec (r_first r) e).
        -- destruct (Z.ltb_spec cursor (r_first r)); [|lia].
           split_and!; try lia; intros.
           ++ rewrite covered_cons. intros [|Hc]; [lia|]. apply Htail in Hc. lia.
           ++ apply covered_cons. left. lia.
        -- destruct (Z.ltb_spec cursor e); [|intros; lia].
           split_and!; try lia; intros.
           rewrite covered_cons. intros [|Hc]; [lia|]. apply Htail in Hc. lia.
      * destruct (Z.leb_spec e (r_end r)).
        -- intros f Hf. apply covered_cons. left. lia.
        -- specialize (IH _ (r_end r) Hg).
           destruct (find_missing_loop l (r_end r) e) as [[a b]|].
           ++ destruct IH as (I1 & I2 & I3 & I4 & I5). split_and!; try lia; intros.
              ** rewrite covered_cons. destruct (Z_lt_dec f (r_end r)); [left; lia | right; apply I3; lia].
              ** rewrite covered_cons. intros [|Hc]; [lia|]. by apply (I4 f).
              ** apply covered_cons. right. auto.
           ++ intros f Hf. rewrite covered_cons.
              destruct (Z_lt_dec f (r_end r)); [left; lia | right; apply IH; lia].
Qed.

Lemma prefix_spec l lo first requested :
  gaps lo l -> 0 <= requested <= UINT32_MAX ->
  let '(n, conflict) := nonoverlapping_prefix_loop l first (first + requested) requested in
  0 <= n <= requested /\
  (forall f, first <= f < first + n -> ~ covered l f) /\
  (n < requested -> covered l (first + n)) /\
  (conflict = true <-> covered l first) /\ (conflict = true -> n = 0).
Proof.
  intros Hg Hr. revert lo Hg. induction l as [|r l IH]; intros lo Hg; simpl.
  - pose proof (covered_nil first).
    split_and!; try lia; try done. intros. apply covered_nil.
  - destruct Hg as (H1 & H2 & Hg). specialize (IH _ Hg).
    assert (Htail : forall f, covered l f -> r_end r < f).
    { intros f Hc. apply (gaps_low _ _ _ Hg) in Hc. lia. }
    destruct (Z.leb_spec (r_end r) first).
    + destruct (nonoverlapping_prefix_loop _ _ _ _) as [n conflict].
      destruct IH as (I1 & I2 & I3 & I4 & I5). split_and!; try lia; try done.
      * intros f Hf. rewrite covered_cons. intros [|Hc]; [lia | by apply (I2 f)].
      * intros Hn. apply covered_cons. right. auto.
      * rewrite covered_cons. intuition lia.
    + destruct (Z.leb_spec (r_first r) first); [|destruct (Z.ltb_spec (r_first r) (first + requested))].
      * split_and!; try lia; [intros; apply covered_cons; left; lia |].
        rewrite covered_cons. intuition lia.
      * rewrite u32_small by (unfold is_u32; lia). split_and!; try lia.
        -- intros f Hf. rewrite covered_cons. intros [|Hc]; [lia|]. apply Htail in Hc. lia.
        -- intros _. apply covered_cons. left. lia.
        -- rewrite covered_cons. split; [done|]. intros [|Hc]; [lia|]. apply Htail in Hc. lia.
      * split_and!; try lia.
        -- intros f Hf. rewrite covered_cons. intros [|Hc]; [lia|]. apply Htail in Hc. lia.
        -- rewrite covered_cons. split; [done|]. intros [|Hc]; [lia|]. apply Htail in Hc. lia.
Qed.

(** The end of a table is past every frame it covers. *)
Lemma maximum_spec lo l :
  gaps lo l -> 0 <= lo ->
  let m := match last l with None => 0 | Some r => r_end r end in
  (forall f, covered l f -> f < m) /\ (l <> [] -> covered l (m - 1)).
Proof.
  intros Hg Hlo. destruct l as [|r l _] using rev_ind; simpl.
  - split; [intros f Hf; by apply covered_nil in Hf | done].
  - rewrite last_snoc. apply gaps_app in Hg as [Hg (H1 & H2 & _)]. split.
    + intros f [Hc|Hc]%covered_app.
      * assert (Hb : forall lo l, gaps lo l -> covered l f -> f < after lo l - 1).
        { clear. intros lo l. revert lo. induction l as [|s l IH]; intros lo; simpl;
            [by intros _ ?%covered_nil|].
          rewrite after_cons. intros (H1 & H2 & H3) [Hf|Hf]%covered_cons; [|by apply IH].
          assert (Ha : forall lo l, gaps lo l -> lo <= after lo l).
          { clear. intros lo l. revert lo. induction l as [|s l IH]; intros lo; simpl;
              [unfold after; simpl; lia|].
            rewrite after_cons. intros (? & ? & Hg). specialize (IH _ Hg). lia. }
          specialize (Ha _ _ H3). lia. }
        specialize (Hb _ _ Hg Hc). lia.
      * apply covered_cons in Hc as [|Hc]; [lia|]. by apply covered_nil in Hc.
    + intros _. apply covered_app. right. apply covered_cons. left. lia.
Qed.

(** ** The operations on a well-formed table *)

Lemma insert_correct c f e :
  table_ok c -> (S (cov_count c) <= length (cov_ranges c))%nat -> 0 <= f < e ->
  (forall g, covered (accepted_ranges c) g -> ~ (f <= g < e)) ->
  exists c', apta_insert_accepted_range c f e = Ret c' /\ table_ok c' /\
    length (cov_ranges c') = length (cov_ranges c) /\
    (forall g, covered (accepted_ranges c') g <-> covered (accepted_ranges c) g \/ f <= g < e).
Proof.
  intros [Hg Hn _ _] Hcap Hfe Hdisj.
  destruct (insert_refines c f e Hcap) as (c' & E & Hacc & Hlen & Hgr & Hmx & Hcnt).
  destruct (insert_spec_ok _ {| r_first := f; r_end := e |} 0 Hg) as [Hg' Hcov];
    [simpl; lia | simpl; lia | done |].
  exists c'. split; [done|]. split; [|split; [done|]].
  - constructor; [by rewrite Hacc | done | done | done].
  - intros g. by rewrite Hacc, Hcov.
Qed.

(** Insertion adds a range at most. *)
Lemma insert_spec_length l x : (length (insert_spec l x) <= S (length l))%nat.
Proof.
  unfold insert_spec. pose proof (insert_position_le l (r_first x)) as Hp. set (p := insert_position l (r_first x)) in *.
  assert (H1 : (length (join_left (take p l) x).1 <= p)%nat).
  { unfold join_left. destruct (last (take p l)) as [y|]; [|simpl; rewrite length_take; lia].
    destruct (_ =? _); simpl; rewrite ?removelast_firstn_len, ?length_firstn, ?length_take; lia. }
  destruct (join_left (take p l) x) as [l1 y]. rewrite length_app. simpl in H1.
  assert (H2 : forall l2, (length (join_right y l2) <= S (length l2))%nat).
  { intros [|z l2]; [done|]. simpl. destruct (_ =? _); simpl; lia. }
  specialize (H2 (drop p l)). rewrite length_drop in H2. lia.
Qed.

Lemma insert_count c f e c' : table_ok c -> (S (cov_count c) <= length (cov_ranges c))%nat ->
  apta_insert_accepted_range c f e = Ret c' -> (cov_count c' <= S (cov_count c))%nat.
Proof.
  intros [_ Hn _ _] Hcap E. destruct (insert_refines c f e Hcap) as (c2 & E2 & Hacc & Hlen & _ & _ & Hcnt).
  rewrite E in E2. injection E2 as <-.
  pose proof (insert_spec_length (accepted_ranges c) {| r_first := f; r_end := e |}) as H. rewrite <- Hacc in H.
  unfold accepted_ranges in H. rewrite !length_take in H. lia.
Qed.

Lemma grow_capacity_spec fuel capacity needed :
  1 <= capacity <= UINT32_MAX -> UINT32_MAX < capacity * 2 ^ (Z.of_nat fuel + 1) ->
  match grow_capacity fuel capacity needed with
  | Ret c => needed <= c <= UINT32_MAX /\ capacity <= c /\ (capacity < UINT32_MAX -> c < UINT32_MAX)
  | Err s => s = APTA_ERROR_LIMIT_EXCEEDED
  | Ub => False
  end.
Proof.
  revert capacity. induction fuel as [|fuel IH]; intros capacity Hc Hp; simpl;
    change (UINT32_MAX / 2) with 2147483647 in *;
    destruct (Z.ltb_spec capacity needed); try lia.
  - destruct (Z.ltb_spec 2147483647 capacity); [done|].
    change (2 ^ (Z.of_nat 0 + 1)) with 2 in Hp. exfalso. lia.
  - destruct (Z.ltb_spec 2147483647 capacity); [done|].
    rewrite u32_small by (unfold is_u32; lia).
    specialize (IH (capacity * 2) ltac:(lia)).
    assert (UINT32_MAX < capacity * 2 * 2 ^ (Z.of_nat fuel + 1)).
    { replace (Z.of_nat (S fuel) + 1) with (Z.of_nat fuel + 1 + 1) in Hp by lia.
      rewrite Z.pow_add_r in Hp by lia. lia. }
    specialize (IH ltac:(done)). destruct (grow_capacity fuel (capacity * 2) needed); lia || done.
Qed.

Section Capacity.
Context `{PlatformLaws}.

Lemma ensure_capacity_spec allocate fresh c needed :
  table_ok c -> Z.of_nat (length (cov_ranges c)) <= UINT32_MAX ->
  match apta_ensure_range_capacity allocate fresh c needed with
  | Ret c' =>
      table_ok c' /\ accepted_ranges c' = accepted_ranges c /\ cov_count c' = cov_count c /\
      needed <= Z.of_nat (length (cov_ranges c')) <= UINT32_MAX /\
      (length (cov_ranges c) <= length (cov_ranges c'))%nat
  | Err s => s = APTA_ERROR_LIMIT_EXCEEDED \/ s = APTA_ERROR_OUT_OF_MEMORY
  | Ub => False
  end.
Proof.
  intros Hok Hlen. unfold apta_ensure_range_capacity.
  destruct (Z.leb_spec needed (Z.of_nat (length (cov_ranges c)))); [split_and!; done || lia|].
  set (cap := Z.of_nat (length (cov_ranges c))) in *.
  set (start := if cap =? 0 then 8 else cap).
  assert (Hs : 1 <= start <= UINT32_MAX /\ cap <= start)
    by (subst start; destruct (Z.eqb_spec cap 0); lia).
  pose proof (grow_capacity_spec 32 start needed (proj1 Hs)) as Hg.
  change (2 ^ (Z.of_nat 32 + 1)) with 8589934592 in Hg. specialize (Hg ltac:(lia)).
  destruct (grow_capacity 32 start needed) as [k|s|]; simpl; [|auto|done].
  destruct (negb (apta_internal_size_array_fits _ _ _)); [auto|].
  destruct (negb (allocate _)); [auto|].
  assert (Hcount : length (accepted_ranges c) = cov_count c).
  { unfold accepted_ranges. rewrite length_take. pose proof (tk_count _ Hok). lia. }
  assert (Hacc : forall r, take (cov_count c) (accepted_ranges c ++ r) = accepted_ranges c).
  { intros r. rewrite <- Hcount. apply take_app_length. }
  assert (Hl : length (accepted_ranges c ++
             replicate (Z.to_nat k - length (accepted_ranges c)) fresh) = Z.to_nat k).
  { rewrite length_app, length_replicate, Hcount. pose proof (tk_count _ Hok). lia. }
  pose proof (tk_count _ Hok). destruct Hok as [T1 T2 T3 T4].
  set (c' := {| cov_count := cov_count c |}).
  assert (Hacc' : accepted_ranges c' = accepted_ranges c) by apply Hacc.
  split_and!; try done; try (simpl; rewrite Hl; lia).
  constructor; rewrite ?Hacc'; try done. simpl. rewrite Hl. lia.
Qed.

End Capacity.

(** ** Properties *)

(** C12. Recording new frames: on a well-formed table with room for one more
    range, inserting a non-empty run of frames of which none is recorded never
    leaves the array, adds exactly those frames, and leaves the table sorted,
    disjoint and without touching neighbours; [greatest_accepted_end] is the
    first frame still missing and [maximum_accepted_end] the end of the last
    recorded one. *)
Theorem insert_accepted_range_correct (c : coverage) (first_frame end_frame : Z)
    (Hok : table_ok c) (Hroom : (S (cov_count c) <= length (cov_ranges c))%nat)
    (Hrange : 0 <= first_frame < end_frame)
    (Hnew : forall g, covered (accepted_ranges c) g -> ~ (first_frame <= g < end_frame)) :
  exists c',
    apta_insert_accepted_range c first_frame end_frame = Ret c' /\
    table_ok c' /\ length (cov_ranges c') = length (cov_ranges c) /\
    (forall g, covered (accepted_ranges c') g <->
               covered (accepted_ranges c) g \/ first_frame <= g < end_frame) /\
    (forall g, 0 <= g < cov_greatest_accepted_end c' -> covered (accepted_ranges c') g) /\
    ~ covered (accepted_ranges c') (cov_greatest_accepted_end c') /\
    (forall g, covered (accepted_ranges c') g -> g < cov_maximum_accepted_end c') /\
    covered (accepted_ranges c') (cov_maximum_accepted_end c' - 1).
Proof.
  destruct (insert_correct c first_frame end_frame Hok Hroom Hrange Hnew)
    as (c' & E & Hok' & Hlen & Hcov).
  exists c'. split; [done|]. split; [done|]. split; [done|]. split; [done|].
  destruct Hok' as [Hg _ Hgr Hmx]. rewrite Hgr, Hmx.
  destruct (contiguous_end_spec _ Hg) as (_ & Hc1 & Hc2).
  destruct (maximum_spec _ _ Hg) as (Hm1 & Hm2); [lia|].
  split_and!; try done. apply Hm2. intros Hn.
  destruct (covered_nil first_frame). rewrite <- Hn. apply Hcov. right. lia.
Qed.

(** Ranges [0,10) and [20,30), with the gap filled by [10,20). *)
Definition sample_table : coverage :=
  {| cov_ranges := [ {| r_first := 0; r_end := 10 |}; {| r_first := 20; r_end := 30 |};
                     {| r_first := 0; r_end := 0 |} ];
     cov_count := 2; cov_greatest_accepted_end := 10; cov_maximum_accepted_end := 30 |}.

Lemma sample_table_ok : table_ok sample_table.
Proof. constructor; simpl; try done; lia. Qed.

Lemma insert_accepted_range_correct_witness :
  table_ok sample_table /\
  exists c', apta_insert_accepted_range sample_table 10 20 = Ret c' /\ table_ok c' /\
    accepted_ranges c' = [ {| r_first := 0; r_end := 30 |} ].
Proof.
  split; [apply sample_table_ok|].
  destruct (insert_accepted_range_correct sample_table 10 20 sample_table_ok) as (c' & E & Hok' & _).
  - simpl. lia.
  - lia.
  - unfold accepted_ranges. simpl.
    intros g [?|[?|?%covered_nil]%covered_cons]%covered_cons; simpl in *; done || lia.
  - exists c'. split; [exact E|]. split; [exact Hok'|]. vm_compute in E.
    injection E as <-. reflexivity.
Defined.

(** C34. The next range to fetch: on a well-formed table the answer is the first
    maximal run of missing frames of the target, cut at its end; there is no
    answer exactly when the whole target has been accepted. *)
Theorem find_missing_range_correct (c : coverage) (first_frame end_frame : Z)
    (Hok : table_ok c) :
  match apta_find_missing_range c first_frame end_frame with
  | Some (a, b) =>
      first_frame <= a /\ a < b <= end_frame /\
      (forall f, first_frame <= f < a -> covered (accepted_ranges c) f) /\
      (forall f, a <= f < b -> ~ covered (accepted_ranges c) f) /\
      (b < end_frame -> covered (accepted_ranges c) b)
  | None => forall f, first_frame <= f < end_frame -> covered (accepted_ranges c) f
  end.
Proof. apply (find_missing_spec _ 0). apply Hok. Qed.

Lemma find_missing_range_correct_witness :
  table_ok sample_table /\ apta_find_missing_range sample_table 5 40 = Some (10, 20) /\
  ~ covered (accepted_ranges sample_table) 15.
Proof.
  assert (E : apta_find_missing_range sample_table 5 40 = Some (10, 20)) by reflexivity.
  split; [apply sample_table_ok|]. split; [exact E|].
  pose proof (find_missing_range_correct sample_table 5 40 sample_table_ok) as Hm.
  rewrite E in Hm. destruct Hm as (_ & _ & _ & Hm & _). apply Hm. lia.
Defined.

(** Nothing in the insertion itself rejects frames that are already recorded:
    a second, shorter run inside a recorded one stays in the table and moves
    [maximum_accepted_end] back. *)
Example insert_overlap_moves_end_back :
  let c := {| cov_ranges := [ {| r_first := 0; r_end := 100 |}; {| r_first := 0; r_end := 0 |} ];
              cov_count := 1; cov_greatest_accepted_end := 100;
              cov_maximum_accepted_end := 100 |} in
  exists c', apta_insert_accepted_range c 50 60 = Ret c' /\
    accepted_ranges c' = [ {| r_first := 0; r_end := 100 |}; {| r_first := 50; r_end := 60 |} ] /\
    cov_maximum_accepted_end c' = 60.
Proof. eexists. split; [vm_compute; reflexivity|]. split; reflexivity. Qed.
