(* ===== verification/AcceptPcm.v ===== *)
(** * Accepting PCM (waveform/apta_waveform_input.c, [apta_internal_waveform_accept_pcm])

    A push is cut to the frames that are new and to a bounded block, copied
    into a queue node, and recorded in the accepted-range table.  When memory is
    short the block is halved until it fits; nothing is recorded for frames that
    were not copied. *)

From Stdlib Require Import Floats.SpecFloat.
From S2P Require Import Prelude Platform Samples Ranges.

Record pcm_node : Type := {
  pn_first_frame : Z;
  pn_frame_count : Z;
  pn_processed_frames : Z;
  pn_samples : list spec_float
}.

(** The fields of [apta_session_t] a push reads and writes; the queue from
    [pcm_head] to [pcm_tail]. *)
Record input_state : Type := {
  in_coverage : coverage;
  in_pcm : list pcm_node;
  in_queued_pcm_frames : Z
}.

Section Accept.
Context `{Platform}.

(** The session allocator: does the [k]-th request of this call, for that many
    bytes, succeed? *)
Context (allocate : nat -> Z -> bool) (fresh : range).

(** The halving loop; a block of at most 4096 frames is halved at most 13 times. *)
Fixpoint node_loop (fuel k : nat) (accepted : Z) : result (option Z) :=
  if accepted =? 0 then Ret None
  else
    bail APTA_ERROR_LIMIT_EXCEEDED when
      negb (apta_internal_size_array_fits (sizeof T_pcm_node) accepted (sizeof T_float)) in
    let bytes := sizeof T_pcm_node + accepted * sizeof T_float in
    if allocate k bytes then Ret (Some accepted)
    else match fuel with
         | O => Err APTA_ERROR_INTERNAL
         | S fuel => node_loop fuel (S k) (accepted / 2)
         end.

Definition set_coverage (s : input_state) (c : coverage) : input_state :=
  {| in_coverage := c; in_pcm := in_pcm s; in_queued_pcm_frames := in_queued_pcm_frames s |}.

(** The state, the status and [*accepted_frames_out]. *)
Definition apta_internal_waveform_accept_pcm_base (channel_count sample_format : Z)
    (session : input_state) (block : apta_pcm_block_t)
  : result (input_state * apta_status_t * Z) :=
  let candidate := apta_min_u32 (pb_frame_count block) APTA_INTERNAL_MAX_PUSH_FRAMES in
  let '(accepted, conflict_at_start) :=
    apta_nonoverlapping_prefix (in_coverage session) (pb_first_frame block) candidate in
  if accepted =? 0
  then Ret (session, if conflict_at_start then APTA_ERROR_CONFLICT else APTA_STATUS_WOULD_BLOCK, 0)
  else
    match apta_ensure_range_capacity (allocate 0) fresh (in_coverage session)
            (Z.of_nat (cov_count (in_coverage session)) + 1) with
    | Ub => Ub
    | Err APTA_ERROR_OUT_OF_MEMORY => Ret (session, APTA_STATUS_WOULD_BLOCK, 0)
    | Err status => Ret (session, status, 0)
    | Ret c =>
        let session := set_coverage session c in
        match node_loop 13 1 accepted with
        | Ub => Ub
        | Err status => Ret (session, status, 0)
        | Ret None => Ret (session, APTA_STATUS_WOULD_BLOCK, 0)
        | Ret (Some accepted) =>
            let! samples := read_samples channel_count sample_format block 0 (Z.to_nat accepted) in
            let! c := apta_insert_accepted_range c (pb_first_frame block)
                        (u64 (pb_first_frame block + accepted)) in
            let node := {| pn_first_frame := pb_first_frame block;
                           pn_frame_count := accepted; pn_processed_frames := 0;
                           pn_samples := samples |} in
            Ret ({| in_coverage := c;
                    in_pcm := in_pcm session ++ [node];
                    in_queued_pcm_frames := u64 (in_queued_pcm_frames session + accepted) |},
                 (if accepted =? pb_frame_count block
                  then APTA_STATUS_OK else APTA_STATUS_MORE_WORK),
                 accepted)
        end
    end.

End Accept.

(** ** Reading the caller's memory *)

Definition sample_width (sample_format : Z) : Z :=
  if sample_format =? APTA_SAMPLE_S16_NATIVE_INTERLEAVED then 2
  else if sample_format =? APTA_SAMPLE_S24_3LE_INTERLEAVED then 3 else 4.

(** The caller's contract: every pointer the format uses designates enough
    bytes for the block's frames. *)
Definition block_readable (channel_count sample_format : Z) (block : apta_pcm_block_t) : Prop :=
  if sample_format =? APTA_SAMPLE_F32_NATIVE_PLANAR
  then forall channel, 0 <= channel < channel_count ->
       exists bytes, pb_planes block !! Z.to_nat channel = Some (Some bytes) /\
                     pb_frame_count block * 4 <= Z.of_nat (length bytes)
  else exists bytes, pb_data block = Some bytes /\
         pb_frame_count block * channel_count * sample_width sample_format <=
         Z.of_nat (length bytes).

Lemma rd_le_ok bytes offset n :
  0 <= offset -> offset + Z.of_nat n <= Z.of_nat (length bytes) ->
  exists v, rd_le bytes offset n = Ret v.
Proof.
  intros H1 H2. unfold rd_le.
  destruct ((0 <=? offset) && (offset + Z.of_nat n <=? Z.of_nat (length bytes))) eqn:E; [eauto|].
  lia.
Qed.

Lemma read_channel_ok cc fmt block frame channel :
  1 <= cc <= 2 -> block_readable cc fmt block ->
  0 <= frame < pb_frame_count block -> frame < 4096 -> 0 <= channel < cc ->
  exists x, apta_read_channel_sample cc fmt block frame channel = Ret x.
Proof.
  intros Hcc Hb Hf Hmax Hch. unfold apta_read_channel_sample.
  rewrite (u32_small (frame * cc)), u32_small by (unfold is_u32; nia).
  unfold block_readable, sample_width in Hb.
  destruct (fmt =? APTA_SAMPLE_F32_NATIVE_PLANAR) eqn:Ep.
  - apply Z.eqb_eq in Ep as ->. simpl. destruct (Hb channel Hch) as (bytes & Hl & Hn).
    rewrite Hl. simpl. destruct (rd_le_ok bytes (frame * 4) 4) as [v ->]; [lia | lia |].
    simpl. eauto.
  - destruct Hb as (bytes & -> & Hn). simpl.
    destruct (fmt =? APTA_SAMPLE_S16_NATIVE_INTERLEAVED).
    { destruct (rd_le_ok bytes ((frame * cc + channel) * 2) 2) as [v ->]; [nia | nia | eauto]. }
    destruct (fmt =? APTA_SAMPLE_S24_3LE_INTERLEAVED).
    { destruct (rd_le_ok bytes ((frame * cc + channel) * 3) 1) as [v0 ->]; [nia | nia |].
      destruct (rd_le_ok bytes ((frame * cc + channel) * 3 + 1) 1) as [v1 ->]; [nia | nia |].
      destruct (rd_le_ok bytes ((frame * cc + channel) * 3 + 2) 1) as [v2 ->]; [nia | nia |].
      simpl. eauto. }
    destruct (rd_le_ok bytes ((frame * cc + channel) * 4) 4) as [v ->]; [nia | nia |]. simpl.
    destruct (fmt =? APTA_SAMPLE_S32_NATIVE_INTERLEAVED); [eauto|].
    destruct (fmt =? APTA_SAMPLE_F32_NATIVE_INTERLEAVED); eauto.
Qed.

Lemma read_mono_ok cc fmt block frame :
  1 <= cc <= 2 -> block_readable cc fmt block ->
  0 <= frame < pb_frame_count block -> frame < 4096 ->
  exists x, apta_read_mono_sample cc fmt block frame = Ret x.
Proof.
  intros Hcc Hb Hf Hmax. unfold apta_read_mono_sample.
  destruct (read_channel_ok cc fmt block frame 0 Hcc Hb Hf Hmax) as [x ->]; [lia|]. simpl.
  destruct (Z.eqb_spec cc 1); [eauto|].
  destruct (read_channel_ok cc fmt block frame 1 Hcc Hb Hf Hmax) as [y ->]; [lia|]. simpl. eauto.
Qed.

(** The samples read are those of the frames, one each. *)
Lemma read_samples_ok cc fmt block frame n :
  1 <= cc <= 2 -> block_readable cc fmt block -> 0 <= frame ->
  frame + Z.of_nat n <= pb_frame_count block -> frame + Z.of_nat n <= 4096 ->
  exists xs, read_samples cc fmt block frame n = Ret xs /\ length xs = n /\
    forall i, (i < n)%nat ->
      exists x, xs !! i = Some x /\ apta_read_mono_sample cc fmt block (frame + Z.of_nat i) = Ret x.
Proof.
  intros Hcc Hb. revert frame. induction n as [|n IH]; intros frame H0 H1 H2; simpl.
  - exists []. split_and!; [done | done |]. intros i Hi. lia.
  - destruct (read_mono_ok cc fmt block frame Hcc Hb) as [x Hx]; [lia | lia |].
    rewrite Hx. simpl. destruct (IH (frame + 1)) as (xs & -> & Hl & Hi); [lia | lia | lia |].
    simpl. exists (x :: xs). split_and!; [done | by simpl; rewrite Hl |].
    intros [|i] Hlt; [exists x; by rewrite Z.add_0_r|]. simpl.
    destruct (Hi i) as (y & Hy & Hr); [lia|]. exists y. split; [done|].
    by replace (frame + Z.of_nat (S i)) with (frame + 1 + Z.of_nat i) by lia.
Qed.

(** ** The push *)

Section Accept_correct.
Context `{PlatformLaws}.
Context (allocate : nat -> Z -> bool) (fresh : range).

Lemma node_loop_spec fuel k accepted :
  0 <= accepted <= 4096 -> accepted < 2 ^ Z.of_nat fuel ->
  match node_loop allocate fuel k accepted with
  | Ret (Some n) => 1 <= n <= accepted
  | Ret None => True
  | Err s => s = APTA_ERROR_LIMIT_EXCEEDED
  | Ub => False
  end.
Proof.
  revert k accepted. induction fuel as [|fuel IH]; intros k accepted Ha Hp; simpl;
    destruct (Z.eqb_spec accepted 0); try done.
  - change (2 ^ Z.of_nat 0) with 1 in Hp. lia.
  - destruct (negb _); [done|]. destruct (allocate k _); [lia|].
    assert (Hd : 0 <= accepted / 2 /\ accepted / 2 < 2 ^ Z.of_nat fuel /\ accepted / 2 <= accepted).
    { pose proof (Z.div_mod accepted 2 ltac:(lia)). pose proof (Z.mod_pos_bound accepted 2 ltac:(lia)).
      replace (Z.of_nat (S fuel)) with (Z.of_nat fuel + 1) in Hp by lia.
      rewrite Z.pow_add_r in Hp by lia. lia. }
    specialize (IH (S k) (accepted / 2) ltac:(lia) ltac:(lia)).
    destruct (node_loop allocate fuel (S k) (accepted / 2)) as [[n'|]| |]; try done. lia.
Qed.

Definition input_ok (s : input_state) : Prop :=
  table_ok (in_coverage s) /\
  Z.of_nat (length (cov_ranges (in_coverage s))) <= UINT32_MAX.

(** A block as [apta_internal_source_validate_pcm_block] lets it through. *)
Definition block_ok (block : apta_pcm_block_t) : Prop :=
  0 <= pb_first_frame block /\ 1 <= pb_frame_count block <= UINT32_MAX /\
  pb_first_frame block + pb_frame_count block <= UINT64_MAX.

(** What a push reports and does, as a relation between the states. *)
Definition accept_post (cc fmt : Z) (block : apta_pcm_block_t) (s s' : input_state)
    (status : apta_status_t) (n : Z) : Prop :=
  let first := pb_first_frame block in
  let seen s f := covered (accepted_ranges (in_coverage s)) f in
  0 <= n <= apta_min_u32 (pb_frame_count block) APTA_INTERNAL_MAX_PUSH_FRAMES /\
  (forall f, first <= f < first + n -> ~ seen s f) /\
  (forall f, seen s' f <-> seen s f \/ first <= f < first + n) /\
  (n = 0 -> in_pcm s' = in_pcm s /\ in_queued_pcm_frames s' = in_queued_pcm_frames s /\
            (status = APTA_ERROR_CONFLICT <-> seen s first) /\
            status ∈ [APTA_ERROR_CONFLICT; APTA_STATUS_WOULD_BLOCK; APTA_ERROR_LIMIT_EXCEEDED]) /\
  (n <> 0 ->
   (exists samples,
      in_pcm s' = in_pcm s ++ [ {| pn_first_frame := first; pn_frame_count := n; pn_processed_frames := 0;
                                   pn_samples := samples |} ] /\
      length samples = Z.to_nat n /\
      forall i, 0 <= i < n -> exists x, samples !! Z.to_nat i = Some x /\
                                        apta_read_mono_sample cc fmt block i = Ret x) /\
   in_queued_pcm_frames s' = u64 (in_queued_pcm_frames s + n) /\
   status = if n =? pb_frame_count block then APTA_STATUS_OK else APTA_STATUS_MORE_WORK).

Definition accepts (cc fmt : Z) (block : apta_pcm_block_t) (s : input_state)
    (m : result (input_state * apta_status_t * Z)) : Prop :=
  exists s' status n, m = Ret (s', status, n) /\ input_ok s' /\
    accept_post cc fmt block s s' status n.

Lemma candidate_bounds block :
  block_ok block ->
  let cand := apta_min_u32 (pb_frame_count block) APTA_INTERNAL_MAX_PUSH_FRAMES in
  1 <= cand <= pb_frame_count block /\ cand <= 4096.
Proof.
  intros (_ & Hb & _). simpl. unfold apta_min_u32, APTA_INTERNAL_MAX_PUSH_FRAMES.
  destruct (Z.ltb_spec (pb_frame_count block) 4096); lia.
Qed.

(** A push that records nothing. *)
Lemma accept_nothing cc fmt block s s' status :
  block_ok block -> input_ok s' -> in_pcm s' = in_pcm s ->
  in_queued_pcm_frames s' = in_queued_pcm_frames s ->
  accepted_ranges (in_coverage s') = accepted_ranges (in_coverage s) ->
  status ∈ [APTA_ERROR_CONFLICT; APTA_STATUS_WOULD_BLOCK; APTA_ERROR_LIMIT_EXCEEDED] ->
  (status = APTA_ERROR_CONFLICT <->
   covered (accepted_ranges (in_coverage s)) (pb_first_frame block)) ->
  accepts cc fmt block s (Ret (s', status, 0)).
Proof.
  intros Hb Hok Hq Hqf Ha Hst Hc. exists s', status, 0. split; [done|]. split; [done|].
  pose proof (candidate_bounds _ Hb). unfold accept_post. cbv beta zeta in *. rewrite Ha.
  split_and!; try lia; try (intros; lia); try done.
  intros f. split; [auto | intros [|]; [done | lia]].
Qed.

(** A push that records [n] frames: the node, then the range. *)
Lemma accept_some cc fmt block s c n :
  1 <= cc <= 2 -> block_ok block -> block_readable cc fmt block ->
  table_ok c -> Z.of_nat (length (cov_ranges c)) <= UINT32_MAX ->
  (S (cov_count c) <= length (cov_ranges c))%nat ->
  accepted_ranges c = accepted_ranges (in_coverage s) ->
  1 <= n <= apta_min_u32 (pb_frame_count block) APTA_INTERNAL_MAX_PUSH_FRAMES ->
  0 <= in_queued_pcm_frames s -> 
  (forall f, pb_first_frame block <= f < pb_first_frame block + n ->
     ~ covered (accepted_ranges (in_coverage s)) f) ->
  accepts cc fmt block s
    (let! samples := read_samples cc fmt block 0 (Z.to_nat n) in
     let! c := apta_insert_accepted_range c (pb_first_frame block)
                 (u64 (pb_first_frame block + n)) in
     Ret ({| in_coverage := c;
             in_pcm := in_pcm s ++ [ {| pn_first_frame := pb_first_frame block;
                                        pn_frame_count := n; pn_processed_frames := 0; pn_samples := samples |} ];
             in_queued_pcm_frames := u64 (in_queued_pcm_frames s + n) |},
          (if n =? pb_frame_count block then APTA_STATUS_OK else APTA_STATUS_MORE_WORK), n)).
Proof.
  intros Hcc Hb Hread Hok Hlen Hcap Hacc Hn Hq Hnew.
  pose proof (candidate_bounds _ Hb) as Hcand. destruct Hb as (Hb1 & Hb2 & Hb3). simpl in Hcand.
  destruct (read_samples_ok cc fmt block 0 (Z.to_nat n) Hcc Hread)
    as (samples & -> & Hsl & Hsi); [lia | lia | lia |]. simpl.
  rewrite (u64_small (pb_first_frame block + n)) by (unfold is_u64; lia).
  destruct (insert_correct c (pb_first_frame block) (pb_first_frame block + n))
    as (c' & -> & Hok' & Hlen' & Hcov'); [done | done | lia | |].
  { intros g Hg Hr. rewrite Hacc in Hg. by apply (Hnew g). }
  simpl. eexists _, _, n. split; [reflexivity|]. split; [split; simpl; [done | by rewrite Hlen']|].
  unfold accept_post. simpl. split_and!; try lia; try done.
  - intros f. by rewrite Hcov', Hacc.
  - intros _. split; [|done]. exists samples. split_and!; try done.
    intros i Hi. destruct (Hsi (Z.to_nat i)) as (x & Hx & Hr); [lia|]. exists x. split; [done|].
    by replace (0 + Z.of_nat (Z.to_nat i)) with i in Hr by lia.
Qed.

Lemma accept_pcm_correct cc fmt s block :
  1 <= cc <= 2 -> input_ok s -> 0 <= in_queued_pcm_frames s ->
  block_ok block -> block_readable cc fmt block ->
  accepts cc fmt block s
    (apta_internal_waveform_accept_pcm_base allocate fresh cc fmt s block).
Proof.
  intros Hcc [Hok Hlen] Hq Hb Hread.
  unfold apta_internal_waveform_accept_pcm_base, apta_nonoverlapping_prefix.
  pose proof (candidate_bounds _ Hb) as Hcand. simpl in Hcand.
  set (cand := apta_min_u32 (pb_frame_count block) APTA_INTERNAL_MAX_PUSH_FRAMES) in *.
  pose proof Hb as (Hb1 & Hb2 & Hb3).
  rewrite (u64_small (pb_first_frame block + cand)) by (unfold is_u64; lia).
  pose proof (prefix_spec _ 0 (pb_first_frame block) cand (tk_gaps _ Hok) ltac:(lia)) as Hp.
  destruct (nonoverlapping_prefix_loop _ _ _ _) as [acc conflict].
  destruct Hp as (P1 & P2 & P3 & P4 & P5).
  destruct (Z.eqb_spec acc 0) as [->|Hacc].
  { apply accept_nothing; try done; [destruct conflict; set_solver|].
    rewrite <- P4. by destruct conflict. }
  assert (Hns : ~ covered (accepted_ranges (in_coverage s)) (pb_first_frame block))
    by (apply P2; lia).
  pose proof (ensure_capacity_spec (allocate 0%nat) fresh (in_coverage s)
                (Z.of_nat (cov_count (in_coverage s)) + 1) Hok Hlen) as He.
  destruct (apta_ensure_range_capacity _ _ _ _) as [c|e|]; [| |done].
  2: { destruct He as [-> | ->]; apply accept_nothing; try done; set_solver. }
  destruct He as (Hok' & Hacc' & Hcount & Hcap & _).
  pose proof (node_loop_spec 13 1 acc ltac:(lia)) as Hnode.
  change (2 ^ Z.of_nat 13) with 8192 in Hnode. specialize (Hnode ltac:(lia)).
  destruct (node_loop allocate 13 1 acc) as [[n|]|e|]; [| | |done].
  - apply (accept_some cc fmt block s c n); try done; [lia | lia | lia |]. intros f Hf. apply P2. lia.
  - apply accept_nothing; try done; [split; [done | simpl; lia] | set_solver].
  - subst e. apply accept_nothing; try done; [split; [done | simpl; lia] | set_solver].
Qed.

(** C16. A push never reads or writes out of bounds and keeps the table well
    formed, whatever the allocator answers.  It accepts a prefix of the block,
    at most 4096 frames, all of them new, and records exactly those; the queue
    grows by one node holding their samples; the status tells a whole block from
    a part; when nothing is accepted nothing is queued or recorded, and the
    status is a conflict exactly when the first frame is already there. *)
Theorem accept_pcm_contract (channel_count sample_format : Z) (s : input_state)
    (block : apta_pcm_block_t)
    (Hchannels : 1 <= channel_count <= 2) (Hok : input_ok s)
    (Hqueued : 0 <= in_queued_pcm_frames s) (Hblock : block_ok block)
    (Hread : block_readable channel_count sample_format block) :
  exists s' status n,
    apta_internal_waveform_accept_pcm_base allocate fresh channel_count sample_format s block
      = Ret (s', status, n) /\
    input_ok s' /\ accept_post channel_count sample_format block s s' status n.
Proof. by apply accept_pcm_correct. Qed.

End Accept_correct.

Import LP64.

(** Four mono 16-bit frames from frame 8 on, over a table holding [10,20): two
    are new. *)
Definition sample_input : input_state :=
  {| in_coverage :=
       {| cov_ranges := [ {| r_first := 10; r_end := 20 |} ]; cov_count := 1;
          cov_greatest_accepted_end := 0; cov_maximum_accepted_end := 20 |};
     in_pcm := []; in_queued_pcm_frames := 0 |}.

Definition sample_block : apta_pcm_block_t :=
  {| pb_struct_size := 112; pb_api_version := APTA_API_VERSION;
     pb_first_frame := 8; pb_frame_count := 4;
     pb_data := Some [0; 128; 255; 127; 0; 0; 1; 0]; pb_planes := [] |}.

Lemma accept_pcm_contract_witness :
  input_ok sample_input /\ block_ok sample_block /\
  block_readable 1 APTA_SAMPLE_S16_NATIVE_INTERLEAVED sample_block /\
  exists s' status n,
    apta_internal_waveform_accept_pcm_base (fun _ _ => true) {| r_first := 0; r_end := 0 |}
      1 APTA_SAMPLE_S16_NATIVE_INTERLEAVED sample_input sample_block = Ret (s', status, n) /\
    input_ok s' /\ status = APTA_STATUS_MORE_WORK /\ n = 2 /\
    accepted_ranges (in_coverage s') = [ {| r_first := 8; r_end := 20 |} ].
Proof.
  assert (Hok : input_ok sample_input)
    by (split; [constructor; simpl; try done; lia | simpl; lia]).
  assert (Hb : block_ok sample_block) by (unfold block_ok; simpl; lia).
  assert (Hr : block_readable 1 APTA_SAMPLE_S16_NATIVE_INTERLEAVED sample_block)
    by (eexists; split; [reflexivity | vm_compute; congruence]).
  split; [exact Hok|]. split; [exact Hb|]. split; [exact Hr|].
  destruct (accept_pcm_contract (fun _ _ => true) {| r_first := 0; r_end := 0 |}
              1 APTA_SAMPLE_S16_NATIVE_INTERLEAVED sample_input sample_block
              ltac:(lia) Hok ltac:(simpl; lia) Hb Hr) as (s' & status & n & E & Hok' & _).
  exists s', status, n. split; [exact E|]. split; [exact Hok'|].
  vm_compute in E. injection E as <- <- <-. repeat split; reflexivity.
Defined.
