(* ===== verification/Scheduler.v ===== *)
(** * The region-request scheduler (core/apta_session_scheduler.c,
    core/apta_scheduler_policy.c, waveform/apta_waveform_scheduler.c,
    waveform/apta_waveform_process.c, core/apta_session_detail_contract.c)

    A session holds sixteen request slots.  Each decision scores the active
    requests (priority with bounded aging, deadline, order of arrival), sorts a
    copy of the slots, and asks for the first missing frames of the best one. *)

From S2P Require Import Prelude Platform Ranges.

(** ** Requests *)

Inductive apta_request_state_t : Type :=
| APTA_REQUEST_QUEUED
| APTA_REQUEST_WAITING_FOR_PCM
| APTA_REQUEST_RUNNABLE
| APTA_REQUEST_PARTIALLY_SATISFIED
| APTA_REQUEST_SATISFIED
| APTA_REQUEST_CANCELLED
| APTA_REQUEST_FAILED.

Definition request_state_code (s : apta_request_state_t) : Z :=
  match s with
  | APTA_REQUEST_QUEUED => 0
  | APTA_REQUEST_WAITING_FOR_PCM => 1
  | APTA_REQUEST_RUNNABLE => 2
  | APTA_REQUEST_PARTIALLY_SATISFIED => 3
  | APTA_REQUEST_SATISFIED => 4
  | APTA_REQUEST_CANCELLED => 5
  | APTA_REQUEST_FAILED => 6
  end.

Definition state_is (a b : apta_request_state_t) : bool :=
  request_state_code a =? request_state_code b.

Definition APTA_PRIORITY_BACKGROUND : Z := 32.

Record apta_frame_range_t : Type := {
  fr_struct_size : Z;
  fr_api_version : Z;
  fr_first_frame : Z;
  fr_end_frame : Z
}.

Record apta_region_request_t : Type := {
  rr_struct_size : Z;
  rr_api_version : Z;
  rr_range : apta_frame_range_t;
  rr_feature_mask : Z;
  rr_soft_deadline_monotonic_ns : Z;
  rr_request_id : Z;
  rr_priority : Z
}.

Record apta_internal_request_t : Type := {
  ir_request_id : Z;
  ir_request : apta_region_request_t;
  ir_state : apta_request_state_t;
  ir_diagnostic_code : Z;
  ir_scheduler_skip_count : Z;
  ir_scheduler_enqueue_serial : Z
}.

Record apta_focus_t : Type := {
  fo_struct_size : Z;
  fo_api_version : Z;
  fo_playhead_frame : Z;
  fo_lookbehind_frames : Z;
  fo_lookahead_frames : Z;
  fo_feature_mask : Z;
  fo_priority : Z
}.

Record apta_pcm_request_t : Type := {
  pr_range : Z * Z;
  pr_feature_mask : Z;
  pr_priority : Z;
  pr_request_token : Z
}.

(** The fields of [apta_session_t] and its context the scheduler uses;
    [sc_requests] is the array of sixteen slots. *)
Record scheduler : Type := {
  sc_requests : list apta_internal_request_t;
  sc_next_request_id : Z;
  sc_next_scheduler_enqueue_serial : Z;
  sc_focus : option apta_focus_t;
  sc_total_frames : Z;
  sc_requested_features : Z;
  sc_capabilities : Z
}.

Definition with_requests (s : scheduler) (l : list apta_internal_request_t) : scheduler :=
  {| sc_requests := l;
     sc_next_request_id := sc_next_request_id s;
     sc_next_scheduler_enqueue_serial := sc_next_scheduler_enqueue_serial s;
     sc_focus := sc_focus s; sc_total_frames := sc_total_frames s;
     sc_requested_features := sc_requested_features s; sc_capabilities := sc_capabilities s |}.

(** ** Scores *)

Record apta_internal_schedule_score_t : Type := {
  ss_effective_priority : Z;
  ss_request_id : Z;
  ss_soft_deadline_monotonic_ns : Z;
  ss_enqueue_serial : Z
}.

Definition apta_scheduler_request_is_active (r : apta_internal_request_t) : bool :=
  negb (ir_request_id r =? 0) &&
  negb (state_is (ir_state r) APTA_REQUEST_CANCELLED) &&
  negb (state_is (ir_state r) APTA_REQUEST_FAILED) &&
  negb (state_is (ir_state r) APTA_REQUEST_SATISFIED).

Definition apta_internal_scheduler_score_request (r : apta_internal_request_t)
  : apta_internal_schedule_score_t :=
  if negb (apta_scheduler_request_is_active r)
  then {| ss_effective_priority := 0; ss_request_id := 0;
          ss_soft_deadline_monotonic_ns := 0; ss_enqueue_serial := UINT64_MAX |}
  else
    let base_priority := rr_priority (ir_request r) in
    let remaining := u32 (UINT8_MAX - base_priority) in
    let boost := u32 (ir_scheduler_skip_count r * APTA_INTERNAL_SCHEDULER_AGE_STEP) in
    let boost := if remaining <? boost then remaining else boost in
    {| ss_effective_priority := u32 (base_priority + boost);
       ss_request_id := ir_request_id r;
       ss_soft_deadline_monotonic_ns := rr_soft_deadline_monotonic_ns (ir_request r);
       ss_enqueue_serial := ir_scheduler_enqueue_serial r |}.

Definition apta_internal_scheduler_score_better
    (candidate current : apta_internal_schedule_score_t) : bool :=
  if negb (ss_effective_priority candidate =? ss_effective_priority current)
  then ss_effective_priority current <? ss_effective_priority candidate
  else
    let candidate_has_deadline := negb (ss_soft_deadline_monotonic_ns candidate =? 0) in
    let current_has_deadline := negb (ss_soft_deadline_monotonic_ns current =? 0) in
    if xorb candidate_has_deadline current_has_deadline then candidate_has_deadline
    else if candidate_has_deadline &&
            negb (ss_soft_deadline_monotonic_ns candidate =? ss_soft_deadline_monotonic_ns current)
    then ss_soft_deadline_monotonic_ns candidate <? ss_soft_deadline_monotonic_ns current
    else if negb (ss_enqueue_serial candidate =? ss_enqueue_serial current)
    then ss_enqueue_serial candidate <? ss_enqueue_serial current
    else ss_request_id candidate <? ss_request_id current.

Definition set_skip (r : apta_internal_request_t) (n : Z) : apta_internal_request_t :=
  {| ir_request_id := ir_request_id r; ir_request := ir_request r; ir_state := ir_state r;
     ir_diagnostic_code := ir_diagnostic_code r; ir_scheduler_skip_count := n;
     ir_scheduler_enqueue_serial := ir_scheduler_enqueue_serial r |}.

Definition note_choice1 (selected_request_id : Z) (r : apta_internal_request_t)
  : apta_internal_request_t :=
  if negb (apta_scheduler_request_is_active r) then r
  else if ir_request_id r =? selected_request_id then set_skip r 0
  else if ir_scheduler_skip_count r <? APTA_INTERNAL_SCHEDULER_MAX_SKIPS
  then set_skip r (u32 (ir_scheduler_skip_count r + 1))
  else r.

Definition apta_internal_scheduler_note_choice (s : scheduler) (selected_request_id : Z)
  : scheduler :=
  with_requests s (map (note_choice1 selected_request_id) (sc_requests s)).

(** [None] is the refusal for a full serial range. *)
Definition apta_internal_scheduler_register_request (s : scheduler) (r : apta_internal_request_t)
  : result (scheduler * apta_internal_request_t) :=
  bail APTA_ERROR_LIMIT_EXCEEDED when
    (sc_next_scheduler_enqueue_serial s =? UINT64_MAX) in
  let serial := u64 (sc_next_scheduler_enqueue_serial s + 1) in
  Ret ({| sc_requests := sc_requests s; sc_next_request_id := sc_next_request_id s;
          sc_next_scheduler_enqueue_serial := serial;
          sc_focus := sc_focus s; sc_total_frames := sc_total_frames s;
          sc_requested_features := sc_requested_features s;
          sc_capabilities := sc_capabilities s |},
       {| ir_request_id := ir_request_id r; ir_request := ir_request r; ir_state := ir_state r;
          ir_diagnostic_code := ir_diagnostic_code r; ir_scheduler_skip_count := 0;
          ir_scheduler_enqueue_serial := serial |}).

(** ** Requesting, cancelling, asking *)

Definition apta_scheduler_request_id_exists (s : scheduler) (request_id : Z) : bool :=
  if request_id =? 0 then false
  else existsb (fun r => ir_request_id r =? request_id) (sc_requests s).

(** The loop of [apta_scheduler_allocate_request_id] and the counter after it.
    Of 18 consecutive 32-bit numbers one is neither 0 nor in one of the sixteen
    slots, so the [UINT32_MAX] attempts of the code are never used up. *)
Fixpoint allocate_request_id_loop (fuel : nat) (s : scheduler) (next : Z) : Z * Z :=
  match fuel with
  | O => (0, next)
  | S fuel =>
      let candidate := next in
      let next := u32 (next + 1) in
      if candidate =? 0 then allocate_request_id_loop fuel s next
      else if negb (apta_scheduler_request_id_exists s candidate) then (candidate, next)
      else allocate_request_id_loop fuel s next
  end.

Definition apta_scheduler_allocate_request_id (s : scheduler) : Z * scheduler :=
  let '(id, next) := allocate_request_id_loop 18 s (sc_next_request_id s) in
  (id, {| sc_requests := sc_requests s; sc_next_request_id := next;
          sc_next_scheduler_enqueue_serial := sc_next_scheduler_enqueue_serial s;
          sc_focus := sc_focus s; sc_total_frames := sc_total_frames s;
          sc_requested_features := sc_requested_features s;
          sc_capabilities := sc_capabilities s |}).

(** The first free slot. *)
Fixpoint free_slot (l : list apta_internal_request_t) : option nat :=
  match l with
  | [] => None
  | r :: l => if ir_request_id r =? 0 then Some O
              else match free_slot l with Some i => Some (S i) | None => None end
  end.

(** A slot after [memset]. *)
Definition zero_request : apta_internal_request_t :=
  {| ir_request_id := 0;
     ir_request :=
       {| rr_struct_size := 0; rr_api_version := 0;
          rr_range := {| fr_struct_size := 0; fr_api_version := 0;
                         fr_first_frame := 0; fr_end_frame := 0 |};
          rr_feature_mask := 0; rr_soft_deadline_monotonic_ns := 0;
          rr_request_id := 0; rr_priority := 0 |};
     ir_state := APTA_REQUEST_QUEUED; ir_diagnostic_code := 0;
     ir_scheduler_skip_count := 0; ir_scheduler_enqueue_serial := 0 |}.

Section Entry_points.
Context `{Platform}.

Definition range_is_valid (r : apta_frame_range_t) : bool :=
  apta_internal_validate_struct true (sizeof T_frame_range) (fr_struct_size r) (fr_api_version r).

(** [apta_session_request_region] of apta_session_scheduler.c: the session
    after the call, which keeps what the call changed before it failed, and the
    status or the request id. *)
Definition apta_session_request_region_base (s : scheduler) (request : apta_region_request_t)
  : scheduler * result Z :=
  if negb (apta_internal_validate_struct true (sizeof T_region_request)
             (rr_struct_size request) (rr_api_version request)) ||
     negb (range_is_valid (rr_range request))
  then (s, Err APTA_ERROR_INCOMPATIBLE_VERSION)
  else if (fr_end_frame (rr_range request) <=? fr_first_frame (rr_range request)) ||
          (rr_feature_mask request =? 0)
  then (s, Err APTA_ERROR_INVALID_ARGUMENT)
  else if any (rr_feature_mask request) (not64 (sc_capabilities s))
  then (s, Err APTA_ERROR_UNSUPPORTED)
  else if any (rr_feature_mask request) (not64 (sc_requested_features s))
  then (s, Err APTA_ERROR_INVALID_STATE)
  else if negb (rr_request_id request =? 0) &&
          apta_scheduler_request_id_exists s (rr_request_id request)
  then (s, Err APTA_ERROR_CONFLICT)
  else match free_slot (sc_requests s) with
  | None => (s, Err APTA_ERROR_LIMIT_EXCEEDED)
  | Some slot =>
      let '(request_id, s) :=
        if negb (rr_request_id request =? 0) then (rr_request_id request, s)
        else apta_scheduler_allocate_request_id s in
      if request_id =? 0 then (s, Err APTA_ERROR_LIMIT_EXCEEDED)
      else
        let stored := {| ir_request_id := request_id;
                         ir_request :=
                           {| rr_struct_size := rr_struct_size request;
                              rr_api_version := rr_api_version request;
                              rr_range := rr_range request;
                              rr_feature_mask := rr_feature_mask request;
                              rr_soft_deadline_monotonic_ns :=
                                rr_soft_deadline_monotonic_ns request;
                              rr_request_id := request_id;
                              rr_priority := rr_priority request |};
                         ir_state := APTA_REQUEST_QUEUED;
                         ir_diagnostic_code := 0;
                         ir_scheduler_skip_count := 0;
                         ir_scheduler_enqueue_serial := 0 |} in
        match apta_internal_scheduler_register_request s stored with
        | Ret (s, stored) => (with_requests s (<[slot := stored]> (sc_requests s)), Ret request_id)
        | Err e => (with_requests s (<[slot := zero_request]> (sc_requests s)), Err e)
        | Ub => (s, Ub)
        end
  end.

(** The layer of apta_session_detail_contract.c in front of it. *)
Definition apta_session_request_region (s : scheduler) (request : apta_region_request_t)
  : scheduler * result Z :=
  if negb (apta_internal_validate_struct true (sizeof T_region_request)
             (rr_struct_size request) (rr_api_version request))
  then (s, Err APTA_ERROR_INCOMPATIBLE_VERSION)
  else if any (rr_feature_mask request) (not64 (sc_requested_features s))
  then (s, Err APTA_ERROR_INVALID_STATE)
  else apta_session_request_region_base s request.

Definition apta_session_cancel_region_request (s : scheduler) (request_id : Z)
  : result scheduler :=
  bail APTA_ERROR_INVALID_ARGUMENT when (request_id =? 0) in
  match list_find (fun r => ir_request_id r = request_id) (sc_requests s) with
  | None => Err APTA_STATUS_NOT_AVAILABLE
  | Some (slot, r) =>
      Ret (with_requests s
             (<[slot := {| ir_request_id := ir_request_id r; ir_request := ir_request r;
                           ir_state := APTA_REQUEST_CANCELLED;
                           ir_diagnostic_code := ir_diagnostic_code r;
                           ir_scheduler_skip_count := ir_scheduler_skip_count r;
                           ir_scheduler_enqueue_serial := ir_scheduler_enqueue_serial r |}]>
                (sc_requests s)))
  end.

Definition apta_session_set_focus_base (s : scheduler) (focus : apta_focus_t) : result scheduler :=
  bail APTA_ERROR_INCOMPATIBLE_VERSION when
    negb (apta_internal_validate_struct true (sizeof T_focus)
            (fo_struct_size focus) (fo_api_version focus)) in
  bail APTA_ERROR_INVALID_ARGUMENT when
    (fo_playhead_frame focus =? APTA_TOTAL_FRAMES_UNKNOWN) in
  bail APTA_ERROR_UNSUPPORTED when any (fo_feature_mask focus) (not64 (sc_capabilities s)) in
  bail APTA_ERROR_INVALID_ARGUMENT when
    negb (sc_total_frames s =? APTA_TOTAL_FRAMES_UNKNOWN) &&
    (sc_total_frames s <? fo_playhead_frame focus) in
  Ret {| sc_requests := sc_requests s; sc_next_request_id := sc_next_request_id s;
         sc_next_scheduler_enqueue_serial := sc_next_scheduler_enqueue_serial s;
         sc_focus := Some focus; sc_total_frames := sc_total_frames s;
         sc_requested_features := sc_requested_features s; sc_capabilities := sc_capabilities s |}.

Definition apta_session_set_focus (s : scheduler) (focus : apta_focus_t) : result scheduler :=
  bail APTA_ERROR_INCOMPATIBLE_VERSION when
    negb (apta_internal_validate_struct true (sizeof T_focus)
            (fo_struct_size focus) (fo_api_version focus)) in
  bail APTA_ERROR_INVALID_STATE when
    any (fo_feature_mask focus) (not64 (sc_requested_features s)) in
  apta_session_set_focus_base s focus.

(** [satisfied_features] and [progress_permille] of a request. *)
Definition apta_session_get_request_progress (s : scheduler) (request_id : Z)
  : result (apta_request_state_t * Z * Z) :=
  bail APTA_ERROR_INVALID_ARGUMENT when (request_id =? 0) in
  match list_find (fun r => ir_request_id r = request_id) (sc_requests s) with
  | None => Err APTA_STATUS_NOT_AVAILABLE
  | Some (_, r) =>
      Ret (ir_state r,
           (if state_is (ir_state r) APTA_REQUEST_SATISFIED
            then rr_feature_mask (ir_request r) else 0),
           (if state_is (ir_state r) APTA_REQUEST_SATISFIED then 1000
            else if state_is (ir_state r) APTA_REQUEST_PARTIALLY_SATISFIED then 500 else 0))
  end.

End Entry_points.

(** ** Choosing the next PCM to ask for *)

Definition apta_scheduler_request_matches_feature (r : apta_internal_request_t) (feature : Z)
  : bool :=
  if negb (any (rr_feature_mask (ir_request r)) feature) then false
  else negb (ss_request_id (apta_internal_scheduler_score_request r) =? 0).

Definition apta_scheduler_request_better (candidate current : apta_internal_request_t)
    (feature : Z) : bool :=
  let candidate_matches := apta_scheduler_request_matches_feature candidate feature in
  let current_matches := apta_scheduler_request_matches_feature current feature in
  if xorb candidate_matches current_matches then candidate_matches
  else if negb candidate_matches then false
  else apta_internal_scheduler_score_better
         (apta_internal_scheduler_score_request candidate)
         (apta_internal_scheduler_score_request current).

(** The inner loop of the insertion sort: move [candidate] left from
    [position]. *)
Fixpoint sift (a : list apta_internal_request_t) (position : nat)
    (candidate : apta_internal_request_t) (feature : Z) : result (list apta_internal_request_t) :=
  match position with
  | O => arr_put a O candidate
  | S previous =>
      let! p := arr_get a previous in
      if apta_scheduler_request_better candidate p feature
      then let! a := arr_put a position p in sift a previous candidate feature
      else arr_put a position candidate
  end.

(** The outer loop from [index] on, [n] rounds. *)
Fixpoint sort_requests (a : list apta_internal_request_t) (index n : nat) (feature : Z)
  : result (list apta_internal_request_t) :=
  match n with
  | O => Ret a
  | S n =>
      let! candidate := arr_get a index in
      let! a := sift a index candidate feature in
      sort_requests a (S index) n feature
  end.

(** The projection of the effective priority into the staged copy. *)
Definition project_priority (feature : Z) (r : apta_internal_request_t)
  : apta_internal_request_t :=
  if negb (apta_scheduler_request_matches_feature r feature) then r
  else
    {| ir_request_id := ir_request_id r;
       ir_request :=
         {| rr_struct_size := rr_struct_size (ir_request r);
            rr_api_version := rr_api_version (ir_request r);
            rr_range := rr_range (ir_request r);
            rr_feature_mask := rr_feature_mask (ir_request r);
            rr_soft_deadline_monotonic_ns := rr_soft_deadline_monotonic_ns (ir_request r);
            rr_request_id := rr_request_id (ir_request r);
            rr_priority := u8 (ss_effective_priority (apta_internal_scheduler_score_request r)) |};
       ir_state := ir_state r; ir_diagnostic_code := ir_diagnostic_code r;
       ir_scheduler_skip_count := ir_scheduler_skip_count r;
       ir_scheduler_enqueue_serial := ir_scheduler_enqueue_serial r |}.

Definition apta_scheduler_stage_requests (requests : list apta_internal_request_t) (feature : Z)
  : result (list apta_internal_request_t) :=
  let! a := sort_requests requests 1 (length requests - 1) feature in
  Ret (map (project_priority feature) a).

(** The scan over the slots: the target range, priority and token so far. *)
Fixpoint select_request (l : list apta_internal_request_t) (best : Z * Z * Z * Z)
  : Z * Z * Z * Z :=
  match l with
  | [] => best
  | r :: l =>
      let '(target_first, target_end, priority, token) := best in
      if negb (apta_scheduler_request_is_active r) ||
         negb (any (rr_feature_mask (ir_request r)) APTA_FEATURE_WAVEFORM_OVERVIEW)
      then select_request l best
      else if (token =? 0) || (priority <? rr_priority (ir_request r))
      then select_request l
             (fr_first_frame (rr_range (ir_request r)), fr_end_frame (rr_range (ir_request r)),
              rr_priority (ir_request r), ir_request_id r)
      else select_request l best
  end.

(** The focus window, saturating at both ends. *)
Definition focus_window (f : apta_focus_t) : Z * Z :=
  ((if fo_lookbehind_frames f <? fo_playhead_frame f
    then fo_playhead_frame f - fo_lookbehind_frames f else 0),
   (if UINT64_MAX - fo_playhead_frame f <? fo_lookahead_frames f
    then UINT64_MAX else fo_playhead_frame f + fo_lookahead_frames f)).

(** What the call asks for: a request, else the focus, else the track from its
    start (or from the end of what is contiguous when its length is unknown). *)
Definition choose_target (s : scheduler) (c : coverage) : Z * Z * Z * Z :=
  let '(target_first, target_end, priority, token) :=
    select_request (sc_requests s) (0, 0, APTA_PRIORITY_BACKGROUND, 0) in
  let '(target_first, target_end, priority) :=
    match sc_focus s with
    | Some f =>
        if (token =? 0) && any (fo_feature_mask f) APTA_FEATURE_WAVEFORM_OVERVIEW
        then ((focus_window f).1, (focus_window f).2, fo_priority f)
        else (target_first, target_end, priority)
    | None => (target_first, target_end, priority)
    end in
  let '(target_first, target_end) :=
    if target_end <=? target_first
    then if sc_total_frames s =? APTA_TOTAL_FRAMES_UNKNOWN
         then (cov_greatest_accepted_end c,
               if UINT64_MAX - cov_greatest_accepted_end c <? APTA_INTERNAL_MAX_PUSH_FRAMES
               then UINT64_MAX
               else cov_greatest_accepted_end c + APTA_INTERNAL_MAX_PUSH_FRAMES)
         else (0, sc_total_frames s)
    else (target_first, target_end) in
  let target_end :=
    if negb (sc_total_frames s =? APTA_TOTAL_FRAMES_UNKNOWN)
    then apta_min_frame target_end (sc_total_frames s) else target_end in
  (target_first, target_end, priority, token).

Definition apta_internal_waveform_next_pcm_request_base (s : scheduler) (c : coverage)
  : result apta_pcm_request_t :=
  let '(target_first, target_end, priority, token) := choose_target s c in
  match apta_find_missing_range c target_first target_end with
  | None => Err APTA_STATUS_NOT_AVAILABLE
  | Some (missing_first, missing_end) =>
      let missing_end :=
        if APTA_INTERNAL_MAX_PUSH_FRAMES <? missing_end - missing_first
        then missing_first + APTA_INTERNAL_MAX_PUSH_FRAMES else missing_end in
      Ret {| pr_range := (missing_first, missing_end);
             pr_feature_mask := APTA_FEATURE_WAVEFORM_OVERVIEW;
             pr_priority := u8 priority;
             pr_request_token := token |}
  end.

(** The call of apta_waveform_scheduler.c: stage, ask, restore, note. *)
Definition apta_internal_waveform_next_pcm_request (s : scheduler) (c : coverage)
  : scheduler * result apta_pcm_request_t :=
  let saved := sc_requests s in
  match apta_scheduler_stage_requests saved APTA_FEATURE_WAVEFORM_OVERVIEW with
  | Ub => (s, Ub)
  | Err e => (s, Err e)
  | Ret staged =>
      let answer := apta_internal_waveform_next_pcm_request_base (with_requests s staged) c in
      match answer with
      | Ret request =>
          (apta_internal_scheduler_note_choice (with_requests s saved)
             (pr_request_token request), answer)
      | _ => (with_requests s saved, answer)
      end
  end.

(** The feature masks a session accepts (apta_session_detail_contract.c). *)
Definition apta_session_mask_is_coherent (feature_mask : Z) : bool :=
  let waveform_dependency :=
    Z.lor APTA_FEATURE_WAVEFORM_DETAIL (Z.lor APTA_FEATURE_WAVEFORM_3BAND
    (Z.lor APTA_FEATURE_CONFIDENCE
       (Z.lor APTA_INTERNAL_S4_FEATURES APTA_INTERNAL_S6_FEATURES))) in
  if any feature_mask waveform_dependency &&
     negb (any feature_mask APTA_FEATURE_WAVEFORM_OVERVIEW) then false
  else if any feature_mask APTA_FEATURE_LOCAL_BEATGRID && negb (any feature_mask APTA_FEATURE_BPM)
  then false
  else if any feature_mask APTA_FEATURE_GLOBAL_BEATGRID && negb (any feature_mask APTA_FEATURE_BPM)
  then false
  else if any feature_mask APTA_FEATURE_DYNAMIC_TEMPO &&
          negb (any feature_mask APTA_FEATURE_GLOBAL_BEATGRID) then false
  else if any feature_mask APTA_FEATURE_CONFIDENCE &&
          negb (any feature_mask
                  (Z.lor APTA_FEATURE_WAVEFORM_OVERVIEW (Z.lor APTA_FEATURE_BPM
                  (Z.lor APTA_FEATURE_LOCAL_BEATGRID APTA_FEATURE_GLOBAL_BEATGRID)))) then false
  else if any feature_mask APTA_FEATURE_GRID_LOCKING &&
          negb (any feature_mask APTA_FEATURE_LOCAL_BEATGRID) then false
  else true.
