(* ===== verification/SchedulerTheorems.v ===== *)
(** * What the scheduler guarantees

    The documented order of requests is a strict weak order, total on requests
    with different ids; the insertion sort realises it; the PCM demand serves
    the best request; aging is bounded and lets every waiting request reach the
    top priority; request ids are unique. *)

From Stdlib Require Import Bool Sorting.Sorted.
From S2P Require Import Prelude Platform Ranges Scheduler.

(** ** The order as a lexicographic key *)

Record key : Type := {
  k_class : Z; k_priority : Z; k_no_deadline : Z; k_deadline : Z; k_serial : Z; k_id : Z
}.

Definition klt (a b : key) : Prop :=
  k_class a < k_class b \/ k_class a = k_class b /\
  (k_priority b < k_priority a \/ k_priority a = k_priority b /\
  (k_no_deadline a < k_no_deadline b \/ k_no_deadline a = k_no_deadline b /\
  (k_deadline a < k_deadline b \/ k_deadline a = k_deadline b /\
  (k_serial a < k_serial b \/ k_serial a = k_serial b /\ k_id a < k_id b)))).

(** Higher effective priority, then an earlier deadline (none is latest), then
    arrival, then id. *)
Definition score_key (s : apta_internal_schedule_score_t) : key :=
  {| k_class := 0;
     k_priority := ss_effective_priority s;
     k_no_deadline := if ss_soft_deadline_monotonic_ns s =? 0 then 1 else 0;
     k_deadline := ss_soft_deadline_monotonic_ns s;
     k_serial := ss_enqueue_serial s;
     k_id := ss_request_id s |}.

Lemma score_better_key a b :
  apta_internal_scheduler_score_better a b = true <-> klt (score_key a) (score_key b).
Proof.
  unfold apta_internal_scheduler_score_better, klt, score_key. simpl.
  destruct (Z.eqb_spec (ss_effective_priority a) (ss_effective_priority b)); simpl; [|lia].
  destruct (Z.eqb_spec (ss_soft_deadline_monotonic_ns a) 0),
           (Z.eqb_spec (ss_soft_deadline_monotonic_ns b) 0); simpl; try lia.
  - destruct (Z.eqb_spec (ss_enqueue_serial a) (ss_enqueue_serial b)); simpl; lia.
  - destruct (Z.eqb_spec (ss_soft_deadline_monotonic_ns a) (ss_soft_deadline_monotonic_ns b));
      simpl; [|lia].
    destruct (Z.eqb_spec (ss_enqueue_serial a) (ss_enqueue_serial b)); simpl; lia.
Qed.

(** Requests that match a feature, in score order, before those that do not. *)
Definition request_key (feature : Z) (r : apta_internal_request_t) : key :=
  if apta_scheduler_request_matches_feature r feature
  then score_key (apta_internal_scheduler_score_request r)
  else {| k_class := 1; k_priority := 0; k_no_deadline := 0; k_deadline := 0;
          k_serial := 0; k_id := 0 |}.

Lemma request_better_key feature a b :
  apta_scheduler_request_better a b feature = true <->
  klt (request_key feature a) (request_key feature b).
Proof.
  unfold apta_scheduler_request_better, request_key.
  destruct (apta_scheduler_request_matches_feature a feature),
           (apta_scheduler_request_matches_feature b feature); simpl.
  - apply score_better_key.
  - unfold klt. simpl. split; [lia | done].
  - unfold klt. simpl. split; [done | lia].
  - unfold klt. simpl. split; [done | lia].
Qed.

Lemma klt_irrefl a : ~ klt a a.
Proof. unfold klt. lia. Qed.

Lemma klt_trans a b c : klt a b -> klt b c -> klt a c.
Proof. unfold klt. lia. Qed.

(** Not being better is transitive: the order is a weak order. *)
Lemma klt_neg_trans a b c : ~ klt b a -> ~ klt c b -> ~ klt c a.
Proof. unfold klt. lia. Qed.

(** ** The sort *)

(** [a] may stand before [b]. *)
Definition before (feature : Z) (a b : apta_internal_request_t) : Prop :=
  ~ klt (request_key feature b) (request_key feature a).

Lemma sift_spec feature candidate l1 z l2 :
  exists la lb, l1 = la ++ lb /\
    sift (l1 ++ z :: l2) (length l1) candidate feature = Ret (la ++ candidate :: lb ++ l2) /\
    (forall p, last la = Some p -> before feature p candidate) /\
    Forall (fun x => klt (request_key feature candidate) (request_key feature x)) lb.
Proof.
  revert z l2. induction l1 as [|p l1 IH] using rev_ind; intros z l2.
  - exists [], []. by split_and!.
  - rewrite length_app. simpl. rewrite Nat.add_1_r. simpl. rewrite <- app_assoc. simpl.
    rewrite arr_get_middle by done. simpl.
    destruct (apta_scheduler_request_better candidate p feature) eqn:E.
    + apply request_better_key in E.
      replace (l1 ++ p :: z :: l2) with ((l1 ++ [p]) ++ z :: l2) by (by rewrite <- app_assoc).
      rewrite arr_put_middle by (rewrite length_app; simpl; lia). simpl.
      rewrite <- app_assoc. simpl. destruct (IH p (p :: l2)) as (la & lb & -> & Hs & Hl & Hb).
      exists la, (lb ++ [p]). split_and!; [by rewrite app_assoc | | done |].
      * rewrite Hs. by rewrite <- app_assoc.
      * apply Forall_app. by split; [|constructor].
    + exists (l1 ++ [p]), []. split_and!; [by rewrite app_nil_r | | | constructor].
      * replace (l1 ++ p :: z :: l2) with ((l1 ++ [p]) ++ z :: l2) by (by rewrite <- app_assoc).
        by rewrite arr_put_middle by (rewrite length_app; simpl; lia).
      * intros q. rewrite last_snoc. intros [= <-] Hk. apply request_better_key in Hk. congruence.
Qed.

Lemma sorted_app {T} (R : T -> T -> Prop) l1 l2 :
  StronglySorted R (l1 ++ l2) <->
  StronglySorted R l1 /\ StronglySorted R l2 /\ Forall (fun x => Forall (R x) l2) l1.
Proof.
  induction l1 as [|x l1 IH]; simpl.
  - split; [intros; split_and!; [constructor | done | constructor] | tauto].
  - split.
    + intros Hs. inversion Hs; subst. apply IH in H1 as (K1 & K2 & K3).
      apply Forall_app in H2 as [K4 K5]. split_and!; try done; by constructor.
    + intros (K1 & K2 & K3). inversion K1; subst. apply Forall_cons in K3 as [K4 K5].
      constructor; [by apply IH|]. by apply Forall_app.
Qed.

Lemma sorted_insert feature candidate la lb :
  StronglySorted (before feature) (la ++ lb) ->
  (forall p, last la = Some p -> before feature p candidate) ->
  Forall (fun x => klt (request_key feature candidate) (request_key feature x)) lb ->
  StronglySorted (before feature) (la ++ candidate :: lb).
Proof.
  intros Hs Hl Hb. apply sorted_app in Hs as (Ha & Hb' & Hab). apply sorted_app.
  split; [done|]. split.
  - constructor; [done|]. eapply Forall_impl; [exact Hb|]. intros x Hx Hk.
    apply (klt_irrefl (request_key feature x)). by eapply klt_trans; [|exact Hx].
  - rewrite Forall_forall in Hab |- *. intros x Hx. constructor; [|by apply Hab].
    destruct la as [|p la _] using rev_ind; [by apply elem_of_nil in Hx|].
    specialize (Hl p). rewrite last_snoc in Hl. specialize (Hl eq_refl).
    apply sorted_app in Ha as (_ & _ & Ha). rewrite Forall_forall in Ha.
    apply elem_of_app in Hx as [Hx|Hx].
    + specialize (Ha x Hx). rewrite Forall_singleton in Ha. by eapply klt_neg_trans.
    + apply list_elem_of_singleton in Hx as ->. done.
Qed.

Lemma sort_requests_spec feature n : forall l1 l2,
  StronglySorted (before feature) l1 -> length l2 = n ->
  exists a, sort_requests (l1 ++ l2) (length l1) n feature = Ret a /\
    a ≡ₚ l1 ++ l2 /\ StronglySorted (before feature) a.
Proof.
  induction n as [|n IH]; intros l1 l2 Hs Hn; simpl.
  - destruct l2; [|done]. exists l1. by rewrite app_nil_r.
  - destruct l2 as [|z l2]; [done|]. simpl in Hn. rewrite arr_get_middle by done. simpl.
    destruct (sift_spec feature z l1 z l2) as (la & lb & -> & -> & Hl & Hb). simpl.
    destruct (IH (la ++ z :: lb) l2) as (a & Ha & Hp & Hsa); [by apply sorted_insert | lia |].
    replace (S (length (la ++ lb))) with (length (la ++ z :: lb))
      by (rewrite !length_app; simpl; lia).
    replace (la ++ z :: lb ++ l2) with ((la ++ z :: lb) ++ l2) by (by rewrite <- app_assoc).
    exists a. split_and!; try done. rewrite Hp, <- !app_assoc. simpl.
    by rewrite (Permutation_middle lb l2 z).
Qed.

Lemma stage_requests_spec requests feature :
  requests <> [] ->
  exists a, apta_scheduler_stage_requests requests feature =
              Ret (map (project_priority feature) a) /\
    a ≡ₚ requests /\ StronglySorted (before feature) a.
Proof.
  intros Hne. unfold apta_scheduler_stage_requests. destruct requests as [|r l]; [done|].
  destruct (sort_requests_spec feature (length l) [r] l) as (a & Ha & Hp & Hs);
    [by repeat constructor | done |].
  simpl. rewrite Nat.sub_0_r. simpl in Ha. rewrite Ha. simpl. by exists a.
Qed.

(** ** Slots *)

(** What every slot satisfies between calls: the widths of its fields, and the
    aging counter at most 32. *)
Definition slot_ok (r : apta_internal_request_t) : Prop :=
  is_u32 (ir_request_id r) /\ is_u8 (rr_priority (ir_request r)) /\
  0 <= ir_scheduler_skip_count r <= APTA_INTERNAL_SCHEDULER_MAX_SKIPS /\
  (ir_request_id r <> 0 ->
   fr_first_frame (rr_range (ir_request r)) < fr_end_frame (rr_range (ir_request r))).

Definition ids (l : list apta_internal_request_t) : list Z :=
  filter (fun i => i <> 0) (map ir_request_id l).

(** The sixteen slots, with no id used twice. *)
Record scheduler_ok (s : scheduler) : Prop := {
  sk_length : length (sc_requests s) = 16%nat;
  sk_slots : Forall slot_ok (sc_requests s);
  sk_unique : NoDup (ids (sc_requests s));
  sk_serial : is_u64 (sc_next_scheduler_enqueue_serial s);
  sk_next : is_u32 (sc_next_request_id s)
}.

Definition matches (r : apta_internal_request_t) : bool :=
  apta_scheduler_request_matches_feature r APTA_FEATURE_WAVEFORM_OVERVIEW.

Definition effective_priority (r : apta_internal_request_t) : Z :=
  Z.min 255 (rr_priority (ir_request r) + 8 * ir_scheduler_skip_count r).

Lemma score_active r :
  slot_ok r -> apta_scheduler_request_is_active r = true ->
  apta_internal_scheduler_score_request r =
    {| ss_effective_priority := effective_priority r;
       ss_request_id := ir_request_id r;
       ss_soft_deadline_monotonic_ns := rr_soft_deadline_monotonic_ns (ir_request r);
       ss_enqueue_serial := ir_scheduler_enqueue_serial r |}.
Proof.
  intros (_ & Hp & Hs & _) Ha. unfold apta_internal_scheduler_score_request, effective_priority.
  rewrite Ha. unfold is_u8, APTA_INTERNAL_SCHEDULER_MAX_SKIPS, APTA_INTERNAL_SCHEDULER_AGE_STEP in *.
  cbv zeta. simpl negb. cbv iota.
  rewrite (u32_small (UINT8_MAX - _)), (u32_small (_ * 8)) by (unfold is_u32; lia).
  f_equal. destruct (Z.ltb_spec (UINT8_MAX - rr_priority (ir_request r)) (ir_scheduler_skip_count r * 8));
    rewrite u32_small by (unfold is_u32; lia); lia.
Qed.

Lemma active_id r : apta_scheduler_request_is_active r = true -> ir_request_id r <> 0.
Proof.
  unfold apta_scheduler_request_is_active. intros Ha. bool_facts. done.
Qed.

Lemma matches_active r :
  matches r = apta_scheduler_request_is_active r &&
              any (rr_feature_mask (ir_request r)) APTA_FEATURE_WAVEFORM_OVERVIEW.
Proof.
  unfold matches, apta_scheduler_request_matches_feature.
  destruct (any _ _); simpl; [|by rewrite andb_false_r]. rewrite andb_true_r.
  unfold apta_internal_scheduler_score_request.
  destruct (apta_scheduler_request_is_active r) eqn:Ha; simpl; [|done].
  apply active_id in Ha. by destruct (Z.eqb_spec (ir_request_id r) 0).
Qed.

(** The projection changes the priority of the matching requests, nothing else. *)
Lemma project_priority_facts r :
  slot_ok r ->
  let p := project_priority APTA_FEATURE_WAVEFORM_OVERVIEW r in
  apta_scheduler_request_is_active p = apta_scheduler_request_is_active r /\
  rr_feature_mask (ir_request p) = rr_feature_mask (ir_request r) /\
  rr_range (ir_request p) = rr_range (ir_request r) /\ ir_request_id p = ir_request_id r /\
  (matches r = true -> rr_priority (ir_request p) = effective_priority r).
Proof.
  intros Hok. unfold project_priority. fold (matches r).
  destruct (matches r) eqn:Hm; simpl; [|done]. split_and!; try done. intros _.
  rewrite matches_active in Hm. apply andb_true_iff in Hm as [Ha _].
  rewrite score_active by done. simpl. apply u8_small. unfold is_u8, effective_priority.
  destruct Hok as (_ & Hp & Hs & _). unfold is_u8 in Hp. lia.
Qed.

(** ** The scan over the staged slots *)

Definition answer_of (r : apta_internal_request_t) : Z * Z * Z * Z :=
  (fr_first_frame (rr_range (ir_request r)), fr_end_frame (rr_range (ir_request r)),
   effective_priority r, ir_request_id r).

Notation project := (project_priority APTA_FEATURE_WAVEFORM_OVERVIEW).

Lemma select_step r l best :
  slot_ok r ->
  select_request (project r :: map project l) best =
  (let '(_, _, priority, token) := best in
   select_request (map project l)
     (if matches r && ((token =? 0) || (priority <? effective_priority r))
      then answer_of r else best)).
Proof.
  intros Hok. destruct (project_priority_facts r Hok) as (Ha & Hm & Hr & Hi & Hp).
  destruct best as [[[tf te] priority] token]. cbn [select_request].
  rewrite Ha, Hm, Hr, Hi, matches_active. unfold answer_of.
  destruct (apta_scheduler_request_is_active r) eqn:Ea; simpl; [|done].
  destruct (any (rr_feature_mask (ir_request r)) APTA_FEATURE_WAVEFORM_OVERVIEW) eqn:Eo; simpl; [|done].
  rewrite Hp by (by rewrite matches_active, Ea, Eo).
  by destruct ((token =? 0) || (priority <? effective_priority r)).
Qed.

(** Once a request has been taken, the later ones of a sorted table do not
    displace it. *)
Lemma select_keeps l tf te priority token :
  Forall slot_ok l -> token <> 0 ->
  Forall (fun r => matches r = true -> effective_priority r <= priority) l ->
  select_request (map project l) (tf, te, priority, token) = (tf, te, priority, token).
Proof.
  intros Hok Ht Hl. induction l as [|r l IH]; [done|].
  apply Forall_cons in Hok as [Hr Hok], Hl as [Hrp Hl]. cbn [map].
  rewrite (select_step r l (tf, te, priority, token) Hr).
  destruct (matches r) eqn:Em; simpl; [|by apply IH].
  specialize (Hrp eq_refl). destruct (Z.eqb_spec token 0); [done|].
  destruct (Z.ltb_spec priority (effective_priority r)); [lia|]. simpl. by apply IH.
Qed.

Lemma before_priority r r' :
  slot_ok r -> slot_ok r' -> matches r = true -> matches r' = true ->
  before APTA_FEATURE_WAVEFORM_OVERVIEW r r' -> effective_priority r' <= effective_priority r.
Proof.
  intros Hr Hr' Hm Hm' Hb. unfold before, request_key in Hb.
  change (apta_scheduler_request_matches_feature r' APTA_FEATURE_WAVEFORM_OVERVIEW) with (matches r') in Hb.
  change (apta_scheduler_request_matches_feature r APTA_FEATURE_WAVEFORM_OVERVIEW) with (matches r) in Hb.
  rewrite Hm, Hm' in Hb. rewrite matches_active in Hm, Hm'.
  apply andb_true_iff in Hm as [Ha _], Hm' as [Ha' _].
  rewrite !score_active in Hb by done. unfold klt, score_key in Hb. simpl in Hb. lia.
Qed.

Lemma select_sorted l :
  Forall slot_ok l -> StronglySorted (before APTA_FEATURE_WAVEFORM_OVERVIEW) l ->
  match select_request (map project l) (0, 0, APTA_PRIORITY_BACKGROUND, 0) with
  | (tf, te, priority, token) =>
      (token = 0 /\ Forall (fun r => matches r = false) l /\
       (tf, te, priority) = (0, 0, APTA_PRIORITY_BACKGROUND)) \/
      (exists r, r ∈ l /\ matches r = true /\ (tf, te, priority, token) = answer_of r /\
         Forall (before APTA_FEATURE_WAVEFORM_OVERVIEW r) l)
  end.
Proof.
  intros Hok Hs. induction Hs as [|r l Hs IH Hr]; [by left|].
  apply Forall_cons in Hok as [Hrok Hok]. cbn [map].
  rewrite (select_step r l (0, 0, APTA_PRIORITY_BACKGROUND, 0) Hrok). simpl.
  destruct (matches r) eqn:Em; simpl.
  - pose proof Em as Ha. rewrite matches_active in Ha. apply andb_true_iff in Ha as [Ha _].
    unfold answer_of at 1. rewrite select_keeps; [|done|by apply active_id|].
    + right. exists r. split_and!; [by left | done | done |].
      constructor; [apply klt_irrefl | done].
    + rewrite Forall_forall in *. intros r' Hin Hm'. by apply before_priority; auto.
  - destruct (select_request (map project l) (0, 0, APTA_PRIORITY_BACKGROUND, 0)) as [[[tf te] pr] tk].
    destruct (IH Hok) as [(-> & Hl & He)|(r' & Hin & Hm' & He & Hb)]; [left | exfalso].
    + split_and!; try done. by constructor.
    + rewrite Forall_forall in Hr. apply (Hr r' Hin). unfold request_key.
      change (apta_scheduler_request_matches_feature r' APTA_FEATURE_WAVEFORM_OVERVIEW) with (matches r').
      change (apta_scheduler_request_matches_feature r APTA_FEATURE_WAVEFORM_OVERVIEW) with (matches r).
      rewrite Em, Hm'. unfold klt. simpl. lia.
Qed.

(** ** The PCM demand *)

Lemma with_same_requests s : with_requests s (sc_requests s) = s.
Proof. by destruct s. Qed.

Definition served (s : scheduler) (c : coverage) (q : apta_pcm_request_t) : Prop :=
  let '(a, b) := pr_range q in
  exists r, r ∈ sc_requests s /\ matches r = true /\
    ir_request_id r = pr_request_token q /\ pr_priority q = effective_priority r /\
    Forall (before APTA_FEATURE_WAVEFORM_OVERVIEW r) (sc_requests s) /\
    fr_first_frame (rr_range (ir_request r)) <= a /\ b <= fr_end_frame (rr_range (ir_request r)) /\
    (forall f, fr_first_frame (rr_range (ir_request r)) <= f < a -> covered (accepted_ranges c) f).

(** The target of a decision over the staged slots. *)
Lemma choose_target_cases s c a :
  Forall slot_ok a -> StronglySorted (before APTA_FEATURE_WAVEFORM_OVERVIEW) a ->
  let '(tf, te, priority, token) := choose_target (with_requests s (map project a)) c in
  (token = 0 /\ Forall (fun r => matches r = false) a) \/
  (exists r, r ∈ a /\ matches r = true /\ token = ir_request_id r /\
     priority = effective_priority r /\ tf = fr_first_frame (rr_range (ir_request r)) /\
     te <= fr_end_frame (rr_range (ir_request r)) /\
     Forall (before APTA_FEATURE_WAVEFORM_OVERVIEW r) a).
Proof.
  intros Hok Hs. unfold choose_target. cbn [sc_requests with_requests sc_focus sc_total_frames].
  pose proof (select_sorted a Hok Hs) as Hsel.
  destruct (select_request (map project a) _) as [[[tf te] priority] token].
  destruct Hsel as [(-> & Hn & He)|(r & Hr & Hm & He & Hb)].
  - destruct (match sc_focus s with Some _ => _ | None => _ end) as [[tf' te'] pr'].
    destruct (if te' <=? tf' then _ else _) as [tf2 te2]. by left.
  - unfold answer_of in He. injection He as -> -> -> ->.
    pose proof Hm as Ha. rewrite matches_active in Ha. apply andb_true_iff in Ha as [Ha _].
    apply active_id in Ha. rewrite Forall_forall in Hok. pose proof (Hok r Hr) as (_ & _ & _ & Hrange).
    specialize (Hrange Ha).
    assert (Hf : match sc_focus s with
                 | Some f =>
                     if (ir_request_id r =? 0) && any (fo_feature_mask f) APTA_FEATURE_WAVEFORM_OVERVIEW
                     then ((focus_window f).1, (focus_window f).2, fo_priority f)
                     else (fr_first_frame (rr_range (ir_request r)),
                           fr_end_frame (rr_range (ir_request r)), effective_priority r)
                 | None => (fr_first_frame (rr_range (ir_request r)),
                            fr_end_frame (rr_range (ir_request r)), effective_priority r)
                 end = (fr_first_frame (rr_range (ir_request r)),
                        fr_end_frame (rr_range (ir_request r)), effective_priority r)).
    { destruct (sc_focus s); [|done]. by destruct (Z.eqb_spec (ir_request_id r) 0). }
    rewrite Hf.
    destruct (Z.leb_spec (fr_end_frame (rr_range (ir_request r)))
                (fr_first_frame (rr_range (ir_request r)))); [lia|].
    right. exists r. split_and!; try done. destruct (negb _); [|lia]. unfold apta_min_frame.
    destruct (Z.ltb_spec (fr_end_frame (rr_range (ir_request r))) (sc_total_frames s)); lia.
Qed.

Lemma base_request_spec s c :
  table_ok c ->
  let '(tf, te, priority, token) := choose_target s c in
  match apta_internal_waveform_next_pcm_request_base s c with
  | Ret q =>
      let '(a, b) := pr_range q in
      tf <= a /\ a < b /\ b <= te /\ b <= a + APTA_INTERNAL_MAX_PUSH_FRAMES /\
      (forall f, tf <= f < a -> covered (accepted_ranges c) f) /\
      (forall f, a <= f < b -> ~ covered (accepted_ranges c) f) /\
      pr_request_token q = token /\ pr_priority q = u8 priority
  | Err e => e = APTA_STATUS_NOT_AVAILABLE /\
             (forall f, tf <= f < te -> covered (accepted_ranges c) f)
  | Ub => False
  end.
Proof.
  intros Hok. unfold apta_internal_waveform_next_pcm_request_base.
  destruct (choose_target s c) as [[[tf te] priority] token].
  pose proof (find_missing_spec (accepted_ranges c) 0 tf te (tk_gaps _ Hok)) as Hm.
  unfold apta_find_missing_range. destruct (find_missing_loop _ _ _) as [[a b]|]; [|done].
  destruct Hm as (M1 & M2 & M3 & M4 & _). unfold APTA_INTERNAL_MAX_PUSH_FRAMES in *. simpl.
  destruct (Z.ltb_spec 4096 (b - a)); split_and!; try done; try lia;
    intros f Hf; apply M4; lia.
Qed.

(** C10. The documented scheduling order, end to end: a PCM demand is made for the
    best active request that wants the overview (no other one is better by
    priority with aging, deadline, arrival, id), carries its id and its
    effective priority, and names the first missing frames of its range, at most
    4096; the focus and the sequential fallback are used only when no request
    wants the overview.  The slots come back as they were, aging apart, and the
    decision is counted; when there is nothing to ask for, nothing changes. *)
Theorem next_pcm_request_serves_best (s : scheduler) (c : coverage)
    (Hs : scheduler_ok s) (Hc : table_ok c) :
  let '(s', answer) := apta_internal_waveform_next_pcm_request s c in
  match answer with
  | Ret q =>
      let '(a, b) := pr_range q in
      a < b <= a + APTA_INTERNAL_MAX_PUSH_FRAMES /\
      (forall f, a <= f < b -> ~ covered (accepted_ranges c) f) /\
      s' = apta_internal_scheduler_note_choice s (pr_request_token q) /\
      (served s c q \/
       pr_request_token q = 0 /\ Forall (fun r => matches r = false) (sc_requests s))
  | Err e => e = APTA_STATUS_NOT_AVAILABLE /\ s' = s
  | Ub => False
  end.
Proof.
  destruct Hs as [Hlen Hslots _ _ _]. unfold apta_internal_waveform_next_pcm_request.
  destruct (stage_requests_spec (sc_requests s) APTA_FEATURE_WAVEFORM_OVERVIEW)
    as (a & -> & Hperm & Hsorted); [by destruct (sc_requests s)|].
  assert (Ha : Forall slot_ok a) by (by rewrite Hperm).
  pose proof (choose_target_cases s c a Ha Hsorted) as Ht.
  pose proof (base_request_spec (with_requests s (map project a)) c Hc) as Hb.
  destruct (choose_target _ c) as [[[tf te] priority] token].
  rewrite with_same_requests.
  destruct (apta_internal_waveform_next_pcm_request_base _ c) as [q|e|]; [|by destruct Hb|done].
  unfold served. destruct (pr_range q) as [m n]. destruct Hb as (B1 & B2 & B3 & B4 & B5 & B6 & -> & ->).
  split; [lia|]. split; [done|]. split; [done|].
  destruct Ht as [(-> & Hn)|(r & Hr & Hm & -> & -> & -> & Hte & Hbest)].
  - right. split; [done|]. by rewrite <- Hperm.
  - left. exists r. rewrite Hperm in Hr. split_and!; try done; [|by rewrite <- Hperm | lia].
    rewrite Forall_forall in Hslots. destruct (Hslots r Hr) as (_ & Hp & Hsk & _).
    apply u8_small. unfold is_u8, effective_priority in *. lia.
Qed.

(** ** Aging *)

Lemma note_choice_other sel r :
  slot_ok r -> apta_scheduler_request_is_active r = true -> ir_request_id r <> sel ->
  note_choice1 sel r = set_skip r (Z.min 32 (ir_scheduler_skip_count r + 1)).
Proof.
  intros (_ & _ & Hs & _) Ha Hne. unfold note_choice1. rewrite Ha. simpl.
  unfold APTA_INTERNAL_SCHEDULER_MAX_SKIPS in *.
  destruct (Z.eqb_spec (ir_request_id r) sel); [done|].
  destruct (Z.ltb_spec (ir_scheduler_skip_count r) 32).
  - rewrite u32_small by (unfold is_u32; lia). f_equal. lia.
  - destruct r. unfold set_skip. simpl in *. f_equal. lia.
Qed.

Lemma set_skip_ok r n : slot_ok r -> 0 <= n <= 32 -> slot_ok (set_skip r n).
Proof. by intros (? & ? & ? & ?) ?. Qed.

Lemma skips_after r selections :
  slot_ok r -> apta_scheduler_request_is_active r = true -> Forall (fun i => ir_request_id r <> i) selections ->
  fold_left (fun r i => note_choice1 i r) selections r =
    set_skip r (Z.min 32 (ir_scheduler_skip_count r + Z.of_nat (length selections))).
Proof.
  revert r. induction selections as [|i sel IH]; intros r Hok Hactive Hlost; simpl.
  - destruct Hok as (_ & _ & Hs & _). unfold APTA_INTERNAL_SCHEDULER_MAX_SKIPS in Hs.
    destruct r. unfold set_skip. simpl in *. f_equal. lia.
  - apply Forall_cons in Hlost as [Hi Hlost]. rewrite note_choice_other by done.
    pose proof Hok as (_ & _ & Hs & _). unfold APTA_INTERNAL_SCHEDULER_MAX_SKIPS in Hs.
    rewrite IH; [| apply set_skip_ok; [done | lia] | done | done].
    unfold set_skip. simpl. f_equal. lia.
Qed.

(** A slot after the decisions of a session. *)
Lemma decisions_slot s slot r selections : sc_requests s !! slot = Some r ->
  sc_requests (fold_left apta_internal_scheduler_note_choice selections s) !! slot =
    Some (fold_left (fun r i => note_choice1 i r) selections r).
Proof.
  revert s r. induction selections as [|i sel IH]; intros s r Hr; [done|]. cbn [fold_left]. apply IH.
  cbn [apta_internal_scheduler_note_choice with_requests sc_requests].
  change (map (note_choice1 i) (sc_requests s)) with (note_choice1 i <$> sc_requests s). by rewrite list_lookup_fmap, Hr.
Qed.

Lemma score_at_most_255 r : slot_ok r -> ss_effective_priority (apta_internal_scheduler_score_request r) <= 255.
Proof.
  intros Hr. destruct (apta_scheduler_request_is_active r) eqn:Ha.
  - rewrite score_active by done. simpl. unfold effective_priority. lia.
  - unfold apta_internal_scheduler_score_request. rewrite Ha. simpl. lia.
Qed.

(** C35. Bounded aging.  While a request stays active in its slot and the session
    decides [n] times for others, its score has the effective priority
    min(255, base + 8 min(32, skips + n)) and its request is unchanged.  After 32 lost
    decisions that is 255, and only a request that also has 255 can be better; being
    chosen puts the score back to the base priority. *)
Theorem aging_reaches_the_top (s : scheduler) (slot : nat) (r : apta_internal_request_t) (selections : list Z)
    (Hslot : sc_requests s !! slot = Some r)
    (Hok : slot_ok r) (Hactive : apta_scheduler_request_is_active r = true)
    (Hlost : Forall (fun i => ir_request_id r <> i) selections) :
  let s' := fold_left apta_internal_scheduler_note_choice selections s in
  let score := apta_internal_scheduler_score_request in
  let n := Z.of_nat (length selections) in
  exists r', sc_requests s' !! slot = Some r' /\ ir_request r' = ir_request r /\ ir_request_id r' = ir_request_id r /\
    ss_effective_priority (score r') =
      Z.min 255 (rr_priority (ir_request r) + 8 * Z.min 32 (ir_scheduler_skip_count r + n)) /\
    (32 <= n -> ss_effective_priority (score r') = 255 /\
       forall r2, slot_ok r2 -> apta_internal_scheduler_score_better (score r2) (score r') = true ->
         ss_effective_priority (score r2) = 255) /\
    exists r'', sc_requests (apta_internal_scheduler_note_choice s' (ir_request_id r)) !! slot = Some r'' /\
      ss_effective_priority (score r'') = rr_priority (ir_request r).
Proof.
  intros s' score n. pose proof (decisions_slot s slot r selections Hslot) as Hr'.
  rewrite skips_after in Hr' by done. fold s' in Hr'. fold n in Hr'.
  pose proof Hok as (_ & Hp & Hs & _). unfold is_u8, APTA_INTERNAL_SCHEDULER_MAX_SKIPS in *.
  set (r' := set_skip r (Z.min 32 (ir_scheduler_skip_count r + n))) in *.
  assert (Hn : 0 <= n) by lia. assert (Hok' : slot_ok r') by (apply set_skip_ok; [done|lia]).
  assert (Hscore : ss_effective_priority (score r') =
    Z.min 255 (rr_priority (ir_request r) + 8 * Z.min 32 (ir_scheduler_skip_count r + n))) by (unfold score; by rewrite score_active).
  exists r'. split_and!; try done.
  - intros H32. rewrite Hscore. split; [lia|]. intros r2 H2. unfold apta_internal_scheduler_score_better. rewrite Hscore.
    pose proof (score_at_most_255 r2 H2) as Hle. fold (score r2) in Hle.
    destruct (Z.eqb_spec (ss_effective_priority (score r2))
      (Z.min 255 (rr_priority (ir_request r) + 8 * Z.min 32 (ir_scheduler_skip_count r + n)))) as [->|]; cbn [negb]; intros Hb; lia.
  - exists (set_skip r' 0). split.
    + transitivity (Some (note_choice1 (ir_request_id r) r')); [exact (decisions_slot s' slot r' [ir_request_id r] Hr')|]. unfold note_choice1.
      change (apta_scheduler_request_is_active r') with (apta_scheduler_request_is_active r). rewrite Hactive. simpl.
      by rewrite Z.eqb_refl.
    + unfold score. rewrite score_active; [unfold effective_priority; simpl; lia|by apply set_skip_ok; [|lia]|exact Hactive].
Qed.

(** ** Request ids *)

Definition bad_ids (s : scheduler) : list Z := 0 :: map ir_request_id (sc_requests s).

Lemma id_exists_spec s i :
  apta_scheduler_request_id_exists s i = true <-> i <> 0 /\ i ∈ map ir_request_id (sc_requests s).
Proof.
  unfold apta_scheduler_request_id_exists. destruct (Z.eqb_spec i 0) as [->|Hi].
  - split; [done | by intros []].
  - rewrite existsb_exists. split.
    + intros (r & Hr & Hri). split; [done|]. apply Z.eqb_eq in Hri as <-.
      apply list_elem_of_fmap. exists r. split; [done|]. by apply list_elem_of_In.
    + intros [_ Hin]. apply list_elem_of_fmap in Hin as (r & -> & Hr).
      exists r. split; [by apply list_elem_of_In | apply Z.eqb_refl].
Qed.

Lemma allocate_loop_spec s fuel next :
  is_u32 next ->
  let '(id, next') := allocate_request_id_loop fuel s next in
  is_u32 next' /\
  ((id <> 0 /\ is_u32 id /\ apta_scheduler_request_id_exists s id = false) \/
   (id = 0 /\ forall i, 0 <= i < Z.of_nat fuel -> u32 (next + i) ∈ bad_ids s)).
Proof.
  revert next. induction fuel as [|fuel IH]; intros next Hn; simpl.
  - split; [done|]. right. split; [done|]. intros i Hi. lia.
  - specialize (IH (u32 (next + 1)) (u32_range _)).
    assert (Hshift : forall i, 0 < i -> u32 (u32 (next + 1) + (i - 1)) = u32 (next + i)).
    { intros i Hi. unfold u32. rewrite Zplus_mod_idemp_l. f_equal. lia. }
    assert (Hcase : next ∈ bad_ids s ->
              (let '(id, next') := allocate_request_id_loop fuel s (u32 (next + 1)) in
               is_u32 next' /\
               ((id <> 0 /\ is_u32 id /\ apta_scheduler_request_id_exists s id = false) \/
                (id = 0 /\ forall i, 0 <= i < Z.of_nat (S fuel) -> u32 (next + i) ∈ bad_ids s)))).
    { intros Hb. destruct (allocate_request_id_loop fuel s (u32 (next + 1))) as [id next'].
      destruct IH as [Hn' [Hid|[Hid Hall]]]; (split; [done|]); [by left|]. right. split; [done|].
      intros i Hi. destruct (Z.eq_dec i 0) as [->|].
      - by rewrite Z.add_0_r, u32_small.
      - rewrite <- Hshift by lia. apply Hall. lia. }
    destruct (Z.eqb_spec next 0) as [->|Hnz]; [apply Hcase; by left|].
    destruct (apta_scheduler_request_id_exists s next) eqn:E; simpl.
    + apply Hcase. apply id_exists_spec in E as [_ E]. by right.
    + split; [apply u32_range|]. by left.
Qed.

(** Eighteen consecutive numbers cannot all be taken. *)
Lemma allocate_request_id_fresh s :
  length (sc_requests s) = 16%nat -> is_u32 (sc_next_request_id s) ->
  let '(id, s') := apta_scheduler_allocate_request_id s in
  id <> 0 /\ is_u32 id /\ apta_scheduler_request_id_exists s id = false /\
  is_u32 (sc_next_request_id s') /\ sc_requests s' = sc_requests s /\
  sc_next_scheduler_enqueue_serial s' = sc_next_scheduler_enqueue_serial s /\
  sc_requested_features s' = sc_requested_features s /\ sc_capabilities s' = sc_capabilities s.
Proof.
  intros Hlen Hn. unfold apta_scheduler_allocate_request_id.
  pose proof (allocate_loop_spec s 18 _ Hn) as Hl.
  destruct (allocate_request_id_loop 18 s (sc_next_request_id s)) as [id next'].
  destruct Hl as [Hn' [(H1 & H2 & H3)|[-> Hall]]]; [by split_and!|]. exfalso.
  set (cands := map (fun i => u32 (sc_next_request_id s + i)) (seqZ 0 18)).
  assert (Hnd : NoDup cands).
  { apply NoDup_fmap_2_strong; [|apply NoDup_seqZ].
    intros i j Hi Hj E. apply elem_of_seqZ in Hi, Hj. unfold u32 in E.
    assert (Hd : (4294967296 | (sc_next_request_id s + i) - (sc_next_request_id s + j))).
    { apply Z.mod_divide; [lia|]. rewrite Zminus_mod, E, Z.sub_diag. done. }
    destruct Hd as [k Hk]. lia. }
  assert (Hsub : cands ⊆+ bad_ids s).
  { apply NoDup_submseteq; [done|]. intros x Hx.
    apply list_elem_of_fmap in Hx as (i & -> & Hi). apply elem_of_seqZ in Hi. apply Hall. lia. }
  apply submseteq_length in Hsub. unfold cands, bad_ids in Hsub.
  rewrite length_map, length_seqZ in Hsub. simpl in Hsub. rewrite length_map in Hsub. lia.
Qed.

Lemma free_slot_spec l i :
  free_slot l = Some i -> exists l1 r l2, l = l1 ++ r :: l2 /\ length l1 = i /\ ir_request_id r = 0.
Proof.
  revert i. induction l as [|r l IH]; intros i; simpl; [done|].
  destruct (Z.eqb_spec (ir_request_id r) 0).
  - intros [= <-]. by exists [], r, l.
  - destruct (free_slot l) as [j|]; [|done]. intros [= <-].
    destruct (IH j eq_refl) as (l1 & q & l2 & -> & <- & Hq). by exists (r :: l1), q, l2.
Qed.

Lemma free_slot_None l :
  free_slot l = None <-> length (ids l) = length l.
Proof.
  unfold ids. induction l as [|r l IH]; simpl; [done|].
  destruct (Z.eqb_spec (ir_request_id r) 0) as [E|E].
  - rewrite filter_cons_False by (rewrite E; tauto). split; [done|].
    intros Hl. pose proof (length_filter (fun i => i <> 0) (map ir_request_id l)) as Hf.
    rewrite length_map in Hf. lia.
  - rewrite filter_cons_True by done. simpl. destruct (free_slot l); split; intros Hx; try done.
    + injection Hx as Hx. by apply IH in Hx.
    + f_equal. by apply IH.
Qed.

Lemma ids_app l1 l2 : ids (l1 ++ l2) = ids l1 ++ ids l2.
Proof. unfold ids. by rewrite map_app, filter_app. Qed.

Lemma ids_cons r l : ids (r :: l) = (if ir_request_id r =? 0 then [] else [ir_request_id r]) ++ ids l.
Proof.
  unfold ids. simpl. destruct (Z.eqb_spec (ir_request_id r) 0).
  - rewrite filter_cons_False; [done | tauto].
  - by rewrite filter_cons_True.
Qed.

(** Filling a free slot. *)
Lemma fill_slot s i r' :
  scheduler_ok s -> free_slot (sc_requests s) = Some i -> slot_ok r' -> ir_request_id r' <> 0 ->
  apta_scheduler_request_id_exists s (ir_request_id r') = false ->
  let l := <[i := r']> (sc_requests s) in
  length l = 16%nat /\ Forall slot_ok l /\ NoDup (ids l) /\
  ids l ≡ₚ ir_request_id r' :: ids (sc_requests s).
Proof.
  intros [Hlen Hsl Hu _ _] Hf Hr' Hid Hfresh l.
  apply free_slot_spec in Hf as (l1 & r & l2 & Heq & <- & Hr).
  assert (Hl : l = l1 ++ r' :: l2).
  { subst l. rewrite Heq, insert_app_r_alt, Nat.sub_diag by lia. done. }
  assert (Hids : ids l ≡ₚ ir_request_id r' :: ids (sc_requests s)).
  { rewrite Hl, Heq, !ids_app, !ids_cons, Hr. simpl.
    destruct (Z.eqb_spec (ir_request_id r') 0); [done|]. simpl. by rewrite <- Permutation_middle. }
  split; [subst l; by rewrite length_insert|]. split; [|split; [|done]].
  - rewrite Hl. rewrite Heq in Hsl. apply Forall_app in Hsl as [H1 H2].
    apply Forall_cons in H2 as [_ H2]. apply Forall_app. split; [done|]. by constructor.
  - rewrite Hids. apply NoDup_cons. split; [|done]. intros Hin.
    apply list_elem_of_filter in Hin as [_ Hin].
    assert (Ht : apta_scheduler_request_id_exists s (ir_request_id r') = true)
      by (by apply id_exists_spec). congruence.
Qed.

(** Zeroing a free slot. *)
Lemma clear_slot s i :
  scheduler_ok s -> free_slot (sc_requests s) = Some i ->
  let l := <[i := zero_request]> (sc_requests s) in
  length l = 16%nat /\ Forall slot_ok l /\ ids l = ids (sc_requests s).
Proof.
  intros [Hlen Hsl _ _ _] Hf l. apply free_slot_spec in Hf as (l1 & r & l2 & Heq & <- & Hr).
  assert (Hl : l = l1 ++ zero_request :: l2).
  { subst l. rewrite Heq, insert_app_r_alt, Nat.sub_diag by lia. done. }
  split; [subst l; by rewrite length_insert|]. split.
  - rewrite Hl. rewrite Heq in Hsl. apply Forall_app in Hsl as [H1 H2].
    apply Forall_cons in H2 as [_ H2]. apply Forall_app. split; [done|]. constructor; [|done].
    unfold slot_ok, is_u32, is_u8, APTA_INTERNAL_SCHEDULER_MAX_SKIPS. simpl. split_and!; lia || done.
  - by rewrite Hl, Heq, !ids_app, !ids_cons, Hr.
Qed.

(** A request as its C structure can hold it. *)
Definition request_in_range (r : apta_region_request_t) : Prop :=
  is_u32 (rr_request_id r) /\ is_u8 (rr_priority r).

Section Region.
Context `{PlatformLaws}.

(** The id of a new request, chosen by the caller or the session. *)
Lemma choose_id s request :
  scheduler_ok s -> request_in_range request ->
  (rr_request_id request = 0 \/
   apta_scheduler_request_id_exists s (rr_request_id request) = false) ->
  let '(id, s1) := if negb (rr_request_id request =? 0) then (rr_request_id request, s)
                   else apta_scheduler_allocate_request_id s in
  id <> 0 /\ is_u32 id /\ apta_scheduler_request_id_exists s id = false /\
  sc_requests s1 = sc_requests s /\ scheduler_ok s1 /\
  sc_next_scheduler_enqueue_serial s1 = sc_next_scheduler_enqueue_serial s /\
  (rr_request_id request <> 0 -> id = rr_request_id request).
Proof.
  intros Hs [Hr _] Hex. destruct (Z.eqb_spec (rr_request_id request) 0) as [E|E]; simpl.
  - pose proof (allocate_request_id_fresh s (sk_length _ Hs) (sk_next _ Hs)) as Ha.
    destruct (apta_scheduler_allocate_request_id s) as [id s1].
    destruct Ha as (A1 & A2 & A3 & A4 & A5 & A6 & _). split_and!; try done.
    destruct Hs. constructor; rewrite ?A5, ?A6; done.
  - destruct Hex as [|Hex]; [done|]. by split_and!.
Qed.

(** The requests in the slots were registered with serials the counter has passed. *)
Definition queue_ok (s : scheduler) : Prop :=
  Forall (fun r => ir_request_id r <> 0 -> ir_scheduler_enqueue_serial r <= sc_next_scheduler_enqueue_serial s)
    (sc_requests s).

(** The free slot is filled and the counter advances past every serial in use. *)
Definition registered (s s' : scheduler) (request : apta_region_request_t) (id : Z) : Prop :=
  exists slot r, free_slot (sc_requests s) = Some slot /\
    sc_requests s' = <[slot := r]> (sc_requests s) /\
    ir_request_id r = id /\ ir_state r = APTA_REQUEST_QUEUED /\
    rr_range (ir_request r) = rr_range request /\
    rr_feature_mask (ir_request r) = rr_feature_mask request /\
    rr_priority (ir_request r) = rr_priority request /\
    ir_scheduler_skip_count r = 0 /\
    sc_next_scheduler_enqueue_serial s' = sc_next_scheduler_enqueue_serial s + 1 /\
    ir_scheduler_enqueue_serial r = sc_next_scheduler_enqueue_serial s'.

(** What the serials of the slots are after a call. *)
Lemma registered_queue s s' request id : queue_ok s -> registered s s' request id ->
  queue_ok s' /\ forall slot r, free_slot (sc_requests s) = Some slot -> sc_requests s' !! slot = Some r ->
    Forall (fun r0 => ir_request_id r0 <> 0 -> ir_scheduler_enqueue_serial r0 < ir_scheduler_enqueue_serial r) (sc_requests s).
Proof.
  unfold queue_ok. intros Hq (slot & r & Hf & Hl & _ & _ & _ & _ & _ & _ & Hc & Hr). rewrite Hl. split.
  - apply Forall_insert.
    + eapply Forall_impl; [exact Hq|]. simpl. intros r0 Hr0 Hne. specialize (Hr0 Hne). lia.
    + intros _. lia.
  - intros slot' r' Hf' Hl'. rewrite Hf in Hf'. injection Hf' as <-.
    apply free_slot_spec in Hf as (l1 & x & l2 & Heq & <- & _).
    rewrite list_lookup_insert_eq in Hl' by (rewrite Heq, length_app; simpl; lia). injection Hl' as <-.
    eapply Forall_impl; [exact Hq|]. simpl. intros r0 Hr0 Hne. specialize (Hr0 Hne). lia.
Qed.

Lemma request_region_base_spec s request :
  scheduler_ok s -> request_in_range request ->
  let '(s', r) := apta_session_request_region_base s request in
  scheduler_ok s' /\
  match r with
  | Ret id => id <> 0 /\ id ∉ ids (sc_requests s) /\
              (rr_request_id request <> 0 -> id = rr_request_id request) /\
              ids (sc_requests s') ≡ₚ id :: ids (sc_requests s) /\
              registered s s' request id
  | Err e => is_error e = true /\ ids (sc_requests s') = ids (sc_requests s) /\ (queue_ok s -> queue_ok s')
  | Ub => False
  end.
Proof.
  intros Hs Hr. unfold apta_session_request_region_base.
  destruct (negb _ || _); [done|].
  destruct ((fr_end_frame (rr_range request) <=? fr_first_frame (rr_range request)) || _) eqn:Erange;
    [done|]. bool_facts.
  destruct (any _ _); [done|]. destruct (any _ _); [done|].
  destruct (negb (rr_request_id request =? 0) && _) eqn:Eex; [done|].
  destruct (free_slot (sc_requests s)) as [slot|] eqn:Ef; [|done].
  assert (Hex : rr_request_id request = 0 \/
                apta_scheduler_request_id_exists s (rr_request_id request) = false).
  { destruct (Z.eqb_spec (rr_request_id request) 0); [by left|]. by right. }
  pose proof (choose_id s request Hs Hr Hex) as Hid.
  destruct (if negb (rr_request_id request =? 0) then _ else _) as [id s1].
  destruct Hid as (I1 & I2 & I3 & I4 & I5 & I6 & I7).
  destruct (Z.eqb_spec id 0); [done|]. unfold apta_internal_scheduler_register_request.
  destruct I5 as [_ _ _ J4 J5].
  destruct (Z.eqb_spec (sc_next_scheduler_enqueue_serial s1) UINT64_MAX) as [Emax|Emax].
  - destruct (clear_slot s slot Hs Ef) as (C1 & C2 & C3). rewrite I4.
    split; [|split; [done | split; [exact C3|]]].
    2: { unfold queue_ok. cbn [with_requests sc_requests sc_next_scheduler_enqueue_serial]. rewrite I6. intros Hq.
         apply Forall_insert; [exact Hq|]. by intros []. }
    constructor; cbn [with_requests sc_requests sc_next_scheduler_enqueue_serial sc_next_request_id];
      rewrite ?C3; try done. apply Hs.
  - simpl. rewrite I4. set (r := {| ir_request_id := id |}).
    assert (Hrok : slot_ok r).
    { destruct Hr as [_ Hp]. unfold slot_ok, r, APTA_INTERNAL_SCHEDULER_MAX_SKIPS. simpl.
      split_and!; done || lia. }
    destruct (fill_slot s slot r Hs Ef Hrok I1 I3) as (F1 & F2 & F3 & F4).
    split; [constructor; simpl; try done; apply u64_range|].
    split; [done|]. split.
    { intros Hin. apply list_elem_of_filter in Hin as [_ Hin].
      assert (Ht : apta_scheduler_request_id_exists s id = true) by (by apply id_exists_spec).
      congruence. }
    split; [done|]. split; [done|]. exists slot, r. split_and!; try done. simpl.
    rewrite <- I6. unfold is_u64 in J4. apply u64_small. unfold is_u64. lia.
Qed.

(** C36. Registering a region request keeps the table of sixteen slots well formed:
    a granted id is non-zero, is the caller's own when one was given, and is
    not in use; exactly one free slot is filled with the request; the serial counter
    advances, and the serial of the new request is behind that of every request in the
    table.  A refused request leaves the ids in use as they were.  Either way the
    counter stays ahead of the serials. *)
Theorem request_region_registers (s : scheduler) (request : apta_region_request_t)
    (Hs : scheduler_ok s) (Hq : queue_ok s) (Hr : request_in_range request) :
  let '(s', r) := apta_session_request_region s request in
  scheduler_ok s' /\ queue_ok s' /\
  match r with
  | Ret id => id <> 0 /\ id ∉ ids (sc_requests s) /\
              (rr_request_id request <> 0 -> id = rr_request_id request) /\
              ids (sc_requests s') ≡ₚ id :: ids (sc_requests s) /\
              registered s s' request id /\
              exists slot new, free_slot (sc_requests s) = Some slot /\ sc_requests s' !! slot = Some new /\
                ir_request_id new = id /\
                Forall (fun old => ir_request_id old <> 0 ->
                  ir_scheduler_enqueue_serial old < ir_scheduler_enqueue_serial new) (sc_requests s)
  | Err e => is_error e = true /\ ids (sc_requests s') = ids (sc_requests s)
  | Ub => False
  end.
Proof.
  unfold apta_session_request_region.
  destruct (negb (apta_internal_validate_struct _ _ _ _)); [done|].
  destruct (any _ _); [done|]. pose proof (request_region_base_spec s request Hs Hr) as Hb.
  destruct (apta_session_request_region_base s request) as [s' [id|e|]]; destruct Hb as [Hs' Hb]; [|destruct Hb as (H1 & H2 & H3)|done].
  - destruct Hb as (H1 & H2 & H3 & H4 & H5). destruct (registered_queue _ _ _ _ Hq H5) as [Hq' Hlt].
    split; [done|]. split; [done|]. split_and!; try done. destruct H5 as (slot & new & F1 & F2 & F3 & _).
    assert (Hl : sc_requests s' !! slot = Some new).
    { rewrite F2. apply list_lookup_insert_eq. apply free_slot_spec in F1 as (l1 & x & l2 & -> & <- & _).
      rewrite length_app. simpl. lia. }
    exists slot, new. split_and!; try done. by apply (Hlt slot).
  - split; [done|]. split; [by apply H3|done].
Qed.

(** The other calls keep the serials. *)
Lemma queue_kept s l : queue_ok s ->
  map (fun r => (ir_request_id r, ir_scheduler_enqueue_serial r)) l =
  map (fun r => (ir_request_id r, ir_scheduler_enqueue_serial r)) (sc_requests s) -> queue_ok (with_requests s l).
Proof.
  unfold queue_ok. cbn [with_requests sc_requests sc_next_scheduler_enqueue_serial].
  generalize (sc_next_scheduler_enqueue_serial s). revert l. induction (sc_requests s) as [|x k IH]; intros l serial Hq He.
  - destruct l; [by constructor|done].
  - destruct l as [|y l]; [done|]. injection He as E1 E2 E3. apply Forall_cons in Hq as [Hx Hk].
    constructor; [by rewrite E1, E2|by apply IH].
Qed.

(** ** The life of a slot *)

(** Everything that can happen to the slots while a session lives; processing
    moves states and nothing else ([apta_update_request_states]). *)
Inductive slot_step : scheduler -> scheduler -> Prop :=
| slot_request s request :
    request_in_range request -> slot_step s (apta_session_request_region s request).1
| slot_cancel s id s' : apta_session_cancel_region_request s id = Ret s' -> slot_step s s'
| slot_focus s f s' : apta_session_set_focus s f = Ret s' -> slot_step s s'
| slot_next s c : table_ok c -> slot_step s (apta_internal_waveform_next_pcm_request s c).1
| slot_progress s l :
    map ir_request_id l = map ir_request_id (sc_requests s) -> Forall slot_ok l ->
    slot_step s (with_requests s l).

Definition full (s : scheduler) : Prop := length (ids (sc_requests s)) = 16%nat.

Lemma note_choice_ids sel l : map ir_request_id (map (note_choice1 sel) l) = map ir_request_id l.
Proof.
  rewrite map_map. apply map_ext. intros r. unfold note_choice1.
  destruct (negb _); [done|]. destruct (_ =? _); [done|]. by destruct (_ <? _).
Qed.

Lemma note_choice_ok sel l : Forall slot_ok l -> Forall slot_ok (map (note_choice1 sel) l).
Proof.
  intros Hl. apply Forall_map. eapply Forall_impl; [exact Hl|]. intros r Hr. unfold note_choice1.
  unfold APTA_INTERNAL_SCHEDULER_MAX_SKIPS in *.
  destruct (negb _); [done|]. destruct (_ =? _); [by apply set_skip_ok|].
  destruct (Z.ltb_spec (ir_scheduler_skip_count r) 32); [|done].
  pose proof Hr as (_ & _ & Hs & _). apply set_skip_ok; [done|].
  rewrite u32_small by (unfold is_u32; lia). lia.
Qed.

(** Replacing the slots by others with the same ids. *)
Lemma with_requests_ok s l :
  scheduler_ok s -> map ir_request_id l = map ir_request_id (sc_requests s) -> Forall slot_ok l ->
  scheduler_ok (with_requests s l) /\ ids l = ids (sc_requests s).
Proof.
  intros [H1 H2 H3 H4 H5] Hm Hl. assert (Hi : ids l = ids (sc_requests s)) by (unfold ids; by rewrite Hm).
  split; [|done]. constructor; simpl; try done; [|by rewrite Hi].
  apply (f_equal length) in Hm. by rewrite !length_map, H1 in Hm.
Qed.

Lemma map_insert_same {T U} (f : T -> U) l i x y :
  l !! i = Some x -> f y = f x -> map f (<[i := y]> l) = map f l.
Proof.
  revert i. induction l as [|z l IH]; intros [|i] Hl Hf; simpl in *; try done.
  - injection Hl as ->. by rewrite Hf.
  - f_equal. by apply IH.
Qed.

Lemma cancel_ids s id s' :
  scheduler_ok s -> apta_session_cancel_region_request s id = Ret s' ->
  scheduler_ok s' /\ ids (sc_requests s') = ids (sc_requests s).
Proof.
  intros Hs. unfold apta_session_cancel_region_request. destruct (id =? 0); [done|].
  destruct (list_find _ _) as [[slot r]|] eqn:Ef; [|done]. intros [= <-].
  apply list_find_Some in Ef as (Hl & _ & _).
  apply with_requests_ok; [done | |].
  - apply (map_insert_same ir_request_id _ _ r); done.
  - apply Forall_insert; [apply Hs|]. pose proof (sk_slots _ Hs) as Hall.
    rewrite Forall_forall in Hall. apply list_elem_of_lookup_2 in Hl. by destruct (Hall r Hl).
Qed.

Lemma slot_step_ids s s' :
  scheduler_ok s -> slot_step s s' ->
  scheduler_ok s' /\ (length (ids (sc_requests s)) <= length (ids (sc_requests s')))%nat.
Proof.
  intros Hs Hst. destruct Hst as [s request Hr|s id s' E|s f s' E|s c Hc|s l Hm Hl].
  - pose proof (request_region_base_spec s request Hs Hr) as Hb.
    unfold apta_session_request_region.
    destruct (negb (apta_internal_validate_struct _ _ _ _)); [done|].
    destruct (any _ _); [done|].
    destruct (apta_session_request_region_base s request) as [s' [id|e|]]; simpl;
      destruct Hb as [Hs' Hb]; [|destruct Hb as (_ & -> & _); done | done].
    destruct Hb as (_ & _ & _ & -> & _). split; [done | simpl; lia].
  - destruct (cancel_ids _ _ _ Hs E) as [Hs' ->]. done.
  - unfold apta_session_set_focus, apta_session_set_focus_base in E. inv_ret E.
    injection E as <-. split; [|done]. by destruct Hs; constructor.
  - pose proof Hs as [Hlen Hslots _ _ _]. unfold apta_internal_waveform_next_pcm_request.
    destruct (stage_requests_spec (sc_requests s) APTA_FEATURE_WAVEFORM_OVERVIEW)
      as (a & -> & _); [by destruct (sc_requests s)|].
    rewrite with_same_requests.
    destruct (apta_internal_waveform_next_pcm_request_base _ c) as [q|e|]; simpl; [|done|done].
    destruct (with_requests_ok s _ Hs (note_choice_ids (pr_request_token q) _)
                (note_choice_ok (pr_request_token q) _ Hslots)) as [Hs' ->]. done.
  - destruct (with_requests_ok s l Hs Hm Hl) as [Hs' Hi]. simpl. by rewrite Hi.
Qed.

(** C38. Slots are never given back: once sixteen requests have been registered in
    the life of a session, every further request is refused, whatever has been
    cancelled or satisfied in between. *)
Theorem request_slots_never_reclaimed (s s' : scheduler) (request : apta_region_request_t)
    (Hs : scheduler_ok s) (Hfull : full s) (Hsteps : rtc slot_step s s') :
  exists e, (apta_session_request_region s' request).2 = Err e /\ is_error e = true.
Proof.
  assert (Hs' : scheduler_ok s' /\ full s').
  { induction Hsteps as [s|s s1 s' Hst Hsteps IH]; [done|].
    destruct (slot_step_ids _ _ Hs Hst) as [Hs1 Hle]. apply IH; [done|]. unfold full in *.
    pose proof (length_filter (fun i => i <> 0) (map ir_request_id (sc_requests s1))) as Hf.
    fold (ids (sc_requests s1)) in Hf. rewrite length_map, (sk_length _ Hs1) in Hf. lia. }
  destruct Hs' as [Hok Hf']. clear Hs Hfull Hsteps s.
  assert (Hnone : free_slot (sc_requests s') = None)
    by (apply free_slot_None; rewrite (sk_length _ Hok); exact Hf').
  unfold apta_session_request_region, apta_session_request_region_base.
  repeat (match goal with |- context [if ?b then (_, Err _) else _] => destruct b end; [by eexists|]).
  rewrite Hnone. by eexists.
Qed.

End Region.

(** C37. The scoring order is the documented one: higher effective priority first,
    then a request with a deadline before one without, the earlier deadline,
    the earlier arrival, the smaller id; and it is a strict order that decides
    between any two scores that differ in it. *)
Theorem score_better_is_documented_order (a b c : apta_internal_schedule_score_t) :
  (apta_internal_scheduler_score_better a b = true <->
   ss_effective_priority b < ss_effective_priority a \/
   ss_effective_priority a = ss_effective_priority b /\
   (ss_soft_deadline_monotonic_ns a <> 0 /\ ss_soft_deadline_monotonic_ns b = 0 \/
    ss_soft_deadline_monotonic_ns a <> 0 /\ ss_soft_deadline_monotonic_ns b <> 0 /\
    ss_soft_deadline_monotonic_ns a < ss_soft_deadline_monotonic_ns b \/
    ss_soft_deadline_monotonic_ns a = ss_soft_deadline_monotonic_ns b /\
    (ss_enqueue_serial a < ss_enqueue_serial b \/
     ss_enqueue_serial a = ss_enqueue_serial b /\ ss_request_id a < ss_request_id b))) /\
  apta_internal_scheduler_score_better a a = false /\
  (apta_internal_scheduler_score_better a b = true ->
   apta_internal_scheduler_score_better b c = true ->
   apta_internal_scheduler_score_better a c = true) /\
  (ss_request_id a <> ss_request_id b ->
   apta_internal_scheduler_score_better a b = negb (apta_internal_scheduler_score_better b a)).
Proof.
  split_and!.
  - rewrite score_better_key. unfold klt, score_key. simpl.
    destruct (Z.eqb_spec (ss_soft_deadline_monotonic_ns a) 0),
             (Z.eqb_spec (ss_soft_deadline_monotonic_ns b) 0); lia.
  - apply not_true_iff_false. rewrite score_better_key. apply klt_irrefl.
  - rewrite !score_better_key. apply klt_trans.
  - intros Hne. apply eq_true_iff_eq. rewrite negb_true_iff, <- not_true_iff_false, !score_better_key.
    unfold klt, score_key. simpl.
    destruct (Z.eqb_spec (ss_soft_deadline_monotonic_ns a) 0),
             (Z.eqb_spec (ss_soft_deadline_monotonic_ns b) 0); lia.
Qed.

Definition with_focus (s : scheduler) (f : option apta_focus_t) : scheduler :=
  {| sc_requests := sc_requests s; sc_next_request_id := sc_next_request_id s;
     sc_next_scheduler_enqueue_serial := sc_next_scheduler_enqueue_serial s;
     sc_focus := f; sc_total_frames := sc_total_frames s;
     sc_requested_features := sc_requested_features s; sc_capabilities := sc_capabilities s |}.

(** C39. While any active request wants the overview, the focus has no influence on
    the PCM demand: whatever its priority, the answer is the same as without it. *)
Theorem focus_yields_to_any_request (s : scheduler) (c : coverage)
    (f : option apta_focus_t) (r : apta_internal_request_t)
    (Hs : scheduler_ok s) (Hr : r ∈ sc_requests s) (Hm : matches r = true) :
  (apta_internal_waveform_next_pcm_request (with_focus s f) c).2 =
  (apta_internal_waveform_next_pcm_request (with_focus s None) c).2.
Proof.
  destruct Hs as [Hlen Hslots _ _ _]. unfold apta_internal_waveform_next_pcm_request.
  cbn [sc_requests with_focus].
  destruct (stage_requests_spec (sc_requests s) APTA_FEATURE_WAVEFORM_OVERVIEW)
    as (a & -> & Hperm & Hsorted); [by destruct (sc_requests s)|].
  assert (Ha : Forall slot_ok a) by (by rewrite Hperm).
  assert (Ht : choose_target (with_requests (with_focus s f) (map project a)) c =
               choose_target (with_requests (with_focus s None) (map project a)) c).
  { unfold choose_target. cbn [sc_requests with_requests sc_focus sc_total_frames with_focus].
    pose proof (select_sorted a Ha Hsorted) as Hsel.
    destruct (select_request (map project a) _) as [[[tf te] priority] token].
    destruct Hsel as [(_ & Hn & _)|(r' & Hr' & Hm' & He & _)].
    - rewrite <- Hperm in Hr. rewrite Forall_forall in Hn. specialize (Hn r Hr). congruence.
    - unfold answer_of in He. injection He as _ _ _ ->.
      rewrite matches_active in Hm'. apply andb_true_iff in Hm' as [Hact _].
      apply active_id in Hact. destruct f as [f|]; [|done].
      by destruct (Z.eqb_spec (ir_request_id r') 0). }
  assert (Hb : apta_internal_waveform_next_pcm_request_base
                 (with_requests (with_focus s f) (map project a)) c =
               apta_internal_waveform_next_pcm_request_base
                 (with_requests (with_focus s None) (map project a)) c)
    by (unfold apta_internal_waveform_next_pcm_request_base; by rewrite Ht).
  rewrite Hb. clear Hb Ht.
  by destruct (apta_internal_waveform_next_pcm_request_base
                 (with_requests (with_focus s None) (map project a)) c).
Qed.

(** ** A concrete session *)

Definition sample_request (id first end_frame priority deadline : Z) : apta_region_request_t :=
  {| rr_struct_size := 64; rr_api_version := APTA_API_VERSION;
     rr_range := {| fr_struct_size := 24; fr_api_version := APTA_API_VERSION;
                    fr_first_frame := first; fr_end_frame := end_frame |};
     rr_feature_mask := APTA_FEATURE_WAVEFORM_OVERVIEW;
     rr_soft_deadline_monotonic_ns := deadline; rr_request_id := id; rr_priority := priority |}.

Definition sample_slot (id first end_frame priority deadline skips serial : Z)
  : apta_internal_request_t :=
  {| ir_request_id := id; ir_request := sample_request id first end_frame priority deadline;
     ir_state := APTA_REQUEST_QUEUED; ir_diagnostic_code := 0;
     ir_scheduler_skip_count := skips; ir_scheduler_enqueue_serial := serial |}.

(** An old request of priority 40 that lost eight decisions, a newer one of
    priority 96, and one of the same priority with a deadline. *)
Definition sample_scheduler : scheduler :=
  {| sc_requests :=
       sample_slot 1 0 100 40 0 8 1 :: sample_slot 2 15 40 96 0 0 2 ::
       sample_slot 3 5 60 96 7 0 3 :: replicate 13 zero_request;
     sc_next_request_id := 4; sc_next_scheduler_enqueue_serial := 3; sc_focus := None;
     sc_total_frames := 50; sc_requested_features := APTA_FEATURE_WAVEFORM_OVERVIEW;
     sc_capabilities := APTA_FEATURE_WAVEFORM_OVERVIEW |}.

Lemma zero_request_ok : slot_ok zero_request.
Proof.
  unfold slot_ok, is_u32, is_u8, APTA_INTERNAL_SCHEDULER_MAX_SKIPS. simpl. split_and!; lia || done.
Qed.

Lemma sample_slot_ok id first end_frame priority deadline skips serial :
  is_u32 id -> is_u8 priority -> 0 <= skips <= 32 -> first < end_frame ->
  slot_ok (sample_slot id first end_frame priority deadline skips serial).
Proof.
  intros. unfold slot_ok, APTA_INTERNAL_SCHEDULER_MAX_SKIPS. simpl.
  repeat (split; [assumption|]). intros. assumption.
Qed.

Lemma sample_scheduler_ok : scheduler_ok sample_scheduler.
Proof.
  constructor; simpl.
  - reflexivity.
  - apply Forall_forall. intros r Hr.
    repeat (apply elem_of_cons in Hr as [->|Hr];
            [first [exact zero_request_ok
                   | apply sample_slot_ok; unfold is_u32, is_u8; lia]|]).
    by apply elem_of_nil in Hr.
  - change (NoDup [1; 2; 3]). apply (bool_decide_unpack _). vm_compute. exact I.
  - unfold is_u64. lia.
  - unfold is_u32. lia.
Qed.

Lemma sample_queue_ok : queue_ok sample_scheduler.
Proof. unfold queue_ok. apply Forall_forall. intros r Hr. simpl in Hr.
  repeat (apply elem_of_cons in Hr as [->|Hr]; [simpl; lia|]). by apply elem_of_nil in Hr.
Qed.

Lemma next_pcm_request_serves_best_witness :
  scheduler_ok sample_scheduler /\ table_ok sample_table /\
  exists s' q, apta_internal_waveform_next_pcm_request sample_scheduler sample_table = (s', Ret q) /\
    pr_request_token q = 1 /\ pr_priority q = 104 /\ pr_range q = (10, 20) /\
    s' = apta_internal_scheduler_note_choice sample_scheduler 1.
Proof.
  split; [exact sample_scheduler_ok|]. split; [exact sample_table_ok|].
  pose proof (next_pcm_request_serves_best sample_scheduler sample_table sample_scheduler_ok
                sample_table_ok) as Hn.
  destruct (apta_internal_waveform_next_pcm_request sample_scheduler sample_table) as [s' r] eqn:E.
  assert (Er : r = Ret {| pr_range := (10, 20); pr_feature_mask := 1; pr_priority := 104;
                          pr_request_token := 1 |}) by (vm_compute in E; injection E as _ <-; reflexivity).
  subst r. destruct Hn as (_ & _ & Hs' & _).
  exists s', {| pr_range := (10, 20); pr_feature_mask := 1; pr_priority := 104; pr_request_token := 1 |}.
  repeat split. exact Hs'.
Defined.

Lemma aging_reaches_the_top_witness :
  exists r', sc_requests (fold_left apta_internal_scheduler_note_choice (replicate 32 7) sample_scheduler) !! 0%nat = Some r' /\
    ss_effective_priority (apta_internal_scheduler_score_request r') = 255.
Proof.
  destruct (aging_reaches_the_top sample_scheduler 0 (sample_slot 1 0 100 40 0 8 1) (replicate 32 7))
    as (r' & Hr' & _ & _ & _ & H & _).
  - reflexivity.
  - apply sample_slot_ok; unfold is_u32, is_u8; lia.
  - reflexivity.
  - apply Forall_replicate. simpl. lia.
  - exists r'. split; [exact Hr'|]. destruct (H ltac:(simpl; lia)) as [H255 _]. exact H255.
Defined.

Lemma focus_yields_to_any_request_witness :
  exists f, fo_priority f = 255 /\
  (apta_internal_waveform_next_pcm_request (with_focus sample_scheduler (Some f)) sample_table).2 =
  (apta_internal_waveform_next_pcm_request (with_focus sample_scheduler None) sample_table).2.
Proof.
  exists {| fo_struct_size := 56; fo_api_version := APTA_API_VERSION; fo_playhead_frame := 30;
            fo_lookbehind_frames := 0; fo_lookahead_frames := 20;
            fo_feature_mask := APTA_FEATURE_WAVEFORM_OVERVIEW; fo_priority := 255 |}.
  split; [reflexivity|].
  apply (focus_yields_to_any_request sample_scheduler sample_table _ (sample_slot 1 0 100 40 0 8 1)
           sample_scheduler_ok); [by left | reflexivity].
Defined.

Import LP64.

Lemma request_region_registers_witness :
  scheduler_ok sample_scheduler /\
  exists s', apta_session_request_region sample_scheduler (sample_request 0 0 10 96 0) = (s', Ret 4) /\
    scheduler_ok s' /\ ids (sc_requests s') ≡ₚ [4; 1; 2; 3].
Proof.
  split; [exact sample_scheduler_ok|].
  pose proof (request_region_registers sample_scheduler (sample_request 0 0 10 96 0)
                sample_scheduler_ok sample_queue_ok) as Hr.
  destruct (apta_session_request_region sample_scheduler (sample_request 0 0 10 96 0)) as [s' r] eqn:E.
  assert (Er : r = Ret 4) by (vm_compute in E; injection E as _ <-; reflexivity). subst r.
  destruct Hr as (Hok & _ & _ & _ & _ & Hi & _).
  { unfold request_in_range, is_u32, is_u8. simpl. lia. }
  exists s'. repeat split; [apply Hok .. |]; try apply Hok. exact Hi.
Defined.

(** Sixteen requests, every one of them cancelled. *)
Definition used_up : scheduler :=
  {| sc_requests :=
       map (fun i => {| ir_request_id := i; ir_request := sample_request i 0 10 96 0;
                        ir_state := APTA_REQUEST_CANCELLED; ir_diagnostic_code := 0;
                        ir_scheduler_skip_count := 0; ir_scheduler_enqueue_serial := i |})
           [1; 2; 3; 4; 5; 6; 7; 8; 9; 10; 11; 12; 13; 14; 15; 16];
     sc_next_request_id := 17; sc_next_scheduler_enqueue_serial := 16; sc_focus := None;
     sc_total_frames := 50; sc_requested_features := APTA_FEATURE_WAVEFORM_OVERVIEW;
     sc_capabilities := APTA_FEATURE_WAVEFORM_OVERVIEW |}.

Lemma used_up_ok : scheduler_ok used_up.
Proof.
  constructor; simpl.
  - reflexivity.
  - repeat (apply Forall_cons; split;
            [unfold slot_ok, is_u32, is_u8, APTA_INTERNAL_SCHEDULER_MAX_SKIPS; simpl; lia|]).
    apply Forall_nil_2.
  - change (NoDup [1; 2; 3; 4; 5; 6; 7; 8; 9; 10; 11; 12; 13; 14; 15; 16]).
    apply (bool_decide_unpack _). vm_compute. exact I.
  - unfold is_u64. lia.
  - unfold is_u32. lia.
Qed.

Lemma request_slots_never_reclaimed_witness :
  scheduler_ok used_up /\ full used_up /\
  Forall (fun r => ir_state r = APTA_REQUEST_CANCELLED) (sc_requests used_up) /\
  exists e, (apta_session_request_region used_up (sample_request 0 0 10 96 0)).2 = Err e /\
            is_error e = true.
Proof.
  split; [exact used_up_ok|]. split; [reflexivity|]. split; [by repeat constructor|].
  apply (request_slots_never_reclaimed used_up used_up (sample_request 0 0 10 96 0) used_up_ok);
    [reflexivity | apply rtc_refl].
Defined.
