(* ===== verification/SampleTheorems.v ===== *)
(** * Every sample read is a number of [-1, 1]

    Whatever the format and the bytes the caller hands over, the sample
    [apta_read_mono_sample] makes of a frame is finite and at most 1 in magnitude:
    the column statistics, the quantisers and the onset detector all rely on it. *)

From Stdlib Require Import Floats.SpecFloat.
From S2P Require Import Prelude Platform FloatFacts FloatOrder Samples Ranges AcceptPcm.

(** A sample: a canonical datum of binary32, finite, of magnitude at most 1. *)
Definition unit_sample (x : spec_float) : Prop := valid_float 24 128 x /\ mag_le 0 x.

Lemma unit_wf x : unit_sample x -> wf_float 24 x.
Proof. intros [Hv _]. by apply (valid_wf 24 128). Qed.

(** ** Integers as floating-point numbers *)

Section Integers.
Context (prec emax : Z) (Hprec : 1 < prec) (Hemax : prec + 1 < emax).

(** An integer of at most [prec] bits is represented exactly. *)
Lemma round_int_exact s p : Zpos p < 2 ^ prec ->
  exists m e, binary_round prec emax s p 0 = S754_finite s m e /\ e <= 0 /\ Zpos m = Zpos p * 2 ^ (- e).
Proof.
  intros Hp. set (d := Zpos (digits2_pos p)).
  assert (Hd : d <= prec).
  { destruct (Z.leb_spec d prec); [done|]. pose proof (digits2_bounds p) as [Hb _]. fold d in Hb.
    assert (2 ^ prec <= 2 ^ (d - 1)) by (apply Z.pow_le_mono_r; lia). lia. }
  assert (Hd1 : 1 <= d) by lia.
  destruct (shl_align_spec p 0 (fexp prec emax (d + 0))) as [H1 H2].
  unfold binary_round. change (Zpos (digits2_pos p)) with d.
  destruct (shl_align p 0 _) as [q f]. cbn [fst snd] in *. unfold binary_round_aux.
  assert (Hf : f = d - prec) by (unfold fexp, emin in H2; lia).
  assert (Hq : Zpos q < 2 ^ prec).
  { rewrite H1. pose proof (digits2_bounds p) as [_ Hb]. fold d in Hb. rewrite Hf.
    assert (E : 2 ^ prec = 2 ^ d * 2 ^ (0 - (d - prec))) by (rewrite <- pow2_split by lia; f_equal; lia).
    rewrite E. apply Z.mul_lt_mono_pos_r; [apply Z.pow_pos_nonneg; lia|done]. }
  assert (Hs : shift_of prec emax (Zpos q) f = 0).
  { unfold shift_of. enough (Zdigits2 (Zpos q) <= prec) by (unfold fexp, emin; lia).
    destruct (Zdigits2_bounds (Zpos q)) as (_ & Hb & _); [lia|]. specialize (Hb ltac:(lia)).
    destruct (Z.leb_spec (Zdigits2 (Zpos q)) prec); [done|].
    assert (2 ^ prec <= 2 ^ (Zdigits2 (Zpos q) - 1)) by (apply Z.pow_le_mono_r; lia). lia. }
  destruct (shr_fexp_spec prec emax (Zpos q) f loc_Exact ltac:(lia)) as (E1 & E2 & E3).
  destruct (shr_fexp prec emax (Zpos q) f loc_Exact) as [r e1]. cbn [fst snd] in *.
  rewrite Hs in *. rewrite Z.div_1_r in E1. rewrite Z.mod_1_r in E3.
  rewrite round_exact, E1, E2, Z.add_0_r by done.
  destruct (shr_fexp_spec prec emax (Zpos q) f loc_Exact ltac:(lia)) as (F1 & F2 & F3).
  destruct (shr_fexp prec emax (Zpos q) f loc_Exact) as [r2 e3]. cbn [fst snd] in *.
  rewrite Hs in *. rewrite Z.div_1_r in F1. rewrite F1, F2, !Z.add_0_r.
  destruct (Z.leb_spec f (emax - prec)); [|lia]. exists q, f. split; [done|]. split; [lia|].
  rewrite H1. do 2 f_equal.
Qed.

Lemma value_le_scaled v w e1 e2 m1 m2 : e1 <= 0 -> e2 <= 0 -> v <= w ->
  m1 = v * 2 ^ (- e1) -> m2 = w * 2 ^ (- e2) -> value_le m1 e1 m2 e2.
Proof.
  intros H1 H2 Hvw -> ->. unfold value_le. rewrite <- !Z.mul_assoc, <- !pow2_split by lia.
  replace (- e1 + (e1 - Z.min e1 e2)) with (- Z.min e1 e2) by lia.
  replace (- e2 + (e2 - Z.min e1 e2)) with (- Z.min e1 e2) by lia. nia.
Qed.

(** The quotient of two integers of the format, the smaller by the larger. *)
Lemma int_quotient_mag s t p q : Zpos p <= Zpos q -> Zpos q < 2 ^ prec ->
  mag_le 0 (SFdiv prec emax (binary_round prec emax s p 0) (binary_round prec emax t q 0)).
Proof.
  intros Hpq Hq. destruct (round_int_exact s p ltac:(lia)) as (m & e & -> & He & Hm).
  destruct (round_int_exact t q Hq) as (n & f & -> & Hf & Hn).
  apply SFdiv_mag; [lia|unfold in_range, emin; lia|]. by apply (value_le_scaled (Zpos p) (Zpos q)).
Qed.

(** The quotient of any number of magnitude at most [2^k] by [2^k]. *)
Lemma pow2_quotient_mag x k t n f : mag_le k x -> Zpos n = 2 ^ (k - f) ->
  mag_le 0 (SFdiv prec emax x (S754_finite t n f)).
Proof.
  intros Hx Hn. destruct x as [| | |s m e]; try done. cbn [mag_le] in Hx.
  apply SFdiv_mag; [lia|unfold in_range, emin; lia|]. unfold value_le. rewrite Hn.
  assert (0 <= k - e) by (destruct (Z.leb_spec 0 (k - e)); [done|rewrite Z.pow_neg_r in Hx; lia]).
  assert (0 <= k - f) by (destruct (Z.leb_spec 0 (k - f)); [done|rewrite Z.pow_neg_r in Hn; lia]).
  rewrite <- pow2_split by lia. replace (k - f + (f - Z.min e f)) with (k - e + (e - Z.min e f)) by lia.
  rewrite pow2_split by lia. apply Z.mul_le_mono_nonneg_r; lia.
Qed.

End Integers.

(** ** The formats *)

(** The divisors of the negative samples. *)
Lemma f32_2_15 : f32_of_Z 32768 = S754_finite false 8388608 (-8).
Proof. by vm_compute. Qed.
Lemma f32_2_23 : f32_of_Z 8388608 = S754_finite false 8388608 0.
Proof. by vm_compute. Qed.
Lemma f32_2_31 : f32_of_Z 2147483648 = S754_finite false 8388608 8.
Proof. by vm_compute. Qed.

Lemma f32_of_Z_mag v k : 0 <= k <= 100 -> Z.abs v <= 2 ^ k -> mag_le k (f32_of_Z v).
Proof.
  intros Hk Hv. apply binary_normalize_mag; [lia|unfold in_range, emin; lia|].
  by rewrite Z.sub_0_r.
Qed.

Lemma f32_div_unit x y : mag_le 0 (f32_div x y) -> unit_sample (f32_div x y).
Proof. by split; [apply SFdiv_valid|]. Qed.

Lemma normalize_s16_unit v : is_i16 v -> unit_sample (apta_normalize_s16 v).
Proof.
  unfold is_i16, apta_normalize_s16. intros Hv. destruct (Z.ltb_spec v 0); [|destruct (Z.eqb_spec v 0); [done|]];
    apply f32_div_unit.
  - rewrite f32_2_15. apply (pow2_quotient_mag 24 128 ltac:(lia) ltac:(lia) _ 15); [apply f32_of_Z_mag; lia|done].
  - destruct v as [|p|p]; [done| |done]. apply int_quotient_mag; lia.
Qed.

Lemma s24_value_range b0 b1 b2 : is_u8 b0 -> is_u8 b1 -> is_u8 b2 ->
  -8388608 <= s24_value b0 b1 b2 <= 8388607.
Proof.
  intros H0 H1 H2. unfold is_u8 in *. unfold s24_value. cbv zeta.
  assert (E : Z.lor b0 (Z.lor (Z.shiftl b1 8) (Z.shiftl b2 16)) = b0 + 256 * (b1 + 256 * b2)).
  { replace 16 with (8 + 8) by lia. rewrite <- Z.shiftl_shiftl, <- Z.shiftl_lor by lia.
    rewrite !lor_shiftl by lia. lia. }
  rewrite E. change 8388608 with (2 ^ 23). set (v := b0 + _).
  assert (Hv : 0 <= v < 2 ^ 24) by (unfold v; lia). clearbody v.
  assert (Hbit : Z.land v (2 ^ 23) = if Z.testbit v 23 then 2 ^ 23 else 0).
  { apply Z.bits_inj'. intros i Hi. rewrite Z.land_spec, Z.pow2_bits_eqb by lia.
    destruct (Z.eqb_spec 23 i) as [<-|]; destruct (Z.testbit v 23);
      rewrite ?andb_true_r, ?andb_false_r, ?Z.bits_0, ?Z.pow2_bits_eqb; lia. }
  rewrite Hbit. rewrite Z.testbit_odd, Z.shiftr_div_pow2 by lia.
  change (2 ^ 23) with 8388608 in *. change (2 ^ 24) with 16777216 in *.
  pose proof (Z.div_mod v 8388608 ltac:(lia)). pose proof (Z.mod_pos_bound v 8388608 ltac:(lia)).
  assert (v / 8388608 = 0 \/ v / 8388608 = 1) as [Hq|Hq] by lia; rewrite Hq in *; simpl negb; cbv iota; lia.
Qed.

Lemma normalize_s24_unit b0 b1 b2 : is_u8 b0 -> is_u8 b1 -> is_u8 b2 -> unit_sample (apta_normalize_s24 b0 b1 b2).
Proof.
  intros H0 H1 H2. pose proof (s24_value_range b0 b1 b2 H0 H1 H2) as Hv. unfold apta_normalize_s24.
  set (v := s24_value b0 b1 b2) in *. clearbody v. cbv zeta.
  destruct (Z.ltb_spec v 0); [|destruct (Z.eqb_spec v 0); [done|]]; apply f32_div_unit.
  - rewrite f32_2_23. apply (pow2_quotient_mag 24 128 ltac:(lia) ltac:(lia) _ 23); [apply f32_of_Z_mag; lia|done].
  - destruct v as [|p|p]; [done| |done]. apply int_quotient_mag; lia.
Qed.

Lemma f32_of_f64_unit x : mag_le 0 x -> unit_sample (f32_of_f64 x).
Proof.
  intros Hx. destruct x as [|s| |s m e]; try done. cbn [f32_of_f64 mag_le] in *.
  split; [by apply binary_normalize_valid|]. apply binary_normalize_mag; [lia|unfold in_range, emin; lia|].
  by destruct s; cbn [cond_Zopp]; rewrite ?Z.abs_opp.
Qed.

Lemma i32_range z : -2147483648 <= i32 z <= 2147483647.
Proof.
  unfold i32, u32. pose proof (Z.mod_pos_bound z 4294967296 ltac:(lia)). destruct (Z.ltb_spec (z mod 4294967296) 2147483648); lia.
Qed.

Lemma normalize_s32_unit v : -2147483648 <= v <= 2147483647 -> unit_sample (apta_normalize_s32 v).
Proof.
  intros Hv. unfold apta_normalize_s32. destruct (Z.ltb_spec v 0); [|destruct (Z.eqb_spec v 0); [done|]].
  - apply f32_div_unit. rewrite f32_2_31. apply (pow2_quotient_mag 24 128 ltac:(lia) ltac:(lia) _ 31); [apply f32_of_Z_mag; lia|done].
  - apply f32_of_f64_unit. destruct v as [|p|p]; [done| |done]. apply int_quotient_mag; lia.
Qed.

(** ** Floating-point PCM *)

Lemma f32_of_bits_valid b : valid_float 24 128 (f32_of_bits b).
Proof.
  assert (Hm : 0 <= Z.land b 8388607 < 8388608).
  { change 8388607 with (Z.ones 23). rewrite Z.land_ones by lia. apply Z.mod_pos_bound. lia. }
  assert (He : 0 <= Z.land (Z.shiftr b 23) 255 < 256).
  { change 255 with (Z.ones 8). rewrite Z.land_ones by lia. apply Z.mod_pos_bound. lia. }
  unfold f32_of_bits. set (m := Z.land b 8388607) in *. set (e := Z.land (Z.shiftr b 23) 255) in *.
  clearbody m e. cbv zeta. change (emin 24 128) with (-149).
  destruct (Z.eqb_spec e 255); [by destruct (m =? 0)|]. destruct (Z.eqb_spec e 0).
  - destruct m as [|p|p]; try done. apply finite_valid; [|lia].
    assert (Zdigits2 (Zpos p) <= 23 + 1) by (apply Zdigits2_le; lia). unfold fexp. change (emin 24 128) with (-149). lia.
  - destruct (m + 8388608) as [|p|p] eqn:E; [lia| |lia]. apply finite_valid; [|lia].
    assert (Zdigits2 (Zpos p) = 24) as -> by (apply Zdigits2_unique; lia).
    unfold fexp. change (emin 24 128) with (-149). lia.
Qed.

Lemma f32_one_eq : f32_one = S754_finite false 8388608 (-23).
Proof. by vm_compute. Qed.
Lemma f32_minus_one_eq : f32_minus_one = S754_finite true 8388608 (-23).
Proof. by vm_compute. Qed.

Lemma compare_cont_eq m n : Pos.compare_cont Eq m n = (m ?= n)%positive.
Proof. reflexivity. Qed.

Lemma literal_le m k : (m ?= k)%positive <> Gt -> Zpos m <= Zpos k.
Proof. exact (fun H => H). Qed.

Lemma not_above_one x : wf_float 24 x -> isfinite x = true ->
  SFltb f32_one x = false -> SFltb x f32_minus_one = false -> mag_le 0 x.
Proof.
  rewrite f32_one_eq, f32_minus_one_eq. intros Hm Hfin.
  destruct x as [s|s| |s m e]; [exact (fun _ _ => I)|discriminate Hfin..|]. cbn [wf_float mag_le] in *.
  unfold SFltb, SFcompare. rewrite (compare_cont_eq m), (compare_cont_eq 8388608 m).
  assert (Hsmall : e < -23 -> Zpos m <= 2 ^ (0 - e)).
  { intros He. apply Z.le_trans with (2 ^ 24); [lia|]. apply Z.pow_le_mono_r; lia. }
  assert (Hpow : 2 ^ (0 - -23) = 8388608) by (vm_compute; reflexivity).
  destruct s; intros H1 H2.
  - destruct (Z.compare_spec e (-23)) as [->|He|He]; [|by apply Hsmall|done].
    rewrite Hpow. apply literal_le. by intros E; rewrite E in H2.
  - destruct (Z.compare_spec (-23) e) as [<-|He|He]; [|done|by apply Hsmall].
    rewrite Hpow. apply literal_le. intros E. apply Pos.compare_gt_iff, Pos.compare_lt_iff in E. by rewrite E in H1.
Qed.

Lemma clamp_unit x : valid_float 24 128 x -> unit_sample (apta_clamp_f32 x).
Proof.
  intros Hx. unfold apta_clamp_f32. destruct (isfinite x) eqn:Ef; [|done]. simpl.
  destruct (SFltb x f32_minus_one) eqn:E1; [by split; vm_compute|].
  destruct (SFltb f32_one x) eqn:E2; [by split; vm_compute|].
  split; [done|]. apply not_above_one; try done. by apply (valid_wf 24 128).
Qed.

(** ** Reading a frame *)

(** The caller's memory holds bytes. *)
Definition bytes_of (p : option (list Z)) : Prop :=
  match p with Some bytes => Forall is_u8 bytes | None => True end.

Definition block_of_bytes (block : apta_pcm_block_t) : Prop :=
  bytes_of (pb_data block) /\ Forall bytes_of (pb_planes block).

Lemma rd_byte bytes offset v : Forall is_u8 bytes -> rd_le bytes offset 1 = Ret v -> is_u8 v.
Proof.
  intros Hb. unfold rd_le. destruct (_ && _) eqn:E; [|done]. intros [= <-].
  destruct (drop (Z.to_nat offset) bytes) as [|b l] eqn:Ed; simpl.
  - unfold is_u8. lia.
  - apply (Forall_drop _ (Z.to_nat offset)) in Hb. rewrite Ed in Hb. apply Forall_cons in Hb as [Hb _].
    unfold is_u8 in *. lia.
Qed.

Lemma i16_range v : is_i16 (i16 v).
Proof.
  unfold i16, is_i16, u16. pose proof (Z.mod_pos_bound v 65536 ltac:(lia)).
  destruct (Z.ltb_spec (v mod 65536) 32768); lia.
Qed.

Lemma read_channel_unit cc fmt block frame channel x : block_of_bytes block ->
  apta_read_channel_sample cc fmt block frame channel = Ret x -> unit_sample x.
Proof.
  intros [Hd _]. unfold apta_read_channel_sample. cbv zeta.
  destruct (fmt =? _); [|destruct (fmt =? _); [|destruct (fmt =? _);
    [|destruct (fmt =? _); [|destruct (fmt =? _)]]]]; intros H; inv_ret H;
    try (injection H as <-).
  - apply normalize_s16_unit, i16_range.
  - destruct (pb_data block) as [b|]; [|done]. injection E as <-.
    apply normalize_s24_unit; by eapply rd_byte.
  - apply normalize_s32_unit, i32_range.
  - apply clamp_unit, f32_of_bits_valid.
  - apply clamp_unit, f32_of_bits_valid.
  - done.
Qed.

Lemma read_mono_unit cc fmt block frame x : block_of_bytes block ->
  apta_read_mono_sample cc fmt block frame = Ret x -> unit_sample x.
Proof.
  intros Hb H. unfold apta_read_mono_sample in H. inv_ret H. apply read_channel_unit in E; [|done].
  destruct (cc =? 1); [by injection H as <-|]. inv_ret H. injection H as <-.
  apply read_channel_unit in E0; [|done]. split.
  { apply SFmul_valid; [lia|lia| |by vm_compute]. apply SFadd_valid; [lia|apply E|apply E0]. }
  change 0 with (1 + (-1)). apply SFmul_mag; [lia|unfold in_range, emin; lia| |by vm_compute].
  change 1 with (0 + 1). apply SFadd_mag; [lia|unfold in_range, emin; lia|apply E|apply E0].
Qed.

Lemma read_samples_unit cc fmt block frame n xs : block_of_bytes block ->
  read_samples cc fmt block frame n = Ret xs -> Forall unit_sample xs.
Proof.
  intros Hb. revert frame xs. induction n as [|n IH]; intros frame xs H; simpl in H.
  - injection H as <-. constructor.
  - inv_ret H. injection H as <-. apply read_mono_unit in E; [|done]. apply IH in E0. by constructor.
Qed.

(** C22. Every frame of a readable block becomes a sample: whatever the sample format,
    the channel count and the bytes the caller passes (infinities, NaNs and
    out-of-range floats included), the loop that fills a queue node reads inside the
    caller's buffers and yields one finite, canonical binary32 number of magnitude at
    most 1 per frame. *)
Theorem samples_are_unit (channel_count sample_format frame : Z) (n : nat) (block : apta_pcm_block_t)
    (Hchannels : 1 <= channel_count <= 2)
    (Hread : block_readable channel_count sample_format block) (Hbytes : block_of_bytes block)
    (Hframe : 0 <= frame) (Hcount : frame + Z.of_nat n <= pb_frame_count block)
    (Hlimit : frame + Z.of_nat n <= APTA_INTERNAL_MAX_PUSH_FRAMES) :
  exists xs, read_samples channel_count sample_format block frame n = Ret xs /\
    length xs = n /\ Forall unit_sample xs.
Proof.
  destruct (read_samples_ok _ _ _ _ _ Hchannels Hread Hframe Hcount Hlimit) as (xs & Hxs & Hl & _).
  exists xs. split; [done|]. split; [done|]. by eapply read_samples_unit.
Qed.

(** A mono block of three floats: a NaN, 12 and minus infinity. *)
Definition wild_block : apta_pcm_block_t :=
  {| pb_struct_size := 112; pb_api_version := APTA_API_VERSION; pb_first_frame := 0; pb_frame_count := 3;
     pb_data := Some [0; 0; 192; 127; 0; 0; 64; 65; 0; 0; 128; 255]; pb_planes := [] |}.

Lemma samples_are_unit_witness :
  exists xs, read_samples 1 APTA_SAMPLE_F32_NATIVE_INTERLEAVED wild_block 0 3 = Ret xs /\
    length xs = 3%nat /\ Forall unit_sample xs /\ xs = [f32_zero; f32_one; f32_zero].
Proof.
  assert (Hr : block_readable 1 APTA_SAMPLE_F32_NATIVE_INTERLEAVED wild_block).
  { eexists. split; [reflexivity|]. vm_compute. congruence. }
  assert (Hb : block_of_bytes wild_block).
  { split; [|constructor]. simpl. repeat (constructor; [unfold is_u8; lia|]). constructor. }
  destruct (samples_are_unit 1 APTA_SAMPLE_F32_NATIVE_INTERLEAVED 0 3 wild_block ltac:(lia) Hr Hb
    ltac:(lia) ltac:(simpl; lia) ltac:(vm_compute; congruence)) as (xs & E & Hl & Hu).
  exists xs. split; [exact E|]. split; [exact Hl|]. split; [exact Hu|].
  assert (E' : read_samples 1 APTA_SAMPLE_F32_NATIVE_INTERLEAVED wild_block 0 3 = Ret [f32_zero; f32_one; f32_zero])
    by (vm_compute; reflexivity).
  rewrite E' in E. by injection E as <-.
Defined.
