(* ===== verification/Overview.v ===== *)
(** * The overview columns (waveform/apta_waveform_process.c)

    A column of the overview covers [overview_frames_per_column] frames.  While it is
    being measured it lives in a table of accumulators sorted by column, a growing
    array next to which the three-band sums lie in a parallel array indexed by
    position.  [float] arithmetic is binary32 without contraction. *)

From Stdlib Require Import Floats.SpecFloat.
From S2P Require Import Prelude Platform Samples Ranges.

(** ** The parts of <math.h> the code calls, and the conversion to [uint32_t] *)

Definition f32_sub : spec_float -> spec_float -> spec_float := SFsub 24 128.
Definition fabsf : spec_float -> spec_float := SFabs.

Definition isnan (x : spec_float) : bool :=
  match x with S754_nan => true | _ => false end.

Definition fminf (x y : spec_float) : spec_float :=
  if isnan x then y else if isnan y then x else if SFltb y x then y else x.
Definition fmaxf (x y : spec_float) : spec_float :=
  if isnan x then y else if isnan y then x else if SFltb x y then y else x.

(** [(uint32_t)x] truncates; it is undefined when the integer does not fit. *)
Definition u32_of_f32 (x : spec_float) : result Z :=
  match x with
  | S754_zero _ => Ret 0
  | S754_finite s m e =>
      let t := Z.shiftl (Zpos m) e in
      if s then (if t =? 0 then Ret 0 else Ub)
      else if t <=? UINT32_MAX then Ret t else Ub
  | _ => Ub
  end.

Definition APTA_INTERNAL_SAMPLE_MAGNITUDE_SCALE : spec_float := f32_of_Z 32768.
Definition APTA_INTERNAL_SQUARE_MAGNITUDE_SCALE : spec_float := f32_of_Z 8388608.
Definition APTA_INTERNAL_BAND_LOW_HZ : spec_float := f32_of_Z 200.
Definition APTA_INTERNAL_BAND_HIGH_HZ : spec_float := f32_of_Z 2000.

(** ** The band filter *)

Record band_filter : Type := {
  bf_low_state : spec_float;
  bf_mid_state : spec_float;
  bf_low_coefficient : spec_float;
  bf_mid_coefficient : spec_float
}.

Definition zero_filter : band_filter :=
  {| bf_low_state := f32_zero; bf_mid_state := f32_zero;
     bf_low_coefficient := f32_zero; bf_mid_coefficient := f32_zero |}.

(** [expf] is the C library's; [-6.2831853f] is the float 0xC0C90FDB. *)
Definition apta_internal_band_filter_init (expf : spec_float -> spec_float) (sample_rate : Z)
  : band_filter :=
  let rate := f32_of_Z sample_rate in
  if SFleb rate f32_zero then zero_filter
  else
    let minus_two_pi := f32_of_bits 0xC0C90FDB in
    let low := f32_sub f32_one (expf (f32_div (f32_mul minus_two_pi APTA_INTERNAL_BAND_LOW_HZ) rate)) in
    let mid := f32_sub f32_one (expf (f32_div (f32_mul minus_two_pi APTA_INTERNAL_BAND_HIGH_HZ) rate)) in
    {| bf_low_state := f32_zero; bf_mid_state := f32_zero;
       bf_low_coefficient := fminf (fmaxf low f32_zero) f32_one;
       bf_mid_coefficient := fminf (fmaxf mid f32_zero) f32_one |}.

Definition apta_internal_band_filter_reset (filter : band_filter) : band_filter :=
  {| bf_low_state := f32_zero; bf_mid_state := f32_zero;
     bf_low_coefficient := bf_low_coefficient filter;
     bf_mid_coefficient := bf_mid_coefficient filter |}.

Definition apta_internal_band_filter_split (filter : band_filter) (sample : spec_float)
  : band_filter * (spec_float * spec_float * spec_float) :=
  let low := f32_add (bf_low_state filter)
               (f32_mul (bf_low_coefficient filter) (f32_sub sample (bf_low_state filter))) in
  let mid := f32_add (bf_mid_state filter)
               (f32_mul (bf_mid_coefficient filter) (f32_sub sample (bf_mid_state filter))) in
  ({| bf_low_state := low; bf_mid_state := mid;
      bf_low_coefficient := bf_low_coefficient filter;
      bf_mid_coefficient := bf_mid_coefficient filter |},
   (low, f32_sub mid low, f32_sub sample mid)).

(** ** The table *)

Record accumulator : Type := {
  ac_column_index : Z;
  ac_sample_count : Z;
  ac_sum_squares : Z;
  ac_minimum : spec_float;
  ac_maximum : spec_float;
  ac_clipped : bool;
  ac_complete : bool
}.

(** The fields of [apta_session_t] the overview uses.  [ov_accumulators] is the whole
    allocated array, of which the first [ov_count] cells are in use;
    [ov_allocations] counts the requests made to the allocator so far, whose
    answers are not the program's. *)
Record overview : Type := {
  ov_accumulators : list accumulator;
  ov_count : nat;
  ov_capacity : Z;
  ov_complete_count : Z;
  ov_band_sums : option (list Z);
  ov_filter : band_filter;
  ov_frames_per_column : Z;
  ov_requested_features : Z;
  ov_end_of_input_signalled : bool;
  ov_final_end_frame : Z;
  ov_allocations : nat
}.

Definition set_accumulators (s : overview) (l : list accumulator) : overview :=
  {| ov_accumulators := l; ov_count := ov_count s; ov_capacity := ov_capacity s;
     ov_complete_count := ov_complete_count s; ov_band_sums := ov_band_sums s;
     ov_filter := ov_filter s; ov_frames_per_column := ov_frames_per_column s;
     ov_requested_features := ov_requested_features s;
     ov_end_of_input_signalled := ov_end_of_input_signalled s;
     ov_final_end_frame := ov_final_end_frame s; ov_allocations := ov_allocations s |}.

Definition set_count (s : overview) (n : nat) : overview :=
  {| ov_accumulators := ov_accumulators s; ov_count := n; ov_capacity := ov_capacity s;
     ov_complete_count := ov_complete_count s; ov_band_sums := ov_band_sums s;
     ov_filter := ov_filter s; ov_frames_per_column := ov_frames_per_column s;
     ov_requested_features := ov_requested_features s;
     ov_end_of_input_signalled := ov_end_of_input_signalled s;
     ov_final_end_frame := ov_final_end_frame s; ov_allocations := ov_allocations s |}.

Definition set_capacity (s : overview) (capacity : Z) : overview :=
  {| ov_accumulators := ov_accumulators s; ov_count := ov_count s; ov_capacity := capacity;
     ov_complete_count := ov_complete_count s; ov_band_sums := ov_band_sums s;
     ov_filter := ov_filter s; ov_frames_per_column := ov_frames_per_column s;
     ov_requested_features := ov_requested_features s;
     ov_end_of_input_signalled := ov_end_of_input_signalled s;
     ov_final_end_frame := ov_final_end_frame s; ov_allocations := ov_allocations s |}.

Definition set_complete_count (s : overview) (n : Z) : overview :=
  {| ov_accumulators := ov_accumulators s; ov_count := ov_count s; ov_capacity := ov_capacity s;
     ov_complete_count := n; ov_band_sums := ov_band_sums s;
     ov_filter := ov_filter s; ov_frames_per_column := ov_frames_per_column s;
     ov_requested_features := ov_requested_features s;
     ov_end_of_input_signalled := ov_end_of_input_signalled s;
     ov_final_end_frame := ov_final_end_frame s; ov_allocations := ov_allocations s |}.

Definition set_bands (s : overview) (bands : option (list Z)) (filter : band_filter) : overview :=
  {| ov_accumulators := ov_accumulators s; ov_count := ov_count s; ov_capacity := ov_capacity s;
     ov_complete_count := ov_complete_count s; ov_band_sums := bands;
     ov_filter := filter; ov_frames_per_column := ov_frames_per_column s;
     ov_requested_features := ov_requested_features s;
     ov_end_of_input_signalled := ov_end_of_input_signalled s;
     ov_final_end_frame := ov_final_end_frame s; ov_allocations := ov_allocations s |}.

(** One more request to the allocator. *)
Definition count_allocation (s : overview) : overview :=
  {| ov_accumulators := ov_accumulators s; ov_count := ov_count s; ov_capacity := ov_capacity s;
     ov_complete_count := ov_complete_count s; ov_band_sums := ov_band_sums s;
     ov_filter := ov_filter s; ov_frames_per_column := ov_frames_per_column s;
     ov_requested_features := ov_requested_features s;
     ov_end_of_input_signalled := ov_end_of_input_signalled s;
     ov_final_end_frame := ov_final_end_frame s; ov_allocations := S (ov_allocations s) |}.

(** [memcpy(dst, src, n * sizeof *src)]. *)
Definition copy_prefix {T} (n : nat) (src dst : list T) : result (list T) :=
  if (n <=? length src)%nat && (n <=? length dst)%nat then Ret (take n src ++ drop n dst) else Ub.

(** A call that returns a status leaves a state behind, on errors too.  The caller
    returns when the status is negative. *)
Definition step_ok {S} (m : result (S * apta_status_t)) (k : S -> result (S * apta_status_t))
  : result (S * apta_status_t) :=
  let! '(s, status) := m in
  if is_error status then Ret (s, status) else k s.

Section Operations.
Context `{Platform}.

(** The answers of the allocator to the successive requests, and the contents of
    the memory it returns. *)
Context (allocate : nat -> Z -> bool) (fresh : accumulator).

Definition apta_internal_waveform_grow_band_sums (s : overview) (capacity : Z)
  : result (overview * apta_status_t) :=
  if negb (any (ov_requested_features s) APTA_FEATURE_WAVEFORM_3BAND) then Ret (s, APTA_STATUS_OK)
  else if negb (apta_internal_size_array_fits 0 (size_t (capacity * APTA_INTERNAL_BAND_COUNT))
                  (sizeof T_uint32))
  then Ret (s, APTA_ERROR_LIMIT_EXCEEDED)
  else
    let band_bytes := size_t (size_t (capacity * APTA_INTERNAL_BAND_COUNT) * sizeof T_uint32) in
    let granted := allocate (ov_allocations s) band_bytes in
    let s := count_allocation s in
    if negb granted then Ret (s, APTA_ERROR_OUT_OF_MEMORY)
    else
      let bands := replicate (Z.to_nat (band_bytes / sizeof T_uint32)) 0 in
      match ov_band_sums s with
      | Some old =>
          if (ov_count s =? 0)%nat then Ret (set_bands s (Some bands) (ov_filter s), APTA_STATUS_OK)
          else
            let! bands := copy_prefix (ov_count s * 3) old bands in
            Ret (set_bands s (Some bands) (ov_filter s), APTA_STATUS_OK)
      | None => Ret (set_bands s (Some bands) (ov_filter s), APTA_STATUS_OK)
      end.

(** Replace the array by one of [capacity] cells, then the band sums; the new
    capacity is recorded only when both are there. *)
Definition grow_accumulators (s : overview) (capacity : Z) : result (overview * apta_status_t) :=
  if negb (apta_internal_size_array_fits 0 capacity (sizeof T_waveform_accumulator))
  then Ret (s, APTA_ERROR_LIMIT_EXCEEDED)
  else
    let bytes := size_t (capacity * sizeof T_waveform_accumulator) in
    let granted := allocate (ov_allocations s) bytes in
    let s := count_allocation s in
    if negb granted then Ret (s, APTA_ERROR_OUT_OF_MEMORY)
    else
      let replacement := replicate (Z.to_nat (bytes / sizeof T_waveform_accumulator)) fresh in
      let! replacement :=
        if (ov_count s =? 0)%nat then Ret replacement
        else copy_prefix (ov_count s) (ov_accumulators s) replacement in
      step_ok (apta_internal_waveform_grow_band_sums (set_accumulators s replacement) capacity)
        (fun s => Ret (set_capacity s capacity, APTA_STATUS_OK)).

Definition apta_ensure_accumulator_capacity (s : overview) (needed : Z)
  : result (overview * apta_status_t) :=
  if needed <=? ov_capacity s then Ret (s, APTA_STATUS_OK)
  else
    match grow_capacity 32 (if ov_capacity s =? 0 then 16 else ov_capacity s) needed with
    | Ub => Ub
    | Err status => Ret (s, status)
    | Ret capacity => grow_accumulators s capacity
    end.

(** The first position whose column is not below [column_index]; the interval
    [low, high) is at least halved, so [high - low] rounds are enough. *)
Fixpoint lower_bound (fuel : nat) (a : list accumulator) (column_index : Z) (low high : nat) : result nat :=
  if (low <? high)%nat then
    match fuel with
    | O => Err APTA_ERROR_INTERNAL
    | S fuel =>
        let middle := (low + (high - low) / 2)%nat in
        let! x := arr_get a middle in
        if ac_column_index x <? column_index
        then lower_bound fuel a column_index (middle + 1) high
        else lower_bound fuel a column_index low middle
    end
  else Ret low.

Definition new_accumulator (column_index : Z) : accumulator :=
  {| ac_column_index := column_index; ac_sample_count := 0; ac_sum_squares := 0;
     ac_minimum := f32_one; ac_maximum := f32_minus_one; ac_clipped := false; ac_complete := false |}.

(** The band sums of the cells from [position] on move up by one cell, three
    entries at a time. *)
Fixpoint shift_bands (bands : list Z) (position n : nat) : result (list Z) :=
  match n with
  | O => Ret bands
  | S n' =>
      let source := ((position + n') * 3)%nat in
      let target := ((position + n) * 3)%nat in
      let! x := arr_get bands source in
      let! bands := arr_put bands target x in
      let! x := arr_get bands (source + 1) in
      let! bands := arr_put bands (target + 1) x in
      let! x := arr_get bands (source + 2) in
      let! bands := arr_put bands (target + 2) x in
      shift_bands bands position n'
  end.

Definition clear_bands (bands : list Z) (position : nat) : result (list Z) :=
  let! bands := arr_put bands (position * 3) 0 in
  let! bands := arr_put bands (position * 3 + 1) 0 in
  arr_put bands (position * 3 + 2) 0.

Definition insert_bands (bands : option (list Z)) (position n : nat) : result (option (list Z)) :=
  match bands with
  | None => Ret None
  | Some bands =>
      let! bands := shift_bands bands position n in
      let! bands := clear_bands bands position in
      Ret (Some bands)
  end.

(** The state, the status and the position of [*accumulator_out]. *)
Definition apta_find_or_insert_accumulator (s : overview) (column_index : Z)
  : result (overview * apta_status_t * nat) :=
  let! position := lower_bound (ov_count s) (ov_accumulators s) column_index 0 (ov_count s) in
  let! found :=
    if (position <? ov_count s)%nat then
      let! x := arr_get (ov_accumulators s) position in
      Ret (ac_column_index x =? column_index)
    else Ret false in
  if found : bool then Ret (s, APTA_STATUS_OK, position)
  else
    let! '(s, status) :=
      apta_ensure_accumulator_capacity s (u32 (Z.of_nat (ov_count s) + 1)) in
    if is_error status then Ret (s, status, position)
    else
      let! a := shift_up (ov_accumulators s) position (ov_count s - position) in
      let! bands := insert_bands (ov_band_sums s) position (ov_count s - position) in
      let! a := arr_put a position (new_accumulator column_index) in
      Ret (set_count (set_bands (set_accumulators s a) bands (ov_filter s)) (S (ov_count s)),
           APTA_STATUS_OK, position).

Definition apta_internal_waveform_seed_column (s : overview) (column_index : Z)
    (minimum maximum : spec_float) (sum_squares sample_count : Z) (clipped : bool)
  : result (overview * apta_status_t) :=
  let! '(s, status, position) := apta_find_or_insert_accumulator s column_index in
  if is_error status then Ret (s, status)
  else
    let! x := arr_get (ov_accumulators s) position in
    let! a := arr_put (ov_accumulators s) position
      {| ac_column_index := ac_column_index x; ac_sample_count := sample_count;
         ac_sum_squares := sum_squares; ac_minimum := minimum; ac_maximum := maximum;
         ac_clipped := clipped; ac_complete := true |} in
    let s := set_accumulators s a in
    Ret (if ac_complete x then s else set_complete_count s (u32 (ov_complete_count s + 1)),
         APTA_STATUS_OK).

(** ** Completion *)

Definition apta_expected_column_frames (s : overview) (column_index : Z) : Z :=
  let first_frame := u64 (column_index * ov_frames_per_column s) in
  if negb (ov_end_of_input_signalled s) then ov_frames_per_column s
  else if ov_final_end_frame s <=? first_frame then 0
  else
    let end_frame := apta_min_frame (u64 (first_frame + ov_frames_per_column s)) (ov_final_end_frame s) in
    u32 (end_frame - first_frame).

Definition completes (s : overview) (x : accumulator) : bool :=
  let expected := apta_expected_column_frames s (ac_column_index x) in
  negb (ac_complete x) && negb (expected =? 0) && (ac_sample_count x =? expected).

Definition mark_complete (x : accumulator) : accumulator :=
  {| ac_column_index := ac_column_index x; ac_sample_count := ac_sample_count x;
     ac_sum_squares := ac_sum_squares x; ac_minimum := ac_minimum x; ac_maximum := ac_maximum x;
     ac_clipped := ac_clipped x; ac_complete := true |}.

(** The loop over the first [n] cells; the second component counts the columns
    that became complete. *)
Fixpoint refresh_loop (s : overview) (n : nat) (a : list accumulator) : result (list accumulator * Z) :=
  match n with
  | O => Ret (a, 0)
  | S n =>
      match a with
      | [] => Ub
      | x :: a =>
          let! '(a, k) := refresh_loop s n a in
          Ret (if completes s x then (mark_complete x :: a, k + 1) else (x :: a, k))
      end
  end.

Definition apta_refresh_completed_columns (s : overview) : result overview :=
  let! '(a, k) := refresh_loop s (ov_count s) (ov_accumulators s) in
  Ret (set_complete_count (set_accumulators s a) (u32 (ov_complete_count s + k))).

(** ** Measuring a sample *)

Definition add_sample (x : accumulator) (sample : spec_float) : result accumulator :=
  let magnitude := fminf (fabsf sample) f32_one in
  let! scaled := u32_of_f32 (f32_mul magnitude APTA_INTERNAL_SQUARE_MAGNITUDE_SCALE) in
  Ret {| ac_column_index := ac_column_index x;
         ac_sample_count := u32 (ac_sample_count x + 1);
         ac_sum_squares := u64 (ac_sum_squares x + u64 (scaled * scaled));
         ac_minimum := if SFltb sample (ac_minimum x) then sample else ac_minimum x;
         ac_maximum := if SFltb (ac_maximum x) sample then sample else ac_maximum x;
         ac_clipped := (SFleb sample f32_minus_one || SFleb f32_one sample) || ac_clipped x;
         ac_complete := ac_complete x |}.

Definition band_magnitude (band : spec_float) : result Z :=
  u32_of_f32 (f32_mul (fminf (fabsf band) f32_one) APTA_INTERNAL_SAMPLE_MAGNITUDE_SCALE).

Definition add_band (bands : list Z) (i : nat) (band : spec_float) : result (list Z) :=
  let! v := band_magnitude band in
  let! x := arr_get bands i in
  arr_put bands i (u32 (x + v)).

Definition add_bands (bands : option (list Z)) (filter : band_filter) (position : nat)
    (sample : spec_float) : result (option (list Z) * band_filter) :=
  match bands with
  | None => Ret (None, filter)
  | Some bands =>
      let base := (position * 3)%nat in
      let '(filter, (b0, b1, b2)) := apta_internal_band_filter_split filter sample in
      let! bands := add_band bands base b0 in
      let! bands := add_band bands (base + 1) b1 in
      let! bands := add_band bands (base + 2) b2 in
      Ret (Some bands, filter)
  end.

(** One round of the loop of [apta_process_samples]. *)
Definition process_sample (s : overview) (source_frame : Z) (sample : spec_float)
  : result (overview * apta_status_t) :=
  let column64 := source_frame / ov_frames_per_column s in
  if UINT32_MAX <? column64 then Ret (s, APTA_ERROR_LIMIT_EXCEEDED)
  else
    let! '(s, status, position) := apta_find_or_insert_accumulator s (u32 column64) in
    if is_error status then Ret (s, status)
    else
      let! x := arr_get (ov_accumulators s) position in
      let! x := add_sample x sample in
      let! a := arr_put (ov_accumulators s) position x in
      let! '(bands, filter) := add_bands (ov_band_sums s) (ov_filter s) position sample in
      Ret (set_bands (set_accumulators s a) bands filter, APTA_STATUS_OK).

(** [frame_count - offset] more rounds, of which the next reads the sample at
    [offset] past the frames processed before. *)
Fixpoint apta_process_samples (s : overview) (first_frame processed_frames : Z)
    (samples : list spec_float) (offset : Z) (rounds : nat) : result (overview * apta_status_t) :=
  match rounds with
  | O => Ret (s, APTA_STATUS_OK)
  | S rounds =>
      let source_frame := u64 (u64 (first_frame + processed_frames) + offset) in
      let! sample := arr_get samples (Z.to_nat (u32 (processed_frames + offset))) in
      step_ok (process_sample s source_frame sample)
        (fun s => apta_process_samples s first_frame processed_frames samples (offset + 1) rounds)
  end.

End Operations.
