(* ===== verification/OverviewTable.v ===== *)
(** * The table of columns, abstractly

    The accumulator array and the band array of the overview represent one list of
    columns in increasing order, each an accumulator with its own three band sums.
    This file relates the two and shows that finding or inserting a column is the
    insertion into that list. *)

From Stdlib Require Import Floats.SpecFloat Sorted.
From S2P Require Import Prelude Platform Samples Ranges Overview.

(** A column: its accumulator and its band sums (zero when bands are not measured). *)
Abbreviation column := (accumulator * (Z * Z * Z))%type.

Definition col (x : column) : Z := ac_column_index x.1.

Fixpoint flat (l : list (Z * Z * Z)) : list Z :=
  match l with
  | [] => []
  | (b0, b1, b2) :: l => b0 :: b1 :: b2 :: flat l
  end.

Lemma flat_app l k : flat (l ++ k) = flat l ++ flat k.
Proof. induction l as [|[[a b] c] l IH]; simpl; by rewrite ?IH. Qed.

Lemma length_flat l : length (flat l) = (length l * 3)%nat.
Proof. induction l as [|[[a b] c] l IH]; simpl; lia. Qed.

(** ** Sorted lists of columns *)

Definition columns_sorted (l : list column) : Prop := StronglySorted Z.lt (map col l).

Definition below (c : Z) (x : column) : Prop := col x < c.
Definition above (c : Z) (x : column) : Prop := c < col x.

Lemma columns_sorted_app l k :
  columns_sorted (l ++ k) <-> columns_sorted l /\ columns_sorted k /\ (forall x y, x ∈ l -> y ∈ k -> col x < col y).
Proof.
  unfold columns_sorted. induction l as [|z l IH]; simpl.
  - split; [intros H; split_and!; [constructor|done|]; by intros ? ? ?%elem_of_nil|tauto].
  - split.
    + intros H. apply StronglySorted_inv in H as [H1 H2]. apply IH in H1 as (Hl & Hk & Hlk).
      rewrite List.Forall_forall in H2. split_and!; [constructor; [done|]|done|].
      * rewrite List.Forall_forall. intros c Hc. apply H2. rewrite map_app. apply in_or_app. by left.
      * intros x y [->|Hx]%elem_of_cons Hy; [|by apply Hlk]. apply H2. rewrite map_app. apply in_or_app.
        right. apply in_map. by apply list_elem_of_In.
    + intros (H1 & Hk & Hlk). apply StronglySorted_inv in H1 as [Hl Hz]. constructor.
      * apply IH. split_and!; [done|done|]. intros x y Hx. apply Hlk. by apply elem_of_cons; right.
      * rewrite map_app. apply Forall_app. split; [done|]. rewrite List.Forall_forall. intros c Hc.
        apply in_map_iff in Hc as (y & <- & Hy). apply Hlk; [by apply elem_of_cons; left|by apply list_elem_of_In].
Qed.

Lemma columns_sorted_nil : columns_sorted [].
Proof. constructor. Qed.

Lemma columns_sorted_single x : columns_sorted [x].
Proof. repeat constructor. Qed.

Lemma columns_sorted_insert l x k : columns_sorted (l ++ k) -> Forall (below (col x)) l -> Forall (above (col x)) k ->
  columns_sorted (l ++ x :: k).
Proof.
  intros Hs Hl Hk. apply columns_sorted_app in Hs as (Hsl & Hsk & Hlk). rewrite Forall_forall in Hl, Hk.
  apply columns_sorted_app. split_and!; [done| |].
  - change (x :: k) with ([x] ++ k). apply columns_sorted_app. split_and!; [apply columns_sorted_single|done|].
    intros y z ->%list_elem_of_singleton Hz. by apply Hk.
  - intros y z Hy [->|Hz]%elem_of_cons; [by apply Hl|by apply Hlk].
Qed.

(** Replacing a column by one of the same index. *)
Lemma columns_sorted_replace l x y k : col x = col y -> columns_sorted (l ++ x :: k) -> columns_sorted (l ++ y :: k).
Proof. unfold columns_sorted. rewrite !map_app. simpl. by intros ->. Qed.

(** ** The parallel arrays *)

(** [m] is what the two arrays hold in their first [ov_count] cells. *)
Record represents (s : overview) (m : list column) : Prop := {
  rp_accumulators : exists rest, ov_accumulators s = map fst m ++ rest;
  rp_count : ov_count s = length m;
  rp_bands :
    match ov_band_sums s with
    | Some bands => exists rest, bands = flat (map snd m) ++ rest
    | None => Forall (fun x => x.2 = (0, 0, 0)) m
    end
}.

Definition number_complete (m : list column) : nat := length (List.filter (fun x => ac_complete x.1) m).

(** The shape of the table in every state. *)
Record table_shape (s : overview) (m : list column) : Prop := {
  ts_represents : represents s m;
  ts_capacity : Z.of_nat (ov_count s) <= ov_capacity s < UINT32_MAX;
  ts_array : ov_capacity s <= Z.of_nat (length (ov_accumulators s));
  ts_band_array :
    match ov_band_sums s with
    | Some bands => any (ov_requested_features s) APTA_FEATURE_WAVEFORM_3BAND = true /\
                    3 * ov_capacity s <= Z.of_nat (length bands)
    | None => any (ov_requested_features s) APTA_FEATURE_WAVEFORM_3BAND = false \/ ov_capacity s = 0
    end;
  ts_sorted : columns_sorted m;
  ts_columns : Forall (fun x => is_u32 (col x)) m;
  ts_complete : ov_complete_count s = Z.of_nat (number_complete m)
}.

Lemma rep_split l1 x l2 (m : list column) : m = l1 ++ x :: l2 ->
  map fst m = map fst l1 ++ x.1 :: map fst l2 /\
  flat (map snd m) = flat (map snd l1) ++ flat [x.2] ++ flat (map snd l2).
Proof. intros ->. rewrite !map_app. simpl. split; [done|]. by rewrite flat_app; destruct x.2 as [[? ?] ?]. Qed.

(** ** The shift of the band sums *)

(** Copying a triple of the band array to the next cell. *)
Lemma shift_triple l1 x y z u v w l3 (k : list Z -> result (list Z)) :
  let i := length l1 in
  (let! a := arr_get (l1 ++ [x; y; z; u; v; w] ++ l3) i in
   let! b := arr_put (l1 ++ [x; y; z; u; v; w] ++ l3) (i + 3) a in
   let! a := arr_get b (i + 1) in
   let! b := arr_put b (i + 3 + 1) a in
   let! a := arr_get b (i + 2) in
   let! b := arr_put b (i + 3 + 2) a in
   k b) = k (l1 ++ [x; y; z; x; y; z] ++ l3).
Proof.
  intros i. rewrite (arr_get_app l1 _ i 0) by (unfold i; lia). simpl.
  rewrite (arr_put_app l1 _ (i + 3) 3) by done. simpl. rewrite (arr_get_app l1 _ (i + 1) 1) by done. simpl.
  rewrite (arr_put_app l1 _ (i + 3 + 1) 4) by (unfold i; lia). simpl.
  rewrite (arr_get_app l1 _ (i + 2) 2) by done. simpl.
  by rewrite (arr_put_app l1 _ (i + 3 + 2) 5) by (unfold i; lia).
Qed.

Lemma shift_bands_middle l1 l2 u v w l3 :
  exists h, shift_bands (flat l1 ++ flat l2 ++ u :: v :: w :: l3) (length l1) (length l2) =
            Ret (flat l1 ++ flat [h] ++ flat l2 ++ l3).
Proof.
  revert u v w l3. induction l2 as [|[[x y] z] l2 IH] using rev_ind; intros u v w l3; simpl.
  - by exists (u, v, w).
  - rewrite length_app. simpl. rewrite Nat.add_1_r. cbn [shift_bands].
    replace ((length l1 + length l2) * 3)%nat with (length (flat (l1 ++ l2)))
      by (rewrite length_flat, length_app; lia).
    replace ((length l1 + S (length l2)) * 3)%nat with (length (flat (l1 ++ l2)) + 3)%nat
      by (rewrite length_flat, length_app; lia).
    replace (flat l1 ++ flat (l2 ++ [(x, y, z)]) ++ u :: v :: w :: l3)
      with (flat (l1 ++ l2) ++ [x; y; z; u; v; w] ++ l3) by (rewrite !flat_app, <- !app_assoc; done).
    rewrite shift_triple. rewrite !flat_app, <- !app_assoc. simpl.
    destruct (IH x y z (x :: y :: z :: l3)) as [h Hh]. exists h. simpl in Hh. exact Hh.
Qed.

Lemma insert_bands_middle l1 l2 u v w l3 :
  insert_bands (Some (flat l1 ++ flat l2 ++ u :: v :: w :: l3)) (length l1) (length l2) =
  Ret (Some (flat (l1 ++ (0, 0, 0) :: l2) ++ l3)).
Proof.
  unfold insert_bands. destruct (shift_bands_middle l1 l2 u v w l3) as [[[x y] z] ->]. cbn [obind flat app].
  unfold clear_bands. rewrite (arr_put_app (flat l1) _ (length l1 * 3) 0) by (rewrite length_flat; lia). simpl.
  rewrite (arr_put_app (flat l1) _ (length l1 * 3 + 1) 1) by (rewrite length_flat; lia). simpl.
  rewrite (arr_put_app (flat l1) _ (length l1 * 3 + 2) 2) by (rewrite length_flat; lia). simpl.
  rewrite flat_app. simpl. by rewrite <- !app_assoc.
Qed.

(** ** The binary search *)

Lemma lower_bound_spec (m : list column) rest c fuel low high :
  columns_sorted m -> (low <= high <= length m)%nat -> (high - low <= fuel)%nat ->
  Forall (below c) (take low m) -> Forall (fun x => ~ below c x) (drop high m) ->
  exists p, lower_bound fuel (map fst m ++ rest) c low high = Ret p /\ (p <= length m)%nat /\
    Forall (below c) (take p m) /\ Forall (fun x => ~ below c x) (drop p m).
Proof.
  intros Hs. revert low high. induction fuel as [|fuel IH]; intros low high Hr Hf Hlo Hhi; cbn [lower_bound];
    destruct (Nat.ltb_spec low high); try lia;
    try (exists low; replace high with low in * by lia; split_and!; done || lia).
  set (middle := (low + (high - low) / 2)%nat).
  assert (Hm : (low <= middle < high)%nat).
  { unfold middle. pose proof (Nat.div_lt (high - low)%nat 2%nat ltac:(lia) ltac:(lia)). lia. }
  destruct (lookup_lt_is_Some_2 m middle) as [x Hx]; [lia|].
  assert (Hget : arr_get (E := apta_status_t) (map fst m ++ rest) middle = Ret x.1).
  { unfold arr_get. rewrite lookup_app_l by (rewrite length_map; lia). by rewrite list_lookup_fmap, Hx. }
  rewrite Hget. cbn [obind]. pose proof (take_drop_middle m middle x Hx) as Hsplit.
  rewrite <- Hsplit in Hs. apply columns_sorted_app in Hs as (_ & Hs2 & Hs3).
  destruct (Z.ltb_spec (ac_column_index x.1) c).
  - apply IH; [lia|lia| |done]. rewrite Nat.add_1_r, (take_S_r _ _ _ Hx). apply Forall_app. split; [|by repeat constructor].
    rewrite Forall_forall. intros y Hy. specialize (Hs3 y x Hy ltac:(by apply elem_of_cons; left)).
    unfold below, col in *. lia.
  - apply IH; [lia|lia|done|]. rewrite (drop_S m x middle Hx).
    constructor; [unfold below, col; lia|]. rewrite Forall_forall. intros y Hy.
    change (x :: drop (S middle) m) with ([x] ++ drop (S middle) m) in Hs2. apply columns_sorted_app in Hs2 as (_ & _ & Hs2).
    specialize (Hs2 x y ltac:(by apply elem_of_cons; left) Hy). unfold below, col in *. lia.
Qed.

(** ** Growing the arrays *)

(** What the table operations leave alone. *)
Record same_setup (s s' : overview) : Prop := {
  se_filter : ov_filter s' = ov_filter s;
  se_frames : ov_frames_per_column s' = ov_frames_per_column s;
  se_features : ov_requested_features s' = ov_requested_features s;
  se_end : ov_end_of_input_signalled s' = ov_end_of_input_signalled s;
  se_final : ov_final_end_frame s' = ov_final_end_frame s
}.

Lemma same_setup_refl s : same_setup s s.
Proof. by constructor. Qed.

Lemma same_setup_trans s s' s'' : same_setup s s' -> same_setup s' s'' -> same_setup s s''.
Proof. intros [] []. constructor; congruence. Qed.

Definition out_of_memory (status : apta_status_t) : Prop :=
  status = APTA_ERROR_OUT_OF_MEMORY \/ status = APTA_ERROR_LIMIT_EXCEEDED.

Lemma out_of_memory_error status : out_of_memory status -> is_error status = true.
Proof. by intros [-> | ->]. Qed.

Lemma copy_prefix_ok {T} (l rest dst : list T) : (length l <= length dst)%nat ->
  copy_prefix (length l) (l ++ rest) dst = Ret (l ++ drop (length l) dst).
Proof.
  intros Hl. unfold copy_prefix. rewrite length_app.
  destruct (Nat.leb_spec (length l) (length l + length rest)); [|lia].
  destruct (Nat.leb_spec (length l) (length dst)); [|lia]. simpl. by rewrite take_app_length.
Qed.

Section Growth.
Context `{PlatformLaws}.
Context (allocate : nat -> Z -> bool) (fresh : accumulator).

Lemma grow_band_sums_spec s m capacity :
  represents s m -> Z.of_nat (ov_count s) <= capacity -> capacity * 12 <= SIZE_MAX ->
  (ov_band_sums s = None -> any (ov_requested_features s) APTA_FEATURE_WAVEFORM_3BAND = true -> m = []) ->
  (ov_band_sums s <> None -> any (ov_requested_features s) APTA_FEATURE_WAVEFORM_3BAND = true) ->
  exists s' status,
    apta_internal_waveform_grow_band_sums allocate s capacity = Ret (s', status) /\
    represents s' m /\ same_setup s s' /\
    ov_accumulators s' = ov_accumulators s /\ ov_count s' = ov_count s /\
    ov_capacity s' = ov_capacity s /\ ov_complete_count s' = ov_complete_count s /\
    (out_of_memory status /\ ov_band_sums s' = ov_band_sums s \/
     status = APTA_STATUS_OK /\
     match ov_band_sums s' with
     | Some bands => any (ov_requested_features s) APTA_FEATURE_WAVEFORM_3BAND = true /\
                     3 * capacity <= Z.of_nat (length bands)
     | None => any (ov_requested_features s) APTA_FEATURE_WAVEFORM_3BAND = false
     end).
Proof.
  intros [(rest & Ha) Hc Hb] Hle Hsize Hnone Hsome. unfold apta_internal_waveform_grow_band_sums.
  change APTA_INTERNAL_BAND_COUNT with 3. rewrite sizeof_uint32.
  destruct (any (ov_requested_features s) APTA_FEATURE_WAVEFORM_3BAND) eqn:Ef; cbn [negb].
  2:{ exists s, APTA_STATUS_OK. split_and!; try done; [constructor; eauto|right; split; [done|]].
      destruct (ov_band_sums s); [|done]. by discriminate Hsome. }
  assert (Hs3 : size_t (capacity * 3) = capacity * 3) by (unfold size_t; rewrite Z.mod_small; lia).
  assert (Hs12 : size_t (capacity * 3 * 4) = capacity * 12) by (unfold size_t; rewrite Z.mod_small; lia).
  rewrite Hs3, Hs12. destruct (negb (apta_internal_size_array_fits _ _ _)).
  { exists s, APTA_ERROR_LIMIT_EXCEEDED. split_and!; try done; [constructor; eauto|left; split; [by right|done]]. }
  destruct (negb (allocate _ _)).
  { eexists _, APTA_ERROR_OUT_OF_MEMORY. split; [reflexivity|].
    split_and!; try done; [constructor; eauto|left; split; [by left|done]]. }
  replace (capacity * 12 / 4) with (3 * capacity) by (apply Z.div_unique_exact; lia).
  set (bands := replicate _ 0).
  assert (Hbands : length bands = Z.to_nat (3 * capacity)) by apply length_replicate.
  destruct (ov_band_sums (count_allocation s)) as [old|] eqn:Eo; simpl in Eo; rewrite Eo in *.
  - destruct Hb as [brest ->]. simpl ov_count. destruct (Nat.eqb_spec (ov_count s) 0) as [E0|E0].
    + eexists _, APTA_STATUS_OK. split; [reflexivity|]. split_and!; try done.
      * assert (m = []) as -> by (destruct m; [done|simpl in *; lia]). constructor; simpl; eauto.
      * right. simpl. split_and!; [done|done|lia].
    + replace (ov_count s * 3)%nat with (length (flat (map snd m)))
        by (rewrite length_flat, length_map, Hc; lia).
      rewrite copy_prefix_ok by (rewrite length_flat, length_map, Hbands; lia). cbn [obind].
      eexists _, APTA_STATUS_OK. split; [reflexivity|]. split_and!; try done.
      * constructor; simpl; eauto.
      * right. simpl. split_and!; [done|done|].
        rewrite length_app, length_drop, length_flat, length_map, Hbands. lia.
  - specialize (Hnone eq_refl eq_refl). subst m. eexists _, APTA_STATUS_OK. split; [reflexivity|].
    split_and!; try done; [constructor; simpl; eauto|]. right. simpl. split_and!; [done|done|lia].
Qed.

Lemma grow_accumulators_spec s m capacity :
  table_shape s m -> ov_capacity s <= capacity < UINT32_MAX ->
  exists s' status,
    grow_accumulators allocate fresh s capacity = Ret (s', status) /\
    table_shape s' m /\ same_setup s s' /\ ov_count s' = ov_count s /\
    (out_of_memory status \/ status = APTA_STATUS_OK /\ ov_capacity s' = capacity).
Proof.
  intros Hs Hcap. unfold grow_accumulators.
  pose proof (ts_capacity _ _ Hs) as Hc1. pose proof (ts_array _ _ Hs) as Hc2.
  destruct (apta_internal_size_array_fits _ _ _) eqn:Efits; cbn [negb].
  2:{ exists s, APTA_ERROR_LIMIT_EXCEEDED. split_and!; try done. left. by right. }
  pose proof sizeof_accumulator as Hsz. pose proof size_max_cases as Hmax.
  assert (Hbytes : capacity * sizeof T_waveform_accumulator <= SIZE_MAX).
  { unfold apta_internal_size_array_fits in Efits. apply orb_true_iff in Efits as [E|E]; [lia|].
    apply Z.leb_le in E. rewrite Z.sub_0_r in E.
    apply (Z.mul_le_mono_nonneg_r _ _ (sizeof T_waveform_accumulator)) in E; [|lia].
    assert (Hpos : 0 < sizeof T_waveform_accumulator) by lia.
    pose proof (Z.mul_div_le SIZE_MAX _ Hpos). lia. }
  replace (size_t _) with (capacity * sizeof T_waveform_accumulator)
    by (unfold size_t; rewrite Z.mod_small; nia).
  rewrite Z.div_mul by lia. destruct (negb (allocate _ _)).
  { eexists _, APTA_ERROR_OUT_OF_MEMORY. split; [reflexivity|]. destruct Hs as [[] ? ? ? ? ? ?].
    split_and!; [by constructor; [constructor| | | | | |]|by constructor|done|left; by left]. }
  set (replacement := replicate _ fresh).
  assert (Hr : length replacement = Z.to_nat capacity) by apply length_replicate.
  pose proof (ts_represents _ _ Hs) as [(rest & Ha) Hcount Hbands].
  assert (Hcopy : exists rest', (if (ov_count (count_allocation s) =? 0)%nat then Ret replacement
            else copy_prefix (ov_count (count_allocation s)) (ov_accumulators (count_allocation s)) replacement)
            = Ret (E := apta_status_t) (map fst m ++ rest') /\
            Z.to_nat capacity = length (map fst m ++ rest')).
  { simpl. destruct (Nat.eqb_spec (ov_count s) 0).
    - exists replacement. assert (m = []) as -> by (destruct m; [done|simpl in *; lia]). done.
    - rewrite Hcount, Ha, <- (length_map fst m).
      rewrite copy_prefix_ok by (rewrite length_map, Hr; lia). eexists. split; [done|].
      rewrite length_app, length_drop, length_map, Hr. lia. }
  destruct Hcopy as (rest' & -> & Hlen). cbn [obind].
  set (s1 := set_accumulators _ _).
  assert (H1 : represents s1 m) by (constructor; simpl; eauto).
  destruct (grow_band_sums_spec s1 m capacity H1) as (s2 & status & Hgrow & H2 & Hsame & Ea & Ec & Ecap & Eco & Hst);
    [simpl; lia|nia| | |].
  - pose proof (ts_band_array _ _ Hs) as Hba. simpl. intros E Ef. rewrite E in Hba.
    destruct Hba as [Hba|Hba]; [congruence|]. destruct m; [done|]. simpl in *. lia.
  - pose proof (ts_band_array _ _ Hs) as Hba. simpl. intros E. by destruct (ov_band_sums s); [destruct Hba|].
  - rewrite Hgrow. unfold step_ok. cbn [obind]. destruct Hst as [[Hst Eb]|[-> Hb]].
    + rewrite (out_of_memory_error _ Hst). exists s2, status. split; [done|]. split; [|split; [|split; [|by left]]].
      * pose proof (ts_band_array _ _ Hs) as Hba. constructor; try done.
        { rewrite Ec, Ecap. exact Hc1. }
        { rewrite Ecap, Ea. simpl. lia. }
        { rewrite Eb, Ecap, (se_features _ _ Hsame). exact Hba. }
        { apply Hs. } { apply Hs. }
        { rewrite Eco. apply Hs. }
      * destruct Hsame. by constructor.
      * by rewrite Ec.
    + exists (set_capacity s2 capacity), APTA_STATUS_OK. split; [done|]. split; [|split; [|split; [|by right]]].
      * constructor; simpl.
        { by destruct H2. }
        { rewrite Ec. simpl. lia. }
        { rewrite Ea. simpl. lia. }
        { rewrite (se_features _ _ Hsame). destruct (ov_band_sums s2); [done|by left]. }
        { apply Hs. } { apply Hs. }
        { rewrite Eco. apply Hs. }
      * destruct Hsame. by constructor.
      * simpl; by rewrite Ec.
Qed.

Lemma ensure_capacity_table s m needed :
  table_shape s m -> 0 <= needed <= UINT32_MAX ->
  exists s' status,
    apta_ensure_accumulator_capacity allocate fresh s needed = Ret (s', status) /\
    table_shape s' m /\ same_setup s s' /\ ov_count s' = ov_count s /\
    (out_of_memory status \/ status = APTA_STATUS_OK /\ needed <= ov_capacity s').
Proof.
  intros Hs Hn. pose proof (ts_capacity _ _ Hs) as Hc. unfold apta_ensure_accumulator_capacity.
  destruct (Z.leb_spec needed (ov_capacity s)).
  { exists s, APTA_STATUS_OK. split_and!; try done. by right. }
  set (start := if ov_capacity s =? 0 then 16 else ov_capacity s).
  assert (Hst : 1 <= start < UINT32_MAX /\ ov_capacity s <= start)
    by (unfold start; destruct (Z.eqb_spec (ov_capacity s) 0); lia).
  pose proof (grow_capacity_spec 32 start needed ltac:(lia)) as Hg.
  change (2 ^ (Z.of_nat 32 + 1)) with 8589934592 in Hg. specialize (Hg ltac:(lia)).
  destruct (grow_capacity 32 start needed) as [k|e|]; [|exists s, e; subst e|done].
  - destruct (grow_accumulators_spec s m k Hs ltac:(lia)) as (s' & status & E & T1 & T2 & T3 & T4).
    exists s', status. split_and!; try done. destruct T4 as [|[-> <-]]; [by left|right; split; [done|lia]].
  - split_and!; try done. left. by right.
Qed.

End Growth.

(** ** Finding or inserting a column *)

Definition new_column (c : Z) : column := (new_accumulator c, (0, 0, 0)).

(** The column of index [c], if the table has one. *)
Definition column_of (m : list column) (c : Z) : option column := List.find (fun x => col x =? c) m.

Lemma column_of_app l k c :
  column_of (l ++ k) c = match column_of l c with Some x => Some x | None => column_of k c end.
Proof. unfold column_of. induction l as [|x l IH]; simpl; [done|]. by destruct (col x =? c). Qed.

Lemma column_of_none l c : Forall (fun x => col x <> c) l -> column_of l c = None.
Proof.
  unfold column_of. induction 1 as [|x l Hx Hl IH]; simpl; [done|].
  destruct (Z.eqb_spec (col x) c); [done|exact IH].
Qed.

Lemma column_of_elem l c x : column_of l c = Some x -> x ∈ l /\ col x = c.
Proof.
  unfold column_of. intros Hf. apply find_some in Hf as [Hin Hc]. split; [by apply list_elem_of_In|lia].
Qed.

Lemma columns_sorted_sides l1 x l2 : columns_sorted (l1 ++ x :: l2) ->
  Forall (below (col x)) l1 /\ Forall (above (col x)) l2.
Proof.
  intros Hs. apply columns_sorted_app in Hs as (_ & Hs & Hlt). split; apply Forall_forall; intros y Hy.
  - apply Hlt; [done|]. by apply elem_of_cons; left.
  - change (x :: l2) with ([x] ++ l2) in Hs. apply columns_sorted_app in Hs as (_ & _ & Hs).
    apply Hs; [|done]. by apply elem_of_cons; left.
Qed.

(** A sorted table is a finite map from indices to columns. *)
Lemma column_of_middle l1 x l2 c : columns_sorted (l1 ++ x :: l2) ->
  column_of (l1 ++ x :: l2) c = if c =? col x then Some x else column_of (l1 ++ l2) c.
Proof.
  intros Hs. apply columns_sorted_sides in Hs as [H1 H2]. rewrite !column_of_app. simpl.
  unfold column_of at 2. simpl. fold (column_of l2 c). rewrite (Z.eqb_sym (col x)).
  destruct (Z.eqb_spec c (col x)) as [->|]; [|done].
  rewrite column_of_none; [done|]. eapply Forall_impl; [exact H1|]. unfold below. intros; lia.
Qed.

Lemma number_complete_app l k : number_complete (l ++ k) = (number_complete l + number_complete k)%nat.
Proof. unfold number_complete. by rewrite List.filter_app, length_app. Qed.

(** Rewriting one cell of the table, index kept. *)
Lemma represents_replace s l1 x y l2 a bands filter :
  represents s (l1 ++ x :: l2) ->
  (exists rest, a = map fst (l1 ++ y :: l2) ++ rest) ->
  match bands with
  | Some b => exists rest, b = flat (map snd (l1 ++ y :: l2)) ++ rest
  | None => Forall (fun z => z.2 = (0, 0, 0)) (l1 ++ y :: l2)
  end ->
  represents (set_bands (set_accumulators s a) bands filter) (l1 ++ y :: l2).
Proof.
  intros [_ Hc _] Ha Hb. constructor; [done| |done]. simpl. rewrite Hc, !length_app. done.
Qed.

Section Find.
Context `{PlatformLaws}.
Context (allocate : nat -> Z -> bool) (fresh : accumulator).

(** Making room for a new cell at [length l1]. *)
Lemma insert_cell s l1 l2 c :
  table_shape s (l1 ++ l2) -> is_u32 c -> Z.of_nat (ov_count s) < ov_capacity s ->
  Forall (below c) l1 -> Forall (above c) l2 ->
  exists a bands,
    shift_up (ov_accumulators s) (length l1) (ov_count s - length l1) = Ret a /\
    insert_bands (ov_band_sums s) (length l1) (ov_count s - length l1) = Ret bands /\
    exists a', arr_put (E := apta_status_t) a (length l1) (new_accumulator c) = Ret a' /\
    table_shape (set_count (set_bands (set_accumulators s a') bands (ov_filter s)) (S (ov_count s)))
      (l1 ++ new_column c :: l2).
Proof.
  intros Hs Hc Hroom Hl1 Hl2. pose proof Hs as [[(rest & Ha) Hcount Hbands] Hcap Harr Hba Hsort Hcols Hcomp].
  rewrite map_app in Ha, Hbands. rewrite length_app in Hcount.
  replace (ov_count s - length l1)%nat with (length l2) by lia.
  destruct rest as [|z rest].
  { exfalso. rewrite Ha, !length_app, !length_map in Harr. simpl in Harr. lia. }
  destruct (shift_up_middle (map fst l1) (map fst l2) z rest) as [h Hshift]. rewrite !length_map in Hshift.
  rewrite <- app_assoc in Ha. rewrite <- Ha in Hshift. exists (map fst l1 ++ h :: map fst l2 ++ rest).
  assert (Hput : arr_put (E := apta_status_t) (map fst l1 ++ h :: map fst l2 ++ rest) (length l1) (new_accumulator c)
          = Ret (map fst (l1 ++ new_column c :: l2) ++ rest)).
  { rewrite (arr_put_app (map fst l1) _ _ 0) by (rewrite length_map; lia). simpl.
    by rewrite map_app, <- app_assoc. }
  assert (Hb : exists bands, insert_bands (ov_band_sums s) (length l1) (length l2) = Ret bands /\
    match bands with
    | Some b => (exists r, b = flat (map snd (l1 ++ new_column c :: l2)) ++ r) /\
                any (ov_requested_features s) APTA_FEATURE_WAVEFORM_3BAND = true /\
                3 * ov_capacity s <= Z.of_nat (length b)
    | None => Forall (fun x => x.2 = (0, 0, 0)) (l1 ++ new_column c :: l2) /\
              any (ov_requested_features s) APTA_FEATURE_WAVEFORM_3BAND = false
    end).
  { destruct (ov_band_sums s) as [b|].
    - destruct Hbands as [r ->], Hba as [Hf Hlen]. rewrite length_app, length_flat, length_app, !length_map in Hlen.
      destruct r as [|u [|v [|w r]]]; simpl in Hlen; try lia.
      rewrite flat_app, <- app_assoc. rewrite <- (length_map snd l1), <- (length_map snd l2), insert_bands_middle.
      eexists. split; [done|]. rewrite map_app. simpl. split; [by eexists|]. split; [done|].
      rewrite !length_app, !length_flat, !length_app. simpl. rewrite !length_map. lia.
    - exists None. split; [done|]. apply Forall_app in Hbands as [H1 H2].
      split; [apply Forall_app; split; [done|by constructor]|]. destruct Hba; [done|lia]. }
  destruct Hb as (bands & Hins & Hb). exists bands. split; [done|]. split; [done|].
  eexists. split; [exact Hput|]. constructor; simpl; try lia.
  - constructor; simpl; [by eexists|rewrite length_app; simpl; lia|]. destruct bands; [apply Hb|apply Hb].
  - rewrite Ha in Harr. rewrite !length_app, !length_map in *. simpl in *. rewrite !length_app in *. simpl in *.
    lia.
  - destruct bands; [apply Hb|left; apply Hb].
  - by apply columns_sorted_insert.
  - apply Forall_app in Hcols as [H1 H2]. apply Forall_app. split; [done|]. by constructor.
  - rewrite Hcomp, !number_complete_app. done.
Qed.

(** What [apta_find_or_insert_accumulator] does: it finds the column, or inserts a
    fresh one between its neighbours, or runs out of memory and leaves the table
    as it was. *)
Definition find_post (s : overview) (m : list column) (c : Z)
    (s' : overview) (status : apta_status_t) (position : nat) : Prop :=
  same_setup s s' /\
  (out_of_memory status /\ table_shape s' m \/
   status = APTA_STATUS_OK /\
   exists l1 x l2, position = length l1 /\ col x = c /\ table_shape s' (l1 ++ x :: l2) /\
     (m = l1 ++ x :: l2 /\ s' = s \/ m = l1 ++ l2 /\ x = new_column c)).

Lemma find_or_insert_spec s m c : table_shape s m -> is_u32 c ->
  exists s' status position,
    apta_find_or_insert_accumulator allocate fresh s c = Ret (s', status, position) /\
    find_post s m c s' status position.
Proof.
  intros Hs Hc. pose proof (ts_represents _ _ Hs) as [(rest & Ha) Hcount _].
  unfold apta_find_or_insert_accumulator. rewrite Ha, Hcount.
  destruct (lower_bound_spec m rest c (length m) 0 (length m)) as (p & -> & Hp & Hlo & Hhi);
    [apply Hs|lia|lia|constructor|by rewrite drop_all|]. cbn [obind].
  assert (Hpl : length (take p m) = p) by (rewrite length_take; lia).
  assert (Hfound : (let! found := (if (p <? length m)%nat
              then let! x := arr_get (map fst m ++ rest) p in Ret (ac_column_index x =? c) else Ret false) in Ret found)
             = Ret (E := apta_status_t) (match drop p m with x :: _ => col x =? c | [] => false end)).
  { destruct (drop p m) as [|x k] eqn:Ed.
    - apply (f_equal length) in Ed. rewrite length_drop in Ed. simpl in Ed. by rewrite (proj2 (Nat.ltb_ge _ _)) by lia.
    - pose proof (f_equal length Ed) as El. rewrite length_drop in El. simpl in El.
      rewrite (proj2 (Nat.ltb_lt _ _)) by lia. rewrite <- (take_drop p m) at 1. rewrite Ed, map_app, <- app_assoc.
      simpl. by rewrite (arr_get_app (map fst (take p m)) _ p 0) by (rewrite length_map; lia). }
  rewrite <- Ha in Hfound |- *. revert Hfound. destruct (if (p <? length m)%nat then _ else _) as [found| |]; try done.
  cbn [obind]. intros [= ->]. destruct (match drop p m with x :: _ => _ | [] => _ end) eqn:Ef.
  - destruct (drop p m) as [|x k] eqn:Ed; [done|]. exists s, APTA_STATUS_OK, p. split; [done|].
    split; [apply same_setup_refl|]. right. split; [done|]. exists (take p m), x, k.
    assert (Em : take p m ++ x :: k = m) by (rewrite <- Ed; by rewrite take_drop).
    apply Z.eqb_eq in Ef. rewrite Em. split_and!; [done|done|exact Hs|by left].
  - pose proof (ts_capacity _ _ Hs) as Hcap. rewrite Hcount in Hcap. rewrite u32_small by (unfold is_u32; lia).
    destruct (ensure_capacity_table allocate fresh s m (Z.of_nat (length m) + 1) Hs ltac:(lia))
      as (s1 & status & -> & H1 & Hsame & Hc1 & Hst). cbn [obind].
    destruct Hst as [Hst|[-> Hroom]].
    { rewrite (out_of_memory_error _ Hst). exists s1, status, p. split; [done|]. split; [done|]. by left. }
    cbn [is_error status_code Z.ltb Z.compare]. rewrite <- (take_drop p m) in H1.
    assert (Habove : Forall (above c) (drop p m)).
    { pose proof (ts_sorted _ _ H1) as Hsort. apply columns_sorted_app in Hsort as (_ & Hsort & _).
      destruct (drop p m) as [|x k]; [done|]. apply Forall_cons in Hhi as [Hx _].
      change (x :: k) with ([] ++ x :: k) in Hsort. apply columns_sorted_sides in Hsort as [_ Hk].
      assert (c < col x) by (unfold below in Hx; lia). constructor; [done|].
      eapply Forall_impl; [exact Hk|]. unfold above. intros; lia. }
    destruct (insert_cell s1 (take p m) (drop p m) c H1 Hc ltac:(lia) Hlo Habove)
      as (a & bands & Hsh & Hib & a' & Hput & Hs').
    rewrite Hpl in *. rewrite Hsh. cbn [obind]. rewrite Hib. cbn [obind]. rewrite Hput. cbn [obind].
    eexists _, _, _. split; [reflexivity|]. split; [by destruct Hsame|]. right. split; [done|].
    exists (take p m), (new_column c), (drop p m). split_and!; try done. right. by rewrite take_drop.
Qed.

End Find.

(** ** Refreshing the completion flags *)

Definition refreshed (s : overview) (x : column) : column :=
  if completes s x.1 then (mark_complete x.1, x.2) else x.

Lemma refreshed_col s x : col (refreshed s x) = col x.
Proof. unfold refreshed, col. by destruct (completes s x.1). Qed.

Lemma refresh_loop_spec s m rest :
  exists k, refresh_loop s (length m) (map fst m ++ rest) = Ret (map fst (map (refreshed s) m) ++ rest, k) /\
    Z.of_nat (number_complete (map (refreshed s) m)) = Z.of_nat (number_complete m) + k /\ 0 <= k.
Proof.
  induction m as [|x m IH]; cbn [length map app refresh_loop].
  - exists 0. split; [done|]. unfold number_complete. simpl. lia.
  - destruct IH as (k & -> & Hk & Hk0). cbn [obind].
    assert (Hn : forall y l, number_complete (y :: l) = ((if ac_complete y.1 then 1 else 0) + number_complete l)%nat).
    { intros y l. unfold number_complete. simpl. by destruct (ac_complete y.1). }
    rewrite !Hn. replace (refreshed s x) with (if completes s x.1 then (mark_complete x.1, x.2) else x) by done.
    destruct (completes s x.1) eqn:Ec; cbn [fst mark_complete ac_complete].
    + unfold completes in Ec. destruct (ac_complete x.1); [done|]. exists (k + 1). split; [done|]. lia.
    + exists k. split; [done|]. lia.
Qed.

Lemma number_complete_le m : (number_complete m <= length m)%nat.
Proof. unfold number_complete. apply List.filter_length_le. Qed.

Lemma column_of_refreshed s m c : column_of (map (refreshed s) m) c = option_map (refreshed s) (column_of m c).
Proof.
  unfold column_of. induction m as [|x m IH]; simpl; [done|]. rewrite refreshed_col. by destruct (col x =? c).
Qed.

Lemma refresh_completed_spec s m : table_shape s m ->
  exists s', apta_refresh_completed_columns s = Ret s' /\ table_shape s' (map (refreshed s) m) /\ same_setup s s'.
Proof.
  intros [[(rest & Ha) Hcount Hbands] Hcap Harr Hba Hsort Hcols Hcomp].
  unfold apta_refresh_completed_columns. rewrite Ha, Hcount.
  destruct (refresh_loop_spec s m rest) as (k & -> & Hk & Hk0). cbn [obind]. eexists. split; [reflexivity|].
  split; [|by constructor].
  assert (Hsnd : map snd (map (refreshed s) m) = map snd m).
  { rewrite map_map. apply map_ext. intros x. unfold refreshed. by destruct (completes s x.1). }
  assert (Hcol : map col (map (refreshed s) m) = map col m).
  { rewrite map_map. apply map_ext. apply refreshed_col. }
  constructor; simpl.
  - constructor; simpl; [by eexists|by rewrite length_map|].
    destruct (ov_band_sums s); [by rewrite Hsnd|]. apply Forall_map.
    eapply Forall_impl; [exact Hbands|]. intros x Hx. unfold refreshed. by destruct (completes s x.1).
  - done.
  - rewrite Ha in Harr. revert Harr. by rewrite !length_app, !length_map.
  - done.
  - unfold columns_sorted. by rewrite Hcol.
  - apply Forall_map. eapply Forall_impl; [exact Hcols|]. intros x Hx. simpl. by rewrite refreshed_col.
  - pose proof (number_complete_le (map (refreshed s) m)) as Hle. rewrite length_map in Hle.
    rewrite u32_small by (unfold is_u32; lia). lia.
Qed.
