(* ===== verification/OverviewMeasure.v ===== *)
(** * What a chunk of samples does to the columns

    The reference is a table as a function from column indices to columns, in which
    every sample is added to the column its frame falls into.  The counters are
    written without wrap-around; the bounds that make this the same as the code's
    32-bit and 64-bit arithmetic are proved here. *)

From Stdlib Require Import Floats.SpecFloat.
From S2P Require Import Prelude Platform FloatFacts FloatOrder Samples Ranges AcceptPcm SampleTheorems.
From S2P Require Import Overview OverviewTable.

(** ** Magnitudes *)

(** A non-negative number of magnitude at most [2^k]. *)
Definition magnitude_le (k : Z) (x : spec_float) : Prop :=
  mag_le k x /\ match x with S754_finite true _ _ => False | _ => True end.

Lemma u32_of_f32_spec k x : 0 <= k <= 31 -> magnitude_le k x ->
  exists v, u32_of_f32 x = Ret v /\ 0 <= v <= 2 ^ k.
Proof.
  intros Hk [Hm Hs]. destruct x as [| | |[] m e]; try done; cbn [u32_of_f32 mag_le] in *.
  - exists 0. split; [done|]. lia.
  - assert (Ht : 0 <= Z.shiftl (Zpos m) e <= 2 ^ k).
    { split; [by apply Z.shiftl_nonneg|]. destruct (Z.leb_spec 0 e).
      - rewrite Z.shiftl_mul_pow2 by lia. destruct (Z.leb_spec e k).
        + replace k with (k - e + e) by lia. rewrite pow2_split by lia. apply Z.mul_le_mono_nonneg_r; lia.
        + rewrite Z.pow_neg_r in Hm by lia. lia.
      - rewrite Z.shiftl_div_pow2 by lia. replace k with (k - e - - e) by lia. apply div_pow2_le; lia. }
    assert (2 ^ k <= 2 ^ 31) by (apply Z.pow_le_mono_r; lia).
    destruct (Z.leb_spec (Z.shiftl (Zpos m) e) UINT32_MAX); [by eexists|]. lia.
Qed.

Lemma clamp_magnitude x : wf_float 24 x -> magnitude_le 0 (fminf (fabsf x) f32_one).
Proof.
  intros Hx. assert (H1 : magnitude_le 0 f32_one) by (split; [by vm_compute|done]).
  unfold fminf. destruct x as [|s| |s m e]; try (by split); try exact H1. cbn [fabsf SFabs isnan].
  destruct (isnan f32_one) eqn:E; [done|]. destruct (SFltb f32_one (S754_finite false m e)) eqn:El; [exact H1|].
  split; [|done]. by apply not_above_one.
Qed.

Lemma scale_magnitude k x n f : 0 <= k <= 31 -> wf_float 24 x -> Zpos n = 2 ^ (k - f) ->
  exists v, u32_of_f32 (f32_mul (fminf (fabsf x) f32_one) (S754_finite false n f)) = Ret v /\ 0 <= v <= 2 ^ k.
Proof.
  intros Hk Hx Hn. apply u32_of_f32_spec; [done|]. destruct (clamp_magnitude x Hx) as [Hm Hs].
  assert (Hmul : mag_le k (f32_mul (fminf (fabsf x) f32_one) (S754_finite false n f))).
  { replace k with (0 + k) by lia. apply SFmul_mag; [lia|unfold in_range, emin; lia|done|]. simpl. lia. }
  split; [exact Hmul|]. revert Hs Hmul. destruct (fminf (fabsf x) f32_one) as [| | |[] m e]; try done.
  intros _ Hmul. unfold f32_mul, SFmul in *.
  destruct (binary_round_spec 24 128 ltac:(lia) (xorb false false) (Zpos (m * n)) (e + f) loc_Exact ltac:(lia))
    as (m2 & e2 & Hr & _). rewrite Hr. destruct m2; try done. by destruct (e2 <=? _).
Qed.

Lemma square_magnitude x : wf_float 24 x ->
  exists v, u32_of_f32 (f32_mul (fminf (fabsf x) f32_one) APTA_INTERNAL_SQUARE_MAGNITUDE_SCALE) = Ret v /\
    0 <= v <= 8388608.
Proof.
  intros Hx. change APTA_INTERNAL_SQUARE_MAGNITUDE_SCALE with (S754_finite false 8388608 0).
  apply (scale_magnitude 23 x 8388608 0); done || lia.
Qed.

Lemma band_magnitude_ok x : wf_float 24 x -> exists v, band_magnitude x = Ret v /\ 0 <= v <= 32768.
Proof.
  intros Hx. unfold band_magnitude.
  change APTA_INTERNAL_SAMPLE_MAGNITUDE_SCALE with (S754_finite false 8388608 (-8)).
  apply (scale_magnitude 15 x 8388608 (-8)); done || lia.
Qed.

(** ** The reference *)

(** A magnitude as an integer (0 where the code's conversion is undefined, which
    does not happen). *)
Definition the (m : result Z) : Z := match m with Ret v => v | _ => 0 end.

Definition square_of (sample : spec_float) : Z :=
  the (u32_of_f32 (f32_mul (fminf (fabsf sample) f32_one) APTA_INTERNAL_SQUARE_MAGNITUDE_SCALE)).

(** The band magnitudes of the next sample and the filter after it. *)
Definition band_step (on : bool) (filter : band_filter) (sample : spec_float) : band_filter * (Z * Z * Z) :=
  if on
  then let '(filter, (b0, b1, b2)) := apta_internal_band_filter_split filter sample in
       (filter, (the (band_magnitude b0), the (band_magnitude b1), the (band_magnitude b2)))
  else (filter, (0, 0, 0)).

Definition measure (x : column) (sample : spec_float) (bands : Z * Z * Z) : column :=
  let a := x.1 in
  let '(v0, v1, v2) := bands in
  let '(b0, b1, b2) := x.2 in
  ({| ac_column_index := ac_column_index a;
      ac_sample_count := ac_sample_count a + 1;
      ac_sum_squares := ac_sum_squares a + square_of sample * square_of sample;
      ac_minimum := if SFltb sample (ac_minimum a) then sample else ac_minimum a;
      ac_maximum := if SFltb (ac_maximum a) sample then sample else ac_maximum a;
      ac_clipped := (SFleb sample f32_minus_one || SFleb f32_one sample) || ac_clipped a;
      ac_complete := ac_complete a |},
   (b0 + v0, b1 + v1, b2 + v2)).

(** The table and the filter after the samples from [frame] on. *)
Fixpoint measured (on : bool) (frames_per_column frame : Z) (samples : list spec_float)
    (t : Z -> option column) (filter : band_filter) : (Z -> option column) * band_filter :=
  match samples with
  | [] => (t, filter)
  | x :: samples =>
      let c := frame / frames_per_column in
      let '(filter, bands) := band_step on filter x in
      measured on frames_per_column (frame + 1) samples
        (fun d => if d =? c then Some (measure (default (new_column c) (t c)) x bands) else t d) filter
  end.

(** ** Bounds of the counters *)

(** What [n] samples can have added to a column. *)
Definition counters_ok (x : column) : Prop :=
  let n := ac_sample_count x.1 in
  let '(b0, b1, b2) := x.2 in
  0 <= n /\ 0 <= ac_sum_squares x.1 <= n * 2 ^ 46 /\
  0 <= b0 <= n * 2 ^ 15 /\ 0 <= b1 <= n * 2 ^ 15 /\ 0 <= b2 <= n * 2 ^ 15.

(** The extremes are finite numbers, and in order once there is a sample; a complete
    column has one.  (The extremes of a seeded column can lie just outside [-1, 1].) *)
Definition finite_float (x : spec_float) : Prop := valid_float 24 128 x /\ is_finite x = true.

Lemma unit_finite x : unit_sample x -> finite_float x.
Proof. intros [Hv Hm]. split; [done|by eapply mag_finite]. Qed.

Definition extremes_ok (x : column) : Prop :=
  finite_float (ac_minimum x.1) /\ finite_float (ac_maximum x.1) /\
  (0 < ac_sample_count x.1 -> fval 24 128 (ac_minimum x.1) <= fval 24 128 (ac_maximum x.1)) /\
  (ac_complete x.1 = true -> 0 < ac_sample_count x.1).

Definition column_ok (x : column) : Prop := counters_ok x /\ extremes_ok x.

Definition filter_ok (filter : band_filter) : Prop :=
  wf_float 24 (bf_low_state filter) /\ wf_float 24 (bf_mid_state filter).

Lemma split_ok filter sample : filter_ok filter -> wf_float 24 sample ->
  let '(filter', (b0, b1, b2)) := apta_internal_band_filter_split filter sample in
  filter_ok filter' /\ wf_float 24 b0 /\ wf_float 24 b1 /\ wf_float 24 b2.
Proof.
  intros [Hl Hm] Hs. unfold apta_internal_band_filter_split, f32_add, f32_sub, f32_mul.
  set (low := SFadd _ _ (bf_low_state filter) _). set (mid := SFadd _ _ (bf_mid_state filter) _).
  assert (wf_float 24 low) by (apply SFadd_wf; [lia|done|by apply SFmul_wf]).
  assert (wf_float 24 mid) by (apply SFadd_wf; [lia|done|by apply SFmul_wf]).
  split; [done|]. split; [done|]. split; apply SFsub_wf; done.
Qed.

Lemma band_step_ok on filter sample : filter_ok filter -> wf_float 24 sample ->
  filter_ok (band_step on filter sample).1 /\
  let '(v0, v1, v2) := (band_step on filter sample).2 in
  0 <= v0 <= 32768 /\ 0 <= v1 <= 32768 /\ 0 <= v2 <= 32768.
Proof.
  intros Hf Hs. unfold band_step. destruct on; [|simpl; split; [done|lia]].
  pose proof (split_ok filter sample Hf Hs) as H.
  destruct (apta_internal_band_filter_split filter sample) as [f [[b0 b1] b2]].
  destruct H as (Hf' & H0 & H1 & H2). cbn [fst snd]. split; [exact Hf'|].
  destruct (band_magnitude_ok b0 H0) as (v0 & -> & ?), (band_magnitude_ok b1 H1) as (v1 & -> & ?),
    (band_magnitude_ok b2 H2) as (v2 & -> & ?). simpl. lia.
Qed.

Lemma measure_ok x sample bands : wf_float 24 sample -> counters_ok x ->
  (let '(v0, v1, v2) := bands in 0 <= v0 <= 32768 /\ 0 <= v1 <= 32768 /\ 0 <= v2 <= 32768) ->
  counters_ok (measure x sample bands).
Proof.
  intros Hs Hx Hb. unfold counters_ok, measure in *. destruct x as [a [[b0 b1] b2]], bands as [[v0 v1] v2].
  cbn [fst snd ac_sample_count ac_sum_squares] in *.
  assert (Hq : 0 <= square_of sample <= 8388608).
  { unfold square_of. by destruct (square_magnitude sample Hs) as (v & -> & Hv). }
  change (2 ^ 15) with 32768 in *. change (2 ^ 46) with (8388608 * 8388608) in *.
  assert (0 <= square_of sample * square_of sample <= 8388608 * 8388608) by nia. lia.
Qed.

Lemma finite_ltb x y : finite_float x -> finite_float y -> SFltb x y = (fval 24 128 x <? fval 24 128 y).
Proof. intros [Vx Mx] [Vy My]. by apply SFltb_fval; [lia|..]. Qed.

Lemma measure_extremes x sample bands : unit_sample sample -> 0 <= ac_sample_count x.1 -> extremes_ok x ->
  extremes_ok (measure x sample bands).
Proof.
  intros Hs%unit_finite H0 (Hmin & Hmax & Hle & Hc). unfold extremes_ok, measure. destruct x as [a [[b0 b1] b2]], bands as [[v0 v1] v2].
  cbn [fst snd ac_minimum ac_maximum ac_sample_count] in *. rewrite !finite_ltb by done.
  destruct (Z.ltb_spec (fval 24 128 sample) (fval 24 128 (ac_minimum a))),
    (Z.ltb_spec (fval 24 128 (ac_maximum a)) (fval 24 128 sample)); (split; [done|]; split; [done|]; split; lia).
Qed.

Lemma measure_column_ok x sample bands : unit_sample sample -> column_ok x ->
  (let '(v0, v1, v2) := bands in 0 <= v0 <= 32768 /\ 0 <= v1 <= 32768 /\ 0 <= v2 <= 32768) ->
  column_ok (measure x sample bands).
Proof.
  intros Hs [Hc He] Hb. split; [apply measure_ok; by try apply unit_wf|].
  apply measure_extremes; [done| |done]. unfold counters_ok in Hc. destruct x.2 as [[? ?] ?]. lia.
Qed.

(** A column never holds so many samples that a counter could wrap. *)
Definition few_samples (x : column) : Prop := ac_sample_count x.1 < 131071.

Lemma add_sample_measure x sample bands : wf_float 24 sample -> counters_ok x -> few_samples x ->
  add_sample x.1 sample = Ret (measure x sample bands).1.
Proof.
  intros Hs Hx Hf. unfold add_sample, few_samples in *. unfold measure, square_of. destruct x as [a [[b0 b1] b2]].
  destruct bands as [[v0 v1] v2]. unfold counters_ok in Hx. cbn [fst snd] in *.
  destruct (square_magnitude sample Hs) as (v & -> & Hv). cbn [obind the].
  assert (0 <= v * v <= 8388608 * 8388608) by nia.
  change (2 ^ 46) with (8388608 * 8388608) in *.
  unfold u32, u64. rewrite (Z.mod_small (v * v)) by lia. by rewrite !Z.mod_small by lia.
Qed.

(** The sums of one cell of the band array. *)
Lemma add_bands_measure x sample filter l1 l2 rest : wf_float 24 sample -> filter_ok filter ->
  counters_ok x -> few_samples x ->
  add_bands (Some (flat l1 ++ flat [x.2] ++ flat l2 ++ rest)) filter (length l1) sample =
  Ret (Some (flat l1 ++ flat [(measure x sample (band_step true filter sample).2).2] ++ flat l2 ++ rest),
       (band_step true filter sample).1).
Proof.
  intros Hs Hfl Hx Hf. unfold add_bands, few_samples in *. unfold band_step.
  pose proof (split_ok filter sample Hfl Hs) as H.
  destruct (apta_internal_band_filter_split filter sample) as [f [[s0 s1] s2]].
  destruct H as (Hf' & H0 & H1 & H2). unfold add_band, measure. destruct x as [a [[b0 b1] b2]].
  unfold counters_ok in Hx. cbn [fst snd flat app] in *. change (2 ^ 15) with 32768 in *.
  destruct (band_magnitude_ok s0 H0) as (v0 & -> & ?), (band_magnitude_ok s1 H1) as (v1 & -> & ?),
    (band_magnitude_ok s2 H2) as (v2 & -> & ?). cbn [obind the].
  rewrite (arr_get_app _ _ (length l1 * 3) 0) by (rewrite length_flat; lia). simpl.
  rewrite (arr_put_app _ _ (length l1 * 3) 0) by (rewrite length_flat; lia). simpl.
  rewrite (arr_get_app _ _ (length l1 * 3 + 1) 1) by (rewrite length_flat; lia). simpl.
  rewrite (arr_put_app _ _ (length l1 * 3 + 1) 1) by (rewrite length_flat; lia). simpl.
  rewrite (arr_get_app _ _ (length l1 * 3 + 2) 2) by (rewrite length_flat; lia). simpl.
  rewrite (arr_put_app _ _ (length l1 * 3 + 2) 2) by (rewrite length_flat; lia). simpl.
  unfold u32. by rewrite !Z.mod_small by lia.
Qed.

(** ** One sample *)

Definition bands_on (s : overview) : bool := any (ov_requested_features s) APTA_FEATURE_WAVEFORM_3BAND.

(** A table under measurement. *)
Record measuring (s : overview) (m : list column) : Prop := {
  me_shape : table_shape s m;
  me_filter : filter_ok (ov_filter s);
  me_frames : 1 <= ov_frames_per_column s <= 65536;
  me_columns : Forall column_ok m
}.

(** The settings of the session, which no measurement changes. *)
Record same_geometry (s s' : overview) : Prop := {
  sg_frames : ov_frames_per_column s' = ov_frames_per_column s;
  sg_features : ov_requested_features s' = ov_requested_features s;
  sg_end : ov_end_of_input_signalled s' = ov_end_of_input_signalled s;
  sg_final : ov_final_end_frame s' = ov_final_end_frame s
}.

Lemma same_geometry_refl s : same_geometry s s.
Proof. by constructor. Qed.

Lemma same_geometry_trans s s' s'' : same_geometry s s' -> same_geometry s' s'' -> same_geometry s s''.
Proof. intros [] []. constructor; congruence. Qed.

Lemma same_setup_geometry s s' : same_setup s s' -> same_geometry s s'.
Proof. by intros []. Qed.

(** [t] is the table [m] holds, as a function. *)
Definition holds_table (m : list column) (t : Z -> option column) : Prop := forall d, column_of m d = t d.

Definition measured_at (t : Z -> option column) (c : Z) (sample : spec_float) (bands : Z * Z * Z)
    (d : Z) : option column :=
  if d =? c then Some (measure (default (new_column c) (t c)) sample bands) else t d.

Lemma measure_col x sample bands : col (measure x sample bands) = col x.
Proof. unfold measure, col. by destruct x as [a [[? ?] ?]], bands as [[? ?] ?]. Qed.

Lemma measure_complete x sample bands :
  ac_complete (measure x sample bands).1 = ac_complete x.1.
Proof. unfold measure. by destruct x as [a [[? ?] ?]], bands as [[? ?] ?]. Qed.

Lemma number_complete_replace l1 x y l2 : ac_complete x.1 = ac_complete y.1 ->
  number_complete (l1 ++ x :: l2) = number_complete (l1 ++ y :: l2).
Proof. intros E. rewrite !number_complete_app. unfold number_complete. simpl. rewrite E. by destruct (ac_complete y.1). Qed.

(** The cell at [length l1] takes the sample. *)
Lemma measure_cell s l1 x l2 sample : table_shape s (l1 ++ x :: l2) -> filter_ok (ov_filter s) ->
  wf_float 24 sample -> counters_ok x -> few_samples x ->
  let step := band_step (bands_on s) (ov_filter s) sample in
  let y := measure x sample step.2 in
  arr_get (ov_accumulators s) (length l1) = Ret (E := apta_status_t) x.1 /\ add_sample x.1 sample = Ret y.1 /\
  exists a bands,
    arr_put (E := apta_status_t) (ov_accumulators s) (length l1) y.1 = Ret a /\
    add_bands (ov_band_sums s) (ov_filter s) (length l1) sample = Ret (bands, step.1) /\
    table_shape (set_bands (set_accumulators s a) bands step.1) (l1 ++ y :: l2).
Proof.
  intros Hs Hfl Hw Hx Hf step y. pose proof Hs as [[(rest & Ha) Hcount Hbands] Hcap Harr Hba Hsort Hcols Hcomp].
  rewrite map_app, <- app_assoc in Ha. simpl in Ha. rewrite Ha.
  split; [by rewrite (arr_get_app (map fst l1) _ _ 0) by (rewrite length_map; lia)|].
  split; [by apply add_sample_measure|]. exists (map fst (l1 ++ y :: l2) ++ rest).
  assert (Hput : arr_put (E := apta_status_t) (map fst l1 ++ x.1 :: map fst l2 ++ rest) (length l1) y.1
            = Ret (map fst (l1 ++ y :: l2) ++ rest)).
  { rewrite (arr_put_app (map fst l1) _ _ 0) by (rewrite length_map; lia). simpl. by rewrite map_app, <- app_assoc. }
  assert (Hb : exists bands, add_bands (ov_band_sums s) (ov_filter s) (length l1) sample = Ret (bands, step.1) /\
    match bands with
    | Some b => (exists r, b = flat (map snd (l1 ++ y :: l2)) ++ r) /\ bands_on s = true /\
                3 * ov_capacity s <= Z.of_nat (length b)
    | None => Forall (fun z => z.2 = (0, 0, 0)) (l1 ++ y :: l2) /\ bands_on s = false
    end).
  { rewrite length_app in Hcount. simpl in Hcount. unfold y, step.
    destruct (ov_band_sums s) as [b|].
    - destruct Hbands as [r ->], Hba as [Hon Hlen]. fold (bands_on s) in Hon. rewrite Hon.
      rewrite map_app, flat_app. change (map snd (x :: l2)) with ([x.2] ++ map snd l2). rewrite flat_app, <- !app_assoc.
      pose proof (add_bands_measure x sample (ov_filter s) (map snd l1) (map snd l2) r Hw Hfl Hx Hf) as E.
      rewrite length_map in E. rewrite E. eexists. split; [done|]. split.
      + exists r. rewrite map_app, flat_app. change (map snd (?y :: l2)) with ([y.2] ++ map snd l2).
        by rewrite flat_app, <- !app_assoc.
      + split; [done|]. revert Hlen. rewrite map_app, flat_app. change (map snd (x :: l2)) with ([x.2] ++ map snd l2).
        rewrite flat_app. rewrite !length_app, !length_flat. simpl. lia.
    - assert (Hon : bands_on s = false) by (unfold bands_on; destruct Hba; [done|lia]). rewrite Hon.
      exists None. split; [done|]. split; [|done]. apply Forall_app in Hbands as [H1 H2].
      apply Forall_cons in H2 as [H2 H3]. apply Forall_app. split; [done|]. constructor; [|done].
      unfold band_step, measure. destruct x as [a [[b0 b1] b2]]. simpl in *. by injection H2 as -> -> ->. }
  destruct Hb as (bands & Hadd & Hb). exists bands. split; [exact Hput|]. split; [exact Hadd|].
  constructor; simpl; try done.
  - apply (represents_replace s l1 x y l2); [apply Hs|by eexists|]. destruct bands; apply Hb.
  - rewrite Ha in Harr. revert Harr. rewrite map_app, !length_app. simpl. rewrite !length_app. lia.
  - destruct bands; [apply Hb|left; apply Hb].
  - eapply columns_sorted_replace; [|exact Hsort]. unfold y. by rewrite measure_col.
  - apply Forall_app in Hcols as [H1 H2]. apply Forall_cons in H2 as [H2 H3]. apply Forall_app. split; [done|].
    constructor; [|done]. unfold y. by rewrite measure_col.
  - rewrite Hcomp. f_equal. apply number_complete_replace. unfold y. by rewrite measure_complete.
Qed.

Section Process.
Context `{PlatformLaws}.
Context (allocate : nat -> Z -> bool) (fresh : accumulator).

Lemma new_column_ok c : column_ok (new_column c) /\ few_samples (new_column c).
Proof.
  split; [|by unfold few_samples; simpl; lia]. split; [unfold counters_ok; simpl; lia|].
  split; [split; by vm_compute|]. split; [split; by vm_compute|]. split; [simpl; lia|done].
Qed.

Definition sample_post (s : overview) (m : list column) (frame : Z) (sample : spec_float)
    (s' : overview) (status : apta_status_t) : Prop :=
  same_geometry s s' /\
  (out_of_memory status /\ measuring s' m /\ ov_filter s' = ov_filter s \/
   status = APTA_STATUS_OK /\ frame / ov_frames_per_column s <= UINT32_MAX /\
   let step := band_step (bands_on s) (ov_filter s) sample in
   ov_filter s' = step.1 /\
   exists m', measuring s' m' /\
     holds_table m' (measured_at (column_of m) (frame / ov_frames_per_column s) sample step.2)).

Lemma process_sample_spec s m frame sample :
  measuring s m -> unit_sample sample -> 0 <= frame ->
  (forall x, column_of m (frame / ov_frames_per_column s) = Some x -> few_samples x) ->
  exists s' status, process_sample allocate fresh s frame sample = Ret (s', status) /\
    sample_post s m frame sample s' status.
Proof.
  intros Hm Hu Hf Hfew. pose proof (unit_wf _ Hu) as Hw.
  pose proof (me_frames _ _ Hm) as Hfpc. unfold process_sample. cbv zeta.
  set (c := frame / ov_frames_per_column s) in *.
  assert (Hc0 : 0 <= c) by (apply Z.div_pos; lia).
  destruct (Z.ltb_spec UINT32_MAX c).
  { exists s, APTA_ERROR_LIMIT_EXCEEDED. split; [done|]. split; [apply same_geometry_refl|].
    left. split; [by right|done]. }
  rewrite u32_small by (unfold is_u32; lia).
  destruct (find_or_insert_spec allocate fresh s m c (me_shape _ _ Hm) ltac:(unfold is_u32; lia))
    as (s1 & status & position & -> & Hsame & Hpost). cbn [obind].
  pose proof (same_setup_geometry _ _ Hsame) as Hgeo.
  destruct Hpost as [[Hst Hs1]|(-> & l1 & x & l2 & -> & Hx & Hs1 & Hcase)].
  { rewrite (out_of_memory_error _ Hst). exists s1, status. split; [done|]. split; [done|]. left.
    split; [done|]. rewrite (se_filter _ _ Hsame). split; [|done]. destruct Hm. constructor; try done.
    - by rewrite (se_filter _ _ Hsame).
    - by rewrite (se_frames _ _ Hsame). }
  cbn [is_error status_code Z.ltb Z.compare].
  assert (Hbefore : x = default (new_column c) (column_of m c) /\ column_ok x /\ few_samples x /\
            Forall column_ok (l1 ++ l2) /\ (forall d, d <> c -> column_of (l1 ++ x :: l2) d = column_of m d)).
  { pose proof (ts_sorted _ _ Hs1) as Hsort. pose proof (me_columns _ _ Hm) as Hall.
    destruct Hcase as [[-> _]|[-> ->]].
    - rewrite (column_of_middle _ _ _ c Hsort) in *. rewrite <- Hx, Z.eqb_refl in *.
      apply Forall_app in Hall as [A1 A2]. apply Forall_cons in A2 as [A2 A3].
      split_and!; try done; [by apply Hfew|by apply Forall_app].
    - pose proof (new_column_ok c) as [N1 N2]. split_and!; try done.
      + pose proof (columns_sorted_sides _ _ _ Hsort) as [S1 S2].
        rewrite column_of_none; [done|]. apply Forall_app.
        split; (eapply Forall_impl; [done|]; unfold below, above; simpl; intros; lia).
      + intros d Hd. rewrite (column_of_middle _ _ _ d Hsort), Hx. by destruct (Z.eqb_spec d c). }
  destruct Hbefore as (Hxe & Hxc & Hxf & Hall & Hother).
  assert (Hfl : filter_ok (ov_filter s1)) by (rewrite (se_filter _ _ Hsame); apply Hm).
  destruct (measure_cell s1 l1 x l2 sample Hs1 Hfl Hw (proj1 Hxc) Hxf) as (Hget & Hadd & a & bands & Hput & Hab & Hshape).
  assert (Hon : bands_on s1 = bands_on s) by (unfold bands_on; by rewrite (se_features _ _ Hsame)).
  rewrite Hon, (se_filter _ _ Hsame) in *. set (step := band_step (bands_on s) (ov_filter s) sample) in *.
  rewrite Hget. cbn [obind]. rewrite Hadd. cbn [obind]. rewrite Hput. cbn [obind]. rewrite Hab. cbn [obind].
  eexists _, _. split; [reflexivity|]. split; [by destruct Hgeo|]. right. split; [done|]. split; [done|].
  split; [done|]. pose proof (band_step_ok (bands_on s) (ov_filter s) sample (me_filter _ _ Hm) Hw) as [Hfl' Hbs].
  exists (l1 ++ measure x sample step.2 :: l2). split.
  - constructor; simpl; [exact Hshape|exact Hfl'|by rewrite (sg_frames _ _ Hgeo)|].
    apply Forall_app in Hall as [A1 A2]. apply Forall_app. split; [done|]. constructor; [|done].
    by apply measure_column_ok.
  - intros d. rewrite (column_of_middle _ _ _ d (ts_sorted _ _ Hshape)), measure_col, Hx.
    fold c. unfold measured_at. rewrite <- Hxe. destruct (Z.eqb_spec d c) as [->|Hd]; [done|].
    rewrite <- Hother by done. rewrite (column_of_middle _ _ _ d (ts_sorted _ _ Hs1)), Hx.
    by destruct (Z.eqb_spec d c).
Qed.

(** ** A chunk of a node *)

(** Every column of the table has room for [n] more samples. *)
Definition room_for (n : Z) (m : list column) : Prop :=
  forall d x, column_of m d = Some x -> ac_sample_count x.1 + n <= 131071.

Lemma measured_ext on fpc frame samples t t' filter : (forall d, t d = t' d) ->
  (measured on fpc frame samples t filter).2 = (measured on fpc frame samples t' filter).2 /\
  forall d, (measured on fpc frame samples t filter).1 d = (measured on fpc frame samples t' filter).1 d.
Proof.
  revert frame t t' filter. induction samples as [|x samples IH]; intros frame t t' filter Ht; cbn [measured]; [done|].
  destruct (band_step on filter x) as [f b]. apply IH. intros d. rewrite Ht. by destruct (d =? _).
Qed.

Lemma room_measured m m' c sample bands n : 0 <= n <= 131070 -> holds_table m' (measured_at (column_of m) c sample bands) ->
  room_for (n + 1) m -> room_for n m'.
Proof.
  intros Hn Hm' Hr d x. rewrite Hm'. unfold measured_at. destruct (Z.eqb_spec d c) as [->|]; intros Hx.
  - injection Hx as <-. unfold measure. destruct (column_of m c) as [[a [[? ?] ?]]|] eqn:E.
    + apply Hr in E. simpl in *. destruct bands as [[? ?] ?]. simpl. lia.
    + simpl. destruct bands as [[? ?] ?]. simpl. lia.
  - apply Hr in Hx. lia.
Qed.

Definition chunk_post (s : overview) (m : list column) (frame : Z) (samples : list spec_float)
    (s' : overview) (status : apta_status_t) : Prop :=
  same_geometry s s' /\
  exists k m', (k <= length samples)%nat /\
    (status = APTA_STATUS_OK /\ k = length samples \/ out_of_memory status /\ (k < length samples)%nat) /\
    measuring s' m' /\
    let after := measured (bands_on s) (ov_frames_per_column s) frame (take k samples)
                   (column_of m) (ov_filter s) in
    holds_table m' after.1 /\ ov_filter s' = after.2.

Lemma process_samples_spec s m first_frame processed samples offset rounds :
  measuring s m -> Forall unit_sample samples ->
  0 <= first_frame -> 0 <= processed -> 0 <= offset -> first_frame + Z.of_nat (length samples) <= UINT64_MAX ->
  Z.of_nat (length samples) <= UINT32_MAX ->
  processed + offset + Z.of_nat rounds <= Z.of_nat (length samples) ->
  Z.of_nat rounds <= 131070 -> room_for (Z.of_nat rounds) m ->
  exists s' status,
    apta_process_samples allocate fresh s first_frame processed samples offset rounds = Ret (s', status) /\
    chunk_post s m (first_frame + processed + offset)
      (take rounds (drop (Z.to_nat (processed + offset)) samples)) s' status.
Proof.
  intros Hm Hw Hf Hp Ho He Hlen Hr Hrb Hroom. revert s m offset Hm Ho Hr Hrb Hroom.
  induction rounds as [|rounds IH]; intros s m offset Hm Ho Hr Hrb Hroom; cbn [apta_process_samples].
  - exists s, APTA_STATUS_OK. split; [done|]. split; [apply same_geometry_refl|]. exists 0%nat, m.
    simpl. split; [lia|]. split; [by left|]. split; [exact Hm|]. by split.
  - rewrite !u64_small by (unfold is_u64; try rewrite u64_small; unfold is_u64; lia).
    rewrite u32_small by (unfold is_u32; lia).
    set (i := Z.to_nat (processed + offset)). set (frame := first_frame + processed + offset).
    destruct (lookup_lt_is_Some_2 samples i) as [x Hx]; [unfold i; lia|].
    unfold arr_get. rewrite Hx. cbn [obind]. rewrite (drop_S _ _ _ Hx). cbn [take].
    assert (Hwx : unit_sample x) by (rewrite Forall_lookup in Hw; by eapply Hw).
    destruct (process_sample_spec s m frame x Hm Hwx) as (s1 & status & -> & Hgeo & Hpost);
      [unfold frame; lia|intros y Hy; apply Hroom in Hy; unfold few_samples; lia|].
    unfold step_ok at 1. cbn [obind].
    destruct Hpost as [(Hst & Hs1 & Hfl)|(-> & _ & Hfl & m1 & Hs1 & Ht)].
    + rewrite (out_of_memory_error _ Hst). exists s1, status. split; [done|]. split; [done|].
      exists 0%nat, m. split; [lia|]. split; [right; split; [done|simpl; lia]|]. split; [done|]. by split.
    + cbn [is_error status_code Z.ltb Z.compare].
      assert (Hroom1 : room_for (Z.of_nat rounds) m1).
      { eapply room_measured; [|exact Ht|]; [lia|]. replace (Z.of_nat rounds + 1) with (Z.of_nat (S rounds)) by lia. done. }
      destruct (IH s1 m1 (offset + 1) Hs1 ltac:(lia) ltac:(lia) ltac:(lia) Hroom1) as (s2 & status & E & Hgeo2 & k & m2 & Hk).
      rewrite E. exists s2, status. split; [done|]. split; [by eapply same_geometry_trans|].
      destruct Hk as (Hk & Hst & Hs2 & Hafter).
      replace (Z.to_nat (processed + (offset + 1))) with (S i) in * by (unfold i; lia).
      replace (first_frame + processed + (offset + 1)) with (frame + 1) in Hafter by (unfold frame; lia).
      exists (S k), m2. split; [simpl; lia|]. split; [simpl; destruct Hst as [[-> ->]|[? ?]]; [by left|right; split; [done|lia]]|].
      split; [done|]. cbn [take measured].
      assert (Hon : bands_on s1 = bands_on s) by (unfold bands_on; by rewrite (sg_features _ _ Hgeo)).
      rewrite Hon, (sg_frames _ _ Hgeo), Hfl in Hafter.
      destruct (band_step (bands_on s) (ov_filter s) x) as [f b]. cbn [fst snd] in *.
      destruct (measured_ext (bands_on s) (ov_frames_per_column s) (frame + 1) (take k (take rounds (drop (S i) samples)))
        (column_of m1) (measured_at (column_of m) (frame / ov_frames_per_column s) x b) f Ht) as [E1 E2].
      destruct Hafter as [Ha1 Ha2]. split; [intros d; rewrite Ha1; apply E2|]. by rewrite Ha2, E1.
Qed.

End Process.
