(* ===== verification/Quantize.v ===== *)
(** * From measurements to stored columns (waveform/apta_waveform_snapshot.c)

    The quantisers of a snapshot compute in [double].  The rounding function is
    proved to round every value to the nearest integer, ties to even, the
    subtraction inside it notwithstanding; from that follow the exact values of the
    quantised peaks, their order and their ranges. *)

From Stdlib Require Import Floats.SpecFloat.
From S2P Require Import Prelude Platform FloatFacts FloatOrder Samples Ranges AcceptPcm SampleTheorems Overview.

(** ** The parts of <math.h> the code calls *)

Definition f64_sub : spec_float -> spec_float -> spec_float := SFsub 53 1024.
Definition f64_add : spec_float -> spec_float -> spec_float := SFadd 53 1024.
Definition f64_mul : spec_float -> spec_float -> spec_float := SFmul 53 1024.

(** [sqrt] rounds correctly. *)
Definition sqrt : spec_float -> spec_float := SFsqrt 53 1024.

(** The conversion of a [float] to [double]. *)
Definition f64_of_f32 (x : spec_float) : spec_float :=
  match x with
  | S754_finite s m e => binary_normalize 53 1024 (cond_Zopp s (Zpos m)) e s
  | _ => x
  end.

Definition floor (x : spec_float) : spec_float :=
  match x with
  | S754_finite s m e =>
      if 0 <=? e then x
      else binary_normalize 53 1024 (Z.shiftr (cond_Zopp s (Zpos m)) (- e)) 0 s
  | _ => x
  end.

(** The remainder of the truncating division, with the sign of the dividend. *)
Definition fmod (x y : spec_float) : spec_float :=
  match x, y with
  | S754_finite s m e, S754_finite _ n f =>
      let g := Z.min e f in
      binary_normalize 53 1024
        (cond_Zopp s (Z.shiftl (Zpos m) (e - g) mod Z.shiftl (Zpos n) (f - g))) g s
  | S754_zero _, S754_finite _ _ _ => x
  | S754_zero _, S754_infinity _ | S754_finite _ _ _, S754_infinity _ => x
  | _, _ => S754_nan
  end.

(** [(int16_t)x] and [(uint16_t)x] truncate; they are undefined when the integer does
    not fit. *)
Definition int_of_f64 (low high : Z) (x : spec_float) : result Z :=
  match x with
  | S754_zero _ => Ret 0
  | S754_finite s m e =>
      let t := cond_Zopp s (Z.shiftl (Zpos m) e) in
      if (low <=? t) && (t <=? high) then Ret t else Ub
  | _ => Ub
  end.

Definition f64_zero : spec_float := S754_zero false.
Definition f64_one : spec_float := f64_of_Z 1.
Definition f64_half : spec_float := f64_div f64_one (f64_of_Z 2).

(** ** The quantisers *)

Definition apta_round_ties_even (value : spec_float) : spec_float :=
  let lower := floor value in
  let fraction := f64_sub value lower in
  if SFltb fraction f64_half then lower
  else if SFltb f64_half fraction then f64_add lower f64_one
  else if SFeqb (fmod lower (f64_of_Z 2)) f64_zero then lower else f64_add lower f64_one.

Definition INT16_MIN : Z := -32768.
Definition INT16_MAX : Z := 32767.

Definition apta_quantize_peak (value : spec_float) : result Z :=
  if SFleb value f32_minus_one then Ret INT16_MIN
  else if SFleb f32_one value then Ret INT16_MAX
  else
    let rounded := apta_round_ties_even (f64_mul (f64_of_f32 value) (f64_of_Z 32767)) in
    let rounded := if SFltb rounded (f64_of_Z INT16_MIN) then f64_of_Z INT16_MIN else rounded in
    let rounded := if SFltb (f64_of_Z INT16_MAX) rounded then f64_of_Z INT16_MAX else rounded in
    int_of_f64 (-32768) 32767 rounded.

(** [(uint64_t)APTA_INTERNAL_SAMPLE_MAGNITUDE_SCALE] is 32768. *)
Definition apta_quantize_band (sum sample_count : Z) : Z :=
  if sample_count =? 0 then 0
  else
    let mean := u32 (u64 (sum * 255) / u64 (sample_count * 32768)) in
    if 255 <? mean then 255 else mean.

Definition apta_quantize_rms (sum_squares sample_count : Z) : result Z :=
  if sample_count =? 0 then Ret 0
  else
    let rms := f64_div (sqrt (f64_div (f64_of_Z sum_squares) (f64_of_Z sample_count)))
                 (f64_of_f32 APTA_INTERNAL_SQUARE_MAGNITUDE_SCALE) in
    let rms := if SFltb rms f64_zero then f64_zero else rms in
    let rms := if SFltb f64_one rms then f64_one else rms in
    let rounded := apta_round_ties_even (f64_mul rms (f64_of_Z 65535)) in
    let rounded := if SFltb rounded f64_zero then f64_zero else rounded in
    let rounded := if SFltb (f64_of_Z 65535) rounded then f64_of_Z 65535 else rounded in
    int_of_f64 0 65535 rounded.

(** ** Rounding to the nearest integer *)

(** [z / u] rounded to the nearest integer, ties to even. *)
Definition ties_even (z u : Z) : Z :=
  let q := z / u in
  let r := z mod u in
  if 2 * r <? u then q
  else if u <? 2 * r then q + 1
  else if Z.even q then q else q + 1.

Lemma ties_even_mono a b u : 0 < u -> a <= b -> ties_even a u <= ties_even b u.
Proof.
  intros Hu Hab. unfold ties_even. cbv zeta.
  pose proof (Z.div_mod a u ltac:(lia)). pose proof (Z.mod_pos_bound a u Hu).
  pose proof (Z.div_mod b u ltac:(lia)). pose proof (Z.mod_pos_bound b u Hu).
  pose proof (Z.div_le_mono a b u Hu Hab). destruct (Z.eq_dec (a / u) (b / u)) as [E|].
  - rewrite E in *. destruct (Z.ltb_spec (2 * (a mod u)) u), (Z.ltb_spec (2 * (b mod u)) u); try lia;
      destruct (Z.ltb_spec u (2 * (a mod u))), (Z.ltb_spec u (2 * (b mod u))); try lia; destruct (Z.even (b / u)); lia.
  - destruct (2 * (a mod u) <? u), (u <? 2 * (a mod u)), (2 * (b mod u) <? u), (u <? 2 * (b mod u)),
      (Z.even (a / u)), (Z.even (b / u)); lia.
Qed.

(** An integer is at most half a unit away. *)
Lemma ties_even_near z u : 0 < u -> 2 * Z.abs (ties_even z u * u - z) <= u.
Proof.
  intros Hu. unfold ties_even. cbv zeta. pose proof (Z.div_mod z u ltac:(lia)). pose proof (Z.mod_pos_bound z u Hu).
  set (q := z / u) in *. set (r := z mod u) in *.
  destruct (Z.ltb_spec (2 * r) u); [lia|]. destruct (Z.ltb_spec u (2 * r)); [lia|]. destruct (Z.even q); lia.
Qed.

Lemma ties_even_int n u : 0 < u -> ties_even (n * u) u = n.
Proof. intros Hu. unfold ties_even. rewrite Z.div_mul, Z.mod_mul by lia. destruct (Z.ltb_spec (2 * 0) u); [done|lia]. Qed.

Abbreviation valid64 := (valid_float 53 1024).
Abbreviation val64 := (fval 53 1024).
Abbreviation yields64 := (yields 53 1024).
Abbreviation unit64 := (funit 53 1024).

Lemma unit64_pos : 0 < unit64.
Proof. apply funit_pos; lia. Qed.

Lemma int64_exact z : Z.abs z < 2 ^ 53 -> yields64 (f64_of_Z z) (z * unit64).
Proof. intros. by apply int_exact. Qed.

(** One half, in that unit. *)
Definition half64 : Z := 2 ^ (- emin 53 1024 - 1).

Lemma unit64_half : unit64 = 2 * half64.
Proof. unfold funit, half64. rewrite <- Z.pow_succ_r by (vm_compute; congruence). by f_equal. Qed.

Lemma half64_pos : 0 < half64.
Proof. pose proof unit64_pos. rewrite unit64_half in *. lia. Qed.

Lemma f64_half_exact : yields64 f64_half half64.
Proof.
  assert (E : f64_half = S754_finite false 4503599627370496 (-53)) by (by vm_compute). rewrite E.
  split; [done|]. split; [by vm_compute|]. cbn [fval cond_Zopp]. unfold half64.
  assert (E52 : 4503599627370496 = 2 ^ 52) by (by vm_compute). rewrite E52.
  rewrite <- pow2_split by (unfold emin; lia). by f_equal.
Qed.

Lemma f64_two_eq : f64_of_Z 2 = S754_finite false 4503599627370496 (-51).
Proof. by vm_compute. Qed.

Lemma emin64 : emin 53 1024 = -1074.
Proof. reflexivity. Qed.

Lemma floor_spec x : valid64 x -> is_finite x = true -> yields64 (floor x) (val64 x / unit64 * unit64).
Proof.
  intros Hv Hf. pose proof unit64_pos as HU. destruct x as [s|s| |s m e]; try done.
  destruct (valid_finite 53 1024 s m e Hv) as [_ He]. rewrite emin64 in He.
  cbn [floor fval]. rewrite !cond_Zopp_mul. set (z := cond_Zopp s (Zpos m)). rewrite emin64.
  assert (Hz : Z.abs z < 2 ^ 53).
  { pose proof (valid_wf 53 1024 _ Hv) as Hm. cbn [wf_float] in Hm. unfold z. destruct s; cbn [cond_Zopp]; lia. }
  destruct (Z.leb_spec 0 e).
  - assert (E : z * 2 ^ (e - -1074) = z * 2 ^ e * unit64).
    { unfold funit. rewrite emin64, <- Z.mul_assoc, <- pow2_split by lia. do 2 f_equal. }
    rewrite E, Z.div_mul by lia. split; [done|]. split; [done|]. cbn [fval].
    rewrite cond_Zopp_mul. fold z. by rewrite emin64, E.
  - assert (E : z * 2 ^ (e - -1074) / unit64 = Z.shiftr z (- e)).
    { unfold funit. rewrite emin64, Z.shiftr_div_pow2 by lia.
      replace (- -1074) with (- e + (e - -1074)) by lia. rewrite pow2_split by lia.
      assert (0 < 2 ^ (- e)) by (apply Z.pow_pos_nonneg; lia). assert (0 < 2 ^ (e - -1074)) by (apply Z.pow_pos_nonneg; lia).
      apply Z.div_mul_cancel_r; lia. }
    rewrite E. apply (int_exact 53 1024); [lia|lia|]. rewrite Z.shiftr_div_pow2 by lia.
    assert (1 <= 2 ^ (- e)) by (pose proof (Z.pow_pos_nonneg 2 (- e)); lia).
    pose proof (Z.div_mod z (2 ^ (- e)) ltac:(lia)). pose proof (Z.mod_pos_bound z (2 ^ (- e)) ltac:(lia)). nia.
Qed.

(** Whether an integer is even, by [fmod]. *)
Lemma fmod_two l n : yields64 l (n * unit64) -> SFeqb (fmod l (f64_of_Z 2)) f64_zero = Z.even n.
Proof.
  intros (Hf & Hv & Hn). pose proof unit64_pos as HU. rewrite f64_two_eq. destruct l as [s|s| |s m e]; try done.
  - cbn [fval] in Hn. assert (n = 0) as -> by nia. by destruct s.
  - destruct (valid_finite 53 1024 s m e Hv) as [_ He]. rewrite emin64 in He. cbn [fmod]. set (g := Z.min e (-51)).
    assert (Hg : -1074 <= g <= -51) by (unfold g; lia).
    assert (Ha : Z.shiftl (Zpos m) (e - g) = Z.abs n * 2 ^ (- g)).
    { rewrite Z.shiftl_mul_pow2 by (unfold g; lia). apply (Z.mul_cancel_r _ _ (2 ^ (g - -1074))).
      { pose proof (Z.pow_pos_nonneg 2 (g - -1074)). lia. }
      rewrite <- !Z.mul_assoc, <- !pow2_split by (unfold g; lia).
      replace (e - g + (g - -1074)) with (e - emin 53 1024) by (rewrite emin64; lia).
      replace (- g + (g - -1074)) with (- emin 53 1024) by (rewrite emin64; lia). fold unit64.
      assert (Habs : Z.abs (val64 (S754_finite s m e)) = Zpos m * 2 ^ (e - emin 53 1024)).
      { cbn [fval]. pose proof (Z.pow_nonneg 2 (e - emin 53 1024) ltac:(lia)). destruct s; cbn [cond_Zopp]; lia. }
      rewrite <- Habs, Hn, Z.abs_mul. lia. }
    assert (Hb : Z.shiftl 4503599627370496 (-51 - g) = 2 * 2 ^ (- g)).
    { rewrite Z.shiftl_mul_pow2 by lia. change 4503599627370496 with (2 ^ 52). rewrite <- pow2_split by lia.
      rewrite <- Z.pow_succ_r by lia. f_equal. lia. }
    assert (Hpg : 0 < 2 ^ (- g)) by (apply Z.pow_pos_nonneg; lia).
    rewrite Ha, Hb, Z.mul_mod_distr_r by lia.
    assert (Heven : Z.even n = Z.even (Z.abs n)) by (destruct (Z.abs_eq_or_opp n) as [-> | ->]; by rewrite ?Z.even_opp).
    rewrite Heven, Zmod_even. destruct (Z.even (Z.abs n)).
    + simpl. by destruct s.
    + rewrite Z.mul_1_l.
      assert (E : 2 ^ (- g) * 2 ^ (g - emin 53 1024) = unit64).
      { unfold funit. rewrite <- pow2_split by (rewrite ?emin64; lia). f_equal. lia. }
      assert (Hr : representable 53 1024 (1 * unit64)).
      { unfold funit. apply representable_small; rewrite ?emin64; lia. }
      rewrite Z.mul_1_l in Hr.
      assert (Hy : yields64 (binary_normalize 53 1024 (cond_Zopp s (2 ^ (- g))) g s) (cond_Zopp s unit64)).
      { rewrite <- E, cond_Zopp_mul. apply binary_normalize_exact; [lia|lia|rewrite emin64; lia|].
        rewrite <- cond_Zopp_mul, E. destruct s; [by apply representable_opp|done]. }
      destruct Hy as (Y1 & Y2 & Y3). rewrite (SFeqb_fval 53 1024) by done. rewrite Y3. cbn [fval f64_zero].
      apply Z.eqb_neq. destruct s; cbn [cond_Zopp]; lia.
Qed.

(** The fraction is exact, except below zero near the origin, where it cannot fall
    under one half. *)
Lemma fraction_spec x : valid64 x -> is_finite x = true -> Z.abs (val64 x) <= 2 ^ 51 * unit64 ->
  let q := val64 x / unit64 in
  let r := val64 x mod unit64 in
  let fraction := f64_sub x (floor x) in
  yields64 fraction r \/
  (q = -1 /\ unit64 < 2 * r /\ is_finite fraction = true /\ valid64 fraction /\ half64 <= val64 fraction).
Proof.
  intros Hv Hf Hbig q r fraction. pose proof unit64_pos as HU.
  destruct (floor_spec x Hv Hf) as (L1 & L2 & L3). fold q in L3.
  pose proof (Z.div_mod (val64 x) unit64 ltac:(lia)) as Hdm. pose proof (Z.mod_pos_bound (val64 x) unit64 HU) as Hr.
  fold q r in Hdm, Hr.
  assert (Hdiff : val64 x - val64 (floor x) = r) by lia.
  assert (Hexact : representable 53 1024 r -> yields64 fraction r).
  { intros H. rewrite <- Hdiff in *. apply SFsub_exact; done || lia. }
  destruct x as [s|s| |s m e]; try done.
  { left. apply Hexact. exists 0, 0. unfold r. cbn [fval]. rewrite Zmod_0_l. split; [done|]. split; [done|].
    split; [done|]. apply Z.pow_pos_nonneg; rewrite ?emin64; lia. }
  destruct (valid_finite 53 1024 s m e Hv) as [_ He]. rewrite emin64 in He.
  pose proof (valid_wf 53 1024 _ Hv) as Hm. cbn [wf_float] in Hm.
  destruct (Z.leb_spec (-53) e) as [Hge|Hlt].
  { (* a multiple of 2^-53 below 1 *)
    left. apply Hexact. destruct (Z.leb_spec 0 e).
    - assert (E : r = 0 * 2 ^ 0); [|rewrite E; apply representable_small; rewrite ?emin64; lia].
      unfold r. cbn [fval]. rewrite cond_Zopp_mul.
      assert (E : 2 ^ (e - emin 53 1024) = 2 ^ e * unit64) by (unfold funit; rewrite <- pow2_split; [f_equal; lia|lia|rewrite emin64; lia]).
      rewrite E, Z.mul_assoc. by apply Z.mod_mul; lia.
    - assert (E : unit64 = 2 ^ (- e) * 2 ^ (e - emin 53 1024)).
      { unfold funit. rewrite <- pow2_split by (rewrite ?emin64; lia). f_equal. lia. }
      assert (0 < 2 ^ (e - emin 53 1024)) by (apply Z.pow_pos_nonneg; rewrite ?emin64; lia).
      assert (0 < 2 ^ (- e)) by (apply Z.pow_pos_nonneg; lia).
      unfold r. cbn [fval]. rewrite cond_Zopp_mul, E, Z.mul_mod_distr_r by lia.
      apply representable_small; [lia|rewrite emin64; lia| |rewrite emin64; lia].
      pose proof (Z.mod_pos_bound (cond_Zopp s (Zpos m)) (2 ^ (- e)) ltac:(lia)).
      assert (2 ^ (- e) <= 2 ^ 53) by (apply Z.pow_le_mono_r; lia). lia. }
  (* less than one half *)
  assert (Hsmall : Zpos m * 2 ^ (e - emin 53 1024) < half64).
  { unfold half64. replace (- emin 53 1024 - 1) with (53 + (-54 - emin 53 1024)) by lia.
    rewrite pow2_split by (rewrite ?emin64; lia).
    assert (0 < 2 ^ (e - emin 53 1024) <= 2 ^ (-54 - emin 53 1024)).
    { split; [apply Z.pow_pos_nonneg; rewrite ?emin64; lia|apply Z.pow_le_mono_r; lia]. } nia. }
  pose proof (fval_pos 53 1024 m e ltac:(rewrite emin64; lia)) as Hpos.
  pose proof unit64_half as HUH.
  assert (Hval : val64 (S754_finite s m e) = cond_Zopp s (Zpos m * 2 ^ (e - emin 53 1024))) by done.
  rewrite Hval in *. set (a := Zpos m * 2 ^ (e - emin 53 1024)) in *. destruct s; cbn [cond_Zopp] in *.
  - right. assert (Hq : q = -1) by nia. split; [done|]. split; [lia|]. unfold fraction, f64_sub.
    destruct (floor (S754_finite true m e)) as [t|t| |t n f] eqn:Efl; [simpl in L3; lia|done|done|].
    destruct (valid_finite 53 1024 t n f L2) as [_ Hff]. rewrite emin64 in Hff.
    cbn [SFsub]. set (g := Z.min e f).
    assert (E : (cond_Zopp true (Zpos (shl_align m e g).1) - cond_Zopp t (Zpos (shl_align n f g).1)) *
                2 ^ (g - emin 53 1024) = r).
    { rewrite Z.mul_sub_distr_r, <- !cond_Zopp_mul, !align_value by (rewrite ?emin64; lia).
      cbn [fval] in L3. rewrite L3. cbn [cond_Zopp]. fold a. lia. }
    set (z := cond_Zopp true _ - _) in *. assert (Hpg : 0 < 2 ^ (g - emin 53 1024)) by (apply Z.pow_pos_nonneg; rewrite ?emin64; lia).
    assert (0 < z) by (apply (Z.mul_pos_cancel_r z (2 ^ (g - emin 53 1024))); lia).
    destruct (binary_normalize_lower 53 1024 ltac:(lia) ltac:(lia) z g false (-1)) as (N1 & N2 & N3);
      try (rewrite ?emin64; lia).
    { rewrite E. replace (-1 + 1 - emin 53 1024) with (- emin 53 1024) by lia. fold unit64.
      replace (-1 - emin 53 1024) with (- emin 53 1024 - 1) by lia. fold half64. lia. }
    replace (-1 - emin 53 1024) with (- emin 53 1024 - 1) in N3 by lia. done.
  - left. apply Hexact. assert (Hq : q = 0) by (apply Z.div_small; lia).
    assert (E : r = a) by (unfold r; apply Z.mod_small; lia). rewrite E. unfold a.
    apply representable_small; rewrite ?emin64; lia.
Qed.

Lemma next_int l q : yields64 l (q * unit64) -> -2 ^ 52 <= q <= 2 ^ 52 ->
  yields64 (f64_add l f64_one) ((q + 1) * unit64).
Proof.
  intros (L1 & L2 & L3) Hq. destruct (int64_exact 1 ltac:(lia)) as (O1 & O2 & O3).
  change (f64_of_Z 1) with f64_one in *.
  assert (E : (q + 1) * unit64 = val64 l + val64 f64_one) by (rewrite L3, O3; lia).
  rewrite E. apply SFadd_exact; try done || lia. rewrite <- E. unfold funit.
  apply representable_small; rewrite ?emin64; lia.
Qed.

Lemma round_ties_even_spec x : valid64 x -> is_finite x = true -> Z.abs (val64 x) <= 2 ^ 51 * unit64 ->
  yields64 (apta_round_ties_even x) (ties_even (val64 x) unit64 * unit64).
Proof.
  intros Hv Hf Hbig. pose proof unit64_pos as HU. pose proof unit64_half as HUH.
  pose proof (floor_spec x Hv Hf) as Hlow. pose proof (fraction_spec x Hv Hf Hbig) as Hfrac. cbv zeta in Hfrac.
  unfold apta_round_ties_even, ties_even. cbv zeta.
  pose proof (Z.div_mod (val64 x) unit64 ltac:(lia)) as Hdm. pose proof (Z.mod_pos_bound (val64 x) unit64 HU) as Hr.
  set (q := val64 x / unit64) in *. set (r := val64 x mod unit64) in *.
  assert (Hq : - 2 ^ 51 - 1 <= q <= 2 ^ 51) by nia.
  pose proof (next_int _ _ Hlow ltac:(lia)) as Hup. rewrite (fmod_two _ q Hlow).
  destruct f64_half_exact as (H1 & H2 & H3).
  destruct Hfrac as [(F1 & F2 & F3)|(Hq1 & Hr2 & F1 & F2 & F3)].
  - rewrite !(SFltb_fval 53 1024) by done || lia. rewrite H3, F3.
    destruct (Z.ltb_spec r half64), (Z.ltb_spec (2 * r) unit64); try lia; [done|].
    destruct (Z.ltb_spec half64 r), (Z.ltb_spec unit64 (2 * r)); try lia; [done|].
    by destruct (Z.even q).
  - rewrite (SFltb_fval 53 1024) by done || lia. rewrite H3.
    destruct (Z.ltb_spec (val64 (f64_sub x (floor x))) half64); [lia|].
    destruct (Z.ltb_spec (2 * r) unit64); [lia|]. destruct (Z.ltb_spec unit64 (2 * r)); [|lia].
    rewrite Hq1 in *. by destruct (SFltb f64_half _).
Qed.

(** ** The values of the quantisers *)

(** The conversion of an integer is defined when it fits. *)
Lemma int_of_f64_spec low high x n : yields64 x (n * unit64) -> low <= n <= high -> low <= 0 <= high ->
  int_of_f64 low high x = Ret n.
Proof.
  intros (H1 & H2 & H3) Hn H0. pose proof unit64_pos as HU. destruct x as [s|s| |s m e]; try done; cbn [int_of_f64].
  - cbn [fval] in H3. assert (n = 0) as -> by nia. done.
  - destruct (valid_finite 53 1024 s m e H2) as [_ He]. rewrite emin64 in He.
    assert (E : cond_Zopp s (Z.shiftl (Zpos m) e) = n).
    { cbn [fval] in H3. rewrite cond_Zopp_mul in H3. destruct (Z.leb_spec 0 e).
      - rewrite Z.shiftl_mul_pow2, cond_Zopp_mul by lia. apply (Z.mul_cancel_r _ _ unit64); [lia|].
        rewrite <- H3. unfold funit. rewrite <- Z.mul_assoc, <- pow2_split by (rewrite ?emin64; lia). do 2 f_equal.
      - rewrite Z.shiftl_div_pow2 by lia.
        assert (Hp : 0 < 2 ^ (e - emin 53 1024)) by (apply Z.pow_pos_nonneg; rewrite ?emin64; lia).
        assert (Hp2 : 0 < 2 ^ (- e)) by (apply Z.pow_pos_nonneg; lia).
        assert (EU : unit64 = 2 ^ (- e) * 2 ^ (e - emin 53 1024)).
        { unfold funit. rewrite <- pow2_split by (rewrite ?emin64; lia). f_equal. lia. }
        assert (Em : cond_Zopp s (Zpos m) = n * 2 ^ (- e)).
        { apply (Z.mul_cancel_r _ _ (2 ^ (e - emin 53 1024))); [lia|]. rewrite H3, EU. lia. }
        destruct s; cbn [cond_Zopp] in *.
        + assert (Em' : Zpos m = - n * 2 ^ (- e)) by lia. rewrite Em', Z.div_mul by lia. lia.
        + rewrite Em, Z.div_mul; lia. }
    rewrite E. destruct ((low <=? n) && (n <=? high)) eqn:Eb; [done|]. lia.
Qed.

(** Clamping to an integer. *)
Lemma clamp_low x n b : yields64 x (n * unit64) -> Z.abs b < 2 ^ 53 ->
  yields64 (if SFltb x (f64_of_Z b) then f64_of_Z b else x) (Z.max n b * unit64).
Proof.
  intros (H1 & H2 & H3) Hb. pose proof unit64_pos as HU. destruct (int64_exact b Hb) as (B1 & B2 & B3).
  rewrite (SFltb_fval 53 1024) by done || lia. rewrite H3, B3.
  destruct (Z.ltb_spec (n * unit64) (b * unit64)); (split; [done|]; split; [done|]); rewrite ?B3, ?H3; nia.
Qed.

Lemma clamp_high x n b : yields64 x (n * unit64) -> Z.abs b < 2 ^ 53 ->
  yields64 (if SFltb (f64_of_Z b) x then f64_of_Z b else x) (Z.min n b * unit64).
Proof.
  intros (H1 & H2 & H3) Hb. pose proof unit64_pos as HU. destruct (int64_exact b Hb) as (B1 & B2 & B3).
  rewrite (SFltb_fval 53 1024) by done || lia. rewrite H3, B3.
  destruct (Z.ltb_spec (b * unit64) (n * unit64)); (split; [done|]; split; [done|]); rewrite ?B3, ?H3; nia.
Qed.

Abbreviation valid32 := (valid_float 24 128).
Abbreviation val32 := (fval 24 128).
Abbreviation unit32 := (funit 24 128).

Lemma unit32_pos : 0 < unit32.
Proof. apply funit_pos; lia. Qed.

Lemma emin32 : emin 24 128 = -149.
Proof. reflexivity. Qed.

(** A [float] is a [double] of the same value; the scales differ by this factor. *)
Definition widening : Z := 2 ^ 925.

Lemma widening_pos : 0 < widening.
Proof. apply Z.pow_pos_nonneg; lia. Qed.

Lemma widen_exact x : valid32 x -> is_finite x = true -> yields64 (f64_of_f32 x) (val32 x * widening).
Proof.
  intros Hv Hf. destruct x as [s|s| |s m e]; try done.
  destruct (valid_finite 24 128 s m e Hv) as [_ He]. rewrite emin32 in He.
  pose proof (valid_wf 24 128 _ Hv) as Hm. cbn [wf_float] in Hm. cbn [f64_of_f32 fval].
  unfold widening. rewrite cond_Zopp_mul, <- Z.mul_assoc, <- pow2_split by (rewrite ?emin32; lia).
  replace (e - emin 24 128 + 925) with (e - emin 53 1024) by (rewrite emin32, emin64; lia).
  apply binary_normalize_exact; [lia|lia|rewrite emin64; lia|].
  apply representable_small; rewrite ?emin64; [lia|lia| |lia].
  destruct s; cbn [cond_Zopp]; lia.
Qed.

Lemma scale_units : unit64 = unit32 * widening.
Proof. unfold funit, widening. rewrite <- pow2_split by (unfold emin; lia). f_equal. Qed.

Lemma exponent_bound h r w : 0 <= h -> 0 < r < 2 ^ 53 -> 0 <= w -> 2 ^ h <= r * 2 ^ w -> h - 53 < w.
Proof.
  intros Hh Hr Hw Hle. destruct (Z.leb_spec w (h - 53)); [|done]. exfalso.
  assert (r * 2 ^ w < 2 ^ 53 * 2 ^ w) by (apply Z.mul_lt_mono_pos_r; [apply Z.pow_pos_nonneg; lia|lia]).
  rewrite <- pow2_split in * by lia. assert (2 ^ (53 + w) <= 2 ^ h) by (apply Z.pow_le_mono_r; lia). lia.
Qed.

(** The product by a 16-bit integer is exact. *)
Lemma scaled_exact x k : valid32 x -> is_finite x = true -> 0 < k < 2 ^ 16 ->
  yields64 (f64_mul (f64_of_f32 x) (f64_of_Z k)) (val32 x * k * widening).
Proof.
  intros Hv Hf Hk. destruct (widen_exact x Hv Hf) as (W1 & W2 & W3).
  destruct (int64_exact k ltac:(lia)) as (K1 & K2 & K3). pose proof unit64_pos as HU.
  destruct (f64_of_Z k) as [t|t| |t n f] eqn:Ec; [cbn [fval] in K3; nia|done|done|].
  destruct x as [s|s| |s m e]; [by destruct s, t|done|done|].
  destruct (valid_finite 24 128 s m e Hv) as [_ He]. rewrite emin32 in He.
  pose proof (valid_wf 24 128 _ Hv) as Hm. cbn [wf_float] in Hm.
  pose proof (fval_pos 24 128 m e ltac:(rewrite emin32; lia)) as Hpos.
  pose proof widening_pos as Hp925.
  destruct (f64_of_f32 (S754_finite s m e)) as [u|u| |u p g]; [|done|done|].
  { exfalso. cbn [fval] in W3. destruct s; cbn [cond_Zopp] in W3; nia. }
  destruct (valid_finite _ _ _ _ _ W2) as [_ Hg], (valid_finite _ _ _ _ _ K2) as [_ Hff]. rewrite emin64 in Hg, Hff.
  pose proof (valid_wf 53 1024 _ W2) as Hp. pose proof (valid_wf 53 1024 _ K2) as Hn. cbn [wf_float] in Hp, Hn.
  apply SFmul_exact; try done; try lia.
  - (* both factors are far above the least exponent *)
    assert (925 - 53 < g - emin 53 1024).
    { apply (exponent_bound 925 (Zpos p)); [lia|lia|rewrite emin64; lia|]. fold widening.
      assert (E : Zpos p * 2 ^ (g - emin 53 1024) = Zpos m * 2 ^ (e - emin 24 128) * widening); [|rewrite E; nia].
      cbn [fval] in W3. pose proof (fval_pos 53 1024 p g ltac:(rewrite emin64; lia)).
      destruct u, s; cbn [cond_Zopp] in W3; nia. }
    assert (- emin 53 1024 - 53 < f - emin 53 1024).
    { apply (exponent_bound _ (Zpos n)); [rewrite emin64; lia|lia|rewrite emin64; lia|]. fold unit64. cbn [fval] in K3.
      pose proof (fval_pos 53 1024 n f ltac:(rewrite emin64; lia)).
      destruct t; cbn [cond_Zopp] in K3; nia. }
    rewrite emin64 in *. lia.
  - cbn [fval]. rewrite cond_Zopp_mul.
    replace (cond_Zopp s (Zpos m) * 2 ^ (e - emin 24 128) * k * widening)
      with (cond_Zopp s (Zpos m) * k * (2 ^ (e - emin 24 128) * widening)) by lia.
    unfold widening. rewrite <- pow2_split by (rewrite ?emin32; lia). apply representable_small; rewrite ?emin32, ?emin64; try lia.
    destruct s; cbn [cond_Zopp]; nia.
Qed.

Lemma f32_one_exact : yields 24 128 f32_one unit32.
Proof. rewrite f32_one_eq. split; [done|]. split; [by vm_compute|by vm_compute]. Qed.
Lemma f32_minus_one_exact : yields 24 128 f32_minus_one (- unit32).
Proof. rewrite f32_minus_one_eq. split; [done|]. split; [by vm_compute|by vm_compute]. Qed.

(** The value of a quantised peak. *)
Definition quantized_peak (v : Z) : Z :=
  if v <=? - unit32 then -32768 else if unit32 <=? v then 32767 else ties_even (v * 32767) unit32.

Lemma ties_even_scale a u k : 0 < u -> 0 < k -> ties_even (a * k) (u * k) = ties_even a u.
Proof.
  intros Hu Hk. unfold ties_even. rewrite Z.div_mul_cancel_r, Z.mul_mod_distr_r by lia.
  assert (H1 : forall x y, (2 * (x * k) <? y * k) = (2 * x <? y)).
  { intros x y. destruct (Z.ltb_spec (2 * (x * k)) (y * k)), (Z.ltb_spec (2 * x) y); nia. }
  assert (H2 : forall x y, (y * k <? 2 * (x * k)) = (y <? 2 * x)).
  { intros x y. destruct (Z.ltb_spec (y * k) (2 * (x * k))), (Z.ltb_spec y (2 * x)); nia. }
  by rewrite H1, H2.
Qed.

Lemma quantized_peak_inner v : - unit32 < v < unit32 -> -32767 <= ties_even (v * 32767) unit32 <= 32767.
Proof.
  intros Hv. pose proof unit32_pos as HU. split.
  - rewrite <- (ties_even_int (-32767) unit32) by done. apply ties_even_mono; lia.
  - rewrite <- (ties_even_int 32767 unit32) at 2 by done. apply ties_even_mono; lia.
Qed.

Lemma quantize_peak_value x : valid32 x -> is_finite x = true ->
  apta_quantize_peak x = Ret (quantized_peak (val32 x)).
Proof.
  intros Hv Hf. unfold apta_quantize_peak, quantized_peak. pose proof unit32_pos as HU.
  destruct f32_one_exact as (O1 & O2 & O3), f32_minus_one_exact as (N1 & N2 & N3).
  rewrite !(SFleb_fval 24 128) by done || lia. rewrite O3, N3.
  destruct (Z.leb_spec (val32 x) (- unit32)); [done|]. destruct (Z.leb_spec unit32 (val32 x)); [done|].
  pose proof (quantized_peak_inner (val32 x) ltac:(lia)) as Hin. cbv zeta.
  destruct (scaled_exact x 32767 Hv Hf ltac:(lia)) as (S1 & S2 & S3).
  pose proof widening_pos as Hp925.
  pose proof (round_ties_even_spec _ S2 S1) as Hround. rewrite S3, scale_units, ties_even_scale in Hround by done.
  rewrite <- scale_units in Hround. specialize (Hround ltac:(rewrite scale_units; nia)).
  pose proof (clamp_high _ _ INT16_MAX (clamp_low _ _ INT16_MIN Hround ltac:(done)) ltac:(done)) as Hclamp.
  rewrite (int_of_f64_spec _ _ _ _ Hclamp) by (unfold INT16_MIN, INT16_MAX; lia).
  f_equal. unfold INT16_MIN, INT16_MAX. lia.
Qed.

Lemma quantized_peak_range v : is_i16 (quantized_peak v).
Proof.
  unfold quantized_peak, is_i16. destruct (Z.leb_spec v (- unit32)); [lia|]. destruct (Z.leb_spec unit32 v); [lia|].
  pose proof (quantized_peak_inner v). lia.
Qed.

Lemma quantized_peak_mono v w : v <= w -> quantized_peak v <= quantized_peak w.
Proof.
  intros Hvw. unfold quantized_peak. pose proof unit32_pos. pose proof (quantized_peak_inner v). pose proof (quantized_peak_inner w).
  destruct (Z.leb_spec v (- unit32)), (Z.leb_spec w (- unit32)), (Z.leb_spec unit32 v), (Z.leb_spec unit32 w); try lia.
  apply ties_even_mono; lia.
Qed.

(** ** Means *)

(** Neither a NaN nor below zero. *)
Definition nonneg_float (x : spec_float) : Prop :=
  match x with S754_nan | S754_infinity true | S754_finite true _ _ => False | _ => True end.

Lemma round_nonneg m e l : 0 <= m -> nonneg_float (binary_round_aux 53 1024 false m e l).
Proof.
  intros Hm. destruct (binary_round_spec 53 1024 ltac:(lia) false m e l Hm) as (m2 & e2 & -> & _).
  destruct m2; try done. by destruct (e2 <=? _).
Qed.

Lemma f64_of_Z_nonneg z : 0 <= z -> nonneg_float (f64_of_Z z).
Proof.
  intros Hz. unfold f64_of_Z, binary_normalize, binary_round. destruct z as [|p|p]; [done| |lia].
  destruct (shl_align _ _ _). by apply round_nonneg.
Qed.

Lemma f64_div_nonneg x n f : nonneg_float x -> nonneg_float (f64_div x (S754_finite false n f)).
Proof.
  intros Hx. destruct x as [[]|[]| |[] m e]; try done. unfold f64_div. cbn [SFdiv]. unfold SFdiv_core_binary.
  set (e' := Z.min _ _). set (m' := match e - f - e' with Zpos _ => _ | _ => _ end).
  assert (0 <= m') by (unfold m'; destruct (e - f - e'); [lia|by apply Z.shiftl_nonneg|lia]).
  destruct (Z.div_eucl m' (Zpos n)) as [q r] eqn:E.
  assert (q = m' / Zpos n) as -> by (unfold Z.div; by rewrite E).
  apply round_nonneg. apply Z.div_pos; lia.
Qed.

Lemma sqrt_nonneg x : nonneg_float x -> nonneg_float (sqrt x).
Proof.
  intros Hx. destruct x as [[]|[]| |[] m e]; try done. unfold sqrt. cbn [SFsqrt]. unfold SFsqrt_core_binary.
  set (m' := match _ with Zpos _ => _ | _ => _ end). destruct (Z.sqrtrem m') as [q r] eqn:E.
  apply round_nonneg. assert (q = Z.sqrt m') as -> by (rewrite <- Z.sqrtrem_sqrt; by rewrite E). apply Z.sqrt_nonneg.
Qed.

Lemma positive_int z : 0 < z < 2 ^ 53 -> exists m e, f64_of_Z z = S754_finite false m e.
Proof.
  intros Hz. destruct (int64_exact z ltac:(lia)) as (H1 & H2 & H3). pose proof unit64_pos.
  pose proof (f64_of_Z_nonneg z ltac:(lia)) as Hn.
  destruct (f64_of_Z z) as [s|s| |[] m e]; try done; [cbn [fval] in H3; nia|by exists m, e].
Qed.

Lemma fval_mag k x : valid64 x -> is_finite x = true -> -1074 <= k -> Z.abs (val64 x) <= 2 ^ (k - emin 53 1024) -> mag_le k x.
Proof.
  intros Hv Hf Hk Hle. destruct x as [s|s| |s m e]; try done. cbn [mag_le].
  destruct (valid_finite 53 1024 s m e Hv) as [_ He]. rewrite emin64 in He.
  pose proof (fval_pos 53 1024 m e ltac:(rewrite emin64; lia)) as Hpos.
  assert (Hle' : Zpos m * 2 ^ (e - emin 53 1024) <= 2 ^ (k - emin 53 1024)).
  { cbn [fval] in Hle. destruct s; cbn [cond_Zopp] in Hle; lia. }
  assert (Hp : 0 < 2 ^ (e - emin 53 1024)) by (apply Z.pow_pos_nonneg; rewrite ?emin64; lia).
  destruct (Z.leb_spec e k).
  - apply (Z.mul_le_mono_pos_r _ _ (2 ^ (e - emin 53 1024))); [done|].
    rewrite <- pow2_split by (rewrite ?emin64; lia). by replace (k - e + (e - emin 53 1024)) with (k - emin 53 1024) by lia.
  - exfalso. assert (2 ^ (k - emin 53 1024) < 2 ^ (e - emin 53 1024)) by (apply Z.pow_lt_mono_r; rewrite ?emin64; lia). nia.
Qed.

(** The clamp to [0, 1]. *)
Lemma clamp_unit64 x : valid64 x -> nonneg_float x ->
  let y := if SFltb x f64_zero then f64_zero else x in
  let z := if SFltb f64_one y then f64_one else y in
  valid64 z /\ is_finite z = true /\ 0 <= val64 z <= unit64.
Proof.
  intros Hv Hn. pose proof unit64_pos. destruct (int64_exact 1 ltac:(lia)) as (O1 & O2 & O3). change (f64_of_Z 1) with f64_one in *.
  assert (Hx : SFltb x f64_zero = false) by (by destruct x as [[]|[]| |[] m e]). cbv zeta. rewrite Hx.
  destruct (is_finite x) eqn:Ef.
  - rewrite (SFltb_fval 53 1024) by done || lia. rewrite O3.
    assert (0 <= val64 x).
    { destruct x as [s|s| |[] m e]; try done. destruct (valid_finite _ _ _ _ _ Hv) as [_ He].
      pose proof (fval_pos 53 1024 m e ltac:(lia)). cbn [fval cond_Zopp]. lia. }
    destruct (Z.ltb_spec (1 * unit64) (val64 x)); split_and!; try done; lia.
  - assert (El : SFltb f64_one (S754_infinity false) = true) by (by vm_compute).
    destruct x as [s|[]| |s m e]; [discriminate Ef|destruct Hn| |destruct Hn|discriminate Ef].
    rewrite El. split; [exact O2|]. split; [exact O1|]. lia.
Qed.

Lemma scale_square : f64_of_f32 APTA_INTERNAL_SQUARE_MAGNITUDE_SCALE = S754_finite false 4503599627370496 (-29).
Proof. by vm_compute. Qed.

(** The stored RMS is defined whatever the sums are, and it is in range. *)
Lemma quantize_rms_range sum_squares sample_count : 0 <= sum_squares -> 0 <= sample_count < 2 ^ 53 ->
  exists v, apta_quantize_rms sum_squares sample_count = Ret v /\ is_u16 v.
Proof.
  intros Hs Hc. unfold apta_quantize_rms, is_u16. destruct (Z.eqb_spec sample_count 0); [exists 0; split; [done|lia]|].
  destruct (positive_int sample_count ltac:(lia)) as (m & e & Ec). rewrite Ec, scale_square. cbv zeta.
  set (x := f64_div (sqrt _) _).
  assert (Hx : nonneg_float x) by (apply f64_div_nonneg, sqrt_nonneg, f64_div_nonneg; by apply f64_of_Z_nonneg).
  assert (Hv : valid64 x) by (apply SFdiv_valid; lia). destruct (clamp_unit64 x Hv Hx) as (Z1 & Z2 & Z3).
  set (y := if SFltb x f64_zero then f64_zero else x) in *. set (z := if SFltb f64_one y then f64_one else y) in *.
  clearbody z. destruct (int64_exact 65535 ltac:(lia)) as (O1 & O2 & O3). pose proof unit64_pos as HU.
  set (p := f64_mul z (f64_of_Z 65535)). assert (P1 : valid64 p) by (apply SFmul_valid; done || lia).
  assert (P2 : mag_le (0 + 16) p).
  { apply SFmul_mag; [lia|unfold in_range; rewrite emin64; lia| |].
    - apply fval_mag; [done|done|lia|]. unfold funit in Z3. rewrite Z.sub_0_l. lia.
    - apply fval_mag; [exact O2|exact O1|lia|]. rewrite O3. unfold funit. replace (16 - emin 53 1024) with (16 + - emin 53 1024) by lia.
      rewrite pow2_split by (rewrite ?emin64; lia). unfold funit in HU. nia. }
  pose proof (mag_fval 53 1024 _ p P1 P2 ltac:(rewrite emin64; lia)) as P3.
  replace (0 + 16 - emin 53 1024) with (16 + - emin 53 1024) in P3 by lia.
  rewrite pow2_split in P3 by (rewrite ?emin64; lia). fold unit64 in P3.
  pose proof (round_ties_even_spec p P1 (mag_finite _ _ P2) ltac:(nia)) as Hround.
  pose proof (clamp_high _ _ 65535 (clamp_low _ _ 0 Hround ltac:(done)) ltac:(done)) as Hclamp.
  change (f64_of_Z 0) with f64_zero in Hclamp.
  rewrite (int_of_f64_spec _ _ _ _ Hclamp) by lia. eexists. split; [reflexivity|]. lia.
Qed.

Lemma quantize_band_range sum sample_count : is_u32 sum -> is_u32 sample_count ->
  apta_quantize_band sum sample_count =
    (if sample_count =? 0 then 0 else Z.min 255 (sum * 255 / (sample_count * 32768))) /\
  is_u8 (apta_quantize_band sum sample_count).
Proof.
  unfold is_u32, is_u8, apta_quantize_band. intros Hs Hc. destruct (Z.eqb_spec sample_count 0); [lia|].
  rewrite (u64_small (sum * 255)), (u64_small (sample_count * 32768)) by (unfold is_u64; lia).
  assert (Hle : 0 <= sum * 255 / (sample_count * 32768) <= 4294967295).
  { split; [apply Z.div_pos; lia|]. apply Z.div_le_upper_bound; nia. }
  rewrite u32_small by (unfold is_u32; lia). cbv zeta. destruct (Z.ltb_spec 255 (sum * 255 / (sample_count * 32768))); lia.
Qed.

(** C24. The snapshot's rounding rounds: for every [double] of magnitude at most 2^51, the
    result is exactly the nearest integer, and the even one of the two nearest when
    the value lies in the middle -- although the subtraction inside the function is
    itself rounded, so that a value just above -1/2 takes the branch of a tie. *)
Theorem round_ties_even_correct (x : spec_float) (Hvalid : valid64 x) (Hfinite : is_finite x = true)
    (Hsize : Z.abs (val64 x) <= 2 ^ 51 * unit64) :
  let y := apta_round_ties_even x in
  is_finite y = true /\ valid64 y /\
  exists n, val64 y = n * unit64 /\ n = ties_even (val64 x) unit64 /\
    (forall k, Z.abs (n * unit64 - val64 x) <= Z.abs (k * unit64 - val64 x)) /\
    (2 * Z.abs (n * unit64 - val64 x) = unit64 -> Z.even n = true).
Proof.
  destruct (round_ties_even_spec x Hvalid Hfinite Hsize) as (H1 & H2 & H3). split; [done|]. split; [done|].
  eexists. split; [exact H3|]. split; [done|]. pose proof unit64_pos as HU. split.
  - intros k. pose proof (ties_even_near (val64 x) unit64 HU). set (n := ties_even _ _) in *.
    destruct (Z.eq_dec k n) as [->|]; [done|]. nia.
  - unfold ties_even. cbv zeta. pose proof (Z.div_mod (val64 x) unit64 ltac:(lia)).
    pose proof (Z.mod_pos_bound (val64 x) unit64 HU). set (q := val64 x / unit64) in *. set (r := val64 x mod unit64) in *.
    destruct (Z.ltb_spec (2 * r) unit64); [lia|]. destruct (Z.ltb_spec unit64 (2 * r)); [lia|].
    destruct (Z.even q) eqn:Eq; [done|]. intros _. rewrite Z.add_1_r, Z.even_succ, <- Z.negb_even. by rewrite Eq.
Qed.

(** The largest [double] below 1/2, negated: its fraction rounds to 1/2. *)
Definition below_half : spec_float := S754_finite true 9007199254740991 (-54).

Lemma below_half_size : valid64 below_half /\ Z.abs (val64 below_half) <= 2 ^ 51 * unit64.
Proof.
  assert (Hv : valid64 below_half) by (by vm_compute). split; [done|]. pose proof unit64_pos.
  assert (Hm : mag_le 0 below_half) by (vm_compute; congruence).
  pose proof (mag_fval 53 1024 0 below_half Hv Hm ltac:(rewrite emin64; lia)) as H1. rewrite Z.sub_0_l in H1.
  fold unit64 in H1. lia.
Qed.

Lemma round_ties_even_correct_witness :
  SFeqb (f64_sub below_half (floor below_half)) f64_half = true /\ apta_round_ties_even below_half = f64_zero /\
  exists n, val64 (apta_round_ties_even below_half) = n * unit64 /\ n = ties_even (val64 below_half) unit64.
Proof.
  split; [vm_compute; reflexivity|]. split; [vm_compute; reflexivity|].
  destruct (round_ties_even_correct below_half) as (_ & _ & n & H1 & H2 & _);
    [exact (proj1 below_half_size)|reflexivity|exact (proj2 below_half_size)|]. exists n. split; assumption.
Defined.

(** C23. A peak is stored as the nearest 16-bit step of 1/32767, ties to even, and the
    ends of the range as -32768 and 32767; storing never inverts the order of two
    samples and no conversion is undefined. *)
Theorem quantize_peak_correct (x y : spec_float) (Hx : valid32 x) (Hy : valid32 y)
    (Hfx : is_finite x = true) (Hfy : is_finite y = true) :
  apta_quantize_peak x = Ret (quantized_peak (val32 x)) /\ is_i16 (quantized_peak (val32 x)) /\
  (- unit32 < val32 x < unit32 -> 2 * Z.abs (quantized_peak (val32 x) * unit32 - val32 x * 32767) <= unit32) /\
  (SFleb x y = true -> quantized_peak (val32 x) <= quantized_peak (val32 y)).
Proof.
  split; [by apply quantize_peak_value|]. split; [apply quantized_peak_range|]. split.
  - intros Hin. unfold quantized_peak. pose proof unit32_pos.
    destruct (Z.leb_spec (val32 x) (- unit32)); [lia|]. destruct (Z.leb_spec unit32 (val32 x)); [lia|].
    by apply ties_even_near.
  - rewrite (SFleb_fval 24 128) by done || lia. intros Hle. apply quantized_peak_mono. by apply Z.leb_le.
Qed.

Lemma quantize_peak_correct_witness :
  apta_quantize_peak f32_half = Ret 16384 /\ apta_quantize_peak f32_minus_one = Ret (-32768) /\
  quantized_peak (val32 f32_half) <= quantized_peak (val32 f32_one).
Proof.
  split; [vm_compute; reflexivity|]. split; [vm_compute; reflexivity|].
  apply (quantize_peak_correct f32_half f32_one); vm_compute; reflexivity.
Defined.
