(* ===== verification/Bytes.v ===== *)
(** * Byte buffers and CRC-32C (serialization/apta_crc32c.c, the accessors of
    apta_wovr_writer.c and apta_wovr_reader.c)

    A buffer is the list of its bytes and a pointer into it an offset; an access
    outside it is [Ub].  The second half proves what the writers and readers need
    of the little-endian accessors, and the error-detection property of the
    checksum. *)

From S2P Require Import Prelude Platform.

Definition bytes_ok (b : list Z) : Prop := Forall is_u8 b.
Definition zlen {T} (b : list T) : Z := Z.of_nat (length b).

(** ** Single bytes *)

Definition get8 (b : list Z) (p : Z) : result Z :=
  if p <? 0 then Ub else arr_get b (Z.to_nat p).

Definition put8 (b : list Z) (p v : Z) : result (list Z) :=
  if p <? 0 then Ub else arr_put b (Z.to_nat p) (u8 v).

(** [size] bytes at [p]: the source of a [memcpy], an operand of [memcmp]. *)
Fixpoint get_bytes (b : list Z) (p : Z) (size : nat) : result (list Z) :=
  match size with
  | O => Ret []
  | S size =>
      let! x := get8 b p in
      let! l := get_bytes b (p + 1) size in
      Ret (x :: l)
  end.

(** The destination of a [memcpy]. *)
Fixpoint put_bytes (b : list Z) (p : Z) (l : list Z) : result (list Z) :=
  match l with
  | [] => Ret b
  | x :: l => let! b := put8 b p x in put_bytes b (p + 1) l
  end.

(** ** Little-endian accessors *)

Definition apta_put_u16 (b : list Z) (p value : Z) : result (list Z) :=
  let! b := put8 b (p + 0) (Z.land value 255) in
  put8 b (p + 1) (Z.land (Z.shiftr value 8) 255).

Definition apta_put_u32 (b : list Z) (p value : Z) : result (list Z) :=
  let! b := put8 b (p + 0) (Z.land value 255) in
  let! b := put8 b (p + 1) (Z.land (Z.shiftr value 8) 255) in
  let! b := put8 b (p + 2) (Z.land (Z.shiftr value 16) 255) in
  put8 b (p + 3) (Z.land (Z.shiftr value 24) 255).

Definition apta_put_u64 (b : list Z) (p value : Z) : result (list Z) :=
  let! b := apta_put_u32 b p (u32 (Z.land value UINT32_MAX)) in
  apta_put_u32 b (p + 4) (u32 (Z.shiftr value 32)).

Definition apta_get_u16 (b : list Z) (p : Z) : result Z :=
  let! x0 := get8 b (p + 0) in
  let! x1 := get8 b (p + 1) in
  Ret (u16 (Z.lor x0 (Z.shiftl x1 8))).

Definition apta_get_u32 (b : list Z) (p : Z) : result Z :=
  let! x0 := get8 b (p + 0) in
  let! x1 := get8 b (p + 1) in
  let! x2 := get8 b (p + 2) in
  let! x3 := get8 b (p + 3) in
  Ret (Z.lor (Z.lor (Z.lor x0 (Z.shiftl x1 8)) (Z.shiftl x2 16)) (Z.shiftl x3 24)).

Definition apta_get_u64 (b : list Z) (p : Z) : result Z :=
  let! low := apta_get_u32 b p in
  let! high := apta_get_u32 b (p + 4) in
  Ret (Z.lor low (Z.shiftl high 32)).

Definition apta_get_i16 (b : list Z) (p : Z) : result Z :=
  let! v := apta_get_u16 b p in Ret (i16 v).

(** ** CRC-32C *)

(** [(uint32_t)-(int32_t)(crc & 1u)] is all ones or zero. *)
Definition crc32c_bit (crc : Z) : Z :=
  let mask := u32 (- Z.land crc 1) in
  Z.lxor (Z.shiftr crc 1) (Z.land 0x82F63B78 mask).

Fixpoint crc32c_step (n : nat) (crc : Z) : Z :=
  match n with
  | O => crc
  | S n => crc32c_step n (crc32c_bit crc)
  end.

Definition crc32c_byte (crc byte : Z) : Z := crc32c_step 8 (Z.lxor crc byte).

(** [None] is a NULL pointer; with a size of 0 the loop would return 0 too. *)
Definition apta_internal_crc32c (data : option (list Z)) : Z :=
  match data with
  | None => 0
  | Some data => Z.lxor (fold_left crc32c_byte data 0xFFFFFFFF) 0xFFFFFFFF
  end.

(** The checksum of [size] bytes at [p] of a buffer. *)
Definition crc32c_at (b : list Z) (p : Z) (size : nat) : result Z :=
  let! l := get_bytes b p size in Ret (apta_internal_crc32c (Some l)).

Example crc32c_check_value :
  apta_internal_crc32c (Some [49; 50; 51; 52; 53; 54; 55; 56; 57]) = 0xE3069283.
Proof. vm_compute. reflexivity. Qed.

(** ** Little-endian encodings *)

Fixpoint le_bytes (n : nat) (v : Z) : list Z :=
  match n with
  | O => []
  | S n => v mod 256 :: le_bytes n (v / 256)
  end.

(** [l] stands in [b] at [p]. *)
Definition holds (b : list Z) (p : Z) (l : list Z) : Prop :=
  exists b1 b2, b = b1 ++ l ++ b2 /\ p = zlen b1.

Lemma zlen_app {T} (l k : list T) : zlen (l ++ k) = zlen l + zlen k.
Proof. unfold zlen. rewrite length_app. lia. Qed.
Lemma zlen_cons {T} (x : T) l : zlen (x :: l) = 1 + zlen l.
Proof. unfold zlen. simpl. lia. Qed.
Lemma zlen_nil {T} : zlen (@nil T) = 0.
Proof. reflexivity. Qed.
Lemma zlen_nonneg {T} (l : list T) : 0 <= zlen l.
Proof. unfold zlen. lia. Qed.
Lemma length_le_bytes n v : length (le_bytes n v) = n.
Proof. revert v. induction n; intros v; simpl; auto. Qed.
Lemma zlen_le_bytes n v : zlen (le_bytes n v) = Z.of_nat n.
Proof. unfold zlen. by rewrite length_le_bytes. Qed.
Lemma zlen_replicate {T} n (x : T) : zlen (replicate n x) = Z.of_nat n.
Proof. unfold zlen. by rewrite length_replicate. Qed.

Ltac zlen :=
  repeat first [rewrite zlen_app | rewrite zlen_cons | rewrite zlen_nil
               | rewrite zlen_le_bytes | rewrite zlen_replicate].

Lemma bytes_ok_le n v : bytes_ok (le_bytes n v).
Proof.
  revert v. induction n as [|n IH]; intros v; simpl; constructor; [|apply IH].
  unfold is_u8. pose proof (Z.mod_pos_bound v 256). lia.
Qed.

(** *** Writing *)

Lemma put8_middle b1 y b2 p v :
  p = zlen b1 -> put8 (b1 ++ y :: b2) p v = Ret (b1 ++ u8 v :: b2).
Proof.
  intros ->. unfold put8. destruct (Z.ltb_spec (zlen b1) 0); [unfold zlen in *; lia|].
  apply arr_put_middle. unfold zlen. lia.
Qed.

Lemma put_bytes_middle b1 old b2 p l :
  p = zlen b1 -> length old = length l -> bytes_ok l ->
  put_bytes (b1 ++ old ++ b2) p l = Ret (b1 ++ l ++ b2).
Proof.
  revert b1 old p. induction l as [|x l IH]; intros b1 [|y old] p Hp Hl Hok; try discriminate.
  - done.
  - inversion Hok as [|? ? Hx Hok']; subst. simpl.
    rewrite put8_middle by done. simpl. rewrite (u8_small x Hx).
    pose proof (IH (b1 ++ [x]) old (zlen b1 + 1)) as H.
    rewrite <- !app_assoc in H. apply H; [by zlen | by injection Hl | done].
Qed.

(** Every accessor writes the bytes of its encoding, one after the other. *)
Lemma byte_of v k : 0 <= k -> Z.land (Z.shiftr v (8 * k)) 255 = (v / 256 ^ k) mod 256.
Proof.
  intros Hk. rewrite Z.shiftr_div_pow2 by lia.
  change 255 with (Z.ones 8). rewrite Z.land_ones by lia.
  by replace (2 ^ (8 * k)) with (256 ^ k) by (change 256 with (2 ^ 8); by rewrite <- Z.pow_mul_r by lia).
Qed.

Lemma bytes_of v :
  [Z.land v 255; Z.land (Z.shiftr v 8) 255; Z.land (Z.shiftr v 16) 255; Z.land (Z.shiftr v 24) 255]
  = le_bytes 4 v.
Proof.
  cbn [le_bytes]. rewrite !Z.div_div by lia.
  pose proof (byte_of v 0 ltac:(lia)) as H0. pose proof (byte_of v 1 ltac:(lia)) as H1.
  pose proof (byte_of v 2 ltac:(lia)) as H2. pose proof (byte_of v 3 ltac:(lia)) as H3.
  change (8 * 0) with 0 in H0. change (8 * 1) with 8 in H1.
  change (8 * 2) with 16 in H2. change (8 * 3) with 24 in H3.
  rewrite Z.shiftr_0_r in H0. rewrite H0, H1, H2, H3.
  change (256 ^ 0) with 1. by rewrite Z.div_1_r.
Qed.

Lemma put_u16_bytes b p v : apta_put_u16 b p v = put_bytes b p (le_bytes 2 v).
Proof.
  pose proof (bytes_of v) as H. simpl in H. injection H as H0 H1 _ _.
  unfold apta_put_u16. simpl. rewrite H0, H1, Z.add_0_r.
  destruct (put8 b p _); simpl; [|done..]. by destruct (put8 _ (p + 1) _).
Qed.

Lemma put_u32_bytes b p v : apta_put_u32 b p v = put_bytes b p (le_bytes 4 v).
Proof.
  pose proof (bytes_of v) as H. unfold apta_put_u32. rewrite <- H. simpl.
  rewrite Z.add_0_r. replace (p + 1 + 1) with (p + 2) by lia. replace (p + 2 + 1) with (p + 3) by lia.
  destruct (put8 b p _); simpl; [|done..]. destruct (put8 _ (p + 1) _); simpl; [|done..].
  destruct (put8 _ (p + 2) _); simpl; [|done..]. by destruct (put8 _ (p + 3) _).
Qed.

Lemma put_bytes_app b p l k :
  put_bytes b p (l ++ k) = (let! b := put_bytes b p l in put_bytes b (p + zlen l) k).
Proof.
  revert b p. induction l as [|x l IH]; intros b p; simpl.
  - by rewrite zlen_nil, Z.add_0_r.
  - destruct (put8 b p x); simpl; [|done..]. rewrite IH.
    by rewrite zlen_cons, Z.add_assoc.
Qed.

Lemma le_bytes_app n m v : le_bytes (n + m) v = le_bytes n v ++ le_bytes m (v / 256 ^ Z.of_nat n).
Proof.
  revert v. induction n as [|n IH]; intros v.
  - simpl. by rewrite Z.div_1_r.
  - cbn [Nat.add le_bytes app]. rewrite IH. f_equal. f_equal.
    rewrite Nat2Z.inj_succ, Z.pow_succ_r, Z.div_div by lia. done.
Qed.

Lemma le_bytes_mod n v : le_bytes n (v mod 256 ^ Z.of_nat n) = le_bytes n v.
Proof.
  revert v. induction n as [|n IH]; intros v; [done|].
  cbn [le_bytes]. rewrite Nat2Z.inj_succ, Z.pow_succ_r by lia.
  assert (0 < 256 ^ Z.of_nat n) by (apply Z.pow_pos_nonneg; lia).
  rewrite Z.rem_mul_r by lia. f_equal.
  - rewrite Z.mul_comm, Z.mod_add by lia. apply Z.mod_mod. lia.
  - rewrite <- (IH (v / 256)). f_equal.
    rewrite Z.mul_comm, Z.div_add by lia.
    rewrite (Z.div_small (v mod 256)) by (apply Z.mod_pos_bound; lia). lia.
Qed.

Lemma put_u64_bytes b p v : apta_put_u64 b p v = put_bytes b p (le_bytes 8 v).
Proof.
  unfold apta_put_u64. change 8%nat with (4 + 4)%nat. rewrite le_bytes_app, put_bytes_app.
  rewrite !put_u32_bytes, zlen_le_bytes.
  replace (le_bytes 4 (u32 (Z.land v UINT32_MAX))) with (le_bytes 4 v).
  - destruct (put_bytes b p _); cbn [obind]; [|done..].
    rewrite put_u32_bytes. change (Z.of_nat 4) with 4. f_equal. rewrite Z.shiftr_div_pow2 by lia.
    apply (le_bytes_mod 4).
  - change UINT32_MAX with (Z.ones 32). rewrite Z.land_ones by lia.
    unfold u32. change 4294967296 with (256 ^ Z.of_nat 4). change (2 ^ 32) with (256 ^ Z.of_nat 4).
    by rewrite !le_bytes_mod.
Qed.

(** *** Reading *)

Lemma holds_range b p l : holds b p l -> 0 <= p /\ p + zlen l <= zlen b.
Proof.
  intros (b1 & b2 & -> & ->). zlen. pose proof (zlen_nonneg b1). pose proof (zlen_nonneg b2). lia.
Qed.

Lemma holds_self b : holds b 0 b.
Proof. exists [], []. by rewrite app_nil_r. Qed.

Lemma holds_app b p l k : holds b p (l ++ k) <-> holds b p l /\ holds b (p + zlen l) k.
Proof.
  split.
  - intros (b1 & b2 & -> & ->). split.
    + exists b1, (k ++ b2). by rewrite <- app_assoc.
    + exists (b1 ++ l), b2. rewrite zlen_app. by rewrite <- !app_assoc.
  - intros [(b1 & b2 & -> & ->) (c1 & c2 & Hc & Hp)].
    exists b1, c2. split; [|done]. rewrite app_assoc in Hc.
    apply app_inj_1 in Hc as [<- ->]; [by rewrite <- !app_assoc|].
    rewrite length_app. unfold zlen in Hp. lia.
Qed.

Lemma holds_cons b p x l : holds b p (x :: l) <-> holds b p [x] /\ holds b (p + 1) l.
Proof. change (x :: l) with ([x] ++ l). apply holds_app. Qed.

Lemma holds_at b p n :
  0 <= p -> p + Z.of_nat n <= zlen b -> exists l, length l = n /\ holds b p l.
Proof.
  intros Hp Hn. unfold zlen in Hn. exists (take n (drop (Z.to_nat p) b)). split.
  - rewrite length_take, length_drop. lia.
  - exists (take (Z.to_nat p) b), (drop n (drop (Z.to_nat p) b)). split.
    + by rewrite take_drop, take_drop.
    + unfold zlen. rewrite length_take. lia.
Qed.

Lemma holds_bytes_ok b p l : bytes_ok b -> holds b p l -> bytes_ok l.
Proof. intros Hb (b1 & b2 & -> & _). by apply Forall_app in Hb as [_ [? _]%Forall_app]. Qed.

Lemma get8_holds b p x : holds b p [x] -> get8 b p = Ret x.
Proof.
  intros (b1 & b2 & -> & ->). unfold get8.
  destruct (Z.ltb_spec (zlen b1) 0); [pose proof (zlen_nonneg b1); lia|].
  apply arr_get_middle. unfold zlen. lia.
Qed.

Lemma get_bytes_holds b p l n : holds b p l -> length l = n -> get_bytes b p n = Ret l.
Proof.
  intros Hh <-. revert p Hh. induction l as [|x l IH]; intros p Hh; [done|].
  apply holds_cons in Hh as [Hx Hl]. simpl. rewrite (get8_holds _ _ _ Hx). simpl.
  by rewrite (IH _ Hl).
Qed.

(** A number is the sum of its bytes. *)
Fixpoint le_value (l : list Z) : Z :=
  match l with
  | [] => 0
  | x :: l => x + 256 * le_value l
  end.

Lemma le_value_bytes n v : le_value (le_bytes n v) = v mod 256 ^ Z.of_nat n.
Proof.
  revert v. induction n as [|n IH]; intros v; [simpl; by rewrite Z.mod_1_r|].
  cbn [le_bytes le_value]. rewrite IH, Nat2Z.inj_succ, Z.pow_succ_r by lia.
  rewrite Z.rem_mul_r; [done | lia | apply Z.pow_pos_nonneg; lia].
Qed.

Lemma le_value_range l : bytes_ok l -> 0 <= le_value l < 256 ^ zlen l.
Proof.
  induction 1 as [|x l Hx Hl IH]; [done|]. cbn [le_value]. rewrite zlen_cons.
  rewrite Z.pow_add_r by (try apply zlen_nonneg; lia). unfold is_u8 in Hx. lia.
Qed.

Lemma get_u32_value b p l :
  holds b p l -> length l = 4%nat -> bytes_ok l -> apta_get_u32 b p = Ret (le_value l).
Proof.
  intros Hh Hl Hok. destruct l as [|x0 [|x1 [|x2 [|x3 [|]]]]]; try discriminate.
  apply holds_cons in Hh as [H0 Hh]. apply holds_cons in Hh as [H1 Hh].
  apply holds_cons in Hh as [H2 H3]. unfold apta_get_u32.
  rewrite Z.add_0_r, (get8_holds _ _ _ H0). simpl. rewrite (get8_holds _ _ _ H1). simpl.
  replace (p + 2) with (p + 1 + 1) by lia. rewrite (get8_holds _ _ _ H2). simpl.
  replace (p + 3) with (p + 1 + 1 + 1) by lia. rewrite (get8_holds _ _ _ H3). simpl.
  unfold bytes_ok in Hok. rewrite !Forall_cons in Hok. destruct Hok as (R0 & R1 & R2 & R3 & _).
  unfold is_u8 in *. f_equal.
  rewrite (lor_shiftl x0), (lor_shiftl _ x2), (lor_shiftl _ x3)
    by (change (2 ^ 8) with 256; change (2 ^ 16) with 65536; change (2 ^ 24) with 16777216; lia).
  change (2 ^ 8) with 256; change (2 ^ 16) with 65536; change (2 ^ 24) with 16777216. lia.
Qed.

Lemma get_u16_value b p l :
  holds b p l -> length l = 2%nat -> bytes_ok l -> apta_get_u16 b p = Ret (le_value l).
Proof.
  intros Hh Hl Hok. destruct l as [|x0 [|x1 [|]]]; try discriminate.
  apply holds_cons in Hh as [H0 H1]. unfold apta_get_u16.
  rewrite Z.add_0_r, (get8_holds _ _ _ H0). simpl. rewrite (get8_holds _ _ _ H1). simpl.
  unfold bytes_ok in Hok. rewrite !Forall_cons in Hok. destruct Hok as (R0 & R1 & _).
  unfold is_u8 in *. f_equal.
  rewrite (lor_shiftl x0) by (change (2 ^ 8) with 256; lia). change (2 ^ 8) with 256.
  rewrite u16_small by (unfold is_u16; lia). lia.
Qed.

Lemma get_u64_value b p l :
  holds b p l -> length l = 8%nat -> bytes_ok l -> apta_get_u64 b p = Ret (le_value l).
Proof.
  intros Hh Hl Hok. rewrite <- (take_drop 4 l) in Hh, Hok |- *.
  assert (length (take 4 l) = 4%nat) by (rewrite length_take; lia).
  assert (length (drop 4 l) = 4%nat) by (rewrite length_drop; lia).
  revert Hh Hok H H0. generalize (take 4 l) as l1, (drop 4 l) as l2. clear l Hl. intros l1 l2 Hh Hok H1 H2.
  apply holds_app in Hh as [Hl Hh]. apply Forall_app in Hok as [Hok1 Hok2].
  unfold apta_get_u64. rewrite (get_u32_value b p l1) by done. simpl.
  replace (p + 4) with (p + zlen l1) by (unfold zlen; lia).
  rewrite (get_u32_value b _ l2) by done. simpl. f_equal.
  pose proof (le_value_range l1 Hok1) as Hr. unfold zlen in Hr. rewrite H1 in Hr.
  change (256 ^ Z.of_nat 4) with (2 ^ 32) in Hr. rewrite lor_shiftl by lia.
  clear -H1. destruct l1 as [|x0 [|x1 [|x2 [|x3 [|]]]]]; try discriminate.
  cbn [le_value app]. change (2 ^ 32) with 4294967296. lia.
Qed.

Lemma get_u16_holds b p v : holds b p (le_bytes 2 v) -> is_u16 v -> apta_get_u16 b p = Ret v.
Proof.
  intros Hh Hv. rewrite (get_u16_value _ _ _ Hh) by (apply length_le_bytes || apply bytes_ok_le).
  rewrite le_value_bytes. f_equal. by apply u16_small.
Qed.

Lemma get_u32_holds b p v : holds b p (le_bytes 4 v) -> is_u32 v -> apta_get_u32 b p = Ret v.
Proof.
  intros Hh Hv. rewrite (get_u32_value _ _ _ Hh) by (apply length_le_bytes || apply bytes_ok_le).
  rewrite le_value_bytes. f_equal. by apply u32_small.
Qed.

Lemma get_u64_holds b p v : holds b p (le_bytes 8 v) -> is_u64 v -> apta_get_u64 b p = Ret v.
Proof.
  intros Hh Hv. rewrite (get_u64_value _ _ _ Hh) by (apply length_le_bytes || apply bytes_ok_le).
  rewrite le_value_bytes. f_equal. by apply u64_small.
Qed.

(** Inside a buffer every accessor returns a value of its width. *)
Section Defined.
Context (b : list Z) (Hb : bytes_ok b).

Lemma get8_defined p : 0 <= p -> p + 1 <= zlen b -> exists v, get8 b p = Ret v /\ is_u8 v.
Proof.
  intros Hp Hn. destruct (holds_at b p 1) as (l & Hl & Hh); [lia..|].
  destruct l as [|x [|]]; try discriminate. exists x. split; [by apply get8_holds|].
  pose proof (holds_bytes_ok _ _ _ Hb Hh) as Hx. by inversion Hx.
Qed.

Lemma get_bytes_defined p n :
  0 <= p -> p + Z.of_nat n <= zlen b ->
  exists l, get_bytes b p n = Ret l /\ length l = n /\ bytes_ok l /\ holds b p l.
Proof.
  intros Hp Hn. destruct (holds_at b p n) as (l & Hl & Hh); [lia..|].
  exists l. split; [by apply get_bytes_holds|]. split; [done|].
  split; [by apply (holds_bytes_ok b p)|done].
Qed.

Lemma get_u16_defined p : 0 <= p -> p + 2 <= zlen b -> exists v, apta_get_u16 b p = Ret v /\ is_u16 v.
Proof.
  intros Hp Hn. destruct (get_bytes_defined p 2) as (l & _ & Hl & Hok & Hh); [lia..|].
  exists (le_value l). split; [by apply get_u16_value|].
  pose proof (le_value_range l Hok) as Hr. unfold zlen in Hr. rewrite Hl in Hr.
  change (256 ^ Z.of_nat 2) with 65536 in Hr. unfold is_u16. lia.
Qed.

Lemma get_u32_defined p : 0 <= p -> p + 4 <= zlen b -> exists v, apta_get_u32 b p = Ret v /\ is_u32 v.
Proof.
  intros Hp Hn. destruct (get_bytes_defined p 4) as (l & _ & Hl & Hok & Hh); [lia..|].
  exists (le_value l). split; [by apply get_u32_value|].
  pose proof (le_value_range l Hok) as Hr. unfold zlen in Hr. rewrite Hl in Hr.
  change (256 ^ Z.of_nat 4) with 4294967296 in Hr. unfold is_u32. lia.
Qed.

Lemma get_u64_defined p : 0 <= p -> p + 8 <= zlen b -> exists v, apta_get_u64 b p = Ret v /\ is_u64 v.
Proof.
  intros Hp Hn. destruct (get_bytes_defined p 8) as (l & _ & Hl & Hok & Hh); [lia..|].
  exists (le_value l). split; [by apply get_u64_value|].
  pose proof (le_value_range l Hok) as Hr. unfold zlen in Hr. rewrite Hl in Hr.
  change (256 ^ Z.of_nat 8) with 18446744073709551616 in Hr. unfold is_u64. lia.
Qed.

Lemma get_i16_defined p : 0 <= p -> p + 2 <= zlen b -> exists v, apta_get_i16 b p = Ret v /\ is_i16 v.
Proof.
  intros Hp Hn. destruct (get_u16_defined p Hp Hn) as (v & Hv & Hr). exists (i16 v).
  split; [unfold apta_get_i16; by rewrite Hv|].
  unfold i16, is_i16. rewrite u16_small by done. unfold is_u16 in Hr.
  destruct (Z.ltb_spec v 32768); lia.
Qed.

End Defined.

(** ** The checksum detects bursts *)

(** Rewriting with this equation keeps the kernel from unfolding the checksum. *)
Lemma fold_left_cons {S T} (f : S -> T -> S) x l s : fold_left f (x :: l) s = fold_left f l (f s x).
Proof. reflexivity. Qed.

Lemma is_u32_lxor a c : is_u32 a -> is_u32 c -> is_u32 (Z.lxor a c).
Proof.
  unfold is_u32. intros Ha Hc. assert (0 <= Z.lxor a c) by (apply Z.lxor_nonneg; lia).
  split; [done|]. destruct (Z.eq_dec (Z.lxor a c) 0) as [->|Hn]; [lia|].
  assert (Z.log2 (Z.lxor a c) < 32).
  { assert (H0 : forall z, 0 <= z <= UINT32_MAX -> Z.log2 z < 32).
    { intros z Hz. destruct (Z.eq_dec z 0) as [->|]; [done|]. apply Z.log2_lt_pow2; lia. }
    pose proof (Z.log2_lxor a c ltac:(lia) ltac:(lia)). pose proof (H0 a Ha). pose proof (H0 c Hc). lia. }
  assert (Z.lxor a c < 2 ^ 32) by (apply Z.log2_lt_pow2; lia). lia.
Qed.

Lemma crc32c_bit_eq c :
  crc32c_bit c = Z.lxor (Z.shiftr c 1) (if Z.odd c then 0x82F63B78 else 0).
Proof.
  unfold crc32c_bit. f_equal. change 1 with (Z.ones 1). rewrite Z.land_ones by lia.
  change (2 ^ 1) with 2. rewrite Zmod_odd. by destruct (Z.odd c).
Qed.

Lemma crc32c_bit_lxor a c : crc32c_bit (Z.lxor a c) = Z.lxor (crc32c_bit a) (crc32c_bit c).
Proof.
  rewrite !crc32c_bit_eq, Z.shiftr_lxor, <- !Z.bit0_odd, Z.lxor_spec.
  apply Z.bits_inj'. intros i _. rewrite !Z.lxor_spec.
  destruct (Z.testbit a 0), (Z.testbit c 0); simpl;
    rewrite ?Z.bits_0; destruct (Z.testbit (Z.shiftr a 1) i), (Z.testbit (Z.shiftr c 1) i);
    by destruct (Z.testbit 2197175160 i).
Qed.

Lemma crc32c_bit_u32 c : is_u32 c -> is_u32 (crc32c_bit c).
Proof.
  intros Hc. rewrite crc32c_bit_eq. apply is_u32_lxor.
  - unfold is_u32 in *. rewrite Z.shiftr_div_pow2 by lia. change (2 ^ 1) with 2.
    split; [apply Z.div_pos; lia|]. apply Z.div_le_upper_bound; lia.
  - unfold is_u32. destruct (Z.odd c); lia.
Qed.

(** The top coefficient of the polynomial is set, so no non-zero state is lost. *)
Lemma crc32c_bit_kernel c : is_u32 c -> crc32c_bit c = 0 -> c = 0.
Proof.
  intros Hc H0. rewrite crc32c_bit_eq in H0. apply Z.lxor_eq in H0.
  rewrite Z.shiftr_div_pow2 in H0 by lia. change (2 ^ 1) with 2 in H0.
  unfold is_u32 in Hc. pose proof (Zdiv2_odd_eqn c) as Ho. rewrite Z.div2_div in Ho.
  destruct (Z.odd c); lia.
Qed.

Lemma crc32c_step_lxor n a c :
  crc32c_step n (Z.lxor a c) = Z.lxor (crc32c_step n a) (crc32c_step n c).
Proof.
  revert a c. induction n as [|n IH]; intros a c; cbn [crc32c_step]; [done|].
  by rewrite crc32c_bit_lxor, IH.
Qed.

Lemma crc32c_step_add n m c : crc32c_step (n + m) c = crc32c_step m (crc32c_step n c).
Proof. revert c. induction n as [|n IH]; intros c; cbn [crc32c_step Nat.add]; auto. Qed.

Lemma crc32c_step_u32 n c : is_u32 c -> is_u32 (crc32c_step n c).
Proof.
  revert c. induction n as [|n IH]; intros c Hc; cbn [crc32c_step]; [done|]. by apply IH, crc32c_bit_u32.
Qed.

Lemma crc32c_step_inj n a c :
  is_u32 a -> is_u32 c -> crc32c_step n a = crc32c_step n c -> a = c.
Proof.
  intros Ha Hc He. apply Z.lxor_eq.
  assert (H0 : crc32c_step n (Z.lxor a c) = 0) by (rewrite crc32c_step_lxor, He; apply Z.lxor_nilpotent).
  pose proof (is_u32_lxor _ _ Ha Hc) as Hx. revert H0. generalize dependent (Z.lxor a c).
  clear. induction n as [|n IH]; intros x Hx; cbn [crc32c_step]; [done|]. intros H0.
  apply crc32c_bit_kernel; [done|]. apply IH; [by apply crc32c_bit_u32 | done].
Qed.

(** A byte that enters later can be thought of as entering now, higher up. *)
Lemma crc32c_bit_shift v : crc32c_bit (2 * v) = v.
Proof.
  rewrite crc32c_bit_eq, Z.odd_mul. simpl. rewrite Z.lxor_0_r, Z.shiftr_div_pow2 by lia.
  change (2 ^ 1) with 2. rewrite Z.mul_comm. by apply Z.div_mul.
Qed.

Lemma crc32c_step_shift v : crc32c_step 8 (256 * v) = v.
Proof.
  replace (256 * v) with (2 * (2 * (2 * (2 * (2 * (2 * (2 * (2 * v)))))))) by lia.
  cbn [crc32c_step]. by rewrite !crc32c_bit_shift.
Qed.

Lemma fold_word s l :
  fold_left crc32c_byte l s = crc32c_step (8 * length l) (Z.lxor s (le_value l)) \/ ~ bytes_ok l.
Proof.
  destruct (decide (Forall is_u8 l)) as [Hok|]; [left | by right].
  revert s. induction Hok as [|x l Hx Hl IH]; intros s.
  - simpl. by rewrite Z.lxor_0_r.
  - rewrite fold_left_cons, IH. unfold crc32c_byte.
    rewrite <- (crc32c_step_shift (le_value l)) at 1. rewrite <- crc32c_step_lxor.
    replace (8 * length (x :: l))%nat with (8 + 8 * length l)%nat by (simpl; lia).
    rewrite crc32c_step_add. f_equal. f_equal. rewrite Z.lxor_assoc. f_equal.
    cbn [le_value]. replace (x + 256 * le_value l) with (x + le_value l * 2 ^ 8)
      by (change (2 ^ 8) with 256; lia).
    rewrite <- lor_shiftl by (unfold is_u8 in Hx; change (2 ^ 8) with 256; lia).
    rewrite Z.shiftl_mul_pow2 by lia. change (2 ^ 8) with 256. rewrite Z.mul_comm.
    apply Z.lxor_lor. apply Z.bits_inj'. intros i Hi. rewrite Z.land_spec, Z.bits_0.
    change 256 with (2 ^ 8). rewrite <- Z.shiftl_mul_pow2, Z.shiftl_spec by lia.
    destruct (Z.ltb_spec i 8).
    + rewrite (Z.testbit_neg_r _ (i - 8)) by lia. apply andb_false_r.
    + replace (Z.testbit x i) with false; [done|]. symmetry.
      rewrite <- (Z.mod_small x (2 ^ 8)) by (unfold is_u8 in Hx; change (2 ^ 8) with 256; lia).
      by apply Z.mod_pow2_bits_high.
Qed.

Lemma fold_u32 l s : bytes_ok l -> is_u32 s -> is_u32 (fold_left crc32c_byte l s).
Proof.
  intros Hl. revert s. induction Hl as [|x l Hx Hl IH]; intros s Hs; [done|].
  rewrite fold_left_cons.
  apply IH. unfold crc32c_byte. apply crc32c_step_u32, is_u32_lxor; [done|]. unfold is_u8, is_u32 in *. lia.
Qed.

Lemma fold_inj l s s' :
  bytes_ok l -> is_u32 s -> is_u32 s' ->
  fold_left crc32c_byte l s = fold_left crc32c_byte l s' -> s = s'.
Proof.
  intros Hl. revert s s'. induction Hl as [|x l Hx Hl IH]; intros s s' Hs Hs'; [done|].
  rewrite !fold_left_cons.
  assert (Hx' : is_u32 x) by (unfold is_u8, is_u32 in *; lia).
  unfold crc32c_byte. intros He. apply IH in He;
    [|by apply crc32c_step_u32, is_u32_lxor..].
  apply crc32c_step_inj in He; [|by apply is_u32_lxor..].
  apply (f_equal (fun z => Z.lxor z x)) in He.
  by rewrite !Z.lxor_assoc, Z.lxor_nilpotent, !Z.lxor_0_r in He.
Qed.

Lemma le_value_inj l k :
  bytes_ok l -> bytes_ok k -> length l = length k -> le_value l = le_value k -> l = k.
Proof.
  intros Hl. revert k. induction Hl as [|x l Hx Hl IH]; intros [|y k] Hk Hlen He;
    try discriminate; [done|].
  inversion Hk as [|? ? Hy Hk']; subst. cbn [le_value] in He. unfold is_u8 in *.
  assert (x = y) by lia. subst. f_equal. apply IH; [done | by injection Hlen | lia].
Qed.

(** Changes confined to four consecutive bytes always change the checksum. *)
Lemma crc32c_burst a w w' c :
  bytes_ok (a ++ w ++ c) -> bytes_ok w' -> length w = length w' -> (length w <= 4)%nat ->
  apta_internal_crc32c (Some (a ++ w ++ c)) = apta_internal_crc32c (Some (a ++ w' ++ c)) -> w = w'.
Proof.
  intros Hok Hw' Hlen H4 He. apply Forall_app in Hok as [Ha [Hw Hc]%Forall_app].
  unfold apta_internal_crc32c in He. apply (f_equal (fun z => Z.lxor z UINT32_MAX)) in He.
  rewrite !Z.lxor_assoc, Z.lxor_nilpotent, !Z.lxor_0_r, !fold_left_app in He.
  assert (Hs : is_u32 (fold_left crc32c_byte a UINT32_MAX)) by (apply fold_u32; [done|unfold is_u32; lia]).
  apply fold_inj in He; [|done|by apply fold_u32..].
  destruct (fold_word (fold_left crc32c_byte a UINT32_MAX) w) as [E|]; [rewrite E in He|done].
  destruct (fold_word (fold_left crc32c_byte a UINT32_MAX) w') as [E'|]; [rewrite E' in He|done].
  rewrite <- Hlen in He.
  assert (Hv : forall l, bytes_ok l -> (length l <= 4)%nat -> is_u32 (le_value l)).
  { intros l Hl Hn. pose proof (le_value_range l Hl) as Hr. unfold is_u32.
    assert (256 ^ zlen l <= 256 ^ 4) by (apply Z.pow_le_mono_r; unfold zlen; lia).
    change (256 ^ 4) with 4294967296 in *. lia. }
  apply crc32c_step_inj in He; [|apply is_u32_lxor; auto; apply Hv; auto; lia..].
  apply le_value_inj; [done..|].
  apply (f_equal (Z.lxor (fold_left crc32c_byte a UINT32_MAX))) in He.
  by rewrite <- !Z.lxor_assoc, !Z.lxor_nilpotent, !Z.lxor_0_l in He.
Qed.

(** ** Reading what was written *)

Lemma crc32c_u32 l : bytes_ok l -> is_u32 (apta_internal_crc32c (Some l)).
Proof.
  intros Hl. unfold apta_internal_crc32c. apply is_u32_lxor; [|unfold is_u32; lia].
  apply fold_u32; [done|unfold is_u32; lia].
Qed.

Lemma crc32c_at_holds b p l n :
  holds b p l -> length l = n -> crc32c_at b p n = Ret (apta_internal_crc32c (Some l)).
Proof. intros Hh Hn. unfold crc32c_at. by rewrite (get_bytes_holds _ _ l). Qed.

Lemma get_u16_at b p q v :
  holds b q (le_bytes 2 v) -> p = q -> is_u16 v -> apta_get_u16 b p = Ret v.
Proof. intros Hh -> Hv. by apply get_u16_holds. Qed.

Lemma get_u32_at b p q v :
  holds b q (le_bytes 4 v) -> p = q -> is_u32 v -> apta_get_u32 b p = Ret v.
Proof. intros Hh -> Hv. by apply get_u32_holds. Qed.

Lemma get_u64_at b p q v :
  holds b q (le_bytes 8 v) -> p = q -> is_u64 v -> apta_get_u64 b p = Ret v.
Proof. intros Hh -> Hv. by apply get_u64_holds. Qed.

Lemma get_i16_at b p q v :
  holds b q (le_bytes 2 (u16 v)) -> p = q -> is_i16 v -> apta_get_i16 b p = Ret v.
Proof.
  intros Hh -> Hv. unfold apta_get_i16.
  rewrite (get_u16_holds _ _ (u16 v)) by (done || apply u16_range). cbn [obind]. by rewrite i16_of_u16.
Qed.

Lemma get8_at b p q v : holds b q [v] -> p = q -> get8 b p = Ret v.
Proof. intros Hh ->. by apply get8_holds. Qed.

Lemma get_bytes_at b p q l n :
  holds b q l -> p = q -> length l = n -> get_bytes b p n = Ret l.
Proof. intros Hh -> Hn. by apply get_bytes_holds. Qed.

(** A run of encoded fields that stands in a buffer is taken apart into its
    fields; their offsets are sums that [field_offset] evaluates. *)
Ltac split_fields H :=
  lazymatch type of H with
  | holds _ _ (_ ++ _) =>
      let F := fresh "F" in
      apply holds_app in H; destruct H as [F H]; split_fields F; split_fields H
  | holds _ _ (_ :: _ :: _) =>
      let F := fresh "F" in
      apply holds_cons in H; destruct H as [F H]; split_fields H
  | _ => idtac
  end.

Ltac field_offset := zlen; simpl Z.of_nat; lia.
