(* ===== verification/Wovr.v ===== *)
(** * The waveform-overview container: results and the writer
    (serialization/apta_wovr_writer.c)

    The overview part of a result, the layout of the container, and the canonical
    writer.  Pointers into the output buffer are offsets whose accesses are
    checked. *)

From S2P Require Import Prelude Platform Bytes.

(** ** Layout constants *)

Definition APTA_CONTAINER_HEADER_SIZE : Z := 96.
Definition APTA_DIRECTORY_ENTRY_SIZE : Z := 40.
Definition APTA_DIRECTORY_OFFSET : Z := 96.
Definition APTA_WOVR_PAYLOAD_OFFSET : Z := 136.
Definition APTA_WOVR_HEADER_SIZE : Z := 48.
Definition APTA_WOVR_SPAN_SIZE : Z := 32.
Definition APTA_PACKED_COLUMN_SIZE : Z := 10.

Definition APTA_CONTAINER_FLAG_PARTIAL_RESULT : Z := Z.shiftl 1 0.
Definition APTA_CONTAINER_FLAG_SOURCE_DURATION_UNKNOWN : Z := Z.shiftl 1 1.
Definition APTA_CONTAINER_FLAG_MASK : Z := 0x7.
Definition APTA_SECTION_FLAG_REQUIRED : Z := Z.shiftl 1 0.
Definition APTA_SECTION_FLAG_COMPRESSED : Z := Z.shiftl 1 1.
Definition APTA_SECTION_FLAG_ENCRYPTED : Z := Z.shiftl 1 2.
Definition APTA_SECTION_FLAG_MASK : Z := 0x7.
Definition APTA_WOVR_STATE_MASK : Z := 0x7.
Definition APTA_WAVEFORM_COLUMN_FLAG_MASK : Z := 0x1F.

Definition APTA_WAVEFORM_COLUMN_VALID : Z := Z.shiftl 1 0.
Definition APTA_WAVEFORM_COLUMN_HAS_3BAND : Z := Z.shiftl 1 3.

Definition APTA_SERIALIZE_CANONICAL : Z := Z.shiftl 1 0.
Definition APTA_PARSE_STRICT : Z := Z.shiftl 1 0.
Definition APTA_PARSE_DEFAULT_MAX_FILE_BYTES : Z := 268435456.
Definition APTA_PARSE_DEFAULT_MAX_SECTION_COUNT : Z := 64.
Definition APTA_PARSE_DEFAULT_MAX_OVERVIEW_SPANS : Z := 65536.
Definition APTA_PARSE_DEFAULT_MAX_WAVEFORM_COLUMNS : Z := 16777216.
Definition APTA_PARSE_DEFAULT_MAX_ALLOCATION_BYTES : Z := 268435456.

(** The character codes of the magic and of the section names. *)
Definition tag_APTA : list Z := [65; 80; 84; 65].
Definition tag_WOVR : list Z := [87; 79; 86; 82].
Definition standard_tags : list (list Z) :=
  [[77; 69; 84; 65]; tag_WOVR; [87; 68; 84; 76]; [84; 69; 77; 80]; [76; 71; 82; 68];
   [71; 71; 82; 68]; [82; 69; 86; 78]].

(** ** Results

    The overview part of [apta_result_t].  [sp_columns] is the pointer of a span
    into the column array of its result, as an index, or NULL.  The struct sizes
    and versions of nested structures are constants and are left out. *)

Record apta_waveform_column_t : Type := {
  wc_minimum : Z;
  wc_maximum : Z;
  wc_rms : Z;
  wc_low : Z;
  wc_mid : Z;
  wc_high : Z;
  wc_flags : Z
}.

Record apta_waveform_span_t : Type := {
  sp_first_frame : Z;
  sp_end_frame : Z;
  sp_first_column_index : Z;
  sp_column_count : Z;
  sp_columns : option nat
}.

Record apta_source_info_t : Type := {
  si_total_frames : Z;
  si_sample_rate : Z;
  si_channel_count : Z;
  si_channel_layout : Z;
  si_fingerprint_kind : Z;
  si_fingerprint : list Z
}.

Record apta_result_info_t : Type := {
  ri_specification_major : Z;
  ri_specification_minor : Z;
  ri_producer_api_version : Z;
  ri_container_version : Z;
  ri_generation : Z;
  ri_available_features : Z;
  ri_changed_features : Z;
  ri_session_state : apta_session_state_t
}.

Record apta_waveform_overview_view_t : Type := {
  ov_level_id : Z;
  ov_frames_per_column : Z;
  ov_origin_frame : Z;
  ov_state : Z;
  ov_confidence : Z;
  ov_span_count : Z;
  ov_spans : option (list apta_waveform_span_t)
}.

Record apta_result_t : Type := {
  res_info : apta_result_info_t;
  res_source_info : apta_source_info_t;
  res_total_source_frames : Z;
  res_source_sample_rate : Z;
  res_source_channel_count : Z;
  res_source_channel_layout : Z;
  res_overview : apta_waveform_overview_view_t;
  res_overview_columns : list apta_waveform_column_t
}.

(** A zeroed column and a zeroed span. *)
Definition zero_column : apta_waveform_column_t :=
  {| wc_minimum := 0; wc_maximum := 0; wc_rms := 0; wc_low := 0; wc_mid := 0; wc_high := 0;
     wc_flags := 0 |}.
Definition zero_span : apta_waveform_span_t :=
  {| sp_first_frame := 0; sp_end_frame := 0; sp_first_column_index := 0; sp_column_count := 0;
     sp_columns := None |}.

Record apta_serialize_options_t : Type := {
  so_struct_size : Z;
  so_api_version : Z;
  so_flags : Z;
  so_reserved32 : list Z;
  so_maximum_output_bytes : Z;
  so_reserved64 : list Z
}.

Record apta_parse_options_t : Type := {
  po_struct_size : Z;
  po_api_version : Z;
  po_flags : Z;
  po_maximum_section_count : Z;
  po_maximum_overview_spans : Z;
  po_maximum_waveform_columns : Z;
  po_maximum_file_bytes : Z;
  po_maximum_allocation_bytes : Z;
  po_reserved64 : list Z
}.

(** The columns a track of known length needs: both files compute it. *)
Definition required_columns (relative_frames frames_per_column : Z) : Z :=
  relative_frames / frames_per_column +
  (if relative_frames mod frames_per_column =? 0 then 0 else 1).

(** ** The writer *)

Section Writer.
Context `{Platform}.

Record apta_serialization_layout_t : Type := {
  sl_total_size : Z;
  sl_payload_size : Z;
  sl_packed_column_count : Z;
  sl_logical_column_count : Z;
  sl_container_flags : Z;
  sl_wovr_flags : Z
}.

Definition apta_serialization_options_are_valid (options : option apta_serialize_options_t)
  : bool :=
  match options with
  | None => true
  | Some o =>
      apta_internal_validate_struct true (sizeof T_serialize_options)
        (so_struct_size o) (so_api_version o) &&
      negb (any (so_flags o) (not32 APTA_SERIALIZE_CANONICAL)) &&
      forallb (fun r => r =? 0) (so_reserved32 o) && forallb (fun r => r =? 0) (so_reserved64 o)
  end.

Definition apta_serialize_options_init : apta_serialize_options_t :=
  {| so_struct_size := sizeof T_serialize_options;
     so_api_version := APTA_API_VERSION;
     so_flags := APTA_SERIALIZE_CANONICAL;
     so_reserved32 := [0; 0; 0; 0; 0]; so_maximum_output_bytes := 0; so_reserved64 := [0; 0; 0] |}.

(** The check of the [n] columns from [index] on. *)
Fixpoint layout_columns (columns : list apta_waveform_column_t) (index n : nat) : result unit :=
  match n with
  | O => Ret tt
  | S n =>
      let! column := arr_get columns index in
      bail APTA_ERROR_INTERNAL when
        any (wc_flags column) APTA_WAVEFORM_COLUMN_VALID &&
        (wc_maximum column <? wc_minimum column) in
      layout_columns columns (S index) n
  end.

(** The loop over the spans: packed and logical column counts. *)
Fixpoint layout_spans (r : apta_result_t) (spans : list apta_waveform_span_t)
    (span_index n : nat) (packed_columns logical_columns previous_end : Z) : result (Z * Z) :=
  match n with
  | O => Ret (packed_columns, logical_columns)
  | S n =>
      let! span := arr_get spans span_index in
      match sp_columns span with
      | None => Err APTA_ERROR_INTERNAL
      | Some base =>
          bail APTA_ERROR_INTERNAL when
            (sp_end_frame span <=? sp_first_frame span) || (sp_column_count span =? 0) ||
            (negb (span_index =? 0)%nat && (sp_first_frame span <? previous_end)) ||
            (u32 (UINT32_MAX - sp_first_column_index span) <? sp_column_count span) in
          let logical_end := u64 (sp_first_column_index span + sp_column_count span) in
          let logical_columns := if logical_columns <? logical_end then logical_end
                                 else logical_columns in
          bail APTA_ERROR_LIMIT_EXCEEDED when
            (u64 (UINT32_MAX - packed_columns) <? sp_column_count span) in
          let packed_columns := u64 (packed_columns + sp_column_count span) in
          let! _ := layout_columns (res_overview_columns r) base
                      (Z.to_nat (sp_column_count span)) in
          layout_spans r spans (S span_index) n packed_columns logical_columns
            (sp_end_frame span)
      end
  end.

Definition layout_container_flags (r : apta_result_t) : Z :=
  let flags :=
    if negb (ov_state (res_overview r) =? APTA_FEATURE_FINAL) ||
       negb (bool_decide (ri_session_state (res_info r) = APTA_SESSION_COMPLETED))
    then APTA_CONTAINER_FLAG_PARTIAL_RESULT else 0 in
  if res_total_source_frames r =? APTA_TOTAL_FRAMES_UNKNOWN
  then Z.lor flags (Z.lor APTA_CONTAINER_FLAG_PARTIAL_RESULT
                          APTA_CONTAINER_FLAG_SOURCE_DURATION_UNKNOWN)
  else flags.

Definition apta_serialization_calculate_layout (r : option apta_result_t)
    (options : option apta_serialize_options_t) : result apta_serialization_layout_t :=
  bail APTA_ERROR_INVALID_ARGUMENT when negb (apta_serialization_options_are_valid options) in
  match r with
  | None => Err APTA_ERROR_INVALID_ARGUMENT
  | Some r =>
  let overview := res_overview r in
  bail APTA_STATUS_NOT_AVAILABLE when
    negb (any (ri_available_features (res_info r)) APTA_FEATURE_WAVEFORM_OVERVIEW) in
  match ov_spans overview with
  | None => Err APTA_ERROR_INTERNAL
  | Some spans =>
  bail APTA_ERROR_INTERNAL when
    (ov_frames_per_column overview =? 0) || (ov_span_count overview =? 0) ||
    (ov_state overview <? APTA_FEATURE_PARTIAL) || (APTA_FEATURE_FINAL <? ov_state overview) ||
    (res_source_sample_rate r =? 0) || (res_source_channel_count r =? 0) ||
    (UINT16_MAX <? res_source_channel_count r) || (UINT16_MAX <? res_source_channel_layout r) ||
    negb (apta_internal_source_fingerprint_is_valid
            (si_fingerprint_kind (res_source_info r))
            (Some (si_fingerprint (res_source_info r)))) in
  let! counts := layout_spans r spans 0 (Z.to_nat (ov_span_count overview)) 0 0 0 in
  let '(packed_columns, logical_columns) := counts in
  let! logical_columns :=
    if negb (res_total_source_frames r =? APTA_TOTAL_FRAMES_UNKNOWN)
    then
      bail APTA_ERROR_INTERNAL when (res_total_source_frames r <? ov_origin_frame overview) in
      let required := u64 (required_columns
                             (u64 (res_total_source_frames r - ov_origin_frame overview))
                             (ov_frames_per_column overview)) in
      bail APTA_ERROR_LIMIT_EXCEEDED when
        (UINT32_MAX <? required) || (required <? logical_columns) in
      Ret required
    else Ret logical_columns in
  bail APTA_ERROR_INTERNAL when (logical_columns =? 0) || (UINT32_MAX <? logical_columns) in
  let span_bytes := u64 (ov_span_count overview * APTA_WOVR_SPAN_SIZE) in
  let column_bytes := u64 (packed_columns * APTA_PACKED_COLUMN_SIZE) in
  bail APTA_ERROR_LIMIT_EXCEEDED when
    (u64 (UINT64_MAX - APTA_WOVR_HEADER_SIZE) <? span_bytes) ||
    (u64 (UINT64_MAX - (APTA_WOVR_HEADER_SIZE + span_bytes)) <? column_bytes) in
  let payload_size := u64 (APTA_WOVR_HEADER_SIZE + span_bytes + column_bytes) in
  bail APTA_ERROR_LIMIT_EXCEEDED when
    (u64 (UINT64_MAX - APTA_WOVR_PAYLOAD_OFFSET) <? payload_size) in
  let layout :=
    {| sl_total_size := u64 (APTA_WOVR_PAYLOAD_OFFSET + payload_size);
       sl_payload_size := payload_size;
       sl_packed_column_count := u32 packed_columns;
       sl_logical_column_count := u32 logical_columns;
       sl_container_flags := layout_container_flags r;
       sl_wovr_flags := Z.land (ov_state overview) APTA_WOVR_STATE_MASK |} in
  match options with
  | Some o =>
      bail APTA_ERROR_LIMIT_EXCEEDED when
        negb (so_maximum_output_bytes o =? 0) &&
        (so_maximum_output_bytes o <? sl_total_size layout) in
      Ret layout
  | None => Ret layout
  end
  end
  end.

Definition apta_result_query_serialized_size (r : option apta_result_t)
    (options : option apta_serialize_options_t) : result Z :=
  let! layout := apta_serialization_calculate_layout r options in
  Ret (sl_total_size layout).

(** [memset(bytes, 0, total_size)]. *)
Definition clear (b : list Z) (size : nat) : list Z := replicate size 0 ++ drop size b.

Definition write_container_header (b : list Z) (r : apta_result_t)
    (layout : apta_serialization_layout_t) : result (list Z) :=
  let! b := put_bytes b 0 tag_APTA in
  let! b := apta_put_u16 b 4 APTA_CONTAINER_HEADER_SIZE in
  let! b := apta_put_u16 b 6 1 in
  let! b := apta_put_u16 b 8 APTA_SPEC_VERSION_MAJOR in
  let! b := apta_put_u16 b 10 APTA_SPEC_VERSION_MINOR in
  let! b := apta_put_u32 b 12 APTA_API_VERSION in
  let! b := apta_put_u32 b 16 (sl_container_flags layout) in
  let! b := apta_put_u32 b 20 1 in
  let! b := apta_put_u64 b 24 APTA_DIRECTORY_OFFSET in
  let! b := apta_put_u64 b 32 (sl_total_size layout) in
  let! b := apta_put_u64 b 40 (res_total_source_frames r) in
  let! b := apta_put_u32 b 48 (res_source_sample_rate r) in
  let! b := apta_put_u16 b 52 (u16 (res_source_channel_count r)) in
  let! b := apta_put_u16 b 54 (u16 (res_source_channel_layout r)) in
  let! b := put_bytes b 56 (si_fingerprint (res_source_info r)) in
  apta_put_u32 b 88 (si_fingerprint_kind (res_source_info r)).

Definition write_directory (b : list Z) (directory : Z) (layout : apta_serialization_layout_t)
  : result (list Z) :=
  let! b := put_bytes b directory tag_WOVR in
  let! b := apta_put_u16 b (directory + 4) 1 in
  let! b := apta_put_u16 b (directory + 6) APTA_SECTION_FLAG_REQUIRED in
  let! b := apta_put_u64 b (directory + 8) APTA_WOVR_PAYLOAD_OFFSET in
  let! b := apta_put_u64 b (directory + 16) (sl_payload_size layout) in
  apta_put_u64 b (directory + 24) (sl_payload_size layout).

Definition write_wovr_header (b : list Z) (payload : Z) (r : apta_result_t)
    (layout : apta_serialization_layout_t) (column_data_offset : Z) : result (list Z) :=
  let overview := res_overview r in
  let! b := apta_put_u32 b (payload + 0) (ov_level_id overview) in
  let! b := apta_put_u32 b (payload + 4) (ov_frames_per_column overview) in
  let! b := apta_put_u64 b (payload + 8) (ov_origin_frame overview) in
  let! b := apta_put_u32 b (payload + 16) (sl_logical_column_count layout) in
  let! b := apta_put_u32 b (payload + 20) (ov_span_count overview) in
  let! b := apta_put_u64 b (payload + 24) APTA_WOVR_HEADER_SIZE in
  let! b := apta_put_u64 b (payload + 32) column_data_offset in
  apta_put_u32 b (payload + 40) (sl_wovr_flags layout).

Definition write_column (b : list Z) (column_output : Z) (column : apta_waveform_column_t)
  : result (list Z) :=
  let! b := apta_put_u16 b (column_output + 0) (u16 (wc_minimum column)) in
  let! b := apta_put_u16 b (column_output + 2) (u16 (wc_maximum column)) in
  let! b := apta_put_u16 b (column_output + 4) (wc_rms column) in
  let! b := put8 b (column_output + 6) (wc_low column) in
  let! b := put8 b (column_output + 7) (wc_mid column) in
  let! b := put8 b (column_output + 8) (wc_high column) in
  put8 b (column_output + 9) (wc_flags column).

(** The inner loop: [n] columns from [index] on, at packed position [packed]. *)
Fixpoint write_columns (b : list Z) (columns : list apta_waveform_column_t) (index n : nat)
    (column_data packed : Z) : result (list Z) :=
  match n with
  | O => Ret b
  | S n =>
      let! column := arr_get columns index in
      let! b := write_column b (column_data + size_t (packed * APTA_PACKED_COLUMN_SIZE)) column in
      write_columns b columns (S index) n column_data (u32 (packed + 1))
  end.

Definition write_span (b : list Z) (span_output : Z) (span : apta_waveform_span_t)
    (packed_offset : Z) : result (list Z) :=
  let! b := apta_put_u64 b (span_output + 0) (sp_first_frame span) in
  let! b := apta_put_u64 b (span_output + 8) (sp_end_frame span) in
  let! b := apta_put_u32 b (span_output + 16) (sp_first_column_index span) in
  let! b := apta_put_u32 b (span_output + 20) (sp_column_count span) in
  apta_put_u32 b (span_output + 24) packed_offset.

Fixpoint write_spans (b : list Z) (r : apta_result_t) (spans : list apta_waveform_span_t)
    (span_index n : nat) (payload column_data packed_offset : Z) : result (list Z) :=
  match n with
  | O => Ret b
  | S n =>
      let! span := arr_get spans span_index in
      match sp_columns span with
      | None => Ub
      | Some base =>
          let! b := write_span b (payload + APTA_WOVR_HEADER_SIZE +
                                  size_t (Z.of_nat span_index * APTA_WOVR_SPAN_SIZE))
                      span packed_offset in
          let! b := write_columns b (res_overview_columns r) base
                      (Z.to_nat (sp_column_count span)) column_data packed_offset in
          write_spans b r spans (S span_index) n payload column_data
            (u32 (packed_offset + sp_column_count span))
      end
  end.

(** The buffer after the call and the bytes written; a call that fails leaves
    the buffer as it was. *)
Definition apta_result_serialize (r : option apta_result_t)
    (options : option apta_serialize_options_t) (buffer : option (list Z))
  : result (list Z * Z) :=
  let! layout := apta_serialization_calculate_layout r options in
  bail APTA_ERROR_LIMIT_EXCEEDED when (SIZE_MAX <? sl_total_size layout) in
  match buffer, r with
  | Some b, Some r =>
      bail APTA_ERROR_BUFFER_TOO_SMALL when (zlen b <? size_t (sl_total_size layout)) in
      match ov_spans (res_overview r) with
      | None => Ub
      | Some spans =>
          let b := clear b (Z.to_nat (sl_total_size layout)) in
          let payload := APTA_WOVR_PAYLOAD_OFFSET in
          let column_data_offset :=
            u64 (APTA_WOVR_HEADER_SIZE +
                 u64 (ov_span_count (res_overview r) * APTA_WOVR_SPAN_SIZE)) in
          let! b := write_container_header b r layout in
          let! b := write_directory b APTA_DIRECTORY_OFFSET layout in
          let! b := write_wovr_header b payload r layout column_data_offset in
          let! b := write_spans b r spans 0 (Z.to_nat (ov_span_count (res_overview r)))
                      payload (payload + size_t column_data_offset) 0 in
          let! payload_crc := crc32c_at b payload (Z.to_nat (sl_payload_size layout)) in
          let! b := apta_put_u32 b (APTA_DIRECTORY_OFFSET + 32) payload_crc in
          let! header_crc := crc32c_at b 0 92 in
          let! b := apta_put_u32 b 92 header_crc in
          Ret (b, sl_total_size layout)
      end
  | None, _ => Err APTA_ERROR_INVALID_ARGUMENT
  | _, None => Ub
  end.

End Writer.
