(* ===== verification/WovrSpec.v ===== *)
(** * What a waveform-overview container means

    The content of an overview, independent of how its columns are laid out in
    memory; the bytes the format prescribes for a content; and when a content is
    valid.  The writer is proved to produce [encode], the reader to accept
    [encode] of every valid content and to build valid contents only. *)

From S2P Require Import Prelude Platform Bytes Wovr.

(** ** Contents *)

Record span_content : Type := {
  k_first : Z;
  k_end : Z;
  k_first_column : Z;
  k_columns : list apta_waveform_column_t
}.

Record content : Type := {
  k_total_frames : Z;
  k_sample_rate : Z;
  k_channel_count : Z;
  k_channel_layout : Z;
  k_fingerprint_kind : Z;
  k_fingerprint : list Z;
  k_partial : bool;
  k_level_id : Z;
  k_frames_per_column : Z;
  k_origin : Z;
  k_state : Z;
  k_spans : list span_content
}.

Definition k_known (k : content) : bool := negb (k_total_frames k =? APTA_TOTAL_FRAMES_UNKNOWN).
Definition k_end_column (s : span_content) : Z := k_first_column s + zlen (k_columns s).
Definition k_packed (l : list span_content) : Z := foldr (fun s n => zlen (k_columns s) + n) 0 l.
Definition k_extent (l : list span_content) : Z := foldr (fun s n => Z.max (k_end_column s) n) 0 l.

Definition k_logical (k : content) : Z :=
  if k_known k
  then required_columns (k_total_frames k - k_origin k) (k_frames_per_column k)
  else k_extent (k_spans k).

(** The content of a result in memory. *)
Definition span_content_of (columns : list apta_waveform_column_t) (s : apta_waveform_span_t)
  : span_content :=
  {| k_first := sp_first_frame s; k_end := sp_end_frame s;
     k_first_column := sp_first_column_index s;
     k_columns := match sp_columns s with
                  | Some base => take (Z.to_nat (sp_column_count s)) (drop base columns)
                  | None => []
                  end |}.

Definition result_spans (r : apta_result_t) : list apta_waveform_span_t :=
  take (Z.to_nat (ov_span_count (res_overview r))) (default [] (ov_spans (res_overview r))).

Definition content_of (r : apta_result_t) : content :=
  {| k_total_frames := res_total_source_frames r;
     k_sample_rate := res_source_sample_rate r;
     k_channel_count := res_source_channel_count r;
     k_channel_layout := res_source_channel_layout r;
     k_fingerprint_kind := si_fingerprint_kind (res_source_info r);
     k_fingerprint := si_fingerprint (res_source_info r);
     k_partial := any (layout_container_flags r) APTA_CONTAINER_FLAG_PARTIAL_RESULT;
     k_level_id := ov_level_id (res_overview r);
     k_frames_per_column := ov_frames_per_column (res_overview r);
     k_origin := ov_origin_frame (res_overview r);
     k_state := ov_state (res_overview r);
     k_spans := map (span_content_of (res_overview_columns r)) (result_spans r) |}.

(** ** The format *)

Definition encode_column (c : apta_waveform_column_t) : list Z :=
  le_bytes 2 (u16 (wc_minimum c)) ++ le_bytes 2 (u16 (wc_maximum c)) ++ le_bytes 2 (wc_rms c) ++
  [wc_low c; wc_mid c; wc_high c; wc_flags c].

Definition encode_columns (l : list apta_waveform_column_t) : list Z := l ≫= encode_column.

Definition encode_span (s : span_content) (packed : Z) : list Z :=
  le_bytes 8 (k_first s) ++ le_bytes 8 (k_end s) ++ le_bytes 4 (k_first_column s) ++
  le_bytes 4 (zlen (k_columns s)) ++ le_bytes 4 packed ++ le_bytes 4 0.

(** Span records, numbering the packed columns from [packed] on. *)
Fixpoint encode_spans (packed : Z) (l : list span_content) : list Z :=
  match l with
  | [] => []
  | s :: l => encode_span s packed ++ encode_spans (packed + zlen (k_columns s)) l
  end.

Definition encode_all_columns (l : list span_content) : list Z :=
  l ≫= (fun s => encode_columns (k_columns s)).

Definition k_payload_size (k : content) : Z :=
  48 + 32 * zlen (k_spans k) + 10 * k_packed (k_spans k).
Definition k_total_size (k : content) : Z := 136 + k_payload_size k.

Definition k_flags (k : content) : Z :=
  Z.lor (if k_partial k then 1 else 0) (if k_known k then 0 else 2).

(** The first 92 bytes, which the header checksum covers. *)
Definition encode_header (k : content) : list Z :=
  tag_APTA ++ le_bytes 2 96 ++ le_bytes 2 1 ++
  le_bytes 2 APTA_SPEC_VERSION_MAJOR ++ le_bytes 2 APTA_SPEC_VERSION_MINOR ++
  le_bytes 4 APTA_API_VERSION ++ le_bytes 4 (k_flags k) ++ le_bytes 4 1 ++ le_bytes 8 96 ++
  le_bytes 8 (k_total_size k) ++ le_bytes 8 (k_total_frames k) ++ le_bytes 4 (k_sample_rate k) ++
  le_bytes 2 (k_channel_count k) ++ le_bytes 2 (k_channel_layout k) ++
  k_fingerprint k ++ le_bytes 4 (k_fingerprint_kind k).

(** The directory entry in front of its checksum. *)
Definition encode_entry (k : content) : list Z :=
  tag_WOVR ++ le_bytes 2 1 ++ le_bytes 2 1 ++ le_bytes 8 136 ++
  le_bytes 8 (k_payload_size k) ++ le_bytes 8 (k_payload_size k).

Definition encode_overview (k : content) : list Z :=
  le_bytes 4 (k_level_id k) ++ le_bytes 4 (k_frames_per_column k) ++ le_bytes 8 (k_origin k) ++
  le_bytes 4 (k_logical k) ++ le_bytes 4 (zlen (k_spans k)) ++ le_bytes 8 48 ++
  le_bytes 8 (48 + 32 * zlen (k_spans k)) ++ le_bytes 4 (k_state k).

Definition encode_payload (k : content) : list Z :=
  encode_overview k ++ le_bytes 4 0 ++ encode_spans 0 (k_spans k) ++
  encode_all_columns (k_spans k).

Definition encode (k : content) : list Z :=
  encode_header k ++
  le_bytes 4 (apta_internal_crc32c (Some (encode_header k))) ++
  encode_entry k ++
  le_bytes 4 (apta_internal_crc32c (Some (encode_payload k))) ++ le_bytes 4 0 ++
  encode_payload k.

(** ** Validity *)

Definition column_typed (c : apta_waveform_column_t) : Prop :=
  is_i16 (wc_minimum c) /\ is_i16 (wc_maximum c) /\ is_u16 (wc_rms c) /\
  is_u8 (wc_low c) /\ is_u8 (wc_mid c) /\ is_u8 (wc_high c) /\ is_u8 (wc_flags c).

(** [strict] adds what [APTA_PARSE_STRICT] asks for. *)
Definition column_valid (strict : bool) (c : apta_waveform_column_t) : Prop :=
  column_typed c /\ any (wc_flags c) APTA_WAVEFORM_COLUMN_VALID = true /\
  wc_minimum c <= wc_maximum c /\
  (strict = true ->
   any (wc_flags c) (not32 APTA_WAVEFORM_COLUMN_FLAG_MASK) = false /\
   (any (wc_flags c) APTA_WAVEFORM_COLUMN_HAS_3BAND = false ->
    wc_low c = 0 /\ wc_mid c = 0 /\ wc_high c = 0)).

(** A span starts and ends where its columns say, except that the last column of
    a track of known length may be cut short by the end of the track. *)
Record span_valid (strict : bool) (k : content) (s : span_content) : Prop := {
  sv_columns : k_columns s <> [];
  sv_columns_valid : Forall (column_valid strict) (k_columns s);
  sv_first_column : 0 <= k_first_column s;
  sv_nonempty : k_first s < k_end s;
  sv_logical : k_end_column s <= k_logical k;
  sv_first : k_first s = k_origin k + k_first_column s * k_frames_per_column k;
  sv_bound : k_origin k + k_end_column s * k_frames_per_column k <= UINT64_MAX;
  sv_end : k_end s = k_origin k + k_end_column s * k_frames_per_column k \/
           k_known k = true /\ k_end s = k_total_frames k /\ k_end_column s = k_logical k /\
           k_total_frames k < k_origin k + k_end_column s * k_frames_per_column k;
  sv_total : k_known k = true -> k_end s <= k_total_frames k
}.

(** Spans follow each other in frames and in columns. *)
Fixpoint sorted_from (frame column : Z) (l : list span_content) : Prop :=
  match l with
  | [] => True
  | s :: l => frame <= k_first s /\ column <= k_first_column s /\
              sorted_from (k_end s) (k_end_column s) l
  end.

(** Spans that cover everything from [frame] and [column] on. *)
Fixpoint contiguous_from (k : content) (frame column : Z) (l : list span_content) : Prop :=
  match l with
  | [] => frame = k_total_frames k /\ column = k_logical k
  | s :: l => k_first s = frame /\ k_first_column s = column /\
              contiguous_from k (k_end s) (k_end_column s) l
  end.

Record valid (strict : bool) (k : content) : Prop := {
  v_total_frames : is_u64 (k_total_frames k);
  v_sample_rate : 1 <= k_sample_rate k <= UINT32_MAX;
  v_channel_count : 1 <= k_channel_count k <= UINT16_MAX;
  v_channel_layout : is_u16 (k_channel_layout k);
  v_kind : is_u32 (k_fingerprint_kind k);
  v_fingerprint : length (k_fingerprint k) = 32%nat /\ bytes_ok (k_fingerprint k);
  v_fingerprint_valid :
    apta_internal_source_fingerprint_is_valid (k_fingerprint_kind k)
      (Some (k_fingerprint k)) = true;
  v_level_id : is_u32 (k_level_id k);
  v_frames_per_column : 1 <= k_frames_per_column k <= UINT32_MAX;
  v_origin : is_u64 (k_origin k);
  v_state : APTA_FEATURE_PARTIAL <= k_state k <= APTA_FEATURE_FINAL;
  v_partial : k_state k <> APTA_FEATURE_FINAL \/ k_known k = false -> k_partial k = true;
  v_known : k_state k = APTA_FEATURE_FINAL -> k_known k = true;
  v_origin_total : k_known k = true -> k_origin k <= k_total_frames k;
  v_logical : 1 <= k_logical k <= UINT32_MAX;
  v_spans : k_spans k <> [] /\ zlen (k_spans k) <= UINT32_MAX;
  v_packed : k_packed (k_spans k) <= UINT32_MAX;
  v_span : Forall (span_valid strict k) (k_spans k);
  v_sorted : sorted_from 0 0 (k_spans k);
  v_final : k_state k = APTA_FEATURE_FINAL -> contiguous_from k (k_origin k) 0 (k_spans k)
}.

(** A result whose fields have the width of their C types and whose pointers
    point to arrays of at least the stated counts. *)
Definition span_typed (columns : list apta_waveform_column_t) (s : apta_waveform_span_t) : Prop :=
  is_u64 (sp_first_frame s) /\ is_u64 (sp_end_frame s) /\ is_u32 (sp_first_column_index s) /\
  is_u32 (sp_column_count s) /\
  match sp_columns s with
  | Some base => (base + Z.to_nat (sp_column_count s) <= length columns)%nat
  | None => True
  end.

Record result_typed (r : apta_result_t) : Prop := {
  rt_total : is_u64 (res_total_source_frames r);
  rt_rate : is_u32 (res_source_sample_rate r);
  rt_channels : is_u32 (res_source_channel_count r);
  rt_layout : is_u32 (res_source_channel_layout r);
  rt_kind : is_u32 (si_fingerprint_kind (res_source_info r));
  rt_fingerprint : length (si_fingerprint (res_source_info r)) = 32%nat /\
                   bytes_ok (si_fingerprint (res_source_info r));
  rt_level_id : is_u32 (ov_level_id (res_overview r));
  rt_frames_per_column : is_u32 (ov_frames_per_column (res_overview r));
  rt_origin : is_u64 (ov_origin_frame (res_overview r));
  rt_state : is_u32 (ov_state (res_overview r));
  rt_span_count : is_u32 (ov_span_count (res_overview r));
  rt_columns : Forall column_typed (res_overview_columns r);
  rt_spans : forall spans, ov_spans (res_overview r) = Some spans ->
             ov_span_count (res_overview r) <= zlen spans /\
             Forall (span_typed (res_overview_columns r)) spans
}.

(** ** Sizes and ranges of the encoding *)

Ltac bytes_ok :=
  repeat first [ apply bytes_ok_le | apply Forall_app; split | apply Forall_cons; split
               | apply Forall_nil_2 | assumption | done ].

Lemma k_packed_nonneg l : 0 <= k_packed l.
Proof.
  unfold k_packed. induction l as [|s l IH]; simpl; [lia|]. pose proof (zlen_nonneg (k_columns s)). lia.
Qed.

Lemma k_extent_nonneg l : 0 <= k_extent l.
Proof. unfold k_extent. induction l as [|s l IH]; simpl; lia. Qed.

Lemma k_extent_bound l n : Forall (fun s => k_end_column s <= n) l -> 0 <= n -> k_extent l <= n.
Proof. unfold k_extent. induction 1; simpl; lia. Qed.

Lemma required_columns_range x f :
  0 <= x <= UINT64_MAX -> 1 <= f <= UINT32_MAX -> 0 <= required_columns x f <= UINT64_MAX.
Proof.
  intros Hx Hf. unfold required_columns. pose proof (Z_div_mod_eq_full x f).
  pose proof (Z.mod_pos_bound x f ltac:(lia)). pose proof (Z.div_pos x f ltac:(lia) ltac:(lia)).
  destruct (Z.eq_dec f 1) as [->|].
  - rewrite Z.div_1_r, Z.mod_1_r. simpl. lia.
  - destruct (x mod f =? 0); nia.
Qed.

Lemma land_state z : 0 <= z <= 7 -> Z.land z 7 = z.
Proof. intros Hz. change 7 with (Z.ones 3). rewrite Z.land_ones by lia. apply Z.mod_small. lia. Qed.

Lemma encode_column_ok c : column_typed c -> bytes_ok (encode_column c).
Proof. intros (_ & _ & _ & ? & ? & ? & ?). unfold encode_column, bytes_ok. bytes_ok. Qed.

Lemma length_encode_column c : length (encode_column c) = 10%nat.
Proof. unfold encode_column. by rewrite !length_app, !length_le_bytes. Qed.

Lemma zlen_encode_columns l : zlen (encode_columns l) = 10 * zlen l.
Proof.
  unfold encode_columns. induction l as [|c l IH]; [done|]. cbn [mbind list_bind].
  zlen. rewrite IH. unfold zlen at 1. rewrite length_encode_column. lia.
Qed.

Lemma k_packed_app l k : k_packed (l ++ k) = k_packed l + k_packed k.
Proof. unfold k_packed. induction l as [|s l IH]; simpl; lia. Qed.

Lemma encode_span_split s packed :
  encode_span s packed =
  (le_bytes 8 (k_first s) ++ le_bytes 8 (k_end s) ++ le_bytes 4 (k_first_column s) ++
   le_bytes 4 (zlen (k_columns s)) ++ le_bytes 4 packed) ++ replicate 4 0.
Proof. unfold encode_span. by rewrite <- !app_assoc. Qed.

Lemma length_encode_span s packed : length (encode_span s packed) = 32%nat.
Proof. unfold encode_span. by rewrite !length_app, !length_le_bytes. Qed.

Lemma encode_columns_ok l : Forall column_typed l -> bytes_ok (encode_columns l).
Proof.
  induction 1 as [|c l Hc Hl IH]; [apply Forall_nil_2|]. unfold encode_columns. cbn [mbind list_bind].
  apply Forall_app. split; [by apply encode_column_ok | exact IH].
Qed.

Lemma encode_spans_ok packed l : bytes_ok (encode_spans packed l).
Proof.
  revert packed. induction l as [|s l IH]; intros packed; [apply Forall_nil_2|].
  cbn [encode_spans]. apply Forall_app. split; [|apply IH]. unfold encode_span. bytes_ok.
Qed.

Lemma encode_all_columns_ok l :
  Forall (fun s => Forall column_typed (k_columns s)) l -> bytes_ok (encode_all_columns l).
Proof.
  induction 1 as [|s l Hs Hl IH]; [apply Forall_nil_2|]. unfold encode_all_columns.
  cbn [mbind list_bind]. apply Forall_app. split; [by apply encode_columns_ok | exact IH].
Qed.

Lemma zlen_encode_spans packed l : zlen (encode_spans packed l) = 32 * zlen l.
Proof.
  revert packed. induction l as [|s l IH]; intros packed; [done|]. cbn [encode_spans]. zlen.
  rewrite IH. unfold zlen at 1. rewrite length_encode_span. lia.
Qed.

Lemma zlen_encode_all_columns l : zlen (encode_all_columns l) = 10 * k_packed l.
Proof.
  unfold encode_all_columns. induction l as [|s l IH]; [done|]. cbn [mbind list_bind]. zlen.
  rewrite IH, zlen_encode_columns. cbn [k_packed foldr]. fold (k_packed l). lia.
Qed.

Lemma zlen_encode_overview k : zlen (encode_overview k) = 44.
Proof. unfold encode_overview. by zlen. Qed.

Lemma zlen_encode_payload k : zlen (encode_payload k) = k_payload_size k.
Proof.
  unfold encode_payload, k_payload_size. zlen.
  rewrite zlen_encode_overview, zlen_encode_spans, zlen_encode_all_columns. lia.
Qed.

Lemma zlen_encode_header k : length (k_fingerprint k) = 32%nat -> zlen (encode_header k) = 92.
Proof.
  intros Hf. unfold encode_header. zlen. unfold zlen at 2. rewrite Hf. reflexivity.
Qed.

Lemma zlen_encode_entry k : zlen (encode_entry k) = 32.
Proof. unfold encode_entry. by zlen. Qed.

Lemma zlen_encode k : length (k_fingerprint k) = 32%nat -> zlen (encode k) = k_total_size k.
Proof.
  intros Hf. unfold encode, k_total_size. zlen.
  rewrite zlen_encode_header, zlen_encode_entry, zlen_encode_payload by done. lia.
Qed.

Lemma encode_header_ok k : bytes_ok (k_fingerprint k) -> bytes_ok (encode_header k).
Proof.
  intros Hf. unfold encode_header, bytes_ok.
  assert (bytes_ok tag_APTA) by (by apply (bool_decide_unpack _)). bytes_ok.
Qed.

Lemma encode_entry_ok k : bytes_ok (encode_entry k).
Proof.
  unfold encode_entry, bytes_ok.
  assert (bytes_ok tag_WOVR) by (by apply (bool_decide_unpack _)). bytes_ok.
Qed.

Lemma encode_overview_ok k : bytes_ok (encode_overview k).
Proof. unfold encode_overview, bytes_ok. bytes_ok. Qed.

Lemma zlen_length {T} (l : list T) n : zlen l = Z.of_nat n -> length l = n.
Proof. unfold zlen. lia. Qed.
