(* ===== verification/Snapshot.v ===== *)
(** * Snapshots of the overview (waveform/apta_waveform_snapshot.c)

    A snapshot copies the complete columns of the table into a result: the columns
    quantised, consecutive ones grouped into spans.  A first pass counts the spans, a
    second fills the two arrays of the result. *)

From Stdlib Require Import Floats.SpecFloat.
From S2P Require Import Prelude Platform Bytes Wovr Samples Ranges.
From S2P Require Import Overview Quantize.

Definition APTA_WAVEFORM_COLUMN_CLIPPED : Z := Z.shiftl 1 2.
Definition APTA_CONFIDENCE_MAX : Z := 100.

(** What a snapshot reads of the session besides the table. *)
Record snapshot_input : Type := {
  sn_overview : overview;
  sn_total_frames : Z;
  sn_state : apta_session_state_t
}.

Definition apta_overview_confidence (session : snapshot_input) (complete_columns : Z) : Z :=
  let o := sn_overview session in
  if negb (any (ov_requested_features o) APTA_FEATURE_CONFIDENCE) then APTA_CONFIDENCE_UNKNOWN
  else
    let total_frames := if ov_end_of_input_signalled o then ov_final_end_frame o else sn_total_frames session in
    if (total_frames =? 0) || (Overview.ov_frames_per_column o =? 0) then APTA_CONFIDENCE_UNKNOWN
    else
      let expected := u64 (u64 (u64 (total_frames + Overview.ov_frames_per_column o) - 1) /
                           Overview.ov_frames_per_column o) in
      if expected =? 0 then APTA_CONFIDENCE_UNKNOWN
      else if expected <=? complete_columns then APTA_CONFIDENCE_MAX
      else u8 (u64 (complete_columns * APTA_CONFIDENCE_MAX) / expected).

(** Whether the column [x] starts a span, after the complete column [previous]. *)
Definition starts_span (previous : option Z) (x : accumulator) : bool :=
  match previous with
  | None => true
  | Some previous => negb (ac_column_index x =? u32 (previous + 1))
  end.

(** The first pass, over the [n] cells from [index] on. *)
Fixpoint count_spans (a : list accumulator) (index n : nat) (previous : option Z) (span_count : Z) : result Z :=
  match n with
  | O => Ret span_count
  | S n =>
      let! x := arr_get a index in
      if negb (ac_complete x) then count_spans a (S index) n previous span_count
      else count_spans a (S index) n (Some (ac_column_index x))
             (if starts_span previous x then u32 (span_count + 1) else span_count)
  end.

(** The locals of the second pass and the two arrays it fills. *)
Record snapshot_pass : Type := {
  sp_result_columns : list apta_waveform_column_t;
  sp_result_spans : list apta_waveform_span_t;
  sp_output_index : nat;
  sp_span_index : nat;
  sp_previous : option Z;
  sp_span_output_start : nat
}.

(** The end of the span whose last column is [previous]. *)
Definition span_end_frame (o : overview) (previous : Z) : Z :=
  let end_frame := u64 (u64 (previous + 1) * Overview.ov_frames_per_column o) in
  if ov_end_of_input_signalled o then apta_min_frame end_frame (ov_final_end_frame o) else end_frame.

(** Write the end of the last span. *)
Definition close_span (o : overview) (p : snapshot_pass) : result (list apta_waveform_span_t) :=
  match sp_previous p with
  | None => Ret (sp_result_spans p)
  | Some previous =>
      let! span := arr_get (sp_result_spans p) (sp_span_index p - 1) in
      arr_put (sp_result_spans p) (sp_span_index p - 1)
        {| sp_first_frame := sp_first_frame span; sp_end_frame := span_end_frame o previous;
           sp_first_column_index := sp_first_column_index span;
           sp_column_count := u32 (Z.of_nat (sp_output_index p) - Z.of_nat (sp_span_output_start p));
           sp_columns := sp_columns span |}
  end.

(** Close the last span and open one at the column [x]. *)
Definition open_span (o : overview) (p : snapshot_pass) (x : accumulator) : result snapshot_pass :=
  let! spans := close_span o p in
  let! span := arr_get spans (sp_span_index p) in
  let! spans := arr_put spans (sp_span_index p)
    {| sp_first_frame := u64 (ac_column_index x * Overview.ov_frames_per_column o);
       sp_end_frame := sp_end_frame span; sp_first_column_index := ac_column_index x;
       sp_column_count := sp_column_count span; sp_columns := Some (sp_output_index p) |} in
  Ret {| sp_result_columns := sp_result_columns p; sp_result_spans := spans;
         sp_output_index := sp_output_index p; sp_span_index := S (sp_span_index p);
         sp_previous := sp_previous p; sp_span_output_start := sp_output_index p |}.

Definition column_flags (x : accumulator) (bands : bool) : Z :=
  let flags := APTA_WAVEFORM_COLUMN_VALID in
  let flags := if ac_clipped x then Z.lor flags APTA_WAVEFORM_COLUMN_CLIPPED else flags in
  if bands then Z.lor flags APTA_WAVEFORM_COLUMN_HAS_3BAND else flags.

(** The stored form of the accumulator at [index]. *)
Definition quantize_column (o : overview) (index : nat) (x : accumulator) : result apta_waveform_column_t :=
  let! minimum := apta_quantize_peak (ac_minimum x) in
  let! maximum := apta_quantize_peak (ac_maximum x) in
  let! rms := apta_quantize_rms (ac_sum_squares x) (ac_sample_count x) in
  match ov_band_sums o with
  | None =>
      Ret {| wc_minimum := minimum; wc_maximum := maximum; wc_rms := rms; wc_low := 0; wc_mid := 0; wc_high := 0;
             wc_flags := column_flags x false |}
  | Some bands =>
      let base := (index * 3)%nat in
      let! low := arr_get bands base in
      let! mid := arr_get bands (base + 1) in
      let! high := arr_get bands (base + 2) in
      Ret {| wc_minimum := minimum; wc_maximum := maximum; wc_rms := rms;
             wc_low := apta_quantize_band low (ac_sample_count x);
             wc_mid := apta_quantize_band mid (ac_sample_count x);
             wc_high := apta_quantize_band high (ac_sample_count x);
             wc_flags := column_flags x true |}
  end.

(** The second pass, over the [n] cells from [index] on. *)
Fixpoint fill_snapshot (o : overview) (index n : nat) (p : snapshot_pass) : result snapshot_pass :=
  match n with
  | O => Ret p
  | S n =>
      let! x := arr_get (ov_accumulators o) index in
      if negb (ac_complete x) then fill_snapshot o (S index) n p
      else
        let! p := if starts_span (sp_previous p) x then open_span o p x else Ret p in
        let! column := quantize_column o index x in
        let! columns := arr_put (sp_result_columns p) (sp_output_index p) column in
        fill_snapshot o (S index) n
          {| sp_result_columns := columns; sp_result_spans := sp_result_spans p;
             sp_output_index := S (sp_output_index p); sp_span_index := sp_span_index p;
             sp_previous := Some (ac_column_index x); sp_span_output_start := sp_span_output_start p |}
  end.

(** Whether the overview covers the whole track. *)
Definition full_coverage (o : overview) (span_count : Z) (spans : list apta_waveform_span_t) : result bool :=
  if ov_end_of_input_signalled o && (span_count =? 1) then
    let! span := arr_get spans 0 in
    Ret ((sp_first_frame span =? 0) && (sp_end_frame span =? ov_final_end_frame o))
  else Ret false.

Definition overview_state (full : bool) (state : apta_session_state_t) : Z :=
  if full && bool_decide (state = APTA_SESSION_COMPLETED) then APTA_FEATURE_FINAL
  else if full then APTA_FEATURE_STABLE else APTA_FEATURE_PARTIAL.

Definition snapshot_features (requested : Z) : Z :=
  let features := APTA_FEATURE_WAVEFORM_OVERVIEW in
  let features := if any requested APTA_FEATURE_WAVEFORM_3BAND
                  then Z.lor features APTA_FEATURE_WAVEFORM_3BAND else features in
  if any requested APTA_FEATURE_CONFIDENCE then Z.lor features APTA_FEATURE_CONFIDENCE else features.

(** The result with its overview. *)
Definition with_overview (r : apta_result_t) (view : apta_waveform_overview_view_t)
    (columns : list apta_waveform_column_t) (features : Z) : apta_result_t :=
  let i := res_info r in
  {| res_info :=
       {| ri_specification_major := ri_specification_major i;
          ri_specification_minor := ri_specification_minor i;
          ri_producer_api_version := ri_producer_api_version i;
          ri_container_version := ri_container_version i; ri_generation := ri_generation i;
          ri_available_features := Z.lor (ri_available_features i) features;
          ri_changed_features := ri_changed_features i; ri_session_state := ri_session_state i |};
     res_source_info := res_source_info r; res_total_source_frames := res_total_source_frames r;
     res_source_sample_rate := res_source_sample_rate r; res_source_channel_count := res_source_channel_count r;
     res_source_channel_layout := res_source_channel_layout r; res_overview := view;
     res_overview_columns := columns |}.

Section Snapshot.
Context `{Platform}.
Context (allocate : nat -> Z -> bool).

(** The two passes, once the arrays are there. *)
Definition fill_result (session : snapshot_input) (r : apta_result_t) (span_count column_bytes span_bytes : Z)
  : result apta_result_t :=
  let o := sn_overview session in
  let! p := fill_snapshot o 0 (ov_count o)
    {| sp_result_columns := replicate (Z.to_nat (column_bytes / sizeof T_waveform_column)) zero_column;
       sp_result_spans := replicate (Z.to_nat (span_bytes / sizeof T_waveform_span)) zero_span;
       sp_output_index := 0; sp_span_index := 0; sp_previous := None; sp_span_output_start := 0 |} in
  let! spans := close_span o p in
  let! full := full_coverage o span_count spans in
  Ret (with_overview r
    {| ov_level_id := 0; Wovr.ov_frames_per_column := Overview.ov_frames_per_column o; ov_origin_frame := 0;
       ov_state := overview_state full (sn_state session);
       ov_confidence := apta_overview_confidence session (Z.of_nat (sp_output_index p));
       ov_span_count := span_count; ov_spans := Some spans |}
    (sp_result_columns p) (snapshot_features (ov_requested_features o))).

(** The session's table (whose requests to the allocator are counted), the result and
    the status. *)
Definition apta_internal_waveform_build_snapshot (session : snapshot_input) (r : apta_result_t)
  : result (overview * apta_result_t * apta_status_t) :=
  let o := sn_overview session in
  let complete_count := ov_complete_count o in
  if negb (any (ov_requested_features o) APTA_FEATURE_WAVEFORM_OVERVIEW) || (complete_count =? 0)
  then Ret (o, r, APTA_STATUS_OK)
  else
    let! span_count := count_spans (ov_accumulators o) 0 (ov_count o) None 0 in
    if negb (apta_internal_size_array_fits 0 complete_count (sizeof T_waveform_column)) ||
       negb (apta_internal_size_array_fits 0 span_count (sizeof T_waveform_span))
    then Ret (o, r, APTA_ERROR_LIMIT_EXCEEDED)
    else
      let column_bytes := size_t (complete_count * sizeof T_waveform_column) in
      let span_bytes := size_t (span_count * sizeof T_waveform_span) in
      let granted := allocate (ov_allocations o) column_bytes in
      let o := count_allocation o in
      if negb granted then Ret (o, r, APTA_ERROR_OUT_OF_MEMORY)
      else
        let granted := allocate (ov_allocations o) span_bytes in
        let o := count_allocation o in
        if negb granted then Ret (o, r, APTA_ERROR_OUT_OF_MEMORY)
        else
          let! r := fill_result session r span_count column_bytes span_bytes in
          Ret (o, r, APTA_STATUS_OK).

End Snapshot.
