(* ===== verification/SnapshotFill.v ===== *)
(** * The two passes of a snapshot

    The reference groups the complete columns of the table into maximal runs of
    consecutive columns; the passes are proved to count those runs and to lay them out
    as the spans and columns of a result, inside the two arrays. *)

From Stdlib Require Import Floats.SpecFloat.
From S2P Require Import Prelude Platform FloatFacts FloatOrder Samples Ranges AcceptPcm SampleTheorems Bytes Wovr WovrSpec.
From S2P Require Import Overview OverviewTable OverviewMeasure Quantize Snapshot.

(** ** Runs *)

(** The column after which the next one is compared. *)
Definition last_column (current : list column) : option Z :=
  match last current with Some x => Some (col x) | None => None end.

Definition flush {T} (current : list T) : list (list T) :=
  match current with [] => [] | _ => [current] end.

(** The runs of [l] when the run under construction is [current]. *)
Fixpoint split_runs (current l : list column) : list (list column) :=
  match l with
  | [] => flush current
  | x :: l =>
      if starts_span (last_column current) x.1 then flush current ++ split_runs [x] l
      else split_runs (current ++ [x]) l
  end.

Definition complete_columns (m : list column) : list column := List.filter (fun x => ac_complete x.1) m.

Definition runs (m : list column) : list (list column) := split_runs [] (complete_columns m).

Lemma last_column_app l x : last_column (l ++ [x]) = Some (col x).
Proof. unfold last_column. by rewrite last_snoc. Qed.

Lemma last_column_single x : last_column [x] = Some (col x).
Proof. done. Qed.

Lemma split_runs_concat current l : concat (split_runs current l) = current ++ l.
Proof.
  assert (Hf : forall c : list column, concat (flush c) = c) by (intros []; simpl; rewrite ?app_nil_r; done).
  revert current. induction l as [|x l IH]; intros current; simpl; [by rewrite Hf, app_nil_r|].
  destruct (starts_span _ _); [|by rewrite IH, <- app_assoc].
  rewrite concat_app, Hf, IH. done.
Qed.

Lemma split_runs_length current l : (length (flush current) <= length (split_runs current l))%nat.
Proof.
  revert current. induction l as [|x l IH]; intros current; simpl; [done|].
  destruct (starts_span _ _); [rewrite length_app; lia|].
  assert (length (flush (current ++ [x])) = 1%nat) by (by destruct current).
  assert (length (flush current) <= 1)%nat by (destruct current; simpl; lia).
  specialize (IH (current ++ [x])). lia.
Qed.

Lemma split_runs_length_le current l : (length (split_runs current l) <= length (flush current) + length l)%nat.
Proof.
  revert current. induction l as [|x l IH]; intros current; simpl; [lia|].
  destruct (starts_span _ _) eqn:E.
  - rewrite length_app. specialize (IH [x]). simpl in IH. lia.
  - specialize (IH (current ++ [x])). destruct current as [|y c]; [done|]. simpl in *. lia.
Qed.

(** ** The first pass *)

Lemma map_fst_get (m : list column) i x (a rest : list accumulator) : a = map fst m ++ rest -> m !! i = Some x ->
  arr_get (E := apta_status_t) a i = Ret x.1.
Proof.
  intros -> Hx. unfold arr_get. rewrite lookup_app_l by (rewrite length_map; by eapply lookup_lt_Some).
  by rewrite list_lookup_fmap, Hx.
Qed.

Lemma count_spans_spec (m : list column) (a rest : list accumulator) l1 l2 current count : a = map fst m ++ rest -> m = l1 ++ l2 ->
  0 <= count -> count + Z.of_nat (length l2) <= UINT32_MAX ->
  count_spans a (length l1) (length l2) (last_column current) count =
  Ret (count + Z.of_nat (length (split_runs current (complete_columns l2))) - Z.of_nat (length (flush current))).
Proof.
  intros Ha. revert l1 current count. induction l2 as [|x l2 IH]; intros l1 current count Hm Hc Hb; simpl.
  - f_equal. lia.
  - rewrite (map_fst_get m _ x a rest Ha) by (rewrite Hm; by apply list_lookup_middle). cbn [obind].
    assert (Hm' : m = (l1 ++ [x]) ++ l2) by (by rewrite <- app_assoc).
    assert (Hl : S (length l1) = length (l1 ++ [x])) by (rewrite length_app; simpl; lia). rewrite Hl.
    simpl in Hb. destruct (ac_complete x.1); simpl; [|by apply IH; try lia].
    destruct (starts_span (last_column current) x.1) eqn:E.
    + change (Some (ac_column_index x.1)) with (last_column [x]). rewrite u32_small by (unfold is_u32; lia).
      rewrite IH by (done || lia). f_equal. rewrite length_app. simpl. lia.
    + change (ac_column_index x.1) with (col x). rewrite <- (last_column_app current).
      rewrite IH by (done || lia). f_equal. destruct current; [done|]. simpl. lia.
Qed.

(** ** Quantised columns *)

Definition has_bands (o : overview) : bool := match ov_band_sums o with Some _ => true | None => false end.

Definition stored_rms (x : accumulator) : Z := the (apta_quantize_rms (ac_sum_squares x) (ac_sample_count x)).

(** What is stored for a column, with bands or without. *)
Definition stored (bands : bool) (x : column) : apta_waveform_column_t :=
  let a := x.1 in
  let '(b0, b1, b2) := x.2 in
  {| wc_minimum := quantized_peak (fval 24 128 (ac_minimum a));
     wc_maximum := quantized_peak (fval 24 128 (ac_maximum a));
     wc_rms := stored_rms a;
     wc_low := if bands then apta_quantize_band b0 (ac_sample_count a) else 0;
     wc_mid := if bands then apta_quantize_band b1 (ac_sample_count a) else 0;
     wc_high := if bands then apta_quantize_band b2 (ac_sample_count a) else 0;
     wc_flags := column_flags a bands |}.

Lemma stored_rms_ok (x : column) : column_ok x -> few_samples x ->
  apta_quantize_rms (ac_sum_squares x.1) (ac_sample_count x.1) = Ret (stored_rms x.1) /\ is_u16 (stored_rms x.1).
Proof.
  intros [Hc _] Hf. unfold counters_ok, few_samples in *. destruct x.2 as [[? ?] ?].
  destruct (quantize_rms_range (ac_sum_squares x.1) (ac_sample_count x.1)) as (v & E & Hv); [lia|lia|].
  unfold stored_rms. by rewrite E.
Qed.

Lemma flat_get l1 (b : Z * Z * Z) l2 rest :
  let bands := flat (l1 ++ b :: l2) ++ rest in
  let base := (length l1 * 3)%nat in
  arr_get (E := apta_status_t) bands base = Ret b.1.1 /\
  arr_get (E := apta_status_t) bands (base + 1) = Ret b.1.2 /\
  arr_get (E := apta_status_t) bands (base + 2) = Ret b.2.
Proof.
  intros bands base. unfold bands, base. destruct b as [[b0 b1] b2]. rewrite flat_app, <- app_assoc.
  rewrite (arr_get_app _ _ (length l1 * 3) 0) by (rewrite length_flat; lia).
  rewrite (arr_get_app _ _ (length l1 * 3 + 1) 1) by (rewrite length_flat; lia).
  rewrite (arr_get_app _ _ (length l1 * 3 + 2) 2) by (rewrite length_flat; lia). done.
Qed.

Lemma quantize_column_spec o m l1 x l2 : represents o m -> m = l1 ++ x :: l2 -> column_ok x -> few_samples x ->
  quantize_column o (length l1) x.1 = Ret (stored (has_bands o) x).
Proof.
  intros [_ _ Hb] Hm Hx Hf. pose proof Hx as [_ ([V1 M1] & [V2 M2] & _)].
  destruct (stored_rms_ok x Hx Hf) as [Er _]. unfold quantize_column, stored, has_bands.
  rewrite !quantize_peak_value by done. cbn [obind]. rewrite Er. cbn [obind].
  destruct (ov_band_sums o) as [bands|] ; [|by destruct x.2 as [[? ?] ?]].
  destruct Hb as [rest ->]. rewrite Hm, map_app. cbn [map].
  destruct (flat_get (map snd l1) x.2 (map snd l2) rest) as (E0 & E1 & E2). rewrite length_map in E0, E1, E2.
  rewrite E0, E1, E2. by destruct x.2 as [[? ?] ?].
Qed.

(** ** The second pass *)

(** The closed record of a run whose columns start at [base]. *)
Definition span_record (o : overview) (base : nat) (run : list column) : apta_waveform_span_t :=
  match run with
  | [] => zero_span
  | x :: _ =>
      {| sp_first_frame := u64 (col x * Overview.ov_frames_per_column o);
         sp_end_frame := span_end_frame o (default 0 (last_column run));
         sp_first_column_index := col x;
         sp_column_count := Z.of_nat (length run);
         sp_columns := Some base |}
  end.

Fixpoint span_records (o : overview) (base : nat) (l : list (list column)) : list apta_waveform_span_t :=
  match l with
  | [] => []
  | run :: l => span_record o base run :: span_records o (base + length run) l
  end.

Lemma span_records_app o base l k :
  span_records o base (l ++ k) = span_records o base l ++ span_records o (base + length (concat l)) k.
Proof.
  revert base. induction l as [|run l IH]; intros base; simpl; [by rewrite Nat.add_0_r|].
  rewrite IH, length_app. by rewrite Nat.add_assoc.
Qed.

Lemma length_span_records o base l : length (span_records o base l) = length l.
Proof. revert base. induction l as [|run l IH]; intros base; simpl; [done|]. by rewrite IH. Qed.

(** The open record of the run under construction. *)
Definition open_records (o : overview) (base : nat) (current : list column) : list apta_waveform_span_t :=
  match current with
  | [] => []
  | x :: _ =>
      [{| sp_first_frame := u64 (col x * Overview.ov_frames_per_column o); sp_end_frame := 0;
          sp_first_column_index := col x; sp_column_count := 0; sp_columns := Some base |}]
  end.

(** The pass with the runs [closed] written and the run [current] under
    construction, [nc] columns and [ns] spans still to come. *)
Record pass_ok (o : overview) (closed : list (list column)) (current : list column) (nc ns : nat)
    (p : snapshot_pass) : Prop := {
  po_columns : sp_result_columns p =
    map (stored (has_bands o)) (concat closed ++ current) ++ replicate nc zero_column;
  po_spans : sp_result_spans p =
    span_records o 0 closed ++ open_records o (length (concat closed)) current ++ replicate ns zero_span;
  po_output : sp_output_index p = length (concat closed ++ current);
  po_span_index : sp_span_index p = length (closed ++ flush current);
  po_previous : sp_previous p = last_column current;
  po_start : current <> [] -> sp_span_output_start p = length (concat closed);
  po_first : current = [] -> closed = []
}.

Lemma close_span_spec o closed current nc ns p : pass_ok o closed current nc ns p ->
  Z.of_nat (length current) <= UINT32_MAX ->
  close_span o p = Ret (span_records o 0 (closed ++ flush current) ++ replicate ns zero_span).
Proof.
  intros [_ H2 H3 H4 H5 H6 H7] Hlen. unfold close_span. rewrite H5. destruct current as [|x l].
  - cbn [last_column last]. rewrite H2, (H7 eq_refl). done.
  - assert (Hl : exists y, last_column (x :: l) = Some (col y)).
    { unfold last_column. destruct (last (x :: l)) as [y|] eqn:E; [by exists y|]. by apply last_None in E. }
    destruct Hl as [y Hy]. rewrite Hy. rewrite H2, H4. cbn [flush open_records].
    assert (Ei : (length (closed ++ [x :: l]) - 1)%nat = length closed) by (rewrite length_app; simpl; lia).
    rewrite Ei. cbn [app]. rewrite arr_get_middle by apply length_span_records. cbn [obind].
    rewrite arr_put_middle by apply length_span_records. f_equal.
    rewrite span_records_app, <- app_assoc. do 2 f_equal. cbn [span_records span_record app].
    rewrite Hy. cbn [default sp_first_frame sp_first_column_index sp_columns]. do 2 f_equal.
    rewrite H3, (H6 ltac:(done)), length_app. rewrite u32_small; [lia|]. unfold is_u32. lia.
Qed.

(** A complete column. *)
Lemma fill_step o m l1 x l2 closed current nc ns p : represents o m -> m = l1 ++ x :: l2 -> column_ok x ->
  few_samples x -> pass_ok o closed current (S nc) ns p -> Z.of_nat (length current) <= UINT32_MAX ->
  let new := starts_span (last_column current) x.1 in
  (new = true -> (1 <= ns)%nat) ->
  exists p1 columns,
    (if starts_span (sp_previous p) x.1 then open_span o p x.1 else Ret p) = Ret p1 /\
    quantize_column o (length l1) x.1 = Ret (stored (has_bands o) x) /\
    arr_put (E := apta_status_t) (sp_result_columns p1) (sp_output_index p1) (stored (has_bands o) x) = Ret columns /\
    pass_ok o (if new then closed ++ flush current else closed) (if new then [x] else current ++ [x])
      nc (if new then ns - 1 else ns)
      {| sp_result_columns := columns; sp_result_spans := sp_result_spans p1;
         sp_output_index := S (sp_output_index p1); sp_span_index := sp_span_index p1;
         sp_previous := Some (col x); sp_span_output_start := sp_span_output_start p1 |}.
Proof.
  intros Hr Hm Hx Hf Hp Hlen new Hns. pose proof (close_span_spec _ _ _ _ _ _ Hp Hlen) as Hclose.
  destruct Hp as [H1 H2 H3 H4 H5 H6 H7]. rewrite H5. fold new.
  pose proof (quantize_column_spec o m l1 x l2 Hr Hm Hx Hf) as Hq.
  assert (Hflush : concat (closed ++ flush current) = concat closed ++ current).
  { rewrite concat_app. by destruct current; simpl; rewrite ?app_nil_r. }
  assert (Hput : forall c, arr_put (E := apta_status_t) (map (stored (has_bands o)) (concat closed ++ current) ++ replicate (S nc) zero_column)
            (length (concat closed ++ current)) c =
          Ret (map (stored (has_bands o)) (concat closed ++ current) ++ c :: replicate nc zero_column)).
  { intros c. cbn [replicate]. apply arr_put_middle. apply length_map. }
  destruct new eqn:Enew.
  - specialize (Hns eq_refl). destruct ns as [|ns]; [lia|].
    unfold open_span. rewrite Hclose. cbn [obind replicate]. rewrite H4.
    rewrite arr_get_middle by apply length_span_records. cbn [obind].
    rewrite arr_put_middle by apply length_span_records. cbn [obind].
    eexists _, _. split; [reflexivity|]. split; [done|]. cbn [sp_result_columns sp_output_index]. rewrite H1, H3.
    split; [apply Hput|]. constructor; simpl.
    + rewrite Hflush, (map_app _ (concat closed ++ current)), <- app_assoc. done.
    + rewrite Hflush. replace (ns - 0)%nat with ns by lia. done.
    + rewrite Hflush, !length_app. simpl. lia.
    + rewrite !length_app. simpl. lia.
    + done.
    + by rewrite Hflush.
    + done.
  - exists p. eexists. split; [done|]. split; [done|]. rewrite H1, H3. split; [apply Hput|].
    assert (Hne : current <> []) by (intros ->; done). constructor; simpl.
    + rewrite app_assoc, (map_app _ (concat closed ++ current)), <- app_assoc. done.
    + rewrite H2. by destruct current.
    + rewrite !length_app. simpl. lia.
    + rewrite H4, !length_app. by destruct current.
    + by rewrite last_column_app.
    + intros _. by apply H6.
    + by destruct current.
Qed.

Lemma fill_spec o m l1 l2 closed current p : represents o m -> m = l1 ++ l2 ->
  Forall column_ok m -> Forall few_samples m -> Z.of_nat (length m) <= UINT32_MAX ->
  (length (concat closed ++ current) <= length l1)%nat ->
  let rest := complete_columns l2 in
  pass_ok o closed current (length rest) (length (split_runs current rest) - length (flush current)) p ->
  exists p', fill_snapshot o (length l1) (length l2) p = Ret p' /\
    exists closed' current', closed' ++ flush current' = closed ++ split_runs current rest /\
      pass_ok o closed' current' 0 0 p'.
Proof.
  intros Hr. revert l1 closed current p. induction l2 as [|x l2 IH]; intros l1 closed current p Hm Hok Hfew Hlen Hle; simpl.
  - rewrite Nat.sub_diag. intros Hp. exists p. split; [done|]. by exists closed, current.
  - intros Hp. destruct (rp_accumulators _ _ Hr) as [r Ha].
    rewrite (map_fst_get m _ x _ r Ha) by (rewrite Hm; by apply list_lookup_middle). cbn [obind].
    assert (Hm' : m = (l1 ++ [x]) ++ l2) by (by rewrite <- app_assoc).
    assert (Hl : S (length l1) = length (l1 ++ [x])) by (rewrite length_app; simpl; lia). rewrite Hl.
    assert (Hin : column_ok x /\ few_samples x).
    { rewrite Forall_forall in Hok, Hfew. assert (x ∈ m) by (rewrite Hm; apply elem_of_app; right; apply elem_of_cons; by left). auto. }
    destruct Hin as [Hxo Hxf]. destruct (ac_complete x.1) eqn:Ec; cbn [negb].
    2:{ apply IH; try done. rewrite (length_app l1). simpl. lia. }
    pose proof Hm as Hlm. apply (f_equal length) in Hlm. rewrite length_app in Hlm. simpl in Hlm.
    assert (Hcur : Z.of_nat (length current) <= UINT32_MAX) by (rewrite length_app in Hle; lia).
    cbn [length] in Hp.
    destruct (fill_step o m l1 x l2 closed current (length (complete_columns l2))
      (length (split_runs current (x :: complete_columns l2)) - length (flush current)) p Hr Hm Hxo Hxf Hp Hcur)
      as (p1 & columns & -> & E2 & E3 & Hp').
    { intros Hnew. simpl. rewrite Hnew, length_app. pose proof (split_runs_length [x] (complete_columns l2)). simpl in *. lia. }
    cbn [obind]. rewrite E2. cbn [obind]. rewrite E3. cbn [obind]. simpl in Hp'.
    change (ac_column_index x.1) with (col x).
    set (p2 := {| sp_previous := Some (col x) |}) in Hp' |- *.
    destruct (starts_span (last_column current) x.1) eqn:Enew.
    + destruct (IH (l1 ++ [x]) (closed ++ flush current) [x] p2 Hm' Hok Hfew Hlen) as (p' & E & closed' & current' & Hcc & Hp'').
      * assert (Hflush : concat (closed ++ flush current) = concat closed ++ current)
          by (rewrite concat_app; by destruct current; simpl; rewrite ?app_nil_r).
        rewrite Hflush, (length_app l1), (length_app _ [x]). simpl. lia.
      * simpl in Hp' |- *. rewrite length_app in Hp'.
        replace (length (split_runs [x] (complete_columns l2)) - 1)%nat
          with (length (flush current) + length (split_runs [x] (complete_columns l2)) - length (flush current) - 1)%nat by lia.
        exact Hp'.
      * exists p'. split; [exact E|]. exists closed', current'. split; [|exact Hp'']. rewrite Hcc. rewrite <- app_assoc. cbn [split_runs]. by rewrite Enew.
    + destruct (IH (l1 ++ [x]) closed (current ++ [x]) p2 Hm' Hok Hfew Hlen) as (p' & E & closed' & current' & Hcc & Hp'').
      * rewrite !length_app in *. simpl. lia.
      * assert (Hfl : length (flush (current ++ [x])) = length (flush current)) by (destruct current; [discriminate Enew|done]).
        rewrite Hfl. exact Hp'.
      * exists p'. split; [exact E|]. exists closed', current'. split; [|exact Hp'']. rewrite Hcc. cbn [split_runs]. by rewrite Enew.
Qed.

(** ** The whole snapshot *)

Lemma length_complete m : length (complete_columns m) = number_complete m.
Proof. done. Qed.

Lemma runs_length_le m : (length (runs m) <= number_complete m)%nat.
Proof. unfold runs. pose proof (split_runs_length_le [] (complete_columns m)). simpl in *. by rewrite length_complete in *. Qed.

(** What [full_coverage] finds. *)
Definition covers_track (o : overview) (m : list column) : bool :=
  ov_end_of_input_signalled o &&
  match runs m with
  | [run] => (sp_first_frame (span_record o 0 run) =? 0) &&
             (sp_end_frame (span_record o 0 run) =? ov_final_end_frame o)
  | _ => false
  end.

(** The overview a snapshot of the table shows. *)
Definition view_of (session : snapshot_input) (m : list column) : apta_waveform_overview_view_t :=
  let o := sn_overview session in
  {| ov_level_id := 0; Wovr.ov_frames_per_column := Overview.ov_frames_per_column o; ov_origin_frame := 0;
     ov_state := overview_state (covers_track o m) (sn_state session);
     ov_confidence := apta_overview_confidence session (Z.of_nat (number_complete m));
     ov_span_count := Z.of_nat (length (runs m)); ov_spans := Some (span_records o 0 (runs m)) |}.

Definition snapshot_of (session : snapshot_input) (m : list column) (r : apta_result_t) : apta_result_t :=
  let o := sn_overview session in
  with_overview r (view_of session m) (map (stored (has_bands o)) (complete_columns m))
    (snapshot_features (ov_requested_features o)).

Section Fill.
Context `{PlatformLaws}.
Context (allocate : nat -> Z -> bool).

Lemma full_coverage_spec o m :
  full_coverage o (Z.of_nat (length (runs m))) (span_records o 0 (runs m)) = Ret (covers_track o m).
Proof.
  unfold full_coverage, covers_track. destruct (ov_end_of_input_signalled o); cbn [andb]; [|done].
  destruct (runs m) as [|run [|run2 l]]; [done| |].
  - done.
  - destruct (Z.eqb_spec (Z.of_nat (length (run :: run2 :: l))) 1); [simpl in *; lia|done].
Qed.

Lemma fill_result_spec session m r : represents (sn_overview session) m -> Forall column_ok m ->
  Forall few_samples m -> Z.of_nat (length m) <= UINT32_MAX ->
  let nc := Z.of_nat (number_complete m) in
  let ns := Z.of_nat (length (runs m)) in
  fill_result session r ns (nc * sizeof T_waveform_column) (ns * sizeof T_waveform_span) =
  Ret (snapshot_of session m r).
Proof.
  intros Hr Hok Hfew Hlen nc ns. unfold fill_result. pose proof (sizeof_range T_waveform_column).
  pose proof (sizeof_range T_waveform_span). rewrite !Z.div_mul by lia. unfold nc, ns. rewrite !Nat2Z.id.
  set (p0 := {| sp_previous := None |}).
  destruct (fill_spec (sn_overview session) m [] m [] [] p0 Hr eq_refl Hok Hfew Hlen ltac:(simpl; lia))
    as (p & E & closed & current & Hcc & Hp).
  { constructor; simpl; try done. by rewrite Nat.sub_0_r. }
  simpl in E. rewrite (rp_count _ _ Hr), E. cbn [obind]. simpl in Hcc. fold (runs m) in Hcc.
  assert (Hconc : concat closed ++ current = complete_columns m).
  { pose proof (split_runs_concat [] (complete_columns m)) as Hs. fold (runs m) in Hs. rewrite <- Hcc, concat_app in Hs.
    simpl in Hs. rewrite <- Hs. by destruct current; simpl; rewrite ?app_nil_r. }
  assert (Hcur : Z.of_nat (length current) <= UINT32_MAX).
  { apply (f_equal length) in Hconc. rewrite length_app, length_complete in Hconc. pose proof (number_complete_le m). lia. }
  rewrite (close_span_spec _ _ _ _ _ _ Hp Hcur), app_nil_r, Hcc. cbn [obind].
  rewrite full_coverage_spec. cbn [obind]. unfold snapshot_of, view_of. do 2 f_equal.
  - rewrite (po_output _ _ _ _ _ _ Hp), Hconc. done.
  - rewrite (po_columns _ _ _ _ _ _ Hp), app_nil_r, Hconc. done.
Qed.

(** The table after [k] requests to the allocator. *)
Definition counted (k : nat) (o : overview) : overview := Nat.iter k count_allocation o.

Lemma size_array_fits_bound n t : 0 <= n -> apta_internal_size_array_fits 0 n (sizeof t) = true ->
  size_t (n * sizeof t) = n * sizeof t.
Proof.
  intros Hn E. pose proof (sizeof_range t). pose proof size_max_cases. unfold apta_internal_size_array_fits in E.
  apply orb_true_iff in E as [E|E]; [lia|]. apply Z.leb_le in E. rewrite Z.sub_0_r in E.
  apply (Z.mul_le_mono_nonneg_r _ _ (sizeof t)) in E; [|lia].
  assert (Hpos : 0 < sizeof t) by lia. pose proof (Z.mul_div_le SIZE_MAX _ Hpos).
  unfold size_t. rewrite Z.mod_small; nia.
Qed.

(** A snapshot succeeds or runs out of memory; the table keeps its contents. *)
Lemma build_snapshot_spec session m r :
  table_shape (sn_overview session) m -> Forall column_ok m -> Forall few_samples m ->
  let o := sn_overview session in
  exists k r' status, (k <= 2)%nat /\
    apta_internal_waveform_build_snapshot allocate session r = Ret (counted k o, r', status) /\
    if negb (any (ov_requested_features o) APTA_FEATURE_WAVEFORM_OVERVIEW) || (number_complete m =? 0)%nat
    then status = APTA_STATUS_OK /\ r' = r
    else status = APTA_STATUS_OK /\ r' = snapshot_of session m r \/ out_of_memory status /\ r' = r.
Proof.
  intros Hs Hok Hfew o. unfold apta_internal_waveform_build_snapshot. fold o.
  pose proof (ts_complete _ _ Hs) as Hc. fold o in Hc. rewrite Hc.
  assert (Hz : (Z.of_nat (number_complete m) =? 0) = (number_complete m =? 0)%nat).
  { destruct (Z.eqb_spec (Z.of_nat (number_complete m)) 0), (Nat.eqb_spec (number_complete m) 0); lia. }
  rewrite Hz. destruct (negb _ || _) eqn:E0; [by exists 0%nat, r, APTA_STATUS_OK; split; [lia|]|].
  pose proof (ts_represents _ _ Hs) as Hr. destruct (rp_accumulators _ _ Hr) as [rest Ha].
  pose proof (rp_count _ _ Hr) as Hcount. pose proof (ts_capacity _ _ Hs) as Hcap. fold o in Ha, Hcount, Hcap.
  assert (Hlen : Z.of_nat (length m) <= UINT32_MAX) by lia.
  pose proof (count_spans_spec m (ov_accumulators o) rest [] m [] 0 Ha eq_refl ltac:(lia) ltac:(lia)) as Hcs.
  change (last_column []) with (@None Z) in Hcs. cbn [length flush] in Hcs. rewrite Hcount, Hcs. cbn [obind]. fold (runs m).
  replace (0 + Z.of_nat (length (runs m)) - Z.of_nat 0) with (Z.of_nat (length (runs m))) by lia.
  destruct (negb _ || negb _) eqn:Efit.
  { exists 0%nat, r, APTA_ERROR_LIMIT_EXCEEDED. split; [lia|]. split; [done|]. right. split; [by right|done]. }
  apply orb_false_iff in Efit as [F1 F2]. apply negb_false_iff in F1, F2.
  rewrite !size_array_fits_bound by (done || lia).
  destruct (negb (allocate (ov_allocations o) _)).
  { exists 1%nat, r, APTA_ERROR_OUT_OF_MEMORY. split; [lia|]. split; [done|]. right. split; [by left|done]. }
  destruct (negb (allocate _ _)).
  { exists 2%nat, r, APTA_ERROR_OUT_OF_MEMORY. split; [lia|]. split; [done|]. right. split; [by left|done]. }
  rewrite fill_result_spec by done. exists 2%nat, (snapshot_of session m r), APTA_STATUS_OK.
  split; [lia|]. split; [done|]. by left.
Qed.

End Fill.
