(* ===== verification/Publish.v ===== *)
(** * Publishing results (core/apta_result_lifetime.c)

    A published result is immutable and counted: the session holds one reference to the
    current result and every handle of the host holds one.  Publishing builds a new
    result from the table, installs it and drops the session's reference to the old
    one.  A publication that runs out of memory unmarks every column, so that the next
    call of the waveform process completes them again and publishes. *)

From stdpp Require Import gmap.
From Stdlib Require Import Floats.SpecFloat.
From S2P Require Import Prelude Platform Bytes Wovr Samples Ranges Overview Quantize Snapshot.

(** A result in memory, with [reference_count]. *)
Record result_cell : Type := {
  rc_result : apta_result_t;
  rc_references : Z
}.

(** The fields of [apta_session_t] and its context a publication works on: the live
    results of the context by address, [current_result], and [result_count].  A new
    result gets an address no live result has. *)
Record publication : Type := {
  pu_config : apta_session_config_t;
  pu_state : apta_session_state_t;
  pu_generation : Z;
  pu_current_result : option nat;
  pu_results : gmap nat result_cell;
  pu_result_count : Z
}.

Definition set_results (p : publication) (l : gmap nat result_cell) (count : Z) : publication :=
  {| pu_config := pu_config p; pu_state := pu_state p; pu_generation := pu_generation p;
     pu_current_result := pu_current_result p; pu_results := l; pu_result_count := count |}.

Definition set_session_state (p : publication) (state : apta_session_state_t) : publication :=
  {| pu_config := pu_config p; pu_state := state; pu_generation := pu_generation p;
     pu_current_result := pu_current_result p; pu_results := pu_results p;
     pu_result_count := pu_result_count p |}.

(** ** References *)

Definition set_references (c : result_cell) (n : Z) : result_cell :=
  {| rc_result := rc_result c; rc_references := n |}.

Definition apta_internal_result_retain (p : publication) (r : option nat) : result publication :=
  match r with
  | None => Ret p
  | Some a =>
      match pu_results p !! a with
      | None => Ub
      | Some c =>
          Ret (set_results p (<[a := set_references c (u32 (rc_references c + 1))]> (pu_results p))
                 (pu_result_count p))
      end
  end.

(** The last reference frees the result with its arrays. *)
Definition apta_internal_result_release (p : publication) (r : option nat) : result publication :=
  match r with
  | None => Ret p
  | Some a =>
      match pu_results p !! a with
      | None => Ub
      | Some c =>
          if negb (rc_references c =? 1)
          then Ret (set_results p (<[a := set_references c (u32 (rc_references c - 1))]> (pu_results p))
                      (pu_result_count p))
          else Ret (set_results p (delete a (pu_results p)) (u32 (pu_result_count p - 1)))
      end
  end.

(** [apta_session_acquire_result]: what the caller gets is [pu_current_result]. *)
Definition apta_session_acquire_result (p : publication) : result (publication * option nat) :=
  let! p := apta_internal_result_retain p (pu_current_result p) in
  Ret (p, pu_current_result p).

Definition apta_result_release : publication -> option nat -> result publication :=
  apta_internal_result_release.

(** The swap under [result_lock]; the old result is the caller's to release. *)
Definition install_result (p : publication) (r : apta_result_t) (generation : Z) : publication :=
  let a := fresh (dom (pu_results p)) in
  {| pu_config := pu_config p; pu_state := pu_state p; pu_generation := generation;
     pu_current_result := Some a;
     pu_results := <[a := {| rc_result := r; rc_references := 1 |}]> (pu_results p);
     pu_result_count := u32 (pu_result_count p + 1) |}.

(** ** A new result *)

Definition zero_overview : apta_waveform_overview_view_t :=
  {| ov_level_id := 0; Wovr.ov_frames_per_column := 0; ov_origin_frame := 0; ov_state := 0;
     ov_confidence := 0; ov_span_count := 0; ov_spans := None |}.

Definition new_result (p : publication) (changed_features : Z) : apta_result_t :=
  let config := pu_config p in
  {| res_info :=
       {| ri_specification_major := APTA_SPEC_VERSION_MAJOR;
          ri_specification_minor := APTA_SPEC_VERSION_MINOR;
          ri_producer_api_version := APTA_API_VERSION; ri_container_version := 0;
          ri_generation := u64 (pu_generation p + 1); ri_available_features := 0;
          ri_changed_features := changed_features; ri_session_state := pu_state p |};
     res_source_info :=
       {| si_total_frames := cfg_total_frames config;
          si_sample_rate := cfg_source_sample_rate config;
          si_channel_count := cfg_channel_count config;
          si_channel_layout := cfg_channel_layout config;
          si_fingerprint_kind := cfg_source_fingerprint_kind config;
          si_fingerprint := cfg_source_fingerprint config |};
     res_total_source_frames := cfg_total_frames config;
     res_source_sample_rate := cfg_source_sample_rate config;
     res_source_channel_count := cfg_channel_count config;
     res_source_channel_layout := cfg_channel_layout config;
     res_overview := zero_overview; res_overview_columns := [] |}.

(** ** Publication *)

Definition unmark (x : accumulator) : accumulator :=
  {| ac_column_index := ac_column_index x; ac_sample_count := ac_sample_count x;
     ac_sum_squares := ac_sum_squares x; ac_minimum := ac_minimum x; ac_maximum := ac_maximum x;
     ac_clipped := ac_clipped x; ac_complete := false |}.

(** The loop over the first [n] cells. *)
Fixpoint unmark_loop (n : nat) (a : list accumulator) : result (list accumulator) :=
  match n, a with
  | O, _ => Ret a
  | S n, [] => Ub
  | S n, x :: a => let! a := unmark_loop n a in Ret (unmark x :: a)
  end.

Definition apta_result_mark_waveform_publication_pending (o : overview) : result overview :=
  let! a := unmark_loop (ov_count o) (ov_accumulators o) in
  Ret (set_complete_count (set_accumulators o a) 0).

Section Publish.
Context `{Platform}.
Context (allocate : nat -> Z -> bool).

(** What a failed step of the publication returns. *)
Definition publication_failed (o : overview) (p : publication) (status : apta_status_t)
  : result (overview * publication * apta_status_t) :=
  if bool_decide (status = APTA_ERROR_OUT_OF_MEMORY)
  then let! o := apta_result_mark_waveform_publication_pending o in Ret (o, p, status)
  else Ret (o, p, status).

(** The table (whose columns a failure unmarks), the publication and the status. *)
Definition apta_internal_publish_result_base (o : overview) (p : publication) (changed_features : Z)
  : result (overview * publication * apta_status_t) :=
  if pu_generation p =? UINT64_MAX then Ret (o, p, APTA_ERROR_LIMIT_EXCEEDED)
  else
    let granted := allocate (ov_allocations o) (sizeof T_result) in
    let o := count_allocation o in
    if negb granted then publication_failed o p APTA_ERROR_OUT_OF_MEMORY
    else
      let! '(o, r, status) :=
        apta_internal_waveform_build_snapshot allocate
          {| sn_overview := o; sn_total_frames := cfg_total_frames (pu_config p); sn_state := pu_state p |}
          (new_result p changed_features) in
      if is_error status then publication_failed o p status
      else
        let old_result := pu_current_result p in
        let p := install_result p r (u64 (pu_generation p + 1)) in
        let! p := apta_internal_result_release p old_result in
        Ret (o, p, APTA_STATUS_OK).

(** The outer layer, for a session without a result pool ([result_pool] is NULL). *)
Definition apta_internal_publish_result (o : overview) (p : publication) (changed_features : Z)
  : result (overview * publication * apta_status_t) :=
  if negb (any (cfg_flags (pu_config p)) APTA_SESSION_FLAG_BOUNDED_RESULT_SLOTS)
  then apta_internal_publish_result_base o p changed_features
  else Ret (o, p, APTA_ERROR_INTERNAL).

End Publish.

(** ** Accessors *)

Definition apta_result_get_generation (r : option apta_result_t) : Z :=
  match r with Some r => ri_generation (res_info r) | None => 0 end.

Definition apta_result_get_available_features (r : option apta_result_t) : Z :=
  match r with Some r => ri_available_features (res_info r) | None => 0 end.
