(* ===== verification/PublishTheorems.v ===== *)
(** * What a publication does

    A publication installs a snapshot of the table under the next generation, or leaves
    the session's results alone; out of memory it leaves every column to be completed
    again. *)

From stdpp Require Import gmap.
From Stdlib Require Import Floats.SpecFloat.
From S2P Require Import Prelude Platform Bytes Wovr Samples Ranges SampleTheorems Overview OverviewTable OverviewMeasure.
From S2P Require Import Quantize Snapshot SnapshotFill Publish.

(** ** Unmarking *)

Definition unmarked (x : column) : column := (unmark x.1, x.2).

Lemma unmark_loop_spec m rest : unmark_loop (length m) (map fst m ++ rest) = Ret (map fst (map unmarked m) ++ rest).
Proof. induction m as [|x m IH]; [by destruct rest|]. simpl. by rewrite IH. Qed.

Lemma map_unmarked_snd m : map snd (map unmarked m) = map snd m.
Proof. rewrite map_map. by apply map_ext. Qed.

Lemma map_unmarked_col m : map col (map unmarked m) = map col m.
Proof. rewrite map_map. by apply map_ext. Qed.

Lemma number_unmarked m : number_complete (map unmarked m) = 0%nat.
Proof. unfold number_complete. induction m; simpl; done. Qed.

Lemma column_of_unmarked m d : column_of (map unmarked m) d = option_map unmarked (column_of m d).
Proof. unfold column_of. induction m as [|x m IH]; simpl; [done|]. change (col (unmarked x)) with (col x). by destruct (_ =? _). Qed.

Lemma mark_pending_spec o m : measuring o m ->
  exists o', apta_result_mark_waveform_publication_pending o = Ret o' /\ measuring o' (map unmarked m) /\ same_geometry o o'.
Proof.
  intros [[[(rest & Ha) Hc Hb] Hcap Harr Hband Hsort Hcol Hcomp] Hf Hg Hok].
  unfold apta_result_mark_waveform_publication_pending. rewrite Ha, Hc, unmark_loop_spec. cbn [obind].
  eexists. split; [reflexivity|]. split; [|by constructor].
  constructor; [constructor; try done|done|done|].
  - constructor; [by exists rest|by rewrite length_map|]. rewrite map_unmarked_snd. simpl.
    destruct (ov_band_sums o); [done|]. rewrite Forall_map. eapply Forall_impl; [exact Hb|]. done.
  - simpl. rewrite Ha in Harr. rewrite length_app, !length_map in *. lia.
  - unfold columns_sorted in *. by rewrite map_unmarked_col.
  - rewrite Forall_map. eapply Forall_impl; [exact Hcol|]. done.
  - by rewrite number_unmarked.
  - rewrite Forall_map. eapply Forall_impl; [exact Hok|]. intros x [H1 (H2 & H3 & H4 & _)].
    split; [exact H1|]. split; [exact H2|]. split; [exact H3|]. by split.
Qed.

(** ** The publication *)

(** The current result is live and its references are counted. *)
Definition current_live (p : publication) : Prop :=
  forall a, pu_current_result p = Some a ->
    exists c, pu_results p !! a = Some c /\ 1 <= rc_references c <= UINT32_MAX.

Record publishes (p p' : publication) (r : apta_result_t) : Prop := {
  ph_config : pu_config p' = pu_config p;
  ph_state : pu_state p' = pu_state p;
  ph_generation : pu_generation p' = pu_generation p + 1;
  ph_current : exists a, pu_current_result p' = Some a /\ pu_results p !! a = None /\
    pu_results p' !! a = Some {| rc_result := r; rc_references := 1 |};
  ph_others : forall b c, pu_current_result p <> Some b -> pu_results p !! b = Some c -> pu_results p' !! b = Some c
}.

Lemma publishes_live p p' r : publishes p p' r -> current_live p'.
Proof.
  intros [_ _ _ (a & Ha & _ & Hr) _] b Hb. rewrite Ha in Hb. injection Hb as <-. eexists. split; [done|]. simpl. lia.
Qed.

(** Releasing the old result leaves the others alone. *)
Lemma release_old p r generation : current_live p ->
  exists p', apta_internal_result_release (install_result p r generation) (pu_current_result p) = Ret p' /\
    pu_config p' = pu_config p /\ pu_state p' = pu_state p /\ pu_generation p' = generation /\
    (exists a, pu_current_result p' = Some a /\ pu_results p !! a = None /\
       pu_results p' !! a = Some {| rc_result := r; rc_references := 1 |}) /\
    (forall b c, pu_current_result p <> Some b -> pu_results p !! b = Some c -> pu_results p' !! b = Some c).
Proof.
  intros Hl. set (a := fresh (dom (pu_results p))).
  assert (Ha : pu_results p !! a = None) by (apply not_elem_of_dom; apply is_fresh).
  unfold apta_internal_result_release. destruct (pu_current_result p) as [b|] eqn:Ec.
  - destruct (Hl b Ec) as (c & Hc & Hr). assert (Hab : a <> b) by congruence.
    unfold install_result. fold a. cbn [pu_results]. rewrite lookup_insert_ne, Hc by done.
    assert (Hothers : forall (m : gmap nat result_cell), (forall d, d <> b -> m !! d = <[a := {| rc_result := r; rc_references := 1 |}]> (pu_results p) !! d) ->
      forall d c', Some b <> Some d -> pu_results p !! d = Some c' -> m !! d = Some c').
    { intros m Hm d c' Hd Hc'. rewrite Hm by congruence. rewrite lookup_insert_ne; [done|congruence]. }
    destruct (negb (rc_references c =? 1)); eexists; (split; [reflexivity|]); simpl; split_and!; try done.
    + exists a. split_and!; [done|done|]. rewrite lookup_insert_ne by congruence. apply lookup_insert_eq.
    + apply Hothers. intros d Hd. by apply lookup_insert_ne.
    + exists a. split_and!; [done|done|]. rewrite lookup_delete_ne by congruence. apply lookup_insert_eq.
    + apply Hothers. intros d Hd. by apply lookup_delete_ne.
  - eexists. split; [reflexivity|]. unfold install_result. fold a. simpl. split_and!; try done.
    + exists a. split_and!; [done|done|]. apply lookup_insert_eq.
    + intros d c' _ Hc'. rewrite lookup_insert_ne; [done|congruence].
Qed.

(** A session that can publish: no result pool, generations that fit. *)
Record publication_ok (p : publication) : Prop := {
  pk_current : current_live p;
  pk_generation : is_u64 (pu_generation p);
  pk_flags : any (cfg_flags (pu_config p)) APTA_SESSION_FLAG_BOUNDED_RESULT_SLOTS = false
}.

Section Publish.
Context `{PlatformLaws}.
Context (allocate : nat -> Z -> bool).

(** What a publication reads of the session. *)
Definition input_of (o : overview) (p : publication) : snapshot_input :=
  {| sn_overview := o; sn_total_frames := cfg_total_frames (pu_config p); sn_state := pu_state p |}.

Definition has_overview (o : overview) (m : list column) : bool :=
  any (ov_requested_features o) APTA_FEATURE_WAVEFORM_OVERVIEW && negb (number_complete m =? 0)%nat.

(** The result a publication installs. *)
Definition published_result (o : overview) (p : publication) (m : list column) (changed : Z) : apta_result_t :=
  if has_overview o m
  then snapshot_of (input_of (count_allocation o) p) m (new_result p changed)
  else new_result p changed.

(** The outcomes of a publication. *)
Definition publish_post (o : overview) (p : publication) (m : list column) (changed : Z)
    (o' : overview) (p' : publication) (m' : list column) (status : apta_status_t) : Prop :=
  measuring o' m' /\ same_geometry o o' /\ publication_ok p' /\
  (status = APTA_STATUS_OK /\ m' = m /\ publishes p p' (published_result o p m changed) \/
   status = APTA_ERROR_OUT_OF_MEMORY /\ m' = map unmarked m /\ p' = p \/
   status = APTA_ERROR_LIMIT_EXCEEDED /\ m' = m /\ p' = p).

Lemma measuring_counted k o m : measuring o m -> measuring (counted k o) m.
Proof. intros Hm. induction k as [|k IH]; [done|]. simpl. by destruct IH as [[[? ? ?] ? ? ? ? ? ?] ? ? ?]. Qed.

Lemma counted_geometry k o : same_geometry o (counted k o).
Proof. induction k as [|k IH]; [done|]. simpl. by destruct IH. Qed.

Lemma publication_failed_spec k o p m changed status : measuring o m -> publication_ok p -> out_of_memory status ->
  exists o' m', publication_failed (counted k o) p status = Ret (o', p, status) /\
    publish_post o p m changed o' p m' status.
Proof.
  intros Hm Hl Hs. unfold publication_failed. case_bool_decide as E.
  - subst status. destruct (mark_pending_spec _ _ (measuring_counted k o m Hm)) as (o' & -> & Ho & Hg). cbn [obind].
    exists o', (map unmarked m). split; [done|]. split; [done|]. split.
    { pose proof (counted_geometry k o). destruct Hg, H1. constructor; congruence. }
    split; [done|]. by right; left.
  - exists (counted k o), m. split; [done|]. split; [by apply measuring_counted|]. split; [apply counted_geometry|].
    split; [done|]. right; right. by destruct Hs as [->| ->].
Qed.

Lemma publish_spec o p m changed : measuring o m -> Forall few_samples m -> publication_ok p ->
  exists o' p' m' status,
    apta_internal_publish_result allocate o p changed = Ret (o', p', status) /\
    publish_post o p m changed o' p' m' status.
Proof.
  intros Hm Hfew Hl. pose proof Hl as [Hlive Hg Hflag]. unfold apta_internal_publish_result. rewrite Hflag. cbn [negb].
  unfold apta_internal_publish_result_base. destruct (Z.eqb_spec (pu_generation p) UINT64_MAX) as [|Hne].
  { exists o, p, m, APTA_ERROR_LIMIT_EXCEEDED. split; [done|]. split; [done|]. split; [by constructor|]. split; [done|]. by right; right. }
  destruct (negb (allocate _ _)).
  { change (publication_failed (count_allocation o)) with (publication_failed (counted 1 o)).
    destruct (publication_failed_spec 1 o p m changed APTA_ERROR_OUT_OF_MEMORY Hm Hl ltac:(by left)) as (o' & m' & -> & Hpost).
    by exists o', p, m', APTA_ERROR_OUT_OF_MEMORY. }
  pose proof (measuring_counted 1 o m Hm) as Hm1.
  destruct (build_snapshot_spec allocate (input_of (count_allocation o) p) m (new_result p changed)
    (me_shape _ _ Hm1) (me_columns _ _ Hm1) Hfew) as (k & r & status & _ & E & Hcase).
  change {| sn_overview := count_allocation o |} with (input_of (count_allocation o) p). rewrite E. cbn [obind].
  change (counted k (sn_overview (input_of (count_allocation o) p))) with (counted k (counted 1 o)).
  assert (Hcc : counted k (counted 1 o) = counted (k + 1) o) by (unfold counted; by rewrite Nat.iter_add).
  rewrite Hcc.
  assert (Hok : status = APTA_STATUS_OK /\ r = published_result o p m changed \/ out_of_memory status).
  { unfold published_result, has_overview. cbn [sn_overview input_of] in Hcase.
    change (ov_requested_features (count_allocation o)) with (ov_requested_features o) in Hcase.
    destruct (any (ov_requested_features o) _), (number_complete m =? 0)%nat; cbn [negb orb andb] in *; intuition. }
  destruct Hok as [[-> ->]|Hs].
  - cbn [is_error status_code Z.ltb Z.compare]. unfold is_u64 in Hg.
    destruct (release_old p (published_result o p m changed) (u64 (pu_generation p + 1)) Hlive)
      as (p' & -> & H1 & H2 & H3 & H4 & H5). cbn [obind]. rewrite u64_small in H3 by (unfold is_u64; lia).
    assert (Hp : publishes p p' (published_result o p m changed)) by by constructor.
    exists (counted (k + 1) o), p', m, APTA_STATUS_OK. split; [done|]. split; [by apply measuring_counted|].
    split; [apply counted_geometry|]. split; [|by left].
    constructor; [by eapply publishes_live|rewrite H3; unfold is_u64 in *; lia|by rewrite H1].
  - rewrite (out_of_memory_error _ Hs).
    destruct (publication_failed_spec (k + 1) o p m changed status Hm Hl Hs) as (o' & m' & -> & Hpost).
    by exists o', p, m', status.
Qed.

End Publish.

(** A mono push session at 48 kHz with columns of 64 frames, as the examples use it. *)
Definition mono_config : apta_session_config_t :=
  {| cfg_struct_size := 128; cfg_api_version := APTA_API_VERSION; cfg_input_mode := APTA_INPUT_MODE_PUSH;
     cfg_source_sample_rate := 48000; cfg_channel_count := 1;
     cfg_sample_format := APTA_SAMPLE_S16_NATIVE_INTERLEAVED; cfg_channel_layout := APTA_CHANNEL_LAYOUT_MONO;
     cfg_total_frames := APTA_TOTAL_FRAMES_UNKNOWN; cfg_requested_features := APTA_FEATURE_WAVEFORM_OVERVIEW;
     cfg_memory_budget_bytes := 0; cfg_static_workspace := 0; cfg_static_workspace_size := 0; cfg_flags := 0;
     cfg_overview_frames_per_column := 64; cfg_source_fingerprint_kind := APTA_SOURCE_FINGERPRINT_NONE;
     cfg_source_fingerprint := replicate 32 0 |}.
