(* ===== verification/Lifetime.v ===== *)
(** * Results shared between threads (core/apta_result_lifetime.c)

    Host threads acquire and release results while the processing thread publishes new
    ones.  [result_lock] protects the pointer to the current result; the reference
    counts are atomic and a release takes no lock.  Each step below is one atomic
    operation of the code, and any thread may take the next step. *)

From stdpp Require Import gmap.
From S2P Require Import Prelude Platform Wovr Publish PublishTheorems.

(** Where a thread is in [apta_session_acquire_result], in the end of
    [apta_internal_publish_result] or in [apta_session_destroy]. *)
Inductive thread : Type :=
| Outside
| Acquiring                          (** holds the lock *)
| Loaded (r : option nat)            (** has read [current_result] *)
| Retained (r : option nat)          (** has counted the reference *)
| Publishing (r : apta_result_t)     (** holds the lock, with a new result *)
| Detaching                          (** holds the lock, in [apta_session_destroy] *)
| Swapped (old : option nat)         (** has replaced the current result *)
| Dropping (old : option nat).       (** has unlocked, releases the old result *)

Record shared : Type := {
  sh_publication : publication;
  sh_lock : bool;
  sh_handles : list nat;             (** the references the host holds *)
  sh_threads : list thread
}.

Definition with_thread (s : shared) (i : nat) (t : thread) : shared :=
  {| sh_publication := sh_publication s; sh_lock := sh_lock s; sh_handles := sh_handles s;
     sh_threads := <[i := t]> (sh_threads s) |}.

Definition with_lock (s : shared) (lock : bool) : shared :=
  {| sh_publication := sh_publication s; sh_lock := lock; sh_handles := sh_handles s; sh_threads := sh_threads s |}.

Definition with_publication (s : shared) (p : publication) : shared :=
  {| sh_publication := p; sh_lock := sh_lock s; sh_handles := sh_handles s; sh_threads := sh_threads s |}.

Definition with_handles (s : shared) (l : list nat) : shared :=
  {| sh_publication := sh_publication s; sh_lock := sh_lock s; sh_handles := l; sh_threads := sh_threads s |}.

Definition handle_of (r : option nat) : list nat := match r with Some a => [a] | None => [] end.

(** No count reaches the width of its field: the host holds fewer than 2^32 - 1
    references to a result. *)
Definition countable (p : publication) (r : option nat) : Prop :=
  forall a c, r = Some a -> pu_results p !! a = Some c -> rc_references c < UINT32_MAX.

Definition detach_result (p : publication) : publication :=
  {| pu_config := pu_config p; pu_state := pu_state p; pu_generation := pu_generation p;
     pu_current_result := None; pu_results := pu_results p; pu_result_count := pu_result_count p |}.

Inductive step : shared -> shared -> Prop :=
| step_lock_acquire s i : sh_threads s !! i = Some Outside -> sh_lock s = false ->
    step s (with_thread (with_lock s true) i Acquiring)
| step_load s i : sh_threads s !! i = Some Acquiring ->
    step s (with_thread s i (Loaded (pu_current_result (sh_publication s))))
| step_retain s i r p : sh_threads s !! i = Some (Loaded r) -> countable (sh_publication s) r ->
    apta_internal_result_retain (sh_publication s) r = Ret p ->
    step s (with_thread (with_publication s p) i (Retained r))
| step_unlock_acquire s i r : sh_threads s !! i = Some (Retained r) ->
    step s (with_thread (with_handles (with_lock s false) (handle_of r ++ sh_handles s)) i Outside)
| step_lock_publish s i r : sh_threads s !! i = Some Outside -> sh_lock s = false ->
    step s (with_thread (with_lock s true) i (Publishing r))
| step_swap s i r : sh_threads s !! i = Some (Publishing r) ->
    step s (with_thread (with_publication s
              (install_result (sh_publication s) r (u64 (pu_generation (sh_publication s) + 1))))
              i (Swapped (pu_current_result (sh_publication s))))
| step_lock_detach s i : sh_threads s !! i = Some Outside -> sh_lock s = false ->
    step s (with_thread (with_lock s true) i Detaching)
| step_detach s i : sh_threads s !! i = Some Detaching ->
    step s (with_thread (with_publication s (detach_result (sh_publication s))) i
              (Swapped (pu_current_result (sh_publication s))))
| step_unlock_swapped s i old : sh_threads s !! i = Some (Swapped old) ->
    step s (with_thread (with_lock s false) i (Dropping old))
| step_drop s i old p : sh_threads s !! i = Some (Dropping old) ->
    apta_internal_result_release (sh_publication s) old = Ret p ->
    step s (with_thread (with_publication s p) i Outside)
| step_release s k a p : sh_handles s !! k = Some a ->
    apta_result_release (sh_publication s) (Some a) = Ret p ->
    step s (with_handles (with_publication s p) (delete k (sh_handles s))).

(** ** Who owns references *)

Definition one (b : bool) : Z := if b then 1 else 0.

(** The references of a thread to [a]. *)
Definition owns (a : nat) (t : thread) : Z :=
  match t with
  | Retained r | Swapped r | Dropping r => one (bool_decide (r = Some a))
  | Outside | Acquiring | Loaded _ | Publishing _ | Detaching => 0
  end.

Definition inside (t : thread) : Z :=
  match t with Outside | Dropping _ => 0 | _ => 1 end.

(** All references to [a]. *)
Definition references (s : shared) (a : nat) : Z :=
  sum_of (fun b => one (bool_decide (b = a))) (sh_handles s) + sum_of (owns a) (sh_threads s) +
  one (bool_decide (pu_current_result (sh_publication s) = Some a)).

Definition current_loaded (s : shared) (t : thread) : Prop :=
  match t with Loaded r => r = pu_current_result (sh_publication s) | _ => True end.

Record counted_refs (s : shared) : Prop := {
  cr_live : forall a, match pu_results (sh_publication s) !! a with
                      | Some c => rc_references c = references s a /\ 1 <= references s a <= UINT32_MAX
                      | None => references s a = 0
                      end;
  cr_lock : sum_of inside (sh_threads s) = one (sh_lock s);
  cr_loaded : Forall (current_loaded s) (sh_threads s);
  cr_count : pu_result_count (sh_publication s) = u32 (Z.of_nat (size (pu_results (sh_publication s))))
}.

Lemma one_range b : 0 <= one b <= 1.
Proof. destruct b; simpl; lia. Qed.

Lemma owns_range a t : 0 <= owns a t <= 1.
Proof. destruct t; simpl; try lia; apply one_range. Qed.

Lemma inside_range t : 0 <= inside t.
Proof. destruct t; simpl; lia. Qed.

Lemma owns_nonneg a (l : list thread) : Forall (fun t => 0 <= owns a t) l.
Proof. apply Forall_forall. intros t _. apply owns_range. Qed.

Lemma handles_nonneg a (l : list nat) : Forall (fun b => 0 <= one (bool_decide (b = a))) l.
Proof. apply Forall_forall. intros b _. apply one_range. Qed.

Lemma references_nonneg s a : 0 <= references s a.
Proof.
  unfold references. pose proof (sum_of_nonneg _ _ (handles_nonneg a (sh_handles s))).
  pose proof (sum_of_nonneg _ _ (owns_nonneg a (sh_threads s))).
  pose proof (one_range (bool_decide (pu_current_result (sh_publication s) = Some a))). lia.
Qed.

(** Only one thread is inside the lock. *)
Lemma alone s i t j u : counted_refs s -> sh_threads s !! i = Some t -> inside t = 1 ->
  sh_threads s !! j = Some u -> j <> i -> inside u = 0.
Proof.
  intros Hc Hi Ht Hj Hne. pose proof (cr_lock _ Hc) as Hl.
  pose proof (sum_of_insert inside _ i t Outside Hi) as E. simpl in E.
  assert (Hall : Forall (fun x => 0 <= inside x) (<[i := Outside]> (sh_threads s))) by (apply Forall_forall; intros; apply inside_range).
  pose proof (sum_of_ge inside _ j u Hall ltac:(by rewrite list_lookup_insert_ne)) as Hge.
  pose proof (one_range (sh_lock s)). pose proof (inside_range u). lia.
Qed.

(** ** Steps *)

Lemma references_thread s i t t' a : sh_threads s !! i = Some t ->
  references (with_thread s i t') a = references s a - owns a t + owns a t'.
Proof. intros Hi. unfold references. simpl. rewrite (sum_of_insert _ _ _ _ _ Hi). lia. Qed.

Lemma one_bool P `{Decision P} : one (bool_decide P) = 1 /\ P \/ one (bool_decide P) = 0 /\ ~ P.
Proof. case_bool_decide; [by left|by right]. Qed.

(** A step of a thread that leaves the publication alone. *)
Lemma thread_moves s i t t' lock handles : counted_refs s -> sh_threads s !! i = Some t ->
  (forall a, sum_of (fun b => one (bool_decide (b = a))) handles + owns a t' =
             sum_of (fun b => one (bool_decide (b = a))) (sh_handles s) + owns a t) ->
  one lock - inside t' = one (sh_lock s) - inside t -> current_loaded s t' ->
  counted_refs (with_thread (with_handles (with_lock s lock) handles) i t').
Proof.
  intros [Hl Hlock Hload Hcount] Hi Hown Hin Ht'.
  assert (E : forall a, references (with_thread (with_handles (with_lock s lock) handles) i t') a = references s a).
  { intros a. unfold references. simpl. rewrite (sum_of_insert _ _ _ _ _ Hi). specialize (Hown a). lia. }
  constructor; simpl.
  - intros a. rewrite E. apply Hl.
  - rewrite (sum_of_insert _ _ _ _ _ Hi). lia.
  - apply Forall_insert; [|exact Ht']. eapply Forall_impl; [exact Hload|]. by intros [].
  - done.
Qed.

Lemma u32_pred n : u32 (u32 n - 1) = u32 (n - 1).
Proof. unfold u32. by rewrite Zminus_mod_idemp_l. Qed.

Lemma u32_succ n : u32 (u32 n + 1) = u32 (n + 1).
Proof. unfold u32. by rewrite Zplus_mod_idemp_l. Qed.

(** One reference less. *)
Lemma release_spec p a c p' : pu_results p !! a = Some c -> 1 <= rc_references c <= UINT32_MAX ->
  pu_result_count p = u32 (Z.of_nat (size (pu_results p))) -> apta_internal_result_release p (Some a) = Ret p' ->
  pu_current_result p' = pu_current_result p /\ pu_generation p' = pu_generation p /\
  pu_result_count p' = u32 (Z.of_nat (size (pu_results p'))) /\
  (forall b, b <> a -> pu_results p' !! b = pu_results p !! b) /\
  match pu_results p' !! a with
  | Some c' => rc_result c' = rc_result c /\ rc_references c' = rc_references c - 1 /\ 2 <= rc_references c
  | None => rc_references c = 1
  end.
Proof.
  intros Ha Hc Hn E. unfold apta_internal_result_release in E. rewrite Ha in E.
  destruct (Z.eqb_spec (rc_references c) 1) as [E1|E1]; injection E as <-; cbn [negb set_results pu_results pu_result_count pu_current_result pu_generation].
  - split; [done|]. split; [done|]. split; [|split].
    + rewrite Hn, u32_pred, map_size_delete, Ha. f_equal.
      assert (size (pu_results p) <> 0%nat) by (intros Hz; apply map_size_empty_iff in Hz; by rewrite Hz in Ha). lia.
    + intros b Hb. by apply lookup_delete_ne.
    + by rewrite lookup_delete_eq.
  - split; [done|]. split; [done|]. split; [|split].
    + by rewrite map_size_insert_Some.
    + intros b Hb. by apply lookup_insert_ne.
    + rewrite lookup_insert_eq. simpl. split; [done|]. rewrite u32_small by (unfold is_u32; lia). lia.
Qed.

(** Whoever gives up a reference to [a] leaves the others. *)
Lemma release_counted s s' a p' : counted_refs s ->
  apta_internal_result_release (sh_publication s) (Some a) = Ret p' ->
  sh_publication s' = p' -> 1 <= references s a ->
  (forall b, references s' b = references s b - one (bool_decide (b = a))) ->
  sum_of inside (sh_threads s') = one (sh_lock s') ->
  (forall t, t ∈ sh_threads s' -> t ∈ sh_threads s \/ t = Outside) ->
  counted_refs s'.
Proof.
  intros [Hl Hlock Hload Hcount] E Hp Hr Href Hlock' Hts.
  pose proof (Hl a) as Ha. destruct (pu_results (sh_publication s) !! a) as [c|] eqn:Ec; [|lia]. destruct Ha as [Ha1 Ha2].
  destruct (release_spec _ a c p' Ec ltac:(lia) Hcount E) as (R1 & R2 & R3 & R4 & R5).
  constructor; rewrite ?Hp; [|done| |done].
  - intros b. rewrite Href. destruct (decide (b = a)) as [->|Hb].
    + rewrite bool_decide_eq_true_2 by done. simpl. destruct (pu_results p' !! a) as [c'|]; lia.
    + rewrite bool_decide_eq_false_2 by done. simpl. rewrite R4, Z.sub_0_r by done. apply Hl.
  - rewrite Forall_forall in Hload |- *. intros t Ht. destruct (Hts t Ht) as [Ht'| ->]; [|done].
    specialize (Hload t Ht'). destruct t; try done. simpl in *. rewrite Hp, R1. done.
Qed.

Lemma retain_counted s i r p : counted_refs s -> sh_threads s !! i = Some (Loaded r) ->
  countable (sh_publication s) r -> apta_internal_result_retain (sh_publication s) r = Ret p ->
  counted_refs (with_thread (with_publication s p) i (Retained r)).
Proof.
  intros Hs Hi Hb E. pose proof (cr_loaded _ Hs) as Hload. rewrite Forall_lookup in Hload. destruct r as [a|].
  2:{ injection E as <-. destruct s. by apply (thread_moves _ i (Loaded None) (Retained None) _ _ Hs Hi). }
  pose proof (cr_live _ Hs a) as Ha. unfold apta_internal_result_retain in E.
  destruct (pu_results (sh_publication s) !! a) as [c|] eqn:Ec; [|done]. injection E as <-. destruct Ha as [Ha1 Ha2].
  specialize (Hb a c eq_refl Ec). constructor; simpl.
  - intros b. rewrite (references_thread (with_publication s _) i (Loaded (Some a))) by done. simpl.
    change (references (with_publication s (set_results _ _ _)) b) with (references s b).
    destruct (decide (b = a)) as [->|Hb'].
    + rewrite lookup_insert_eq, bool_decide_eq_true_2 by done. simpl. rewrite u32_small by (unfold is_u32; lia). lia.
    + rewrite lookup_insert_ne, bool_decide_eq_false_2 by congruence. simpl. rewrite Z.sub_0_r, Z.add_0_r. apply Hs.
  - pose proof (cr_lock _ Hs). rewrite (sum_of_insert _ _ _ _ _ Hi). simpl. lia.
  - apply Forall_insert; [|done]. rewrite Forall_lookup. intros j t Hj. specialize (Hload j t Hj). by destruct t.
  - rewrite map_size_insert_Some by (by eexists). apply Hs.
Qed.

(** A thread inside the lock that replaces the current result: no other thread has
    read it and not yet counted it. *)
Lemma loaded_after_swap s p' i t old : counted_refs s -> sh_threads s !! i = Some t -> inside t = 1 ->
  Forall (current_loaded (with_thread (with_publication s p') i (Swapped old))) (<[i := Swapped old]> (sh_threads s)).
Proof.
  intros Hs Hi Ht. apply Forall_lookup. intros j u Hj.
  apply list_lookup_insert_Some in Hj as [(_ & <- & _)|[Hne Hj]]; [done|].
  pose proof (alone s i t j u Hs Hi Ht Hj ltac:(congruence)) as Hin. by destruct u.
Qed.

Lemma swap_counted s i r : counted_refs s -> sh_threads s !! i = Some (Publishing r) ->
  counted_refs (with_thread (with_publication s
    (install_result (sh_publication s) r (u64 (pu_generation (sh_publication s) + 1))))
    i (Swapped (pu_current_result (sh_publication s)))).
Proof.
  intros Hs Hi. set (p := sh_publication s) in *. set (a := fresh (dom (pu_results p))).
  assert (Ha : pu_results p !! a = None) by (apply not_elem_of_dom; apply is_fresh).
  pose proof (cr_live _ Hs) as Hl. fold p in Hl. pose proof (Hl a) as Hla. rewrite Ha in Hla.
  constructor; [| |by eapply loaded_after_swap|]; simpl; fold p; fold a.
  - intros b. rewrite (references_thread (with_publication s _) i (Publishing r)) by done. simpl. fold p.
    unfold references in *. simpl. fold a. fold p in Hla. specialize (Hl b). unfold references in Hl. fold p in Hl.
    destruct (decide (b = a)) as [->|Hb].
    + rewrite lookup_insert_eq. simpl. rewrite (bool_decide_eq_true_2 (Some a = Some a)) by done. simpl.
      pose proof (sum_of_nonneg _ _ (handles_nonneg a (sh_handles s))).
      pose proof (sum_of_nonneg _ _ (owns_nonneg a (sh_threads s))).
      pose proof (one_range (bool_decide (pu_current_result p = Some a))). lia.
    + rewrite lookup_insert_ne by congruence. rewrite (bool_decide_eq_false_2 (Some a = Some b)) by congruence. simpl.
      set (n := one _) in *. destruct (pu_results p !! b) as [c|]; lia.
  - pose proof (cr_lock _ Hs). rewrite (sum_of_insert _ _ _ _ _ Hi). simpl. lia.
  - pose proof (cr_count _ Hs) as Hc. fold p in Hc. rewrite map_size_insert_None by done.
    rewrite Hc, u32_succ. f_equal. lia.
Qed.

Lemma detach_counted s i : counted_refs s -> sh_threads s !! i = Some Detaching ->
  counted_refs (with_thread (with_publication s (detach_result (sh_publication s))) i
                  (Swapped (pu_current_result (sh_publication s)))).
Proof.
  intros Hs Hi. constructor; [| |by eapply loaded_after_swap|apply Hs]; simpl.
  - intros b. rewrite (references_thread (with_publication s _) i Detaching) by done. simpl.
    pose proof (cr_live _ Hs b) as Hl. unfold references in *. simpl.
    set (n := one _) in *. destruct (pu_results (sh_publication s) !! b) as [c|]; lia.
  - pose proof (cr_lock _ Hs). rewrite (sum_of_insert _ _ _ _ _ Hi). simpl. lia.
Qed.

Lemma release_current p r p' : apta_internal_result_release p r = Ret p' -> pu_current_result p' = pu_current_result p.
Proof.
  unfold apta_internal_result_release. destruct r as [a|]; [|by intros [= <-]].
  destruct (_ !! a); [|done]. by destruct (negb _); intros [= <-].
Qed.

Lemma drop_counted s i old p : counted_refs s -> sh_threads s !! i = Some (Dropping old) ->
  apta_internal_result_release (sh_publication s) old = Ret p ->
  counted_refs (with_thread (with_publication s p) i Outside).
Proof.
  intros Hs Hi E. destruct old as [a|].
  2:{ injection E as <-. destruct s. by apply (thread_moves _ i (Dropping None) Outside _ _ Hs Hi). }
  apply (release_counted s _ a p Hs E); simpl; [done| | | |].
  - pose proof (sum_of_ge (owns a) _ i _ (owns_nonneg a _) Hi) as Hge. simpl in Hge. rewrite bool_decide_eq_true_2 in Hge by done.
    simpl in Hge. unfold references. pose proof (sum_of_nonneg _ _ (handles_nonneg a (sh_handles s))).
    pose proof (one_range (bool_decide (pu_current_result (sh_publication s) = Some a))). lia.
  - intros b. rewrite (references_thread (with_publication s p) i (Dropping (Some a))) by done. simpl. rewrite Z.add_0_r.
    unfold references. simpl. rewrite (release_current _ _ _ E). f_equal. f_equal. apply bool_decide_ext. split; congruence.
  - pose proof (cr_lock _ Hs). rewrite (sum_of_insert _ _ _ _ _ Hi). simpl. lia.
  - intros t Ht. apply list_elem_of_lookup in Ht as (j & Hj).
    apply list_lookup_insert_Some in Hj as [(_ & -> & _)|[_ Hj]]; [by right|left]. by eapply list_elem_of_lookup_2.
Qed.

Lemma handle_counted s k a : sh_handles s !! k = Some a -> 1 <= references s a.
Proof.
  intros Hk. pose proof (sum_of_ge (fun b => one (bool_decide (b = a))) _ k a (handles_nonneg a _) Hk) as Hge. simpl in Hge.
  rewrite bool_decide_eq_true_2 in Hge by done. simpl in Hge. unfold references.
  pose proof (sum_of_nonneg _ _ (owns_nonneg a (sh_threads s))).
  pose proof (one_range (bool_decide (pu_current_result (sh_publication s) = Some a))). lia.
Qed.

Lemma owner_counted s i t a : sh_threads s !! i = Some t -> owns a t = 1 -> 1 <= references s a.
Proof.
  intros Hi Ht. pose proof (sum_of_ge (owns a) _ i _ (owns_nonneg a _) Hi) as Hge. unfold references.
  pose proof (sum_of_nonneg _ _ (handles_nonneg a (sh_handles s))).
  pose proof (one_range (bool_decide (pu_current_result (sh_publication s) = Some a))). lia.
Qed.

Lemma step_counted s s' : counted_refs s -> step s s' -> counted_refs s'.
Proof.
  intros Hs Hstep. pose proof (cr_lock _ Hs) as Hlock.
  assert (Hunlock : forall i t, sh_threads s !! i = Some t -> inside t = 1 -> one (sh_lock s) = 1).
  { intros i t Hi Ht. rewrite <- Hlock. pose proof (sum_of_ge inside _ i t ltac:(apply Forall_forall; intros; apply inside_range) Hi).
    pose proof (one_range (sh_lock s)). lia. }
  destruct Hstep as [s i Hi El|s i Hi|s i r p Hi Hb E|s i r Hi|s i r Hi El|s i r Hi|s i Hi El|s i Hi|s i old Hi|s i old p Hi E|s k a p Hk E].
  - destruct s. apply (thread_moves _ i Outside Acquiring true _ Hs Hi); [done|simpl in *; by rewrite El|done].
  - destruct s. by apply (thread_moves _ i Acquiring (Loaded _) _ _ Hs Hi).
  - by apply retain_counted.
  - pose proof (Hunlock i _ Hi eq_refl) as Hone. apply (thread_moves _ i (Retained r) Outside false _ Hs Hi); [|simpl; lia|done].
    intros a. destruct r as [b|]; simpl; [|lia].
    rewrite Z.add_0_r, Z.add_comm. f_equal. f_equal. apply bool_decide_ext. split; congruence.
  - destruct s. apply (thread_moves _ i Outside (Publishing r) true _ Hs Hi); [done|simpl in *; by rewrite El|done].
  - by apply swap_counted.
  - destruct s. apply (thread_moves _ i Outside Detaching true _ Hs Hi); [done|simpl in *; by rewrite El|done].
  - by apply detach_counted.
  - pose proof (Hunlock i _ Hi eq_refl) as Hone. destruct s.
    by apply (thread_moves _ i (Swapped old) (Dropping old) false _ Hs Hi); [|simpl in *; lia|].
  - by eapply drop_counted.
  - apply (release_counted s _ a p Hs E); simpl; [done|by eapply handle_counted| |done|by left].
    intros b. unfold references. simpl. rewrite (release_current _ _ _ E), (sum_of_delete _ _ _ _ Hk).
    replace (bool_decide (a = b)) with (bool_decide (b = a)) by (apply bool_decide_ext; split; congruence). lia.
Qed.

(** ** Safety *)

(** A session before its first publication, and [n] threads. *)
Definition start (config : apta_session_config_t) (n : nat) : shared :=
  {| sh_publication := {| pu_config := config; pu_state := APTA_SESSION_CREATED; pu_generation := 0;
                          pu_current_result := None; pu_results := ∅; pu_result_count := 0 |};
     sh_lock := false; sh_handles := []; sh_threads := replicate n Outside |}.

Lemma start_counted config n : counted_refs (start config n).
Proof.
  assert (Hz : forall f : thread -> Z, f Outside = 0 -> sum_of f (replicate n Outside) = 0).
  { intros f Hf. apply sum_of_zero. by apply Forall_replicate. }
  constructor; simpl; [|by apply Hz|by apply Forall_replicate|done].
  intros a. rewrite lookup_empty. unfold references. simpl. by rewrite Hz.
Qed.

Lemma steps_counted s s' : counted_refs s -> rtc step s s' -> counted_refs s'.
Proof. intros Hs Hsteps. induction Hsteps; [done|]. eauto using step_counted. Qed.

Lemma live_release s a : counted_refs s -> 1 <= references s a ->
  exists c p, pu_results (sh_publication s) !! a = Some c /\ rc_references c = references s a /\
    apta_internal_result_release (sh_publication s) (Some a) = Ret p.
Proof.
  intros Hs Ha. pose proof (cr_live _ Hs a) as Hl. destruct (pu_results (sh_publication s) !! a) as [c|] eqn:Ec; [|lia].
  unfold apta_internal_result_release. rewrite Ec. destruct (negb _); eexists _, _; (split; [done|split; [apply Hl|done]]).
Qed.

Lemma release_keeps p r p' a c c' : apta_internal_result_release p r = Ret p' ->
  pu_results p !! a = Some c -> pu_results p' !! a = Some c' -> rc_result c' = rc_result c.
Proof.
  unfold apta_internal_result_release. destruct r as [b|]; [|intros [= <-] H1 H2; congruence].
  destruct (pu_results p !! b) as [d|] eqn:Ed; [|done]. destruct (decide (a = b)) as [->|Hab].
  - destruct (negb _); intros [= <-] H1; simpl.
    + rewrite lookup_insert_eq. intros [= <-]. simpl. congruence.
    + by rewrite lookup_delete_eq.
  - destruct (negb _); intros [= <-] H1; simpl; rewrite ?lookup_insert_ne, ?lookup_delete_ne by done; congruence.
Qed.

(** A live result is never written. *)
Lemma step_keeps s s' a c c' : step s s' -> pu_results (sh_publication s) !! a = Some c ->
  pu_results (sh_publication s') !! a = Some c' -> rc_result c' = rc_result c.
Proof.
  intros Hstep. destruct Hstep; simpl; try (intros; congruence); try (intros; by eapply release_keeps).
  - unfold apta_internal_result_retain in *. destruct r as [b|]; [|intros; simplify_eq; done].
    destruct (pu_results (sh_publication s) !! b) as [d|] eqn:Ed; [|done]. simplify_eq. simpl.
    destruct (decide (a = b)) as [->|Hab]; [rewrite lookup_insert_eq|rewrite lookup_insert_ne by done]; intros; simplify_eq; done.
  - intros H1. assert (Hf : a <> fresh (dom (pu_results (sh_publication s)))).
    { intros ->. apply (is_fresh (dom (pu_results (sh_publication s)))). by apply elem_of_dom. }
    rewrite lookup_insert_ne by done. congruence.
Qed.

(** C8. However the threads interleave, results are shared safely: a thread that has
    read the current result finds it live when it counts its reference, although
    releases take no lock; every reference the host holds, and the one the publisher
    gives up after a swap, designates a live result whose count can be lowered; a live
    result is never written, so what a handle shows never changes; at most one thread
    is inside the lock; and when no handle and no operation is left, only the current
    result is live and the count of results says so. *)
Theorem results_shared_safely (config : apta_session_config_t) (n : nat) (s : shared)
    (Hsteps : rtc step (start config n) s) :
  let p := sh_publication s in
  (forall i r, sh_threads s !! i = Some (Loaded r) -> exists p', apta_internal_result_retain p r = Ret p') /\
  (forall i old, sh_threads s !! i = Some (Dropping old) -> exists p', apta_internal_result_release p old = Ret p') /\
  (forall k a, sh_handles s !! k = Some a ->
     exists c p', pu_results p !! a = Some c /\ 1 <= rc_references c /\ apta_result_release p (Some a) = Ret p') /\
  (forall s' a c c', step s s' -> pu_results p !! a = Some c -> pu_results (sh_publication s') !! a = Some c' ->
     rc_result c' = rc_result c) /\
  (forall i j t u, sh_threads s !! i = Some t -> sh_threads s !! j = Some u ->
     inside t = 1 -> inside u = 1 -> i = j) /\
  (sh_handles s = [] -> Forall (eq Outside) (sh_threads s) ->
     (forall a, is_Some (pu_results p !! a) <-> pu_current_result p = Some a) /\
     pu_result_count p = u32 (Z.of_nat (size (pu_results p)))).
Proof.
  intros p. pose proof (steps_counted _ _ (start_counted config n) Hsteps) as Hs. split_and!.
  - intros i r Hi. pose proof (cr_loaded _ Hs) as Hl. rewrite Forall_lookup in Hl. specialize (Hl i _ Hi). simpl in Hl.
    destruct r as [a|]; [|by eexists]. pose proof (cr_live _ Hs a) as Ha. fold p in Ha. unfold apta_internal_result_retain.
    destruct (pu_results p !! a); [by eexists|]. unfold references in Ha. fold p in Ha, Hl. rewrite <- Hl in Ha.
    rewrite (bool_decide_eq_true_2 (Some a = Some a)) in Ha by done. simpl in Ha.
    pose proof (sum_of_nonneg _ _ (handles_nonneg a (sh_handles s))). pose proof (sum_of_nonneg _ _ (owns_nonneg a (sh_threads s))). lia.
  - intros i old Hi. destruct old as [a|]; [|by eexists].
    destruct (live_release s a Hs) as (c & p' & _ & _ & E); [|by eexists].
    apply (owner_counted s i _ a Hi). simpl. by rewrite bool_decide_eq_true_2.
  - intros k a Hk. pose proof (handle_counted s k a Hk) as Ha. destruct (live_release s a Hs Ha) as (c & p' & Ec & En & E).
    exists c, p'. split; [done|]. split; [lia|done].
  - intros s' a c c' Hstep. by apply step_keeps.
  - intros i j t u Hi Hj Ht Hu. destruct (decide (j = i)) as [|Hne]; [done|]. pose proof (alone s i t j u Hs Hi Ht Hj Hne). lia.
  - intros Hh Hout. split; [|apply Hs]. intros a. pose proof (cr_live _ Hs a) as Ha. fold p in Ha.
    assert (Hz : references s a = one (bool_decide (pu_current_result p = Some a))).
    { unfold references. rewrite Hh. fold p. simpl. rewrite sum_of_zero; [lia|]. eapply Forall_impl; [exact Hout|]. by intros t <-. }
    rewrite Hz in Ha. destruct (one_bool (pu_current_result p = Some a)) as [[E Hc]|[E Hc]]; rewrite E in Ha.
    + destruct (pu_results p !! a); [|lia]. split; [done|]. by eexists.
    + destruct (pu_results p !! a); [lia|]. split; [by intros [? ?]|done].
Qed.

(** ** A concrete interleaving *)

(** The empty result of a generation. *)
Definition blank (generation : Z) : apta_result_t :=
  new_result {| pu_config := mono_config; pu_state := APTA_SESSION_CREATED; pu_generation := generation - 1;
                pu_current_result := None; pu_results := ∅; pu_result_count := 0 |} 0.

(** Thread 0 publishes; thread 1 acquires while thread 0 publishes again: it reads the
    result under the lock, and counts it before the publisher can drop it. *)
Lemma results_shared_safely_witness :
  exists s, rtc step (start mono_config 2) s /\ sh_handles s = [0%nat] /\
    pu_current_result (sh_publication s) = Some 1%nat /\
    exists c p', pu_results (sh_publication s) !! 0%nat = Some c /\ rc_result c = blank 1 /\
      1 <= rc_references c /\ apta_result_release (sh_publication s) (Some 0%nat) = Ret p'.
Proof.
  assert (Hrun : exists s, rtc step (start mono_config 2) s /\ sh_handles s = [0%nat] /\
            pu_current_result (sh_publication s) = Some 1%nat /\
            option_map rc_result (pu_results (sh_publication s) !! 0%nat) = Some (blank 1)).
  { eexists. split.
    { eapply rtc_l; [by apply (step_lock_publish _ 0 (blank 1))|].
      eapply rtc_l; [by eapply (step_swap _ 0)|].
      eapply rtc_l; [by eapply (step_unlock_swapped _ 0)|].
      eapply rtc_l; [by eapply (step_drop _ 0)|].
      eapply rtc_l; [by apply (step_lock_acquire _ 1)|].
      eapply rtc_l; [by eapply (step_load _ 1)|].
      eapply rtc_l; [eapply (step_retain _ 1); [reflexivity| |vm_compute; reflexivity]; intros a c [= <-] [= <-]; done|].
      eapply rtc_l; [by eapply (step_unlock_acquire _ 1)|].
      eapply rtc_l; [by apply (step_lock_publish _ 0 (blank 2))|].
      eapply rtc_l; [by eapply (step_swap _ 0)|].
      eapply rtc_l; [by eapply (step_unlock_swapped _ 0)|].
      eapply rtc_l; [eapply (step_drop _ 0); [reflexivity|vm_compute; reflexivity]|]. apply rtc_refl. }
    split; [reflexivity|]. split; vm_compute; reflexivity. }
  destruct Hrun as (s & Hsteps & Hh & Hc & Hr). exists s. split; [exact Hsteps|]. split; [exact Hh|]. split; [exact Hc|].
  destruct (results_shared_safely mono_config 2 s Hsteps) as (_ & _ & Hlive & _).
  destruct (Hlive 0%nat 0%nat ltac:(by rewrite Hh)) as (c & p' & H1 & H2 & H3).
  exists c, p'. split; [exact H1|]. rewrite H1 in Hr. split; [by injection Hr|]. by split.
Defined.
