(* ===== verification/Process.v ===== *)
(** * Processing queued PCM (waveform/apta_waveform_process.c, apta_waveform_process_detail.c)

    One call of [apta_internal_waveform_process]: the queue is sorted by the score of
    its nodes, then chunk after chunk of the most urgent node is measured until the
    queue or the budget is exhausted, and the request slots learn what is done. *)

From Stdlib Require Import Floats.SpecFloat.
From S2P Require Import Prelude Platform Samples Ranges AcceptPcm Scheduler Overview Publish.

(** The fields of [apta_session_t] a call works on. *)
Record waveform : Type := {
  wv_overview : overview;
  wv_pcm : list pcm_node;
  wv_queued_pcm_frames : Z;
  wv_scheduler : scheduler;
  wv_publication : publication
}.

Definition set_overview (s : waveform) (o : overview) : waveform :=
  {| wv_overview := o; wv_pcm := wv_pcm s; wv_queued_pcm_frames := wv_queued_pcm_frames s;
     wv_scheduler := wv_scheduler s; wv_publication := wv_publication s |}.
Definition set_pcm (s : waveform) (l : list pcm_node) (queued : Z) : waveform :=
  {| wv_overview := wv_overview s; wv_pcm := l; wv_queued_pcm_frames := queued;
     wv_scheduler := wv_scheduler s; wv_publication := wv_publication s |}.
Definition set_scheduler (s : waveform) (c : scheduler) : waveform :=
  {| wv_overview := wv_overview s; wv_pcm := wv_pcm s; wv_queued_pcm_frames := wv_queued_pcm_frames s;
     wv_scheduler := c; wv_publication := wv_publication s |}.
Definition set_publication (s : waveform) (o : overview) (p : publication) : waveform :=
  {| wv_overview := o; wv_pcm := wv_pcm s; wv_queued_pcm_frames := wv_queued_pcm_frames s;
     wv_scheduler := wv_scheduler s; wv_publication := p |}.

Definition APTA_INTERNAL_PROCESS_CHUNK_FRAMES : Z := 256.

Definition apta_ranges_overlap (first_a end_a first_b end_b : Z) : bool :=
  (first_a <? end_b) && (first_b <? end_a).

(** ** What the table already covers *)

(** The cells from [l] on, against the columns from [column] to [last_column]: the
    cursor skips cells below the column it looks for, the cell just matched included. *)
Fixpoint range_complete_loop (l : list accumulator) (column last_column : Z) : bool :=
  if last_column <? column then true
  else
    match l with
    | [] => false
    | x :: l =>
        if ac_column_index x <? column then range_complete_loop l column last_column
        else if negb (ac_column_index x =? column) || negb (ac_complete x) then false
        else range_complete_loop l (column + 1) last_column
    end.

Definition apta_accumulator_range_complete (s : overview) (first_frame end_frame : Z) : bool :=
  if end_frame <=? first_frame then false
  else
    let first_column := first_frame / ov_frames_per_column s in
    let last_column := (end_frame - 1) / ov_frames_per_column s in
    if UINT32_MAX <? last_column then false
    else range_complete_loop (take (ov_count s) (ov_accumulators s)) first_column last_column.

Definition apta_accumulator_range_has_output (s : overview) (first_frame end_frame : Z) : bool :=
  existsb (fun x =>
    let column_first := u64 (ac_column_index x * ov_frames_per_column s) in
    ac_complete x &&
    apta_ranges_overlap column_first (u64 (column_first + ov_frames_per_column s)) first_frame end_frame)
    (take (ov_count s) (ov_accumulators s)).

Definition set_state (r : apta_internal_request_t) (state : apta_request_state_t) : apta_internal_request_t :=
  {| ir_request_id := ir_request_id r; ir_request := ir_request r; ir_state := state;
     ir_diagnostic_code := ir_diagnostic_code r; ir_scheduler_skip_count := ir_scheduler_skip_count r;
     ir_scheduler_enqueue_serial := ir_scheduler_enqueue_serial r |}.

Definition update_request_state (s : overview) (r : apta_internal_request_t) : apta_internal_request_t :=
  let range := rr_range (ir_request r) in
  if (ir_request_id r =? 0) || state_is (ir_state r) APTA_REQUEST_CANCELLED ||
     state_is (ir_state r) APTA_REQUEST_FAILED || state_is (ir_state r) APTA_REQUEST_SATISFIED
  then r
  else if negb (any (rr_feature_mask (ir_request r)) APTA_FEATURE_WAVEFORM_OVERVIEW) then r
  else if apta_accumulator_range_complete s (fr_first_frame range) (fr_end_frame range)
  then set_state r APTA_REQUEST_SATISFIED
  else if apta_accumulator_range_has_output s (fr_first_frame range) (fr_end_frame range)
  then set_state r APTA_REQUEST_PARTIALLY_SATISFIED
  else set_state r APTA_REQUEST_WAITING_FOR_PCM.

Definition apta_update_request_states (s : waveform) : waveform :=
  set_scheduler s (with_requests (wv_scheduler s)
    (map (update_request_state (wv_overview s)) (sc_requests (wv_scheduler s)))).

(** ** Choosing a node *)

Definition node_first (n : pcm_node) : Z := u64 (pn_first_frame n + pn_processed_frames n).
Definition node_end (n : pcm_node) : Z := u64 (pn_first_frame n + pn_frame_count n).

(** The focus window, empty when there is no focus on the overview. *)
Definition overview_focus (s : scheduler) : Z * Z * Z :=
  match sc_focus s with
  | Some f => if any (fo_feature_mask f) APTA_FEATURE_WAVEFORM_OVERVIEW
              then ((focus_window f).1, (focus_window f).2, fo_priority f) else (0, 0, fo_priority f)
  | None => (0, 0, 0)
  end.

Definition focus_priority (s : scheduler) (n : pcm_node) : Z :=
  let '(focus_first, focus_end, priority) := overview_focus s in
  if (focus_first <? focus_end) && apta_ranges_overlap (node_first n) (node_end n) focus_first focus_end
  then priority else 0.

Definition wants_overview (r : apta_internal_request_t) : bool :=
  apta_scheduler_request_is_active r && any (rr_feature_mask (ir_request r)) APTA_FEATURE_WAVEFORM_OVERVIEW.

Definition node_priority (s : scheduler) (n : pcm_node) : Z :=
  fold_left (fun priority r =>
    let range := rr_range (ir_request r) in
    if wants_overview r &&
       apta_ranges_overlap (node_first n) (node_end n) (fr_first_frame range) (fr_end_frame range) &&
       (priority <? rr_priority (ir_request r))
    then rr_priority (ir_request r) else priority) (sc_requests s) (focus_priority s n).

(** The first node of the highest priority, by its place in the queue. *)
Fixpoint select_loop (s : scheduler) (l : list pcm_node) (i : nat) (best : option (nat * Z)) : option (nat * Z) :=
  match l with
  | [] => best
  | n :: l =>
      let priority := node_priority s n in
      select_loop s l (S i)
        (match best with
         | None => Some (i, priority)
         | Some (_, best_priority) => if best_priority <? priority then Some (i, priority) else best
         end)
  end.

Definition apta_select_pcm_node (s : scheduler) (l : list pcm_node) : option nat :=
  option_map fst (select_loop s l 0 None).

Definition advance (n : pcm_node) (chunk : Z) : pcm_node :=
  {| pn_first_frame := pn_first_frame n; pn_frame_count := pn_frame_count n;
     pn_processed_frames := u32 (pn_processed_frames n + chunk); pn_samples := pn_samples n |}.

(** The node at [i] leaves the queue. *)
Definition apta_remove_pcm_node (s : waveform) (i : nat) (n : pcm_node) : waveform :=
  set_pcm s (delete i (wv_pcm s)) (u64 (wv_queued_pcm_frames s - pn_frame_count n)).

(** ** The loop *)

Record apta_work_budget_t : Type := {
  wb_soft_time_budget_us : Z;
  wb_maximum_input_frames : Z;
  wb_maximum_steps : Z
}.

(** A limit of zero means none. *)
Definition budget_limit (n : Z) : Z := if n =? 0 then UINT32_MAX else n.

(** The counters of one call. *)
Record progress : Type := { pg_consumed : Z; pg_steps : Z; pg_did_work : bool }.

Section Process.
Context `{Platform}.
Context (allocate : nat -> Z -> bool) (fresh : accumulator).

(** The host's clock, read after each chunk, and [process_deadline_ns]. *)
Context (clock : option (nat -> Z)) (deadline : Z).

Definition deadline_reached (steps : Z) : bool :=
  match clock with
  | Some now => negb (deadline =? 0) && (deadline <=? now (Z.to_nat steps))
  | None => false
  end.

(** One chunk of the node at [i]. *)
Definition process_chunk (s : waveform) (i : nat) (n : pcm_node) (chunk : Z)
  : result (waveform * apta_status_t) :=
  let! '(o, status) :=
    apta_process_samples allocate fresh (wv_overview s) (pn_first_frame n) (pn_processed_frames n)
      (pn_samples n) 0 (Z.to_nat chunk) in
  let s := set_overview s o in
  if is_error status then Ret (s, status)
  else
    let n := advance n chunk in
    let s := set_pcm s (<[i := n]> (wv_pcm s)) (wv_queued_pcm_frames s) in
    let! o := apta_refresh_completed_columns (wv_overview s) in
    let s := set_overview s o in
    Ret (if pn_processed_frames n =? pn_frame_count n then apta_remove_pcm_node s i n else s, APTA_STATUS_OK).

(** A round consumes at least one frame, so [frame_limit] or the number of queued
    frames bounds the rounds. *)
Fixpoint process_loop (fuel : nat) (frame_limit step_limit : Z) (s : waveform) (p : progress)
  : result (waveform * apta_status_t * progress) :=
  match wv_pcm s with
  | [] => Ret (s, APTA_STATUS_OK, p)
  | _ :: _ =>
      if (pg_consumed p <? frame_limit) && (pg_steps p <? step_limit) then
        match apta_select_pcm_node (wv_scheduler s) (wv_pcm s) with
        | None => Ret (s, APTA_STATUS_OK, p)
        | Some i =>
            let! n := arr_get (wv_pcm s) i in
            let remaining := u32 (pn_frame_count n - pn_processed_frames n) in
            let chunk := apta_min_u32 remaining APTA_INTERNAL_PROCESS_CHUNK_FRAMES in
            let chunk := apta_min_u32 chunk (frame_limit - pg_consumed p) in
            if chunk =? 0 then Ret (s, APTA_STATUS_OK, p)
            else
              match fuel with
              | O => Err APTA_ERROR_INTERNAL
              | S fuel =>
                  let! '(s, status) := process_chunk s i n chunk in
                  if is_error status then Ret (s, status, p)
                  else
                    let p := {| pg_consumed := u32 (pg_consumed p + chunk); pg_steps := u32 (pg_steps p + 1);
                                pg_did_work := true |} in
                    if deadline_reached (pg_steps p) then Ret (s, APTA_STATUS_OK, p)
                    else process_loop fuel frame_limit step_limit s p
              end
        end
      else Ret (s, APTA_STATUS_OK, p)
  end.

(** What a call hands back: the session, the status, the counters and whether a new
    result was published. *)
Record process_outcome : Type := {
  po_session : waveform;
  po_status : apta_status_t;
  po_progress : progress;
  po_published : bool
}.

(** The refresh and the loop. *)
Definition measure_queue (fuel : nat) (s : waveform) (budget : apta_work_budget_t)
  : result (waveform * apta_status_t * progress) :=
  let! o := apta_refresh_completed_columns (wv_overview s) in
  process_loop fuel (budget_limit (wb_maximum_input_frames budget)) (budget_limit (wb_maximum_steps budget))
    (set_overview s o) {| pg_consumed := 0; pg_steps := 0; pg_did_work := false |}.

(** The end of a call: a result is published when the number of complete columns has
    changed since [completed_before]. *)
Definition finish_call (completed_before : Z) (s : waveform) (p : progress) : result process_outcome :=
  let completed := negb (ov_complete_count (wv_overview s) =? completed_before) in
  let! '(s, status) :=
    if completed
    then
      let! '(o, publication, status) :=
        apta_internal_publish_result allocate (wv_overview s) (wv_publication s) APTA_FEATURE_WAVEFORM_OVERVIEW in
      Ret (set_publication s o publication, status)
    else Ret (s, APTA_STATUS_OK) in
  if is_error status
  then Ret {| po_session := s; po_status := status; po_progress := p; po_published := false |}
  else
    Ret {| po_session := s;
           po_status := if negb (pg_did_work p) then APTA_STATUS_WOULD_BLOCK
                        else match wv_pcm s with [] => APTA_STATUS_OK | _ => APTA_STATUS_MORE_WORK end;
           po_progress := p; po_published := completed |}.

Definition apta_internal_waveform_process_base (fuel : nat) (s : waveform) (budget : apta_work_budget_t)
  : result process_outcome :=
  let completed_before := ov_complete_count (wv_overview s) in
  let! '(s, status, p) := measure_queue fuel s budget in
  if is_error status
  then Ret {| po_session := s; po_status := status; po_progress := p; po_published := false |}
  else finish_call completed_before (apta_update_request_states s) p.

End Process.
