(* ===== verification/ProcessTheorems.v ===== *)
(** * What a call of the waveform process does

    The law the proofs rest on: for every column, the samples already counted and the
    queued frames that fall into it add up to the same number before and after. *)

From Stdlib Require Import Floats.SpecFloat.
From S2P Require Import Prelude Platform FloatFacts Samples Ranges AcceptPcm SampleTheorems.
From S2P Require Import Scheduler Overview OverviewTable OverviewMeasure Process.

(** ** Frames of a column *)

(** How many frames of [first, end) fall into column [d]. *)
Definition overlap (fpc d first last : Z) : Z := Z.max 0 (Z.min last ((d + 1) * fpc) - Z.max first (d * fpc)).

Lemma overlap_split fpc d a b c : 0 <= fpc -> a <= b <= c ->
  overlap fpc d a c = overlap fpc d a b + overlap fpc d b c.
Proof. unfold overlap. intros. rewrite Z.mul_add_distr_r. lia. Qed.

Lemma overlap_empty fpc d a : 0 <= fpc -> overlap fpc d a a = 0.
Proof. unfold overlap. intros. lia. Qed.

Lemma overlap_nonneg fpc d a b : 0 <= overlap fpc d a b.
Proof. unfold overlap. lia. Qed.

Lemma overlap_one fpc d a : 1 <= fpc -> overlap fpc d a (a + 1) = if d =? a / fpc then 1 else 0.
Proof.
  intros Hf. unfold overlap. pose proof (Z.div_mod a fpc ltac:(lia)). pose proof (Z.mod_pos_bound a fpc ltac:(lia)).
  set (q := a / fpc) in *. rewrite Z.mul_add_distr_r. destruct (Z.eqb_spec d q) as [->|Hd].
  - assert (q * fpc <= a < q * fpc + fpc) by lia. lia.
  - assert (d < q \/ q < d) as [Hq|Hq] by lia.
    + assert (d * fpc + fpc <= q * fpc) by nia. assert (q * fpc <= a) by lia. lia.
    + assert (q * fpc + fpc <= d * fpc) by nia. assert (a < q * fpc + fpc) by lia. lia.
Qed.

Definition samples_of (x : option column) : Z :=
  match x with Some x => ac_sample_count x.1 | None => 0 end.

Lemma measured_count on fpc frame samples t filter d : 1 <= fpc ->
  samples_of ((measured on fpc frame samples t filter).1 d) =
  samples_of (t d) + overlap fpc d frame (frame + Z.of_nat (length samples)).
Proof.
  intros Hf. revert frame t filter. induction samples as [|x samples IH]; intros frame t filter.
  - simpl. rewrite Z.add_0_r, overlap_empty; lia.
  - cbn [measured length]. destruct (band_step on filter x) as [f b]. rewrite IH.
    rewrite (overlap_split fpc d frame (frame + 1)) by lia. rewrite overlap_one by done.
    replace (frame + 1 + Z.of_nat (length samples)) with (frame + Z.of_nat (S (length samples))) by lia.
    destruct (Z.eqb_spec d (frame / fpc)) as [->|]; [|lia].
    assert (Hm : samples_of (Some (measure (default (new_column (frame / fpc)) (t (frame / fpc))) x b)) =
              samples_of (t (frame / fpc)) + 1); [|lia].
    unfold measure. destruct b as [[? ?] ?]. by destruct (t (frame / fpc)) as [[a [[? ?] ?]]|].
Qed.

(** A column that gets no sample is not touched. *)
Lemma measured_untouched on fpc frame samples t filter d : 1 <= fpc ->
  overlap fpc d frame (frame + Z.of_nat (length samples)) = 0 ->
  (measured on fpc frame samples t filter).1 d = t d.
Proof.
  intros Hf. revert frame t filter. induction samples as [|x samples IH]; intros frame t filter Ho; [done|].
  cbn [measured length] in *. destruct (band_step on filter x) as [f b].
  rewrite (overlap_split fpc d frame (frame + 1)), overlap_one in Ho by lia.
  pose proof (overlap_nonneg fpc d (frame + 1) (frame + Z.of_nat (S (length samples)))).
  rewrite IH; [by destruct (Z.eqb_spec d (frame / fpc)); [lia|]|].
  replace (frame + 1 + Z.of_nat (length samples)) with (frame + Z.of_nat (S (length samples))) by lia.
  destruct (d =? frame / fpc); lia.
Qed.

(** Every column the measurement yields holds a sample or was there before, and its
    flag is the one it had. *)
Lemma measured_flag on fpc frame samples t filter d x :
  (measured on fpc frame samples t filter).1 d = Some x ->
  ac_complete x.1 = match t d with Some y => ac_complete y.1 | None => false end.
Proof.
  revert frame t filter. induction samples as [|z samples IH]; intros frame t filter H; cbn [measured] in H.
  - by simpl in H; rewrite H.
  - destruct (band_step on filter z) as [f b]. apply IH in H. rewrite H.
    destruct (Z.eqb_spec d (frame / fpc)) as [->|]; [|done]. rewrite measure_complete. by destruct (t (frame / fpc)).
Qed.

(** ** The queue *)

Definition node_ok (n : pcm_node) : Prop :=
  0 <= pn_first_frame n /\ 0 <= pn_processed_frames n < pn_frame_count n /\
  pn_frame_count n <= APTA_INTERNAL_MAX_PUSH_FRAMES /\
  pn_first_frame n + pn_frame_count n <= UINT64_MAX /\
  Z.of_nat (length (pn_samples n)) = pn_frame_count n /\ Forall unit_sample (pn_samples n).

Definition node_pending (n : pcm_node) : Z := pn_frame_count n - pn_processed_frames n.

Definition pending_in (fpc d : Z) (l : list pcm_node) : Z :=
  sum_of (fun n => overlap fpc d (pn_first_frame n + pn_processed_frames n) (pn_first_frame n + pn_frame_count n)) l.

Record queue_ok (s : waveform) : Prop := {
  qk_nodes : Forall node_ok (wv_pcm s);
  qk_queued : wv_queued_pcm_frames s = sum_of pn_frame_count (wv_pcm s) /\ wv_queued_pcm_frames s <= UINT64_MAX
}.

(** The frames column [d] holds or will get from the queue. *)
Definition load (s : waveform) (m : list column) (d : Z) : Z :=
  samples_of (column_of m d) + pending_in (ov_frames_per_column (wv_overview s)) d (wv_pcm s).

(** The state of the pipeline: no column can get more frames than it expects, and
    the complete columns have them all. *)
Record pipeline (s : waveform) (m : list column) : Prop := {
  pl_measuring : measuring (wv_overview s) m;
  pl_queue : queue_ok s;
  pl_final : is_u64 (ov_final_end_frame (wv_overview s));
  pl_load : forall d, is_u32 d -> load s m d <= apta_expected_column_frames (wv_overview s) d;
  pl_complete : forall x, x ∈ m -> ac_complete x.1 = true ->
    ac_sample_count x.1 = apta_expected_column_frames (wv_overview s) (col x)
}.

Lemma pending_in_nonneg fpc d l : 0 <= pending_in fpc d l.
Proof. apply sum_of_nonneg. apply Forall_forall. intros. apply overlap_nonneg. Qed.

Lemma same_geometry_expected s s' d : same_geometry s s' ->
  apta_expected_column_frames s' d = apta_expected_column_frames s d.
Proof. intros [E1 E2 E3 E4]. unfold apta_expected_column_frames. by rewrite E1, E3, E4. Qed.

Lemma expected_le s d : 1 <= ov_frames_per_column s <= 65536 -> is_u32 d ->
  is_u64 (ov_final_end_frame s) -> 0 <= apta_expected_column_frames s d <= ov_frames_per_column s.
Proof.
  intros Hf Hd He. unfold is_u32, is_u64 in *. unfold apta_expected_column_frames. cbv zeta.
  destruct (negb _); [lia|]. rewrite (u64_small (d * _)) by (unfold is_u64; nia).
  destruct (Z.leb_spec (ov_final_end_frame s) (d * ov_frames_per_column s)); [lia|].
  rewrite u64_small by (unfold is_u64; nia). unfold apta_min_frame, u32.
  destruct (Z.ltb_spec (d * ov_frames_per_column s + ov_frames_per_column s) (ov_final_end_frame s));
    rewrite Z.mod_small; nia.
Qed.

(** ** Choosing a node *)

Definition selected (s : scheduler) (l : list pcm_node) (i : nat) : Prop :=
  exists n, l !! i = Some n /\
    (forall j k, l !! j = Some k -> node_priority s k <= node_priority s n) /\
    (forall j k, l !! j = Some k -> (j < i)%nat -> node_priority s k < node_priority s n).

Lemma select_loop_spec s l1 l2 best :
  match best with
  | None => l1 = []
  | Some (i, p) => selected s l1 i /\ exists n, l1 !! i = Some n /\ p = node_priority s n
  end ->
  match select_loop s l2 (length l1) best with
  | None => l1 ++ l2 = []
  | Some (i, p) => selected s (l1 ++ l2) i
  end.
Proof.
  revert l1 best. induction l2 as [|n l2 IH]; intros l1 best Hb; cbn [select_loop].
  - rewrite app_nil_r. by destruct best as [[i p]|]; [destruct Hb|].
  - replace (l1 ++ n :: l2) with ((l1 ++ [n]) ++ l2) by (by rewrite <- app_assoc).
    replace (S (length l1)) with (length (l1 ++ [n])) by (rewrite length_app; simpl; lia).
    apply IH. destruct best as [[i p]|].
    + destruct Hb as [Hsel (x & Hx & ->)]. destruct Hsel as (x' & Hx' & Hge & Hgt).
      assert (x' = x) as -> by congruence.
      assert (Hcase : forall j k, (l1 ++ [n]) !! j = Some k -> l1 !! j = Some k \/ j = length l1 /\ k = n).
      { intros j k Hj. apply lookup_app_Some in Hj as [Hj|[Hl Hj]]; [by left|right].
        apply list_lookup_singleton_Some in Hj as [Hj ->]. split; [lia|done]. }
      destruct (Z.ltb_spec (node_priority s x) (node_priority s n)).
      * assert (Hn : (l1 ++ [n]) !! length l1 = Some n) by by apply list_lookup_middle.
        split; [|by exists n]. exists n. split; [done|]. split.
        -- intros j k Hj. apply Hcase in Hj as [Hj|[_ ->]]; [apply Hge in Hj|]; lia.
        -- intros j k Hj Hlt. apply Hcase in Hj as [Hj|[-> _]]; [apply Hge in Hj|]; lia.
      * assert (Hx1 : (l1 ++ [n]) !! i = Some x) by by apply lookup_app_l_Some.
        split; [|by exists x]. exists x. split; [done|]. split.
        -- intros j k Hj. apply Hcase in Hj as [Hj|[_ ->]]; [apply Hge in Hj|]; lia.
        -- intros j k Hj Hlt. apply Hcase in Hj as [Hj|[-> _]]; [by eapply Hgt|].
           apply lookup_lt_Some in Hx. lia.
    + subst l1. simpl. split; [|by exists n]. exists n. split; [done|]. split.
      * intros j k Hj. apply list_lookup_singleton_Some in Hj as [_ ->]. lia.
      * intros j k Hj Hlt. lia.
Qed.

Lemma select_spec s l :
  match apta_select_pcm_node s l with None => l = [] | Some i => selected s l i end.
Proof.
  unfold apta_select_pcm_node. pose proof (select_loop_spec s [] l None eq_refl) as H. simpl in H.
  by destruct (select_loop s l 0 None) as [[i p]|].
Qed.

(** ** Sums over the queue *)

Lemma column_of_member m x : columns_sorted m -> x ∈ m -> column_of m (col x) = Some x.
Proof.
  intros Hs Hx. apply list_elem_of_split in Hx as (l1 & l2 & ->).
  by rewrite (column_of_middle _ _ _ _ Hs), Z.eqb_refl.
Qed.

Lemma samples_refreshed o x : samples_of (option_map (refreshed o) x) = samples_of x.
Proof. destruct x as [x|]; [|done]. simpl. unfold refreshed. by destruct (completes o x.1). Qed.

Lemma counters_refreshed o m : Forall column_ok m -> Forall column_ok (map (refreshed o) m).
Proof.
  intros H. apply Forall_map. eapply Forall_impl; [exact H|]. intros x Hx. unfold refreshed.
  destruct (completes o x.1) eqn:E; [|done]. destruct Hx as [Hc (H1 & H2 & H3 & _)]. split; [exact Hc|].
  split; [done|]. split; [done|]. split; [done|]. intros _. unfold completes in E. unfold counters_ok in Hc. simpl in *.
  destruct x.2 as [[? ?] ?]. bool_facts. lia.
Qed.

Lemma measuring_refresh o m : measuring o m ->
  exists o', apta_refresh_completed_columns o = Ret o' /\ measuring o' (map (refreshed o) m) /\ same_geometry o o'.
Proof.
  intros [H1 H2 H3 H4]. destruct (refresh_completed_spec o m H1) as (o' & E & Hs & Hsame). exists o'.
  split; [done|]. split; [|by apply same_setup_geometry]. constructor; [done| | |by apply counters_refreshed].
  - by rewrite (se_filter _ _ Hsame).
  - by rewrite (se_frames _ _ Hsame).
Qed.

(** No column is left that should be marked complete. *)
Definition all_marked (o : overview) (m : list column) : Prop := Forall (fun x => completes o x.1 = false) m.

Lemma refreshed_marked o o' m : same_geometry o o' -> all_marked o' (map (refreshed o) m).
Proof.
  intros Hg. unfold all_marked. apply Forall_map. apply Forall_forall. intros x _. simpl.
  assert (E : forall y, completes o' y = completes o y).
  { intros y. unfold completes. by rewrite (same_geometry_expected _ _ _ Hg). }
  rewrite E. unfold refreshed. destruct (completes o x.1) eqn:Ec; [|done]. unfold completes. by simpl.
Qed.

(** The flags set by a refresh are exact when those before were. *)
Lemma refreshed_complete o m : 
  (forall x, x ∈ m -> ac_complete x.1 = true -> ac_sample_count x.1 = apta_expected_column_frames o (col x)) ->
  forall x, x ∈ map (refreshed o) m -> ac_complete x.1 = true ->
    ac_sample_count x.1 = apta_expected_column_frames o (col x).
Proof.
  intros H x Hx Hc. apply list_elem_of_fmap in Hx as (y & -> & Hy). rewrite refreshed_col.
  unfold refreshed in *. destruct (completes o y.1) eqn:E; [|by apply H].
  unfold completes in E. bool_facts. done.
Qed.

(** ** One chunk *)

Section Chunks.
Context `{PlatformLaws}.
Context (allocate : nat -> Z -> bool) (fresh : accumulator).
Context (clock : option (nat -> Z)) (deadline : Z).

Definition queue_frames (s : waveform) : Z := sum_of node_pending (wv_pcm s).

(** The parts of the session the loop does not touch. *)
Definition same_settings (s s' : waveform) : Prop :=
  wv_scheduler s' = wv_scheduler s /\ wv_publication s' = wv_publication s.

Lemma same_settings_trans s s' s'' : same_settings s s' -> same_settings s' s'' -> same_settings s s''.
Proof. intros [] []. split; congruence. Qed.

(** Where an error may leave the session: the queue as it was, the table well formed. *)
Definition interrupted (s s' : waveform) : Prop :=
  wv_pcm s' = wv_pcm s /\ wv_queued_pcm_frames s' = wv_queued_pcm_frames s /\
  exists m', measuring (wv_overview s') m'.

(** No frame is lost: for every column what is counted and what is queued add up to
    the same number, and the counted part only grows. *)
Definition conserved (s : waveform) (m : list column) (s' : waveform) (m' : list column) : Prop :=
  forall d, load s' m' d = load s m d /\ samples_of (column_of m d) <= samples_of (column_of m' d).

Lemma conserved_refl s m : conserved s m s m.
Proof. done. Qed.

Lemma conserved_trans s m s' m' s'' m'' : conserved s m s' m' -> conserved s' m' s'' m'' -> conserved s m s'' m''.
Proof. intros H1 H2 d. destruct (H1 d), (H2 d). lia. Qed.

(** [chunk] more frames are measured. *)
Definition advanced (s : waveform) (m : list column) (s' : waveform) (m' : list column) (chunk : Z) : Prop :=
  pipeline s' m' /\ all_marked (wv_overview s') m' /\
  conserved s m s' m' /\
  queue_frames s' = queue_frames s - chunk.

Lemma pipeline_room s m n : pipeline s m -> n <= 65535 -> room_for n m.
Proof.
  intros Hp Hn d x Hx. pose proof (me_frames _ _ (pl_measuring _ _ Hp)) as Hf.
  destruct (column_of_elem _ _ _ Hx) as [Hin <-].
  pose proof (ts_columns _ _ (me_shape _ _ (pl_measuring _ _ Hp))) as Hcols. rewrite Forall_forall in Hcols.
  specialize (Hcols x Hin). pose proof (pl_load _ _ Hp (col x) Hcols) as Hl. unfold load in Hl. rewrite Hx in Hl.
  simpl in Hl. pose proof (pending_in_nonneg (ov_frames_per_column (wv_overview s)) (col x) (wv_pcm s)).
  pose proof (expected_le (wv_overview s) (col x) Hf Hcols (pl_final _ _ Hp)). lia.
Qed.

Lemma advance_ok n chunk : node_ok n -> 1 <= chunk < node_pending n -> node_ok (advance n chunk).
Proof.
  unfold node_ok, node_pending, advance, APTA_INTERNAL_MAX_PUSH_FRAMES. simpl. intros Hn Hc.
  rewrite u32_small by (unfold is_u32; lia). lia || (split_and!; try tauto; lia).
Qed.

(** The queue after a chunk: the node advanced, or gone when it is done. *)
Lemma queue_advance s i n chunk fpc (o : overview) : queue_ok s -> wv_pcm s !! i = Some n ->
  1 <= chunk <= node_pending n -> 0 <= fpc ->
  let n' := advance n chunk in
  let s1 := set_overview (set_pcm s (<[i := n']> (wv_pcm s)) (wv_queued_pcm_frames s)) o in
  let s' := if pn_processed_frames n' =? pn_frame_count n' then apta_remove_pcm_node s1 i n' else s1 in
  queue_ok s' /\ wv_overview s' = o /\ same_settings s s' /\
  queue_frames s' = queue_frames s - chunk /\
  forall d, pending_in fpc d (wv_pcm s') =
    pending_in fpc d (wv_pcm s) -
    overlap fpc d (pn_first_frame n + pn_processed_frames n) (pn_first_frame n + pn_processed_frames n + chunk).
Proof.
  intros [Hnodes [Hq Hqm]] Hi Hc Hf n' s1 s'.
  assert (Hn : node_ok n) by (rewrite Forall_lookup in Hnodes; by eapply Hnodes).
  assert (Hn' : pn_processed_frames n' = pn_processed_frames n + chunk).
  { simpl. unfold node_ok, node_pending, APTA_INTERNAL_MAX_PUSH_FRAMES in *. apply u32_small. unfold is_u32. lia. }
  assert (Hi' : <[i := n']> (wv_pcm s) !! i = Some n') by (apply list_lookup_insert_eq; by eapply lookup_lt_Some).
  assert (Hok : chunk < node_pending n -> node_ok n') by (intros; apply advance_ok; [done|lia]).
  assert (E1 : pn_first_frame n' = pn_first_frame n) by done.
  assert (E2 : pn_frame_count n' = pn_frame_count n) by done.
  unfold s', s1. clear s' s1. clearbody n'. unfold node_pending in *.
  assert (Htot : forall f, sum_of f (delete i (<[i := n']> (wv_pcm s))) = sum_of f (wv_pcm s) - f n).
  { intros f. rewrite (sum_of_delete _ _ _ _ Hi'), (sum_of_insert _ _ _ _ _ Hi). lia. }
  destruct (Z.eqb_spec (pn_processed_frames n') (pn_frame_count n')) as [E|E]; simpl.
  - split_and!; try done.
    + constructor; simpl.
      * rewrite delete_take_drop, take_insert_ge, drop_insert_lt by lia.
        apply Forall_app. split; [by apply Forall_take|by apply Forall_drop].
      * rewrite Htot.
        assert (0 <= sum_of pn_frame_count (wv_pcm s) - pn_frame_count n).
        { rewrite <- (sum_of_delete _ _ _ _ Hi). apply sum_of_nonneg. apply Forall_delete.
          eapply Forall_impl; [exact Hnodes|]. unfold node_ok. intros; lia. }
        unfold node_ok in Hn. rewrite u64_small by (unfold is_u64; lia). lia.
    + unfold queue_frames. simpl. rewrite Htot. unfold node_pending. lia.
    + intros d. unfold pending_in. rewrite Htot. do 2 f_equal. lia.
  - split_and!; try done.
    + constructor; simpl.
      * apply Forall_insert; [done|]. apply Hok. lia.
      * rewrite (sum_of_insert _ _ _ _ _ Hi). lia.
    + unfold queue_frames. simpl. rewrite (sum_of_insert _ _ _ _ _ Hi). unfold node_pending. lia.
    + intros d. unfold pending_in. rewrite (sum_of_insert _ _ _ _ _ Hi), Hn', E1, E2.
      rewrite (overlap_split fpc d (pn_first_frame n + pn_processed_frames n)
        (pn_first_frame n + pn_processed_frames n + chunk) (pn_first_frame n + pn_frame_count n)) by lia.
      rewrite Z.add_assoc. lia.
Qed.

(** The columns after a chunk, before the refresh: what is pending has become counted,
    and the complete columns got nothing. *)
Lemma chunk_columns s m n chunk o' m' samples : pipeline s m -> n ∈ wv_pcm s ->
  1 <= chunk <= node_pending n -> Z.of_nat (length samples) = chunk ->
  let first := pn_first_frame n + pn_processed_frames n in
  let fpc := ov_frames_per_column (wv_overview s) in
  same_geometry (wv_overview s) o' -> measuring o' m' ->
  holds_table m' (measured (bands_on (wv_overview s)) fpc first samples (column_of m) (ov_filter (wv_overview s))).1 ->
  (forall d, samples_of (column_of m' d) = samples_of (column_of m d) + overlap fpc d first (first + chunk)) /\
  forall x, x ∈ m' -> ac_complete x.1 = true -> ac_sample_count x.1 = apta_expected_column_frames o' (col x).
Proof.
  intros Hp Hin Hc Hlen first fpc Hgeo Hm' Hh.
  pose proof (me_frames _ _ (pl_measuring _ _ Hp)) as Hf. fold fpc in Hf.
  assert (Hcount : forall d, samples_of (column_of m' d) =
             samples_of (column_of m d) + overlap fpc d first (first + chunk)).
  { intros d. rewrite Hh, measured_count, Hlen by lia. done. }
  split; [done|]. intros x Hx Hcx. rewrite (same_geometry_expected _ _ _ Hgeo).
  pose proof (column_of_member m' x (ts_sorted _ _ (me_shape _ _ Hm')) Hx) as Hfind.
  pose proof Hfind as Hfind'. rewrite Hh in Hfind'. pose proof (measured_flag _ _ _ _ _ _ _ _ Hfind') as Hflag.
  rewrite Hcx in Hflag. destruct (column_of m (col x)) as [y|] eqn:Ey; [|done].
  destruct (column_of_elem _ _ _ Ey) as [Hy Hyc].
  pose proof (pl_complete _ _ Hp y Hy (eq_sym Hflag)) as Hexp. rewrite Hyc in Hexp.
  pose proof (ts_columns _ _ (me_shape _ _ (pl_measuring _ _ Hp))) as Hcols. rewrite Forall_forall in Hcols.
  pose proof (pl_load _ _ Hp (col x)) as Hl. rewrite <- Hyc in Hl at 1. specialize (Hl (Hcols y Hy)).
  unfold load in Hl. rewrite Ey in Hl. simpl in Hl. fold fpc in Hl.
  assert (Hle : overlap fpc (col x) first (first + chunk) <= pending_in fpc (col x) (wv_pcm s)).
  { apply list_elem_of_split in Hin as (l1 & l2 & E). unfold pending_in. rewrite E, sum_of_app. simpl.
    unfold node_pending in Hc. fold first.
    rewrite (overlap_split fpc (col x) first (first + chunk) (pn_first_frame n + pn_frame_count n)) by (unfold first; lia).
    pose proof (pending_in_nonneg fpc (col x) l1). pose proof (pending_in_nonneg fpc (col x) l2).
    pose proof (overlap_nonneg fpc (col x) (first + chunk) (pn_first_frame n + pn_frame_count n)).
    unfold pending_in in *. lia. }
  specialize (Hcount (col x)). rewrite Hfind, Ey in Hcount. simpl in Hcount.
  pose proof (overlap_nonneg fpc (col x) first (first + chunk)). lia.
Qed.

Lemma process_chunk_spec s m i n chunk : pipeline s m -> wv_pcm s !! i = Some n ->
  1 <= chunk <= node_pending n -> chunk <= APTA_INTERNAL_PROCESS_CHUNK_FRAMES ->
  exists s' status, process_chunk allocate fresh s i n chunk = Ret (s', status) /\
    same_geometry (wv_overview s) (wv_overview s') /\ same_settings s s' /\
    (status = APTA_STATUS_OK /\ (exists m', advanced s m s' m' chunk) \/
     out_of_memory status /\ interrupted s s').
Proof.
  intros Hp Hi Hc Hc256. unfold APTA_INTERNAL_PROCESS_CHUNK_FRAMES in Hc256. unfold process_chunk.
  pose proof (pl_queue _ _ Hp) as Hq. pose proof (me_frames _ _ (pl_measuring _ _ Hp)) as Hf.
  assert (Hn : node_ok n) by (pose proof (qk_nodes _ Hq) as Hn; rewrite Forall_lookup in Hn; by eapply Hn).
  destruct Hn as (Hn1 & Hn2 & Hn3 & Hn4 & Hn5 & Hn6). unfold APTA_INTERNAL_MAX_PUSH_FRAMES, node_pending in *.
  destruct (process_samples_spec allocate fresh (wv_overview s) m (pn_first_frame n) (pn_processed_frames n)
    (pn_samples n) 0 (Z.to_nat chunk) (pl_measuring _ _ Hp)) as (o1 & status & E & Hgeo & k & m1 & Hk & Hst & Hm1 & Hafter);
    try lia; [exact Hn6|apply (pipeline_room s); [done|lia]|].
  rewrite E. cbn [obind]. destruct Hst as [[-> Ek]|[Hst _]].
  2:{ rewrite (out_of_memory_error _ Hst). eexists _, _. split; [reflexivity|]. split_and!; try done. right.
      split; [done|]. split_and!; try done. by exists m1. }
  cbn [is_error status_code Z.ltb Z.compare]. rewrite Z.add_0_r in Hafter.
  set (samples := take (Z.to_nat chunk) (drop (Z.to_nat (pn_processed_frames n + 0)) (pn_samples n))) in *.
  assert (Hlen : Z.of_nat (length samples) = chunk) by (unfold samples; rewrite length_take, length_drop; lia).
  rewrite take_ge in Hafter by lia. destruct Hafter as [Hh _].
  destruct (chunk_columns s m n chunk o1 m1 samples Hp (list_elem_of_lookup_2 _ _ _ Hi) Hc Hlen Hgeo Hm1 Hh)
    as [Hcount Hcomplete].
  cbn [set_pcm set_overview wv_overview wv_pcm wv_queued_pcm_frames wv_scheduler].
  destruct (measuring_refresh o1 m1 Hm1) as (o2 & -> & Hm2 & Hgeo2). cbn [obind].
  pose proof (same_geometry_trans _ _ _ Hgeo Hgeo2) as Hgeo3.
  destruct (queue_advance s i n chunk (ov_frames_per_column (wv_overview s)) o2 Hq Hi Hc ltac:(lia))
    as (Hq' & Ho' & Hsch & Hfr & Hpend).
  eexists _, _. split; [reflexivity|]. revert Hq' Ho' Hsch Hfr Hpend.
  cbn [set_pcm set_overview wv_overview wv_pcm wv_queued_pcm_frames wv_scheduler].
  set (s' := if _ =? _ then _ else _). intros Hq' Ho' Hsch Hfr Hpend.
  split; [by rewrite Ho'|]. split; [done|]. left. split; [done|]. exists (map (refreshed o1) m1).
  assert (Hload : conserved s m s' (map (refreshed o1) m1)).
  { intros d. unfold load. rewrite Ho', (sg_frames _ _ Hgeo3), Hpend, column_of_refreshed, samples_refreshed, Hcount.
    pose proof (overlap_nonneg (ov_frames_per_column (wv_overview s)) d (pn_first_frame n + pn_processed_frames n)
      (pn_first_frame n + pn_processed_frames n + chunk)). lia. }
  split; [|split; [rewrite Ho'; by apply refreshed_marked|done]].
  constructor; rewrite ?Ho'; try done.
  - rewrite (sg_final _ _ Hgeo3). apply Hp.
  - intros d Hd. rewrite (proj1 (Hload d)), (same_geometry_expected _ _ _ Hgeo3). by apply Hp.
  - intros x Hx Hcx. rewrite (same_geometry_expected _ _ _ Hgeo2). by apply (refreshed_complete o1 m1).
Qed.

(** ** The loop *)

(** Why the loop stops without an error. *)
Definition stopped (frame_limit step_limit : Z) (s : waveform) (p : progress) : Prop :=
  wv_pcm s = [] \/ pg_consumed p = frame_limit \/ pg_steps p = step_limit \/
  (0 < pg_consumed p /\ deadline_reached clock deadline (pg_steps p) = true).

Definition loop_post (frame_limit step_limit : Z) (s : waveform) (m : list column) (p : progress)
    (s' : waveform) (status : apta_status_t) (p' : progress) : Prop :=
  same_geometry (wv_overview s) (wv_overview s') /\ same_settings s s' /\
  pg_consumed p <= pg_consumed p' <= frame_limit /\
  (pg_steps p <= pg_steps p' <= step_limit /\ pg_steps p' - pg_steps p <= pg_consumed p' - pg_consumed p) /\
  (status = APTA_STATUS_OK /\ stopped frame_limit step_limit s' p' /\
   (pg_did_work p' = true <-> pg_did_work p = true \/ pg_consumed p < pg_consumed p') /\
   (exists m', pipeline s' m' /\ all_marked (wv_overview s') m' /\ conserved s m s' m') /\
   queue_frames s' + pg_consumed p' = queue_frames s + pg_consumed p \/
   out_of_memory status /\ queue_ok s' /\ exists m', measuring (wv_overview s') m').

Lemma queue_nonneg s : queue_ok s -> 0 <= queue_frames s.
Proof.
  intros [Hn _]. apply sum_of_nonneg. eapply Forall_impl; [exact Hn|]. unfold node_ok, node_pending. intros; lia.
Qed.

Lemma pending_le_queue s i n : queue_ok s -> wv_pcm s !! i = Some n -> node_pending n <= queue_frames s.
Proof.
  intros [Hn _] Hi. unfold queue_frames.
  assert (0 <= sum_of node_pending (delete i (wv_pcm s))).
  { apply sum_of_nonneg. apply Forall_delete. eapply Forall_impl; [exact Hn|]. unfold node_ok, node_pending. intros; lia. }
  rewrite (sum_of_delete _ _ _ _ Hi) in *. lia.
Qed.

(** The node chosen and the size of the chunk. *)
Lemma loop_choice s frame_limit consumed : queue_ok s -> wv_pcm s <> [] -> consumed < frame_limit ->
  exists i n, apta_select_pcm_node (wv_scheduler s) (wv_pcm s) = Some i /\ wv_pcm s !! i = Some n /\
    u32 (pn_frame_count n - pn_processed_frames n) = node_pending n /\
    let chunk := apta_min_u32 (apta_min_u32 (node_pending n) APTA_INTERNAL_PROCESS_CHUNK_FRAMES)
                   (frame_limit - consumed) in
    1 <= chunk <= node_pending n /\ chunk <= APTA_INTERNAL_PROCESS_CHUNK_FRAMES /\ chunk <= frame_limit - consumed.
Proof.
  intros Hq Hne Hlt. pose proof (select_spec (wv_scheduler s) (wv_pcm s)) as Hsel.
  destruct (apta_select_pcm_node (wv_scheduler s) (wv_pcm s)) as [i|]; [|done].
  destruct Hsel as (n & Hi & _ & _). exists i, n.
  assert (Hn : node_ok n) by (pose proof (qk_nodes _ Hq) as Hn; rewrite Forall_lookup in Hn; by eapply Hn).
  unfold node_ok, node_pending, APTA_INTERNAL_MAX_PUSH_FRAMES, APTA_INTERNAL_PROCESS_CHUNK_FRAMES, apta_min_u32 in *.
  split; [done|]. split; [done|]. split; [apply u32_small; unfold is_u32; lia|]. cbv zeta.
  destruct (Z.ltb_spec (pn_frame_count n - pn_processed_frames n) 256);
    (destruct (Z.ltb_spec (pn_frame_count n - pn_processed_frames n) (frame_limit - consumed));
     destruct (Z.ltb_spec 256 (frame_limit - consumed)); lia).
Qed.

Lemma loop_idle frame_limit step_limit s m p : pipeline s m -> all_marked (wv_overview s) m ->
  0 <= pg_consumed p <= frame_limit -> 0 <= pg_steps p <= step_limit ->
  stopped frame_limit step_limit s p -> loop_post frame_limit step_limit s m p s APTA_STATUS_OK p.
Proof.
  intros Hp Hmark Hc Hs Hst. split; [apply same_geometry_refl|]. split_and!; try done; try lia.
  left. split_and!; try done; [intuition lia|by exists m].
Qed.

(** A round, then the rest of the loop. *)
Lemma loop_step frame_limit step_limit s m p s1 m1 chunk s' status p' :
  same_geometry (wv_overview s) (wv_overview s1) -> same_settings s s1 ->
  1 <= chunk -> conserved s m s1 m1 -> queue_frames s1 = queue_frames s - chunk ->
  loop_post frame_limit step_limit s1 m1
    {| pg_consumed := pg_consumed p + chunk; pg_steps := pg_steps p + 1; pg_did_work := true |} s' status p' ->
  loop_post frame_limit step_limit s m p s' status p'.
Proof.
  intros Hgeo Hsch Hc Hload Hfr (G1 & G2 & G3 & G4 & G5). simpl in G3, G4.
  split; [by eapply same_geometry_trans|]. split; [by eapply same_settings_trans|]. split; [lia|]. split; [lia|].
  destruct G5 as [(-> & G5 & G6 & (m' & G7 & G8 & G9) & G10)|G5]; [left|by right].
  split; [done|]. split; [done|]. split; [rewrite G6; simpl; intuition lia|].
  split; [|simpl in G10; lia]. exists m'. split; [done|]. split; [done|]. by eapply conserved_trans.
Qed.

(** As many rounds as queued frames are enough. *)
Lemma process_loop_spec fuel frame_limit step_limit s m p : pipeline s m -> all_marked (wv_overview s) m ->
  queue_frames s <= Z.of_nat fuel ->
  0 <= pg_consumed p <= frame_limit -> 0 <= pg_steps p <= step_limit ->
  frame_limit <= UINT32_MAX -> step_limit <= UINT32_MAX ->
  exists s' status p', process_loop allocate fresh clock deadline fuel frame_limit step_limit s p = Ret (s', status, p') /\
    loop_post frame_limit step_limit s m p s' status p'.
Proof.
  intros Hp Hmark Hfuel Hcons Hsteps Hfl Hsl. revert s m p Hp Hmark Hfuel Hcons Hsteps.
  induction fuel as [|fuel IH]; intros s m p Hp Hmark Hfuel Hcons Hsteps; cbn [process_loop];
    (destruct (wv_pcm s) as [|n0 l0] eqn:El;
      [eexists _, _, _; split; [reflexivity|]; apply loop_idle; try done; by left|]);
    (destruct ((pg_consumed p <? frame_limit) && (pg_steps p <? step_limit)) eqn:Ebudget;
      [|eexists _, _, _; split; [reflexivity|]; apply loop_idle; try done; right;
        apply andb_false_iff in Ebudget; lia]);
    apply andb_true_iff in Ebudget as [Eb1 Eb2]; apply Z.ltb_lt in Eb1, Eb2; rewrite <- El in *;
    pose proof (pl_queue _ _ Hp) as Hq;
    destruct (loop_choice s frame_limit (pg_consumed p) Hq ltac:(congruence) Eb1) as (i & n & -> & Hi & Hrem & Hc);
    pose proof (pending_le_queue _ _ _ Hq Hi); unfold arr_get; rewrite Hi; cbn [obind]; rewrite Hrem;
    set (chunk := apta_min_u32 (apta_min_u32 _ _) _) in *; cbv zeta in Hc; destruct Hc as (Hc1 & Hc2 & Hc3);
    (destruct (Z.eqb_spec chunk 0); [lia|]); [lia|].
  destruct (process_chunk_spec s m i n chunk Hp Hi Hc1 Hc2) as (s1 & status & -> & Hgeo & Hsch & Hst).
  cbn [obind]. destruct Hst as [(-> & m1 & Hp1 & Hmark1 & Hload & Hfr)|(Hst & Hpcm & Hqf & Hm1)].
  - cbn [is_error status_code Z.ltb Z.compare]. rewrite !u32_small by (unfold is_u32; lia).
    set (p1 := {| pg_consumed := pg_consumed p + chunk |}).
    destruct (deadline_reached clock deadline (pg_steps p1)) eqn:Edl.
    + eexists _, _, _. split; [reflexivity|]. apply (loop_step _ _ s m p s1 m1 chunk); [done|done|lia|done|done|].
      apply loop_idle; try done; simpl; try lia. right; right; right. simpl. split; [lia|done].
    + destruct (IH s1 m1 p1 Hp1 Hmark1) as (s' & status & p' & -> & Hpost); simpl; try lia.
      eexists _, _, _. split; [reflexivity|]. apply (loop_step _ _ s m p s1 m1 chunk); [done|done|lia|done|done|done].
  - rewrite (out_of_memory_error _ Hst). eexists _, _, _. split; [reflexivity|]. split; [done|].
    split_and!; try done; try lia. right. split_and!; try done. destruct Hq. constructor; by rewrite ?Hpcm, ?Hqf.
Qed.

End Chunks.
