(* ===== verification/Coverage.v ===== *)
(** * Counting accepted frames per column

    The accepted frames of a column as a number, and how a push changes it. *)

From S2P Require Import Prelude Platform Samples Ranges AcceptPcm Overview Process ProcessTheorems.

Definition coveredb (l : list range) (f : Z) : bool :=
  existsb (fun r => (r_first r <=? f) && (f <? r_end r)) l.

Lemma coveredb_spec l f : coveredb l f = true <-> covered l f.
Proof.
  unfold coveredb, covered. rewrite existsb_exists. split; intros (r & Hr & Hf); exists r.
  - apply list_elem_of_In in Hr. split; [done|]. lia.
  - apply list_elem_of_In in Hr. split; [done|]. lia.
Qed.

(** How many of the [n] integers from [a] on satisfy [p]. *)
Definition count (p : Z -> bool) (a n : Z) : Z := Z.of_nat (length (List.filter p (seqZ a n))).

Lemma count_range p a n : 0 <= n -> 0 <= count p a n <= n.
Proof.
  intros Hn. unfold count. pose proof (List.filter_length_le p (seqZ a n)) as H. rewrite length_seqZ in H. lia.
Qed.

Lemma count_succ p a n : 0 <= n -> count p a (n + 1) = count p a n + (if p (a + n) then 1 else 0).
Proof.
  intros Hn. unfold count. rewrite seqZ_app by lia. rewrite List.filter_app, length_app, Nat2Z.inj_add. f_equal.
  rewrite seqZ_cons by lia. simpl. by destruct (p (a + n)).
Qed.

Lemma count_zero p a : count p a 0 = 0.
Proof. done. Qed.

(** Induction on the length of an interval. *)
Lemma count_ind (P : Z -> Prop) : P 0 -> (forall n, 0 <= n -> P n -> P (n + 1)) -> forall n, 0 <= n -> P n.
Proof. intros H0 HS n Hn. revert n Hn. apply natlike_ind; [done|]. intros n Hn. rewrite <- Z.add_1_r. by apply HS. Qed.

Lemma count_add (p q r : Z -> bool) a n : 0 <= n -> (forall f, a <= f < a + n -> (if r f then 1 else 0) = (if p f then 1 else 0) + (if q f then 1 else 0)) ->
  count r a n = count p a n + count q a n.
Proof.
  intros Hn. revert n Hn. refine (count_ind _ _ _); [done|]. intros n Hn IH Hf.
  rewrite !count_succ by lia. rewrite IH by (intros f H; apply Hf; lia). rewrite (Hf (a + n)) by lia. lia.
Qed.

Lemma count_ext (p q : Z -> bool) a n : (forall f, p f = q f) -> count p a n = count q a n.
Proof. intros E. unfold count. do 2 f_equal. apply List.filter_ext. exact E. Qed.

(** The integers of an interval. *)
Lemma count_interval a n first last : 0 <= n -> first <= last ->
  count (fun f => (first <=? f) && (f <? last)) a n = Z.max 0 (Z.min last (a + n) - Z.max first a).
Proof.
  intros Hn Hf. revert n Hn. refine (count_ind _ _ _); [rewrite count_zero; lia|]. intros n Hn IH. rewrite count_succ, IH by lia.
  destruct (Z.leb_spec first (a + n)), (Z.ltb_spec (a + n) last); simpl; lia.
Qed.

(** All of them satisfy [p] when none is missing. *)
Lemma count_full p a n f : count p a n = n -> a <= f < a + n -> p f = true.
Proof.
  intros Hc Hf. assert (Hn : 0 <= n) by lia. revert n Hn Hc Hf. refine (count_ind _ _ _); [lia|].
  intros n Hn IH Hc Hf. rewrite count_succ in Hc by lia. pose proof (count_range p a n Hn).
  destruct (p (a + n)) eqn:E; [|lia]. destruct (Z.eq_dec f (a + n)) as [->|]; [done|]. apply IH; lia.
Qed.

Lemma count_all p a n : 0 <= n -> (forall f, a <= f < a + n -> p f = true) -> count p a n = n.
Proof.
  intros Hn. revert n Hn. refine (count_ind _ _ _); [by rewrite count_zero|]. intros n Hn IH Hp. rewrite count_succ by lia.
  rewrite IH by (intros f Hf; apply Hp; lia). by rewrite Hp by lia.
Qed.

Lemma count_bound p a n e : 0 <= n -> (forall f, p f = true -> f < e) -> count p a n <= Z.max 0 (Z.min n (e - a)).
Proof.
  intros Hn Hp. revert n Hn. refine (count_ind _ _ _); [rewrite count_zero; lia|]. intros n Hn IH. rewrite count_succ by lia.
  destruct (p (a + n)) eqn:E; [|lia]. specialize (Hp _ E). pose proof (count_range p a n Hn). lia.
Qed.

Lemma count_pos p a n : 0 <= n -> 0 < count p a n -> exists f, a <= f < a + n /\ p f = true.
Proof.
  intros Hn. revert n Hn. refine (count_ind _ _ _); [rewrite count_zero; lia|]. intros n Hn IH.
  rewrite count_succ by lia. destruct (p (a + n)) eqn:E; [intros _; exists (a + n); split; [lia|done]|].
  rewrite Z.add_0_r. intros H. destruct (IH H) as (f & Hf & Hp). exists f. split; [lia|done].
Qed.

(** ** Columns *)

(** The accepted frames of column [d]. *)
Definition frames_of (c : coverage) (fpc d : Z) : Z := count (coveredb (accepted_ranges c)) (d * fpc) fpc.

Lemma frames_of_range c fpc d : 0 <= fpc -> 0 <= frames_of c fpc d <= fpc.
Proof. intros Hf. by apply count_range. Qed.

(** A push adds the frames of the block that fall into the column. *)
Lemma frames_of_add c c' fpc d first last : 0 <= fpc -> first <= last ->
  (forall f, covered (accepted_ranges c') f <-> covered (accepted_ranges c) f \/ first <= f < last) ->
  (forall f, first <= f < last -> ~ covered (accepted_ranges c) f) ->
  frames_of c' fpc d = frames_of c fpc d + overlap fpc d first last.
Proof.
  intros Hf Hfl Hcov Hnew. unfold frames_of, overlap.
  rewrite (count_add (coveredb (accepted_ranges c)) (fun f => (first <=? f) && (f <? last))) by
    (done || intros f _;
     pose proof (coveredb_spec (accepted_ranges c) f) as E1; pose proof (coveredb_spec (accepted_ranges c') f) as E2;
     specialize (Hcov f); specialize (Hnew f);
     destruct (coveredb (accepted_ranges c) f), (coveredb (accepted_ranges c') f),
       (Z.leb_spec first f), (Z.ltb_spec f last); simpl; try lia; exfalso; intuition (lia || done)).
  rewrite count_interval by done. do 2 f_equal. lia.
Qed.

Lemma frames_of_same c c' fpc d : accepted_ranges c' = accepted_ranges c -> frames_of c' fpc d = frames_of c fpc d.
Proof. intros E. unfold frames_of. by rewrite E. Qed.

(** A column all of whose frames are accepted ends before the last accepted frame. *)
Lemma frames_of_full c fpc d e : 0 < fpc -> frames_of c fpc d = fpc ->
  (forall f, covered (accepted_ranges c) f -> f < e) -> (d + 1) * fpc <= e.
Proof.
  intros Hf Hfull Hlt. pose proof (count_full _ _ _ (d * fpc + fpc - 1) Hfull ltac:(lia)) as H.
  apply coveredb_spec, Hlt in H. lia.
Qed.

Lemma frames_of_all c fpc d : 0 <= fpc ->
  (forall f, d * fpc <= f < d * fpc + fpc -> covered (accepted_ranges c) f) -> frames_of c fpc d = fpc.
Proof. intros Hf Hall. apply count_all; [done|]. intros f Hin. by apply coveredb_spec, Hall. Qed.

Lemma frames_of_bound c fpc d e : 0 <= fpc -> (forall f, covered (accepted_ranges c) f -> f < e) ->
  frames_of c fpc d <= Z.max 0 (Z.min fpc (e - d * fpc)).
Proof. intros Hf Hlt. apply count_bound; [done|]. intros f H. by apply Hlt, coveredb_spec. Qed.

Lemma frames_of_pos c fpc d : 0 <= fpc -> 0 < frames_of c fpc d ->
  exists f, d * fpc <= f < d * fpc + fpc /\ covered (accepted_ranges c) f.
Proof. intros Hf Hp. destruct (count_pos _ _ _ Hf Hp) as (f & H1 & H2). exists f. split; [done|]. by apply coveredb_spec. Qed.

(** The last accepted frame. *)
Lemma maximum_accepted_end c f : table_ok c -> covered (accepted_ranges c) f -> f < cov_maximum_accepted_end c.
Proof.
  intros [Hg _ _ ->]. revert Hg. generalize (accepted_ranges c) as l. generalize 0 as lo. intros lo l Hg Hf.
  assert (H : forall l lo, gaps lo l -> forall r, r ∈ l -> exists z, last l = Some z /\ r_end r <= r_end z).
  { clear. induction l as [|x l IH]; intros lo Hg r Hr; [by apply elem_of_nil in Hr|].
    destruct l as [|y l].
    - apply list_elem_of_singleton in Hr as ->. exists x. split; [done|lia].
    - simpl in Hg. destruct Hg as (H1 & H2 & Hg). change (last (x :: y :: l)) with (last (y :: l)).
      destruct (IH _ Hg y ltac:(by apply elem_of_cons; left)) as (z & Hz & Hyz).
      apply elem_of_cons in Hr as [->|Hr]; [|by apply (IH _ Hg)]. exists z. split; [done|].
      simpl in Hg. lia. }
  destruct Hf as (r & Hr & Hf). destruct (H l lo Hg r Hr) as (z & -> & Hz). lia.
Qed.
