(* ===== verification/ProcessCall.v ===== *)
(** * A whole call of [apta_internal_waveform_process], and what its requests learn *)

From stdpp Require Import gmap.
From Stdlib Require Import Floats.SpecFloat.
From S2P Require Import Prelude Platform FloatFacts Samples Ranges AcceptPcm SampleTheorems.
From S2P Require Import Wovr Scheduler Overview OverviewTable OverviewMeasure Publish PublishTheorems.
From S2P Require Import Process ProcessTheorems.

(** ** The call *)

Section Call.
Context `{PlatformLaws}.
Context (allocate : nat -> Z -> bool) (fresh : accumulator).
Context (clock : option (nat -> Z)) (deadline : Z).

Lemma pipeline_scheduler s m c : pipeline s m -> pipeline (set_scheduler s c) m.
Proof. intros [H1 [H2 H3] H4 H5 H6]. by constructor. Qed.

Lemma pipeline_refresh s m : pipeline s m ->
  exists o, apta_refresh_completed_columns (wv_overview s) = Ret o /\
    pipeline (set_overview s o) (map (refreshed (wv_overview s)) m) /\
    all_marked o (map (refreshed (wv_overview s)) m) /\
    (forall d, load (set_overview s o) (map (refreshed (wv_overview s)) m) d = load s m d) /\
    same_geometry (wv_overview s) o.
Proof.
  intros Hp. destruct (measuring_refresh _ _ (pl_measuring _ _ Hp)) as (o & Ho & Hm & Hgeo).
  assert (Hload : forall d, load (set_overview s o) (map (refreshed (wv_overview s)) m) d = load s m d).
  { intros d. unfold load. simpl. by rewrite (sg_frames _ _ Hgeo), column_of_refreshed, samples_refreshed. }
  exists o. split; [done|]. split; [|split; [by apply refreshed_marked|done]].
  constructor; simpl; [done|by destruct (pl_queue _ _ Hp)| | |].
  - rewrite (sg_final _ _ Hgeo). apply Hp.
  - intros d Hd. rewrite Hload, (same_geometry_expected _ _ _ Hgeo). by apply Hp.
  - intros x Hx Hc. rewrite (same_geometry_expected _ _ _ Hgeo).
    apply (refreshed_complete (wv_overview s) m); [apply Hp|done|done].
Qed.

(** The flags of the table tell exactly which columns have all their frames. *)
Definition flags_exact (o : overview) (m : list column) : Prop :=
  forall x, x ∈ m ->
    let expected := apta_expected_column_frames o (col x) in
    (ac_complete x.1 = true -> ac_sample_count x.1 = expected) /\
    (ac_sample_count x.1 = expected -> expected <> 0 -> ac_complete x.1 = true).

Lemma marked_exact s m : pipeline s m -> all_marked (wv_overview s) m -> flags_exact (wv_overview s) m.
Proof.
  intros Hp Hmark x Hx. split; [by apply Hp|]. intros He Hne. unfold all_marked in Hmark.
  rewrite Forall_forall in Hmark. specialize (Hmark x Hx). unfold completes in Hmark. fold (col x) in Hmark.
  destruct (ac_complete x.1); [done|]. simpl in Hmark. rewrite He, Z.eqb_refl, andb_true_r in Hmark.
  apply negb_false_iff in Hmark. lia.
Qed.

(** No column holds more samples than a column has frames. *)
Lemma pipeline_counts s m x : pipeline s m -> x ∈ m ->
  0 <= ac_sample_count x.1 <= ov_frames_per_column (wv_overview s).
Proof.
  intros Hp Hx. pose proof (pl_measuring _ _ Hp) as Hm. pose proof (me_frames _ _ Hm) as Hf.
  pose proof (ts_columns _ _ (me_shape _ _ Hm)) as Hcols. rewrite Forall_forall in Hcols. specialize (Hcols x Hx).
  pose proof (pl_load _ _ Hp (col x) Hcols) as Hl.
  pose proof (expected_le _ (col x) Hf Hcols (pl_final _ _ Hp)) as He.
  unfold load in Hl. rewrite (column_of_member m x (ts_sorted _ _ (me_shape _ _ Hm)) Hx) in Hl. cbn [samples_of] in Hl.
  pose proof (pending_in_nonneg (ov_frames_per_column (wv_overview s)) (col x) (wv_pcm s)).
  pose proof (me_columns _ _ Hm) as Hok. rewrite Forall_forall in Hok. destruct (Hok x Hx) as [Hc _].
  unfold counters_ok in Hc. destruct x.2 as [[b0 b1] b2]. lia.
Qed.

Lemma pipeline_few s m : pipeline s m -> Forall few_samples m.
Proof. intros Hp. apply Forall_forall. intros x Hx. pose proof (pipeline_counts s m x Hp Hx).
  pose proof (me_frames _ _ (pl_measuring _ _ Hp)). unfold few_samples. lia.
Qed.

(** A publication touches the flags of the columns at most. *)
Lemma pipeline_published s m o p m' : pipeline s m -> measuring o m' -> same_geometry (wv_overview s) o ->
  m' = m \/ m' = map unmarked m -> pipeline (set_publication s o p) m' /\ conserved s m (set_publication s o p) m'.
Proof.
  intros Hp Ho Hg Hm'.
  assert (Hs : forall d, samples_of (column_of m' d) = samples_of (column_of m d)).
  { intros d. destruct Hm' as [->| ->]; [done|]. rewrite column_of_unmarked. by destruct (column_of m d). }
  assert (Hc : conserved s m (set_publication s o p) m').
  { intros d. unfold load. simpl. rewrite (sg_frames _ _ Hg), Hs. lia. }
  split; [|done]. constructor; simpl; [done|by destruct (pl_queue _ _ Hp)|rewrite (sg_final _ _ Hg); apply Hp| |].
  - intros d Hd. rewrite (proj1 (Hc d)), (same_geometry_expected _ _ _ Hg). by apply Hp.
  - intros x Hx Hcx. rewrite (same_geometry_expected _ _ _ Hg). destruct Hm' as [->| ->]; [by apply Hp|].
    apply list_elem_of_fmap in Hx as (y & -> & _). done.
Qed.

(** What a call reports that neither failed nor was interrupted. *)
Definition work_status (s' : waveform) (p : progress) : apta_status_t :=
  if pg_consumed p =? 0 then APTA_STATUS_WOULD_BLOCK
  else match wv_pcm s' with [] => APTA_STATUS_OK | _ => APTA_STATUS_MORE_WORK end.

(** How a call publishes: [m1] is the table as measured, [m'] as it is left. *)
Definition call_published (s : waveform) (m : list column) (o1 : overview) (m1 m' : list column)
    (out : process_outcome) : Prop :=
  let before := wv_publication s in
  let after := wv_publication (po_session out) in
  if (number_complete m1 =? number_complete m)%nat
  then m' = m1 /\ after = before /\ po_published out = false /\
       po_status out = work_status (po_session out) (po_progress out)
  else if po_published out
  then m' = m1 /\ publishes before after (published_result o1 before m1 APTA_FEATURE_WAVEFORM_OVERVIEW) /\
       po_status out = work_status (po_session out) (po_progress out)
  else after = before /\
       (po_status out = APTA_ERROR_OUT_OF_MEMORY /\ m' = map unmarked m1 \/
        po_status out = APTA_ERROR_LIMIT_EXCEEDED /\ m' = m1).

(** What a call has done whose measuring did not fail. *)
Definition call_done (s : waveform) (m : list column) (budget : apta_work_budget_t)
    (out : process_outcome) : Prop :=
  let s' := po_session out in
  let p := po_progress out in
  exists o1 m1 m',
    measuring o1 m1 /\ same_geometry (wv_overview s) o1 /\ flags_exact o1 m1 /\
    pipeline s' m' /\ conserved s m s' m' /\ same_geometry (wv_overview s) (wv_overview s') /\
    publication_ok (wv_publication s') /\
    queue_frames s' + pg_consumed p = queue_frames s /\
    stopped clock deadline (budget_limit (wb_maximum_input_frames budget))
      (budget_limit (wb_maximum_steps budget)) s' p /\
    call_published s m o1 m1 m' out.

(** Whether measuring ends without an error. *)
Definition measures (fuel : nat) (s : waveform) (budget : apta_work_budget_t) : Prop :=
  forall s' status p, measure_queue allocate fresh clock deadline fuel s budget = Ret (s', status, p) ->
    is_error status = false.

Definition call_within (budget : apta_work_budget_t) (out : process_outcome) : Prop :=
  0 <= pg_consumed (po_progress out) <= budget_limit (wb_maximum_input_frames budget) /\
  0 <= pg_steps (po_progress out) <= budget_limit (wb_maximum_steps budget) /\
  pg_steps (po_progress out) <= pg_consumed (po_progress out).

(** What a call whose measuring failed leaves. *)
Definition call_interrupted (s : waveform) (out : process_outcome) : Prop :=
  out_of_memory (po_status out) /\ po_published out = false /\ queue_ok (po_session out) /\
  wv_publication (po_session out) = wv_publication s /\
  exists m', measuring (wv_overview (po_session out)) m'.

(** The publication at the end of a call. *)
Lemma call_publishes s m s1 m1 p : pipeline s m -> publication_ok (wv_publication s) ->
  pipeline s1 m1 -> all_marked (wv_overview s1) m1 -> conserved s m s1 m1 ->
  same_geometry (wv_overview s) (wv_overview s1) -> wv_publication s1 = wv_publication s ->
  negb (pg_did_work p) = (pg_consumed p =? 0) ->
  exists out, finish_call allocate (ov_complete_count (wv_overview s)) s1 p = Ret out /\
    po_progress out = p /\ wv_pcm (po_session out) = wv_pcm s1 /\
    exists m', pipeline (po_session out) m' /\ conserved s m (po_session out) m' /\
      same_geometry (wv_overview s) (wv_overview (po_session out)) /\
      publication_ok (wv_publication (po_session out)) /\ call_published s m (wv_overview s1) m1 m' out.
Proof.
  intros Hp Hpub Hp1 Hmark Hcons Hgeo Hsame Hzero. unfold finish_call. cbv zeta.
  rewrite (ts_complete _ _ (me_shape _ _ (pl_measuring _ _ Hp1))), (ts_complete _ _ (me_shape _ _ (pl_measuring _ _ Hp))).
  assert (E : (Z.of_nat (number_complete m1) =? Z.of_nat (number_complete m)) = (number_complete m1 =? number_complete m)%nat).
  { destruct (Z.eqb_spec (Z.of_nat (number_complete m1)) (Z.of_nat (number_complete m))),
      (Nat.eqb_spec (number_complete m1) (number_complete m)); lia. }
  rewrite E. unfold call_published. destruct (number_complete m1 =? number_complete m)%nat eqn:Ec; cbn [negb].
  { eexists. split; [reflexivity|]. split; [done|]. split; [done|]. exists m1. unfold work_status. simpl. rewrite Hzero, Hsame. split_and!; done. }
  rewrite Hsame. pose proof (pl_measuring _ _ Hp1) as Hm1.
  destruct (publish_spec allocate (wv_overview s1) (wv_publication s) m1 APTA_FEATURE_WAVEFORM_OVERVIEW Hm1
    (pipeline_few _ _ Hp1) Hpub) as (o' & p' & m' & status & -> & Ho' & Hg' & Hk & Hcase). cbn [obind].
  assert (Hm' : m' = m1 \/ m' = map unmarked m1) by intuition.
  destruct (pipeline_published s1 m1 o' p' m' Hp1 Ho' Hg' Hm') as [Hp2 Hc2].
  assert (Hg2 : same_geometry (wv_overview s) o') by (by eapply same_geometry_trans).
  pose proof (conserved_trans _ _ _ _ _ _ Hcons Hc2) as Hc3.
  destruct Hcase as [(-> & -> & Hpubl)|[(-> & -> & ->)|(-> & -> & ->)]]; cbn [is_error status_code Z.ltb Z.compare];
    (eexists; split; [reflexivity|]; split; [done|]; split; [done|]; eexists; cbn [po_session po_published po_status wv_publication wv_overview set_publication];
     split; [exact Hp2|]; split; [exact Hc3|]; split; [exact Hg2|]; split; [exact Hk|]).
  - unfold work_status. simpl. by rewrite Hzero.
  - split; [done|]. by left.
  - split; [done|]. by right.
Qed.

Lemma process_call_spec fuel s m budget : pipeline s m -> publication_ok (wv_publication s) ->
  queue_frames s <= Z.of_nat fuel ->
  is_u32 (wb_maximum_input_frames budget) -> is_u32 (wb_maximum_steps budget) ->
  exists out,
    apta_internal_waveform_process_base allocate fresh clock deadline fuel s budget = Ret out /\ call_within budget out /\
    (call_interrupted s out /\ ~ measures fuel s budget \/ call_done s m budget out /\ measures fuel s budget).
Proof.
  intros Hpipeline Hpub Hfuel Hframes Hsteps.
  assert (Hlim : forall n, is_u32 n -> 0 <= budget_limit n <= UINT32_MAX).
  { unfold is_u32, budget_limit. intros n Hn. destruct (n =? 0); lia. }
  specialize (Hlim _ Hframes) as HF. specialize (Hlim _ Hsteps) as HS.
  destruct (pipeline_refresh s m Hpipeline) as (o & Ho & Hp & Hmark & Hload & Hgeo).
  unfold apta_internal_waveform_process_base, measures, measure_queue. rewrite Ho. cbn [obind].
  set (p0 := {| pg_consumed := 0 |}).
  destruct (process_loop_spec allocate fresh clock deadline fuel (budget_limit (wb_maximum_input_frames budget))
    (budget_limit (wb_maximum_steps budget)) (set_overview s o) (map (refreshed (wv_overview s)) m) p0 Hp Hmark Hfuel)
    as (s1 & status & p & -> & Hgeo1 & [Hsch Hspub] & Hpc & Hps & Hpost); simpl; try lia. cbn [obind].
  assert (Hcons0 : conserved s m (set_overview s o) (map (refreshed (wv_overview s)) m)).
  { intros d. split; [apply Hload|]. rewrite column_of_refreshed, samples_refreshed. lia. }
  pose proof (same_geometry_trans _ _ _ Hgeo Hgeo1) as Hgeo2. simpl in Hpc, Hps, Hspub.
  destruct Hpost as [(-> & Hstop & Hdid & (m1 & Hp1 & Hmark1 & Hc1) & Hfr)|(Hst & Hq & Hm')].
  2:{ rewrite (out_of_memory_error _ Hst). eexists. split; [reflexivity|]. split; [split; simpl; lia|]. left.
      split; [by split_and!|]. intros Hno. specialize (Hno _ _ _ eq_refl). by rewrite (out_of_memory_error _ Hst) in Hno. }
  cbn [is_error status_code Z.ltb Z.compare]. cbv zeta.
  assert (Hzero : negb (pg_did_work p) = (pg_consumed p =? 0)).
  { destruct (pg_did_work p); simpl in Hdid |- *; [symmetry; apply Z.eqb_neq; intuition lia|symmetry; apply Z.eqb_eq].
    destruct (Z.eq_dec (pg_consumed p) 0); [done|]. exfalso. assert (false = true); [apply Hdid; right; lia|done]. }
  destruct (call_publishes s m (apta_update_request_states s1) m1 p Hpipeline Hpub (pipeline_scheduler _ _ _ Hp1) Hmark1)
    as (out & -> & Hprog & Hpcm & m' & Q1 & Q2 & Q3 & Q4 & Q5); [by eapply conserved_trans|done|done|done|].
  exists out. split; [done|]. split; [unfold call_within; rewrite Hprog; lia|]. right. split; [|by intros ??? [= <- <- <-]].
  exists (wv_overview s1), m1, m'. split; [apply Hp1|]. split; [done|]. split; [by apply (marked_exact s1)|].
  unfold queue_frames, stopped in *. rewrite Hprog, Hpcm. split_and!; try done. simpl in Hfr. simpl. lia.
Qed.

(** C5. A call of the waveform process always ends, within the frames and the steps of
    its budget, and reads and writes only inside its arrays.  Unless measuring runs out
    of memory, the frames it consumed are exactly those that left the queue; each went
    to the column it belongs to (for every column, what is counted plus what is queued
    stays the same); a column is marked complete exactly when it holds all the frames
    it expects; exactly when columns were completed it publishes, and then either a
    new result with the snapshot of these columns is installed, or the results stay as
    they were, the failure is reported and, when it is lack of memory, every column
    waits to be completed again; otherwise the status tells whether frames are left.
    When measuring runs out of memory the table and the queue are still well formed. *)
Theorem process_call_contract (fuel : nat) (s : waveform) (m : list column) (budget : apta_work_budget_t)
    (Hpipeline : pipeline s m) (Hpublication : publication_ok (wv_publication s))
    (Hfuel : queue_frames s <= Z.of_nat fuel)
    (Hframes : is_u32 (wb_maximum_input_frames budget)) (Hsteps : is_u32 (wb_maximum_steps budget)) :
  exists out,
    apta_internal_waveform_process_base allocate fresh clock deadline fuel s budget = Ret out /\
    call_within budget out /\ (call_interrupted s out \/ call_done s m budget out).
Proof.
  destruct (process_call_spec fuel s m budget) as (out & E & Hw & Hcase); try done.
  exists out. split; [done|]. split; [done|]. destruct Hcase as [[]|[]]; [by left|by right].
Qed.

End Call.

(** ** Requests *)

Lemma range_complete_loop_spec m column last : columns_sorted m ->
  range_complete_loop (map fst m) column last = true <->
  forall c, column <= c <= last -> exists x, column_of m c = Some x /\ ac_complete x.1 = true.
Proof.
  intros Hs. revert column. induction m as [|x m IH]; intros column; cbn [map range_complete_loop].
  - destruct (Z.ltb_spec last column); split; try done; [intros _ c Hc; lia|].
    intros Hall. destruct (Hall column) as (y & Hy & _); [lia|done].
  - change (x :: m) with ([x] ++ m) in Hs. apply columns_sorted_app in Hs as (_ & Hm & Hlt). specialize (IH Hm).
    assert (Hcol : forall c, column_of (x :: m) c = if col x =? c then Some x else column_of m c) by done.
    destruct (Z.ltb_spec last column); [split; [intros _ c Hc; lia|done]|].
    change (ac_column_index x.1) with (col x).
    assert (Hnot : forall c, c <= col x -> column_of m c = None).
    { intros c Hc. apply column_of_none. apply Forall_forall. intros y Hy.
      specialize (Hlt x y (list_elem_of_here _ _) Hy). lia. }
    destruct (Z.ltb_spec (col x) column) as [Hb|Hb].
    + rewrite IH. apply forall_proper. intros c. split; intros Hall Hc; destruct (Hall Hc) as (y & Hy & Hyc);
        exists y; (split; [|done]); rewrite Hcol in *; destruct (Z.eqb_spec (col x) c); try done; lia.
    + destruct (negb (col x =? column) || negb (ac_complete x.1)) eqn:E.
      * split; [done|]. intros Hall. destruct (Hall column) as (y & Hy & Hyc); [lia|]. exfalso.
        rewrite Hcol in Hy. destruct (Z.eqb_spec (col x) column).
        -- injection Hy as <-. by rewrite Hyc in E.
        -- by rewrite Hnot in Hy.
      * bool_facts. subst column. rewrite IH. split.
        -- intros Hall c Hc. rewrite Hcol. destruct (Z.eqb_spec (col x) c); [by exists x|]. apply Hall. lia.
        -- intros Hall c Hc. destruct (Hall c) as (y & Hy & Hyc); [lia|]. exists y. split; [|done].
           rewrite Hcol in Hy. destruct (Z.eqb_spec (col x) c); [lia|done].
Qed.

(** C26. What a request for the overview is told: it is satisfied exactly when its
    range is not empty and every column that meets it is complete. *)
Theorem request_satisfied_exactly (s : overview) (m : list column) (r : apta_internal_request_t)
    (Hshape : table_shape s m) (Hwants : wants_overview r = true) :
  let range := rr_range (ir_request r) in
  ir_state (update_request_state s r) = APTA_REQUEST_SATISFIED <->
  fr_first_frame range < fr_end_frame range /\
  (fr_end_frame range - 1) / ov_frames_per_column s <= UINT32_MAX /\
  forall c, fr_first_frame range / ov_frames_per_column s <= c <= (fr_end_frame range - 1) / ov_frames_per_column s ->
    exists x, column_of m c = Some x /\ ac_complete x.1 = true.
Proof.
  intros range. unfold update_request_state. fold range. unfold wants_overview, apta_scheduler_request_is_active in Hwants.
  apply andb_true_iff in Hwants as [Hact Hmask].
  replace ((ir_request_id r =? 0) || _ || _ || _) with false
    by (destruct (ir_request_id r =? 0), (state_is (ir_state r) APTA_REQUEST_CANCELLED),
         (state_is (ir_state r) APTA_REQUEST_FAILED), (state_is (ir_state r) APTA_REQUEST_SATISFIED); done).
  rewrite Hmask. simpl. pose proof (ts_represents _ _ Hshape) as [(rest & Ha) Hcount _].
  assert (Hall : apta_accumulator_range_complete s (fr_first_frame range) (fr_end_frame range) = true <->
    fr_first_frame range < fr_end_frame range /\
    (fr_end_frame range - 1) / ov_frames_per_column s <= UINT32_MAX /\
    forall c, fr_first_frame range / ov_frames_per_column s <= c <= (fr_end_frame range - 1) / ov_frames_per_column s ->
      exists x, column_of m c = Some x /\ ac_complete x.1 = true).
  { unfold apta_accumulator_range_complete. destruct (Z.leb_spec (fr_end_frame range) (fr_first_frame range)); [split; [done|lia]|].
    destruct (Z.ltb_spec UINT32_MAX ((fr_end_frame range - 1) / ov_frames_per_column s)); [split; [done|lia]|].
    rewrite Ha, Hcount, <- (length_map fst m), take_app_length.
    rewrite range_complete_loop_spec by apply Hshape. intuition. }
  rewrite <- Hall. destruct (apta_accumulator_range_complete s _ _) eqn:Ec; [done|].
  by destruct (apta_accumulator_range_has_output s _ _).
Qed.

(** ** Concrete sessions *)

Import LP64.

Definition no_requests : scheduler :=
  {| sc_requests := replicate 16 zero_request; sc_next_request_id := 1;
     sc_next_scheduler_enqueue_serial := 1; sc_focus := None;
     sc_total_frames := APTA_TOTAL_FRAMES_UNKNOWN;
     sc_requested_features := APTA_FEATURE_WAVEFORM_OVERVIEW; sc_capabilities := 7 |}.

(** A fresh session at 64 frames per column. *)
Definition fresh_overview : overview :=
  {| ov_accumulators := []; ov_count := 0; ov_capacity := 0; ov_complete_count := 0;
     ov_band_sums := None; ov_filter := zero_filter; ov_frames_per_column := 64;
     ov_requested_features := APTA_FEATURE_WAVEFORM_OVERVIEW;
     ov_end_of_input_signalled := false; ov_final_end_frame := APTA_TOTAL_FRAMES_UNKNOWN;
     ov_allocations := 0 |}.

Lemma fresh_measuring : measuring fresh_overview [].
Proof.
  constructor; [|split; exact I|simpl; lia|constructor]. constructor; simpl; try done; try lia.
  - constructor; simpl; [by exists []|done|constructor].
  - constructor.
Qed.

(** [count] silent frames from [first] on. *)
Definition silence (first : Z) (count : nat) : pcm_node :=
  {| pn_first_frame := first; pn_frame_count := Z.of_nat count; pn_processed_frames := 0;
     pn_samples := replicate count f32_zero |}.

(** A session that has published nothing yet. *)
Definition fresh_publication : publication :=
  {| pu_config := mono_config; pu_state := APTA_SESSION_ACTIVE; pu_generation := 1;
     pu_current_result := None; pu_results := ∅; pu_result_count := 0 |}.

Lemma fresh_publication_ok : publication_ok fresh_publication.
Proof. constructor; [done|unfold is_u64; simpl; lia|done]. Qed.

Definition one_node (n : pcm_node) : waveform :=
  {| wv_overview := fresh_overview; wv_pcm := [n]; wv_queued_pcm_frames := pn_frame_count n;
     wv_scheduler := no_requests; wv_publication := fresh_publication |}.

Lemma one_node_pipeline first count : 0 <= first <= 1000000 -> (1 <= count <= 4096)%nat ->
  pipeline (one_node (silence first count)) [].
Proof.
  intros Hf Hc. constructor; [apply fresh_measuring| |simpl; unfold is_u64, APTA_TOTAL_FRAMES_UNKNOWN; lia| |].
  - constructor; simpl; [|lia]. constructor; [|done]. unfold node_ok, APTA_INTERNAL_MAX_PUSH_FRAMES. simpl.
    rewrite length_replicate. split_and!; try lia. apply Forall_replicate. by split.
  - intros d Hd. unfold load, pending_in, overlap. simpl. unfold apta_expected_column_frames. simpl. lia.
  - intros x Hx. by apply not_elem_of_nil in Hx.
Qed.

Definition no_budget : apta_work_budget_t :=
  {| wb_soft_time_budget_us := 0; wb_maximum_input_frames := 0; wb_maximum_steps := 0 |}.

Lemma process_call_contract_witness :
  exists out,
    apta_internal_waveform_process_base (fun _ _ => true) (new_accumulator 0) None 0 70
      (one_node (silence 60 70)) no_budget = Ret out /\
    call_done None 0 (one_node (silence 60 70)) [] no_budget out /\
    po_status out = APTA_STATUS_OK /\ po_published out = true /\ pg_consumed (po_progress out) = 70.
Proof.
  destruct (process_call_contract (fun _ _ => true) (new_accumulator 0) None 0 70
    (one_node (silence 60 70)) [] no_budget
    (one_node_pipeline 60 70 ltac:(lia) ltac:(lia)) fresh_publication_ok
    ltac:(vm_compute; congruence) ltac:(unfold is_u32; simpl; lia) ltac:(unfold is_u32; simpl; lia))
    as (out & E & _ & Hcase).
  exists out. split; [exact E|]. vm_compute in E. injection E as <-.
  destruct Hcase as [([H|H] & _)|Hdone]; [discriminate|discriminate|].
  split; [exact Hdone|]. repeat split; reflexivity.
Defined.

(** A request for the frames from [first] to [last]. *)
Definition region (first last : Z) : apta_internal_request_t :=
  {| ir_request_id := 1;
     ir_request := {| rr_struct_size := 64; rr_api_version := APTA_API_VERSION;
       rr_range := {| fr_struct_size := 24; fr_api_version := APTA_API_VERSION; fr_first_frame := first; fr_end_frame := last |};
       rr_feature_mask := APTA_FEATURE_WAVEFORM_OVERVIEW; rr_soft_deadline_monotonic_ns := 0;
       rr_request_id := 1; rr_priority := 128 |};
     ir_state := APTA_REQUEST_QUEUED; ir_diagnostic_code := 0; ir_scheduler_skip_count := 0;
     ir_scheduler_enqueue_serial := 1 |}.

(** A table of two complete columns. *)
Definition two_columns : overview :=
  let full c := mark_complete (new_accumulator c) in
  {| ov_accumulators := [full 1; full 2]; ov_count := 2; ov_capacity := 2; ov_complete_count := 2;
     ov_band_sums := None; ov_filter := zero_filter; ov_frames_per_column := 64;
     ov_requested_features := APTA_FEATURE_WAVEFORM_OVERVIEW;
     ov_end_of_input_signalled := false; ov_final_end_frame := APTA_TOTAL_FRAMES_UNKNOWN;
     ov_allocations := 1 |}.

Definition two_columns_list : list column :=
  [(mark_complete (new_accumulator 1), (0, 0, 0)); (mark_complete (new_accumulator 2), (0, 0, 0))].

Lemma two_columns_shape : table_shape two_columns two_columns_list.
Proof.
  constructor; simpl; try done; try lia.
  - constructor; simpl; [by exists []|done|repeat constructor].
  - by left.
  - unfold columns_sorted. simpl. repeat constructor.
  - by repeat (constructor; [by vm_compute|]).
Qed.

Lemma request_satisfied_exactly_witness :
  table_shape two_columns two_columns_list /\ wants_overview (region 100 192) = true /\
  ir_state (update_request_state two_columns (region 100 192)) = APTA_REQUEST_SATISFIED /\
  ir_state (update_request_state two_columns (region 100 193)) <> APTA_REQUEST_SATISFIED.
Proof.
  split; [exact two_columns_shape|]. split; [reflexivity|]. split.
  - apply (request_satisfied_exactly two_columns two_columns_list (region 100 192) two_columns_shape eq_refl).
    split; [simpl; lia|]. split; [vm_compute; congruence|]. intros c Hc. change (1 <= c <= 2) in Hc.
    assert (c = 1 \/ c = 2) as [-> | ->] by lia; eexists; split; reflexivity.
  - intros H. apply (request_satisfied_exactly two_columns two_columns_list (region 100 193) two_columns_shape eq_refl) in H.
    destruct H as (_ & _ & H). destruct (H 3) as (x & Hx & _); [vm_compute; split; congruence|]. discriminate.
Defined.
