(* ===== verification/ProcessRepeat.v ===== *)
(** * Chunks measured twice (waveform/apta_waveform_process.c)

    A chunk whose measuring runs out of memory is not undone.  This file says what the
    failed chunk has counted, and what its repetition counts. *)

From stdpp Require Import gmap.
From Stdlib Require Import Floats.SpecFloat.
From S2P Require Import Prelude Platform FloatFacts Samples Ranges AcceptPcm SampleTheorems.
From S2P Require Import Scheduler Overview OverviewTable OverviewMeasure Publish PublishTheorems.
From S2P Require Import Process ProcessTheorems ProcessCall.

Section Repeat.
Context `{PlatformLaws}.
Context (fresh : accumulator).

(** A chunk measured on any well-formed table: what it added to the columns. *)
Lemma chunk_counts allocate s m i n chunk : measuring (wv_overview s) m -> node_ok n ->
  wv_pcm s !! i = Some n -> 1 <= chunk <= node_pending n -> chunk <= APTA_INTERNAL_PROCESS_CHUNK_FRAMES ->
  room_for chunk m -> queue_ok s ->
  let first := pn_first_frame n + pn_processed_frames n in
  let fpc := ov_frames_per_column (wv_overview s) in
  exists s' status m', process_chunk allocate fresh s i n chunk = Ret (s', status) /\
    measuring (wv_overview s') m' /\ same_geometry (wv_overview s) (wv_overview s') /\
    (out_of_memory status /\ wv_pcm s' = wv_pcm s /\ (exists k, 0 <= k < chunk /\
       forall d, samples_of (column_of m' d) = samples_of (column_of m d) + overlap fpc d first (first + k)) \/
     status = APTA_STATUS_OK /\
       (forall d, samples_of (column_of m' d) = samples_of (column_of m d) + overlap fpc d first (first + chunk)) /\
       (forall d, pending_in fpc d (wv_pcm s') = pending_in fpc d (wv_pcm s) - overlap fpc d first (first + chunk))).
Proof.
  intros Hm Hn Hi Hc Hc256 Hroom Hq first fpc. pose proof (me_frames _ _ Hm) as Hf. fold fpc in Hf.
  unfold process_chunk, APTA_INTERNAL_PROCESS_CHUNK_FRAMES in *.
  destruct Hn as (Hn1 & Hn2 & Hn3 & Hn4 & Hn5 & Hn6). unfold APTA_INTERNAL_MAX_PUSH_FRAMES, node_pending in *.
  destruct (process_samples_spec allocate fresh (wv_overview s) m (pn_first_frame n) (pn_processed_frames n)
    (pn_samples n) 0 (Z.to_nat chunk) Hm) as (o1 & status & E & Hgeo & k & m1 & Hk & Hst & Hm1 & Hafter);
    try lia; [exact Hn6|by replace (Z.of_nat (Z.to_nat chunk)) with chunk by lia|].
  rewrite E. cbn [obind]. rewrite !Z.add_0_r in *.
  assert (Hlen : length (take (Z.to_nat chunk) (drop (Z.to_nat (pn_processed_frames n)) (pn_samples n))) = Z.to_nat chunk)
    by (rewrite length_take, length_drop; lia).
  rewrite Hlen in Hk, Hst. destruct Hafter as [Hh _].
  assert (Hcount : forall d, samples_of (column_of m1 d) = samples_of (column_of m d) + overlap fpc d first (first + Z.of_nat k)).
  { intros d. rewrite Hh, measured_count by lia. rewrite length_take, Hlen, Nat.min_l by lia. done. }
  destruct Hst as [[-> ->]|[Hst Hlt]].
  - cbn [is_error status_code Z.ltb Z.compare set_pcm set_overview wv_overview wv_pcm wv_queued_pcm_frames].
    destruct (measuring_refresh o1 m1 Hm1) as (o2 & -> & Hm2 & Hgeo2). cbn [obind].
    destruct (queue_advance s i n chunk fpc o2 Hq Hi Hc ltac:(lia)) as (_ & Ho' & _ & _ & Hpend).
    eexists _, _, (map (refreshed o1) m1). split; [reflexivity|]. revert Ho' Hpend.
    cbn [set_pcm set_overview wv_overview wv_pcm wv_queued_pcm_frames].
    set (s' := if _ =? _ then _ else _). intros Ho' Hpend. rewrite Ho'. split; [done|].
    split; [by eapply same_geometry_trans|]. right. split; [done|]. split; [|done].
    intros d. rewrite column_of_refreshed, samples_refreshed, Hcount. do 3 f_equal. lia.
  - rewrite (out_of_memory_error _ Hst). eexists _, _, m1. split; [reflexivity|]. split; [done|]. split; [done|].
    left. split; [done|]. split; [done|]. exists (Z.of_nat k). split; [lia|done].
Qed.

(** C25. Running out of memory in the middle of a chunk is not undone.  When a chunk of a
    queued node fails, a number [k] of its first frames, fewer than the chunk has, are
    counted in their columns while the queue is as it was; whenever a later attempt on
    that node succeeds, with any chunk and any answers of the allocator, the same frames
    are counted again: for every column, what is counted and what is queued then exceed
    what was counted and queued at first by exactly those of the [k] frames that lie in
    the column. *)
Theorem out_of_memory_counts_twice (allocate retry : nat -> Z -> bool) (s s1 s2 : waveform) (m : list column)
    (i : nat) (n : pcm_node) (chunk again : Z) (status : apta_status_t)
    (Hpipeline : pipeline s m) (Hnode : wv_pcm s !! i = Some n)
    (Hchunk : 1 <= chunk <= Z.min (node_pending n) APTA_INTERNAL_PROCESS_CHUNK_FRAMES)
    (Hagain : 1 <= again <= Z.min (node_pending n) APTA_INTERNAL_PROCESS_CHUNK_FRAMES)
    (Hfails : process_chunk allocate fresh s i n chunk = Ret (s1, status)) (Herror : is_error status = true)
    (Hsucceeds : process_chunk retry fresh s1 i n again = Ret (s2, APTA_STATUS_OK)) :
  let first := pn_first_frame n + pn_processed_frames n in
  let fpc := ov_frames_per_column (wv_overview s) in
  wv_pcm s1 = wv_pcm s /\
  exists k m1 m2, 0 <= k < chunk /\ table_shape (wv_overview s1) m1 /\ table_shape (wv_overview s2) m2 /\
    (forall d, samples_of (column_of m1 d) = samples_of (column_of m d) + overlap fpc d first (first + k)) /\
    forall d, load s2 m2 d = load s m d + overlap fpc d first (first + k).
Proof.
  intros first fpc. pose proof (pl_queue _ _ Hpipeline) as Hq. pose proof (pl_measuring _ _ Hpipeline) as Hm.
  pose proof (me_frames _ _ Hm) as Hf. fold fpc in Hf. unfold APTA_INTERNAL_PROCESS_CHUNK_FRAMES in *.
  assert (Hn : node_ok n) by (pose proof (qk_nodes _ Hq) as Hn; rewrite Forall_lookup in Hn; by eapply Hn).
  pose proof (pipeline_room s m 65535 Hpipeline ltac:(lia)) as Hroom.
  destruct (chunk_counts allocate s m i n chunk Hm Hn Hnode ltac:(lia) ltac:(unfold APTA_INTERNAL_PROCESS_CHUNK_FRAMES; lia))
    as (s1' & status' & m1 & E & Hm1 & Hg1 & Hcase); [intros d x Hx; apply Hroom in Hx; lia|done|].
  rewrite E in Hfails. injection Hfails as <- <-. destruct Hcase as [(_ & Hpcm & k & Hk & Hcount)|(-> & _)]; [|done].
  fold first fpc in Hcount. split; [done|].
  assert (Hqueue : wv_queued_pcm_frames s1' = wv_queued_pcm_frames s).
  { unfold process_chunk in E. destruct (apta_process_samples _ _ _ _ _ _ _ _) as [[o st]| |]; [|done|done]. cbn [obind] in E.
    destruct (is_error st) eqn:Est; [by injection E as <- _|]. exfalso.
    destruct (apta_refresh_completed_columns _) as [o'| |]; [|done|done]. cbn [obind] in E. by injection E as _ <-. }
  assert (Hq1 : queue_ok s1') by (destruct Hq; constructor; rewrite ?Hpcm, ?Hqueue; done).
  destruct (chunk_counts retry s1' m1 i n again Hm1 Hn ltac:(by rewrite Hpcm) ltac:(lia) ltac:(unfold APTA_INTERNAL_PROCESS_CHUNK_FRAMES; lia))
    as (s2' & status2 & m2 & E2 & Hm2 & Hg2 & Hcase2).
  { intros d x Hx. specialize (Hcount d). rewrite Hx in Hcount. cbn [samples_of] in Hcount.
    assert (Ho : overlap fpc d first (first + k) <= k) by (unfold overlap; lia).
    destruct (column_of m d) as [y|] eqn:Ey; cbn [samples_of] in Hcount; [apply Hroom in Ey|]; lia. }
  { done. }
  rewrite E2 in Hsucceeds. injection Hsucceeds as -> ->.
  destruct Hcase2 as [([H1|H1] & _)|(_ & Hcount2 & Hpend2)]; [done|done|].
  exists k, m1, m2. split; [done|]. split; [apply (me_shape _ _ Hm1)|]. split; [apply (me_shape _ _ Hm2)|]. split; [done|].
  intros d. unfold load. rewrite (sg_frames _ _ Hg2), (sg_frames _ _ Hg1) in *. fold fpc in Hcount2, Hpend2 |- *.
  rewrite Hcount2, Hcount, Hpend2, Hpcm. fold first. lia.
Qed.

End Repeat.

(** ** A session whose table cannot grow once *)

Import LP64.

(** 1056 frames from frame 32 on were pushed and 768 of them measured; the table has 16
    columns of 64 frames, of which 13 are in use, and the next chunk reaches the 17th. *)
Definition measured_part : waveform :=
  match apta_internal_waveform_process_base (fun _ _ => true) (new_accumulator 0) None 0 1056 (one_node (silence 32 1056))
          {| wb_soft_time_budget_us := 0; wb_maximum_input_frames := 768; wb_maximum_steps := 0 |} with
  | Ret out => po_session out
  | _ => one_node (silence 32 1056)
  end.

Definition never (_ : nat) (_ : Z) : bool := false.

Definition half_measured : waveform :=
  match process_chunk never (new_accumulator 0) measured_part 0 (advance (silence 32 1056) 768) 256 with
  | Ret (s, _) => s | _ => measured_part
  end.

Definition measured_again : waveform :=
  match process_chunk (fun _ _ => true) (new_accumulator 0) half_measured 0 (advance (silence 32 1056) 768) 256 with
  | Ret (s, _) => s | _ => half_measured
  end.

Lemma measured_part_pipeline : exists m, pipeline measured_part m.
Proof.
  set (budget := {| wb_soft_time_budget_us := 0; wb_maximum_input_frames := 768; wb_maximum_steps := 0 |}).
  destruct (process_call_spec (fun _ _ => true) (new_accumulator 0) None 0 1056 (one_node (silence 32 1056)) [] budget
    (one_node_pipeline 32 1056 ltac:(lia) ltac:(lia)) fresh_publication_ok ltac:(vm_compute; congruence)
    ltac:(unfold is_u32; simpl; lia) ltac:(unfold is_u32; simpl; lia)) as (out & E & _ & Hcase).
  assert (Em : measured_part = po_session out) by (unfold measured_part; fold budget; by rewrite E).
  destruct Hcase as [[[[Hoom|Hoom] _] _]|[(o1 & m1 & m' & _ & _ & _ & Hp & _) _]]; [| |exists m'; by rewrite Em].
  - exfalso. assert (Es : option_map po_status (match apta_internal_waveform_process_base (fun _ _ => true) (new_accumulator 0) None 0 1056
      (one_node (silence 32 1056)) budget with Ret out => Some out | _ => None end) = Some APTA_STATUS_MORE_WORK) by (vm_compute; reflexivity).
    rewrite E in Es. simpl in Es. congruence.
  - exfalso. assert (Es : option_map po_status (match apta_internal_waveform_process_base (fun _ _ => true) (new_accumulator 0) None 0 1056
      (one_node (silence 32 1056)) budget with Ret out => Some out | _ => None end) = Some APTA_STATUS_MORE_WORK) by (vm_compute; reflexivity).
    rewrite E in Es. simpl in Es. congruence.
Qed.

(** Column 15 then has 128 samples. *)
Lemma out_of_memory_counts_twice_witness :
  exists k m m2, 0 <= k < 256 /\ table_shape (wv_overview measured_again) m2 /\
    option_map ac_sample_count (List.find (fun x => ac_column_index x =? 15) (ov_accumulators (wv_overview measured_again))) = Some 128 /\
    forall d, load measured_again m2 d = load measured_part m d + overlap 64 d 800 (800 + k).
Proof.
  destruct measured_part_pipeline as (m & Hp).
  assert (E1 : process_chunk never (new_accumulator 0) measured_part 0 (advance (silence 32 1056) 768) 256 =
    Ret (half_measured, APTA_ERROR_OUT_OF_MEMORY)) by (vm_compute; reflexivity).
  assert (E2 : process_chunk (fun _ _ => true) (new_accumulator 0) half_measured 0 (advance (silence 32 1056) 768) 256 =
    Ret (measured_again, APTA_STATUS_OK)) by (vm_compute; reflexivity).
  destruct (out_of_memory_counts_twice (new_accumulator 0) never (fun _ _ => true) measured_part half_measured measured_again m
    0 (advance (silence 32 1056) 768) 256 256 APTA_ERROR_OUT_OF_MEMORY Hp ltac:(vm_compute; reflexivity)
    ltac:(vm_compute; split; congruence) ltac:(vm_compute; split; congruence) E1 eq_refl E2)
    as (_ & k & m1 & m2 & Hk & _ & Hm2 & _ & Hload).
  exists k, m, m2. split; [exact Hk|]. split; [exact Hm2|]. split; [vm_compute; reflexivity|].
  intros d. exact (Hload d).
Defined.
