(* ===== verification/ProcessOrder.v ===== *)
(** * The order of measuring (waveform/apta_waveform_process_detail.c)

    Before the work loop the queue is sorted by the score of its nodes, a session in a
    static workspace reserves every column the queue will need, and the requests carry
    their aged priorities during the call.

    A session without the detail feature is modelled: its requests and its focus never
    name that feature, and the refresh of detail tiles has nothing to do. *)

From Stdlib Require Import Floats.SpecFloat.
From S2P Require Import Prelude Platform Samples Ranges AcceptPcm Scheduler Overview Publish Process.

Definition apta_process_ranges_overlap (first_a end_a first_b end_b : Z) : bool :=
  (first_a <? end_b) && (first_b <? end_a).

(** ** Scores *)

Definition no_request (priority : Z) : apta_internal_schedule_score_t :=
  {| ss_effective_priority := priority; ss_request_id := 0; ss_soft_deadline_monotonic_ns := 0;
     ss_enqueue_serial := UINT64_MAX |}.

(** The score of the focus, when the node meets it. *)
Definition focus_score (s : scheduler) (n : pcm_node) : apta_internal_schedule_score_t :=
  let '(focus_first, focus_end, priority) := overview_focus s in
  if (focus_first <? focus_end) && apta_process_ranges_overlap (node_first n) (node_end n) focus_first focus_end
  then no_request priority else no_request 0.

(** One request against the best score so far. *)
Definition score_against (n : pcm_node) (score : apta_internal_schedule_score_t) (r : apta_internal_request_t)
  : apta_internal_schedule_score_t :=
  let range := rr_range (ir_request r) in
  if negb (any (rr_feature_mask (ir_request r)) APTA_FEATURE_WAVEFORM_OVERVIEW) ||
     negb (apta_process_ranges_overlap (node_first n) (node_end n) (fr_first_frame range) (fr_end_frame range))
  then score
  else
    let candidate := apta_internal_scheduler_score_request r in
    if negb (ss_request_id candidate =? 0) && apta_internal_scheduler_score_better candidate score
    then candidate else score.

Definition apta_process_score_node (s : scheduler) (n : pcm_node) : apta_internal_schedule_score_t :=
  fold_left (score_against n) (sc_requests s) (focus_score s n).

Definition apta_process_node_better (s : scheduler) (candidate current : pcm_node) : bool :=
  apta_internal_scheduler_score_better (apta_process_score_node s candidate) (apta_process_score_node s current).

(** ** Sorting the queue *)

(** The node goes before the first sorted node it is better than, or to the end. *)
Fixpoint insert_node (s : scheduler) (node : pcm_node) (sorted : list pcm_node) : list pcm_node :=
  match sorted with
  | [] => [node]
  | position :: next =>
      if apta_process_node_better s node position then node :: sorted
      else position :: insert_node s node next
  end.

Definition sorted_queue (s : scheduler) (l : list pcm_node) : list pcm_node :=
  fold_left (fun sorted node => insert_node s node sorted) l [].

(** The sorted queue and the request that placed its head. *)
Definition apta_process_sort_pcm_queue (s : scheduler) (l : list pcm_node) : list pcm_node * Z :=
  let sorted := sorted_queue s l in
  (sorted, match sorted with
           | [] => 0
           | head :: _ => ss_request_id (apta_process_score_node s head)
           end).

(** ** Reserving columns *)

Definition apta_process_accumulator_exists (o : overview) (column_index : Z) : result bool :=
  let! low := lower_bound (ov_count o) (ov_accumulators o) column_index 0 (ov_count o) in
  if (low <? ov_count o)%nat
  then let! x := arr_get (ov_accumulators o) low in Ret (ac_column_index x =? column_index)
  else Ret false.

(** The columns of the frames of a node that wait; none when it is done. *)
Definition first_column (o : overview) (n : pcm_node) : Z := node_first n / ov_frames_per_column o.
Definition last_column (o : overview) (n : pcm_node) : Z := u64 (node_end n - 1) / ov_frames_per_column o.

Definition apta_process_column_seen_before_node (o : overview) (before : list pcm_node) (column_index : Z) : bool :=
  existsb (fun n =>
    negb (pn_frame_count n <=? pn_processed_frames n) &&
    (first_column o n <=? column_index) && (column_index <=? last_column o n)) before.

(** The columns from [column] on, [n] of them. *)
Fixpoint count_columns (o : overview) (before : list pcm_node) (column : Z) (n : nat) (additional : Z) : result Z :=
  match n with
  | O => Ret additional
  | S n =>
      let! exists_ := apta_process_accumulator_exists o (u32 column) in
      if exists_ || apta_process_column_seen_before_node o before (u32 column)
      then count_columns o before (column + 1) n additional
      else if additional =? UINT32_MAX then Err APTA_ERROR_LIMIT_EXCEEDED
      else count_columns o before (column + 1) n (u32 (additional + 1))
  end.

(** The nodes [l], after the nodes [before]. *)
Fixpoint count_additional (o : overview) (before l : list pcm_node) (additional : Z) : result Z :=
  match l with
  | [] => Ret additional
  | n :: l =>
      if (pn_frame_count n <=? pn_processed_frames n) || (node_end n <=? node_first n)
      then count_additional o (before ++ [n]) l additional
      else if UINT32_MAX <? last_column o n then Err APTA_ERROR_LIMIT_EXCEEDED
      else
        let! additional :=
          count_columns o before (first_column o n) (Z.to_nat (last_column o n - first_column o n + 1)) additional in
        count_additional o (before ++ [n]) l additional
  end.

Section Reserve.
Context `{Platform}.
Context (allocate : nat -> Z -> bool) (fresh : accumulator).

(** [uses_workspace] is [apta_internal_session_uses_workspace]. *)
Definition apta_process_workspace_reserve_accumulators (uses_workspace : bool) (o : overview) (l : list pcm_node)
  : result (overview * apta_status_t) :=
  if negb uses_workspace || match l with [] => true | _ => false end then Ret (o, APTA_STATUS_OK)
  else
    match count_additional o [] l 0 with
    | Ub => Ub
    | Err status => Ret (o, status)
    | Ret additional =>
        if additional =? 0 then Ret (o, APTA_STATUS_OK)
        else if UINT32_MAX - additional <? Z.of_nat (ov_count o) then Ret (o, APTA_ERROR_LIMIT_EXCEEDED)
        else apta_ensure_accumulator_capacity allocate fresh o (u32 (Z.of_nat (ov_count o) + additional))
    end.

(** ** The call *)

(** Requests and focus that want detail want the overview too, for this call. *)
Definition widen_mask (mask : Z) : Z :=
  if any mask APTA_FEATURE_WAVEFORM_DETAIL then Z.lor mask APTA_FEATURE_WAVEFORM_OVERVIEW else mask.

Definition set_mask_priority (r : apta_internal_request_t) (mask priority : Z) : apta_internal_request_t :=
  let q := ir_request r in
  {| ir_request_id := ir_request_id r;
     ir_request := {| rr_struct_size := rr_struct_size q; rr_api_version := rr_api_version q; rr_range := rr_range q;
                      rr_feature_mask := mask; rr_soft_deadline_monotonic_ns := rr_soft_deadline_monotonic_ns q;
                      rr_request_id := rr_request_id q; rr_priority := priority |};
     ir_state := ir_state r; ir_diagnostic_code := ir_diagnostic_code r;
     ir_scheduler_skip_count := ir_scheduler_skip_count r;
     ir_scheduler_enqueue_serial := ir_scheduler_enqueue_serial r |}.

Definition widen_request (r : apta_internal_request_t) : apta_internal_request_t :=
  set_mask_priority r (widen_mask (rr_feature_mask (ir_request r))) (rr_priority (ir_request r)).

Definition age_request (r : apta_internal_request_t) : apta_internal_request_t :=
  let score := apta_internal_scheduler_score_request r in
  if ss_request_id score =? 0 then r
  else set_mask_priority r (rr_feature_mask (ir_request r)) (u8 (ss_effective_priority score)).

Definition restore_request (saved r : apta_internal_request_t) : apta_internal_request_t :=
  set_mask_priority r (rr_feature_mask (ir_request saved)) (rr_priority (ir_request saved)).

Definition with_focus (s : scheduler) (focus : option apta_focus_t) : scheduler :=
  {| sc_requests := sc_requests s; sc_next_request_id := sc_next_request_id s;
     sc_next_scheduler_enqueue_serial := sc_next_scheduler_enqueue_serial s; sc_focus := focus;
     sc_total_frames := sc_total_frames s; sc_requested_features := sc_requested_features s;
     sc_capabilities := sc_capabilities s |}.

Definition widen_focus (f : apta_focus_t) : apta_focus_t :=
  {| fo_struct_size := fo_struct_size f; fo_api_version := fo_api_version f; fo_playhead_frame := fo_playhead_frame f;
     fo_lookbehind_frames := fo_lookbehind_frames f; fo_lookahead_frames := fo_lookahead_frames f;
     fo_feature_mask := widen_mask (fo_feature_mask f); fo_priority := fo_priority f |}.

Definition widen (s : scheduler) : scheduler :=
  with_focus (with_requests s (map widen_request (sc_requests s))) (option_map widen_focus (sc_focus s)).

(** Masks and priorities as they were before the call. *)
Definition restore (saved s : scheduler) : scheduler :=
  with_focus (with_requests s (zip_with restore_request (sc_requests saved) (sc_requests s))) (sc_focus saved).

Context (clock : option (nat -> Z)) (deadline : Z).

Definition apta_internal_waveform_process (fuel : nat) (uses_workspace : bool) (s : waveform)
    (budget : apta_work_budget_t) : result process_outcome :=
  let saved := wv_scheduler s in
  let s := set_scheduler s (widen saved) in
  let '(sorted, selected_request_id) := apta_process_sort_pcm_queue (wv_scheduler s) (wv_pcm s) in
  let s := set_pcm s sorted (wv_queued_pcm_frames s) in
  let! '(o, status) := apta_process_workspace_reserve_accumulators uses_workspace (wv_overview s) (wv_pcm s) in
  let s := set_overview s o in
  if is_error status
  then
    Ret {| po_session := set_scheduler s (restore saved (wv_scheduler s)); po_status := status;
           po_progress := {| pg_consumed := 0; pg_steps := 0; pg_did_work := false |}; po_published := false |}
  else
    let c := wv_scheduler s in
    let s := set_scheduler s (with_requests c (map age_request (sc_requests c))) in
    let! out := apta_internal_waveform_process_base allocate fresh clock deadline fuel s budget in
    let s := po_session out in
    let c := restore saved (wv_scheduler s) in
    let c := if negb (is_error (po_status out)) && pg_did_work (po_progress out)
             then apta_internal_scheduler_note_choice c selected_request_id else c in
    Ret {| po_session := set_scheduler s c; po_status := po_status out; po_progress := po_progress out;
           po_published := po_published out |}.

End Reserve.
