(* ===== verification/ProcessOrderTheorems.v ===== *)
(** * The order of measuring: what it guarantees

    The queue is permuted, best score first, nodes of equal score in the order they
    were pushed.  The call on the sorted queue keeps every law of the work loop, and
    hands the requests back with the masks and priorities they had. *)

From stdpp Require Import sorting.
From Stdlib Require Import Floats.SpecFloat Sorting.Sorted.
From S2P Require Import Prelude Platform Samples Ranges AcceptPcm SampleTheorems Scheduler SchedulerTheorems.
From S2P Require Import Overview OverviewTable OverviewMeasure Publish PublishTheorems Process ProcessTheorems ProcessCall ProcessOrder.

(** ** Sorting *)

(** [a] may stand before [b]; [a] and [b] rank the same. *)
Definition may_precede (s : scheduler) (a b : pcm_node) : Prop := apta_process_node_better s b a = false.

Definition same_rank (s : scheduler) (a b : pcm_node) : bool :=
  negb (apta_process_node_better s a b) && negb (apta_process_node_better s b a).

Definition node_key (s : scheduler) (n : pcm_node) : key := score_key (apta_process_score_node s n).

Lemma node_better_key s a b : apta_process_node_better s a b = true <-> klt (node_key s a) (node_key s b).
Proof. apply score_better_key. Qed.

Lemma node_better_false s a b : apta_process_node_better s a b = false <-> ~ klt (node_key s a) (node_key s b).
Proof. rewrite <- not_true_iff_false, node_better_key. done. Qed.

(** The order of nodes is a weak order. *)
Lemma may_precede_trans s a b c : may_precede s a b -> may_precede s b c -> may_precede s a c.
Proof. unfold may_precede. rewrite !node_better_false. apply klt_neg_trans. Qed.

Lemma better_precedes s a b : apta_process_node_better s a b = true -> may_precede s a b.
Proof.
  unfold may_precede. rewrite node_better_key, node_better_false. intros H1 H2.
  exact (klt_irrefl _ (klt_trans _ _ _ H1 H2)).
Qed.

Lemma same_rank_better s a b x : apta_process_node_better s a b = true -> same_rank s x a = true -> same_rank s x b = false.
Proof.
  unfold same_rank. rewrite !andb_true_iff, !negb_true_iff, node_better_key, !node_better_false. intros H1 [H2 H3].
  apply not_true_iff_false. rewrite andb_true_iff, !negb_true_iff, !node_better_false. unfold klt in *. lia.
Qed.

Lemma insert_node_permutation s n l : Permutation (n :: l) (insert_node s n l).
Proof.
  induction l as [|x l IH]; simpl; [done|]. destruct (apta_process_node_better s n x); [done|].
  rewrite <- IH. apply Permutation_swap.
Qed.

Lemma insert_node_sorted s n l : StronglySorted (may_precede s) l -> StronglySorted (may_precede s) (insert_node s n l).
Proof.
  induction 1 as [|x l Hl IH Hx]; simpl; [by repeat constructor|].
  destruct (apta_process_node_better s n x) eqn:E.
  - constructor; [by constructor|]. apply better_precedes in E. constructor; [done|].
    eapply Forall_impl; [exact Hx|]. intros y. by apply may_precede_trans.
  - constructor; [done|]. rewrite <- insert_node_permutation. by constructor.
Qed.

(** Among nodes of one rank the new one comes last. *)
Lemma insert_node_stable s n l x : StronglySorted (may_precede s) l ->
  List.filter (same_rank s x) (insert_node s n l) = List.filter (same_rank s x) (l ++ [n]).
Proof.
  induction 1 as [|y l Hl IH Hy]; simpl; [done|]. destruct (apta_process_node_better s n y) eqn:E; simpl; [|by rewrite IH].
  destruct (same_rank s x n) eqn:En; [|by rewrite List.filter_app; simpl; rewrite En, app_nil_r].
  rewrite (same_rank_better _ _ _ _ E En), List.filter_app. simpl. rewrite En.
  assert (Hnone : List.filter (same_rank s x) l = []).
  { clear IH. induction Hl as [|z l Hl IH Hz]; [done|]. apply Forall_cons in Hy as [Hyz Hy]. simpl.
    rewrite (same_rank_better s n z x); [by apply IH| |done]. unfold may_precede in Hyz.
    rewrite node_better_key in E |- *. rewrite node_better_false in Hyz. unfold klt in *. lia. }
  by rewrite Hnone.
Qed.

Lemma sorted_queue_facts s l :
  Permutation l (sorted_queue s l) /\ StronglySorted (may_precede s) (sorted_queue s l) /\
  forall x, List.filter (same_rank s x) (sorted_queue s l) = List.filter (same_rank s x) l.
Proof.
  unfold sorted_queue. induction l as [|n l IH] using rev_ind; [by repeat constructor|].
  rewrite fold_left_app. simpl. destruct IH as (IH1 & IH2 & IH3). set (k := fold_left _ l []) in *. split_and!.
  - rewrite <- insert_node_permutation. rewrite <- IH1. by rewrite Permutation_app_comm.
  - by apply insert_node_sorted.
  - intros x. rewrite insert_node_stable by done. by rewrite !List.filter_app, IH3.
Qed.

(** Sorting again changes nothing. *)
Lemma insert_node_last s n l : Forall (fun x => may_precede s x n) l -> insert_node s n l = l ++ [n].
Proof. induction 1 as [|x l Hx _ IH]; simpl; [done|]. unfold may_precede in Hx. by rewrite Hx, IH. Qed.

Lemma sorted_queue_sorted s l : sorted_queue s (sorted_queue s l) = sorted_queue s l.
Proof.
  pose proof (proj1 (proj2 (sorted_queue_facts s l))) as Hl. revert Hl. generalize (sorted_queue s l) as k. clear l.
  induction k as [|n k IH] using rev_ind; intros Hk; [done|]. unfold sorted_queue in *. rewrite fold_left_app. simpl.
  apply StronglySorted_app in Hk as (Hall & Hk & _). rewrite (IH Hk). apply insert_node_last.
  apply Forall_forall. intros x Hx. apply Hall; [done|by apply list_elem_of_singleton].
Qed.

(** A request that the node serves. *)
Definition serves (n : pcm_node) (r : apta_internal_request_t) : Prop :=
  apta_scheduler_request_is_active r = true /\
  any (rr_feature_mask (ir_request r)) APTA_FEATURE_WAVEFORM_OVERVIEW = true /\
  apta_process_ranges_overlap (node_first n) (node_end n)
    (fr_first_frame (rr_range (ir_request r))) (fr_end_frame (rr_range (ir_request r))) = true.

Lemma score_against_spec n score r :
  (score_against n score r = score \/ score_against n score r = apta_internal_scheduler_score_request r /\ serves n r) /\
  ~ klt (score_key score) (score_key (score_against n score r)) /\
  (serves n r -> ~ klt (score_key (apta_internal_scheduler_score_request r)) (score_key (score_against n score r))).
Proof.
  unfold score_against. destruct (negb _ || negb _) eqn:E.
  - split; [by left|]. split; [apply klt_irrefl|]. intros (_ & Hm & Ho). rewrite Hm, Ho in E. done.
  - apply orb_false_iff in E as [Em Eo]. apply negb_false_iff in Em, Eo.
    destruct (negb _ && _) eqn:Eb.
    + apply andb_true_iff in Eb as [Eid Eb]. rewrite score_better_key in Eb. split; [right|].
      * split; [done|]. split; [|done]. unfold apta_internal_scheduler_score_request in Eid.
        by destruct (apta_scheduler_request_is_active r).
      * split; [|intros _; apply klt_irrefl]. intros Hk. exact (klt_irrefl _ (klt_trans _ _ _ Eb Hk)).
    + split; [by left|]. split; [apply klt_irrefl|]. intros (Hact & _ & _). rewrite <- score_better_key.
      apply not_true_iff_false. apply andb_false_iff in Eb as [Eid|Eb]; [|done]. exfalso.
      unfold apta_internal_scheduler_score_request in Eid. rewrite Hact in Eid. simpl in Eid.
      apply negb_false_iff, Z.eqb_eq in Eid. unfold apta_scheduler_request_is_active in Hact. by rewrite Eid in Hact.
Qed.

(** The score of a node: the focus or a request it serves, none of them better. *)
Lemma score_node_spec s n :
  (apta_process_score_node s n = focus_score s n \/
   exists r, r ∈ sc_requests s /\ serves n r /\ apta_process_score_node s n = apta_internal_scheduler_score_request r) /\
  (forall r, r ∈ sc_requests s -> serves n r ->
     ~ klt (score_key (apta_internal_scheduler_score_request r)) (node_key s n)) /\
  ~ klt (score_key (focus_score s n)) (node_key s n).
Proof.
  unfold node_key, apta_process_score_node. induction (sc_requests s) as [|r l IH] using rev_ind.
  - split; [by left|]. split; [|apply klt_irrefl]. intros r Hr. by apply elem_of_nil in Hr.
  - rewrite fold_left_app. simpl. set (score := fold_left _ l _) in *. destruct IH as (IH1 & IH2 & IH3).
    destruct (score_against_spec n score r) as (S1 & S2 & S3). split_and!.
    + destruct S1 as [->|[-> Hs]]; [|right; exists r; split; [set_solver|done]].
      destruct IH1 as [->|(r' & H1 & H2)]; [by left|right; exists r'; split; [set_solver|done]].
    + intros r' [Hr|Hr%list_elem_of_singleton]%elem_of_app Hs; [|subst r'; by apply S3].
      specialize (IH2 r' Hr Hs). intros Hk. apply IH2. unfold klt in *. lia.
    + intros Hk. apply IH3. unfold klt in *. lia.
Qed.

(** ** What urgency means *)

(** The frames of a node that wait, of a request, and of the focus. *)
Definition waiting (n : pcm_node) (f : Z) : Prop :=
  pn_first_frame n + pn_processed_frames n <= f < pn_first_frame n + pn_frame_count n.
Definition in_request (r : apta_internal_request_t) (f : Z) : Prop :=
  fr_first_frame (rr_range (ir_request r)) <= f < fr_end_frame (rr_range (ir_request r)).
Definition in_focus (fo : apta_focus_t) (f : Z) : Prop :=
  fo_playhead_frame fo - fo_lookbehind_frames fo <= f < fo_playhead_frame fo + fo_lookahead_frames fo.

Definition meets (n : pcm_node) (P : Z -> Prop) : Prop := exists f, waiting n f /\ P f.

(** A node of frames with 64-bit numbers, some of them waiting; a focus as its C
    structure can hold it. *)
Record node_fits (n : pcm_node) : Prop := {
  nf_first : 0 <= pn_first_frame n /\ 0 <= pn_processed_frames n;
  nf_waiting : pn_processed_frames n < pn_frame_count n;
  nf_end : pn_first_frame n + pn_frame_count n <= UINT64_MAX
}.

Definition focus_fits (fo : apta_focus_t) : Prop :=
  is_u64 (fo_playhead_frame fo) /\ 0 <= fo_lookbehind_frames fo /\ 0 <= fo_lookahead_frames fo /\ is_u8 (fo_priority fo).

Definition plain_key (priority : Z) : key :=
  {| k_class := 0; k_priority := priority; k_no_deadline := 1; k_deadline := 0; k_serial := UINT64_MAX; k_id := 0 |}.

Definition aged_key (r : apta_internal_request_t) : key :=
  let deadline := rr_soft_deadline_monotonic_ns (ir_request r) in
  {| k_class := 0; k_priority := Z.min 255 (rr_priority (ir_request r) + 8 * ir_scheduler_skip_count r);
     k_no_deadline := if deadline =? 0 then 1 else 0; k_deadline := deadline;
     k_serial := ir_scheduler_enqueue_serial r; k_id := ir_request_id r |}.

(** A reason to measure a node: none, the focus, or a request that is not finished. *)
Inductive urgency (s : scheduler) (n : pcm_node) : key -> Prop :=
| urgency_none : urgency s n (plain_key 0)
| urgency_focus fo :
    sc_focus s = Some fo -> any (fo_feature_mask fo) APTA_FEATURE_WAVEFORM_OVERVIEW = true -> meets n (in_focus fo) ->
    urgency s n (plain_key (fo_priority fo))
| urgency_request r :
    r ∈ sc_requests s -> ir_request_id r <> 0 ->
    ir_state r <> APTA_REQUEST_CANCELLED -> ir_state r <> APTA_REQUEST_FAILED -> ir_state r <> APTA_REQUEST_SATISFIED ->
    any (rr_feature_mask (ir_request r)) APTA_FEATURE_WAVEFORM_OVERVIEW = true -> meets n (in_request r) ->
    urgency s n (aged_key r).

(** The best of them. *)
Definition most_urgent (s : scheduler) (n : pcm_node) (k : key) : Prop :=
  urgency s n k /\ forall k', urgency s n k' -> ~ klt k' k.

Lemma node_bounds n : node_fits n ->
  node_first n = pn_first_frame n + pn_processed_frames n /\ node_end n = pn_first_frame n + pn_frame_count n /\
  node_first n < node_end n <= UINT64_MAX /\ 0 <= node_first n.
Proof. intros [H1 H2 H3]. unfold node_first, node_end. rewrite !u64_small by (unfold is_u64; lia). lia. Qed.

Lemma overlap_meets n first end_frame : node_fits n -> first < end_frame ->
  apta_process_ranges_overlap (node_first n) (node_end n) first end_frame = true <->
  meets n (fun f => first <= f < end_frame).
Proof.
  intros Hn Hr. destruct (node_bounds n Hn) as (E1 & E2 & E3 & _). unfold apta_process_ranges_overlap, meets, waiting.
  rewrite <- E1, <- E2, andb_true_iff, !Z.ltb_lt. split; [|intros (f & H1 & H2); lia].
  intros [H1 H2]. exists (Z.max (node_first n) first). lia.
Qed.

Lemma active_iff r : apta_scheduler_request_is_active r = true <->
  ir_request_id r <> 0 /\ ir_state r <> APTA_REQUEST_CANCELLED /\ ir_state r <> APTA_REQUEST_FAILED /\
  ir_state r <> APTA_REQUEST_SATISFIED.
Proof.
  unfold apta_scheduler_request_is_active. rewrite !andb_true_iff, !negb_true_iff, Z.eqb_neq. unfold state_is.
  destruct (ir_state r); simpl; intuition congruence.
Qed.

Lemma serves_iff n r : node_fits n -> slot_ok r -> serves n r <->
  ir_request_id r <> 0 /\ ir_state r <> APTA_REQUEST_CANCELLED /\ ir_state r <> APTA_REQUEST_FAILED /\
  ir_state r <> APTA_REQUEST_SATISFIED /\ any (rr_feature_mask (ir_request r)) APTA_FEATURE_WAVEFORM_OVERVIEW = true /\
  meets n (in_request r).
Proof.
  intros Hn (_ & _ & _ & Hr). unfold serves. rewrite active_iff. split.
  - intros ((H1 & H2 & H3 & H4) & H5 & H6). rewrite overlap_meets in H6 by auto. split_and!; done.
  - intros (H1 & H2 & H3 & H4 & H5 & H6). rewrite overlap_meets by auto. split_and!; done.
Qed.

Lemma aged_key_score r : slot_ok r -> apta_scheduler_request_is_active r = true ->
  score_key (apta_internal_scheduler_score_request r) = aged_key r.
Proof. intros Hr Ha. by rewrite score_active. Qed.

(** The score of the focus is the key of a reason, and no worse than it. *)
Lemma focus_key_spec s n : node_fits n -> (forall fo, sc_focus s = Some fo -> focus_fits fo) ->
  urgency s n (score_key (focus_score s n)) /\
  ~ klt (plain_key 0) (score_key (focus_score s n)) /\
  (forall fo, sc_focus s = Some fo -> any (fo_feature_mask fo) APTA_FEATURE_WAVEFORM_OVERVIEW = true ->
     meets n (in_focus fo) -> score_key (focus_score s n) = plain_key (fo_priority fo)).
Proof.
  intros Hn Hf. destruct (node_bounds n Hn) as (E1 & E2 & E3 & E4). unfold focus_score, overview_focus.
  destruct (sc_focus s) as [fo|] eqn:Efo.
  2: { cbn [Z.ltb Z.compare andb]. split; [apply urgency_none|]. split; [apply klt_irrefl|done]. }
  destruct (Hf fo eq_refl) as (F1 & F2 & F3 & F4). unfold is_u64, is_u8 in F1, F4.
  destruct (any (fo_feature_mask fo) APTA_FEATURE_WAVEFORM_OVERVIEW) eqn:Em.
  2: { cbn [Z.ltb Z.compare andb]. split; [apply urgency_none|]. split; [apply klt_irrefl|]. intros fo' [= <-]. by rewrite Em. }
  set (first := (focus_window fo).1). set (last := (focus_window fo).2).
  assert (Hw : first = Z.max 0 (fo_playhead_frame fo - fo_lookbehind_frames fo) /\
               last = Z.min UINT64_MAX (fo_playhead_frame fo + fo_lookahead_frames fo)).
  { unfold first, last, focus_window. simpl. destruct (Z.ltb_spec (fo_lookbehind_frames fo) (fo_playhead_frame fo)),
      (Z.ltb_spec (UINT64_MAX - fo_playhead_frame fo) (fo_lookahead_frames fo)); lia. }
  assert (Hmeets : (first <? last) && apta_process_ranges_overlap (node_first n) (node_end n) first last = true <->
                   meets n (in_focus fo)).
  { rewrite andb_true_iff, Z.ltb_lt. split.
    - intros [H1 H2]. rewrite overlap_meets in H2 by done. destruct H2 as (f & H2 & H3). exists f. split; [done|].
      unfold in_focus. lia.
    - intros (f & H1 & H2). pose proof H1 as H3. unfold waiting in H3. unfold in_focus in H2. split; [lia|].
      rewrite overlap_meets by (done || lia). exists f. split; [done|lia]. }
  destruct (_ && _) eqn:E.
  - split; [by apply (urgency_focus s n fo); [| |apply Hmeets]|]. split; [unfold klt; simpl; lia|]. by intros fo' [= <-].
  - split; [apply urgency_none|]. split; [apply klt_irrefl|]. intros fo' [= <-] _ Hm. apply Hmeets in Hm. congruence.
Qed.

(** The score of a node is its best reason. *)
Lemma node_key_most_urgent s n : Forall slot_ok (sc_requests s) -> (forall fo, sc_focus s = Some fo -> focus_fits fo) ->
  node_fits n -> most_urgent s n (node_key s n).
Proof.
  intros Hslots Hf Hn. destruct (score_node_spec s n) as (S1 & S2 & S3).
  destruct (focus_key_spec s n Hn Hf) as (K1 & K2 & K3). rewrite Forall_forall in Hslots. split.
  - destruct S1 as [E|(r & Hr & Hs & E)]; unfold node_key; rewrite E; [done|].
    rewrite aged_key_score by (first [by apply Hslots|by apply Hs]). apply serves_iff in Hs as (A1 & A2 & A3 & A4 & A5 & A6); [|done|by apply Hslots].
    by apply urgency_request.
  - intros k' Hk'. destruct Hk' as [|fo F1 F2 F3|r R1 R2 R3 R4 R5 R6 R7].
    + intros Hk. unfold klt in *. lia.
    + by rewrite <- (K3 fo F1 F2 F3).
    + assert (Hs : serves n r) by (apply serves_iff; [done|by apply Hslots|by split_and!]).
      rewrite <- aged_key_score by (first [by apply Hslots|by apply Hs]). by apply S2.
Qed.

#[export] Instance key_eq_dec : EqDecision key.
Proof. solve_decision. Defined.

Lemma same_rank_key s a b : same_rank s a b = bool_decide (node_key s b = node_key s a).
Proof.
  unfold same_rank. apply eq_true_iff_eq. rewrite andb_true_iff, !negb_true_iff, !node_better_false, bool_decide_eq_true.
  split.
  - intros [H1 H2]. destruct (node_key s a), (node_key s b). unfold klt in *. simpl in *. f_equal; lia.
  - intros ->. split; apply klt_irrefl.
Qed.

(** C15. The queue is sorted before it is measured.  Every node has a key, the best of
    its reasons to be measured: none, the focus when its window has a frame of the node
    that waits, and every unfinished request for the overview that has one, with its
    priority aged by 8 for each decision it lost (at most 255), its deadline, its place
    in the order of arrival and its id.  The sorted queue holds the same nodes, none
    before a node of a better key, and nodes of one key in the order they were pushed;
    the request reported as chosen is the one in the key of the head, or 0 when the head
    has no better reason than the focus. *)
Theorem sort_pcm_queue_correct (s : scheduler) (l : list pcm_node)
    (Hslots : Forall slot_ok (sc_requests s)) (Hfocus : forall fo, sc_focus s = Some fo -> focus_fits fo)
    (Hnodes : Forall node_fits l) :
  let '(sorted, selected) := apta_process_sort_pcm_queue s l in
  exists keyof : pcm_node -> key,
    (forall n, n ∈ l -> most_urgent s n (keyof n)) /\
    Permutation l sorted /\
    StronglySorted (fun a b => ~ klt (keyof b) (keyof a)) sorted /\
    (forall k, List.filter (fun n => bool_decide (keyof n = k)) sorted = List.filter (fun n => bool_decide (keyof n = k)) l) /\
    selected = match sorted with [] => 0 | head :: _ => k_id (keyof head) end.
Proof.
  destruct (sorted_queue_facts s l) as (H1 & H2 & H3). unfold apta_process_sort_pcm_queue. exists (node_key s). split_and!; try done.
  - intros n Hn. rewrite Forall_forall in Hnodes. apply node_key_most_urgent; auto.
  - clear H1 H3. induction H2 as [|x k Hk IH Hx]; [by constructor|constructor; [exact IH|]].
    eapply Forall_impl; [exact Hx|]. intros y. unfold may_precede. by rewrite node_better_false.
  - intros k. destruct (List.filter (fun n => bool_decide (node_key s n = k)) l) as [|x rest] eqn:E.
    + assert (Hnone : Forall (fun n => bool_decide (node_key s n = k) = false) (sorted_queue s l)).
      { rewrite <- H1. apply Forall_forall. intros n Hn. apply not_true_iff_false. intros Hk.
        assert (Hin : In n (List.filter (fun n => bool_decide (node_key s n = k)) l)) by (apply filter_In; split; [by apply list_elem_of_In|done]).
        by rewrite E in Hin. }
      clear H1 H2 H3. induction Hnone as [|n q Hn _ IH]; [done|]. simpl. by rewrite Hn.
    + assert (Hx : node_key s x = k).
      { assert (Hin : In x (List.filter (fun n => bool_decide (node_key s n = k)) l)) by (rewrite E; by left).
        apply filter_In in Hin as [_ Hin]. by apply bool_decide_eq_true in Hin. }
      rewrite <- E. specialize (H3 x). rewrite <- Hx.
      rewrite (List.filter_ext _ (same_rank s x)) by (intros n; by rewrite same_rank_key).
      rewrite H3. apply List.filter_ext. intros n. by rewrite same_rank_key.
Qed.

(** Frames no request asked for, pushed before frames that a request asked for. *)
Definition waiting_queue : list pcm_node :=
  [{| pn_first_frame := 200; pn_frame_count := 10; pn_processed_frames := 0; pn_samples := [] |};
   {| pn_first_frame := 20; pn_frame_count := 10; pn_processed_frames := 0; pn_samples := [] |}].

Lemma sort_pcm_queue_correct_witness :
  apta_process_sort_pcm_queue sample_scheduler waiting_queue = (rev waiting_queue, 1) /\
  exists k, most_urgent sample_scheduler
    {| pn_first_frame := 20; pn_frame_count := 10; pn_processed_frames := 0; pn_samples := [] |} k /\ k_id k = 1.
Proof.
  assert (E : apta_process_sort_pcm_queue sample_scheduler waiting_queue = (rev waiting_queue, 1)) by (vm_compute; reflexivity).
  split; [exact E|].
  pose proof (sort_pcm_queue_correct sample_scheduler waiting_queue (sk_slots _ sample_scheduler_ok)) as Hs.
  rewrite E in Hs. destruct Hs as (keyof & Hk & _ & _ & _ & Hid).
  - intros fo Hfo. discriminate Hfo.
  - repeat constructor; simpl; lia.
  - eexists. split; [apply Hk; right; left|]. symmetry. exact Hid.
Defined.

(** ** Reserving *)

(** The first position not below [c] holds [c] exactly when [c] is in the table. *)
Lemma accumulator_exists_spec o m c : table_shape o m ->
  apta_process_accumulator_exists o c = Ret (bool_decide (is_Some (column_of m c))).
Proof.
  intros Hs. unfold apta_process_accumulator_exists. pose proof (ts_represents _ _ Hs) as [(rest & Ha) Hcount _].
  pose proof (ts_sorted _ _ Hs) as Hsort. rewrite Ha, Hcount.
  destruct (lower_bound_spec m rest c (length m) 0 (length m)) as (p & -> & Hp & Hlo & Hhi);
    [done|lia|lia|constructor|by rewrite drop_all|]. cbn [obind].
  assert (Hnone : forall l, Forall (below c) l -> column_of l c = None).
  { intros l Hl. apply column_of_none. eapply Forall_impl; [exact Hl|]. unfold below. intros. lia. }
  assert (Ecol : column_of m c = column_of (drop p m) c).
  { rewrite <- (take_drop p m) at 1. by rewrite column_of_app, Hnone. }
  rewrite Ecol. destruct (Nat.ltb_spec p (length m)) as [Hlt|Hge].
  - destruct (lookup_lt_is_Some_2 m p Hlt) as [x Hx]. unfold arr_get.
    rewrite lookup_app_l, list_lookup_fmap, Hx by (by rewrite length_map). cbn [option_map fmap option_fmap obind]. f_equal.
    rewrite (drop_S _ _ _ Hx). change (ac_column_index x.1) with (col x). unfold column_of at 1. simpl.
    destruct (Z.eqb_spec (col x) c) as [E|E]; [by rewrite bool_decide_eq_true_2 by done|].
    rewrite bool_decide_eq_false_2; [done|]. fold (column_of (drop (S p) m) c). rewrite column_of_none; [by intros [? ?]|].
    rewrite <- (take_drop p m), (drop_S _ _ _ Hx) in Hsort.
    apply columns_sorted_sides in Hsort as [_ Habove]. rewrite (drop_S _ _ _ Hx) in Hhi. apply Forall_cons in Hhi as [Hx' _].
    eapply Forall_impl; [exact Habove|]. unfold above, below in *. intros. lia.
  - by rewrite drop_ge by lia.
Qed.

Lemma count_columns_spec o m before column n additional : table_shape o m -> is_u32 additional ->
  wp (count_columns o before column n additional) is_u32 /\
  (forall e, count_columns o before column n additional = Err e -> e = APTA_ERROR_LIMIT_EXCEEDED).
Proof.
  intros Hs. revert column additional. induction n as [|n IH]; intros column additional Ha; cbn [count_columns]; [done|].
  rewrite (accumulator_exists_spec o m _ Hs). cbn [obind]. destruct (_ || _); [by apply IH|].
  destruct (additional =? UINT32_MAX); [split; [done|by intros e [= <-]]|]. apply IH. apply u32_range.
Qed.

Lemma count_additional_spec o m before l additional : table_shape o m -> is_u32 additional ->
  wp (count_additional o before l additional) is_u32 /\
  (forall e, count_additional o before l additional = Err e -> e = APTA_ERROR_LIMIT_EXCEEDED).
Proof.
  intros Hs. revert before additional. induction l as [|n l IH]; intros before additional Ha; cbn [count_additional]; [done|].
  destruct (_ || _); [by apply IH|]. destruct (_ <? _); [split; [done|by intros e [= <-]]|].
  destruct (count_columns_spec o m before (first_column o n) (Z.to_nat (last_column o n - first_column o n + 1)) additional Hs Ha)
    as [Hw He]. destruct (count_columns _ _ _ _ _) as [k|e|]; cbn [obind wp] in *; [by apply IH|split; [done|]|done].
  intros e' [= <-]. by apply He.
Qed.

Section Order.
Context `{PlatformLaws}.
Context (allocate : nat -> Z -> bool) (fresh : accumulator).
Context (clock : option (nat -> Z)) (deadline : Z).

Lemma measuring_setup o o' m : measuring o m -> table_shape o' m -> same_setup o o' -> measuring o' m.
Proof.
  intros [H1 H2 H3 H4] Hs [E1 E2 E3 E4 E5]. constructor; [done|by rewrite E1|by rewrite E2|done].
Qed.

Lemma reserve_spec uses_workspace o m l : measuring o m ->
  exists o' status, apta_process_workspace_reserve_accumulators allocate fresh uses_workspace o l = Ret (o', status) /\
    measuring o' m /\ same_geometry o o' /\ (status = APTA_STATUS_OK \/ out_of_memory status) /\
    (uses_workspace = false -> o' = o /\ status = APTA_STATUS_OK).
Proof.
  intros Hm. pose proof (me_shape _ _ Hm) as Hs. unfold apta_process_workspace_reserve_accumulators.
  assert (Hsame : forall status, status = APTA_STATUS_OK \/ out_of_memory status ->
    (uses_workspace = false -> status = APTA_STATUS_OK) ->
    exists o' st, Ret (E := apta_status_t) (o, status) = Ret (o', st) /\ measuring o' m /\ same_geometry o o' /\
      (st = APTA_STATUS_OK \/ out_of_memory st) /\ (uses_workspace = false -> o' = o /\ st = APTA_STATUS_OK)).
  { intros status Hst Hf. exists o, status. split; [done|]. split; [done|]. split; [apply same_geometry_refl|].
    split; [done|]. intros Hu. split; [done|by apply Hf]. }
  destruct (negb uses_workspace || _) eqn:E; [apply Hsame; by try left|].
  apply orb_false_iff in E as [Eu _]. apply negb_false_iff in Eu. subst uses_workspace.
  destruct (count_additional_spec o m [] l 0 Hs ltac:(unfold is_u32; lia)) as [Hw He].
  destruct (count_additional o [] l 0) as [additional|e|]; cbn [wp] in *; [|apply Hsame; [rewrite (He e) by done; right; by right|done]|done].
  destruct (Z.eqb_spec additional 0); [apply Hsame; by try left|].
  destruct (Z.ltb_spec (UINT32_MAX - additional) (Z.of_nat (ov_count o))); [apply Hsame; [right; by right|done]|].
  unfold is_u32 in Hw. rewrite u32_small by (unfold is_u32; lia).
  destruct (ensure_capacity_table allocate fresh o m (Z.of_nat (ov_count o) + additional) Hs ltac:(lia))
    as (o' & status & -> & Hs' & Hset & _ & Hst).
  exists o', status. split; [done|]. split; [by eapply measuring_setup|]. split; [by apply same_setup_geometry|].
  split; [|done]. destruct Hst as [|[-> _]]; [by right|by left].
Qed.

(** ** The call *)

Lemma sum_of_permutation {T} (f : T -> Z) l k : Permutation l k -> sum_of f l = sum_of f k.
Proof. induction 1; simpl; lia. Qed.

(** The laws of the work loop do not depend on the order of the queue, nor on the
    requests. *)
Lemma pipeline_ordered s m l o c : pipeline s m -> Permutation (wv_pcm s) l -> measuring o m ->
  same_geometry (wv_overview s) o ->
  let s' := set_scheduler (set_overview (set_pcm s l (wv_queued_pcm_frames s)) o) c in
  pipeline s' m /\ conserved s m s' m /\ queue_frames s' = queue_frames s.
Proof.
  intros Hp Hl Ho Hg s'. assert (Hc : conserved s m s' m).
  { intros d. unfold load, pending_in. simpl. rewrite (sg_frames _ _ Hg), (sum_of_permutation _ _ _ Hl). lia. }
  split; [|split; [done|unfold queue_frames; simpl; symmetry; by apply sum_of_permutation]].
  pose proof (pl_queue _ _ Hp) as [Q1 [Q2 Q3]]. constructor; simpl; [done| |rewrite (sg_final _ _ Hg); apply Hp| |].
  - constructor; simpl; [by rewrite <- Hl|]. rewrite <- (sum_of_permutation _ _ _ Hl). by split.
  - intros d Hd. rewrite (proj1 (Hc d)), (same_geometry_expected _ _ _ Hg). by apply Hp.
  - intros x Hx Hcx. rewrite (same_geometry_expected _ _ _ Hg). by apply Hp.
Qed.

(** The session the work loop of a call starts from. *)
Definition prepared (s : waveform) (o : overview) : waveform :=
  let c := widen (wv_scheduler s) in
  set_scheduler (set_overview (set_pcm s (sorted_queue c (wv_pcm s)) (wv_queued_pcm_frames s)) o)
    (with_requests c (map age_request (sc_requests c))).

(** A call whose reservation failed has only sorted the queue. *)
Definition call_refused (s : waveform) (m : list column) (out : process_outcome) : Prop :=
  out_of_memory (po_status out) /\ po_published out = false /\ pg_consumed (po_progress out) = 0 /\
  pipeline (po_session out) m /\ conserved s m (po_session out) m /\
  wv_publication (po_session out) = wv_publication s.

Lemma call_done_scheduler s m budget out c : call_done clock deadline s m budget out ->
  call_done clock deadline s m budget
    {| po_session := set_scheduler (po_session out) c; po_status := po_status out;
       po_progress := po_progress out; po_published := po_published out |}.
Proof.
  intros (o1 & m1 & m' & H1 & H2 & H3 & H4 & H5 & H6 & H7 & H8 & H9 & H10).
  exists o1, m1, m'. cbn [po_session po_progress po_published po_status].
  split; [done|]. split; [done|]. split; [done|]. split; [by apply pipeline_scheduler|].
  split_and!; done.
Qed.

Lemma call_interrupted_scheduler s out c : call_interrupted s out ->
  call_interrupted s {| po_session := set_scheduler (po_session out) c; po_status := po_status out;
                        po_progress := po_progress out; po_published := po_published out |}.
Proof. intros (H1 & H2 & [H3 H4] & H5 & H6). by split_and!. Qed.

(** What holds for the prepared session holds for the one the host sees. *)
Lemma call_done_prepared s m o budget out : measuring o m -> same_geometry (wv_overview s) o -> pipeline s m ->
  call_done clock deadline (prepared s o) m budget out -> call_done clock deadline s m budget out.
Proof.
  intros Ho Hg Hp (o1 & m1 & m' & H1 & H2 & H3 & H4 & H5 & H6 & H7 & H8 & H9 & H10).
  destruct (sorted_queue_facts (widen (wv_scheduler s)) (wv_pcm s)) as [Hperm _].
  destruct (pipeline_ordered s m _ o (wv_scheduler (prepared s o)) Hp Hperm Ho Hg) as (_ & Hc & Hq).
  exists o1, m1, m'. split; [done|]. split; [by eapply same_geometry_trans|]. split; [done|]. split; [done|].
  split; [by eapply conserved_trans|]. split; [by eapply same_geometry_trans|]. split; [done|].
  split; [|split; [done|exact H10]]. rewrite <- Hq. exact H8.
Qed.

Lemma process_spec fuel uses_workspace s m budget : pipeline s m -> publication_ok (wv_publication s) ->
  queue_frames s <= Z.of_nat fuel ->
  is_u32 (wb_maximum_input_frames budget) -> is_u32 (wb_maximum_steps budget) ->
  exists out,
    apta_internal_waveform_process allocate fresh clock deadline fuel uses_workspace s budget = Ret out /\
    call_within budget out /\
    (call_refused s m out /\ uses_workspace = true \/
     (exists o, measuring o m /\ same_geometry (wv_overview s) o /\ (uses_workspace = false -> o = wv_overview s) /\
        (call_interrupted s out /\ ~ measures allocate fresh clock deadline fuel (prepared s o) budget \/
         call_done clock deadline s m budget out /\ measures allocate fresh clock deadline fuel (prepared s o) budget))).
Proof.
  intros Hp Hpub Hfuel Hframes Hsteps. unfold apta_internal_waveform_process, apta_process_sort_pcm_queue. cbv zeta.
  cbn [set_scheduler set_pcm wv_scheduler wv_pcm wv_overview wv_queued_pcm_frames].
  set (c := widen (wv_scheduler s)). set (l := sorted_queue c (wv_pcm s)).
  destruct (sorted_queue_facts c (wv_pcm s)) as [Hperm _]. fold l in Hperm.
  destruct (reserve_spec uses_workspace (wv_overview s) m l (pl_measuring _ _ Hp)) as (o & status & -> & Ho & Hg & Hst & Hheap).
  cbn [obind]. destruct Hst as [->|Hst].
  - cbn [is_error status_code Z.ltb Z.compare].
    destruct (pipeline_ordered s m l o (wv_scheduler (prepared s o)) Hp Hperm Ho Hg) as (Hp' & _ & Hq).
    destruct (process_call_spec allocate fresh clock deadline fuel (prepared s o) m budget Hp' Hpub
      ltac:(rewrite <- Hq in Hfuel; exact Hfuel) Hframes Hsteps) as (out & E & Hw & Hcase).
    match goal with |- context [apta_internal_waveform_process_base _ _ _ _ _ ?x _] => change x with (prepared s o) end.
    rewrite E. cbn [obind]. eexists. split; [reflexivity|]. split; [exact Hw|]. right. exists o.
    split; [done|]. split; [done|]. split; [by intros Hu; apply Hheap|].
    destruct Hcase as [[Hi Hn]|[Hd Hy]]; [left|right]; (split; [|done]).
    + by apply (call_interrupted_scheduler s out).
    + apply call_done_scheduler. by eapply call_done_prepared.
  - rewrite (out_of_memory_error _ Hst). eexists. split; [reflexivity|].
    assert (Hlim : forall n, is_u32 n -> 0 <= budget_limit n) by (unfold is_u32, budget_limit; intros n Hn; destruct (n =? 0); lia).
    specialize (Hlim _ Hframes) as HF. specialize (Hlim _ Hsteps) as HS. split; [split; simpl; lia|]. left.
    destruct (pipeline_ordered s m l o (restore (wv_scheduler s) c) Hp Hperm Ho Hg) as (Hp' & Hc & _).
    split; [by split_and!|]. destruct uses_workspace; [done|]. destruct (Hheap eq_refl) as [_ ->]. by destruct Hst.
Qed.

End Order.
