(* ===== verification/ProcessRetry.v ===== *)
(** * A publication that failed is made up for

    Out of memory, a publication leaves the results alone and unmarks every column; the
    next call that does not fail completes them again and publishes. *)

From stdpp Require Import gmap.
From Stdlib Require Import Floats.SpecFloat.
From S2P Require Import Prelude Platform FloatFacts Samples Ranges AcceptPcm SampleTheorems.
From S2P Require Import Wovr Scheduler Overview OverviewTable OverviewMeasure Snapshot SnapshotFill Publish PublishTheorems.
From S2P Require Import Process ProcessTheorems ProcessCall ProcessOrder ProcessOrderTheorems.

(** Column [d] holds all the frames it expects. *)
Definition full (o : overview) (m : list column) (d : Z) : Prop :=
  is_u32 d /\ apta_expected_column_frames o d <> 0 /\ samples_of (column_of m d) = apta_expected_column_frames o d.

Definition shown_complete (m : list column) (d : Z) : Prop :=
  exists x, column_of m d = Some x /\ ac_complete x.1 = true.

Lemma complete_full s m x : pipeline s m -> x ∈ m -> ac_complete x.1 = true -> full (wv_overview s) m (col x).
Proof.
  intros Hp Hx Hc. pose proof (pl_measuring _ _ Hp) as Hm. pose proof (pl_complete _ _ Hp x Hx Hc) as He.
  pose proof (ts_columns _ _ (me_shape _ _ Hm)) as Hu. rewrite Forall_forall in Hu.
  pose proof (me_columns _ _ Hm) as Hok. rewrite Forall_forall in Hok. destruct (Hok x Hx) as [_ (_ & _ & _ & Hpos)].
  specialize (Hpos Hc). split; [by apply Hu|]. split; [lia|].
  by rewrite (column_of_member m x (ts_sorted _ _ (me_shape _ _ Hm)) Hx).
Qed.

Lemma some_complete m : number_complete m <> 0%nat -> exists x, x ∈ m /\ ac_complete x.1 = true.
Proof.
  rewrite <- length_complete. intros H. destruct (complete_columns m) as [|x l] eqn:E; [done|]. exists x.
  assert (Hx : x ∈ complete_columns m) by (rewrite E; apply elem_of_cons; by left).
  unfold complete_columns in Hx. apply list_elem_of_In, filter_In in Hx as [Hx Hc]. split; [by apply list_elem_of_In|done].
Qed.

Lemma shown_number m d : shown_complete m d -> number_complete m <> 0%nat.
Proof.
  intros (x & Hx & Hc). apply column_of_elem in Hx as [Hx _]. rewrite <- length_complete.
  assert (Hin : x ∈ complete_columns m) by (unfold complete_columns; apply list_elem_of_In, filter_In; by rewrite <- list_elem_of_In).
  destruct (complete_columns m); [by apply elem_of_nil in Hin|done].
Qed.

Lemma samples_unmarked m m' d : m' = m \/ m' = map unmarked m -> samples_of (column_of m' d) = samples_of (column_of m d).
Proof. intros [->| ->]; [done|]. rewrite column_of_unmarked. by destruct (column_of m d). Qed.

Section Retry.
Context `{PlatformLaws}.

(** A call completes the columns that were full before it. *)
Lemma full_completes s m o1 m1 s' m' d : pipeline s' m' -> conserved s m s' m' ->
  same_geometry (wv_overview s) (wv_overview s') -> same_geometry (wv_overview s) o1 -> flags_exact o1 m1 ->
  m' = m1 \/ m' = map unmarked m1 -> full (wv_overview s) m d -> shown_complete m1 d.
Proof.
  intros Hp Hc Hg Hg1 Hex Hm (Hd & Hne & Hf). destruct (Hc d) as [_ Hgrow]. pose proof (pl_load _ _ Hp d Hd) as Hl.
  rewrite (same_geometry_expected _ _ _ Hg) in Hl. unfold load in Hl. rewrite (samples_unmarked _ _ _ Hm) in Hl, Hgrow.
  pose proof (pending_in_nonneg (ov_frames_per_column (wv_overview s')) d (wv_pcm s')) as Hpend.
  assert (He : samples_of (column_of m1 d) = apta_expected_column_frames (wv_overview s) d) by lia.
  destruct (column_of m1 d) as [x|] eqn:Ex; [|simpl in He; congruence]. exists x. split; [exact Ex|].
  apply column_of_elem in Ex as [Hx Hcol]. destruct (Hex x Hx) as [_ Hflag]. cbn [samples_of] in He.
  rewrite Hcol, (same_geometry_expected _ _ _ Hg1) in Hflag. by apply Hflag.
Qed.

(** C17. Work is not lost when its publication runs out of memory.  The results of the
    session are then as before; and the next call that reports no error publishes a new
    result -- even with nothing queued -- in which every column that held all its
    frames is complete, the ones the failed publication was about included. *)
Theorem failed_publication_retried (allocate1 allocate2 : nat -> Z -> bool) (fresh : accumulator)
    (clock1 clock2 : option (nat -> Z)) (deadline1 deadline2 : Z) (fuel1 fuel2 : nat)
    (s : waveform) (m : list column) (budget1 budget2 : apta_work_budget_t) (out1 out2 : process_outcome)
    (Hpipeline : pipeline s m) (Hpublication : publication_ok (wv_publication s))
    (Hfuel1 : queue_frames s <= Z.of_nat fuel1)
    (Hframes1 : is_u32 (wb_maximum_input_frames budget1)) (Hsteps1 : is_u32 (wb_maximum_steps budget1))
    (Hmeasures1 : measures allocate1 fresh clock1 deadline1 fuel1 (prepared s (wv_overview s)) budget1)
    (Hcall1 : apta_internal_waveform_process allocate1 fresh clock1 deadline1 fuel1 false s budget1 = Ret out1)
    (Hfailed : po_status out1 = APTA_ERROR_OUT_OF_MEMORY)
    (Hfuel2 : queue_frames (po_session out1) <= Z.of_nat fuel2)
    (Hframes2 : is_u32 (wb_maximum_input_frames budget2)) (Hsteps2 : is_u32 (wb_maximum_steps budget2))
    (Hmeasures2 : measures allocate2 fresh clock2 deadline2 fuel2
                    (prepared (po_session out1) (wv_overview (po_session out1))) budget2)
    (Hcall2 : apta_internal_waveform_process allocate2 fresh clock2 deadline2 fuel2 false (po_session out1) budget2 = Ret out2)
    (Hgood : is_error (po_status out2) = false) :
  wv_publication (po_session out1) = wv_publication s /\
  po_published out2 = true /\
  exists m1 o2 m2,
    table_shape (wv_overview (po_session out1)) m1 /\ (exists d, full (wv_overview (po_session out1)) m1 d) /\
    publishes (wv_publication s) (wv_publication (po_session out2))
      (published_result o2 (wv_publication s) m2 APTA_FEATURE_WAVEFORM_OVERVIEW) /\
    (forall d, full (wv_overview (po_session out1)) m1 d -> shown_complete m2 d).
Proof.
  destruct (process_spec allocate1 fresh clock1 deadline1 fuel1 false s m budget1 Hpipeline Hpublication Hfuel1 Hframes1 Hsteps1)
    as (out & E & _ & [[_ Hu]|(o & _ & _ & Ho & [[_ Hno]|[Hd _]])]); [done|by rewrite (Ho eq_refl) in Hno|].
  rewrite E in Hcall1. injection Hcall1 as ->. clear E Ho o.
  destruct Hd as (o1 & m1 & m1' & D1 & D2 & D3 & D4 & D5 & D6 & D7 & _ & _ & D10). unfold call_published in D10.
  destruct (number_complete m1 =? number_complete m)%nat eqn:En.
  { destruct D10 as (_ & _ & _ & Est). rewrite Est in Hfailed. unfold work_status in Hfailed.
    destruct (_ =? 0) in Hfailed; [done|]. by destruct (wv_pcm _) in Hfailed. }
  destruct (po_published out1).
  { destruct D10 as (_ & _ & Est). rewrite Est in Hfailed. unfold work_status in Hfailed.
    destruct (_ =? 0) in Hfailed; [done|]. by destruct (wv_pcm _) in Hfailed. }
  destruct D10 as (Hafter & [[_ ->]|[Est _]]); [|congruence]. apply Nat.eqb_neq in En.
  assert (Hsome : exists d, full (wv_overview (po_session out1)) (map unmarked m1) d).
  { assert (Hn1 : number_complete m1 <> 0%nat).
    { intros Hz. destruct (some_complete m ltac:(lia)) as (x & Hx & Hc).
      apply (shown_number m1 (col x)); [|done].
      apply (full_completes s m o1 m1 (po_session out1) (map unmarked m1)); try done; [by right|by apply complete_full]. }
    destruct (some_complete m1 Hn1) as (x & Hx & Hc). exists (col x). pose proof (ts_columns _ _ (me_shape _ _ D1)) as Hu.
    rewrite Forall_forall in Hu. destruct (D3 x Hx) as [He _]. specialize (He Hc).
    pose proof (me_columns _ _ D1) as Hok. rewrite Forall_forall in Hok. destruct (Hok x Hx) as [_ (_ & _ & _ & Hpos)]. specialize (Hpos Hc).
    unfold full. rewrite (same_geometry_expected _ _ _ D6), <- (same_geometry_expected _ _ _ D2).
    rewrite (samples_unmarked m1) by (by right). rewrite (column_of_member m1 x (ts_sorted _ _ (me_shape _ _ D1)) Hx).
    split; [by apply Hu|]. split; [lia|exact He]. }
  destruct (process_spec allocate2 fresh clock2 deadline2 fuel2 false (po_session out1) _ budget2 D4 D7 Hfuel2 Hframes2 Hsteps2)
    as (out & E & _ & [[_ Hu]|(o & _ & _ & Ho & [[_ Hno]|[Hd _]])]); [done|by rewrite (Ho eq_refl) in Hno|].
  rewrite E in Hcall2. injection Hcall2 as ->. clear E Ho o.
  destruct Hd as (o2 & m2 & m2' & F1 & F2 & F3 & F4 & F5 & F6 & F7 & _ & _ & F10). unfold call_published in F10.
  assert (Hm2 : m2' = m2 \/ m2' = map unmarked m2).
  { destruct (_ =? _)%nat in F10; [left; apply F10|]. destruct (po_published out2); [left; apply F10|].
    destruct F10 as [_ [[_ ->]|[_ ->]]]; [by right|by left]. }
  assert (Hshown : forall d, full (wv_overview (po_session out1)) (map unmarked m1) d -> shown_complete m2 d).
  { intros d Hd. by apply (full_completes (po_session out1) (map unmarked m1) o2 m2 (po_session out2) m2'). }
  destruct Hsome as [d0 Hd0]. pose proof (shown_number _ _ (Hshown d0 Hd0)) as Hn2. rewrite number_unmarked in F10.
  destruct (Nat.eqb_spec (number_complete m2) 0); [done|]. rewrite Hafter in F10.
  destruct (po_published out2); [|destruct F10 as [_ [[Est _]|[Est _]]]; rewrite Est in Hgood; done].
  split; [done|]. split; [done|]. exists (map unmarked m1), o2, m2. split; [apply (me_shape _ _ (pl_measuring _ _ D4))|].
  split; [by exists d0|]. split; [apply F10|exact Hshown].
Qed.

End Retry.

Import LP64.

(** One column of silence; the request of the first call for a result fails. *)
Definition silent_column : waveform := one_node (silence 0 64).

Definition result_refused (k : nat) (_ : Z) : bool := negb (k =? 1)%nat.

Definition publish_call (allocate : nat -> Z -> bool) (s : waveform) : result process_outcome :=
  apta_internal_waveform_process allocate (new_accumulator 0) None 0 64 false s no_budget.

Definition outcome (r : result process_outcome) : process_outcome :=
  match r with
  | Ret out => out
  | _ => {| po_session := silent_column; po_status := APTA_ERROR_INTERNAL;
            po_progress := {| pg_consumed := 0; pg_steps := 0; pg_did_work := false |}; po_published := false |}
  end.

Definition failed_call : process_outcome := outcome (publish_call result_refused silent_column).
Definition second_call : process_outcome := outcome (publish_call (fun _ _ => true) (po_session failed_call)).

Lemma measures_silence allocate s : (match measure_queue allocate (new_accumulator 0) None 0 64 s no_budget with
    Ret (_, status, _) => is_error status | _ => true end = false) ->
  measures allocate (new_accumulator 0) None 0 64 s no_budget.
Proof. intros E s' status p Hm. by rewrite Hm in E. Qed.

Lemma failed_publication_retried_witness :
  po_status failed_call = APTA_ERROR_OUT_OF_MEMORY /\ wv_pcm (po_session failed_call) = [] /\
  po_published second_call = true /\ pu_generation (wv_publication (po_session second_call)) = 2.
Proof.
  split; [vm_compute; reflexivity|]. split; [vm_compute; reflexivity|].
  destruct (failed_publication_retried result_refused (fun _ _ => true) (new_accumulator 0) None None 0 0 64 64
    silent_column [] no_budget no_budget failed_call second_call
    (one_node_pipeline 0 64 ltac:(lia) ltac:(lia)) fresh_publication_ok ltac:(vm_compute; congruence)
    ltac:(unfold is_u32; simpl; lia) ltac:(unfold is_u32; simpl; lia) ltac:(apply measures_silence; vm_compute; reflexivity)
    ltac:(vm_compute; reflexivity) ltac:(vm_compute; reflexivity) ltac:(vm_compute; congruence)
    ltac:(unfold is_u32; simpl; lia) ltac:(unfold is_u32; simpl; lia) ltac:(apply measures_silence; vm_compute; reflexivity)
    ltac:(vm_compute; reflexivity) ltac:(vm_compute; reflexivity)) as (_ & Hpub & _).
  split; [exact Hpub|]. vm_compute. reflexivity.
Defined.
