(* ===== verification/Session.v ===== *)
(** * Sessions (core/apta_session_lifecycle.c, core/apta_session_source.c)

    A session moves from created to active with the first push, to draining when the
    host signals the end of the input, to completed when the queue is empty; it can be
    cancelled before.  Every transition publishes, and is undone when it cannot.

    Sessions on the heap are modelled, in push mode, with the features of the overview
    (overview, three bands, confidence): the layers of the other features then hand
    every call through, and analysis is never pending. *)

From stdpp Require Import gmap.
From Stdlib Require Import Floats.SpecFloat.
From S2P Require Import Prelude Platform Memory Samples Ranges AcceptPcm Scheduler Overview Publish Process ProcessOrder.

(** The configuration, the state and the results are in the publication of
    [se_waveform]; [sc_total_frames] of its scheduler is the total of the configuration. *)
Record session : Type := {
  se_waveform : waveform;
  se_coverage : coverage;
  se_cancel_requested : bool;
  se_process_lock : bool
}.

Definition se_publication (s : session) : publication := wv_publication (se_waveform s).
Definition se_overview (s : session) : overview := wv_overview (se_waveform s).
Definition se_config (s : session) : apta_session_config_t := pu_config (se_publication s).
Definition se_state (s : session) : apta_session_state_t := pu_state (se_publication s).

Definition with_waveform (s : session) (w : waveform) : session :=
  {| se_waveform := w; se_coverage := se_coverage s; se_cancel_requested := se_cancel_requested s;
     se_process_lock := se_process_lock s |}.

Definition wants (s : session) (feature : Z) : bool := any (cfg_requested_features (se_config s)) feature.

(** ** Configurations *)

Definition apta_session_sample_format_is_valid (format : Z) : bool :=
  (format =? APTA_SAMPLE_S16_NATIVE_INTERLEAVED) || (format =? APTA_SAMPLE_S24_3LE_INTERLEAVED) ||
  (format =? APTA_SAMPLE_S32_NATIVE_INTERLEAVED) || (format =? APTA_SAMPLE_F32_NATIVE_INTERLEAVED) ||
  (format =? APTA_SAMPLE_F32_NATIVE_PLANAR).

Definition apta_internal_overview_resolution_is_valid (config : apta_session_config_t) : bool :=
  if cfg_overview_frames_per_column config =? 0 then true
  else
    (64 <=? cfg_overview_frames_per_column config) && (cfg_overview_frames_per_column config <=? 65536) &&
    apta_internal_is_power_of_two (cfg_overview_frames_per_column config).

Definition apta_session_config_is_valid (capabilities : Z) (config : apta_session_config_t) : bool :=
  if negb (cfg_input_mode config =? APTA_INPUT_MODE_PUSH) && negb (cfg_input_mode config =? APTA_INPUT_MODE_PULL)
  then false
  else if negb (Z.land (cfg_flags config)
                  (not32 (Z.lor APTA_SESSION_FLAG_BOUNDED_RESULT_SLOTS
                            APTA_SESSION_FLAG_REQUIRE_SOURCE_IDENTITY_FOR_SEEDING)) =? 0) ||
          negb (apta_internal_source_identity_is_valid (Some config))
  then false
  else if (cfg_source_sample_rate config =? 0) || (cfg_channel_count config =? 0) ||
          (8 <? cfg_channel_count config) ||
          negb (apta_session_sample_format_is_valid (cfg_sample_format config))
  then false
  else if (cfg_channel_layout config =? APTA_CHANNEL_LAYOUT_MONO) && negb (cfg_channel_count config =? 1) then false
  else if (cfg_channel_layout config =? APTA_CHANNEL_LAYOUT_STEREO) && negb (cfg_channel_count config =? 2) then false
  else if any (cfg_requested_features config) (not64 capabilities) then false
  else if negb (apta_internal_overview_resolution_is_valid config) then false
  else if any (cfg_requested_features config) APTA_FEATURE_WAVEFORM_OVERVIEW && (2 <? cfg_channel_count config) then false
  else true.

(** ** States *)

Definition apta_session_transition_is_allowed (old_state new_state : apta_session_state_t) : bool :=
  if bool_decide (old_state = new_state) then true
  else
    match old_state, new_state with
    | APTA_SESSION_CREATED, (APTA_SESSION_ACTIVE | APTA_SESSION_CANCELLED | APTA_SESSION_FAILED) => true
    | APTA_SESSION_ACTIVE, (APTA_SESSION_DRAINING | APTA_SESSION_CANCELLED | APTA_SESSION_FAILED) => true
    | APTA_SESSION_DRAINING, (APTA_SESSION_COMPLETED | APTA_SESSION_CANCELLED | APTA_SESSION_FAILED) => true
    | _, _ => false
    end.

Section Session.
Context `{Platform}.

(** The answers of the allocator during a call, and uninitialised memory. *)
Context (allocate : nat -> Z -> bool) (fresh : accumulator) (fresh_range : range).

Definition publish (s : session) (changed_features : Z) : result (session * apta_status_t) :=
  let! '(o, p, status) :=
    apta_internal_publish_result allocate (se_overview s) (se_publication s) changed_features in
  Ret (with_waveform s (set_publication (se_waveform s) o p), status).

Definition with_state (s : session) (state : apta_session_state_t) : session :=
  with_waveform s (set_publication (se_waveform s) (se_overview s) (set_session_state (se_publication s) state)).

Definition apta_internal_session_transition (s : session) (new_state : apta_session_state_t)
  : result (session * apta_status_t) :=
  let old_state := se_state s in
  if negb (apta_session_transition_is_allowed old_state new_state) then Ret (s, APTA_ERROR_INVALID_STATE)
  else if bool_decide (old_state = new_state) then Ret (s, APTA_STATUS_OK)
  else
    let! '(s, status) := publish (with_state s new_state) 0 in
    Ret (if is_error status then with_state s old_state else s, status).

(** ** Creation and destruction *)

Definition initial_overview (expf : spec_float -> spec_float) (config : apta_session_config_t) : overview :=
  {| ov_accumulators := []; ov_count := 0; ov_capacity := 0; ov_complete_count := 0; ov_band_sums := None;
     ov_filter := apta_internal_band_filter_init expf (cfg_source_sample_rate config);
     ov_frames_per_column :=
       if negb (cfg_overview_frames_per_column config =? 0) then cfg_overview_frames_per_column config
       else APTA_INTERNAL_OVERVIEW_FRAMES_PER_COLUMN;
     ov_requested_features := cfg_requested_features config;
     ov_end_of_input_signalled := false; ov_final_end_frame := APTA_TOTAL_FRAMES_UNKNOWN; ov_allocations := 1 |}.

Definition initial_scheduler (capabilities : Z) (config : apta_session_config_t) : scheduler :=
  {| sc_requests := replicate 16 zero_request; sc_next_request_id := 1; sc_next_scheduler_enqueue_serial := 0;
     sc_focus := None; sc_total_frames := cfg_total_frames config;
     sc_requested_features := cfg_requested_features config; sc_capabilities := capabilities |}.

(** The session before its first publication; no result of it is live. *)
Definition initial_session (expf : spec_float -> spec_float) (context : apta_context_t)
    (config : apta_session_config_t) : session :=
  {| se_waveform :=
       {| wv_overview := initial_overview expf config; wv_pcm := []; wv_queued_pcm_frames := 0;
          wv_scheduler := initial_scheduler (ctx_capabilities context) config;
          wv_publication :=
            {| pu_config := config; pu_state := APTA_SESSION_CREATED; pu_generation := 0;
               pu_current_result := None; pu_results := ∅; pu_result_count := ctx_result_count context |} |};
     se_coverage := {| cov_ranges := []; cov_count := 0; cov_greatest_accepted_end := 0; cov_maximum_accepted_end := 0 |};
     se_cancel_requested := false; se_process_lock := false |}.

Definition session_opened (c : apta_context_t) (result_count : Z) : apta_context_t :=
  {| ctx_capabilities := ctx_capabilities c; ctx_memory_limit_bytes := ctx_memory_limit_bytes c;
     ctx_flags := ctx_flags c; ctx_allocated_bytes := ctx_allocated_bytes c;
     ctx_session_count := u32 (ctx_session_count c + 1); ctx_result_count := result_count;
     ctx_lineage_counter := ctx_lineage_counter c |}.

Definition lineage_taken (c : apta_context_t) : apta_context_t :=
  {| ctx_capabilities := ctx_capabilities c; ctx_memory_limit_bytes := ctx_memory_limit_bytes c;
     ctx_flags := ctx_flags c; ctx_allocated_bytes := ctx_allocated_bytes c;
     ctx_session_count := ctx_session_count c; ctx_result_count := ctx_result_count c;
     ctx_lineage_counter := u64 (ctx_lineage_counter c + 1) |}.

(** The context, and the session or the status that refuses it. *)
Definition apta_session_create_base (expf : spec_float -> spec_float) (context : apta_context_t)
    (config : apta_session_config_t) : result (apta_context_t * (session + apta_status_t)) :=
  let refuse status := Ret (context, inr status) in
  if negb (apta_internal_validate_struct true (sizeof T_session_config) (cfg_struct_size config) (cfg_api_version config))
  then refuse APTA_ERROR_INCOMPATIBLE_VERSION
  else if any (cfg_requested_features config) (not64 (ctx_capabilities context)) then refuse APTA_ERROR_UNSUPPORTED
  else if (cfg_input_mode config =? APTA_INPUT_MODE_PULL) &&
          any (cfg_requested_features config) APTA_FEATURE_WAVEFORM_OVERVIEW
  then refuse APTA_ERROR_UNSUPPORTED
  else if negb (cfg_static_workspace config =? 0) || negb (cfg_static_workspace_size config =? 0)
  then refuse APTA_ERROR_UNSUPPORTED
  else if negb (apta_session_config_is_valid (ctx_capabilities context) config)
  then refuse APTA_ERROR_INVALID_ARGUMENT
  else if negb (allocate 0 (sizeof T_session)) then refuse APTA_ERROR_OUT_OF_MEMORY
  else
    let context := lineage_taken context in
    let! '(s, status) := publish (initial_session expf context config) 0 in
    if is_error status then Ret (context, inr status)
    else Ret (session_opened context (pu_result_count (se_publication s)), inl s).

(** The dependencies are checked before. *)
Definition apta_session_create_contract_base (expf : spec_float -> spec_float) (context : apta_context_t)
    (config : apta_session_config_t) : result (apta_context_t * (session + apta_status_t)) :=
  if negb (apta_internal_validate_struct true (sizeof T_session_config) (cfg_struct_size config) (cfg_api_version config))
  then Ret (context, inr APTA_ERROR_INCOMPATIBLE_VERSION)
  else if negb (apta_session_mask_is_coherent (cfg_requested_features config))
  then Ret (context, inr APTA_ERROR_INVALID_ARGUMENT)
  else apta_session_create_base expf context config.

(** What is left of the session's results, which the host may still hold. *)
Definition apta_session_destroy (s : session) : result (option publication * apta_status_t) :=
  if se_process_lock s then Ret (None, APTA_ERROR_BUSY)
  else
    let p := se_publication s in
    let! p :=
      apta_internal_result_release
        {| pu_config := pu_config p; pu_state := pu_state p; pu_generation := pu_generation p;
           pu_current_result := None; pu_results := pu_results p; pu_result_count := pu_result_count p |}
        (pu_current_result p) in
    Ret (Some p, APTA_STATUS_OK).

(** ** Input *)

Definition apta_source_format_is_planar (format : Z) : bool := format =? APTA_SAMPLE_F32_NATIVE_PLANAR.

Definition plane_is_null (block : apta_pcm_block_t) (channel : nat) : bool :=
  match pb_planes block !! channel with Some (Some _) => false | _ => true end.

Definition apta_internal_source_validate_pcm_block (s : session) (block : apta_pcm_block_t) : apta_status_t :=
  if negb (apta_internal_validate_struct true (sizeof T_pcm_block) (pb_struct_size block) (pb_api_version block))
  then APTA_ERROR_INCOMPATIBLE_VERSION
  else if (pb_frame_count block =? 0) || (pb_first_frame block =? APTA_TOTAL_FRAMES_UNKNOWN) ||
          (UINT64_MAX - pb_frame_count block <? pb_first_frame block)
  then APTA_ERROR_INVALID_ARGUMENT
  else
    let end_frame := u64 (pb_first_frame block + pb_frame_count block) in
    if ov_end_of_input_signalled (se_overview s) && (ov_final_end_frame (se_overview s) <? end_frame)
    then APTA_ERROR_CONFLICT
    else if negb (cfg_total_frames (se_config s) =? APTA_TOTAL_FRAMES_UNKNOWN) &&
            (cfg_total_frames (se_config s) <? end_frame)
    then APTA_ERROR_CONFLICT
    else if apta_source_format_is_planar (cfg_sample_format (se_config s)) then
      let channels := Z.to_nat (cfg_channel_count (se_config s)) in
      match pb_data block with
      | Some _ => APTA_ERROR_INVALID_ARGUMENT
      | None =>
          if existsb (plane_is_null block) (seq 0 channels) then APTA_ERROR_INVALID_ARGUMENT
          else if existsb (fun c => negb (plane_is_null block c)) (seq channels (8 - channels))
          then APTA_ERROR_INVALID_ARGUMENT
          else APTA_STATUS_OK
      end
    else
      match pb_data block with
      | None => APTA_ERROR_INVALID_ARGUMENT
      | Some _ =>
          if existsb (fun c => negb (plane_is_null block c)) (seq 0 8) then APTA_ERROR_INVALID_ARGUMENT
          else APTA_STATUS_OK
      end.

Definition session_input (s : session) : input_state :=
  {| in_coverage := se_coverage s; in_pcm := wv_pcm (se_waveform s);
     in_queued_pcm_frames := wv_queued_pcm_frames (se_waveform s) |}.

Definition with_input (s : session) (i : input_state) : session :=
  {| se_waveform := set_pcm (se_waveform s) (in_pcm i) (in_queued_pcm_frames i); se_coverage := in_coverage i;
     se_cancel_requested := se_cancel_requested s; se_process_lock := se_process_lock s |}.

(** [apta_internal_waveform_accept_pcm] without the detail and beat features. *)
Definition accept_pcm (s : session) (block : apta_pcm_block_t) : result (session * apta_status_t * Z) :=
  let! '(i, status, accepted) :=
    apta_internal_waveform_accept_pcm_base (fun k => allocate (ov_allocations (se_overview s) + k)) fresh_range
      (cfg_channel_count (se_config s)) (cfg_sample_format (se_config s)) (session_input s) block in
  Ret (with_input s i, status, accepted).

(** The first input activates the session. *)
Definition activate (s : session) : result (session * apta_status_t) :=
  if bool_decide (se_state s = APTA_SESSION_CREATED)
  then apta_internal_session_transition s APTA_SESSION_ACTIVE else Ret (s, APTA_STATUS_OK).

(** The session, the status and [*accepted_frames_out]. *)
Definition apta_session_push_pcm (s : session) (block : apta_pcm_block_t) : result (session * apta_status_t * Z) :=
  if negb (cfg_input_mode (se_config s) =? APTA_INPUT_MODE_PUSH) then Ret (s, APTA_ERROR_INVALID_STATE, 0)
  else
    match se_state s with
    | APTA_SESSION_CANCELLED => Ret (s, APTA_ERROR_CANCELLED, 0)
    | APTA_SESSION_DRAINING | APTA_SESSION_COMPLETED | APTA_SESSION_FAILED => Ret (s, APTA_ERROR_INVALID_STATE, 0)
    | APTA_SESSION_CREATED | APTA_SESSION_ACTIVE =>
        let status := apta_internal_source_validate_pcm_block s block in
        if is_error status then Ret (s, status, 0)
        else
          let! '(s, status) := activate s in
          if is_error status then Ret (s, status, 0)
          else if wants s APTA_FEATURE_WAVEFORM_OVERVIEW then accept_pcm s block
          else Ret (s, APTA_STATUS_OK, pb_frame_count block)
    end.

Definition set_end (s : session) (total final : Z) (signalled : bool) : session :=
  let w := se_waveform s in
  let o := wv_overview w in
  let p := wv_publication w in
  let c := pu_config p in
  let q := wv_scheduler w in
  with_waveform s
    {| wv_overview :=
         {| ov_accumulators := ov_accumulators o; ov_count := ov_count o; ov_capacity := ov_capacity o;
            ov_complete_count := ov_complete_count o; ov_band_sums := ov_band_sums o; ov_filter := ov_filter o;
            ov_frames_per_column := ov_frames_per_column o; ov_requested_features := ov_requested_features o;
            ov_end_of_input_signalled := signalled; ov_final_end_frame := final; ov_allocations := ov_allocations o |};
       wv_pcm := wv_pcm w; wv_queued_pcm_frames := wv_queued_pcm_frames w;
       wv_scheduler :=
         {| sc_requests := sc_requests q; sc_next_request_id := sc_next_request_id q;
            sc_next_scheduler_enqueue_serial := sc_next_scheduler_enqueue_serial q; sc_focus := sc_focus q;
            sc_total_frames := total; sc_requested_features := sc_requested_features q;
            sc_capabilities := sc_capabilities q |};
       wv_publication :=
         {| pu_config :=
              {| cfg_struct_size := cfg_struct_size c; cfg_api_version := cfg_api_version c;
                 cfg_input_mode := cfg_input_mode c; cfg_source_sample_rate := cfg_source_sample_rate c;
                 cfg_channel_count := cfg_channel_count c; cfg_sample_format := cfg_sample_format c;
                 cfg_channel_layout := cfg_channel_layout c; cfg_total_frames := total;
                 cfg_requested_features := cfg_requested_features c;
                 cfg_memory_budget_bytes := cfg_memory_budget_bytes c;
                 cfg_static_workspace := cfg_static_workspace c;
                 cfg_static_workspace_size := cfg_static_workspace_size c; cfg_flags := cfg_flags c;
                 cfg_overview_frames_per_column := cfg_overview_frames_per_column c;
                 cfg_source_fingerprint_kind := cfg_source_fingerprint_kind c;
                 cfg_source_fingerprint := cfg_source_fingerprint c |};
            pu_state := pu_state p; pu_generation := pu_generation p; pu_current_result := pu_current_result p;
            pu_results := pu_results p; pu_result_count := pu_result_count p |} |}.

(** The end is recorded before the transition and given up when that fails. *)
Definition start_draining (s : session) (final_end_frame : Z) : result (session * apta_status_t) :=
  let old_total := cfg_total_frames (se_config s) in
  let old_final := ov_final_end_frame (se_overview s) in
  let old_signalled := ov_end_of_input_signalled (se_overview s) in
  let! '(s, status) :=
    apta_internal_session_transition (set_end s final_end_frame final_end_frame true) APTA_SESSION_DRAINING in
  Ret (if is_error status then set_end s old_total old_final old_signalled else s, status).

Definition apta_internal_session_signal_end_of_input (s : session) (final_end_frame : Z)
  : result (session * apta_status_t) :=
  let o := se_overview s in
  let total := cfg_total_frames (se_config s) in
  if final_end_frame =? APTA_TOTAL_FRAMES_UNKNOWN then Ret (s, APTA_ERROR_INVALID_ARGUMENT)
  else if ov_end_of_input_signalled o
  then Ret (s, if ov_final_end_frame o =? final_end_frame then APTA_STATUS_OK else APTA_ERROR_CONFLICT)
  else if negb (total =? APTA_TOTAL_FRAMES_UNKNOWN) && negb (total =? final_end_frame)
  then Ret (s, APTA_ERROR_CONFLICT)
  else if final_end_frame <? cov_maximum_accepted_end (se_coverage s) then Ret (s, APTA_ERROR_CONFLICT)
  else
    match se_state s with
    | APTA_SESSION_COMPLETED | APTA_SESSION_CANCELLED | APTA_SESSION_FAILED | APTA_SESSION_DRAINING =>
        Ret (s, APTA_ERROR_INVALID_STATE)
    | APTA_SESSION_CREATED | APTA_SESSION_ACTIVE =>
        let! '(s, status) := activate s in
        if is_error status then Ret (s, status) else start_draining s final_end_frame
    end.

Definition apta_session_signal_end_of_input (s : session) (final_end_frame : Z) : result (session * apta_status_t) :=
  if final_end_frame =? APTA_TOTAL_FRAMES_UNKNOWN then Ret (s, APTA_ERROR_INVALID_ARGUMENT)
  else if negb (cfg_input_mode (se_config s) =? APTA_INPUT_MODE_PUSH) then Ret (s, APTA_ERROR_INVALID_STATE)
  else apta_internal_session_signal_end_of_input s final_end_frame.

(** ** Processing *)

Record apta_progress_t : Type := {
  pr_consumed_input_frames : Z;
  pr_completed_steps : Z;
  pr_published_generation : Z;
  pr_changed_features : Z
}.

(** [process_deadline_ns], from the first reading of the clock. *)
Definition process_deadline (clock : option (nat -> Z)) (budget : apta_work_budget_t) : Z :=
  match clock with
  | Some now =>
      if wb_soft_time_budget_us budget =? 0 then 0
      else
        let duration := u64 (wb_soft_time_budget_us budget * 1000) in
        if now 0%nat =? 0 then 0
        else if UINT64_MAX - now 0%nat <? duration then UINT64_MAX else u64 (now 0%nat + duration)
  | None => 0
  end.

(** The number of queued frames bounds the rounds of the work loop. *)
Definition process_fuel (s : session) : nat := Z.to_nat (wv_queued_pcm_frames (se_waveform s)).

Definition report (s : session) (p : progress) (published : bool) : apta_progress_t :=
  {| pr_consumed_input_frames := pg_consumed p; pr_completed_steps := pg_steps p;
     pr_published_generation := pu_generation (se_publication s);
     pr_changed_features := if published then APTA_FEATURE_WAVEFORM_OVERVIEW else 0 |}.

(** The end of the input has been worked off. *)
Definition drained (s : session) : bool :=
  bool_decide (se_state s = APTA_SESSION_DRAINING) && match wv_pcm (se_waveform s) with [] => true | _ => false end.

(** The work of a call: the session, the status, whether anything was consumed, whether
    a result was published, and [*progress_out]. *)
Definition work (clock : option (nat -> Z)) (s : session) (budget : apta_work_budget_t)
  : result (session * apta_status_t * bool * bool * apta_progress_t) :=
  let nothing := {| pg_consumed := 0; pg_steps := 0; pg_did_work := false |} in
  let started := report s nothing false in
  if wants s APTA_FEATURE_WAVEFORM_OVERVIEW then
    let! out :=
      apta_internal_waveform_process allocate fresh clock (process_deadline clock budget) (process_fuel s) false
        (se_waveform s) budget in
    let s := with_waveform s (po_session out) in
    Ret (s, po_status out, pg_did_work (po_progress out), po_published out,
         if is_error (po_status out) then started else report s (po_progress out) (po_published out))
  else Ret (s, APTA_STATUS_WOULD_BLOCK, false, false, started).

(** The end of a call: a drained session is completed. *)
Definition conclude (s : session) (work_status : apta_status_t) (did_work published : bool) (progress_out : apta_progress_t)
  : result (session * apta_status_t * apta_progress_t) :=
  if is_error work_status then Ret (s, work_status, progress_out)
  else if drained s then
    let! '(s, status) := apta_internal_session_transition s APTA_SESSION_COMPLETED in
    if is_error status then Ret (s, status, progress_out)
    else
      Ret (s, APTA_STATUS_END_OF_INPUT,
           {| pr_consumed_input_frames := pr_consumed_input_frames progress_out;
              pr_completed_steps := pr_completed_steps progress_out;
              pr_published_generation := pu_generation (se_publication s);
              pr_changed_features := pr_changed_features progress_out |})
  else
    Ret (s, if did_work || published then work_status
            else if bool_decide (work_status = APTA_STATUS_MORE_WORK) then APTA_STATUS_MORE_WORK
            else APTA_STATUS_WOULD_BLOCK, progress_out).

(** The session, the status and [*progress_out]. *)
Definition apta_session_process (clock : option (nat -> Z)) (s : session) (budget : apta_work_budget_t)
  : result (session * apta_status_t * apta_progress_t) :=
  let started := report s {| pg_consumed := 0; pg_steps := 0; pg_did_work := false |} false in
  if se_process_lock s then Ret (s, APTA_ERROR_BUSY, started)
  else if se_cancel_requested s then
    let! '(s, status) := apta_internal_session_transition s APTA_SESSION_CANCELLED in
    Ret (s, if is_error status then status else APTA_ERROR_CANCELLED, started)
  else
    match se_state s with
    | APTA_SESSION_COMPLETED => Ret (s, APTA_STATUS_END_OF_INPUT, started)
    | APTA_SESSION_CANCELLED => Ret (s, APTA_ERROR_CANCELLED, started)
    | APTA_SESSION_FAILED => Ret (s, APTA_ERROR_INTERNAL, started)
    | APTA_SESSION_CREATED | APTA_SESSION_ACTIVE | APTA_SESSION_DRAINING =>
        let! '(s, work_status, did_work, published, progress_out) := work clock s budget in
        conclude s work_status did_work published progress_out
    end.

(** The checks of the arguments before. *)
Definition apta_session_process_checked (clock : option (nat -> Z)) (s : session)
    (budget_struct_size budget_api_version : Z) (budget : apta_work_budget_t) (progress_struct : option (Z * Z))
  : result (session * apta_status_t * apta_progress_t) :=
  bail APTA_ERROR_INCOMPATIBLE_VERSION when
    negb (apta_internal_validate_struct true (sizeof T_work_budget) budget_struct_size budget_api_version) in
  bail APTA_ERROR_INCOMPATIBLE_VERSION when
    match progress_struct with
    | Some (size, version) => negb (apta_internal_validate_struct true (sizeof T_progress) size version)
    | None => false
    end in
  apta_session_process clock s budget.

Definition apta_session_request_cancel (s : session) : session :=
  {| se_waveform := se_waveform s; se_coverage := se_coverage s; se_cancel_requested := true;
     se_process_lock := se_process_lock s |}.

Definition apta_session_is_cancel_requested (s : option session) : bool :=
  match s with Some s => se_cancel_requested s | None => false end.

Definition apta_session_get_state (s : option session) : apta_session_state_t :=
  match s with Some s => se_state s | None => APTA_SESSION_FAILED end.

End Session.
