(* ===== verification/OverviewTheorems.v ===== *)
(** * The overview table: what its operations guarantee *)

From Stdlib Require Import Floats.SpecFloat.
From S2P Require Import Prelude Platform FloatFacts Samples Ranges AcceptPcm SampleTheorems.
From S2P Require Import Scheduler Overview OverviewTable OverviewMeasure Process ProcessTheorems ProcessCall.

Section Table.
Context `{PlatformLaws}.
Context (allocate : nat -> Z -> bool) (fresh : accumulator).

(** C11. Finding or inserting a column implements a sorted finite map: the call stays
    inside its arrays and either finds the column and changes nothing, or inserts an
    empty one between its neighbours, every other column keeping its own
    accumulator and its own three band sums, or runs out of memory and leaves the
    contents of the table as they were. *)
Theorem find_or_insert_refines_map (s : overview) (m : list column) (column_index : Z)
    (Hshape : table_shape s m) (Hindex : is_u32 column_index) :
  exists s' status position,
    apta_find_or_insert_accumulator allocate fresh s column_index = Ret (s', status, position) /\
    (out_of_memory status /\ table_shape s' m \/
     exists m' x, status = APTA_STATUS_OK /\ table_shape s' m' /\
       m' !! position = Some x /\ col x = column_index /\
       x = default (new_column column_index) (column_of m column_index) /\
       (forall d, column_of m' d = if d =? column_index then Some x else column_of m d) /\
       (column_of m column_index <> None -> s' = s)).
Proof.
  destruct (find_or_insert_spec allocate fresh s m column_index Hshape Hindex)
    as (s' & status & position & E & _ & [[Hst Hs']|(-> & l1 & x & l2 & -> & Hx & Hs' & Hcase)]);
    exists s', status || exists s', APTA_STATUS_OK; eexists; (split; [exact E|]); [by left|right].
  exists (l1 ++ x :: l2), x. pose proof (ts_sorted _ _ Hs') as Hsort.
  split; [done|]. split; [done|]. split; [by apply list_lookup_middle|]. split; [done|].
  destruct Hcase as [[-> ->]|[-> ->]].
  - rewrite (column_of_middle _ _ _ column_index Hsort), Hx, Z.eqb_refl. split; [done|]. split; [|done].
    intros d. rewrite (column_of_middle _ _ _ d Hsort), Hx. by destruct (d =? column_index).
  - assert (Hnone : column_of (l1 ++ l2) column_index = None).
    { pose proof (columns_sorted_sides _ _ _ Hsort) as [S1 S2]. apply column_of_none, Forall_app.
      split; (eapply Forall_impl; [done|]; unfold below, above; simpl; intros; lia). }
    rewrite Hnone. split; [done|]. split; [|done]. intros d. by rewrite (column_of_middle _ _ _ d Hsort), Hx.
Qed.

(** C13. Measuring a run of samples equals the reference measurement, in which the
    table is a function from column indices to columns and every sample is added to
    the column its frame falls into: the loop never leaves an array, no conversion to
    an integer is undefined and no counter wraps; when memory runs out, what was
    measured is exactly a prefix of the run. *)
Theorem process_samples_measures (s : overview) (m : list column) (first_frame processed_frames : Z)
    (samples : list spec_float) (rounds : nat)
    (Hmeasuring : measuring s m) (Hsamples : Forall unit_sample samples)
    (Hfirst : 0 <= first_frame) (Hprocessed : 0 <= processed_frames)
    (Hend : first_frame + Z.of_nat (length samples) <= UINT64_MAX)
    (Hlength : Z.of_nat (length samples) <= UINT32_MAX)
    (Hrounds : processed_frames + Z.of_nat rounds <= Z.of_nat (length samples))
    (Hsmall : Z.of_nat rounds <= 131070) (Hroom : room_for (Z.of_nat rounds) m) :
  exists s' status,
    apta_process_samples allocate fresh s first_frame processed_frames samples 0 rounds = Ret (s', status) /\
    exists k m', (k <= rounds)%nat /\
      (status = APTA_STATUS_OK /\ k = rounds \/ out_of_memory status /\ (k < rounds)%nat) /\
      measuring s' m' /\
      let after := measured (bands_on s) (ov_frames_per_column s) (first_frame + processed_frames)
                     (take k (drop (Z.to_nat processed_frames) samples)) (column_of m) (ov_filter s) in
      (forall d, column_of m' d = after.1 d) /\ ov_filter s' = after.2.
Proof.
  destruct (process_samples_spec allocate fresh s m first_frame processed_frames samples 0 rounds)
    as (s' & status & E & _ & k & m' & Hk & Hst & Hm' & Hafter); try done; try lia.
  rewrite !Z.add_0_r in *. rewrite length_take, length_drop in *.
  replace (rounds `min` (length samples - Z.to_nat processed_frames))%nat with rounds in * by lia.
  exists s', status. split; [done|]. exists k, m'. split; [done|]. split; [done|]. split; [done|].
  rewrite take_take, Nat.min_l in Hafter by lia. done.
Qed.

End Table.

(** ** Concrete tables *)

Import LP64.

(** A table with bands: columns 1 and 3, with room for two more. *)
Definition banded : overview :=
  {| ov_accumulators := map new_accumulator [1; 3; 0; 0]; ov_count := 2; ov_capacity := 4; ov_complete_count := 0;
     ov_band_sums := Some [11; 12; 13; 31; 32; 33; 0; 0; 0; 0; 0; 0]; ov_filter := zero_filter;
     ov_frames_per_column := 64; ov_requested_features := 5; ov_end_of_input_signalled := false;
     ov_final_end_frame := APTA_TOTAL_FRAMES_UNKNOWN; ov_allocations := 2 |}.

Definition banded_columns : list column :=
  [(new_accumulator 1, (11, 12, 13)); (new_accumulator 3, (31, 32, 33))].

Lemma banded_shape : table_shape banded banded_columns.
Proof.
  constructor; simpl; try done; try lia.
  - constructor; simpl; [by eexists|done|by eexists].
  - unfold columns_sorted. simpl. repeat constructor.
  - by repeat (constructor; [by vm_compute|]).
Qed.

Lemma find_or_insert_refines_map_witness :
  table_shape banded banded_columns /\
  exists s', apta_find_or_insert_accumulator (fun _ _ => true) (new_accumulator 0) banded 2
               = Ret (s', APTA_STATUS_OK, 1%nat) /\
    ov_band_sums s' = Some [11; 12; 13; 0; 0; 0; 31; 32; 33; 0; 0; 0] /\
    exists m', table_shape s' m' /\ column_of m' 3 = Some (new_accumulator 3, (31, 32, 33)).
Proof.
  split; [exact banded_shape|].
  destruct (find_or_insert_refines_map (fun _ _ => true) (new_accumulator 0) banded banded_columns 2
    banded_shape ltac:(unfold is_u32; lia)) as (s' & status & position & E & Hcase).
  vm_compute in E. injection E as <- <- <-. eexists. split; [vm_compute; reflexivity|]. split; [reflexivity|].
  destruct Hcase as [[[Hs|Hs] _]|(m' & x & _ & Hs & _ & _ & _ & Hall & _)]; [discriminate|discriminate|].
  exists m'. split; [exact Hs|]. rewrite Hall. reflexivity.
Defined.

Lemma process_samples_measures_witness :
  measuring fresh_overview [] /\
  exists s' m', apta_process_samples (fun _ _ => true) (new_accumulator 0) fresh_overview 60 0
                  [f32_one; f32_half; f32_minus_one; f32_zero; f32_half] 0 5 = Ret (s', APTA_STATUS_OK) /\
    measuring s' m' /\
    option_map (fun x => (ac_sample_count x.1, ac_sum_squares x.1, ac_clipped x.1)) (column_of m' 0)
      = Some (4, 2 * 8388608 ^ 2 + 4194304 ^ 2, true) /\
    option_map (fun x => (ac_sample_count x.1, ac_clipped x.1)) (column_of m' 1) = Some (1, false).
Proof.
  split; [exact fresh_measuring|].
  destruct (process_samples_measures (fun _ _ => true) (new_accumulator 0) fresh_overview [] 60 0
    [f32_one; f32_half; f32_minus_one; f32_zero; f32_half] 5 fresh_measuring
    ltac:(repeat (constructor; [split; by vm_compute|]); constructor) ltac:(lia) ltac:(lia) ltac:(simpl; lia) ltac:(simpl; lia)
    ltac:(simpl; lia) ltac:(lia) ltac:(intros d x Hx; discriminate))
    as (s' & status & E & k & m' & _ & Hst & Hm' & Hall & _).
  destruct Hst as [[-> ->]|[[-> | ->] _]]; [|vm_compute in E; discriminate|vm_compute in E; discriminate].
  exists s', m'. split; [exact E|]. split; [exact Hm'|]. rewrite !Hall. split; vm_compute; reflexivity.
Defined.
