(* ===== verification/WovrReader.v ===== *)
(** * The waveform-overview container: the reader
    (serialization/apta_wovr_reader.c, apta_wovr_reader_hardening.c)

    The bounded reader validates a container from an untrusted buffer before it
    builds a result in memory of the context; the hardening pass then checks
    final coverage and packed columns, and gives the result up when they are
    wrong. *)

From stdpp Require Import sorting.
From S2P Require Import Prelude Platform Bytes Workspace Memory Wovr.
Open Scope Z_scope.

(** ** The reader: options and helpers *)

Record apta_effective_parse_options_t : Type := {
  eo_flags : Z;
  eo_maximum_section_count : Z;
  eo_maximum_overview_spans : Z;
  eo_maximum_waveform_columns : Z;
  eo_maximum_file_bytes : Z;
  eo_maximum_allocation_bytes : Z
}.

Definition is_strict (o : apta_effective_parse_options_t) : bool :=
  any (eo_flags o) APTA_PARSE_STRICT.

(** What the header of the container says, and the payload of its section:
    [wi_payload] is the pointer to it. *)
Record apta_wovr_input_t : Type := {
  wi_payload : Z;
  wi_payload_size : Z;
  wi_container_flags : Z;
  wi_total_source_frames : Z;
  wi_source_sample_rate : Z;
  wi_source_channel_count : Z;
  wi_source_channel_layout : Z;
  wi_source_fingerprint_kind : Z;
  wi_source_fingerprint : list Z;
  wi_specification_major : Z;
  wi_specification_minor : Z;
  wi_producer_api_version : Z
}.

Definition apta_range_fits (offset size total : Z) : bool :=
  (offset <=? total) && (size <=? u64 (total - offset)).

Definition apta_ranges_overlap (first_offset first_size second_offset second_size : Z) : bool :=
  if (first_size =? 0) || (second_size =? 0) then false
  else
    let first_end := u64 (first_offset + first_size) in
    let second_end := u64 (second_offset + second_size) in
    (first_offset <? second_end) && (second_offset <? first_end).

Definition bytes_equal (l k : list Z) : bool := bool_decide (l = k).

Definition apta_bytes_are_zero (data : list Z) : bool := forallb (fun x => x =? 0) data.

Definition apta_is_standard_section (name : list Z) : bool :=
  existsb (bytes_equal name) standard_tags.

Section Options.
Context `{Platform}.

Definition apta_parse_options_init : apta_parse_options_t :=
  {| po_struct_size := sizeof T_parse_options;
     po_api_version := APTA_API_VERSION;
     po_flags := APTA_PARSE_STRICT;
     po_maximum_section_count := APTA_PARSE_DEFAULT_MAX_SECTION_COUNT;
     po_maximum_overview_spans := APTA_PARSE_DEFAULT_MAX_OVERVIEW_SPANS;
     po_maximum_waveform_columns := APTA_PARSE_DEFAULT_MAX_WAVEFORM_COLUMNS;
     po_maximum_file_bytes := APTA_PARSE_DEFAULT_MAX_FILE_BYTES;
     po_maximum_allocation_bytes := APTA_PARSE_DEFAULT_MAX_ALLOCATION_BYTES;
     po_reserved64 := [0; 0; 0; 0] |}.

Definition or_default (value default : Z) : Z := if negb (value =? 0) then value else default.

Definition apta_resolve_parse_options (options : option apta_parse_options_t)
  : result apta_effective_parse_options_t :=
  match options with
  | None =>
      Ret {| eo_flags := APTA_PARSE_STRICT;
             eo_maximum_section_count := APTA_PARSE_DEFAULT_MAX_SECTION_COUNT;
             eo_maximum_overview_spans := APTA_PARSE_DEFAULT_MAX_OVERVIEW_SPANS;
             eo_maximum_waveform_columns := APTA_PARSE_DEFAULT_MAX_WAVEFORM_COLUMNS;
             eo_maximum_file_bytes := APTA_PARSE_DEFAULT_MAX_FILE_BYTES;
             eo_maximum_allocation_bytes := APTA_PARSE_DEFAULT_MAX_ALLOCATION_BYTES |}
  | Some o =>
      bail APTA_ERROR_INVALID_ARGUMENT when
        negb (apta_internal_validate_struct true (sizeof T_parse_options)
                (po_struct_size o) (po_api_version o)) ||
        any (po_flags o) (not32 APTA_PARSE_STRICT) in
      bail APTA_ERROR_INVALID_ARGUMENT when
        negb (forallb (fun x => x =? 0) (po_reserved64 o)) in
      Ret {| eo_flags := po_flags o;
             eo_maximum_section_count :=
               or_default (po_maximum_section_count o) APTA_PARSE_DEFAULT_MAX_SECTION_COUNT;
             eo_maximum_overview_spans :=
               or_default (po_maximum_overview_spans o) APTA_PARSE_DEFAULT_MAX_OVERVIEW_SPANS;
             eo_maximum_waveform_columns :=
               or_default (po_maximum_waveform_columns o) APTA_PARSE_DEFAULT_MAX_WAVEFORM_COLUMNS;
             eo_maximum_file_bytes :=
               or_default (po_maximum_file_bytes o) APTA_PARSE_DEFAULT_MAX_FILE_BYTES;
             eo_maximum_allocation_bytes :=
               or_default (po_maximum_allocation_bytes o)
                 APTA_PARSE_DEFAULT_MAX_ALLOCATION_BYTES |}
  end.

End Options.

(** ** The reader: the container *)

Section Reader.
Context `{Platform}.

Record container_header : Type := {
  ch_header_size : Z;
  ch_container_version : Z;
  ch_container_flags : Z;
  ch_section_count : Z;
  ch_directory_offset : Z;
  ch_total_file_size : Z;
  ch_header_crc : Z;
  ch_input : apta_wovr_input_t
}.

(** The fields of the header; the section's payload is filled in later. *)
Definition read_container_header (b : list Z) : result container_header :=
  let! header_size := apta_get_u16 b 4 in
  let! container_version := apta_get_u16 b 6 in
  let! specification_major := apta_get_u16 b 8 in
  let! specification_minor := apta_get_u16 b 10 in
  let! producer_api_version := apta_get_u32 b 12 in
  let! container_flags := apta_get_u32 b 16 in
  let! section_count := apta_get_u32 b 20 in
  let! directory_offset := apta_get_u64 b 24 in
  let! total_file_size := apta_get_u64 b 32 in
  let! total_source_frames := apta_get_u64 b 40 in
  let! source_sample_rate := apta_get_u32 b 48 in
  let! source_channel_count := apta_get_u16 b 52 in
  let! source_channel_layout := apta_get_u16 b 54 in
  let! source_fingerprint_kind := apta_get_u32 b 88 in
  let! source_fingerprint := get_bytes b 56 (Z.to_nat APTA_SOURCE_FINGERPRINT_SIZE) in
  let! header_crc := apta_get_u32 b 92 in
  Ret {| ch_header_size := header_size;
         ch_container_version := container_version;
         ch_container_flags := container_flags;
         ch_section_count := section_count;
         ch_directory_offset := directory_offset;
         ch_total_file_size := total_file_size;
         ch_header_crc := header_crc;
         ch_input :=
           {| wi_payload := 0; wi_payload_size := 0;
              wi_container_flags := container_flags;
              wi_total_source_frames := total_source_frames;
              wi_source_sample_rate := source_sample_rate;
              wi_source_channel_count := source_channel_count;
              wi_source_channel_layout := source_channel_layout;
              wi_source_fingerprint_kind := source_fingerprint_kind;
              wi_source_fingerprint := source_fingerprint;
              wi_specification_major := specification_major;
              wi_specification_minor := specification_minor;
              wi_producer_api_version := producer_api_version |} |}.

(** The checks on the header, up to the directory walk. *)
Definition check_container_header (b : list Z) (options : apta_effective_parse_options_t)
    (h : container_header) : result unit :=
  let buffer_size := zlen b in
  let input := ch_input h in
  let flags := ch_container_flags h in
  let kind := wi_source_fingerprint_kind input in
  bail APTA_ERROR_UNSUPPORTED when
    (ch_header_size h <? APTA_CONTAINER_HEADER_SIZE) || (buffer_size <? ch_header_size h) ||
    negb (ch_container_version h =? 1) ||
    negb (wi_specification_major input =? APTA_SPEC_VERSION_MAJOR) ||
    (APTA_SPEC_VERSION_MINOR <? wi_specification_minor input) in
  bail APTA_ERROR_CORRUPT_DATA when any flags (not32 APTA_CONTAINER_FLAG_MASK) in
  bail APTA_ERROR_CORRUPT_DATA when (ch_section_count h =? 0) in
  bail APTA_ERROR_LIMIT_EXCEEDED when
    (eo_maximum_section_count options <? ch_section_count h) in
  bail APTA_ERROR_CORRUPT_DATA when
    (ch_directory_offset h <? ch_header_size h) || any (ch_directory_offset h) 7 in
  let directory_size := u64 (ch_section_count h * APTA_DIRECTORY_ENTRY_SIZE) in
  bail APTA_ERROR_CORRUPT_DATA when
    negb (apta_range_fits (ch_directory_offset h) directory_size buffer_size) in
  bail APTA_ERROR_CORRUPT_DATA when
    negb (ch_total_file_size h =? buffer_size) || (wi_source_sample_rate input =? 0) ||
    (wi_source_channel_count input =? 0) in
  let! crc := crc32c_at b 0 92 in
  bail APTA_ERROR_CORRUPT_DATA when negb (crc =? ch_header_crc h) in
  bail APTA_ERROR_UNSUPPORTED when
    negb (kind =? APTA_SOURCE_FINGERPRINT_NONE) &&
    negb (kind =? APTA_SOURCE_FINGERPRINT_APPLICATION_OPAQUE_256) &&
    negb (kind =? APTA_SOURCE_FINGERPRINT_SHA256_SOURCE_OBJECT_BYTES) in
  bail APTA_ERROR_CORRUPT_DATA when
    (kind =? APTA_SOURCE_FINGERPRINT_NONE) &&
    negb (apta_bytes_are_zero (wi_source_fingerprint input)) in
  bail APTA_ERROR_CORRUPT_DATA when
    (if wi_total_source_frames input =? APTA_TOTAL_FRAMES_UNKNOWN
     then negb (any flags APTA_CONTAINER_FLAG_SOURCE_DURATION_UNKNOWN) ||
          negb (any flags APTA_CONTAINER_FLAG_PARTIAL_RESULT)
     else any flags APTA_CONTAINER_FLAG_SOURCE_DURATION_UNKNOWN) in
  Ret tt.

(** The address of a directory entry. *)
Definition directory_entry (directory_offset : Z) (index : nat) : Z :=
  size_t directory_offset + size_t (Z.of_nat index * APTA_DIRECTORY_ENTRY_SIZE).

Record section_entry : Type := {
  se_name : list Z;
  se_version : Z;
  se_flags : Z;
  se_offset : Z;
  se_stored_size : Z;
  se_logical_size : Z;
  se_crc : Z;
  se_reserved : Z
}.

Definition read_section_entry (b : list Z) (entry : Z) : result section_entry :=
  let! section_version := apta_get_u16 b (entry + 4) in
  let! section_flags := apta_get_u16 b (entry + 6) in
  let! section_offset := apta_get_u64 b (entry + 8) in
  let! stored_size := apta_get_u64 b (entry + 16) in
  let! logical_size := apta_get_u64 b (entry + 24) in
  let! section_crc := apta_get_u32 b (entry + 32) in
  let! reserved := apta_get_u32 b (entry + 36) in
  let! name := get_bytes b entry 4 in
  Ret {| se_name := name; se_version := section_version; se_flags := section_flags;
         se_offset := section_offset; se_stored_size := stored_size;
         se_logical_size := logical_size; se_crc := section_crc; se_reserved := reserved |}.

Definition is_wovr (e : section_entry) : bool := bytes_equal (se_name e) tag_WOVR.
Definition is_standard (e : section_entry) : bool := apta_is_standard_section (se_name e).

(** Whether the section overlaps one of the [n] entries from [earlier] on. *)
Fixpoint overlaps_earlier (b : list Z) (directory_offset : Z) (earlier n : nat)
    (section_offset stored_size : Z) : result bool :=
  match n with
  | O => Ret false
  | S n =>
      let prior := directory_entry directory_offset earlier in
      let! prior_offset := apta_get_u64 b (prior + 8) in
      let! prior_size := apta_get_u64 b (prior + 16) in
      if apta_ranges_overlap section_offset stored_size prior_offset prior_size
      then Ret true
      else overlaps_earlier b directory_offset (S earlier) n section_offset stored_size
  end.

(** The checks on entry [index]. *)
Definition check_section_entry (b : list Z) (options : apta_effective_parse_options_t)
    (h : container_header) (index : nat) (e : section_entry) : result unit :=
  let buffer_size := zlen b in
  let directory_size := u64 (ch_section_count h * APTA_DIRECTORY_ENTRY_SIZE) in
  bail APTA_ERROR_UNSUPPORTED when
    any (se_flags e) (Z.lor APTA_SECTION_FLAG_COMPRESSED APTA_SECTION_FLAG_ENCRYPTED) in
  bail APTA_ERROR_CORRUPT_DATA when
    any (se_flags e) (not32 APTA_SECTION_FLAG_MASK) ||
    (is_strict options && negb (se_reserved e =? 0)) in
  bail APTA_ERROR_UNSUPPORTED when is_standard e && negb (se_version e =? 1) in
  bail APTA_ERROR_CORRUPT_DATA when
    (is_wovr e && negb (any (se_flags e) APTA_SECTION_FLAG_REQUIRED)) ||
    (negb (is_wovr e) && is_standard e && any (se_flags e) APTA_SECTION_FLAG_REQUIRED) in
  bail APTA_ERROR_CORRUPT_DATA when
    any (se_offset e) 7 || negb (se_stored_size e =? se_logical_size e) ||
    negb (apta_range_fits (se_offset e) (se_stored_size e) buffer_size) in
  bail APTA_ERROR_CORRUPT_DATA when
    apta_ranges_overlap (se_offset e) (se_stored_size e) 0 (ch_header_size h) ||
    apta_ranges_overlap (se_offset e) (se_stored_size e) (ch_directory_offset h)
      directory_size in
  let! overlap := overlaps_earlier b (ch_directory_offset h) 0 index
                    (se_offset e) (se_stored_size e) in
  bail APTA_ERROR_CORRUPT_DATA when overlap in
  bail APTA_ERROR_CORRUPT_DATA when (SIZE_MAX <? se_stored_size e) in
  let! crc := crc32c_at b (size_t (se_offset e)) (Z.to_nat (se_stored_size e)) in
  bail APTA_ERROR_CORRUPT_DATA when negb (crc =? se_crc e) in
  Ret tt.

(** The loop over the [n] entries from [index] on; [found] is the payload. *)
Fixpoint directory_loop (b : list Z) (options : apta_effective_parse_options_t)
    (h : container_header) (index n : nat) (found : option (Z * Z)) : result (option (Z * Z)) :=
  match n with
  | O => Ret found
  | S n =>
      let! e := read_section_entry b (directory_entry (ch_directory_offset h) index) in
      let! _ := check_section_entry b options h index e in
      if is_wovr e
      then
        match found with
        | Some _ => Err APTA_ERROR_CORRUPT_DATA
        | None => directory_loop b options h (S index) n
                    (Some (size_t (se_offset e), size_t (se_stored_size e)))
        end
      else
        bail APTA_ERROR_UNSUPPORTED when
          negb (is_standard e) && any (se_flags e) APTA_SECTION_FLAG_REQUIRED in
        directory_loop b options h (S index) n found
  end.

Definition set_payload (i : apta_wovr_input_t) (payload payload_size : Z) : apta_wovr_input_t :=
  {| wi_payload := payload; wi_payload_size := payload_size;
     wi_container_flags := wi_container_flags i;
     wi_total_source_frames := wi_total_source_frames i;
     wi_source_sample_rate := wi_source_sample_rate i;
     wi_source_channel_count := wi_source_channel_count i;
     wi_source_channel_layout := wi_source_channel_layout i;
     wi_source_fingerprint_kind := wi_source_fingerprint_kind i;
     wi_source_fingerprint := wi_source_fingerprint i;
     wi_specification_major := wi_specification_major i;
     wi_specification_minor := wi_specification_minor i;
     wi_producer_api_version := wi_producer_api_version i |}.

Definition apta_validate_container (b : list Z) (options : apta_effective_parse_options_t)
  : result apta_wovr_input_t :=
  let buffer_size := zlen b in
  bail APTA_ERROR_CORRUPT_DATA when (buffer_size <? APTA_CONTAINER_HEADER_SIZE) in
  bail APTA_ERROR_LIMIT_EXCEEDED when (eo_maximum_file_bytes options <? buffer_size) in
  let! magic := get_bytes b 0 4 in
  bail APTA_ERROR_CORRUPT_DATA when negb (bytes_equal magic tag_APTA) in
  let! h := read_container_header b in
  let! _ := check_container_header b options h in
  let! found := directory_loop b options h 0 (Z.to_nat (ch_section_count h)) None in
  let directory_end :=
    u64 (ch_directory_offset h + u64 (ch_section_count h * APTA_DIRECTORY_ENTRY_SIZE)) in
  match found with
  | None => Err APTA_ERROR_CORRUPT_DATA
  | Some (payload, payload_size) =>
      bail APTA_ERROR_CORRUPT_DATA when (buffer_size <? directory_end) in
      Ret (set_payload (ch_input h) payload payload_size)
  end.

(** ** The reader: the geometry of the section *)

Record wovr_header : Type := {
  wh_frames_per_column : Z;
  wh_origin_frame : Z;
  wh_logical_column_count : Z;
  wh_span_count : Z;
  wh_span_directory_offset : Z;
  wh_column_data_offset : Z;
  wh_flags : Z
}.

Definition wh_state (h : wovr_header) : Z := Z.land (wh_flags h) APTA_WOVR_STATE_MASK.

Definition read_wovr_header (b : list Z) (payload : Z) : result wovr_header :=
  let! frames_per_column := apta_get_u32 b (payload + 4) in
  let! origin_frame := apta_get_u64 b (payload + 8) in
  let! logical_column_count := apta_get_u32 b (payload + 16) in
  let! span_count := apta_get_u32 b (payload + 20) in
  let! span_directory_offset := apta_get_u64 b (payload + 24) in
  let! column_data_offset := apta_get_u64 b (payload + 32) in
  let! flags := apta_get_u32 b (payload + 40) in
  Ret {| wh_frames_per_column := frames_per_column; wh_origin_frame := origin_frame;
         wh_logical_column_count := logical_column_count; wh_span_count := span_count;
         wh_span_directory_offset := span_directory_offset;
         wh_column_data_offset := column_data_offset; wh_flags := flags |}.

(** The checks before the span loop. *)
Definition check_wovr_header (b : list Z) (input : apta_wovr_input_t)
    (options : apta_effective_parse_options_t) (h : wovr_header) : result unit :=
  let total := wi_total_source_frames input in
  bail APTA_ERROR_CORRUPT_DATA when
    (wh_frames_per_column h =? 0) || (wh_logical_column_count h =? 0) ||
    (wh_span_count h =? 0) in
  bail APTA_ERROR_LIMIT_EXCEEDED when
    (eo_maximum_overview_spans options <? wh_span_count h) ||
    (eo_maximum_waveform_columns options <? wh_logical_column_count h) in
  let! reserved := (if is_strict options then apta_get_u32 b (wi_payload input + 44) else Ret 0) in
  bail APTA_ERROR_CORRUPT_DATA when
    any (wh_flags h) (not32 APTA_WOVR_STATE_MASK) ||
    (wh_state h <? APTA_FEATURE_PARTIAL) || (APTA_FEATURE_FINAL <? wh_state h) ||
    negb (reserved =? 0) in
  bail APTA_ERROR_CORRUPT_DATA when
    (if wh_state h =? APTA_FEATURE_FINAL then total =? APTA_TOTAL_FRAMES_UNKNOWN
     else negb (any (wi_container_flags input) APTA_CONTAINER_FLAG_PARTIAL_RESULT)) in
  let span_bytes := u64 (wh_span_count h * APTA_WOVR_SPAN_SIZE) in
  bail APTA_ERROR_CORRUPT_DATA when
    (wh_span_directory_offset h <? APTA_WOVR_HEADER_SIZE) ||
    (wh_column_data_offset h <? APTA_WOVR_HEADER_SIZE) ||
    negb (apta_range_fits (wh_span_directory_offset h) span_bytes (wi_payload_size input)) in
  bail APTA_ERROR_CORRUPT_DATA when
    (if total =? APTA_TOTAL_FRAMES_UNKNOWN then false
     else (total <? wh_origin_frame h) ||
          negb (u64 (required_columns (u64 (total - wh_origin_frame h))
                       (wh_frames_per_column h)) =? wh_logical_column_count h)) in
  Ret tt.

(** The address of a span record. *)
Definition span_record (payload span_directory_offset : Z) (index : nat) : Z :=
  payload + size_t span_directory_offset + size_t (Z.of_nat index * APTA_WOVR_SPAN_SIZE).

Record span_entry : Type := {
  sn_first_frame : Z;
  sn_end_frame : Z;
  sn_first_column : Z;
  sn_column_count : Z;
  sn_data_column_offset : Z;
  sn_reserved : Z
}.

Definition read_span (b : list Z) (span : Z) : result span_entry :=
  let! first_frame := apta_get_u64 b (span + 0) in
  let! end_frame := apta_get_u64 b (span + 8) in
  let! first_column := apta_get_u32 b (span + 16) in
  let! column_count := apta_get_u32 b (span + 20) in
  let! data_column_offset := apta_get_u32 b (span + 24) in
  let! reserved := apta_get_u32 b (span + 28) in
  Ret {| sn_first_frame := first_frame; sn_end_frame := end_frame;
         sn_first_column := first_column; sn_column_count := column_count;
         sn_data_column_offset := data_column_offset; sn_reserved := reserved |}.

Definition sn_end_column (s : span_entry) : Z := u64 (sn_first_column s + sn_column_count s).

Definition data_first (h : wovr_header) (s : span_entry) : Z :=
  u64 (wh_column_data_offset h + u64 (sn_data_column_offset s * APTA_PACKED_COLUMN_SIZE)).

Definition data_bytes (s : span_entry) : Z := u64 (sn_column_count s * APTA_PACKED_COLUMN_SIZE).

(** The checks of the [n] packed columns from [index] on, stored at [data]. *)
Fixpoint check_columns (b : list Z) (options : apta_effective_parse_options_t)
    (data : Z) (index n : nat) : result unit :=
  match n with
  | O => Ret tt
  | S n =>
      let column := data + size_t (Z.of_nat index * APTA_PACKED_COLUMN_SIZE) in
      let! minimum := apta_get_i16 b (column + 0) in
      let! maximum := apta_get_i16 b (column + 2) in
      let! flags := get8 b (column + 9) in
      let! low := get8 b (column + 6) in
      let! mid := get8 b (column + 7) in
      let! high := get8 b (column + 8) in
      bail APTA_ERROR_CORRUPT_DATA when
        negb (any flags APTA_WAVEFORM_COLUMN_VALID) || (maximum <? minimum) ||
        (is_strict options && any flags (not32 APTA_WAVEFORM_COLUMN_FLAG_MASK)) ||
        (is_strict options && negb (any flags APTA_WAVEFORM_COLUMN_HAS_3BAND) &&
         (negb (low =? 0) || negb (mid =? 0) || negb (high =? 0))) in
      check_columns b options data (S index) n
  end.

(** The checks on span [index]; the state of the loop is the packed columns so
    far and the end of the span before. *)
Definition check_span (b : list Z) (input : apta_wovr_input_t)
    (options : apta_effective_parse_options_t) (h : wovr_header) (index : nat) (s : span_entry)
    (packed_columns previous_end_frame previous_end_column : Z) : result Z :=
  let total := wi_total_source_frames input in
  let span_bytes := u64 (wh_span_count h * APTA_WOVR_SPAN_SIZE) in
  bail APTA_ERROR_CORRUPT_DATA when
    (sn_end_frame s <=? sn_first_frame s) || (sn_column_count s =? 0) ||
    (is_strict options && negb (sn_reserved s =? 0)) in
  let end_column := sn_end_column s in
  bail APTA_ERROR_CORRUPT_DATA when
    (wh_logical_column_count h <? end_column) ||
    (negb (index =? 0)%nat &&
     ((sn_first_frame s <? previous_end_frame) || (sn_first_column s <? previous_end_column))) in
  let first_offset := u64 (sn_first_column s * wh_frames_per_column h) in
  let end_offset := u64 (end_column * wh_frames_per_column h) in
  bail APTA_ERROR_LIMIT_EXCEEDED when
    (u64 (UINT64_MAX - first_offset) <? wh_origin_frame h) ||
    (u64 (UINT64_MAX - end_offset) <? wh_origin_frame h) in
  let expected_first := u64 (wh_origin_frame h + first_offset) in
  let expected_end := u64 (wh_origin_frame h + end_offset) in
  bail APTA_ERROR_CORRUPT_DATA when negb (sn_first_frame s =? expected_first) in
  bail APTA_ERROR_CORRUPT_DATA when
    negb (sn_end_frame s =? expected_end) &&
    ((total =? APTA_TOTAL_FRAMES_UNKNOWN) || negb (sn_end_frame s =? total) ||
     negb (end_column =? wh_logical_column_count h) || (expected_end <=? total)) in
  bail APTA_ERROR_CORRUPT_DATA when
    negb (total =? APTA_TOTAL_FRAMES_UNKNOWN) && (total <? sn_end_frame s) in
  bail APTA_ERROR_CORRUPT_DATA when
    (data_first h s <? wh_column_data_offset h) ||
    negb (apta_range_fits (data_first h s) (data_bytes s) (wi_payload_size input)) ||
    apta_ranges_overlap (data_first h s) (data_bytes s) 0 APTA_WOVR_HEADER_SIZE ||
    apta_ranges_overlap (data_first h s) (data_bytes s)
      (wh_span_directory_offset h) span_bytes in
  let! _ := check_columns b options (wi_payload input + size_t (data_first h s)) 0
              (Z.to_nat (sn_column_count s)) in
  bail APTA_ERROR_LIMIT_EXCEEDED when (u32 (UINT32_MAX - sn_column_count s) <? packed_columns) in
  let packed_columns := u64 (packed_columns + sn_column_count s) in
  bail APTA_ERROR_LIMIT_EXCEEDED when (eo_maximum_waveform_columns options <? packed_columns) in
  Ret packed_columns.

(** The loop over the [n] spans from [index] on: the packed columns and the end
    column of the last one. *)
Fixpoint span_loop (b : list Z) (input : apta_wovr_input_t)
    (options : apta_effective_parse_options_t) (h : wovr_header) (index n : nat)
    (packed_columns previous_end_frame previous_end_column : Z) : result (Z * Z) :=
  match n with
  | O => Ret (packed_columns, previous_end_column)
  | S n =>
      let! s := read_span b (span_record (wi_payload input) (wh_span_directory_offset h) index) in
      let! packed_columns := check_span b input options h index s packed_columns
                               previous_end_frame previous_end_column in
      span_loop b input options h (S index) n packed_columns
        (sn_end_frame s) (sn_end_column s)
  end.

(** The packed column count. *)
Definition apta_validate_wovr_geometry (b : list Z) (input : apta_wovr_input_t)
    (options : apta_effective_parse_options_t) : result Z :=
  bail APTA_ERROR_CORRUPT_DATA when (wi_payload_size input <? APTA_WOVR_HEADER_SIZE) in
  let! h := read_wovr_header b (wi_payload input) in
  let! _ := check_wovr_header b input options h in
  let! loop := span_loop b input options h 0 (Z.to_nat (wh_span_count h)) 0 0 0 in
  let '(packed_columns, previous_end_column) := loop in
  let! incomplete :=
    (if wh_state h =? APTA_FEATURE_FINAL
     then if negb (previous_end_column =? wh_logical_column_count h) then Ret true
          else let! first_column :=
                 apta_get_u32 b (wi_payload input + size_t (wh_span_directory_offset h) + 16) in
               Ret (negb (first_column =? 0))
     else Ret false) in
  bail APTA_ERROR_CORRUPT_DATA when incomplete in
  Ret (u32 packed_columns).

End Reader.

(** ** The reader: building the result

    [host k] answers the [k]-th request to the host allocator of a call. *)

Section Build.
Context `{Platform}.
Context (host : nat -> Z -> Z).

Definition count_results (c : apta_context_t) (delta : Z) : apta_context_t :=
  {| ctx_capabilities := ctx_capabilities c; ctx_memory_limit_bytes := ctx_memory_limit_bytes c;
     ctx_flags := ctx_flags c; ctx_allocated_bytes := ctx_allocated_bytes c;
     ctx_session_count := ctx_session_count c;
     ctx_result_count := u32 (ctx_result_count c + delta);
     ctx_lineage_counter := ctx_lineage_counter c |}.

(** A block of the context: the header in front of it, or nothing for NULL. *)
Definition allocate_block (k : nat) (c : apta_context_t) (size : Z) (t : c_type)
  : apta_context_t * option allocation_header :=
  let '(c, (payload, h)) := apta_internal_context_allocate (host k) c size (alignof t) in
  (c, if payload =? 0 then None else h).

Definition release_block (c : apta_context_t) (h : allocation_header) : apta_context_t :=
  if in_workspace h then c else refund c h.

(** A result with the blocks that carry it: the result itself, its spans, its
    columns. *)
Record parsed_result : Type := {
  pa_result : apta_result_t;
  pa_result_block : allocation_header;
  pa_spans_block : allocation_header;
  pa_columns_block : allocation_header
}.

(** The elements a block of [count * size] bytes has room for. *)
Definition block_length (count : Z) (t : c_type) : nat :=
  Z.to_nat (size_t (count * sizeof t) / sizeof t).

Definition read_column (b : list Z) (column_input : Z) : result apta_waveform_column_t :=
  let! minimum := apta_get_i16 b (column_input + 0) in
  let! maximum := apta_get_i16 b (column_input + 2) in
  let! rms := apta_get_u16 b (column_input + 4) in
  let! low := get8 b (column_input + 6) in
  let! mid := get8 b (column_input + 7) in
  let! high := get8 b (column_input + 8) in
  let! flags := get8 b (column_input + 9) in
  Ret {| wc_minimum := minimum; wc_maximum := maximum; wc_rms := rms; wc_low := low;
         wc_mid := mid; wc_high := high; wc_flags := flags |}.

(** The inner loop: [n] columns from [index] on into the column array, with the
    features seen so far. *)
Fixpoint build_columns (b : list Z) (data : Z) (columns : list apta_waveform_column_t)
    (packed_output_offset features : Z) (index n : nat)
  : result (list apta_waveform_column_t * Z) :=
  match n with
  | O => Ret (columns, features)
  | S n =>
      let! column := read_column b (data + size_t (Z.of_nat index * APTA_PACKED_COLUMN_SIZE)) in
      let! columns := arr_put columns
                        (Z.to_nat (u32 (packed_output_offset + Z.of_nat index))) column in
      let features := if any (wc_flags column) APTA_WAVEFORM_COLUMN_HAS_3BAND
                      then Z.lor features APTA_FEATURE_WAVEFORM_3BAND else features in
      build_columns b data columns packed_output_offset features (S index) n
  end.

Fixpoint build_spans (b : list Z) (payload span_directory_offset column_data_offset : Z)
    (spans : list apta_waveform_span_t) (columns : list apta_waveform_column_t)
    (packed_output_offset features : Z) (span_index n : nat)
  : result (list apta_waveform_span_t * list apta_waveform_column_t * Z) :=
  match n with
  | O => Ret (spans, columns, features)
  | S n =>
      let span_input := span_record payload span_directory_offset span_index in
      let! column_count := apta_get_u32 b (span_input + 20) in
      let! data_column_offset := apta_get_u32 b (span_input + 24) in
      let data_first :=
        u64 (column_data_offset + u64 (data_column_offset * APTA_PACKED_COLUMN_SIZE)) in
      let! first_frame := apta_get_u64 b (span_input + 0) in
      let! end_frame := apta_get_u64 b (span_input + 8) in
      let! first_column_index := apta_get_u32 b (span_input + 16) in
      let! spans := arr_put spans span_index
                      {| sp_first_frame := first_frame; sp_end_frame := end_frame;
                         sp_first_column_index := first_column_index;
                         sp_column_count := column_count;
                         sp_columns := Some (Z.to_nat packed_output_offset) |} in
      let! loop := build_columns b (payload + size_t data_first) columns packed_output_offset
                     features 0 (Z.to_nat column_count) in
      let '(columns, features) := loop in
      build_spans b payload span_directory_offset column_data_offset spans columns
        (u32 (packed_output_offset + column_count)) features (S span_index) n
  end.

(** The content of the result, once its arrays are allocated. *)
Definition fill_parsed_result (b : list Z) (input : apta_wovr_input_t) (packed_column_count : Z)
  : result apta_result_t :=
  let payload := wi_payload input in
  let! span_count := apta_get_u32 b (payload + 20) in
  let! span_directory_offset := apta_get_u64 b (payload + 24) in
  let! column_data_offset := apta_get_u64 b (payload + 32) in
  let! level_id := apta_get_u32 b (payload + 0) in
  let! frames_per_column := apta_get_u32 b (payload + 4) in
  let! origin_frame := apta_get_u64 b (payload + 8) in
  let! state := apta_get_u32 b (payload + 40) in
  let! loop := build_spans b payload span_directory_offset column_data_offset
                 (replicate (block_length span_count T_waveform_span) zero_span)
                 (replicate (block_length packed_column_count T_waveform_column) zero_column)
                 0 APTA_FEATURE_WAVEFORM_OVERVIEW 0 (Z.to_nat span_count) in
  let '(spans, columns, features) := loop in
  Ret {| res_info :=
           {| ri_specification_major := wi_specification_major input;
              ri_specification_minor := wi_specification_minor input;
              ri_producer_api_version := wi_producer_api_version input;
              ri_container_version := 1; ri_generation := 1;
              ri_available_features := features;
              ri_changed_features := APTA_FEATURE_WAVEFORM_OVERVIEW;
              ri_session_state :=
                if any (wi_container_flags input) APTA_CONTAINER_FLAG_PARTIAL_RESULT
                then APTA_SESSION_ACTIVE else APTA_SESSION_COMPLETED |};
         res_source_info :=
           {| si_total_frames := wi_total_source_frames input;
              si_sample_rate := wi_source_sample_rate input;
              si_channel_count := u16 (wi_source_channel_count input);
              si_channel_layout := wi_source_channel_layout input;
              si_fingerprint_kind := wi_source_fingerprint_kind input;
              si_fingerprint := wi_source_fingerprint input |};
         res_total_source_frames := wi_total_source_frames input;
         res_source_sample_rate := wi_source_sample_rate input;
         res_source_channel_count := u16 (wi_source_channel_count input);
         res_source_channel_layout := wi_source_channel_layout input;
         res_overview :=
           {| ov_level_id := level_id; ov_frames_per_column := frames_per_column;
              ov_origin_frame := origin_frame;
              ov_state := Z.land state APTA_WOVR_STATE_MASK;
              ov_confidence := APTA_CONFIDENCE_UNKNOWN;
              ov_span_count := span_count; ov_spans := Some spans |};
         res_overview_columns := columns |}.

Definition apta_build_parsed_result (context : apta_context_t) (b : list Z)
    (input : apta_wovr_input_t) (options : apta_effective_parse_options_t)
    (packed_column_count : Z) : apta_context_t * result parsed_result :=
  match apta_get_u32 b (wi_payload input + 20) with
  | Ub => (context, Ub)
  | Err e => (context, Err e)
  | Ret span_count =>
  let allocation_bytes :=
    u64 (u64 (sizeof T_result + u64 (span_count * sizeof T_waveform_span)) +
         u64 (packed_column_count * sizeof T_waveform_column)) in
  if eo_maximum_allocation_bytes options <? allocation_bytes
  then (context, Err APTA_ERROR_LIMIT_EXCEEDED)
  else
    match allocate_block 0 context (sizeof T_result) T_result with
    | (context, None) => (context, Err APTA_ERROR_OUT_OF_MEMORY)
    | (context, Some result_block) =>
        match allocate_block 1 context (size_t (span_count * sizeof T_waveform_span))
                T_waveform_span with
        | (context, None) => (release_block context result_block, Err APTA_ERROR_OUT_OF_MEMORY)
        | (context, Some spans_block) =>
            match allocate_block 2 context
                    (size_t (packed_column_count * sizeof T_waveform_column))
                    T_waveform_column with
            | (context, None) =>
                (release_block (release_block context spans_block) result_block,
                 Err APTA_ERROR_OUT_OF_MEMORY)
            | (context, Some columns_block) =>
                match fill_parsed_result b input packed_column_count with
                | Ret r =>
                    (count_results context 1,
                     Ret {| pa_result := r; pa_result_block := result_block;
                            pa_spans_block := spans_block;
                            pa_columns_block := columns_block |})
                | Err e => (context, Err e)
                | Ub => (context, Ub)
                end
            end
        end
    end
  end.

(** [apta_result_release] of a parsed result whose only reference is dropped. *)
Definition release_parsed (context : apta_context_t) (p : parsed_result) : apta_context_t :=
  release_block
    (count_results
       (release_block (release_block context (pa_spans_block p)) (pa_columns_block p)) (-1))
    (pa_result_block p).

(** [apta_result_parse] of apta_wovr_reader.c. *)
Definition apta_result_parse_base (context : option apta_context_t)
    (options : option apta_parse_options_t) (buffer : option (list Z))
  : option apta_context_t * result parsed_result :=
  match context, buffer with
  | Some c, Some b =>
      let validated :=
        let! effective := apta_resolve_parse_options options in
        let! input := apta_validate_container b effective in
        let! packed_column_count := apta_validate_wovr_geometry b input effective in
        Ret (effective, input, packed_column_count) in
      match validated with
      | Ret (effective, input, packed_column_count) =>
          let '(c, r) := apta_build_parsed_result c b input effective packed_column_count in
          (Some c, r)
      | Err e => (context, Err e)
      | Ub => (context, Ub)
      end
  | _, _ => (context, Err APTA_ERROR_INVALID_ARGUMENT)
  end.

(** ** The hardening pass *)

(** Packed columns [first_column, end_column). *)
Abbreviation packed_interval := (Z * Z)%type.

Definition apta_compare_packed_intervals (l r : packed_interval) : Z :=
  if l.1 <? r.1 then -1
  else if r.1 <? l.1 then 1
  else if l.2 <? r.2 then -1
  else if r.2 <? l.2 then 1
  else 0.

Definition interval_le (l r : packed_interval) : Prop := apta_compare_packed_intervals l r <= 0.

#[export] Instance interval_le_dec l r : Decision (interval_le l r).
Proof. unfold interval_le. apply _. Defined.

(** [qsort] with that comparison. *)
Definition sort_intervals : list packed_interval -> list packed_interval :=
  merge_sort interval_le.

Fixpoint intervals_overlap (l : list packed_interval) : bool :=
  match l with
  | i :: (j :: _) as l' => (j.1 <? i.2) || intervals_overlap l'
  | _ => false
  end.

Fixpoint find_wovr_loop (b : list Z) (directory_offset : Z) (index n : nat) : result (option Z) :=
  match n with
  | O => Ret None
  | S n =>
      let entry := directory_entry directory_offset index in
      let! name := get_bytes b entry 4 in
      if bytes_equal name tag_WOVR
      then let! offset := apta_get_u64 b (entry + 8) in Ret (Some (size_t offset))
      else find_wovr_loop b directory_offset (S index) n
  end.

Definition apta_find_wovr_payload (b : list Z) : result (option Z) :=
  let! section_count := apta_get_u32 b 20 in
  let! directory_offset := apta_get_u64 b 24 in
  find_wovr_loop b directory_offset 0 (Z.to_nat section_count).

(** The loop that records the packed intervals and, of a final overview, checks
    that each span continues the one before. *)
Fixpoint harden_loop (b : list Z) (payload span_directory_offset : Z) (final : bool)
    (intervals : list packed_interval) (previous_end_frame previous_end_column : Z)
    (span_index n : nat) : result (list packed_interval * Z * Z) :=
  match n with
  | O => Ret (intervals, previous_end_frame, previous_end_column)
  | S n =>
      let span := span_record payload span_directory_offset span_index in
      let! first_frame := apta_get_u64 b (span + 0) in
      let! end_frame := apta_get_u64 b (span + 8) in
      let! first_column := apta_get_u32 b (span + 16) in
      let! column_count := apta_get_u32 b (span + 20) in
      let! data_column_offset := apta_get_u32 b (span + 24) in
      bail APTA_ERROR_CORRUPT_DATA when
        final && (negb (first_frame =? previous_end_frame) ||
                  negb (first_column =? previous_end_column)) in
      let! intervals := arr_put intervals span_index
                          (data_column_offset, u64 (data_column_offset + column_count)) in
      harden_loop b payload span_directory_offset final intervals
        end_frame (u64 (first_column + column_count)) (S span_index) n
  end.

Definition apta_harden_validated_wovr (context : apta_context_t) (b : list Z)
  : apta_context_t * result unit :=
  let fields :=
    let! payload := apta_find_wovr_payload b in
    match payload with
    | None => Err APTA_ERROR_CORRUPT_DATA
    | Some payload =>
        let! total_source_frames := apta_get_u64 b 40 in
        let! origin_frame := apta_get_u64 b (payload + 8) in
        let! logical_column_count := apta_get_u32 b (payload + 16) in
        let! span_count := apta_get_u32 b (payload + 20) in
        let! span_directory_offset := apta_get_u64 b (payload + 24) in
        let! flags := apta_get_u32 b (payload + 40) in
        bail APTA_ERROR_LIMIT_EXCEEDED when
          negb (apta_internal_size_array_fits 0 span_count (sizeof T_packed_interval)) in
        Ret (payload, total_source_frames, origin_frame, logical_column_count, span_count,
             span_directory_offset, Z.land flags APTA_WOVR_STATE_MASK)
    end in
  match fields with
  | Err e => (context, Err e)
  | Ub => (context, Ub)
  | Ret (payload, total_source_frames, origin_frame, logical_column_count, span_count,
         span_directory_offset, state) =>
      match allocate_block 3 context (size_t (span_count * sizeof T_packed_interval))
              T_packed_interval with
      | (context, None) => (context, Err APTA_ERROR_OUT_OF_MEMORY)
      | (context, Some block) =>
          let final := state =? APTA_FEATURE_FINAL in
          let status :=
            let! loop := harden_loop b payload span_directory_offset final
                           (replicate (block_length span_count T_packed_interval) (0, 0))
                           origin_frame 0 0 (Z.to_nat span_count) in
            let '(intervals, previous_end_frame, previous_end_column) := loop in
            bail APTA_ERROR_CORRUPT_DATA when
              final && (negb (previous_end_column =? logical_column_count) ||
                        negb (previous_end_frame =? total_source_frames)) in
            bail APTA_ERROR_CORRUPT_DATA when
              intervals_overlap (sort_intervals (take (Z.to_nat span_count) intervals)) in
            Ret tt in
          (release_block context block, status)
      end
  end.

(** [apta_result_parse] of apta_wovr_reader_hardening.c. *)
Definition apta_result_parse_wovr_hardened (context : option apta_context_t)
    (options : option apta_parse_options_t) (buffer : option (list Z))
  : option apta_context_t * result parsed_result :=
  match apta_result_parse_base context options buffer with
  | (Some c, Ret parsed) =>
      match buffer with
      | None => (Some c, Ub)
      | Some b =>
          match apta_harden_validated_wovr c b with
          | (c, Ret _) => (Some c, Ret parsed)
          | (c, Err e) => (Some (release_parsed c parsed), Err e)
          | (c, Ub) => (Some c, Ub)
          end
      end
  | (c, r) => (c, r)
  end.

End Build.
