(* ===== verification/WovrWriterTheorems.v ===== *)
(** * The writer produces the format

    A call of [apta_result_serialize] stays inside the buffer and, when it
    succeeds, leaves exactly [encode] of the content of the result at its start. *)

From S2P Require Import Prelude Platform Bytes Wovr WovrSpec.

(** ** The layout *)

Section Layout.
Context (r : apta_result_t).
Let columns := res_overview_columns r.

Lemma layout_columns_defined base n :
  (base + n <= length columns)%nat -> wp (layout_columns columns base n) (fun _ => True).
Proof.
  revert base. induction n as [|n IH]; intros base Hn; [done|]. cbn [layout_columns].
  destruct (arr_get_defined (E := apta_status_t) columns base) as (c & _ & ->); [lia|]. simpl.
  apply wp_bail. intros _. apply IH. lia.
Qed.

Lemma span_content_count s base :
  span_typed columns s -> sp_columns s = Some base ->
  zlen (k_columns (span_content_of columns s)) = sp_column_count s.
Proof.
  intros (_ & _ & _ & Hc & Hb) E. simpl. rewrite E in *. unfold zlen, is_u32 in *.
  rewrite length_take, length_drop. lia.
Qed.

Lemma layout_spans_spec spans i n packed logical previous :
  Forall (span_typed columns) spans -> (i + n <= length spans)%nat ->
  0 <= packed <= UINT32_MAX -> 0 <= logical ->
  wp (layout_spans r spans i n packed logical previous) (fun c =>
    let l := take n (drop i spans) in
    let ks := map (span_content_of columns) l in
    c.1 = packed + k_packed ks /\ c.1 <= UINT32_MAX /\ c.2 = Z.max logical (k_extent ks) /\
    Forall (fun s => is_Some (sp_columns s)) l).
Proof.
  intros Ht. revert i packed logical previous.
  induction n as [|n IH]; intros i packed logical previous Hn Hp Hl.
  - simpl. repeat split; [lia..|apply Forall_nil_2].
  - cbn [layout_spans]. destruct (arr_get_defined (E := apta_status_t) spans i) as (s & Hs & ->); [lia|].
    cbn [obind]. rewrite (drop_S _ _ _ Hs). cbn [take map].
    assert (Hts : span_typed columns s) by (by eapply Forall_lookup_1).
    destruct (sp_columns s) as [base|] eqn:Eb; [|done].
    pose proof (span_content_count s base Hts Eb) as Hcount.
    destruct Hts as (_ & _ & Hf & Hc & Hb). rewrite Eb in Hb.
    apply wp_bail. intros G. bool_facts. unfold is_u32 in *.
    rewrite u32_small in * by (unfold is_u32; lia).
    rewrite (u64_small (UINT32_MAX - packed)) by (unfold is_u64; lia).
    apply wp_bail. intros G'. bool_facts.
    eapply wp_bind_mono; [by apply layout_columns_defined|]. intros _ _.
    rewrite !u64_small by (unfold is_u64; lia).
    eapply wp_mono; [apply IH; [lia|lia|case_match; lia]|].
    intros [p l]. cbn [fst snd k_packed k_extent foldr]. unfold k_end_column at 1. rewrite Hcount.
    change (k_first_column (span_content_of columns s)) with (sp_first_column_index s).
    intros (-> & Hle & -> & Hsome). unfold k_packed in *. repeat split; [lia|lia| |by constructor].
    destruct (Z.ltb_spec logical (sp_first_column_index s + sp_column_count s)); unfold k_extent; lia.
Qed.

Lemma layout_columns_pass base n :
  (base + n <= length columns)%nat ->
  Forall (fun c => wc_minimum c <= wc_maximum c) (take n (drop base columns)) ->
  layout_columns columns base n = Ret tt.
Proof.
  revert base. induction n as [|n IH]; intros base Hn Hc; [done|]. cbn [layout_columns].
  destruct (arr_get_defined (E := apta_status_t) columns base) as (c & Hl & ->); [lia|]. cbn [obind].
  rewrite (drop_S _ _ _ Hl) in Hc. cbn [take] in Hc. apply Forall_cons in Hc as [Hc Hcs].
  assert (E : (wc_maximum c <? wc_minimum c) = false) by lia. rewrite E, andb_false_r.
  apply IH; [lia|done].
Qed.

(** The spans of a valid content pass the checks. *)
Lemma layout_spans_complete strict k spans i n packed logical previous column :
  Forall (span_typed columns) spans -> (i + n <= length spans)%nat ->
  let l := take n (drop i spans) in
  let ks := map (span_content_of columns) l in
  Forall (fun s => is_Some (sp_columns s)) l -> Forall (span_valid strict k) ks ->
  sorted_from previous column ks -> k_logical k <= UINT32_MAX ->
  0 <= packed -> packed + k_packed ks <= UINT32_MAX ->
  exists c, layout_spans r spans i n packed logical previous = Ret c.
Proof.
  intros Ht. revert i packed logical previous column.
  induction n as [|n IH]; intros i packed logical previous column Hn l ks Hsome Hv Hso Hlog Hp Hpk;
    [by eexists|].
  cbn [layout_spans]. destruct (arr_get_defined (E := apta_status_t) spans i) as (s & Hs & ->); [lia|].
  cbn [obind]. subst l ks. rewrite (drop_S _ _ _ Hs) in *. cbn [take map] in *.
  apply Forall_cons in Hsome as [[base Eb] Hsome]. apply Forall_cons in Hv as [Hvs Hv].
  destruct Hso as (Ho1 & Ho2 & Hso). rewrite Eb.
  assert (Hts : span_typed columns s) by (by eapply Forall_lookup_1).
  pose proof (span_content_count s base Hts Eb) as Hcount.
  destruct Hts as (R1 & R2 & Hf & Hc & Hb). rewrite Eb in Hb.
  unfold k_packed in Hpk. cbn [foldr] in Hpk.
  fold (k_packed (map (span_content_of columns) (take n (drop (S i) spans)))) in Hpk.
  destruct Hvs as [S1 S2 S3 S4 S5 _ _ _ _]. unfold k_end_column in *. rewrite Hcount in *.
  cbn [span_content_of k_first k_end k_first_column k_columns] in *. rewrite Eb in S1, S2.
  pose proof (k_packed_nonneg (map (span_content_of columns) (take n (drop (S i) spans)))) as Hp0.
  assert (Hc1 : sp_column_count s <> 0) by (intros E; rewrite E in S1; done).
  unfold is_u32, is_u64 in *. rewrite u32_small by (unfold is_u32; lia).
  rewrite (u64_small (UINT32_MAX - packed)) by (unfold is_u64; lia).
  rewrite !u64_small by (unfold is_u64; lia).
  match goal with |- context [if ?c then Err _ else _] => assert (E : c = false) by lia; rewrite E; clear E end.
  match goal with |- context [if ?c then Err _ else _] => assert (E : c = false) by lia; rewrite E; clear E end.
  rewrite layout_columns_pass; [cbn [obind]|lia|].
  - eapply IH; [lia|done|done|exact Hso|done|lia|lia].
  - eapply Forall_impl; [exact S2|]. intros c (_ & _ & Hmm & _). exact Hmm.
Qed.

End Layout.

Lemma k_flags_layout r : layout_container_flags r = k_flags (content_of r).
Proof.
  unfold k_flags, k_known. cbn [k_partial k_total_frames content_of]. unfold layout_container_flags.
  by destruct (negb (ov_state _ =? _) || _)%bool, (res_total_source_frames r =? _).
Qed.

Section Serialize.
Context `{PlatformLaws}.

(** What a computed layout says of the result. *)
Record layout_ok (r : apta_result_t) (l : apta_serialization_layout_t) : Prop := {
  lo_total : sl_total_size l = k_total_size (content_of r);
  lo_payload : sl_payload_size l = k_payload_size (content_of r);
  lo_logical : sl_logical_column_count l = k_logical (content_of r);
  lo_flags : sl_container_flags l = k_flags (content_of r);
  lo_state : sl_wovr_flags l = ov_state (res_overview r);
  lo_packed_range : k_packed (k_spans (content_of r)) <= UINT32_MAX;
  lo_span_count : zlen (k_spans (content_of r)) = ov_span_count (res_overview r);
  lo_channels : res_source_channel_count r <= UINT16_MAX;
  lo_layout : res_source_channel_layout r <= UINT16_MAX;
  lo_spans : is_Some (ov_spans (res_overview r));
  lo_columns : Forall (fun s => is_Some (sp_columns s)) (result_spans r)
}.

Lemma calculate_layout_spec r options :
  result_typed r ->
  wp (apta_serialization_calculate_layout (Some r) options) (layout_ok r).
Proof.
  intros Ht. unfold apta_serialization_calculate_layout.
  apply wp_bail. intros _. apply wp_bail. intros _.
  destruct (ov_spans (res_overview r)) as [spans|] eqn:Es; [|done].
  destruct (rt_spans _ Ht spans Es) as [Hn Hspans].
  pose proof (rt_span_count _ Ht) as Hsc. pose proof (rt_frames_per_column _ Ht) as Hf.
  pose proof (rt_origin _ Ht) as Ho. pose proof (rt_total _ Ht) as Htot.
  unfold is_u32, is_u64, zlen in *.
  apply wp_bail. intros G. bool_facts.
  eapply wp_bind_mono; [apply (layout_spans_spec r spans 0); [done|lia..]|].
  intros [p l]. cbn [fst snd]. rewrite drop_0.
  assert (Erspans : result_spans r = take (Z.to_nat (ov_span_count (res_overview r))) spans)
    by (unfold result_spans; by rewrite Es).
  rewrite <- Erspans. fold (k_spans (content_of r)).
  change (map (span_content_of (res_overview_columns r)) (result_spans r)) with (k_spans (content_of r)).
  intros (Hp & Hpm & Hl & Hsome). rewrite Z.add_0_l in Hp.
  assert (Hzs : zlen (k_spans (content_of r)) = ov_span_count (res_overview r)).
  { unfold zlen. simpl. rewrite length_map, Erspans, length_take. lia. }
  pose proof (k_packed_nonneg (k_spans (content_of r))) as Hp0. rewrite <- Hp in Hp0.
  eapply (wp_bind_mono _ _ (fun l => l = k_logical (content_of r) /\ 0 <= l)).
  { unfold k_logical, k_known. cbn [k_total_frames k_origin k_frames_per_column content_of].
    destruct (res_total_source_frames r =? APTA_TOTAL_FRAMES_UNKNOWN); cbn [negb].
    - simpl. pose proof (k_extent_nonneg (k_spans (content_of r))) as He.
      rewrite Z.max_r in Hl by done. by rewrite Hl.
    - apply wp_bail. intros G1. bool_facts. rewrite (u64_small (_ - _)) by (unfold is_u64; lia).
      pose proof (required_columns_range (res_total_source_frames r - ov_origin_frame (res_overview r))
                    (ov_frames_per_column (res_overview r)) ltac:(lia) ltac:(lia)).
      rewrite u64_small by (unfold is_u64; lia). apply wp_bail. intros _. simpl. lia. }
  intros l' [Hl' Hl0]. apply wp_bail. intros G2. bool_facts.
  change APTA_WOVR_SPAN_SIZE with 32. change APTA_PACKED_COLUMN_SIZE with 10.
  change APTA_WOVR_HEADER_SIZE with 48. change APTA_WOVR_PAYLOAD_OFFSET with 136.
  rewrite (u64_small (_ * 32)), (u64_small (p * 10)) by (unfold is_u64; lia).
  apply wp_bail. intros _. rewrite (u64_small (48 + _ + _)) by (unfold is_u64; lia).
  apply wp_bail. intros _. rewrite (u64_small (136 + _)) by (unfold is_u64; lia).
  rewrite !u32_small by (unfold is_u32; lia).
  assert (Hok : layout_ok r {| sl_total_size := 136 + (48 + ov_span_count (res_overview r) * 32 + p * 10);
      sl_payload_size := 48 + ov_span_count (res_overview r) * 32 + p * 10;
      sl_packed_column_count := p; sl_logical_column_count := l';
      sl_container_flags := layout_container_flags r;
      sl_wovr_flags := Z.land (ov_state (res_overview r)) APTA_WOVR_STATE_MASK |}).
  { unfold APTA_FEATURE_PARTIAL, APTA_FEATURE_FINAL in *.
    split; simpl; rewrite ?k_flags_layout; try done; try lia;
      unfold k_total_size, k_payload_size; rewrite ?Hzs; try lia.
    - apply land_state. lia.
    - change (k_packed (k_spans (content_of r)) <= UINT32_MAX). lia. }
  destruct options as [o|]; [|done]. apply wp_bail. by intros _.
Qed.

(** A result that the writer accepts: its content is valid, its feature bit is
    set and its spans point to columns. *)
Record serializable (strict : bool) (r : apta_result_t) : Prop := {
  sz_typed : result_typed r;
  sz_valid : valid strict (content_of r);
  sz_feature : any (ri_available_features (res_info r)) APTA_FEATURE_WAVEFORM_OVERVIEW = true;
  sz_spans : exists spans, ov_spans (res_overview r) = Some spans;
  sz_columns : Forall (fun s => is_Some (sp_columns s)) (result_spans r)
}.

Lemma layout_logical strict r logical :
  valid strict (content_of r) -> logical = k_extent (k_spans (content_of r)) ->
  k_extent (k_spans (content_of r)) <= k_logical (content_of r) ->
  (if negb (res_total_source_frames r =? APTA_TOTAL_FRAMES_UNKNOWN)
   then bail APTA_ERROR_INTERNAL when (res_total_source_frames r <? ov_origin_frame (res_overview r)) in
     bail APTA_ERROR_LIMIT_EXCEEDED when
       (UINT32_MAX <? u64 (required_columns
          (u64 (res_total_source_frames r - ov_origin_frame (res_overview r)))
          (ov_frames_per_column (res_overview r)))) ||
       (u64 (required_columns
          (u64 (res_total_source_frames r - ov_origin_frame (res_overview r)))
          (ov_frames_per_column (res_overview r))) <? logical) in
     Ret (u64 (required_columns
        (u64 (res_total_source_frames r - ov_origin_frame (res_overview r)))
        (ov_frames_per_column (res_overview r))))
   else Ret logical) = Ret (k_logical (content_of r)).
Proof.
  intros Hv -> Hext. pose proof (v_logical _ _ Hv) as V9. pose proof (v_origin_total _ _ Hv) as V8.
  pose proof (v_origin _ _ Hv) as V6. pose proof (v_total_frames _ _ Hv) as V14.
  unfold k_logical, k_known in *.
  cbn [content_of k_total_frames k_origin k_frames_per_column] in *. unfold is_u64 in *.
  destruct (res_total_source_frames r =? APTA_TOTAL_FRAMES_UNKNOWN); cbn [negb] in *; [done|].
  specialize (V8 eq_refl).
  rewrite (u64_small (_ - _)) by (unfold is_u64; lia). rewrite u64_small by (unfold is_u64; lia).
  repeat match goal with
  | |- context [if ?c then Err _ else _] => assert (E1 : c = false) by lia; rewrite E1; clear E1 end.
  done.
Qed.

Lemma calculate_layout_complete strict r :
  serializable strict r -> exists l, apta_serialization_calculate_layout (Some r) None = Ret l.
Proof.
  intros [Ht Hv Hfe [spans Es] Hsome]. unfold apta_serialization_calculate_layout.
  cbn [apta_serialization_options_are_valid negb]. rewrite Hfe, Es. cbn [negb].
  destruct (rt_spans _ Ht spans Es) as [Hn Hspans]. pose proof (rt_span_count _ Ht) as Hsc.
  pose proof (v_sample_rate _ _ Hv) as V1. pose proof (v_channel_count _ _ Hv) as V2.
  pose proof (v_channel_layout _ _ Hv) as V3. pose proof (v_fingerprint_valid _ _ Hv) as V4.
  pose proof (v_frames_per_column _ _ Hv) as V5. pose proof (v_origin _ _ Hv) as V6.
  pose proof (v_state _ _ Hv) as V7. pose proof (v_origin_total _ _ Hv) as V8.
  pose proof (v_logical _ _ Hv) as V9. destruct (v_spans _ _ Hv) as [V10 _].
  pose proof (v_packed _ _ Hv) as V11. pose proof (v_span _ _ Hv) as V12.
  pose proof (v_sorted _ _ Hv) as V13. pose proof (v_total_frames _ _ Hv) as V14.
  assert (Erspans : result_spans r = take (Z.to_nat (ov_span_count (res_overview r))) spans)
    by (unfold result_spans; by rewrite Es).
  set (k := content_of r) in *.
  assert (Hks : k_spans k = map (span_content_of (res_overview_columns r)) (result_spans r)) by done.
  assert (Hn0 : ov_span_count (res_overview r) <> 0).
  { intros E. rewrite Hks, Erspans, E in V10. done. }
  cbn [k content_of k_sample_rate k_channel_count k_channel_layout k_fingerprint_kind k_fingerprint
    k_frames_per_column k_origin k_state k_total_frames] in V1, V2, V3, V4, V5, V6, V7, V8, V14.
  unfold APTA_FEATURE_PARTIAL, APTA_FEATURE_FINAL, is_u16, is_u32, is_u64, zlen in *. rewrite V4. cbn [negb].
  match goal with |- context [if ?c then Err _ else _] => assert (E : c = false) by lia; rewrite E; clear E end.
  rewrite Hks, Erspans in V12, V13, V11. rewrite Erspans in Hsome.
  rewrite <- (drop_0 spans) in V11, V12, V13, Hsome.
  pose proof (layout_spans_spec r spans 0 (Z.to_nat (ov_span_count (res_overview r))) 0 0 0 Hspans
    ltac:(lia) ltac:(lia) ltac:(lia)) as Hspec.
  destruct (layout_spans_complete r strict k spans 0 (Z.to_nat (ov_span_count (res_overview r))) 0 0 0 0
    Hspans ltac:(lia) Hsome V12 V13) as [[p l] E]; [lia|lia|lia|]. rewrite E in *. cbn [obind].
  cbn [wp fst snd] in Hspec. rewrite drop_0, <- Erspans in Hspec. destruct Hspec as (Hp & Hpm & Hl & _).
  fold k in Hp. rewrite <- Hks in Hp, Hl.
  assert (Hext : k_extent (k_spans k) <= k_logical k).
  { apply k_extent_bound; [|lia]. rewrite Hks, Erspans, <- (drop_0 spans).
    eapply Forall_impl; [exact V12|]. intros s Hs. apply (sv_logical _ _ _ Hs). }
  pose proof (k_extent_nonneg (k_spans k)) as Hext0. rewrite Z.max_r in Hl by done.
  rewrite (layout_logical strict r l) by (done || lia). cbn [obind]. fold k.
  pose proof (k_packed_nonneg (k_spans k)) as Hp0.
  rewrite Hks, Erspans, <- (drop_0 spans) in Hp, Hp0. rewrite Z.add_0_l in Hp. rewrite <- Hp in Hp0.
  change APTA_WOVR_SPAN_SIZE with 32. change APTA_PACKED_COLUMN_SIZE with 10.
  change APTA_WOVR_HEADER_SIZE with 48. change APTA_WOVR_PAYLOAD_OFFSET with 136.
  rewrite (u64_small (_ * 32)), (u64_small (p * 10)) by (unfold is_u64; lia).
  rewrite !(u64_small (UINT64_MAX - _)) by (unfold is_u64; lia).
  rewrite (u64_small (48 + _ + _)) by (unfold is_u64; lia).
  repeat match goal with
  | |- context [if ?c then Err _ else _] => assert (E1 : c = false) by lia; rewrite E1; clear E1 end.
  by eexists.
Qed.

(** ** The parts of the container *)

(** One more field in front of a run of fields. *)
Lemma put_bytes_cont b p q l k (f : list Z -> result (list Z)) :
  q = p + zlen l -> (forall b, f b = put_bytes b q k) ->
  obind (put_bytes b p l) f = put_bytes b p (l ++ k).
Proof. intros -> Hf. rewrite put_bytes_app. by destruct (put_bytes b p l); simpl. Qed.

Lemma put8_bytes b p v : put8 b p v = put_bytes b p [v].
Proof. simpl. by destruct (put8 b p v). Qed.

Ltac put_fields :=
  rewrite ?put_u16_bytes, ?put_u32_bytes, ?put_u64_bytes;
  lazymatch goal with
  | |- obind (put8 ?b ?p ?v) _ = _ => rewrite (put8_bytes b p v)
  | |- put8 ?b ?p ?v = _ => rewrite (put8_bytes b p v)
  | |- _ => idtac
  end;
  lazymatch goal with
  | |- obind _ _ = _ =>
      eapply put_bytes_cont; cycle 1; [intros ?; put_fields | zlen; try (reflexivity || lia)]
  | |- _ => try reflexivity
  end.

Lemma write_container_header_bytes b r l :
  layout_ok r l -> result_typed r ->
  write_container_header b r l = put_bytes b 0 (encode_header (content_of r)).
Proof.
  intros Hl Ht. pose proof (rt_channels _ Ht). pose proof (rt_layout _ Ht).
  pose proof (lo_channels _ _ Hl). pose proof (lo_layout _ _ Hl).
  destruct (rt_fingerprint _ Ht) as [Hfp _]. unfold is_u32 in *.
  unfold write_container_header, encode_header.
  rewrite (lo_flags _ _ Hl), (lo_total _ _ Hl).
  rewrite !u16_small by (unfold is_u16; lia).
  put_fields. unfold zlen. cbn [k_fingerprint content_of]. lia.
Qed.

Lemma write_directory_bytes b r l :
  layout_ok r l -> write_directory b 96 l = put_bytes b 96 (encode_entry (content_of r)).
Proof.
  intros Hl. unfold write_directory, encode_entry. rewrite (lo_payload _ _ Hl). put_fields.
Qed.

Lemma write_wovr_header_bytes b r l :
  layout_ok r l -> result_typed r ->
  write_wovr_header b 136 r l (48 + 32 * zlen (k_spans (content_of r))) =
  put_bytes b 136 (encode_overview (content_of r)).
Proof.
  intros Hl Ht. unfold write_wovr_header, encode_overview.
  rewrite (lo_logical _ _ Hl), (lo_state _ _ Hl), (lo_span_count _ _ Hl).
  change (136 + 0) with 136. put_fields.
Qed.

Lemma write_column_bytes b p c : write_column b p c = put_bytes b p (encode_column c).
Proof.
  unfold write_column, encode_column.
  rewrite Z.add_0_r.
  change [wc_low c; wc_mid c; wc_high c; wc_flags c]
    with ([wc_low c] ++ [wc_mid c] ++ [wc_high c] ++ [wc_flags c]).
  put_fields.
Qed.

Lemma write_span_bytes b p s packed :
  write_span b p s packed =
  put_bytes b p (le_bytes 8 (sp_first_frame s) ++ le_bytes 8 (sp_end_frame s) ++
                 le_bytes 4 (sp_first_column_index s) ++ le_bytes 4 (sp_column_count s) ++
                 le_bytes 4 packed).
Proof. unfold write_span. rewrite Z.add_0_r. put_fields. Qed.


Lemma write_columns_bytes columns base n pre old post data packed :
  Forall column_typed columns -> (base + n <= length columns)%nat ->
  zlen pre = data + packed * 10 -> length old = (10 * n)%nat ->
  0 <= packed -> packed + Z.of_nat n <= UINT32_MAX -> (packed + Z.of_nat n) * 10 <= SIZE_MAX ->
  write_columns (pre ++ old ++ post) columns base n data packed =
  Ret (pre ++ encode_columns (take n (drop base columns)) ++ post).
Proof.
  intros Ht. revert base pre old packed.
  induction n as [|n IH]; intros base pre old packed Hb Hpre Hold Hp Hu Hs.
  - destruct old; [done|discriminate].
  - cbn [write_columns]. destruct (arr_get_defined (E := apta_status_t) columns base) as (c & Hc & ->); [lia|].
    cbn [obind]. change APTA_PACKED_COLUMN_SIZE with 10.
    rewrite size_t_small by (unfold is_size; lia). rewrite write_column_bytes, <- Hpre.
    assert (Hct : column_typed c) by (by eapply Forall_lookup_1).
    rewrite <- (take_drop 10 old), <- !app_assoc.
    rewrite put_bytes_middle; [|done|by rewrite length_take, length_encode_column; lia
                               |by apply encode_column_ok].
    cbn [obind]. rewrite u32_small by (unfold is_u32; lia). rewrite (app_assoc pre).
    rewrite IH; [|lia| |rewrite length_drop; lia|lia..].
    + rewrite (drop_S _ _ _ Hc). cbn [take]. unfold encode_columns. cbn [mbind list_bind].
      by rewrite <- !app_assoc.
    + zlen. rewrite Hpre. unfold zlen. rewrite length_encode_column. lia.
Qed.

Lemma write_spans_bytes r spans i n P C O post data packed :
  let ks := map (span_content_of (res_overview_columns r)) (take n (drop i spans)) in
  Forall column_typed (res_overview_columns r) ->
  Forall (span_typed (res_overview_columns r)) spans -> (i + n <= length spans)%nat ->
  Forall (fun s => is_Some (sp_columns s)) (take n (drop i spans)) ->
  zlen P = 136 + 48 + 32 * Z.of_nat i -> zlen P + 32 * Z.of_nat n + zlen C = data + packed * 10 ->
  zlen O = 10 * k_packed ks -> 0 <= packed -> packed + k_packed ks <= UINT32_MAX ->
  (packed + k_packed ks) * 10 <= SIZE_MAX -> 32 * Z.of_nat (i + n) <= SIZE_MAX ->
  write_spans (P ++ replicate (32 * n) 0 ++ C ++ O ++ post) r spans i n 136 data packed =
  Ret (P ++ encode_spans packed ks ++ C ++ encode_all_columns ks ++ post).
Proof.
  intros ks Hc Ht. subst ks. revert i P C O packed.
  induction n as [|n IH]; intros i P C O packed Hn Hsome HP HC HO Hp Hu Hs Hi.
  - simpl in *. destruct O as [|o O]; [done|]. rewrite zlen_cons in HO. unfold zlen in HO. lia.
  - cbn [write_spans]. destruct (arr_get_defined (E := apta_status_t) spans i) as (s & Es & ->); [lia|].
    cbn [obind]. rewrite (drop_S _ _ _ Es) in *. cbn [take map] in *.
    apply Forall_cons in Hsome as [[base Eb] Hsome]. rewrite Eb.
    assert (Hst : span_typed (res_overview_columns r) s) by (by eapply Forall_lookup_1).
    pose proof (span_content_count _ s base Hst Eb) as Hcount.
    set (k := span_content_of (res_overview_columns r) s) in *.
    set (ks := map _ _) in *. cbn [k_packed foldr] in HO, Hu, Hs. fold (k_packed ks) in HO, Hu, Hs.
    pose proof (k_packed_nonneg ks). destruct Hst as (_ & _ & _ & Hsc & Hb). rewrite Eb in Hb.
    unfold is_u32 in Hsc.
    change APTA_WOVR_HEADER_SIZE with 48. change APTA_WOVR_SPAN_SIZE with 32.
    rewrite size_t_small by (unfold is_size; lia).
    replace (136 + 48 + Z.of_nat i * 32) with (zlen P) by lia. rewrite write_span_bytes.
    replace (32 * S n)%nat with (28 + (4 + 32 * n))%nat by lia.
    rewrite !replicate_add, <- !app_assoc.
    rewrite put_bytes_middle; [|done|done|unfold bytes_ok; bytes_ok]. cbn [obind].
    set (record := le_bytes 8 (sp_first_frame s) ++ _).
    assert (Hrec : record ++ replicate 4 0 = encode_span k packed)
      by (rewrite encode_span_split, Hcount; reflexivity).
    assert (Hlen : zlen record = 28) by reflexivity.
    assert (Hzs : zlen (replicate (32 * n) 0) = 32 * Z.of_nat n) by (rewrite zlen_replicate; lia).
    rewrite <- (take_drop (Z.to_nat (10 * sp_column_count s)) O), <- !app_assoc.
    unfold zlen in HO.
    pose proof (write_columns_bytes (res_overview_columns r) base (Z.to_nat (sp_column_count s))
      (P ++ record ++ replicate 4 0 ++ replicate (32 * n) 0 ++ C)
      (take (Z.to_nat (10 * sp_column_count s)) O)
      (drop (Z.to_nat (10 * sp_column_count s)) O ++ post) data packed) as Hw.
    rewrite <- !app_assoc in Hw. rewrite Hw; clear Hw;
      [|done|done|zlen; rewrite Hlen; lia|rewrite length_take; unfold zlen in *; lia|lia|lia|lia].
    cbn [obind]. rewrite u32_small by (unfold is_u32; lia).
    assert (Hcols : take (Z.to_nat (sp_column_count s)) (drop base (res_overview_columns r)) = k_columns k)
      by (simpl; by rewrite Eb).
    rewrite Hcols.
    pose proof (IH (S i) (P ++ record ++ replicate 4 0) (C ++ encode_columns (k_columns k))
      (drop (Z.to_nat (10 * sp_column_count s)) O) (packed + sp_column_count s)) as HI.
    rewrite <- !app_assoc in HI. rewrite HI; clear HI IH;
      [|lia|done|zlen; rewrite Hlen; lia|zlen; rewrite zlen_encode_columns, Hlen, Hcount; lia
       |unfold zlen; rewrite length_drop; fold ks; unfold zlen in *; lia|lia|fold ks; lia|fold ks; lia|lia].
    fold ks. cbn [encode_spans]. unfold encode_all_columns. cbn [mbind list_bind].
    by rewrite <- Hrec, Hcount, <- !app_assoc.
Qed.

(** Writing and checksumming in the middle of a buffer. *)
Lemma put_bytes_front old b2 l :
  length old = length l -> bytes_ok l -> put_bytes (old ++ b2) 0 l = Ret (l ++ b2).
Proof. by apply (put_bytes_middle []). Qed.

Lemma put_u32_middle b1 old b2 p v :
  p = zlen b1 -> length old = 4%nat ->
  apta_put_u32 (b1 ++ old ++ b2) p v = Ret (b1 ++ le_bytes 4 v ++ b2).
Proof.
  intros Hp Ho. rewrite put_u32_bytes. apply put_bytes_middle; [done|done|apply bytes_ok_le].
Qed.

Lemma crc32c_at_middle b1 l b2 p n :
  p = zlen b1 -> length l = n ->
  crc32c_at (b1 ++ l ++ b2) p n = Ret (apta_internal_crc32c (Some l)).
Proof.
  intros Hp Hn. unfold crc32c_at. rewrite (get_bytes_holds _ _ l); [done| |done].
  by exists b1, b2.
Qed.

(** The writing half of the call, over a cleared buffer. *)
Lemma write_container r spans l post :
  let k := content_of r in
  let N := length (k_spans k) in
  let n := Z.to_nat (k_packed (k_spans k)) in
  result_typed r -> layout_ok r l -> ov_spans (res_overview r) = Some spans ->
  k_total_size k <= SIZE_MAX ->
  (let! b := write_container_header
       (replicate 92 0 ++ replicate 4 0 ++ replicate 32 0 ++ replicate 4 0 ++ replicate 4 0 ++
        replicate 44 0 ++ replicate 4 0 ++ replicate (32 * N) 0 ++ [] ++
        replicate (10 * n) 0 ++ post) r l in
   let! b := write_directory b 96 l in
   let! b := write_wovr_header b 136 r l (48 + 32 * zlen (k_spans k)) in
   write_spans b r spans 0 (Z.to_nat (ov_span_count (res_overview r))) 136
     (136 + (48 + 32 * zlen (k_spans k))) 0) =
  Ret (encode_header k ++ replicate 4 0 ++ encode_entry k ++ replicate 4 0 ++ replicate 4 0 ++
       encode_payload k ++ post).
Proof.
  intros k N n Ht Hl Es Hs. destruct (rt_fingerprint _ Ht) as [Hf Hfo].
  destruct (rt_spans _ Ht _ Es) as [Hcount Hst].
  pose proof (lo_span_count _ _ Hl) as HN. pose proof (lo_packed_range _ _ Hl) as Hp.
  pose proof (k_packed_nonneg (k_spans k)) as Hp0. fold k in HN, Hp.
  assert (Erspans : result_spans r = take N spans).
  { unfold result_spans. rewrite Es. simpl. f_equal. unfold N, zlen in *. lia. }
  assert (Hks : k_spans k = map (span_content_of (res_overview_columns r)) (take N (drop 0 spans)))
    by (by rewrite drop_0, <- Erspans).
  assert (HNn : Z.to_nat (ov_span_count (res_overview r)) = N) by (unfold N, zlen in *; lia).
  pose proof (zlen_encode_header k Hf) as Hh. pose proof (zlen_encode_entry k) as He.
  pose proof (zlen_encode_overview k) as Hv.
  unfold k_total_size, k_payload_size in Hs.
  rewrite (write_container_header_bytes _ _ _ Hl Ht). fold k.
  rewrite (put_bytes_front _ _ (encode_header k));
    [|by rewrite length_replicate; symmetry; apply zlen_length|by apply encode_header_ok].
  cbn [obind]. rewrite (write_directory_bytes _ _ _ Hl). fold k.
  rewrite (app_assoc (encode_header k)).
  rewrite (put_bytes_middle _ _ _ 96 (encode_entry k));
    [|by zlen; rewrite Hh|by rewrite length_replicate; symmetry; apply zlen_length
     |apply encode_entry_ok].
  cbn [obind]. unfold k. rewrite (write_wovr_header_bytes _ _ _ Hl Ht). fold k.
  rewrite (app_assoc (encode_entry k)), (app_assoc _ (replicate 4 0)), (app_assoc (_ ++ _)).
  rewrite (put_bytes_middle _ _ _ 136 (encode_overview k));
    [|by zlen; rewrite Hh, He|by rewrite length_replicate; symmetry; apply zlen_length
     |apply encode_overview_ok].
  cbn [obind]. rewrite HNn.
  rewrite (app_assoc (encode_overview k)), (app_assoc _ (encode_overview k ++ _)).
  rewrite write_spans_bytes.
  - rewrite <- Hks. unfold encode_payload. by rewrite <- !app_assoc.
  - apply (rt_columns _ Ht).
  - done.
  - unfold zlen in *. lia.
  - rewrite drop_0, <- Erspans. apply (lo_columns _ _ Hl).
  - zlen. rewrite Hh, He, Hv. reflexivity.
  - zlen. rewrite Hh, He, Hv. unfold N, zlen. lia.
  - rewrite <- Hks. rewrite zlen_replicate. unfold n. lia.
  - done.
  - rewrite <- Hks. lia.
  - rewrite <- Hks. unfold zlen in Hs. lia.
  - unfold N, zlen in *. lia.
Qed.

Lemma seal_container k post (n : Z) :
  length (k_fingerprint k) = 32%nat ->
  (let b := encode_header k ++ replicate 4 0 ++ encode_entry k ++ replicate 4 0 ++
            replicate 4 0 ++ encode_payload k ++ post in
   let! payload_crc := crc32c_at b 136 (Z.to_nat (k_payload_size k)) in
   let! b := apta_put_u32 b (96 + 32) payload_crc in
   let! header_crc := crc32c_at b 0 92 in
   let! b := apta_put_u32 b 92 header_crc in
   Ret (E := apta_status_t) (b, n)) = Ret (encode k ++ post, n).
Proof.
  intros Hf. pose proof (zlen_encode_header k Hf) as Hh. pose proof (zlen_encode_entry k) as He.
  pose proof (zlen_encode_payload k) as Hp. unfold encode. cbv zeta.
  set (H1 := encode_header k) in *. set (E1 := encode_entry k) in *. set (P1 := encode_payload k) in *.
  pose proof (crc32c_at_middle (H1 ++ replicate 4 0 ++ E1 ++ replicate 4 0 ++ replicate 4 0)
                P1 post 136 (Z.to_nat (k_payload_size k))) as C1.
  rewrite <- !app_assoc in C1. rewrite C1; [|by zlen; rewrite Hh, He|unfold zlen in Hp; lia].
  cbn [obind].
  pose proof (put_u32_middle (H1 ++ replicate 4 0 ++ E1) (replicate 4 0)
                (replicate 4 0 ++ P1 ++ post) (96 + 32) (apta_internal_crc32c (Some P1))) as W1.
  rewrite <- !app_assoc in W1. rewrite W1; [|by zlen; rewrite Hh, He|done]. cbn [obind].
  pose proof (crc32c_at_middle [] H1) as C2. cbn [app] in C2.
  rewrite C2; [|done|by apply zlen_length]. cbn [obind].
  rewrite (put_u32_middle H1); [|done|done]. cbn [obind].
  by rewrite <- !app_assoc.
Qed.

Lemma clear_shape k b :
  0 <= k_packed (k_spans k) ->
  clear b (Z.to_nat (k_total_size k)) =
  replicate 92 0 ++ replicate 4 0 ++ replicate 32 0 ++ replicate 4 0 ++ replicate 4 0 ++
  replicate 44 0 ++ replicate 4 0 ++ replicate (32 * length (k_spans k)) 0 ++ [] ++
  replicate (10 * Z.to_nat (k_packed (k_spans k))) 0 ++ drop (Z.to_nat (k_total_size k)) b.
Proof.
  intros Hp. unfold clear. rewrite app_nil_l, !app_assoc, <- !replicate_add. do 2 f_equal.
  unfold k_total_size, k_payload_size, zlen. lia.
Qed.

Lemma serialize_ok r options l b :
  result_typed r -> apta_serialization_calculate_layout (Some r) options = Ret l ->
  k_total_size (content_of r) <= SIZE_MAX -> k_total_size (content_of r) <= zlen b ->
  apta_result_serialize (Some r) options (Some b) =
  Ret (encode (content_of r) ++ drop (Z.to_nat (k_total_size (content_of r))) b,
       k_total_size (content_of r)).
Proof.
  intros Htyped El Hs Hb. pose proof (calculate_layout_spec r options Htyped) as Hl.
  unfold apta_result_serialize. rewrite El in *. cbn [obind] in *.
  unfold wp in Hl. rewrite (lo_total _ _ Hl). set (k := content_of r) in *.
  destruct (Z.ltb_spec SIZE_MAX (k_total_size k)) as [|_]; [lia|].
  destruct (rt_fingerprint _ Htyped) as [Hf Hfo].
  pose proof (k_packed_nonneg (k_spans k)) as Hp0.
  assert (Htot : k_total_size k = 184 + 32 * zlen (k_spans k) + 10 * k_packed (k_spans k))
    by (unfold k_total_size, k_payload_size; lia).
  assert (Hzs : 0 <= zlen (k_spans k)) by apply zlen_nonneg.
  rewrite size_t_small by (unfold is_size; lia).
  destruct (Z.ltb_spec (zlen b) (k_total_size k)) as [|_]; [lia|].
  destruct (lo_spans _ _ Hl) as [spans Es]. rewrite Es.
  pose proof (lo_span_count _ _ Hl) as HN. fold k in HN. rewrite <- HN.
  pose proof (lo_packed_range _ _ Hl) as Hpu. fold k in Hpu.
  pose proof (rt_span_count _ Htyped) as Hsc. rewrite <- HN in Hsc. unfold is_u32 in Hsc.
  change APTA_WOVR_HEADER_SIZE with 48. change APTA_WOVR_SPAN_SIZE with 32.
  change APTA_WOVR_PAYLOAD_OFFSET with 136. change APTA_DIRECTORY_OFFSET with 96.
  rewrite (u64_small (_ * 32)) by (unfold is_u64; lia).
  rewrite u64_small by (unfold is_u64; lia). rewrite size_t_small by (unfold is_size; lia).
  replace (zlen (k_spans k) * 32) with (32 * zlen (k_spans k)) by lia.
  rewrite clear_shape by done.
  pose proof (write_container r spans l (drop (Z.to_nat (k_total_size k)) b) Htyped Hl Es Hs) as Hw.
  cbv zeta in Hw. fold k in Hw. rewrite HN in Hw |- *. revert Hw.
  generalize (replicate 92 0 ++ replicate 4 0 ++ replicate 32 0 ++
    replicate 4 0 ++ replicate 4 0 ++ replicate 44 0 ++ replicate 4 0 ++
    replicate (32 * length (k_spans k)) 0 ++ [] ++
    replicate (10 * Z.to_nat (k_packed (k_spans k))) 0 ++ drop (Z.to_nat (k_total_size k)) b) as z.
  intros z Hw.
  destruct (write_container_header z r l) as [b1| |]; try discriminate. cbn [obind] in *.
  destruct (write_directory b1 96 l) as [b2| |]; try discriminate. cbn [obind] in *.
  destruct (write_wovr_header b2 136 r l _) as [b3| |]; try discriminate. cbn [obind] in *.
  rewrite Hw. cbn [obind]. rewrite (lo_payload _ _ Hl). fold k.
  by rewrite (seal_container k _ _ Hf).
Qed.

(** C21. The writer implements the format: whatever the result, the options and
    the buffer, the call never leaves its buffer and never stops half way.  On
    success it reports the size [apta_result_query_serialized_size] announces,
    that many bytes at the start of the buffer are the encoding of the content
    of the result, and the rest of the buffer is untouched; it fails only when
    the layout does, the size does not fit a [size_t], or the buffer is too
    small. *)
Theorem serialize_writes_encoding (r : apta_result_t) (options : option apta_serialize_options_t)
    (b : list Z) (Htyped : result_typed r) :
  let k := content_of r in
  match apta_result_serialize (Some r) options (Some b) with
  | Ret (b', n) =>
      apta_result_query_serialized_size (Some r) options = Ret n /\
      n = zlen (encode k) /\ n <= zlen b /\ b' = encode k ++ drop (Z.to_nat n) b
  | Err e =>
      apta_serialization_calculate_layout (Some r) options = Err e \/
      e = APTA_ERROR_LIMIT_EXCEEDED /\ SIZE_MAX < k_total_size k \/
      e = APTA_ERROR_BUFFER_TOO_SMALL /\ zlen b < k_total_size k
  | Ub => False
  end.
Proof.
  intros k. pose proof (calculate_layout_spec r options Htyped) as Hl.
  pose proof (serialize_ok r options) as Hok. pose proof (zlen_encode k) as Hze.
  destruct (rt_fingerprint _ Htyped) as [Hf _]. specialize (Hze Hf).
  unfold apta_result_query_serialized_size.
  destruct (apta_serialization_calculate_layout (Some r) options) as [l|e|] eqn:El; [| |done].
  2: { unfold apta_result_serialize. rewrite El. by left. }
  unfold wp in Hl. pose proof (lo_total _ _ Hl) as Ht. fold k in Ht, Hok.
  destruct (Z.leb_spec (k_total_size k) SIZE_MAX) as [Hs|Hs].
  2: { unfold apta_result_serialize. rewrite El. cbn [obind]. rewrite Ht.
       destruct (Z.ltb_spec SIZE_MAX (k_total_size k)); [by right; left|lia]. }
  pose proof (zlen_nonneg (encode k)) as Hz0. rewrite Hze in Hz0.
  destruct (Z.leb_spec (k_total_size k) (zlen b)) as [Hb|Hb].
  - rewrite (Hok l b) by done. cbn [obind]. by rewrite Ht, Hze.
  - unfold apta_result_serialize. rewrite El. cbn [obind]. rewrite Ht.
    destruct (Z.ltb_spec SIZE_MAX (k_total_size k)); [lia|]. rewrite size_t_small by done.
    destruct (Z.ltb_spec (zlen b) (k_total_size k)); [by right; right|lia].
Qed.

End Serialize.

(** ** A concrete result: a finished track of 2500 frames in two spans *)

Definition sample_column (low high : Z) : apta_waveform_column_t :=
  {| wc_minimum := low; wc_maximum := high; wc_rms := 77; wc_low := 0; wc_mid := 0;
     wc_high := 0; wc_flags := 1 |}.

Definition sample_result : apta_result_t :=
  {| res_info :=
       {| ri_specification_major := 1; ri_specification_minor := 0;
          ri_producer_api_version := APTA_API_VERSION; ri_container_version := 0;
          ri_generation := 5; ri_available_features := APTA_FEATURE_WAVEFORM_OVERVIEW;
          ri_changed_features := APTA_FEATURE_WAVEFORM_OVERVIEW;
          ri_session_state := APTA_SESSION_COMPLETED |};
     res_source_info :=
       {| si_total_frames := 2500; si_sample_rate := 44100; si_channel_count := 2;
          si_channel_layout := 2; si_fingerprint_kind := 1; si_fingerprint := replicate 32 171 |};
     res_total_source_frames := 2500; res_source_sample_rate := 44100;
     res_source_channel_count := 2; res_source_channel_layout := 2;
     res_overview :=
       {| ov_level_id := 0; ov_frames_per_column := 1024; ov_origin_frame := 0;
          ov_state := APTA_FEATURE_FINAL; ov_confidence := APTA_CONFIDENCE_UNKNOWN;
          ov_span_count := 2;
          ov_spans := Some
            [{| sp_first_frame := 0; sp_end_frame := 1024; sp_first_column_index := 0;
                sp_column_count := 1; sp_columns := Some 2%nat |};
             {| sp_first_frame := 1024; sp_end_frame := 2500; sp_first_column_index := 1;
                sp_column_count := 2; sp_columns := Some 0%nat |}] |};
     res_overview_columns :=
       [sample_column (-12) 7; sample_column (-3000) 2999; sample_column 0 32767] |}.

Lemma sample_result_typed : result_typed sample_result.
Proof.
  split; unfold is_u64, is_u32; simpl; unfold APTA_FEATURE_FINAL; try lia.
  - split; [done|]. apply (Forall_replicate is_u8 32 171). unfold is_u8. lia.
  - repeat (apply Forall_cons; split); [..|apply Forall_nil_2]; unfold column_typed; widths; simpl; lia.
  - intros spans [= <-]. split; [done|].
    repeat (apply Forall_cons; split); [..|apply Forall_nil_2]; unfold span_typed; widths; simpl; lia.
Qed.

Import LP64.

Lemma serialize_writes_encoding_witness :
  result_typed sample_result /\
  exists b, apta_result_serialize (Some sample_result) None (Some (replicate 300 9)) = Ret (b, 278) /\
    take 278 b = encode (content_of sample_result) /\ drop 278 b = replicate 22 9.
Proof.
  split; [exact sample_result_typed|].
  pose proof (serialize_writes_encoding sample_result None (replicate 300 9) sample_result_typed) as Hs.
  destruct (apta_result_serialize (Some sample_result) None (Some (replicate 300 9)))
    as [[b n]|e|] eqn:E; [|vm_compute in E; discriminate..].
  assert (Hn : n = 278) by (vm_compute in E; by injection E as _ <-). subst n.
  destruct Hs as (_ & Hz & _ & Hb). exists b. split; [reflexivity|]. subst b. split.
  - apply take_app_length'. unfold zlen in Hz. lia.
  - rewrite drop_app_length' by (unfold zlen in Hz; lia). reflexivity.
Defined.
