(* ===== verification/WovrReaderTheorems.v ===== *)
(** * The reader is safe, and what it accepts is valid

    For every buffer the reader stays inside it; what it builds has a valid
    content. *)

From stdpp Require Import sorting.
From S2P Require Import Prelude Platform Bytes Workspace Memory Wovr WovrSpec WovrReader.
Open Scope Z_scope.

(** One read inside the buffer. *)
Ltac rd :=
  lazymatch goal with
  | Hb : bytes_ok ?b |- wp (obind (apta_get_u16 ?b ?p) _) _ =>
      let v := fresh "v" in let E := fresh "E" in let R := fresh "R" in
      destruct (get_u16_defined b Hb p) as (v & E & R); [lia..|]; rewrite E; cbn [obind]
  | Hb : bytes_ok ?b |- wp (obind (apta_get_u32 ?b ?p) _) _ =>
      let v := fresh "v" in let E := fresh "E" in let R := fresh "R" in
      destruct (get_u32_defined b Hb p) as (v & E & R); [lia..|]; rewrite E; cbn [obind]
  | Hb : bytes_ok ?b |- wp (obind (apta_get_u64 ?b ?p) _) _ =>
      let v := fresh "v" in let E := fresh "E" in let R := fresh "R" in
      destruct (get_u64_defined b Hb p) as (v & E & R); [lia..|]; rewrite E; cbn [obind]
  | Hb : bytes_ok ?b |- wp (obind (apta_get_i16 ?b ?p) _) _ =>
      let v := fresh "v" in let E := fresh "E" in let R := fresh "R" in
      destruct (get_i16_defined b Hb p) as (v & E & R); [lia..|]; rewrite E; cbn [obind]
  | Hb : bytes_ok ?b |- wp (obind (get8 ?b ?p) _) _ =>
      let v := fresh "v" in let E := fresh "E" in let R := fresh "R" in
      destruct (get8_defined b Hb p) as (v & E & R); [lia..|]; rewrite E; cbn [obind]
  | Hb : bytes_ok ?b |- wp (obind (get_bytes ?b ?p ?n) _) _ =>
      let l := fresh "l" in let E := fresh "E" in let L := fresh "L" in
      let R := fresh "R" in let Hh := fresh "Hh" in
      destruct (get_bytes_defined b Hb p n) as (l & E & L & R & Hh); [lia..|]; rewrite E; cbn [obind]
  end.

Lemma ranges_overlap_false a n c m :
  0 <= a -> 0 <= n -> a + n <= UINT64_MAX -> 0 <= c -> 0 <= m -> c + m <= UINT64_MAX ->
  apta_ranges_overlap a n c m = false <-> n = 0 \/ m = 0 \/ a + n <= c \/ c + m <= a.
Proof.
  intros. unfold apta_ranges_overlap. rewrite !u64_small by (unfold is_u64; lia).
  destruct (Z.eqb_spec n 0), (Z.eqb_spec m 0); simpl; try tauto.
  rewrite andb_false_iff, !Z.ltb_ge. lia.
Qed.

Lemma range_fits_true a n t :
  0 <= a -> 0 <= n -> 0 <= t <= UINT64_MAX ->
  apta_range_fits a n t = true <-> a + n <= t.
Proof.
  intros. unfold apta_range_fits. rewrite andb_true_iff, !Z.leb_le. split.
  - intros [? Hn]. rewrite u64_small in Hn by (unfold is_u64; lia). lia.
  - intros ?. rewrite u64_small by (unfold is_u64; lia). lia.
Qed.

(** A span record with its columns. *)
Abbreviation checked_span := (span_entry * list apta_waveform_column_t)%type.

Definition content_of_span (s : checked_span) : span_content :=
  {| k_first := sn_first_frame s.1; k_end := sn_end_frame s.1;
     k_first_column := sn_first_column s.1; k_columns := s.2 |}.

Definition last_column (default : Z) (l : list checked_span) : Z :=
  foldl (fun _ s => sn_end_column s.1) default l.

Section Container.
Context `{PlatformLaws}.
Context (b : list Z) (Hb : bytes_ok b) (Hsize : is_size (zlen b)).
Context (o : apta_effective_parse_options_t).

Lemma zlen_u64 : 0 <= zlen b <= UINT64_MAX.
Proof. unfold is_size in Hsize. pose proof size_max_bounds. lia. Qed.

Lemma crc32c_at_defined p n :
  0 <= p -> p + Z.of_nat n <= zlen b -> exists crc, crc32c_at b p n = Ret crc.
Proof.
  intros Hp Hn. destruct (get_bytes_defined b Hb p n Hp Hn) as (l & El & _).
  unfold crc32c_at. rewrite El. by eexists.
Qed.

(** What was read from the header. *)
Record header_read (h : container_header) : Prop := {
  hr_header_size : is_u16 (ch_header_size h);
  hr_section_count : is_u32 (ch_section_count h);
  hr_directory_offset : is_u64 (ch_directory_offset h);
  hr_total : is_u64 (wi_total_source_frames (ch_input h));
  hr_rate : is_u32 (wi_source_sample_rate (ch_input h));
  hr_channels : is_u16 (wi_source_channel_count (ch_input h));
  hr_layout : is_u16 (wi_source_channel_layout (ch_input h));
  hr_kind : is_u32 (wi_source_fingerprint_kind (ch_input h));
  hr_fingerprint : length (wi_source_fingerprint (ch_input h)) = 32%nat /\
                   bytes_ok (wi_source_fingerprint (ch_input h));
  hr_input_flags : wi_container_flags (ch_input h) = ch_container_flags h;
  hr_get_count : apta_get_u32 b 20 = Ret (ch_section_count h);
  hr_get_directory : apta_get_u64 b 24 = Ret (ch_directory_offset h);
  hr_get_total : apta_get_u64 b 40 = Ret (wi_total_source_frames (ch_input h));
  hr_get_crc : apta_get_u32 b 92 = Ret (ch_header_crc h)
}.

Lemma read_container_header_spec :
  96 <= zlen b -> wp (read_container_header b) header_read.
Proof.
  intros Hz. unfold read_container_header. change (Z.to_nat APTA_SOURCE_FINGERPRINT_SIZE) with 32%nat.
  do 16 rd. apply wp_ret. by split.
Qed.

(** What the checks of the header establish. *)
Record header_checked (h : container_header) : Prop := {
  hc_header_size : 96 <= ch_header_size h <= zlen b;
  hc_section_count : 1 <= ch_section_count h;
  hc_directory : ch_header_size h <= ch_directory_offset h /\
                 ch_directory_offset h + 40 * ch_section_count h <= zlen b;
  hc_rate : wi_source_sample_rate (ch_input h) <> 0;
  hc_channels : wi_source_channel_count (ch_input h) <> 0;
  hc_crc : crc32c_at b 0 92 = Ret (ch_header_crc h);
  hc_fingerprint :
    apta_internal_source_fingerprint_is_valid (wi_source_fingerprint_kind (ch_input h))
      (Some (wi_source_fingerprint (ch_input h))) = true;
  hc_unknown : wi_total_source_frames (ch_input h) = APTA_TOTAL_FRAMES_UNKNOWN ->
               any (ch_container_flags h) APTA_CONTAINER_FLAG_PARTIAL_RESULT = true
}.

Lemma directory_size_small h : header_read h ->
  u64 (ch_section_count h * APTA_DIRECTORY_ENTRY_SIZE) = 40 * ch_section_count h.
Proof.
  intros Hh. pose proof (hr_section_count _ Hh). unfold is_u32, APTA_DIRECTORY_ENTRY_SIZE in *.
  rewrite u64_small by (unfold is_u64; lia). lia.
Qed.

Lemma check_container_header_spec h :
  96 <= zlen b -> header_read h -> wp (check_container_header b o h) (fun _ => header_checked h).
Proof.
  intros Hz Hh. unfold check_container_header. pose proof zlen_u64 as Hzu.
  rewrite (directory_size_small h Hh). pose proof (hr_section_count _ Hh).
  pose proof (hr_directory_offset _ Hh). unfold is_u32, is_u64 in *.
  apply wp_bail. intros G1. apply wp_bail. intros G2. apply wp_bail. intros G3.
  apply wp_bail. intros G4. apply wp_bail. intros G5. apply wp_bail. intros G6.
  apply wp_bail. intros G7. bool_facts.
  assert (Ht : apta_range_fits (ch_directory_offset h) (40 * ch_section_count h) (zlen b) = true) by done.
  rewrite range_fits_true in Ht by lia.
  destruct (crc32c_at_defined 0 92) as [crc Ec]; [lia..|]. rewrite Ec. cbn [obind].
  apply wp_bail. intros G8. apply wp_bail. intros G9. apply wp_bail. intros G10.
  apply wp_bail. intros G11. apply wp_ret. bool_facts. change APTA_CONTAINER_HEADER_SIZE with 96 in *.
  split; try done; try lia.
  - by subst.
  - unfold apta_internal_source_fingerprint_is_valid.
    destruct (wi_source_fingerprint_kind (ch_input h) =? APTA_SOURCE_FINGERPRINT_NONE).
    + simpl in G10. by apply negb_false_iff in G10.
    + simpl in G9. apply andb_false_iff in G9.
      rewrite !negb_false_iff in G9. by apply orb_true_iff.
  - intros Hu. rewrite Hu, Z.eqb_refl in G11. by bool_facts.
Qed.

(** *** The directory *)

Record entry_read (p : Z) (e : section_entry) : Prop := {
  er_name : get_bytes b p 4 = Ret (se_name e);
  er_offset : apta_get_u64 b (p + 8) = Ret (se_offset e) /\ is_u64 (se_offset e);
  er_size : apta_get_u64 b (p + 16) = Ret (se_stored_size e) /\ is_u64 (se_stored_size e)
}.

Lemma read_section_entry_spec p :
  0 <= p -> p + 40 <= zlen b -> wp (read_section_entry b p) (entry_read p).
Proof. intros Hp Hz. unfold read_section_entry. do 8 rd. apply wp_ret. by split. Qed.

Lemma directory_entry_at h index :
  header_checked h -> header_read h -> Z.of_nat index < ch_section_count h ->
  directory_entry (ch_directory_offset h) index = ch_directory_offset h + 40 * Z.of_nat index /\
  0 <= directory_entry (ch_directory_offset h) index /\
  directory_entry (ch_directory_offset h) index + 40 <= zlen b.
Proof.
  intros Hc Hr Hi. destruct (hc_directory _ Hc) as [_ Hd].
  pose proof (hr_directory_offset _ Hr). unfold directory_entry, is_u64, is_size in *.
  change APTA_DIRECTORY_ENTRY_SIZE with 40. rewrite !size_t_small by (unfold is_size; lia). lia.
Qed.

Lemma overlaps_earlier_defined h earlier n off sz :
  header_checked h -> header_read h -> Z.of_nat (earlier + n) <= ch_section_count h ->
  wp (overlaps_earlier b (ch_directory_offset h) earlier n off sz) (fun _ => True).
Proof.
  intros Hc Hr. revert earlier. induction n as [|n IH]; intros earlier Hn; [done|].
  cbn [overlaps_earlier].
  destruct (directory_entry_at h earlier Hc Hr) as (_ & Hp & Hq); [lia|]. do 2 rd.
  destruct (apta_ranges_overlap off sz _ _); [done|]. apply IH. lia.
Qed.

(** A section that lies in the buffer, away from the header and the directory,
    with the checksum its entry announces. *)
Record section_ok (h : container_header) (e : section_entry) : Prop := {
  so_bounds : 0 <= se_offset e /\ 0 <= se_stored_size e /\
              se_offset e + se_stored_size e <= zlen b;
  so_header : se_stored_size e = 0 \/ ch_header_size h <= se_offset e;
  so_directory : se_stored_size e = 0 \/
                 se_offset e + se_stored_size e <= ch_directory_offset h \/
                 ch_directory_offset h + 40 * ch_section_count h <= se_offset e;
  so_crc : crc32c_at b (se_offset e) (Z.to_nat (se_stored_size e)) = Ret (se_crc e)
}.

Lemma check_section_entry_spec h index p e :
  header_checked h -> header_read h -> entry_read p e ->
  Z.of_nat index <= ch_section_count h ->
  wp (check_section_entry b o h index e) (fun _ => section_ok h e).
Proof.
  intros Hc Hr He Hi. unfold check_section_entry. rewrite (directory_size_small h Hr).
  destruct (er_offset _ _ He) as [_ Ho]. destruct (er_size _ _ He) as [_ Hs].
  pose proof zlen_u64. destruct (hc_directory _ Hc). pose proof (hc_section_count _ Hc).
  pose proof (hc_header_size _ Hc). unfold is_u64, is_size in *.
  do 4 (apply wp_bail; intros _). apply wp_bail. intros G1. bool_facts.
  assert (Hf : apta_range_fits (se_offset e) (se_stored_size e) (zlen b) = true) by done.
  rewrite range_fits_true in Hf by lia.
  apply wp_bail. intros G2. bool_facts.
  repeat match goal with
  | Hx : apta_ranges_overlap _ _ _ _ = false |- _ => rewrite ranges_overlap_false in Hx by lia
  end.
  eapply wp_bind_mono; [apply (overlaps_earlier_defined h); [done..|lia]|]. intros ov _.
  apply wp_bail. intros _. apply wp_bail. intros _.
  rewrite size_t_small by (unfold is_size; lia).
  destruct (crc32c_at_defined (se_offset e) (Z.to_nat (se_stored_size e))) as [crc Ec]; [lia..|].
  rewrite Ec. cbn [obind]. apply wp_bail. intros G3. bool_facts. apply wp_ret.
  split; try lia. rewrite Ec. by f_equal.
Qed.

(** The first entry named WOVR among [n] from [index] on. *)
Fixpoint wovr_entry (dir : Z) (index n : nat) : result (option section_entry) :=
  match n with
  | O => Ret None
  | S n =>
      let! e := read_section_entry b (directory_entry dir index) in
      if is_wovr e then Ret (Some e) else wovr_entry dir (S index) n
  end.

Lemma directory_loop_spec h index n found :
  header_checked h -> header_read h -> Z.of_nat (index + n) <= ch_section_count h ->
  wp (directory_loop b o h index n found) (fun f =>
    match found with
    | Some x => f = Some x
    | None => forall p sz, f = Some (p, sz) ->
        exists e, wovr_entry (ch_directory_offset h) index n = Ret (Some e) /\
                  section_ok h e /\ p = se_offset e /\ sz = se_stored_size e
    end).
Proof.
  intros Hc Hr. revert index found. induction n as [|n IH]; intros index found Hn.
  - simpl. by destruct found.
  - cbn [directory_loop wovr_entry].
    destruct (directory_entry_at h index Hc Hr) as (_ & Hp & Hq); [lia|].
    pose proof (read_section_entry_spec _ Hp Hq) as He.
    destruct (read_section_entry b _) as [e|e|]; [|done..]. cbn [obind]. simpl in He.
    eapply wp_bind_mono; [apply (check_section_entry_spec h index (directory_entry (ch_directory_offset h) index) e); [done..|lia]|].
    intros [] Hs. destruct (so_bounds _ _ Hs) as (H1 & H2 & H3).
    destruct (is_wovr e).
    + destruct found as [x|]; [done|].
      eapply wp_mono; [apply IH; lia|]. intros f ->. intros p sz [= <- <-]. exists e.
      rewrite !size_t_small by (unfold is_size in *; lia). done.
    + apply wp_bail. intros _. apply IH. lia.
Qed.

Lemma wovr_entry_find dir index n e :
  wovr_entry dir index n = Ret (Some e) ->
  find_wovr_loop b dir index n = Ret (Some (size_t (se_offset e))).
Proof.
  revert index. induction n as [|n IH]; intros index; [discriminate|]. cbn [wovr_entry find_wovr_loop].
  intros He. apply obind_Ret_inv in He as (e' & Er & He).
  unfold read_section_entry in Er. inv_ret Er. injection Er as <-. unfold is_wovr in He. simpl in He.
  rewrite E6. cbn [obind]. destruct (bytes_equal v6 tag_WOVR).
  - injection He as <-. simpl. by rewrite E1.
  - by apply IH.
Qed.

(** What [apta_validate_container] establishes. *)
Record container_ok (input : apta_wovr_input_t) (h : container_header) (e : section_entry) : Prop := {
  co_read : header_read h;
  co_checked : header_checked h;
  co_header : read_container_header b = Ret h;
  co_entry : wovr_entry (ch_directory_offset h) 0 (Z.to_nat (ch_section_count h)) = Ret (Some e);
  co_section : section_ok h e;
  co_input : input = set_payload (ch_input h) (se_offset e) (se_stored_size e)
}.

Lemma validate_container_spec :
  wp (apta_validate_container b o) (fun input => exists h e, container_ok input h e).
Proof.
  unfold apta_validate_container. change APTA_CONTAINER_HEADER_SIZE with 96.
  apply wp_bail. intros G1. bool_facts. apply wp_bail. intros _. rd.
  apply wp_bail. intros _.
  pose proof (read_container_header_spec ltac:(lia)) as Hr.
  destruct (read_container_header b) as [h|?|] eqn:Eh; [|done..]. cbn [obind]. simpl in Hr.
  eapply wp_bind_mono; [by apply check_container_header_spec; [lia|]|]. intros [] Hc.
  eapply wp_bind_mono; [apply (directory_loop_spec h 0); [done..|];
    pose proof (hr_section_count _ Hr) as Hs; unfold is_u32 in Hs; lia|].
  intros [[p sz]|] Hf; [|done]. apply wp_bail. intros _. apply wp_ret.
  destruct (Hf p sz eq_refl) as (e & He & Hs & -> & ->). exists h, e. by split.
Qed.

(** *** The section *)

Section Section_geometry.
Context (input : apta_wovr_input_t).
Let p := wi_payload input.
Let sz := wi_payload_size input.
Context (Hp : 0 <= p) (Hpz : p + sz <= zlen b).

Record wovr_read (h : wovr_header) : Prop := {
  wr_frames_per_column : apta_get_u32 b (p + 4) = Ret (wh_frames_per_column h) /\
                         is_u32 (wh_frames_per_column h);
  wr_origin : apta_get_u64 b (p + 8) = Ret (wh_origin_frame h) /\ is_u64 (wh_origin_frame h);
  wr_logical : apta_get_u32 b (p + 16) = Ret (wh_logical_column_count h) /\
               is_u32 (wh_logical_column_count h);
  wr_span_count : apta_get_u32 b (p + 20) = Ret (wh_span_count h) /\ is_u32 (wh_span_count h);
  wr_span_directory : apta_get_u64 b (p + 24) = Ret (wh_span_directory_offset h) /\
                      is_u64 (wh_span_directory_offset h);
  wr_column_data : apta_get_u64 b (p + 32) = Ret (wh_column_data_offset h) /\
                   is_u64 (wh_column_data_offset h);
  wr_flags : apta_get_u32 b (p + 40) = Ret (wh_flags h) /\ is_u32 (wh_flags h)
}.

Lemma read_wovr_header_spec : 48 <= sz -> wp (read_wovr_header b p) wovr_read.
Proof.
  intros Hs. unfold read_wovr_header. do 7 rd. apply wp_ret. by split.
Qed.

Definition total : Z := wi_total_source_frames input.
Definition known : Prop := total <> APTA_TOTAL_FRAMES_UNKNOWN.

Record wovr_checked (h : wovr_header) : Prop := {
  wc_frames_per_column : wh_frames_per_column h <> 0;
  wc_logical : wh_logical_column_count h <> 0;
  wc_span_count : wh_span_count h <> 0;
  wc_state : APTA_FEATURE_PARTIAL <= wh_state h <= APTA_FEATURE_FINAL;
  wc_final : wh_state h = APTA_FEATURE_FINAL -> known;
  wc_partial : wh_state h <> APTA_FEATURE_FINAL ->
               any (wi_container_flags input) APTA_CONTAINER_FLAG_PARTIAL_RESULT = true;
  wc_span_directory : 48 <= wh_span_directory_offset h /\
                      wh_span_directory_offset h + 32 * wh_span_count h <= sz;
  wc_required : known -> wh_origin_frame h <= total /\
    wh_logical_column_count h =
      required_columns (total - wh_origin_frame h) (wh_frames_per_column h)
}.

Lemma check_wovr_header_spec h :
  is_u64 total -> 48 <= sz <= UINT64_MAX -> wovr_read h ->
  wp (check_wovr_header b input o h) (fun _ => wovr_checked h).
Proof.
  intros Ht Hs Hr. unfold check_wovr_header. fold total. fold p sz.
  apply wp_bail. intros G1. apply wp_bail. intros _.
  destruct (wr_span_count _ Hr) as [_ Hsc]. destruct (wr_span_directory _ Hr) as [_ Hsd].
  destruct (wr_origin _ Hr) as [_ Ho]. destruct (wr_frames_per_column _ Hr) as [_ Hf].
  unfold is_u32, is_u64 in *.
  assert (Hre : exists v, (if is_strict o then apta_get_u32 b (p + 44) else Ret 0) = Ret v).
  { destruct (is_strict o); [|by eexists].
    destruct (get_u32_defined b Hb (p + 44)) as (v & -> & _); [lia..|by eexists]. }
  destruct Hre as [v ->]. cbn [obind].
  apply wp_bail. intros G2. apply wp_bail. intros G3. change APTA_WOVR_SPAN_SIZE with 32.
  rewrite (u64_small (_ * 32)) by (unfold is_u64; lia).
  apply wp_bail. intros G4. apply wp_bail. intros G5. apply wp_ret. bool_facts.
  assert (Hfit : apta_range_fits (wh_span_directory_offset h) (wh_span_count h * 32) sz = true) by done.
  rewrite range_fits_true in Hfit by lia. change APTA_WOVR_HEADER_SIZE with 48 in *.
  split; try done; try lia.
  - intros Hfin. rewrite Hfin, Z.eqb_refl in G3. bool_facts. done.
  - intros Hfin. apply Z.eqb_neq in Hfin. rewrite Hfin in G3. by bool_facts.
  - intros Hk. apply Z.eqb_neq in Hk. rewrite Hk in G5. bool_facts. split; [done|].
    assert (Hx : u64 (required_columns (u64 (total - wh_origin_frame h)) (wh_frames_per_column h)) =
                 wh_logical_column_count h) by done.
    rewrite (u64_small (_ - _)) in Hx by (unfold is_u64; lia).
    rewrite u64_small in Hx; [done|]. apply required_columns_range; lia.
Qed.

(** Packed columns stored at [data], numbered from [index] on. *)
Definition columns_at (data : Z) (index : nat) (cols : list apta_waveform_column_t) : Prop :=
  forall j c, cols !! j = Some c -> read_column b (data + 10 * Z.of_nat (index + j)) = Ret c.

Lemma read_column_spec q :
  0 <= q -> q + 10 <= zlen b -> exists c, read_column b q = Ret c /\ column_typed c.
Proof.
  intros Hq Hz. unfold read_column.
  destruct (get_i16_defined b Hb (q + 0)) as (v0 & -> & R0); [lia..|].
  destruct (get_i16_defined b Hb (q + 2)) as (v1 & -> & R1); [lia..|].
  destruct (get_u16_defined b Hb (q + 4)) as (v2 & -> & R2); [lia..|].
  destruct (get8_defined b Hb (q + 6)) as (v3 & -> & R3); [lia..|].
  destruct (get8_defined b Hb (q + 7)) as (v4 & -> & R4); [lia..|].
  destruct (get8_defined b Hb (q + 8)) as (v5 & -> & R5); [lia..|].
  destruct (get8_defined b Hb (q + 9)) as (v6 & -> & R6); [lia..|].
  eexists. split; [reflexivity|]. by split_and!.
Qed.

Lemma check_columns_spec data index n :
  0 <= data -> data + 10 * Z.of_nat (index + n) <= zlen b ->
  wp (check_columns b o data index n) (fun _ => exists cols,
    length cols = n /\ Forall (column_valid (is_strict o)) cols /\ columns_at data index cols).
Proof.
  intros Hd. revert index. induction n as [|n IH]; intros index Hn.
  - simpl. exists []. repeat split; [apply Forall_nil_2|]. by intros j c Hj.
  - cbn [check_columns]. change APTA_PACKED_COLUMN_SIZE with 10. unfold is_size in Hsize.
    rewrite size_t_small by (unfold is_size; lia).
    destruct (read_column_spec (data + 10 * Z.of_nat index)) as (c & Hc & Htyped); [lia..|].
    replace (Z.of_nat index * 10) with (10 * Z.of_nat index) by lia.
    pose proof Hc as Hread. unfold read_column in Hc. inv_ret Hc. injection Hc as Hc.
    rewrite E, E0, E5, E2, E3, E4. cbn [obind].
    apply wp_bail. intros G. bool_facts.
    eapply wp_mono; [apply IH; lia|]. intros _ (cols & Hlen & Hval & Hat).
    exists (c :: cols). split; [simpl; lia|]. split.
    + constructor; [|done]. subst c. split; [done|]. simpl. split; [done|]. split; [done|].
      intros Hst. rewrite Hst in *. cbn [andb] in *. split; [done|]. intros Hband.
      rewrite Hband in *. cbn [andb negb] in *. bool_facts. done.
    + intros [|j] c' Hj; [injection Hj as <-; by rewrite Nat.add_0_r|].
      specialize (Hat j c' Hj). by replace (index + S j)%nat with (S index + j)%nat by lia.
Qed.

Record span_read (q : Z) (s : span_entry) : Prop := {
  sr_first : apta_get_u64 b (q + 0) = Ret (sn_first_frame s) /\ is_u64 (sn_first_frame s);
  sr_end : apta_get_u64 b (q + 8) = Ret (sn_end_frame s) /\ is_u64 (sn_end_frame s);
  sr_first_column : apta_get_u32 b (q + 16) = Ret (sn_first_column s) /\ is_u32 (sn_first_column s);
  sr_count : apta_get_u32 b (q + 20) = Ret (sn_column_count s) /\ is_u32 (sn_column_count s);
  sr_data : apta_get_u32 b (q + 24) = Ret (sn_data_column_offset s) /\
            is_u32 (sn_data_column_offset s)
}.

Lemma read_span_spec q : 0 <= q -> q + 32 <= zlen b -> wp (read_span b q) (span_read q).
Proof. intros Hq Hz. unfold read_span. do 6 rd. apply wp_ret. by split. Qed.

Record span_checked (h : wovr_header) (s : span_entry) (cols : list apta_waveform_column_t)
  : Prop := {
  sc_count : sn_column_count s = zlen cols;
  sc_columns : cols <> [];
  sc_columns_valid : Forall (column_valid (is_strict o)) cols;
  sc_columns_at : columns_at (p + data_first h s) 0 cols;
  sc_nonempty : sn_first_frame s < sn_end_frame s;
  sc_end_column : sn_end_column s = sn_first_column s + zlen cols;
  sc_logical : sn_first_column s + zlen cols <= wh_logical_column_count h;
  sc_first : sn_first_frame s = wh_origin_frame h + sn_first_column s * wh_frames_per_column h;
  sc_bound : wh_origin_frame h + (sn_first_column s + zlen cols) * wh_frames_per_column h
             <= UINT64_MAX;
  sc_end : sn_end_frame s =
             wh_origin_frame h + (sn_first_column s + zlen cols) * wh_frames_per_column h \/
           known /\ sn_end_frame s = total /\
           sn_first_column s + zlen cols = wh_logical_column_count h /\
           total < wh_origin_frame h + (sn_first_column s + zlen cols) * wh_frames_per_column h;
  sc_total : known -> sn_end_frame s <= total;
  sc_data : 0 <= data_first h s /\ data_first h s + 10 * zlen cols <= sz
}.

Lemma known_eqb : known <-> (total =? APTA_TOTAL_FRAMES_UNKNOWN) = false.
Proof. unfold known. by rewrite Z.eqb_neq. Qed.

Lemma check_span_spec h index q s packed previous_end previous_column :
  is_u64 total -> 48 <= sz <= UINT64_MAX -> wovr_read h -> span_read q s ->
  0 <= packed <= UINT32_MAX ->
  wp (check_span b input o h index s packed previous_end previous_column) (fun packed' =>
    packed' = packed + sn_column_count s /\ packed' <= UINT32_MAX /\
    (index <> 0%nat -> previous_end <= sn_first_frame s /\ previous_column <= sn_first_column s) /\
    exists cols, span_checked h s cols).
Proof.
  intros Ht Hs Hr Hq Hpk. unfold check_span. fold total. fold p sz.
  destruct (wr_frames_per_column _ Hr) as [_ Hf]. destruct (wr_origin _ Hr) as [_ Ho].
  destruct (wr_logical _ Hr) as [_ Hl]. destruct (wr_column_data _ Hr) as [_ Hcd].
  destruct (sr_first_column _ _ Hq) as [_ Hfc]. destruct (sr_count _ _ Hq) as [_ Hcc].
  destruct (sr_data _ _ Hq) as [_ Hdo]. destruct (sr_end _ _ Hq) as [_ He].
  unfold is_u32, is_u64, is_size in *.
  assert (Hec : sn_end_column s = sn_first_column s + sn_column_count s)
    by (unfold sn_end_column; rewrite u64_small by (unfold is_u64; lia); done).
  rewrite Hec. apply wp_bail. intros G1. apply wp_bail. intros G2.
  assert (Hm1 : 0 <= sn_first_column s * wh_frames_per_column h <= UINT64_MAX) by nia.
  assert (Hlog : sn_first_column s + sn_column_count s <= UINT32_MAX) by (bool_facts; lia).
  assert (Hm2 : 0 <= (sn_first_column s + sn_column_count s) * wh_frames_per_column h <= UINT64_MAX) by nia.
  rewrite (u64_small (sn_first_column s * _)), (u64_small ((_ + _) * _)) by done.
  rewrite !(u64_small (UINT64_MAX - _)) by (unfold is_u64; lia).
  apply wp_bail. intros G3. bool_facts.
  rewrite !(u64_small (wh_origin_frame h + _)) by (unfold is_u64; lia).
  apply wp_bail. intros G4. apply wp_bail. intros G5. apply wp_bail. intros G6.
  apply wp_bail. intros G7.
  assert (Hdb : data_bytes s = 10 * sn_column_count s)
    by (unfold data_bytes, APTA_PACKED_COLUMN_SIZE; rewrite u64_small by (unfold is_u64; lia); lia).
  assert (Hdf : is_u64 (data_first h s)) by apply u64_range. unfold is_u64 in Hdf.
  rewrite Hdb in *. bool_facts.
  assert (Hfit : apta_range_fits (data_first h s) (10 * sn_column_count s) sz = true) by done.
  rewrite range_fits_true in Hfit by lia. pose proof zlen_u64.
  rewrite size_t_small by (unfold is_size; lia).
  eapply wp_bind_mono; [apply check_columns_spec; lia|].
  intros _ (cols & Hlen & Hval & Hat).
  assert (Hz : zlen cols = sn_column_count s) by (unfold zlen; lia).
  apply wp_bail. intros G8. rewrite u32_small in G8 by (unfold is_u32; lia). bool_facts.
  rewrite (u64_small (packed + _)) by (unfold is_u64; lia).
  apply wp_bail. intros _. apply wp_ret. split; [done|]. split; [lia|]. split.
  { intros Hi. apply Nat.eqb_neq in Hi. rewrite Hi in *. cbn [negb andb] in *. bool_facts. done. }
  exists cols. split; rewrite ?Hz; try done; try lia.
  - intros ->. unfold zlen in Hz. simpl in Hz. lia.
  - apply andb_false_iff in G5 as [G5|G5]; [left; bool_facts; lia|]. right. bool_facts.
    by split_and!.
  - intros Hk. apply known_eqb in Hk. rewrite Hk in G6. cbn [negb andb] in G6. bool_facts. lia.
Qed.

(** Spans with their columns, read from index [index] on and checked. *)
Definition spans_at (h : wovr_header) (index : nat) (l : list checked_span) : Prop :=
  forall j s, l !! j = Some s ->
    span_read (span_record p (wh_span_directory_offset h) (index + j)) s.1 /\
    span_checked h s.1 s.2.

Lemma span_record_at h index :
  wovr_read h -> wovr_checked h -> Z.of_nat index < wh_span_count h -> 48 <= sz ->
  span_record p (wh_span_directory_offset h) index =
    p + wh_span_directory_offset h + 32 * Z.of_nat index /\
  0 <= span_record p (wh_span_directory_offset h) index /\
  span_record p (wh_span_directory_offset h) index + 32 <= zlen b.
Proof.
  intros Hr Hc Hi Hs. destruct (wc_span_directory _ Hc). unfold span_record, is_size in *.
  change APTA_WOVR_SPAN_SIZE with 32. rewrite !size_t_small by (unfold is_size; lia). lia.
Qed.

Lemma span_loop_spec h index n packed previous_end previous_column :
  is_u64 total -> 48 <= sz <= UINT64_MAX -> wovr_read h -> wovr_checked h ->
  0 <= packed <= UINT32_MAX -> Z.of_nat (index + n) <= wh_span_count h ->
  (index = 0%nat -> previous_end = 0 /\ previous_column = 0) ->
  wp (span_loop b input o h index n packed previous_end previous_column) (fun r =>
    exists l, length l = n /\ spans_at h index l /\
      sorted_from previous_end previous_column (map content_of_span l) /\
      r.1 = packed + k_packed (map content_of_span l) /\ r.1 <= UINT32_MAX /\
      r.2 = last_column previous_column l).
Proof.
  intros Ht Hs Hr Hc. revert index packed previous_end previous_column.
  induction n as [|n IH]; intros index packed pe pc Hpk Hn H0'.
  - simpl. exists []. split; [done|]. split; [by intros j ? Hj|]. simpl. split_and!; done || lia.
  - cbn [span_loop]. fold p. destruct (span_record_at h index Hr Hc) as (_ & Hq & Hqz); [lia|lia|].
    pose proof (read_span_spec _ Hq Hqz) as Hrd.
    destruct (read_span b _) as [s|?|]; [|done..]. cbn [obind]. simpl in Hrd.
    eapply wp_bind_mono; [by eapply check_span_spec|].
    intros packed' (-> & Hle & Hsorted & cols & Hck).
    pose proof (sr_count _ _ Hrd) as [_ Hcnt]. unfold is_u32 in Hcnt.
    eapply wp_mono; [apply IH; [lia|lia|done]|].
    intros r (l & Hlen & Hat & Hso & H1 & H2 & H3). exists ((s, cols) :: l).
    split; [simpl; lia|]. split.
    { intros [|j] s' Hj; [injection Hj as <-; rewrite Nat.add_0_r; done|].
      replace (index + S j)%nat with (S index + j)%nat by lia. by apply Hat. }
    cbn [map sorted_from k_packed foldr last_column foldl].
    cbn [content_of_span k_first k_end k_first_column k_columns fst snd].
    assert (He : k_end_column (content_of_span (s, cols)) = sn_end_column s)
      by (unfold k_end_column; simpl; by rewrite (sc_end_column _ _ _ Hck)).
    split; [|unfold k_packed in *; rewrite <- (sc_count _ _ _ Hck); split; [lia|]; split; [exact H2 | exact H3]].
    pose proof (sr_first _ _ Hrd) as [_ Hf1]. pose proof (sr_first_column _ _ Hrd) as [_ Hf2].
    unfold is_u32, is_u64 in *. rewrite He.
    destruct index as [|index]; [destruct H0' as [-> ->]; [done|]; split_and!; [lia|lia|done]|].
    destruct Hsorted; [done|]. by split_and!.
Qed.

(** What [apta_validate_wovr_geometry] establishes. *)
Record geometry_ok (h : wovr_header) (l : list checked_span) (packed : Z) : Prop := {
  go_size : 48 <= sz;
  go_read : wovr_read h;
  go_checked : wovr_checked h;
  go_length : zlen l = wh_span_count h;
  go_spans : spans_at h 0 l;
  go_sorted : sorted_from 0 0 (map content_of_span l);
  go_packed : packed = k_packed (map content_of_span l) /\ packed <= UINT32_MAX
}.

Lemma validate_wovr_geometry_spec :
  is_u64 total -> 0 <= sz <= UINT64_MAX ->
  wp (apta_validate_wovr_geometry b input o) (fun packed => exists h l, geometry_ok h l packed).
Proof.
  intros Ht Hsz. unfold apta_validate_wovr_geometry. fold sz. fold p.
  change APTA_WOVR_HEADER_SIZE with 48. apply wp_bail. intros G. bool_facts.
  pose proof (read_wovr_header_spec ltac:(lia)) as Hr.
  destruct (read_wovr_header b p) as [h|?|]; [|done..]. cbn [obind]. simpl in Hr.
  eapply wp_bind_mono; [apply check_wovr_header_spec; [done|lia|done]|]. intros [] Hc.
  pose proof (wr_span_count _ Hr) as [_ Hn]. unfold is_u32 in Hn.
  eapply wp_bind_mono; [apply (span_loop_spec h 0); [done|lia|done|done|lia|lia|done]|].
  intros [packed lastc] (l & Hlen & Hat & Hso & H1 & H2 & H3). cbn [fst snd] in *.
  destruct (wc_span_directory _ Hc) as [Hd1 Hd2]. pose proof (wc_span_count _ Hc).
  unfold is_size in *.
  assert (Hlast : exists v, (if wh_state h =? APTA_FEATURE_FINAL
     then if negb (lastc =? wh_logical_column_count h) then Ret true
          else let! first_column := apta_get_u32 b (p + size_t (wh_span_directory_offset h) + 16) in
               Ret (E := apta_status_t) (negb (first_column =? 0))
     else Ret false) = Ret v).
  { destruct (_ =? _); [|by eexists]. destruct (negb _); [by eexists|].
    rewrite size_t_small by (unfold is_size; lia).
    destruct (get_u32_defined b Hb (p + wh_span_directory_offset h + 16)) as (v & -> & _);
      [lia..|by eexists]. }
  destruct Hlast as [v ->]. cbn [obind]. apply wp_bail. intros _. apply wp_ret.
  exists h, l. pose proof (k_packed_nonneg (map content_of_span l)).
  rewrite u32_small by (unfold is_u32; lia). split; try done; unfold zlen; lia.
Qed.

End Section_geometry.
End Container.
