(* ===== verification/WovrParse.v ===== *)
(** * Parsing: what is built, what is accepted, what is given back

    The result the reader builds from a validated section, the hardening pass,
    and the theorems about [apta_result_parse]: safety, validity, no leak, the
    round trip with the writer, and the detection of corrupted bytes. *)

From stdpp Require Import sorting.
From S2P Require Import Prelude Platform Bytes Workspace Memory Wovr WovrSpec WovrReader.
From S2P Require Import WovrReaderTheorems.
Open Scope Z_scope.

(** ** The result built from checked spans *)

Definition features_of (features : Z) (cols : list apta_waveform_column_t) : Z :=
  fold_left (fun f c => if any (wc_flags c) APTA_WAVEFORM_COLUMN_HAS_3BAND
                        then Z.lor f APTA_FEATURE_WAVEFORM_3BAND else f) cols features.

Fixpoint parsed_spans (packed : Z) (l : list checked_span) : list apta_waveform_span_t :=
  match l with
  | [] => []
  | (s, cols) :: l =>
      {| sp_first_frame := sn_first_frame s; sp_end_frame := sn_end_frame s;
         sp_first_column_index := sn_first_column s; sp_column_count := zlen cols;
         sp_columns := Some (Z.to_nat packed) |} :: parsed_spans (packed + zlen cols) l
  end.

Definition parsed_columns (l : list checked_span) : list apta_waveform_column_t := l ≫= snd.

Definition packed_of (l : list checked_span) : Z := k_packed (map content_of_span l).

(** The result, apart from the features. *)
Definition parsed (input : apta_wovr_input_t) (h : wovr_header) (level_id : Z)
    (l : list checked_span) : apta_result_t :=
  {| res_info :=
       {| ri_specification_major := wi_specification_major input;
          ri_specification_minor := wi_specification_minor input;
          ri_producer_api_version := wi_producer_api_version input;
          ri_container_version := 1; ri_generation := 1;
          ri_available_features := features_of APTA_FEATURE_WAVEFORM_OVERVIEW (parsed_columns l);
          ri_changed_features := APTA_FEATURE_WAVEFORM_OVERVIEW;
          ri_session_state :=
            if any (wi_container_flags input) APTA_CONTAINER_FLAG_PARTIAL_RESULT
            then APTA_SESSION_ACTIVE else APTA_SESSION_COMPLETED |};
     res_source_info :=
       {| si_total_frames := wi_total_source_frames input;
          si_sample_rate := wi_source_sample_rate input;
          si_channel_count := wi_source_channel_count input;
          si_channel_layout := wi_source_channel_layout input;
          si_fingerprint_kind := wi_source_fingerprint_kind input;
          si_fingerprint := wi_source_fingerprint input |};
     res_total_source_frames := wi_total_source_frames input;
     res_source_sample_rate := wi_source_sample_rate input;
     res_source_channel_count := wi_source_channel_count input;
     res_source_channel_layout := wi_source_channel_layout input;
     res_overview :=
       {| ov_level_id := level_id; ov_frames_per_column := wh_frames_per_column h;
          ov_origin_frame := wh_origin_frame h; ov_state := wh_state h;
          ov_confidence := APTA_CONFIDENCE_UNKNOWN; ov_span_count := zlen l;
          ov_spans := Some (parsed_spans 0 l) |};
     res_overview_columns := parsed_columns l |}.

Lemma packed_of_cons s cols l : packed_of ((s, cols) :: l) = zlen cols + packed_of l.
Proof. reflexivity. Qed.

Lemma packed_of_nonneg l : 0 <= packed_of l.
Proof. apply k_packed_nonneg. Qed.

Section Build_spec.
Context `{PlatformLaws}.
Context (b : list Z) (Hb : bytes_ok b) (Hsize : is_size (zlen b)).
Context (o : apta_effective_parse_options_t) (input : apta_wovr_input_t).
Context (Hp : 0 <= wi_payload input) (Hpz : wi_payload input + wi_payload_size input <= zlen b).

Lemma build_columns_spec data cols pre old post off features index :
  columns_at b data index cols -> 10 * Z.of_nat (index + length cols) <= SIZE_MAX ->
  length old = length cols -> zlen pre = off + Z.of_nat index -> 0 <= off ->
  off + Z.of_nat (index + length cols) <= UINT32_MAX ->
  build_columns b data (pre ++ old ++ post) off features index (length cols) =
  Ret (pre ++ cols ++ post, features_of features cols).
Proof.
  revert pre old features index. induction cols as [|c cols IH]; intros pre old features index
    Hat Hs Ho Hpre Hoff Hu.
  - by destruct old.
  - destruct old as [|x old]; [discriminate|]. cbn [length build_columns] in *.
    change APTA_PACKED_COLUMN_SIZE with 10. rewrite size_t_small by (unfold is_size; lia).
    pose proof (Hat 0%nat c eq_refl) as Hc. rewrite Nat.add_0_r in Hc.
    replace (Z.of_nat index * 10) with (10 * Z.of_nat index) by lia. rewrite Hc. cbn [obind].
    rewrite u32_small by (unfold is_u32; lia). cbn [app].
    rewrite arr_put_middle by (unfold zlen in Hpre; lia). cbn [obind].
    change (pre ++ c :: old ++ post) with (pre ++ [c] ++ old ++ post). rewrite app_assoc.
    rewrite IH; [by rewrite <- app_assoc| |lia|lia|zlen; lia|lia|lia].
    intros j c' Hj. specialize (Hat (S j) c' Hj).
    by replace (S index + j)%nat with (index + S j)%nat by lia.
Qed.

Lemma build_spans_spec h l spre sold spost pre old post packed features index :
  wovr_read b input h -> wovr_checked input h -> 48 <= wi_payload_size input ->
  spans_at b o input h index l -> Z.of_nat (index + length l) <= wh_span_count h ->
  length sold = length l -> length spre = index ->
  zlen old = packed_of l -> zlen pre = packed -> packed + packed_of l <= UINT32_MAX ->
  build_spans b (wi_payload input) (wh_span_directory_offset h) (wh_column_data_offset h)
    (spre ++ sold ++ spost) (pre ++ old ++ post) packed features index (length l) =
  Ret (spre ++ parsed_spans packed l ++ spost, pre ++ parsed_columns l ++ post,
       features_of features (parsed_columns l)).
Proof.
  intros Hr Hc Hsz. revert spre sold pre old packed features index.
  induction l as [|[s cols] l IH]; intros spre sold pre old packed features index
    Hat Hn Hso Hsp Ho Hpre Hu.
  - destruct sold; [|discriminate]. destruct old; [done|].
    rewrite zlen_cons in Ho. pose proof (zlen_nonneg old). unfold packed_of in Ho. simpl in Ho. lia.
  - destruct sold as [|x sold]; [discriminate|]. cbn [length build_spans] in *.
    destruct (Hat 0%nat (s, cols) eq_refl) as [Hrd Hck]. rewrite Nat.add_0_r in Hrd. cbn [fst snd] in *.
    destruct (sr_first _ _ _ Hrd) as [E1 R1]. destruct (sr_end _ _ _ Hrd) as [E2 R2].
    destruct (sr_first_column _ _ _ Hrd) as [E3 R3]. destruct (sr_count _ _ _ Hrd) as [E4 R4].
    destruct (sr_data _ _ _ Hrd) as [E5 R5].
    rewrite E4, E5, E1, E2, E3. cbn [obind app]. rewrite arr_put_middle by done. cbn [obind].
    fold (data_first h s). rewrite packed_of_cons in Ho, Hu. pose proof (packed_of_nonneg l).
    destruct (sc_data _ _ _ _ _ _ Hck) as [Hd1 Hd2]. pose proof (zlen_nonneg cols) as Hc0.
    pose proof (zlen_nonneg pre) as Hp0. unfold is_size in Hsize.
    rewrite size_t_small by (unfold is_size; lia). rewrite (sc_count _ _ _ _ _ _ Hck) in *.
    rewrite <- (take_drop (length cols) old), <- app_assoc.
    replace (Z.to_nat (zlen cols)) with (length cols) by (unfold zlen; lia).
    rewrite build_columns_spec;
      [|exact (sc_columns_at _ _ _ _ _ _ Hck)|unfold zlen in *; lia
       |rewrite length_take; unfold zlen in *; lia|lia|lia|unfold zlen in *; lia].
    cbn [obind]. rewrite u32_small by (unfold is_u32; lia).
    change (spre ++ ?y :: sold ++ spost) with (spre ++ [y] ++ sold ++ spost).
    rewrite (app_assoc spre), (app_assoc pre).
    rewrite IH; [|intros j s' Hj; specialize (Hat (S j) s' Hj);
                  by replace (S index + j)%nat with (index + S j)%nat by lia
                 |lia|lia|rewrite length_app; simpl; lia
                 |unfold zlen; rewrite length_drop; unfold zlen in *; lia
                 |zlen; lia|lia].
    rewrite <- !app_assoc. cbn [parsed_spans app]. unfold parsed_columns. cbn [mbind list_bind snd].
    rewrite <- !app_assoc. do 2 f_equal. unfold features_of. by rewrite fold_left_app.
Qed.


Lemma block_length_small count t :
  0 <= count -> count * sizeof t <= SIZE_MAX -> block_length count t = Z.to_nat count.
Proof.
  intros Hc Hs. unfold block_length. pose proof (sizeof_range t).
  rewrite size_t_small by (unfold is_size; nia). by rewrite Z.div_mul by lia.
Qed.

Lemma length_parsed_spans packed l : length (parsed_spans packed l) = length l.
Proof. revert packed. induction l as [|[s cols] l IH]; intros packed; simpl; auto. Qed.

Lemma zlen_parsed_columns l : zlen (parsed_columns l) = packed_of l.
Proof.
  unfold parsed_columns. induction l as [|[s cols] l IH]; [done|]. cbn [mbind list_bind snd]. zlen.
  by rewrite IH, packed_of_cons.
Qed.

Lemma fill_parsed_result_spec h l packed :
  geometry_ok b o input h l packed -> is_u16 (wi_source_channel_count input) ->
  wh_span_count h * sizeof T_waveform_span <= SIZE_MAX ->
  packed * sizeof T_waveform_column <= SIZE_MAX ->
  exists level_id, apta_get_u32 b (wi_payload input) = Ret level_id /\ is_u32 level_id /\
    fill_parsed_result b input packed = Ret (parsed input h level_id l).
Proof.
  intros [Hs Hr Hc Hl Hat _ [Hpk Hpu]] Hch Hs1 Hs2.
  destruct (wr_span_count _ _ _ Hr) as [E1 R1]. destruct (wr_span_directory _ _ _ Hr) as [E2 R2].
  destruct (wr_column_data _ _ _ Hr) as [E3 R3]. destruct (wr_frames_per_column _ _ _ Hr) as [E4 R4].
  destruct (wr_origin _ _ _ Hr) as [E5 R5]. destruct (wr_flags _ _ _ Hr) as [E6 R6].
  destruct (get_u32_defined b Hb (wi_payload input)) as (level & E0 & R0); [lia..|].
  exists level. split; [done|]. split; [done|]. unfold fill_parsed_result.
  rewrite E1, E2, E3, Z.add_0_r, E0, E4, E5, E6. cbn [obind].
  unfold is_u32 in R1. fold (packed_of l) in Hpk. pose proof (packed_of_nonneg l).
  rewrite !block_length_small by lia.
  pose proof (build_spans_spec h l [] (replicate (Z.to_nat (wh_span_count h)) zero_span) []
    [] (replicate (Z.to_nat packed) zero_column) [] 0 APTA_FEATURE_WAVEFORM_OVERVIEW 0) as HB.
  rewrite !app_nil_r in HB. cbn [app] in HB.
  replace (Z.to_nat (wh_span_count h)) with (length l) in * by (unfold zlen in Hl; lia).
  rewrite HB; clear HB;
    [|done|done|done|done|unfold zlen in Hl; lia|by rewrite length_replicate|done
     |rewrite zlen_replicate; lia|done|lia].
  cbn [obind]. rewrite u16_small by done. unfold parsed. by rewrite Hl.
Qed.

(** ** The content of what is built *)

Definition parsed_content (h : wovr_header) (level_id : Z) (l : list checked_span) : content :=
  {| k_total_frames := wi_total_source_frames input;
     k_sample_rate := wi_source_sample_rate input;
     k_channel_count := wi_source_channel_count input;
     k_channel_layout := wi_source_channel_layout input;
     k_fingerprint_kind := wi_source_fingerprint_kind input;
     k_fingerprint := wi_source_fingerprint input;
     k_partial := any (wi_container_flags input) APTA_CONTAINER_FLAG_PARTIAL_RESULT;
     k_level_id := level_id;
     k_frames_per_column := wh_frames_per_column h;
     k_origin := wh_origin_frame h;
     k_state := wh_state h;
     k_spans := map content_of_span l |}.

Lemma parsed_spans_content l pre post :
  Forall (fun s => sn_column_count s.1 = zlen s.2) l ->
  map (span_content_of (pre ++ parsed_columns l ++ post)) (parsed_spans (zlen pre) l) =
  map content_of_span l.
Proof.
  revert pre. induction l as [|[s cols] l IH]; intros pre Hc; [done|].
  apply Forall_cons in Hc as [Hs Hc]. cbn [parsed_spans map]. f_equal.
  - unfold span_content_of, content_of_span. cbn [sp_columns sp_column_count fst snd]. f_equal.
    unfold parsed_columns. cbn [mbind list_bind snd]. unfold zlen.
    rewrite !Nat2Z.id, drop_app_length. rewrite <- app_assoc. by rewrite take_app_length.
  - rewrite <- (IH (pre ++ cols)) by done. rewrite zlen_app. unfold parsed_columns.
    cbn [mbind list_bind snd]. by rewrite <- !app_assoc.
Qed.

Lemma content_of_parsed h level_id l :
  wovr_checked input h ->
  (wi_total_source_frames input = APTA_TOTAL_FRAMES_UNKNOWN ->
   any (wi_container_flags input) APTA_CONTAINER_FLAG_PARTIAL_RESULT = true) ->
  Forall (fun s => sn_column_count s.1 = zlen s.2) l ->
  content_of (parsed input h level_id l) = parsed_content h level_id l.
Proof.
  intros Hc Hu Hl. unfold content_of, parsed_content. cbn [parsed res_overview ov_state].
  f_equal.
  - unfold layout_container_flags. cbn [parsed res_overview res_info ov_state ri_session_state
      res_total_source_frames].
    pose proof (wc_partial _ _ Hc) as Hp1. destruct (Z.eqb_spec (wh_state h) APTA_FEATURE_FINAL) as [E|E];
      cbn [negb orb].
    + destruct (Z.eqb_spec (wi_total_source_frames input) APTA_TOTAL_FRAMES_UNKNOWN) as [E'|E'].
      * rewrite Hu by done. by rewrite bool_decide_eq_false_2.
      * by destruct (any (wi_container_flags input) _).
    + rewrite Hp1 by done. by destruct (_ =? _).
  - unfold result_spans. cbn [parsed res_overview ov_span_count ov_spans from_option id res_overview_columns].
    rewrite take_ge by (rewrite length_parsed_spans; unfold zlen; lia).
    pose proof (parsed_spans_content l [] [] Hl) as Hm. by rewrite app_nil_r in Hm.
Qed.

End Build_spec.

(** ** Blocks of the context *)

Section Blocks.
Context `{PlatformLaws}.
Context (host : nat -> Z -> Z) (Hhost : forall k, host_ok (host k)).

Definition charge (c : apta_context_t) (n : Z) : apta_context_t :=
  set_allocated c (size_t (ctx_allocated_bytes c + n)).

Definition block_for (n : Z) (h : allocation_header) : Prop :=
  hdr_requested_size h = n /\ hdr_allocated_size h <> 0.

(** The host serves requests up to [limit] bytes. *)
Definition serves (limit : Z) : Prop :=
  limit <= SIZE_MAX /\ forall k n, 0 < n <= limit -> host k n <> 0.

(** The context has room for [n] more bytes. *)
Definition room (c : apta_context_t) (n : Z) : Prop :=
  ctx_memory_limit_bytes c = 0 \/
  ctx_allocated_bytes c + n <= ctx_memory_limit_bytes c <= SIZE_MAX.

(** The most a header and its alignment add to a block. *)
Definition block_overhead : Z := 16416.

Lemma effective_alignof t :
  apta_internal_is_power_of_two (effective_alignment (alignof t)) = true /\
  4 <= effective_alignment (alignof t) <= 32 /\ is_size (alignof t).
Proof.
  pose proof (alignof_range t) as Ha. pose proof alignof_pointer_range. pose proof max_alignment_range.
  pose proof size_max_bounds. unfold effective_alignment, alignof, alignof_pointer.
  assert (Hb : forall k, 0 <= k <= MAX_ALIGNMENT_LOG -> 1 <= 2 ^ k <= 32).
  { intros k Hk. change 32 with (2 ^ 5). change 1 with (2 ^ 0).
    split; apply Z.pow_le_mono_r; lia. }
  pose proof (Hb (alignof_log t) Ha). pose proof alignof_pointer_bounds as Hp.
  unfold alignof_pointer in Hp. split; [|unfold is_size; lia].
  destruct (Z.max_spec (2 ^ alignof_log t) (2 ^ alignof_pointer_log)) as [[_ ->]|[_ ->]];
    apply is_power_of_two_pow; lia.
Qed.

Lemma allocate_block_spec k c size t :
  is_size (ctx_allocated_bytes c) -> 1 <= size <= SIZE_MAX ->
  match allocate_block host k c size t with
  | (c', Some h) => block_for size h /\ c' = charge c size
  | (c', None) => c' = c /\ forall limit, serves limit -> size + block_overhead <= limit ->
                                          ~ room c size
  end.
Proof.
  intros Hc Hs. unfold allocate_block.
  destruct (effective_alignof t) as (Hp & Ha & Has).
  pose proof (context_allocate_spec (host k) c size (alignof t) (Hhost k) ltac:(unfold is_size; lia) Has Hc) as Hal.
  cbv zeta in Hal. destruct (Z.eqb_spec size 0); [lia|]. pose proof (sizeof_range T_allocation_header).
  destruct (apta_internal_context_allocate (host k) c size (alignof t)) as [c' [p [h|]]].
  - destruct Hal as (Ha1 & Ha2 & _ & _ & Ha5 & Ha6 & -> & _).
    destruct (Z.eqb_spec p 0); [lia|]. split; [|done]. split; [done|lia].
  - destruct Hal as (-> & -> & Hr). simpl. split; [done|]. intros limit [Hl Hsv] Hlim Hroom.
    unfold block_overhead in Hlim. apply (Hsv k (size + sizeof T_allocation_header +
      effective_alignment (alignof t) - 1)); [lia|]. apply Hr; [done|lia|].
    destruct Hroom; [by left|right; lia].
Qed.

Lemma release_block_eq c h n :
  block_for n h -> release_block c h = set_allocated c (size_t (ctx_allocated_bytes c - n)).
Proof.
  intros [<- Hn]. unfold release_block, in_workspace, refund.
  destruct (Z.eqb_spec (hdr_allocated_size h) 0); [done|]. done.
Qed.

Lemma release_charge c h n :
  is_size (ctx_allocated_bytes c) -> block_for n h -> release_block (charge c n) h = c.
Proof. intros Hc Hh. rewrite (release_block_eq _ _ n) by done. by apply charge_and_refund. Qed.

Lemma charge_size c n : is_size (ctx_allocated_bytes (charge c n)).
Proof.
  unfold charge, is_size, size_t. simpl. pose proof size_max_bounds.
  pose proof (Z.mod_pos_bound (ctx_allocated_bytes c + n) (SIZE_MAX + 1)). lia.
Qed.

Lemma room_charge c n m :
  is_size (ctx_allocated_bytes c) -> 0 <= n -> 0 <= m -> room c (n + m) -> room (charge c n) m.
Proof.
  intros Hc Hn Hm [Hr|Hr]; [by left|right]. unfold charge. simpl. unfold is_size in Hc.
  rewrite size_t_small by (unfold is_size; lia). lia.
Qed.

Lemma room_mono c n m : n <= m -> room c m -> room c n.
Proof. intros Hn [Hr|Hr]; [by left|right; lia]. Qed.

(** How the two counters of a context are set. *)
Lemma set_set c x y : set_allocated (set_allocated c x) y = set_allocated c y.
Proof. reflexivity. Qed.
Lemma count_set c x d : count_results (set_allocated c x) d = set_allocated (count_results c d) x.
Proof. reflexivity. Qed.
Lemma allocated_set c x : ctx_allocated_bytes (set_allocated c x) = x.
Proof. reflexivity. Qed.
Lemma allocated_count c d : ctx_allocated_bytes (count_results c d) = ctx_allocated_bytes c.
Proof. reflexivity. Qed.
Lemma count_count c : is_u32 (ctx_result_count c) -> count_results (count_results c 1) (-1) = c.
Proof.
  intros Hr. destruct c as [cap lim fl al sc rc lc]. unfold count_results. simpl in *. f_equal.
  unfold u32, is_u32 in *. rewrite Zplus_mod_idemp_l. rewrite Z.mod_small; lia.
Qed.

Lemma size_t_charges a n1 n2 n3 :
  is_size a ->
  size_t (size_t (size_t (size_t (size_t (size_t (a + n1) + n2) + n3) - n2) - n3) - n1) = a.
Proof.
  intros Ha. unfold size_t, is_size in *. pose proof size_max_bounds.
  transitivity (a mod (SIZE_MAX + 1)); [|apply Z.mod_small; lia].
  unfold Z.sub. repeat (rewrite <- ?Z.add_assoc; rewrite Zplus_mod_idemp_l). f_equal. lia.
Qed.

(** Bytes charged in any order come back by releases in any order. *)
Lemma release_parsed_spec c p n1 n2 n3 :
  is_size (ctx_allocated_bytes c) -> is_u32 (ctx_result_count c) ->
  block_for n1 (pa_result_block p) -> block_for n2 (pa_spans_block p) ->
  block_for n3 (pa_columns_block p) ->
  release_parsed (count_results (charge (charge (charge c n1) n2) n3) 1) p = c.
Proof.
  intros Hc Hr Hb1 Hb2 Hb3. unfold release_parsed, charge.
  rewrite (release_block_eq _ (pa_spans_block p) n2), (release_block_eq _ (pa_columns_block p) n3),
    (release_block_eq _ (pa_result_block p) n1) by done.
  repeat (rewrite count_set || rewrite set_set || rewrite allocated_set || rewrite allocated_count).
  rewrite size_t_charges, count_count by done. apply set_allocated_same.
Qed.

End Blocks.

(** ** Building and hardening *)

Section Parse.
Context `{PlatformLaws}.
Context (host : nat -> Z -> Z) (Hhost : forall k, host_ok (host k)).
Context (b : list Z) (Hb : bytes_ok b) (Hsize : is_size (zlen b)).
Context (o : apta_effective_parse_options_t).
Context (Hmax : eo_maximum_allocation_bytes o <= SIZE_MAX).

(** The memory a result takes. *)
Definition result_bytes (spans packed : Z) : Z :=
  sizeof T_result + spans * sizeof T_waveform_span + packed * sizeof T_waveform_column.

(** The context with three blocks and a result more. *)
Definition holds_result (c c' : apta_context_t) (pa : parsed_result) (bytes : Z) : Prop :=
  exists n1 n2 n3, c' = count_results (charge (charge (charge c n1) n2) n3) 1 /\
    n1 + n2 + n3 = bytes /\ 0 <= n1 /\ 0 <= n2 /\ 0 <= n3 /\
    block_for n1 (pa_result_block pa) /\ block_for n2 (pa_spans_block pa) /\
    block_for n3 (pa_columns_block pa).

Definition out_of_memory (c : apta_context_t) (bytes : Z) : Prop :=
  forall limit, serves host limit -> bytes + block_overhead <= limit -> ~ room c bytes.

Lemma packed_positive input h l packed : geometry_ok b o input h l packed -> 1 <= packed.
Proof.
  intros Hg. destruct (go_packed _ _ _ _ _ _ Hg) as [-> _]. fold (packed_of l).
  pose proof (wc_span_count _ _ (go_checked _ _ _ _ _ _ Hg)) as Hn.
  rewrite <- (go_length _ _ _ _ _ _ Hg) in Hn.
  destruct l as [|[s cols] l']; [done|]. rewrite packed_of_cons. pose proof (packed_of_nonneg l').
  destruct (go_spans _ _ _ _ _ _ Hg 0%nat (s, cols) eq_refl) as [_ Hck].
  pose proof (sc_columns _ _ _ _ _ _ Hck) as Hne. destruct cols; [done|].
  rewrite zlen_cons. pose proof (zlen_nonneg cols). lia.
Qed.

Lemma build_spec c input h l packed :
  0 <= wi_payload input -> wi_payload input + wi_payload_size input <= zlen b ->
  geometry_ok b o input h l packed -> is_u16 (wi_source_channel_count input) ->
  is_size (ctx_allocated_bytes c) ->
  let bytes := result_bytes (zlen l) packed in
  match apta_build_parsed_result host c b input o packed with
  | (c', Ret pa) => exists level_id, is_u32 level_id /\
      apta_get_u32 b (wi_payload input) = Ret level_id /\
      pa_result pa = parsed input h level_id l /\ holds_result c c' pa bytes
  | (c', Err e) => c' = c /\
      (e = APTA_ERROR_LIMIT_EXCEEDED /\ eo_maximum_allocation_bytes o < bytes \/
       e = APTA_ERROR_OUT_OF_MEMORY /\ out_of_memory c bytes)
  | (_, Ub) => False
  end.
Proof.
  intros Hp Hpz Hg Hch Hc bytes. unfold apta_build_parsed_result.
  destruct (wr_span_count _ _ _ (go_read _ _ _ _ _ _ Hg)) as [E R]. rewrite E.
  pose proof (go_length _ _ _ _ _ _ Hg) as Hl. rewrite <- Hl in *. clear E.
  destruct (go_packed _ _ _ _ _ _ Hg) as [Hpk Hpu]. fold (packed_of l) in Hpk.
  pose proof (packed_of_nonneg l) as Hp0. unfold is_u32 in R.
  pose proof (sizeof_range T_result) as S1. pose proof (sizeof_range T_waveform_span) as S2.
  pose proof (sizeof_range T_waveform_column) as S3. pose proof size_max_bounds as Hsm.
  pose proof (packed_positive input h l packed Hg) as Hpk1.
  assert (Hl1 : 1 <= zlen l) by (pose proof (wc_span_count _ _ (go_checked _ _ _ _ _ _ Hg)); lia).
  assert (M1 : zlen l <= zlen l * sizeof T_waveform_span <= UINT32_MAX * 16384) by nia.
  assert (M2 : packed <= packed * sizeof T_waveform_column <= UINT32_MAX * 16384) by nia.
  rewrite (u64_small (zlen l * _)), (u64_small (packed * _)) by (unfold is_u64; lia).
  rewrite (u64_small (sizeof _ + _)) by (unfold is_u64; lia). rewrite u64_small by (unfold is_u64; lia).
  fold (result_bytes (zlen l) packed). fold bytes.
  destruct (Z.ltb_spec (eo_maximum_allocation_bytes o) bytes) as [|Hle]; [by split; [|left]|].
  assert (Hby : bytes = sizeof T_result + zlen l * sizeof T_waveform_span +
                        packed * sizeof T_waveform_column) by done. clearbody bytes.
  rewrite !size_t_small by (unfold is_size; lia).
  assert (L1 : 1 <= sizeof T_result <= SIZE_MAX) by lia.
  assert (L2 : 1 <= zlen l * sizeof T_waveform_span <= SIZE_MAX) by lia.
  assert (L3 : 1 <= packed * sizeof T_waveform_column <= SIZE_MAX) by lia.
  pose proof (allocate_block_spec host Hhost 0 c (sizeof T_result) T_result Hc L1) as A1.
  destruct (allocate_block host 0 c _ _) as [c1 [h1|]].
  2: { destruct A1 as [-> A1]. split; [done|]. right. split; [done|]. intros limit Hs Hlim Hroom.
       apply (A1 limit); [done|lia|]. eapply room_mono; [|done]. lia. }
  destruct A1 as [B1 ->]. pose proof (charge_size c (sizeof T_result)) as Hc1.
  pose proof (allocate_block_spec host Hhost 1 _ (zlen l * sizeof T_waveform_span)
                T_waveform_span Hc1 L2) as A2.
  destruct (allocate_block host 1 _ _ _) as [c2 [h2|]].
  2: { destruct A2 as [-> A2]. split; [by apply release_charge|]. right. split; [done|].
       intros limit Hs Hlim Hroom. apply (A2 limit); [done|lia|].
       apply room_charge; [done|lia|lia|]. eapply room_mono; [|done]. lia. }
  destruct A2 as [B2 ->].
  pose proof (charge_size (charge c (sizeof T_result)) (zlen l * sizeof T_waveform_span)) as Hc2.
  pose proof (allocate_block_spec host Hhost 2 _ (packed * sizeof T_waveform_column)
                T_waveform_column Hc2 L3) as A3.
  destruct (allocate_block host 2 _ _ _) as [c3 [h3|]].
  2: { destruct A3 as [-> A3]. split; [by rewrite (release_charge (charge c _)), release_charge|].
       right. split; [done|]. intros limit Hs Hlim Hroom. apply (A3 limit); [done|lia|].
       apply room_charge; [done|lia|lia|]. apply room_charge; [done|lia|lia|].
       eapply room_mono; [|done]. lia. }
  destruct A3 as [B3 ->].
  destruct (fill_parsed_result_spec b Hb Hsize o input Hp Hpz h l packed Hg Hch) as (level & E0 & R0 & ->);
    [lia|lia|].
  exists level. split; [done|]. split; [done|]. split; [done|].
  eexists _, _, _. split; [reflexivity|]. split_and!; try done; lia.
Qed.

(** *** The hardening pass *)

Definition interval_of (s : checked_span) : Z * Z :=
  (sn_data_column_offset s.1, sn_data_column_offset s.1 + zlen s.2).

(** Each span starts where the one before ends. *)
Fixpoint chained (frame column : Z) (l : list checked_span) : bool :=
  match l with
  | [] => true
  | s :: l => (sn_first_frame s.1 =? frame) && (sn_first_column s.1 =? column) &&
              chained (sn_end_frame s.1) (sn_end_column s.1) l
  end.

Definition last_frame (default : Z) (l : list checked_span) : Z :=
  foldl (fun _ s => sn_end_frame s.1) default l.

Lemma harden_loop_spec input h l final ipre iold ipost frame column index :
  wovr_read b input h -> spans_at b o input h index l ->
  length iold = length l -> length ipre = index ->
  harden_loop b (wi_payload input) (wh_span_directory_offset h) final (ipre ++ iold ++ ipost)
    frame column index (length l) =
  (if final && negb (chained frame column l) then Err APTA_ERROR_CORRUPT_DATA
   else Ret (ipre ++ map interval_of l ++ ipost, last_frame frame l, last_column column l)).
Proof.
  intros Hr. revert ipre iold frame column index.
  induction l as [|[s cols] l IH]; intros ipre iold frame column index Hat Ho Hi.
  - destruct iold; [|discriminate]. simpl. by rewrite andb_false_r.
  - destruct iold as [|x iold]; [discriminate|]. cbn [length harden_loop chained fst snd].
    destruct (Hat 0%nat (s, cols) eq_refl) as [Hrd Hck]. rewrite Nat.add_0_r in Hrd. cbn [fst snd] in *.
    destruct (sr_first _ _ _ Hrd) as [E1 R1]. destruct (sr_end _ _ _ Hrd) as [E2 R2].
    destruct (sr_first_column _ _ _ Hrd) as [E3 R3]. destruct (sr_count _ _ _ Hrd) as [E4 R4].
    destruct (sr_data _ _ _ Hrd) as [E5 R5]. rewrite E1, E2, E3, E4, E5. cbn [obind].
    destruct final; cbn [andb];
      [destruct (Z.eqb_spec (sn_first_frame s) frame), (Z.eqb_spec (sn_first_column s) column);
       cbn [negb orb andb]; try done|].
    all: cbn [app]; rewrite arr_put_middle by done; cbn [obind];
      change (ipre ++ ?y :: iold ++ ipost) with (ipre ++ [y] ++ iold ++ ipost);
      rewrite (app_assoc ipre); fold (sn_end_column s);
      rewrite IH; [|intros j s' Hj; specialize (Hat (S j) s' Hj);
                    by replace (S index + j)%nat with (index + S j)%nat by lia
                   |by injection Ho|rewrite length_app; simpl; lia];
      unfold is_u32 in *; rewrite u64_small by (unfold is_u64; lia);
      rewrite <- app_assoc; cbn [map app]; unfold interval_of; cbn [fst snd];
      by rewrite (sc_count _ _ _ _ _ _ Hck).
Qed.

(** A chain from the origin to the end of the track covers it. *)
Lemma chained_contiguous k frame column l :
  Forall (fun s => sn_end_column s.1 = k_end_column (content_of_span s)) l ->
  chained frame column l = true ->
  last_frame frame l = k_total_frames k -> last_column column l = k_logical k ->
  contiguous_from k frame column (map content_of_span l).
Proof.
  revert frame column. induction l as [|s l IH]; intros frame column Hf Hc L1 L2; [done|].
  apply Forall_cons in Hf as [Hs Hf]. cbn [chained] in Hc. bool_facts.
  cbn [map contiguous_from]. split_and!; [done|done|]. rewrite <- Hs. by apply IH.
Qed.

Lemma contiguous_chained k frame column l :
  Forall (fun s => sn_end_column s.1 = k_end_column (content_of_span s)) l ->
  contiguous_from k frame column (map content_of_span l) ->
  chained frame column l = true /\ last_frame frame l = k_total_frames k /\
  last_column column l = k_logical k.
Proof.
  revert frame column. induction l as [|s l IH]; intros frame column Hf Hc; [done|].
  apply Forall_cons in Hf as [Hs Hf]. cbn [map contiguous_from] in Hc. rewrite <- Hs in Hc.
  destruct Hc as (C1 & C2 & Hc). cbn [chained]. simpl in C1, C2.
  rewrite C1, C2, !Z.eqb_refl. simpl. by apply IH.
Qed.

Lemma spans_at_end_column input h l :
  spans_at b o input h 0 l ->
  Forall (fun s => sn_end_column s.1 = k_end_column (content_of_span s)) l /\
  Forall (fun s => sn_column_count s.1 = zlen s.2) l.
Proof.
  intros Hat. split; apply Forall_lookup_2; intros j s Hj; destruct (Hat j s Hj) as [_ Hck].
  - apply (sc_end_column _ _ _ _ _ _ Hck).
  - apply (sc_count _ _ _ _ _ _ Hck).
Qed.

(** What the hardening pass asks of a section. *)
Definition hardened (input : apta_wovr_input_t) (h : wovr_header) (l : list checked_span) : bool :=
  (negb (wh_state h =? APTA_FEATURE_FINAL) ||
   (chained (wh_origin_frame h) 0 l && (last_column 0 l =? wh_logical_column_count h) &&
    (last_frame (wh_origin_frame h) l =? wi_total_source_frames input))) &&
  negb (intervals_overlap (sort_intervals (map interval_of l))).

Definition interval_bytes (spans : Z) : Z := spans * sizeof T_packed_interval.

Lemma harden_fields input ch e h l packed :
  container_ok b input ch e -> geometry_ok b o input h l packed ->
  apta_find_wovr_payload b = Ret (Some (wi_payload input)) /\
  apta_get_u64 b 40 = Ret (wi_total_source_frames input).
Proof.
  intros Hco Hg. destruct Hco as [Hr Hc _ He Hs ->]. unfold apta_find_wovr_payload.
  rewrite (hr_get_count _ _ Hr), (hr_get_directory _ _ Hr). cbn [obind].
  rewrite (wovr_entry_find b _ _ _ e He). destruct (so_bounds _ _ _ Hs) as (B1 & B2 & B3).
  rewrite size_t_small by (unfold is_size in *; lia). split; [done|]. apply (hr_get_total _ _ Hr).
Qed.

Lemma harden_spec c input ch e h l packed :
  container_ok b input ch e -> geometry_ok b o input h l packed ->
  is_size (ctx_allocated_bytes c) ->
  match apta_harden_validated_wovr host c b with
  | (c', Ret _) => c' = c /\ hardened input h l = true
  | (c', Err e) => c' = c /\
      (e = APTA_ERROR_LIMIT_EXCEEDED /\ SIZE_MAX < interval_bytes (zlen l) \/
       e = APTA_ERROR_OUT_OF_MEMORY /\ out_of_memory c (interval_bytes (zlen l)) \/
       e = APTA_ERROR_CORRUPT_DATA /\ hardened input h l = false)
  | (_, Ub) => False
  end.
Proof.
  intros Hco Hg Hc. destruct (harden_fields _ _ _ _ _ _ Hco Hg) as [F1 F2].
  pose proof (go_read _ _ _ _ _ _ Hg) as Hr. pose proof (go_length _ _ _ _ _ _ Hg) as Hl.
  destruct (wr_origin _ _ _ Hr) as [E1 _]. destruct (wr_logical _ _ _ Hr) as [E2 _].
  destruct (wr_span_count _ _ _ Hr) as [E3 R3]. destruct (wr_span_directory _ _ _ Hr) as [E4 _].
  destruct (wr_flags _ _ _ Hr) as [E5 _]. unfold apta_harden_validated_wovr.
  rewrite F1. cbn [obind]. rewrite F2, E1, E2, E3, E4, E5. cbn [obind]. fold (wh_state h).
  rewrite <- Hl in *. pose proof (sizeof_range T_packed_interval) as Hi.
  pose proof size_max_bounds. unfold is_u32 in R3.
  assert (Hl1 : 1 <= zlen l) by (pose proof (wc_span_count _ _ (go_checked _ _ _ _ _ _ Hg)); lia).
  unfold apta_internal_size_array_fits.
  destruct (Z.eqb_spec (sizeof T_packed_interval) 0); [lia|]. rewrite Z.sub_0_r. cbn [orb].
  destruct (Z.leb_spec (zlen l) (SIZE_MAX / sizeof T_packed_interval)) as [Hf|Hf]; cbn [negb].
  2: { split; [done|]. left. split; [done|]. unfold interval_bytes.
       apply Z.nle_gt. intros Hle.
       assert (zlen l <= SIZE_MAX / sizeof T_packed_interval) by (apply Z.div_le_lower_bound; lia). lia. }
  assert (Hib : 1 <= interval_bytes (zlen l) <= SIZE_MAX).
  { assert (Hpos : 0 < sizeof T_packed_interval) by lia. unfold interval_bytes.
    pose proof (Z.mul_div_le SIZE_MAX _ Hpos). nia. }
  fold (interval_bytes (zlen l)). rewrite size_t_small by (unfold is_size; lia).
  pose proof (allocate_block_spec host Hhost 3 c _ T_packed_interval Hc Hib) as Ha.
  destruct (allocate_block host 3 c _ _) as [c' [blk|]].
  2: { destruct Ha as [-> Ha]. split; [done|]. right. left. split; [done|]. exact Ha. }
  destruct Ha as [Hblk ->]. rewrite (release_charge c blk _ Hc Hblk).
  rewrite block_length_small by (unfold interval_bytes in Hib; lia).
  replace (Z.to_nat (zlen l)) with (length l) by (unfold zlen; lia).
  pose proof (harden_loop_spec input h l (wh_state h =? APTA_FEATURE_FINAL) []
    (replicate (length l) (0, 0)) [] (wh_origin_frame h) 0 0 Hr (go_spans _ _ _ _ _ _ Hg)) as Hh.
  rewrite !app_nil_r in Hh. cbn [app] in Hh. rewrite Hh by (done || apply length_replicate).
  unfold hardened.
  destruct (wh_state h =? APTA_FEATURE_FINAL); cbn [andb negb orb];
    [destruct (chained (wh_origin_frame h) 0 l); cbn [andb negb orb obind]|].
  - destruct (last_column 0 l =? _), (last_frame (wh_origin_frame h) l =? _); cbn [andb negb orb];
      try (by split; [done|right; right]).
    rewrite take_ge by (rewrite length_map; lia).
    destruct (intervals_overlap _); cbn [negb]; by split; [done|try (right; right)].
  - by split; [done|right; right].
  - cbn [obind]. rewrite take_ge by (rewrite length_map; lia).
    destruct (intervals_overlap _); cbn [negb]; by split; [done|try (right; right)].
Qed.

(** *** Validity of what is accepted *)

Lemma k_extent_member l s : s ∈ l -> k_end_column s <= k_extent l.
Proof. unfold k_extent. induction 1; simpl; lia. Qed.

Section Valid.
Context (input : apta_wovr_input_t) (h : wovr_header) (level_id : Z) (l : list checked_span).
Let k := parsed_content input h level_id l.
Context (Hc : wovr_checked input h) (Hr : wovr_read b input h).
Context (Hs : Forall (fun s => span_checked b o input h s.1 s.2) l).

Lemma parsed_known : k_known k = true <-> known input.
Proof. unfold k_known, known, total. cbn [k k_total_frames parsed_content]. rewrite negb_true_iff. by rewrite Z.eqb_neq. Qed.

Lemma parsed_logical_known : known input -> k_logical k = wh_logical_column_count h.
Proof.
  intros Hk. unfold k_logical. rewrite (proj2 parsed_known Hk).
  destruct (wc_required _ _ Hc Hk) as [_ ->]. done.
Qed.

Lemma parsed_logical_bound : k_logical k <= wh_logical_column_count h.
Proof.
  destruct (wr_logical _ _ _ Hr) as [_ Hl]. unfold is_u32 in Hl.
  unfold k_logical. destruct (k_known k) eqn:E.
  - apply parsed_known in E. destruct (wc_required _ _ Hc E) as [_ ->]. done.
  - apply k_extent_bound; [|lia]. cbn [k parsed_content k_spans]. apply Forall_map.
    eapply Forall_impl; [exact Hs|]. intros s Hck. apply (sc_logical _ _ _ _ _ _ Hck).
Qed.

Lemma span_valid_parsed s :
  s ∈ l -> is_u32 (sn_first_column s.1) -> span_valid (is_strict o) k (content_of_span s).
Proof.
  intros Hin Hf. rewrite Forall_forall in Hs. pose proof (Hs s Hin) as Hck.
  destruct Hck as [S1 S2 S3 S4 S5 S6 S7 S8 S9 S10 S11 S12]. unfold is_u32 in Hf.
  split; cbn [content_of_span k_first k_end k_first_column k_columns]; try done; try lia.
  - unfold k_logical. destruct (k_known k) eqn:E.
    + apply parsed_known in E. destruct (wc_required _ _ Hc E) as [_ El].
      cbn [k parsed_content k_total_frames k_origin k_frames_per_column].
      unfold total in El. rewrite <- El. done.
    + apply k_extent_member. cbn [k parsed_content k_spans]. apply list_elem_of_fmap. by exists s.
  - destruct S10 as [S10|(K & S10 & S10' & S10'')]; [by left|right].
    split; [by apply parsed_known|]. split; [done|]. split; [|done].
    unfold k_end_column. cbn [k_first_column k_columns content_of_span].
    by rewrite parsed_logical_known.
  - intros E. apply S11. by apply parsed_known.
Qed.

Lemma parsed_logical_positive :
  l <> [] -> Forall (fun s => is_u32 (sn_first_column s.1)) l -> 1 <= k_logical k.
Proof.
  intros Hne Hf. assert (Hin : exists s, s ∈ l) by (destruct l as [|s ?]; [done|exists s; by left]).
  destruct Hin as [s Hin]. rewrite Forall_forall in Hf. pose proof (Hf s Hin) as Hf0.
  pose proof (span_valid_parsed s Hin Hf0) as Hv. pose proof (sv_logical _ _ _ Hv) as Hle.
  pose proof (sv_columns _ _ _ Hv) as Hcols. unfold k_end_column in Hle.
  cbn [content_of_span k_first_column k_columns] in Hle, Hcols.
  destruct s.2 as [|c cs]; [done|]. rewrite zlen_cons in Hle. pose proof (zlen_nonneg cs).
  unfold is_u32 in Hf0. lia.
Qed.

End Valid.

Lemma parsed_valid input ch e h level_id l packed :
  container_ok b input ch e -> geometry_ok b o input h l packed ->
  hardened input h l = true -> is_u32 level_id ->
  valid (is_strict o) (parsed_content input h level_id l).
Proof.
  intros Hco [Gs Gr Gc Gl Ga Gso [Gp Gpu]] Hh Hlv. set (k := parsed_content input h level_id l).
  destruct Hco as [Hr Hck _ _ _ Ei]. destruct (spans_at_end_column _ _ _ Ga) as [He _].
  assert (Hs : Forall (fun s => span_checked b o input h s.1 s.2) l)
    by (apply Forall_lookup_2; intros j s Hj; by destruct (Ga j s Hj)).
  assert (Hf : Forall (fun s => is_u32 (sn_first_column s.1)) l).
  { apply Forall_lookup_2. intros j s Hj. destruct (Ga j s Hj) as [Hrd _]. apply (sr_first_column _ _ _ Hrd). }
  pose proof (wc_span_count _ _ Gc) as Hn. pose proof (wc_logical _ _ Gc) as Hlg.
  assert (Hl1 : l <> []) by (intros ->; unfold zlen in Gl; simpl in Gl; lia).
  pose proof (parsed_logical_bound input h level_id l Gc Gr Hs) as Hlb.
  pose proof (parsed_logical_positive input h level_id l Gc Hs Hl1 Hf) as Hlp. fold k in Hlb, Hlp.
  destruct (wr_span_count _ _ _ Gr) as [_ R1]. destruct (wr_logical _ _ _ Gr) as [_ R2].
  destruct (wr_frames_per_column _ _ _ Gr) as [_ R3]. destruct (wr_origin _ _ _ Gr) as [_ R4].
  pose proof (wc_frames_per_column _ _ Gc) as Hfp. unfold is_u32, is_u64 in R1, R2, R3, R4.
  pose proof (parsed_known input h level_id l) as Hkn. fold k in Hkn.
  constructor; try (apply (wc_state _ _ Gc)); try done; try lia.
  - subst input. apply (hr_total _ _ Hr).
  - subst input. pose proof (hr_rate _ _ Hr) as R. pose proof (hc_rate _ _ Hck).
    unfold is_u32 in R. cbn in *. lia.
  - subst input. pose proof (hr_channels _ _ Hr) as R. pose proof (hc_channels _ _ Hck).
    unfold is_u16 in R. cbn in *. lia.
  - subst input. apply (hr_layout _ _ Hr).
  - subst input. apply (hr_kind _ _ Hr).
  - subst input. apply (hr_fingerprint _ _ Hr).
  - subst input. apply (hc_fingerprint _ _ Hck).
  - cbn [k parsed_content k_frames_per_column]. lia.
  - intros [Hst|Hu]; [by apply (wc_partial _ _ Gc)|]. subst input.
    cbn [k parsed_content k_partial set_payload wi_container_flags]. rewrite (hr_input_flags _ _ Hr).
    apply (hc_unknown _ _ Hck). unfold k_known in Hu. apply negb_false_iff, Z.eqb_eq in Hu. exact Hu.
  - intros Hst. apply Hkn. by apply (wc_final _ _ Gc).
  - intros Hk. apply Hkn in Hk. apply (wc_required _ _ Gc Hk).
  - split; [by destruct l|]. cbn [k parsed_content k_spans]. unfold zlen in *. rewrite length_map. lia.
  - cbn [k parsed_content k_spans]. lia.
  - cbn [k parsed_content k_spans]. apply Forall_map, Forall_forall. intros s Hin.
    apply span_valid_parsed; [done|done|done|]. rewrite Forall_forall in Hf. by apply Hf.
  - intros Hst. unfold hardened in Hh. cbn [k parsed_content k_state] in Hst. rewrite Hst in Hh.
    rewrite Z.eqb_refl in Hh. cbn [negb orb] in Hh. bool_facts.
    apply chained_contiguous; [done|done|done|].
    transitivity (wh_logical_column_count h); [done|]. symmetry.
    apply (parsed_logical_known input h level_id l Gc). by apply (wc_final _ _ Gc).
Qed.

Lemma parsed_spans_typed l pre post :
  Forall (fun s => is_u64 (sn_first_frame s.1) /\ is_u64 (sn_end_frame s.1) /\
                   is_u32 (sn_first_column s.1) /\ zlen s.2 <= UINT32_MAX) l ->
  Forall (span_typed (pre ++ parsed_columns l ++ post)) (parsed_spans (zlen pre) l).
Proof.
  revert pre. induction l as [|[s cols] l IH]; intros pre Hl; [apply Forall_nil_2|].
  apply Forall_cons in Hl as [(H1 & H2 & H3 & H4) Hl]. cbn [fst snd] in *. cbn [parsed_spans].
  constructor.
  - split_and!; try done; cbn [sp_column_count sp_columns].
    + unfold is_u32. pose proof (zlen_nonneg cols). lia.
    + unfold parsed_columns. cbn [mbind list_bind snd]. rewrite !length_app. unfold zlen. lia.
  - replace (zlen pre + zlen cols) with (zlen (pre ++ cols)) by apply zlen_app.
    unfold parsed_columns. cbn [mbind list_bind snd]. rewrite <- app_assoc, app_assoc.
    by apply IH.
Qed.

Lemma parsed_typed input ch e h level_id l packed :
  container_ok b input ch e -> geometry_ok b o input h l packed -> is_u32 level_id ->
  result_typed (parsed input h level_id l).
Proof.
  intros Hco [Gs Gr Gc Gl Ga Gso [Gp Gpu]] Hlv. destruct Hco as [Hr Hck _ _ _ Ei].
  destruct (wr_span_count _ _ _ Gr) as [_ R1]. destruct (wr_frames_per_column _ _ _ Gr) as [_ R3].
  destruct (wr_origin _ _ _ Gr) as [_ R4]. pose proof (wc_state _ _ Gc) as Hst.
  unfold APTA_FEATURE_PARTIAL, APTA_FEATURE_FINAL in Hst.
  pose proof (hr_channels _ _ Hr) as Hch. pose proof (hr_layout _ _ Hr) as Hlay. unfold is_u16 in *.
  constructor; cbn [parsed res_overview ov_level_id ov_frames_per_column ov_origin_frame ov_state
    ov_span_count ov_spans res_overview_columns res_source_channel_count res_source_channel_layout
    res_total_source_frames res_source_sample_rate res_source_info si_fingerprint si_fingerprint_kind];
    try done; try (unfold is_u32; subst input; cbn; lia); try (subst input; apply Hr).
  - by rewrite Gl.
  - unfold parsed_columns. apply Forall_bind. apply Forall_lookup_2. intros j s Hj.
    destruct (Ga j s Hj) as [_ Hsc]. eapply Forall_impl; [apply (sc_columns_valid _ _ _ _ _ _ Hsc)|].
    by intros c [Hc _].
  - intros spans [= <-]. split; [unfold zlen; rewrite length_parsed_spans; lia|].
    pose proof (parsed_spans_typed l [] []) as Ht. rewrite app_nil_r in Ht. apply Ht.
    apply Forall_lookup_2. intros j s Hj. destruct (Ga j s Hj) as [Hrd Hsc].
    split_and!; [apply (sr_first _ _ _ Hrd)|apply (sr_end _ _ _ Hrd)|apply (sr_first_column _ _ _ Hrd)|].
    rewrite <- (sc_count _ _ _ _ _ _ Hsc). apply (sr_count _ _ _ Hrd).
Qed.

End Parse.

Section Container_payload.
Context `{PlatformLaws}.

Lemma container_payload b input ch e :
  is_size (zlen b) -> container_ok b input ch e ->
  0 <= wi_payload input /\ wi_payload input + wi_payload_size input <= zlen b /\
  0 <= wi_payload_size input <= UINT64_MAX /\ is_u64 (total input) /\
  is_u16 (wi_source_channel_count input) /\
  (wi_total_source_frames input = APTA_TOTAL_FRAMES_UNKNOWN ->
   any (wi_container_flags input) APTA_CONTAINER_FLAG_PARTIAL_RESULT = true).
Proof.
  intros Hz [Hr Hc _ _ Hs ->]. destruct (so_bounds _ _ _ Hs) as (B1 & B2 & B3).
  unfold is_size in Hz. pose proof size_max_bounds. cbn.
  do 3 (split; [lia|]). split; [apply (hr_total _ _ Hr)|]. split; [apply (hr_channels _ _ Hr)|].
  rewrite (hr_input_flags _ _ Hr). apply (hc_unknown _ _ Hc).
Qed.

End Container_payload.
