(* ===== verification/WovrRoundTrip.v ===== *)
(** * The reader accepts what the writer writes

    [encode] of a valid content passes every check of the reader, which builds a
    result of that content. *)

From stdpp Require Import sorting.
From S2P Require Import Prelude Platform Bytes Workspace Memory Wovr WovrSpec WovrReader.
From S2P Require Import WovrWriterTheorems WovrReaderTheorems WovrParse.
Open Scope Z_scope.

(** One read of a field known to stand in the buffer. *)
Ltac read_field offset :=
  lazymatch goal with
  | |- obind (apta_get_u16 ?b ?p) _ = _ =>
      match goal with F : holds b ?q (le_bytes 2 ?v) |- _ =>
        rewrite (get_u16_at b p q v F) by first [assumption | offset | widths; lia]; cbn [obind] end
  | |- obind (apta_get_u32 ?b ?p) _ = _ =>
      match goal with F : holds b ?q (le_bytes 4 ?v) |- _ =>
        rewrite (get_u32_at b p q v F) by first [assumption | offset | widths; lia]; cbn [obind] end
  | |- obind (apta_get_u64 ?b ?p) _ = _ =>
      match goal with F : holds b ?q (le_bytes 8 ?v) |- _ =>
        rewrite (get_u64_at b p q v F) by first [assumption | offset | widths; lia]; cbn [obind] end
  | |- obind (apta_get_i16 ?b ?p) _ = _ =>
      match goal with F : holds b ?q (le_bytes 2 (u16 ?v)) |- _ =>
        rewrite (get_i16_at b p q v F) by first [assumption | offset]; cbn [obind] end
  | |- obind (get8 ?b ?p) _ = _ =>
      match goal with F : holds b ?q [?v] |- _ =>
        rewrite (get8_at b p q v F) by offset; cbn [obind] end
  end.

Lemma bail_pass {E A} (e : E) (c : bool) (m : outcome E A) :
  c = false -> (if c then Err e else m) = m.
Proof. by intros ->. Qed.

(** The guard of the next early return is false. *)
Ltac pass tac :=
  lazymatch goal with
  | |- (if ?c then Err ?e else ?m) = _ => rewrite (bail_pass e c m) by tac
  | |- obind (if ?c then Err ?e else ?m) _ = _ => rewrite (bail_pass e c m) by tac
  end.

Section Accept.
Context `{PlatformLaws}.
Context (o : apta_effective_parse_options_t).
Context (k : content) (Hk : valid (is_strict o) k) (Hz : k_total_size k <= SIZE_MAX).
(** The bytes and the two checksums, as variables: they need not be computed. *)
Context (b : list Z) (Eb : b = encode k).
Context (header_crc payload_crc : Z).
Context (Eh : header_crc = apta_internal_crc32c (Some (encode_header k))).
Context (Ep : payload_crc = apta_internal_crc32c (Some (encode_payload k))).

Lemma encode_size : zlen b = k_total_size k.
Proof. rewrite Eb. apply zlen_encode. apply (v_fingerprint _ _ Hk). Qed.

Lemma total_size_eq :
  k_total_size k = 184 + 32 * zlen (k_spans k) + 10 * k_packed (k_spans k) /\
  1 <= zlen (k_spans k) <= UINT32_MAX /\ 0 <= k_packed (k_spans k) <= UINT32_MAX.
Proof.
  destruct (v_spans _ _ Hk) as [Hs Hn]. pose proof (v_packed _ _ Hk). pose proof (k_packed_nonneg (k_spans k)).
  unfold k_total_size, k_payload_size. destruct (k_spans k); [done|].
  rewrite zlen_cons in *. pose proof (zlen_nonneg l). lia.
Qed.

Lemma valid_columns_typed : Forall (fun s => Forall column_typed (k_columns s)) (k_spans k).
Proof.
  eapply Forall_impl; [apply (v_span _ _ Hk)|]. intros s Hs.
  eapply Forall_impl; [apply (sv_columns_valid _ _ _ Hs)|]. by intros c [? _].
Qed.

Lemma encode_payload_ok : bytes_ok (encode_payload k).
Proof.
  unfold encode_payload, bytes_ok. rewrite !Forall_app.
  split; [apply encode_overview_ok|]. split; [apply bytes_ok_le|].
  split; [apply encode_spans_ok|apply encode_all_columns_ok, valid_columns_typed].
Qed.

Lemma encode_ok : bytes_ok b.
Proof.
  destruct (v_fingerprint _ _ Hk) as [_ Hf]. rewrite Eb. unfold encode, bytes_ok. rewrite !Forall_app.
  split_and!; [by apply encode_header_ok|apply bytes_ok_le|apply encode_entry_ok
              |apply bytes_ok_le|apply bytes_ok_le|apply encode_payload_ok].
Qed.

(** Where the parts of the container stand. *)
Lemma encode_parts :
  holds b 0 (encode_header k) /\
  holds b 92 (le_bytes 4 header_crc) /\
  holds b 96 (encode_entry k) /\
  holds b 128 (le_bytes 4 payload_crc) /\
  holds b 132 (le_bytes 4 0) /\
  holds b 136 (encode_payload k).
Proof.
  pose proof (holds_self b) as Hb. rewrite Eb in Hb at 2. unfold encode in Hb.
  rewrite <- Eh, <- Ep in Hb. split_fields Hb.
  destruct (v_fingerprint _ _ Hk) as [Hf _]. pose proof (zlen_encode_header k Hf) as Hh.
  pose proof (zlen_encode_entry k) as He.
  rewrite Hh, ?He in *. rewrite !zlen_le_bytes in *. done.
Qed.

Definition encoded_header : container_header :=
  {| ch_header_size := 96; ch_container_version := 1; ch_container_flags := k_flags k;
     ch_section_count := 1; ch_directory_offset := 96; ch_total_file_size := k_total_size k;
     ch_header_crc := header_crc;
     ch_input :=
       {| wi_payload := 0; wi_payload_size := 0; wi_container_flags := k_flags k;
          wi_total_source_frames := k_total_frames k; wi_source_sample_rate := k_sample_rate k;
          wi_source_channel_count := k_channel_count k;
          wi_source_channel_layout := k_channel_layout k;
          wi_source_fingerprint_kind := k_fingerprint_kind k;
          wi_source_fingerprint := k_fingerprint k;
          wi_specification_major := APTA_SPEC_VERSION_MAJOR;
          wi_specification_minor := APTA_SPEC_VERSION_MINOR;
          wi_producer_api_version := APTA_API_VERSION |} |}.

Lemma k_flags_range : 0 <= k_flags k <= 3.
Proof. unfold k_flags. by destruct (k_partial k), (k_known k). Qed.

Lemma header_crc_u32 : is_u32 header_crc.
Proof. rewrite Eh. apply crc32c_u32, encode_header_ok. apply (v_fingerprint _ _ Hk). Qed.

Lemma payload_crc_u32 : is_u32 payload_crc.
Proof. rewrite Ep. apply crc32c_u32, encode_payload_ok. Qed.

Lemma read_encoded_header : read_container_header b = Ret encoded_header.
Proof.
  destruct encode_parts as (Hh & Hc & _). unfold encode_header in Hh. split_fields Hh.
  destruct (v_fingerprint _ _ Hk) as [Hf Hfo].
  assert (Hfz : zlen (k_fingerprint k) = 32) by (unfold zlen; lia).
  change (zlen tag_APTA) with 4 in *. rewrite ?Hfz, ?zlen_le_bytes in *. simpl Z.of_nat in *.
  pose proof k_flags_range. destruct total_size_eq as (Ht & Hn & Hpk).
  pose proof (v_total_frames _ _ Hk). pose proof (v_sample_rate _ _ Hk).
  pose proof (v_channel_count _ _ Hk). pose proof (v_channel_layout _ _ Hk).
  pose proof (v_kind _ _ Hk). pose proof header_crc_u32 as Hcrc.
  unfold read_container_header. change (Z.to_nat APTA_SOURCE_FINGERPRINT_SIZE) with 32%nat.
  assert (is_u16 APTA_SPEC_VERSION_MAJOR) by (split; vm_compute; congruence).
  assert (is_u16 APTA_SPEC_VERSION_MINOR) by (split; vm_compute; congruence).
  assert (is_u32 APTA_API_VERSION) by (split; vm_compute; congruence).
  do 14 read_field ltac:(reflexivity).
  erewrite (get_bytes_at b 56 _ (k_fingerprint k)); [|eassumption|reflexivity|done]. cbn [obind].
  read_field ltac:(reflexivity). reflexivity.
Qed.

(** The limits of the options leave room for the content. *)
Record fits : Prop := {
  f_sections : 1 <= eo_maximum_section_count o;
  f_file : k_total_size k <= eo_maximum_file_bytes o;
  f_spans : zlen (k_spans k) <= eo_maximum_overview_spans o;
  f_logical : k_logical k <= eo_maximum_waveform_columns o;
  f_packed : k_packed (k_spans k) <= eo_maximum_waveform_columns o
}.
Context (Hfits : fits).

Lemma any_small_mask v : 0 <= v <= 7 -> any v (not32 7) = false.
Proof.
  intros Hv. apply any_false. apply Z.bits_inj'. intros n Hn. rewrite Z.land_spec, Z.bits_0.
  unfold not32. rewrite Z.lxor_spec. change 7 with (Z.ones 3). change UINT32_MAX with (Z.ones 32).
  rewrite !Z.testbit_ones_nonneg by lia. destruct (Z.ltb_spec n 3).
  - rewrite andb_false_iff. right. destruct (Z.ltb_spec n 32); [done|lia].
  - rewrite andb_false_iff. left. rewrite <- (Z.mod_small v (2 ^ 3)) by (change (2 ^ 3) with 8; lia).
    apply Z.mod_pow2_bits_high. lia.
Qed.

Lemma k_flags_unknown :
  any (k_flags k) APTA_CONTAINER_FLAG_SOURCE_DURATION_UNKNOWN = negb (k_known k) /\
  any (k_flags k) APTA_CONTAINER_FLAG_PARTIAL_RESULT = k_partial k.
Proof. unfold k_flags. by destruct (k_partial k), (k_known k). Qed.

Lemma check_encoded_header : check_container_header b o encoded_header = Ret tt.
Proof.
  destruct encode_parts as (Hh & Hc & _). destruct Hfits as [F1 F2 _ _ _].
  pose proof k_flags_range. destruct total_size_eq as (Ht & Hn & Hpk). pose proof encode_size as Hb.
  pose proof size_max_bounds. unfold check_container_header. rewrite Hb.
  cbn [encoded_header ch_header_size ch_container_version ch_container_flags ch_section_count
    ch_directory_offset ch_total_file_size ch_header_crc ch_input wi_source_fingerprint_kind
    wi_specification_major wi_specification_minor wi_source_sample_rate wi_source_channel_count
    wi_source_fingerprint wi_total_source_frames].
  change (u64 (1 * APTA_DIRECTORY_ENTRY_SIZE)) with 40. change (96 <? APTA_CONTAINER_HEADER_SIZE) with false.
  change (negb (APTA_SPEC_VERSION_MAJOR =? APTA_SPEC_VERSION_MAJOR)) with false.
  change (APTA_SPEC_VERSION_MINOR <? APTA_SPEC_VERSION_MINOR) with false.
  change (any 96 7) with false. change APTA_CONTAINER_FLAG_MASK with 7.
  pass ltac:(lia). pass ltac:(apply any_small_mask; lia). pass ltac:(lia). pass ltac:(lia).
  pass ltac:(lia).
  assert (Hfit : apta_range_fits 96 40 (k_total_size k) = true) by (apply range_fits_true; lia).
  rewrite Hfit. pass ltac:(done).
  pose proof (v_sample_rate _ _ Hk). pose proof (v_channel_count _ _ Hk). pass ltac:(lia).
  rewrite (crc32c_at_holds b 0 (encode_header k) 92)
    by (done || apply zlen_length, zlen_encode_header, (v_fingerprint _ _ Hk)).
  cbn [obind]. rewrite <- Eh, Z.eqb_refl. pass ltac:(done).
  pose proof (v_fingerprint_valid _ _ Hk) as Hfv. unfold apta_internal_source_fingerprint_is_valid in Hfv.
  destruct k_flags_unknown as [-> ->]. unfold k_known.
  assert (Hpu : k_total_frames k = APTA_TOTAL_FRAMES_UNKNOWN -> k_partial k = true).
  { intros E. apply (v_partial _ _ Hk). right. unfold k_known. by rewrite E. }
  destruct (k_fingerprint_kind k =? APTA_SOURCE_FINGERPRINT_NONE); cbn [negb andb].
  - unfold apta_bytes_are_zero. rewrite Hfv. cbn [negb].
    destruct (Z.eqb_spec (k_total_frames k) APTA_TOTAL_FRAMES_UNKNOWN) as [E|]; cbn [negb orb]; [|done].
    by rewrite Hpu.
  - pass ltac:(rewrite <- negb_orb, Hfv; done).
    destruct (Z.eqb_spec (k_total_frames k) APTA_TOTAL_FRAMES_UNKNOWN) as [E|]; cbn [negb orb]; [|done].
    by rewrite Hpu.
Qed.

Definition encoded_entry : section_entry :=
  {| se_name := tag_WOVR; se_version := 1; se_flags := 1; se_offset := 136;
     se_stored_size := k_payload_size k; se_logical_size := k_payload_size k;
     se_crc := payload_crc; se_reserved := 0 |}.

Lemma payload_size_range :
  0 <= k_payload_size k /\ k_total_size k = 136 + k_payload_size k /\ is_u64 (k_payload_size k).
Proof.
  destruct total_size_eq as (Ht & Hn & Hpk). unfold is_u64, k_total_size, k_payload_size in *. lia.
Qed.

Lemma read_encoded_entry : read_section_entry b 96 = Ret encoded_entry.
Proof.
  destruct encode_parts as (_ & _ & He & Hc & Hr & _). unfold encode_entry in He. split_fields He.
  change (zlen tag_WOVR) with 4 in *. rewrite ?zlen_le_bytes in *. simpl Z.of_nat in *.
  destruct payload_size_range as (P1 & P2 & P3). pose proof payload_crc_u32.
  assert (is_u64 136) by (split; vm_compute; congruence).
  assert (is_u32 0) by (split; vm_compute; congruence).
  assert (is_u16 1) by (split; vm_compute; congruence). clear Hk Hfits.
  unfold read_section_entry. do 7 read_field ltac:(reflexivity).
  erewrite (get_bytes_at b 96 _ tag_WOVR); [|eassumption|reflexivity|done]. reflexivity.
Qed.

Lemma directory_of_encoded :
  directory_loop b o encoded_header 0 1 None = Ret (Some (136, k_payload_size k)).
Proof.
  pose proof size_max_bounds. destruct total_size_eq as (Ht & Hn & Hpk). pose proof encode_size as Hb.
  destruct payload_size_range as (P1 & P2 & P3). destruct encode_parts as (_ & _ & _ & _ & _ & Hp).
  cbn [directory_loop]. unfold directory_entry. change (ch_directory_offset encoded_header) with 96.
  change (Z.of_nat 0 * APTA_DIRECTORY_ENTRY_SIZE) with 0. rewrite !size_t_small by (unfold is_size; lia).
  change (96 + 0) with 96. rewrite read_encoded_entry. cbn [obind].
  unfold check_section_entry. rewrite Hb.
  cbn [encoded_entry encoded_header se_flags se_reserved se_version se_offset se_stored_size
    se_logical_size se_crc ch_header_size ch_directory_offset ch_section_count overlaps_earlier obind].
  change (u64 (1 * APTA_DIRECTORY_ENTRY_SIZE)) with 40.
  change (is_standard _) with true. change (is_wovr _) with true.
  change (any 1 (Z.lor APTA_SECTION_FLAG_COMPRESSED APTA_SECTION_FLAG_ENCRYPTED)) with false.
  change (any 1 (not32 APTA_SECTION_FLAG_MASK)) with false.
  change (any 1 APTA_SECTION_FLAG_REQUIRED) with true. change (any 136 7) with false.
  change (negb (0 =? 0)) with false. change (negb (1 =? 1)) with false. rewrite andb_false_r.
  cbn [negb andb orb]. rewrite Z.eqb_refl. cbn [negb orb].
  assert (Hfit : apta_range_fits 136 (k_payload_size k) (k_total_size k) = true) by (apply range_fits_true; lia).
  rewrite Hfit. cbn [negb].
  assert (Ho1 : apta_ranges_overlap 136 (k_payload_size k) 0 96 = false) by (apply ranges_overlap_false; lia).
  assert (Ho2 : apta_ranges_overlap 136 (k_payload_size k) 96 40 = false) by (apply ranges_overlap_false; lia).
  rewrite Ho1, Ho2. cbn [orb]. pass ltac:(lia). rewrite !size_t_small by (unfold is_size; lia).
  rewrite (crc32c_at_holds b 136 (encode_payload k));
    [|done|apply zlen_length; rewrite zlen_encode_payload; lia].
  cbn [obind]. rewrite <- Ep, Z.eqb_refl. reflexivity.
Qed.

Definition encoded_input : apta_wovr_input_t := set_payload (ch_input encoded_header) 136 (k_payload_size k).

Lemma validate_encoded : apta_validate_container b o = Ret encoded_input.
Proof.
  pose proof size_max_bounds. destruct total_size_eq as (Ht & Hn & Hpk). pose proof encode_size as Hb.
  destruct Hfits as [F1 F2 _ _ _]. destruct encode_parts as (Hh & _).
  unfold apta_validate_container. rewrite Hb. change APTA_CONTAINER_HEADER_SIZE with 96.
  pass ltac:(lia). pass ltac:(lia). unfold encode_header in Hh. apply holds_app in Hh as [Hm _].
  rewrite (get_bytes_holds b 0 tag_APTA 4 Hm) by done. cbn [obind].
  change (negb (bytes_equal tag_APTA tag_APTA)) with false. cbn [negb].
  rewrite read_encoded_header. cbn [obind]. rewrite check_encoded_header. cbn [obind].
  change (Z.to_nat (ch_section_count encoded_header)) with 1%nat.
  rewrite directory_of_encoded. cbn [obind].
  change (u64 (ch_directory_offset encoded_header + u64 (ch_section_count encoded_header * APTA_DIRECTORY_ENTRY_SIZE)))
    with 136.
  pass ltac:(lia). reflexivity.
Qed.

(** ** The section *)

Definition encoded_wovr_header : wovr_header :=
  {| wh_frames_per_column := k_frames_per_column k; wh_origin_frame := k_origin k;
     wh_logical_column_count := k_logical k; wh_span_count := zlen (k_spans k);
     wh_span_directory_offset := 48; wh_column_data_offset := 48 + 32 * zlen (k_spans k);
     wh_flags := k_state k |}.

Definition encoded_span (s : span_content) (packed : Z) : checked_span :=
  ({| sn_first_frame := k_first s; sn_end_frame := k_end s; sn_first_column := k_first_column s;
      sn_column_count := zlen (k_columns s); sn_data_column_offset := packed; sn_reserved := 0 |},
   k_columns s).

Fixpoint encoded_spans (packed : Z) (l : list span_content) : list checked_span :=
  match l with
  | [] => []
  | s :: l => encoded_span s packed :: encoded_spans (packed + zlen (k_columns s)) l
  end.

Lemma encoded_spans_lookup packed l j s :
  encoded_spans packed l !! j = Some s ->
  exists pre ks post, l = pre ++ ks :: post /\ length pre = j /\
                      s = encoded_span ks (packed + k_packed pre).
Proof.
  revert packed j. induction l as [|x l IH]; intros packed [|j] Hj; try discriminate.
  - injection Hj as <-. exists [], x, l. simpl. by rewrite Z.add_0_r.
  - apply IH in Hj as (pre & ks & post & -> & <- & ->). exists (x :: pre), ks, post.
    split; [done|]. split; [done|]. unfold k_packed. cbn [foldr]. by rewrite Z.add_assoc.
Qed.

Lemma encoded_spans_content packed l : map content_of_span (encoded_spans packed l) = l.
Proof.
  revert packed. induction l as [|s l IH]; intros packed; [done|]. cbn [encoded_spans map].
  rewrite IH. by destruct s.
Qed.

Lemma encoded_spans_length packed l : length (encoded_spans packed l) = length l.
Proof. revert packed. induction l as [|s l IH]; intros packed; simpl; auto. Qed.

Lemma holds_encode_spans q packed pre ks post :
  holds b q (encode_spans packed (pre ++ ks :: post)) ->
  holds b (q + 32 * zlen pre) (encode_span ks (packed + k_packed pre)).
Proof.
  revert q packed. induction pre as [|s pre IH]; intros q packed Hh; cbn [app encode_spans] in Hh.
  - apply holds_app in Hh as [Hh _]. change (k_packed []) with 0. change (32 * zlen []) with 0.
    by rewrite !Z.add_0_r.
  - apply holds_app in Hh as [_ Hh]. apply IH in Hh. unfold k_packed in *. cbn [foldr].
    assert (E : zlen (encode_span s packed) = 32) by (unfold zlen; by rewrite length_encode_span).
    rewrite E in Hh. rewrite zlen_cons.
    replace (q + 32 * (1 + zlen pre)) with (q + 32 + 32 * zlen pre) by lia.
    by rewrite Z.add_assoc.
Qed.

Lemma holds_encode_all_columns q pre ks post :
  holds b q (encode_all_columns (pre ++ ks :: post)) ->
  holds b (q + 10 * k_packed pre) (encode_columns (k_columns ks)).
Proof.
  unfold encode_all_columns. rewrite bind_app. intros Hh. apply holds_app in Hh as [_ Hh].
  cbn [mbind list_bind] in Hh. apply holds_app in Hh as [Hh _].
  fold (encode_all_columns pre) in Hh. by rewrite zlen_encode_all_columns in Hh.
Qed.

Lemma holds_encode_columns q cols j c :
  holds b q (encode_columns cols) -> cols !! j = Some c ->
  holds b (q + 10 * Z.of_nat j) (encode_column c).
Proof.
  intros Hh Hj. apply list_elem_of_split_length in Hj as (pre & post & -> & ->).
  unfold encode_columns in Hh. rewrite bind_app in Hh. apply holds_app in Hh as [_ Hh].
  cbn [mbind list_bind] in Hh. apply holds_app in Hh as [Hh _].
  fold (encode_columns pre) in Hh. by rewrite zlen_encode_columns in Hh.
Qed.

Lemma read_encoded_column q c :
  holds b q (encode_column c) -> column_typed c -> read_column b q = Ret c.
Proof.
  intros Hh (T1 & T2 & T3 & T4 & T5 & T6 & T7). unfold encode_column in Hh. split_fields Hh.
  rewrite ?zlen_le_bytes in *. simpl Z.of_nat in *. unfold read_column.
  do 7 read_field ltac:(lia). by destruct c.
Qed.

Lemma encoded_columns_at q cols :
  holds b q (encode_columns cols) -> Forall column_typed cols -> columns_at b q 0 cols.
Proof.
  intros Hh Ht j c Hj. apply read_encoded_column; [by apply holds_encode_columns with cols|].
  rewrite Forall_lookup in Ht. by apply (Ht j).
Qed.

(** Where the parts of the section stand. *)
Lemma encoded_section_parts :
  holds b 136 (encode_overview k) /\ holds b 180 (le_bytes 4 0) /\
  holds b 184 (encode_spans 0 (k_spans k)) /\
  holds b (184 + 32 * zlen (k_spans k)) (encode_all_columns (k_spans k)).
Proof.
  destruct encode_parts as (_ & _ & _ & _ & _ & Hp). unfold encode_payload in Hp. split_fields Hp.
  rewrite ?zlen_encode_overview, ?zlen_encode_spans, ?zlen_le_bytes in *. simpl Z.of_nat in *. done.
Qed.

Lemma k_logical_u32 : is_u32 (k_logical k) /\ is_u32 (k_frames_per_column k) /\
  is_u32 (zlen (k_spans k)) /\ is_u32 (k_state k).
Proof.
  pose proof (v_logical _ _ Hk). pose proof (v_frames_per_column _ _ Hk).
  destruct total_size_eq as (_ & Hn & _). pose proof (v_state _ _ Hk) as Hs.
  unfold APTA_FEATURE_PARTIAL, APTA_FEATURE_FINAL in Hs. unfold is_u32. lia.
Qed.

Lemma encoded_column_data :
  is_u64 (48 + 32 * zlen (k_spans k)).
Proof. destruct k_logical_u32 as (_ & _ & Hn & _). unfold is_u32, is_u64 in *. lia. Qed.

Lemma encoded_wovr_read : wovr_read b encoded_input encoded_wovr_header /\
  apta_get_u32 b 136 = Ret (k_level_id k).
Proof.
  destruct encoded_section_parts as (Ho & _). unfold encode_overview in Ho. split_fields Ho.
  rewrite ?zlen_le_bytes in *. simpl Z.of_nat in *.
  destruct k_logical_u32 as (U1 & U2 & U3 & U4). pose proof encoded_column_data as U5.
  pose proof (v_level_id _ _ Hk) as U6. pose proof (v_origin _ _ Hk) as U7.
  assert (U8 : is_u64 48) by (split; vm_compute; congruence).
  split; [split; cbn [encoded_input set_payload wi_payload encoded_wovr_header
    wh_frames_per_column wh_origin_frame wh_logical_column_count wh_span_count
    wh_span_directory_offset wh_column_data_offset wh_flags]; (split; [|assumption])|].
  all: first [eapply get_u32_at; [eassumption|lia|assumption]
             |eapply get_u64_at; [eassumption|lia|assumption]].
Qed.

Lemma span_ranges pre ks post :
  k_spans k = pre ++ ks :: post ->
  span_valid (is_strict o) k ks /\ is_u64 (k_first ks) /\ is_u64 (k_end ks) /\ is_u32 (k_first_column ks) /\
  1 <= zlen (k_columns ks) <= UINT32_MAX /\ 0 <= k_packed pre /\
  k_packed pre + zlen (k_columns ks) <= k_packed (k_spans k).
Proof.
  intros Es. pose proof (v_span _ _ Hk) as Hs. rewrite Es in Hs. apply Forall_app in Hs as [_ Hs].
  apply Forall_cons in Hs as [Hs _]. split; [done|]. destruct Hs as [S1 S2 S3 S4 S5 S6 S7 S8 S9].
  pose proof (v_origin _ _ Hk) as Ho. pose proof (v_logical _ _ Hk). pose proof (v_frames_per_column _ _ Hk).
  pose proof (v_total_frames _ _ Hk) as Ht. unfold k_end_column in *.
  assert (Hc : 1 <= zlen (k_columns ks))
    by (destruct (k_columns ks) as [|c cs]; [done|]; rewrite zlen_cons; pose proof (zlen_nonneg cs); lia).
  rewrite Es, k_packed_app. pose proof (k_packed_nonneg pre). pose proof (k_packed_nonneg post).
  unfold k_packed in *. cbn [foldr]. unfold is_u32, is_u64 in *.
  assert (0 <= k_first_column ks * k_frames_per_column k) by nia.
  assert (0 <= k_first ks) by lia.
  assert (k_end ks <= UINT64_MAX) by (destruct S8 as [->|(_ & -> & _)]; lia). lia.
Qed.

Lemma encoded_span_read pre ks post :
  k_spans k = pre ++ ks :: post ->
  read_span b (184 + 32 * zlen pre) = Ret (encoded_span ks (k_packed pre)).1 /\
  span_read b (184 + 32 * zlen pre) (encoded_span ks (k_packed pre)).1.
Proof.
  intros Es. destruct (span_ranges _ _ _ Es) as (_ & R1 & R2 & R3 & R4 & R5 & R6).
  destruct total_size_eq as (_ & _ & Hpk).
  assert (R7 : is_u32 (zlen (k_columns ks))) by (unfold is_u32; lia).
  assert (R8 : is_u32 (k_packed pre)) by (unfold is_u32; lia).
  assert (R9 : is_u32 0) by (unfold is_u32; lia).
  destruct encoded_section_parts as (_ & _ & Hh & _). rewrite Es in Hh.
  apply holds_encode_spans in Hh. rewrite Z.add_0_l in Hh. unfold encode_span in Hh. split_fields Hh.
  rewrite ?zlen_le_bytes in *. simpl Z.of_nat in *. split.
  - unfold read_span. do 6 read_field ltac:(lia). reflexivity.
  - split; (split; [|assumption]);
      first [eapply get_u32_at; [eassumption|lia|assumption]
            |eapply get_u64_at; [eassumption|lia|assumption]].
Qed.

Lemma encoded_total : total encoded_input = k_total_frames k.
Proof. reflexivity. Qed.

Lemma encoded_known : known encoded_input <-> k_known k = true.
Proof. unfold known. rewrite encoded_total. unfold k_known. rewrite negb_true_iff. by rewrite Z.eqb_neq. Qed.

Lemma encoded_data_first ks pre post :
  k_spans k = pre ++ ks :: post ->
  data_first encoded_wovr_header (encoded_span ks (k_packed pre)).1 =
    48 + 32 * zlen (k_spans k) + 10 * k_packed pre /\
  data_bytes (encoded_span ks (k_packed pre)).1 = 10 * zlen (k_columns ks).
Proof.
  intros Es. destruct (span_ranges _ _ _ Es) as (_ & _ & _ & _ & R4 & R5 & R6).
  destruct total_size_eq as (_ & Hn & Hpk). unfold data_first, data_bytes.
  cbn [encoded_span encoded_wovr_header fst sn_data_column_offset sn_column_count
    wh_column_data_offset]. change APTA_PACKED_COLUMN_SIZE with 10.
  rewrite (u64_small (k_packed pre * 10)), (u64_small (_ * 10)) by (unfold is_u64; lia).
  rewrite u64_small by (unfold is_u64; lia). lia.
Qed.

Lemma encoded_span_checked pre ks post :
  k_spans k = pre ++ ks :: post ->
  span_checked b o encoded_input encoded_wovr_header
    (encoded_span ks (k_packed pre)).1 (k_columns ks).
Proof.
  intros Es. destruct (span_ranges _ _ _ Es) as (Hs & R1 & R2 & R3 & R4 & R5 & R6).
  destruct (encoded_data_first _ _ _ Es) as [D1 D2]. destruct total_size_eq as (Ht & Hn & Hpk).
  destruct payload_size_range as (P1 & P2 & P3). destruct encoded_section_parts as (_ & _ & _ & Hh).
  rewrite Es in Hh at 2. apply holds_encode_all_columns in Hh. pose proof (v_logical _ _ Hk) as Hl.
  destruct Hs as [S1 S2 S3 S4 S5 S6 S7 S8 S9]. unfold k_end_column in *.
  constructor; rewrite ?D1; cbn [encoded_span encoded_wovr_header fst sn_first_frame sn_end_frame
    sn_first_column sn_column_count wh_origin_frame wh_frames_per_column wh_logical_column_count];
    rewrite ?encoded_total; try assumption; try reflexivity; try lia.
  - apply encoded_columns_at.
    + cbn [encoded_input set_payload wi_payload]. 
      by replace (136 + (48 + 32 * zlen (k_spans k) + 10 * k_packed pre))
        with (184 + 32 * zlen (k_spans k) + 10 * k_packed pre) by lia.
    + eapply Forall_impl; [exact S2|]. by intros c [? _].
  - unfold sn_end_column. cbn [sn_first_column sn_column_count encoded_span fst]. apply u64_small.
    unfold is_u64. lia.
  - destruct S8 as [S8|(K & S8)]; [by left|right]. split; [by apply encoded_known|done].
  - intros K. by apply S9, encoded_known.
  - cbn [encoded_input set_payload wi_payload_size]. lia.
Qed.

Lemma encoded_spans_at : spans_at b o encoded_input encoded_wovr_header 0 (encoded_spans 0 (k_spans k)).
Proof.
  intros j s Hj. apply encoded_spans_lookup in Hj as (pre & ks & post & Es & <- & ->).
  rewrite Z.add_0_l. split; [|by eapply encoded_span_checked].
  destruct (encoded_span_read _ _ _ Es) as [_ Hr]. destruct total_size_eq as (Ht & Hn & Hpk).
  unfold span_record. cbn [encoded_input set_payload wi_payload encoded_wovr_header wh_span_directory_offset].
  change APTA_WOVR_SPAN_SIZE with 32. pose proof (zlen_nonneg post).
  assert (zlen pre <= zlen (k_spans k)) by (rewrite Es, zlen_app, zlen_cons; lia).
  rewrite !size_t_small by (unfold is_size, zlen in *; lia).
  by replace (136 + 48 + Z.of_nat (0 + length pre) * 32) with (184 + 32 * zlen pre) by (unfold zlen; lia).
Qed.

Lemma encoded_state : wh_state encoded_wovr_header = k_state k.
Proof.
  unfold wh_state. cbn [encoded_wovr_header wh_flags]. apply land_state. pose proof (v_state _ _ Hk) as Hs.
  unfold APTA_FEATURE_PARTIAL, APTA_FEATURE_FINAL in Hs. lia.
Qed.

Lemma encoded_wovr_checked : wovr_checked encoded_input encoded_wovr_header.
Proof.
  pose proof (v_frames_per_column _ _ Hk). pose proof (v_logical _ _ Hk).
  destruct total_size_eq as (Ht & Hn & Hpk). destruct payload_size_range as (P1 & P2 & P3).
  constructor; rewrite ?encoded_state, ?encoded_known, ?encoded_total;
    cbn [encoded_wovr_header wh_frames_per_column wh_logical_column_count wh_span_count
      wh_span_directory_offset wh_origin_frame]; try lia.
  - apply (v_state _ _ Hk).
  - apply (v_known _ _ Hk).
  - intros Hs. destruct k_flags_unknown as [_ E]. cbn [encoded_input set_payload wi_container_flags].
    change (any (k_flags k) APTA_CONTAINER_FLAG_PARTIAL_RESULT = true). rewrite E.
    apply (v_partial _ _ Hk). by left.
  - cbn [encoded_input set_payload wi_payload_size]. lia.
  - intros K. split; [by apply (v_origin_total _ _ Hk)|]. unfold k_logical. by rewrite K.
Qed.

Lemma check_encoded_wovr_header : check_wovr_header b encoded_input o encoded_wovr_header = Ret tt.
Proof.
  destruct Hfits as [_ _ F3 F4 _]. destruct encoded_section_parts as (_ & Hr & _).
  destruct encoded_wovr_checked as [C1 C2 C3 C4 C5 C6 C7 C8].
  destruct total_size_eq as (Ht & Hn & Hpk). destruct payload_size_range as (P1 & P2 & P3).
  rewrite encoded_state in *. unfold check_wovr_header. rewrite encoded_state.
  change (wi_total_source_frames encoded_input) with (total encoded_input).
  cbn [encoded_wovr_header encoded_input set_payload wi_payload wi_payload_size wh_frames_per_column
    wh_logical_column_count wh_span_count wh_span_directory_offset wh_column_data_offset
    wh_origin_frame wh_flags] in *.
  pass ltac:(lia). pass ltac:(lia).
  assert (Hre : (if is_strict o then apta_get_u32 b (136 + 44) else Ret 0) = Ret 0).
  { destruct (is_strict o); [|done]. eapply get_u32_at; [eassumption|done|]. unfold is_u32. lia. }
  rewrite Hre. cbn [obind]. change APTA_WOVR_STATE_MASK with 7. unfold APTA_FEATURE_PARTIAL, APTA_FEATURE_FINAL in *.
  rewrite any_small_mask by lia. pass ltac:(lia).
  assert (Hpart : (if k_state k =? 4 then total encoded_input =? APTA_TOTAL_FRAMES_UNKNOWN
    else negb (any (wi_container_flags encoded_input) APTA_CONTAINER_FLAG_PARTIAL_RESULT)) = false).
  { destruct (Z.eqb_spec (k_state k) 4) as [E|E].
    - apply known_eqb. by apply C5.
    - apply negb_false_iff. by apply C6. }
  rewrite Hpart. cbv iota. change APTA_WOVR_SPAN_SIZE with 32. change APTA_WOVR_HEADER_SIZE with 48.
  rewrite (u64_small (_ * 32)) by (unfold is_u64; lia).
  assert (Hfit : apta_range_fits 48 (zlen (k_spans k) * 32) (k_payload_size k) = true)
    by (apply range_fits_true; unfold is_u64 in *; lia).
  rewrite Hfit. pass ltac:(lia).
  destruct (Z.eqb_spec (total encoded_input) APTA_TOTAL_FRAMES_UNKNOWN) as [|E]; [done|].
  destruct (C8 E) as [C8a C8b]. pose proof (v_origin _ _ Hk) as Ho. pose proof (v_total_frames _ _ Hk) as Htf.
  pose proof (v_frames_per_column _ _ Hk). rewrite encoded_total in *. unfold is_u64 in Ho, Htf.
  rewrite (u64_small (_ - _)) by (unfold is_u64; lia).
  rewrite u64_small by (apply required_columns_range; lia). rewrite <- C8b, Z.eqb_refl.
  pass ltac:(lia). reflexivity.
Qed.

Lemma check_columns_pass data index cols :
  columns_at b data index cols -> Forall (column_valid (is_strict o)) cols ->
  10 * Z.of_nat (index + length cols) <= SIZE_MAX ->
  check_columns b o data index (length cols) = Ret tt.
Proof.
  revert index. induction cols as [|c cols IH]; intros index Hat Hv Hs; [done|].
  apply Forall_cons in Hv as [(Ht & V1 & V2 & V3) Hv]. cbn [length check_columns] in *.
  change APTA_PACKED_COLUMN_SIZE with 10. rewrite size_t_small by (unfold is_size; lia).
  pose proof (Hat 0%nat c eq_refl) as Hc. rewrite Nat.add_0_r in Hc.
  replace (Z.of_nat index * 10) with (10 * Z.of_nat index) by lia.
  unfold read_column in Hc. inv_ret Hc. injection Hc as <-. rewrite E, E0, E5, E2, E3, E4. cbn [obind].
  cbn [wc_minimum wc_maximum wc_low wc_mid wc_high wc_flags] in *. rewrite V1. cbn [negb orb].
  rewrite bail_pass.
  - apply IH; [|done|lia]. intros j c' Hj. specialize (Hat (S j) c' Hj).
    by replace (S index + j)%nat with (index + S j)%nat by lia.
  - destruct (is_strict o); cbn [andb]; [|lia]. destruct V3 as [V3 V4]; [done|]. rewrite V3.
    destruct (any v5 APTA_WAVEFORM_COLUMN_HAS_3BAND); cbn [negb andb]; [lia|].
    destruct V4 as (-> & -> & ->); [done|]. cbn. lia.
Qed.

(** The end of the last span of [l], in frames and in columns. *)
Definition end_frame (default : Z) (l : list span_content) : Z := foldl (fun _ s => k_end s) default l.
Definition end_column (default : Z) (l : list span_content) : Z := foldl (fun _ s => k_end_column s) default l.

Lemma check_encoded_span pre ks post previous_end previous_column :
  k_spans k = pre ++ ks :: post ->
  (pre <> [] -> previous_end <= k_first ks /\ previous_column <= k_first_column ks) ->
  check_span b encoded_input o encoded_wovr_header (length pre) (encoded_span ks (k_packed pre)).1
    (k_packed pre) previous_end previous_column = Ret (k_packed pre + zlen (k_columns ks)).
Proof.
  intros Es Hprev. destruct (span_ranges _ _ _ Es) as (Hs & R1 & R2 & R3 & R4 & R5 & R6).
  destruct (encoded_span_checked _ _ _ Es) as [S1 S2 S3 S4 S5 S6 S7 S8 S9 S10 S11 S12].
  destruct (encoded_data_first _ _ _ Es) as [D1 D2]. destruct total_size_eq as (Ht & Hn & Hpk).
  destruct payload_size_range as (P1 & P2 & P3). destruct Hfits as [_ _ _ F4 F5].
  unfold check_span. rewrite S6, D1, D2. rewrite D1 in S4, S12.
  change (wi_total_source_frames encoded_input) with (total encoded_input).
  cbn [encoded_span encoded_wovr_header encoded_input set_payload wi_payload wi_payload_size fst
    sn_first_frame sn_end_frame sn_first_column sn_column_count sn_reserved sn_data_column_offset
    wh_origin_frame wh_frames_per_column wh_logical_column_count wh_span_count
    wh_span_directory_offset wh_column_data_offset] in *.
  change (negb (0 =? 0)) with false. rewrite andb_false_r.
  pass ltac:(lia).
  rewrite bail_pass.
  2: { destruct pre as [|x pre]; [cbn; lia|]. destruct Hprev; [done|]. cbn. lia. }
  pose proof (v_logical _ _ Hk) as Hl. pose proof (v_frames_per_column _ _ Hk) as Hf.
  pose proof (v_origin _ _ Hk) as Ho. unfold is_u64, is_u32 in *.
  assert (0 <= k_first_column ks * k_frames_per_column k <=
          (k_first_column ks + zlen (k_columns ks)) * k_frames_per_column k) by nia.
  rewrite (u64_small (k_first_column ks * _)), (u64_small ((_ + _) * _)) by (unfold is_u64; lia).
  rewrite !(u64_small (UINT64_MAX - _)) by (unfold is_u64; lia).
  pass ltac:(lia). rewrite !(u64_small (k_origin k + _)) by (unfold is_u64; lia).
  pass ltac:(lia). rewrite bail_pass.
  2: { destruct S10 as [->|(K & -> & -> & S10)]; [by rewrite Z.eqb_refl|].
       apply known_eqb in K. rewrite K, !Z.eqb_refl. cbn [negb orb]. lia. }
  rewrite bail_pass.
  2: { destruct (Z.eqb_spec (total encoded_input) APTA_TOTAL_FRAMES_UNKNOWN) as [|K]; [done|].
       specialize (S11 K). cbn [negb andb]. lia. }
  change APTA_WOVR_SPAN_SIZE with 32. change APTA_WOVR_HEADER_SIZE with 48.
  rewrite (u64_small (_ * 32)) by (unfold is_u64; lia).
  assert (Hfit : apta_range_fits (48 + 32 * zlen (k_spans k) + 10 * k_packed pre)
    (10 * zlen (k_columns ks)) (k_payload_size k) = true) by (apply range_fits_true; lia).
  assert (Ho1 : apta_ranges_overlap (48 + 32 * zlen (k_spans k) + 10 * k_packed pre)
    (10 * zlen (k_columns ks)) 0 48 = false) by (apply ranges_overlap_false; lia).
  assert (Ho2 : apta_ranges_overlap (48 + 32 * zlen (k_spans k) + 10 * k_packed pre)
    (10 * zlen (k_columns ks)) 48 (zlen (k_spans k) * 32) = false) by (apply ranges_overlap_false; lia).
  rewrite Hfit, Ho1, Ho2. pass ltac:(lia). rewrite size_t_small by (unfold is_size; lia).
  replace (Z.to_nat (zlen (k_columns ks))) with (length (k_columns ks)) by (unfold zlen; lia).
  rewrite check_columns_pass; [|exact S4|exact S3|cbn [Nat.add]; unfold zlen in *; lia].
  cbn [obind]. rewrite u32_small by (unfold is_u32; lia). pass ltac:(lia).
  rewrite u64_small by (unfold is_u64; lia). pass ltac:(lia). reflexivity.
Qed.

Lemma encoded_span_record n :
  Z.of_nat n <= zlen (k_spans k) ->
  span_record (wi_payload encoded_input) (wh_span_directory_offset encoded_wovr_header) n =
  184 + 32 * Z.of_nat n.
Proof.
  intros Hn. destruct total_size_eq as (Ht & Hs & Hpk). unfold span_record.
  cbn [encoded_input set_payload wi_payload encoded_wovr_header wh_span_directory_offset].
  change APTA_WOVR_SPAN_SIZE with 32. rewrite !size_t_small by (unfold is_size; lia). lia.
Qed.

Lemma span_loop_encoded pre post pe pc :
  k_spans k = pre ++ post -> sorted_from pe pc post ->
  span_loop b encoded_input o encoded_wovr_header (length pre) (length post) (k_packed pre) pe pc =
  Ret (k_packed (k_spans k), end_column pc post).
Proof.
  revert pre pe pc. induction post as [|s post IH]; intros pre pe pc Es Hso.
  - rewrite app_nil_r in Es. by rewrite Es.
  - destruct Hso as (H1 & H2 & Hso). cbn [length span_loop].
    rewrite encoded_span_record by (rewrite Es; unfold zlen; rewrite length_app; simpl; lia).
    destruct (encoded_span_read pre s post Es) as [Hr _]. unfold zlen in Hr. rewrite Hr. cbn [obind].
    rewrite (check_encoded_span pre s post) by done. cbn [obind].
    destruct (encoded_span_checked pre s post Es) as [_ _ _ _ _ Hec _ _ _ _ _ _]. rewrite Hec.
    pose proof (IH (pre ++ [s]) (k_end s) (k_end_column s)) as IH'.
    rewrite <- app_assoc, length_app, k_packed_app, Nat.add_1_r in IH'. unfold k_packed at 2 in IH'.
    cbn [foldr app] in IH'. rewrite Z.add_0_r in IH'. by apply IH'.
Qed.

Lemma contiguous_end frame column l :
  contiguous_from k frame column l -> end_frame frame l = k_total_frames k /\ end_column column l = k_logical k.
Proof.
  revert frame column. induction l as [|s l IH]; intros frame column; [done|].
  intros (_ & _ & Hc). by apply IH.
Qed.

Lemma validate_encoded_geometry :
  apta_validate_wovr_geometry b encoded_input o = Ret (k_packed (k_spans k)).
Proof.
  destruct total_size_eq as (Ht & Hn & Hpk). destruct payload_size_range as (P1 & P2 & P3).
  destruct encoded_wovr_read as [Hr _]. unfold apta_validate_wovr_geometry.
  change (wi_payload_size encoded_input) with (k_payload_size k).
  change (wi_payload encoded_input) with 136. change APTA_WOVR_HEADER_SIZE with 48. pass ltac:(lia).
  assert (Hh : read_wovr_header b 136 = Ret encoded_wovr_header).
  { destruct Hr as [[E1 _] [E2 _] [E3 _] [E4 _] [E5 _] [E6 _] [E7 _]].
    change (wi_payload encoded_input) with 136 in *. unfold read_wovr_header.
    by rewrite E1, E2, E3, E4, E5, E6, E7. }
  rewrite Hh. cbn [obind]. rewrite check_encoded_wovr_header. cbn [obind].
  change (wh_span_count encoded_wovr_header) with (zlen (k_spans k)).
  replace (Z.to_nat (zlen (k_spans k))) with (length (k_spans k)) by (unfold zlen; lia).
  pose proof (span_loop_encoded [] (k_spans k) 0 0 eq_refl (v_sorted _ _ Hk)) as Hloop.
  change (k_packed []) with 0 in Hloop. cbn [length] in Hloop. rewrite Hloop. cbn [obind]. clear Hloop.
  rewrite encoded_state. rewrite u32_small by (unfold is_u32; lia).
  destruct (Z.eqb_spec (k_state k) APTA_FEATURE_FINAL) as [E|E]; [|done].
  pose proof (v_final _ _ Hk E) as Hc. destruct (contiguous_end _ _ _ Hc) as [_ ->].
  change (wh_logical_column_count encoded_wovr_header) with (k_logical k). rewrite Z.eqb_refl. cbn [negb].
  change (wh_span_directory_offset encoded_wovr_header) with 48. rewrite size_t_small by (unfold is_size; lia).
  destruct (k_spans k) as [|s l] eqn:Es; [change (zlen []) with 0 in Hn; lia|].
  destruct (encoded_span_read [] s l Es) as [_ [_ _ [E3 _] _ _]].
  change (184 + 32 * zlen [] + 16) with (136 + 48 + 16) in E3. rewrite E3. cbn [obind].
  destruct Hc as (_ & Hc & _). cbn [encoded_span fst sn_first_column]. rewrite Hc. reflexivity.
Qed.

Lemma encoded_geometry :
  geometry_ok b o encoded_input encoded_wovr_header (encoded_spans 0 (k_spans k)) (k_packed (k_spans k)).
Proof.
  destruct total_size_eq as (Ht & Hn & Hpk). destruct payload_size_range as (P1 & P2 & P3).
  constructor; rewrite ?encoded_spans_content.
  - change (wi_payload_size encoded_input) with (k_payload_size k). lia.
  - apply encoded_wovr_read.
  - apply encoded_wovr_checked.
  - unfold zlen. by rewrite encoded_spans_length.
  - apply encoded_spans_at.
  - apply (v_sorted _ _ Hk).
  - split; [done|lia].
Qed.

(** *** The hardening pass accepts it *)

Lemma compare_intervals l r :
  interval_le l r <-> l.1 < r.1 \/ l.1 = r.1 /\ l.2 <= r.2.
Proof.
  unfold interval_le, apta_compare_packed_intervals.
  repeat match goal with |- context [?x <? ?y] => destruct (Z.ltb_spec x y) end; lia.
Qed.

#[local] Instance interval_le_trans : Transitive interval_le.
Proof. intros l r t. rewrite !compare_intervals. lia. Qed.
#[local] Instance interval_le_total : Total interval_le.
Proof. intros l r. rewrite !compare_intervals. lia. Qed.
#[local] Instance interval_le_antisymm : AntiSymm (=) interval_le.
Proof.
  intros [] []. rewrite !compare_intervals. simpl. intros. f_equal; lia.
Qed.

(** A sorted list is left alone. *)
Lemma sort_intervals_sorted l : Sorted interval_le l -> sort_intervals l = l.
Proof.
  intros Hl. unfold sort_intervals. eapply (Sorted_unique interval_le);
    [apply Sorted_merge_sort; apply _ | done | apply merge_sort_Permutation].
Qed.

Lemma encoded_intervals_sorted packed l :
  Forall (fun s => k_columns s <> []) l ->
  Sorted interval_le (map interval_of (encoded_spans packed l)) /\
  intervals_overlap (map interval_of (encoded_spans packed l)) = false.
Proof.
  intros Hl. revert packed. induction Hl as [|s l Hs Hl IH]; intros packed; [done|].
  cbn [encoded_spans map]. destruct (IH (packed + zlen (k_columns s))) as [IH1 IH2].
  assert (Hpos : 1 <= zlen (k_columns s))
    by (destruct (k_columns s) as [|c cs]; [done|]; rewrite zlen_cons; pose proof (zlen_nonneg cs); lia).
  destruct l as [|t l]; [by repeat constructor|]. cbn [encoded_spans map] in *. split.
  - constructor; [exact IH1|]. constructor. apply compare_intervals.
    unfold interval_of. cbn [encoded_span fst snd sn_data_column_offset]. lia.
  - apply orb_false_iff. split; [apply Z.ltb_ge|exact IH2].
    unfold interval_of. cbn [encoded_span fst snd sn_data_column_offset]. lia.
Qed.

Lemma encoded_hardened : hardened encoded_input encoded_wovr_header (encoded_spans 0 (k_spans k)) = true.
Proof.
  unfold hardened. rewrite encoded_state. apply andb_true_iff. split.
  - destruct (Z.eqb_spec (k_state k) APTA_FEATURE_FINAL) as [E|E]; [|done]. cbn [negb orb].
    pose proof (v_final _ _ Hk E) as Hc.
    rewrite <- (encoded_spans_content 0 (k_spans k)) in Hc.
    destruct (spans_at_end_column _ _ _ _ _ encoded_spans_at) as [He _].
    destruct (contiguous_chained _ _ _ _ He Hc) as (C1 & C2 & C3).
    change (wh_origin_frame encoded_wovr_header) with (k_origin k).
    change (wh_logical_column_count encoded_wovr_header) with (k_logical k).
    change (wi_total_source_frames encoded_input) with (k_total_frames k).
    by rewrite C1, C2, C3, !Z.eqb_refl.
  - destruct (encoded_intervals_sorted 0 (k_spans k)) as [H1 H2].
    { eapply Forall_impl; [apply (v_span _ _ Hk)|]. intros s Hs. apply (sv_columns _ _ _ Hs). }
    by rewrite sort_intervals_sorted, H2.
Qed.

(** What is parsed has the content that was encoded. *)
Lemma encoded_content :
  content_of (parsed encoded_input encoded_wovr_header (k_level_id k) (encoded_spans 0 (k_spans k))) = k.
Proof.
  destruct (spans_at_end_column _ _ _ _ _ encoded_spans_at) as [_ Hc].
  destruct k_flags_unknown as [_ Hpart].
  rewrite content_of_parsed; [|apply encoded_wovr_checked| |exact Hc].
  - unfold parsed_content. rewrite encoded_spans_content, encoded_state.
    cbn [encoded_input set_payload wi_container_flags encoded_header ch_input wi_total_source_frames
      wi_source_sample_rate wi_source_channel_count wi_source_channel_layout
      wi_source_fingerprint_kind wi_source_fingerprint encoded_wovr_header wh_frames_per_column
      wh_origin_frame]. rewrite Hpart. by destruct k.
  - intros Hu. change (any (k_flags k) APTA_CONTAINER_FLAG_PARTIAL_RESULT = true). rewrite Hpart.
    apply (v_partial _ _ Hk). right. unfold k_known.
    change (k_total_frames k = APTA_TOTAL_FRAMES_UNKNOWN) in Hu. by rewrite Hu.
Qed.
End Accept.

(** ** The round trip *)

Section Round_trip.
Context `{PlatformLaws}.
Context (host : nat -> Z -> Z) (Hhost : forall k, host_ok (host k)).

(** The context can take the result, its spans and columns, and the working
    memory of the hardening pass. *)
Record enough_memory (c : apta_context_t) (o : apta_effective_parse_options_t) (k : content)
    (limit : Z) : Prop := {
  em_allocated : is_size (ctx_allocated_bytes c);
  em_maximum : result_bytes (zlen (k_spans k)) (k_packed (k_spans k)) <=
               eo_maximum_allocation_bytes o <= SIZE_MAX;
  em_intervals : interval_bytes (zlen (k_spans k)) <= SIZE_MAX;
  em_host : serves host limit;
  em_limit : result_bytes (zlen (k_spans k)) (k_packed (k_spans k)) +
             interval_bytes (zlen (k_spans k)) + block_overhead <= limit;
  em_room : room c (result_bytes (zlen (k_spans k)) (k_packed (k_spans k)) +
                    interval_bytes (zlen (k_spans k)))
}.

Lemma features_of_overview f cols :
  any f APTA_FEATURE_WAVEFORM_OVERVIEW = true ->
  any (features_of f cols) APTA_FEATURE_WAVEFORM_OVERVIEW = true.
Proof.
  unfold features_of. revert f. induction cols as [|c cols IH]; intros f Hf; [done|]. simpl.
  apply IH. destruct (any (wc_flags c) _); [|done].
  apply any_true. apply any_true in Hf. intros E. apply Hf.
  rewrite Z.land_lor_distr_l in E. by apply Z.lor_eq_0_iff in E as [-> _].
Qed.

Lemma parsed_spans_some packed l : Forall (fun s => is_Some (sp_columns s)) (parsed_spans packed l).
Proof.
  revert packed. induction l as [|[s cols] l IH]; intros packed; [apply Forall_nil_2|].
  cbn [parsed_spans]. constructor; [by eexists|apply IH].
Qed.

Lemma parsed_serializable strict input h level_id l :
  result_typed (parsed input h level_id l) ->
  valid strict (content_of (parsed input h level_id l)) ->
  serializable strict (parsed input h level_id l).
Proof.
  intros Ht Hv. split; [done|done| |by eexists|].
  - by apply features_of_overview.
  - unfold result_spans. apply Forall_take, parsed_spans_some.
Qed.

(** Everything the reader finds out about an encoding. *)
Lemma encoded_accepted o k :
  valid (is_strict o) k -> k_total_size k <= SIZE_MAX -> fits o k ->
  exists input h l,
    bytes_ok (encode k) /\ is_size (zlen (encode k)) /\
    apta_validate_container (encode k) o = Ret input /\
    apta_validate_wovr_geometry (encode k) input o = Ret (k_packed (k_spans k)) /\
    geometry_ok (encode k) o input h l (k_packed (k_spans k)) /\
    zlen l = zlen (k_spans k) /\ hardened input h l = true /\
    apta_get_u32 (encode k) (wi_payload input) = Ret (k_level_id k) /\
    content_of (parsed input h (k_level_id k) l) = k.
Proof.
  intros Hk Hz Hf. remember (encode k) as b eqn:Eb.
  remember (apta_internal_crc32c (Some (encode_header k))) as hc eqn:Eh.
  remember (apta_internal_crc32c (Some (encode_payload k))) as pc eqn:Ep.
  assert (Hlen : zlen b = k_total_size k) by (by eapply encode_size).
  pose proof (zlen_nonneg b).
  exists (encoded_input k hc), (encoded_wovr_header k), (encoded_spans 0 (k_spans k)).
  split; [by eapply encode_ok|]. split; [unfold is_size; lia|].
  split; [by eapply validate_encoded|]. split; [by eapply validate_encoded_geometry|].
  split; [by eapply encoded_geometry|]. split; [unfold zlen; by rewrite encoded_spans_length|].
  split; [by eapply encoded_hardened|]. split; [by eapply encoded_wovr_read|].
  by eapply encoded_content.
Qed.

Lemma allocated_result c c' pa bytes : holds_result c c' pa bytes -> is_size (ctx_allocated_bytes c').
Proof. intros (n1 & n2 & n3 & -> & _). rewrite allocated_count. apply charge_size. Qed.

Lemma room_result c c' pa bytes n :
  is_size (ctx_allocated_bytes c) -> holds_result c c' pa bytes -> 0 <= n ->
  room c (bytes + n) -> room c' n.
Proof.
  intros Hc (n1 & n2 & n3 & -> & <- & B1 & B2 & B3 & _) Hn Hroom. unfold room in *.
  change (ctx_memory_limit_bytes (count_results ?x 1)) with (ctx_memory_limit_bytes x).
  rewrite allocated_count. apply (room_charge _ n3 n); [apply charge_size|lia|lia|].
  apply (room_charge _ n2); [apply charge_size|lia|lia|]. apply (room_charge _ n1); [done|lia|lia|].
  by replace (n1 + (n2 + (n3 + n))) with (n1 + n2 + n3 + n) by lia.
Qed.

(** A valid content in the format of the container is parsed into a result of
    that content. *)
Lemma parse_encoded c options o k limit :
  valid (is_strict o) k -> k_total_size k <= SIZE_MAX ->
  apta_resolve_parse_options options = Ret o -> fits o k -> enough_memory c o k limit ->
  exists c' pa,
    apta_result_parse_wovr_hardened host (Some c) options (Some (encode k)) = (Some c', Ret pa) /\
    content_of (pa_result pa) = k /\ serializable (is_strict o) (pa_result pa).
Proof.
  intros Hk Hz Eo Hf [M1 M2 M3 M4 M5 M6].
  destruct (encoded_accepted o k Hk Hz Hf) as (input & h & l & Hb & Hsz & Ev & Eg & Hg & Hl & Hh & El & Hc).
  pose proof (validate_container_spec _ Hb Hsz o) as Hv. rewrite Ev in Hv. destruct Hv as (ch & e & Hco).
  destruct (container_payload _ _ _ _ Hsz Hco) as (P1 & P2 & P3 & P4 & P5 & P6).
  unfold apta_result_parse_wovr_hardened, apta_result_parse_base. rewrite Eo. cbn [obind].
  rewrite Ev. cbn [obind]. rewrite Eg. cbn [obind].
  assert (Hib : 0 <= interval_bytes (zlen l)).
  { unfold interval_bytes. pose proof (sizeof_range T_packed_interval). pose proof (zlen_nonneg l). nia. }
  rewrite <- Hl in *.
  pose proof (build_spec host Hhost _ Hb Hsz o (proj2 M2) c input h l _ P1 P2 Hg P5 M1) as Hbu.
  cbv zeta in Hbu. destruct (apta_build_parsed_result host c _ input o _) as [c1 [pa|e'|]]; [| |done].
  2: { destruct Hbu as [_ [[_ Hx]|[_ Hx]]]; [lia|]. exfalso. apply (Hx limit M4); [lia|].
       eapply room_mono; [|exact M6]. lia. }
  destruct Hbu as (level & Hlv & El' & Hpa & Hres). rewrite El in El'. injection El' as <-.
  pose proof (harden_spec host Hhost _ Hsz o c1 input ch e h l _ Hco Hg
    (allocated_result _ _ _ _ Hres)) as Hhd.
  destruct (apta_harden_validated_wovr host c1 _) as [c2 [u|e2|]]; [| |done].
  - destruct Hhd as [-> _]. exists c1, pa. split; [done|]. rewrite Hpa, Hc. split; [done|].
    apply parsed_serializable; [by eapply parsed_typed|by rewrite Hc].
  - exfalso. destruct Hhd as [_ [[_ Hx]|[[_ Hx]|[_ Hx]]]]; [lia| |congruence].
    apply (Hx limit M4); [|by eapply room_result].
    unfold result_bytes in M5. pose proof (sizeof_range T_result).
    pose proof (sizeof_range T_waveform_span). pose proof (sizeof_range T_waveform_column).
    pose proof (zlen_nonneg l). pose proof (k_packed_nonneg (k_spans k)). nia.
Qed.

(** C2. Writing a result and reading it back gives the same content: every result
    with a valid content is written, whatever the buffer of sufficient size, the
    bytes written are accepted by [apta_result_parse] in a context with enough
    memory and options with enough room, the result parsed has the content of
    the one written, and writing it again gives the same bytes. *)
Theorem serialize_parse_round_trip (c : apta_context_t) (options : option apta_parse_options_t)
    (o : apta_effective_parse_options_t) (r : apta_result_t) (b : list Z) (limit : Z)
    (Hr : serializable (is_strict o) r) (Hoptions : apta_resolve_parse_options options = Ret o)
    (Hfits : fits o (content_of r)) (Hmemory : enough_memory c o (content_of r) limit)
    (Hsize : k_total_size (content_of r) <= SIZE_MAX)
    (Hbuffer : k_total_size (content_of r) <= zlen b) :
  exists b' n c' pa,
    apta_result_serialize (Some r) None (Some b) = Ret (b', n) /\
    apta_result_parse_wovr_hardened host (Some c) options (Some (take (Z.to_nat n) b')) =
      (Some c', Ret pa) /\
    content_of (pa_result pa) = content_of r /\
    apta_result_serialize (Some (pa_result pa)) None (Some b) = Ret (b', n).
Proof.
  destruct (calculate_layout_complete _ r Hr) as [l El].
  rewrite (serialize_ok r None l b (sz_typed _ _ Hr) El Hsize Hbuffer).
  destruct (parse_encoded c options o _ limit (sz_valid _ _ Hr) Hsize Hoptions Hfits Hmemory)
    as (c' & pa & Hp & Hc & Hs).
  exists (encode (content_of r) ++ drop (Z.to_nat (k_total_size (content_of r))) b),
    (k_total_size (content_of r)), c', pa.
  split; [done|]. split; [|split; [done|]].
  - destruct (rt_fingerprint _ (sz_typed _ _ Hr)) as [Hf _].
    pose proof (zlen_encode (content_of r) Hf) as Hz. rewrite take_app_length' by (unfold zlen in Hz; lia).
    exact Hp.
  - destruct (calculate_layout_complete _ (pa_result pa) Hs) as [l' El'].
    rewrite (serialize_ok (pa_result pa) None l' b (sz_typed _ _ Hs) El'); by rewrite ?Hc.
Qed.

End Round_trip.

Import LP64.

Definition parse_context : apta_context_t :=
  {| ctx_capabilities := available_capabilities; ctx_memory_limit_bytes := 0;
     ctx_flags := 0; ctx_allocated_bytes := 200; ctx_session_count := 1;
     ctx_result_count := 4; ctx_lineage_counter := 0 |}.

Definition parse_host (k : nat) : Z -> Z := sample_host.

Lemma parse_host_ok : forall k, host_ok (parse_host k).
Proof. intros k. exact sample_host_ok. Qed.

Definition strict_options : apta_effective_parse_options_t :=
  {| eo_flags := APTA_PARSE_STRICT;
     eo_maximum_section_count := APTA_PARSE_DEFAULT_MAX_SECTION_COUNT;
     eo_maximum_overview_spans := APTA_PARSE_DEFAULT_MAX_OVERVIEW_SPANS;
     eo_maximum_waveform_columns := APTA_PARSE_DEFAULT_MAX_WAVEFORM_COLUMNS;
     eo_maximum_file_bytes := APTA_PARSE_DEFAULT_MAX_FILE_BYTES;
     eo_maximum_allocation_bytes := APTA_PARSE_DEFAULT_MAX_ALLOCATION_BYTES |}.

Lemma sample_column_valid low high :
  is_i16 low -> is_i16 high -> low <= high -> column_valid true (sample_column low high).
Proof. intros H1 H2 H3. unfold column_valid, column_typed; widths; simpl. repeat split; done || lia. Qed.

Lemma sample_valid : valid true (content_of sample_result).
Proof.
  assert (L : k_logical (content_of sample_result) = 3) by reflexivity.
  constructor; rewrite ?L;
   cbn [content_of k_total_frames k_sample_rate k_channel_count k_channel_layout k_fingerprint_kind
     k_fingerprint k_level_id k_frames_per_column k_origin k_state k_partial]; widths; try (simpl; lia).
  - apply sample_result_typed.
  - vm_compute. split; congruence.
  - intros [E|E]; [by destruct E|discriminate].
  - done.
  - split; [discriminate|]. vm_compute. congruence.
  - vm_compute. congruence.
  - simpl. repeat (apply Forall_cons; split); [..|apply Forall_nil_2]; constructor; simpl; rewrite ?L;
      try lia; try done;
      try (repeat (apply Forall_cons; split); [..|apply Forall_nil_2]; apply sample_column_valid; widths; lia);
      [by left|right; by split_and!].
  - vm_compute. repeat split; congruence.
  - by vm_compute.
Qed.

Lemma sample_serializable : serializable true sample_result.
Proof.
  split; [exact sample_result_typed|exact sample_valid|done|by eexists|].
  vm_compute. repeat (apply Forall_cons; split); [..|apply Forall_nil_2]; by eexists.
Qed.

Lemma sample_fits : fits strict_options (content_of sample_result).
Proof. split; vm_compute; congruence. Qed.

Lemma sample_memory :
  enough_memory parse_host parse_context strict_options (content_of sample_result) 50000.
Proof.
  split.
  - vm_compute. split; congruence.
  - vm_compute. split; congruence.
  - vm_compute. congruence.
  - split; [vm_compute; congruence|]. intros k n Hn. unfold parse_host, sample_host.
    destruct (Z.ltb_spec n 100000); lia.
  - vm_compute. congruence.
  - by left.
Qed.

(** The round trip of the sample through an oversized buffer: 278 bytes. *)
Lemma serialize_parse_round_trip_witness :
  serializable true sample_result /\
  exists b' c' pa,
    apta_result_serialize (Some sample_result) None (Some (replicate 300 9)) = Ret (b', 278) /\
    apta_result_parse_wovr_hardened parse_host (Some parse_context) None (Some (take 278 b')) =
      (Some c', Ret pa) /\
    content_of (pa_result pa) = content_of sample_result /\ ctx_result_count c' = 5.
Proof.
  split; [exact sample_serializable|].
  destruct (serialize_parse_round_trip parse_host parse_host_ok parse_context None strict_options
    sample_result (replicate 300 9) 50000 sample_serializable eq_refl sample_fits sample_memory)
    as (b' & n & c' & pa & Hs & Hp & Hc & _); [vm_compute; congruence|vm_compute; congruence|].
  assert (E : match apta_result_serialize (Some sample_result) None (Some (replicate 300 9)) with
              | Ret (b, n) => n = 278 /\
                  match apta_result_parse_wovr_hardened parse_host (Some parse_context) None
                          (Some (take (Z.to_nat n) b)) with
                  | (Some c, Ret _) => ctx_result_count c = 5
                  | _ => False
                  end
              | _ => False
              end) by (vm_compute; split; reflexivity).
  rewrite Hs in E. destruct E as [-> E]. change (Z.to_nat 278) with 278%nat in *. rewrite Hp in E.
  exists b', c', pa. by split_and!.
Defined.
