(* ===== verification/ResultAccessors.v ===== *)
(** * Reading a result (core/apta_result_accessors.c, core/apta_result_lifetime.c)

    What a host asks of a result: its information, its overview, and in what state a
    feature is on a range of frames.  The structures the host passes carry their size
    and version, which are checked first; a view that is not there is cleared. *)

From S2P Require Import Prelude Platform Bytes Wovr WovrSpec WovrWriterTheorems WovrRoundTrip.

Section Accessors.
Context `{Platform}.

Definition apta_result_get_info (r : apta_result_t) (struct_ok : bool) : result apta_result_info_t :=
  bail APTA_ERROR_INCOMPATIBLE_VERSION when negb struct_ok in
  Ret (res_info r).

Definition empty_overview_view : apta_waveform_overview_view_t :=
  {| ov_level_id := 0; ov_frames_per_column := 0; ov_origin_frame := 0; ov_state := 0; ov_confidence := 0;
     ov_span_count := 0; ov_spans := None |}.

(** [*view_out] and the status. *)
Definition apta_result_get_waveform_overview (r : apta_result_t) (level_id : Z) (struct_ok : bool)
  : result (apta_waveform_overview_view_t * apta_status_t) :=
  bail APTA_ERROR_INCOMPATIBLE_VERSION when negb struct_ok in
  if negb (level_id =? 0) || negb (any (ri_available_features (res_info r)) APTA_FEATURE_WAVEFORM_OVERVIEW)
  then Ret (empty_overview_view, APTA_STATUS_NOT_AVAILABLE)
  else Ret (res_overview r, APTA_STATUS_OK).

(** The loop over [n] spans from [index] on; [cursor] is the first frame not covered yet. *)
Fixpoint range_fully_covered (spans : list apta_waveform_span_t) (index n : nat) (cursor end_frame : Z) : result bool :=
  match n with
  | O => Ret false
  | S n =>
      let! span := arr_get spans index in
      if sp_end_frame span <=? cursor then range_fully_covered spans (S index) n cursor end_frame
      else if cursor <? sp_first_frame span then Ret false
      else if end_frame <=? sp_end_frame span then Ret true
      else range_fully_covered spans (S index) n (sp_end_frame span) end_frame
  end.

Definition apta_overview_range_fully_covered (r : apta_result_t) (first_frame end_frame : Z) : result bool :=
  range_fully_covered (default [] (ov_spans (res_overview r))) 0 (Z.to_nat (ov_span_count (res_overview r)))
    first_frame end_frame.

Fixpoint range_has_coverage (spans : list apta_waveform_span_t) (index n : nat) (first_frame end_frame : Z) : result bool :=
  match n with
  | O => Ret false
  | S n =>
      let! span := arr_get spans index in
      if (sp_first_frame span <? end_frame) && (first_frame <? sp_end_frame span) then Ret true
      else range_has_coverage spans (S index) n first_frame end_frame
  end.

Definition apta_overview_range_has_coverage (r : apta_result_t) (first_frame end_frame : Z) : result bool :=
  range_has_coverage (default [] (ov_spans (res_overview r))) 0 (Z.to_nat (ov_span_count (res_overview r)))
    first_frame end_frame.

(** The status, [*state_out] and [*confidence_out].  [range] is the range asked for and
    whether its structure is valid. *)
Definition apta_result_get_feature_state (r : apta_result_t) (feature : Z) (range : option (Z * Z * bool))
  : result (apta_status_t * Z * Z) :=
  bail APTA_ERROR_INVALID_ARGUMENT when feature =? 0 in
  bail APTA_ERROR_INCOMPATIBLE_VERSION when match range with Some (_, _, struct_ok) => negb struct_ok | None => false end in
  if negb (feature =? APTA_FEATURE_WAVEFORM_OVERVIEW) || negb (any (ri_available_features (res_info r)) feature)
  then Ret (APTA_STATUS_NOT_AVAILABLE, APTA_FEATURE_ABSENT, APTA_CONFIDENCE_UNKNOWN)
  else
    let confidence := ov_confidence (res_overview r) in
    match range with
    | None => Ret (APTA_STATUS_OK, ov_state (res_overview r), confidence)
    | Some (first_frame, end_frame, _) =>
        if end_frame <=? first_frame then Ret (APTA_ERROR_INVALID_ARGUMENT, APTA_FEATURE_ABSENT, confidence)
        else
          let! full := apta_overview_range_fully_covered r first_frame end_frame in
          if full : bool
          then Ret (APTA_STATUS_OK,
                    if ov_state (res_overview r) =? APTA_FEATURE_FINAL then APTA_FEATURE_FINAL else APTA_FEATURE_STABLE,
                    confidence)
          else
            let! some := apta_overview_range_has_coverage r first_frame end_frame in
            if some : bool then Ret (APTA_STATUS_OK, APTA_FEATURE_PARTIAL, confidence)
            else Ret (APTA_STATUS_NOT_AVAILABLE, APTA_FEATURE_ABSENT, confidence)
    end.

End Accessors.

(** ** What the answer means *)

(** A frame one of the spans covers. *)
Definition in_span (f : Z) (s : apta_waveform_span_t) : Prop := sp_first_frame s <= f < sp_end_frame s.
Definition shown (l : list apta_waveform_span_t) (f : Z) : Prop := exists s, s ∈ l /\ in_span f s.

(** Non-empty spans, one after the other. *)
Fixpoint spans_from (frame : Z) (l : list apta_waveform_span_t) : Prop :=
  match l with
  | [] => True
  | s :: l => frame <= sp_first_frame s /\ sp_first_frame s < sp_end_frame s /\ spans_from (sp_end_frame s) l
  end.

Lemma shown_nil f : ~ shown [] f.
Proof. intros (s & Hs & _). by apply elem_of_nil in Hs. Qed.

Lemma shown_cons s l f : shown (s :: l) f <-> in_span f s \/ shown l f.
Proof.
  split.
  - intros (x & [-> |Hx]%elem_of_cons & Hf); [by left|right; by exists x].
  - intros [Hf|(x & Hx & Hf)]; [exists s|exists x]; (split; [|done]); apply elem_of_cons; auto.
Qed.

Lemma shown_low lo l f : spans_from lo l -> shown l f -> lo <= f.
Proof.
  revert lo. induction l as [|s l IH]; intros lo Hl Hf; [by apply shown_nil in Hf|].
  destruct Hl as (H1 & H2 & Hl). apply shown_cons in Hf as [Hf|Hf]; [unfold in_span in Hf; lia|]. specialize (IH _ Hl Hf). lia.
Qed.

Lemma take_drop_cons {T} (l : list T) i n x : l !! i = Some x -> take (S n) (drop i l) = x :: take n (drop (S i) l).
Proof. intros Hx. by rewrite (drop_S _ _ _ Hx). Qed.

Lemma fully_covered_spec spans index n lo cursor end_frame :
  (index + n <= length spans)%nat -> spans_from lo (take n (drop index spans)) -> cursor < end_frame ->
  exists b, range_fully_covered spans index n cursor end_frame = Ret b /\
    (b = true <-> forall f, cursor <= f < end_frame -> shown (take n (drop index spans)) f).
Proof.
  revert index lo cursor. induction n as [|n IH]; intros index lo cursor Hlen Hl Hc; cbn [range_fully_covered].
  - exists false. split; [done|]. split; [done|]. intros Hf. by destruct (shown_nil cursor (Hf cursor ltac:(lia))).
  - destruct (lookup_lt_is_Some_2 spans index ltac:(lia)) as [x Hx]. unfold arr_get. rewrite Hx. cbn [obind].
    rewrite (take_drop_cons _ _ _ _ Hx) in *. destruct Hl as (H1 & H2 & Hl).
    assert (Hrest : forall c, c < end_frame -> sp_end_frame x <= c ->
      exists b, range_fully_covered spans (S index) n c end_frame = Ret b /\
        (b = true <-> forall f, c <= f < end_frame -> shown (x :: take n (drop (S index) spans)) f)).
    { intros c Hce Hxc. destruct (IH (S index) (sp_end_frame x) c ltac:(lia) Hl Hce) as (b & E & Hb). exists b. split; [done|].
      rewrite Hb. split; intros Hf f Hr; specialize (Hf f Hr); rewrite shown_cons in *; [by right|].
      destruct Hf as [Hf|Hf]; [unfold in_span in Hf; lia|done]. }
    destruct (Z.leb_spec (sp_end_frame x) cursor); [by apply Hrest|].
    destruct (Z.ltb_spec cursor (sp_first_frame x)).
    + exists false. split; [done|]. split; [done|]. intros Hf. specialize (Hf cursor ltac:(lia)).
      apply shown_cons in Hf as [Hf|Hf]; [unfold in_span in Hf; lia|]. apply (shown_low _ _ _ Hl) in Hf. lia.
    + destruct (Z.leb_spec end_frame (sp_end_frame x)).
      * exists true. split; [done|]. split; [|done]. intros _ f Hf. apply shown_cons. left. unfold in_span. lia.
      * destruct (Hrest (sp_end_frame x) ltac:(lia) ltac:(lia)) as (b & E & Hb). exists b. split; [done|]. rewrite Hb.
        split; intros Hf f Hr; [|apply Hf; lia]. destruct (Z.ltb_spec f (sp_end_frame x)); [|apply Hf; lia].
        apply shown_cons. left. unfold in_span. lia.
Qed.

Lemma has_coverage_spec spans index n first_frame end_frame :
  (index + n <= length spans)%nat -> Forall (fun s => sp_first_frame s < sp_end_frame s) (take n (drop index spans)) ->
  first_frame < end_frame ->
  exists b, range_has_coverage spans index n first_frame end_frame = Ret b /\
    (b = true <-> exists f, first_frame <= f < end_frame /\ shown (take n (drop index spans)) f).
Proof.
  revert index. induction n as [|n IH]; intros index Hlen Hl Hc; cbn [range_has_coverage].
  - exists false. split; [done|]. split; [done|]. intros (f & _ & Hf). by apply shown_nil in Hf.
  - destruct (lookup_lt_is_Some_2 spans index ltac:(lia)) as [x Hx]. unfold arr_get. rewrite Hx. cbn [obind].
    rewrite (take_drop_cons _ _ _ _ Hx) in *. apply Forall_cons in Hl as [H1 Hl].
    destruct (IH (S index) ltac:(lia) Hl Hc) as (b & E & Hb).
    destruct (Z.ltb_spec (sp_first_frame x) end_frame), (Z.ltb_spec first_frame (sp_end_frame x)); cbn [andb];
      [|exists b; split; [done|]; rewrite Hb..].
    + exists true. split; [done|]. split; [|done]. intros _. exists (Z.max first_frame (sp_first_frame x)). split; [lia|].
      apply shown_cons. left. unfold in_span. lia.
    + split; intros (f & Hr & Hf); exists f; (split; [done|]); rewrite shown_cons in *; [by right|].
      destruct Hf as [Hf|Hf]; [unfold in_span in Hf; lia|done].
    + split; intros (f & Hr & Hf); exists f; (split; [done|]); rewrite shown_cons in *; [by right|].
      destruct Hf as [Hf|Hf]; [unfold in_span in Hf; lia|done].
    + split; intros (f & Hr & Hf); exists f; (split; [done|]); rewrite shown_cons in *; [by right|].
      destruct Hf as [Hf|Hf]; [unfold in_span in Hf; lia|done].
Qed.

(** The spans of a valid content follow each other. *)
Lemma valid_spans_from r : valid true (content_of r) -> spans_from 0 (result_spans r).
Proof.
  intros Hv. pose proof (v_span _ _ Hv) as Hs. pose proof (v_sorted _ _ Hv) as Ho.
  set (k := content_of r) in *. cbn [content_of k_spans] in Ho. change (k_spans k) with (map (span_content_of (res_overview_columns r)) (result_spans r)) in *.
  revert Hs Ho. generalize 0 at 1 3 as frame. generalize 0 as column.
  induction (result_spans r) as [|s l IH]; intros column frame Hs Ho; [done|]. cbn [map] in *.
  apply Forall_cons in Hs as [Hs Hl]. destruct Ho as (O1 & O2 & O3). split; [exact O1|]. split; [exact (sv_nonempty _ _ _ Hs)|].
  by apply (IH _ _ Hl) in O3.
Qed.

Lemma spans_from_nonempty lo l : spans_from lo l -> Forall (fun s => sp_first_frame s < sp_end_frame s) l.
Proof. revert lo. induction l as [|s l IH]; intros lo; [by constructor|]. intros (_ & H2 & Hl). constructor; [done|by eapply IH]. Qed.

Section Answer.
Context `{PlatformLaws}.

(** C14. What the state of the overview on a range tells a host: for every result a
    strict writer accepts and every non-empty range, the answer is FINAL or STABLE exactly
    when every frame of the range is in a span, PARTIAL exactly when some frames are and
    some are not, and NOT_AVAILABLE exactly when none is. *)
Theorem feature_state_correct (r : apta_result_t) (first_frame end_frame : Z)
    (Hserializable : serializable true r) (Hrange : first_frame < end_frame) :
  let all := forall f, first_frame <= f < end_frame -> shown (result_spans r) f in
  let some := exists f, first_frame <= f < end_frame /\ shown (result_spans r) f in
  exists status state confidence,
    apta_result_get_feature_state r APTA_FEATURE_WAVEFORM_OVERVIEW (Some (first_frame, end_frame, true))
      = Ret (status, state, confidence) /\
    (all <-> status = APTA_STATUS_OK /\ (state = APTA_FEATURE_FINAL \/ state = APTA_FEATURE_STABLE)) /\
    (some /\ ~ all <-> status = APTA_STATUS_OK /\ state = APTA_FEATURE_PARTIAL) /\
    (~ some <-> status = APTA_STATUS_NOT_AVAILABLE).
Proof.
  intros all some. destruct Hserializable as [Htyped Hvalid Hoverview [spans Es] _].
  unfold apta_result_get_feature_state. rewrite Hoverview. cbn [obind negb orb].
  destruct (Z.leb_spec end_frame first_frame); [lia|].
  unfold apta_overview_range_fully_covered, apta_overview_range_has_coverage.
  pose proof (valid_spans_from r Hvalid) as Hl. subst all some. unfold result_spans in *.
  rewrite Es in *. cbn [default from_option] in *. unfold id in *.
  destruct (rt_spans r Htyped spans Es) as [Hn _]. pose proof (rt_span_count r Htyped) as Hn0. unfold is_u32, zlen in *.
  destruct (fully_covered_spec spans 0 (Z.to_nat (ov_span_count (res_overview r))) 0 first_frame end_frame ltac:(lia) Hl Hrange)
    as (b & -> & Hb). rewrite ?drop_0 in *.
  destruct (has_coverage_spec spans 0 (Z.to_nat (ov_span_count (res_overview r))) first_frame end_frame ltac:(lia)
    (spans_from_nonempty _ _ Hl) Hrange) as (c & Ec & Hc). rewrite ?drop_0 in *. rewrite Ec. cbn [obind].
  set (l := take _ _) in *.
  assert (Hbc : b = true -> c = true).
  { rewrite Hb, Hc. intros Hf. exists first_frame. split; [lia|]. apply Hf. lia. }
  destruct b, c; cbn [obind]; (eexists _, _, _; split; [reflexivity|]); rewrite <- Hb, <- Hc;
    try (by specialize (Hbc eq_refl)).
  - split; [split; [intros _; split; [done|destruct (_ =? _); auto]|done]|]. split; [|by split].
    split; [by intros [_ Hnot]|]. intros [_ E]. by destruct (_ =? _).
  - split; [split; [done|by intros [_ [?|?]]]|]. split; [split; [done|by split]|by split].
  - split; [split; [done|by intros [? _]]|]. split; [split; [by intros [? _]|by intros [? _]]|by split].
Qed.

End Answer.

(** Two spans that meet cover a range that crosses from one to the other. *)
Lemma feature_state_correct_witness :
  exists status state confidence,
    apta_result_get_feature_state sample_result APTA_FEATURE_WAVEFORM_OVERVIEW (Some (100, 2000, true))
      = Ret (status, state, confidence) /\
    status = APTA_STATUS_OK /\ (state = APTA_FEATURE_FINAL \/ state = APTA_FEATURE_STABLE) /\
    forall f, 100 <= f < 2000 -> shown (result_spans sample_result) f.
Proof.
  destruct (feature_state_correct sample_result 100 2000 sample_serializable ltac:(lia)) as (status & state & confidence & E & Hall & _).
  assert (Hst : status = APTA_STATUS_OK /\ state = APTA_FEATURE_FINAL) by (vm_compute in E; injection E as <- <- <-; done).
  destruct Hst as [-> ->]. exists APTA_STATUS_OK, APTA_FEATURE_FINAL, confidence. split; [exact E|]. split; [done|].
  split; [by left|]. apply Hall. split; [done|by left].
Defined.
