(* ===== verification/Seed.v ===== *)
(** * Seeding a session from a stored result (waveform/apta_waveform_input.c)

    A session that has not started can take over the columns of a result: each becomes
    a complete column of the table, its quantisation inverted, and the frames of each
    span count as accepted, so that the host pushes only the rest. *)

From stdpp Require Import gmap.
From Stdlib Require Import Floats.SpecFloat.
From S2P Require Import Prelude Platform Bytes Wovr WovrSpec ResultAccessors Samples Ranges Overview Snapshot.
From S2P Require Import Publish Process Session.

(** [(uint64_t)x] truncates; it is undefined when the integer does not fit. *)
Definition u64_of_f32 (x : spec_float) : result Z :=
  match x with
  | S754_zero _ => Ret 0
  | S754_finite s m e =>
      let t := Z.shiftl (Zpos m) e in
      if s then (if t =? 0 then Ret 0 else Ub)
      else if t <=? UINT64_MAX then Ret t else Ub
  | _ => Ub
  end.

Definition set_overview (s : session) (o : overview) : session :=
  with_waveform s (set_publication (se_waveform s) o (se_publication s)).

Definition set_coverage (s : session) (c : coverage) : session :=
  {| se_waveform := se_waveform s; se_coverage := c; se_cancel_requested := se_cancel_requested s;
     se_process_lock := se_process_lock s |}.

(** ** Compatibility *)

(** Whether the sources of the result and of the session differ. *)
Definition source_conflict (config : apta_session_config_t) (r : apta_result_t) : bool :=
  let kind := cfg_source_fingerprint_kind config in
  let result_kind := si_fingerprint_kind (res_source_info r) in
  (negb (res_source_sample_rate r =? 0) && negb (res_source_sample_rate r =? cfg_source_sample_rate config)) ||
  (negb (res_source_channel_count r =? 0) && negb (res_source_channel_count r =? cfg_channel_count config)) ||
  (negb (res_source_channel_layout r =? APTA_CHANNEL_LAYOUT_UNSPECIFIED) &&
   negb (cfg_channel_layout config =? APTA_CHANNEL_LAYOUT_UNSPECIFIED) &&
   negb (res_source_channel_layout r =? cfg_channel_layout config)) ||
  (any (cfg_flags config) APTA_SESSION_FLAG_REQUIRE_SOURCE_IDENTITY_FOR_SEEDING &&
   ((kind =? APTA_SOURCE_FINGERPRINT_NONE) || (result_kind =? APTA_SOURCE_FINGERPRINT_NONE))) ||
  (negb (kind =? APTA_SOURCE_FINGERPRINT_NONE) && negb (result_kind =? APTA_SOURCE_FINGERPRINT_NONE) &&
   (negb (kind =? result_kind) ||
    negb (bool_decide (cfg_source_fingerprint config = si_fingerprint (res_source_info r))))) ||
  (negb (res_total_source_frames r =? APTA_TOTAL_FRAMES_UNKNOWN) &&
   negb (cfg_total_frames config =? APTA_TOTAL_FRAMES_UNKNOWN) &&
   negb (res_total_source_frames r =? cfg_total_frames config)).

(** Whether one of the [n] spans from [index] on ends past the track. *)
Fixpoint spans_beyond (total_frames : Z) (spans : list apta_waveform_span_t) (index n : nat) : result bool :=
  match n with
  | O => Ret false
  | S n =>
      let! span := arr_get spans index in
      if negb (total_frames =? APTA_TOTAL_FRAMES_UNKNOWN) && (total_frames <? sp_end_frame span) then Ret true
      else spans_beyond total_frames spans (S index) n
  end.

Section Seed.
Context `{Platform}.

(** The answers of the allocator during the call, and uninitialised memory. *)
Context (allocate : nat -> Z -> bool) (fresh : accumulator) (fresh_range : range).

(** ** Columns *)

(** One column.  Its number of samples is the frames it has of the track. *)
Definition seed_column (o : overview) (total_frames column_index : Z) (source : apta_waveform_column_t)
  : result (overview * apta_status_t) :=
  if negb (any (wc_flags source) APTA_WAVEFORM_COLUMN_VALID) then Ret (o, APTA_STATUS_OK)
  else
    let column_first := u64 (column_index * Overview.ov_frames_per_column o) in
    let column_end := u64 (column_first + Overview.ov_frames_per_column o) in
    let column_end :=
      if negb (total_frames =? APTA_TOTAL_FRAMES_UNKNOWN) && (total_frames <? column_end)
      then total_frames else column_end in
    if column_end <=? column_first then Ret (o, APTA_STATUS_OK)
    else
      let sample_count := u32 (column_end - column_first) in
      let rms := f32_div (f32_of_Z (wc_rms source)) (f32_of_Z 65535) in
      let! scaled := u64_of_f32 (f32_mul rms APTA_INTERNAL_SQUARE_MAGNITUDE_SCALE) in
      apta_internal_waveform_seed_column allocate fresh o column_index
        (f32_div (f32_of_Z (wc_minimum source)) (f32_of_Z 32767))
        (f32_div (f32_of_Z (wc_maximum source)) (f32_of_Z 32767))
        (u64 (u64 (scaled * scaled) * sample_count)) sample_count
        (any (wc_flags source) APTA_WAVEFORM_COLUMN_CLIPPED).

(** [n] columns of a span from [column] on; [base] is where its columns start. *)
Fixpoint seed_columns (o : overview) (total_frames first_column_index : Z) (columns : list apta_waveform_column_t)
    (base column n : nat) : result (overview * apta_status_t) :=
  match n with
  | O => Ret (o, APTA_STATUS_OK)
  | S n =>
      let! source := arr_get columns (base + column) in
      step_ok (seed_column o total_frames (u32 (first_column_index + Z.of_nat column)) source)
        (fun o => seed_columns o total_frames first_column_index columns base (S column) n)
  end.

(** ** Spans *)

(** The frames of a span are accepted.  Each call of the allocator has an answer of its
    own. *)
Definition seed_range (s : session) (view : apta_waveform_span_t) : result (session * apta_status_t) :=
  match apta_ensure_range_capacity (allocate (ov_allocations (se_overview s))) fresh_range (se_coverage s)
          (u32 (Z.of_nat (cov_count (se_coverage s)) + 1)) with
  | Ub => Ub
  | Err status => Ret (set_overview s (count_allocation (se_overview s)), status)
  | Ret c =>
      let! c := apta_insert_accepted_range c (sp_first_frame view) (sp_end_frame view) in
      Ret (set_coverage (set_overview s (count_allocation (se_overview s))) c, APTA_STATUS_OK)
  end.

Definition seed_span (s : session) (columns : list apta_waveform_column_t) (view : apta_waveform_span_t)
  : result (session * apta_status_t) :=
  step_ok
    (let! '(o, status) :=
       match sp_columns view with
       | Some base => seed_columns (se_overview s) (cfg_total_frames (se_config s)) (sp_first_column_index view) columns
                        base 0 (Z.to_nat (sp_column_count view))
       | None => if sp_column_count view =? 0 then Ret (se_overview s, APTA_STATUS_OK) else Ub
       end in
     Ret (set_overview s o, status))
    (fun s => seed_range s view).

Fixpoint seed_spans (s : session) (columns : list apta_waveform_column_t) (spans : list apta_waveform_span_t)
    (index n : nat) : result (session * apta_status_t) :=
  match n with
  | O => Ret (s, APTA_STATUS_OK)
  | S n =>
      let! view := arr_get spans index in
      step_ok (seed_span s columns view) (fun s => seed_spans s columns spans (S index) n)
  end.

(** The structures the getters fill are initialised here, so that their checks pass. *)
Definition apta_session_seed_from_result (s : session) (r : apta_result_t) : result (session * apta_status_t) :=
  if se_process_lock s then Ret (s, APTA_ERROR_BUSY)
  else if negb (bool_decide (se_state s = APTA_SESSION_CREATED)) then Ret (s, APTA_ERROR_INVALID_STATE)
  else
    let! info := apta_result_get_info r true in
    if negb (any (ri_available_features info) APTA_FEATURE_WAVEFORM_OVERVIEW) then Ret (s, APTA_ERROR_CONFLICT)
    else
      let! '(view, status) := apta_result_get_waveform_overview r 0 true in
      if is_error status then Ret (s, status)
      else if source_conflict (se_config s) r then Ret (s, APTA_ERROR_CONFLICT)
      else if negb (Wovr.ov_frames_per_column view =? Overview.ov_frames_per_column (se_overview s))
      then Ret (s, APTA_ERROR_CONFLICT)
      else
        let spans := default [] (ov_spans view) in
        let n := Z.to_nat (ov_span_count view) in
        let! beyond := spans_beyond (cfg_total_frames (se_config s)) spans 0 n in
        if beyond : bool then Ret (s, APTA_ERROR_CONFLICT)
        else seed_spans s (res_overview_columns r) spans 0 n.

End Seed.
