(* ===== verification/SeedQuantize.v ===== *)
(** * Inverting the quantisation (waveform/apta_waveform_input.c)

    A seeded column divides the stored peaks and the stored RMS in [float]; the
    snapshot quantises what results in [double].  The errors are far below half a
    step, so that the stored values come back, but for the peak -32767: it becomes the
    sample -1, which is stored as -32768. *)

From Stdlib Require Import Floats.SpecFloat.
From S2P Require Import Prelude Platform FloatFacts FloatOrder FloatError Samples Ranges AcceptPcm SampleTheorems.
From S2P Require Import Overview Quantize Seed.

(** ** Small integers *)

Lemma f32_int z : Z.abs z < 2 ^ 24 -> yields 24 128 (f32_of_Z z) (z * unit32).
Proof. intros Hz. by apply int_exact. Qed.

Lemma unit32_pow : unit32 = 2 ^ 149.
Proof. reflexivity. Qed.

Lemma f32_small z : 0 < z < 2 ^ 17 -> exists m e, f32_of_Z z = S754_finite false m e /\ -24 < e < 17 /\
  valid32 (S754_finite false m e) /\ val32 (S754_finite false m e) = z * unit32.
Proof.
  intros Hz. destruct (f32_int z ltac:(lia)) as (F1 & F2 & F3). pose proof unit32_pos as HU.
  destruct (positive_parts 24 128 ltac:(lia) (f32_of_Z z) 0 17 F1 F2) as (m & e & E & He).
  - rewrite F3. nia.
  - rewrite F3. change (2 ^ (0 - emin 24 128)) with unit32. change (2 ^ (17 - emin 24 128)) with (2 ^ 17 * unit32). nia.
  - rewrite emin32. lia.
  - exists m, e. rewrite <- E. split; [done|]. split; [lia|done].
Qed.

(** A quotient of small integers, as a [float]. *)
Lemma f32_quotient a b : 0 < a < 2 ^ 17 -> 0 < b < 2 ^ 17 ->
  let q := f32_div (f32_of_Z a) (f32_of_Z b) in
  is_finite q = true /\ valid32 q /\ near 22 (val32 q * b) (a * unit32).
Proof.
  intros Ha Hb. destruct (f32_small a Ha) as (m & e & -> & He & Va & Ea). destruct (f32_small b Hb) as (n & f & -> & Hf & Vb & Eb).
  pose proof unit32_pos as HU. cbv zeta. unfold f32_div.
  destruct (div_near 24 128 ltac:(lia) ltac:(lia) m e n f 17 Va Vb) as (Q1 & Q2 & Q3); rewrite ?emin32; try lia; [nia|nia|].
  split; [done|]. split; [done|]. rewrite Ea, Eb in Q3. apply (near_unscale _ _ _ unit32 HU).
  replace (24 - 2) with 22 in Q3 by done. by rewrite Z.mul_assoc in Q3.
Qed.

(** ** Signs *)

Lemma binary_round_aux_opp prec emax m e l : binary_round_aux prec emax true m e l = SFopp (binary_round_aux prec emax false m e l).
Proof.
  unfold binary_round_aux. destruct (shr_fexp _ _ m e l) as [r e1]. destruct (shr_fexp _ _ _ e1 loc_Exact) as [r2 e2].
  destruct (shr_m r2); [done| |done]. by destruct (_ <=? _).
Qed.

Lemma f32_of_Z_opp z : 0 < z -> f32_of_Z (- z) = SFopp (f32_of_Z z).
Proof.
  intros Hz. destruct z as [|p|p]; [lia| |lia]. change (- Zpos p) with (Zneg p). unfold f32_of_Z, binary_normalize, binary_round.
  destruct (shl_align _ _ _) as [q f]. apply binary_round_aux_opp.
Qed.

Lemma f32_div_opp a b : 0 < a < 2 ^ 17 -> 0 < b < 2 ^ 17 ->
  f32_div (f32_of_Z (- a)) (f32_of_Z b) = SFopp (f32_div (f32_of_Z a) (f32_of_Z b)).
Proof.
  intros Ha Hb. rewrite f32_of_Z_opp by lia. destruct (f32_small a Ha) as (m & e & -> & _). destruct (f32_small b Hb) as (n & f & -> & _).
  unfold f32_div. cbn [SFopp SFdiv]. destruct (SFdiv_core_binary _ _ _ _ _ _) as [[q e'] l]. apply binary_round_aux_opp.
Qed.

Lemma fval_opp prec emax x : fval prec emax (SFopp x) = - fval prec emax x.
Proof. destruct x as [| | |[] m e]; cbn [SFopp fval negb cond_Zopp]; lia. Qed.

Lemma finite_opp x : is_finite (SFopp x) = is_finite x.
Proof. by destruct x. Qed.

Lemma valid_opp prec emax x : valid_float prec emax (SFopp x) <-> valid_float prec emax x.
Proof. by destruct x. Qed.

(** ** Peaks *)

Definition inverse_peak (q : Z) : spec_float := f32_div (f32_of_Z q) (f32_of_Z 32767).

(** The error of an inverted peak, against its step. *)
Lemma inverse_peak_near q : is_i16 q ->
  is_finite (inverse_peak q) = true /\ valid32 (inverse_peak q) /\
  Z.abs (val32 (inverse_peak q) * 32767 - q * unit32) * 2 ^ 22 <= Z.abs q * unit32.
Proof.
  unfold is_i16. intros Hq. pose proof unit32_pos as HU. unfold inverse_peak.
  destruct (Z.lt_trichotomy q 0) as [Hn|[->|Hp]].
  - replace q with (- (- q)) by lia. rewrite f32_div_opp by lia.
    destruct (f32_quotient (- q) 32767 ltac:(lia) ltac:(lia)) as (Q1 & Q2 & Q3).
    rewrite finite_opp, fval_opp. split; [done|]. split; [by apply valid_opp|]. unfold near in Q3. cbv zeta in *.
    replace (- val32 (f32_div (f32_of_Z (- q)) (f32_of_Z 32767)) * 32767 - - - q * unit32)
      with (- (val32 (f32_div (f32_of_Z (- q)) (f32_of_Z 32767)) * 32767 - - q * unit32)) by lia.
    rewrite Z.abs_opp. lia.
  - split; [done|]. split; [by vm_compute|]. by vm_compute.
  - destruct (f32_quotient q 32767 ltac:(lia) ltac:(lia)) as (Q1 & Q2 & Q3). split; [done|]. split; [done|].
    unfold near in Q3. cbv zeta in *. lia.
Qed.

Lemma ties_even_close z n u : 0 < u -> 2 * Z.abs (z - n * u) < u -> ties_even z u = n.
Proof.
  intros Hu Hz. pose proof (ties_even_near z u Hu) as Hn. assert (Z.abs (ties_even z u - n) * u < u); [|nia].
  assert (E : (ties_even z u - n) * u = (ties_even z u * u - z) + (z - n * u)) by lia.
  assert (Ea : Z.abs ((ties_even z u - n) * u) = Z.abs (ties_even z u - n) * u) by (rewrite Z.abs_mul, (Z.abs_eq u) by lia; done).
  rewrite <- Ea, E. lia.
Qed.

(** What an inverted peak is stored as. *)
Lemma peak_reproduced q : is_i16 q -> quantized_peak (val32 (inverse_peak q)) = if q =? -32767 then -32768 else q.
Proof.
  intros Hq. destruct (Z.eqb_spec q (-32767)) as [->|H1]; [by vm_compute|].
  destruct (Z.eq_dec q (-32768)) as [->|H2]; [by vm_compute|]. destruct (Z.eq_dec q 32767) as [->|H3]; [by vm_compute|].
  destruct (inverse_peak_near q Hq) as (_ & _ & Hn). unfold is_i16 in Hq. pose proof unit32_pos as HU.
  set (v := val32 (inverse_peak q)) in *. clearbody v. unfold quantized_peak. remember unit32 as u eqn:Eu. change (2 ^ 22) with 4194304 in Hn.
  assert (Hq1 : Z.abs q <= 32766) by lia. assert (Hv : Z.abs (v * 32767 - q * u) * 4194304 <= 32766 * u) by nia.
  destruct (Z.leb_spec v (- u)); [exfalso; nia|]. destruct (Z.leb_spec u v); [exfalso; nia|].
  apply ties_even_close; lia.
Qed.

Lemma inverse_peak_mono q r : is_i16 q -> is_i16 r -> q <= r -> val32 (inverse_peak q) <= val32 (inverse_peak r).
Proof.
  intros Hq Hr Hle. destruct (Z.eq_dec q r) as [->|Hne]; [lia|].
  destruct (inverse_peak_near q Hq) as (_ & _ & Nq), (inverse_peak_near r Hr) as (_ & _ & Nr). unfold is_i16 in *.
  pose proof unit32_pos as HU. set (v := val32 (inverse_peak q)) in *. set (w := val32 (inverse_peak r)) in *. clearbody v w.
  set (u := unit32) in *. clearbody u. change (2 ^ 22) with 4194304 in *.
  assert (Z.abs q * u <= 32768 * u) by nia. assert (Z.abs r * u <= 32768 * u) by nia. nia.
Qed.

(** ** The RMS *)

Definition inverse_rms (u : Z) : spec_float :=
  f32_mul (f32_div (f32_of_Z u) (f32_of_Z 65535)) APTA_INTERNAL_SQUARE_MAGNITUDE_SCALE.

Lemma u64_of_f32_floor m e : -149 <= e -> val32 (S754_finite false m e) <= UINT64_MAX * unit32 ->
  u64_of_f32 (S754_finite false m e) = Ret (val32 (S754_finite false m e) / unit32).
Proof.
  intros He Hle. cbn [fval cond_Zopp u64_of_f32] in *. rewrite emin32 in *. rewrite unit32_pow in *.
  assert (E : Z.shiftl (Zpos m) e = Zpos m * 2 ^ (e - -149) / 2 ^ 149).
  { destruct (Z.leb_spec 0 e).
    - rewrite Z.shiftl_mul_pow2 by lia. replace (e - -149) with (e + 149) by lia. rewrite pow2_split, Z.mul_assoc, Z.div_mul by lia. done.
    - rewrite Z.shiftl_div_pow2 by lia.
      assert (Ep : 2 ^ 149 = 2 ^ (- e) * 2 ^ (e - -149)) by (rewrite <- pow2_split by lia; f_equal; lia).
      rewrite Ep, Z.div_mul_cancel_r by (apply Z.pow_nonzero; lia). done. }
  rewrite E. destruct (Z.leb_spec (Zpos m * 2 ^ (e - -149) / 2 ^ 149) UINT64_MAX) as [|Hgt]; [done|exfalso].
  assert (Zpos m * 2 ^ (e - -149) / 2 ^ 149 <= UINT64_MAX * 2 ^ 149 / 2 ^ 149) by (by apply Z.div_le_mono).
  rewrite Z.div_mul in * by lia. lia.
Qed.

(** The integer the code squares, against the number it stands for. *)
Definition rms_step (u k : Z) : Prop :=
  0 <= k <= 8388608 /\ (u = 0 -> k = 0) /\ u * 8388606 - 65535 < 65535 * k <= u * 8388610.

Lemma inverse_rms_spec u : is_u16 u -> exists k, u64_of_f32 (inverse_rms u) = Ret k /\ rms_step u k.
Proof.
  unfold is_u16, rms_step. intros Hu. destruct (Z.eq_dec u 0) as [->|Hu0]; [exists 0; split; [by vm_compute|lia]|].
  destruct (Z.eq_dec u 65535) as [->|Hu1]; [exists 8388608; split; [by vm_compute|lia]|].
  destruct (f32_quotient u 65535 ltac:(lia) ltac:(lia)) as (Q1 & Q2 & Q3). cbv zeta in *.
  unfold inverse_rms. set (r := f32_div (f32_of_Z u) (f32_of_Z 65535)) in *. clearbody r.
  apply near_bounds in Q3. pose proof unit32_pos as HU. change (2 ^ 22) with 4194304 in Q3.
  assert (Hr : unit32 <= val32 r * 2 ^ 17 /\ val32 r < unit32) by nia.
  destruct (positive_parts 24 128 ltac:(lia) r (-17) 0 Q1 Q2) as (m & e & -> & He); rewrite ?emin32 in *; [nia| |lia|].
  { change (2 ^ (-17 - -149)) with (2 ^ 132). change (2 ^ (0 - -149)) with unit32.
    assert (unit32 = 2 ^ 132 * 2 ^ 17) by reflexivity. nia. }
  change APTA_INTERNAL_SQUARE_MAGNITUDE_SCALE with (S754_finite false 8388608 0).
  destruct (SFmul_exact 24 128 ltac:(lia) ltac:(lia) false m e false 8388608 0 (val32 (S754_finite false m e) * 8388608) Q2)
    as (P1 & P2 & P3); [by vm_compute|rewrite emin32; lia| | |].
  - cbn [fval cond_Zopp]. rewrite unit32_pow, emin32. change (2 ^ (0 - -149)) with (2 ^ 149). lia.
  - cbn [fval cond_Zopp]. rewrite emin32. replace (Zpos m * 2 ^ (e - -149) * 8388608) with (Zpos m * 2 ^ (e - -149 + 23)).
    + apply representable_small; rewrite ?emin32; try lia. pose proof (valid_wf 24 128 _ Q2) as Hm. cbn [wf_float] in Hm. lia.
    + change 8388608 with (2 ^ 23). rewrite pow2_split by lia. lia.
  - set (v := val32 (S754_finite false m e)) in *. clearbody v. unfold f32_mul.
    destruct (SFmul 24 128 _ _) as [s|s| |s n f]; try done; [cbn [fval] in P3; nia|].
    destruct (valid_finite _ _ _ _ _ P2) as [_ Hf]. rewrite emin32 in Hf.
    pose proof (fval_pos 24 128 n f ltac:(rewrite emin32; lia)) as Hpos.
    destruct s; [cbn [fval cond_Zopp] in P3; nia|].
    rewrite u64_of_f32_floor by (rewrite ?P3; nia). rewrite P3. eexists. split; [reflexivity|].
    pose proof (Z.div_mod (v * 8388608) unit32 ltac:(lia)) as Hdm. pose proof (Z.mod_pos_bound (v * 8388608) unit32 HU) as Hmod.
    set (k := v * 8388608 / unit32) in *. clearbody k. remember unit32 as U eqn:EU. clear EU.
    assert (H1 : 65535 * k * U <= u * 8388610 * U) by lia.
    assert (H2 : (u * 8388606 - 65535) * U < 65535 * k * U) by lia.
    apply Z.mul_le_mono_pos_r in H1; [|done]. apply Z.mul_lt_mono_pos_r in H2; [|done]. lia.
Qed.

(** A [double] of ordinary size. *)
Lemma f64_parts x : is_finite x = true -> valid64 x -> unit64 <= val64 x * 2 ^ 17 -> val64 x < unit64 * 2 ^ 64 ->
  exists m e, x = S754_finite false m e /\ -70 < e < 64.
Proof.
  intros Hf Hv H1 H2. pose proof unit64_pos as HU.
  assert (E1 : 2 ^ (-17 - emin 53 1024) * 2 ^ 17 = unit64) by (rewrite emin64, <- pow2_split by lia; reflexivity).
  assert (E2 : 2 ^ (64 - emin 53 1024) = unit64 * 2 ^ 64) by (rewrite emin64; unfold unit64, funit; rewrite emin64, <- pow2_split by lia; reflexivity).
  destruct (positive_parts 53 1024 ltac:(lia) x (-17) 64 Hf Hv) as (m & e & -> & He); [lia| |rewrite emin64; lia|exists m, e; split; [done|lia]].
  rewrite E2. split; [|done]. apply (Z.mul_le_mono_pos_r _ _ (2 ^ 17)); [lia|]. by rewrite E1.
Qed.

(** The mean square of [n] samples of magnitude [k]. *)
Lemma mean_square k n : 1 <= k <= 8388608 -> 1 <= n <= 65536 ->
  let q := f64_div (f64_of_Z (k * k * n)) (f64_of_Z n) in
  is_finite q = true /\ valid64 q /\ near 49 (val64 q) (k * k * unit64).
Proof.
  intros Hk Hn. pose proof unit64_pos as HU. assert (Hkk : 1 <= k * k <= 2 ^ 46) by nia.
  destruct (int_near 53 1024 ltac:(lia) ltac:(lia) (k * k * n)) as (D1 & D2 & D3).
  { split; [nia|]. apply Z.lt_trans with (2 ^ 63); [nia|]. apply Z.pow_lt_mono_r; lia. }
  change (binary_normalize 53 1024 (k * k * n) 0 false) with (f64_of_Z (k * k * n)) in *.
  destruct (int64_exact n ltac:(lia)) as (N1 & N2 & N3).
  set (d := f64_of_Z (k * k * n)) in *. clearbody d. set (c := f64_of_Z n) in *. clearbody c.
  pose proof (near_half (53 - 1) _ _ ltac:(lia) D3) as Hd.
  assert (Hsu : n * unit64 <= k * k * n * unit64 <= 2 ^ 62 * unit64).
  { assert (n <= k * k * n <= 2 ^ 62) by nia. split; apply Z.mul_le_mono_nonneg_r; lia. }
  assert (Hnu : unit64 <= n * unit64 <= 65536 * unit64) by (split; nia).
  destruct (f64_parts d D1 D2 ltac:(lia) ltac:(lia)) as (m & e & -> & He).
  destruct (f64_parts c N1 N2 ltac:(rewrite N3; lia) ltac:(rewrite N3; lia)) as (p & f & -> & Hf).
  unfold f64_div. destruct (div_near 53 1024 ltac:(lia) ltac:(lia) m e p f 64 D2 N2) as (Q1 & Q2 & Q3); rewrite ?emin64, ?N3; try lia.
  split; [done|]. split; [done|]. rewrite N3 in Q3.
  change (53 - 2) with 51 in Q3. rewrite Z.mul_assoc in Q3. apply near_unscale in Q3; [|done].
  apply (near_le (53 - 1) 51) in D3; [|lia]. pose proof (near_trans 51 _ _ _ ltac:(lia) Q3 D3) as H.
  change (51 - 2) with 49 in H. apply (near_unscale _ _ _ n); [lia|]. by replace (k * k * unit64 * n) with (k * k * n * unit64) by lia.
Qed.

(** Its root, on the scale of magnitudes. *)
Lemma root_magnitude k n : 1 <= k <= 8388608 -> 1 <= n <= 65536 ->
  let t := f64_div (sqrt (f64_div (f64_of_Z (k * k * n)) (f64_of_Z n))) (f64_of_f32 APTA_INTERNAL_SQUARE_MAGNITUDE_SCALE) in
  is_finite t = true /\ valid64 t /\ nonneg_float t /\ near 40 (val64 t * 8388608) (k * unit64).
Proof.
  intros Hk Hn. destruct (mean_square k n Hk Hn) as (Q1 & Q2 & Q3). cbv zeta in *. pose proof unit64_pos as HU.
  set (q := f64_div (f64_of_Z (k * k * n)) (f64_of_Z n)) in *.
  pose proof (near_half 49 _ _ ltac:(lia) Q3) as Hq. clearbody q.
  assert (Hkk : unit64 <= k * k * unit64 <= 2 ^ 46 * unit64) by (assert (1 <= k * k <= 2 ^ 46) by nia; split; nia).
  destruct (f64_parts q Q1 Q2 ltac:(lia) ltac:(lia)) as (m & e & -> & He).
  unfold sqrt. destruct (sqrt_near 53 1024 ltac:(lia) ltac:(lia) m e 64 Q2) as (S1 & S2 & S3 & S4); rewrite ?emin64; try lia.
  set (s := SFsqrt 53 1024 _) in *. set (v := val64 (S754_finite false m e)) in *. clearbody v s.
  assert (Hs : near 45 (val64 s) (k * unit64)).
  { apply near_sqrt; [lia|done|nia|]. apply (near_trans 47 _ (v * unit64)); [lia|by apply (near_le 49); [lia|]|].
    replace (k * unit64 * (k * unit64)) with (k * k * unit64 * unit64) by lia. apply near_scale; [lia|]. by apply (near_le 49); [lia|]. }
  pose proof (near_half 45 _ _ ltac:(lia) Hs) as Hsb.
  assert (Hku : unit64 <= k * unit64 <= 8388608 * unit64) by (split; nia).
  destruct (f64_parts s S1 S2 ltac:(lia) ltac:(lia)) as (p & f & -> & Hf).
  rewrite scale_square. unfold f64_div.
  assert (Vs : valid64 (S754_finite false 4503599627370496 (-29))) by by vm_compute.
  assert (Es : val64 (S754_finite false 4503599627370496 (-29)) = 8388608 * unit64) by by vm_compute.
  destruct (div_near 53 1024 ltac:(lia) ltac:(lia) p f 4503599627370496 (-29) 64 S2 Vs) as (T1 & T2 & T3); rewrite ?emin64, ?Es; try lia.
  split; [done|]. split; [done|]. split; [by apply f64_div_nonneg|]. rewrite Es in T3. change (53 - 2) with 51 in T3. rewrite Z.mul_assoc in T3.
  apply near_unscale in T3; [|done]. apply (near_le 43); [lia|]. apply (near_trans 45 _ (val64 (S754_finite false p f))); [lia| |done].
  by apply (near_le 51); [lia|].
Qed.

(** The product by the scale of the stored RMS. *)
Lemma f64_small_product z u : valid64 z -> is_finite z = true -> 0 < val64 z <= unit64 ->
  Z.abs (val64 z * 65535 - u * unit64) * 8 <= unit64 -> 0 < u <= 65535 ->
  let p := f64_mul z (f64_of_Z 65535) in
  is_finite p = true /\ valid64 p /\ 2 * Z.abs (val64 p - u * unit64) < unit64.
Proof.
  intros Hv Hf Hz Hval Hu. pose proof unit64_pos as HU. cbv zeta.
  assert (Hzl : unit64 <= val64 z * 2 ^ 17) by nia.
  destruct (f64_parts z Hf Hv ltac:(lia) ltac:(lia)) as (m & e & -> & He).
  change (f64_of_Z 65535) with (S754_finite false 9007061815787520 (-37)).
  assert (Vs : valid64 (S754_finite false 9007061815787520 (-37))) by by vm_compute.
  assert (Es : val64 (S754_finite false 9007061815787520 (-37)) = 65535 * unit64) by by vm_compute.
  pose proof (Zdigits2_pos_ge (Zpos m) ltac:(lia)) as Hd1. pose proof (valid_wf 53 1024 _ Hv) as Hm. cbn [wf_float] in Hm.
  pose proof (Zdigits2_le (Zpos m) 53 ltac:(lia) ltac:(lia)) as Hd2.
  change (Zdigits2 9007061815787520) with 53 in *.
  destruct (mul_near 53 1024 ltac:(lia) ltac:(lia) m e 9007061815787520 (-37) Hv Vs) as (P1 & P2 & P3);
    [rewrite emin64; lia|rewrite emin64; change (Zdigits2 9007061815787520) with 53; lia|].
  split; [done|]. split; [done|]. unfold f64_mul. rewrite Es, Z.mul_assoc in P3. apply near_unscale in P3; [|done].
  apply near_bounds in P3. change (2 ^ (53 - 1)) with 4503599627370496 in P3.
  set (w := val64 (SFmul 53 1024 _ _)) in *. set (v := val64 (S754_finite false m e)) in *. clearbody w v.
  remember unit64 as U eqn:EU. clear EU. lia.
Qed.

(** The RMS of a seeded column is stored as it was. *)
Lemma rms_reproduced u k n : is_u16 u -> rms_step u k -> 1 <= n <= 65536 -> apta_quantize_rms (k * k * n) n = Ret u.
Proof.
  unfold is_u16. intros Hu (Hk & Hk0 & Hlow & Hup) Hn. pose proof unit64_pos as HU.
  destruct (Z.eq_dec k 0) as [->|Hkn].
  { assert (u = 0) as -> by lia. unfold apta_quantize_rms. destruct (Z.eqb_spec n 0); [lia|].
    destruct (positive_int n ltac:(lia)) as (m & e & ->). by vm_compute. }
  destruct (root_magnitude k n ltac:(lia) Hn) as (T1 & T2 & T3 & T4). cbv zeta in *. unfold apta_quantize_rms.
  destruct (Z.eqb_spec n 0); [lia|]. set (t := f64_div (sqrt _) _) in *. cbv zeta.
  pose proof (near_bounds _ _ _ T4) as Ht. change (2 ^ 40) with 1099511627776 in Ht.
  assert (Hval : Z.abs (val64 t * 65535 - u * unit64) * 8 <= unit64).
  { assert (Hlin : Z.abs (val64 t * 65535 - u * unit64) * (8388608 * 1099511627776) <= 262140 * 1099511627776 * unit64); [|lia].
    assert (H1 : u * 8388606 * unit64 - 65535 * unit64 <= 65535 * (k * unit64) <= u * 8388610 * unit64) by nia.
    assert (H2 : 0 <= u * unit64 <= 65535 * unit64) by nia. set (K := k * unit64) in *. clearbody K.
    assert (H3 : 0 <= K <= 8388610 * unit64) by nia.
    destruct (Z.abs_spec (val64 t * 65535 - u * unit64)) as [[_ ->]|[_ ->]]; lia. }
  assert (Hu1 : 1 <= u <= 65535) by lia. assert (HuU : unit64 <= u * unit64 <= 65535 * unit64) by (split; nia).
  clear T4 Ht Hlow Hup Hk0. destruct (clamp_unit64 t T2 T3) as (Z1 & Z2 & Z3). cbv zeta in *.
  assert (Hc : val64 (if SFltb f64_one (if SFltb t f64_zero then f64_zero else t) then f64_one
                      else if SFltb t f64_zero then f64_zero else t) = Z.min (val64 t) unit64).
  { assert (Hx : SFltb t f64_zero = false) by (by destruct t as [[]|[]| |[] m e]). rewrite Hx in *.
    destruct (int64_exact 1 ltac:(lia)) as (O1 & O2 & O3). change (f64_of_Z 1) with f64_one in *.
    rewrite (SFltb_fval 53 1024) by done || lia. rewrite O3. destruct (Z.ltb_spec (1 * unit64) (val64 t)); lia. }
  set (z := if SFltb f64_one _ then _ else _) in *. clearbody z. clearbody t.
  destruct (int64_exact 65535 ltac:(lia)) as (O1 & O2 & O3).
  destruct (f64_small_product z u Z1 Z2 ltac:(lia) ltac:(rewrite Hc; lia) ltac:(lia)) as (P1 & P2 & P3).
  pose proof (round_ties_even_spec _ P2 P1) as Hround. rewrite (ties_even_close _ u) in Hround by lia.
  specialize (Hround ltac:(nia)).
  pose proof (clamp_high _ _ 65535 (clamp_low _ _ 0 Hround ltac:(done)) ltac:(done)) as Hclamp.
  change (f64_of_Z 0) with f64_zero in Hclamp. rewrite (int_of_f64_spec _ _ _ _ Hclamp) by lia. f_equal. lia.
Qed.
