(* ===== verification/SeedColumns.v ===== *)
(** * Seeded columns (waveform/apta_waveform_input.c, waveform/apta_waveform_process.c)

    What seeding the columns of one span does to the table: each becomes a complete
    column with as many samples as the session takes it to have frames, and the snapshot stores it again as it was, but for
    its bands. *)

From Stdlib Require Import Floats.SpecFloat.
From S2P Require Import Prelude Platform FloatFacts FloatOrder Samples Ranges AcceptPcm SampleTheorems Bytes Wovr WovrSpec.
From S2P Require Import Overview OverviewTable OverviewMeasure Quantize Snapshot SnapshotFill Process ProcessTheorems.
From S2P Require Import Seed SeedQuantize.

(** The column a stored column becomes, with [n] samples. *)
Definition seeded (n c : Z) (source : apta_waveform_column_t) : column :=
  let k := the (u64_of_f32 (inverse_rms (wc_rms source))) in
  ({| ac_column_index := c; ac_sample_count := n; ac_sum_squares := k * k * n;
      ac_minimum := inverse_peak (wc_minimum source); ac_maximum := inverse_peak (wc_maximum source);
      ac_clipped := any (wc_flags source) APTA_WAVEFORM_COLUMN_CLIPPED; ac_complete := true |}, (0, 0, 0)).

(** What the snapshot makes of it: the peak -32767 becomes -32768, and the bands are
    lost. *)
Definition reproduced (bands : bool) (source : apta_waveform_column_t) : apta_waveform_column_t :=
  let peak q := if q =? -32767 then -32768 else q in
  {| wc_minimum := peak (wc_minimum source); wc_maximum := peak (wc_maximum source); wc_rms := wc_rms source;
     wc_low := 0; wc_mid := 0; wc_high := 0;
     wc_flags := let flags := if any (wc_flags source) APTA_WAVEFORM_COLUMN_CLIPPED
                              then Z.lor APTA_WAVEFORM_COLUMN_VALID APTA_WAVEFORM_COLUMN_CLIPPED
                              else APTA_WAVEFORM_COLUMN_VALID in
                 if bands then Z.lor flags APTA_WAVEFORM_COLUMN_HAS_3BAND else flags |}.

Lemma seeded_stored bands n c source : column_typed source -> 1 <= n <= 65536 ->
  stored bands (seeded n c source) = reproduced bands source.
Proof.
  intros (T1 & T2 & T3 & _) Hn. unfold stored, reproduced, seeded, stored_rms. cbn [fst snd ac_minimum ac_maximum ac_sum_squares ac_sample_count].
  destruct (inverse_rms_spec (wc_rms source) T3) as (k & Ek & Hk). rewrite Ek. cbn [the].
  rewrite !peak_reproduced, (rms_reproduced _ _ _ T3 Hk Hn) by done. cbn [the].
  assert (E0 : apta_quantize_band 0 n = 0).
  { unfold apta_quantize_band. destruct (Z.eqb_spec n 0); [done|]. rewrite Z.mul_0_l. change (u64 0) with 0. by rewrite Zdiv_0_l. }
  rewrite E0. by destruct bands.
Qed.

Lemma seeded_ok n c source : column_typed source -> wc_minimum source <= wc_maximum source -> 1 <= n <= 65536 ->
  column_ok (seeded n c source) /\ few_samples (seeded n c source).
Proof.
  intros (T1 & T2 & T3 & _) Hle Hn. split; [|unfold few_samples; simpl; lia].
  destruct (inverse_rms_spec (wc_rms source) T3) as (k & Ek & Hk & _). split.
  - unfold counters_ok, seeded. rewrite Ek. cbn [the fst snd ac_sample_count ac_sum_squares]. change (2 ^ 46) with (8388608 * 8388608).
    assert (Hkk : 0 <= k * k <= 8388608 * 8388608) by nia. split_and!; try lia; nia.
  - destruct (inverse_peak_near _ T1) as (F1 & V1 & _), (inverse_peak_near _ T2) as (F2 & V2 & _).
    split; [by split|]. split; [by split|]. split; [|simpl; lia]. intros _. by apply inverse_peak_mono.
Qed.

(** ** One column *)

(** The cell at [length l1] becomes a complete one. *)
Lemma complete_cell o l1 x l2 y : table_shape o (l1 ++ x :: l2) -> col y = col x -> y.2 = x.2 -> ac_complete y.1 = true ->
  arr_get (ov_accumulators o) (length l1) = Ret (E := apta_status_t) x.1 /\
  exists a, arr_put (E := apta_status_t) (ov_accumulators o) (length l1) y.1 = Ret a /\
    table_shape (if ac_complete x.1 then set_accumulators o a
                 else set_complete_count (set_accumulators o a) (u32 (ov_complete_count o + 1))) (l1 ++ y :: l2).
Proof.
  intros Hs Hy Hb Hc. pose proof Hs as [[(rest & Ha) Hcount Hbands] Hcap Harr Hba Hsort Hcols Hcomp].
  rewrite map_app, <- app_assoc in Ha. simpl in Ha. rewrite Ha.
  split; [by rewrite (arr_get_app (map fst l1) _ _ 0) by (rewrite length_map; lia)|].
  exists (map fst (l1 ++ y :: l2) ++ rest). split.
  { rewrite (arr_put_app (map fst l1) _ _ 0) by (rewrite length_map; lia). simpl. by rewrite map_app, <- app_assoc. }
  assert (Hlen : length (l1 ++ y :: l2) = length (l1 ++ x :: l2)) by by rewrite !length_app.
  assert (Hrep : forall n, represents (set_complete_count (set_accumulators o (map fst (l1 ++ y :: l2) ++ rest)) n) (l1 ++ y :: l2)).
  { intros n. constructor; simpl; [by eexists|by rewrite Hlen|]. revert Hbands. rewrite !map_app. cbn [map]. rewrite Hb.
    destruct (ov_band_sums o); [done|]. rewrite !Forall_app, !Forall_cons. by rewrite Hb. }
  assert (Hs' : forall n, n = Z.of_nat (number_complete (l1 ++ y :: l2)) ->
    table_shape (set_complete_count (set_accumulators o (map fst (l1 ++ y :: l2) ++ rest)) n) (l1 ++ y :: l2)).
  { intros n Hn. constructor; simpl; try done.
    - rewrite Ha in Harr. revert Harr. rewrite map_app, !length_app. simpl. rewrite !length_app. lia.
    - eapply columns_sorted_replace; [|exact Hsort]. done.
    - apply Forall_app in Hcols as [H1 H2]. apply Forall_cons in H2 as [H2 H3]. apply Forall_app. split; [done|].
      constructor; [by rewrite Hy|done]. }
  assert (Hn : number_complete (l1 ++ y :: l2) = ((if ac_complete x.1 then 0 else 1) + number_complete (l1 ++ x :: l2))%nat).
  { rewrite !number_complete_app. unfold number_complete. simpl. rewrite Hc. destruct (ac_complete x.1); simpl; lia. }
  destruct (ac_complete x.1).
  - specialize (Hs' (ov_complete_count o)). rewrite Hn in Hs'. specialize (Hs' Hcomp). by destruct o.
  - apply Hs'. rewrite Hn, Hcomp. pose proof (number_complete_le (l1 ++ x :: l2)). rewrite u32_small by (unfold is_u32; lia). lia.
Qed.

Section Columns.
Context `{PlatformLaws}.
Context (allocate : nat -> Z -> bool) (fresh : accumulator).

(** The table afterwards has the columns it had and the new ones; some of them when
    memory ran out. *)
Definition seed_post (o : overview) (m : list column) (o' : overview) (status : apta_status_t)
    (new : Z -> option column) : Prop :=
  same_geometry o o' /\
  exists m', measuring o' m' /\
    (forall d, column_of m' d = column_of m d \/ is_Some (new d) /\ column_of m' d = new d) /\
    (out_of_memory status \/
     status = APTA_STATUS_OK /\
       forall d, column_of m' d = match new d with Some y => Some y | None => column_of m d end).

Lemma measuring_setup_same o o' m : measuring o m -> table_shape o' m -> same_setup o o' -> measuring o' m.
Proof. intros Hm Hs Ho. constructor; [done|rewrite (se_filter _ _ Ho)|rewrite (se_frames _ _ Ho)|]; apply Hm. Qed.

Lemma seed_internal_spec o m y : measuring o m -> is_u32 (col y) -> column_of m (col y) = None -> y.2 = (0, 0, 0) ->
  ac_complete y.1 = true -> column_ok y ->
  exists o' status,
    apta_internal_waveform_seed_column allocate fresh o (col y) (ac_minimum y.1) (ac_maximum y.1) (ac_sum_squares y.1)
      (ac_sample_count y.1) (ac_clipped y.1) = Ret (o', status) /\
    seed_post o m o' status (fun d => if d =? col y then Some y else None).
Proof.
  intros Hm Hc Hnone Hb Hcy Hok. unfold apta_internal_waveform_seed_column.
  destruct (find_or_insert_spec allocate fresh o m (col y) (me_shape _ _ Hm) Hc)
    as (o1 & status & position & -> & Hsame & Hpost). cbn [obind].
  pose proof (same_setup_geometry _ _ Hsame) as Hgeo.
  destruct Hpost as [[Hst Hs1]|(-> & l1 & x & l2 & -> & Hx & Hs1 & Hcase)].
  { rewrite (out_of_memory_error _ Hst). exists o1, status. split; [done|]. split; [done|]. exists m.
    split; [by apply (measuring_setup_same o)|]. split; [by left|by left]. }
  cbn [is_error status_code Z.ltb Z.compare]. pose proof (ts_sorted _ _ Hs1) as Hsort.
  destruct Hcase as [[-> _]|[-> ->]].
  { exfalso. rewrite (column_of_middle _ _ _ _ Hsort), Hx, Z.eqb_refl in Hnone. done. }
  destruct (complete_cell o1 l1 (new_column (col y)) l2 y Hs1 ltac:(done) Hb Hcy) as (-> & a & Ea & Hshape). cbn [obind] in *.
  change (ac_column_index (new_column (col y)).1) with (col y).
  assert (Ey : {| ac_column_index := col y; ac_sample_count := ac_sample_count y.1; ac_sum_squares := ac_sum_squares y.1;
                  ac_minimum := ac_minimum y.1; ac_maximum := ac_maximum y.1; ac_clipped := ac_clipped y.1;
                  ac_complete := true |} = y.1) by (unfold col; rewrite <- Hcy; by destruct y.1).
  rewrite Ey, Ea. cbn [obind]. change (ac_complete (new_column (col y)).1) with false in *. cbn iota in *.
  eexists _, _. split; [reflexivity|]. split; [by destruct Hgeo|]. exists (l1 ++ y :: l2).
  assert (Hcols : forall d, column_of (l1 ++ y :: l2) d = match (if d =? col y then Some y else None) with Some y => Some y | None => column_of (l1 ++ l2) d end).
  { intros d. rewrite (column_of_middle _ _ _ d (ts_sorted _ _ Hshape)). by destruct (d =? col y). }
  split; [|split; [|right; split; [done|exact Hcols]]].
  - constructor; [exact Hshape| | |]; simpl.
    + rewrite (se_filter _ _ Hsame). apply Hm.
    + rewrite (se_frames _ _ Hsame). apply Hm.
    + pose proof (me_columns _ _ Hm) as Hall. apply Forall_app in Hall as [A1 A2]. apply Forall_app. split; [done|]. by constructor.
  - intros d. rewrite Hcols. destruct (d =? col y); [right|by left]. split; [by eexists|done].
Qed.

(** A column with frames on the track, and how many of its frames the session takes it
    to have. *)
Definition open_column (total fpc c : Z) : Prop :=
  0 <= c < UINT32_MAX /\ (total <> APTA_TOTAL_FRAMES_UNKNOWN -> c * fpc < total).

Definition kept_frames (total fpc c : Z) : Z :=
  if total =? APTA_TOTAL_FRAMES_UNKNOWN then fpc else Z.min fpc (total - c * fpc).

Lemma kept_frames_range total fpc c : 1 <= fpc -> open_column total fpc c -> 1 <= kept_frames total fpc c <= fpc.
Proof. intros Hf [_ Ht]. unfold kept_frames. destruct (Z.eqb_spec total APTA_TOTAL_FRAMES_UNKNOWN); [lia|]. specialize (Ht ltac:(done)). lia. Qed.

Lemma seed_column_spec o m total c source : measuring o m -> open_column total (Overview.ov_frames_per_column o) c ->
  column_valid true source -> column_of m c = None ->
  let n := kept_frames total (Overview.ov_frames_per_column o) c in
  exists o' status, seed_column allocate fresh o total c source = Ret (o', status) /\
    seed_post o m o' status (fun d => if d =? c then Some (seeded n c source) else None).
Proof.
  intros Hm Hopen (Ht & Hv & Hle & _) Hnone n. pose proof (me_frames _ _ Hm) as Hf. unfold seed_column. rewrite Hv. cbn [negb].
  pose proof (kept_frames_range total _ c (proj1 Hf) Hopen) as Hn. fold n in Hn. destruct Hopen as [Hc Htot].
  set (fpc := Overview.ov_frames_per_column o) in *. cbv zeta.
  rewrite (u64_small (c * fpc)) by (unfold is_u64; nia). rewrite (u64_small (c * fpc + fpc)) by (unfold is_u64; nia).
  assert (Hend : (if negb (total =? APTA_TOTAL_FRAMES_UNKNOWN) && (total <? c * fpc + fpc) then total else c * fpc + fpc) = c * fpc + n).
  { unfold n, kept_frames. destruct (Z.eqb_spec total APTA_TOTAL_FRAMES_UNKNOWN); [done|]. specialize (Htot ltac:(done)).
    destruct (Z.ltb_spec total (c * fpc + fpc)); cbn [negb andb]; lia. }
  rewrite Hend. destruct (Z.leb_spec (c * fpc + n) (c * fpc)); [lia|].
  replace (c * fpc + n - c * fpc) with n by lia. rewrite (u32_small n) by (unfold is_u32; lia). clearbody n.
  destruct (inverse_rms_spec (wc_rms source) ltac:(apply Ht)) as (k & Ek & Hk & _). fold (inverse_rms (wc_rms source)).
  rewrite Ek. cbn [obind]. rewrite (u64_small (k * k)) by (unfold is_u64; nia).
  rewrite u64_small by (unfold is_u64; nia).
  destruct (seeded_ok n c source Ht Hle ltac:(lia)) as [Hok _].
  destruct (seed_internal_spec o m (seeded n c source) Hm ltac:(unfold is_u32, col; simpl; lia) Hnone eq_refl eq_refl Hok)
    as (o' & status & E & Hpost).
  unfold seeded in E at 1 2 3 4 5 6. cbn [fst ac_column_index ac_minimum ac_maximum ac_sum_squares ac_sample_count ac_clipped col] in E.
  rewrite Ek in E. exists o', status. split; [exact E|exact Hpost].
Qed.

(** ** The columns of a span *)

(** What the columns from [j] on of a span become. *)
Definition seeds (total fpc first : Z) (columns : list apta_waveform_column_t) (base j n : nat) (d : Z) : option column :=
  if (first + Z.of_nat j <=? d) && (d <? first + Z.of_nat (j + n))
  then option_map (seeded (kept_frames total fpc d) d) (columns !! (base + Z.to_nat (d - first))%nat) else None.

Lemma seeds_step total fpc first columns base j n source d : columns !! (base + j)%nat = Some source -> 0 <= first ->
  match seeds total fpc first columns base (S j) n d with
  | Some y => Some y
  | None => if d =? first + Z.of_nat j then Some (seeded (kept_frames total fpc (first + Z.of_nat j)) (first + Z.of_nat j) source) else None
  end = seeds total fpc first columns base j (S n) d.
Proof.
  intros Hs Hf. unfold seeds.
  destruct (Z.eqb_spec d (first + Z.of_nat j)) as [->|Hne].
  - replace (Z.to_nat (first + Z.of_nat j - first)) with j by lia. rewrite Hs.
    destruct (Z.leb_spec (first + Z.of_nat (S j)) (first + Z.of_nat j)); [lia|]. cbn [andb].
    destruct (Z.leb_spec (first + Z.of_nat j) (first + Z.of_nat j)); [|lia].
    destruct (Z.ltb_spec (first + Z.of_nat j) (first + Z.of_nat (j + S n))); [done|lia].
  - replace (S j + n)%nat with (j + S n)%nat by lia.
    destruct (Z.leb_spec (first + Z.of_nat (S j)) d), (Z.leb_spec (first + Z.of_nat j) d); try lia; cbn [andb]; try done.
    destruct (Z.ltb_spec d (first + Z.of_nat (j + S n))); [|done]. by destruct (columns !! (base + Z.to_nat (d - first))%nat).
Qed.

Lemma seed_columns_spec o m total first columns base j n : measuring o m -> 0 <= first ->
  (forall i, (j <= i < j + n)%nat -> exists source, columns !! (base + i)%nat = Some source /\ column_valid true source /\
     open_column total (Overview.ov_frames_per_column o) (first + Z.of_nat i) /\ column_of m (first + Z.of_nat i) = None) ->
  exists o' status, seed_columns allocate fresh o total first columns base j n = Ret (o', status) /\
    seed_post o m o' status (seeds total (Overview.ov_frames_per_column o) first columns base j n).
Proof.
  intros Hm Hf. revert o m j Hm. induction n as [|n IH]; intros o m j Hm Hall; cbn [seed_columns].
  - exists o, APTA_STATUS_OK. split; [done|]. split; [apply same_geometry_refl|]. exists m. split; [done|].
    split; [by left|]. right. split; [done|]. intros d. unfold seeds. destruct (Z.leb_spec (first + Z.of_nat j) d), (Z.ltb_spec d (first + Z.of_nat (j + 0))); try done. lia.
  - destruct (Hall j ltac:(lia)) as (source & Hs & Hv & Hw & Hnone). unfold arr_get. rewrite Hs. cbn [obind].
    pose proof Hw as [Hc _]. rewrite u32_small by (unfold is_u32; lia).
    destruct (seed_column_spec o m total _ source Hm Hw Hv Hnone) as (o1 & status & E & Hg & Hpost).
    unfold step_ok. rewrite E. cbn [obind].
    destruct Hpost as (m1 & Hm1 & Hsome & Hpost).
    assert (Hhere : forall d, d = first + Z.of_nat j ->
      seeds total (Overview.ov_frames_per_column o) first columns base j (S n) d =
      Some (seeded (kept_frames total (Overview.ov_frames_per_column o) d) d source)).
    { intros d ->. rewrite <- (seeds_step total _ first columns base j n source _ Hs Hf). rewrite Z.eqb_refl.
      unfold seeds. destruct (Z.leb_spec (first + Z.of_nat (S j)) (first + Z.of_nat j)); [lia|]. done. }
    destruct Hpost as [Hst|(-> & Hcols)].
    { rewrite (out_of_memory_error _ Hst). exists o1, status. split; [done|]. split; [done|]. exists m1. split; [done|].
      split; [|by left]. intros d. destruct (Hsome d) as [Hd|[Hin Hd]]; [by left|right].
      assert (Ed : d = first + Z.of_nat j) by (destruct (Z.eqb_spec d (first + Z.of_nat j)); [done|by destruct Hin]).
      rewrite Hhere by done. split; [by eexists|]. rewrite Hd. subst d. by rewrite Z.eqb_refl. }
    cbn [is_error status_code Z.ltb Z.compare]. pose proof (sg_frames _ _ Hg) as Ef.
    destruct (IH o1 m1 (S j) Hm1) as (o' & status & E' & Hg' & Hpost').
    { intros i Hi. destruct (Hall i ltac:(lia)) as (source' & Hs' & Hv' & Hw' & Hnone'). exists source'. rewrite Ef.
      split; [done|]. split; [done|]. split; [done|]. rewrite Hcols.
      destruct (Z.eqb_spec (first + Z.of_nat i) (first + Z.of_nat j)); [lia|done]. }
    exists o', status. split; [exact E'|]. split; [by eapply same_geometry_trans|].
    destruct Hpost' as (m' & Hm' & Hsome' & Hpost'). exists m'. split; [done|]. rewrite Ef in *. split.
    + intros d. pose proof (seeds_step total (Overview.ov_frames_per_column o) first columns base j n source d Hs Hf) as Hstep.
      destruct (Hsome' d) as [Hd|[[y Hy] Hd]].
      * rewrite Hd, Hcols. destruct (Z.eqb_spec d (first + Z.of_nat j)) as [Ed|]; [right|by left].
        rewrite Hhere by done. subst d. split; [by eexists|done].
      * right. rewrite Hy in Hstep. rewrite <- Hstep, Hd, Hy. split; [by eexists|done].
    + destruct Hpost' as [Hst|(-> & Hcols')]; [by left|right]. split; [done|].
      intros d. rewrite Hcols', Hcols. rewrite <- (seeds_step total _ first columns base j n source d Hs Hf).
      destruct (seeds _ _ first columns base (S j) n d); [done|]. by destruct (d =? _).
Qed.

End Columns.
