(* ===== verification/WovrTheorems.v ===== *)
(** * The container, end to end

    Safety and validity of parsing, the round trip between the writer and the
    reader, and the detection of corrupted bytes. *)

From stdpp Require Import sorting.
From S2P Require Import Prelude Platform Bytes Workspace Memory Wovr WovrSpec WovrReader.
From S2P Require Import WovrWriterTheorems WovrReaderTheorems WovrParse WovrRoundTrip.
Open Scope Z_scope.

Section Theorems.
Context `{PlatformLaws}.
Context (host : nat -> Z -> Z) (Hhost : forall k, host_ok (host k)).

(** The base parser, in terms of what it validated. *)
Lemma parse_base_spec c options b :
  bytes_ok b -> is_size (zlen b) -> is_size (ctx_allocated_bytes c) ->
  (forall o, apta_resolve_parse_options options = Ret o ->
             eo_maximum_allocation_bytes o <= SIZE_MAX) ->
  match apta_result_parse_base host (Some c) options (Some b) with
  | (Some c', Ret pa) => exists o input ch e h l packed level_id,
      apta_resolve_parse_options options = Ret o /\
      apta_validate_container b o = Ret input /\
      container_ok b input ch e /\ geometry_ok b o input h l packed /\ is_u32 level_id /\
      apta_get_u32 b (wi_payload input) = Ret level_id /\
      pa_result pa = parsed input h level_id l /\
      holds_result c c' pa (result_bytes (zlen l) packed)
  | (c', Err e) => c' = Some c
  | _ => False
  end.
Proof.
  intros Hb Hz Hc Hlim. unfold apta_result_parse_base.
  destruct (apta_resolve_parse_options options) as [o|e|] eqn:Eo; cbn [obind]; [|done|].
  2: { unfold apta_resolve_parse_options in Eo. destruct options; [|done]. repeat case_match; done. }
  pose proof (validate_container_spec b Hb Hz o) as Hv.
  destruct (apta_validate_container b o) as [input|e|] eqn:Ev; [|done..]. cbn [obind] in *.
  destruct Hv as (ch & e & Hco).
  destruct (container_payload b input ch e Hz Hco) as (P1 & P2 & P3 & P4 & P5 & _).
  pose proof (validate_wovr_geometry_spec b Hb Hz o input P1 P2 P4 P3) as Hg.
  destruct (apta_validate_wovr_geometry b input o) as [packed|e'|]; [|done..]. cbn [obind] in *.
  destruct Hg as (h & l & Hg).
  pose proof (build_spec host Hhost b Hb Hz o (Hlim o eq_refl) c input h l packed P1 P2 Hg P5 Hc) as Hbu.
  cbv zeta in Hbu.
  destruct (apta_build_parsed_result host c b input o packed) as [c' [pa|e'|]];
    [|by destruct Hbu as [-> _]|done].
  destruct Hbu as (level & R & E & Hpa & Hh). exists o, input, ch, e, h, l, packed, level.
  do 7 (split; [done|]). done.
Qed.

(** C1. Parsing an untrusted buffer never reads or writes outside an object,
    whatever the bytes: it either fails and leaves the context as it was, no
    byte leaked and no result counted, or builds a result whose content is
    valid (spans sorted and disjoint, frames and columns in step, a final
    overview covering the whole track), whose arrays hold what it announces,
    and whose release gives every byte back. *)
Theorem parse_safe_and_valid (c : apta_context_t) (options : option apta_parse_options_t)
    (b : list Z) (Hbytes : bytes_ok b) (Hsize : is_size (zlen b))
    (Halloc : is_size (ctx_allocated_bytes c)) (Hresults : is_u32 (ctx_result_count c))
    (Hlimit : forall o, apta_resolve_parse_options options = Ret o ->
                        eo_maximum_allocation_bytes o <= SIZE_MAX) :
  match apta_result_parse_wovr_hardened host (Some c) options (Some b) with
  | (Some c', Ret pa) =>
      (exists o, apta_resolve_parse_options options = Ret o /\
                 valid (is_strict o) (content_of (pa_result pa))) /\
      result_typed (pa_result pa) /\
      (exists bytes, holds_result c c' pa bytes) /\ release_parsed c' pa = c
  | (c', Err e) => c' = Some c
  | _ => False
  end.
Proof.
  unfold apta_result_parse_wovr_hardened.
  pose proof (parse_base_spec c options b Hbytes Hsize Halloc Hlimit) as Hp.
  destruct (apta_result_parse_base host (Some c) options (Some b)) as [[c'|] [pa|e|]]; try done.
  destruct Hp as (o & input & ch & e & h & l & packed & level & Eo & _ & Hco & Hg & Hlv & _ & Hpa & Hh).
  destruct (container_payload b input ch e Hsize Hco) as (_ & _ & _ & _ & _ & Hu).
  pose proof Hh as (n1 & n2 & n3 & -> & _ & _ & _ & _ & B1 & B2 & B3).
  assert (Hrel := release_parsed_spec c pa n1 n2 n3 Halloc Hresults B1 B2 B3).
  pose proof (harden_spec host Hhost b Hsize o _ input ch e h l packed Hco Hg
    (charge_size _ n3 : is_size (ctx_allocated_bytes
       (count_results (charge (charge (charge c n1) n2) n3) 1)))) as Hhd.
  destruct (apta_harden_validated_wovr host _ b) as [c2 [u|e2|]]; [| |done].
  - destruct Hhd as [-> Hok]. destruct (spans_at_end_column _ _ _ _ _ (go_spans _ _ _ _ _ _ Hg)) as [_ Hcnt].
    rewrite Hpa, (content_of_parsed _ _ _ _ (go_checked _ _ _ _ _ _ Hg) Hu Hcnt).
    split; [exists o; split; [done|]; by eapply parsed_valid|].
    split; [by eapply parsed_typed|]. split; [by eexists|done].
  - destruct Hhd as [-> _]. by rewrite Hrel.
Qed.


(** ** Corruption *)

(** Two buffers that differ in one window only. *)
Section Window.
Context (b1 w w' b2 : list Z) (Hlen : length w = length w').
Let b := b1 ++ w ++ b2.
Let b' := b1 ++ w' ++ b2.

(** [n] bytes at [p] avoid the window. *)
Definition avoids (p n : Z) : Prop := p + n <= zlen b1 \/ zlen b1 + zlen w <= p.

Lemma get8_same p : avoids p 1 -> get8 b p = get8 b' p.
Proof.
  intros Ha. unfold get8. destruct (Z.ltb_spec p 0); [done|]. unfold arr_get, b, b'.
  unfold avoids, zlen in Ha. destruct Ha as [Ha|Ha].
  - by rewrite !lookup_app_l by lia.
  - rewrite !lookup_app_r by lia. by rewrite Hlen.
Qed.

Lemma avoids_sub p n q m : avoids p n -> p <= q -> q + m <= p + n -> avoids q m.
Proof. unfold avoids. lia. Qed.

Lemma get_bytes_same p n : avoids p (Z.of_nat n) -> get_bytes b p n = get_bytes b' p n.
Proof.
  revert p. induction n as [|n IH]; intros p Ha; [done|]. cbn [get_bytes].
  rewrite get8_same by (eapply avoids_sub; [exact Ha|lia|lia]). destruct (get8 b' p); [|done..].
  cbn [obind]. by rewrite IH by (eapply avoids_sub; [exact Ha|lia|lia]).
Qed.

Lemma get_u16_same p : avoids p 2 -> apta_get_u16 b p = apta_get_u16 b' p.
Proof.
  intros Ha. unfold apta_get_u16.
  by rewrite !get8_same by (eapply avoids_sub; [exact Ha|lia|lia]).
Qed.

Lemma get_u32_same p : avoids p 4 -> apta_get_u32 b p = apta_get_u32 b' p.
Proof.
  intros Ha. unfold apta_get_u32.
  by rewrite !get8_same by (eapply avoids_sub; [exact Ha|lia|lia]).
Qed.

Lemma get_u64_same p : avoids p 8 -> apta_get_u64 b p = apta_get_u64 b' p.
Proof.
  intros Ha. unfold apta_get_u64.
  by rewrite !get_u32_same by (eapply avoids_sub; [exact Ha|lia|lia]).
Qed.

Ltac same := eapply avoids_sub; [eassumption|lia|lia].

Lemma read_container_header_same :
  avoids 0 96 -> read_container_header b = read_container_header b'.
Proof.
  intros Ha. unfold read_container_header. change (Z.to_nat APTA_SOURCE_FINGERPRINT_SIZE) with 32%nat.
  rewrite !get_u16_same, !get_u32_same, !get_u64_same, get_bytes_same by same. done.
Qed.

Lemma read_section_entry_same p : avoids p 40 -> read_section_entry b p = read_section_entry b' p.
Proof.
  intros Ha. unfold read_section_entry.
  rewrite !get_u16_same, !get_u32_same, !get_u64_same, get_bytes_same by same. done.
Qed.

(** The window inside a checksummed region changes its checksum. *)
Lemma crc32c_at_window p n :
  bytes_ok b -> bytes_ok b' -> (length w <= 4)%nat ->
  0 <= p <= zlen b1 -> zlen b1 + zlen w <= p + Z.of_nat n -> p + Z.of_nat n <= zlen b ->
  forall crc, crc32c_at b p n = Ret crc -> crc32c_at b' p n = Ret crc -> w = w'.
Proof.
  intros Hb Hb' H4 Hp Hn Hz crc. set (m := (n - (length b1 - Z.to_nat p) - length w)%nat).
  assert (Hg : forall x, length x = length w ->
    get_bytes (b1 ++ x ++ b2) p n = Ret (drop (Z.to_nat p) b1 ++ x ++ take m b2)).
  { intros x Hx. unfold zlen, b in *. rewrite !length_app in Hz.
    apply get_bytes_holds; [|unfold m; rewrite !length_app, length_drop, length_take; lia].
    exists (take (Z.to_nat p) b1), (drop m b2). split.
    - by rewrite <- !app_assoc, take_drop, (app_assoc (take _ _)), take_drop.
    - unfold zlen. rewrite length_take. lia. }
  unfold crc32c_at. unfold b at 1, b' at 1. rewrite !Hg by done. cbn [obind].
  intros [= <-] [= He]. unfold bytes_ok, b, b' in Hb, Hb'. rewrite !Forall_app in Hb, Hb'.
  destruct Hb as (Hb1 & Hbw & Hb2), Hb' as (_ & Hbw' & _).
  eapply crc32c_burst; [|done|done|done|symmetry; exact He].
  unfold bytes_ok. rewrite !Forall_app.
  split; [by apply Forall_drop|]. split; [done|]. by apply Forall_take.
Qed.

End Window.

(** An entry of the directory found in one buffer is found in the other. *)
Lemma wovr_entry_same b1 w w' b2 dir index n :
  length w = length w' ->
  (forall j, (index <= j < index + n)%nat -> avoids b1 w (directory_entry dir j) 40) ->
  wovr_entry (b1 ++ w ++ b2) dir index n = wovr_entry (b1 ++ w' ++ b2) dir index n.
Proof.
  intros Hlen. revert index. induction n as [|n IH]; intros index Ha; [done|]. cbn [wovr_entry].
  rewrite (read_section_entry_same b1 w w' b2 Hlen) by (apply Ha; lia).
  destruct (read_section_entry (b1 ++ w' ++ b2) (directory_entry dir index)) as [e|e|]; cbn [obind];
    [|reflexivity..].
  destruct (is_wovr e); [reflexivity|]. apply IH. intros j Hj. apply Ha. lia.
Qed.

Lemma corrupt_header b1 w w' b2 input input' ch ch' e e' :
  let b := b1 ++ w ++ b2 in
  let b' := b1 ++ w' ++ b2 in
  bytes_ok b -> bytes_ok b' -> length w = length w' -> (length w <= 4)%nat ->
  zlen b1 + zlen w <= 92 ->
  container_ok b input ch e -> container_ok b' input' ch' e' -> w = w'.
Proof.
  intros b b' Hb Hb' Hlen H4 Hw [Hr Hc _ _ _ _] [Hr' Hc' _ _ _ _].
  pose proof (hr_get_crc _ _ Hr) as E. pose proof (hr_get_crc _ _ Hr') as E'.
  unfold b in E. rewrite (get_u32_same b1 w w' b2 Hlen) in E by (right; lia).
  fold b' in E. rewrite E in E'. injection E' as E'.
  pose proof (hc_header_size _ _ Hc). pose proof (zlen_nonneg b1).
  eapply (crc32c_at_window b1 w w' b2 Hlen 0 92); [done..|lia| |apply (hc_crc _ _ Hc)|].
  - fold b. lia.
  - rewrite E'. apply (hc_crc _ _ Hc').
Qed.

Lemma corrupt_payload b1 w w' b2 input input' ch ch' e e' :
  let b := b1 ++ w ++ b2 in
  let b' := b1 ++ w' ++ b2 in
  is_size (zlen b) ->
  bytes_ok b -> bytes_ok b' -> length w = length w' -> (length w <= 4)%nat ->
  wi_payload input <= zlen b1 ->
  zlen b1 + zlen w <= wi_payload input + wi_payload_size input ->
  container_ok b input ch e -> container_ok b' input' ch' e' -> w = w'.
Proof.
  intros b b' Hz Hb Hb' Hlen H4 Hw1 Hw2 [Hr Hc Hh He Hs ->] [Hr' Hc' Hh' He' Hs' _].
  cbn [set_payload wi_payload wi_payload_size] in Hw1, Hw2.
  destruct (so_bounds _ _ _ Hs) as (B1 & B2 & B3). pose proof (hc_header_size _ _ Hc) as Hhs.
  destruct (hc_directory _ _ Hc) as [Hd1 Hd2]. pose proof (hc_section_count _ _ Hc) as Hn.
  destruct (Z.eq_dec (zlen w) 0) as [Hw0|Hw0].
  { unfold zlen in Hw0. destruct w; [|simpl in Hw0; lia]. by destruct w'. }
  pose proof (zlen_nonneg w) as Hw3. pose proof (zlen_nonneg b1).
  destruct (so_header _ _ _ Hs) as [|Hso]; [lia|].
  unfold b in Hh. rewrite (read_container_header_same b1 w w' b2 Hlen) in Hh by (left; lia).
  fold b' in Hh. rewrite Hh in Hh'. injection Hh' as <-.
  unfold b in He. rewrite (wovr_entry_same b1 w w' b2 _ _ _ Hlen) in He.
  - fold b' in He. rewrite He in He'. injection He' as <-.
    eapply (crc32c_at_window b1 w w' b2 Hlen (se_offset e) (Z.to_nat (se_stored_size e))); [done..|lia| |fold b; lia
      |apply (so_crc _ _ _ Hs)|apply (so_crc _ _ _ Hs')]. lia.
  - intros j Hj. pose proof (hr_section_count _ _ Hr) as Hsc. unfold is_u32 in Hsc.
    destruct (directory_entry_at b Hz ch j Hc Hr) as (Ej & _ & _); [lia|].
    rewrite Ej. unfold avoids. destruct (so_directory _ _ _ Hs) as [|[|]]; lia.
Qed.

(** C20. Corruption is noticed: if a container is accepted, then the same container
    with up to four consecutive bytes changed, anywhere in the part of the
    header the checksum covers or anywhere in the section, is refused, and the
    refusal leaves the context as it was. *)
Theorem corruption_detected (c : apta_context_t) (options : option apta_parse_options_t)
    (o : apta_effective_parse_options_t) (input : apta_wovr_input_t) (b1 w w' b2 : list Z)
    (Hbytes : bytes_ok (b1 ++ w ++ b2)) (Hbytes' : bytes_ok w')
    (Hsize : is_size (zlen (b1 ++ w ++ b2)))
    (Halloc : is_size (ctx_allocated_bytes c)) (Hresults : is_u32 (ctx_result_count c))
    (Hoptions : apta_resolve_parse_options options = Ret o)
    (Hlimit : eo_maximum_allocation_bytes o <= SIZE_MAX)
    (Haccepted : apta_validate_container (b1 ++ w ++ b2) o = Ret input)
    (Hwidth : length w = length w') (Hburst : (length w <= 4)%nat) (Hchanged : w <> w')
    (Hwhere : zlen b1 + zlen w <= 92 \/
              wi_payload input <= zlen b1 /\
              zlen b1 + zlen w <= wi_payload input + wi_payload_size input) :
  exists e, apta_result_parse_wovr_hardened host (Some c) options (Some (b1 ++ w' ++ b2)) =
            (Some c, Err e).
Proof.
  assert (Hb' : bytes_ok (b1 ++ w' ++ b2)).
  { unfold bytes_ok in *. rewrite !Forall_app in *. tauto. }
  assert (Hz' : is_size (zlen (b1 ++ w' ++ b2))).
  { unfold zlen in *. rewrite !length_app in *. by rewrite <- Hwidth. }
  pose proof (validate_container_spec _ Hbytes Hsize o) as Hv. rewrite Haccepted in Hv.
  destruct Hv as (ch & e & Hco).
  pose proof (parse_base_spec c options _ Hb' Hz' Halloc) as Hp. rewrite Hoptions in Hp.
  unfold apta_result_parse_wovr_hardened.
  specialize (Hp ltac:(by intros o' [= <-])).
  destruct (apta_result_parse_base host (Some c) options _) as [[c'|] [pa|e'|]]; try done.
  - exfalso. destruct Hp as (o' & input' & ch' & e' & h & l & packed & lv & _ & _ & Hco' & _).
    apply Hchanged. destruct Hwhere as [Hw|[Hw1 Hw2]].
    + by eapply corrupt_header.
    + by eapply corrupt_payload.
  - exists e'. by injection Hp as ->.
Qed.
End Theorems.

Import LP64.

(** The sample container, accepted by the strict parser. *)
Definition sample_bytes : list Z := encode (content_of sample_result).

Lemma sample_bytes_ok : bytes_ok sample_bytes /\ is_size (zlen sample_bytes).
Proof.
  split; [|split; vm_compute; congruence].
  eapply (encode_ok strict_options (content_of sample_result)); [exact sample_valid|reflexivity].
Qed.

Lemma parse_safe_and_valid_witness :
  exists c' pa,
    apta_result_parse_wovr_hardened parse_host (Some parse_context) None (Some sample_bytes) =
      (Some c', Ret pa) /\
    valid true (content_of (pa_result pa)) /\ release_parsed c' pa = parse_context.
Proof.
  destruct sample_bytes_ok as [Hb Hz].
  pose proof (parse_safe_and_valid parse_host parse_host_ok parse_context None sample_bytes Hb Hz
    ltac:(vm_compute; split; congruence) ltac:(vm_compute; split; congruence)
    ltac:(intros o [= <-]; vm_compute; congruence)) as Hp.
  assert (E : match apta_result_parse_wovr_hardened parse_host (Some parse_context) None
                      (Some sample_bytes) with
              | (Some _, Ret _) => True | _ => False end) by (vm_compute; exact I).
  destruct (apta_result_parse_wovr_hardened parse_host (Some parse_context) None (Some sample_bytes))
    as [[c'|] [pa|e|]]; try contradiction.
  destruct Hp as ((o & Ho & Hv) & _ & _ & Hr). injection Ho as <-.
  exists c', pa. split; [reflexivity|]. split; [exact Hv | exact Hr].
Defined.

(** The first column of the first span of the sample is damaged. *)
Lemma corruption_detected_witness :
  exists e, apta_result_parse_wovr_hardened parse_host (Some parse_context) None
              (Some (take 200 sample_bytes ++ [66] ++ drop 201 sample_bytes)) =
            (Some parse_context, Err e).
Proof.
  destruct sample_bytes_ok as [Hb Hz].
  assert (Es : sample_bytes = take 200 sample_bytes ++ [0] ++ drop 201 sample_bytes)
    by (vm_compute; reflexivity).
  assert (Ei : exists input, apta_validate_container (take 200 sample_bytes ++ [0] ++ drop 201 sample_bytes)
                 strict_options = Ret input /\ wi_payload input = 136 /\ wi_payload_size input = 142)
    by (eexists; split; [vm_compute; reflexivity|]; split; reflexivity).
  destruct Ei as (input & Ei & E1 & E2). rewrite Es in Hb, Hz.
  apply (corruption_detected parse_host parse_host_ok parse_context None strict_options input
    (take 200 sample_bytes) [0] [66] (drop 201 sample_bytes)); try assumption; try reflexivity.
  - apply Forall_cons. split; [unfold is_u8; lia|apply Forall_nil_2].
  - vm_compute. congruence.
  - simpl. lia.
  - congruence.
  - right. rewrite E1, E2. vm_compute. split; congruence.
Defined.
