(* ===== verification/SnapshotTheorems.v ===== *)
(** * What a snapshot shows

    The content of a snapshot: the maximal runs of complete columns as spans.  It is
    valid, so it can be written and read back. *)

From Stdlib Require Import Floats.SpecFloat.
From S2P Require Import Prelude Platform FloatFacts FloatOrder Samples Ranges AcceptPcm SampleTheorems Bytes Wovr WovrSpec.
From S2P Require Import Overview OverviewTable OverviewMeasure Quantize Snapshot SnapshotFill WovrWriterTheorems.

(** ** Runs of consecutive columns *)

Definition consecutive (run : list column) : Prop :=
  exists c, run <> [] /\ map col run = seqZ c (Z.of_nat (length run)).

Lemma consecutive_last run : consecutive run ->
  exists c, map col run = seqZ c (Z.of_nat (length run)) /\ run <> [] /\
    last_column run = Some (c + Z.of_nat (length run) - 1) /\ exists x l, run = x :: l /\ col x = c.
Proof.
  intros (c & Hne & Hc). exists c. split; [done|]. split; [done|]. split.
  - unfold last_column. destruct run as [|x run _] using rev_ind; [done|]. rewrite last_snoc. f_equal.
    rewrite map_app in Hc. apply (f_equal last) in Hc. simpl in Hc. rewrite last_snoc in Hc.
    rewrite length_app in Hc |- *. simpl in *. rewrite last_lookup, length_seqZ in Hc.
    symmetry in Hc. apply lookup_seqZ in Hc as [Hc _]. lia.
  - destruct run as [|x l]; [done|]. exists x, l. split; [done|].
    cbn [length map] in Hc. rewrite seqZ_cons in Hc by lia. by injection Hc.
Qed.

Lemma consecutive_snoc run x c : consecutive run -> last_column run = Some c -> col x = c + 1 ->
  consecutive (run ++ [x]).
Proof.
  intros Hr Hl Hx. destruct (consecutive_last run Hr) as (a & Ha & Hne & Hl' & _). rewrite Hl' in Hl.
  injection Hl as <-. exists a. split; [by destruct run|]. rewrite map_app, Ha, length_app. simpl.
  rewrite Nat2Z.inj_add, seqZ_app by lia. f_equal. cbn [map]. rewrite Hx.
  change (Z.of_nat 1) with 1. rewrite seqZ_cons by lia. simpl. f_equal. lia.
Qed.

Lemma consecutive_single x : consecutive [x].
Proof. exists (col x). split; [done|]. simpl. done. Qed.

Lemma last_column_elem run c : last_column run = Some c -> exists x, x ∈ run /\ col x = c.
Proof.
  unfold last_column. destruct (last run) as [x|] eqn:E; [|done]. intros [= <-]. exists x. split; [|done].
  apply last_Some_elem_of in E. done.
Qed.

(** A column that does not start a span follows the one before it. *)
Lemma not_starts_span current x : columns_sorted (current ++ [x]) -> is_u32 (col x) ->
  Forall (fun y => is_u32 (col y)) current -> starts_span (last_column current) x.1 = false ->
  exists c, last_column current = Some c /\ col x = c + 1.
Proof.
  intros Hs Hx Hc. unfold starts_span. destruct (last_column current) as [c|] eqn:El; [|done].
  intros E. apply negb_false_iff, Z.eqb_eq in E. change (ac_column_index x.1) with (col x) in E.
  exists c. split; [done|]. destruct (last_column_elem _ _ El) as (y & Hy & <-).
  apply columns_sorted_app in Hs as (_ & _ & Hlt). specialize (Hlt y x Hy (list_elem_of_here _ _)).
  rewrite Forall_forall in Hc. specialize (Hc y Hy). rewrite E. apply u32_small. unfold is_u32 in *. lia.
Qed.

Lemma split_runs_consecutive current l : columns_sorted (current ++ l) ->
  Forall (fun x => is_u32 (col x)) (current ++ l) -> (current = [] \/ consecutive current) ->
  Forall consecutive (split_runs current l).
Proof.
  revert current. induction l as [|x l IH]; intros current Hs Hu Hc; simpl.
  - destruct current; [constructor|]. destruct Hc as [|Hc]; [done|]. by constructor.
  - assert (Hs1 : columns_sorted (current ++ [x])).
    { apply columns_sorted_app in Hs as (S1 & S2 & S3). change (x :: l) with ([x] ++ l) in S2.
      apply columns_sorted_app. split; [done|]. split; [apply columns_sorted_single|].
      intros y z Hy ->%list_elem_of_singleton. apply S3; [done|]. apply elem_of_cons. by left. }
    apply Forall_app in Hu as [U1 U2]. pose proof U2 as U3. apply Forall_cons in U3 as [U3 U4].
    destruct (starts_span _ _) eqn:E.
    + apply Forall_app. split.
      * destruct current; [constructor|]. destruct Hc as [|Hc]; [done|]. by constructor.
      * apply IH; [by apply columns_sorted_app in Hs as (_ & Hs & _)|done|]. right. apply consecutive_single.
    + destruct (not_starts_span current x Hs1 U3 U1 E) as (c & El & Hx).
      apply IH; rewrite <- ?app_assoc; [done|by apply Forall_app|]. right.
      destruct Hc as [->|Hc]; [done|]. by eapply consecutive_snoc.
Qed.

Lemma complete_sorted m : columns_sorted m -> columns_sorted (complete_columns m).
Proof.
  induction m as [|x m IH]; intros Hs; [done|]. change (x :: m) with ([x] ++ m) in Hs.
  apply columns_sorted_app in Hs as (_ & H2 & H3). simpl. destruct (ac_complete x.1); [|by apply IH].
  change (columns_sorted ([x] ++ complete_columns m)). apply columns_sorted_app.
  split; [apply columns_sorted_single|]. split; [by apply IH|]. intros y z Hy Hz. apply H3; [done|].
  unfold complete_columns in Hz. apply list_elem_of_In, filter_In in Hz as [Hz _]. by apply list_elem_of_In.
Qed.

Lemma complete_elem m x : x ∈ complete_columns m <-> x ∈ m /\ ac_complete x.1 = true.
Proof. unfold complete_columns. by rewrite !list_elem_of_In, filter_In. Qed.

Lemma run_elem m run x : run ∈ runs m -> x ∈ run -> x ∈ m /\ ac_complete x.1 = true.
Proof.
  intros Hr Hx. apply complete_elem. pose proof (split_runs_concat [] (complete_columns m)) as E. fold (runs m) in E.
  simpl in E. rewrite <- E. apply list_elem_of_In, in_concat. exists run. by split; apply list_elem_of_In.
Qed.

Lemma runs_consecutive m : columns_sorted m -> Forall (fun x => is_u32 (col x)) m -> Forall consecutive (runs m).
Proof.
  intros Hs Hu. apply split_runs_consecutive; [by apply complete_sorted| |by left]. simpl.
  rewrite Forall_forall in Hu |- *. intros x Hx. apply Hu. by apply complete_elem.
Qed.

(** ** The content *)

(** The content of a run. *)
Definition run_content (o : overview) (run : list column) : span_content :=
  {| k_first := sp_first_frame (span_record o 0 run); k_end := sp_end_frame (span_record o 0 run);
     k_first_column := sp_first_column_index (span_record o 0 run);
     k_columns := map (stored (has_bands o)) run |}.

Lemma span_contents o l columns base tail : Forall (fun run => run <> []) l ->
  drop base columns = map (stored (has_bands o)) (concat l) ++ tail ->
  map (span_content_of columns) (span_records o base l) = map (run_content o) l.
Proof.
  revert base. induction l as [|run l IH]; intros base Hne Hd; [done|]. cbn [span_records map concat] in *.
  apply Forall_cons in Hne as [Hr Hne]. rewrite map_app, <- app_assoc in Hd. f_equal.
  - destruct run as [|x run]; [done|]. unfold span_content_of, run_content. cbn [span_record sp_columns sp_column_count].
    f_equal. rewrite Hd, Nat2Z.id. rewrite take_app_length'; [done|]. by rewrite length_map.
  - apply IH; [done|]. rewrite <- drop_drop, Hd.
    rewrite drop_app_length'; [done|]. by rewrite length_map.
Qed.

Lemma consecutive_ne run : consecutive run -> run <> [].
Proof. by intros (c & H & _). Qed.

Lemma snapshot_spans session m r : Forall consecutive (runs m) ->
  k_spans (content_of (snapshot_of session m r)) = map (run_content (sn_overview session)) (runs m).
Proof.
  intros Hc. unfold content_of. cbn [k_spans].
  change (result_spans (snapshot_of session m r))
    with (take (Z.to_nat (Z.of_nat (length (runs m)))) (span_records (sn_overview session) 0 (runs m))).
  rewrite Nat2Z.id, take_ge by (by rewrite length_span_records).
  apply (span_contents _ _ _ _ []); [eapply Forall_impl; [exact Hc|]; apply consecutive_ne|].
  pose proof (split_runs_concat [] (complete_columns m)) as E. fold (runs m) in E. simpl in E.
  by rewrite drop_0, app_nil_r, E.
Qed.

(** ** Validity *)

Lemma column_flags_valid a bands :
  is_u8 (column_flags a bands) /\ any (column_flags a bands) APTA_WAVEFORM_COLUMN_VALID = true /\
  any (column_flags a bands) (not32 APTA_WAVEFORM_COLUMN_FLAG_MASK) = false /\
  (any (column_flags a bands) APTA_WAVEFORM_COLUMN_HAS_3BAND = bands).
Proof. unfold column_flags. destruct (ac_clipped a), bands; repeat split; by vm_compute. Qed.

Lemma stored_valid bands x : column_ok x -> few_samples x -> ac_complete x.1 = true -> column_valid true (stored bands x).
Proof.
  intros Hx Hf Hc. destruct (stored_rms_ok x Hx Hf) as [_ Hrms].
  destruct Hx as [Hcnt (_ & _ & Hle & Hpos)]. specialize (Hle (Hpos Hc)).
  destruct (column_flags_valid x.1 bands) as (F1 & F2 & F3 & F4). unfold stored.
  unfold counters_ok, few_samples in *. destruct x.2 as [[b0 b1] b2]. change (2 ^ 15) with 32768 in Hcnt.
  assert (Hb : forall b, 0 <= b <= ac_sample_count x.1 * 32768 -> is_u8 (apta_quantize_band b (ac_sample_count x.1))).
  { intros b Hb. apply quantize_band_range; unfold is_u32; lia. }
  assert (Hz : is_u8 0) by (unfold is_u8; lia).
  assert (H0 : is_u8 (if bands then apta_quantize_band b0 (ac_sample_count x.1) else 0)) by (destruct bands; [apply Hb; lia|done]).
  assert (H1 : is_u8 (if bands then apta_quantize_band b1 (ac_sample_count x.1) else 0)) by (destruct bands; [apply Hb; lia|done]).
  assert (H2 : is_u8 (if bands then apta_quantize_band b2 (ac_sample_count x.1) else 0)) by (destruct bands; [apply Hb; lia|done]).
  split; [|split; [done|split]].
  - unfold column_typed. cbn [wc_minimum wc_maximum wc_rms wc_low wc_mid wc_high wc_flags].
    split; [apply quantized_peak_range|]. split; [apply quantized_peak_range|]. done.
  - by apply quantized_peak_mono.
  - intros _. split; [done|]. cbn [wc_low wc_mid wc_high wc_flags]. rewrite F4. by intros ->.
Qed.

(** What the session guarantees of the source and the track. *)
Record source_ok (r : apta_result_t) : Prop := {
  so_rate : 1 <= res_source_sample_rate r <= UINT32_MAX;
  so_channels : 1 <= res_source_channel_count r <= UINT16_MAX;
  so_layout : is_u16 (res_source_channel_layout r);
  so_kind : is_u32 (si_fingerprint_kind (res_source_info r));
  so_fingerprint : length (si_fingerprint (res_source_info r)) = 32%nat /\
                   bytes_ok (si_fingerprint (res_source_info r));
  so_fingerprint_valid : apta_internal_source_fingerprint_is_valid (si_fingerprint_kind (res_source_info r))
                           (Some (si_fingerprint (res_source_info r))) = true
}.

Definition known (total : Z) : Prop := total <> APTA_TOTAL_FRAMES_UNKNOWN.

Record track_ok (session : snapshot_input) (m : list column) : Prop := {
  tk_total : is_u64 (sn_total_frames session);
  tk_length : known (sn_total_frames session) ->
    required_columns (sn_total_frames session) (Overview.ov_frames_per_column (sn_overview session)) <= UINT32_MAX;
  tk_end : ov_end_of_input_signalled (sn_overview session) = true ->
    known (sn_total_frames session) /\ sn_total_frames session = ov_final_end_frame (sn_overview session);
  tk_complete : forall x, x ∈ m -> ac_complete x.1 = true ->
    ac_sample_count x.1 = apta_expected_column_frames (sn_overview session) (col x);
  tk_inside : forall x, x ∈ m -> ac_complete x.1 = true -> known (sn_total_frames session) ->
    col x * Overview.ov_frames_per_column (sn_overview session) + ac_sample_count x.1 <= sn_total_frames session;
  tk_last : forall x, x ∈ m -> ac_complete x.1 = true -> col x < UINT32_MAX
}.

(** The ends of the complete columns. *)
Lemma column_end session m x : measuring (sn_overview session) m -> track_ok session m -> x ∈ m -> ac_complete x.1 = true ->
  let o := sn_overview session in
  let fpc := Overview.ov_frames_per_column o in
  0 <= col x < UINT32_MAX /\
  (span_end_frame o (col x) = (col x + 1) * fpc \/
   known (sn_total_frames session) /\ span_end_frame o (col x) = sn_total_frames session /\
   sn_total_frames session < (col x + 1) * fpc) /\
  col x * fpc < span_end_frame o (col x) /\
  (known (sn_total_frames session) -> span_end_frame o (col x) <= sn_total_frames session) /\
  (ov_end_of_input_signalled o = false -> span_end_frame o (col x) = (col x + 1) * fpc).
Proof.
  intros Hm Ht Hx Hc o fpc. pose proof (me_frames _ _ Hm) as Hf. fold o fpc in Hf.
  pose proof (ts_columns _ _ (me_shape _ _ Hm)) as Hu. rewrite Forall_forall in Hu. specialize (Hu x Hx).
  pose proof (me_columns _ _ Hm) as Hok. rewrite Forall_forall in Hok. destruct (Hok x Hx) as [_ (_ & _ & _ & Hpos)].
  specialize (Hpos Hc). pose proof (tk_complete _ _ Ht x Hx Hc) as Hexp. pose proof (tk_last _ _ Ht x Hx Hc) as Hlast.
  pose proof (tk_inside _ _ Ht x Hx Hc) as Hin. fold o fpc in Hin, Hexp. unfold is_u32 in Hu.
  assert (Hmul : 0 <= col x * fpc <= 4294967295 * 65536) by nia.
  unfold span_end_frame, apta_expected_column_frames in *. fold fpc in Hexp |- *.
  rewrite (u64_small (col x + 1)), (u64_small ((col x + 1) * fpc)) by (unfold is_u64; nia).
  rewrite (u64_small (col x * fpc)) in Hexp by (unfold is_u64; lia). cbv zeta in Hexp.
  pose proof (tk_end _ _ Ht) as Hend. pose proof (tk_total _ _ Ht) as Htot. fold o in Hend. unfold is_u64 in Htot.
  split; [lia|]. destruct (ov_end_of_input_signalled o); cbn [negb] in Hexp.
  - destruct (Hend eq_refl) as [Hk Hfe]. specialize (Hin Hk). rewrite <- Hfe in *.
    destruct (Z.leb_spec (sn_total_frames session) (col x * fpc)); [lia|].
    unfold apta_min_frame. destruct (Z.ltb_spec ((col x + 1) * fpc) (sn_total_frames session)).
    + split; [by left|]. split; [lia|]. split; [lia|done].
    + split; [|split; [lia|split; [lia|done]]].
      destruct (Z.eq_dec (sn_total_frames session) ((col x + 1) * fpc)); [by left|right]. split; [done|]. split; [done|]. lia.
  - rewrite Hexp in *. split; [by left|]. split; [lia|]. split; [intros Hk; specialize (Hin Hk); lia|done].
Qed.

Lemma required_columns_above t f q : 1 <= f -> q * f < t -> q + 1 <= required_columns t f.
Proof.
  intros Hf Hq. unfold required_columns. pose proof (Z.div_mod t f ltac:(lia)). pose proof (Z.mod_pos_bound t f ltac:(lia)).
  destruct (Z.eqb_spec (t mod f) 0); nia.
Qed.

Lemma required_columns_last t f q : 1 <= f -> q * f < t <= (q + 1) * f -> required_columns t f = q + 1.
Proof.
  intros Hf Hq. unfold required_columns. pose proof (Z.div_mod t f ltac:(lia)). pose proof (Z.mod_pos_bound t f ltac:(lia)).
  destruct (Z.eqb_spec (t mod f) 0); nia.
Qed.

Lemma k_extent_ge l s : s ∈ l -> k_end_column s <= k_extent l.
Proof.
  unfold k_extent. induction l as [|y l IH]; [by intros ?%elem_of_nil|].
  intros [->|Hs]%elem_of_cons; simpl; [lia|]. apply IH in Hs. lia.
Qed.

Section Validity.
Context (session : snapshot_input) (m : list column) (r : apta_result_t).
Context (Hm : measuring (sn_overview session) m) (Ht : track_ok session m) (Hs : source_ok r).
Context (Htotal : res_total_source_frames r = sn_total_frames session).
Context (Hfew : Forall few_samples m) (Hsome : number_complete m <> 0%nat).
Let o := sn_overview session.
Let fpc := Overview.ov_frames_per_column o.
Let k := content_of (snapshot_of session m r).

Lemma fpc_range : 1 <= fpc <= 65536.
Proof. apply (me_frames _ _ Hm). Qed.

Lemma all_consecutive : Forall consecutive (runs m).
Proof. apply runs_consecutive; apply (me_shape _ _ Hm). Qed.

(** A run: columns [c] to [c + n - 1]. *)
Record run_at (run : list column) (c n : Z) : Prop := {
  ra_count : 1 <= n /\ zlen run = n;
  ra_first : 0 <= c /\ c + n <= UINT32_MAX;
  ra_content : run_content o run =
    {| k_first := c * fpc; k_end := span_end_frame o (c + n - 1); k_first_column := c;
       k_columns := map (stored (has_bands o)) run |};
  ra_last : exists x, x ∈ m /\ ac_complete x.1 = true /\ col x = c + n - 1;
  ra_head : exists x, x ∈ run /\ col x = c;
  ra_elem : forall x, x ∈ run -> c <= col x <= c + n - 1
}.

Lemma run_geometry run : run ∈ runs m -> exists c n, run_at run c n.
Proof.
  intros Hr. pose proof all_consecutive as Hall. rewrite Forall_forall in Hall.
  destruct (consecutive_last run (Hall run Hr)) as (c & Hmap & Hne & Hl & y & l & Hy & Hyc).
  exists c, (zlen run). pose proof fpc_range as Hf.
  destruct (last_column_elem _ _ Hl) as (x & Hx & Hxc). destruct (run_elem m run x Hr Hx) as [Hxm Hxcm].
  assert (Hyr : y ∈ run) by (rewrite Hy; apply elem_of_cons; by left).
  destruct (run_elem m run y Hr Hyr) as [Hym _].
  pose proof (ts_columns _ _ (me_shape _ _ Hm)) as Hu. rewrite Forall_forall in Hu. pose proof (Hu y Hym) as Huy.
  pose proof (tk_last _ _ Ht x Hxm Hxcm) as Hlast. unfold is_u32 in Huy. unfold zlen.
  assert (1 <= Z.of_nat (length run)) by (rewrite Hy; simpl; lia).
  constructor; try lia; [done| |by exists x|by exists y|].
  - unfold run_content. rewrite Hy at 1 2 3. cbn [span_record sp_first_frame sp_end_frame sp_first_column_index].
    rewrite <- Hy, Hl, Hyc. cbn [default]. rewrite u64_small by (unfold is_u64; fold fpc; nia). done.
  - intros z Hz. assert (Hcz : col z ∈ map col run) by (by apply list_elem_of_fmap_2).
    rewrite Hmap in Hcz. apply elem_of_seqZ in Hcz. lia.
Qed.

Lemma spans_eq : k_spans k = map (run_content o) (runs m).
Proof. apply snapshot_spans. apply all_consecutive. Qed.

Lemma known_iff : k_known k = true <-> known (sn_total_frames session).
Proof.
  unfold k_known, known. cbn [k content_of k_total_frames snapshot_of with_overview res_total_source_frames].
  rewrite Htotal. destruct (Z.eqb_spec (sn_total_frames session) APTA_TOTAL_FRAMES_UNKNOWN); simpl; split; congruence.
Qed.

Lemma logical_known : known (sn_total_frames session) -> k_logical k = required_columns (sn_total_frames session) fpc.
Proof.
  intros Hk. unfold k_logical. rewrite (proj2 known_iff Hk).
  cbn [k content_of k_total_frames k_origin k_frames_per_column snapshot_of with_overview res_total_source_frames res_overview view_of
    ov_origin_frame Wovr.ov_frames_per_column]. by rewrite Htotal, Z.sub_0_r.
Qed.

Lemma logical_unknown : ~ known (sn_total_frames session) -> k_logical k = k_extent (k_spans k).
Proof.
  intros Hk. unfold k_logical. destruct (k_known k) eqn:E; [|done]. exfalso. by apply Hk, known_iff.
Qed.

Lemma run_end run c n : run_at run c n ->
  c * fpc < span_end_frame o (c + n - 1) /\ span_end_frame o (c + n - 1) <= (c + n) * fpc /\
  (known (sn_total_frames session) ->
     span_end_frame o (c + n - 1) <= sn_total_frames session /\ c + n <= required_columns (sn_total_frames session) fpc) /\
  (span_end_frame o (c + n - 1) = (c + n) * fpc \/
   known (sn_total_frames session) /\ span_end_frame o (c + n - 1) = sn_total_frames session /\
   c + n = required_columns (sn_total_frames session) fpc /\ sn_total_frames session < (c + n) * fpc).
Proof.
  intros [[R1 _] [R2 _] _ (x & Hx & Hc & Hxc) _ _]. pose proof fpc_range as Hf.
  destruct (column_end session m x Hm Ht Hx Hc) as (E1 & E2 & E3 & E4 & _). fold o fpc in E2, E3, E4. rewrite Hxc in *.
  replace (c + n - 1 + 1) with (c + n) in E2 by lia.
  assert (Hle : c * fpc <= (c + n - 1) * fpc) by nia.
  assert (Hq : (c + n - 1) * fpc = (c + n) * fpc - fpc) by lia.
  split; [lia|]. split; [destruct E2 as [->|(_ & -> & ?)]; lia|]. split.
  - intros Hk. specialize (E4 Hk). split; [done|].
    pose proof (required_columns_above (sn_total_frames session) fpc (c + n - 1) ltac:(lia) ltac:(lia)). lia.
  - destruct E2 as [E2|(Hk & E2 & E5)]; [by left|right]. split; [done|]. split; [done|]. split; [|done].
    rewrite (required_columns_last _ _ (c + n - 1)) by lia. lia.
Qed.

Lemma run_end_column run c n : run_at run c n -> k_end_column (run_content o run) = c + n.
Proof.
  intros [[_ R1] _ -> _ _ _]. unfold k_end_column. cbn [k_first_column k_columns]. unfold zlen in *. rewrite length_map. lia.
Qed.

Lemma logical_range : 1 <= k_logical k <= UINT32_MAX /\ Forall (fun s => k_end_column s <= k_logical k) (k_spans k).
Proof.
  rewrite spans_eq. assert (Hex : exists run, run ∈ runs m).
  { destruct (runs m) as [|run l] eqn:E; [|exists run; apply elem_of_cons; by left]. exfalso.
    pose proof (split_runs_concat [] (complete_columns m)) as Hc. fold (runs m) in Hc. rewrite E in Hc. simpl in Hc.
    apply Hsome. rewrite <- length_complete, <- Hc. done. }
  destruct Hex as [run Hrun]. destruct (run_geometry run Hrun) as (c & n & Hra).
  destruct (decide (sn_total_frames session = APTA_TOTAL_FRAMES_UNKNOWN)) as [Hu|Hk].
  - assert (Hnk : ~ known (sn_total_frames session)) by (unfold known; tauto). rewrite logical_unknown, spans_eq by done. split.
    + pose proof (k_extent_ge (map (run_content o) (runs m)) (run_content o run) (list_elem_of_fmap_2 _ _ _ Hrun)) as Hge.
      rewrite (run_end_column _ _ _ Hra) in Hge. destruct Hra as [[? _] [? ?] _ _ _ _]. split; [lia|].
      apply k_extent_bound; [|lia]. apply Forall_map, Forall_forall. intros run' Hr'.
      destruct (run_geometry run' Hr') as (c' & n' & Hra'). simpl. rewrite (run_end_column _ _ _ Hra'). destruct Hra'. lia.
    + apply Forall_forall. intros s Hsp. by apply k_extent_ge.
  - rewrite logical_known by done. pose proof (tk_length _ _ Ht Hk) as Hlen. fold o fpc in Hlen. split.
    + destruct (run_end _ _ _ Hra) as (_ & _ & H2 & _). destruct (H2 Hk). destruct Hra as [[? _] [? ?] _ _ _ _]. lia.
    + apply Forall_map, Forall_forall. intros run' Hr'. destruct (run_geometry run' Hr') as (c' & n' & Hra').
      simpl. rewrite (run_end_column _ _ _ Hra'). by destruct (run_end _ _ _ Hra') as (_ & _ & H2 & _); destruct (H2 Hk).
Qed.

Lemma all_spans_valid : Forall (span_valid true k) (k_spans k).
Proof.
  pose proof logical_range as [_ Hlog]. rewrite spans_eq in *. apply Forall_map. apply Forall_forall. intros run Hrun.
  rewrite Forall_map, Forall_forall in Hlog. specialize (Hlog run Hrun).
  destruct (run_geometry run Hrun) as (c & n & Hra). pose proof (run_end _ _ _ Hra) as (E1 & E2 & E3 & E4).
  pose proof (run_end_column _ _ _ Hra) as Hec. simpl in Hlog. rewrite Hec in Hlog.
  pose proof fpc_range as Hf. pose proof (ra_first _ _ _ Hra) as Hc. pose proof (ra_count _ _ _ Hra) as [Hn _].
  change (span_valid true k (run_content o run)). constructor; rewrite ?Hec; rewrite ?(ra_content _ _ _ Hra); cbn [k_columns k_first_column k_first k_end];
    try (change (k_frames_per_column k) with fpc); try (change (k_origin k) with 0).
  - pose proof all_consecutive as Hall. rewrite Forall_forall in Hall. specialize (Hall run Hrun).
    apply consecutive_ne in Hall. by destruct run.
  - apply Forall_map, Forall_forall. intros x Hx. destruct (run_elem m run x Hrun Hx) as [Hxm Hxc].
    pose proof (me_columns _ _ Hm) as Hok. rewrite Forall_forall in Hok. rewrite Forall_forall in Hfew.
    apply stored_valid; [by apply Hok|by apply Hfew|done].
  - lia.
  - lia.
  - done.
  - lia.
  - nia.
  - rewrite Z.add_0_l. destruct E4 as [->|(Hk & -> & E5 & E6)]; [by left|right].
    split; [by apply known_iff|]. change (k_total_frames k) with (res_total_source_frames r). rewrite Htotal.
    rewrite logical_known by done. done.
  - intros Hk. change (k_total_frames k) with (res_total_source_frames r). rewrite Htotal. apply E3. by apply known_iff.
Qed.

Lemma sorted_runs l frame column : Forall (fun run => run ∈ runs m) l -> columns_sorted (concat l) ->
  (forall x, x ∈ concat l -> column <= col x /\ frame <= col x * fpc) ->
  sorted_from frame column (map (run_content o) l).
Proof.
  revert frame column. induction l as [|run l IH]; intros frame column Hin Hsort Hlow; [done|]. cbn [map sorted_from].
  apply Forall_cons in Hin as [Hr Hin]. destruct (run_geometry run Hr) as (c & n & Hra).
  destruct (run_end _ _ _ Hra) as (E1 & E2 & _). pose proof (run_end_column _ _ _ Hra) as Hec.
  simpl in Hsort. apply columns_sorted_app in Hsort as (S1 & S2 & S3). pose proof fpc_range as Hf.
  pose proof (ra_head _ _ _ Hra) as (x & Hx & Hxc). destruct (Hlow x) as [L1 L2]; [simpl; apply elem_of_app; by left|].
  rewrite Hec, (ra_content _ _ _ Hra). cbn [k_first k_first_column k_end]. rewrite Hxc in L1, L2. split; [done|]. split; [done|].
  apply IH; [done|done|]. intros y Hy.
  assert (Hgt : c + n - 1 < col y).
  { pose proof all_consecutive as Hall. rewrite Forall_forall in Hall.
    destruct (consecutive_last run (Hall run Hr)) as (c' & Hmap & Hne & Hl & _).
    destruct (last_column_elem _ _ Hl) as (z & Hz & Hzc). specialize (S3 z y Hz Hy).
    pose proof (ra_elem _ _ _ Hra) as Hel. pose proof (ra_count _ _ _ Hra) as [Hn Hnr]. unfold zlen in Hnr.
    assert (c' = c); [|lia].
    assert (Hxin : col x ∈ map col run) by (by apply list_elem_of_fmap_2). rewrite Hmap in Hxin. apply elem_of_seqZ in Hxin.
    assert (Hc'in : c' ∈ map col run) by (rewrite Hmap; apply elem_of_seqZ; lia).
    apply list_elem_of_fmap in Hc'in as (w & Hw & Hwr). apply Hel in Hwr. lia. }
  split; [lia|]. nia.
Qed.

Lemma packed_eq : k_packed (k_spans k) = Z.of_nat (number_complete m).
Proof.
  rewrite spans_eq, <- length_complete. pose proof (split_runs_concat [] (complete_columns m)) as Hc. fold (runs m) in Hc.
  simpl in Hc. rewrite <- Hc. clear. unfold k_packed. induction (runs m) as [|run l IH]; [done|].
  simpl. rewrite IH, length_app. unfold zlen. rewrite length_map. lia.
Qed.

Lemma state_cases : ov_state (res_overview (snapshot_of session m r)) = overview_state (covers_track o m) (sn_state session).
Proof. done. Qed.

Lemma final_covered : k_state k = APTA_FEATURE_FINAL -> ov_end_of_input_signalled o = true /\
  exists run, runs m = [run] /\ k_first (run_content o run) = 0 /\ k_end (run_content o run) = ov_final_end_frame o.
Proof.
  change (k_state k) with (overview_state (covers_track o m) (sn_state session)). unfold overview_state.
  destruct (covers_track o m) eqn:E; cbn [andb]; [|done]. intros _. unfold covers_track in E.
  apply andb_true_iff in E as [E1 E2]. split; [done|]. destruct (runs m) as [|run [|run2 l]]; [done| |done].
  exists run. split; [done|]. unfold run_content. cbn [k_first k_end]. lia.
Qed.

Lemma snapshot_valid : valid true k.
Proof.
  pose proof fpc_range as Hf. pose proof logical_range as [Hlog _]. pose proof (tk_total _ _ Ht) as Htot.
  pose proof (ts_capacity _ _ (me_shape _ _ Hm)) as Hcap. pose proof (rp_count _ _ (ts_represents _ _ (me_shape _ _ Hm))) as Hcnt.
  pose proof (number_complete_le m) as Hnc. pose proof (runs_length_le m) as Hrl.
  assert (Hstate : APTA_FEATURE_PARTIAL <= k_state k <= APTA_FEATURE_FINAL).
  { change (k_state k) with (overview_state (covers_track o m) (sn_state session)). unfold overview_state.
    destruct (_ && _), (covers_track o m); unfold APTA_FEATURE_PARTIAL, APTA_FEATURE_STABLE, APTA_FEATURE_FINAL; lia. }
  assert (Hne : k_spans k <> []).
  { rewrite spans_eq. destruct (runs m) as [|run l] eqn:E; [|done]. exfalso. apply Hsome.
    pose proof (split_runs_concat [] (complete_columns m)) as Hc. fold (runs m) in Hc. rewrite E in Hc. simpl in Hc.
    by rewrite <- length_complete, <- Hc. }
  assert (Hend : k_state k = APTA_FEATURE_FINAL -> known (sn_total_frames session) /\
            sn_total_frames session = ov_final_end_frame o).
  { intros Hfin. destruct (final_covered Hfin) as [He _]. by apply (tk_end _ _ Ht). }
  constructor; try exact Hstate; try apply Hs; try exact Hlog.
  - change (k_total_frames k) with (res_total_source_frames r). by rewrite Htotal.
  - change (k_level_id k) with 0. unfold is_u32. lia.
  - change (k_frames_per_column k) with fpc. lia.
  - change (k_origin k) with 0. unfold is_u64. lia.
  - intros Hcase. change (k_partial k) with (any (layout_container_flags (snapshot_of session m r)) APTA_CONTAINER_FLAG_PARTIAL_RESULT).
    unfold layout_container_flags. rewrite state_cases.
    change (res_total_source_frames (snapshot_of session m r)) with (res_total_source_frames r). rewrite Htotal.
    destruct (Z.eqb_spec (sn_total_frames session) APTA_TOTAL_FRAMES_UNKNOWN) as [Hu|Hu].
    + by destruct (negb _ || negb _).
    + destruct Hcase as [Hcase|Hcase].
      * change (k_state k) with (overview_state (covers_track o m) (sn_state session)) in Hcase.
        destruct (Z.eqb_spec (overview_state (covers_track o m) (sn_state session)) APTA_FEATURE_FINAL); [done|]. by cbn [negb orb].
      * exfalso. assert (k_known k = true) by by apply known_iff. congruence.
  - intros Hfin. apply known_iff. by apply Hend.
  - intros _. change (k_origin k) with 0. change (k_total_frames k) with (res_total_source_frames r). rewrite Htotal. apply Htot.
  - split; [exact Hne|]. rewrite spans_eq. unfold zlen. rewrite length_map. lia.
  - rewrite packed_eq. lia.
  - exact all_spans_valid.
  - rewrite spans_eq. pose proof (split_runs_concat [] (complete_columns m)) as Hc. fold (runs m) in Hc. simpl in Hc.
    apply sorted_runs; [by apply Forall_forall| |].
    + rewrite Hc. apply complete_sorted. apply (me_shape _ _ Hm).
    + intros x Hx. rewrite Hc in Hx. apply complete_elem in Hx as [Hx _].
      pose proof (ts_columns _ _ (me_shape _ _ Hm)) as Hu. rewrite Forall_forall in Hu. specialize (Hu x Hx).
      unfold is_u32 in Hu. split; [lia|]. nia.
  - intros Hfin. destruct (final_covered Hfin) as (_ & run & Er & F1 & F2). destruct (Hend Hfin) as [Hk Hfe].
    assert (Hrun : run ∈ runs m) by (rewrite Er; apply elem_of_cons; by left).
    destruct (run_geometry run Hrun) as (c & n & Hra). pose proof (run_end_column _ _ _ Hra) as Hec.
    destruct (run_end _ _ _ Hra) as (E1 & E2 & E3 & E4). rewrite spans_eq, Er. cbn [map contiguous_from]. rewrite Hec.
    change (k_origin k) with 0. change (k_total_frames k) with (res_total_source_frames r). rewrite Htotal.
    rewrite (ra_content _ _ _ Hra) in F1, F2 |- *. cbn [k_first k_end k_first_column] in *.
    rewrite logical_known by done. split; [lia|]. split; [nia|]. split; [lia|].
    destruct E4 as [E4|(_ & _ & -> & _)]; [|done]. symmetry.
    rewrite (required_columns_last _ _ (c + n - 1)); [lia|lia|]. rewrite Hfe, <- F2, E4.
    replace (c + n - 1 + 1) with (c + n) by lia. nia.
Qed.

Lemma stored_typed : Forall column_typed (map (stored (has_bands o)) (complete_columns m)).
Proof.
  apply Forall_map, Forall_forall. intros x Hx. apply complete_elem in Hx as [Hxm Hxc].
  pose proof (me_columns _ _ Hm) as Hok. rewrite Forall_forall in Hok. rewrite Forall_forall in Hfew.
  by apply (stored_valid (has_bands o) x (Hok x Hxm) (Hfew x Hxm) Hxc).
Qed.

Lemma record_typed columns l base : Forall (fun run => run ∈ runs m) l -> Z.of_nat (base + length (concat l)) <= UINT32_MAX ->
  (base + length (concat l) <= length columns)%nat -> Forall (span_typed columns) (span_records o base l).
Proof.
  revert base. induction l as [|run l IH]; intros base Hin Hb Hle; [constructor|]. cbn [span_records concat] in *.
  rewrite length_app in *. apply Forall_cons in Hin as [Hr Hin].
  destruct (run_geometry run Hr) as (c & n & Hra). destruct (run_end _ _ _ Hra) as (E1 & E2 & _).
  constructor; [|apply IH; [done|lia|lia]]. pose proof (ra_content _ _ _ Hra) as Hcont.
  pose proof (ra_first _ _ _ Hra) as Hc. pose proof (ra_count _ _ _ Hra) as [Hn Hz]. pose proof fpc_range as Hf.
  destruct run as [|x run]; [unfold zlen in Hz; simpl in Hz; lia|]. unfold run_content in Hcont. cbn [span_record] in *.
  cbn [sp_first_frame sp_end_frame sp_first_column_index] in Hcont. injection Hcont as C1 C2 C3.
  unfold span_typed. cbn [sp_first_frame sp_end_frame sp_first_column_index sp_column_count sp_columns].
  rewrite C1, C2, C3. unfold is_u64, is_u32. split; [nia|]. split; [nia|]. split; [lia|]. split; [simpl in *; lia|].
  rewrite Nat2Z.id. simpl in *. lia.
Qed.

Lemma snapshot_typed : result_typed (snapshot_of session m r).
Proof.
  pose proof fpc_range as Hf. pose proof (tk_total _ _ Ht) as Htot. rewrite <- Htotal in Htot.
  pose proof (ts_capacity _ _ (me_shape _ _ Hm)) as Hcap. pose proof (rp_count _ _ (ts_represents _ _ (me_shape _ _ Hm))) as Hcnt.
  pose proof (number_complete_le m) as Hnc. pose proof (runs_length_le m) as Hrl.
  pose proof (so_rate _ Hs). pose proof (so_channels _ Hs). pose proof (so_layout _ Hs). unfold is_u16 in *.
  assert (Hconc : concat (runs m) = complete_columns m) by (unfold runs; by rewrite split_runs_concat).
  constructor; try apply Hs; try exact Htot; try (unfold is_u32; simpl; lia).
  - unfold is_u32. change (0 <= fpc <= UINT32_MAX). lia.
  - unfold is_u64. simpl. lia.
  - unfold is_u32. change (0 <= overview_state (covers_track o m) (sn_state session) <= UINT32_MAX). unfold overview_state.
    destruct (_ && _), (covers_track o m); by vm_compute.
  - apply stored_typed.
  - intros spans [= <-]. split; [simpl; unfold zlen; rewrite length_span_records; lia|].
    cbn [snapshot_of with_overview res_overview_columns].
    apply record_typed; [by apply Forall_forall|rewrite Hconc, length_complete; lia|].
    rewrite Hconc, length_map. done.
Qed.

Lemma records_have_columns base l : Forall (fun run => run <> []) l ->
  Forall (fun s => is_Some (sp_columns s)) (span_records o base l).
Proof.
  revert base. induction l as [|run l IH]; intros base Hne; [constructor|]. apply Forall_cons in Hne as [H1 H2].
  constructor; [|by apply IH]. destruct run; [done|]. by eexists.
Qed.

Lemma snapshot_serializable : serializable true (snapshot_of session m r).
Proof.
  constructor; [exact snapshot_typed|exact snapshot_valid| |by eexists|].
  - change (any (Z.lor (ri_available_features (res_info r)) (snapshot_features (ov_requested_features o)))
      APTA_FEATURE_WAVEFORM_OVERVIEW = true).
    unfold any, snapshot_features. rewrite Z.land_lor_distr_l.
    set (f := if any _ APTA_FEATURE_CONFIDENCE then _ else _).
    assert (E : Z.land f APTA_FEATURE_WAVEFORM_OVERVIEW = 1).
    { unfold f. by destruct (any _ APTA_FEATURE_WAVEFORM_3BAND), (any _ APTA_FEATURE_CONFIDENCE). }
    rewrite E. apply negb_true_iff, Z.eqb_neq. intros H. apply Z.lor_eq_0_iff in H as [_ H]. lia.
  - change (result_spans (snapshot_of session m r))
      with (take (Z.to_nat (Z.of_nat (length (runs m)))) (span_records o 0 (runs m))).
    rewrite Nat2Z.id, take_ge by (by rewrite length_span_records). apply records_have_columns.
    eapply Forall_impl; [exact all_consecutive|]. apply consecutive_ne.
Qed.

End Validity.

(** ** Maximality *)

(** No run continues the one before it. *)
Fixpoint separated (previous : option Z) (l : list (list column)) : Prop :=
  match l with
  | [] => True
  | run :: l =>
      (forall p x, previous = Some p -> head run = Some x -> col x <> p + 1) /\ separated (last_column run) l
  end.

Lemma split_runs_separated previous current l : Forall (fun x => is_u32 (col x)) l ->
  (current = [] -> previous = None) ->
  (forall p x, previous = Some p -> head current = Some x -> col x <> p + 1) ->
  separated previous (split_runs current l).
Proof.
  revert previous current. induction l as [|x l IH]; intros previous current Hu Hnone Hhead; simpl.
  - by destruct current.
  - apply Forall_cons in Hu as [Hx Hu]. destruct (starts_span (last_column current) x.1) eqn:E.
    + destruct current as [|y current]; simpl.
      * apply IH; [done|done|]. intros p z Hp. by rewrite (Hnone eq_refl) in Hp.
      * split; [exact Hhead|]. apply IH; [done|done|]. intros p z Hp [= <-] Hz.
        rewrite Hp in E. simpl in E. apply negb_true_iff, Z.eqb_neq in E. change (ac_column_index x.1) with (col x) in E.
        apply E. rewrite <- Hz. symmetry. by apply u32_small.
    + apply IH; [done|by destruct current|]. intros p z Hp Hz. apply (Hhead p z Hp).
      destruct current; [done|]. done.
Qed.

(** C6. A snapshot either runs out of memory and leaves the result alone, or succeeds:
    its two passes stay inside the arrays it allocated, its spans are exactly the
    maximal runs of consecutive complete columns of the table, each column stored as
    the quantisers say, and the result is one the writer accepts -- typed, valid under
    the strict rules of the format, a final overview covering the whole track. *)
Theorem snapshot_correct `{PlatformLaws} (allocate : nat -> Z -> bool) (session : snapshot_input)
    (m : list column) (r : apta_result_t)
    (Hmeasuring : measuring (sn_overview session) m) (Htrack : track_ok session m) (Hsource : source_ok r)
    (Htotal : res_total_source_frames r = sn_total_frames session)
    (Hfew : Forall few_samples m) (Hsome : number_complete m <> 0%nat)
    (Hwanted : any (ov_requested_features (sn_overview session)) APTA_FEATURE_WAVEFORM_OVERVIEW = true) :
  exists o' r' status,
    apta_internal_waveform_build_snapshot allocate session r = Ret (o', r', status) /\ table_shape o' m /\
    (out_of_memory status /\ r' = r \/
     status = APTA_STATUS_OK /\ serializable true r' /\
     k_spans (content_of r') = map (run_content (sn_overview session)) (runs m) /\
     concat (runs m) = complete_columns m /\ Forall consecutive (runs m) /\ separated None (runs m)).
Proof.
  destruct (build_snapshot_spec allocate session m r (me_shape _ _ Hmeasuring) (me_columns _ _ Hmeasuring) Hfew)
    as (j & r' & status & Hj & E & Hcase).
  exists (counted j (sn_overview session)), r', status. split; [exact E|]. split.
  { clear -Hmeasuring. induction j as [|j IH]; [apply (me_shape _ _ Hmeasuring)|]. simpl. by destruct IH as [[] ? ? ? ? ? ?]. }
  rewrite Hwanted in Hcase. destruct (Nat.eqb_spec (number_complete m) 0); [done|]. cbn [negb orb] in Hcase.
  destruct Hcase as [[-> ->]|Hcase]; [right|by left]. split; [done|].
  pose proof (all_consecutive session m Hmeasuring) as Hall.
  split; [by apply snapshot_serializable|]. split; [by apply snapshot_spans|].
  split; [unfold runs; by rewrite split_runs_concat|]. split; [done|]. apply split_runs_separated; [|done|done].
  pose proof (ts_columns _ _ (me_shape _ _ Hmeasuring)) as Hu. rewrite Forall_forall in Hu |- *.
  intros x Hx. apply Hu. by apply complete_elem in Hx as [Hx _].
Qed.

(** ** A concrete snapshot *)

Import LP64.

(** Column [c] with [n] samples between zero and one half. *)
Definition half_column (c n : Z) (complete : bool) : column :=
  ({| ac_column_index := c; ac_sample_count := n; ac_sum_squares := 0; ac_minimum := f32_zero; ac_maximum := f32_half;
      ac_clipped := false; ac_complete := complete |}, (0, 0, 0)).

(** Columns 0, 1 and 3 are complete, column 5 is not. *)
Definition gap_columns : list column :=
  [half_column 0 64 true; half_column 1 64 true; half_column 3 64 true; half_column 5 12 false].

Definition gap_overview : overview :=
  {| ov_accumulators := map fst gap_columns; ov_count := 4; ov_capacity := 4; ov_complete_count := 3;
     ov_band_sums := None; ov_filter := zero_filter; Overview.ov_frames_per_column := 64;
     ov_requested_features := APTA_FEATURE_WAVEFORM_OVERVIEW;
     ov_end_of_input_signalled := false; ov_final_end_frame := APTA_TOTAL_FRAMES_UNKNOWN; ov_allocations := 3 |}.

Definition gap_session : snapshot_input :=
  {| sn_overview := gap_overview; sn_total_frames := APTA_TOTAL_FRAMES_UNKNOWN; sn_state := APTA_SESSION_ACTIVE |}.

Lemma gap_measuring : measuring gap_overview gap_columns.
Proof.
  constructor; [|split; exact I|simpl; lia|].
  - constructor; simpl; try done; try lia.
    + constructor; simpl; [by exists []|done|by repeat constructor].
    + by left.
    + unfold columns_sorted. simpl. repeat constructor.
    + apply Forall_forall. intros x Hx. unfold gap_columns in Hx.
      repeat (apply elem_of_cons in Hx as [->|Hx]; [unfold is_u32, col; simpl; lia|]). by apply elem_of_nil in Hx.
  - assert (H0 : finite_float f32_zero) by by split. assert (H1 : finite_float f32_half) by by split; vm_compute.
    assert (Hle : fval 24 128 f32_zero <= fval 24 128 f32_half) by by vm_compute.
    repeat (constructor; [split; [unfold counters_ok; simpl; lia|]; split; [exact H0|split; [exact H1|]];
      split; [intros _; exact Hle|simpl; (lia || done)]|]). constructor.
Qed.

Lemma gap_track : track_ok gap_session gap_columns.
Proof.
  constructor; simpl.
  - unfold is_u64, APTA_TOTAL_FRAMES_UNKNOWN. lia.
  - intros Hk. by destruct Hk.
  - done.
  - intros x Hx Hc. unfold gap_columns in Hx.
    repeat (apply elem_of_cons in Hx as [->|Hx]; [done|]). by apply elem_of_nil in Hx.
  - intros x _ _ Hk. by destruct Hk.
  - intros x Hx _. unfold gap_columns in Hx.
    repeat (apply elem_of_cons in Hx as [->|Hx]; [vm_compute; done|]). by apply elem_of_nil in Hx.
Qed.

(** A result before its snapshot. *)
Definition empty_result : apta_result_t :=
  {| res_info :=
       {| ri_specification_major := APTA_SPEC_VERSION_MAJOR; ri_specification_minor := APTA_SPEC_VERSION_MINOR;
          ri_producer_api_version := APTA_API_VERSION; ri_container_version := 0; ri_generation := 2;
          ri_available_features := 0; ri_changed_features := 1; ri_session_state := APTA_SESSION_ACTIVE |};
     res_source_info :=
       {| si_total_frames := APTA_TOTAL_FRAMES_UNKNOWN; si_sample_rate := 48000; si_channel_count := 1;
          si_channel_layout := 1; si_fingerprint_kind := 0; si_fingerprint := replicate 32 0 |};
     res_total_source_frames := APTA_TOTAL_FRAMES_UNKNOWN; res_source_sample_rate := 48000;
     res_source_channel_count := 1; res_source_channel_layout := 1;
     res_overview :=
       {| ov_level_id := 0; Wovr.ov_frames_per_column := 0; ov_origin_frame := 0; ov_state := 0; ov_confidence := 0;
          ov_span_count := 0; ov_spans := None |};
     res_overview_columns := [] |}.

Lemma empty_source : source_ok empty_result.
Proof.
  constructor; simpl; try (unfold is_u16, is_u32; lia).
  split; [done|]. apply (bool_decide_unpack _). by vm_compute.
Qed.

Lemma snapshot_correct_witness :
  exists o' r',
    apta_internal_waveform_build_snapshot (fun _ _ => true) gap_session empty_result = Ret (o', r', APTA_STATUS_OK) /\
    serializable true r' /\
    map (fun s => (k_first s, k_end s, k_first_column s, map wc_maximum (k_columns s))) (k_spans (content_of r')) =
      [(0, 128, 0, [16384; 16384]); (192, 256, 3, [16384])].
Proof.
  destruct (snapshot_correct (fun _ _ => true) gap_session gap_columns empty_result gap_measuring gap_track empty_source
    eq_refl ltac:(repeat (constructor; [unfold few_samples; simpl; lia|]); constructor) ltac:(done) eq_refl)
    as (o' & r' & status & E & _ & Hcase).
  destruct Hcase as [[[-> | ->] _]|(-> & Hz & Hk & _)]; [vm_compute in E; discriminate|vm_compute in E; discriminate|].
  exists o', r'. split; [exact E|]. split; [exact Hz|]. rewrite Hk. vm_compute. reflexivity.
Defined.
