(* ===== verification/SessionInvariant.v ===== *)
(** * What holds of a session between calls

    The pipeline's law ties every column to the frames the host pushed; the current
    result shows the session's state and generation and can be written to a file. *)

From stdpp Require Import gmap.
From Stdlib Require Import Floats.SpecFloat.
From S2P Require Import Prelude Platform FloatFacts Samples Ranges AcceptPcm SampleTheorems Bytes Wovr WovrSpec.
From S2P Require Import Scheduler Overview OverviewTable OverviewMeasure Quantize Snapshot SnapshotFill.
From S2P Require Import Publish PublishTheorems Process ProcessTheorems Coverage ProcessCall ProcessOrder ProcessOrderTheorems.
From S2P Require Import Session WovrWriterTheorems SnapshotTheorems.

(** ** The invariant *)

(** A configuration [apta_session_create] accepts, with fields of their widths. *)
Record config_ok (c : apta_session_config_t) : Prop := {
  co_rate : 1 <= cfg_source_sample_rate c <= UINT32_MAX;
  co_channels : 1 <= cfg_channel_count c <= 8;
  co_overview : any (cfg_requested_features c) APTA_FEATURE_WAVEFORM_OVERVIEW = true -> cfg_channel_count c <= 2;
  co_layout : is_u16 (cfg_channel_layout c);
  co_kind : is_u32 (cfg_source_fingerprint_kind c);
  co_fingerprint : length (cfg_source_fingerprint c) = 32%nat /\ bytes_ok (cfg_source_fingerprint c);
  co_identity : apta_internal_source_identity_is_valid (Some c) = true;
  co_total : is_u64 (cfg_total_frames c)
}.

Definition fpc_of (s : session) : Z := ov_frames_per_column (se_overview s).
Definition accepted (s : session) (f : Z) : Prop := covered (accepted_ranges (se_coverage s)) f.

(** The columns of the session are those of the list [m]. *)
Record session_valid (s : session) (m : list column) : Prop := {
  sv_pipeline : pipeline (se_waveform s) m;
  sv_publication : publication_ok (se_publication s);
  sv_input : input_ok (session_input s);
  sv_exact : forall d, load (se_waveform s) m d = frames_of (se_coverage s) (fpc_of s) d;
  sv_config : config_ok (se_config s);
  sv_features : ov_requested_features (se_overview s) = cfg_requested_features (se_config s);
  sv_total : known (cfg_total_frames (se_config s)) ->
    required_columns (cfg_total_frames (se_config s)) (fpc_of s) <= UINT32_MAX /\
    (forall f, accepted s f -> f < cfg_total_frames (se_config s));
  sv_indexable : forall f, accepted s f -> f < UINT32_MAX * fpc_of s;
  sv_end : ov_end_of_input_signalled (se_overview s) = true ->
    known (cfg_total_frames (se_config s)) /\ cfg_total_frames (se_config s) = ov_final_end_frame (se_overview s)
}.

(** A result whose overview, when it has one, a strict writer and reader accept. *)
Definition writable `{Platform} (r : apta_result_t) : Prop :=
  any (ri_available_features (res_info r)) APTA_FEATURE_WAVEFORM_OVERVIEW = true -> serializable true r.

(** The current result is live and shows the generation, the state and the length. *)
Definition shows `{Platform} (p : publication) : Prop :=
  exists a c, pu_current_result p = Some a /\ pu_results p !! a = Some c /\
    let r := rc_result c in
    ri_generation (res_info r) = pu_generation p /\ ri_session_state (res_info r) = pu_state p /\
    res_total_source_frames r = cfg_total_frames (pu_config p) /\ writable r.

(** What calls other than a push leave of the input. *)
Record same_input (s s' : session) : Prop := {
  sm_coverage : se_coverage s' = se_coverage s;
  sm_cancel : se_cancel_requested s' = se_cancel_requested s;
  sm_lock : se_process_lock s' = se_process_lock s;
  sm_pcm : wv_pcm (se_waveform s') = wv_pcm (se_waveform s);
  sm_queued : wv_queued_pcm_frames (se_waveform s') = wv_queued_pcm_frames (se_waveform s)
}.

Lemma same_input_refl s : same_input s s.
Proof. by constructor. Qed.

Lemma valid_fpc s m : session_valid s m -> 1 <= fpc_of s <= 65536.
Proof. intros Hs. apply (me_frames _ _ (pl_measuring _ _ (sv_pipeline _ _ Hs))). Qed.

(** The samples of a column are accepted frames of it. *)
Lemma samples_accepted s m x : session_valid s m -> x ∈ m ->
  ac_sample_count x.1 <= frames_of (se_coverage s) (fpc_of s) (col x).
Proof.
  intros Hs Hx. rewrite <- (sv_exact _ _ Hs). unfold load.
  rewrite (column_of_member m x (ts_sorted _ _ (me_shape _ _ (pl_measuring _ _ (sv_pipeline _ _ Hs)))) Hx).
  cbn [samples_of]. pose proof (pending_in_nonneg (ov_frames_per_column (wv_overview (se_waveform s))) (col x) (wv_pcm (se_waveform s))).
  lia.
Qed.

(** ** Published results *)

Section Publish.
Context `{PlatformLaws}.

Lemma source_of_config p changed : config_ok (pu_config p) -> source_ok (new_result p changed).
Proof. intros [? ? ? ? ? ? Hi ?]. constructor; try done. simpl. lia. Qed.

(** The table of a session is a track a snapshot can show. *)
Lemma track_valid s m o p : session_valid s m -> measuring o m -> same_geometry (se_overview s) o ->
  pu_config p = se_config s -> track_ok (input_of o p) m.
Proof.
  intros Hs Ho Hg Hc. pose proof (valid_fpc _ _ Hs) as Hf. pose proof (sv_total _ _ Hs) as Ht.
  assert (Hpos : forall x, x ∈ m -> ac_complete x.1 = true -> 0 < ac_sample_count x.1).
  { intros x Hx. pose proof (me_columns _ _ Ho) as Hok. rewrite Forall_forall in Hok.
    destruct (Hok x Hx) as [_ (_ & _ & _ & Hpos)]. exact Hpos. }
  assert (Ef : ov_frames_per_column o = fpc_of s) by apply (sg_frames _ _ Hg).
  constructor; cbn [input_of sn_total_frames sn_overview]; rewrite ?Hc, ?Ef.
  - apply (co_total _ (sv_config _ _ Hs)).
  - intros Hk. by apply Ht.
  - rewrite (sg_end _ _ Hg), (sg_final _ _ Hg). apply (sv_end _ _ Hs).
  - intros x Hx Hcx. rewrite (same_geometry_expected _ _ _ Hg). by apply (pl_complete _ _ (sv_pipeline _ _ Hs)).
  - intros x Hx Hcx Hk. pose proof (samples_accepted _ _ _ Hs Hx) as Hle. specialize (Hpos x Hx Hcx).
    pose proof (frames_of_bound (se_coverage s) (fpc_of s) (col x) _ ltac:(lia) (proj2 (Ht Hk))). lia.
  - intros x Hx Hcx. pose proof (samples_accepted _ _ _ Hs Hx) as Hle. specialize (Hpos x Hx Hcx).
    destruct (frames_of_pos (se_coverage s) (fpc_of s) (col x) ltac:(lia) ltac:(lia)) as (f & Hfc & Hcov).
    apply (sv_indexable _ _ Hs) in Hcov. nia.
Qed.

Lemma published_writable s m o p changed : session_valid s m -> measuring o m -> same_geometry (se_overview s) o ->
  pu_config p = se_config s -> writable (published_result o p m changed).
Proof.
  intros Hs Ho Hg Hc. unfold published_result. destruct (has_overview o m) eqn:E; [|done]. intros _.
  unfold has_overview in E. apply andb_true_iff in E as [_ E]. apply negb_true_iff, Nat.eqb_neq in E.
  pose proof (measuring_counted 1 _ _ Ho) as Ho1.
  assert (Hg1 : same_geometry (se_overview s) (counted 1 o)) by (eapply same_geometry_trans; [exact Hg|apply counted_geometry]).
  apply snapshot_serializable; [exact Ho1|by eapply track_valid| |done| |exact E].
  - apply source_of_config. rewrite Hc. apply Hs.
  - apply (pipeline_few (se_waveform s)). apply Hs.
Qed.

Lemma publishes_shows s m o p p' changed : session_valid s m -> measuring o m -> same_geometry (se_overview s) o ->
  pu_config p = se_config s -> publication_ok p' ->
  publishes p p' (published_result o p m changed) -> shows p'.
Proof.
  intros Hs Ho Hg Hc Hok [H1 H2 H3 (a & Ha & _ & Hr) _]. eexists a, _. split; [exact Ha|]. split; [exact Hr|].
  pose proof (pk_generation _ Hok) as Hgen. rewrite H3 in Hgen.
  cbv zeta. cbn [rc_result]. rewrite H1, H2, H3. split_and!.
  - unfold published_result. destruct (has_overview o m); simpl; by rewrite u64_small.
  - unfold published_result. by destruct (has_overview o m).
  - unfold published_result. by destruct (has_overview o m).
  - by eapply published_writable.
Qed.

(** Another table with the same columns, flags apart, and another publication. *)
Lemma valid_same s m s' m' : session_valid s m -> measuring (se_overview s') m' ->
  same_geometry (se_overview s) (se_overview s') -> m' = m \/ m' = map unmarked m ->
  publication_ok (se_publication s') -> se_config s' = se_config s -> same_input s s' -> session_valid s' m'.
Proof.
  intros Hs Ho Hg Hm Hok Hc [I1 _ _ I4 I5].
  destruct (pipeline_published _ _ _ (se_publication s') m' (sv_pipeline _ _ Hs) Ho Hg Hm) as [Hp Hl].
  apply (pipeline_scheduler _ _ (wv_scheduler (se_waveform s'))) in Hp.
  assert (Ew : set_scheduler (set_publication (se_waveform s) (se_overview s') (se_publication s')) (wv_scheduler (se_waveform s'))
               = se_waveform s').
  { unfold set_scheduler, set_publication, se_overview, se_publication. cbn. rewrite <- I4, <- I5. by destruct (se_waveform s'). }
  assert (Ef : fpc_of s' = fpc_of s) by apply (sg_frames _ _ Hg).
  assert (Ea : accepted s' = accepted s) by (unfold accepted; by rewrite I1).
  constructor; rewrite ?Ef, ?Ea, ?Hc, ?I1; try done; try apply Hs.
  - by rewrite <- Ew.
  - unfold input_ok. simpl. rewrite I1. apply (sv_input _ _ Hs).
  - intros d. rewrite <- Ew, <- (sv_exact _ _ Hs). apply Hl.
  - rewrite (sg_features _ _ Hg). apply (sv_features _ _ Hs).
  - rewrite (sg_end _ _ Hg), (sg_final _ _ Hg). apply (sv_end _ _ Hs).
Qed.

Lemma valid_replaced s m o p m' : session_valid s m -> measuring o m' -> same_geometry (se_overview s) o ->
  m' = m \/ m' = map unmarked m -> publication_ok p -> pu_config p = se_config s ->
  session_valid (with_waveform s (set_publication (se_waveform s) o p)) m'.
Proof. intros. by apply (valid_same s m). Qed.

Lemma publication_state_ok p state : publication_ok p -> publication_ok (set_session_state p state).
Proof. intros [H1 H2 H3]. by constructor. Qed.

Lemma valid_state s m state : session_valid s m -> session_valid (with_state s state) m.
Proof.
  intros Hs. apply valid_replaced with m; [done|apply Hs|apply same_geometry_refl|by left| |done].
  apply publication_state_ok, Hs.
Qed.

(** ** Transitions *)

Context (allocate : nat -> Z -> bool).

(** What a publication leaves that could not install a result. *)
Definition unpublished (s s' : session) (m m' : list column) : Prop :=
  se_publication s' = se_publication s /\ (m' = m \/ m' = map unmarked m).

Lemma publish_valid s m changed : session_valid s m ->
  exists s' m' status, publish allocate s changed = Ret (s', status) /\
    session_valid s' m' /\ same_input s s' /\ same_geometry (se_overview s) (se_overview s') /\
    (status = APTA_STATUS_OK /\ m' = m /\ se_config s' = se_config s /\ se_state s' = se_state s /\
       publishes (se_publication s) (se_publication s') (published_result (se_overview s) (se_publication s) m changed) /\
       shows (se_publication s') \/
     is_error status = true /\ unpublished s s' m m').
Proof.
  intros Hs. unfold publish. pose proof (pl_measuring _ _ (sv_pipeline _ _ Hs)) as Hm.
  destruct (publish_spec allocate (se_overview s) (se_publication s) m changed Hm (pipeline_few _ _ (sv_pipeline _ _ Hs))
    (sv_publication _ _ Hs)) as (o & p & m' & status & -> & Ho & Hg & Hok & Hcase). cbn [obind].
  assert (Hm' : m' = m \/ m' = map unmarked m) by intuition.
  assert (Hc : pu_config p = se_config s) by (destruct Hcase as [(_ & _ & Hp)|[(_ & _ & ->)|(_ & _ & ->)]]; [apply Hp|done|done]).
  pose proof (valid_replaced s m o p m' Hs Ho Hg Hm' Hok Hc) as Hv.
  eexists _, m', status. split; [reflexivity|]. split; [exact Hv|]. split; [by constructor|]. split; [exact Hg|].
  destruct Hcase as [(-> & -> & Hp)|[(-> & _ & ->)|(-> & _ & ->)]]; [left|by right|by right].
  split; [done|]. split; [done|]. split; [exact Hc|]. split; [apply (ph_state _ _ _ Hp)|]. split; [exact Hp|].
  by apply (publishes_shows s m (se_overview s) (se_publication s) p changed Hs Hm (same_geometry_refl _)).
Qed.

(** A transition that was made. *)
Definition moved (s s' : session) (state : apta_session_state_t) (m m' : list column) : Prop :=
  apta_session_transition_is_allowed (se_state s) state = true /\ m' = m /\
  se_config s' = se_config s /\ se_state s' = state /\
  pu_generation (se_publication s') = pu_generation (se_publication s) + 1 /\ shows (se_publication s') /\
  exists p, publishes p (se_publication s') (published_result (se_overview s) p m 0) /\ pu_state p = state.

Lemma transition_valid s m state : session_valid s m -> se_state s <> state ->
  exists s' m' status, apta_internal_session_transition allocate s state = Ret (s', status) /\
    session_valid s' m' /\ same_input s s' /\ same_geometry (se_overview s) (se_overview s') /\
    (status = APTA_STATUS_OK /\ moved s s' state m m' \/ is_error status = true /\ unpublished s s' m m').
Proof.
  intros Hs Hne. unfold apta_internal_session_transition.
  destruct (apta_session_transition_is_allowed (se_state s) state) eqn:Ea; cbn [negb].
  2:{ exists s, m, APTA_ERROR_INVALID_STATE. split; [done|]. split; [done|]. split; [by constructor|].
      split; [apply same_geometry_refl|]. right. split; [done|]. split; [done|by left]. }
  rewrite bool_decide_eq_false_2 by done.
  destruct (publish_valid (with_state s state) m 0 (valid_state _ _ _ Hs))
    as (s' & m' & status & -> & Hv & [I1 I2 I3 I4 I5] & Hg & Hcase). cbn [obind].
  destruct Hcase as [(-> & -> & Hc & Hst & Hp & Hshow)|(He & Hp & Hm)].
  - exists s', m, APTA_STATUS_OK. split; [done|]. split; [done|]. split; [by constructor|]. split; [exact Hg|]. left.
    split; [done|]. split; [done|]. split; [done|]. split; [done|]. split; [done|]. split; [apply (ph_generation _ _ _ Hp)|].
    split; [done|]. exists (se_publication (with_state s state)). by split.
  - rewrite He. exists (with_state s' (se_state s)), m', status. split; [done|]. split; [by apply valid_state|].
    split; [by constructor|]. split; [exact Hg|]. right. split; [done|]. split; [|exact Hm].
    change (set_session_state (se_publication s') (se_state s) = se_publication s). rewrite Hp.
    change (se_publication (with_state s state)) with (set_session_state (se_publication s) state).
    unfold se_state. by destruct (se_publication s).
Qed.

End Publish.
