(* ===== verification/SessionFinal.v ===== *)
(** * The final result

    When the whole track was pushed and worked off, the columns are exactly those of the
    track, every one complete, and the result that completes the session shows them. *)

From stdpp Require Import gmap sorting.
From Stdlib Require Import Floats.SpecFloat.
From S2P Require Import Prelude Platform FloatFacts Samples Ranges AcceptPcm SampleTheorems Bytes Wovr WovrSpec.
From S2P Require Import Scheduler Overview OverviewTable OverviewMeasure Quantize Snapshot SnapshotFill.
From S2P Require Import Publish PublishTheorems Process ProcessTheorems Coverage ProcessCall Session.
From S2P Require Import WovrWriterTheorems SnapshotTheorems SessionInvariant.

(** ** One run *)

Lemma split_runs_one current l c : current <> [] -> map col (current ++ l) = seqZ c (Z.of_nat (length (current ++ l))) ->
  Forall (fun x => is_u32 (col x)) (current ++ l) -> split_runs current l = [current ++ l].
Proof.
  revert current. induction l as [|x l IH]; intros current Hne Hm Hu; simpl.
  - rewrite app_nil_r. by destruct current.
  - assert (E : starts_span (last_column current) x.1 = false).
    { destruct current as [|y k _] using rev_ind; [done|]. rewrite last_column_app. simpl. apply negb_false_iff, Z.eqb_eq.
      rewrite <- !app_assoc in *. cbn [app] in *. apply Forall_app in Hu as [_ Hu]. apply Forall_cons in Hu as [_ Hu].
      apply Forall_cons in Hu as [Hu _]. change (ac_column_index x.1) with (col x).
      assert (H : forall i z, (k ++ y :: x :: l) !! i = Some z -> col z = c + Z.of_nat i).
      { intros i z Hi. apply (f_equal (fun l => l !! i)) in Hm. rewrite list_lookup_fmap, Hi in Hm. simpl in Hm.
        symmetry in Hm. apply lookup_seqZ in Hm. lia. }
      pose proof (H (length k) y ltac:(by rewrite lookup_app_r, Nat.sub_diag)) as Hy.
      pose proof (H (S (length k)) x ltac:(rewrite lookup_app_r by lia; by replace (S (length k) - length k)%nat with 1%nat by lia)) as Hx.
      rewrite u32_small; unfold is_u32 in *; lia. }
    rewrite E, IH; rewrite <- ?app_assoc; try done. by destruct current.
Qed.

(** A sorted list of columns with the indices of an interval. *)
Lemma sorted_interval l n : columns_sorted l -> 0 <= n -> (forall z, z ∈ map col l <-> 0 <= z < n) ->
  map col l = seqZ 0 n.
Proof.
  intros Hs Hn Hin. assert (Hanti : AntiSymm (=) Z.lt) by (intros x y; lia).
  assert (Hseq : StronglySorted Z.lt (seqZ 0 n)).
  { clear Hin. revert n Hn. apply natlike_ind; [constructor|]. intros n Hn IH. rewrite <- Z.add_1_r, seqZ_app by lia.
    apply StronglySorted_app. split_and!; [|done|rewrite seqZ_cons by lia; repeat constructor].
    intros x y Hx%elem_of_seqZ Hy%elem_of_seqZ. lia. }
  assert (Hnd : forall k, StronglySorted Z.lt k -> NoDup k).
  { induction 1 as [|x k _ IH Hx]; constructor; [|done]. intros He. rewrite Forall_forall in Hx. specialize (Hx x He). lia. }
  apply (StronglySorted_unique Z.lt); [exact Hs|exact Hseq|]. apply NoDup_Permutation; [by apply Hnd|by apply Hnd|].
  intros z. rewrite Hin, elem_of_seqZ. lia.
Qed.

(** ** The columns of the whole track *)

Section Final.
Context (s : session) (m : list column).
Let final := ov_final_end_frame (se_overview s).
Let n := required_columns final (fpc_of s).
Context (Hs : session_valid s m) (Hexact : flags_exact (se_overview s) m).
Context (Hqueue : wv_pcm (se_waveform s) = []) (Hend : ov_end_of_input_signalled (se_overview s) = true).
Context (Hfinal : 0 < final) (Hall : forall f, 0 <= f < final -> accepted s f).

Lemma final_total : known (cfg_total_frames (se_config s)) /\ cfg_total_frames (se_config s) = final /\ n <= UINT32_MAX.
Proof.
  destruct (sv_end _ _ Hs Hend) as [Hk Hf]. destruct (sv_total _ _ Hs Hk) as [Hr _]. unfold n, final. rewrite <- Hf. done.
Qed.

Lemma final_u64 : is_u64 final.
Proof. apply (pl_final _ _ (sv_pipeline _ _ Hs)). Qed.

Lemma accepted_final f : accepted s f <-> 0 <= f < final.
Proof.
  split; [|apply Hall]. intros Hf. destruct final_total as (Hk & Ht & _). rewrite <- Ht. split; [|by apply (sv_total _ _ Hs)].
  apply (gaps_low _ _ _ (tk_gaps _ (proj1 (sv_input _ _ Hs))) Hf).
Qed.

(** What is counted in a column is what it has of the track. *)
Lemma final_samples d : 0 <= d ->
  samples_of (column_of m d) = Z.max 0 (Z.min final ((d + 1) * fpc_of s) - d * fpc_of s).
Proof.
  intros Hd. pose proof (valid_fpc _ _ Hs) as Hf. pose proof (sv_exact _ _ Hs d) as He.
  unfold load in He. rewrite Hqueue in He. unfold pending_in in He. simpl in He. rewrite Z.add_0_r in He.
  rewrite He. unfold frames_of. rewrite (count_ext _ (fun f => (0 <=? f) && (f <? final))).
  - rewrite count_interval by lia. assert (0 <= d * fpc_of s) by nia. replace ((d + 1) * fpc_of s) with (d * fpc_of s + fpc_of s) by lia. lia.
  - intros f. pose proof (coveredb_spec (accepted_ranges (se_coverage s)) f) as E1. pose proof (accepted_final f) as E2.
    unfold accepted in E2. destruct (coveredb _ f), (Z.leb_spec 0 f), (Z.ltb_spec f final); simpl; try done; exfalso; intuition (lia || done).
Qed.

Lemma expected_final d : is_u32 d ->
  apta_expected_column_frames (se_overview s) d = Z.max 0 (Z.min final ((d + 1) * fpc_of s) - d * fpc_of s).
Proof.
  intros Hd. pose proof (valid_fpc _ _ Hs) as Hf. pose proof final_u64 as Hfin. unfold is_u32, is_u64 in *.
  unfold apta_expected_column_frames. rewrite Hend. cbn [negb]. fold (fpc_of s) final. cbv zeta.
  rewrite (u64_small (d * _)) by (unfold is_u64; nia).
  destruct (Z.leb_spec final (d * fpc_of s)); [rewrite Z.max_l; nia|].
  rewrite u64_small by (unfold is_u64; nia). unfold apta_min_frame.
  destruct (Z.ltb_spec (d * fpc_of s + fpc_of s) final); rewrite u32_small; unfold is_u32; nia.
Qed.

Lemma track_columns z : 0 <= z -> z < n <-> z * fpc_of s < final.
Proof.
  intros Hz. pose proof (valid_fpc _ _ Hs) as Hf. unfold n, required_columns.
  pose proof (Z.div_mod final (fpc_of s) ltac:(lia)). pose proof (Z.mod_pos_bound final (fpc_of s) ltac:(lia)).
  destruct (Z.eqb_spec (final mod fpc_of s) 0); nia.
Qed.

Lemma final_columns : map col (complete_columns m) = seqZ 0 n.
Proof.
  pose proof (valid_fpc _ _ Hs) as Hf. pose proof final_total as (_ & _ & Hn).
  pose proof (pl_measuring _ _ (sv_pipeline _ _ Hs)) as Hm. pose proof (ts_sorted _ _ (me_shape _ _ Hm)) as Hsort.
  pose proof (ts_columns _ _ (me_shape _ _ Hm)) as Hu. rewrite Forall_forall in Hu.
  apply sorted_interval; [by apply complete_sorted|unfold n, required_columns; destruct (_ =? 0); pose proof (Z.div_pos final (fpc_of s)); lia|].
  intros z. split.
  - intros (x & -> & Hx)%list_elem_of_fmap. apply complete_elem in Hx as [Hx Hc]. specialize (Hu x Hx). unfold is_u32 in Hu.
    split; [lia|]. apply track_columns; [lia|]. pose proof (final_samples (col x) ltac:(lia)) as He.
    rewrite (column_of_member m x Hsort Hx) in He. cbn [samples_of] in He.
    pose proof (me_columns _ _ Hm) as Hok. rewrite Forall_forall in Hok. destruct (Hok x Hx) as [_ (_ & _ & _ & Hpos)].
    specialize (Hpos Hc). lia.
  - intros Hz. pose proof (proj1 (track_columns z ltac:(lia)) ltac:(lia)) as Hlt.
    pose proof (final_samples z ltac:(lia)) as He. pose proof (expected_final z ltac:(unfold is_u32; lia)) as Hx.
    assert (Hpos : 0 < samples_of (column_of m z)) by nia. destruct (column_of m z) as [x|] eqn:Ex; [|simpl in Hpos; lia].
    apply column_of_elem in Ex as [Hin <-]. cbn [samples_of] in *. apply list_elem_of_fmap_2, complete_elem. split; [done|].
    destruct (Hexact x Hin) as [_ Hc]. apply Hc; lia.
Qed.

Lemma final_runs : runs m = [complete_columns m].
Proof.
  pose proof final_columns as Hc. pose proof final_total as (_ & _ & Hn). pose proof (valid_fpc _ _ Hs) as Hf.
  pose proof (proj2 (track_columns 0 ltac:(lia)) ltac:(lia)) as Hn0.
  assert (Hlen : Z.of_nat (length (complete_columns m)) = n).
  { apply (f_equal length) in Hc. rewrite length_map, length_seqZ in Hc. lia. }
  unfold runs. destruct (complete_columns m) as [|x l] eqn:E; [simpl in Hlen; lia|]. simpl.
  apply (split_runs_one [x] l 0); [done|cbn [app]; by rewrite Hc, Hlen|]. cbn [app]. rewrite <- E.
  apply Forall_forall. intros y Hy. apply complete_elem in Hy as [Hy _].
  pose proof (ts_columns _ _ (me_shape _ _ (pl_measuring _ _ (sv_pipeline _ _ Hs)))) as Hu. rewrite Forall_forall in Hu. by apply Hu.
Qed.

Lemma final_span k o : same_geometry (se_overview s) o -> k = run_content o (complete_columns m) ->
  k_first k = 0 /\ k_end k = final /\ zlen (k_columns k) = n.
Proof.
  intros [G1 _ G3 G4] ->. pose proof final_columns as Hc. pose proof final_total as (_ & _ & Hn). pose proof (valid_fpc _ _ Hs) as Hf.
  pose proof (proj2 (track_columns 0 ltac:(lia)) ltac:(lia)) as Hn0.
  assert (Hlen : Z.of_nat (length (complete_columns m)) = n).
  { apply (f_equal length) in Hc. rewrite length_map, length_seqZ in Hc. lia. }
  assert (Hcons : consecutive (complete_columns m)).
  { exists 0. rewrite Hlen. split; [|exact Hc]. intros E. rewrite E in Hlen. simpl in Hlen. lia. }
  destruct (consecutive_last _ Hcons) as (c & Hc2 & _ & Hl & x & l & El & Hx).
  assert (Ec : c = 0).
  { rewrite Hc, Hlen, !(seqZ_cons _ n) in Hc2 by lia. by injection Hc2. }
  rewrite Ec in Hl, Hx. rewrite El in *. unfold run_content. cbn [span_record sp_first_frame sp_end_frame k_first k_end k_columns].
  rewrite Hx, Hl, Hlen. cbn [default from_option]. unfold id. split; [done|]. split; [|unfold zlen; rewrite length_map; exact Hlen].
  unfold span_end_frame. rewrite G3, Hend, G4. fold final. change (Overview.ov_frames_per_column o) with (ov_frames_per_column o).
  rewrite G1. fold (fpc_of s). replace (0 + n - 1 + 1) with n by lia.
  assert (Hnf : ~ n * fpc_of s < final) by (intros Hlt; apply track_columns in Hlt; lia).
  rewrite (u64_small n), u64_small by (unfold is_u64; nia). unfold apta_min_frame.
  destruct (Z.ltb_spec (n * fpc_of s) final); lia.
Qed.

(** A result that shows the whole track. *)
Definition whole_track (final columns : Z) (r : apta_result_t) : Prop :=
  any (ri_available_features (res_info r)) APTA_FEATURE_WAVEFORM_OVERVIEW = true /\
  k_state (content_of r) = APTA_FEATURE_FINAL /\
  exists k, k_spans (content_of r) = [k] /\ k_first k = 0 /\ k_end k = final /\ zlen (k_columns k) = columns.

Lemma final_result p changed : wants s APTA_FEATURE_WAVEFORM_OVERVIEW = true -> pu_state p = APTA_SESSION_COMPLETED ->
  whole_track final n (published_result (se_overview s) p m changed).
Proof.
  intros Hw Hst. pose proof final_columns as Hc. pose proof (proj2 (track_columns 0 ltac:(lia)) ltac:(lia)) as Hn0.
  pose proof (sv_pipeline _ _ Hs) as Hp. pose proof (pl_measuring _ _ Hp) as Hm.
  assert (Hnum : number_complete m <> 0%nat).
  { rewrite <- length_complete. apply (f_equal length) in Hc. rewrite length_map, length_seqZ in Hc. lia. }
  assert (Hhas : has_overview (se_overview s) m = true).
  { unfold has_overview. rewrite (sv_features _ _ Hs). unfold wants in Hw. rewrite Hw. cbn [andb].
    by apply negb_true_iff, Nat.eqb_neq. }
  unfold published_result. rewrite Hhas. set (o := count_allocation (se_overview s)).
  assert (Hg : same_geometry (se_overview s) o) by by constructor.
  destruct (final_span _ o Hg eq_refl) as (K1 & K2 & K3). split; [|split].
  - cbn [snapshot_of with_overview res_info ri_available_features]. unfold any. rewrite Z.land_lor_distr_l.
    unfold snapshot_features. by destruct (any _ APTA_FEATURE_WAVEFORM_3BAND), (any _ APTA_FEATURE_CONFIDENCE).
  - change (overview_state (covers_track o m) (pu_state p) = APTA_FEATURE_FINAL). rewrite Hst.
    unfold covers_track. rewrite final_runs. rewrite (sg_end _ _ Hg), Hend, (sg_final _ _ Hg).
    unfold run_content in K1, K2. cbn [k_first k_end] in K1, K2. rewrite K1, K2. fold final. by rewrite !Z.eqb_refl.
  - exists (run_content o (complete_columns m)). split; [|done].
    rewrite snapshot_spans; [cbn [input_of sn_overview]; by rewrite final_runs|].
    apply (all_consecutive (input_of o p)). exact (measuring_counted 1 _ _ Hm).
Qed.

End Final.
