(* ===== verification/SessionSteps.v ===== *)
(** * What each call does to a session *)

From stdpp Require Import gmap.
From Stdlib Require Import Floats.SpecFloat.
From S2P Require Import Prelude Platform FloatFacts Samples Ranges AcceptPcm SampleTheorems Bytes Wovr WovrSpec.
From S2P Require Import Scheduler Overview OverviewTable OverviewMeasure Quantize Snapshot SnapshotFill.
From S2P Require Import Publish PublishTheorems Process ProcessTheorems Coverage ProcessCall ProcessOrder ProcessOrderTheorems.
From S2P Require Import Session WovrWriterTheorems SnapshotTheorems SessionInvariant SessionFinal.

(** What the state says of the input. *)
Definition phase_ok (s : session) : Prop :=
  match se_state s with
  | APTA_SESSION_CREATED | APTA_SESSION_ACTIVE => ov_end_of_input_signalled (se_overview s) = false
  | APTA_SESSION_DRAINING => ov_end_of_input_signalled (se_overview s) = true
  | APTA_SESSION_COMPLETED => ov_end_of_input_signalled (se_overview s) = true /\ wv_pcm (se_waveform s) = []
  | APTA_SESSION_CANCELLED => True
  | APTA_SESSION_FAILED => False
  end.

Definition session_ok `{Platform} (s : session) : Prop :=
  exists m, session_valid s m /\ shows (se_publication s) /\ phase_ok s.

Definition terminal (state : apta_session_state_t) : Prop :=
  state = APTA_SESSION_COMPLETED \/ state = APTA_SESSION_CANCELLED.

(** How a session may go on. *)
Record follows (s s' : session) : Prop := {
  fw_states : rtc (fun a b => apta_session_transition_is_allowed a b = true) (se_state s) (se_state s');
  fw_generation : pu_generation (se_publication s) <= pu_generation (se_publication s');
  fw_final : terminal (se_state s) -> se_publication s' = se_publication s
}.

Lemma follows_same s s' : se_publication s' = se_publication s -> follows s s'.
Proof. intros E. constructor; unfold se_state; rewrite E; [apply rtc_refl|lia|done]. Qed.

Lemma follows_trans s1 s2 s3 : follows s1 s2 -> follows s2 s3 -> follows s1 s3.
Proof.
  intros [A1 A2 A3] [B1 B2 B3]. constructor; [by transitivity (se_state s2)|lia|]. intros Ht. rewrite <- (A3 Ht).
  apply B3. unfold se_state. by rewrite (A3 Ht).
Qed.

Lemma follows_moved `{Platform} s s' state m m' : se_state s <> state -> moved s s' state m m' -> follows s s'.
Proof.
  intros Hne (Ha & _ & _ & Hst & Hg & _). constructor; [rewrite Hst; by apply rtc_once|lia|].
  intros [Ht|Ht]; rewrite Ht in *; by destruct state.
Qed.

(** The frames of a column are no more than it expects. *)
Lemma frames_expected o c d : 1 <= ov_frames_per_column o <= 65536 -> is_u32 d -> is_u64 (ov_final_end_frame o) ->
  (ov_end_of_input_signalled o = true -> forall f, covered (accepted_ranges c) f -> f < ov_final_end_frame o) ->
  frames_of c (ov_frames_per_column o) d <= apta_expected_column_frames o d.
Proof.
  intros Hf Hd He Hend. unfold apta_expected_column_frames. cbv zeta.
  pose proof (frames_of_range c (ov_frames_per_column o) d ltac:(lia)) as Hr.
  destruct (ov_end_of_input_signalled o); cbn [negb]; [|lia].
  pose proof (frames_of_bound c (ov_frames_per_column o) d _ ltac:(lia) (Hend eq_refl)) as Hb.
  unfold is_u32, is_u64 in *. rewrite (u64_small (d * _)) by (unfold is_u64; nia).
  destruct (Z.leb_spec (ov_final_end_frame o) (d * ov_frames_per_column o)); [lia|].
  rewrite u64_small by (unfold is_u64; nia). unfold apta_min_frame, u32.
  destruct (Z.ltb_spec (d * ov_frames_per_column o + ov_frames_per_column o) (ov_final_end_frame o));
    rewrite Z.mod_small; nia.
Qed.

(** ** Pushing *)

(** What a push asks of its block: a pointer the checks let through can be read, the
    block lies on a track whose columns can be numbered, the queue fits in memory. *)
Record pushable (s : session) (block : apta_pcm_block_t) : Prop := {
  pa_typed : is_u64 (pb_first_frame block) /\ is_u32 (pb_frame_count block);
  pa_bytes : block_of_bytes block;
  pa_readable : block_readable (cfg_channel_count (se_config s)) (cfg_sample_format (se_config s)) block;
  pa_indexable : pb_first_frame block + pb_frame_count block <= UINT32_MAX * fpc_of s;
  pa_memory : wv_queued_pcm_frames (se_waveform s) + APTA_INTERNAL_MAX_PUSH_FRAMES <= UINT64_MAX
}.

Section Steps.
Context `{PlatformLaws}.
Context (allocate : nat -> Z -> bool) (fresh : accumulator) (fresh_range : range).

Lemma validate_spec s block : pushable s block ->
  is_error (apta_internal_source_validate_pcm_block s block) = false ->
  block_ok block /\ (known (cfg_total_frames (se_config s)) ->
    pb_first_frame block + pb_frame_count block <= cfg_total_frames (se_config s)).
Proof.
  intros [[T1 T2] _ _ _ _]. unfold is_u64, is_u32 in *. unfold apta_internal_source_validate_pcm_block.
  destruct (negb (apta_internal_validate_struct _ _ _ _)); [done|].
  destruct (Z.eqb_spec (pb_frame_count block) 0); [done|]. destruct (_ =? APTA_TOTAL_FRAMES_UNKNOWN); [done|].
  destruct (Z.ltb_spec (UINT64_MAX - pb_frame_count block) (pb_first_frame block)); [done|]. cbn [orb].
  rewrite u64_small by (unfold is_u64; lia). destruct (_ && _); [done|].
  intros E. split; [unfold block_ok; lia|]. intros Hk. revert E. unfold known in Hk.
  destruct (Z.eqb_spec (cfg_total_frames (se_config s)) APTA_TOTAL_FRAMES_UNKNOWN) as [|_]; [done|]. cbn [negb andb].
  destruct (Z.ltb_spec (cfg_total_frames (se_config s)) (pb_first_frame block + pb_frame_count block)); [done|lia].
Qed.

Lemma apply_node first n samples : 0 <= first -> 1 <= n <= APTA_INTERNAL_MAX_PUSH_FRAMES -> first + n <= UINT64_MAX ->
  length samples = Z.to_nat n -> Forall unit_sample samples ->
  node_ok {| pn_first_frame := first; pn_frame_count := n; pn_processed_frames := 0; pn_samples := samples |}.
Proof. intros. unfold node_ok. simpl. split_and!; (lia || done). Qed.

(** The queue and the table of accepted frames after a push. *)
Lemma accept_queue s m block i status n : session_valid s m -> pushable s block -> block_ok block ->
  accept_post (cfg_channel_count (se_config s)) (cfg_sample_format (se_config s)) block (session_input s) i status n ->
  queue_ok (se_waveform (with_input s i)) /\
  (forall d, pending_in (fpc_of s) d (in_pcm i) =
     pending_in (fpc_of s) d (wv_pcm (se_waveform s)) + overlap (fpc_of s) d (pb_first_frame block) (pb_first_frame block + n)).
Proof.
  intros Hs [_ Hbytes _ _ Hmem] (B1 & B2 & B3) (Hn & _ & _ & Hnone & Hsome).
  pose proof (pl_queue _ _ (sv_pipeline _ _ Hs)) as [Q1 [Q2 Q3]]. pose proof (valid_fpc _ _ Hs) as Hf.
  unfold apta_min_u32 in Hn. unfold APTA_INTERNAL_MAX_PUSH_FRAMES in *.
  destruct (Z.eq_dec n 0) as [->|Hne].
  - destruct (Hnone eq_refl) as (E1 & E2 & _). cbn [session_input in_pcm in_queued_pcm_frames] in E1, E2.
    rewrite Z.add_0_r. split; [constructor; simpl; rewrite E1, ?E2; by try split|].
    intros d. rewrite overlap_empty by lia. rewrite E1. lia.
  - destruct (Hsome Hne) as ((samples & E1 & Hl & Hread) & E2 & _). cbn [session_input in_pcm in_queued_pcm_frames] in E1, E2.
    assert (Hn1 : 1 <= n <= 4096 /\ n <= pb_frame_count block) by (destruct (_ <? _) eqn:E in Hn; lia).
    assert (Hqn : 0 <= sum_of pn_frame_count (wv_pcm (se_waveform s))).
    { apply sum_of_nonneg. eapply Forall_impl; [exact Q1|]. unfold node_ok. intros; lia. }
    rewrite u64_small in E2 by (unfold is_u64; lia).
    split; [|intros d; unfold pending_in; rewrite E1, sum_of_app; simpl; rewrite !Z.add_0_r; done].
    constructor; simpl; rewrite E1, ?E2.
    + apply Forall_app. split; [done|]. apply Forall_singleton. apply apply_node; [lia|unfold APTA_INTERNAL_MAX_PUSH_FRAMES; lia|lia|done|].
      apply Forall_lookup. intros k x Hk. pose proof (lookup_lt_Some _ _ _ Hk) as Hlt.
      destruct (Hread (Z.of_nat k) ltac:(lia)) as (y & Hy & Hr). rewrite Nat2Z.id in Hy.
      rewrite Hk in Hy. injection Hy as <-. by eapply read_mono_unit.
    + rewrite sum_of_app. simpl. lia.
Qed.

Lemma accept_valid s m block : session_valid s m -> pushable s block -> block_ok block ->
  ov_end_of_input_signalled (se_overview s) = false -> cfg_channel_count (se_config s) <= 2 ->
  (known (cfg_total_frames (se_config s)) ->
     pb_first_frame block + pb_frame_count block <= cfg_total_frames (se_config s)) ->
  exists s' status n, accept_pcm allocate fresh_range s block = Ret (s', status, n) /\
    session_valid s' m /\ se_publication s' = se_publication s /\ se_overview s' = se_overview s /\
    0 <= n <= pb_frame_count block /\
    (forall f, accepted s' f <-> accepted s f \/ pb_first_frame block <= f < pb_first_frame block + n).
Proof.
  intros Hs Hpush Hb Hsig Hch Htot. pose proof (valid_fpc _ _ Hs) as Hf. pose proof (sv_pipeline _ _ Hs) as Hp.
  unfold accept_pcm.
  destruct (accept_pcm_correct (fun k => allocate (ov_allocations (se_overview s) + k)%nat) fresh_range
    (cfg_channel_count (se_config s)) (cfg_sample_format (se_config s)) (session_input s) block)
    as (i & status & n & -> & Hi & Hpost);
    [pose proof (co_channels _ (sv_config _ _ Hs)); lia|apply Hs| |done|apply Hpush|].
  { simpl. pose proof (pl_queue _ _ Hp) as [Q1 [-> _]]. apply sum_of_nonneg. eapply Forall_impl; [exact Q1|]. unfold node_ok. intros; lia. }
  cbn [obind]. destruct (accept_queue s m block i status n Hs Hpush Hb Hpost) as [Hq Hpend].
  destruct Hpost as (Hn & Hnew & Hcov & _).
  assert (Hacc : forall f, accepted (with_input s i) f <-> accepted s f \/ pb_first_frame block <= f < pb_first_frame block + n) by done.
  assert (Hn' : 0 <= n <= pb_frame_count block).
  { unfold apta_min_u32 in Hn. destruct (_ <? _) eqn:E in Hn; unfold APTA_INTERNAL_MAX_PUSH_FRAMES in *; lia. }
  assert (Hexact : forall d, load (se_waveform (with_input s i)) m d = frames_of (in_coverage i) (fpc_of s) d).
  { intros d. rewrite (frames_of_add (se_coverage s) (in_coverage i) _ _ (pb_first_frame block) (pb_first_frame block + n)) by (done || lia).
    rewrite <- (sv_exact _ _ Hs). unfold load. cbn [with_input se_waveform set_pcm wv_overview wv_pcm].
    change (ov_frames_per_column (wv_overview (se_waveform s))) with (fpc_of s). rewrite Hpend. lia. }
  exists (with_input s i), status, n. split; [done|].
  assert (Ec : se_config (with_input s i) = se_config s) by done.
  split; [|split; [done|]; split; [done|]; by split]. constructor; rewrite ?Ec; try done; try apply Hs.
  - constructor; simpl; try apply Hp; [done|]. intros d Hd. rewrite Hexact. unfold fpc_of, se_overview.
    apply frames_expected; [done|done|apply Hp|]. unfold se_overview in Hsig. by rewrite Hsig.
  - intros Hk. split; [by apply (sv_total _ _ Hs)|]. intros f [Hfc|Hfc]%Hacc; [by apply (sv_total _ _ Hs)|]. specialize (Htot Hk). lia.
  - intros f [Hfc|Hfc]%Hacc; [by apply (sv_indexable _ _ Hs)|]. pose proof (pa_indexable _ _ Hpush). change (fpc_of (with_input s i)) with (fpc_of s). lia.
Qed.

(** A transition, or none, keeps the session well formed when the state it moves to
    agrees with the input. *)
Lemma transition_ok s m state : session_valid s m -> shows (se_publication s) -> se_state s <> state ->
  exists s' m' status, apta_internal_session_transition allocate s state = Ret (s', status) /\
    session_valid s' m' /\ shows (se_publication s') /\ same_input s s' /\
    same_geometry (se_overview s) (se_overview s') /\ follows s s' /\
    (status = APTA_STATUS_OK /\ moved s s' state m m' \/ is_error status = true /\ unpublished s s' m m').
Proof.
  intros Hs Hshow Hne. destruct (transition_valid allocate s m state Hs Hne) as (s' & m' & status & E & Hv & Hi & Hg & Hcase).
  exists s', m', status. split; [done|]. split; [done|]. destruct Hcase as [[-> Hmv]|[He Hu]].
  - split; [apply Hmv|]. split; [done|]. split; [done|]. split; [by eapply follows_moved|by left].
  - destruct Hu as [Hp Hm]. split; [by rewrite Hp|]. split; [done|]. split; [done|]. split; [by apply follows_same|].
    right. by split.
Qed.

Lemma phase_stays s s' : phase_ok s -> se_publication s' = se_publication s -> same_input s s' ->
  same_geometry (se_overview s) (se_overview s') -> phase_ok s'.
Proof.
  intros Hp E [_ _ _ I4 _] Hg. unfold phase_ok, se_state in *. rewrite E, I4, (sg_end _ _ Hg). exact Hp.
Qed.

(** The first input activates the session. *)
Lemma activate_ok s m : session_valid s m -> shows (se_publication s) -> phase_ok s ->
  se_state s = APTA_SESSION_CREATED \/ se_state s = APTA_SESSION_ACTIVE ->
  exists s' m' status, activate allocate s = Ret (s', status) /\
    session_valid s' m' /\ shows (se_publication s') /\ phase_ok s' /\ same_input s s' /\
    same_geometry (se_overview s) (se_overview s') /\ follows s s' /\
    (is_error status = true \/
     status = APTA_STATUS_OK /\ se_state s' = APTA_SESSION_ACTIVE /\ se_config s' = se_config s).
Proof.
  unfold activate. intros Hs Hshow Hph [Hst|Hst]; rewrite Hst.
  - rewrite bool_decide_eq_true_2 by done.
    destruct (transition_ok s m APTA_SESSION_ACTIVE Hs Hshow ltac:(by rewrite Hst))
      as (s' & m' & status & E & Hv & Hs' & Hi & Hg & Hf & Hcase).
    exists s', m', status. split; [done|]. split; [done|]. split; [done|]. destruct Hcase as [[-> Hmv]|[He [Hp _]]].
    + destruct Hmv as (_ & _ & Hc & Hst' & _). split; [|by split_and!; try right].
      unfold phase_ok in *. rewrite Hst'. rewrite Hst in Hph. by rewrite (sg_end _ _ Hg).
    + split; [by eapply phase_stays|]. by split_and!; try left.
  - rewrite bool_decide_eq_false_2 by done. exists s, m, APTA_STATUS_OK. split; [done|]. split; [done|]. split; [done|].
    split; [done|]. split; [apply same_input_refl|]. split; [apply same_geometry_refl|]. split; [by apply follows_same|].
    right. by split_and!.
Qed.

Lemma pushable_after s s' block : pushable s block -> se_config s' = se_config s -> same_input s s' ->
  same_geometry (se_overview s) (se_overview s') -> pushable s' block.
Proof.
  intros [P1 P2 P3 P4 P5] Hc [_ _ _ _ I5] Hg.
  assert (Ef : fpc_of s' = fpc_of s) by apply (sg_frames _ _ Hg).
  constructor; rewrite ?Hc, ?I5, ?Ef; done.
Qed.

(** What a push does. *)
Definition pushed (s : session) (block : apta_pcm_block_t) (r : result (session * apta_status_t * Z)) : Prop :=
  exists s' status n, r = Ret (s', status, n) /\ session_ok s' /\ follows s s' /\ 0 <= n <= pb_frame_count block /\
    (wants s APTA_FEATURE_WAVEFORM_OVERVIEW = true ->
     forall f, accepted s' f <-> accepted s f \/ pb_first_frame block <= f < pb_first_frame block + n).

Lemma pushed_nothing s block s' m' status : pushable s block -> session_valid s' m' -> shows (se_publication s') ->
  phase_ok s' -> same_input s s' -> follows s s' -> pushed s block (Ret (s', status, 0)).
Proof.
  intros [[_ Hn] _ _ _ _] V1 V2 V3 [Hcov _ _ _ _] V5. unfold is_u32 in Hn. exists s', status, 0. split; [done|].
  split; [by exists m'|]. split; [done|]. split; [lia|]. intros _ f. unfold accepted. rewrite Hcov.
  split; [by left|]. intros [|]; [done|lia].
Qed.

Lemma push_open s m block : session_valid s m -> shows (se_publication s) -> phase_ok s -> pushable s block ->
  se_state s = APTA_SESSION_CREATED \/ se_state s = APTA_SESSION_ACTIVE ->
  is_error (apta_internal_source_validate_pcm_block s block) = false ->
  pushed s block
    (let! '(s, status) := activate allocate s in
     if is_error status then Ret (s, status, 0)
     else if wants s APTA_FEATURE_WAVEFORM_OVERVIEW then accept_pcm allocate fresh_range s block
     else Ret (s, APTA_STATUS_OK, pb_frame_count block)).
Proof.
  intros Hs Hshow Hph Hpush Hst Ev. destruct (validate_spec s block Hpush Ev) as [Hb Htot].
  destruct (activate_ok s m Hs Hshow Hph Hst) as (s1 & m1 & status & -> & Hs1 & Hshow1 & Hph1 & Hi & Hg & Hf & Hcase).
  cbn [obind]. destruct Hcase as [He|(-> & Hst1 & Hc)]; [rewrite He; by apply (pushed_nothing s block s1 m1)|].
  cbn [is_error status_code Z.ltb Z.compare]. unfold pushed, wants. rewrite Hc.
  destruct (any (cfg_requested_features (se_config s)) APTA_FEATURE_WAVEFORM_OVERVIEW) eqn:Ew.
  - destruct (accept_valid s1 m1 block Hs1 (pushable_after _ _ _ Hpush Hc Hi Hg) Hb)
      as (s2 & st & n & -> & Hs2 & Hp2 & Ho2 & Hn & Hacc).
    + unfold phase_ok in Hph1. by rewrite Hst1 in Hph1.
    + rewrite Hc. by apply (co_overview _ (sv_config _ _ Hs)).
    + rewrite Hc. exact Htot.
    + exists s2, st, n. split; [done|]. split.
      { exists m1. split; [done|]. split; [by rewrite Hp2|]. unfold phase_ok in *. unfold se_state in *.
        rewrite Hp2, Hst1, Ho2 in *. exact Hph1. }
      split; [eapply follows_trans; [exact Hf|by apply follows_same]|]. split; [done|]. intros _ f. rewrite Hacc.
      unfold accepted. by rewrite (sm_coverage _ _ Hi).
  - exists s1, APTA_STATUS_OK, (pb_frame_count block). split; [done|]. split; [by exists m1|]. split; [done|]. split; [|done].
    destruct Hb as (_ & Hb & _). lia.
Qed.

Lemma push_ok s block : session_ok s -> pushable s block -> pushed s block (apta_session_push_pcm allocate fresh_range s block).
Proof.
  intros (m & Hs & Hshow & Hph) Hpush. unfold apta_session_push_pcm.
  assert (Hself : forall status, pushed s block (Ret (s, status, 0))).
  { intros status. apply (pushed_nothing s block s m); first [done | apply same_input_refl | by apply follows_same]. }
  destruct (negb _); [apply Hself|].
  pose proof (push_open s m block Hs Hshow Hph Hpush) as Hopen.
  destruct (is_error (apta_internal_source_validate_pcm_block s block)) eqn:Ev;
    [destruct (se_state s); apply Hself|].
  destruct (se_state s); try (apply Hself); apply Hopen; first [done | by left | by right].
Qed.

(** ** The end of the input *)

(** A final frame whose columns can be numbered. *)
Definition endable (s : session) (final_end_frame : Z) : Prop :=
  is_u64 final_end_frame /\ (known final_end_frame -> required_columns final_end_frame (fpc_of s) <= UINT32_MAX).

(** The columns complete so far lie before the end. *)
Lemma complete_before_end s m final x : session_valid s m -> ov_end_of_input_signalled (se_overview s) = false ->
  (forall f, accepted s f -> f < final) -> is_u64 final -> x ∈ m -> ac_complete x.1 = true ->
  ac_sample_count x.1 = fpc_of s /\ (col x + 1) * fpc_of s <= final.
Proof.
  intros Hs Hsig Hacc Hfin Hx Hc. pose proof (pl_complete _ _ (sv_pipeline _ _ Hs) x Hx Hc) as He.
  pose proof (valid_fpc _ _ Hs) as Hf. pose proof (samples_accepted _ _ _ Hs Hx) as Hle.
  unfold apta_expected_column_frames in He. unfold se_overview in Hsig. rewrite Hsig in He. cbn [negb] in He.
  change (ov_frames_per_column (wv_overview (se_waveform s))) with (fpc_of s) in He. split; [exact He|].
  pose proof (frames_of_range (se_coverage s) (fpc_of s) (col x) ltac:(lia)) as Hr.
  apply (frames_of_full (se_coverage s)); [lia|lia|exact Hacc].
Qed.

Lemma set_end_valid s m final : session_valid s m -> ov_end_of_input_signalled (se_overview s) = false ->
  endable s final -> known final -> (forall f, accepted s f -> f < final) ->
  session_valid (set_end s final final true) m.
Proof.
  intros Hs Hsig [Hfin Hreq] Hk Hacc. set (s' := set_end s final final true).
  assert (Ef : fpc_of s' = fpc_of s) by done. pose proof (valid_fpc _ _ Hs) as Hf. pose proof (sv_pipeline _ _ Hs) as Hp.
  assert (Ho : measuring (se_overview s') m).
  { destruct (pl_measuring _ _ Hp) as [[[] ? ? ? ? ? ?] ? ? ?]. constructor; [constructor; [constructor| | | | | |]| | |]; assumption. }
  assert (Hl : forall d, load (se_waveform s') m d = frames_of (se_coverage s) (fpc_of s) d) by apply (sv_exact _ _ Hs).
  constructor; try done; try apply Hs.
  - constructor; [done| |done| |].
    + destruct (pl_queue _ _ Hp). by constructor.
    + intros d Hd. rewrite Hl. by apply (frames_expected (se_overview s')); [exact Hf| | |intros _; exact Hacc].
    + intros x Hx Hcx. destruct (complete_before_end s m final x Hs Hsig Hacc Hfin Hx Hcx) as [Hn Hle].
      pose proof (ts_columns _ _ (me_shape _ _ Ho)) as Hu. rewrite Forall_forall in Hu. specialize (Hu x Hx).
      rewrite Hn. unfold is_u32, is_u64 in *. unfold apta_expected_column_frames.
      change (ov_end_of_input_signalled (wv_overview (se_waveform s'))) with true.
      change (ov_final_end_frame (wv_overview (se_waveform s'))) with final.
      change (ov_frames_per_column (wv_overview (se_waveform s'))) with (fpc_of s). cbv zeta. cbn [negb].
      rewrite (u64_small (col x * _)) by (unfold is_u64; nia). destruct (Z.leb_spec final (col x * fpc_of s)); [lia|].
      rewrite u64_small by (unfold is_u64; nia). unfold apta_min_frame.
      destruct (Z.ltb_spec (col x * fpc_of s + fpc_of s) final); rewrite u32_small; unfold is_u32; lia.
  - by destruct (sv_publication _ _ Hs).
  - destruct (sv_config _ _ Hs). by constructor.
  - intros _. split; [by apply Hreq|exact Hacc].
Qed.

(** What the end of the input does. *)
Definition ended (s : session) (final : Z) (r : result (session * apta_status_t)) : Prop :=
  exists s' status, r = Ret (s', status) /\ session_ok s' /\ follows s s' /\
    (forall f, accepted s' f <-> accepted s f) /\
    (is_error status = false ->
       ov_end_of_input_signalled (se_overview s') = true /\ ov_final_end_frame (se_overview s') = final).

Lemma ended_error s final s' m' status : session_valid s' m' -> shows (se_publication s') -> phase_ok s' ->
  same_input s s' -> follows s s' -> is_error status = true -> ended s final (Ret (s', status)).
Proof.
  intros V1 V2 V3 [Hcov _ _ _ _] V5 He. exists s', status. split; [done|]. split; [by exists m'|]. split; [done|].
  split; [intros f; unfold accepted; by rewrite Hcov|by rewrite He].
Qed.

(** Giving up the end restores the session. *)
Lemma set_end_undone s final s' : se_publication s' = se_publication (set_end s final final true) ->
  se_publication (set_end s' (cfg_total_frames (se_config s)) (ov_final_end_frame (se_overview s))
    (ov_end_of_input_signalled (se_overview s))) = se_publication s.
Proof.
  unfold se_config, se_publication, set_end. cbn. intros ->. cbn. by destruct (wv_publication (se_waveform s)) as [[]].
Qed.

Lemma drain_ok s m final : session_valid s m -> shows (se_publication s) -> se_state s = APTA_SESSION_ACTIVE ->
  ov_end_of_input_signalled (se_overview s) = false -> endable s final -> known final ->
  (forall f, accepted s f -> f < final) ->
  ended s final (start_draining allocate s final).
Proof.
  unfold start_draining. cbv zeta. intros Hs Hshow Hst Hsig Hend Hk Hacc. pose proof (set_end_valid s m final Hs Hsig Hend Hk Hacc) as Hs1.
  assert (Hst1 : se_state (set_end s final final true) = APTA_SESSION_ACTIVE) by exact Hst.
  destruct (transition_valid allocate _ m APTA_SESSION_DRAINING Hs1 ltac:(by rewrite Hst1))
    as (s2 & m2 & status & -> & Hs2 & [I1 I2 I3 I4 I5] & [G1 G2 G3 G4] & Hcase). cbn [obind].
  destruct Hcase as [(-> & _ & _ & _ & Hst2 & Hgen & Hshow2 & _)|(He & Hp & Hm2)].
  - cbn [is_error status_code Z.ltb Z.compare]. exists s2, APTA_STATUS_OK. split; [done|]. split.
    { exists m2. split; [done|]. split; [done|]. unfold phase_ok. by rewrite Hst2. }
    split; [|split; [intros f; unfold accepted; by rewrite I1|by intros _; split]].
    constructor; [rewrite Hst, Hst2; by apply rtc_once|change (pu_generation (se_publication (set_end s final final true))) with
      (pu_generation (se_publication s)) in Hgen; lia|rewrite Hst; by intros []].
  - rewrite He. set (s3 := set_end s2 _ _ _).
    assert (Ep : se_publication s3 = se_publication s) by exact (set_end_undone s final s2 Hp).
    assert (Hi : same_input s s3) by by constructor.
    assert (Hg : same_geometry (se_overview s) (se_overview s3)) by by constructor.
    assert (Hs3 : session_valid s3 m2).
    { apply (valid_same s m); try done.
      - destruct (pl_measuring _ _ (sv_pipeline _ _ Hs2)) as [[[] ? ? ? ? ? ?] ? ? ?].
        constructor; [constructor; [constructor| | | | | |]| | |]; assumption.
      - rewrite Ep. apply Hs.
      - unfold se_config. by rewrite Ep. }
    apply (ended_error s final s3 m2); try done; [by rewrite Ep| |by apply follows_same].
    unfold phase_ok. unfold se_state. rewrite Ep. change (pu_state (se_publication s)) with (se_state s). by rewrite Hst.
Qed.

Lemma signal_end_ok s final : session_ok s -> endable s final ->
  ended s final (apta_session_signal_end_of_input allocate s final).
Proof.
  intros (m & Hs & Hshow & Hph) Hend.
  assert (Hself : forall status, is_error status = true -> ended s final (Ret (s, status))).
  { intros status He. apply (ended_error s final s m); first [done | apply same_input_refl | by apply follows_same]. }
  unfold apta_session_signal_end_of_input, apta_internal_session_signal_end_of_input.
  destruct (Z.eqb_spec final APTA_TOTAL_FRAMES_UNKNOWN) as [|Hk]; [by apply Hself|]. destruct (negb _); [by apply Hself|].
  destruct (ov_end_of_input_signalled (se_overview s)) eqn:Esig.
  { destruct (Z.eqb_spec (ov_final_end_frame (se_overview s)) final) as [Efin|]; [|by apply Hself].
    exists s, APTA_STATUS_OK. split; [done|]. split; [by exists m|]. split; [by apply follows_same|]. done. }
  destruct (_ && _); [by apply Hself|].
  destruct (Z.ltb_spec final (cov_maximum_accepted_end (se_coverage s))) as [|Hmax]; [by apply Hself|].
  assert (Hacc : forall f, accepted s f -> f < final).
  { intros f Hf. apply (maximum_accepted_end (se_coverage s)) in Hf; [lia|apply (sv_input _ _ Hs)]. }
  assert (Hopen : se_state s = APTA_SESSION_CREATED \/ se_state s = APTA_SESSION_ACTIVE ->
    ended s final
      (let! '(s, status) := activate allocate s in
       if is_error status then Ret (s, status) else start_draining allocate s final)).
  { intros Hst. destruct (activate_ok s m Hs Hshow Hph Hst) as (s1 & m1 & status & -> & Hs1 & Hshow1 & Hph1 & Hi & Hg & Hf & Hcase).
    cbn [obind]. destruct Hcase as [He|(-> & Hst1 & Hc)]; [rewrite He; by apply (ended_error s final s1 m1)|].
    cbn [is_error status_code Z.ltb Z.compare].
    assert (Ea : accepted s1 = accepted s) by (unfold accepted; by rewrite (sm_coverage _ _ Hi)).
    destruct (drain_ok s1 m1 final Hs1 Hshow1 Hst1) as (s2 & st & -> & Hok & Hf2 & Ha & He2);
      [by rewrite (sg_end _ _ Hg)|by unfold endable, fpc_of; rewrite (sg_frames _ _ Hg)|done|by rewrite Ea|].
    exists s2, st. split; [done|]. split; [done|]. split; [by eapply follows_trans|]. split; [by rewrite <- Ea|done]. }
  destruct (se_state s); try (by apply Hself); apply Hopen; first [by left | by right].
Qed.

(** ** Processing *)

(** What a call of the waveform process leaves that did not lose samples. *)
Record worked (s s1 : session) (m1 : list column) (status : apta_status_t) : Prop := {
  wk_valid : session_valid s1 m1;
  wk_shows : shows (se_publication s1);
  wk_coverage : se_coverage s1 = se_coverage s;
  wk_cancel : se_cancel_requested s1 = se_cancel_requested s;
  wk_lock : se_process_lock s1 = se_process_lock s;
  wk_geometry : same_geometry (se_overview s) (se_overview s1);
  wk_config : se_config s1 = se_config s;
  wk_state : se_state s1 = se_state s;
  wk_generation : pu_generation (se_publication s) <= pu_generation (se_publication s1);
  wk_done : wants s APTA_FEATURE_WAVEFORM_OVERVIEW = true -> is_error status = false ->
    flags_exact (se_overview s1) m1 /\
    (wv_pcm (se_waveform s1) = [] \/ queue_frames (se_waveform s1) < queue_frames (se_waveform s))
}.

Lemma same_geometry_sym o o' : same_geometry o o' -> same_geometry o' o.
Proof. intros []. by constructor. Qed.

(** The law of the pipeline carries over to the session. *)
Lemma valid_conserved s m w m' : session_valid s m -> pipeline w m' -> conserved (se_waveform s) m w m' ->
  same_geometry (se_overview s) (wv_overview w) -> publication_ok (wv_publication w) ->
  pu_config (wv_publication w) = se_config s -> session_valid (with_waveform s w) m'.
Proof.
  intros Hs Hp Hl Hg Hok Hc. set (s' := with_waveform s w). assert (Ec : se_config s' = se_config s) by exact Hc.
  assert (Ef : fpc_of s' = fpc_of s) by apply (sg_frames _ _ Hg).
  constructor; rewrite ?Ef, ?Ec; try done; try apply Hs.
  - intros d. rewrite <- (sv_exact _ _ Hs). apply Hl.
  - change (se_overview s') with (wv_overview w). rewrite (sg_features _ _ Hg). apply (sv_features _ _ Hs).
  - change (se_overview s') with (wv_overview w). rewrite (sg_end _ _ Hg), (sg_final _ _ Hg). apply (sv_end _ _ Hs).
Qed.

Lemma call_worked clock deadline s m budget out : session_valid s m -> shows (se_publication s) ->
  is_u32 (wb_maximum_input_frames budget) -> is_u32 (wb_maximum_steps budget) ->
  call_within budget out -> call_done clock deadline (se_waveform s) m budget out ->
  exists m1, worked s (with_waveform s (po_session out)) m1 (po_status out).
Proof.
  intros Hs Hshow Hfr Hst (W1 & W2 & W3) (o1 & m1 & m' & D1 & D2 & D3 & D4 & D5 & D6 & D7 & D8 & D9 & D10).
  exists m'. set (s1 := with_waveform s (po_session out)). unfold call_published in D10.
  assert (Hc : pu_config (wv_publication (po_session out)) = se_config s /\
               pu_state (wv_publication (po_session out)) = se_state s /\
               pu_generation (se_publication s) <= pu_generation (wv_publication (po_session out))).
  { destruct (number_complete m1 =? number_complete m)%nat; [destruct D10 as (_ & -> & _); split_and!; [done|done|apply Z.le_refl]|].
    destruct (po_published out); [destruct D10 as (_ & [P1 P2 P3 _ _] & _)|destruct D10 as [-> _]]; split_and!; try done.
    change (wv_publication (se_waveform s)) with (se_publication s) in P3. lia. }
  destruct Hc as (C1 & C2 & C3). pose proof (valid_conserved s m _ m' Hs D4 D5 D6 D7 C1) as Hv.
  assert (Hg1 : same_geometry (se_overview s1) o1) by (eapply same_geometry_trans; [apply same_geometry_sym; exact D6|exact D2]).
  constructor; try done.
  - destruct (number_complete m1 =? number_complete m)%nat; [destruct D10 as (_ & E & _); unfold se_publication; cbn; by rewrite E|].
    destruct (po_published out); [|destruct D10 as [E _]; unfold se_publication; cbn; by rewrite E].
    destruct D10 as (-> & P & _). refine (publishes_shows s1 m1 o1 _ _ _ Hv D1 Hg1 _ D7 P).
    change (se_config s1) with (pu_config (wv_publication (po_session out))). symmetry. exact (eq_trans C1 eq_refl).
  - intros _ He.
    assert (Hm : m' = m1).
    { destruct (number_complete m1 =? number_complete m)%nat; [apply D10|]. destruct (po_published out); [apply D10|].
      by destruct D10 as [_ [[E _]|[E _]]]; rewrite E in He. }
    subst m'. split.
    + intros x Hx. rewrite (same_geometry_expected _ _ _ (same_geometry_sym _ _ Hg1)). by apply D3.
    + unfold stopped, budget_limit, is_u32 in *. change (se_waveform s1) with (po_session out).
      destruct D9 as [D9|D9]; [by left|right].
      assert (0 < pg_consumed (po_progress out)); [|lia].
      destruct (Z.eqb_spec (wb_maximum_input_frames budget) 0), (Z.eqb_spec (wb_maximum_steps budget) 0);
        destruct D9 as [D9|[D9|[D9 _]]]; lia.
Qed.

(** Measuring in this call does not fail. *)
Record processable (clock : option (nat -> Z)) (s : session) (budget : apta_work_budget_t) : Prop := {
  pe_frames : is_u32 (wb_maximum_input_frames budget);
  pe_steps : is_u32 (wb_maximum_steps budget);
  pe_measures : wants s APTA_FEATURE_WAVEFORM_OVERVIEW = true ->
    measures allocate fresh clock (process_deadline clock budget) (process_fuel s)
      (prepared (se_waveform s) (se_overview s)) budget
}.

(** The current result is as [P] says. *)
Definition current_is (p : publication) (P : apta_result_t -> Prop) : Prop :=
  exists a c, pu_current_result p = Some a /\ pu_results p !! a = Some c /\ P (rc_result c).

(** The session has shown all of its track. *)
Definition delivered (s s' : session) : Prop :=
  let final := ov_final_end_frame (se_overview s) in
  0 < final -> (forall f, 0 <= f < final -> accepted s f) ->
  current_is (se_publication s') (whole_track final (required_columns final (fpc_of s))).

Record processed (s s' : session) (status : apta_status_t) : Prop := {
  pd_ok : session_ok s';
  pd_follows : follows s s';
  pd_coverage : se_coverage s' = se_coverage s;
  pd_cancel : se_cancel_requested s' = se_cancel_requested s;
  pd_lock : se_process_lock s' = se_process_lock s;
  pd_geometry : same_geometry (se_overview s) (se_overview s');
  pd_config : se_config s' = se_config s;
  pd_drains : se_state s = APTA_SESSION_DRAINING -> se_cancel_requested s = false -> se_process_lock s = false ->
    wants s APTA_FEATURE_WAVEFORM_OVERVIEW = true -> is_error status = false ->
    status = APTA_STATUS_END_OF_INPUT /\ se_state s' = APTA_SESSION_COMPLETED /\ delivered s s' \/
    se_state s' = APTA_SESSION_DRAINING /\ queue_frames (se_waveform s') < queue_frames (se_waveform s)
}.

Lemma processed_nothing s status : session_ok s ->
  (se_state s = APTA_SESSION_DRAINING -> se_cancel_requested s = false -> se_process_lock s = false -> is_error status = true) ->
  processed s s status.
Proof.
  intros Hs He. constructor; first [done | by apply follows_same | apply same_geometry_refl | idtac].
  intros H1 H2 H3 _ Hn. by rewrite (He H1 H2 H3) in Hn.
Qed.

Lemma pending_le_count l : Forall node_ok l -> sum_of node_pending l <= sum_of pn_frame_count l.
Proof. induction 1 as [|n l (_ & Hn & _) _ IH]; simpl; [lia|]. unfold node_pending at 1. lia. Qed.

(** The call the budget is for. *)
Lemma waveform_worked clock s m budget : session_valid s m -> shows (se_publication s) -> processable clock s budget ->
  exists s1 status did_work published out m1,
    work allocate fresh clock s budget
    = Ret (s1, status, did_work, published, out) /\ worked s s1 m1 status.
Proof.
  intros Hs Hshow [Hf Hst Hmeas]. unfold work. cbv zeta. destruct (wants s APTA_FEATURE_WAVEFORM_OVERVIEW) eqn:Ew.
  - pose proof (sv_pipeline _ _ Hs) as Hp. pose proof (pl_queue _ _ Hp) as [Hn [Hq _]].
    assert (Hfuel : queue_frames (se_waveform s) <= Z.of_nat (process_fuel s)).
    { unfold process_fuel. rewrite Hq. pose proof (pending_le_count _ Hn). unfold queue_frames. lia. }
    destruct (process_spec allocate fresh clock (process_deadline clock budget) (process_fuel s) false (se_waveform s) m budget
      Hp (sv_publication _ _ Hs) Hfuel Hf Hst) as (out & -> & Hw & [[_ E]|(o & _ & _ & Ho & [[_ Hno]|[Hd _]])]);
      [done|exfalso; rewrite (Ho eq_refl) in Hno; by apply Hno, Hmeas|].
    cbn [obind]. destruct (call_worked clock _ s m budget out Hs Hshow Hf Hst Hw Hd) as (m1 & Hm1).
    by eexists _, _, _, _, _, m1.
  - eexists _, _, _, _, _, m. split; [done|]. constructor; first [done | apply same_geometry_refl | apply Z.le_refl | by rewrite Ew].
Qed.

Lemma follows_worked s s1 m1 status : se_state s <> APTA_SESSION_COMPLETED -> se_state s <> APTA_SESSION_CANCELLED ->
  worked s s1 m1 status -> follows s s1.
Proof.
  intros H1 H2 Hw. constructor; [rewrite (wk_state _ _ _ _ Hw); apply rtc_refl|apply Hw|by intros [|]].
Qed.

(** Cancelling. *)
Lemma cancel_ok s m : session_valid s m -> shows (se_publication s) -> phase_ok s -> se_cancel_requested s = true ->
  exists s' status, apta_internal_session_transition allocate s APTA_SESSION_CANCELLED = Ret (s', status) /\
    forall st, processed s s' st.
Proof.
  intros Hs Hshow Hph Hc. destruct (decide (se_state s = APTA_SESSION_CANCELLED)) as [Hst|Hst].
  - exists s, APTA_STATUS_OK. unfold apta_internal_session_transition. rewrite Hst. split; [done|].
    intros st. apply processed_nothing; [by exists m|]. by rewrite Hc.
  - destruct (transition_ok s m APTA_SESSION_CANCELLED Hs Hshow Hst)
      as (s' & m' & status & E & Hv & Hsh & Hi & Hg & Hf & Hcase).
    exists s', status. split; [done|]. intros st. destruct Hi as [I1 I2 I3 I4 I5].
    constructor; try done; [|destruct Hcase as [[_ Hmv]|[_ [E2 _]]]; [apply Hmv|unfold se_config; by rewrite E2]|by rewrite Hc].
    exists m'. split; [done|]. split; [done|]. destruct Hcase as [[_ (_ & _ & _ & E2 & _)]|[_ [E2 _]]].
    + unfold phase_ok. by rewrite E2.
    + by apply (phase_stays s).
Qed.

(** The columns the current result shows come from the table it was built from. *)
Lemma published_current p p' r (P : apta_result_t -> Prop) : publishes p p' r -> P r -> current_is p' P.
Proof. intros [_ _ _ (a & Ha & _ & Hr) _] HP. by exists a, {| rc_result := r; rc_references := 1 |}. Qed.

Lemma worked_phase s s1 m1 status : phase_ok s -> se_state s <> APTA_SESSION_COMPLETED -> worked s s1 m1 status -> phase_ok s1.
Proof.
  intros Hp Hne Hw. unfold phase_ok in *. rewrite (wk_state _ _ _ _ Hw), (sg_end _ _ (wk_geometry _ _ _ _ Hw)).
  by destruct (se_state s).
Qed.

Lemma worked_running s s1 m1 status st : phase_ok s -> se_state s <> APTA_SESSION_COMPLETED ->
  se_state s <> APTA_SESSION_CANCELLED -> worked s s1 m1 status ->
  (is_error st = false -> is_error status = false /\ (se_state s = APTA_SESSION_DRAINING -> wv_pcm (se_waveform s1) <> [])) ->
  processed s s1 st.
Proof.
  intros Hp H1 H2 Hw Hst. pose proof (worked_phase _ _ _ _ Hp H1 Hw) as Hp1. pose proof (follows_worked _ _ _ _ H1 H2 Hw) as Hf.
  destruct Hw as [W1 W2 W3 W4 W5 W6 W7 W8 W9 W10]. constructor; try done; [by exists m1|].
  intros Hd _ _ Hwant He. destruct (Hst He) as [He1 Hq]. right. rewrite W8. split; [done|].
  destruct (W10 Hwant He1) as [_ [E|Hlt]]; [by specialize (Hq Hd)|done].
Qed.

Lemma drained_empty s : drained s = true -> se_state s = APTA_SESSION_DRAINING /\ wv_pcm (se_waveform s) = [].
Proof. unfold drained. intros [E1 E2]%andb_true_iff. apply bool_decide_eq_true in E1. split; [done|]. by destruct (wv_pcm _). Qed.

Lemma worked_drained s s1 m1 status : phase_ok s -> worked s s1 m1 status -> is_error status = false -> drained s1 = true ->
  exists s' st, apta_internal_session_transition allocate s1 APTA_SESSION_COMPLETED = Ret (s', st) /\
    processed s s' (if is_error st then st else APTA_STATUS_END_OF_INPUT).
Proof.
  intros Hph Hw He Hdr. pose proof Hw as [W1 W2 W3 W4 W5 W6 W7 W8 W9 W10]. apply drained_empty in Hdr as [Hst1 Hq1].
  assert (Hst : se_state s = APTA_SESSION_DRAINING) by congruence.
  pose proof (worked_phase _ _ _ _ Hph ltac:(by rewrite Hst) Hw) as Hph1.
  destruct (transition_ok s1 m1 APTA_SESSION_COMPLETED W1 W2 ltac:(by rewrite Hst1))
    as (s' & m' & st & E & Hv & Hsh & [I1 I2 I3 I4 I5] & Hg & Hf & Hcase).
  exists s', st. split; [done|].
  assert (Hf0 : follows s s') by (eapply follows_trans; [apply (follows_worked _ _ m1 status); [by rewrite Hst|by rewrite Hst|done]|done]).
  assert (Hg0 : same_geometry (se_overview s) (se_overview s')) by (by eapply same_geometry_trans).
  destruct Hcase as [[-> Hmv]|[Hse [Hp Hm]]].
  - destruct Hmv as (_ & -> & Hc & Hst' & _ & _ & p & Hpub & Hps). cbn [is_error status_code Z.ltb Z.compare].
    constructor; try done; try congruence.
    + exists m1. split; [done|]. split; [done|]. unfold phase_ok in *. rewrite Hst', I4. rewrite Hst1 in Hph1.
      by rewrite (sg_end _ _ Hg).
    + intros _ _ _ Hwant _. left. split; [done|]. split; [done|]. intros Hpos Hall.
      destruct (W10 Hwant He) as [Hexact _]. apply (published_current _ _ _ _ Hpub).
      assert (Efin : ov_final_end_frame (se_overview s1) = ov_final_end_frame (se_overview s)) by apply (sg_final _ _ W6).
      assert (Efpc : fpc_of s1 = fpc_of s) by apply (sg_frames _ _ W6). rewrite <- Efin, <- Efpc.
      apply final_result; [done|done|done| |by rewrite Efin| |by unfold wants; rewrite W7|done].
      * unfold phase_ok in Hph1. by rewrite Hst1 in Hph1.
      * rewrite Efin. intros f Hfr. unfold accepted. rewrite W3. by apply Hall.
  - rewrite Hse. constructor; try done; try congruence.
    + exists m'. split; [done|]. split; [done|]. by apply (phase_stays s1).
    + unfold se_config. rewrite Hp. exact W7.
Qed.

Lemma process_ok clock s budget : session_ok s -> processable clock s budget ->
  exists s' status out, apta_session_process allocate fresh clock s budget = Ret (s', status, out) /\ processed s s' status.
Proof.
  intros (m & Hs & Hshow & Hph) Hpe. assert (Hok : session_ok s) by by exists m. unfold apta_session_process. cbv zeta.
  destruct (se_process_lock s) eqn:El; [by eexists s, _, _; split; [reflexivity|]; apply processed_nothing|].
  destruct (se_cancel_requested s) eqn:Ec.
  { destruct (cancel_ok s m Hs Hshow Hph Ec) as (s' & st & -> & Hp). cbn [obind]. eexists s', _, _. split; [reflexivity|]. apply Hp. }
  assert (Hrun : se_state s <> APTA_SESSION_COMPLETED -> se_state s <> APTA_SESSION_CANCELLED ->
    exists s' status out,
      (let! '(s, work_status, did_work, published, progress_out) := work allocate fresh clock s budget in
       conclude allocate s work_status did_work published progress_out) = Ret (s', status, out) /\ processed s s' status).
  { intros H1 H2. destruct (waveform_worked clock s m budget Hs Hshow Hpe) as (s1 & ws & did & pub & out & m1 & -> & Hw). cbn [obind].
    unfold conclude.
    destruct (is_error ws) eqn:Ews.
    { eexists s1, ws, _. split; [reflexivity|]. apply (worked_running _ _ m1 ws); try done. by rewrite Ews. }
    destruct (drained s1) eqn:Ed.
    - destruct (worked_drained s s1 m1 ws Hph Hw Ews Ed) as (s' & st & -> & Hp). cbn [obind].
      destruct (is_error st); (eexists s', _, _; split; [reflexivity|exact Hp]).
    - eexists s1, _, _. split; [reflexivity|]. apply (worked_running _ _ m1 ws); try done. intros _. split; [done|].
      intros Hst Hq. unfold drained in Ed. rewrite (wk_state _ _ _ _ Hw), Hst, Hq in Ed. done. }
  destruct (se_state s) eqn:Est; try (by apply Hrun); eexists s, _, _; (split; [reflexivity|]); (apply processed_nothing; [done|by rewrite Est]).
Qed.

End Steps.
