(* ===== verification/SeedTheorems.v ===== *)
(** * Seeded sessions (waveform/apta_waveform_input.c)

    What seeding an untouched session leaves, when it succeeds and when memory runs out
    on the way; and when the session keeps the law that its columns hold exactly the
    frames it accepted. *)

From stdpp Require Import gmap.
From Stdlib Require Import Floats.SpecFloat.
From S2P Require Import Prelude Platform FloatFacts Samples Ranges AcceptPcm SampleTheorems Bytes Wovr WovrSpec.
From S2P Require Import Scheduler Overview OverviewTable OverviewMeasure Quantize Snapshot SnapshotFill.
From S2P Require Import Publish PublishTheorems Process ProcessTheorems Coverage ProcessCall ProcessOrder ProcessOrderTheorems.
From S2P Require Import Session WovrWriterTheorems ResultAccessors Seed SeedQuantize SeedColumns.
From S2P Require Import SnapshotTheorems SessionInvariant SessionSteps.

(** ** The columns of a result *)

(** The spans [l] show the column [c] as [source]. *)
Definition shows_column (columns : list apta_waveform_column_t) (l : list apta_waveform_span_t) (c : Z)
    (source : apta_waveform_column_t) : Prop :=
  exists v base i, v ∈ l /\ sp_columns v = Some base /\ (i < Z.to_nat (sp_column_count v))%nat /\
    c = sp_first_column_index v + Z.of_nat i /\ columns !! (base + i)%nat = Some source.

Lemma shows_column_cons columns v l c source : shows_column columns (v :: l) c source <->
  shows_column columns [v] c source \/ shows_column columns l c source.
Proof.
  split.
  - intros (w & base & i & [->|Hw]%elem_of_cons & H); [left; exists v|right; exists w]; exists base, i; (split; [|done]);
      [by apply list_elem_of_singleton|done].
  - intros [(w & base & i & ->%list_elem_of_singleton & H)|(w & base & i & Hw & H)]; [exists v|exists w]; exists base, i;
      (split; [|done]); apply elem_of_cons; auto.
Qed.

(** The spans use columns from [c] on, one after the other. *)
Fixpoint columns_from (c : Z) (l : list apta_waveform_span_t) : Prop :=
  match l with
  | [] => True
  | v :: l => c <= sp_first_column_index v /\ columns_from (sp_first_column_index v + sp_column_count v) l
  end.

(** A span whose columns are on the track of the session. *)
Record span_fits (s : session) (columns : list apta_waveform_column_t) (v : apta_waveform_span_t) (base : nat) : Prop := {
  sf_base : sp_columns v = Some base;
  sf_columns : forall i, (i < Z.to_nat (sp_column_count v))%nat ->
    exists source, columns !! (base + i)%nat = Some source /\ column_valid true source;
  sf_count : 1 <= sp_column_count v;
  sf_indices : 0 <= sp_first_column_index v /\ sp_first_column_index v + sp_column_count v <= UINT32_MAX;
  sf_frames : 0 <= sp_first_frame v < sp_end_frame v;
  sf_open : forall c, sp_first_column_index v <= c < sp_first_column_index v + sp_column_count v ->
    open_column (cfg_total_frames (se_config s)) (fpc_of s) c
}.

(** A span of whole columns, counted from frame 0. *)
Record whole_span (s : session) (v : apta_waveform_span_t) : Prop := {
  ws_first : sp_first_frame v = sp_first_column_index v * fpc_of s;
  ws_end : sp_end_frame v = (sp_first_column_index v + sp_column_count v) * fpc_of s;
  ws_total : known (cfg_total_frames (se_config s)) -> sp_end_frame v <= cfg_total_frames (se_config s)
}.

(** What seeding leaves alone. *)
Record kept (s s' : session) : Prop := {
  kp_publication : se_publication s' = se_publication s;
  kp_cancel : se_cancel_requested s' = se_cancel_requested s;
  kp_lock : se_process_lock s' = se_process_lock s;
  kp_pcm : wv_pcm (se_waveform s') = wv_pcm (se_waveform s);
  kp_queued : wv_queued_pcm_frames (se_waveform s') = wv_queued_pcm_frames (se_waveform s);
  kp_geometry : same_geometry (se_overview s) (se_overview s')
}.

Lemma kept_refl s : kept s s.
Proof. by constructor. Qed.

Lemma kept_trans s1 s2 s3 : kept s1 s2 -> kept s2 s3 -> kept s1 s3.
Proof. intros [] []. constructor; try congruence. by eapply same_geometry_trans. Qed.

Lemma kept_fpc s s' : kept s s' -> fpc_of s' = fpc_of s.
Proof. intros Hk. apply (sg_frames _ _ (kp_geometry _ _ Hk)). Qed.

Lemma kept_config s s' : kept s s' -> se_config s' = se_config s.
Proof. intros Hk. unfold se_config. by rewrite (kp_publication _ _ Hk). Qed.

Lemma kept_fits s s' columns v base : kept s s' -> span_fits s columns v base -> span_fits s' columns v base.
Proof. intros Hk []. constructor; rewrite ?(kept_fpc _ _ Hk), ?(kept_config _ _ Hk); done. Qed.

(** The column [c] as the session takes it over. *)
Definition taken (s : session) (c : Z) (source : apta_waveform_column_t) : column :=
  seeded (kept_frames (cfg_total_frames (se_config s)) (fpc_of s) c) c source.

Lemma kept_taken s s' c source : kept s s' -> taken s' c source = taken s c source.
Proof. intros Hk. unfold taken. by rewrite (kept_fpc _ _ Hk), (kept_config _ _ Hk). Qed.

Section Seeding.
Context `{PlatformLaws}.
Context (allocate : nat -> Z -> bool) (fresh : accumulator) (fresh_range : range).

(** ** One span *)

Definition span_seeds (s : session) (columns : list apta_waveform_column_t) (v : apta_waveform_span_t) (base : nat) : Z -> option column :=
  seeds (cfg_total_frames (se_config s)) (fpc_of s) (sp_first_column_index v) columns base 0 (Z.to_nat (sp_column_count v)).

Lemma span_seeds_spec s columns v base c y : sp_columns v = Some base ->
  span_seeds s columns v base c = Some y <-> exists source, shows_column columns [v] c source /\ y = taken s c source.
Proof.
  intros Hb. unfold span_seeds, seeds. destruct (Z.leb_spec (sp_first_column_index v + Z.of_nat 0) c),
    (Z.ltb_spec c (sp_first_column_index v + Z.of_nat (0 + Z.to_nat (sp_column_count v)))); cbn [andb].
  2,3,4: split; [done|]; intros (source & (w & b & i & ->%list_elem_of_singleton & _ & Hi & Hc & _) & _); lia.
  split.
  - intros E. destruct (columns !! _) as [source|] eqn:Es; [|done]. injection E as <-. exists source. split; [|done].
    exists v, base, (Z.to_nat (c - sp_first_column_index v)). split; [by apply list_elem_of_singleton|]. split; [done|].
    split; [lia|]. split; [lia|done].
  - intros (source & (w & b & i & ->%list_elem_of_singleton & Hb' & Hi & Hc & Hs) & ->). rewrite Hb in Hb'. injection Hb' as <-.
    replace (Z.to_nat (c - sp_first_column_index v)) with i by lia. by rewrite Hs.
Qed.

(** The session after some of the frames [new] and the columns [cols] were added: all of
    them, or memory ran out. *)
Definition seed_result (s : session) (m : list column) (s' : session) (m' : list column) (status : apta_status_t)
    (new : Z -> Prop) (cols : Z -> column -> Prop) : Prop :=
  kept s s' /\ measuring (se_overview s') m' /\ input_ok (session_input s') /\
  (forall d x, column_of m d = Some x -> column_of m' d = Some x) /\
  (forall d y, column_of m' d = Some y -> column_of m d = Some y \/ cols d y) /\
  (forall f, accepted s f -> accepted s' f) /\ (forall f, accepted s' f -> accepted s f \/ new f) /\
  (out_of_memory status \/
   status = APTA_STATUS_OK /\ (forall d y, cols d y -> column_of m' d = Some y) /\ forall f, new f -> accepted s' f).

(** Recording the frames of a span. *)
Lemma seed_range_spec s v : input_ok (session_input s) -> 0 <= sp_first_frame v < sp_end_frame v ->
  (forall f, sp_first_frame v <= f < sp_end_frame v -> ~ accepted s f) -> Z.of_nat (cov_count (se_coverage s)) < UINT32_MAX ->
  exists s' status, seed_range allocate fresh_range s v = Ret (s', status) /\
    kept s s' /\ se_overview s' = count_allocation (se_overview s) /\ input_ok (session_input s') /\
    (cov_count (se_coverage s') <= S (cov_count (se_coverage s)))%nat /\
    (out_of_memory status /\ (forall f, accepted s' f <-> accepted s f) \/
     status = APTA_STATUS_OK /\ forall f, accepted s' f <-> accepted s f \/ sp_first_frame v <= f < sp_end_frame v).
Proof.
  intros [Hok Hlen] Hfe Hnew Hn. unfold seed_range. cbn [session_input in_coverage] in *.
  rewrite u32_small by (unfold is_u32; lia).
  pose proof (ensure_capacity_spec (allocate (ov_allocations (se_overview s))) fresh_range (se_coverage s)
    (Z.of_nat (cov_count (se_coverage s)) + 1) Hok Hlen) as He.
  destruct (apta_ensure_range_capacity _ _ _ _) as [c|e|]; [| |done].
  - destruct He as (Hok' & Hacc' & Hcount & Hcap & _).
    destruct (insert_correct c (sp_first_frame v) (sp_end_frame v) Hok' ltac:(lia) Hfe) as (c' & Ei & Hok2 & Hlen2 & Hcov).
    { intros g Hg Hin. rewrite Hacc' in Hg. by apply (Hnew g). }
    pose proof (insert_count _ _ _ _ Hok' ltac:(lia) Ei) as Hcnt. rewrite Ei. cbn [obind].
    eexists _, APTA_STATUS_OK. split; [reflexivity|]. split; [by constructor|]. split; [done|].
    split; [split; simpl; [done|lia]|]. split; [simpl; lia|]. right. split; [done|].
    intros f. change (covered (accepted_ranges c') f <-> accepted s f \/ sp_first_frame v <= f < sp_end_frame v).
    by rewrite Hcov, Hacc'.
  - eexists _, e. split; [reflexivity|]. split; [by constructor|]. split; [done|]. split; [by split|]. split; [simpl; lia|].
    left. split; [|done]. destruct He as [->| ->]; [by right|by left].
Qed.

Lemma seed_span_spec s m columns v base : measuring (se_overview s) m -> input_ok (session_input s) ->
  span_fits s columns v base ->
  (forall d, sp_first_column_index v <= d < sp_first_column_index v + sp_column_count v -> column_of m d = None) ->
  (forall f, in_span f v -> ~ accepted s f) -> Z.of_nat (cov_count (se_coverage s)) < UINT32_MAX ->
  exists s' status m', seed_span allocate fresh fresh_range s columns v = Ret (s', status) /\
    seed_result s m s' m' status (fun f => in_span f v) (fun d y => span_seeds s columns v base d = Some y) /\
    (cov_count (se_coverage s') <= S (cov_count (se_coverage s)))%nat.
Proof.
  intros Hm Hin Hv Hnone Hnew Hn. unfold seed_span. rewrite (sf_base _ _ _ _ Hv). pose proof (sf_count _ _ _ _ Hv) as Hc.
  destruct (seed_columns_spec allocate fresh (se_overview s) m (cfg_total_frames (se_config s)) (sp_first_column_index v) columns base 0
    (Z.to_nat (sp_column_count v)) Hm) as (o1 & status & -> & Hg & m' & Hm' & Hsome & Hpost).
  { apply (sf_indices _ _ _ _ Hv). }
  { intros i Hi. destruct (sf_columns _ _ _ _ Hv i ltac:(lia)) as (source & Hl & Hok). exists source.
    split; [done|]. split; [done|]. split; [apply (sf_open _ _ _ _ Hv); lia|]. apply Hnone. lia. }
  change (seeds _ (Overview.ov_frames_per_column (se_overview s)) _ _ _ _ _) with (span_seeds s columns v base) in Hsome, Hpost.
  unfold step_ok at 1. cbn [obind].
  assert (Hk1 : kept s (set_overview s o1)) by by constructor.
  assert (Hold : forall d x, column_of m d = Some x -> column_of m' d = Some x).
  { intros d x Hx. destruct (Hsome d) as [->|[[y Hy] _]]; [done|]. apply span_seeds_spec in Hy as (source & Hs & _); [|apply Hv].
    destruct Hs as (w & b & i & ->%list_elem_of_singleton & _ & Hi & Hd & _). rewrite Hnone in Hx by lia. done. }
  assert (Honly : forall d y, column_of m' d = Some y -> column_of m d = Some y \/ span_seeds s columns v base d = Some y).
  { intros d y Hy. destruct (Hsome d) as [E|[_ E]]; rewrite E in Hy; auto. }
  destruct Hpost as [Hst|(-> & Hcols)].
  { rewrite (out_of_memory_error _ Hst). exists (set_overview s o1), status, m'. split; [reflexivity|]. split; [|simpl; lia].
    split; [done|]. split; [done|]. split; [exact Hin|]. split; [done|]. split; [done|]. split; [done|]. split; [by left|by left]. }
  cbn [is_error status_code Z.ltb Z.compare].
  destruct (seed_range_spec (set_overview s o1) v Hin (sf_frames _ _ _ _ Hv) Hnew Hn) as (s' & status & -> & Hk2 & Ho & Hin' & Hcnt & Hpost).
  exists s', status, m'. split; [done|]. split; [|exact Hcnt]. split; [by eapply kept_trans|].
  split; [rewrite Ho; exact (measuring_counted 1 _ _ Hm')|]. split; [done|]. split; [done|]. split; [done|].
  assert (Hacc : forall f, accepted (set_overview s o1) f <-> accepted s f) by done.
  destruct Hpost as [[Hst Ha]|[-> Ha]].
  - split; [intros f Hf; by apply Ha|]. split; [intros f Hf; left; by apply Ha|]. by left.
  - split; [intros f Hf; apply Ha; by left|]. split; [intros f Hf; by apply Ha|]. right. split; [done|].
    split; [|intros f Hf; apply Ha; by right]. intros d y Hy. by rewrite Hcols, Hy.
Qed.

(** ** All spans *)

Definition taken_from (s : session) (columns : list apta_waveform_column_t) (l : list apta_waveform_span_t) (d : Z) (y : column) : Prop :=
  exists source, shows_column columns l d source /\ y = taken s d source.

Lemma taken_from_cons s columns v l d y :
  taken_from s columns (v :: l) d y <-> taken_from s columns [v] d y \/ taken_from s columns l d y.
Proof.
  split.
  - intros (source & [Hs|Hs]%shows_column_cons & ->); [left|right]; by exists source.
  - intros [(source & Hs & ->)|(source & Hs & ->)]; exists source; (split; [apply shows_column_cons; auto|done]).
Qed.

Lemma seed_spans_spec columns spans n : forall s m index lo lo_column, measuring (se_overview s) m -> input_ok (session_input s) ->
  (index + n <= length spans)%nat ->
  Forall (fun v => exists base, span_fits s columns v base) (take n (drop index spans)) ->
  spans_from lo (take n (drop index spans)) -> columns_from lo_column (take n (drop index spans)) ->
  (forall f, accepted s f -> f < lo) -> (forall d x, column_of m d = Some x -> d < lo_column) ->
  Z.of_nat (cov_count (se_coverage s)) + Z.of_nat n <= UINT32_MAX ->
  exists s' status m', seed_spans allocate fresh fresh_range s columns spans index n = Ret (s', status) /\
    seed_result s m s' m' status (shown (take n (drop index spans))) (taken_from s columns (take n (drop index spans))).
Proof.
  induction n as [|n IH]; intros s m index lo lo_column Hm Hin Hlen Hfits Hfrom Hcfrom Hlo Hloc Hcnt; cbn [seed_spans].
  - exists s, APTA_STATUS_OK, m. split; [done|]. split; [apply kept_refl|]. split; [done|]. split; [done|]. split; [done|].
    split; [by left|]. split; [done|]. split; [by left|]. right. split; [done|].
    split; [|by intros f Hf%shown_nil]. intros d y (source & (v & b & i & Hv%elem_of_nil & _) & _). done.
  - destruct (lookup_lt_is_Some_2 spans index ltac:(lia)) as [v Hv]. unfold arr_get. rewrite Hv. cbn [obind].
    rewrite (take_drop_cons _ _ _ _ Hv) in *. apply Forall_cons in Hfits as [(base & Hfit) Hfits].
    destruct Hfrom as (F1 & F2 & Hfrom), Hcfrom as (C1 & Hcfrom). pose proof (sf_count _ _ _ _ Hfit) as Hcount.
    destruct (seed_span_spec s m columns v base Hm Hin Hfit) as (s1 & status & m1 & E & (Hk & Hm1 & Hin1 & Hold & Honly & Ha1 & Ha2 & Hpost) & Hc1).
    { intros d Hd. destruct (column_of m d) eqn:Ed; [|done]. apply Hloc in Ed. lia. }
    { intros f Hf Ha. unfold in_span in Hf. apply Hlo in Ha. lia. }
    { lia. }
    unfold step_ok. rewrite E. cbn [obind].
    assert (Hspan : forall d y, span_seeds s columns v base d = Some y <-> taken_from s columns [v] d y)
      by (intros d y; apply span_seeds_spec, Hfit).
    destruct Hpost as [Hst|(-> & Hcols & Hacc)].
    { rewrite (out_of_memory_error _ Hst). exists s1, status, m1. split; [done|]. split; [done|]. split; [done|]. split; [done|].
      split; [done|]. split; [|split; [done|split; [|by left]]].
      - intros d y [Hy|Hy%Hspan]%Honly; [by left|right]. destruct Hy as (source & Hs & ->). exists source.
        split; [apply shows_column_cons; by left|done].
      - intros f [Hf|Hf]%Ha2; [by left|right]. rewrite shown_cons. by left. }
    cbn [is_error status_code Z.ltb Z.compare].
    destruct (IH s1 m1 (S index) (sp_end_frame v) (sp_first_column_index v + sp_column_count v) Hm1 Hin1) as (s' & status & m' & E' & R'); try done.
    + lia.
    + eapply Forall_impl; [exact Hfits|]. intros w (b & Hb). exists b. by apply (kept_fits s).
    + intros f [Hf|Hf]%Ha2; [apply Hlo in Hf|unfold in_span in Hf]; lia.
    + intros d x [Hx|Hx]%Honly; [apply Hloc in Hx; lia|]. apply Hspan in Hx as (source & (w & b & i & ->%list_elem_of_singleton & _ & Hi & -> & _) & _). lia.
    + lia.
    + destruct R' as (Hk' & Hm' & Hin' & Hold' & Honly' & Ha1' & Ha2' & Hpost').
      exists s', status, m'. split; [exact E'|]. split; [by eapply kept_trans|]. split; [done|]. split; [done|].
      assert (Htaken : forall l d y, taken_from s1 columns l d y <-> taken_from s columns l d y).
      { intros l d y. unfold taken_from. by setoid_rewrite (kept_taken s s1 _ _ Hk). }
      pose proof (taken_from_cons s columns v (take n (drop (S index) spans))) as Hcons.
      split; [intros d x Hx; by apply Hold', Hold|]. split.
      { intros d y [Hy|Hy]%Honly'; [|right; apply Hcons; right; by apply Htaken].
        apply Honly in Hy as [Hy|Hy%Hspan]; [by left|right]. apply Hcons. by left. }
      split; [intros f Hf; by apply Ha1', Ha1|]. split.
      { intros f [Hf|Hf]%Ha2'; [apply Ha2 in Hf as [Hf|Hf]; [by left|]|]; right; rewrite shown_cons; [by left|by right]. }
      destruct Hpost' as [Hst|(-> & Hcols' & Hacc')]; [by left|right]. split; [done|]. split.
      * intros d y [Hy|Hy]%Hcons; [apply Hold', Hcols; by apply Hspan|apply Hcols'; by apply Htaken].
      * intros f [Hf|Hf]%shown_cons; [by apply Ha1', Hacc|by apply Hacc'].
Qed.

(** ** The spans of a result *)

Lemma valid_columns_from r : valid true (content_of r) ->
  Forall (fun v => exists base, sp_columns v = Some base /\ (base + Z.to_nat (sp_column_count v) <= length (res_overview_columns r))%nat /\
    0 <= sp_column_count v) (result_spans r) -> columns_from 0 (result_spans r).
Proof.
  intros Hv Hcols. pose proof (v_sorted _ _ Hv) as Ho. cbn [content_of k_spans] in Ho.
  revert Ho. generalize 0 at 1 as frame. generalize 0 as column. revert Hcols.
  induction (result_spans r) as [|v l IH]; intros Hcols column frame Ho; [done|].
  apply Forall_cons in Hcols as [(base & Hb & Hlen & Hc) Hcols]. cbn [map] in Ho. destruct Ho as (O1 & O2 & O3).
  cbn [span_content_of k_first_column] in O2. split; [exact O2|]. apply (IH Hcols _ _) in O3.
  replace (sp_first_column_index v + sp_column_count v) with (k_end_column (span_content_of (res_overview_columns r) v)); [exact O3|].
  unfold k_end_column, span_content_of. rewrite Hb. cbn [k_first_column k_columns]. unfold zlen.
  rewrite length_take, length_drop. lia.
Qed.

(** The spans of the result fit the session. *)
Lemma result_span_fits s r v : serializable true r ->
  Wovr.ov_frames_per_column (res_overview r) = fpc_of s -> v ∈ result_spans r ->
  (known (cfg_total_frames (se_config s)) -> sp_end_frame v <= cfg_total_frames (se_config s)) ->
  exists base, span_fits s (res_overview_columns r) v base /\
    (base + Z.to_nat (sp_column_count v) <= length (res_overview_columns r))%nat.
Proof.
  intros [Htyped Hvalid _ [spans Es] Hbase] Hfpc Hv Htot.
  rewrite Forall_forall in Hbase. destruct (Hbase v Hv) as [base Hb].
  pose proof (v_span _ _ Hvalid) as Hsp. pose proof (v_logical _ _ Hvalid) as Hlog.
  pose proof (v_frames_per_column _ _ Hvalid) as Hf. pose proof (v_origin _ _ Hvalid) as Horig. unfold is_u64 in Horig.
  change (k_spans (content_of r)) with (map (span_content_of (res_overview_columns r)) (result_spans r)) in Hsp.
  rewrite Forall_forall in Hsp. specialize (Hsp (span_content_of (res_overview_columns r) v) ltac:(by apply list_elem_of_fmap_2)).
  destruct Hsp as [P1 P2 P3 P4 P5 P6 P7 P8 P9].
  destruct (rt_spans r Htyped spans Es) as [_ Hst]. rewrite Forall_forall in Hst.
  assert (Hin : v ∈ spans) by (unfold result_spans in Hv; rewrite Es in Hv; apply elem_of_take in Hv as (i & Hi & _); by apply list_elem_of_lookup_2 in Hi).
  destruct (Hst v Hin) as (_ & _ & _ & Tc & Tb). rewrite Hb in Tb. unfold is_u32 in Tc.
  unfold span_content_of, k_end_column in *. rewrite Hb in *. cbn [k_columns k_first_column k_first k_end] in *.
  set (l := take (Z.to_nat (sp_column_count v)) (drop base (res_overview_columns r))) in *.
  assert (Hl : length l = Z.to_nat (sp_column_count v)) by (unfold l; rewrite length_take, length_drop; lia).
  assert (Hn : 1 <= sp_column_count v) by (destruct l; [done|simpl in Hl; lia]).
  unfold zlen in *. rewrite Hl, Z2Nat.id in * by lia.
  cbn [content_of k_origin k_frames_per_column] in P6, P7, P8, Hf, Horig. rewrite Hfpc in P6, P7, P8, Hf.
  set (origin := ov_origin_frame (res_overview r)) in *. set (total := cfg_total_frames (se_config s)) in *.
  exists base. split; [|lia]. constructor; try done.
  - intros i Hi. destruct (lookup_lt_is_Some_2 l i ltac:(lia)) as [source Hsrc]. exists source.
    rewrite Forall_lookup in P2. split; [|by eapply P2]. unfold l in Hsrc.
    rewrite lookup_take_Some, lookup_drop in Hsrc. apply Hsrc.
  - lia.
  - split; [|exact P4]. nia.
  - intros c Hc. split; [lia|]. intros Hk. specialize (Htot Hk).
    destruct P8 as [P8|(K & P8 & P8' & P8'')]; [nia|].
    assert (Hlast : (sp_first_column_index v + sp_column_count v - 1) * fpc_of s < sp_end_frame v - origin).
    { rewrite P8, P8'. unfold k_logical. rewrite K. cbn [content_of k_origin k_frames_per_column]. rewrite Hfpc. fold origin.
      set (t := k_total_frames (content_of r) - origin). change (res_total_source_frames r) with (k_total_frames (content_of r)). fold t.
      unfold required_columns. pose proof (Z.div_mod t (fpc_of s) ltac:(lia)). pose proof (Z.mod_pos_bound t (fpc_of s) ltac:(lia)).
      destruct (Z.eqb_spec (t mod fpc_of s) 0); nia. }
    nia.
Qed.

(** ** The call *)

(** What the contract of seeding asks of the host: an untouched session and a result a
    strict reader accepts. *)
Record seedable (s : session) (r : apta_result_t) : Prop := {
  sd_untouched : ov_count (se_overview s) = 0%nat /\ cov_count (se_coverage s) = 0%nat;
  sd_result : serializable true r
}.

Lemma spans_beyond_spec total spans n : forall index, (index + n <= length spans)%nat ->
  exists b, spans_beyond total spans index n = Ret b /\
    (b = false -> Forall (fun v => known total -> sp_end_frame v <= total) (take n (drop index spans))).
Proof.
  induction n as [|n IH]; intros index Hlen; cbn [spans_beyond].
  - exists false. split; [done|]. intros _. by constructor.
  - destruct (lookup_lt_is_Some_2 spans index ltac:(lia)) as [v Hv]. unfold arr_get. rewrite Hv. cbn [obind].
    destruct (Z.eqb_spec total APTA_TOTAL_FRAMES_UNKNOWN) as [Ht|Ht], (Z.ltb_spec total (sp_end_frame v)); cbn [negb andb];
      try (by exists true);
      (destruct (IH (S index) ltac:(lia)) as (b & E & Hb); exists b; split; [done|]; intros Hf; specialize (Hb Hf);
       rewrite (take_drop_cons _ _ _ _ Hv); constructor; [|done]; by intros Hk || lia).
Qed.

(** The guards of the call: it is refused, or the spans are taken over. *)
Lemma seed_guards s r : serializable true r ->
  (exists status, is_error status = true /\ apta_session_seed_from_result allocate fresh fresh_range s r = Ret (s, status)) \/
  exists spans n, result_spans r = take n spans /\ (n <= length spans)%nat /\ Z.of_nat n <= UINT32_MAX /\
    se_state s = APTA_SESSION_CREATED /\ Wovr.ov_frames_per_column (res_overview r) = fpc_of s /\
    Forall (fun v => known (cfg_total_frames (se_config s)) -> sp_end_frame v <= cfg_total_frames (se_config s)) (result_spans r) /\
    apta_session_seed_from_result allocate fresh fresh_range s r =
      seed_spans allocate fresh fresh_range s (res_overview_columns r) spans 0 n.
Proof.
  intros [Htyped Hvalid Hfeat [spans Es] _]. unfold apta_session_seed_from_result.
  destruct (se_process_lock s); [left; by (eexists; split; [|reflexivity])|]. case_bool_decide as Hst; cbn [negb]; [|left; by (eexists; split; [|reflexivity])].
  unfold apta_result_get_info, apta_result_get_waveform_overview. cbn [negb obind Z.eqb]. rewrite Hfeat. cbn [negb orb obind].
  change (is_error APTA_STATUS_OK) with false. cbn iota.
  destruct (source_conflict (se_config s) r); [left; by (eexists; split; [|reflexivity])|].
  destruct (Z.eqb_spec (Wovr.ov_frames_per_column (res_overview r)) (Overview.ov_frames_per_column (se_overview s))) as [Hfpc|];
    cbn [negb]; [|left; by (eexists; split; [|reflexivity])].
  rewrite Es. cbn [default from_option]. unfold id. set (n := Z.to_nat (ov_span_count (res_overview r))).
  destruct (rt_spans r Htyped spans Es) as [Hn _]. pose proof (rt_span_count r Htyped) as Hn0. unfold is_u32, zlen in Hn, Hn0.
  destruct (spans_beyond_spec (cfg_total_frames (se_config s)) spans n 0 ltac:(unfold n; lia)) as (b & Eb & Hb). rewrite Eb.
  cbn [obind]. destruct b; [left; by (eexists; split; [|reflexivity])|]. right. exists spans, n.
  assert (Hres : result_spans r = take n spans) by (unfold result_spans; by rewrite Es).
  split; [done|]. split; [unfold n; lia|]. split; [unfold n; lia|]. split; [done|]. split; [done|]. split; [|done].
  rewrite Hres. exact (Hb eq_refl).
Qed.

(** What the call leaves that was not refused. *)
Definition took_over (s : session) (r : apta_result_t) (s' : session) (m' : list column) (status : apta_status_t) : Prop :=
  se_state s = APTA_SESSION_CREATED /\ Wovr.ov_frames_per_column (res_overview r) = fpc_of s /\
  Forall (fun v => exists base, span_fits s (res_overview_columns r) v base) (result_spans r) /\
  Forall (fun v => known (cfg_total_frames (se_config s)) -> sp_end_frame v <= cfg_total_frames (se_config s)) (result_spans r) /\
  seed_result s [] s' m' status (shown (result_spans r)) (taken_from s (res_overview_columns r) (result_spans r)).

Lemma nothing_accepted s f : cov_count (se_coverage s) = 0%nat -> ~ accepted s f.
Proof. intros Hc (x & Hx & _). unfold accepted_ranges in Hx. rewrite Hc in Hx. by apply elem_of_nil in Hx. Qed.

Lemma untouched_columns s m : table_shape (se_overview s) m -> ov_count (se_overview s) = 0%nat -> m = [].
Proof. intros Hm Hc. pose proof (rp_count _ _ (ts_represents _ _ Hm)) as E. rewrite Hc in E. by destruct m. Qed.

Lemma seed_call_spec s r : session_ok s -> seedable s r ->
  exists s' status, apta_session_seed_from_result allocate fresh fresh_range s r = Ret (s', status) /\
    (is_error status = true /\ s' = s \/ exists m', took_over s r s' m' status).
Proof.
  intros (m & Hs & _) [[Hcount Hcov] Hser]. pose proof (pl_measuring _ _ (sv_pipeline _ _ Hs)) as Hm.
  change (wv_overview (se_waveform s)) with (se_overview s) in Hm.
  pose proof (untouched_columns s m (me_shape _ _ Hm) Hcount) as ->.
  destruct (seed_guards s r Hser) as [(status & He & ->)|(spans & n & Hres & Hn & Hn32 & Hst & Hfpc & Htot & ->)].
  { exists s, status. split; [done|]. by left. }
  pose proof Hser as [_ Hvalid _ _ _]. pose proof Htot as Htot'. rewrite Forall_forall in Htot'.
  assert (Hfits : Forall (fun v => exists base, span_fits s (res_overview_columns r) v base /\
    (base + Z.to_nat (sp_column_count v) <= length (res_overview_columns r))%nat) (result_spans r))
    by (apply Forall_forall; intros v Hv; apply result_span_fits; auto).
  assert (Hfits' : Forall (fun v => exists base, span_fits s (res_overview_columns r) v base) (result_spans r))
    by (eapply Forall_impl; [exact Hfits|]; intros v (base & Hb & _); by exists base).
  destruct (seed_spans_spec (res_overview_columns r) spans n s [] 0 0 0 Hm (sv_input _ _ Hs)) as (s' & status & m' & E & Hr).
  - lia.
  - by rewrite drop_0, <- Hres.
  - rewrite drop_0, <- Hres. by apply valid_spans_from.
  - rewrite drop_0, <- Hres. apply valid_columns_from; [done|]. eapply Forall_impl; [exact Hfits|].
    intros v (base & Hb & Hlen). exists base. split; [apply Hb|]. split; [done|]. pose proof (sf_count _ _ _ _ Hb). lia.
  - intros f Hf. by apply nothing_accepted in Hf.
  - done.
  - rewrite Hcov. lia.
  - exists s', status. split; [done|]. right. exists m'. split; [done|]. split; [done|]. split; [done|]. split; [done|].
    rewrite drop_0, <- Hres in Hr. exact Hr.
Qed.

(** ** Whole columns *)

(** The result shows whole columns of the session, counted from frame 0. *)
Definition in_whole_columns (s : session) (r : apta_result_t) : Prop :=
  ov_origin_frame (res_overview r) = 0 /\
  Forall (fun v => sp_end_frame v = (sp_first_column_index v + sp_column_count v) * fpc_of s) (result_spans r).

Lemma whole_spans s r : serializable true r -> Wovr.ov_frames_per_column (res_overview r) = fpc_of s -> in_whole_columns s r ->
  Forall (fun v => known (cfg_total_frames (se_config s)) -> sp_end_frame v <= cfg_total_frames (se_config s)) (result_spans r) ->
  Forall (whole_span s) (result_spans r).
Proof.
  intros [_ Hvalid _ _ _] Hfpc [Ho Hend] Htot. rewrite Forall_forall in Hend, Htot. apply Forall_forall. intros v Hv.
  constructor; auto. pose proof (v_span _ _ Hvalid) as Hsp.
  change (k_spans (content_of r)) with (map (span_content_of (res_overview_columns r)) (result_spans r)) in Hsp.
  rewrite Forall_forall in Hsp. specialize (Hsp (span_content_of (res_overview_columns r) v) ltac:(by apply list_elem_of_fmap_2)).
  destruct Hsp as [_ _ _ _ _ P6 _ _ _]. cbn [content_of k_origin k_frames_per_column] in P6. rewrite Ho, Hfpc in P6.
  unfold span_content_of in P6. destruct (sp_columns v); cbn [k_first k_first_column] in P6; lia.
Qed.

Section Whole.
Context (s : session) (r : apta_result_t) (s' : session) (m' : list column).
Context (Hs : session_valid s []) (Hcov : cov_count (se_coverage s) = 0%nat).
Context (Htook : took_over s r s' m' APTA_STATUS_OK) (Hwhole : Forall (whole_span s) (result_spans r)).

Lemma whole_result : kept s s' /\ measuring (se_overview s') m' /\ input_ok (session_input s') /\
  (forall d y, column_of m' d = Some y <-> taken_from s (res_overview_columns r) (result_spans r) d y) /\
  (forall f, accepted s' f <-> shown (result_spans r) f).
Proof.
  destruct Htook as (_ & _ & _ & _ & K & Hm & Hin & _ & Honly & _ & Ha & Hpost).
  destruct Hpost as [[Hst|Hst]|(_ & Hcols & Hacc)]; [done|done|]. split; [done|]. split; [done|]. split; [done|]. split.
  - intros d y. split; [|apply Hcols]. by intros [Hy|Hy]%Honly.
  - intros f. split; [|apply Hacc]. intros [Hf|Hf]%Ha; [|done]. by apply nothing_accepted in Hf.
Qed.

(** A column of the result is whole. *)
Lemma whole_shown d source : shows_column (res_overview_columns r) (result_spans r) d source ->
  kept_frames (cfg_total_frames (se_config s)) (fpc_of s) d = fpc_of s /\
  forall f, d * fpc_of s <= f < d * fpc_of s + fpc_of s -> shown (result_spans r) f.
Proof.
  intros (v & base & i & Hv & Hb & Hi & -> & _). rewrite Forall_forall in Hwhole.
  destruct (Hwhole v Hv) as [W1 W2 W3]. split.
  - unfold kept_frames. destruct (Z.eqb_spec (cfg_total_frames (se_config s)) APTA_TOTAL_FRAMES_UNKNOWN); [done|].
    specialize (W3 ltac:(done)). pose proof (valid_fpc _ _ Hs). nia.
  - intros f Hf. exists v. split; [done|]. unfold in_span. pose proof (valid_fpc _ _ Hs). nia.
Qed.

(** The column of a frame of the result is in the result. *)
Lemma shown_column f d : shown (result_spans r) f -> d * fpc_of s <= f < d * fpc_of s + fpc_of s ->
  exists source, shows_column (res_overview_columns r) (result_spans r) d source.
Proof.
  intros (v & Hv & Hf) Hd. unfold in_span in Hf. rewrite Forall_forall in Hwhole. destruct (Hwhole v Hv) as [W1 W2 _].
  destruct Htook as (_ & _ & Hfits & _). rewrite Forall_forall in Hfits. destruct (Hfits v Hv) as [base F].
  pose proof (valid_fpc _ _ Hs) as Hfp. pose proof (sf_count _ _ _ _ F) as Hc.
  assert (Hin : sp_first_column_index v <= d < sp_first_column_index v + sp_column_count v) by nia.
  destruct (sf_columns _ _ _ _ F (Z.to_nat (d - sp_first_column_index v)) ltac:(lia)) as (source & Hsrc & _).
  exists source, v, base, (Z.to_nat (d - sp_first_column_index v)). split; [done|]. split; [apply F|]. split; [lia|].
  split; [lia|done].
Qed.

Lemma whole_exact d : load (se_waveform s') m' d = frames_of (se_coverage s') (fpc_of s') d.
Proof.
  destruct whole_result as (K & _ & _ & Hcols & Hacc). pose proof (valid_fpc _ _ Hs) as Hfp. rewrite (kept_fpc _ _ K).
  assert (Hp : pending_in (fpc_of s) d (wv_pcm (se_waveform s)) = 0).
  { pose proof (sv_exact _ _ Hs d) as He. unfold load in He. cbn [column_of find samples_of] in He.
    destruct (Z.eq_dec (frames_of (se_coverage s) (fpc_of s) d) 0) as [E|Hne]; [unfold fpc_of, se_overview in *; lia|].
    pose proof (frames_of_range (se_coverage s) (fpc_of s) d ltac:(lia)).
    destruct (frames_of_pos (se_coverage s) (fpc_of s) d ltac:(lia) ltac:(lia)) as (f & _ & Hf).
    by apply nothing_accepted in Hf. }
  unfold load. change (Overview.ov_frames_per_column (wv_overview (se_waveform s'))) with (fpc_of s').
  rewrite (kept_fpc _ _ K), (kp_pcm _ _ K), Hp, Z.add_0_r.
  destruct (column_of m' d) as [y|] eqn:Ey; cbn [samples_of].
  - apply Hcols in Ey as (source & Hsrc & ->). destruct (whole_shown _ _ Hsrc) as [Hk Hall].
    cbn [taken seeded fst ac_sample_count]. rewrite Hk. symmetry. apply frames_of_all; [lia|]. intros f Hf. by apply Hacc, Hall.
  - pose proof (frames_of_range (se_coverage s') (fpc_of s) d ltac:(lia)).
    destruct (Z.eq_dec (frames_of (se_coverage s') (fpc_of s) d) 0) as [E|Hne]; [done|].
    destruct (frames_of_pos (se_coverage s') (fpc_of s) d ltac:(lia) ltac:(lia)) as (f & Hd & Hf). apply Hacc in Hf.
    destruct (shown_column f d Hf Hd) as [source Hsrc]. assert (Hy : column_of m' d = Some (taken s d source))
      by (apply Hcols; by exists source). congruence.
Qed.

Lemma whole_valid : ov_end_of_input_signalled (se_overview s) = false -> session_valid s' m'.
Proof.
  intros Hsig. destruct whole_result as (K & Hm & Hin & Hcols & Hacc). pose proof (valid_fpc _ _ Hs) as Hfp.
  pose proof (kp_geometry _ _ K) as Kg. pose proof (kept_fpc _ _ K) as Ef. pose proof (kept_config _ _ K) as Ec.
  assert (Hsig' : ov_end_of_input_signalled (se_overview s') = false) by by rewrite (sg_end _ _ Kg).
  pose proof (sv_pipeline _ _ Hs) as Hp. pose proof Hwhole as Hw. rewrite Forall_forall in Hw.
  pose proof Htook as (_ & _ & Hfits & Htot & _). rewrite Forall_forall in Hfits, Htot.
  constructor; rewrite ?Ec; try done; try apply Hs.
  - constructor; [exact Hm| | | |].
    + destruct (pl_queue _ _ Hp) as [Q1 Q2]. constructor; rewrite ?(kp_pcm _ _ K), ?(kp_queued _ _ K); done.
    + change (wv_overview (se_waveform s')) with (se_overview s'). rewrite (sg_final _ _ Kg). apply Hs.
    + intros d Hd. rewrite whole_exact. apply (frames_expected (se_overview s')); [by rewrite (sg_frames _ _ Kg)|done| |by rewrite Hsig'].
      rewrite (sg_final _ _ Kg). apply (pl_final _ _ Hp).
    + intros x Hx Hcx. change (wv_overview (se_waveform s')) with (se_overview s'). rewrite (same_geometry_expected _ _ _ Kg).
      pose proof (column_of_member _ _ (ts_sorted _ _ (me_shape _ _ Hm)) Hx) as E. apply Hcols in E as (source & Hsrc & Ex).
      rewrite Ex. cbn [taken seeded fst ac_sample_count]. rewrite (proj1 (whole_shown _ _ Hsrc)).
      unfold apta_expected_column_frames. by rewrite Hsig.
  - rewrite (kp_publication _ _ K). apply Hs.
  - apply whole_exact.
  - rewrite (sg_features _ _ Kg). apply Hs.
  - intros Hkn. rewrite Ef. split; [by apply (sv_total _ _ Hs)|]. intros f (v & Hv & Hf)%Hacc.
    specialize (Htot v Hv Hkn). unfold in_span in Hf. lia.
  - intros f (v & Hv & Hf)%Hacc. rewrite Ef. destruct (Hfits v Hv) as [base F]. pose proof (sf_indices _ _ _ _ F).
    unfold in_span in Hf. rewrite (ws_end _ _ (Hw v Hv)) in Hf. nia.
  - by rewrite Hsig'.
Qed.

End Whole.

(** The call on whole columns, when memory does not run out. *)
Lemma seed_ok s r : session_ok s -> seedable s r -> in_whole_columns s r ->
  exists s' status, apta_session_seed_from_result allocate fresh fresh_range s r = Ret (s', status) /\
    (~ out_of_memory status -> session_ok s' /\ se_publication s' = se_publication s).
Proof.
  intros Hok Hr Hw. destruct (seed_call_spec s r Hok Hr) as (s' & status & E & Hcase). exists s', status. split; [done|].
  intros Hmem. destruct Hcase as [[_ ->]|(m' & Htook)]; [done|]. pose proof Hok as (m & Hs & Hshow & Hph).
  destruct Hr as [[Hcount Hcov] Hser].
  pose proof (untouched_columns s m (me_shape _ _ (pl_measuring _ _ (sv_pipeline _ _ Hs))) Hcount) as ->.
  pose proof Htook as (Hst & Hfpc & _ & Htot & K & _ & _ & _ & _ & _ & _ & [Hst'|(-> & _)]); [done|].
  assert (Hsig : ov_end_of_input_signalled (se_overview s) = false) by (unfold phase_ok in Hph; by rewrite Hst in Hph).
  pose proof (whole_spans s r Hser Hfpc Hw Htot) as Hwhole.
  split; [|apply K]. exists m'. split; [by apply (whole_valid s r)|]. rewrite (kp_publication _ _ K). split; [done|].
  unfold phase_ok, se_state in *. rewrite (kp_publication _ _ K), Hst. by rewrite (sg_end _ _ (kp_geometry _ _ K)).
Qed.

(** ** The contract *)

(** A column stores again as it was. *)
Lemma taken_stored s r bands c source : 1 <= fpc_of s <= 65536 -> Forall column_typed (res_overview_columns r) ->
  Forall (fun v => exists base, span_fits s (res_overview_columns r) v base) (result_spans r) ->
  shows_column (res_overview_columns r) (result_spans r) c source -> stored bands (taken s c source) = reproduced bands source.
Proof.
  intros Hfp Ht Hfits (v & base & i & Hv & _ & Hi & -> & Hsrc). rewrite Forall_forall in Hfits. destruct (Hfits v Hv) as [b F].
  rewrite Forall_lookup in Ht. apply seeded_stored; [by eapply Ht|].
  pose proof (kept_frames_range _ _ _ (proj1 Hfp) (sf_open _ _ _ _ F (sp_first_column_index v + Z.of_nat i) ltac:(lia))). lia.
Qed.


End Seeding.
