(* ===== verification/SessionTheorems.v ===== *)
(** * Histories of a session

    The calls of a host on a session it created, one after the other. *)

From stdpp Require Import gmap.
From Stdlib Require Import Floats.SpecFloat.
From S2P Require Import Prelude Platform Memory FloatFacts Samples Ranges AcceptPcm SampleTheorems Bytes Wovr WovrSpec.
From S2P Require Import Scheduler Overview OverviewTable OverviewMeasure Quantize Snapshot SnapshotFill.
From S2P Require Import Publish PublishTheorems Process ProcessTheorems Coverage ProcessCall ProcessOrder ProcessOrderTheorems.
From S2P Require Import Session WovrWriterTheorems ResultAccessors Seed SeedQuantize SeedColumns.
From S2P Require Import SnapshotTheorems SessionInvariant SessionFinal SessionSteps SeedTheorems.

(** ** Calls *)

(** A call with the answers of the allocator while it runs. *)
Inductive session_call : Type :=
| call_push (allocate : nat -> Z -> bool) (block : apta_pcm_block_t)
| call_signal_end (allocate : nat -> Z -> bool) (final_end_frame : Z)
| call_process (allocate : nat -> Z -> bool) (clock : option (nat -> Z)) (budget : apta_work_budget_t)
| call_cancel
| call_seed (allocate : nat -> Z -> bool) (r : apta_result_t).

Section Histories.
Context `{PlatformLaws}.
Context (fresh : accumulator) (fresh_range : range).

Definition call (s : session) (e : session_call) : result (session * apta_status_t) :=
  match e with
  | call_push allocate block =>
      let! '(s, status, _) := apta_session_push_pcm allocate fresh_range s block in Ret (s, status)
  | call_signal_end allocate final => apta_session_signal_end_of_input allocate s final
  | call_process allocate clock budget =>
      let! '(s, status, _) := apta_session_process allocate fresh clock s budget in Ret (s, status)
  | call_cancel => Ret (apta_session_request_cancel s, APTA_STATUS_OK)
  | call_seed allocate r => apta_session_seed_from_result allocate fresh fresh_range s r
  end.

(** The session after the calls, and their statuses. *)
Fixpoint calls (s : session) (l : list session_call) : result (session * list apta_status_t) :=
  match l with
  | [] => Ret (s, [])
  | e :: l => let! '(s, status) := call s e in let! '(s, statuses) := calls s l in Ret (s, status :: statuses)
  end.

(** What a call asks of the host and of memory. *)
Definition may_call (s : session) (e : session_call) : Prop :=
  match e with
  | call_push _ block => pushable s block
  | call_signal_end _ final => endable s final
  | call_process allocate clock budget => processable allocate fresh clock s budget
  | call_cancel => True
  | call_seed allocate r => seedable s r /\ in_whole_columns s r /\
      forall s' status, apta_session_seed_from_result allocate fresh fresh_range s r = Ret (s', status) -> ~ out_of_memory status
  end.

Fixpoint may_run (s : session) (l : list session_call) : Prop :=
  match l with
  | [] => True
  | e :: l => may_call s e /\ forall s' status, call s e = Ret (s', status) -> may_run s' l
  end.

Lemma call_ok s e : session_ok s -> may_call s e ->
  exists s' status, call s e = Ret (s', status) /\ session_ok s' /\ follows s s'.
Proof.
  intros Hs He. destruct e as [allocate block|allocate final|allocate clock budget| |allocate r]; cbn [call may_call] in *.
  - destruct (push_ok allocate fresh_range s block Hs He) as (s' & status & n & -> & H1 & H2 & _). by exists s', status.
  - destruct (signal_end_ok allocate s final Hs He) as (s' & status & -> & H1 & H2 & _). by exists s', status.
  - destruct (process_ok allocate fresh clock s budget Hs He) as (s' & status & out & -> & H1). exists s', status.
    split; [done|]. by destruct H1.
  - exists (apta_session_request_cancel s), APTA_STATUS_OK. split; [done|]. split; [|by apply follows_same].
    destruct Hs as (m & [] & Hshow & Hph). exists m. by split; [constructor|].
  - destruct He as (Hr & Hw & Hmem). destruct (seed_ok allocate fresh fresh_range s r Hs Hr Hw) as (s' & status & E & Hok).
    rewrite E. exists s', status. destruct (Hok (Hmem _ _ E)) as [H1 H2]. split; [done|]. split; [done|]. by apply follows_same.
Qed.

Lemma calls_ok s l : session_ok s -> may_run s l ->
  exists s' statuses, calls s l = Ret (s', statuses) /\ session_ok s' /\ follows s s'.
Proof.
  revert s. induction l as [|e l IH]; intros s Hs Hl; cbn [calls].
  - exists s, []. split; [done|]. split; [done|by apply follows_same].
  - destruct Hl as [He Hl]. destruct (call_ok s e Hs He) as (s1 & status & E & Hs1 & Hf). rewrite E. cbn [obind].
    destruct (IH s1 Hs1 (Hl _ _ E)) as (s' & statuses & -> & Hs' & Hf'). cbn [obind].
    exists s', (status :: statuses). split; [done|]. split; [done|]. by eapply follows_trans.
Qed.

(** ** Creation *)

(** A configuration whose fields have their widths and whose track has columns that
    can be numbered. *)
Record host_config (c : apta_session_config_t) : Prop := {
  hc_rate : is_u32 (cfg_source_sample_rate c);
  hc_channels : is_u16 (cfg_channel_count c);
  hc_layout : is_u16 (cfg_channel_layout c);
  hc_kind : is_u32 (cfg_source_fingerprint_kind c);
  hc_fingerprint : length (cfg_source_fingerprint c) = 32%nat /\ bytes_ok (cfg_source_fingerprint c);
  hc_total : is_u64 (cfg_total_frames c);
  hc_length : known (cfg_total_frames c) -> required_columns (cfg_total_frames c)
    (if negb (cfg_overview_frames_per_column c =? 0) then cfg_overview_frames_per_column c
     else APTA_INTERNAL_OVERVIEW_FRAMES_PER_COLUMN) <= UINT32_MAX
}.

Lemma config_accepted capabilities c : host_config c -> apta_session_config_is_valid capabilities c = true ->
  config_ok c /\
  1 <= (if negb (cfg_overview_frames_per_column c =? 0) then cfg_overview_frames_per_column c
        else APTA_INTERNAL_OVERVIEW_FRAMES_PER_COLUMN) <= 65536.
Proof.
  intros [C1 C2 C3 C4 C5 C6 C7] Hv. unfold is_u32, is_u16 in *. unfold apta_session_config_is_valid in Hv.
  destruct (_ && _) in Hv; [done|]. destruct (_ || _) eqn:E1 in Hv; [done|]. apply orb_false_iff in E1 as [_ E1]. apply negb_false_iff in E1.
  destruct (_ || _) eqn:E2 in Hv; [done|]. apply orb_false_iff in E2 as [E2 _]. apply orb_false_iff in E2 as [E2 E3].
  apply orb_false_iff in E2 as [E2 E4]. apply Z.eqb_neq in E2, E4. apply Z.ltb_ge in E3.
  destruct (_ && _) in Hv; [done|]. destruct (_ && _) in Hv; [done|]. destruct (any _ _) in Hv; [done|].
  destruct (apta_internal_overview_resolution_is_valid c) eqn:E5; [|done]. cbn [negb] in Hv.
  destruct (_ && _) eqn:E6 in Hv; [done|]. split.
  - constructor; try done; try lia.
  - unfold apta_internal_overview_resolution_is_valid in E5.
    destruct (Z.eqb_spec (cfg_overview_frames_per_column c) 0); cbn [negb]; [unfold APTA_INTERNAL_OVERVIEW_FRAMES_PER_COLUMN; lia|].
    apply andb_true_iff in E5 as [E5 _]. lia.
Qed.

Lemma initial_filter expf rate : filter_ok (apta_internal_band_filter_init expf rate).
Proof. unfold apta_internal_band_filter_init. cbv zeta. by destruct (SFleb _ _). Qed.

Lemma initial_valid expf context config : config_ok config -> host_config config ->
  1 <= (if negb (cfg_overview_frames_per_column config =? 0) then cfg_overview_frames_per_column config
        else APTA_INTERNAL_OVERVIEW_FRAMES_PER_COLUMN) <= 65536 ->
  any (cfg_flags config) APTA_SESSION_FLAG_BOUNDED_RESULT_SLOTS = false ->
  session_valid (initial_session expf context config) [].
Proof.
  intros Hc Hh Hf Hflag. set (s := initial_session expf context config).
  assert (Hno : forall f, ~ accepted s f) by (intros f (r & Hr & _); by apply elem_of_nil in Hr).
  assert (Hm : measuring (se_overview s) []).
  { constructor; [constructor; simpl; try done; try lia|apply initial_filter|exact Hf|done].
    - constructor; [by exists []|done|by constructor].
    - constructor. }
  assert (Hp : pipeline (se_waveform s) []).
  { constructor; [exact Hm|by constructor|unfold is_u64; simpl; unfold APTA_TOTAL_FRAMES_UNKNOWN; lia| |].
    - intros d Hd. change (load (se_waveform s) [] d) with 0. unfold apta_expected_column_frames. simpl. lia.
    - intros x Hx. by apply elem_of_nil in Hx. }
  assert (Hexact : forall d, load (se_waveform s) [] d = frames_of (se_coverage s) (fpc_of s) d).
  { intros d. change (load (se_waveform s) [] d) with 0. symmetry.
    pose proof (frames_of_range (se_coverage s) (fpc_of s) d ltac:(unfold fpc_of; simpl; lia)) as [H1 H2].
    destruct (Z.eq_dec (frames_of (se_coverage s) (fpc_of s) d) 0) as [|Hne]; [done|].
    destruct (frames_of_pos (se_coverage s) (fpc_of s) d ltac:(unfold fpc_of; simpl; lia) ltac:(lia)) as (f & _ & Hcov).
    by destruct (Hno f). }
  constructor; try exact Hp; try exact Hexact; try exact Hc; try done.
  - intros Hk. split; [by apply Hh|]. intros f Hfa. by destruct (Hno f).
  - intros f Hfa. by destruct (Hno f).
Qed.

Lemma create_ok allocate expf context config context' s : host_config config ->
  apta_session_create_base allocate expf context config = Ret (context', inl s) ->
  session_ok s /\ se_state s = APTA_SESSION_CREATED.
Proof.
  intros Hh. unfold apta_session_create_base.
  destruct (negb (apta_internal_validate_struct _ _ _ _)); [done|]. destruct (any _ _); [done|]. destruct (_ && _); [done|].
  destruct (_ || _); [done|]. destruct (apta_session_config_is_valid (ctx_capabilities context) config) eqn:Ev; [|done]. cbn [negb].
  destruct (negb _); [done|]. destruct (config_accepted _ _ Hh Ev) as [Hc Hf].
  destruct (any (cfg_flags config) APTA_SESSION_FLAG_BOUNDED_RESULT_SLOTS) eqn:Eb.
  { unfold publish, apta_internal_publish_result. cbn [initial_session se_publication se_waveform wv_publication pu_config].
    rewrite Eb. done. }
  pose proof (initial_valid expf (lineage_taken context) config Hc Hh Hf Eb) as Hv.
  destruct (publish_valid allocate _ [] 0 Hv) as (s' & m' & status & -> & Hv' & Hi & Hg & Hcase). cbn [obind].
  destruct Hcase as [(-> & -> & Hcfg & Hst & _ & Hshow)|[He _]]; [|by rewrite He].
  cbn [is_error status_code Z.ltb Z.compare]. intros [= _ <-]. split; [|exact Hst].
  exists []. split; [done|]. split; [done|]. unfold phase_ok. rewrite Hst. cbn [initial_session se_state se_publication se_waveform wv_publication pu_state].
  by rewrite (sg_end _ _ Hg).
Qed.

(** ** Histories *)

Lemma may_run_app s l k s1 statuses : may_run s (l ++ k) -> calls s l = Ret (s1, statuses) -> may_run s l /\ may_run s1 k.
Proof.
  revert s statuses. induction l as [|e l IH]; intros s statuses Hm Hc; cbn [app calls may_run] in *.
  - injection Hc as <- <-. by split.
  - destruct Hm as [He Hm]. destruct (call s e) as [[s2 st]|?|] eqn:Ee; [|done|done]. cbn [obind] in Hc.
    destruct (calls s2 l) as [[s3 sts]|?|] eqn:El; [|done|done]. injection Hc as <- <-.
    destruct (IH s2 sts (Hm _ _ eq_refl) El) as [H1 H2]. split; [|done]. split; [done|]. intros s' st' [= <- <-]. exact H1.
Qed.

Lemma calls_app s l k s1 statuses : calls s l = Ret (s1, statuses) ->
  calls s (l ++ k) = let! '(s2, sts) := calls s1 k in Ret (s2, statuses ++ sts).
Proof.
  revert s statuses. induction l as [|e l IH]; intros s statuses Hc; cbn [app calls] in *.
  - injection Hc as <- <-. by destruct (calls s k) as [[]| |].
  - destruct (call s e) as [[s2 st]|?|] eqn:Ee; [|done|done]. cbn [obind] in *.
    destruct (calls s2 l) as [[s3 sts]|?|] eqn:El; [|done|done]. injection Hc as <- <-.
    rewrite (IH _ _ El). by destruct (calls s3 k) as [[]| |].
Qed.

(** The sessions a host can reach. *)
Definition reachable (s : session) : Prop :=
  exists allocate expf context config context' s0 l statuses,
    host_config config /\ apta_session_create_base allocate expf context config = Ret (context', inl s0) /\
    may_run s0 l /\ calls s0 l = Ret (s, statuses).

Lemma reachable_ok s : reachable s -> session_ok s.
Proof.
  intros (allocate & expf & context & config & context' & s0 & l & statuses & Hh & Hc & Hm & Hl).
  destruct (create_ok _ _ _ _ _ _ Hh Hc) as [Hs _]. destruct (calls_ok s0 l Hs Hm) as (s' & sts & E & Hok & _). congruence.
Qed.

(** C3. The histories of a session, within the limits [host_config] and [may_run] set:
    the configuration is well typed and its track, when its length is known, has at most
    2^32 - 1 columns; every block is well typed, readable and ends within the first
    2^32 - 1 columns; an end of the input that is signalled has columns that can be
    numbered; seeding only happens on an untouched session, from a result a strict
    reader accepts, in whole columns counted from frame 0; and memory does not run out
    while a call measures or seeds (a push, an end of the input or the publication of a
    result may fail for lack of memory).  Then, for any sequence of seeding, pushing,
    signalling the end, processing and cancelling, no call goes wrong: every call
    returns, the states follow the allowed transitions and the failed state is never
    entered, generations never go back, and completed and cancelled sessions never
    change what they have published.  At the end the current result shows the session's
    generation, state and length, its overview (when it has one) is accepted by the
    strict writer and reader, and every frame the session accepted is either counted in
    its column or still queued.  ([last_column_unwritable], [far_frame_blocks_session],
    [out_of_memory_counts_twice] and [short_column_overstated] show what happens beyond
    these limits.) *)
Theorem session_history_safe allocate expf (context : apta_context_t) (config : apta_session_config_t) context' s0
    (l : list session_call) (Hconfig : host_config config)
    (Hcreate : apta_session_create_base allocate expf context config = Ret (context', inl s0)) (Hcalls : may_run s0 l) :
  exists s statuses,
    calls s0 l = Ret (s, statuses) /\
    rtc (fun a b => apta_session_transition_is_allowed a b = true) APTA_SESSION_CREATED (se_state s) /\
    se_state s <> APTA_SESSION_FAILED /\
    pu_generation (se_publication s0) <= pu_generation (se_publication s) /\
    (forall l1 l2 s1 statuses1, l = l1 ++ l2 -> calls s0 l1 = Ret (s1, statuses1) -> terminal (se_state s1) ->
       se_publication s = se_publication s1) /\
    current_is (se_publication s) (fun r =>
      ri_generation (res_info r) = pu_generation (se_publication s) /\ ri_session_state (res_info r) = se_state s /\
      res_total_source_frames r = cfg_total_frames (se_config s) /\
      (any (ri_available_features (res_info r)) APTA_FEATURE_WAVEFORM_OVERVIEW = true -> serializable true r)) /\
    exists m, table_shape (se_overview s) m /\
      forall d, samples_of (column_of m d) + pending_in (fpc_of s) d (wv_pcm (se_waveform s)) =
                frames_of (se_coverage s) (fpc_of s) d.
Proof.
  destruct (create_ok _ _ _ _ _ _ Hconfig Hcreate) as [Hs0 Hst0].
  destruct (calls_ok s0 l Hs0 Hcalls) as (s & statuses & E & (m & Hs & Hshow & Hph) & Hf). exists s, statuses.
  split; [done|]. split; [rewrite <- Hst0; apply Hf|]. split; [intros Hst; unfold phase_ok in Hph; by rewrite Hst in Hph|].
  split; [apply Hf|]. split.
  { intros l1 l2 s1 sts1 -> E1 Ht. destruct (may_run_app _ _ _ _ _ Hcalls E1) as [M1 M2].
    destruct (calls_ok s0 l1 Hs0 M1) as (s1' & sts & E1' & Hs1 & _). rewrite E1' in E1. injection E1 as <- <-.
    rewrite (calls_app _ _ _ _ _ E1') in E. destruct (calls_ok s1' l2 Hs1 M2) as (s2 & sts2 & E2 & _ & Hf2).
    rewrite E2 in E. injection E as <- _. by apply Hf2. }
  split; [destruct Hshow as (a & c & H1 & H2 & H3); by exists a, c|].
  exists m. split; [apply (me_shape _ _ (pl_measuring _ _ (sv_pipeline _ _ Hs)))|]. apply (sv_exact _ _ Hs).
Qed.

(** ** Completion *)

Definition is_process (e : session_call) : Prop := match e with call_process _ _ _ => True | _ => False end.

(** A completed session stays as it is. *)
Lemma completed_calls s l : se_state s = APTA_SESSION_COMPLETED -> se_cancel_requested s = false ->
  se_process_lock s = false -> Forall is_process l ->
  calls s l = Ret (s, replicate (length l) APTA_STATUS_END_OF_INPUT).
Proof.
  intros H1 H2 H3. induction 1 as [|e l He _ IH]; [done|]. destruct e; try done. cbn [calls call].
  unfold apta_session_process. rewrite H1, H2, H3. cbn [obind]. rewrite IH. done.
Qed.

Lemma last_replicate_end n : last (replicate (S n) APTA_STATUS_END_OF_INPUT) = Some APTA_STATUS_END_OF_INPUT.
Proof. induction n as [|n IH]; [done|]. exact IH. Qed.

Lemma draining_calls s l : session_ok s -> se_state s = APTA_SESSION_DRAINING -> se_cancel_requested s = false ->
  se_process_lock s = false -> wants s APTA_FEATURE_WAVEFORM_OVERVIEW = true -> Forall is_process l -> may_run s l ->
  queue_frames (se_waveform s) < Z.of_nat (length l) ->
  exists s' statuses, calls s l = Ret (s', statuses) /\
    (Exists (fun status => is_error status = true) statuses \/
     last statuses = Some APTA_STATUS_END_OF_INPUT /\ se_state s' = APTA_SESSION_COMPLETED /\ delivered s s').
Proof.
  revert s. induction l as [|e l IH]; intros s Hs Hst Hc Hl Hw Hp Hm Hlen.
  { destruct Hs as (m & Hs & _). pose proof (queue_nonneg _ (pl_queue _ _ (sv_pipeline _ _ Hs))). simpl in Hlen. lia. }
  apply Forall_cons in Hp as [He Hp]. destruct e as [| |allocate clock budget| |]; try done. destruct Hm as [Hpe Hm].
  cbn [may_call call calls] in *.
  destruct (process_ok allocate fresh clock s budget Hs Hpe) as (s1 & status & out & E & [P1 P2 P3 P4 P5 P6 P7 P8]).
  rewrite E in *. cbn [obind] in *. specialize (Hm _ _ eq_refl).
  destruct (is_error status) eqn:Ee.
  { destruct (calls_ok s1 l P1 Hm) as (s' & sts & -> & _ & _). cbn [obind]. exists s', (status :: sts). split; [done|].
    left. by left. }
  destruct (P8 Hst Hc Hl Hw eq_refl) as [(-> & Hst1 & Hd)|[Hst1 Hlt]].
  - rewrite completed_calls by (done || congruence). cbn [obind]. eexists s1, _. split; [reflexivity|]. right.
    split; [apply (last_replicate_end (length l))|]. by split.
  - destruct (IH s1 P1 Hst1) as (s' & sts & -> & Hcase); [congruence|congruence|unfold wants in *; by rewrite P7|done|done|simpl in Hlen; lia|].
    cbn [obind]. exists s', (status :: sts). split; [done|]. destruct Hcase as [Hex|(Hlast & Hst' & Hd)]; [left; by right|right].
    split; [by destruct sts|]. split; [done|]. unfold delivered in *.
    rewrite (sg_final _ _ P6) in Hd. unfold fpc_of in *. rewrite (sg_frames _ _ P6) in Hd. intros Hpos Hall. apply Hd; [done|].
    intros f Hfr. unfold accepted. rewrite P3. by apply Hall.
Qed.

(** C4. A session drains.  In a reachable session with the overview feature that is
    draining, neither cancelled nor locked, a host that calls process one time more than
    frames are queued, with any limits and deadlines, and with memory enough to measure,
    either sees one of the calls fail (the publication of a result may) or ends with
    END_OF_INPUT and a completed session.  Completion alone says nothing of what is
    shown: the end may be signalled with frames missing.  But if the end is not 0 and
    every frame from 0 to the end was accepted, the result the host then holds is final
    and has exactly one span, from frame 0 to the end, with every column. *)
Theorem session_completes (s : session) (l : list session_call) (Hreachable : reachable s)
    (Hdraining : se_state s = APTA_SESSION_DRAINING) (Hcancel : se_cancel_requested s = false)
    (Hlock : se_process_lock s = false) (Hwants : wants s APTA_FEATURE_WAVEFORM_OVERVIEW = true)
    (Hprocess : Forall is_process l) (Hcalls : may_run s l)
    (Henough : queue_frames (se_waveform s) < Z.of_nat (length l)) :
  exists s' statuses, calls s l = Ret (s', statuses) /\
    (Exists (fun status => is_error status = true) statuses \/
     last statuses = Some APTA_STATUS_END_OF_INPUT /\ se_state s' = APTA_SESSION_COMPLETED /\
     let final := ov_final_end_frame (se_overview s) in
     (0 < final -> (forall f, 0 <= f < final -> accepted s f) ->
      current_is (se_publication s') (fun r =>
        k_state (content_of r) = APTA_FEATURE_FINAL /\
        exists k, k_spans (content_of r) = [k] /\ k_first k = 0 /\ k_end k = final /\
          zlen (k_columns k) = required_columns final (fpc_of s)))).
Proof.
  destruct (draining_calls s l (reachable_ok _ Hreachable)) as (s' & statuses & E & Hcase); try done.
  exists s', statuses. split; [done|]. destruct Hcase as [Hex|(H1 & H2 & H3)]; [by left|right].
  split; [done|]. split; [done|]. intros final Hpos Hall. destruct (H3 Hpos Hall) as (a & c & R1 & R2 & _ & R3). by exists a, c.
Qed.

End Histories.

(** ** A concrete session *)

Import LP64.

Lemma may_run_cons `{PlatformLaws} fresh fresh_range s e l :
  may_call fresh fresh_range s e ->
  may_run fresh fresh_range (match call fresh fresh_range s e with Ret (s', _) => s' | _ => s end) l ->
  may_run fresh fresh_range s (e :: l).
Proof. intros He Hl. split; [done|]. intros s' st E. by rewrite E in Hl. Qed.

Definition overview_context : apta_context_t :=
  {| ctx_capabilities := APTA_FEATURE_WAVEFORM_OVERVIEW; ctx_memory_limit_bytes := 0; ctx_flags := 0;
     ctx_allocated_bytes := 0; ctx_session_count := 0; ctx_result_count := 0; ctx_lineage_counter := 0 |}.

Definition always (_ : nat) (_ : Z) : bool := true.

Definition creation : result (apta_context_t * (session + apta_status_t)) :=
  apta_session_create_base always (fun x => x) overview_context mono_config.

Definition new_session : session :=
  match creation with Ret (_, inl s) => s | _ => initial_session (fun x => x) overview_context mono_config end.

Definition new_context : apta_context_t :=
  match creation with Ret (c, _) => c | _ => overview_context end.

(** Five silent frames, the whole track. *)
Definition five_frames : apta_pcm_block_t :=
  {| pb_struct_size := 128; pb_api_version := APTA_API_VERSION; pb_first_frame := 0; pb_frame_count := 5;
     pb_data := Some (replicate 10 0); pb_planes := [] |}.

Definition no_cell : accumulator := new_accumulator 0.
Definition no_range : range := {| r_first := 0; r_end := 0 |}.

Definition short_track : list session_call := [call_push always five_frames; call_signal_end always 5].
Definition drain : list session_call := replicate 6 (call_process always None no_budget).

Lemma new_session_created :
  apta_session_create_base always (fun x => x) overview_context mono_config = Ret (new_context, inl new_session).
Proof. vm_compute. reflexivity. Qed.

Lemma mono_host : host_config mono_config.
Proof.
  constructor; apply (bool_decide_unpack _); by vm_compute.
Qed.

Lemma five_frames_pushable s : cfg_channel_count (se_config s) = 1 ->
  cfg_sample_format (se_config s) = APTA_SAMPLE_S16_NATIVE_INTERLEAVED -> fpc_of s = 64 ->
  wv_queued_pcm_frames (se_waveform s) = 0 -> pushable s five_frames.
Proof.
  intros E1 E2 E3 E4. constructor; rewrite ?E1, ?E2, ?E3, ?E4.
  - unfold is_u64, is_u32. simpl. lia.
  - split; [|done]. simpl. apply (bool_decide_unpack _). by vm_compute.
  - exists (replicate 10 0). split; [done|]. vm_compute. congruence.
  - simpl. lia.
  - unfold APTA_INTERNAL_MAX_PUSH_FRAMES. lia.
Qed.

Lemma short_track_runs : may_run no_cell no_range new_session short_track.
Proof.
  apply may_run_cons; [by apply five_frames_pushable|]. apply may_run_cons; [|done].
  split; [unfold is_u64; lia|]. intros _. vm_compute. congruence.
Qed.

Lemma drained_once s : wants s APTA_FEATURE_WAVEFORM_OVERVIEW = true ->
  measures always no_cell None 0 (process_fuel s) (prepared (se_waveform s) (se_overview s)) no_budget ->
  processable always no_cell None s no_budget.
Proof. intros _ Hm. constructor; [unfold is_u32; simpl; lia|unfold is_u32; simpl; lia|done]. Qed.

Lemma session_history_safe_witness :
  exists s statuses,
    calls no_cell no_range new_session (short_track ++ take 1 drain) = Ret (s, statuses) /\
    statuses = [APTA_STATUS_OK; APTA_STATUS_OK; APTA_STATUS_END_OF_INPUT] /\
    current_is (se_publication s) (fun r => ri_generation (res_info r) = 5 /\ serializable true r).
Proof.
  assert (Hrun : may_run no_cell no_range new_session (short_track ++ take 1 drain)).
  { apply may_run_cons; [by apply five_frames_pushable|]. apply may_run_cons; [split; [unfold is_u64; lia|]; intros _; vm_compute; congruence|].
    apply may_run_cons; [|done]. apply drained_once; [by vm_compute|]. intros s' st p E. vm_compute in E. by injection E as <- <- <-. }
  destruct (session_history_safe no_cell no_range always (fun x => x) overview_context mono_config new_context new_session
    (short_track ++ take 1 drain) mono_host new_session_created Hrun)
    as (s & statuses & E & _ & _ & _ & _ & (a & c & H1 & H2 & H3 & _ & _ & H4) & _).
  exists s, statuses. split; [exact E|]. vm_compute in E. injection E as <- <-. split; [reflexivity|].
  exists a, c. split; [exact H1|]. split; [exact H2|]. vm_compute in H1. injection H1 as <-. vm_compute in H2. injection H2 as <-.
  split; [reflexivity|]. apply H4. vm_compute. reflexivity.
Defined.

Definition draining_session : session :=
  match calls no_cell no_range new_session short_track with Ret (s, _) => s | _ => new_session end.

Lemma draining_reachable : reachable no_cell no_range draining_session.
Proof.
  exists always, (fun x => x), overview_context, mono_config, new_context, new_session, short_track, [APTA_STATUS_OK; APTA_STATUS_OK].
  split; [exact mono_host|]. split; [exact new_session_created|]. split; [exact short_track_runs|]. vm_compute. reflexivity.
Qed.

Lemma drain_runs : may_run no_cell no_range draining_session drain.
Proof.
  unfold drain. cbn [replicate].
  do 6 (apply may_run_cons; [apply drained_once; [by vm_compute|]; intros s' st p E; vm_compute in E; by injection E as <- <- <-|]).
  done.
Qed.

Lemma session_completes_witness :
  exists s statuses,
    calls no_cell no_range draining_session drain = Ret (s, statuses) /\
    last statuses = Some APTA_STATUS_END_OF_INPUT /\ se_state s = APTA_SESSION_COMPLETED /\
    current_is (se_publication s) (fun r => exists k, k_spans (content_of r) = [k] /\ k_end k = 5).
Proof.
  destruct (session_completes no_cell no_range draining_session drain draining_reachable ltac:(by vm_compute) ltac:(by vm_compute)
    ltac:(by vm_compute) ltac:(by vm_compute) ltac:(by repeat constructor) drain_runs ltac:(by vm_compute))
    as (s & statuses & E & Hcase).
  assert (Ef : ov_final_end_frame (se_overview draining_session) = 5) by (vm_compute; reflexivity).
  exists s, statuses. split; [exact E|]. destruct Hcase as [Hex|(H1 & H2 & H3)].
  - exfalso. vm_compute in E. injection E as <- <-. repeat (apply Exists_cons in Hex as [Hex|Hex]; [discriminate|]). by apply Exists_nil in Hex.
  - split; [exact H1|]. split; [exact H2|]. destruct H3 as (a & c & R1 & R2 & _ & k & K1 & _ & K2 & _).
    + vm_compute. reflexivity.
    + intros f Hf. exists {| r_first := 0; r_end := 5 |}. split; [|rewrite Ef in Hf; simpl; lia].
      apply list_elem_of_In. vm_compute. by left.
    + exists a, c. split; [exact R1|]. split; [exact R2|]. exists k. split; [exact K1|]. rewrite K2. vm_compute. reflexivity.
Defined.

(** ** Seeding *)

(** A column of silent frames. *)
Definition one_column : apta_pcm_block_t :=
  {| pb_struct_size := 128; pb_api_version := APTA_API_VERSION; pb_first_frame := 0; pb_frame_count := 64;
     pb_data := Some (replicate 128 0); pb_planes := [] |}.

Definition played_session : session :=
  match calls no_cell no_range new_session [call_push always one_column; call_process always None no_budget] with
  | Ret (s, _) => s | _ => new_session
  end.

(** The result a host holds. *)
Definition current_of (s : session) : apta_result_t :=
  match pu_current_result (se_publication s) with
  | Some a => from_option rc_result empty_result (pu_results (se_publication s) !! a)
  | None => empty_result
  end.

Definition stored_result : apta_result_t := current_of played_session.

Lemma played_runs : may_run no_cell no_range new_session [call_push always one_column; call_process always None no_budget].
Proof.
  apply may_run_cons.
  { constructor; [unfold is_u64, is_u32; simpl; lia| | |vm_compute; congruence|unfold APTA_INTERNAL_MAX_PUSH_FRAMES; simpl; lia].
    - split; [|done]. apply (bool_decide_unpack _). by vm_compute.
    - exists (replicate 128 0). split; [done|]. vm_compute. congruence. }
  apply may_run_cons; [|done]. apply drained_once; [by vm_compute|]. intros s' st p E. vm_compute in E. by injection E as <- <- <-.
Qed.

Lemma stored_serializable : serializable true stored_result.
Proof.
  destruct (create_ok _ _ _ _ _ _ mono_host new_session_created) as [Hs _].
  destruct (calls_ok no_cell no_range new_session _ Hs played_runs) as (s & statuses & E & (m & _ & (a & c & H1 & H2 & _ & _ & _ & H4) & _) & _).
  assert (Es : played_session = s) by (unfold played_session; by rewrite E).
  assert (Er : stored_result = rc_result c) by (unfold stored_result, current_of; rewrite Es, H1, H2; reflexivity).
  rewrite Er. apply H4. rewrite <- Er. vm_compute. reflexivity.
Qed.

(** The components of a returned pair, without evaluating them. *)
Lemma returned_pair {E A B} (x x' : A) (y y' : B) : Ret (E := E) (x, y) = Ret (x', y') -> x = x' /\ y = y'.
Proof. by intros [= -> ->]. Qed.

Definition seeded_session : session :=
  match apta_session_seed_from_result always no_cell no_range new_session stored_result with
  | Ret (s, _) => s | _ => new_session
  end.

Lemma seeding_result :
  apta_session_seed_from_result always no_cell no_range new_session stored_result = Ret (seeded_session, APTA_STATUS_OK).
Proof. vm_compute. reflexivity. Qed.

Lemma stored_seedable : seedable new_session stored_result.
Proof. constructor; [by vm_compute|exact stored_serializable]. Qed.

Lemma stored_whole : in_whole_columns new_session stored_result.
Proof. split; [by vm_compute|]. apply (bool_decide_unpack _). by vm_compute. Qed.

(** The span of the stored result. *)
Definition stored_span : apta_waveform_span_t :=
  default {| sp_first_frame := 0; sp_end_frame := 0; sp_first_column_index := 0; sp_column_count := 0; sp_columns := None |}
    (head (result_spans stored_result)).

Lemma stored_spans : result_spans stored_result = [stored_span] /\ sp_columns stored_span = Some 0%nat /\
  sp_first_frame stored_span = 0 /\ sp_end_frame stored_span = 64 /\ sp_first_column_index stored_span = 0 /\
  sp_column_count stored_span = 1 /\ (0 < length (res_overview_columns stored_result))%nat.
Proof. vm_compute. repeat split; lia. Qed.

