(* ===== verification/SessionLimits.v ===== *)
(** * Limits of a session

    The bounds the counters of a column keep in every session a host can reach, and what
    a session does with a frame whose column has no number of 32 bits. *)

From stdpp Require Import gmap.
From Stdlib Require Import Floats.SpecFloat.
From S2P Require Import Prelude Platform Memory FloatFacts Samples Ranges AcceptPcm SampleTheorems Bytes Wovr WovrSpec.
From S2P Require Import Scheduler Overview OverviewTable OverviewMeasure Quantize Snapshot SnapshotFill.
From S2P Require Import Publish PublishTheorems Process ProcessTheorems Coverage ProcessCall ProcessOrder ProcessOrderTheorems.
From S2P Require Import Session WovrWriterTheorems ResultAccessors SnapshotTheorems SessionInvariant SessionSteps SessionTheorems.

(** ** Counters *)

Lemma flat_lookup l i b0 b1 b2 k : l !! i = Some (b0, b1, b2) -> (k < 3)%nat -> flat l !! (i * 3 + k)%nat = [b0; b1; b2] !! k.
Proof.
  revert i. induction l as [|[[c0 c1] c2] l IH]; intros i Hi Hk; [by rewrite lookup_nil in Hi|]. destruct i as [|i].
  - injection Hi as -> -> ->. by destruct k as [|[|[|k]]]; [| | |lia].
  - change (flat ((c0, c1, c2) :: l)) with ([c0; c1; c2] ++ flat l). rewrite lookup_app_r by (simpl; lia).
    replace (S i * 3 + k - length [c0; c1; c2])%nat with (i * 3 + k)%nat by (simpl; lia). by apply IH.
Qed.

(** A column of the table never has more samples than the session accepted frames of it. *)
Lemma valid_samples s m x : session_valid s m -> x ∈ m -> ac_sample_count x.1 <= frames_of (se_coverage s) (fpc_of s) (col x).
Proof.
  intros Hs Hx. pose proof (pl_measuring _ _ (sv_pipeline _ _ Hs)) as Hm. pose proof (sv_exact _ _ Hs (col x)) as He. unfold load in He.
  rewrite (column_of_member m x (ts_sorted _ _ (me_shape _ _ Hm)) Hx) in He. cbn [samples_of] in He.
  pose proof (pending_in_nonneg (Overview.ov_frames_per_column (wv_overview (se_waveform s))) (col x) (wv_pcm (se_waveform s))). lia.
Qed.

Section Counters.
Context `{PlatformLaws}.
Context (fresh : accumulator) (fresh_range : range).

(** C27. The counters of the columns never wrap.  In every session a host can reach,
    by any calls [may_run] admits, a cell of the accumulator table that is in use has
    counted at most the frames accepted for its column, which are at most the frames
    of a column; its sum of squares is at most 2^46 for each sample, and so at most
    2^62 in a counter of 64 bits; and each of its three band sums, where the session
    keeps them, is there and at most 2^15 for each sample, and so at most 2^31 in a
    counter of 32 bits. *)
Theorem column_counters_bounded (s : session) (i : nat) (a : accumulator) (Hreachable : reachable fresh fresh_range s)
    (Hi : (i < ov_count (se_overview s))%nat) (Ha : ov_accumulators (se_overview s) !! i = Some a) :
  0 <= ac_sample_count a <= frames_of (se_coverage s) (fpc_of s) (ac_column_index a) /\
  ac_sample_count a <= fpc_of s <= 65536 /\
  0 <= ac_sum_squares a <= ac_sample_count a * 2 ^ 46 /\ ac_sum_squares a <= 2 ^ 62 /\
  forall bands, ov_band_sums (se_overview s) = Some bands -> forall k, (k < 3)%nat ->
    exists b, bands !! (i * 3 + k)%nat = Some b /\ 0 <= b <= ac_sample_count a * 2 ^ 15 /\ b <= 2 ^ 31.
Proof.
  destruct (reachable_ok _ _ _ Hreachable) as (m & Hs & _). pose proof (pl_measuring _ _ (sv_pipeline _ _ Hs)) as Hm.
  change (wv_overview (se_waveform s)) with (se_overview s) in Hm. pose proof (me_frames _ _ Hm) as Hf. fold (fpc_of s) in Hf.
  destruct (ts_represents _ _ (me_shape _ _ Hm)) as [(rest & Eacc) Hcount Hbands]. rewrite Hcount in Hi. rewrite Eacc in Ha.
  rewrite lookup_app_l in Ha by (by rewrite length_map). rewrite list_lookup_fmap in Ha.
  destruct (m !! i) as [x|] eqn:Ex; [|done]. injection Ha as <-.
  pose proof (list_elem_of_lookup_2 _ _ _ Ex) as Hx. pose proof (valid_samples s m x Hs Hx) as Hn.
  pose proof (frames_of_range (se_coverage s) (fpc_of s) (col x) ltac:(lia)) as Hr.
  pose proof (me_columns _ _ Hm) as Hc. rewrite Forall_forall in Hc. destruct (Hc x Hx) as [Hok _]. clear Hc.
  unfold counters_ok in Hok. destruct x.2 as [[b0 b1] b2] eqn:Eb. destruct Hok as (K1 & K2 & K3 & K4 & K5).
  change (ac_column_index x.1) with (col x). change (2 ^ 62) with (65536 * 2 ^ 46). change (2 ^ 31) with (65536 * 2 ^ 15).
  split; [lia|]. split; [lia|]. split; [lia|]. split; [lia|]. intros bands E k Hk. rewrite E in Hbands. destruct Hbands as [rest' ->].
  assert (Hsnd : map snd m !! i = Some (b0, b1, b2)) by (rewrite list_lookup_fmap, Ex; cbn [fmap option_fmap option_map]; by rewrite Eb).
  pose proof (flat_lookup (map snd m) i b0 b1 b2 k Hsnd Hk) as El.
  assert (Hin : exists b, [b0; b1; b2] !! k = Some b /\ 0 <= b <= ac_sample_count x.1 * 2 ^ 15).
  { destruct k as [|[|[|k]]]; [exists b0|exists b1|exists b2|lia]; done. }
  destruct Hin as (b & Eb' & Hb). exists b. split; [|lia]. rewrite <- Eb', <- El. apply lookup_app_l.
  rewrite length_flat, length_map. apply lookup_lt_Some in Ex. lia.
Qed.

End Counters.

(** ** Frames beyond the last column *)

(** Masks and priorities return to what they were. *)
Lemma restore_request_aged r : restore_request r (age_request (widen_request r)) = r.
Proof. unfold age_request. cbv zeta. destruct r as [id [] state d skip serial]. by destruct (_ =? 0). Qed.

Lemma restore_aged c : restore c (with_requests (widen c) (map age_request (sc_requests (widen c)))) = c.
Proof.
  destruct c as [requests id serial focus total features capabilities]. unfold restore, widen, with_focus, with_requests. simpl.
  f_equal. induction requests as [|r l IH]; simpl; [done|]. by rewrite restore_request_aged, IH.
Qed.

(** The node the next call serves first. *)
Definition first_served (s : waveform) : option pcm_node :=
  let p := prepared s (wv_overview s) in
  match apta_select_pcm_node (wv_scheduler p) (wv_pcm p) with Some i => wv_pcm p !! i | None => None end.

(** Its next frame is beyond the last column. *)
Definition far (fpc : Z) (n : pcm_node) : Prop := UINT32_MAX < (pn_first_frame n + pn_processed_frames n) / fpc.

(** What a call leaves that is stuck. *)
Record left_alone (s s' : waveform) : Prop := {
  la_scheduler : wv_scheduler s' = wv_scheduler s;
  la_pcm : wv_pcm s' = sorted_queue (widen (wv_scheduler s)) (wv_pcm s);
  la_queued : wv_queued_pcm_frames s' = wv_queued_pcm_frames s;
  la_publication : wv_publication s' = wv_publication s;
  la_geometry : same_geometry (wv_overview s) (wv_overview s')
}.

Lemma left_alone_served s s' : left_alone s s' -> first_served s' = first_served s.
Proof.
  intros [E1 E2 _ _ _]. unfold first_served, prepared. cbn [set_scheduler set_overview set_pcm wv_scheduler wv_pcm].
  by rewrite E1, E2, sorted_queue_sorted.
Qed.

Section Far.
Context `{PlatformLaws}.
Context (allocate : nat -> Z -> bool) (fresh : accumulator) (clock : option (nat -> Z)) (deadline : Z).

(** The first sample of a far node stops the chunk. *)
Lemma far_chunk s i n chunk : node_ok n -> far (Overview.ov_frames_per_column (wv_overview s)) n -> 1 <= chunk ->
  process_chunk allocate fresh s i n chunk = Ret (s, APTA_ERROR_LIMIT_EXCEEDED).
Proof.
  intros (N1 & N2 & N3 & N4 & N5 & _) Hfar Hc. unfold process_chunk. unfold APTA_INTERNAL_MAX_PUSH_FRAMES in N3.
  destruct (Z.to_nat chunk) as [|k] eqn:Ek; [lia|]. cbn [apta_process_samples]. unfold step_ok.
  rewrite Z.add_0_r, (u64_small (pn_first_frame n + pn_processed_frames n)) by (unfold is_u64; lia).
  rewrite Z.add_0_r, u64_small, u32_small by (unfold is_u64, is_u32; lia).
  destruct (arr_get_defined (E := apta_status_t) (pn_samples n) (Z.to_nat (pn_processed_frames n)) ltac:(lia)) as (x & _ & ->). cbn [obind].
  unfold process_sample. unfold far in Hfar. destruct (Z.ltb_spec UINT32_MAX ((pn_first_frame n + pn_processed_frames n) / Overview.ov_frames_per_column (wv_overview s)));
    [|lia]. cbn [obind is_error status_code Z.ltb Z.compare]. by destruct s.
Qed.

Lemma far_loop fuel frame_limit step_limit s p i n : wv_pcm s !! i = Some n -> node_ok n ->
  apta_select_pcm_node (wv_scheduler s) (wv_pcm s) = Some i -> far (Overview.ov_frames_per_column (wv_overview s)) n ->
  pg_consumed p = 0 -> pg_steps p = 0 -> 1 <= frame_limit -> 1 <= step_limit ->
  process_loop allocate fresh clock deadline (S fuel) frame_limit step_limit s p = Ret (s, APTA_ERROR_LIMIT_EXCEEDED, p).
Proof.
  intros Hi Hn Hsel Hfar Hc Hs Hf Hst. cbn [process_loop]. destruct (wv_pcm s) as [|n0 l] eqn:El; [by rewrite lookup_nil in Hi|].
  rewrite <- El in *. rewrite Hc, Hs. destruct (Z.ltb_spec 0 frame_limit), (Z.ltb_spec 0 step_limit); try lia. cbn [andb].
  rewrite Hsel. unfold arr_get. rewrite Hi. cbn [obind]. pose proof Hn as (N1 & N2 & N3 & _). unfold APTA_INTERNAL_MAX_PUSH_FRAMES in N3.
  rewrite u32_small by (unfold is_u32; lia).
  match goal with |- context [apta_min_u32 (apta_min_u32 ?a ?b) ?c] => set (chunk := apta_min_u32 (apta_min_u32 a b) c) end.
  assert (Hchunk : 1 <= chunk).
  { unfold chunk, apta_min_u32, APTA_INTERNAL_PROCESS_CHUNK_FRAMES. repeat case_match; lia. }
  destruct (Z.eqb_spec chunk 0); [lia|]. rewrite (far_chunk s i n chunk Hn Hfar Hchunk). done.
Qed.

Lemma far_process fuel s m n budget : pipeline s m -> first_served s = Some n ->
  far (Overview.ov_frames_per_column (wv_overview s)) n -> (0 < fuel)%nat ->
  is_u32 (wb_maximum_input_frames budget) -> is_u32 (wb_maximum_steps budget) ->
  exists out m', apta_internal_waveform_process allocate fresh clock deadline fuel false s budget = Ret out /\
    po_status out = APTA_ERROR_LIMIT_EXCEEDED /\ left_alone s (po_session out) /\
    pipeline (po_session out) m' /\ forall d, samples_of (column_of m' d) = samples_of (column_of m d).
Proof.
  intros Hp Hserved Hfar Hfuel Hbf Hbs. set (p0 := prepared s (wv_overview s)).
  destruct (sorted_queue_facts (widen (wv_scheduler s)) (wv_pcm s)) as [Hperm _].
  destruct (pipeline_ordered s m _ (wv_overview s) (wv_scheduler p0) Hp Hperm (pl_measuring _ _ Hp) (same_geometry_refl _))
    as (Hp0 & _).
  destruct (pipeline_refresh p0 m Hp0) as (o & Eo & Hp1 & _ & Hload & Hgeo).
  unfold apta_internal_waveform_process, apta_process_sort_pcm_queue. cbv zeta.
  cbn [set_scheduler set_pcm set_overview wv_scheduler wv_pcm wv_overview wv_queued_pcm_frames apta_process_workspace_reserve_accumulators negb orb obind is_error status_code Z.ltb Z.compare].
  match goal with |- context [apta_internal_waveform_process_base _ _ _ _ _ ?x _] => change x with p0 end.
  unfold apta_internal_waveform_process_base, measure_queue. rewrite Eo. cbn [obind]. cbv zeta.
  unfold first_served in Hserved. fold p0 in Hserved.
  destruct (apta_select_pcm_node (wv_scheduler p0) (wv_pcm p0)) as [i|] eqn:Esel; [|done].
  assert (Hn : node_ok n).
  { pose proof (qk_nodes _ (pl_queue _ _ Hp0)) as Hq. rewrite Forall_forall in Hq. apply Hq. by eapply list_elem_of_lookup_2. }
  assert (Hl : forall k, is_u32 k -> 1 <= budget_limit k)
    by (unfold is_u32, budget_limit; intros k Hk; destruct (Z.eqb_spec k 0); lia).
  destruct fuel as [|fuel]; [lia|].
  rewrite (far_loop fuel _ _ (set_overview p0 o) _ i n Hserved Hn Esel); try done; try (by apply Hl).
  2: { cbn [set_overview wv_overview]. by rewrite (sg_frames _ _ Hgeo). }
  cbn [obind is_error status_code Z.ltb Z.compare po_status po_progress po_session negb andb].
  eexists _, (map (refreshed (wv_overview s)) m). split; [reflexivity|]. split; [done|]. cbn [po_session].
  split; [|split].
  - constructor; try done. apply (restore_aged (wv_scheduler s)).
  - by apply pipeline_scheduler.
  - intros d. specialize (Hload d). unfold load in Hload. cbn [set_overview wv_overview wv_pcm] in Hload.
    rewrite (sg_frames _ _ Hgeo) in Hload. by apply Z.add_cancel_r in Hload.
Qed.
End Far.

Section Stuck.
Context `{PlatformLaws}.
Context (fresh : accumulator) (fresh_range : range).

(** A process call whose limits are numbers of 32 bits. *)
Definition process_with_limits (e : session_call) : Prop :=
  match e with
  | call_process _ _ budget => is_u32 (wb_maximum_input_frames budget) /\ is_u32 (wb_maximum_steps budget)
  | _ => False
  end.

(** The session works on its queue, and the node it serves next is far. *)
Record stuck (s : session) (m : list column) (n : pcm_node) : Prop := {
  st_pipeline : pipeline (se_waveform s) m;
  st_served : first_served (se_waveform s) = Some n;
  st_far : far (fpc_of s) n;
  st_state : se_state s = APTA_SESSION_CREATED \/ se_state s = APTA_SESSION_ACTIVE \/ se_state s = APTA_SESSION_DRAINING;
  st_cancel : se_cancel_requested s = false;
  st_lock : se_process_lock s = false;
  st_wants : wants s APTA_FEATURE_WAVEFORM_OVERVIEW = true
}.

Lemma served_queued s n : first_served s = Some n -> n ∈ wv_pcm s.
Proof.
  unfold first_served. destruct (apta_select_pcm_node _ _) as [i|]; [|done]. intros Hi%list_elem_of_lookup_2.
  destruct (sorted_queue_facts (widen (wv_scheduler s)) (wv_pcm s)) as [Hperm _]. by rewrite Hperm.
Qed.

Lemma stuck_call s m n e : stuck s m n -> process_with_limits e ->
  exists s' m', call fresh fresh_range s e = Ret (s', APTA_ERROR_LIMIT_EXCEEDED) /\ stuck s' m' n /\
    left_alone (se_waveform s) (se_waveform s') /\ se_coverage s' = se_coverage s /\
    forall d, samples_of (column_of m' d) = samples_of (column_of m d).
Proof.
  intros [Hp Hn Hfar Hst Hc Hlock Hw] He. destruct e as [| |allocate clock budget| |]; try done. destruct He as [Hbf Hbs].
  cbn [call]. unfold apta_session_process. cbv zeta. rewrite Hlock, Hc.
  assert (Hfuel : (0 < process_fuel s)%nat).
  { unfold process_fuel. destruct (pl_queue _ _ Hp) as [Q1 [Q2 _]]. rewrite Q2. apply served_queued in Hn as Hin.
    apply list_elem_of_lookup in Hin as [i Hi]. pose proof (Forall_lookup_1 _ _ _ _ Q1 Hi) as (_ & Hpos & _).
    assert (Hall : Forall (fun x => 0 <= pn_frame_count x) (wv_pcm (se_waveform s)))
      by (eapply Forall_impl; [exact Q1|]; intros x (_ & ? & _); lia).
    pose proof (sum_of_ge _ _ _ _ Hall Hi). lia. }
  destruct (far_process allocate fresh clock (process_deadline clock budget) _ (se_waveform s) m n budget Hp Hn Hfar Hfuel Hbf Hbs)
    as (out & m' & E & Hout & Hla & Hp' & Hm').
  assert (Ework : work allocate fresh clock s budget =
    Ret (with_waveform s (po_session out), APTA_ERROR_LIMIT_EXCEEDED, pg_did_work (po_progress out), po_published out,
         report s {| pg_consumed := 0; pg_steps := 0; pg_did_work := false |} false)).
  { unfold work. cbv zeta. rewrite Hw, E. cbn [obind]. by rewrite Hout. }
  assert (Ecall : forall (r : result (session * apta_status_t * apta_progress_t)),
    r = (let! '(s, work_status, did_work, published, progress_out) := work allocate fresh clock s budget in
         conclude allocate s work_status did_work published progress_out) ->
    (let! '(s', status, _) := r in Ret (s', status)) = Ret (with_waveform s (po_session out), APTA_ERROR_LIMIT_EXCEEDED)).
  { intros r ->. rewrite Ework. done. }
  pose proof (left_alone_served _ _ Hla) as Hsame. pose proof Hla as [L1 L2 L3 L4 L5].
  exists (with_waveform s (po_session out)), m'. split.
  { destruct Hst as [Hst|[Hst|Hst]]; rewrite Hst; by apply Ecall. }
  split; [|split; [exact Hla|split; [done|exact Hm']]]. constructor; try done.
  - cbn [with_waveform se_waveform]. by rewrite Hsame.
  - unfold fpc_of, se_overview. cbn [with_waveform se_waveform]. unfold fpc_of, se_overview in Hfar. by rewrite (sg_frames _ _ L5).
  - unfold se_state, se_publication in *. cbn [with_waveform se_waveform]. by rewrite L4.
  - unfold wants, se_config, se_publication in *. cbn [with_waveform se_waveform]. by rewrite L4.
Qed.

(** C40. Nothing but the layer of the detail tiles checks that the column of a frame
    has a number of 32 bits.  In a well-formed session without that feature that is
    working and whose next node starts beyond column 2^32 - 1, every process call, whatever its allocator, clock and
    limits, reports LIMIT_EXCEEDED and consumes nothing: the same nodes stay in the
    queue, no column gets a sample, nothing is published, the state does not change (so
    the session never completes), and the same node is served first by the next call. *)
Theorem far_frame_blocks_session (s : session) (m : list column) (n : pcm_node) (l : list session_call)
    (Hstuck : stuck s m n) (Hl : Forall process_with_limits l) :
  exists s' m', calls fresh fresh_range s l = Ret (s', replicate (length l) APTA_ERROR_LIMIT_EXCEEDED) /\
    stuck s' m' n /\ n ∈ wv_pcm (se_waveform s') /\
    Permutation (wv_pcm (se_waveform s)) (wv_pcm (se_waveform s')) /\
    wv_queued_pcm_frames (se_waveform s') = wv_queued_pcm_frames (se_waveform s) /\
    wv_scheduler (se_waveform s') = wv_scheduler (se_waveform s) /\
    se_coverage s' = se_coverage s /\ se_publication s' = se_publication s /\ se_state s' = se_state s /\
    forall d, samples_of (column_of m' d) = samples_of (column_of m d).
Proof.
  revert s m Hstuck. induction Hl as [|e l He _ IH]; intros s m Hs; cbn [calls length replicate].
  - exists s, m. split_and!; try done. apply served_queued, Hs.
  - destruct (stuck_call s m n e Hs He) as (s1 & m1 & -> & Hs1 & [L1 L2 L3 L4 _] & Hcov & Hm1). cbn [obind].
    destruct (IH s1 m1 Hs1) as (s' & m' & -> & Hs' & Hin & Hperm & Hq & Hsch & Hcov' & Hpub & Hst & Hm'). cbn [obind].
    exists s', m'. split; [done|]. split; [done|]. split; [done|]. split.
    { rewrite <- Hperm, L2. apply sorted_queue_facts. }
    split_and!; try congruence.
    + rewrite Hpub. exact L4.
    + rewrite Hst. unfold se_state, se_publication. by rewrite L4.
Qed.

End Stuck.

(** ** Concrete sessions *)

Import LP64.

(** The session that measured one column of silence. *)
Lemma played_reachable : reachable no_cell no_range played_session.
Proof.
  exists always, (fun x => x), overview_context, mono_config, new_context, new_session,
    [call_push always one_column; call_process always None no_budget], [APTA_STATUS_OK; APTA_STATUS_OK].
  split; [exact mono_host|]. split; [exact new_session_created|]. split; [exact played_runs|]. vm_compute. reflexivity.
Qed.

Lemma column_counters_bounded_witness :
  exists a, ov_accumulators (se_overview played_session) !! 0%nat = Some a /\ ac_sample_count a = 64 /\
    ac_sample_count a <= frames_of (se_coverage played_session) 64 0 /\ ac_sum_squares a <= 2 ^ 62.
Proof.
  set (a := default (new_accumulator 0) (ov_accumulators (se_overview played_session) !! 0%nat)).
  assert (Ea : ov_accumulators (se_overview played_session) !! 0%nat = Some a) by (vm_compute; reflexivity).
  destruct (column_counters_bounded no_cell no_range played_session 0 a played_reachable ltac:(vm_compute; lia) Ea)
    as ([_ H1] & _ & _ & H2 & _).
  exists a. split; [exact Ea|]. split; [vm_compute; reflexivity|]. split; [|exact H2].
  assert (E1 : fpc_of played_session = 64) by (vm_compute; reflexivity).
  assert (E2 : ac_column_index a = 0) by (vm_compute; reflexivity). rewrite E1, E2 in H1. exact H1.
Defined.

(** A frame beyond the last column. *)
Definition far_frame : apta_pcm_block_t :=
  {| pb_struct_size := 128; pb_api_version := APTA_API_VERSION; pb_first_frame := 64 * 2 ^ 32; pb_frame_count := 1;
     pb_data := Some [0; 0]; pb_planes := [] |}.

(** It is pushed before the five frames of the track. *)
Definition far_pushes : list session_call := [call_push always far_frame; call_push always five_frames].

Definition far_session : session :=
  match calls no_cell no_range new_session far_pushes with Ret (s, _) => s | _ => new_session end.

Definition silent_node (first : Z) (frames : nat) : pcm_node :=
  {| pn_first_frame := first; pn_frame_count := Z.of_nat frames; pn_processed_frames := 0; pn_samples := replicate frames f32_zero |}.

Definition far_node : pcm_node := silent_node (64 * 2 ^ 32) 1.

Lemma silent_node_ok first frames : 0 <= first -> first + Z.of_nat frames <= UINT64_MAX -> (0 < frames <= 4096)%nat ->
  node_ok (silent_node first frames).
Proof.
  intros H1 H2 H3. unfold node_ok, silent_node, APTA_INTERNAL_MAX_PUSH_FRAMES. cbn [pn_first_frame pn_frame_count pn_processed_frames pn_samples].
  rewrite length_replicate. split_and!; try lia. apply Forall_replicate. split; by vm_compute.
Qed.

Lemma far_queue : wv_pcm (se_waveform far_session) = [far_node; silent_node 0 5] /\
  wv_queued_pcm_frames (se_waveform far_session) = 6.
Proof. by vm_compute. Qed.

Lemma far_session_stuck : stuck far_session [] far_node.
Proof.
  constructor; try (by vm_compute); [|by right; left; vm_compute].
  destruct (create_ok _ _ _ _ _ _ mono_host new_session_created) as [(m & Hs & _) _].
  pose proof (pl_measuring _ _ (sv_pipeline _ _ Hs)) as Hm.
  assert (m = []) as ->.
  { pose proof (rp_count _ _ (ts_represents _ _ (me_shape _ _ Hm))) as E.
    change (length m) with (length m) in E. vm_compute in E. by destruct m. }
  constructor.
  - assert (E : wv_overview (se_waveform far_session) = counted 1 (wv_overview (se_waveform new_session))) by (vm_compute; reflexivity).
    rewrite E. by apply measuring_counted.
  - destruct far_queue as [E1 E2]. constructor; rewrite ?E1, ?E2; [|by vm_compute].
    repeat constructor; (apply silent_node_ok || idtac); lia.
  - vm_compute. by split.
  - intros d Hd. unfold is_u32 in Hd. destruct far_queue as [E1 _].
    assert (E : apta_expected_column_frames (wv_overview (se_waveform far_session)) d = 64).
    { unfold apta_expected_column_frames. assert (ov_end_of_input_signalled (wv_overview (se_waveform far_session)) = false) as -> by by vm_compute.
      by vm_compute. }
    assert (Ef : Overview.ov_frames_per_column (wv_overview (se_waveform far_session)) = 64) by by vm_compute.
    rewrite E. unfold load. rewrite E1, Ef. unfold pending_in, far_node, silent_node, overlap. simpl. lia.
  - intros x Hx. by apply elem_of_nil in Hx.
Qed.

(** The near frames wait behind the far one for ever. *)
Lemma far_frame_blocks_session_witness :
  calls no_cell no_range new_session far_pushes = Ret (far_session, [APTA_STATUS_OK; APTA_STATUS_OK]) /\
  exists s, calls no_cell no_range far_session drain = Ret (s, replicate 6 APTA_ERROR_LIMIT_EXCEEDED) /\
    wv_queued_pcm_frames (se_waveform s) = 6 /\ silent_node 0 5 ∈ wv_pcm (se_waveform s).
Proof.
  split; [vm_compute; reflexivity|].
  destruct (far_frame_blocks_session no_cell no_range far_session [] far_node drain far_session_stuck) as (s & m & E & _ & _ & Hp & Hq & _).
  { repeat constructor; simpl; unfold is_u32; lia. }
  destruct far_queue as [E1 E2]. exists s. split; [exact E|]. split; [congruence|]. rewrite <- Hp, E1.
  apply elem_of_cons. right. by apply list_elem_of_singleton.
Defined.

(** The last column of 32 bits, whose end has no number. *)
Definition last_column : apta_pcm_block_t :=
  {| pb_struct_size := 128; pb_api_version := APTA_API_VERSION; pb_first_frame := 64 * UINT32_MAX; pb_frame_count := 64;
     pb_data := Some (replicate 128 0); pb_planes := [] |}.

Definition last_session : session :=
  match calls no_cell no_range new_session [call_push always last_column; call_process always None no_budget] with
  | Ret (s, _) => s | _ => new_session
  end.

(** Why [pushable] keeps the host out of the last column: a session takes it, measures
    it and publishes a result that shows it, which the writer then refuses with
    INTERNAL, because the end of its span needs a number beyond 32 bits. *)
Theorem last_column_unwritable :
  calls no_cell no_range new_session [call_push always last_column; call_process always None no_budget] =
    Ret (last_session, [APTA_STATUS_OK; APTA_STATUS_OK]) /\
  result_spans (current_of last_session) <> [] /\
  forall buffer, apta_result_serialize (Some (current_of last_session)) None buffer = Err APTA_ERROR_INTERNAL.
Proof.
  split; [vm_compute; reflexivity|]. split; [by vm_compute|]. intros buffer. unfold apta_result_serialize.
  assert (E : apta_serialization_calculate_layout (Some (current_of last_session)) None = Err APTA_ERROR_INTERNAL)
    by (vm_compute; reflexivity). by rewrite E.
Qed.
