(* ===== verification/SeedLimits.v ===== *)
(** * Limits of seeding (waveform/apta_waveform_input.c)

    Two concrete histories beyond what [may_run] allows: a result whose last column is
    short, taken over by a session that does not know the length of its track, and a
    result that is seeded twice. *)

From stdpp Require Import gmap.
From Stdlib Require Import Floats.SpecFloat.
From S2P Require Import Prelude Platform Memory Samples Ranges AcceptPcm Bytes Wovr WovrSpec Overview Snapshot Publish.
From S2P Require Import PublishTheorems Process ProcessCall ProcessOrder Session ResultAccessors Seed SnapshotTheorems SessionInvariant SessionSteps.
From S2P Require Import SessionTheorems.

Import LP64.

(** The final result of the five frames. *)
Definition finished_session : session :=
  match calls no_cell no_range draining_session drain with Ret (s, _) => s | _ => new_session end.

Definition short_result : apta_result_t := current_of finished_session.

(** The second column of the track. *)
Definition second_column : apta_pcm_block_t :=
  {| pb_struct_size := 128; pb_api_version := APTA_API_VERSION; pb_first_frame := 64; pb_frame_count := 64;
     pb_data := Some (replicate 128 0); pb_planes := [] |}.

Definition overstated_session : session :=
  match calls no_cell no_range new_session
          [call_seed always short_result; call_push always second_column; call_process always None no_budget] with
  | Ret (s, _) => s | _ => new_session
  end.

Definition reseeded_session : session :=
  match calls no_cell no_range new_session [call_seed always short_result; call_seed always short_result] with
  | Ret (s, _) => s | _ => new_session
  end.

(** The frames and columns a session shows. *)
Definition overview_claims (s : session) : list (Z * Z) :=
  map (fun v => (sp_first_frame v, sp_end_frame v)) (result_spans (current_of s)).

Definition column_samples (s : session) : list (Z * Z) :=
  map (fun x => (ac_column_index x, ac_sample_count x)) (take (ov_count (se_overview s)) (ov_accumulators (se_overview s))).

(** The frames of the session's accepted table. *)
Definition accepts (s : session) (f : Z) : bool :=
  existsb (fun x => (r_first x <=? f) && (f <? r_end x)) (accepted_ranges (se_coverage s)).

Lemma accepts_spec s f : accepts s f = true <-> accepted s f.
Proof.
  unfold accepts, accepted, covered. rewrite existsb_exists. split.
  - intros (x & Hx & Hf). exists x. apply list_elem_of_In in Hx. split; [done|lia].
  - intros (x & Hx & Hf). exists x. rewrite <- list_elem_of_In. split; [done|lia].
Qed.

(** A column of a result is taken to be as long as the session's track lets it be, not
    as long as the span says.  A session of unknown length that is seeded from the final
    result of a five-frame track counts 64 samples in its only column, and once the host
    pushes the second column it publishes one span over 128 frames, although frame 5 was
    neither in the result nor pushed. *)
Theorem short_column_overstated :
  exists s, calls no_cell no_range new_session
      [call_seed always short_result; call_push always second_column; call_process always None no_budget] =
      Ret (s, [APTA_STATUS_OK; APTA_STATUS_OK; APTA_STATUS_OK]) /\
    column_samples s = [(0, 64); (1, 64)] /\ overview_claims s = [(0, 128)] /\ ~ accepted s 5.
Proof.
  exists overstated_session. split; [vm_compute; reflexivity|]. split; [vm_compute; reflexivity|].
  split; [vm_compute; reflexivity|]. rewrite <- accepts_spec.
  assert (E : accepts overstated_session 5 = false) by (vm_compute; reflexivity). by rewrite E.
Qed.

(** Seeding does not look at what is already accepted.  A host that seeds the same
    result twice gets no error, and the accepted table lists the frames twice. *)
Theorem reseeding_repeats_ranges :
  exists s, calls no_cell no_range new_session [call_seed always short_result; call_seed always short_result] =
      Ret (s, [APTA_STATUS_OK; APTA_STATUS_OK]) /\
    accepted_ranges (se_coverage s) = [{| r_first := 0; r_end := 5 |}; {| r_first := 0; r_end := 5 |}].
Proof. exists reseeded_session. split; vm_compute; reflexivity. Qed.
